(* ===== verification/_CoqProject ===== *)
-Q . S2P
Prelude.v
FacilityLedger.v
VaultLedger.v
Domain.v
Reconcile.v
Stdpy.v
Datetime.v
Json.v
JsonText.v
RpcClient.v
Session.v
JobQueue.v
Lifecycle.v
Abi.v
Decoders.v
TxIntents.v
Bitcoin.v
SpvProof.v
ApiSpv.v
Address.v
Columns.v
Projection.v
Indexer.v
Views.v
Ledger.v
Providers.v
Ingestion.v
Webhook.v
Mock.v
Control.v
Access.v
Login.v
Commands.v
ProofWorker.v
Receivables.v
CashEngine.v
ChainReader.v
ProofSubmission.v
Monitoring.v
Settlement.v
Assets.v
Links.v
Relayer.v
SpvRelayer.v
