(* ===== verification/Prelude.v ===== *)
(** * Rackline: a verified model of its off-chain core

    The repository lends stablecoins against two kinds of revenue: GPU rental
    income, observed at providers and proven to the chain, and Bitcoin mining
    payouts, proven by SPV.  This library models the Python core of both and
    proves what makes it correct.  Paths below are under src/offchain; [gpu/]
    abbreviates gpu/hashcredit_gpu/.

    ** The parts and their files

    Accounting (what the debt and the shares are worth):
    - [FacilityLedger]: gpu/accounting/reference.py, class FacilityLedger: rate
      segments, the interest accumulator, the repayment waterfall.
    - [VaultLedger]: the same file, class VaultLedger over the facility ledgers,
      and borrowing_base.
    - [Domain]: gpu/domain/: the enumerations and exact money.

    From an observation to allocated cash:
    - [Reconcile]: gpu/reconciliation/reference.py: the reference reconciler.
    - [Ledger], [Receivables], [CashEngine], [Settlement]: the production
      ledgers on the database: gpu/receivables/service.py,
      gpu/reconciliation/engine.py and gpu/settlement/legs.py.  [Ledger] holds
      the tables they share (gpu/db/ledgers.py).  A settlement leg is planned
      against a receivable's source receipt, sent by a job of the queue,
      acknowledged in a transaction of its own, and ends in a call of the cash
      engine.
    - [ChainReader]: gpu/reconciliation/chain_reader.py: the reader the cash
      engine trusts, from the journal's finalized logs, the transaction's
      calldata and the node's answers to a receipt and an allocation.
    - [Assets], with the column constraints in [Columns]: gpu/assets/: the
      registry of physical devices, encumbrances, eligibility, evidence.
    - [Links]: gpu/assets/entities.py: the links of provider accounts.
    - [Monitoring]: gpu/monitoring/service.py and alerts.py, and the pass and the
      watchdog of prover/hashcredit_prover/gpu/control_monitor.py.

    From a provider to an observation:
    - [Providers], [Mock]: gpu/providers/: observation types and their
      validators, admission gates, the mock adapter.
    - [Ingestion]: gpu/ingestion/collector.py, cursors.py, backfill.py,
      proof_candidates.py and requests.py, on the outbox and the queue.
      [honest] states what a stream's provider must do, [mock_honest] that the
      mock does it.
    - [Webhook]: gpu/ingestion/webhook.py, and one step relation over all of
      ingestion.

    Work and transactions:
    - [JobQueue]: gpu/jobs/queue.py and worker.py with the SQL lease function:
      the queue's database is the state that [Lifecycle], [TxIntents],
      [Settlement] and [Control] extend with tables of their own.
    - [Lifecycle]: gpu/jobs/outbox.py and proof.py.
    - [Control]: gpu/control/executor.py: approved writes to a provider, by a
      handler of the queue that acknowledges in a transaction of its own.
    - [Abi]: gpu/transactions/abi.py: Keccak-256, selectors, the purpose
      allowlist.
    - [TxIntents]: gpu/transactions/intents.py, nonce.py, dispatcher.py.
    - [RpcClient]: gpu/transactions/rpc.py: the endpoints a client may use, the
      retry of reads, and which answers it believes.

    The chain read back:
    - [Decoders]: gpu/projections/decoders.py: interface to decoded arguments.
    - [Projection]: gpu/projections/indexer.py, replay and its parts, and the
      pairing of repayment events (gpu/reconciliation/chain_reader.py).
    - [Indexer]: ChainIndexer.sync of the same file: it fills the journal,
      rolls it back, and runs [Projection.replay].
    - [Views]: gpu/projections/views.py and reconcile.py: contract views read at
      the finalized block and compared with the projections.

    Who may act, and what a person can do:
    - [JsonText], [Session]: json.loads, and the bearer tokens of
      api/hashcredit_api/gpu/auth/session.py on top of it and of SHA-256.
    - [Access], [Login]: auth/, permissions/, middleware.py, runtime.py and
      errors.py of the same API: roles, links, challenges and the rate limiter,
      each in memory and on the database, behind the classes [RoleRegistry],
      [OwnershipResolver] and [ChallengeStore]; login by EIP-712 signature, the
      live principal of a request, the guards.
    - [Commands]: product/commands.py: idempotent commands on the queue's
      database; retries of proof jobs meet [ProofWorker]'s cases.

    The proof worker:
    - [ProofWorker]: prover/hashcredit_prover/gpu/attestcoin_worker.py: the
      worker of [JobQueue] with reaping, dead letters and the preparation of
      proofs, on [Lifecycle]'s requests and outbox and [Commands]' cases.
    - [ProofSubmission]: the other handlers of the same file: submission,
      confirmation and consumption, on [TxIntents]' dispatcher, the contract
      views of [Views] and the rows of [Indexer].

    Bitcoin:
    - [Bitcoin], [SpvProof], [SpvRelayer]: prover/hashcredit_prover/bitcoin.py,
      proof_builder.py, watcher.py and relayer.py.
    - [ApiSpv], [Address]: api/hashcredit_api/proof.py and address.py, and the
      prover's address.py.
    - [Relayer]: relayer/hashcredit_relayer/: the older EIP-712 relayer.

    Shared: this file (exceptions, the monad of stateful Python code, proof
    automation, list lemmas), [Stdpy] (the standard library: JSON text,
    SHA-256, hex, int()), [Json] (dictionaries as the language treats them),
    [Datetime] (the calendar and the text of an instant).

    ** How the code is represented

    An expression that may raise is a [res]; a method that mutates an object,
    or a function that writes the database, is a [PyM S A]: state in, outcome
    and state out, with the state kept on [Raise] as Python keeps it.
    [transaction] restores the state on [Raise], as the database does; where the
    caller owns the transaction the definition is not wrapped.  A table is a
    [gmap] from its primary key, or a list where the code reads it in insertion
    order; CHECK clauses, unique keys, foreign keys and triggers are tests that
    raise [DatabaseError] at the statement that meets them.  Python integers are
    [Z]; where the code or a column bounds an integer the test is written out.
    Instants are microseconds.  Row and advisory locks are modelled by taking a
    call that holds them as one step; where two transactions can interleave
    (leases, the settlement handler's own commits, the outbox) the steps are
    separate and the theorems quantify over their order.

    What is not under src/ is an argument: RPC nodes, HTTP services, signers,
    eth_abi, the rail's adapter, the trusted cash reader.  A theorem states what
    it needs of them as a hypothesis, and its witness gives a concrete one.
    Hash functions the code relies on are the real ones (SHA-256 in [Stdpy],
    Keccak-256 in [Abi]); no theorem assumes them injective.

    ** What the theorems show

    - Accounting: [accrue_exact] (the segment loop computes the sum of simple
      interest, rounding once), [waterfall], [facility_wf_reachable];
      [vault_reachable] (cash pipeline and shares conserved in every reachable
      vault).
    - Reconciliation: [debt_backed_by_receipts] (debt falls only by received
      cash), [reconcile_order_independent], [cash_conserved].
    - Ledgers: [receivables_reachable]; [cash_reachable], [direct_cash_allocated]
      (the facts of the chain reader pass the cash engine); [legs_within_source],
      [cash_needs_destination]; also [late_revision_lost], [allocation_guard].
    - Assets: [registry_reachable], [links_reachable]; also [eligibility_exact].
    - Monitoring: also [review_lifecycle] (a pass opens one case per new finding and
      resolves only its own observability cases), [alerts_spaced].
    - Ingestion: [no_gap] (nothing dated up to the stored high-water mark is
      missing, whatever crashes and races), [ingest_reachable], [mock_honest];
      also [poll_refines] (a poll is a run of the interleaved system [no_gap] is
      about), [backfill_covers], [webhook_authentic], [webhook_replay],
      [cursor_roundtrip] and [mock_writes_once].
    - Jobs: [fencing], [run_one_atomic], [claim_progress],
      [outbox_at_least_once]; also [queue_wf_reachable], [proof_step_sound].
      [partner_calls_authorised] and [acknowledged_never_resent] of the handler
      that writes to providers.
    - Transactions: [intents_reachable], [no_mutation_resent] (a transaction is
      on the wire at most once); also [purpose_binding],
      [hash_never_lost], [reconcile_evidence], [broadcast_only_recorded].
    - Chain: [journal_reachable] and [finalized_kept] of the indexer, with
      [journal_complete]; [decode_sound]; [clean_report_agrees] (a report without
      discrepancies means the read models equal the contract views) and
      [reconciliation_never_corrects]; [canonical_facts] (a repayment is believed
      only from successful finalized logs the node still has); of the
      projections [shares_conserved],
      [legs_disjoint], [finalized_independent] and [reserve_conserved].
    - Bitcoin: [build_proof_sound], with [parse_outputs_exact], [merkle_proofs]
      and [api_accepts]; [pagination_complete], [at_most_one_claim].
    - Product API: [login_authentic] (a session is opened only for a signature
      of an unexpired challenge put for that wallet, and for each challenge at
      most once), [revoked_session_refused], [session_roundtrip];
      [command_once]; also [commands_bounded], [fresh_session_admitted],
      [rate_bounded], [roles_separated], [servicer_never_acts].
    - Proof worker: [failure_recorded] (a job is given up in the commit that
      publishes it); [acceptance_is_canonical] and [evidence_reachable] (a
      request is accepted only on what the finalized chain says of its own
      transaction, and no source or economic event is consumed twice); also
      [fetched_proof_kept], [retry_contract] (the published case and the product
      API agree on what can be retried), [reap_only_spent], [reap_progress],
      [other_deployments_untouched].

    The invariants are proved for every operation and for every sequence of
    calls, failed calls included.  Lemmas that prove a flaw of the code stand
    beside its definitions ([finality_regresses], [late_revision_lost],
    [lien_lost_by_rma], [encode_never], ...).

    ** Fuel

    Structural recursion is used wherever the Python loop runs over a value.
    The others carry fuel, with a lemma that the fuel given suffices:
    - [FacilityLedger.accrue_loop]: the number of rate segments, each turn ends
      one;
    - [Relayer.get_address_txs]: [pagination_complete] gives the number of pages;
    - [Assets]: the walk over parents of [collateral_units] is bounded by the
      number of assets;
    - [Indexer.find_ancestor]: the number of blocks from the deployment to the
      cursor ([find_ancestor_fuel]);
    - [Decoders.canonical_type]: the depth of the document ([canonical_type_fuel]);
    - [Bitcoin]: the bytes of the transaction, the leaves of the tree;
    - [JsonText.loads]: the length of the text ([loads_fuel]);
    - [Views.input_value], [Views.output_value]: the weight of the type's
      specification ([input_value_fuel], [output_value_fuel]);
    - [Ingestion.backfill_loop]: the windows of [backfill_covers];
      [Ingestion.turns] runs as many pages as its fuel: a provider may go on for
      ever, and a run that stops between two pages is one that died there.
    [OutOfFuel] is an exception of its own, so a run that reached it could not
    pass for one of the code's.

    ** Not modelled

    Of the product API: its read routes with their serialization, the planning
    of proofs, reads of contract views and log redaction, which change no state
    and end in RPC calls or response text.  The EVM and HTTP clients of the two relayers,
    command lines, process loops, configuration, and the one-off tools over a node
    and files are I/O or glue.  Migrations are not
    run as programs: a modelled operation meets their constraints and triggers.
    The Solidity contracts, the web applications and the vendored libraries are
    other code.  Timing, and a crash between two statements of one transaction,
    are outside the model: a transaction happens or does not. *)

From Stdlib Require Export ZArith Lia Bool String Ascii.
From stdpp Require Export base list strings gmap fin_maps sorting.
From coqutil Require Export Datatypes.RecordSettersUsingExistingGetters.

#[global] Open Scope Z_scope.

(** Record updates [r <| field := x |>] simplify away under [cbn]. *)
#[global] Arguments const {E} newValue _ /.

(** * Exceptions

    One constructor per exception class the modelled code raises; the message
    is the code's text. *)

Inductive exn_class :=
| KeyError | ValueError | LookupError | IndexError | TypeError
| ZeroDivisionError | OverflowError | AssertionError | PermissionError | AttributeError
| DatabaseError
| AccountingError
| LeaseLost | TransientError | TerminalError | ResumeRequiresReason
| IllegalIntentTransition | NoResultFound
| RpcTransportError | RpcError
| NotFound | Forbidden | InvalidState | NotOwnershipEvidence
| ReceivableError
| MissingCursorError | IngestionCrash | RateLimited | ExpiredData
| FinalizedReorg | TransientChainChange
| UnsupportedOperation | UnsupportedChainError | MalformedResponse | MissingUnit
| NotProductionAdmissible | NotNativeCapable | WebhookError | ValidationError | FileNotFoundError
| ApiError (status : Z) (code : string)
| ProofTransientFailure (outcome : string) | ProofTerminalFailure (outcome : string)
| OutOfFuel. (* not a Python exception: a loop of the model ran out of fuel *)

#[export] Instance exn_class_eq_dec : EqDecision exn_class.
Proof. solve_decision. Defined.

Record exn := Exn { exn_kind : exn_class; exn_msg : string }.

#[export] Instance exn_eq_dec : EqDecision exn.
Proof. solve_decision. Defined.

Inductive res (A : Type) :=
| Ok (a : A)
| Raise (e : exn).
Arguments Ok {A} a.
Arguments Raise {A} e.

#[export] Instance res_eq_dec {A} `{EqDecision A} : EqDecision (res A).
Proof. solve_decision. Defined.

(** [f(r)] when [r] did not raise. *)
Definition rbind {A B} (r : res A) (f : A -> res B) : res B :=
  match r with Ok a => f a | Raise e => Raise e end.

Lemma rbind_Ok {A B} (r : res A) (f : A -> res B) b :
  rbind r f = Ok b <-> exists a, r = Ok a /\ f a = Ok b.
Proof. destruct r; simpl; naive_solver. Qed.

(** [[f(x) for x in l]]: the first call that raises ends it. *)
Fixpoint map_res {A B} (f : A -> res B) (l : list A) : res (list B) :=
  match l with
  | [] => Ok []
  | x :: l' => rbind (f x) (fun y => rbind (map_res f l') (fun ys => Ok (y :: ys)))
  end.

Lemma map_res_Ok {A B} (f : A -> res B) l ys : map_res f l = Ok ys <-> Forall2 (fun x y => f x = Ok y) l ys.
Proof.
  revert ys. induction l as [|x l IH]; intros ys; cbn.
  - split; [intros [= <-]; constructor|]. by intros ->%Forall2_nil_inv_l.
  - rewrite rbind_Ok. split.
    + intros (y & Hy & (ys' & Hys & [= <-])%rbind_Ok). constructor; [done|]. by apply IH.
    + intros (y & ys' & Hy & Hys & ->)%Forall2_cons_inv_l. exists y. split; [done|].
      apply rbind_Ok. exists ys'. split; [by apply IH|done].
Qed.

Lemma map_res_Raise {A B} (f : A -> res B) l e : map_res f l = Raise e -> exists x, x ∈ l /\ f x = Raise e.
Proof.
  induction l as [|x l IH]; cbn; [done|]. destruct (f x) as [y|e'] eqn:Hx; cbn.
  - destruct (map_res f l); [done|]. intros H. destruct (IH H) as (z & Hz & Hf). exists z. split; [by right|done].
  - intros [= ->]. exists x. split; [by left|done].
Qed.

Lemma map_res_lookup {A B} (f : A -> res B) l ys i x :
  map_res f l = Ok ys -> l !! i = Some x -> exists y, ys !! i = Some y /\ f x = Ok y.
Proof. intros H%map_res_Ok Hx. by apply (Forall2_lookup_l _ _ _ _ _ H Hx). Qed.

Lemma map_res_length {A B} (f : A -> res B) l ys : map_res f l = Ok ys -> length ys = length l.
Proof. intros H%map_res_Ok. symmetry. by eapply Forall2_length. Qed.

Definition is_ok {A} (r : res A) : bool := if r is Ok _ then true else false.

(** * Stateful Python code

    A statement or method that mutates an object of type [S] and may raise is
    a function from the object to the outcome and the object afterwards.  The
    object is returned with [Raise] too: a Python mutation made before an
    exception stays.  [transaction] is the exception: a database transaction
    (the code's [with engine.begin()] block) restores the state. *)

Definition PyM (S A : Type) : Type := S -> res A * S.

Section PyM.
Context {S : Type}.

Definition ret {A} (a : A) : PyM S A := fun s => (Ok a, s).

Definition raise {A} (k : exn_class) (msg : string) : PyM S A :=
  fun s => (Raise (Exn k msg), s).

Definition bind {A B} (m : PyM S A) (f : A -> PyM S B) : PyM S B :=
  fun s => match m s with
           | (Ok a, s') => f a s'
           | (Raise e, s') => (Raise e, s')
           end.

Definition get : PyM S S := fun s => (Ok s, s).
Definition gets {A} (f : S -> A) : PyM S A := fun s => (Ok (f s), s).
Definition put (s : S) : PyM S unit := fun _ => (Ok tt, s).
Definition modify (f : S -> S) : PyM S unit := fun s => (Ok tt, f s).

(** [if not b: raise k(msg)] *)
Definition guard (b : bool) (k : exn_class) (msg : string) : PyM S unit :=
  if b then ret tt else raise k msg.

Definition lift_res {A} (r : res A) : PyM S A := fun s => (r, s).

(** [if b: m] *)
Definition when (b : bool) (m : PyM S unit) : PyM S unit :=
  if b then m else ret tt.

Definition transaction {A} (m : PyM S A) : PyM S A :=
  fun s => match m s with
           | (Ok a, s') => (Ok a, s')
           | (Raise e, _) => (Raise e, s)
           end.

(** [try: m except ...: h e]: [h] sees the state at the raise. *)
Definition try_except {A} (m : PyM S A) (h : exn -> PyM S A) : PyM S A :=
  fun s => match m s with
           | (Ok a, s') => (Ok a, s')
           | (Raise e, s') => h e s'
           end.

Fixpoint for_each {A} (l : list A) (f : A -> PyM S unit) : PyM S unit :=
  match l with
  | [] => ret tt
  | x :: l' => bind (f x) (fun _ => for_each l' f)
  end.
End PyM.

Declare Scope py_scope.
Delimit Scope py_scope with py.
Notation "'let*' x ':=' m 'in' k" := (bind m (fun x => k))
  (at level 10, x pattern, m at level 100, k at level 200,
   format "'[v' 'let*'  x  ':='  m  'in' '/' k ']'") : py_scope.
Notation "m ';;;' k" := (bind m (fun _ => k))
  (at level 199, right associativity, format "'[v' m ';;;' '/' k ']'") : py_scope.
#[global] Open Scope py_scope.

(** ** Equations and inversions of the monad *)

Section PyMLemmas.
Context {S : Type}.

Lemma bind_ret_l {A B} (a : A) (f : A -> PyM S B) s : bind (ret a) f s = f a s.
Proof. done. Qed.

Lemma bind_ret_r {A} (m : PyM S A) s : bind m ret s = m s.
Proof. unfold bind, ret. by destruct (m s) as [[]]. Qed.

Lemma bind_assoc {A B C} (m : PyM S A) (f : A -> PyM S B) (g : B -> PyM S C) s :
  bind (bind m f) g s = bind m (fun a => bind (f a) g) s.
Proof. unfold bind. by destruct (m s) as [[]]. Qed.

Lemma bind_Ok {A B} (m : PyM S A) (f : A -> PyM S B) s b s' :
  bind m f s = (Ok b, s') <-> exists a s1, m s = (Ok a, s1) /\ f a s1 = (Ok b, s').
Proof.
  unfold bind. split.
  - destruct (m s) as [[a|e] s1]; [eauto|done].
  - by intros (a & s1 & -> & ?).
Qed.

Lemma bind_Raise {A B} (m : PyM S A) (f : A -> PyM S B) s e s' :
  bind m f s = (Raise e, s') <->
  m s = (Raise e, s') \/ exists a s1, m s = (Ok a, s1) /\ f a s1 = (Raise e, s').
Proof.
  unfold bind. destruct (m s) as [[a|e1] s1]; split.
  - intros Hf. right. eauto.
  - intros [[=]|(a' & s2 & [= <- <-] & Hf)]. done.
  - intros [= -> ->]. by left.
  - intros [[= -> ->]|(a' & s2 & [=] & _)]. done.
Qed.

Lemma guard_Ok b k msg (s s' : S) u :
  guard b k msg s = (Ok u, s') <-> b = true /\ s' = s.
Proof.
  destruct b, u; unfold guard, ret, raise; split.
  - by intros [= ->].
  - by intros [_ ->].
  - done.
  - by intros [? _].
Qed.

Lemma guard_Raise b k msg (s s' : S) e :
  guard b k msg s = (Raise e, s') <-> b = false /\ e = Exn k msg /\ s' = s.
Proof.
  destruct b; unfold guard, ret, raise; split.
  - done.
  - by intros [? _].
  - by intros [= <- ->].
  - by intros (_ & -> & ->).
Qed.

Lemma modify_Ok f (s s' : S) u : modify f s = (Ok u, s') <-> s' = f s.
Proof. destruct u; unfold modify. naive_solver. Qed.

Lemma gets_Ok {A} (f : S -> A) (s s' : S) a : gets f s = (Ok a, s') <-> a = f s /\ s' = s.
Proof. unfold gets. naive_solver. Qed.

Lemma get_Ok (s s' a : S) : get s = (Ok a, s') <-> a = s /\ s' = s.
Proof. unfold get. naive_solver. Qed.

Lemma put_Ok (s s' t : S) u : put t s = (Ok u, s') <-> s' = t.
Proof. destruct u. unfold put. naive_solver. Qed.

Lemma ret_Ok {A} (a b : A) (s s' : S) : ret a s = (Ok b, s') <-> b = a /\ s' = s.
Proof. unfold ret. naive_solver. Qed.

(** A run whose outcome was computed. *)
Lemma run_Ok {A} (m : PyM S A) s a : (m s).1 = Ok a -> m s = (Ok a, (m s).2).
Proof. destruct (m s). by intros [= ->]. Qed.

Lemma transaction_Raise {A} (m : PyM S A) s e s' :
  transaction m s = (Raise e, s') -> s' = s.
Proof. unfold transaction. destruct (m s) as [[]]; congruence. Qed.

Lemma transaction_Ok {A} (m : PyM S A) s a s' :
  transaction m s = (Ok a, s') <-> m s = (Ok a, s').
Proof. unfold transaction. destruct (m s) as [[]]; naive_solver. Qed.

(** An invariant kept by every body is kept by the loop, on [Ok] and on [Raise]. *)
Lemma for_each_inv {A} (P : S -> Prop) (l : list A) (f : A -> PyM S unit) :
  (forall x s, x ∈ l -> P s -> P (snd (f x s))) ->
  forall s, P s -> P (snd (for_each l f s)).
Proof.
  induction l as [|x l IH]; intros Hf s Hs; [done|]. simpl. unfold bind.
  specialize (Hf x s (list_elem_of_here _ _) Hs) as Hx.
  destruct (f x s) as [[u|e] s1]; [|done]. apply IH; [|done].
  intros y t Hy. apply Hf. by apply list_elem_of_further.
Qed.
End PyMLemmas.

(** ** Relations every run of a statement keeps, returning or raising *)

Section Keeps.
Context {S : Type} (R : S -> S -> Prop) `{!PreOrder R}.

Definition keeps {A} (m : PyM S A) : Prop := forall s, R s (m s).2.

Lemma keeps_pure {A} (r : S -> res A) : keeps (fun s => (r s, s)).
Proof. intros s. reflexivity. Qed.

Lemma keeps_modify f : (forall s, R s (f s)) -> keeps (modify f).
Proof. done. Qed.

Lemma keeps_bind {A B} (m : PyM S A) (f : A -> PyM S B) : keeps m -> (forall a, keeps (f a)) -> keeps (bind m f).
Proof.
  intros Hm Hf s. unfold bind. specialize (Hm s). destruct (m s) as [[a|e] s1]; [|done].
  etransitivity; [exact Hm|apply Hf].
Qed.

Lemma keeps_try {A} (m : PyM S A) (h : exn -> PyM S A) : keeps m -> (forall e, keeps (h e)) -> keeps (try_except m h).
Proof.
  intros Hm Hh s. unfold try_except. specialize (Hm s). destruct (m s) as [[a|e] s1]; [done|].
  etransitivity; [exact Hm|apply Hh].
Qed.

Lemma keeps_transaction {A} (m : PyM S A) : keeps m -> keeps (transaction m).
Proof. intros Hm s. unfold transaction. specialize (Hm s). destruct (m s) as [[a|e] s1]; [done|reflexivity]. Qed.

Lemma keeps_for_each {A} (l : list A) (f : A -> PyM S unit) : (forall x, keeps (f x)) -> keeps (for_each l f).
Proof. intros Hf. induction l as [|x l IH]; [apply keeps_pure|]. apply keeps_bind; [apply Hf|by intros _]. Qed.

Lemma keeps_run {A} (m : PyM S A) s r s' : keeps m -> m s = (r, s') -> R s s'.
Proof. intros Hm H. specialize (Hm s). by rewrite H in Hm. Qed.
End Keeps.

(** Splits a goal [keeps R m] along the statements of [m]; the leaves are what
    [modify]s and the hypotheses or hints have to say. *)
Create HintDb keeps.
Ltac keeps_tac :=
  repeat first
    [ progress intros
    | solve [eauto with keeps]
    | apply keeps_bind
    | apply keeps_try
    | apply keeps_transaction
    | apply keeps_for_each
    | progress cbv zeta
    | match goal with
      | |- PreOrder _ => typeclasses eauto
      | |- keeps _ (lift_res _) => apply keeps_pure
      | |- keeps _ (ret _) => apply keeps_pure
      | |- keeps _ get => apply keeps_pure
      | |- keeps _ (gets _) => apply keeps_pure
      | |- keeps _ (raise _ _) => apply keeps_pure
      | |- keeps _ (guard ?b _ _) => unfold guard; destruct b
      | |- keeps _ (when ?b _) => unfold when; destruct b
      | |- keeps _ (modify _) => apply keeps_modify
      | |- keeps _ (if ?b then _ else _) => destruct b
      | |- keeps _ (match ?x with _ => _ end) => destruct x
      end ].

(** [py_inv H] takes a successful (or failed) run apart into the runs of its
    statements. *)
Ltac py_inv_step H :=
  lazymatch type of H with
  | bind _ _ _ = (Ok _, _) =>
      let a := fresh "a" in let s := fresh "s" in
      let H1 := fresh H in
      apply bind_Ok in H; destruct H as (a & s & H1 & H); py_inv_step H1; py_inv_step H
  | guard _ _ _ _ = (Ok _, _) => apply guard_Ok in H as [H ->]
  | modify _ _ = (Ok _, _) => apply modify_Ok in H as ->
  | gets _ _ = (Ok _, _) => apply gets_Ok in H as [-> ->]
  | ret _ _ = (Ok _, _) => apply ret_Ok in H as [? ->]
  | get _ = (Ok _, _) => apply get_Ok in H as [-> ->]
  | put _ _ = (Ok _, _) => apply put_Ok in H as ->
  | raise _ _ _ = (Ok _, _) => discriminate H
  | _ => idtac
  end.
Ltac py_inv H := py_inv_step H; simplify_eq/=.

(** A [datetime]: an instant in microseconds, with or without a time zone. *)
Inductive datetime := Aware (t : Z) | Naive (t : Z).

(** * Python integers and booleans *)

(** [a // b] on integers; the caller shows [b] is not 0 or uses [floordiv]. *)
Definition floordiv {S} (a b : Z) : PyM S Z :=
  if b =? 0 then raise ZeroDivisionError "integer division or modulo by zero" else ret (a / b).

(** [x in (...)] on strings *)
Definition mem_str (x : string) (l : list string) : bool := existsb (String.eqb x) l.

(** [bool(x)] of a string or [None] *)
Definition truthy (x : option string) : bool :=
  match x with Some s => negb (String.eqb s "") | None => false end.

(** [x or y] on strings *)
Definition or_else (x : option string) (y : string) : string :=
  match x with Some s => if String.eqb s "" then y else s | None => y end.

(** [d.get(k, 0)] on a dict of integers *)
Definition getz {K} `{Countable K} (k : K) (m : gmap K Z) : Z := default 0 (m !! k).

Lemma getz_insert_eq {K} `{Countable K} (k : K) x m : getz k (<[k := x]> m) = x.
Proof. unfold getz. by rewrite lookup_insert_eq. Qed.

Lemma getz_insert_ne {K} `{Countable K} (k j : K) x m : j <> k -> getz k (<[j := x]> m) = getz k m.
Proof. intros Hne. unfold getz. by rewrite lookup_insert_ne. Qed.

(** [(a << n) | b] for [0 <= b < 2**n] *)
Lemma lor_shiftl a b n : 0 <= n -> 0 <= b < 2 ^ n -> Z.lor (Z.shiftl a n) b = a * 2 ^ n + b.
Proof.
  intros Hn Hb. rewrite Z.shiftl_mul_pow2 by done. rewrite <- Z.add_lor_land.
  assert (Z.land (a * 2 ^ n) b = 0) as ->; [|lia]. apply Z.bits_inj'. intros m Hm.
  rewrite Z.land_spec, Z.bits_0. destruct (Z.lt_ge_cases m n) as [Hlt|Hge].
  - by rewrite Z.mul_pow2_bits_low.
  - rewrite andb_comm. rewrite <- (Z.mod_small b (2 ^ n)) by done. by rewrite Z.mod_pow2_bits_high.
Qed.

(** * Sums over dictionaries: [sum(f(v) for v in d.values())] *)

Section MapSum.
Context {K : Type} `{Countable K} {V : Type}.

Definition map_sum (f : K -> V -> Z) (m : gmap K V) : Z :=
  map_fold (fun k v acc => f k v + acc) 0 m.

Lemma map_sum_empty f : map_sum f ∅ = 0.
Proof. apply map_fold_empty. Qed.

Lemma map_sum_insert f m k v :
  m !! k = None -> map_sum f (<[k:=v]> m) = f k v + map_sum f m.
Proof. intros Hk. unfold map_sum. rewrite map_fold_insert_L; [done| |done]. lia. Qed.

Lemma map_sum_delete f m k v :
  m !! k = Some v -> map_sum f m = f k v + map_sum f (delete k m).
Proof.
  intros Hk. rewrite <- (insert_delete_id m k v) at 1 by done.
  apply map_sum_insert, lookup_delete_eq.
Qed.

Lemma map_sum_update f m k v v' :
  m !! k = Some v -> map_sum f (<[k:=v']> m) = map_sum f m - f k v + f k v'.
Proof.
  intros Hk. rewrite <- insert_delete_eq.
  rewrite map_sum_insert by apply lookup_delete_eq.
  rewrite (map_sum_delete f m k v Hk). lia.
Qed.

Lemma map_sum_ext f g m :
  (forall k v, m !! k = Some v -> f k v = g k v) -> map_sum f m = map_sum g m.
Proof.
  induction m as [|k v m Hk IH] using map_ind; intros Hfg; [done|].
  rewrite !map_sum_insert by done.
  rewrite (Hfg k v) by apply lookup_insert_eq. rewrite IH; [done|].
  intros k' v' Hk'. apply Hfg. rewrite lookup_insert_ne; [done|]. congruence.
Qed.

Lemma map_sum_nonneg f m :
  (forall k v, m !! k = Some v -> 0 <= f k v) -> 0 <= map_sum f m.
Proof.
  induction m as [|k v m Hk IH] using map_ind; intros Hf; [done|].
  rewrite map_sum_insert by done.
  assert (0 <= f k v) by (apply Hf, lookup_insert_eq).
  assert (0 <= map_sum f m); [|lia]. apply IH.
  intros k' v' Hk'. apply Hf. rewrite lookup_insert_ne; [done|]. congruence.
Qed.

Lemma map_sum_le f g m :
  (forall k v, m !! k = Some v -> f k v <= g k v) -> map_sum f m <= map_sum g m.
Proof.
  induction m as [|k v m Hk IH] using map_ind; intros Hfg; [done|].
  rewrite !map_sum_insert by done.
  assert (f k v <= g k v) by (apply Hfg, lookup_insert_eq).
  assert (map_sum f m <= map_sum g m); [|lia]. apply IH.
  intros k' v' Hk'. apply Hfg. rewrite lookup_insert_ne; [done|]. congruence.
Qed.
End MapSum.

(** * [list.sort(key=...)]: a stable sort on an integer key *)

Section StableSort.
Context {A : Type} (key : A -> Z).

Fixpoint sort_insert (x : A) (l : list A) : list A :=
  match l with
  | [] => [x]
  | y :: l' => if key x <=? key y then x :: y :: l' else y :: sort_insert x l'
  end.

Definition sort_by (l : list A) : list A := foldr sort_insert [] l.

Definition key_le (x y : A) : Prop := key x <= key y.

Lemma sort_insert_perm x l : sort_insert x l ≡ₚ x :: l.
Proof.
  induction l as [|y l IH]; simpl; [done|].
  destruct (key x <=? key y); [done|]. rewrite IH. apply Permutation_swap.
Qed.

Lemma sort_by_perm l : sort_by l ≡ₚ l.
Proof. induction l as [|x l IH]; simpl; [done|]. by rewrite sort_insert_perm, IH. Qed.

Lemma sort_insert_sorted x l :
  StronglySorted key_le l -> StronglySorted key_le (sort_insert x l).
Proof.
  induction 1 as [|y l Hl IH Hy]; simpl; [by repeat constructor|].
  destruct (Z.leb_spec (key x) (key y)) as [Hxy|Hxy].
  - constructor; [by constructor|]. constructor; [done|].
    eapply Forall_impl; [exact Hy|]. unfold key_le. simpl. lia.
  - constructor; [done|]. rewrite sort_insert_perm. constructor; [|done].
    unfold key_le. lia.
Qed.

Lemma sort_by_sorted l : StronglySorted key_le (sort_by l).
Proof. induction l; simpl; [constructor|]. by apply sort_insert_sorted. Qed.
End StableSort.

(** [sorted] under a total preorder given as a boolean. *)
Section ISort.
Context {A : Type} (leb : A -> A -> bool).

Fixpoint isert (x : A) (l : list A) : list A :=
  match l with
  | [] => [x]
  | y :: l' => if leb x y then x :: y :: l' else y :: isert x l'
  end.

Definition isort (l : list A) : list A := foldr isert [] l.

Lemma isert_perm x l : isert x l ≡ₚ x :: l.
Proof.
  induction l as [|y l IH]; simpl; [done|].
  destruct (leb x y); [done|]. rewrite IH. apply Permutation_swap.
Qed.

Lemma isort_perm l : isort l ≡ₚ l.
Proof. induction l as [|x l IH]; simpl; [done|]. by rewrite isert_perm, IH. Qed.

Hypothesis leb_total : forall x y, leb x y = false -> leb y x = true.
Hypothesis leb_trans : forall x y z, leb x y = true -> leb y z = true -> leb x z = true.

Lemma isort_sorted l : StronglySorted (fun x y => leb x y = true) (isort l).
Proof.
  induction l as [|x l IH]; simpl; [constructor|].
  induction IH as [|y l' Hl IHl Hy]; simpl; [by repeat constructor|].
  destruct (leb x y) eqn:Hxy.
  - constructor; [by constructor|]. constructor; [done|].
    eapply Forall_impl; [exact Hy|]. intros z Hz. by eapply leb_trans.
  - constructor; [done|]. rewrite isert_perm. constructor; [by apply leb_total|done].
Qed.

(** The result does not depend on the input order when no two elements tie. *)
Lemma isort_unique l l' :
  l ≡ₚ l' -> (forall x y, x ∈ l -> y ∈ l -> leb x y = true -> leb y x = true -> x = y) ->
  isort l = isort l'.
Proof.
  intros Hp Hanti. eapply StronglySorted_unique_strong; [|apply isort_sorted|apply isort_sorted|].
  - intros x y Hx Hy. rewrite isort_perm in Hx. rewrite isort_perm, <- Hp in Hy. by apply Hanti.
  - by rewrite !isort_perm.
Qed.
End ISort.

(** ** Strings in code-point order *)

Lemma str_leb_total a b : String.leb a b = false -> String.leb b a = true.
Proof. destruct (String.leb_total a b); congruence. Qed.

Lemma str_leb_trans a b c : String.leb a b = true -> String.leb b c = true -> String.leb a c = true.
Proof.
  intros Hab Hbc. apply Is_true_eq_true.
  apply (PreOrder_Transitive (R:=String.le) a b c); by apply Is_true_eq_left.
Qed.

Lemma str_leb_refl a : String.leb a a = true.
Proof. by destruct (String.leb_total a a). Qed.

Lemma NoDup_fmap_inj {A B} (f : A -> B) (l : list A) x y :
  NoDup (f <$> l) -> x ∈ l -> y ∈ l -> f x = f y -> x = y.
Proof.
  induction l as [|z l IH]; [by intros _ Hx%elem_of_nil|]. cbn. intros [Hz Hnd]%NoDup_cons Hx Hy Hf.
  apply elem_of_cons in Hx as [->|Hx]; apply elem_of_cons in Hy as [->|Hy]; [done| | |by apply IH].
  - destruct Hz. rewrite Hf. by apply list_elem_of_fmap_2.
  - destruct Hz. rewrite <- Hf. by apply list_elem_of_fmap_2.
Qed.

Lemma sort_insert_min {A} (key : A -> Z) x l :
  Forall (fun y => key x <= key y) l -> sort_insert key x l = x :: l.
Proof.
  destruct l as [|y l]; [done|]. intros [Hy _]%Forall_cons. simpl.
  by destruct (Z.leb_spec (key x) (key y)); [|lia].
Qed.

Lemma sort_by_id {A} (key : A -> Z) l : StronglySorted (key_le key) l -> sort_by key l = l.
Proof.
  induction 1 as [|x l Hl IH Hx]; [done|]. simpl. rewrite IH. by apply sort_insert_min.
Qed.

Lemma filter_cons_bool {A} (p : A -> bool) x (l : list A) :
  filter (fun y => p y) (x :: l)
  = if p x then x :: filter (fun y => p y) l else filter (fun y => p y) l.
Proof. rewrite filter_cons. case_decide as Hp; destruct (p x); done. Qed.

Lemma StronglySorted_filter {A} (R : A -> A -> Prop) (P : A -> Prop) `{!forall x, Decision (P x)} l :
  StronglySorted R l -> StronglySorted R (filter P l).
Proof.
  induction 1 as [|x l Hl IH Hx]; [constructor|]. rewrite filter_cons.
  case_decide; [|done]. constructor; [done|]. apply Forall_forall.
  intros y [_ Hy]%list_elem_of_filter. rewrite Forall_forall in Hx. by apply Hx.
Qed.

Lemma StronglySorted_snoc {A} (R : A -> A -> Prop) l x :
  StronglySorted R l -> Forall (fun y => R y x) l -> StronglySorted R (l ++ [x]).
Proof.
  induction 1 as [|y l Hl IH Hy]; intros Hx; simpl; [by repeat constructor|].
  apply Forall_cons in Hx as [? Hx]. constructor; [by apply IH|].
  apply Forall_app. split; [done|]. by constructor.
Qed.

(** * Sums that may raise: [sum(f(v) for v in d.values())] where [f] may raise *)

Section SumRes.
Context {A : Type}.

Fixpoint sum_res (f : A -> res Z) (l : list A) : res Z :=
  match l with
  | [] => Ok 0
  | x :: l' =>
      match f x, sum_res f l' with
      | Ok a, Ok b => Ok (a + b)
      | Raise e, _ => Raise e
      | _, Raise e => Raise e
      end
  end.

Definition sumz (l : list Z) : Z := foldr Z.add 0 l.

Lemma sum_res_ok f g l :
  (forall x, x ∈ l -> f x = Ok (g x)) -> sum_res f l = Ok (sumz (g <$> l)).
Proof.
  induction l as [|x l IH]; intros Hfg; [done|]. simpl.
  rewrite (Hfg x) by apply list_elem_of_here. rewrite IH; [done|].
  intros y Hy. apply Hfg. by apply list_elem_of_further.
Qed.
End SumRes.

Lemma sumz_app l1 l2 : sumz (l1 ++ l2) = sumz l1 + sumz l2.
Proof. induction l1 as [|x l IH]; simpl; [done|]. unfold sumz in *. simpl. lia. Qed.

Lemma map_sum_list {K} `{Countable K} {V} (f : K -> V -> Z) (m : gmap K V) :
  map_sum f m = sumz ((fun kv => f kv.1 kv.2) <$> map_to_list m).
Proof.
  unfold map_sum. rewrite map_fold_foldr. unfold sumz.
  induction (map_to_list m) as [|[k v] l IH]; [done|]. cbn. by rewrite IH.
Qed.

Lemma map_sum_res {K} `{Countable K} {V} (f : K * V -> res Z) g (m : gmap K V) :
  (forall k v, m !! k = Some v -> f (k, v) = Ok (g k v)) ->
  sum_res f (map_to_list m) = Ok (map_sum g m).
Proof.
  intros Hfg. rewrite map_sum_list. apply sum_res_ok.
  intros [k v] Hkv%elem_of_map_to_list. by apply Hfg.
Qed.
