(* ===== verification/FacilityLedger.v ===== *)
(** The facility ledger of the accounting reference model: terms, forward-only
    rate segments, the interest accumulator, and the repayment waterfall.

    Source: offchain/gpu/hashcredit_gpu/accounting/reference.py, classes [Terms],
    [RateSegment] and [FacilityLedger].  The class's methods mutate one object,
    so each is a [PyM FacilityLedger] computation; [raise] leaves the mutations
    made before it. *)

From S2P Require Import Prelude.

Module Facility.

(** Models [accounting/reference.py], lines 23-25. *)
Definition BPS : Z := 10000.
Definition YEAR : Z := 365 * 86400.
Definition DENOM : Z := BPS * YEAR.

(** Models [accounting/reference.py], [Terms]. *)
Record Terms := {
  rate_bps : Z;
  capitalize_unpaid_interest : bool;
  test_only : bool;
}.

(** Models [accounting/reference.py], [RateSegment]. *)
Record RateSegment := {
  start : Z; (* unix seconds, inclusive *)
  seg_rate_bps : Z;
}.

(** The dict [allocate_repayment] returns. *)
Record Alloc := {
  a_fees : Z;
  a_interest : Z;
  a_principal : Z;
  a_excess : Z;
}.

(** The dicts appended to [history]. *)
Inductive HistoryEntry :=
| HSetRate (at_ rate : Z)
| HBorrow (at_ amount : Z)
| HFee (at_ amount : Z)
| HRepay (at_ : Z) (alloc : Alloc).

(** Models [accounting/reference.py], lines 48-62, the fields of [FacilityLedger]. *)
Record FacilityLedger := {
  facility_id : string;
  terms : Terms;
  opened_at : Z;
  principal : Z;
  fees : Z;
  interest_accum : Z; (* sum of principal * rate_bps * seconds *)
  last_accrual_at : Z;
  segments : list RateSegment;
  written_off_principal : Z;
  written_off_interest : Z;
  impaired : bool;
  accrual_frozen : bool;
  history : list HistoryEntry;
}.

(** Models [accounting/reference.py], [FacilityLedger.__post_init__]: the
    constructor call [FacilityLedger(facility_id, terms, opened_at)] with every
    other field defaulted, then [__post_init__]. *)
Definition new (fid : string) (tm : Terms) (at_ : Z) : FacilityLedger := {|
  facility_id := fid;
  terms := tm;
  opened_at := at_;
  principal := 0;
  fees := 0;
  interest_accum := 0;
  last_accrual_at := at_;
  segments := [{| start := at_; seg_rate_bps := rate_bps tm |}];
  written_off_principal := 0;
  written_off_interest := 0;
  impaired := false;
  accrual_frozen := false;
  history := [];
|}.

(** Models [accounting/reference.py], [FacilityLedger.unpaid_interest]. *)
Definition unpaid_interest (f : FacilityLedger) : Z := interest_accum f / DENOM.

(** Models [accounting/reference.py], [FacilityLedger.legal_debt]. *)
Definition legal_debt (f : FacilityLedger) : Z := principal f + unpaid_interest f + fees f.

(** The loop of [current_rate] over the segments, from a starting rate. *)
Definition rate_from (segs : list RateSegment) (at_ : Z) (rate : Z) : Z :=
  fold_left (fun r seg => if start seg <=? at_ then seg_rate_bps seg else r) segs rate.

(** Models [accounting/reference.py], [FacilityLedger.current_rate]. *)
Definition current_rate (segs : list RateSegment) (at_ : Z) : res Z :=
  match segs with
  | [] => Raise (Exn IndexError "list index out of range")
  | seg0 :: _ => Ok (rate_from segs at_ (seg_rate_bps seg0))
  end.

(** Models [accounting/reference.py], lines 112-116: the next segment start
    strictly between [t] and the bound, or the bound. *)
Definition next_boundary (segs : list RateSegment) (t to_ts : Z) : Z :=
  fold_left (fun nxt seg => if (t <? start seg) && (start seg <? nxt) then start seg else nxt)
            segs to_ts.

(** Models [accounting/reference.py], lines 110-118: the [while t < to_ts] loop
    of [accrue]; [unpaid_interest_at] runs the same loop on a local copy.
    [accrue_fuel] below is enough fuel for every call ([accrue_loop_spec]). *)
Fixpoint accrue_loop (fuel : nat) (segs : list RateSegment) (prin t to_ts accum : Z) : res Z :=
  if t <? to_ts then
    match fuel with
    | O => Raise (Exn OutOfFuel "accrue_loop")
    | S fuel' =>
        match current_rate segs t with
        | Raise e => Raise e
        | Ok rate =>
            let nxt := next_boundary segs t to_ts in
            accrue_loop fuel' segs prin nxt to_ts (accum + prin * rate * (nxt - t))
        end
    end
  else Ok accum.

Definition accrue_fuel (segs : list RateSegment) : nat := S (length segs).

(** Models [accounting/reference.py], [FacilityLedger.unpaid_interest_at]. *)
Definition unpaid_interest_at (f : FacilityLedger) (at_ : Z) : res Z :=
  if accrual_frozen f || (at_ <=? last_accrual_at f) then Ok (unpaid_interest f)
  else
    match accrue_loop (accrue_fuel (segments f)) (segments f) (principal f)
            (last_accrual_at f) at_ (interest_accum f) with
    | Ok accum => Ok (accum / DENOM)
    | Raise e => Raise e
    end.

(** Models [accounting/reference.py], [FacilityLedger.accrue]. *)
Definition accrue (to_ts : Z) : PyM FacilityLedger unit :=
  let* f := get in
  if to_ts <? last_accrual_at f then raise AccountingError "accrual cannot go backwards"
  else if accrual_frozen f then modify (fun f => f <| last_accrual_at := to_ts |>)
  else
    let* accum := lift_res (accrue_loop (accrue_fuel (segments f)) (segments f) (principal f)
                              (last_accrual_at f) to_ts (interest_accum f)) in
    modify (fun f => f <| interest_accum := accum |> <| last_accrual_at := to_ts |>).

(** Models [accounting/reference.py], [FacilityLedger.set_rate]. *)
Definition set_rate (at_ rate : Z) : PyM FacilityLedger unit :=
  accrue at_ ;;;
  let* f := get in
  when (existsb (fun seg => start seg =? at_) (segments f))
    (modify (fun f => f <| segments ::= filter (fun seg => start seg <> at_) |>)) ;;;
  modify (fun f => f <| segments ::= fun l => l ++ [{| start := at_; seg_rate_bps := rate |}] |>) ;;;
  modify (fun f => f <| segments ::= sort_by start |>) ;;;
  modify (fun f => f <| history ::= fun h => h ++ [HSetRate at_ rate] |>).

(** Models [accounting/reference.py], [FacilityLedger.borrow]. *)
Definition borrow (at_ amount : Z) : PyM FacilityLedger unit :=
  if amount <=? 0 then raise AccountingError "amount must be positive"
  else
    accrue at_ ;;;
    let* f := get in
    when (capitalize_unpaid_interest (terms f))
      (let* cap := gets unpaid_interest in
       modify (fun f => f <| principal ::= fun p => p + cap |>) ;;;
       modify (fun f => f <| interest_accum ::= fun a => a - cap * DENOM |>)) ;;;
    modify (fun f => f <| principal ::= fun p => p + amount |>) ;;;
    modify (fun f => f <| history ::= fun h => h ++ [HBorrow at_ amount] |>).

(** Models [accounting/reference.py], [FacilityLedger.charge_fee]. *)
Definition charge_fee (at_ amount : Z) : PyM FacilityLedger unit :=
  accrue at_ ;;;
  modify (fun f => f <| fees ::= fun x => x + amount |>) ;;;
  modify (fun f => f <| history ::= fun h => h ++ [HFee at_ amount] |>).

(** Models [accounting/reference.py], [FacilityLedger.allocate_repayment]. *)
Definition allocate_repayment (at_ amount : Z) : PyM FacilityLedger Alloc :=
  if amount <=? 0 then raise AccountingError "amount must be positive"
  else
    accrue at_ ;;;
    let remaining0 := amount in
    let* f := get in
    let fee := Z.min remaining0 (fees f) in
    modify (fun f => f <| fees ::= fun x => x - fee |>) ;;;
    let remaining1 := remaining0 - fee in
    let* f := get in
    let interest := Z.min remaining1 (unpaid_interest f) in
    modify (fun f => f <| interest_accum ::= fun a => a - interest * DENOM |>) ;;;
    let remaining2 := remaining1 - interest in
    let* f := get in
    let prin := Z.min remaining2 (principal f) in
    modify (fun f => f <| principal ::= fun p => p - prin |>) ;;;
    let remaining3 := remaining2 - prin in
    let alloc := {| a_fees := fee; a_interest := interest; a_principal := prin;
                    a_excess := remaining3 |} in
    modify (fun f => f <| history ::= fun h => h ++ [HRepay at_ alloc] |>) ;;;
    ret alloc.


(** * The accrual loop against a per-second reference *)

(** The rate in force at second [t]. *)
Definition rate_at (segs : list RateSegment) (t : Z) : Z :=
  match segs with
  | [] => 0
  | seg0 :: _ => rate_from segs t (seg_rate_bps seg0)
  end.

(** Reference definition: interest numerator earned second by second over
    [n] seconds from [t]. *)
Fixpoint accrued_per_second (segs : list RateSegment) (prin t : Z) (n : nat) : Z :=
  match n with
  | O => 0
  | S n' => prin * rate_at segs t + accrued_per_second segs prin (t + 1) n'
  end.

Lemma current_rate_nonempty segs t : segs <> [] -> current_rate segs t = Ok (rate_at segs t).
Proof. by destruct segs. Qed.

Lemma rate_from_ext segs t u r :
  (forall seg, seg ∈ segs -> (start seg <= t <-> start seg <= u)) ->
  rate_from segs t r = rate_from segs u r.
Proof.
  unfold rate_from. revert r. induction segs as [|seg segs IH]; intros r Hseg; [done|].
  simpl. replace (start seg <=? u) with (start seg <=? t).
  - apply IH. intros seg' Hs. apply Hseg. by apply list_elem_of_further.
  - specialize (Hseg seg (list_elem_of_here _ _)). lia.
Qed.

Lemma rate_at_ext segs t u :
  (forall seg, seg ∈ segs -> (start seg <= t <-> start seg <= u)) ->
  rate_at segs t = rate_at segs u.
Proof. destruct segs; [done|]. apply rate_from_ext. Qed.

(** What the boundary loop computes: the least segment start after [t] and
    below the bound, or the bound. *)
Lemma next_boundary_spec segs t to_ts :
  t < to_ts ->
  let nb := next_boundary segs t to_ts in
  t < nb <= to_ts
  /\ (forall seg, seg ∈ segs -> t < start seg -> nb <= start seg)
  /\ (nb = to_ts \/ exists seg, seg ∈ segs /\ start seg = nb).
Proof.
  unfold next_boundary. revert to_ts. induction segs as [|seg segs IH]; intros to_ts Hlt; simpl.
  - split; [lia|]. split; [|by left]. intros seg Hs. by apply not_elem_of_nil in Hs.
  - destruct ((t <? start seg) && (start seg <? to_ts)) eqn:E.
    + destruct (IH (start seg)) as (Hb & Hmin & Hor); [lia|].
      split; [lia|]. split.
      * intros seg' [->|Hs]%elem_of_cons Ht; [lia|]. by apply Hmin.
      * right. destruct Hor as [->|(seg' & Hs & <-)]; [exists seg|exists seg']; set_solver.
    + destruct (IH to_ts) as (Hb & Hmin & Hor); [lia|].
      split; [lia|]. split.
      * intros seg' [->|Hs]%elem_of_cons Ht; [lia|]. by apply Hmin.
      * destruct Hor as [?|(seg' & Hs & ?)]; [by left|]. right. exists seg'. set_solver.
Qed.

Lemma accrued_per_second_split segs prin t n m :
  accrued_per_second segs prin t (n + m)
  = accrued_per_second segs prin t n + accrued_per_second segs prin (t + Z.of_nat n) m.
Proof.
  revert t. induction n as [|n IH]; intros t; simpl; [by rewrite Z.add_0_r|].
  rewrite IH. replace (t + Z.of_nat (S n)) with (t + 1 + Z.of_nat n) by lia. lia.
Qed.

Lemma accrued_per_second_const segs prin t n :
  (forall u, t <= u < t + Z.of_nat n -> rate_at segs u = rate_at segs t) ->
  accrued_per_second segs prin t n = prin * rate_at segs t * Z.of_nat n.
Proof.
  revert t. induction n as [|n IH]; intros t Hc; simpl; [lia|].
  destruct n as [|n].
  - simpl. lia.
  - rewrite IH; [|intros u Hu; rewrite (Hc u), (Hc (t + 1)) by lia; done].
    rewrite (Hc (t + 1)) by lia. nia.
Qed.

(** Segment starts still ahead of [t]: the measure of the loop. *)
Definition starts_after (segs : list RateSegment) (t : Z) : nat :=
  length (filter (fun seg => t < start seg) segs).

Lemma starts_after_le segs t : (starts_after segs t <= length segs)%nat.
Proof. apply length_filter. Qed.

Lemma starts_after_decr segs t u seg :
  t < u -> seg ∈ segs -> start seg = u -> (starts_after segs u < starts_after segs t)%nat.
Proof.
  unfold starts_after. intros Htu. induction segs as [|s segs IH]; [by intros ?%not_elem_of_nil|].
  assert (Hmono : (length (filter (fun seg => (u < start seg)%Z) segs)
          <= length (filter (fun seg => (t < start seg)%Z) segs))%nat).
  { clear -Htu. induction segs as [|s segs IH]; [done|].
    rewrite !filter_cons. repeat case_decide; simpl; lia. }
  rewrite !filter_cons. intros [->|Hin]%elem_of_cons Hu.
  - repeat case_decide; simpl; lia.
  - specialize (IH Hin Hu). repeat case_decide; simpl; lia.
Qed.

Lemma accrue_loop_correct fuel segs prin t to_ts accum :
  segs <> [] -> t <= to_ts -> (starts_after segs t < fuel)%nat ->
  accrue_loop fuel segs prin t to_ts accum
  = Ok (accum + accrued_per_second segs prin t (Z.to_nat (to_ts - t))).
Proof.
  intros Hne. revert t accum. induction fuel as [|fuel IH]; intros t accum Hle Hf; [lia|].
  simpl. destruct (Z.ltb_spec t to_ts) as [Hlt|Hge]; last first.
  { replace (to_ts - t) with 0 by lia. simpl. by rewrite Z.add_0_r. }
  rewrite current_rate_nonempty by done.
  destruct (next_boundary_spec segs t to_ts Hlt) as (Hb & Hmin & Hor).
  set (nb := next_boundary segs t to_ts) in *.
  assert (Hstep : accrued_per_second segs prin t (Z.to_nat (nb - t))
                  = prin * rate_at segs t * (nb - t)).
  { rewrite accrued_per_second_const; [rewrite Z2Nat.id by lia; done|].
    intros u Hu. apply rate_at_ext. intros seg Hs. split; [|lia].
    intros Hsu. destruct (Z.le_gt_cases (start seg) t) as [|Hgt]; [done|].
    specialize (Hmin seg Hs ltac:(lia)). lia. }
  destruct (Z.eq_dec nb to_ts) as [->|Hneq].
  - destruct fuel; simpl; rewrite Z.ltb_irrefl, Hstep; done.
  - destruct Hor as [?|(seg & Hs & Hsn)]; [done|].
    rewrite IH; [|lia|].
    + replace (Z.to_nat (to_ts - t)) with (Z.to_nat (nb - t) + Z.to_nat (to_ts - nb))%nat by lia.
      rewrite accrued_per_second_split, Hstep.
      replace (t + Z.of_nat (Z.to_nat (nb - t))) with nb by lia. f_equal. lia.
    + pose proof (starts_after_decr segs t nb seg ltac:(lia) Hs Hsn). lia.
Qed.

Lemma accrue_loop_run segs prin t to_ts accum :
  segs <> [] -> t <= to_ts ->
  accrue_loop (accrue_fuel segs) segs prin t to_ts accum
  = Ok (accum + accrued_per_second segs prin t (Z.to_nat (to_ts - t))).
Proof.
  intros Hne Hle. apply accrue_loop_correct; [done..|].
  unfold accrue_fuel. pose proof (starts_after_le segs t). lia.
Qed.

(** * Well-formed ledgers *)

Definition seg_lt (a b : RateSegment) : Prop := start a < start b.

Record wf (f : FacilityLedger) : Prop := {
  wf_first : exists rate rest,
    segments f = {| start := opened_at f; seg_rate_bps := rate |} :: rest;
  wf_sorted : StronglySorted seg_lt (segments f);
  wf_past : Forall (fun seg => start seg <= last_accrual_at f) (segments f);
  wf_rates : Forall (fun seg => 0 <= seg_rate_bps seg) (segments f);
  wf_principal : 0 <= principal f;
  wf_fees : 0 <= fees f;
  wf_accum : 0 <= interest_accum f;
}.

Lemma wf_nonempty f : wf f -> segments f <> [].
Proof. by intros [(rate & rest & ->)]. Qed.

(** The ledger after accruing to [to_ts], in closed form. *)
Definition accrued (f : FacilityLedger) (to_ts : Z) : FacilityLedger :=
  if accrual_frozen f then f <| last_accrual_at := to_ts |>
  else f <| interest_accum ::= fun a =>
               a + accrued_per_second (segments f) (principal f) (last_accrual_at f)
                     (Z.to_nat (to_ts - last_accrual_at f)) |>
         <| last_accrual_at := to_ts |>.

Lemma accrue_run f to_ts :
  segments f <> [] -> last_accrual_at f <= to_ts ->
  accrue to_ts f = (Ok tt, accrued f to_ts).
Proof.
  intros Hne Hle. unfold accrue, accrued, bind, get.
  destruct (Z.ltb_spec to_ts (last_accrual_at f)); [lia|].
  destruct (accrual_frozen f) eqn:Hfr; [done|].
  unfold lift_res. by rewrite accrue_loop_run.
Qed.

Lemma accrue_backwards f to_ts :
  to_ts < last_accrual_at f ->
  accrue to_ts f = (Raise (Exn AccountingError "accrual cannot go backwards"), f).
Proof. intros Hlt. unfold accrue, bind, get. by destruct (Z.ltb_spec to_ts (last_accrual_at f)); [|lia]. Qed.

(** Either [accrue] raises and changes nothing, or it is [accrued]. *)
Lemma accrue_cases f to_ts :
  segments f <> [] ->
  (last_accrual_at f <= to_ts /\ accrue to_ts f = (Ok tt, accrued f to_ts))
  \/ (to_ts < last_accrual_at f /\ exists e, accrue to_ts f = (Raise e, f)).
Proof.
  intros Hne. destruct (Z.le_gt_cases (last_accrual_at f) to_ts) as [Hle|Hlt].
  - left. split; [done|]. by apply accrue_run.
  - right. split; [done|]. eexists. by apply accrue_backwards.
Qed.

Section AccruedFields.
Context (f : FacilityLedger) (to_ts : Z).

Ltac accrued_field := unfold accrued; destruct (accrual_frozen f) eqn:Hfr; first [done | cbn; congruence].

Lemma accrued_principal : principal (accrued f to_ts) = principal f.
Proof. accrued_field. Qed.
Lemma accrued_fees : fees (accrued f to_ts) = fees f.
Proof. accrued_field. Qed.
Lemma accrued_segments : segments (accrued f to_ts) = segments f.
Proof. accrued_field. Qed.
Lemma accrued_last : last_accrual_at (accrued f to_ts) = to_ts.
Proof. accrued_field. Qed.
Lemma accrued_terms : terms (accrued f to_ts) = terms f.
Proof. accrued_field. Qed.
Lemma accrued_opened : opened_at (accrued f to_ts) = opened_at f.
Proof. accrued_field. Qed.
Lemma accrued_impaired : impaired (accrued f to_ts) = impaired f.
Proof. accrued_field. Qed.
Lemma accrued_frozen : accrual_frozen (accrued f to_ts) = accrual_frozen f.
Proof. accrued_field. Qed.
Lemma accrued_written_off :
  written_off_principal (accrued f to_ts) = written_off_principal f
  /\ written_off_interest (accrued f to_ts) = written_off_interest f.
Proof. unfold accrued. by destruct (accrual_frozen f). Qed.
End AccruedFields.

Create HintDb facility.
Create Rewrite HintDb facility.
#[export] Hint Rewrite accrued_principal accrued_fees accrued_segments accrued_last
  accrued_terms accrued_opened accrued_impaired accrued_frozen : facility.

Lemma rate_from_nonneg segs t r :
  Forall (fun seg => 0 <= seg_rate_bps seg) segs -> 0 <= r -> 0 <= rate_from segs t r.
Proof.
  unfold rate_from. revert r. induction segs as [|s segs IH]; intros r Hs Hr; [done|].
  apply Forall_cons in Hs as [Hs Hss]. simpl. apply IH; [done|]. by destruct (start s <=? t).
Qed.

Lemma rate_at_nonneg segs t :
  Forall (fun seg => 0 <= seg_rate_bps seg) segs -> 0 <= rate_at segs t.
Proof.
  intros Hs. destruct segs as [|s segs]; [done|]. apply rate_from_nonneg; [done|].
  by apply Forall_cons in Hs as [? _].
Qed.

Lemma accrued_per_second_nonneg segs prin t n :
  Forall (fun seg => 0 <= seg_rate_bps seg) segs -> 0 <= prin ->
  0 <= accrued_per_second segs prin t n.
Proof.
  intros Hs Hp. revert t. induction n as [|n IH]; intros t; simpl; [done|].
  specialize (IH (t + 1)). pose proof (rate_at_nonneg segs t Hs). nia.
Qed.

Lemma DENOM_pos : 0 < DENOM.
Proof. done. Qed.
#[export] Hint Resolve DENOM_pos : facility.

Lemma unpaid_interest_nonneg f : 0 <= interest_accum f -> 0 <= unpaid_interest f.
Proof. intros. apply Z.div_pos; [done|apply DENOM_pos]. Qed.

Lemma accrued_accum_mono f to_ts :
  wf f -> interest_accum f <= interest_accum (accrued f to_ts).
Proof.
  intros [? ? ? Hr Hp _ _]. unfold accrued. destruct (accrual_frozen f); cbn; [done|].
  pose proof (accrued_per_second_nonneg (segments f) (principal f) (last_accrual_at f)
    (Z.to_nat (to_ts - last_accrual_at f)) Hr Hp). lia.
Qed.

Lemma accrued_wf f to_ts : last_accrual_at f <= to_ts -> wf f -> wf (accrued f to_ts).
Proof.
  intros Hle Hwf. pose proof (accrued_accum_mono f to_ts Hwf) as Hmono.
  destruct Hwf. split; autorewrite with facility; [done|done| |done|done|done|lia].
  eapply Forall_impl; [exact wf_past0|]. simpl. lia.
Qed.

Lemma accrued_accrued f a b :
  last_accrual_at f <= a <= b -> accrued (accrued f a) b = accrued f b.
Proof.
  intros Hab. unfold accrued at 1. autorewrite with facility.
  unfold accrued. destruct f as [? ? ? ? ? ia la segs ? ? ? [] ?]; [done|]. cbn in *.
  unfold set, const; cbn. f_equal.
  replace (Z.to_nat (b - la)) with (Z.to_nat (a - la) + Z.to_nat (b - a))%nat by lia.
  rewrite accrued_per_second_split.
  replace (la + Z.of_nat (Z.to_nat (a - la))) with a by lia. lia.
Qed.

(** * Closed forms of the operations

    Each operation accrues first, so a successful call is its effect on
    [accrued f at_]. *)

Definition capitalized (f : FacilityLedger) : FacilityLedger :=
  if capitalize_unpaid_interest (terms f) then
    f <| principal ::= fun p => p + unpaid_interest f |>
      <| interest_accum ::= fun a => a - unpaid_interest f * DENOM |>
  else f.

Definition borrowed (f : FacilityLedger) (at_ amount : Z) : FacilityLedger :=
  (capitalized (accrued f at_))
    <| principal ::= fun p => p + amount |>
    <| history ::= fun h => h ++ [HBorrow at_ amount] |>.

(** The waterfall split of [amount] over a ledger. *)
Definition split (f : FacilityLedger) (amount : Z) : Alloc :=
  let fee := Z.min amount (fees f) in
  let interest := Z.min (amount - fee) (unpaid_interest f) in
  let prin := Z.min (amount - fee - interest) (principal f) in
  {| a_fees := fee; a_interest := interest; a_principal := prin;
     a_excess := amount - fee - interest - prin |}.

Definition repaid (f : FacilityLedger) (at_ : Z) (al : Alloc) : FacilityLedger :=
  f <| fees ::= fun x => x - a_fees al |>
    <| interest_accum ::= fun a => a - a_interest al * DENOM |>
    <| principal ::= fun p => p - a_principal al |>
    <| history ::= fun h => h ++ [HRepay at_ al] |>.

Definition resegmented (segs : list RateSegment) (at_ rate : Z) : list RateSegment :=
  let kept := if existsb (fun seg => start seg =? at_) segs
              then filter (fun seg => start seg <> at_) segs else segs in
  sort_by start (kept ++ [{| start := at_; seg_rate_bps := rate |}]).

Section ClosedForms.
Context (f : FacilityLedger) (at_ : Z).
Hypothesis Hne : segments f <> [].

Lemma borrow_run amount :
  0 < amount -> last_accrual_at f <= at_ ->
  borrow at_ amount f = (Ok tt, borrowed f at_ amount).
Proof.
  intros Hpos Hle. unfold borrow. destruct (Z.leb_spec amount 0); [lia|].
  unfold bind at 1. rewrite accrue_run by done.
  unfold borrowed, capitalized, bind, get, when, gets, modify, ret.
  by destruct (capitalize_unpaid_interest (terms (accrued f at_))).
Qed.

Lemma charge_fee_run amount :
  last_accrual_at f <= at_ ->
  charge_fee at_ amount f
  = (Ok tt, (accrued f at_) <| fees ::= fun x => x + amount |>
                            <| history ::= fun h => h ++ [HFee at_ amount] |>).
Proof. intros Hle. unfold charge_fee, bind at 1. by rewrite accrue_run. Qed.

Lemma allocate_run amount :
  0 < amount -> last_accrual_at f <= at_ ->
  allocate_repayment at_ amount f
  = (Ok (split (accrued f at_) amount), repaid (accrued f at_) at_ (split (accrued f at_) amount)).
Proof.
  intros Hpos Hle. unfold allocate_repayment. destruct (Z.leb_spec amount 0); [lia|].
  unfold bind at 1. by rewrite accrue_run.
Qed.

Lemma set_rate_run rate :
  last_accrual_at f <= at_ ->
  set_rate at_ rate f
  = (Ok tt, (accrued f at_) <| segments ::= fun l => resegmented l at_ rate |>
                            <| history ::= fun h => h ++ [HSetRate at_ rate] |>).
Proof.
  intros Hle. unfold set_rate, bind at 1. rewrite accrue_run by done.
  generalize (accrued f at_). intros [? ? ? ? ? ? ? segs ? ? ? ? ?].
  unfold bind, get, when, modify, ret, resegmented, set; cbn.
  by destruct (existsb _ segs).
Qed.

(** A call dated before the last accrual raises and changes nothing. *)
Lemma backwards_raises (m : PyM FacilityLedger unit) :
  at_ < last_accrual_at f ->
  (accrue at_ ;;; m) f = (Raise (Exn AccountingError "accrual cannot go backwards"), f).
Proof. intros Hlt. unfold bind. by rewrite accrue_backwards. Qed.
End ClosedForms.

(** ** Successful calls, inverted *)

Section Inversion.
Context (f : FacilityLedger) (at_ : Z).
Hypothesis Hne : segments f <> [].

Lemma accrue_Ok u f' :
  accrue at_ f = (Ok u, f') <-> last_accrual_at f <= at_ /\ f' = accrued f at_.
Proof.
  destruct u, (accrue_cases f at_ Hne) as [[Hle ->]|[Hlt [e ->]]]; split.
  - by intros [= <-].
  - by intros [_ ->].
  - done.
  - intros [? _]. lia.
Qed.

Lemma borrow_Ok amount u f' :
  borrow at_ amount f = (Ok u, f') <->
  0 < amount /\ last_accrual_at f <= at_ /\ f' = borrowed f at_ amount.
Proof.
  split.
  - intros H. assert (Hpos : 0 < amount).
    { revert H. unfold borrow. by destruct (Z.leb_spec amount 0); [|lia]. }
    assert (Hle : last_accrual_at f <= at_).
    { revert H. unfold borrow. destruct (Z.leb_spec amount 0) as [|Hgt]; [lia|]. intros H.
      apply bind_Ok in H. destruct H as (? & ? & H & _). by apply accrue_Ok in H as [? _]. }
    rewrite borrow_run in H by done. by simplify_eq.
  - destruct u. intros (? & ? & ->). by apply borrow_run.
Qed.

Lemma allocate_Ok amount al f' :
  allocate_repayment at_ amount f = (Ok al, f') <->
  0 < amount /\ last_accrual_at f <= at_ /\
  al = split (accrued f at_) amount /\ f' = repaid (accrued f at_) at_ al.
Proof.
  split.
  - intros H. assert (Hpos : 0 < amount).
    { revert H. unfold allocate_repayment. by destruct (Z.leb_spec amount 0); [|lia]. }
    assert (Hle : last_accrual_at f <= at_).
    { revert H. unfold allocate_repayment. destruct (Z.leb_spec amount 0) as [|Hgt]; [lia|]. intros H.
      apply bind_Ok in H. destruct H as (? & ? & H & _). by apply accrue_Ok in H as [? _]. }
    rewrite allocate_run in H by done. by simplify_eq.
  - intros (? & ? & -> & ->). by apply allocate_run.
Qed.
End Inversion.

(** ** Debt arithmetic *)

Lemma div_sub_mul a q : (a - q * DENOM) / DENOM = a / DENOM - q.
Proof. replace (a - q * DENOM) with (a + (- q) * DENOM) by lia. rewrite Z.div_add by done. lia. Qed.

Lemma mod_sub_mul a q : (a - q * DENOM) mod DENOM = a mod DENOM.
Proof. replace (a - q * DENOM) with (a + (- q) * DENOM) by lia. by rewrite Z.mod_add. Qed.

Lemma capitalized_legal_debt f : legal_debt (capitalized f) = legal_debt f.
Proof.
  unfold capitalized, legal_debt, unpaid_interest.
  destruct (capitalize_unpaid_interest (terms f)); cbn; [|done]. rewrite div_sub_mul. lia.
Qed.

Lemma split_sum f amount :
  let al := split f amount in
  a_fees al + a_interest al + a_principal al + a_excess al = amount.
Proof. cbn. lia. Qed.

Lemma repaid_legal_debt f at_ al :
  legal_debt (repaid f at_ al) = legal_debt f - (a_fees al + a_interest al + a_principal al).
Proof. unfold repaid, legal_debt, unpaid_interest. cbn. rewrite div_sub_mul. lia. Qed.

Lemma capitalized_wf f : wf f -> wf (capitalized f).
Proof.
  intros [? ? ? ? Hp Hf Ha]. pose proof (unpaid_interest_nonneg f Ha) as Hu.
  unfold capitalized. destruct (capitalize_unpaid_interest (terms f)); [|by split].
  split; cbn; try done; [lia|].
  unfold unpaid_interest. pose proof (Z.mul_div_le (interest_accum f) DENOM DENOM_pos). lia.
Qed.

Lemma repaid_wf f at_ amount : wf f -> 0 <= amount -> wf (repaid f at_ (split f amount)).
Proof.
  intros [? ? ? ? Hp Hf Ha] Ham. pose proof (unpaid_interest_nonneg f Ha) as Hu.
  pose proof (Z.mul_div_le (interest_accum f) DENOM DENOM_pos).
  split; cbn; try done; unfold unpaid_interest in *; try lia.
  pose proof DENOM_pos. nia.
Qed.

Lemma resegmented_elem segs at_ rate seg :
  seg ∈ resegmented segs at_ rate <->
  seg = {| start := at_; seg_rate_bps := rate |} \/ (seg ∈ segs /\ start seg <> at_).
Proof.
  unfold resegmented. rewrite sort_by_perm, elem_of_app, list_elem_of_singleton.
  destruct (existsb _ segs) eqn:E.
  - rewrite list_elem_of_filter. naive_solver.
  - split; [|naive_solver]. intros [Hs|]; [|by left]. right. split; [done|]. intros Hst.
    enough (existsb (fun seg => start seg =? at_) segs = true) by congruence.
    apply existsb_exists. exists seg. rewrite <- list_elem_of_In. split; [done|lia].
Qed.

Lemma resegmented_nonempty segs at_ rate : resegmented segs at_ rate <> [].
Proof.
  intros E. assert (H : {| start := at_; seg_rate_bps := rate |} ∈ resegmented segs at_ rate).
  { apply resegmented_elem. by left. }
  rewrite E in H. by apply not_elem_of_nil in H.
Qed.

(** ** Rate changes are forward only *)

Lemma seg_lt_key_le l : StronglySorted seg_lt l -> StronglySorted (key_le start) l.
Proof.
  induction 1 as [|x l Hl IH Hx]; constructor; [done|].
  eapply Forall_impl; [exact Hx|]. unfold seg_lt, key_le. intros. lia.
Qed.

Lemma filter_all {A} (P : A -> Prop) `{!forall x, Decision (P x)} (l : list A) :
  Forall P l -> filter P l = l.
Proof. induction 1 as [|x l Hx Hl IH]; [done|]. rewrite filter_cons_True by done. by rewrite IH. Qed.

(** With the past segments sorted and none after [at_], the append-and-sort
    of [set_rate] is an append. *)
Lemma resegmented_snoc segs at_ rate :
  StronglySorted seg_lt segs -> Forall (fun seg => start seg <= at_) segs ->
  resegmented segs at_ rate
  = filter (fun seg => start seg <> at_) segs ++ [{| start := at_; seg_rate_bps := rate |}].
Proof.
  intros Hs Hp. unfold resegmented.
  replace (if existsb _ segs then _ else segs) with (filter (fun seg => start seg <> at_) segs).
  - apply sort_by_id, seg_lt_key_le, StronglySorted_snoc.
    + by apply StronglySorted_filter.
    + apply Forall_forall. intros seg [Hne Hin]%list_elem_of_filter.
      rewrite Forall_forall in Hp. specialize (Hp seg Hin). unfold seg_lt. cbn. lia.
  - destruct (existsb _ segs) eqn:E; [done|]. apply filter_all, Forall_forall.
    intros seg Hin Hst. enough (existsb (fun seg => start seg =? at_) segs = true) by congruence.
    apply existsb_exists. exists seg. rewrite <- list_elem_of_In. split; [done|lia].
Qed.

Lemma rate_from_app l1 l2 t r : rate_from (l1 ++ l2) t r = rate_from l2 t (rate_from l1 t r).
Proof. apply fold_left_app. Qed.

Lemma rate_from_filter segs at_ t r :
  t < at_ -> rate_from (filter (fun seg => start seg <> at_) segs) t r = rate_from segs t r.
Proof.
  intros Ht. unfold rate_from. revert r. induction segs as [|s segs IH]; intros r; [done|].
  rewrite filter_cons. case_decide as Hs; simpl; [apply IH|].
  destruct (Z.leb_spec (start s) t); [lia|]. apply IH.
Qed.

Lemma resegmented_rate_before segs at_ rate t :
  StronglySorted seg_lt segs -> Forall (fun seg => start seg <= at_) segs ->
  (exists seg0 rest, segs = seg0 :: rest /\ start seg0 <= t) -> t < at_ ->
  rate_at (resegmented segs at_ rate) t = rate_at segs t.
Proof.
  intros Hs Hp (s0 & rest & -> & H0) Ht.
  rewrite resegmented_snoc by done. rewrite filter_cons_True by lia. cbn [app rate_at].
  rewrite app_comm_cons, rate_from_app.
  rewrite <- (filter_cons_True (fun seg => start seg <> at_) s0) by lia.
  rewrite rate_from_filter by done. unfold rate_from at 1. cbn.
  by destruct (Z.leb_spec at_ t); [lia|].
Qed.

Lemma resegmented_rate_after segs at_ rate t :
  StronglySorted seg_lt segs -> Forall (fun seg => start seg <= at_) segs ->
  at_ <= t -> rate_at (resegmented segs at_ rate) t = rate.
Proof.
  intros Hs Hp Ht. rewrite resegmented_snoc by done.
  unfold rate_at. destruct (filter _ segs) as [|s l]; cbn [app];
    [|rewrite app_comm_cons, rate_from_app]; unfold rate_from; cbn;
    by destruct (Z.leb_spec at_ t); [|lia].
Qed.

Lemma resegmented_wf f rate :
  wf f -> 0 <= rate -> wf (f <| segments ::= fun l => resegmented l (last_accrual_at f) rate |>).
Proof.
  intros [(r0 & rest & Hf) Hs Hp Hr ? ? ?] Hrate. set (at_ := last_accrual_at f) in *.
  split; cbn; try done.
  - rewrite resegmented_snoc by done. rewrite Hf, filter_cons.
    case_decide as Hd; cbn [app]; [by eauto|]. exists rate, [].
    rewrite Hf in Hs, Hp. apply StronglySorted_inv in Hs as [_ Hlt].
    apply Forall_cons in Hp as [H0 Hp]. cbn in Hd, H0.
    assert (Hoa : opened_at f = at_) by lia. rewrite Hoa.
    enough (rest = []) as -> by done. destruct rest as [|s1 rest]; [done|].
    apply Forall_cons in Hlt as [Hlt _]. apply Forall_cons in Hp as [Hp _].
    unfold seg_lt in Hlt. cbn in Hlt, Hp. lia.
  - rewrite resegmented_snoc by done. apply StronglySorted_snoc; [by apply StronglySorted_filter|].
    apply Forall_forall. intros seg [Hne Hin]%list_elem_of_filter.
    rewrite Forall_forall in Hp. specialize (Hp seg Hin). unfold seg_lt. cbn. lia.
  - apply Forall_forall. intros seg [->|[Hin _]]%resegmented_elem; cbn; [lia|].
    rewrite Forall_forall in Hp. by apply Hp.
  - apply Forall_forall. intros seg [->|[Hin _]]%resegmented_elem; cbn; [lia|].
    rewrite Forall_forall in Hr. by apply Hr.
Qed.

(** * Histories of operations *)

Inductive facility_op :=
| OpAccrue (to_ts : Z)
| OpSetRate (at_ rate : Z)
| OpBorrow (at_ amount : Z)
| OpFee (at_ amount : Z)
| OpRepay (at_ amount : Z).

Definition run_op (op : facility_op) : PyM FacilityLedger unit :=
  match op with
  | OpAccrue to_ts => accrue to_ts
  | OpSetRate at_ rate => set_rate at_ rate
  | OpBorrow at_ amount => borrow at_ amount
  | OpFee at_ amount => charge_fee at_ amount
  | OpRepay at_ amount => let* _ := allocate_repayment at_ amount in ret tt
  end.

(** [set_rate] and [charge_fee] do not check their argument's sign; the
    callers pass rates and fees that are not negative. *)
Definition op_ok (op : facility_op) : Prop :=
  match op with
  | OpSetRate _ rate => 0 <= rate
  | OpFee _ amount => 0 <= amount
  | _ => True
  end.

(** One call, whether it returns or raises. *)
Definition fstep (f f' : FacilityLedger) : Prop :=
  exists op, op_ok op /\ f' = snd (run_op op f).

Lemma new_wf fid tm at_ : 0 <= rate_bps tm -> wf (new fid tm at_).
Proof. intros Hr. split; cbn; try done; [by eauto|repeat constructor|by constructor|by constructor]. Qed.

Lemma wf_same f g :
  segments g = segments f -> opened_at g = opened_at f -> last_accrual_at g = last_accrual_at f ->
  interest_accum g = interest_accum f -> 0 <= principal g -> 0 <= fees g -> wf f -> wf g.
Proof. intros Hs Ho Hl Hi Hp Hf []. split; rewrite ?Hs, ?Ho, ?Hl, ?Hi; done. Qed.

Lemma run_op_wf op f : op_ok op -> wf f -> wf (snd (run_op op f)).
Proof.
  intros Hop Hwf. pose proof (wf_nonempty f Hwf) as Hne.
  destruct op as [t|t r|t a|t a|t a]; cbn [run_op op_ok] in *.
  all: destruct (Z.le_gt_cases (last_accrual_at f) t) as [Hle|Hlt];
    [pose proof (accrued_wf f t Hle Hwf) as Hawf
    |unfold set_rate, borrow, charge_fee, allocate_repayment; try case_match;
     unfold bind; rewrite ?accrue_backwards by done; exact Hwf].
  - by rewrite accrue_run.
  - rewrite set_rate_run by done. cbn [snd].
    pose proof (resegmented_wf (accrued f t) r Hawf Hop) as Hs.
    rewrite accrued_last in Hs. by eapply wf_same; [..|exact Hs]; try apply Hs.
  - destruct (Z.leb_spec a 0) as [Ha|Ha].
    + unfold borrow. by destruct (Z.leb_spec a 0); [|lia].
    + rewrite borrow_run by done. cbn [snd]. unfold borrowed.
      pose proof (capitalized_wf _ Hawf) as Hc. pose proof (wf_principal _ Hc).
      eapply wf_same; [..|exact Hc]; cbn; try done; [lia|by apply Hc].
  - rewrite charge_fee_run by done. cbn [snd]. pose proof (wf_fees _ Hawf).
    eapply wf_same; [..|exact Hawf]; cbn; try done; [by apply Hawf|lia].
  - destruct (Z.leb_spec a 0) as [Ha|Ha].
    + unfold allocate_repayment. by destruct (Z.leb_spec a 0); [|lia].
    + unfold bind at 1. rewrite allocate_run by done. cbn [snd ret]. apply repaid_wf; [done|lia].
Qed.

Lemma steps_wf f g : rtc fstep f g -> wf f -> wf g.
Proof. induction 1 as [|f g h [op [Hop ->]] _ IH]; [done|]. intros Hwf. by apply IH, run_op_wf. Qed.

(** * Properties *)

(** C1: [accrue to_ts] terminates and adds to the accumulator exactly the
    second-by-second sum of principal times the rate in force at that second,
    for any list of rate segments in any order (the loop jumps from segment
    boundary to segment boundary); a frozen ledger only moves its clock, and a
    call that goes backwards raises and changes nothing. *)
Theorem accrue_exact f to_ts :
  segments f <> [] ->
  accrue to_ts f =
    if to_ts <? last_accrual_at f
    then (Raise (Exn AccountingError "accrual cannot go backwards"), f)
    else if accrual_frozen f then (Ok tt, f <| last_accrual_at := to_ts |>)
    else (Ok tt, f <| interest_accum ::= fun a =>
                        a + accrued_per_second (segments f) (principal f) (last_accrual_at f)
                              (Z.to_nat (to_ts - last_accrual_at f)) |>
                   <| last_accrual_at := to_ts |>).
Proof.
  intros Hne. destruct (Z.ltb_spec to_ts (last_accrual_at f)) as [Hlt|Hge].
  - by apply accrue_backwards.
  - rewrite accrue_run by (done || lia). unfold accrued. by destruct (accrual_frozen f).
Qed.

(** how often [accrue] is called does not change the result: accruing to
    [a] and then to [b] leaves exactly the ledger that accruing to [b] at once
    leaves (the accumulator keeps the numerator, so no rounding is lost). *)
Theorem accrue_path_independent f a b :
  segments f <> [] -> last_accrual_at f <= a <= b ->
  (accrue a ;;; accrue b) f = accrue b f.
Proof.
  intros Hne Hab. unfold bind. rewrite (accrue_run f a) by (done || lia).
  rewrite accrue_run by (autorewrite with facility; done || lia).
  rewrite (accrue_run f b) by (done || lia). by rewrite accrued_accrued.
Qed.

(** the read-only [unpaid_interest_at] agrees with the mutating path: it is
    the unpaid interest of the ledger [accrue] leaves, for every time not
    before the last accrual, frozen or not. *)
Theorem unpaid_interest_view f at_ :
  segments f <> [] -> last_accrual_at f <= at_ ->
  exists f', accrue at_ f = (Ok tt, f') /\ unpaid_interest_at f at_ = Ok (unpaid_interest f').
Proof.
  intros Hne Hle. exists (accrued f at_). split; [by apply accrue_run|].
  unfold unpaid_interest_at, accrued, unpaid_interest.
  destruct (accrual_frozen f); [done|]. cbn [orb].
  destruct (Z.leb_spec at_ (last_accrual_at f)) as [Hge|Hlt].
  - cbn. replace (at_ - last_accrual_at f) with 0 by lia. cbn. by rewrite Z.add_0_r.
  - by rewrite accrue_loop_run by (done || lia).
Qed.

(** C2: the repayment waterfall.  A positive repayment on a well-formed ledger
    is split fees, then interest, then principal, then excess: the parts are
    not negative and sum to the amount, the debt falls by the amount less the
    excess, a later part is paid only when the earlier ones are cleared, excess
    means the debt is zero, and the sub-unit interest remainder is kept. *)
Theorem waterfall f at_ amount :
  wf f -> last_accrual_at f <= at_ -> 0 < amount ->
  exists al f1 f',
    accrue at_ f = (Ok tt, f1) /\
    allocate_repayment at_ amount f = (Ok al, f') /\
    0 <= a_fees al /\ 0 <= a_interest al /\ 0 <= a_principal al /\ 0 <= a_excess al /\
    a_fees al + a_interest al + a_principal al + a_excess al = amount /\
    legal_debt f' = legal_debt f1 - (amount - a_excess al) /\
    (0 < a_interest al -> fees f' = 0) /\
    (0 < a_principal al -> fees f' = 0 /\ unpaid_interest f' = 0) /\
    (0 < a_excess al -> legal_debt f' = 0) /\
    interest_accum f' mod DENOM = interest_accum f1 mod DENOM.
Proof.
  intros Hwf Hle Ham. pose proof (wf_nonempty f Hwf) as Hne.
  pose proof (accrued_wf f at_ Hle Hwf) as [_ _ _ _ Hp Hf Ha].
  pose proof (unpaid_interest_nonneg _ Ha) as Hu.
  set (g := accrued f at_) in *. set (al := split g amount).
  exists al, g, (repaid g at_ al).
  split; [by apply accrue_run|]. split; [by apply allocate_run|].
  assert (Hui : unpaid_interest (repaid g at_ al) = unpaid_interest g - a_interest al).
  { unfold unpaid_interest, repaid. cbn. apply div_sub_mul. }
  assert (Hfee : fees (repaid g at_ al) = fees g - a_fees al) by done.
  rewrite repaid_legal_debt. unfold legal_debt. rewrite Hui, Hfee.
  pose proof (split_sum g amount) as Hsum. cbv zeta in Hsum. fold al in Hsum.
  assert (H1 : a_fees al = Z.min amount (fees g)) by done.
  assert (H2 : a_interest al = Z.min (amount - a_fees al) (unpaid_interest g)) by done.
  assert (H3 : a_principal al = Z.min (amount - a_fees al - a_interest al) (principal g)) by done.
  clear Hui Hfee. clearbody al. split_and!; try lia.
  change (interest_accum (repaid g at_ al)) with (interest_accum g - a_interest al * DENOM).
  apply mod_sub_mul.
Qed.


(** a rate change is forward only.  After [set_rate at_ rate] the interest
    already accrued is the old rates', the rate in force at any second from
    [opened_at] up to [at_] is unchanged, and from [at_] on it is [rate]. *)
Theorem set_rate_forward f at_ rate :
  wf f -> last_accrual_at f <= at_ ->
  exists f1 f', accrue at_ f = (Ok tt, f1) /\ set_rate at_ rate f = (Ok tt, f') /\
    interest_accum f' = interest_accum f1 /\ legal_debt f' = legal_debt f1 /\
    (forall t, opened_at f <= t < at_ -> rate_at (segments f') t = rate_at (segments f) t) /\
    (forall t, at_ <= t -> current_rate (segments f') t = Ok rate).
Proof.
  intros Hwf Hle. pose proof (wf_nonempty f Hwf) as Hne.
  exists (accrued f at_). eexists. split; [by apply accrue_run|].
  split; [by apply set_rate_run|].
  destruct (accrued_wf f at_ Hle Hwf) as [(r0 & rest & Hf) Hs Hp _ _ _ _].
  rewrite accrued_segments, accrued_last, ?accrued_opened in *.
  split; [done|]. split; [done|]. cbn. rewrite accrued_segments. split; intros t Ht.
  - apply resegmented_rate_before; [done..| |lia]. eexists _, rest. split; [done|]. cbn. lia.
  - rewrite current_rate_nonempty by apply resegmented_nonempty.
    f_equal. by apply resegmented_rate_after.
Qed.

(** a draw raises the legal debt by exactly the amount drawn, with
    capitalization off and on; with it on the unpaid interest units move into
    the principal and only the sub-unit remainder stays. *)
Theorem borrow_debt f at_ amount :
  segments f <> [] -> last_accrual_at f <= at_ -> 0 < amount ->
  exists f1 f', accrue at_ f = (Ok tt, f1) /\ borrow at_ amount f = (Ok tt, f') /\
    legal_debt f' = legal_debt f1 + amount /\ fees f' = fees f1 /\
    if capitalize_unpaid_interest (terms f)
    then unpaid_interest f' = 0 /\ principal f' = principal f1 + unpaid_interest f1 + amount
    else unpaid_interest f' = unpaid_interest f1 /\ principal f' = principal f1 + amount.
Proof.
  intros Hne Hle Ham. exists (accrued f at_), (borrowed f at_ amount).
  split; [by apply accrue_run|]. split; [by apply borrow_run|].
  pose proof (capitalized_legal_debt (accrued f at_)) as Hc. revert Hc.
  unfold borrowed, capitalized, legal_debt, unpaid_interest. rewrite accrued_terms.
  destruct (capitalize_unpaid_interest (terms f)); cbn; [|intros _; lia].
  unfold unpaid_interest. rewrite div_sub_mul. lia.
Qed.

(** ** Witnesses *)

Definition terms0 : Terms :=
  {| rate_bps := 1200; capitalize_unpaid_interest := true; test_only := true |}.

(** A ledger with principal, a fee and two rate changes behind it. *)
Definition f0 : FacilityLedger :=
  snd ((borrow 1000 1000000 ;;; charge_fee 2000 70 ;;; set_rate 5000 900 ;;; set_rate 700000 300)
         (new "F1" terms0 1000)).

Lemma f0_reachable : rtc fstep (new "F1" terms0 1000) f0.
Proof.
  eapply rtc_l; [by exists (OpBorrow 1000 1000000)|].
  eapply rtc_l; [by exists (OpFee 2000 70)|].
  eapply rtc_l; [by exists (OpSetRate 5000 900)|].
  eapply rtc_l; [by exists (OpSetRate 700000 300)|].
  replace f0 with (snd (run_op (OpSetRate 700000 300) (snd (run_op (OpSetRate 5000 900)
    (snd (run_op (OpFee 2000 70) (snd (run_op (OpBorrow 1000 1000000) (new "F1" terms0 1000)))))))))
    by by vm_compute. constructor.
Qed.

Lemma f0_wf : wf f0.
Proof. apply (steps_wf _ _ f0_reachable), new_wf. by vm_compute. Qed.

Lemma f0_segments : segments f0 <> [].
Proof. by vm_compute. Qed.

Lemma accrue_exact_witness :
  segments f0 <> [] /\
  interest_accum (snd (accrue 700060 f0)) = interest_accum f0 + principal f0 * 300 * 60.
Proof.
  split; [exact f0_segments|].
  rewrite (accrue_exact f0 700060 f0_segments). by vm_compute.
Defined.

Lemma accrue_path_independent_witness :
  (accrue 800000 ;;; accrue 900000) f0 = accrue 900000 f0.
Proof. apply (accrue_path_independent f0 800000 900000); [exact f0_segments|by vm_compute]. Defined.

Lemma unpaid_interest_view_witness :
  exists f', accrue 800000 f0 = (Ok tt, f') /\ unpaid_interest_at f0 800000 = Ok (unpaid_interest f').
Proof. apply (unpaid_interest_view f0 800000); [exact f0_segments|by vm_compute]. Defined.

Lemma waterfall_witness :
  exists al f1 f', accrue 800000 f0 = (Ok tt, f1) /\
    allocate_repayment 800000 5000 f0 = (Ok al, f') /\
    legal_debt f' = legal_debt f1 - (5000 - a_excess al).
Proof.
  destruct (waterfall f0 800000 5000 f0_wf ltac:(by vm_compute) ltac:(lia))
    as (al & f1 & f' & H1 & H2 & _ & _ & _ & _ & _ & H3 & _).
  exists al, f1, f'. exact (conj H1 (conj H2 H3)).
Defined.


Lemma set_rate_forward_witness :
  exists f', set_rate 800000 500 f0 = (Ok tt, f') /\
    rate_at (segments f') 750000 = 300 /\ current_rate (segments f') 800000 = Ok 500.
Proof.
  destruct (set_rate_forward f0 800000 500 f0_wf ltac:(by vm_compute))
    as (f1 & f' & _ & H2 & _ & _ & Hb & Ha). exists f'. split; [exact H2|].
  split; [rewrite Hb by (vm_compute; done); by vm_compute|by apply Ha].
Defined.

Lemma borrow_debt_witness :
  exists f1 f', accrue 800000 f0 = (Ok tt, f1) /\ borrow 800000 400 f0 = (Ok tt, f') /\
    legal_debt f' = legal_debt f1 + 400.
Proof.
  destruct (borrow_debt f0 800000 400 f0_segments ltac:(by vm_compute) ltac:(lia))
    as (f1 & f' & H1 & H2 & H3 & _).
  exists f1, f'. exact (conj H1 (conj H2 H3)).
Defined.
End Facility.
