(* ===== verification/VaultLedger.v ===== *)
(** The vault of the accounting reference model: LP shares with a virtual
    offset, NAV, the source-to-destination cash pipeline, impairment, write-off
    and recovery.

    Source: offchain/gpu/hashcredit_gpu/accounting/reference.py, class
    [VaultLedger] and [borrowing_base].  The vault holds its facility ledgers
    by reference: a method that mutates [self.facilities[fid]] is run on the
    entry of the map ([on_facility]), on [Raise] too. *)

From S2P Require Import Prelude FacilityLedger.
Import Facility.

Module Vault.

(** The dicts appended to [journal]. *)
Inductive JournalEntry :=
| JDeposit (lp : string) (assets shares : Z)
| JWithdraw (lp : string) (assets shares : Z)
| JDonation (assets : Z)
| JDraw (facility : string) (amount : Z)
| JSourceReceipt (settlement : string) (amount : Z)
| JLegStart (settlement : string) (amount : Z)
| JDestinationReceipt (settlement : string) (amount : Z)
| JRepayFor (facility : string) (alloc : Alloc)
| JReserveFund (facility : string) (amount : Z)
| JImpair (facility : string) (amount : Z)
| JWriteOff (facility : string) (reserve_used principal_ interest_ : Z)
| JRecovery (facility : string) (alloc : Alloc).

(** Models [accounting/reference.py], [VaultLedger], lines 169-185. *)
Record VaultLedger := {
  virtual_shares : Z;
  virtual_assets : Z;
  clock : Z;
  cash : Z;
  total_shares : Z;
  shares_of : gmap string Z;
  facilities : gmap string FacilityLedger;
  impairment_by : gmap string Z;
  borrower_reserve : gmap string Z;
  borrower_refundable : gmap string Z;
  source_escrow : gmap string Z;
  in_flight : gmap string Z;
  journal : list JournalEntry;
}.

Definition empty_vault : VaultLedger := {|
  virtual_shares := 1000; virtual_assets := 1; clock := 0; cash := 0; total_shares := 0;
  shares_of := ∅; facilities := ∅; impairment_by := ∅; borrower_reserve := ∅;
  borrower_refundable := ∅; source_escrow := ∅; in_flight := ∅; journal := [];
|}.

(** [self.facilities[facility_id]] *)
Definition facility_of (fid : string) : PyM VaultLedger FacilityLedger :=
  fun v => match facilities v !! fid with
           | Some f => (Ok f, v)
           | None => (Raise (Exn KeyError fid), v)
           end.

(** A method call on the ledger held at [fid]. *)
Definition on_facility {A} (fid : string) (m : PyM FacilityLedger A) : PyM VaultLedger A :=
  fun v => match facilities v !! fid with
           | Some f => let (r, f') := m f in (r, v <| facilities ::= <[fid := f']> |>)
           | None => (Raise (Exn KeyError fid), v)
           end.

Definition log_entry (e : JournalEntry) : PyM VaultLedger unit :=
  modify (fun v => v <| journal ::= fun j => j ++ [e] |>).

(** Models [accounting/reference.py], [VaultLedger.performing_principal]. *)
Definition performing_principal (v : VaultLedger) : Z :=
  map_sum (fun _ f => if impaired f then 0 else principal f) (facilities v).

(** Models [accounting/reference.py], [VaultLedger.performing_interest]. *)
Definition performing_interest (v : VaultLedger) : res Z :=
  sum_res (fun '(_, f) => if impaired f then Ok 0 else unpaid_interest_at f (clock v))
          (map_to_list (facilities v)).

(** Models [accounting/reference.py], [VaultLedger.tick]. *)
Definition tick (at_ : Z) : PyM VaultLedger unit :=
  let* v := get in
  if at_ <? clock v then raise AccountingError "clock cannot go backwards"
  else modify (fun v => v <| clock := at_ |>).

(** Models [accounting/reference.py], [VaultLedger.impairment]. *)
Definition impairment (v : VaultLedger) : res Z :=
  sum_res (fun '(fid, x) =>
             match facilities v !! fid with
             | None => Raise (Exn KeyError fid)
             | Some f => if impaired f then Ok 0 else Ok x
             end)
          (map_to_list (impairment_by v)).

(** Models [accounting/reference.py], [VaultLedger.nav]. *)
Definition nav (v : VaultLedger) : res Z :=
  match performing_interest v with
  | Raise e => Raise e
  | Ok pint =>
      match impairment v with
      | Raise e => Raise e
      | Ok imp => Ok (cash v + performing_principal v + pint - imp)
      end
  end.

(** Models [accounting/reference.py], [VaultLedger.total_legal_debt]. *)
Definition total_legal_debt (v : VaultLedger) : res Z :=
  sum_res (fun '(_, f) =>
             match unpaid_interest_at f (clock v) with
             | Ok i => Ok (principal f + i + fees f)
             | Raise e => Raise e
             end)
          (map_to_list (facilities v)).

(** Models [accounting/reference.py], [VaultLedger.convert_to_shares]. *)
Definition convert_to_shares (assets : Z) : PyM VaultLedger Z :=
  let* v := get in
  let* n := lift_res (nav v) in
  floordiv (assets * (total_shares v + virtual_shares v)) (n + virtual_assets v).

(** Models [accounting/reference.py], [VaultLedger.convert_to_assets]. *)
Definition convert_to_assets (shares : Z) : PyM VaultLedger Z :=
  let* v := get in
  let* n := lift_res (nav v) in
  floordiv (shares * (n + virtual_assets v)) (total_shares v + virtual_shares v).

(** [d[k] += delta] on a dict: KeyError when [k] is absent. *)
Definition add_at (m : gmap string Z) (k : string) (delta : Z) : res (gmap string Z) :=
  match m !! k with
  | None => Raise (Exn KeyError k)
  | Some x => Ok (<[k := x + delta]> m)
  end.

(** Models [accounting/reference.py], [VaultLedger.deposit]. *)
Definition deposit (lp : string) (assets : Z) : PyM VaultLedger Z :=
  let* shares := convert_to_shares assets in
  if shares <=? 0 then raise AccountingError "deposit too small for one share"
  else
    modify (fun v => v <| cash ::= fun c => c + assets |>) ;;;
    modify (fun v => v <| total_shares ::= fun t => t + shares |>) ;;;
    modify (fun v => v <| shares_of ::= fun m => <[lp := getz lp m + shares]> m |>) ;;;
    log_entry (JDeposit lp assets shares) ;;;
    ret shares.

(** Models [accounting/reference.py], [VaultLedger.withdraw]. *)
Definition withdraw (lp : string) (shares : Z) : PyM VaultLedger Z :=
  let* v := get in
  if getz lp (shares_of v) <? shares then raise AccountingError "insufficient shares"
  else
    let* assets := convert_to_assets shares in
    let* v := get in
    if cash v <? assets then
      raise AccountingError "insufficient vault cash (withdrawal limited to available cash)"
    else
      modify (fun v => v <| cash ::= fun c => c - assets |>) ;;;
      modify (fun v => v <| total_shares ::= fun t => t - shares |>) ;;;
      let* v := get in
      let* so := lift_res (add_at (shares_of v) lp (- shares)) in
      modify (fun v => v <| shares_of := so |>) ;;;
      log_entry (JWithdraw lp assets shares) ;;;
      ret assets.

(** Models [accounting/reference.py], [VaultLedger.donate]. *)
Definition donate (assets : Z) : PyM VaultLedger unit :=
  modify (fun v => v <| cash ::= fun c => c + assets |>) ;;;
  log_entry (JDonation assets).

(** Models [accounting/reference.py], [VaultLedger.open_facility]. *)
Definition open_facility (fid : string) (tm : Terms) (at_ : Z) : PyM VaultLedger unit :=
  modify (fun v => v <| facilities ::= <[fid := new fid tm at_]> |>).

(** Models [accounting/reference.py], [VaultLedger.draw]. *)
Definition draw (fid : string) (at_ amount : Z) : PyM VaultLedger unit :=
  let* _ := facility_of fid in
  let* v := get in
  if cash v <? amount then raise AccountingError "insufficient vault cash"
  else
    tick at_ ;;;
    on_facility fid (borrow at_ amount) ;;;
    modify (fun v => v <| cash ::= fun c => c - amount |>) ;;;
    log_entry (JDraw fid amount).

(** Models [accounting/reference.py], [VaultLedger.source_receipt]. *)
Definition source_receipt (sid : string) (amount : Z) : PyM VaultLedger unit :=
  modify (fun v => v <| source_escrow ::= fun m => <[sid := getz sid m + amount]> m |>) ;;;
  log_entry (JSourceReceipt sid amount).

(** Models [accounting/reference.py], [VaultLedger.start_leg]. *)
Definition start_leg (sid : string) (amount : Z) : PyM VaultLedger unit :=
  let* v := get in
  if getz sid (source_escrow v) <? amount then
    raise AccountingError "leg exceeds source escrow balance"
  else
    let* se := lift_res (add_at (source_escrow v) sid (- amount)) in
    modify (fun v => v <| source_escrow := se |>) ;;;
    modify (fun v => v <| in_flight ::= fun m => <[sid := getz sid m + amount]> m |>) ;;;
    log_entry (JLegStart sid amount).

(** Models [accounting/reference.py], [VaultLedger.destination_receipt]. *)
Definition destination_receipt (sid : string) (amount : Z) : PyM VaultLedger unit :=
  let* v := get in
  if getz sid (in_flight v) <? amount then
    raise AccountingError "destination receipt exceeds in-flight amount"
  else
    let* fl := lift_res (add_at (in_flight v) sid (- amount)) in
    modify (fun v => v <| in_flight := fl |>) ;;;
    modify (fun v => v <| cash ::= fun c => c + amount |>) ;;;
    log_entry (JDestinationReceipt sid amount).

(** The tail [repay_for] and [recover] share: excess goes back to the borrower. *)
Definition refund_excess (fid : string) (alloc : Alloc) : PyM VaultLedger unit :=
  when (negb (a_excess alloc =? 0))
    (modify (fun v => v <| cash ::= fun c => c - a_excess alloc |>) ;;;
     modify (fun v => v <| borrower_refundable ::= fun m => <[fid := getz fid m + a_excess alloc]> m |>)).

(** Models [accounting/reference.py], [VaultLedger.repay_for]. *)
Definition repay_for (fid : string) (at_ amount : Z) (payer : string) : PyM VaultLedger Alloc :=
  let* _ := facility_of fid in
  tick at_ ;;;
  when (String.eqb payer "third_party")
    (modify (fun v => v <| cash ::= fun c => c + amount |>)) ;;;
  let* alloc := on_facility fid (allocate_repayment at_ amount) in
  refund_excess fid alloc ;;;
  log_entry (JRepayFor fid alloc) ;;;
  ret alloc.

(** Models [accounting/reference.py], [VaultLedger.fund_reserve]. *)
Definition fund_reserve (fid : string) (amount : Z) : PyM VaultLedger unit :=
  modify (fun v => v <| borrower_reserve ::= fun m => <[fid := getz fid m + amount]> m |>) ;;;
  log_entry (JReserveFund fid amount).

(** Models [accounting/reference.py], [VaultLedger.impair]. *)
Definition impair (fid : string) (amount : Z) : PyM VaultLedger unit :=
  let* f := facility_of fid in
  let* v := get in
  let already := getz fid (impairment_by v) in
  if principal f + unpaid_interest f - already <? amount then
    raise AccountingError "impairment exceeds performing exposure"
  else
    modify (fun v => v <| impairment_by ::= <[fid := already + amount]> |>) ;;;
    log_entry (JImpair fid amount).

Record WriteOff := { reserve_used : Z; loss_principal : Z; loss_interest : Z }.

(** Models [accounting/reference.py], [VaultLedger.write_off]. *)
Definition write_off (fid : string) (at_ : Z) : PyM VaultLedger WriteOff :=
  let* _ := facility_of fid in
  tick at_ ;;;
  on_facility fid (accrue at_) ;;;
  let* f := facility_of fid in
  let* v := get in
  let reserve := getz fid (borrower_reserve v) in
  let used := Z.min reserve (legal_debt f) in
  when (negb (used =? 0))
    (let* br := lift_res (add_at (borrower_reserve v) fid (- used)) in
     modify (fun v => v <| borrower_reserve := br |>) ;;;
     modify (fun v => v <| cash ::= fun c => c + used |>) ;;;
     let* _ := on_facility fid (allocate_repayment at_ used) in ret tt) ;;;
  let* f := facility_of fid in
  let lp := principal f in
  let li := unpaid_interest f in
  modify (fun v => v <| impairment_by ::= delete fid |>) ;;;
  on_facility fid (modify (fun f => f <| impaired := true |>)) ;;;
  on_facility fid (modify (fun f => f <| accrual_frozen := true |>)) ;;;
  on_facility fid (modify (fun f => f <| written_off_principal ::= fun x => x + lp |>)) ;;;
  on_facility fid (modify (fun f => f <| written_off_interest ::= fun x => x + li |>)) ;;;
  log_entry (JWriteOff fid used lp li) ;;;
  ret {| reserve_used := used; loss_principal := lp; loss_interest := li |}.

(** Models [accounting/reference.py], [VaultLedger.recover]. *)
Definition recover (fid : string) (at_ amount : Z) : PyM VaultLedger Alloc :=
  let* _ := facility_of fid in
  tick at_ ;;;
  modify (fun v => v <| cash ::= fun c => c + amount |>) ;;;
  let* alloc := on_facility fid (allocate_repayment at_ amount) in
  refund_excess fid alloc ;;;
  log_entry (JRecovery fid alloc) ;;;
  ret alloc.

(** * The borrowing base *)

(** The keys [borrowing_base] reads of a receivable dict. *)
Record BaseReceivable := {
  native_status : string;
  br_state : string;
  br_unpaid : Z; (* int(r["unpaid"]) *)
}.

Record BaseResult := { eligible : Z; limit_ : Z; room : Z }.

(** Models [accounting/reference.py], [borrowing_base]. *)
Definition borrowing_base (receivables : list BaseReceivable)
    (advance_rate_bps approved_cap debt reserved : Z) : BaseResult :=
  let elig :=
    fold_left
      (fun acc r =>
         if negb (mem_str (native_status r) ["NATIVE_ACCEPTED"; "CONSUMED"]) then acc
         else if mem_str (br_state r) ["PAID"; "CANCELLED"; "WRITTEN_OFF"] then acc
         else acc + br_unpaid r)
      receivables 0 in
  let lim := Z.min (elig * advance_rate_bps / BPS) approved_cap in
  {| eligible := elig; limit_ := lim; room := Z.max 0 (lim - debt - reserved) |}.


(** * Well-formed vaults *)

Record vwf (v : VaultLedger) : Prop := {
  vwf_facilities : map_Forall (fun _ f => wf f) (facilities v);
  vwf_impairment : forall fid, is_Some (impairment_by v !! fid) -> is_Some (facilities v !! fid);
  vwf_shares : total_shares v = map_sum (fun _ x => x) (shares_of v);
}.

Lemma empty_vault_vwf : vwf empty_vault.
Proof. split; [done| |done]. cbn. intros fid [x Hx]. by rewrite lookup_empty in Hx. Qed.

(** ** NAV in closed form *)

(** Interest of [f] as of [at_] for a well-formed ledger. *)
Definition interest_at (f : FacilityLedger) (at_ : Z) : Z :=
  if at_ <=? last_accrual_at f then unpaid_interest f else unpaid_interest (accrued f at_).

Lemma unpaid_interest_at_ok f at_ : wf f -> unpaid_interest_at f at_ = Ok (interest_at f at_).
Proof.
  intros Hwf. unfold unpaid_interest_at, interest_at, accrued, unpaid_interest.
  destruct (Z.leb_spec at_ (last_accrual_at f)) as [Hle|Hlt].
  - by rewrite orb_true_r.
  - destruct (accrual_frozen f); [done|]. cbn [orb].
    by rewrite accrue_loop_run by (by apply wf_nonempty || lia).
Qed.

Lemma interest_at_accrued f at_ :
  last_accrual_at f <= at_ -> interest_at f at_ = unpaid_interest (accrued f at_).
Proof.
  intros Hle. unfold interest_at. destruct (Z.leb_spec at_ (last_accrual_at f)) as [Hge|]; [|done].
  replace at_ with (last_accrual_at f) by lia. unfold accrued, unpaid_interest.
  destruct (accrual_frozen f); cbn; [done|]. by rewrite Z.sub_diag, Z.add_0_r.
Qed.

Lemma interest_at_last f : interest_at f (last_accrual_at f) = unpaid_interest f.
Proof. unfold interest_at. by rewrite Z.leb_refl. Qed.

(** What one facility contributes to the performing book. *)
Definition performing (at_ : Z) (f : FacilityLedger) : Z :=
  if impaired f then 0 else principal f + interest_at f at_.

(** What one impairment entry takes off it. *)
Definition impairment_of (fs : gmap string FacilityLedger) (fid : string) (x : Z) : Z :=
  match fs !! fid with
  | Some f => if impaired f then 0 else x
  | None => 0
  end.

Definition impairment_val (v : VaultLedger) : Z :=
  map_sum (impairment_of (facilities v)) (impairment_by v).

Definition nav_val (v : VaultLedger) : Z :=
  cash v + map_sum (fun _ => performing (clock v)) (facilities v) - impairment_val v.

Definition debt_at (at_ : Z) (f : FacilityLedger) : Z := principal f + interest_at f at_ + fees f.

Definition debt_val (v : VaultLedger) : Z := map_sum (fun _ => debt_at (clock v)) (facilities v).

Lemma map_sum_add {K} `{Countable K} {V} (f g : K -> V -> Z) (m : gmap K V) :
  map_sum (fun k v => f k v + g k v) m = map_sum f m + map_sum g m.
Proof.
  induction m as [|k v m Hk IH] using map_ind; [done|]. rewrite !map_sum_insert by done. lia.
Qed.

Lemma nav_ok v : vwf v -> nav v = Ok (nav_val v).
Proof.
  intros [Hf Hi _]. unfold nav, performing_interest, impairment, nav_val, impairment_val.
  rewrite (map_sum_res _ (fun _ f => if impaired f then 0 else interest_at f (clock v))); last first.
  { intros fid f Hfid. rewrite unpaid_interest_at_ok by by apply (Hf fid). by destruct (impaired f). }
  rewrite (map_sum_res _ (impairment_of (facilities v))); last first.
  { intros fid x Hx. unfold impairment_of. destruct (Hi fid) as [f ->]; [by eexists|].
    by destruct (impaired f). }
  f_equal. unfold performing_principal. rewrite <- Z.add_assoc, <- map_sum_add.
  erewrite (map_sum_ext (fun _ _ => _ + _)); [done|].
  intros fid f _. unfold performing. by destruct (impaired f).
Qed.

Lemma total_legal_debt_ok v : vwf v -> total_legal_debt v = Ok (debt_val v).
Proof.
  intros [Hf _ _]. unfold total_legal_debt, debt_val. apply map_sum_res.
  intros fid f Hfid. by rewrite unpaid_interest_at_ok by by apply (Hf fid).
Qed.

(** ** One facility replaced *)

Section FacilityUpdate.
Context (v : VaultLedger) (fid : string) (f f' : FacilityLedger).
Hypothesis Hf : facilities v !! fid = Some f.

Let v' := v <| facilities ::= <[fid := f']> |>.

Lemma impairment_val_update : impaired f' = impaired f -> impairment_val v' = impairment_val v.
Proof.
  intros Himp. apply map_sum_ext. intros k x _. unfold impairment_of. cbn.
  destruct (decide (k = fid)) as [->|Hne].
  - by rewrite lookup_insert_eq, Hf, Himp.
  - by rewrite lookup_insert_ne.
Qed.

Lemma nav_val_update :
  impaired f' = impaired f ->
  nav_val v' = nav_val v - performing (clock v) f + performing (clock v) f'.
Proof.
  intros Himp. unfold nav_val. rewrite impairment_val_update by done. cbn.
  rewrite (map_sum_update _ _ _ _ _ Hf). lia.
Qed.

Lemma debt_val_update : debt_val v' = debt_val v - debt_at (clock v) f + debt_at (clock v) f'.
Proof. unfold debt_val. cbn. rewrite (map_sum_update _ _ _ _ _ Hf). lia. Qed.

Lemma vwf_update : wf f' -> vwf v -> vwf v'.
Proof.
  intros Hwf' [Hfs Hi Hs]. split; cbn; [by apply map_Forall_insert_2| |done].
  intros k Hk. destruct (decide (k = fid)) as [->|]; [rewrite lookup_insert_eq; by eexists|].
  rewrite lookup_insert_ne by done. by apply Hi.
Qed.
End FacilityUpdate.

Lemma vwf_same v v' :
  facilities v' = facilities v -> impairment_by v' = impairment_by v ->
  total_shares v' = total_shares v -> shares_of v' = shares_of v -> vwf v -> vwf v'.
Proof. intros H1 H2 H3 H4 []. by split; rewrite ?H1, ?H2, ?H3, ?H4. Qed.

(** * Every operation keeps the vault well-formed, returning or raising

    [keeps m]: the invariant holds after [m], whatever its outcome. *)

Definition keeps {A} (m : PyM VaultLedger A) : Prop := forall v, vwf v -> vwf (snd (m v)).

Lemma keeps_vault_bind {A B} (m : PyM VaultLedger A) (g : A -> PyM VaultLedger B) :
  keeps m -> (forall a, keeps (g a)) -> keeps (let* a := m in g a).
Proof.
  intros Hm Hg v Hv. unfold bind. specialize (Hm v Hv).
  destruct (m v) as [[a|e] s]; [by apply Hg|done].
Qed.

Lemma keeps_ret {A} (a : A) : keeps (ret a).
Proof. by intros v. Qed.
Lemma keeps_raise {A} k msg : keeps (raise (A:=A) k msg).
Proof. by intros v. Qed.
Lemma keeps_get : keeps get.
Proof. by intros v. Qed.
Lemma keeps_lift {A} (r : res A) : keeps (lift_res r).
Proof. by intros v. Qed.
Lemma keeps_floordiv a b : keeps (floordiv a b).
Proof. intros v. unfold floordiv. by case_match. Qed.
Lemma keeps_if {A} (b : bool) (m1 m2 : PyM VaultLedger A) : keeps m1 -> keeps m2 -> keeps (if b then m1 else m2).
Proof. by destruct b. Qed.
Lemma keeps_when b (m : PyM VaultLedger unit) : keeps m -> keeps (when b m).
Proof. intros Hm. destruct b; [exact Hm|]. by intros v. Qed.
Lemma keeps_facility_of fid : keeps (facility_of fid).
Proof. intros v Hv. unfold facility_of. by case_match. Qed.

(** A field update away from the ledgers, impairments and shares. *)
Lemma keeps_vault_modify g :
  (forall v, facilities (g v) = facilities v /\ impairment_by (g v) = impairment_by v /\
             total_shares (g v) = total_shares v /\ shares_of (g v) = shares_of v) ->
  keeps (modify g).
Proof. intros Hg v Hv. destruct (Hg v) as (? & ? & ? & ?). by eapply vwf_same. Qed.

Lemma keeps_on_facility {A} fid (m : PyM FacilityLedger A) :
  (forall f, wf f -> wf (snd (m f))) -> keeps (on_facility fid m).
Proof.
  intros Hm v Hv. unfold on_facility. destruct (facilities v !! fid) as [f|] eqn:Hf; [|done].
  specialize (Hm f (vwf_facilities v Hv fid f Hf)). destruct (m f) as [r f'].
  by apply vwf_update.
Qed.

Lemma allocate_wf at_ amount f : wf f -> wf (snd (allocate_repayment at_ amount f)).
Proof.
  intros Hf. pose proof (run_op_wf (OpRepay at_ amount) f I Hf) as H. cbn in H.
  unfold bind in H. by destruct (allocate_repayment at_ amount f) as [[]].
Qed.

Create HintDb vault.
#[export] Hint Resolve keeps_ret keeps_raise keeps_get keeps_lift keeps_floordiv
  keeps_facility_of allocate_wf : vault.

(** Walks a handler statement by statement. *)
Ltac keeps_step :=
  lazymatch goal with
  | |- keeps (bind _ _) => apply keeps_vault_bind; [|intros ?]
  | |- keeps (if _ then _ else _) => apply keeps_if
  | |- keeps (when _ _) => apply keeps_when
  | |- keeps (on_facility _ _) => apply keeps_on_facility
  | |- keeps (modify _) => apply keeps_vault_modify; intros ?; by repeat split
  | |- keeps (log_entry _) => apply keeps_vault_modify; intros ?; by repeat split
  | |- forall _, _ => intros ?
  | |- _ => solve [eauto with vault]
  end.
Ltac keeps_auto := repeat keeps_step.

Lemma tick_keeps at_ : keeps (tick at_).
Proof. unfold tick. keeps_auto. Qed.
Lemma refund_excess_keeps fid al : keeps (refund_excess fid al).
Proof. unfold refund_excess. keeps_auto. Qed.
#[export] Hint Resolve tick_keeps refund_excess_keeps : vault.

Lemma set_flag_wf (g : FacilityLedger -> FacilityLedger) f :
  segments (g f) = segments f -> opened_at (g f) = opened_at f ->
  last_accrual_at (g f) = last_accrual_at f -> interest_accum (g f) = interest_accum f ->
  principal (g f) = principal f -> fees (g f) = fees f ->
  wf f -> wf (snd (modify g f)).
Proof.
  intros ? ? ? ? Hp Hf Hwf. cbn. pose proof (wf_principal f Hwf). pose proof (wf_fees f Hwf).
  eapply wf_same; [..|exact Hwf]; try done; lia.
Qed.

Lemma donate_keeps a : keeps (donate a).
Proof. unfold donate. keeps_auto. Qed.
Lemma source_receipt_keeps s a : keeps (source_receipt s a).
Proof. unfold source_receipt. keeps_auto. Qed.
Lemma start_leg_keeps s a : keeps (start_leg s a).
Proof. unfold start_leg. keeps_auto. Qed.
Lemma destination_receipt_keeps s a : keeps (destination_receipt s a).
Proof. unfold destination_receipt. keeps_auto. Qed.
Lemma fund_reserve_keeps fid a : keeps (fund_reserve fid a).
Proof. unfold fund_reserve. keeps_auto. Qed.
Lemma repay_for_keeps fid at_ a p : keeps (repay_for fid at_ a p).
Proof. unfold repay_for. keeps_auto. Qed.
Lemma recover_keeps fid at_ a : keeps (recover fid at_ a).
Proof. unfold recover. keeps_auto. Qed.

Lemma draw_keeps fid at_ a : keeps (draw fid at_ a).
Proof. unfold draw. keeps_auto. by apply (run_op_wf (OpBorrow at_ a)). Qed.

Lemma open_facility_keeps fid tm at_ : 0 <= rate_bps tm -> keeps (open_facility fid tm at_).
Proof.
  intros Hr v [Hf Hi Hs]. split; cbn; [apply map_Forall_insert_2; [by apply new_wf|done]| |done].
  intros k Hk. destruct (decide (k = fid)) as [->|]; [rewrite lookup_insert_eq; by eexists|].
  rewrite lookup_insert_ne by done. by apply Hi.
Qed.

Lemma getz_map_sum (m : gmap string Z) k x :
  map_sum (fun _ x => x) (<[k := getz k m + x]> m) = map_sum (fun _ x => x) m + x.
Proof.
  unfold getz. destruct (m !! k) as [y|] eqn:Hk; simpl.
  - rewrite (map_sum_update _ _ _ _ _ Hk). lia.
  - rewrite map_sum_insert by done. lia.
Qed.

Lemma deposit_keeps lp a : keeps (deposit lp a).
Proof.
  unfold deposit, convert_to_shares. apply keeps_vault_bind; [by keeps_auto|]. intros shares.
  apply keeps_if; [by keeps_auto|]. intros v Hv.
  destruct Hv as [Hf Hi Hs]. split; cbn; [done..|]. by rewrite getz_map_sum, Hs.
Qed.

Lemma withdraw_keeps lp s : 0 <= s -> keeps (withdraw lp s).
Proof.
  intros Hs0 v Hv. unfold withdraw, bind at 1. cbn [get].
  destruct (Z.ltb_spec (getz lp (shares_of v)) s) as [|Hle]; [done|].
  unfold convert_to_assets, bind, get, lift_res. rewrite (nav_ok v Hv).
  unfold floordiv. destruct (_ =? 0); [done|]. unfold ret.
  destruct (cash v <? _); [done|]. unfold modify, add_at.
  unfold getz in Hle. cbn [shares_of set].
  change (shares_of (v <| cash ::= _ |> <| total_shares ::= _ |>)) with (shares_of v).
  destruct Hv as [Hf Hi Hs]. destruct (shares_of v !! lp) as [x|] eqn:Hlp; cbn in Hle |- *.
  - split; cbn; [done..|]. rewrite (map_sum_update _ _ _ _ _ Hlp). lia.
  - split; cbn; [done..|]. lia.
Qed.

Lemma impair_keeps fid a : keeps (impair fid a).
Proof.
  intros v Hv. unfold impair, facility_of, bind at 1.
  destruct (facilities v !! fid) as [f|] eqn:Hf; [|done].
  unfold bind, get. destruct (_ <? a); [done|]. unfold modify, log_entry, modify. cbn.
  destruct Hv as [Hfs Hi Hs]. split; cbn; [done| |done].
  intros k Hk. destruct (decide (k = fid)) as [->|Hne]; [by eexists|].
  rewrite lookup_insert_ne in Hk by done. by apply Hi.
Qed.

Lemma write_off_keeps fid at_ : keeps (write_off fid at_).
Proof.
  unfold write_off. keeps_auto.
  - by apply (run_op_wf (OpAccrue at_)).
  - intros v [Hfs Hi Hs]. split; cbn; [done| |done].
    intros k Hk. apply Hi. destruct Hk as [x Hx]. apply lookup_delete_Some in Hx as [_ ?]. by eexists.
  - by apply set_flag_wf.
  - by apply set_flag_wf.
  - by apply set_flag_wf.
  - by apply set_flag_wf.
Qed.

(** * What each operation does to NAV and to the legal debt *)

Lemma on_facility_Ok {A} fid (m : PyM FacilityLedger A) v a v' :
  on_facility fid m v = (Ok a, v') <->
  exists f f', facilities v !! fid = Some f /\ m f = (Ok a, f') /\
               v' = v <| facilities ::= <[fid := f']> |>.
Proof.
  unfold on_facility. destruct (facilities v !! fid) as [f|]; [|naive_solver].
  destruct (m f) as [r f'] eqn:Hm. split; [naive_solver|].
  intros (g & g' & [= <-] & Hg & ->). rewrite Hm in Hg. by simplify_eq.
Qed.

Lemma facility_of_Ok fid v f v' :
  facility_of fid v = (Ok f, v') <-> facilities v !! fid = Some f /\ v' = v.
Proof. unfold facility_of. destruct (facilities v !! fid); naive_solver. Qed.

Lemma tick_Ok at_ v u v' : tick at_ v = (Ok u, v') <-> clock v <= at_ /\ v' = v <| clock := at_ |>.
Proof.
  unfold tick, bind, get, modify, raise. destruct u, (Z.ltb_spec at_ (clock v)) as [Hlt|Hge]; split; intros H.
  - done.
  - lia.
  - by simplify_eq.
  - by destruct H as [_ ->].
Qed.

Lemma debt_at_now at_ g : last_accrual_at g = at_ -> debt_at at_ g = legal_debt g.
Proof. intros <-. unfold debt_at, legal_debt. rewrite interest_at_last. lia. Qed.

(** The effects of the facility operations on the performing book and the debt. *)
Section FacilityEffects.
Context (f : FacilityLedger) (at_ : Z).
Hypothesis Hle : last_accrual_at f <= at_.

Lemma capitalized_last : last_accrual_at (capitalized (accrued f at_)) = at_.
Proof. unfold capitalized. rewrite accrued_terms. destruct (capitalize_unpaid_interest (terms f)); apply accrued_last. Qed.

Lemma borrowed_last amount : last_accrual_at (borrowed f at_ amount) = at_.
Proof. apply capitalized_last. Qed.

Lemma repaid_last al : last_accrual_at (repaid (accrued f at_) at_ al) = at_.
Proof. apply accrued_last. Qed.

Lemma debt_at_accrued : debt_at at_ f = legal_debt (accrued f at_).
Proof.
  unfold debt_at, legal_debt. rewrite interest_at_accrued by done.
  rewrite accrued_principal, accrued_fees. lia.
Qed.

Lemma performing_debt g :
  performing at_ g = if impaired g then 0 else debt_at at_ g - fees g.
Proof. unfold performing, debt_at. destruct (impaired g); lia. Qed.

Lemma borrowed_debt amount : debt_at at_ (borrowed f at_ amount) = debt_at at_ f + amount.
Proof.
  rewrite debt_at_now by apply borrowed_last. rewrite debt_at_accrued.
  rewrite <- (capitalized_legal_debt (accrued f at_)).
  unfold borrowed, legal_debt, unpaid_interest. cbn. lia.
Qed.

Lemma borrowed_fields amount :
  impaired (borrowed f at_ amount) = impaired f /\ fees (borrowed f at_ amount) = fees f.
Proof.
  unfold borrowed, capitalized. rewrite accrued_terms.
  destruct (capitalize_unpaid_interest (terms f)); cbn; by rewrite accrued_impaired, accrued_fees.
Qed.

Lemma repaid_debt al :
  debt_at at_ (repaid (accrued f at_) at_ al)
  = debt_at at_ f - (a_fees al + a_interest al + a_principal al).
Proof.
  rewrite debt_at_now by apply repaid_last. by rewrite repaid_legal_debt, debt_at_accrued.
Qed.

Lemma repaid_fields al :
  impaired (repaid (accrued f at_) at_ al) = impaired f /\
  fees (repaid (accrued f at_) at_ al) = fees f - a_fees al.
Proof. cbn. by rewrite accrued_impaired, accrued_fees. Qed.
End FacilityEffects.

(** The vault with its clock moved to [at_]: interest accrued, nothing else. *)
Definition as_of (v : VaultLedger) (at_ : Z) : VaultLedger := v <| clock := at_ |>.

Lemma draw_effect fid at_ amount u v v' :
  vwf v -> draw fid at_ amount v = (Ok u, v') ->
  exists f, facilities v !! fid = Some f /\ 0 < amount <= cash v /\ clock v <= at_ /\ clock v' = at_ /\
    cash v' = cash v - amount /\
    debt_val v' = debt_val (as_of v at_) + amount /\
    nav_val v' = nav_val (as_of v at_) - (if impaired f then amount else 0).
Proof.
  intros Hv H. unfold draw, log_entry in H. apply bind_Ok in H. destruct H as (f & v0 & [Hf ->]%facility_of_Ok & H).
  unfold bind at 1 in H. cbn [get] in H. destruct (Z.ltb_spec (cash v) amount) as [|Hcash]; [done|].
  py_inv H. apply tick_Ok in H0 as [Hclk ->]. apply on_facility_Ok in H1 as (f1 & f' & Hf1 & Hb & ->).
  cbn in Hf1. assert (f1 = f) as -> by congruence.
  pose proof (vwf_facilities v Hv fid f Hf) as Hwf.
  apply borrow_Ok in Hb as (Hpos & Hle & ->); [|by apply wf_nonempty].
  exists f. destruct (borrowed_fields f at_ amount) as [Himp Hfees].
  pose proof (borrowed_debt f at_ Hle amount) as Hd.
  assert (Hf' : facilities (as_of v at_) !! fid = Some f) by done.
  pose proof (debt_val_update _ _ _ (borrowed f at_ amount) Hf') as Hdv.
  pose proof (nav_val_update _ _ _ (borrowed f at_ amount) Hf' Himp) as Hnv.
  rewrite !performing_debt in Hnv. rewrite Himp, Hfees in Hnv.
  change (clock (as_of v at_)) with at_ in *. rewrite Hd in *.
  split_and!; [done|lia|lia|done|done|done| |].
  - etrans; [|etrans; [exact Hdv|lia]]. done.
  - match goal with |- nav_val ?x = _ =>
      transitivity (nav_val ((as_of v at_) <| facilities ::= <[fid := borrowed f at_ amount]> |>) - amount)
    end; [unfold nav_val, impairment_val; cbn; lia|].
    rewrite Hnv. destruct (impaired f); lia.
Qed.

Lemma when_Ok b (m : PyM VaultLedger unit) v u v' :
  when b m v = (Ok u, v') <-> if b then m v = (Ok u, v') else v' = v.
Proof. destruct u, b; simpl; [done|]. unfold ret. naive_solver. Qed.

(** A repayment allocated to the ledger at [fid]. *)
Lemma repaid_effect v fid f at_ amount :
  facilities v !! fid = Some f -> clock v = at_ -> last_accrual_at f <= at_ ->
  let al := split (accrued f at_) amount in
  let v' := v <| facilities ::= <[fid := repaid (accrued f at_) at_ al]> |> in
  debt_val v' = debt_val v - (amount - a_excess al) /\
  nav_val v' = nav_val v - (if impaired f then 0 else a_interest al + a_principal al).
Proof.
  intros Hf Hclk Hle al v'. destruct (repaid_fields f at_ al) as [Himp Hfees].
  pose proof (repaid_debt f at_ Hle al) as Hd.
  pose proof (split_sum (accrued f at_) amount) as Hsum. cbv zeta in Hsum. fold al in Hsum.
  pose proof (debt_val_update _ _ _ (repaid (accrued f at_) at_ al) Hf) as Hdv.
  pose proof (nav_val_update _ _ _ (repaid (accrued f at_) at_ al) Hf Himp) as Hnv.
  rewrite !performing_debt, Himp, Hfees in Hnv. rewrite Hclk, Hd in Hnv, Hdv.
  subst v'. rewrite Hnv, Hdv. destruct (impaired f); lia.
Qed.

Definition credit_of (payer : string) (amount : Z) : Z :=
  if String.eqb payer "third_party" then amount else 0.

Lemma refund_excess_Ok fid al v u v' :
  refund_excess fid al v = (Ok u, v') ->
  facilities v' = facilities v /\ impairment_by v' = impairment_by v /\ clock v' = clock v /\
  cash v' = cash v - a_excess al.
Proof.
  unfold refund_excess. intros Hw%when_Ok. destruct (Z.eqb_spec (a_excess al) 0) as [Hz|Hz]; cbn in Hw.
  - subst v'. split_and!; [done..|lia].
  - unfold bind, modify in Hw. by simplify_eq.
Qed.

Lemma nav_val_cash v v' :
  facilities v' = facilities v -> impairment_by v' = impairment_by v -> clock v' = clock v ->
  nav_val v' = nav_val v + (cash v' - cash v) /\ debt_val v' = debt_val v.
Proof.
  intros Hf Hi Hc. unfold nav_val, impairment_val, debt_val. rewrite Hf, Hi, Hc. split; [lia|done].
Qed.

(** The run of [repay_for] and of [recover] from the tick on. *)
Lemma repay_effect v fid at_ amount credit al v1 u v2 :
  vwf v -> clock v = at_ ->
  on_facility fid (allocate_repayment at_ amount) (v <| cash ::= fun c => c + credit |>) = (Ok al, v1) ->
  refund_excess fid al v1 = (Ok u, v2) ->
  exists f, facilities v !! fid = Some f /\ last_accrual_at f <= at_ /\ 0 < amount /\
    al = split (accrued f at_) amount /\ clock v2 = at_ /\
    cash v2 = cash v + credit - a_excess al /\
    debt_val v2 = debt_val v - (amount - a_excess al) /\
    nav_val v2 = nav_val v + credit - amount + a_fees al
                 + (if impaired f then a_interest al + a_principal al else 0).
Proof.
  intros Hv Hclk (f & f' & Hf & Ha & ->)%on_facility_Ok (Hfs & Him & Hck & Hcash)%refund_excess_Ok.
  cbn in Hf. pose proof (vwf_facilities v Hv fid f Hf) as Hwf.
  apply allocate_Ok in Ha as (Hpos & Hle & -> & ->); [|by apply wf_nonempty].
  exists f. destruct (repaid_effect v fid f at_ amount Hf Hclk Hle) as [Hd Hn].
  pose proof (split_sum (accrued f at_) amount) as Hsum. cbv zeta in Hsum.
  remember (split (accrued f at_) amount) as al eqn:Hal. clear Hal.
  destruct (nav_val_cash (v <| facilities ::= <[fid := repaid (accrued f at_) at_ al]> |>) v2)
    as [Hn2 Hd2]; [by rewrite Hfs|by rewrite Him|by rewrite Hck|].
  cbn in Hcash, Hn2. split_and!; [done|done|done|reflexivity|by rewrite Hck|lia| |].
  - rewrite Hd2. exact Hd.
  - rewrite Hn2, Hn, Hcash. destruct (impaired f); lia.
Qed.

Lemma as_of_vwf v at_ : vwf v -> vwf (as_of v at_).
Proof. by apply vwf_same. Qed.

Lemma repay_for_effect fid at_ amount payer al v v' :
  vwf v -> repay_for fid at_ amount payer v = (Ok al, v') ->
  exists f, facilities v !! fid = Some f /\ clock v <= at_ /\ last_accrual_at f <= at_ /\
    al = split (accrued f at_) amount /\ clock v' = at_ /\
    cash v' = cash v + credit_of payer amount - a_excess al /\
    debt_val v' = debt_val (as_of v at_) - (amount - a_excess al) /\
    nav_val v' = nav_val (as_of v at_) + credit_of payer amount - amount + a_fees al
                 + (if impaired f then a_interest al + a_principal al else 0).
Proof.
  intros Hv H. unfold repay_for, log_entry in H.
  apply bind_Ok in H. destruct H as (f & v0 & [Hf ->]%facility_of_Ok & H). py_inv H.
  apply tick_Ok in H0 as [Hclk ->]. apply when_Ok in H1.
  assert (H1' : s0 = (as_of v at_) <| cash ::= fun c => c + credit_of payer amount |>).
  { unfold credit_of, modify in *. destruct (payer =? "third_party")%string; [by simplify_eq|].
    subst s0. unfold as_of, set. cbn. by rewrite Z.add_0_r. }
  subst s0. eapply (repay_effect (as_of v at_)) in H3 as Heff; [|by apply as_of_vwf|done|exact H2].
  destruct Heff as (g & Hg & Hle & Hpos & Hal & Hck & Hc & Hd & Hn). cbn in Hg.
  assert (g = f) as -> by congruence. exists f. split_and!; try done.
Qed.

Lemma recover_effect fid at_ amount al v v' :
  vwf v -> recover fid at_ amount v = (Ok al, v') ->
  exists f, facilities v !! fid = Some f /\ clock v <= at_ /\ last_accrual_at f <= at_ /\
    al = split (accrued f at_) amount /\ clock v' = at_ /\
    cash v' = cash v + amount - a_excess al /\
    debt_val v' = debt_val (as_of v at_) - (amount - a_excess al) /\
    nav_val v' = nav_val (as_of v at_) + a_fees al
                 + (if impaired f then a_interest al + a_principal al else 0).
Proof.
  intros Hv H. unfold recover, log_entry in H.
  apply bind_Ok in H. destruct H as (f & v0 & [Hf ->]%facility_of_Ok & H). py_inv H.
  apply tick_Ok in H0 as [Hclk ->].
  eapply (repay_effect (as_of v at_)) in H2 as Heff; [|by apply as_of_vwf|done|exact H1].
  destruct Heff as (g & Hg & Hle & Hpos & Hal & Hck & Hc & Hd & Hn). cbn in Hg.
  assert (g = f) as -> by congruence. exists f. split_and!; try done. etrans; [exact Hn|lia].
Qed.

(** ** Write-off *)

Lemma accrued_debt_at f at_ :
  last_accrual_at f <= at_ -> debt_at at_ (accrued f at_) = debt_at at_ f.
Proof.
  intros Hle. rewrite debt_at_now by apply accrued_last. by rewrite debt_at_accrued.
Qed.

Lemma accrued_idem f at_ : last_accrual_at f = at_ -> accrued f at_ = f.
Proof.
  intros <-. unfold accrued. rewrite Z.sub_diag. destruct f as [? ? ? ? ? ia ? ? ? ? ? fr ?]. cbn.
  unfold set, const; cbn. destruct fr; by rewrite ?Z.add_0_r.
Qed.

(** What the reserve leaves of the ledger. *)
Definition after_reserve (f : FacilityLedger) (at_ used : Z) : FacilityLedger :=
  if used =? 0 then accrued f at_
  else repaid (accrued f at_) at_ (split (accrued f at_) used).

Definition written_off (f : FacilityLedger) : FacilityLedger :=
  f <| impaired := true |> <| accrual_frozen := true |>
    <| written_off_principal ::= fun x => x + principal f |>
    <| written_off_interest ::= fun x => x + unpaid_interest f |>.

Lemma after_reserve_last f at_ u : last_accrual_at (after_reserve f at_ u) = at_.
Proof. unfold after_reserve. destruct (u =? 0); apply accrued_last. Qed.

Lemma after_reserve_impaired f at_ u : impaired (after_reserve f at_ u) = impaired f.
Proof. unfold after_reserve. destruct (u =? 0); cbn; apply accrued_impaired. Qed.

Lemma after_reserve_debt f at_ u :
  wf f -> last_accrual_at f <= at_ -> u <= debt_at at_ f ->
  legal_debt (after_reserve f at_ u) = debt_at at_ f - u.
Proof.
  intros Hwf Hle Hu. rewrite debt_at_accrued in * by done. unfold after_reserve.
  destruct (Z.eqb_spec u 0) as [->|Hne]; [lia|].
  rewrite repaid_legal_debt. pose proof (split_sum (accrued f at_) u) as Hs. cbv zeta in Hs.
  assert (a_excess (split (accrued f at_) u) = 0); [|lia].
  pose proof (accrued_wf f at_ Hle Hwf) as Hw.
  pose proof (unpaid_interest_nonneg _ (wf_accum _ Hw)). pose proof (wf_fees _ Hw).
  pose proof (wf_principal _ Hw). revert Hu. unfold legal_debt, split. cbn. lia.
Qed.

(** NAV when the ledger at [fid] leaves the performing book. *)
Lemma nav_val_off_book v v' fid f f' :
  facilities v !! fid = Some f -> impaired f' = true ->
  facilities v' = <[fid := f']> (facilities v) -> impairment_by v' = delete fid (impairment_by v) ->
  clock v' = clock v ->
  nav_val v' = nav_val v + (cash v' - cash v) - performing (clock v) f
               + (if impaired f then 0 else getz fid (impairment_by v)).
Proof.
  intros Hf Himp Hfs Hi Hc. unfold nav_val, impairment_val. rewrite Hfs, Hi, Hc.
  rewrite (map_sum_update _ _ _ _ _ Hf). unfold performing at 3. rewrite Himp.
  assert (Hd : map_sum (impairment_of (<[fid:=f']> (facilities v))) (delete fid (impairment_by v))
             = map_sum (impairment_of (facilities v)) (delete fid (impairment_by v))).
  { apply map_sum_ext. intros k x [Hk _]%lookup_delete_Some. unfold impairment_of.
    by rewrite lookup_insert_ne. }
  rewrite Hd. unfold getz. destruct (impairment_by v !! fid) as [x|] eqn:Hx; simpl.
  - rewrite (map_sum_delete _ (impairment_by v) _ _ Hx). 
    assert (impairment_of (facilities v) fid x = if impaired f then 0 else x) as ->
      by (unfold impairment_of; by rewrite Hf).
    destruct (impaired f); lia.
  - rewrite delete_id by done. destruct (impaired f); lia.
Qed.

Lemma lift_add_at_Ok m k d v m' v' :
  lift_res (S:=VaultLedger) (add_at m k d) v = (Ok m', v') <->
  exists x, m !! k = Some x /\ m' = <[k := x + d]> m /\ v' = v.
Proof. unfold lift_res, add_at. destruct (m !! k); naive_solver. Qed.

Lemma write_off_effect fid at_ v w v' :
  vwf v -> write_off fid at_ v = (Ok w, v') ->
  exists f, facilities v !! fid = Some f /\ clock v <= at_ /\ last_accrual_at f <= at_ /\
    let u := reserve_used w in
    u = Z.min (getz fid (borrower_reserve v)) (debt_at at_ f) /\
    (u <> 0 -> 0 < u) /\
    facilities v' !! fid = Some (written_off (after_reserve f at_ u)) /\
    loss_principal w = principal (after_reserve f at_ u) /\
    loss_interest w = unpaid_interest (after_reserve f at_ u) /\
    cash v' = cash v + u /\
    debt_val v' = debt_val (as_of v at_) - u /\
    nav_val v' = nav_val (as_of v at_) + u
                 - (if impaired f then 0 else performing at_ f - getz fid (impairment_by v)).
Proof.
  intros Hv H. unfold write_off, log_entry in H.
  apply bind_Ok in H. destruct H as (f & v0 & [Hf ->]%facility_of_Ok & H).
  apply bind_Ok in H. destruct H as ([] & v1 & [Hclk ->]%tick_Ok & H).
  apply bind_Ok in H. destruct H as ([] & v2 & (f0 & f1 & Hf0 & Ha & ->)%on_facility_Ok & H).
  cbn in Hf0. assert (f0 = f) as -> by congruence. clear Hf0.
  pose proof (vwf_facilities v Hv fid f Hf) as Hwf.
  apply accrue_Ok in Ha as [Hle ->]; [|by apply wf_nonempty].
  apply bind_Ok in H. destruct H as (f2 & v3 & [Hf2 ->]%facility_of_Ok & H).
  cbn in Hf2. rewrite lookup_insert_eq in Hf2. injection Hf2 as <-.
  unfold bind at 1 in H. cbn [get borrower_reserve set] in H.
  match type of H with context [Z.min ?r _] => change r with (getz fid (borrower_reserve v)) in H end.
  rewrite <- debt_at_accrued in H by done.
  set (u := Z.min _ _) in H.
  apply bind_Ok in H. destruct H as ([] & v3 & Hw & H). apply when_Ok in Hw.
  assert (Hv3 : (u <> 0 -> 0 < u) /\ facilities v3 = <[fid := after_reserve f at_ u]> (facilities v) /\
                impairment_by v3 = impairment_by v /\ clock v3 = at_ /\ cash v3 = cash v + u).
  { unfold after_reserve. destruct (Z.eqb_spec u 0) as [Hz|Hz]; cbn [negb] in Hw.
    - subst v3. split_and!; cbn; [done|done|done|done|lia].
    - apply bind_Ok in Hw. destruct Hw as (br & v4 & (x & _ & _ & ->)%lift_add_at_Ok & Hw).
      py_inv Hw. apply on_facility_Ok in Hw0 as (g & g' & Hg & Hal & ->). cbn in Hg.
      rewrite lookup_insert_eq in Hg. injection Hg as <-.
      apply allocate_Ok in Hal as (Hpos & _ & -> & ->); [|rewrite accrued_segments; by apply wf_nonempty].
      rewrite accrued_idem in * by apply accrued_last. cbn.
      rewrite insert_insert_eq. split_and!; done. }
  destruct Hv3 as (Hpos & Hfs & Hi & Hck & Hcash).
  apply bind_Ok in H. destruct H as (f3 & v4 & [Hf3 ->]%facility_of_Ok & H).
  rewrite Hfs, lookup_insert_eq in Hf3. injection Hf3 as <-.
  set (g := after_reserve f at_ u) in *.
  assert (Hgl : last_accrual_at g = at_) by apply after_reserve_last.
  assert (Hgd : legal_debt g = debt_at at_ f - u).
  { apply after_reserve_debt; [done|done|]. subst u. lia. }
  assert (Hv' : facilities v' = <[fid := written_off g]> (facilities v) /\
                impairment_by v' = delete fid (impairment_by v) /\ clock v' = at_ /\ cash v' = cash v + u /\
                w = {| reserve_used := u; loss_principal := principal g; loss_interest := unpaid_interest g |}).
  { py_inv H.
    repeat match goal with
    | Ho : on_facility _ _ _ = (Ok _, _) |- _ =>
        let g1 := fresh "g" in let g2 := fresh "g" in let Hg1 := fresh "Hg" in let Hg2 := fresh "Hx" in
        apply on_facility_Ok in Ho as (g1 & g2 & Hg1 & Hg2 & ->); apply modify_Ok in Hg2 as ->
    end.
    repeat match goal with
    | Hl : facilities _ !! fid = Some _ |- _ =>
        progress (cbn in Hl; rewrite ?Hfs, ?lookup_insert_eq in Hl); simplify_eq
    end.
    cbn. rewrite Hfs, Hi, !insert_insert_eq. split_and!; done. }
  destruct Hv' as (Hfs' & Hi' & Hck' & Hcash' & ->). cbn.
  exists f. split_and!; [done|done|done|done|done|by rewrite Hfs', lookup_insert_eq|done|done|done| |].
  - unfold debt_val. rewrite Hfs', Hck'. cbn. rewrite (map_sum_update _ _ _ _ _ Hf).
    rewrite (debt_at_now at_ (written_off g)) by done.
    change (legal_debt (written_off g)) with (legal_debt g). lia.
  - rewrite (nav_val_off_book (as_of v at_) v' fid f (written_off g)) by done.
    change (cash (as_of v at_)) with (cash v). change (clock (as_of v at_)) with at_.
    change (impairment_by (as_of v at_)) with (impairment_by v). rewrite Hcash'.
    assert (impaired f = true -> performing at_ f = 0) by (unfold performing; by intros ->).
    destruct (impaired f); lia.
Qed.

(** ** Shares *)

Lemma convert_to_shares_Ok a v x v' :
  vwf v -> convert_to_shares a v = (Ok x, v') ->
  nav_val v + virtual_assets v <> 0 /\ v' = v /\
  x = a * (total_shares v + virtual_shares v) / (nav_val v + virtual_assets v).
Proof.
  intros Hv H. unfold convert_to_shares, bind, get, lift_res in H. rewrite (nav_ok v Hv) in H.
  unfold floordiv in H. destruct (Z.eqb_spec (nav_val v + virtual_assets v) 0) as [|Hz]; [done|].
  unfold ret in H. by simplify_eq.
Qed.

Lemma convert_to_assets_Ok s v x v' :
  vwf v -> convert_to_assets s v = (Ok x, v') ->
  total_shares v + virtual_shares v <> 0 /\ v' = v /\
  x = s * (nav_val v + virtual_assets v) / (total_shares v + virtual_shares v).
Proof.
  intros Hv H. unfold convert_to_assets, bind, get, lift_res in H. rewrite (nav_ok v Hv) in H.
  unfold floordiv in H. destruct (Z.eqb_spec (total_shares v + virtual_shares v) 0) as [|Hz]; [done|].
  unfold ret in H. by simplify_eq.
Qed.

Lemma deposit_effect lp a v x v' :
  vwf v -> deposit lp a v = (Ok x, v') ->
  0 < x /\ nav_val v + virtual_assets v <> 0 /\
  x = a * (total_shares v + virtual_shares v) / (nav_val v + virtual_assets v) /\
  v' = v <| cash ::= fun c => c + a |> <| total_shares ::= fun t => t + x |>
         <| shares_of ::= fun m => <[lp := getz lp m + x]> m |>
         <| journal ::= fun j => j ++ [JDeposit lp a x] |> /\
  nav_val v' = nav_val v + a.
Proof.
  intros Hv H. unfold deposit, log_entry in H. apply bind_Ok in H.
  destruct H as (y & v1 & (Hnz & -> & Hy)%convert_to_shares_Ok & H); [|done].
  destruct (Z.leb_spec y 0) as [|Hpos]; [done|]. py_inv H. split_and!; try done.
  unfold nav_val, impairment_val. cbn. lia.
Qed.

Lemma withdraw_effect lp s v x v' :
  vwf v -> withdraw lp s v = (Ok x, v') ->
  s <= getz lp (shares_of v) /\ total_shares v + virtual_shares v <> 0 /\ x <= cash v /\
  x = s * (nav_val v + virtual_assets v) / (total_shares v + virtual_shares v) /\
  v' = v <| cash ::= fun c => c - x |> <| total_shares ::= fun t => t - s |>
         <| shares_of ::= fun m => <[lp := getz lp m - s]> m |>
         <| journal ::= fun j => j ++ [JWithdraw lp x s] |> /\
  nav_val v' = nav_val v - x.
Proof.
  intros Hv H. unfold withdraw, log_entry in H. unfold bind at 1 in H. cbn [get] in H.
  destruct (Z.ltb_spec (getz lp (shares_of v)) s) as [|Hle]; [done|]. apply bind_Ok in H.
  destruct H as (y & v1 & (Hnz & -> & Hy)%convert_to_assets_Ok & H); [|done].
  unfold bind at 1 in H. cbn [get] in H.
  destruct (Z.ltb_spec (cash v) y) as [|Hc]; [done|].
  py_inv H. repeat match goal with
  | Hl : lift_res (add_at _ _ _) _ = _ |- _ => apply lift_add_at_Ok in Hl as (z & Hz & -> & ->)
  end. cbn in Hz. split_and!; try done.
  - unfold set, const. cbn. unfold getz. by rewrite Hz.
  - unfold nav_val, impairment_val. cbn. lia.
Qed.

(** * Reachable vaults *)

Inductive vop :=
| VDeposit (lp : string) (assets : Z)
| VWithdraw (lp : string) (shares : Z)
| VDonate (assets : Z)
| VOpen (fid : string) (tm : Terms) (at_ : Z)
| VDraw (fid : string) (at_ amount : Z)
| VSourceReceipt (sid : string) (amount : Z)
| VStartLeg (sid : string) (amount : Z)
| VDestinationReceipt (sid : string) (amount : Z)
| VRepayFor (fid : string) (at_ amount : Z) (payer : string)
| VFundReserve (fid : string) (amount : Z)
| VImpair (fid : string) (amount : Z)
| VWriteOff (fid : string) (at_ : Z)
| VRecover (fid : string) (at_ amount : Z).

Definition run_vop (op : vop) : PyM VaultLedger unit :=
  match op with
  | VDeposit lp a => let* _ := deposit lp a in ret tt
  | VWithdraw lp s => let* _ := withdraw lp s in ret tt
  | VDonate a => donate a
  | VOpen fid tm at_ => open_facility fid tm at_
  | VDraw fid at_ a => draw fid at_ a
  | VSourceReceipt sid a => source_receipt sid a
  | VStartLeg sid a => start_leg sid a
  | VDestinationReceipt sid a => destination_receipt sid a
  | VRepayFor fid at_ a p => let* _ := repay_for fid at_ a p in ret tt
  | VFundReserve fid a => fund_reserve fid a
  | VImpair fid a => impair fid a
  | VWriteOff fid at_ => let* _ := write_off fid at_ in ret tt
  | VRecover fid at_ a => let* _ := recover fid at_ a in ret tt
  end.

(** What the callers owe: a share count and a rate are not negative (the
    methods do not check them). *)
Definition vop_ok (op : vop) : Prop :=
  match op with
  | VWithdraw _ s => 0 <= s
  | VOpen _ tm _ => 0 <= rate_bps tm
  | _ => True
  end.

Definition vstep (v v' : VaultLedger) : Prop :=
  exists op, vop_ok op /\ v' = snd (run_vop op v).

#[export] Hint Resolve deposit_keeps withdraw_keeps donate_keeps open_facility_keeps draw_keeps
  source_receipt_keeps start_leg_keeps destination_receipt_keeps repay_for_keeps
  fund_reserve_keeps impair_keeps write_off_keeps recover_keeps : vault.

Lemma run_vop_keeps op : vop_ok op -> keeps (run_vop op).
Proof. destruct op; cbn; intros Hop; keeps_auto. Qed.

Lemma vsteps_vwf v v' : rtc vstep v v' -> vwf v -> vwf v'.
Proof. induction 1 as [|v w x [op [Hop ->]] _ IH]; [done|]. intros Hv. by apply IH, run_vop_keeps. Qed.

(** * Properties *)


(** A draw needs vault cash, moves the amount from cash to the facility's
    debt, and at that instant neither creates nor destroys NAV, unless the
    facility is already off the performing book: then NAV falls by the amount. *)
Theorem draw_moves_cash_to_debt fid at_ amount u v v' :
  vwf v -> draw fid at_ amount v = (Ok u, v') ->
  exists f, facilities v !! fid = Some f /\ 0 < amount <= cash v /\ clock v <= at_ /\
    nav v' = Ok (nav_val (as_of v at_) - (if impaired f then amount else 0)) /\
    total_legal_debt v' = Ok (debt_val (as_of v at_) + amount).
Proof.
  intros Hv H. pose proof (draw_keeps fid at_ amount v Hv) as Hv'. rewrite H in Hv'. cbn in Hv'.
  destruct (draw_effect _ _ _ _ _ _ Hv H) as (f & Hf & Hpos & Hle & Hck & Hc & Hd & Hn).
  exists f. rewrite nav_ok, total_legal_debt_ok, Hd, Hn by done. split_and!; try done; try lia.
Qed.

(** A repayment reduces the legal debt by exactly what the waterfall
    allocated and refunds the rest.  NAV moves by the cash credited less the
    claims settled: a fee is income, principal and interest of a performing
    facility swap an asset for cash, of a facility off the book they are a
    gain. *)
Theorem repay_for_debt_nav fid at_ amount payer al v v' :
  vwf v -> repay_for fid at_ amount payer v = (Ok al, v') ->
  exists f, facilities v !! fid = Some f /\ al = split (accrued f at_) amount /\
    cash v' = cash v + credit_of payer amount - a_excess al /\
    total_legal_debt v' = Ok (debt_val (as_of v at_) - (a_fees al + a_interest al + a_principal al)) /\
    nav v' = Ok (nav_val (as_of v at_) + credit_of payer amount - amount + a_fees al
                 + (if impaired f then a_interest al + a_principal al else 0)).
Proof.
  intros Hv H. pose proof (repay_for_keeps fid at_ amount payer v Hv) as Hv'. rewrite H in Hv'. cbn in Hv'.
  destruct (repay_for_effect _ _ _ _ _ _ _ Hv H) as (f & Hf & Hclk & Hle & Hal & Hck & Hc & Hd & Hn).
  exists f. rewrite nav_ok, total_legal_debt_ok, Hd, Hn by done.
  pose proof (split_sum (accrued f at_) amount) as Hs. cbv zeta in Hs. rewrite <- Hal in Hs.
  split_and!; try done. f_equal; lia.
Qed.

(** Cash recovered from a written-off facility still settles its legal
    debt, through the same waterfall, and raises NAV by the cash that was owed
    (the excess is refunded). *)
Theorem recover_debt_nav fid at_ amount al v v' f :
  vwf v -> facilities v !! fid = Some f -> impaired f = true ->
  recover fid at_ amount v = (Ok al, v') ->
  total_legal_debt v' = Ok (debt_val (as_of v at_) - (amount - a_excess al)) /\
  nav v' = Ok (nav_val (as_of v at_) + (amount - a_excess al)) /\
  cash v' = cash v + (amount - a_excess al).
Proof.
  intros Hv Hf Himp H. pose proof (recover_keeps fid at_ amount v Hv) as Hv'. rewrite H in Hv'. cbn in Hv'.
  destruct (recover_effect _ _ _ _ _ _ Hv H) as (g & Hg & Hclk & Hle & Hal & Hck & Hc & Hd & Hn).
  assert (g = f) as -> by congruence. rewrite Himp in Hn.
  pose proof (split_sum (accrued f at_) amount) as Hs. cbv zeta in Hs. rewrite <- Hal in Hs.
  rewrite nav_ok, total_legal_debt_ok, Hd, Hn by done. split_and!; [done|f_equal; lia|lia].
Qed.

(** A write-off spends the borrower's reserve first, up to the debt.  The
    legal debt falls by the reserve spent and by nothing else; a performing
    facility leaves NAV with all of its performing value, and its own
    impairment is released (no double count); one already off the book only
    brings in the reserve. *)
Theorem write_off_debt_nav fid at_ v w v' :
  vwf v -> write_off fid at_ v = (Ok w, v') ->
  exists f, facilities v !! fid = Some f /\
    reserve_used w = Z.min (getz fid (borrower_reserve v)) (debt_at at_ f) /\
    total_legal_debt v' = Ok (debt_val (as_of v at_) - reserve_used w) /\
    nav v' = Ok (nav_val (as_of v at_) + reserve_used w
                 - (if impaired f then 0 else performing at_ f - getz fid (impairment_by v))) /\
    cash v' = cash v + reserve_used w.
Proof.
  intros Hv H. pose proof (write_off_keeps fid at_ v Hv) as Hv'. rewrite H in Hv'. cbn in Hv'.
  destruct (write_off_effect _ _ _ _ _ Hv H) as (f & Hf & Hclk & Hle & Hu & Hpos & Hf' & Hlp & Hli & Hc & Hd & Hn).
  exists f. by rewrite nav_ok, total_legal_debt_ok, Hd, Hn.
Qed.

(** Only cash that reached the vault counts.  A source receipt, a transfer
    leg and a funded borrower reserve leave cash, NAV and legal debt alone; a
    destination receipt moves its amount from in-flight to cash, raises NAV by
    it, and still leaves the legal debt alone. *)
Theorem pipeline_neutral sid amount v :
  vwf v ->
  (forall v', (source_receipt sid amount v = (Ok tt, v') \/ start_leg sid amount v = (Ok tt, v')
               \/ fund_reserve sid amount v = (Ok tt, v')) ->
     cash v' = cash v /\ nav v' = nav v /\ total_legal_debt v' = total_legal_debt v) /\
  (forall v', destination_receipt sid amount v = (Ok tt, v') ->
     amount <= getz sid (in_flight v) /\
     getz sid (in_flight v') = getz sid (in_flight v) - amount /\
     cash v' = cash v + amount /\ nav v' = Ok (nav_val v + amount) /\
     total_legal_debt v' = total_legal_debt v).
Proof.
  intros Hv.
  assert (Hsame : forall v', facilities v' = facilities v -> impairment_by v' = impairment_by v ->
    clock v' = clock v -> vwf v' ->
    nav v' = Ok (nav_val v + (cash v' - cash v)) /\ total_legal_debt v' = total_legal_debt v).
  { intros v' Hf Hi Hc Hv'. destruct (nav_val_cash v v' Hf Hi Hc) as [Hn Hd].
    by rewrite nav_ok, !total_legal_debt_ok, Hn, Hd. }
  split.
  - intros v' Hr.
    assert (Hk : vwf v' /\ facilities v' = facilities v /\ impairment_by v' = impairment_by v /\
                 clock v' = clock v /\ cash v' = cash v).
    { destruct Hr as [H|[H|H]];
        [pose proof (source_receipt_keeps sid amount v Hv) as Hv'
        |pose proof (start_leg_keeps sid amount v Hv) as Hv'
        |pose proof (fund_reserve_keeps sid amount v Hv) as Hv'];
        rewrite H in Hv'; (split; [exact Hv'|]).
      - unfold source_receipt, log_entry in H. by py_inv H.
      - unfold start_leg, log_entry in H. unfold bind at 1 in H. cbn [get] in H.
        destruct (_ <? amount); [done|]. py_inv H. by apply lift_add_at_Ok in H0 as (? & _ & _ & ->).
      - unfold fund_reserve, log_entry in H. by py_inv H. }
    destruct Hk as (Hv' & Hf & Hi & Hck & Hc). destruct (Hsame v' Hf Hi Hck Hv') as [Hn Hd].
    split_and!; [done| |done]. rewrite Hn, (nav_ok v Hv), Hc. f_equal. lia.
  - intros v' H. pose proof (destination_receipt_keeps sid amount v Hv) as Hv'. rewrite H in Hv'.
    unfold destination_receipt, log_entry in H. unfold bind at 1 in H. cbn [get] in H.
    destruct (Z.ltb_spec (getz sid (in_flight v)) amount) as [|Hle]; [done|].
    py_inv H. apply lift_add_at_Ok in H0 as (x & Hx & -> & ->).
    pose proof (fun a b c => Hsame _ a b c Hv') as Hs.
    destruct (Hs eq_refl eq_refl eq_refl) as [Hn Hd]. cbn in Hn.
    split_and!; try done.
    + unfold getz. by rewrite lookup_insert_eq, Hx.
    + rewrite Hn. f_equal. lia.
Qed.

Lemma div_round_trip a t n :
  0 < n -> 0 <= t -> 0 <= a -> a * t / n * (n + a) / (t + a * t / n) <= a.
Proof.
  intros Hn Ht Ha. set (q := a * t / n).
  assert (q * n <= a * t) by (subst q; pose proof (Z.mul_div_le (a * t) n Hn); lia).
  assert (0 <= q) by (apply Z.div_pos; nia).
  destruct (Z.eq_dec (t + q) 0) as [->|Hne]; [by rewrite Z.div_0_r|].
  apply Z.div_le_upper_bound; nia.
Qed.

Lemma virtual_deposit lp a v x v' :
  deposit lp a v = (Ok x, v') ->
  vwf v -> virtual_shares v' = virtual_shares v /\ virtual_assets v' = virtual_assets v /\
  total_shares v' = total_shares v + x.
Proof. intros H Hv. destruct (deposit_effect _ _ _ _ _ Hv H) as (_ & _ & _ & -> & _). done. Qed.

(** An LP cannot profit from depositing and withdrawing at once, and a
    deposit or a withdrawal never lowers the share price (NAV plus virtual
    assets per share) of the others: both conversions round down. *)
Theorem share_rounding lp a v x v1 y v2 :
  vwf v -> 0 < nav_val v + virtual_assets v -> 0 < total_shares v + virtual_shares v -> 0 <= a ->
  deposit lp a v = (Ok x, v1) -> withdraw lp x v1 = (Ok y, v2) ->
  y <= a /\
  (nav_val v + virtual_assets v) * (total_shares v1 + virtual_shares v1)
    <= (nav_val v1 + virtual_assets v1) * (total_shares v + virtual_shares v) /\
  (nav_val v1 + virtual_assets v1) * (total_shares v2 + virtual_shares v2)
    <= (nav_val v2 + virtual_assets v2) * (total_shares v1 + virtual_shares v1).
Proof.
  intros Hv Hn Ht Ha Hd Hw. pose proof (deposit_keeps lp a v Hv) as Hv1. rewrite Hd in Hv1. cbn in Hv1.
  destruct (deposit_effect _ _ _ _ _ Hv Hd) as (Hx & _ & Hxe & E1 & Hn1).
  destruct (withdraw_effect _ _ _ _ _ Hv1 Hw) as (_ & _ & _ & Hye & E2 & Hn2).
  assert (total_shares v2 = total_shares v /\ total_shares v1 = total_shares v + x /\
    virtual_shares v1 = virtual_shares v /\ virtual_shares v2 = virtual_shares v /\
    virtual_assets v1 = virtual_assets v /\ virtual_assets v2 = virtual_assets v) as (T2 & T1 & S1 & S2 & A1 & A2).
  { rewrite E2, E1. cbn. split_and!; try done. lia. }
  rewrite Hn1, T1, S1, A1 in *. rewrite Hn2, T2, S2, A2.
  set (n := nav_val v + virtual_assets v) in *. set (t := total_shares v + virtual_shares v) in *.
  replace (nav_val v + a + virtual_assets v) with (n + a) in * by (subst n; lia).
  replace (total_shares v + x + virtual_shares v) with (t + x) in * by (subst t; lia).
  assert (x * n <= a * t) by (rewrite Hxe; pose proof (Z.mul_div_le (a * t) n Hn); lia).
  assert (y * (t + x) <= x * (n + a)).
  { rewrite Hye. pose proof (Z.mul_div_le (x * (n + a)) (t + x)). lia. }
  split_and!; [|nia|nia].
  rewrite Hye, Hxe. apply div_round_trip; lia.
Qed.

(** A failing [recover] is not atomic: on a backdated or non-positive
    amount the method raises after the cash was credited, and the vault keeps
    the credit. *)
Theorem recover_failure_keeps_credit fid at_ amount v f :
  vwf v -> facilities v !! fid = Some f -> clock v <= at_ ->
  amount <= 0 \/ at_ < last_accrual_at f ->
  exists e, recover fid at_ amount v
            = (Raise e, (as_of v at_) <| cash ::= fun c => c + amount |>
                          <| facilities ::= <[fid := f]> |>).
Proof.
  intros Hv Hf Hclk Hbad. unfold recover, bind, facility_of. rewrite Hf.
  unfold tick, bind, get. destruct (Z.ltb_spec at_ (clock v)); [lia|]. unfold modify, on_facility.
  cbn [facilities set]. change (facilities _) with (facilities v) at 1. rewrite Hf.
  unfold allocate_repayment. destruct (Z.leb_spec amount 0) as [|Hpos]; [by eexists|].
  destruct Hbad as [|Hlt]; [lia|]. unfold bind. rewrite accrue_backwards by done. by eexists.
Qed.

(** ** The borrowing base *)

Definition base_counts (r : BaseReceivable) : bool :=
  mem_str (native_status r) ["NATIVE_ACCEPTED"; "CONSUMED"]
  && negb (mem_str (br_state r) ["PAID"; "CANCELLED"; "WRITTEN_OFF"]).

Lemma borrowing_base_eligible rs a c d r :
  eligible (borrowing_base rs a c d r) = sumz (br_unpaid <$> filter (fun x => base_counts x) rs).
Proof.
  unfold borrowing_base. cbn [eligible].
  enough (forall acc, fold_left _ rs acc = acc + sumz (br_unpaid <$> filter (fun x => base_counts x) rs)) as ->
    by lia.
  induction rs as [|x rs IH]; intros acc; cbn [fold_left]; [cbn; lia|].
  rewrite IH, filter_cons_bool.
  assert (Hx : base_counts x = mem_str (native_status x) ["NATIVE_ACCEPTED"; "CONSUMED"]
                 && negb (mem_str (br_state x) ["PAID"; "CANCELLED"; "WRITTEN_OFF"])) by done.
  destruct (base_counts x), (mem_str (native_status x) _), (mem_str (br_state x) _);
    try discriminate Hx; cbn [negb fmap list_fmap]; unfold sumz; cbn [foldr]; lia.
Qed.

(** The borrowing base counts exactly the accepted or consumed receivables
    that are not paid, cancelled or written off; a draw within the room keeps
    debt plus reservations within both the cap and the advance rate on them;
    no receivable outside them can raise the room. *)
Theorem borrowing_base_bounds rs advance cap debt reserved amount :
  0 <= advance -> 0 < amount ->
  let b := borrowing_base rs advance cap debt reserved in
  amount <= room b ->
  debt + reserved + amount <= cap /\
  BPS * (debt + reserved + amount)
    <= advance * sumz (br_unpaid <$> filter (fun x => base_counts x) rs) /\
  borrowing_base (filter (fun x => base_counts x) rs) advance cap debt reserved = b.
Proof.
  intros Ha Hpos b Hroom.
  pose proof (borrowing_base_eligible rs advance cap debt reserved) as He.
  pose proof (borrowing_base_eligible (filter (fun x => base_counts x) rs) advance cap debt reserved) as He2.
  set (e := sumz _) in He |- *.
  assert (Hb : forall l, eligible (borrowing_base l advance cap debt reserved) = e ->
    borrowing_base l advance cap debt reserved
    = {| eligible := e; limit_ := Z.min (e * advance / BPS) cap;
         room := Z.max 0 (Z.min (e * advance / BPS) cap - debt - reserved) |}).
  { intros l <-. done. }
  subst b. rewrite (Hb rs He) in *. cbn in Hroom.
  assert (BPS * (e * advance / BPS) <= e * advance) by (apply Z.mul_div_le; done).
  unfold BPS in *. split_and!; [lia|lia|]. apply Hb. rewrite He2.
  rewrite list_filter_filter_l by done. done.
Qed.

(** * Witnesses *)

Definition run_vops (ops : list vop) (v : VaultLedger) : VaultLedger :=
  fold_left (fun v op => (run_vop op v).2) ops v.

Lemma run_vops_steps ops v : Forall vop_ok ops -> rtc vstep v (run_vops ops v).
Proof.
  intros Hops. revert v. induction Hops as [|op ops Hop _ IH]; intros v; [constructor|].
  eapply rtc_l; [|apply IH]. by exists op.
Qed.

(** Two deposits, a draw, a partly delivered settlement, a repayment, an impairment. *)
Definition ops0 : list vop :=
  [VDeposit "alice" 1000000; VDeposit "bob" 500000; VOpen "F1" terms0 1000; VDraw "F1" 1000 400000;
   VSourceReceipt "S1" 90000; VStartLeg "S1" 60000; VDestinationReceipt "S1" 50000;
   VRepayFor "F1" 1010 50000 "destination"; VFundReserve "F1" 7000; VImpair "F1" 100000].
Definition v0 : VaultLedger := run_vops ops0 empty_vault.
Definition v_drawn : VaultLedger := (draw "F1" 1020 1000 v0).2.
Definition v_repaid : VaultLedger := (repay_for "F1" 1020 1000 "third_party" v0).2.
Definition v_off : VaultLedger := (write_off "F1" 1020 v0).2.
Definition v_recovered : VaultLedger := (recover "F1" 1030 900000 v_off).2.
Definition v_dep : VaultLedger := (deposit "alice" 777 v0).2.
Definition v_wd : VaultLedger := (withdraw "alice" 832499 v_dep).2.

Lemma ops0_ok : Forall vop_ok ops0.
Proof. by repeat constructor. Qed.

Lemma v0_vwf : vwf v0.
Proof. apply (vsteps_vwf empty_vault); [apply run_vops_steps, ops0_ok|apply empty_vault_vwf]. Qed.

Lemma v_off_vwf : vwf v_off.
Proof. apply write_off_keeps, v0_vwf. Qed.

(** Computes the outcome of a run, not the state it leaves. *)
Ltac run_eval :=
  lazymatch goal with |- _ = (_, ?t) => try (is_const t; unfold t) end;
  apply run_Ok; vm_compute; reflexivity.


Lemma draw_moves_cash_to_debt_witness :
  draw "F1" 1020 1000 v0 = (Ok tt, v_drawn) /\
  exists f, facilities v0 !! "F1"%string = Some f /\ 0 < 1000 <= cash v0 /\ clock v0 <= 1020 /\
    nav v_drawn = Ok (nav_val (as_of v0 1020) - (if impaired f then 1000 else 0)) /\
    total_legal_debt v_drawn = Ok (debt_val (as_of v0 1020) + 1000).
Proof.
  assert (H : draw "F1" 1020 1000 v0 = (Ok tt, v_drawn)) by run_eval.
  split; [exact H|]. exact (draw_moves_cash_to_debt "F1" 1020 1000 tt v0 v_drawn v0_vwf H).
Defined.

Lemma repay_for_debt_nav_witness :
  nav v_repaid = nav (as_of v0 1020) /\ total_legal_debt v_repaid = Ok 349000.
Proof.
  assert (H : exists al, repay_for "F1" 1020 1000 "third_party" v0 = (Ok al, v_repaid))
    by (eexists; run_eval).
  destruct H as [al H].
  destruct (repay_for_debt_nav _ _ _ _ _ _ _ v0_vwf H) as (f & Hf & -> & _ & Hd & Hn).
  rewrite Hd, Hn, nav_ok by apply as_of_vwf, v0_vwf. 
  vm_compute in Hf. injection Hf as <-. split; vm_compute; reflexivity.
Defined.

Lemma recover_debt_nav_witness :
  total_legal_debt v_recovered = Ok 0 /\ nav v_recovered = Ok (nav_val (as_of v_off 1030) + 343000).
Proof.
  assert (H : exists al, a_excess al = 557000 /\ recover "F1" 1030 900000 v_off = (Ok al, v_recovered)).
  { eexists. split; [|run_eval]. reflexivity. }
  destruct H as (al & Hal & H).
  assert (Hf : exists f, facilities v_off !! "F1"%string = Some f /\ impaired f = true)
    by (eexists; split; [vm_compute; reflexivity|reflexivity]).
  destruct Hf as (f & Hf & Hi).
  destruct (recover_debt_nav _ _ _ _ _ _ f v_off_vwf Hf Hi H) as (Hd & Hn & _).
  rewrite Hd, Hn, Hal. split; [vm_compute; reflexivity|reflexivity].
Defined.

Lemma write_off_debt_nav_witness :
  total_legal_debt v_off = Ok 343000 /\ nav v_off = Ok 1157000.
Proof.
  assert (H : exists w, reserve_used w = 7000 /\ write_off "F1" 1020 v0 = (Ok w, v_off)).
  { eexists. split; [|run_eval]. reflexivity. }
  destruct H as (w & Hw & H).
  destruct (write_off_debt_nav _ _ _ _ _ v0_vwf H) as (f & Hf & _ & Hd & Hn & _).
  rewrite Hd, Hn, Hw. vm_compute in Hf. injection Hf as <-. split; vm_compute; reflexivity.
Defined.

Lemma pipeline_neutral_witness :
  nav ((destination_receipt "S1" 10000 v0).2) = Ok 1410000 /\
  nav ((start_leg "S1" 30000 v0).2) = Ok 1400000.
Proof.
  split.
  - assert (H : destination_receipt "S1" 10000 v0 = (Ok tt, (destination_receipt "S1" 10000 v0).2)) by run_eval.
    apply (proj2 (pipeline_neutral "S1" 10000 v0 v0_vwf)) in H as (_ & _ & _ & -> & _). vm_compute; reflexivity.
  - assert (H : start_leg "S1" 30000 v0 = (Ok tt, (start_leg "S1" 30000 v0).2)) by run_eval.
    destruct (proj1 (pipeline_neutral "S1" 30000 v0 v0_vwf) _ (or_intror (or_introl H))) as (_ & -> & _).
    vm_compute; reflexivity.
Defined.

Lemma share_rounding_witness :
  exists y, withdraw "alice" 832499 v_dep = (Ok y, v_wd) /\ y <= 777.
Proof.
  assert (Hd : deposit "alice" 777 v0 = (Ok 832499, v_dep)) by run_eval.
  assert (Hw : exists y, withdraw "alice" 832499 v_dep = (Ok y, v_wd)) by (eexists; run_eval).
  destruct Hw as [y Hw]. exists y. split; [exact Hw|].
  assert (Hn : 0 < nav_val v0 + virtual_assets v0) by (vm_compute; reflexivity).
  assert (Ht : 0 < total_shares v0 + virtual_shares v0) by (vm_compute; reflexivity).
  exact (proj1 (share_rounding "alice" 777 v0 832499 v_dep y v_wd v0_vwf Hn Ht (Zle_0_pos 777) Hd Hw)).
Defined.

Lemma recover_failure_keeps_credit_witness :
  exists e, (recover "F1" 1020 (-5) v0).1 = Raise e /\ cash (recover "F1" 1020 (-5) v0).2 = cash v0 - 5.
Proof.
  destruct (facilities v0 !! "F1"%string) as [f|] eqn:Hf; [|by vm_compute in Hf].
  destruct (recover_failure_keeps_credit "F1" 1020 (-5) v0 f v0_vwf Hf) as [e He];
    [by vm_compute|by left|]. exists e. rewrite He. split; vm_compute; reflexivity.
Defined.

Definition base_rs : list BaseReceivable :=
  [{| native_status := "CONSUMED"; br_state := "OPEN"; br_unpaid := 1000 |};
   {| native_status := "PROOF_VERIFIED"; br_state := "OPEN"; br_unpaid := 5000 |};
   {| native_status := "NATIVE_ACCEPTED"; br_state := "PAID"; br_unpaid := 700 |}].

Lemma borrowing_base_bounds_witness :
  room (borrowing_base base_rs 8000 2000 300 100) = 400 /\
  BPS * (300 + 100 + 400) <= 8000 * 1000.
Proof.
  split; [reflexivity|].
  destruct (borrowing_base_bounds base_rs 8000 2000 300 100 400) as (_ & H & _);
    [done|done|by vm_compute|exact H].
Defined.
End Vault.
