(* ===== verification/Domain.v ===== *)
(** The shared vocabulary: the fixed enumerations of the domain and exact money.

    Sources: offchain/gpu/hashcredit_gpu/domain/enums.py and domain/money.py.
    An enumeration is an inductive type with an instance of [StrEnum] (the
    members' string values, which the database columns and the JSON schema
    hold); [Money] is a string of digits with its asset, and its arithmetic
    goes through the decimal printer and parser. *)

From S2P Require Import Prelude.
From Stdlib Require Import DecimalString DecimalZ Decimal.

Module Domain.

(** * Enumerations *)

(** What Python's [StrEnum] promises: every member has a value, no two share one. *)
Class StrEnum (E : Type) := {
  value : E -> string;
  members : list E;
  members_complete : forall e, In e members;
  value_inj : forall e e', value e = value e' -> e = e';
}.

(** [E(s)]: the member with value [s], or ValueError. *)
Definition of_value {E} `{StrEnum E} (s : string) : option E :=
  List.find (fun e => String.eqb (value e) s) members.

Lemma of_value_value {E} `{StrEnum E} (e : E) : of_value (value e) = Some e.
Proof.
  unfold of_value. destruct (List.find _ members) as [e'|] eqn:Hf.
  - apply find_some in Hf as [_ Heq%String.eqb_eq]. f_equal. by apply value_inj.
  - pose proof (find_none _ _ Hf e (members_complete e)) as Hn. cbv beta in Hn. by rewrite String.eqb_refl in Hn.
Qed.

Lemma of_value_Some {E} `{StrEnum E} s (e : E) : of_value s = Some e -> value e = s.
Proof. intros [_ Heq%String.eqb_eq]%find_some. done. Qed.

Ltac enum_tac :=
  simpl; first [ by intros []; simpl; tauto | by intros [] [] ].

(** Models [domain/enums.py], [ExecutionProfile]. *)
Inductive ExecutionProfile :=
| EP_LOCAL_MOCK
| EP_NATIVE_TESTNET
| EP_PRODUCTION.

#[export] Instance ExecutionProfile_eq_dec : EqDecision ExecutionProfile.
Proof. solve_decision. Defined.

#[export] Program Instance ExecutionProfile_enum : StrEnum ExecutionProfile := {|
  value x := match x with
    | EP_LOCAL_MOCK => "LOCAL_MOCK"
    | EP_NATIVE_TESTNET => "NATIVE_TESTNET"
    | EP_PRODUCTION => "PRODUCTION"
    end%string;
  members := [EP_LOCAL_MOCK; EP_NATIVE_TESTNET; EP_PRODUCTION];
|}.
Solve Obligations with enum_tac.

(** Models [domain/enums.py], [VerificationMethod]. *)
Inductive VerificationMethod :=
| VM_ATTESTCOIN_NATIVE
| VM_LOCAL_MOCK
| VM_OFFCHAIN_ASSERTION.

#[export] Instance VerificationMethod_eq_dec : EqDecision VerificationMethod.
Proof. solve_decision. Defined.

#[export] Program Instance VerificationMethod_enum : StrEnum VerificationMethod := {|
  value x := match x with
    | VM_ATTESTCOIN_NATIVE => "ATTESTCOIN_NATIVE"
    | VM_LOCAL_MOCK => "LOCAL_MOCK"
    | VM_OFFCHAIN_ASSERTION => "OFFCHAIN_ASSERTION"
    end%string;
  members := [VM_ATTESTCOIN_NATIVE; VM_LOCAL_MOCK; VM_OFFCHAIN_ASSERTION];
|}.
Solve Obligations with enum_tac.

(** Models [domain/enums.py], [NativeStatus]. *)
Inductive NativeStatus :=
| NS_NOT_REQUIRED
| NS_NOT_REQUESTED
| NS_OBSERVED
| NS_WAITING_ATTESTATION
| NS_PROOF_READY
| NS_SUBMITTED
| NS_NATIVE_ACCEPTED
| NS_CONSUMED
| NS_INVALID
| NS_UNSUPPORTED
| NS_EXPIRED.

#[export] Instance NativeStatus_eq_dec : EqDecision NativeStatus.
Proof. solve_decision. Defined.

#[export] Program Instance NativeStatus_enum : StrEnum NativeStatus := {|
  value x := match x with
    | NS_NOT_REQUIRED => "NOT_REQUIRED"
    | NS_NOT_REQUESTED => "NOT_REQUESTED"
    | NS_OBSERVED => "OBSERVED"
    | NS_WAITING_ATTESTATION => "WAITING_ATTESTATION"
    | NS_PROOF_READY => "PROOF_READY"
    | NS_SUBMITTED => "SUBMITTED"
    | NS_NATIVE_ACCEPTED => "NATIVE_ACCEPTED"
    | NS_CONSUMED => "CONSUMED"
    | NS_INVALID => "INVALID"
    | NS_UNSUPPORTED => "UNSUPPORTED"
    | NS_EXPIRED => "EXPIRED"
    end%string;
  members := [NS_NOT_REQUIRED; NS_NOT_REQUESTED; NS_OBSERVED; NS_WAITING_ATTESTATION; NS_PROOF_READY; NS_SUBMITTED; NS_NATIVE_ACCEPTED; NS_CONSUMED; NS_INVALID; NS_UNSUPPORTED; NS_EXPIRED];
|}.
Solve Obligations with enum_tac.

(** Models [domain/enums.py], [EarningsProvenance]. *)
Inductive EarningsProvenance :=
| PR_UNCLASSIFIED
| PR_PROVIDER_SETTLEMENT
| PR_PROVIDER_INCENTIVE
| PR_SELF_TRANSFER
| PR_THIRD_PARTY_UNKNOWN
| PR_REFUND_OR_REVERSAL
| PR_SIMULATED.

#[export] Instance EarningsProvenance_eq_dec : EqDecision EarningsProvenance.
Proof. solve_decision. Defined.

#[export] Program Instance EarningsProvenance_enum : StrEnum EarningsProvenance := {|
  value x := match x with
    | PR_UNCLASSIFIED => "UNCLASSIFIED"
    | PR_PROVIDER_SETTLEMENT => "PROVIDER_SETTLEMENT"
    | PR_PROVIDER_INCENTIVE => "PROVIDER_INCENTIVE"
    | PR_SELF_TRANSFER => "SELF_TRANSFER"
    | PR_THIRD_PARTY_UNKNOWN => "THIRD_PARTY_UNKNOWN"
    | PR_REFUND_OR_REVERSAL => "REFUND_OR_REVERSAL"
    | PR_SIMULATED => "SIMULATED"
    end%string;
  members := [PR_UNCLASSIFIED; PR_PROVIDER_SETTLEMENT; PR_PROVIDER_INCENTIVE; PR_SELF_TRANSFER; PR_THIRD_PARTY_UNKNOWN; PR_REFUND_OR_REVERSAL; PR_SIMULATED];
|}.
Solve Obligations with enum_tac.

(** Models [domain/enums.py], [ControlGrade]. *)
Inductive ControlGrade :=
| CG_E0
| CG_E1
| CG_E2
| CG_E3.

#[export] Instance ControlGrade_eq_dec : EqDecision ControlGrade.
Proof. solve_decision. Defined.

#[export] Program Instance ControlGrade_enum : StrEnum ControlGrade := {|
  value x := match x with
    | CG_E0 => "E0"
    | CG_E1 => "E1"
    | CG_E2 => "E2"
    | CG_E3 => "E3"
    end%string;
  members := [CG_E0; CG_E1; CG_E2; CG_E3];
|}.
Solve Obligations with enum_tac.

(** Models [domain/enums.py], [CashState]. *)
Inductive CashState :=
| CS_NONE
| CS_SOURCE_ESCROW
| CS_IN_FLIGHT
| CS_DESTINATION_RECEIVED
| CS_ALLOCATED
| CS_RETURNED.

#[export] Instance CashState_eq_dec : EqDecision CashState.
Proof. solve_decision. Defined.

#[export] Program Instance CashState_enum : StrEnum CashState := {|
  value x := match x with
    | CS_NONE => "NONE"
    | CS_SOURCE_ESCROW => "SOURCE_ESCROW"
    | CS_IN_FLIGHT => "IN_FLIGHT"
    | CS_DESTINATION_RECEIVED => "DESTINATION_RECEIVED"
    | CS_ALLOCATED => "ALLOCATED"
    | CS_RETURNED => "RETURNED"
    end%string;
  members := [CS_NONE; CS_SOURCE_ESCROW; CS_IN_FLIGHT; CS_DESTINATION_RECEIVED; CS_ALLOCATED; CS_RETURNED];
|}.
Solve Obligations with enum_tac.

(** Models [domain/enums.py], [EnvironmentStatus]. *)
Inductive EnvironmentStatus :=
| ES_UNCONFIRMED
| ES_PROBED
| ES_UNSUPPORTED.

#[export] Instance EnvironmentStatus_eq_dec : EqDecision EnvironmentStatus.
Proof. solve_decision. Defined.

#[export] Program Instance EnvironmentStatus_enum : StrEnum EnvironmentStatus := {|
  value x := match x with
    | ES_UNCONFIRMED => "UNCONFIRMED"
    | ES_PROBED => "PROBED"
    | ES_UNSUPPORTED => "UNSUPPORTED"
    end%string;
  members := [ES_UNCONFIRMED; ES_PROBED; ES_UNSUPPORTED];
|}.
Solve Obligations with enum_tac.

(** Models [domain/enums.py], [FacilityState]. *)
Inductive FacilityState :=
| FS_DRAFT
| FS_UNDER_REVIEW
| FS_CONTROL_PENDING
| FS_ACTIVE
| FS_DRAW_FROZEN
| FS_DELINQUENT
| FS_DEFAULTED
| FS_RECOVERY
| FS_REPAID
| FS_RELEASED
| FS_CLOSED_WITH_LOSS.

#[export] Instance FacilityState_eq_dec : EqDecision FacilityState.
Proof. solve_decision. Defined.

#[export] Program Instance FacilityState_enum : StrEnum FacilityState := {|
  value x := match x with
    | FS_DRAFT => "DRAFT"
    | FS_UNDER_REVIEW => "UNDER_REVIEW"
    | FS_CONTROL_PENDING => "CONTROL_PENDING"
    | FS_ACTIVE => "ACTIVE"
    | FS_DRAW_FROZEN => "DRAW_FROZEN"
    | FS_DELINQUENT => "DELINQUENT"
    | FS_DEFAULTED => "DEFAULTED"
    | FS_RECOVERY => "RECOVERY"
    | FS_REPAID => "REPAID"
    | FS_RELEASED => "RELEASED"
    | FS_CLOSED_WITH_LOSS => "CLOSED_WITH_LOSS"
    end%string;
  members := [FS_DRAFT; FS_UNDER_REVIEW; FS_CONTROL_PENDING; FS_ACTIVE; FS_DRAW_FROZEN; FS_DELINQUENT; FS_DEFAULTED; FS_RECOVERY; FS_REPAID; FS_RELEASED; FS_CLOSED_WITH_LOSS];
|}.
Solve Obligations with enum_tac.

(** Models [domain/enums.py], [ReceivableState]. *)
Inductive ReceivableState :=
| RS_RECOGNIZED
| RS_ASSIGNED
| RS_PARTIALLY_PAID
| RS_PAID
| RS_DISPUTED
| RS_CANCELLED
| RS_WRITTEN_OFF.

#[export] Instance ReceivableState_eq_dec : EqDecision ReceivableState.
Proof. solve_decision. Defined.

#[export] Program Instance ReceivableState_enum : StrEnum ReceivableState := {|
  value x := match x with
    | RS_RECOGNIZED => "RECOGNIZED"
    | RS_ASSIGNED => "ASSIGNED"
    | RS_PARTIALLY_PAID => "PARTIALLY_PAID"
    | RS_PAID => "PAID"
    | RS_DISPUTED => "DISPUTED"
    | RS_CANCELLED => "CANCELLED"
    | RS_WRITTEN_OFF => "WRITTEN_OFF"
    end%string;
  members := [RS_RECOGNIZED; RS_ASSIGNED; RS_PARTIALLY_PAID; RS_PAID; RS_DISPUTED; RS_CANCELLED; RS_WRITTEN_OFF];
|}.
Solve Obligations with enum_tac.

(** Models [domain/enums.py], [SettlementState]. *)
Inductive SettlementState :=
| SS_ANNOUNCED
| SS_PAID_AT_SOURCE
| SS_CONVERTING
| SS_RECEIVED_AT_DESTINATION
| SS_ALLOCATED
| SS_REVERSED.

#[export] Instance SettlementState_eq_dec : EqDecision SettlementState.
Proof. solve_decision. Defined.

#[export] Program Instance SettlementState_enum : StrEnum SettlementState := {|
  value x := match x with
    | SS_ANNOUNCED => "ANNOUNCED"
    | SS_PAID_AT_SOURCE => "PAID_AT_SOURCE"
    | SS_CONVERTING => "CONVERTING"
    | SS_RECEIVED_AT_DESTINATION => "RECEIVED_AT_DESTINATION"
    | SS_ALLOCATED => "ALLOCATED"
    | SS_REVERSED => "REVERSED"
    end%string;
  members := [SS_ANNOUNCED; SS_PAID_AT_SOURCE; SS_CONVERTING; SS_RECEIVED_AT_DESTINATION; SS_ALLOCATED; SS_REVERSED];
|}.
Solve Obligations with enum_tac.

(** Models [domain/enums.py], [AssetKind]. *)
Inductive AssetKind :=
| AK_PHYSICAL_GPU
| AK_MIG_PARTITION
| AK_VGPU
| AK_VM
| AK_CONTAINER
| AK_STAKING_GROUP
| AK_NODE_NFT.

#[export] Instance AssetKind_eq_dec : EqDecision AssetKind.
Proof. solve_decision. Defined.

#[export] Program Instance AssetKind_enum : StrEnum AssetKind := {|
  value x := match x with
    | AK_PHYSICAL_GPU => "PHYSICAL_GPU"
    | AK_MIG_PARTITION => "MIG_PARTITION"
    | AK_VGPU => "VGPU"
    | AK_VM => "VM"
    | AK_CONTAINER => "CONTAINER"
    | AK_STAKING_GROUP => "STAKING_GROUP"
    | AK_NODE_NFT => "NODE_NFT"
    end%string;
  members := [AK_PHYSICAL_GPU; AK_MIG_PARTITION; AK_VGPU; AK_VM; AK_CONTAINER; AK_STAKING_GROUP; AK_NODE_NFT];
|}.
Solve Obligations with enum_tac.

(** Models [domain/enums.py], [EconomicEventType]. *)
Inductive EconomicEventType :=
| EV_OBLIGATION
| EV_ASSIGNMENT
| EV_CORRECTION
| EV_PAYOUT
| EV_CANCELLATION
| EV_REFUND.

#[export] Instance EconomicEventType_eq_dec : EqDecision EconomicEventType.
Proof. solve_decision. Defined.

#[export] Program Instance EconomicEventType_enum : StrEnum EconomicEventType := {|
  value x := match x with
    | EV_OBLIGATION => "OBLIGATION"
    | EV_ASSIGNMENT => "ASSIGNMENT"
    | EV_CORRECTION => "CORRECTION"
    | EV_PAYOUT => "PAYOUT"
    | EV_CANCELLATION => "CANCELLATION"
    | EV_REFUND => "REFUND"
    end%string;
  members := [EV_OBLIGATION; EV_ASSIGNMENT; EV_CORRECTION; EV_PAYOUT; EV_CANCELLATION; EV_REFUND];
|}.
Solve Obligations with enum_tac.

(** Models [domain/enums.py], [Trust]. *)
Inductive Trust :=
| TR_PROVEN
| TR_ASSERTED
| TR_OBSERVED
| TR_CLAIMED.

#[export] Instance Trust_eq_dec : EqDecision Trust.
Proof. solve_decision. Defined.

#[export] Program Instance Trust_enum : StrEnum Trust := {|
  value x := match x with
    | TR_PROVEN => "PROVEN"
    | TR_ASSERTED => "ASSERTED"
    | TR_OBSERVED => "OBSERVED"
    | TR_CLAIMED => "CLAIMED"
    end%string;
  members := [TR_PROVEN; TR_ASSERTED; TR_OBSERVED; TR_CLAIMED];
|}.
Solve Obligations with enum_tac.

(** Models [domain/enums.py], [Role]. *)
Inductive Role :=
| RO_BORROWER
| RO_LP
| RO_UNDERWRITER
| RO_OPERATOR
| RO_KEEPER
| RO_GUARDIAN
| RO_TREASURY
| RO_SYSTEM.

#[export] Instance Role_eq_dec : EqDecision Role.
Proof. solve_decision. Defined.

#[export] Program Instance Role_enum : StrEnum Role := {|
  value x := match x with
    | RO_BORROWER => "borrower"
    | RO_LP => "lp"
    | RO_UNDERWRITER => "underwriter"
    | RO_OPERATOR => "operator"
    | RO_KEEPER => "keeper"
    | RO_GUARDIAN => "guardian"
    | RO_TREASURY => "treasury"
    | RO_SYSTEM => "system"
    end%string;
  members := [RO_BORROWER; RO_LP; RO_UNDERWRITER; RO_OPERATOR; RO_KEEPER; RO_GUARDIAN; RO_TREASURY; RO_SYSTEM];
|}.
Solve Obligations with enum_tac.

(** * Money *)

(** A character of [0-9a-fA-F]. *)
Definition is_hex (a : ascii) : bool :=
  let n := nat_of_ascii a in
  ((48 <=? n) && (n <=? 57) || (65 <=? n) && (n <=? 70) || (97 <=? n) && (n <=? 102))%nat.

(** [str.lower] on one ASCII character. *)
Definition lower_ascii (a : ascii) : ascii :=
  let n := nat_of_ascii a in
  if ((65 <=? n) && (n <=? 90))%nat then ascii_of_nat (n + 32) else a.

Fixpoint string_map (f : ascii -> ascii) (s : string) : string :=
  match s with
  | EmptyString => EmptyString
  | String a s' => String (f a) (string_map f s')
  end.

Fixpoint string_forallb (p : ascii -> bool) (s : string) : bool :=
  match s with
  | EmptyString => true
  | String a s' => p a && string_forallb p s'
  end.

Definition lower (s : string) : string := string_map lower_ascii s.

Definition newline : string := String (ascii_of_nat 10) EmptyString.

(** Drops one trailing newline. *)
Fixpoint strip_nl (s : string) : string :=
  match s with
  | EmptyString => EmptyString
  | String a EmptyString => if Ascii.eqb a "010" then EmptyString else s
  | String a s' => String a (strip_nl s')
  end.

(** A pattern [^...$] under [re.match]: [$] also matches before one trailing
    newline. *)
Definition match_dollar (body : string -> bool) (s : string) : bool :=
  body s || body (strip_nl s).

(** Models [domain/money.py], [_INT_RE]. *)
Definition INT_RE (s : string) : bool :=
  match_dollar (fun s => if NilZero.int_of_string s is Some _ then true else false) s.

(** Models [domain/money.py], [_ADDR_RE]. *)
Definition ADDR_RE (s : string) : bool :=
  match_dollar (fun s => match s with
    | String a (String b h) =>
        Ascii.eqb a "0" && Ascii.eqb b "x" && Nat.eqb (String.length h) 40 && string_forallb is_hex h
    | _ => false
    end) s.

(** Models [domain/money.py], [AssetRef], lines 13-17. *)
Record AssetRef := { chain_id : Z; address : option string; symbol : string; decimals : Z }.

#[export] Instance AssetRef_eq_dec : EqDecision AssetRef.
Proof. solve_decision. Defined.

(** Models [domain/money.py], [AssetRef._addr]. *)
Definition addr_validator (v : option string) : res (option string) :=
  match v with
  | None => Ok None
  | Some a => if ADDR_RE a then Ok (Some (lower a))
              else Raise (Exn ValueError "address must be 0x + 40 hex chars")
  end.

(** The constructor: the field bounds and the address validator. *)
Definition make_asset (chain : Z) (addr : option string) (sym : string) (dec : Z) : res AssetRef :=
  if (chain <? 1) || (dec <? 0) || (36 <? dec) then Raise (Exn ValueError "field bound")
  else match addr_validator addr with
       | Ok a => Ok {| chain_id := chain; address := a; symbol := sym; decimals := dec |}
       | Raise e => Raise e
       end.

(** Models [domain/money.py], [AssetRef.key]. *)
Definition asset_key (a : AssetRef) : Z * string * Z :=
  (chain_id a, default "" (address a), decimals a).

(** Models [domain/money.py], [Money], lines 33-35. *)
Record Money := { amount : string; asset : AssetRef }.

(** Models [domain/money.py], [Money._amount]. *)
Definition make_money (a : string) (x : AssetRef) : res Money :=
  if INT_RE a then Ok {| amount := a; asset := x |}
  else Raise (Exn ValueError "amount must be an integer string in base units").

(** [int(s)] on a string the pattern accepts: a trailing newline is dropped.
    (CPython's limit of 4300 digits is left out.) *)
Definition py_int (s : string) : res Z :=
  match NilZero.int_of_string (strip_nl s) with
  | Some d => Ok (Z.of_int d)
  | None => Raise (Exn ValueError "invalid literal for int()")
  end.

(** [str(n)] *)
Definition py_str (n : Z) : string := NilZero.string_of_int (Z.to_int n).

(** Models [domain/money.py], [Money.units]. *)
Definition units (m : Money) : res Z := py_int (amount m).

(** Models [domain/money.py], [Money._same_asset]. *)
Definition same_asset (m o : Money) : res unit :=
  if decide (asset_key (asset m) = asset_key (asset o)) then Ok tt
  else Raise (Exn ValueError "cannot combine different assets").

(** Models [domain/money.py], [Money.__add__]. *)
Definition money_add (m o : Money) : res Money :=
  rbind (same_asset m o) (fun _ =>
  rbind (units m) (fun x =>
  rbind (units o) (fun y => make_money (py_str (x + y)) (asset m)))).

(** Models [domain/money.py], [Money.__sub__]. *)
Definition money_sub (m o : Money) : res Money :=
  rbind (same_asset m o) (fun _ =>
  rbind (units m) (fun x =>
  rbind (units o) (fun y => make_money (py_str (x - y)) (asset m)))).

(** * Decimal round trips *)

Lemma strip_nl_cons a s : s <> EmptyString -> strip_nl (String a s) = String a (strip_nl s).
Proof. by destruct s. Qed.

Lemma strip_nl_uint d : strip_nl (NilEmpty.string_of_uint d) = NilEmpty.string_of_uint d.
Proof.
  induction d as [|d IH|d IH|d IH|d IH|d IH|d IH|d IH|d IH|d IH|d IH]; [done|..];
    cbn [NilEmpty.string_of_uint];
    (destruct (NilEmpty.string_of_uint d) eqn:Hd; [done|]; rewrite strip_nl_cons by done; by rewrite IH).
Qed.

Lemma strip_nl_string_of_int d : strip_nl (NilZero.string_of_int d) = NilZero.string_of_int d.
Proof.
  assert (Hu : forall u, strip_nl (NilZero.string_of_uint u) = NilZero.string_of_uint u).
  { intros []; [done|..]; apply strip_nl_uint. }
  destruct d as [u|u]; [apply Hu|]. cbn [NilZero.string_of_int].
  rewrite strip_nl_cons; [by rewrite Hu|]. by destruct u.
Qed.

Lemma strip_nl_int s d : NilZero.int_of_string s = Some d -> strip_nl s = s.
Proof. intros <-%NilZero.sis. apply strip_nl_string_of_int. Qed.

Lemma int_of_py_str n : exists d, NilZero.int_of_string (py_str n) = Some d /\ Z.of_int d = n.
Proof.
  unfold py_str. exists (Z.to_int n). rewrite DecimalZ.of_to. split; [|done].
  apply NilZero.isi.
  - destruct n; cbn; [done| |done]. intros [= Hn]. by apply (DecimalPos.Unsigned.to_uint_nonnil p).
  - destruct n; cbn; [done|done|]. intros [= Hn]. by apply (DecimalPos.Unsigned.to_uint_nonnil p).
Qed.

Lemma py_int_str n : py_int (py_str n) = Ok n.
Proof.
  destruct (int_of_py_str n) as (d & Hd & Hn). unfold py_int. rewrite (strip_nl_int _ _ Hd), Hd.
  by rewrite Hn.
Qed.

Lemma INT_RE_py_str n : INT_RE (py_str n) = true.
Proof. destruct (int_of_py_str n) as (d & Hd & _). unfold INT_RE, match_dollar. by rewrite Hd. Qed.

Lemma INT_RE_py_int s : INT_RE s = true -> exists n, py_int s = Ok n.
Proof.
  unfold INT_RE, match_dollar, py_int. intros H.
  destruct (NilZero.int_of_string (strip_nl s)) as [d|] eqn:Hd; [by eexists|].
  destruct (NilZero.int_of_string s) as [d|] eqn:Hs; [|done].
  rewrite (strip_nl_int _ _ Hs) in Hd. congruence.
Qed.

(** * Properties *)

(** Money arithmetic is exact and asset-safe: on two valid amounts it
    succeeds exactly when the assets have the same key, the result holds the
    exact sum (difference) in canonical decimal form, of the left asset, and is
    itself valid; with another asset it raises ValueError. *)
Theorem money_exact m o :
  INT_RE (amount m) = true -> INT_RE (amount o) = true ->
  exists x y, units m = Ok x /\ units o = Ok y /\
  (asset_key (asset m) = asset_key (asset o) ->
     money_add m o = Ok {| amount := py_str (x + y); asset := asset m |} /\
     money_sub m o = Ok {| amount := py_str (x - y); asset := asset m |} /\
     units {| amount := py_str (x + y); asset := asset m |} = Ok (x + y) /\
     units {| amount := py_str (x - y); asset := asset m |} = Ok (x - y) /\
     INT_RE (py_str (x + y)) = true) /\
  (asset_key (asset m) <> asset_key (asset o) ->
     money_add m o = Raise (Exn ValueError "cannot combine different assets") /\
     money_sub m o = Raise (Exn ValueError "cannot combine different assets")).
Proof.
  intros [x Hx]%INT_RE_py_int [y Hy]%INT_RE_py_int. exists x, y.
  split; [exact Hx|]. split; [exact Hy|].
  unfold money_add, money_sub, same_asset, rbind, units, make_money. rewrite Hx, Hy. split; intros Hk.
  - rewrite decide_True by done. cbn [amount asset]. by rewrite !INT_RE_py_str, !py_int_str.
  - by rewrite decide_False.
Qed.

(** The validators accept one trailing newline: [re.match] with [^...$]
    lets a base-units amount and an address end in a newline, which the address
    keeps (so two references to one contract can have different keys). *)
Theorem dollar_accepts_newline s :
  (forall d, NilZero.int_of_string s = Some d -> INT_RE (s ++ newline) = true) /\
  (ADDR_RE s = true -> strip_nl s = s ->
   addr_validator (Some (s ++ newline)%string) = Ok (Some (lower s ++ newline)%string)).
Proof.
  assert (Hsn : strip_nl (s ++ newline)%string = s).
  { induction s as [|a s IH]; [done|]. destruct s as [|b s]; [done|].
    change ((String a (String b s) ++ newline)%string) with (String a (String b s ++ newline)%string).
    rewrite strip_nl_cons by done. by rewrite IH. }
  assert (Hl : lower (s ++ newline)%string = (lower s ++ newline)%string).
  { clear. unfold lower. induction s as [|a s IH]; [done|].
    exact (f_equal (String (lower_ascii a)) IH). }
  split.
  - intros d Hd. unfold INT_RE, match_dollar. rewrite Hsn, Hd. apply orb_true_r.
  - intros Ha Hs. unfold addr_validator, ADDR_RE, match_dollar in *. rewrite Hsn. rewrite Hs in Ha.
    rewrite orb_diag in Ha. rewrite Ha, orb_true_r. by rewrite Hl.
Qed.

(** * Witnesses *)

Definition usdc : AssetRef :=
  {| chain_id := 11155111; address := Some "0x1111111111111111111111111111111111111111"%string;
     symbol := "USDC"; decimals := 6 |}.

Lemma money_exact_witness :
  money_add {| amount := "1500000"; asset := usdc |} {| amount := "-2000000"; asset := usdc |}
  = Ok {| amount := "-500000"; asset := usdc |}.
Proof.
  destruct (money_exact {| amount := "1500000"; asset := usdc |} {| amount := "-2000000"; asset := usdc |}
    eq_refl eq_refl) as (x & y & Hx & Hy & Hok & _).
  vm_compute in Hx, Hy. injection Hx as <-. injection Hy as <-.
  destruct (Hok eq_refl) as [-> _]. reflexivity.
Defined.

Lemma dollar_accepts_newline_witness :
  addr_validator (Some ("0x11111111111111111111111111111111111111AA" ++ newline)%string)
  = Ok (Some ("0x11111111111111111111111111111111111111aa" ++ newline)%string).
Proof. exact (proj2 (dollar_accepts_newline "0x11111111111111111111111111111111111111AA") eq_refl eq_refl). Defined.

End Domain.
