(* ===== verification/Reconcile.v ===== *)
(** The reference reconciler: observations are merged into economic events,
    the events are applied in order of first observation to receivables,
    settlements, cash and facility debt.

    Source: offchain/gpu/hashcredit_gpu/reconciliation/reference.py.  The
    function builds its own [Ledger] and mutates nothing else, so a raise
    loses the ledger: it is a function to [res Ledger].  A dict argument is a
    record with an option for each key the code reads with [.get]; an integer
    the code may store as [None] is an [option Z]. *)

From S2P Require Import Prelude.

Module Reconcile.

(** ** Small parts of Python *)

(** Arithmetic on a value that may be [None]. *)
Definition as_int (x : option Z) : res Z :=
  match x with Some n => Ok n | None => Raise (Exn TypeError "NoneType in arithmetic") end.

(** Models [reconciliation/reference.py], [TRUST_RANK]. *)
Definition TRUST_RANK (t : string) : res Z :=
  if String.eqb t "CLAIMED" then Ok 0
  else if String.eqb t "OBSERVED" then Ok 1
  else if String.eqb t "ASSERTED" then Ok 2
  else if String.eqb t "PROVEN" then Ok 3
  else Raise (Exn KeyError t).

(** ** Data *)

(** Models [reconciliation/reference.py], [Receivable], lines 27-44. *)
Record Receivable := {
  receivable_id : string;
  economic_event_id : string;
  r_account : string;
  obligation_ref : option string;
  r_asset : string;
  net : option Z;
  paid : Z;
  revision : Z;
  state : string;
  assigned_facility : option string;
  trust : string;
  used_in_decision : bool;
}.

(** Models [reconciliation/reference.py], [Receivable.unpaid]. *)
Definition unpaid (r : Receivable) : res Z :=
  rbind (as_int (net r)) (fun n => Ok (Z.max 0 (n - paid r))).

Record Locator := { l_height : Z; l_tx_index : Z; l_log_ordinal : Z }.

#[export] Instance Locator_eq_dec : EqDecision Locator.
Proof. solve_decision. Defined.

(** The keys [reconcile] reads of an observation; its docstring lists them. *)
Record Observation := {
  o_id : string;
  o_source : string;
  o_trust : string;
  o_event : string;           (* economicEventId *)
  o_type : string;
  o_account : string;
  o_obligation : option string;
  o_asset : string;
  o_amount : option Z;
  o_revision : option Z;
  o_facility : option string;
  o_target : option string;
  o_delta : option Z;
  o_source_event : option string;
  o_consumed : bool;
  o_proven : option Locator;
  o_claimed : option Locator;
  o_emitter_registered : option bool;
  o_anchor : bool;
  o_settlement : option string;
  o_payer : option string;
  o_payer_is_borrower : bool;
  o_provenance : option string;
  o_observed_at : string;     (* o.get("observedAt", "") *)
  o_to_amount : option Z;     (* "toAmount" of a LEG: no line reads it *)
}.

(** The dict [reconcile] stores per economic event. *)
Record Event := {
  e_id : string;
  e_type : string;
  e_account : string;
  e_asset : string;
  e_amount : option Z;
  e_delta : option Z;
  e_revision : Z;
  e_obligation : option string;
  e_facility : option string;
  e_target : option string;
  e_trust : string;
  e_via : list string;
  e_settlement : option string;
  e_source_event : option string;
  e_payer : option string;
  e_payer_is_borrower : bool;
  e_provenance : option string;
}.

Inductive Where := SOURCE_ESCROW | IN_FLIGHT | DESTINATION.

#[export] Instance Where_eq_dec : EqDecision Where.
Proof. solve_decision. Defined.

Record Cash := {
  c_where : Where;
  c_amount : option Z;
  c_settlement : option string;
  c_provenance : option string;
}.

Record Leg := { leg_from : option Z; leg_to : option Z; leg_asset : string }.

Record Settlement := {
  source_amount : Z;
  s_allocations : gmap string Z;
  legs : list Leg;
  destination_amount : Z;
}.

Record Allocation := {
  al_facility : string;
  al_amount : Z;
  al_applied : Z;
  al_excess : Z;
  al_settlement : option string;
}.

Record FacilityCfg := {
  fc_account : option string;
  fc_loan_asset : option string;
  fc_debt : Z;
}.

(** Models [reconciliation/reference.py], [Ledger], lines 47-57. *)
Record Ledger := {
  economic_events : list Event; (* a dict in insertion order, keyed by [e_id] *)
  receivables : gmap string Receivable;
  settlements : gmap (option string) Settlement;
  cash : list Cash;
  allocations : list Allocation;
  facility_debt : gmap string Z;
  exceptions : list (string * string);
  consumed_source_events : gset string;
  decisions_revoked : gset string;
}.

Definition empty_ledger : Ledger := {|
  economic_events := []; receivables := ∅; settlements := ∅; cash := []; allocations := [];
  facility_debt := ∅; exceptions := []; consumed_source_events := ∅; decisions_revoked := ∅;
|}.

(** Models [reconciliation/reference.py], [_key]. *)
Definition key_ (account : string) (ref : option string) : string :=
  (account ++ "|" ++ default "None" ref)%string.

(** ** The input order: [sorted(obs_list, key=(observedAt, observationId))] *)

Definition obs_leb (a b : Observation) : bool :=
  if String.eqb (o_observed_at a) (o_observed_at b) then String.leb (o_id a) (o_id b)
  else String.leb (o_observed_at a) (o_observed_at b).

(** ** Pass 1: merging one observation *)

Definition except_ (code id : string) (L : Ledger) : Ledger :=
  L <| exceptions ::= fun x => x ++ [(code, id)] |>.

Definition find_event (eid : string) (evs : list Event) : option Event :=
  List.find (fun e => String.eqb (e_id e) eid) evs.

Definition update_event (eid : string) (f : Event -> Event) (evs : list Event) : list Event :=
  map (fun e => if String.eqb (e_id e) eid then f e else e) evs.

Definition locator_tampered (o : Observation) : bool :=
  match o_claimed o, o_proven o with
  | Some c, Some p => negb (bool_decide (c = p))
  | _, _ => false
  end.

(** The checks on a native observation: the ledger, and whether to go on. *)
(** Models [reconciliation/reference.py], [reconcile], lines 96-114. *)
Definition native_checks (o : Observation) (L : Ledger) : Ledger * bool :=
  if negb (String.eqb (o_source o) "CHAIN") then (L, true)
  else if locator_tampered o then (except_ "LOCATOR_TAMPERED" (o_id o) L, false)
  else
    let after_emitter L :=
      if bool_decide (o_emitter_registered o = Some false) then
        (except_ "EMITTER_NOT_REGISTERED" (o_id o) L, false)
      else if o_anchor o then (except_ "OWN_ANCHOR_INELIGIBLE" (o_id o) L, false)
      else (L, true) in
    match o_source_event o with
    | Some sev =>
        if truthy (Some sev) && o_consumed o then
          if bool_decide (sev ∈ consumed_source_events L) then
            (except_ "DUPLICATE_CONSUMPTION" (o_id o) L, false)
          else after_emitter (L <| consumed_source_events ::= fun s => {[sev]} ∪ s |>)
        else after_emitter L
    | None => after_emitter L
    end.

(** Models [reconciliation/reference.py], [reconcile], lines 115-115. *)
Definition obs_trust (o : Observation) : string :=
  if String.eqb (o_source o) "CHAIN" && negb (o_consumed o) then "OBSERVED" else o_trust o.

(** Models [reconciliation/reference.py], [reconcile], lines 119-126. *)
Definition new_event (o : Observation) : Event := {|
  e_id := o_event o; e_type := o_type o; e_account := o_account o; e_asset := o_asset o;
  e_amount := o_amount o; e_delta := o_delta o; e_revision := default 1 (o_revision o);
  e_obligation := o_obligation o; e_facility := o_facility o; e_target := o_target o;
  e_trust := obs_trust o; e_via := [o_id o]; e_settlement := o_settlement o;
  e_source_event := o_source_event o; e_payer := o_payer o;
  e_payer_is_borrower := o_payer_is_borrower o; e_provenance := o_provenance o;
|}.

Definition amount_conflict (e : Event) (o : Observation) : bool :=
  match e_amount e, o_amount o with
  | Some a, Some b => negb (a =? b)
  | _, _ => false
  end.

(** Models [reconciliation/reference.py], [reconcile], lines 115-134. *)
Definition merge_obs (o : Observation) (L0 : Ledger) : res Ledger :=
  let (L, go) := native_checks o L0 in
  if negb go then Ok L
  else
    let eid := o_event o in
    let trust := obs_trust o in
    match find_event eid (economic_events L) with
    | None => Ok (L <| economic_events ::= fun evs => evs ++ [new_event o] |>)
    | Some ev =>
        if amount_conflict ev o then Ok (except_ "AMOUNT_CONFLICT" (o_id o) L)
        else
          let via e := e <| e_via ::= fun v => v ++ [o_id o] |> in
          rbind (TRUST_RANK trust) (fun rk =>
          rbind (TRUST_RANK (e_trust ev)) (fun rk0 =>
          let f := if rk0 <? rk then
                     fun e => (via e) <| e_trust := trust |>
                                <| e_source_event ::= fun s => match o_source_event o with
                                                               | Some x => Some x | None => s end |>
                   else via in
          Ok (L <| economic_events ::= update_event eid f |>)))
    end.

(** ** Pass 2: applying one event *)

Definition facility_cfg (facilities : gmap string FacilityCfg) (fid : option string) : FacilityCfg :=
  match fid with
  | Some f => default {| fc_account := None; fc_loan_asset := None; fc_debt := 0 |} (facilities !! f)
  | None => {| fc_account := None; fc_loan_asset := None; fc_debt := 0 |}
  end.

Definition add_cash (w : Where) (a : option Z) (s p : option string) (L : Ledger) : Ledger :=
  L <| cash ::= fun c => c ++ [{| c_where := w; c_amount := a; c_settlement := s; c_provenance := p |}] |>.

Definition set_receivable (k : string) (r : Receivable) (L : Ledger) : Ledger :=
  L <| receivables ::= <[k := r]> |>.

Definition revoke (r : Receivable) (L : Ledger) : Ledger :=
  L <| decisions_revoked ::= fun s => {[or_else (assigned_facility r) "?"]} ∪ s |>.

Definition empty_settlement : Settlement :=
  {| source_amount := 0; s_allocations := ∅; legs := []; destination_amount := 0 |}.

(** [L.settlements.setdefault(sid, {...})] followed by an update of the entry. *)
Definition on_settlement (sid : option string) (f : Settlement -> Settlement) (L : Ledger) : Ledger :=
  L <| settlements ::= fun m => <[sid := f (default empty_settlement (m !! sid))]> m |>.

(** Models [reconciliation/reference.py], [reconcile], lines 139-149. *)
Definition apply_obligation (e : Event) (L : Ledger) : res Ledger :=
  let k := key_ (e_account e) (e_obligation e) in
  match receivables L !! k with
  | Some r =>
      if e_revision e <=? revision r then Ok (except_ "REVISION_OUT_OF_ORDER" (e_id e) L)
      else
        rbind (TRUST_RANK (e_trust e)) (fun re =>
        rbind (TRUST_RANK (trust r)) (fun rr =>
        Ok (set_receivable k (r <| net := e_amount e |> <| revision := e_revision e |>
                                <| trust ::= fun t => if rr <=? re then e_trust e else t |>) L)))
  | None =>
      Ok (set_receivable k
            {| receivable_id := k; economic_event_id := e_id e; r_account := e_account e;
               obligation_ref := e_obligation e; r_asset := e_asset e; net := e_amount e; paid := 0;
               revision := e_revision e; state := "RECOGNIZED"; assigned_facility := None;
               trust := e_trust e; used_in_decision := false |} L)
  end.

(** Models [reconciliation/reference.py], [reconcile], lines 150-164. *)
Definition apply_assignment (facilities : gmap string FacilityCfg) (e : Event) (L : Ledger) : res Ledger :=
  if negb (bool_decide (fc_account (facility_cfg facilities (e_facility e)) = Some (e_account e))) then
    Ok (except_ "ACCOUNT_MISMATCH" (e_id e) L)
  else
    let k := key_ (e_account e) (e_obligation e) in
    match receivables L !! k with
    | None => Ok (except_ "ASSIGNMENT_WITHOUT_OBLIGATION" (e_id e) L)
    | Some r =>
        if String.eqb (state r) "PAID" then Ok (except_ "PAID_REPLEDGE" (e_id e) L)
        else Ok (set_receivable k
                   (r <| assigned_facility := e_facility e |>
                      <| state := if paid r =? 0 then "ASSIGNED" else "PARTIALLY_PAID" |>) L)
    end.

(** Models [reconciliation/reference.py], [reconcile], lines 165-181. *)
Definition apply_correction (e : Event) (L : Ledger) : res Ledger :=
  let target := match e_target e with Some t => find_event t (economic_events L) | None => None end in
  let k := match target with Some t => Some (key_ (e_account e) (e_obligation t)) | None => None end in
  match match k with Some k => receivables L !! k | None => None end, k with
  | Some r, Some k =>
      if negb (e_revision e =? revision r + 1) then Ok (except_ "REVISION_OUT_OF_ORDER" (e_id e) L)
      else
        rbind (as_int (net r)) (fun n =>
        rbind (as_int (e_delta e)) (fun d =>
        let r1 := r <| net := Some (n + d) |> <| revision := e_revision e |> in
        (* [r.unpaid < 0] never holds: [unpaid] is a maximum with 0 *)
        let L1 := if used_in_decision r1 && (d <? 0) then revoke r1 L else L in
        let r2 := if n + d <=? paid r1 then r1 <| state := "PAID" |> else r1 in
        Ok (set_receivable k r2 L1)))
  | _, _ => Ok (except_ "CORRECTION_TARGET_MISSING" (e_id e) L)
  end.

(** Models [reconciliation/reference.py], [reconcile], lines 188-190. *)
Definition payout_provenance (e : Event) (known : bool) : string :=
  if truthy (e_payer e) && e_payer_is_borrower e then "SELF_TRANSFER"
  else or_else (e_provenance e) (if known then "PROVIDER_SETTLEMENT" else "UNCLASSIFIED").

(** Models [reconciliation/reference.py], [reconcile], lines 182-199. *)
Definition apply_payout (e : Event) (L : Ledger) : res Ledger :=
  let k := if truthy (e_obligation e) then Some (key_ (e_account e) (e_obligation e)) else None in
  let r := match k with Some k => receivables L !! k | None => None end in
  let mismatch := match r with Some r => negb (String.eqb (r_asset r) (e_asset e)) | None => false end in
  let L1 := if mismatch then except_ "TOKEN_MISMATCH" (e_id e) L else L in
  let provenance := payout_provenance e (bool_decide (is_Some r)) in
  let L2 := add_cash SOURCE_ESCROW (e_amount e) (e_settlement e) (Some provenance) L1 in
  rbind (match r, k with
         | Some r, Some k =>
             if negb mismatch && String.eqb provenance "PROVIDER_SETTLEMENT" then
               rbind (as_int (e_amount e)) (fun a =>
               let p := paid r + a in
               rbind (as_int (net r)) (fun n =>
               Ok (set_receivable k
                     (r <| paid := p |>
                        <| state := if n <=? p then "PAID"
                                    else if truthy (assigned_facility r) then "PARTIALLY_PAID"
                                    else "RECOGNIZED" |>) L2)))
             else Ok L2
         | _, _ => Ok L2
         end) (fun L3 =>
  match e_settlement e with
  | Some sid =>
      if String.eqb sid "" then Ok L3
      else
        rbind (as_int (e_amount e)) (fun a =>
        Ok (on_settlement (Some sid) (fun s =>
              let s1 := s <| source_amount ::= fun x => x + a |> in
              match r with
              | Some r => s1 <| s_allocations ::= fun m => <[receivable_id r := getz (receivable_id r) m + a]> m |>
              | None => s1
              end) L3))
  | None => Ok L3
  end).

(** Models [reconciliation/reference.py], [reconcile], lines 200-210. *)
Definition apply_cancellation (e : Event) (L : Ledger) : res Ledger :=
  let k := key_ (e_account e) (e_obligation e) in
  match receivables L !! k with
  | None => Ok (except_ "CANCEL_EXCEEDS_PAID" (e_id e) L)
  | Some r =>
      rbind (as_int (e_amount e)) (fun a =>
      if paid r <? a then Ok (except_ "CANCEL_EXCEEDS_PAID" (e_id e) L)
      else
        let r1 := r <| paid ::= fun p => p - a |> in
        let r2 := r1 <| state := if negb (paid r1 =? 0) then "PARTIALLY_PAID"
                                 else if truthy (assigned_facility r1) then "ASSIGNED"
                                 else "RECOGNIZED" |> in
        let L1 := add_cash SOURCE_ESCROW (Some (- a)) (e_settlement e) (Some "REFUND_OR_REVERSAL")
                    (set_receivable k r2 L) in
        Ok (if used_in_decision r2 then revoke r2 L1 else L1))
  end.

(** [e.get("toAmount", e["amount"])]: the event dict built in pass 1 has no
    such key, so the default is taken. *)
Definition leg_to_amount (e : Event) : option Z := e_amount e.

(** Models [reconciliation/reference.py], [reconcile], lines 211-215. *)
Definition apply_leg (e : Event) (L : Ledger) : res Ledger :=
  rbind (as_int (e_amount e)) (fun a =>
  let L1 := on_settlement (e_settlement e) (fun s =>
              s <| legs ::= fun l => l ++ [{| leg_from := Some a; leg_to := None; leg_asset := e_asset e |}] |>) L in
  let L2 := add_cash SOURCE_ESCROW (Some (- a)) (e_settlement e) None L1 in
  Ok (add_cash IN_FLIGHT (leg_to_amount e) (e_settlement e) None L2)).

(** Models [reconciliation/reference.py], [reconcile], lines 216-220. *)
Definition apply_destination (e : Event) (L : Ledger) : res Ledger :=
  rbind (as_int (e_amount e)) (fun a =>
  let L1 := on_settlement (e_settlement e) (fun s => s <| destination_amount ::= fun x => x + a |>) L in
  let L2 := add_cash IN_FLIGHT (Some (- a)) (e_settlement e) None L1 in
  Ok (add_cash DESTINATION (Some a) (e_settlement e) None L2)).

(** [sum(c["amount"] for c in L.cash if c["where"] == w and c.get("settlementId") == sid)] *)
Definition cash_at (w : Where) (sid : option string) (l : list Cash) : res Z :=
  sum_res (fun c => if bool_decide (c_where c = w) && bool_decide (c_settlement c = sid)
                    then as_int (c_amount c) else Ok 0) l.

Definition allocated_to (sid : option string) (l : list Allocation) : Z :=
  sumz (map (fun a => if bool_decide (al_settlement a = sid) then al_amount a else 0) l).

(** Models [reconciliation/reference.py], [reconcile], lines 221-234. *)
Definition apply_allocation (facilities : gmap string FacilityCfg) (e : Event) (L : Ledger) : res Ledger :=
  if negb (bool_decide (fc_loan_asset (facility_cfg facilities (e_facility e)) = Some (e_asset e))) then
    Ok (except_ "LOAN_ASSET_MISMATCH" (e_id e) L)
  else
    (* the configuration has a loan asset, so the facility id is a key *)
    let fid := default "" (e_facility e) in
    rbind (cash_at DESTINATION (e_settlement e) (cash L)) (fun received =>
    rbind (as_int (e_amount e)) (fun a =>
    let allocated := allocated_to (e_settlement e) (allocations L) in
    if received <? allocated + a then Ok (except_ "ALLOCATION_EXCEEDS_RECEIPT" (e_id e) L)
    else
      let applied := Z.min a (getz fid (facility_debt L)) in
      Ok (L <| facility_debt ::= fun m => <[fid := getz fid m - applied]> m |>
            <| allocations ::= fun l => l ++ [{| al_facility := fid; al_amount := a; al_applied := applied;
                                                 al_excess := a - applied; al_settlement := e_settlement e |}] |>))).

(** Models [reconciliation/reference.py], [reconcile], lines 235-239. *)
Definition apply_decision_use (e : Event) (L : Ledger) : res Ledger :=
  let k := key_ (e_account e) (e_obligation e) in
  match receivables L !! k with
  | Some r => Ok (set_receivable k (r <| used_in_decision := true |>) L)
  | None => Ok L
  end.

(** Models [reconciliation/reference.py], [reconcile], lines 136-242. *)
Definition apply_event (facilities : gmap string FacilityCfg) (e : Event) (L : Ledger) : res Ledger :=
  let t := e_type e in
  if String.eqb t "OBLIGATION" then apply_obligation e L
  else if String.eqb t "ASSIGNMENT" then apply_assignment facilities e L
  else if String.eqb t "CORRECTION" then apply_correction e L
  else if String.eqb t "PAYOUT" then apply_payout e L
  else if String.eqb t "CANCELLATION" then apply_cancellation e L
  else if String.eqb t "LEG" then apply_leg e L
  else if String.eqb t "DESTINATION_RECEIPT" then apply_destination e L
  else if String.eqb t "ALLOCATION" then apply_allocation facilities e L
  else if String.eqb t "DECISION_USE" then apply_decision_use e L
  else Ok (except_ "UNKNOWN_EVENT_TYPE" (e_id e) L).

(** [for x in l: L = f(x, L)], stopping at a raise. *)
Fixpoint fold_res {A} (f : A -> Ledger -> res Ledger) (l : list A) (L : Ledger) : res Ledger :=
  match l with
  | [] => Ok L
  | x :: l' => rbind (f x L) (fold_res f l')
  end.

(** Models [reconciliation/reference.py], [reconcile], lines 80-95. *)
Definition reconcile (obs_list : list Observation) (facilities : gmap string FacilityCfg) : res Ledger :=
  let L0 := empty_ledger <| facility_debt := fc_debt <$> facilities |> in
  rbind (fold_res merge_obs (isort obs_leb obs_list) L0) (fun L1 =>
  fold_res (apply_event facilities) (economic_events L1) L1).

(** ** The summary *)

Definition cash_where (w : Where) (l : list Cash) : res Z :=
  sum_res (fun c => if bool_decide (c_where c = w) then as_int (c_amount c) else Ok 0) l.

(** Models [reconciliation/reference.py], [Ledger.summary], lines 63-63. *)
Definition eligible_unpaid (L : Ledger) : res Z :=
  sum_res (fun '(_, r) =>
             if mem_str (state r) ["RECOGNIZED"; "ASSIGNED"; "PARTIALLY_PAID"] && String.eqb (trust r) "PROVEN"
                && truthy (assigned_facility r)
             then unpaid r else Ok 0)
          (map_to_list (receivables L)).

(** Models [reconciliation/reference.py], [Ledger.summary], lines 64-66. *)
Definition cash_summary (L : Ledger) : res (Z * Z * Z) :=
  rbind (cash_where SOURCE_ESCROW (cash L)) (fun s =>
  rbind (cash_where IN_FLIGHT (cash L)) (fun i =>
  rbind (cash_where DESTINATION (cash L)) (fun d => Ok (s, i, d)))).

(** * Sorting the observations *)

Lemma obs_leb_total a b : obs_leb a b = false -> obs_leb b a = true.
Proof.
  unfold obs_leb. rewrite (String.eqb_sym (o_observed_at b)).
  destruct (String.eqb _ _); apply str_leb_total.
Qed.

Lemma obs_leb_trans a b c : obs_leb a b = true -> obs_leb b c = true -> obs_leb a c = true.
Proof.
  unfold obs_leb.
  destruct (String.eqb_spec (o_observed_at a) (o_observed_at b)) as [Eab|Nab],
           (String.eqb_spec (o_observed_at b) (o_observed_at c)) as [Ebc|Nbc].
  - rewrite Eab, Ebc, String.eqb_refl. apply str_leb_trans.
  - rewrite Eab. destruct (String.eqb_spec (o_observed_at b) (o_observed_at c)); [done|by intros].
  - rewrite <- Ebc. destruct (String.eqb_spec (o_observed_at a) (o_observed_at b)); [done|by intros].
  - intros Hab Hbc. destruct (String.eqb_spec (o_observed_at a) (o_observed_at c)) as [Eac|Nac].
    + rewrite <- Eac in Hbc. by destruct Nab; apply String.leb_antisym.
    + by eapply str_leb_trans.
Qed.

Definition obs_key (o : Observation) : string * string := (o_observed_at o, o_id o).

Lemma obs_leb_antisym a b : obs_leb a b = true -> obs_leb b a = true -> obs_key a = obs_key b.
Proof.
  unfold obs_leb, obs_key. rewrite (String.eqb_sym (o_observed_at b)).
  destruct (String.eqb_spec (o_observed_at a) (o_observed_at b)) as [->|Hne]; intros H1 H2.
  - f_equal. by apply String.leb_antisym.
  - by destruct Hne; apply String.leb_antisym.
Qed.

(** * Folds *)

Lemma fold_res_inv {A} (P : Ledger -> Prop) (f : A -> Ledger -> res Ledger) l L L' :
  fold_res f l L = Ok L' -> P L ->
  (forall x L L', x ∈ l -> P L -> f x L = Ok L' -> P L') -> P L'.
Proof.
  revert L. induction l as [|x l IH]; intros L H HP Hf; [by simplify_eq/=|].
  cbn in H. apply rbind_Ok in H as (L1 & H1 & H).
  apply (IH L1 H); [eapply Hf; [apply list_elem_of_here|exact HP|exact H1]|].
  intros y M M' Hy. apply Hf. by apply list_elem_of_further.
Qed.

(** Takes a run [... = Ok L'] apart. *)
Ltac res_inv H :=
  repeat (first
    [ discriminate H
    | match type of H with
      | rbind _ _ = Ok _ =>
          let a := fresh "a" in let Ha := fresh "Ha" in apply rbind_Ok in H as (a & Ha & H)
      | Ok _ = Ok _ => injection H as H
      | context [match ?x with _ => _ end] => destruct x eqn:?
      end ]; try match type of H with Ok _ = Ok _ => injection H as H end).

(** * Pass 1 *)

Lemma native_checks_frame o L :
  let L' := (native_checks o L).1 in
  economic_events L' = economic_events L /\ cash L' = cash L /\ allocations L' = allocations L /\
  facility_debt L' = facility_debt L /\ receivables L' = receivables L /\ settlements L' = settlements L.
Proof. unfold native_checks. repeat case_match; split_and!; done. Qed.

Lemma native_checks_events o L L1 b :
  native_checks o L = (L1, b) -> economic_events L1 = economic_events L.
Proof. intros H. destruct (native_checks_frame o L) as [He _]. by rewrite H in He. Qed.

Lemma find_event_None eid evs : find_event eid evs = None -> eid ∉ e_id <$> evs.
Proof.
  intros Hf Hin. apply list_elem_of_fmap in Hin as (e & -> & He).
  apply list_elem_of_In in He. pose proof (find_none _ _ Hf e He) as Hn. cbv beta in Hn.
  by rewrite String.eqb_refl in Hn.
Qed.

Lemma find_event_Some eid evs e : find_event eid evs = Some e -> e ∈ evs /\ e_id e = eid.
Proof. intros [Hin Heq%String.eqb_eq]%find_some. by rewrite list_elem_of_In. Qed.

Lemma update_event_ids eid f evs :
  (forall e, e_id (f e) = e_id e) -> e_id <$> update_event eid f evs = e_id <$> evs.
Proof.
  intros Hf. unfold update_event. induction evs as [|e evs IH]; [done|]. cbn. rewrite IH. f_equal.
  destruct (String.eqb _ _); [apply Hf|done].
Qed.

Lemma update_event_elem eid f evs e :
  e ∈ update_event eid f evs ->
  e ∈ evs \/ exists e0, e0 ∈ evs /\ e_id e0 = eid /\ e = f e0.
Proof.
  unfold update_event. rewrite list_elem_of_In, in_map_iff. intros (e0 & He & Hin).
  apply list_elem_of_In in Hin. destruct (String.eqb_spec (e_id e0) eid) as [Heq|]; [right; by exists e0|left].
  by rewrite <- He.
Qed.

(** The business facts of [e] are those of observation [o]. *)
Definition reports (o : Observation) (e : Event) : Prop :=
  o_event o = e_id e /\ o_type o = e_type e /\ o_account o = e_account e /\ o_asset o = e_asset e /\
  o_amount o = e_amount e /\ o_delta o = e_delta e /\ default 1 (o_revision o) = e_revision e /\
  o_obligation o = e_obligation e /\ o_facility o = e_facility e /\ o_settlement o = e_settlement e.

(** [o] supports the trust level of [e]: a native observation only once its
    proof was consumed, or as a mere observation. *)
Definition supports (o : Observation) (e : Event) : Prop :=
  o_event o = e_id e /\ obs_trust o = e_trust e.

Definition merged (obs : list Observation) (L : Ledger) : Prop :=
  NoDup (e_id <$> economic_events L) /\
  Forall (fun e => (exists o, o ∈ obs /\ reports o e) /\ (exists o, o ∈ obs /\ supports o e))
    (economic_events L).

Lemma merge_obs_merged obs o L L' : o ∈ obs -> merged obs L -> merge_obs o L = Ok L' -> merged obs L'.
Proof.
  intros Ho [Hnd Hall] H. unfold merge_obs in H.
  destruct (native_checks o L) as [L1 go] eqn:Hnc. apply native_checks_events in Hnc.
  destruct go; cbn in H; [|injection H as <-; split; by rewrite Hnc]. rewrite <- Hnc in Hnd, Hall.
  destruct (find_event (o_event o) (economic_events L1)) as [ev|] eqn:Hfe.
  - apply find_event_Some in Hfe as [Hev Hid].
    destruct (amount_conflict ev o); [by injection H as <-|].
    apply rbind_Ok in H as (rk & _ & H). apply rbind_Ok in H as (rk0 & _ & H). injection H as <-.
    split; cbn.
    + rewrite update_event_ids; [done|]. intros e. by destruct (rk0 <? rk).
    + apply Forall_forall. intros e He. rewrite Forall_forall in Hall.
      apply update_event_elem in He as [He|(e0 & He0 & Hid0 & ->)]; [by apply Hall|].
      destruct (Hall e0 He0) as [[o1 [Ho1 Hr]] [o2 [Ho2 Hs]]].
      destruct (rk0 <? rk); (split; [by exists o1|]); [exists o|by exists o2].
      split; [done|]. split; [cbn; congruence|done].
  - injection H as <-. split; cbn.
    + rewrite fmap_app. apply NoDup_app. split_and!; [done| |apply NoDup_singleton].
      intros x Hx Hn. apply find_event_None in Hfe. cbn in Hn. apply list_elem_of_singleton in Hn as ->. done.
    + apply Forall_app. split; [done|]. constructor; [|done].
      split; exists o; by repeat split.
Qed.

(** Pass 1 touches only events, exceptions and consumed source events. *)
Lemma merge_obs_frame o L L' :
  merge_obs o L = Ok L' ->
  cash L' = cash L /\ allocations L' = allocations L /\ facility_debt L' = facility_debt L /\
  receivables L' = receivables L /\ settlements L' = settlements L.
Proof.
  intros H. unfold merge_obs in H. pose proof (native_checks_frame o L) as Hf. cbv zeta in Hf.
  destruct (native_checks o L) as [L1 go]. cbn in Hf. destruct Hf as (_ & <- & <- & <- & <- & <-).
  destruct go; cbn in H; [|by injection H as <-].
  destruct (find_event _ _); [destruct (amount_conflict _ _)|]; [by injection H as <-| |by injection H as <-].
  apply rbind_Ok in H as (? & _ & H). apply rbind_Ok in H as (? & _ & H). by injection H as <-.
Qed.

(** * Pass 2 *)

(** What a receivable-side step leaves alone. *)
Definition same_money (L L' : Ledger) : Prop :=
  allocations L' = allocations L /\ facility_debt L' = facility_debt L /\
  filter (fun c => c_where c = DESTINATION) (cash L') = filter (fun c => c_where c = DESTINATION) (cash L) /\
  filter (fun c => c_provenance c = None) (cash L') = filter (fun c => c_provenance c = None) (cash L) /\
  economic_events L' = economic_events L.

Lemma same_money_refl L : same_money L L.
Proof. by repeat split. Qed.

Lemma same_money_source L a s p : same_money L (add_cash SOURCE_ESCROW a s (Some p) L).
Proof. repeat split; cbn; by rewrite filter_app, app_nil_r. Qed.

Lemma same_money_trans L1 L2 L3 : same_money L1 L2 -> same_money L2 L3 -> same_money L1 L3.
Proof. unfold same_money. intros (-> & -> & -> & -> & ->) (-> & -> & -> & -> & ->). done. Qed.

Lemma apply_payout_same e L L' : apply_payout e L = Ok L' -> same_money L L'.
Proof.
  intros H. unfold apply_payout in H. apply rbind_Ok in H as (L3 & H3 & H).
  assert (S3 : same_money L L3).
  { match type of H3 with context [add_cash _ _ _ _ ?L1] => assert (S1 : same_money L L1) by (repeat case_match; done) end.
    match type of H3 with context [add_cash _ ?a ?s (Some ?p) ?L1] =>
      pose proof (same_money_trans _ _ _ S1 (same_money_source L1 a s p)) as S2; clear S1;
      set (L2 := add_cash _ a s (Some p) L1) in * end.
    clearbody L2. eapply same_money_trans; [exact S2|]. clear S2 H. by res_inv H3; subst. }
  eapply same_money_trans; [exact S3|]. clear S3 H3. by res_inv H; subst.
Qed.

Lemma apply_cancellation_same e L L' : apply_cancellation e L = Ok L' -> same_money L L'.
Proof.
  intros H. unfold apply_cancellation in H. destruct (receivables L !! _) as [r|]; [|by injection H as <-].
  apply rbind_Ok in H as (a & _ & H). destruct (paid r <? a); [by injection H as <-|].
  injection H as <-.
  match goal with |- same_money L (if _ then revoke _ ?X else ?X) => assert (S : same_money L X) end.
  { eapply same_money_trans; [|apply same_money_source]. done. }
  by destruct (used_in_decision _).
Qed.

Lemma apply_rest_same fs e L L' :
  apply_obligation e L = Ok L' \/ apply_assignment fs e L = Ok L' \/
  apply_correction e L = Ok L' \/ apply_decision_use e L = Ok L' ->
  same_money L L'.
Proof.
  intros [H|[H|[H|H]]].
  - unfold apply_obligation in H. by res_inv H; subst.
  - unfold apply_assignment in H. by res_inv H; subst.
  - unfold apply_correction in H. res_inv H; subst; done.
  - unfold apply_decision_use in H. by res_inv H; subst.
Qed.

(** ** Sums over the cash list *)

Definition amt (c : Cash) : Z := default 0 (c_amount c).

(** Cash received at the destination for settlement [sid]. *)
Definition received (sid : option string) (L : Ledger) : Z :=
  sumz (map (fun c => if bool_decide (c_settlement c = sid) then amt c else 0)
            (filter (fun c => c_where c = DESTINATION) (cash L))).

Definition cash_of (p : Cash -> bool) (l : list Cash) : Z :=
  sumz (map (fun c => if p c then amt c else 0) l).

Lemma cash_of_app p l1 l2 : cash_of p (l1 ++ l2) = cash_of p l1 + cash_of p l2.
Proof. unfold cash_of. by rewrite map_app, sumz_app. Qed.

Lemma sum_res_cash (p : Cash -> bool) l n :
  sum_res (fun c => if p c then as_int (c_amount c) else Ok 0) l = Ok n -> n = cash_of p l.
Proof.
  revert n. induction l as [|c l IH]; intros n; cbn; [by intros [= <-]|].
  unfold cash_of, amt in *. cbn. destruct (p c).
  - destruct (c_amount c) as [a|]; cbn; [|done]. destruct (sum_res _ l) as [b|]; [|done].
    intros [= <-]. unfold sumz in *. cbn. by rewrite (IH b).
  - destruct (sum_res _ l) as [b|]; [|done]. intros [= <-]. unfold sumz in *. cbn. by rewrite (IH b).
Qed.

Lemma cash_at_received sid L n : cash_at DESTINATION sid (cash L) = Ok n -> n = received sid L.
Proof.
  unfold cash_at. intros Hs.
  rewrite (sum_res_cash (fun c => bool_decide (c_where c = DESTINATION) && bool_decide (c_settlement c = sid)) _ _ Hs).
  clear Hs. unfold cash_of, received. induction (cash L) as [|c l IH]; [done|].
  rewrite filter_cons. cbn. unfold sumz in *. cbn. rewrite IH.
  destruct (decide (c_where c = DESTINATION)) as [Hd|Hd];
    [rewrite bool_decide_true by done|rewrite bool_decide_false by done]; cbn; [done|lia].
Qed.

Definition applied_to (fid : string) (l : list Allocation) : Z :=
  sumz (map (fun a => if bool_decide (al_facility a = fid) then al_applied a else 0) l).

#[local] Arguments applied_to : simpl never.
#[local] Arguments allocated_to : simpl never.
#[local] Arguments received : simpl never.
#[local] Arguments cash_of : simpl never.

Lemma applied_to_app fid l1 l2 : applied_to fid (l1 ++ l2) = applied_to fid l1 + applied_to fid l2.
Proof. unfold applied_to. by rewrite map_app, sumz_app. Qed.

Lemma allocated_to_app sid l1 l2 : allocated_to sid (l1 ++ l2) = allocated_to sid l1 + allocated_to sid l2.
Proof. unfold allocated_to. by rewrite map_app, sumz_app. Qed.

Definition alloc_ok (a : Allocation) : Prop :=
  al_amount a = al_applied a + al_excess a /\ 0 <= al_applied a /\ 0 <= al_excess a.

(** The debt is backed: it fell by the applied amounts only, and those stay
    within the cash received for their settlement. *)
Definition backed (fs : gmap string FacilityCfg) (L : Ledger) : Prop :=
  (forall fid, getz fid (facility_debt L) = from_option fc_debt 0 (fs !! fid) - applied_to fid (allocations L)
               /\ 0 <= getz fid (facility_debt L)) /\
  (forall sid, allocated_to sid (allocations L) <= received sid L) /\
  Forall alloc_ok (allocations L).

Lemma backed_same fs L L' : same_money L L' -> backed fs L -> backed fs L'.
Proof. intros (Ha & Hd & Hc & _) Hb. unfold backed, received in *. by rewrite Ha, Hd, Hc. Qed.

Definition cash_event (e : Event) : bool := mem_str (e_type e) ["DESTINATION_RECEIPT"; "ALLOCATION"].

Lemma apply_allocation_backed fs e L L' :
  0 <= default 0 (e_amount e) -> apply_allocation fs e L = Ok L' -> backed fs L -> backed fs L'.
Proof.
  intros Hpos H Hb. unfold apply_allocation in H. destruct (negb _); [by injection H as <-|].
  apply rbind_Ok in H as (rcv & Hrcv & H). apply rbind_Ok in H as (a & Ha & H).
  apply cash_at_received in Hrcv as ->.
  destruct (e_amount e) as [x|]; [|done]. cbn in Ha, Hpos. injection Ha as ->.
  set (fid := default "" (e_facility e)) in *.
  destruct (Z.ltb_spec (received (e_settlement e) L) (allocated_to (e_settlement e) (allocations L) + a)) as [|Hle];
    [by injection H as <-|]. injection H as <-.
  destruct Hb as (Hdebt & Halloc & Hok). destruct (Hdebt fid) as [_ Hnn]. split_and!; cbn.
  - intros f. rewrite applied_to_app. unfold applied_to at 2. cbn. unfold sumz. cbn.
    destruct (Hdebt f) as [Hf Hfn]. destruct (decide (fid = f)) as [<-|Hne].
    + rewrite bool_decide_true by done. rewrite getz_insert_eq. lia.
    + rewrite bool_decide_false by done. rewrite getz_insert_ne by done. lia.
  - intros sid. rewrite allocated_to_app. unfold allocated_to at 2. cbn. unfold sumz. cbn.
    change (received sid _) with (received sid L). specialize (Halloc sid).
    destruct (decide (e_settlement e = sid)) as [<-|];
      [rewrite bool_decide_true by done|rewrite bool_decide_false by done]; lia.
  - apply Forall_app. split; [done|]. constructor; [|done]. unfold alloc_ok. cbn. lia.
Qed.

Lemma received_add sid w a s p L :
  received sid (add_cash w a s p L)
  = received sid L + (if bool_decide (w = DESTINATION) && bool_decide (s = sid) then default 0 a else 0).
Proof.
  assert (Hc : cash (add_cash w a s p L)
    = cash L ++ [{| c_where := w; c_amount := a; c_settlement := s; c_provenance := p |}]) by done.
  unfold received. rewrite Hc. clear Hc.
  rewrite filter_app, map_app, sumz_app, filter_cons. cbn [c_where].
  destruct (decide (w = DESTINATION)) as [Hw|Hw];
    [rewrite (bool_decide_true (w = DESTINATION)) by done|rewrite (bool_decide_false (w = DESTINATION)) by done].
  - cbn [map filter list_filter c_settlement andb]. destruct (bool_decide (s = sid)); unfold sumz, amt; cbn; lia.
  - cbn. lia.
Qed.

Lemma received_on_settlement sid s f L : received sid (on_settlement s f L) = received sid L.
Proof. done. Qed.

Lemma apply_destination_backed fs e L L' :
  0 <= default 0 (e_amount e) -> apply_destination e L = Ok L' -> backed fs L -> backed fs L'.
Proof.
  intros Hpos H (Hdebt & Halloc & Hok). unfold apply_destination in H. apply rbind_Ok in H as (a & Ha & H).
  destruct (e_amount e) as [x|]; [|done]. cbn in Ha, Hpos. injection Ha as ->. injection H as <-.
  split_and!; [done| |done]. intros sid. specialize (Halloc sid). etrans; [exact Halloc|].
  rewrite !received_add. rewrite received_on_settlement.
  rewrite (bool_decide_false (IN_FLIGHT = DESTINATION)), (bool_decide_true (DESTINATION = DESTINATION)) by done.
  destruct (bool_decide (e_settlement e = sid)); cbn; lia.
Qed.

Lemma apply_leg_frame e L L' :
  apply_leg e L = Ok L' ->
  allocations L' = allocations L /\ facility_debt L' = facility_debt L /\
  filter (fun c => c_where c = DESTINATION) (cash L') = filter (fun c => c_where c = DESTINATION) (cash L) /\
  economic_events L' = economic_events L.
Proof.
  intros H. unfold apply_leg in H. apply rbind_Ok in H as (a & Ha & H). injection H as <-.
  repeat split; cbn. by rewrite !filter_app, !app_nil_r.
Qed.

Lemma apply_event_cases fs e L L' :
  apply_event fs e L = Ok L' ->
  same_money L L' \/ apply_leg e L = Ok L' \/
  (cash_event e = true /\ (apply_destination e L = Ok L' \/ apply_allocation fs e L = Ok L')).
Proof.
  intros H. unfold apply_event, cash_event, mem_str in *. cbn.
  repeat match type of H with
  | (if ?b then _ else _) = _ => destruct b eqn:?
  end.
  - left. eapply (apply_rest_same fs). by left.
  - left. eapply (apply_rest_same fs). by eauto.
  - left. eapply (apply_rest_same fs). by eauto.
  - left. by eapply apply_payout_same.
  - left. by eapply apply_cancellation_same.
  - by eauto.
  - by eauto.
  - right. right. split; [by rewrite orb_true_r|]. by right.
  - left. eapply (apply_rest_same fs). by eauto.
  - left. by injection H as <-.
Qed.

Lemma apply_event_backed fs e L L' :
  (cash_event e = true -> 0 <= default 0 (e_amount e)) ->
  apply_event fs e L = Ok L' -> backed fs L -> backed fs L'.
Proof.
  intros Hpos [Hs|[Hl|[Hc [Hd|Ha]]]]%apply_event_cases Hb.
  - by eapply backed_same.
  - apply apply_leg_frame in Hl as (Ha & Hd & Hc & _). unfold backed, received in *. by rewrite Ha, Hd, Hc.
  - eapply apply_destination_backed; [by apply Hpos|exact Hd|exact Hb].
  - eapply apply_allocation_backed; [by apply Hpos|exact Ha|exact Hb].
Qed.

(** Cash only enters and leaves through payouts and reversals, the entries
    with a provenance; the legs and receipts cancel out. *)
Definition conserved (L : Ledger) : Prop :=
  cash_of (fun c => bool_decide (c_provenance c = None)) (cash L) = 0.

Lemma cash_of_filter (P : Cash -> Prop) `{!forall c, Decision (P c)} l :
  cash_of (fun c => bool_decide (P c)) l = sumz (map amt (filter P l)).
Proof.
  unfold cash_of. induction l as [|c l IH]; [done|]. rewrite filter_cons. cbn. unfold sumz in *. cbn.
  rewrite IH. destruct (decide (P c)); [rewrite bool_decide_true by done|rewrite bool_decide_false by done]; cbn; lia.
Qed.

Lemma apply_event_conserved fs e L L' : apply_event fs e L = Ok L' -> conserved L -> conserved L'.
Proof.
  intros [Hs|[Hl|[Hc [Hd|Ha]]]]%apply_event_cases Hb; unfold conserved in *.
  - destruct Hs as (_ & _ & _ & Hp & _). rewrite cash_of_filter in *. by rewrite Hp.
  - unfold apply_leg in Hl. apply rbind_Ok in Hl as (a & Ha & H). injection H as <-. cbn.
    rewrite !cash_of_app, Hb. unfold leg_to_amount. destruct (e_amount e) as [x|]; [|done].
    injection Ha as ->. unfold cash_of, sumz, amt. cbn. lia.
  - unfold apply_destination in Hd. apply rbind_Ok in Hd as (a & Ha & H). injection H as <-. cbn.
    rewrite !cash_of_app, Hb. unfold cash_of, sumz, amt. cbn. lia.
  - unfold apply_allocation in Ha. destruct (negb _); [by injection Ha as <-|].
    apply rbind_Ok in Ha as (rcv & _ & Ha). apply rbind_Ok in Ha as (a & _ & Ha).
    destruct (_ <? _); by injection Ha as <-.
Qed.

(** The run of [reconcile] as its two passes. *)
Lemma reconcile_Ok obs fs L :
  reconcile obs fs = Ok L ->
  exists L1, fold_res merge_obs (isort obs_leb obs) (empty_ledger <| facility_debt := fc_debt <$> fs |>) = Ok L1 /\
    merged obs L1 /\ cash L1 = [] /\ allocations L1 = [] /\ facility_debt L1 = fc_debt <$> fs /\
    fold_res (apply_event fs) (economic_events L1) L1 = Ok L.
Proof.
  intros H. unfold reconcile in H. apply rbind_Ok in H as (L1 & H1 & H2). exists L1.
  assert (Hm : merged obs L1).
  { assert (H0 : merged obs (empty_ledger <| facility_debt := fc_debt <$> fs |>)) by (split; constructor).
    apply (fold_res_inv (merged obs) _ _ _ _ H1 H0).
    intros o M M' Ho. apply merge_obs_merged. by rewrite isort_perm in Ho. }
  assert (Hf : cash L1 = [] /\ allocations L1 = [] /\ facility_debt L1 = fc_debt <$> fs).
  { apply (fold_res_inv (fun M => cash M = [] /\ allocations M = [] /\ facility_debt M = fc_debt <$> fs)
              _ _ _ _ H1); [by repeat split|].
    intros o M M' _ (Hc & Ha & Hd) (-> & -> & -> & _)%merge_obs_frame. done. }
  destruct Hf as (? & ? & ?). by split_and!.
Qed.

Lemma getz_fmap fid (fs : gmap string FacilityCfg) :
  getz fid (fc_debt <$> fs) = from_option fc_debt 0 (fs !! fid).
Proof. unfold getz. rewrite lookup_fmap. by destruct (fs !! fid). Qed.

Lemma fold_merge_clear (f : Observation -> Observation) l L :
  (forall o L, merge_obs (f o) L = merge_obs o L) ->
  fold_res merge_obs (map f l) L = fold_res merge_obs l L.
Proof.
  intros Hf. revert L. induction l as [|o l IH]; intros L; [done|]. cbn. rewrite Hf.
  destruct (merge_obs o L); [apply IH|done].
Qed.

Lemma isort_map (f : Observation -> Observation) l :
  (forall a b, obs_leb (f a) (f b) = obs_leb a b) ->
  isort obs_leb (map f l) = map f (isort obs_leb l).
Proof.
  intros Hf. induction l as [|o l IH]; [done|].
  change (isert obs_leb (f o) (isort obs_leb (map f l)) = map f (isert obs_leb o (isort obs_leb l))).
  rewrite IH. clear IH.
  induction (isort obs_leb l) as [|p l' IH]; [done|]. cbn. rewrite Hf.
  destruct (obs_leb o p); [done|]. cbn. by rewrite IH.
Qed.

(** * Properties *)

(** C6: The result does not depend on the order in which the observations
    arrive, as long as no two of them share both time and id. *)
Theorem reconcile_order_independent obs obs' fs :
  obs ≡ₚ obs' -> NoDup (obs_key <$> obs) -> reconcile obs fs = reconcile obs' fs.
Proof.
  intros Hp Hnd. unfold reconcile.
  rewrite (isort_unique obs_leb obs_leb_total obs_leb_trans obs obs' Hp); [done|].
  intros a b Ha Hb Hab Hba. eapply (NoDup_fmap_inj obs_key); [exact Hnd|done|done|].
  by apply obs_leb_antisym.
Qed.


(** Observations of one economic event are merged into one: event ids are
    unique in the ledger, each event's business facts (type, account, amount,
    revision, obligation, ...) are those of one of its observations, and so is
    its trust level, where a native observation whose proof was not consumed
    counts as a mere observation. *)
Theorem events_merged_once obs fs L e :
  reconcile obs fs = Ok L -> e ∈ economic_events L ->
  NoDup (e_id <$> economic_events L) /\
  (exists o, o ∈ obs /\ reports o e) /\
  (exists o, o ∈ obs /\ o_event o = e_id e /\
     (e_trust e = "PROVEN"%string ->
        o_trust o = "PROVEN"%string /\ (o_source o = "CHAIN"%string -> o_consumed o = true))).
Proof.
  intros (L1 & _ & Hm & _ & _ & _ & H)%reconcile_Ok He.
  assert (Heq : economic_events L = economic_events L1).
  { apply (fold_res_inv (fun M => economic_events M = economic_events L1) _ _ _ _ H); [done|].
    intros x M M' _ HM [Hs|[Hl|[_ [Hd|Ha]]]]%apply_event_cases; rewrite <- HM.
    - apply Hs.
    - by apply apply_leg_frame in Hl as (_ & _ & _ & ?).
    - unfold apply_destination in Hd. apply rbind_Ok in Hd as (a & _ & Hd). by injection Hd as <-.
    - unfold apply_allocation in Ha. destruct (negb _); [by injection Ha as <-|].
      apply rbind_Ok in Ha as (rcv & _ & Ha). apply rbind_Ok in Ha as (a & _ & Ha).
      destruct (_ <? _); by injection Ha as <-. }
  rewrite Heq in *. destruct Hm as [Hnd Hm]. rewrite Forall_forall in Hm.
  destruct (Hm e He) as [Hr (o & Ho & Hid & Ht)]. split_and!; [done|done|].
  exists o. split_and!; [done|done|]. intros Hp. rewrite Hp in Ht. unfold obs_trust in Ht.
  destruct (String.eqb_spec (o_source o) "CHAIN"), (o_consumed o); cbn in Ht; try discriminate Ht; auto.
Qed.


(** An observation from an unregistered emitter is rejected, but only after
    its source event was marked consumed: a later, valid observation of the
    same source event is then rejected as a duplicate, and neither creates an
    economic event. *)
Theorem rejected_emitter_consumes_source o1 o2 sev L L1 L2 :
  o_source o1 = "CHAIN"%string -> o_source o2 = "CHAIN"%string ->
  o_claimed o1 = None -> o_claimed o2 = None ->
  sev <> ""%string -> o_source_event o1 = Some sev -> o_source_event o2 = Some sev ->
  o_consumed o1 = true -> o_consumed o2 = true ->
  o_emitter_registered o1 = Some false -> o_emitter_registered o2 = Some true ->
  sev ∉ consumed_source_events L ->
  merge_obs o1 L = Ok L1 -> merge_obs o2 L1 = Ok L2 ->
  economic_events L2 = economic_events L /\
  exceptions L2 = exceptions L ++ [("EMITTER_NOT_REGISTERED", o_id o1); ("DUPLICATE_CONSUMPTION", o_id o2)]%string.
Proof.
  intros Hs1 Hs2 Hc1 Hc2 Hne He1 He2 Hk1 Hk2 Hr1 Hr2 Hsev H1 H2.
  apply String.eqb_neq in Hne.
  unfold merge_obs, native_checks, locator_tampered in H1. rewrite Hs1, Hc1, He1, Hk1, Hr1 in H1. cbn in H1.
  rewrite Hne in H1. cbn in H1. rewrite bool_decide_false in H1 by done. cbn in H1. injection H1 as <-.
  unfold merge_obs, native_checks, locator_tampered in H2. rewrite Hs2, Hc2, He2, Hk2, Hr2 in H2. cbn in H2.
  rewrite Hne in H2. cbn in H2. rewrite bool_decide_true in H2 by set_solver. cbn in H2. injection H2 as <-.
  split; [done|]. cbn. by rewrite <- app_assoc.
Qed.

(** The destination amount of a conversion leg is lost: the reconciler's
    result does not depend on any observation's [toAmount], so a leg puts its
    source amount in flight whatever the rail converted it to. *)
Theorem leg_to_amount_ignored obs fs (f : Observation -> option Z) :
  reconcile (map (fun o => o <| o_to_amount := f o |>) obs) fs = reconcile obs fs.
Proof.
  unfold reconcile. rewrite isort_map by done. by rewrite fold_merge_clear.
Qed.

(** * Witnesses *)

Definition obs0 : Observation := {|
  o_id := "o0"; o_source := "API"; o_trust := "OBSERVED"; o_event := "e0"; o_type := "OBLIGATION";
  o_account := "acct"; o_obligation := Some "inv"; o_asset := "usdc"; o_amount := Some 1000;
  o_revision := None; o_facility := None; o_target := None; o_delta := None; o_source_event := None;
  o_consumed := false; o_proven := None; o_claimed := None; o_emitter_registered := None;
  o_anchor := false; o_settlement := None; o_payer := None; o_payer_is_borrower := false;
  o_provenance := None; o_observed_at := "t0"; o_to_amount := None |}%string.

Definition mk_obs (id at_ event type : string) (amount : Z) (sid : option string) : Observation :=
  obs0 <| o_id := id |> <| o_observed_at := at_ |> <| o_event := event |> <| o_type := type |>
    <| o_amount := Some amount |> <| o_settlement := sid |>.

(** An obligation observed twice (once proven), paid, bridged, received, allocated. *)
Definition obs_run : list Observation :=
  [ obs0;
    obs0 <| o_id := "o1" |> <| o_observed_at := "t1" |> <| o_source := "CHAIN" |> <| o_trust := "PROVEN" |>
      <| o_consumed := true |> <| o_source_event := Some "sev0" |>;
    mk_obs "o2" "t2" "pay" "PAYOUT" 600 (Some "S1");
    mk_obs "o3" "t3" "leg" "LEG" 600 (Some "S1");
    (mk_obs "o4" "t4" "dst" "DESTINATION_RECEIPT" 500 (Some "S1")) <| o_asset := "musdt" |>;
    (mk_obs "o5" "t5" "al1" "ALLOCATION" 450 (Some "S1")) <| o_asset := "musdt" |> <| o_facility := Some "F1" |>;
    (mk_obs "o6" "t6" "al2" "ALLOCATION" 100 (Some "S1")) <| o_asset := "musdt" |> <| o_facility := Some "F1" |>
  ]%string.

Definition facilities0 : gmap string FacilityCfg :=
  {[ "F1"%string := {| fc_account := Some "acct"%string; fc_loan_asset := Some "musdt"%string; fc_debt := 400 |} ]}.

Definition ledger_run : Ledger :=
  match reconcile obs_run facilities0 with Ok L => L | Raise _ => empty_ledger end.

Lemma reconcile_run : reconcile obs_run facilities0 = Ok ledger_run.
Proof.
  assert (H : is_ok (reconcile obs_run facilities0) = true) by (vm_compute; reflexivity).
  unfold ledger_run. by destruct (reconcile obs_run facilities0).
Qed.

Lemma obs_run_keys : NoDup (obs_key <$> obs_run).
Proof. apply (bool_decide_unpack _). by vm_compute. Qed.

Lemma reconcile_order_independent_witness :
  reconcile (rev obs_run) facilities0 = Ok ledger_run.
Proof.
  rewrite <- reconcile_run. symmetry. apply (reconcile_order_independent obs_run (rev obs_run) facilities0).
  - apply Permutation_rev.
  - apply obs_run_keys.
Defined.


Lemma events_merged_once_witness :
  exists e, e ∈ economic_events ledger_run /\ e_trust e = "PROVEN"%string /\ exists o, o ∈ obs_run /\ reports o e.
Proof.
  assert (He : exists e, head (economic_events ledger_run) = Some e /\ e_trust e = "PROVEN"%string)
    by (eexists; split; [vm_compute; reflexivity|reflexivity]).
  destruct He as (e & Hh & Ht). exists e.
  assert (Hin : e ∈ economic_events ledger_run) by by apply head_Some_elem_of.
  split_and!; [exact Hin|exact Ht|].
  exact (proj1 (proj2 (events_merged_once obs_run facilities0 ledger_run e reconcile_run Hin))).
Defined.


Definition chain_obs (id : string) (registered : bool) : Observation :=
  obs0 <| o_id := id |> <| o_source := "CHAIN"%string |> <| o_consumed := true |>
    <| o_source_event := Some "sev9"%string |> <| o_emitter_registered := Some registered |>.

Lemma rejected_emitter_consumes_source_witness :
  exists L1 L2, merge_obs (chain_obs "a" false) empty_ledger = Ok L1 /\
    merge_obs (chain_obs "b" true) L1 = Ok L2 /\ economic_events L2 = [].
Proof.
  destruct (merge_obs (chain_obs "a" false) empty_ledger) as [L1|] eqn:H1; [|by vm_compute in H1].
  destruct (merge_obs (chain_obs "b" true) L1) as [L2|] eqn:H2;
    [|vm_compute in H1; injection H1 as <-; by vm_compute in H2].
  exists L1, L2. split_and!; [done|done|].
  apply (rejected_emitter_consumes_source (chain_obs "a" false) (chain_obs "b" true) "sev9" empty_ledger L1 L2);
    [done..|set_solver|done|done].
Defined.

End Reconcile.
