(* ===== verification/Stdpy.v ===== *)
(** Parts of Python's standard library the code uses: [json.dumps] on the
    values it serialises, [hashlib.sha256], [bytes.hex] and the hex parser.

    Strings are sequences of bytes (UTF-8). A JSON value holds no floats: the
    code keeps amounts as integers or strings. *)

From S2P Require Import Prelude.
From Stdlib Require Import NArith DecimalString.

Module Stdpy.

(** * Bytes *)

Definition byte_of (a : ascii) : Z := Z.of_N (N_of_ascii a).
Definition char_of (b : Z) : ascii := ascii_of_N (Z.to_N b).

Fixpoint bytes_of (s : string) : list Z :=
  match s with
  | EmptyString => []
  | String a s' => byte_of a :: bytes_of s'
  end.

Definition hex_digit (n : Z) : ascii :=
  char_of (if n <? 10 then 48 + n else 87 + n).

(** [bytes.hex()] *)
Fixpoint hex (l : list Z) : string :=
  match l with
  | [] => EmptyString
  | b :: l' => String (hex_digit (b / 16)) (String (hex_digit (b mod 16)) (hex l'))
  end.

Definition hex_value (a : ascii) : option Z :=
  let n := byte_of a in
  if (48 <=? n) && (n <=? 57) then Some (n - 48)
  else if (97 <=? n) && (n <=? 102) then Some (n - 87)
  else if (65 <=? n) && (n <=? 70) then Some (n - 55)
  else None.

(** The bytes [bytes.fromhex] skips between two pairs. *)
Definition is_space (a : ascii) : bool := let n := byte_of a in ((9 <=? n) && (n <=? 13)) || (n =? 32).

(** [bytes.fromhex], [None] where it raises ValueError. *)
Fixpoint unhex (s : string) : option (list Z) :=
  match s with
  | EmptyString => Some []
  | String a s' =>
      if is_space a then unhex s'
      else match s' with
           | String b s'' =>
               match hex_value a, hex_value b, unhex s'' with
               | Some x, Some y, Some l => Some (16 * x + y :: l)
               | _, _, _ => None
               end
           | EmptyString => None
           end
  end.

(** [int.from_bytes(l, little)] *)
Fixpoint le_int (l : list Z) : Z :=
  match l with
  | [] => 0
  | b :: l' => b + 256 * le_int l'
  end.

(** The [n] bytes of [x mod 256 ^ n], least significant first. *)
Fixpoint le_bytes (n : nat) (x : Z) : list Z :=
  match n with
  | O => []
  | S n' => x mod 256 :: le_bytes n' (x / 256)
  end.

(** [x.to_bytes(n, little)] *)
Definition to_bytes_le (n : nat) (x : Z) : res (list Z) :=
  if (0 <=? x) && (x <? 256 ^ Z.of_nat n) then Ok (le_bytes n x)
  else Raise (Exn OverflowError "int too big to convert").

(** [int.from_bytes(l, big)] *)
Definition be_int (l : list Z) : Z := fold_left (fun acc b => acc * 256 + b) l 0.

Definition is_byte (b : Z) : Prop := 0 <= b < 256.
Abbreviation is_bytes := (Forall is_byte).

(** * Sequences *)

Definition zlen {A} (l : list A) : Z := Z.of_nat (length l).

(** [l[i]], counting from the end below 0. *)
Definition py_nth {A} (l : list A) (i : Z) : res A :=
  let j := if i <? 0 then i + zlen l else i in
  if j <? 0 then Raise (Exn IndexError "index out of range")
  else if zlen l <=? j then Raise (Exn IndexError "index out of range")
  else match l !! Z.to_nat j with
       | Some x => Ok x
       | None => Raise (Exn IndexError "index out of range")
       end.

(** [l[a:b]] for bounds that are not negative. *)
Definition slice {A} (a b : Z) (l : list A) : list A :=
  let n := zlen l in
  take (Z.to_nat (Z.min b n - Z.min a n)) (drop (Z.to_nat (Z.min a n)) l).

(** * SHA-256 *)

Definition w32 (x : Z) : Z := Z.land x 0xffffffff.
Definition add32 (x y : Z) : Z := w32 (x + y).
Definition rotr (n x : Z) : Z := Z.lor (Z.shiftr x n) (w32 (Z.shiftl x (32 - n))).

(** The constants, from their definition: the first 32 bits of the fractional
    parts of the cube roots of the first 64 primes and of the square roots of
    the first 8. *)
Definition is_prime (n : Z) : bool :=
  forallb (fun d => negb (n mod d =? 0)) (map Z.of_nat (seq 2 (Z.to_nat (Z.sqrt n) - 1))).

Definition primes_to (n : nat) : list Z := List.filter is_prime (map Z.of_nat (seq 2 (n - 1))).

(** The largest [r] below [2 ^ bits] with [r ^ 3 <= x], bit by bit. *)
Fixpoint cbrt (bits : nat) (r x : Z) : Z :=
  match bits with
  | O => r
  | S n => let r' := r + 2 ^ Z.of_nat n in cbrt n (if r' * r' * r' <=? x then r' else r) x
  end.

Definition sha_k : list Z :=
  Eval vm_compute in map (fun p => cbrt 36 0 (p * 2 ^ 96) mod 2 ^ 32) (primes_to 311).

Definition sha_h0 : list Z :=
  Eval vm_compute in map (fun p => Z.sqrt (p * 2 ^ 64) mod 2 ^ 32) (primes_to 19).

Definition be32 (x : Z) : list Z :=
  [Z.land (Z.shiftr x 24) 255; Z.land (Z.shiftr x 16) 255; Z.land (Z.shiftr x 8) 255; Z.land x 255].

Fixpoint words (l : list Z) : list Z :=
  match l with
  | a :: b :: c :: d :: l' => (((a * 256 + b) * 256 + c) * 256 + d) :: words l'
  | _ => []
  end.

(** The message schedule: the 16 words of the block (newest first), extended to 64. *)
Fixpoint schedule (n : nat) (w : list Z) : list Z :=
  match n with
  | O => w
  | S n' =>
      let at_ i := nth i w 0 in
      let s0 := let x := at_ 14%nat in Z.lxor (Z.lxor (rotr 7 x) (rotr 18 x)) (Z.shiftr x 3) in
      let s1 := let x := at_ 1%nat in Z.lxor (Z.lxor (rotr 17 x) (rotr 19 x)) (Z.shiftr x 10) in
      schedule n' (w32 (at_ 15%nat + s0 + at_ 6%nat + s1) :: w)
  end.

Definition sha_round (st : list Z) (kw : Z * Z) : list Z :=
  match st with
  | [a; b; c; d; e; f; g; h] =>
      let S1 := Z.lxor (Z.lxor (rotr 6 e) (rotr 11 e)) (rotr 25 e) in
      let ch := Z.lxor (Z.land e f) (Z.land (Z.lxor e 0xffffffff) g) in
      let t1 := h + S1 + ch + kw.1 + kw.2 in
      let S0 := Z.lxor (Z.lxor (rotr 2 a) (rotr 13 a)) (rotr 22 a) in
      let maj := Z.lxor (Z.lxor (Z.land a b) (Z.land a c)) (Z.land b c) in
      [w32 (t1 + S0 + maj); a; b; c; w32 (d + t1); e; f; g]
  | _ => st
  end.

Definition compress (h : list Z) (block : list Z) : list Z :=
  let w := rev (schedule 48 (rev (words block))) in
  zip_with add32 h (fold_left sha_round (zip sha_k w) h).

Definition sha_pad (msg : list Z) : list Z :=
  let n := Z.of_nat (length msg) in
  let zeros := Z.to_nat ((55 - n) mod 64) in
  msg ++ [128] ++ replicate zeros 0 ++ be32 (Z.shiftr (8 * n) 32) ++ be32 (8 * n).

Fixpoint sha_blocks (fuel : nat) (h : list Z) (l : list Z) : list Z :=
  match fuel, l with
  | S n, _ :: _ => sha_blocks n (compress h (take 64 l)) (drop 64 l)
  | _, _ => h
  end.

(** [hashlib.sha256(b).digest()]; one unit of fuel per block. *)
Definition sha256 (msg : list Z) : list Z :=
  let p := sha_pad msg in
  List.concat (map be32 (sha_blocks (length p) sha_h0 p)).

Definition sha256_hex (s : string) : string := ("0x" ++ hex (sha256 (bytes_of s)))%string.

Definition hmac_block (b : Z) (key : list Z) : list Z := map (Z.lxor b) (key ++ replicate (64 - length key) 0).

(** [hmac.new(key, msg, sha256).digest()] *)
Definition hmac_sha256 (key msg : list Z) : list Z :=
  let k := if (64 <? length key)%nat then sha256 key else key in
  sha256 (hmac_block 0x5c k ++ sha256 (hmac_block 0x36 k ++ msg)).

(** ** Lemmas *)

Lemma land_255 x : is_byte (Z.land x 255).
Proof. change 255 with (Z.ones 8). rewrite Z.land_ones by lia. unfold is_byte. pose proof (Z.mod_pos_bound x (2 ^ 8)). lia. Qed.

Lemma be32_bytes x : is_bytes (be32 x).
Proof. unfold be32. repeat constructor; apply land_255. Qed.

Lemma concat_be32 l : is_bytes (List.concat (map be32 l)) /\ length (List.concat (map be32 l)) = (4 * length l)%nat.
Proof.
  induction l as [|x l [IH1 IH2]]; [split; [constructor|done]|]. cbn [map List.concat]. split.
  - apply Forall_app. split; [apply be32_bytes|done].
  - rewrite length_app, IH2. cbn. lia.
Qed.

Lemma compress_length h b : length h = 8%nat -> length (compress h b) = 8%nat.
Proof.
  intros Hh. unfold compress. rewrite length_zip_with.
  assert (Hf : forall kws st, length st = 8%nat -> length (fold_left sha_round kws st) = 8%nat).
  { induction kws as [|kw kws IH]; intros st Hst; [done|]. cbn. apply IH.
    do 9 (destruct st as [|? st]; try discriminate Hst). done. }
  rewrite Hf by done. lia.
Qed.

Lemma sha_blocks_length fuel h l : length h = 8%nat -> length (sha_blocks fuel h l) = 8%nat.
Proof.
  revert h l. induction fuel as [|n IH]; intros h l Hh; [done|]. cbn. destruct l; [done|].
  by apply IH, compress_length.
Qed.

Lemma sha256_length l : length (sha256 l) = 32%nat.
Proof. unfold sha256. by rewrite (proj2 (concat_be32 _)), sha_blocks_length. Qed.

Lemma sha256_bytes l : is_bytes (sha256 l).
Proof. unfold sha256. apply concat_be32. Qed.

Lemma hex_value_digit x : 0 <= x < 16 -> hex_value (hex_digit x) = Some x /\ is_space (hex_digit x) = false.
Proof.
  intros Hx. assert (Hc : Forall (fun x => hex_value (hex_digit x) = Some x /\ is_space (hex_digit x) = false)
    (map Z.of_nat (seq 0 16))) by (repeat constructor).
  rewrite Forall_forall in Hc. apply Hc. apply list_elem_of_fmap. exists (Z.to_nat x).
  rewrite elem_of_seq. lia.
Qed.

Lemma unhex_hex l : is_bytes l -> unhex (hex l) = Some l.
Proof.
  induction 1 as [|b l Hb _ IH]; [done|]. cbn. unfold is_byte in Hb.
  assert (H1 : 0 <= b / 16 < 16) by (pose proof (Z.div_lt_upper_bound b 16 16); pose proof (Z.div_pos b 16); lia).
  assert (H2 : 0 <= b mod 16 < 16) by (apply Z.mod_pos_bound; lia).
  destruct (hex_value_digit _ H1) as [-> ->]. destruct (hex_value_digit _ H2) as [-> _]. rewrite IH.
  f_equal. f_equal. pose proof (Z.div_mod b 16). lia.
Qed.

Lemma hex_value_bound a x : hex_value a = Some x -> 0 <= x < 16.
Proof. unfold hex_value. repeat case_match; intros [= <-]; lia. Qed.

Lemma unhex_bytes s l : unhex s = Some l -> is_bytes l.
Proof.
  assert (H : forall n s l, (String.length s <= n)%nat -> unhex s = Some l -> is_bytes l); [|by apply (H (String.length s))].
  clear s l. induction n as [|n IH]; intros s l Hn; destruct s as [|a s]; cbn in Hn; try lia.
  1, 2: intros [= <-]; constructor.
  cbn [unhex]. destruct (is_space a); [apply IH; lia|]. destruct s as [|b s]; [done|]. cbn in Hn.
  destruct (hex_value a) as [x|] eqn:Ha; [|done]. destruct (hex_value b) as [y|] eqn:Hb; [|done].
  destruct (unhex s) as [k|] eqn:Hk; [|done]. intros [= <-].
  apply hex_value_bound in Ha, Hb. constructor; [unfold is_byte; lia|]. apply (IH s); [lia|done].
Qed.

Lemma le_bytes_length n x : length (le_bytes n x) = n.
Proof. revert x. induction n as [|n IH]; intros x; [done|]. cbn. by rewrite IH. Qed.

Lemma le_bytes_bytes n x : is_bytes (le_bytes n x).
Proof. revert x. induction n as [|n IH]; intros x; constructor; [apply Z.mod_pos_bound; lia|apply IH]. Qed.

Lemma le_int_bytes n x : 0 <= x < 256 ^ Z.of_nat n -> le_int (le_bytes n x) = x.
Proof.
  revert x. induction n as [|n IH]; intros x Hx; [cbn in *; lia|]. cbn [le_bytes le_int].
  rewrite Nat2Z.inj_succ, Z.pow_succ_r in Hx by lia. rewrite IH.
  - pose proof (Z.div_mod x 256). lia.
  - split; [apply Z.div_pos; lia|apply Z.div_lt_upper_bound; lia].
Qed.

Lemma le_int_bound l : is_bytes l -> 0 <= le_int l < 256 ^ zlen l.
Proof.
  unfold zlen. induction 1 as [|b l Hb _ IH]; [cbn; lia|]. cbn [le_int length]. unfold is_byte in Hb.
  rewrite Nat2Z.inj_succ, Z.pow_succ_r by lia. lia.
Qed.

Lemma le_bytes_int l : is_bytes l -> le_bytes (length l) (le_int l) = l.
Proof.
  induction 1 as [|b l Hb _ IH]; [done|]. cbn [le_int length le_bytes]. unfold is_byte in Hb.
  f_equal; [rewrite Z.mul_comm, Z_mod_plus_full; by apply Z.mod_small|].
  rewrite Z.mul_comm, Z.div_add by lia. rewrite (Z.div_small b) by lia. by rewrite Z.add_0_l.
Qed.

Lemma to_bytes_le_Ok n x l : to_bytes_le n x = Ok l <-> 0 <= x < 256 ^ Z.of_nat n /\ l = le_bytes n x.
Proof.
  unfold to_bytes_le. destruct (_ && _) eqn:Hb.
  - apply andb_true_iff in Hb as [?%Z.leb_le ?%Z.ltb_lt]. split; [by intros [= <-]|by intros [_ ->]].
  - split; [done|]. intros [[?%Z.leb_le ?%Z.ltb_lt] _]. by rewrite H, H0 in Hb.
Qed.

Lemma py_nth_Ok {A} (l : list A) i x :
  0 <= i -> py_nth l i = Ok x <-> l !! Z.to_nat i = Some x.
Proof.
  intros Hi. unfold py_nth. rewrite (proj2 (Z.ltb_ge i 0)) by done. rewrite (proj2 (Z.ltb_ge i 0)) by done.
  unfold zlen. destruct (Z.leb_spec (Z.of_nat (length l)) i) as [Hle|Hlt].
  - rewrite lookup_ge_None_2 by lia. split; done.
  - destruct (l !! Z.to_nat i) as [y|] eqn:Hy; split; congruence.
Qed.

Lemma slice_app {A} (p q r : list A) : slice (zlen p) (zlen p + zlen q) (p ++ q ++ r) = q.
Proof.
  unfold slice, zlen. rewrite !length_app.
  rewrite !Z.min_l by lia. rewrite !Nat2Z.id, drop_app_length.
  replace (Z.to_nat _) with (length q) by lia. apply take_app_length.
Qed.

Example sha256_abc :
  hex (sha256 (bytes_of "abc")) = "ba7816bf8f01cfea414140de5dae2223b00361a396177a9cb410ff61f20015ad"%string.
Proof. vm_compute. reflexivity. Qed.

Example sha256_two_blocks :
  hex (sha256 (bytes_of "abcdbcdecdefdefgefghfghighijhijkijkljklmklmnlmnomnopnopq"))
  = "248d6a61d20638b8e5c026930c3e6039a33ce45964ff2167f6ecedd419db06c1"%string.
Proof. vm_compute. reflexivity. Qed.

(** * Text *)

Definition ascii_only (s : string) : bool := forallb (fun a => byte_of a <? 128) (list_ascii_of_string s).

(** ** [int(text)] *)

(** What [int] skips around the digits; an ASCII text is read as it is, another
    one has its Unicode spaces translated first. *)
Definition int_space (asc : bool) (a : ascii) : bool :=
  is_space a || negb asc && ((28 <=? byte_of a) && (byte_of a <=? 31) || (byte_of a =? 133) || (byte_of a =? 160)).

Fixpoint drop_left (p : ascii -> bool) (s : string) : string :=
  match s with
  | String a s' => if p a then drop_left p s' else s
  | EmptyString => s
  end.

Fixpoint drop_right (p : ascii -> bool) (s : string) : string :=
  match s with
  | EmptyString => EmptyString
  | String a s' => match drop_right p s' with
                   | EmptyString => if p a then EmptyString else String a EmptyString
                   | r => String a r
                   end
  end.

Lemma drop_left_none p s : forallb (fun a => negb (p a)) (list_ascii_of_string s) = true -> drop_left p s = s.
Proof. destruct s as [|a s]; [done|]. cbn. intros [H _]%andb_true_iff. by apply negb_true_iff in H as ->. Qed.

Lemma drop_right_none p s : forallb (fun a => negb (p a)) (list_ascii_of_string s) = true -> drop_right p s = s.
Proof.
  induction s as [|a s IH]; [done|]. cbn. intros [Ha H]%andb_true_iff. rewrite IH by done. apply negb_true_iff in Ha as ->. by destruct s.
Qed.

Definition digit_of (a : ascii) : option Z :=
  let n := byte_of a in if (48 <=? n) && (n <=? 57) then Some (n - 48) else None.

(** The digits, with single underscores between them: [after] tells whether a
    digit was just read; at most 4300 of them. *)
Fixpoint read_digits (after : bool) (count acc : Z) (s : string) : option Z :=
  match s with
  | EmptyString => if after && (count <=? 4300) then Some acc else None
  | String a s' =>
      match digit_of a with
      | Some d => read_digits true (count + 1) (acc * 10 + d) s'
      | None => if Ascii.eqb a "_" && after then read_digits false count acc s' else None
      end
  end.

Definition int_text (s : string) : option Z :=
  let sp := int_space (ascii_only s) in
  match drop_right sp (drop_left sp s) with
  | String "-" s' => Z.opp <$> read_digits false 0 0 s'
  | String "+" s' => read_digits false 0 0 s'
  | s' => read_digits false 0 0 s'
  end.

(** [l[a:b]]: a bound below 0 counts from the end. *)
Definition py_slice {A} (a b : Z) (l : list A) : list A :=
  let bound i := if i <? 0 then Z.max 0 (i + zlen l) else i in slice (bound a) (bound b) l.

(** * JSON *)

Inductive json :=
| JNull
| JBool (b : bool)
| JInt (n : Z)
| JStr (s : string)
| JArr (l : list json)
| JObj (l : list (string * json)).

Definition quote : string := String "034" EmptyString.
Definition backslash : ascii := "092".

Definition esc (a : ascii) : string := String backslash (String a EmptyString).

(** One character of a JSON string, [ensure_ascii=False]. *)
Definition json_char (a : ascii) : string :=
  let n := byte_of a in
  if n =? 34 then esc "034" else if n =? 92 then esc backslash
  else if n =? 10 then esc "n" else if n =? 13 then esc "r" else if n =? 9 then esc "t"
  else if n =? 8 then esc "b" else if n =? 12 then esc "f"
  else if n <? 32 then (esc "u" ++ "00" ++ hex [n])%string
  else String a EmptyString.

Fixpoint json_chars (s : string) : string :=
  match s with
  | EmptyString => EmptyString
  | String a s' => (json_char a ++ json_chars s')%string
  end.

Definition json_string (s : string) : string := (quote ++ json_chars s ++ quote)%string.

Definition key_leb {A} (x y : string * A) : bool := String.leb x.1 y.1.

(** [json.dumps(v, sort_keys=True, separators=(item, key), ensure_ascii=False)];
    [ensure_ascii=True] writes the same text when the strings are ASCII and
    hold no DEL. *)
Section Dumps.
Context (item_sep key_sep : string).

Fixpoint dumps (v : json) : string :=
  match v with
  | JNull => "null"
  | JBool true => "true"
  | JBool false => "false"
  | JInt n => NilZero.string_of_int (Z.to_int n)
  | JStr s => json_string s
  | JArr l => ("[" ++ String.concat item_sep (map dumps l) ++ "]")%string
  | JObj l =>
      ("{" ++ String.concat item_sep
                (map (fun p => (json_string p.1 ++ key_sep ++ p.2)%string)
                   (isort key_leb (map (fun p => (p.1, dumps p.2)) l))) ++ "}")%string
  end.
End Dumps.

Definition canonical : json -> string := dumps "," ":".

Lemma key_leb_total {A} (x y : string * A) : key_leb x y = false -> key_leb y x = true.
Proof. unfold key_leb. destruct (String.leb_total x.1 y.1); congruence. Qed.

Lemma key_leb_trans {A} (x y z : string * A) :
  key_leb x y = true -> key_leb y z = true -> key_leb x z = true.
Proof. apply str_leb_trans. Qed.

(** The order of a dict's items does not reach its canonical text. *)
Lemma canonical_perm l l' :
  NoDup l.*1 -> l ≡ₚ l' -> canonical (JObj l) = canonical (JObj l').
Proof.
  intros Hnd Hp. unfold canonical. cbn [dumps].
  rewrite (isort_unique key_leb key_leb_total key_leb_trans _
             (map (fun p => (p.1, dumps "," ":" p.2)) l')); [done|by rewrite Hp|].
  intros x y Hx Hy Hxy Hyx.
  apply (NoDup_fmap_inj fst (map (fun p => (p.1, dumps "," ":" p.2)) l)); [|done|done|].
  - replace (fst <$> map _ l) with (l.*1); [done|]. clear. induction l as [|p l IH]; [done|]. cbn. by rewrite IH.
  - by apply String.leb_antisym.
Qed.

Example canonical_ex :
  canonical (JObj [("b", JInt (-5)); ("a", JArr [JNull; JBool true; JStr "x"])])%string
  = ("{" ++ quote ++ "a" ++ quote ++ ":[null,true," ++ quote ++ "x" ++ quote ++ "]," ++
     quote ++ "b" ++ quote ++ ":-5}")%string.
Proof. reflexivity. Qed.

End Stdpy.
