(* ===== verification/Datetime.v ===== *)
(** Instants of [datetime] with the time zone UTC, and their text.

    The language's part of what ingestion/cursors.py and the gap exceptions of
    ingestion/collector.py do with [isoformat] and [fromisoformat].  An instant
    is a number of microseconds from 1970; the calendar is the proleptic
    Gregorian one; the reader takes the spellings [isoformat] writes. *)

From S2P Require Import Prelude.

Module Datetime.

(** * The calendar *)

Definition DAY : Z := 86400000000.

(** Years begin in March, so that the day added to a leap year is the last. *)
Definition year_start (yoe : Z) : Z := yoe * 365 + yoe / 4 - yoe / 100.

Definition day_of_year (m d : Z) : Z := (153 * (if 2 <? m then m - 3 else m + 9) + 2) / 5 + d - 1.

(** The number of a date's day, from 1970-01-01. *)
Definition days_from_civil (y m d : Z) : Z :=
  let y' := if m <=? 2 then y - 1 else y in
  (y' / 400) * 146097 + year_start (y' mod 400) + day_of_year m d - 719468.

Definition year_of_era (doe : Z) : Z := (doe - doe / 1460 + doe / 36524 - doe / 146096) / 365.

(** Month and day of a day of the year. *)
Definition month_day (doy : Z) : Z * Z :=
  let mp := (5 * doy + 2) / 153 in
  (if mp <? 10 then mp + 3 else mp - 9, doy - (153 * mp + 2) / 5 + 1).

Definition civil_from_days (n : Z) : Z * Z * Z :=
  let z := n + 719468 in
  let doe := z mod 146097 in
  let yoe := year_of_era doe in
  let '(m, d) := month_day (doe - year_start yoe) in
  (yoe + (z / 146097) * 400 + (if m <=? 2 then 1 else 0), m, d).

(** The years 1 to 9999 of [datetime]. *)
Definition representable (t : Z) : bool := (-719162 * DAY <=? t) && (t <? 2932897 * DAY).

(** * Numerals of a fixed width *)

Definition digit (n : Z) : ascii := ascii_of_N (Z.to_N (48 + n)).

Fixpoint pad (w : nat) (n : Z) (rest : string) : string :=
  match w with
  | O => rest
  | S w' => pad w' (n / 10) (String (digit (n mod 10)) rest)
  end.

(** Reads [w] digits after the value [acc]. *)
Fixpoint num (w : nat) (acc : Z) (s : string) : option (Z * string) :=
  match w, s with
  | O, _ => Some (acc, s)
  | S w', String a s' =>
      let n := Z.of_N (N_of_ascii a) - 48 in
      if (0 <=? n) && (n <=? 9) then num w' (acc * 10 + n) s' else None
  | _, _ => None
  end.

Definition skip (c : ascii) (s : string) : option string :=
  match s with String a s' => if Ascii.eqb a c then Some s' else None | EmptyString => None end.

(** * Text *)

(** [t.isoformat()] *)
Definition isoformat (t : Z) : string :=
  let '(y, m, d) := civil_from_days (t / DAY) in
  let us := t mod DAY in
  let s := us / 1000000 in
  let f := us mod 1000000 in
  pad 4 y (String "-" (pad 2 m (String "-" (pad 2 d (String "T"
    (pad 2 (s / 3600) (String ":" (pad 2 (s / 60 mod 60) (String ":" (pad 2 (s mod 60)
      (if f =? 0 then "+00:00"%string else String "." (pad 6 f "+00:00"%string)))))))))))).

(** The fraction and the zone. *)
Definition read_tail (base : Z) (s : string) : option datetime :=
  let zone t s := if String.eqb s "+00:00" then Some (Aware t) else if String.eqb s "" then Some (Naive t) else None in
  match skip "." s with
  | Some s' => match num 6 0 s' with Some (f, s'') => zone (base + f) s'' | None => None end
  | None => zone base s
  end.

(** [datetime.fromisoformat(s)] *)
Definition fromisoformat (s : string) : res datetime :=
  let read w c s k := match num w 0 s with Some (n, s') => match skip c s' with Some s'' => k n s'' | None => None end | None => None end in
  match read 4%nat "-"%char s (fun y s => read 2%nat "-"%char s (fun m s => read 2%nat "T"%char s (fun d s =>
        read 2%nat ":"%char s (fun hh s => read 2%nat ":"%char s (fun mm s => match num 2 0 s with
        | Some (ss, s) =>
            if (1 <=? m) && (m <=? 12) && (1 <=? d) && (d <=? 31) && (hh <? 24) && (mm <? 60) && (ss <? 60)
               && bool_decide (civil_from_days (days_from_civil y m d) = (y, m, d))
            then read_tail (days_from_civil y m d * DAY + (hh * 3600 + mm * 60 + ss) * 1000000) s
            else None
        | None => None
        end))))) with
  | Some t => Ok t
  | None => Raise (Exn ValueError "Invalid isoformat string")
  end.

(** * The text of an instant determines it *)

Definition range (n : nat) : list Z := map Z.of_nat (seq 0 n).

Lemma in_range_of n x : 0 <= x < Z.of_nat n -> In x (range n).
Proof. intros Hx. apply in_map_iff. exists (Z.to_nat x). split; [lia|]. apply in_seq. lia. Qed.

Lemma range_all n (p : Z -> bool) x : forallb p (range n) = true -> 0 <= x < Z.of_nat n -> p x = true.
Proof. intros H Hx. rewrite forallb_forall in H. by apply H, in_range_of. Qed.

(** The first day of a year of the era; the era's last year ends with it. *)
Definition year_end (y : Z) : Z := if y =? 399 then 146097 else year_start (y + 1).

Lemma years_table :
  forallb (fun y => (year_of_era (year_start y) =? y) && (year_of_era (year_end y - 1) =? y) && (year_end y - year_start y <=? 366) &&
                    (year_start y <? year_end y)) (range 400) = true.
Proof. vm_compute. reflexivity. Qed.

Lemma days_table :
  forallb (fun doy => let '(m, d) := month_day doy in
    (1 <=? m) && (m <=? 12) && (1 <=? d) && (d <=? 31) && (day_of_year m d =? doy) && ((306 <=? doy) || (2 <? m))) (range 366) = true.
Proof. vm_compute. reflexivity. Qed.

Lemma year_of_era_mono a b : 0 <= a <= b -> b < 146097 -> year_of_era a <= year_of_era b.
Proof.
  intros Ha Hb. unfold year_of_era. apply Z.div_le_mono; [lia|].
  assert (Hstep : forall n, 0 <= n -> n + 1 < 146097 ->
    n - n / 1460 + n / 36524 - n / 146096 <= n + 1 - (n + 1) / 1460 + (n + 1) / 36524 - (n + 1) / 146096).
  { intros n Hn Hn2. destruct (Z.eq_dec n 146095) as [->|Hne]; [vm_compute; discriminate|].
    rewrite (Z.div_small n 146096), (Z.div_small (n + 1) 146096) by lia.
    assert ((n + 1) / 1460 <= n / 1460 + 1) by (rewrite <- Z.div_add by lia; apply Z.div_le_mono; lia).
    assert (n / 36524 <= (n + 1) / 36524) by (apply Z.div_le_mono; lia). lia. }
  replace b with (a + Z.of_nat (Z.to_nat (b - a))) in * by lia. revert Hb. induction (Z.to_nat (b - a)) as [|k IH]; intros Hb; [rewrite Z.add_0_r; lia|].
  etransitivity; [apply IH; lia|]. replace (a + Z.of_nat (S k)) with (a + Z.of_nat k + 1) by lia. apply Hstep; lia.
Qed.

Lemma year_exists (k : nat) doe :
  (k <= 400)%nat -> 0 <= doe < (if Z.of_nat k =? 400 then 146097 else year_start (Z.of_nat k)) ->
  exists y, 0 <= y < Z.of_nat k /\ year_start y <= doe < year_end y.
Proof.
  induction k as [|k IH]; intros Hk Hdoe; [change (Z.of_nat 0 =? 400) with false in Hdoe; change (year_start (Z.of_nat 0)) with 0 in Hdoe; lia|].
  destruct (Z.lt_ge_cases doe (year_start (Z.of_nat k))) as [Hlt|Hge].
  - destruct IH as (y & Hy & Hr); [lia| |exists y; split; [lia|done]]. destruct (Z.eqb_spec (Z.of_nat k) 400); lia.
  - exists (Z.of_nat k). split; [lia|]. split; [done|]. unfold year_end. replace (Z.of_nat (S k)) with (Z.of_nat k + 1) in Hdoe by lia.
    destruct (Z.eqb_spec (Z.of_nat k) 399); destruct (Z.eqb_spec (Z.of_nat k + 1) 400); lia.
Qed.

Lemma year_of_era_spec doe :
  0 <= doe < 146097 ->
  0 <= year_of_era doe < 400 /\ year_start (year_of_era doe) <= doe < year_end (year_of_era doe) /\
  year_end (year_of_era doe) - year_start (year_of_era doe) <= 366.
Proof.
  intros Hdoe. destruct (year_exists 400 doe) as (y & Hy & Hr); [lia|change (Z.of_nat 400 =? 400) with true; cbv iota; lia|]. change (Z.of_nat 400) with 400 in Hy.
  pose proof (range_all 400 _ y years_table ltac:(lia)) as Ht. cbn beta in Ht.
  apply andb_true_iff in Ht as [Ht Hlt%Z.ltb_lt]. apply andb_true_iff in Ht as [Ht H3%Z.leb_le]. apply andb_true_iff in Ht as [H1%Z.eqb_eq H2%Z.eqb_eq].
  assert (Hs : 0 <= year_start y) by (unfold year_start; Z.to_euclidean_division_equations; lia).
  assert (He : year_end y <= 146097).
  { unfold year_end. destruct (Z.eqb_spec y 399); [lia|]. unfold year_start. Z.to_euclidean_division_equations. lia. }
  assert (year_of_era doe = y) as ->; [|split; [lia|split; [lia|lia]]].
  pose proof (year_of_era_mono (year_start y) doe ltac:(lia) ltac:(lia)). pose proof (year_of_era_mono doe (year_end y - 1) ltac:(lia) ltac:(lia)). lia.
Qed.

Lemma month_day_spec doy m d : 0 <= doy < 366 -> month_day doy = (m, d) ->
  1 <= m <= 12 /\ 1 <= d <= 31 /\ day_of_year m d = doy /\ (doy < 306 -> 2 < m).
Proof.
  intros Hd Hmd. pose proof (range_all 366 _ doy days_table Hd) as Ht. cbn beta in Ht. rewrite Hmd in Ht.
  apply andb_true_iff in Ht as [Ht H6%orb_true_iff]. repeat (apply andb_true_iff in Ht as [Ht ?]). lia.
Qed.

#[local] Ltac Zify.zify_post_hook ::= Z.to_euclidean_division_equations.

(** The calendar and back. *)
Lemma civil_spec n y m d :
  civil_from_days n = (y, m, d) ->
  days_from_civil y m d = n /\ 1 <= m <= 12 /\ 1 <= d <= 31 /\ (-719162 <= n < 2932897 -> 0 <= y <= 9999).
Proof.
  unfold civil_from_days. set (z := n + 719468). set (doe := z mod 146097). assert (Hdoe : 0 <= doe < 146097) by (subst doe; lia).
  destruct (year_of_era_spec doe Hdoe) as (Hy & Hr & Hlen). set (yoe := year_of_era doe) in *.
  destruct (month_day (doe - year_start yoe)) as [m' d'] eqn:Hmd. intros [= <- <- <-].
  destruct (month_day_spec (doe - year_start yoe) m' d' ltac:(lia) Hmd) as (Hm & Hd & Hdoy & Hlast).
  assert (Hyear : (if m' <=? 2 then yoe + z / 146097 * 400 + (if m' <=? 2 then 1 else 0) - 1 else yoe + z / 146097 * 400 + (if m' <=? 2 then 1 else 0))
                  = z / 146097 * 400 + yoe) by (destruct (m' <=? 2); lia).
  split_and!; try lia.
  - unfold days_from_civil. rewrite Hyear.
    assert ((z / 146097 * 400 + yoe) / 400 = z / 146097) as -> by (clearbody yoe; generalize (z / 146097); intros; lia).
    assert ((z / 146097 * 400 + yoe) mod 400 = yoe) as -> by (clearbody yoe; generalize (z / 146097); intros; lia). rewrite Hdoy.
    pose proof (Z.div_mod z 146097). subst doe z. lia.
  - intros Hn. assert (Hera : 0 <= z / 146097 <= 24) by (subst z; lia). pose proof (Z.div_mod z 146097).
    destruct (m' <=? 2) eqn:Hm2; [|lia]. split; [lia|]. destruct (Z.eq_dec (z / 146097) 24) as [E|]; [|lia].
    assert (yoe <> 399); [|lia]. intros E2. assert (doe <= 146036) by (subst doe z; lia).
    assert (year_start yoe = 145731) by (rewrite E2; reflexivity). lia.
Qed.

(** ** Numerals *)

Lemma digit_value n : 0 <= n <= 9 -> Z.of_N (N_of_ascii (digit n)) - 48 = n.
Proof. intros Hn. unfold digit. rewrite N_ascii_embedding by lia. lia. Qed.

Lemma num_pad w n rest : 0 <= n < 10 ^ Z.of_nat w -> num w 0 (pad w n rest) = Some (n, rest).
Proof.
  assert (H : forall k acc m s, 0 <= m < 10 ^ Z.of_nat w -> num (w + k) acc (pad w m s) = num k (acc * 10 ^ Z.of_nat w + m) s).
  { induction w as [|w IH]; intros k acc m s Hm; cbn [pad].
    - cbn in *. f_equal. lia.
    - rewrite Nat2Z.inj_succ, Z.pow_succ_r in * by lia. replace (S w + k)%nat with (w + S k)%nat by lia.
      rewrite IH by (split; [apply Z.div_pos; lia|apply Z.div_lt_upper_bound; lia]). cbn [num]. rewrite digit_value by (pose proof (Z.mod_pos_bound m 10); lia).
      replace ((0 <=? m mod 10) && (m mod 10 <=? 9)) with true by lia. f_equal. pose proof (Z.div_mod m 10). lia. }
  intros Hn. specialize (H 0%nat 0 n rest Hn). rewrite Nat.add_0_r in H. by rewrite H.
Qed.

Lemma skip_eq c s : skip c (String c s) = Some s.
Proof. cbn. by rewrite Ascii.eqb_refl. Qed.

(** [fromisoformat] reads back what [isoformat] wrote. *)
Lemma isoformat_roundtrip t : representable t = true -> fromisoformat (isoformat t) = Ok (Aware t).
Proof.
  unfold representable, DAY. intros Ht. unfold isoformat, fromisoformat, DAY.
  destruct (civil_from_days (t / 86400000000)) as [[y m] d] eqn:Hc. pose proof (civil_spec _ _ _ _ Hc) as (Hdays & Hm & Hd & Hy).
  assert (Hyr : 0 <= y <= 9999) by (apply Hy; lia).
  set (us := t mod 86400000000). assert (Hus : 0 <= us < 86400000000) by (subst us; lia).
  set (s := us / 1000000). set (f := us mod 1000000). assert (Hs : 0 <= s < 86400) by (subst s; lia). assert (Hf : 0 <= f < 1000000) by (subst f; lia).
  assert (Hsf : us = s * 1000000 + f) by (subst s f; lia). cbv zeta.
  rewrite !num_pad, !skip_eq, !num_pad, !skip_eq, !num_pad, !skip_eq, !num_pad, !skip_eq, !num_pad, !skip_eq, !num_pad by (cbn; lia).
  rewrite Hdays, Hc, bool_decide_true by done.
  replace ((1 <=? m) && _ && _ && _ && _ && _ && _ && true) with true by lia.
  assert (Hsec : s / 3600 * 3600 + s / 60 mod 60 * 60 + s mod 60 = s) by (Z.to_euclidean_division_equations; lia).
  assert (Hbase : t / 86400000000 * 86400000000 + (s / 3600 * 3600 + s / 60 mod 60 * 60 + s mod 60) * 1000000 = t - f).
  { rewrite Hsec. pose proof (Z.div_mod t 86400000000). subst us. lia. }
  rewrite Hbase. unfold read_tail. destruct (Z.eqb_spec f 0) as [->|Hne].
  - cbn. by rewrite Z.sub_0_r.
  - rewrite skip_eq, num_pad by (cbn; lia). cbn. do 2 f_equal. lia.
Qed.

Example isoformat_ex : isoformat 1726012800123456 = "2024-09-11T00:00:00.123456+00:00"%string.
Proof. vm_compute. reflexivity. Qed.

End Datetime.
