(* ===== verification/Json.v ===== *)
(** Dictionaries of decoded JSON: access with Python's exceptions, update,
    truth values and equality.

    The language's part of what settlement/legs.py, projections/indexer.py and
    reconciliation/chain_reader.py do with [json.loads]ed values. *)

From S2P Require Import Prelude Domain Stdpy.
Import Stdpy.

Module Json.

(** [==] on the values of [json.loads]. *)
Fixpoint json_eqb (a b : json) : bool :=
  match a, b with
  | JNull, JNull => true
  | JBool x, JBool y => Bool.eqb x y
  | JBool x, JInt y | JInt y, JBool x => Z.b2z x =? y
  | JInt x, JInt y => x =? y
  | JStr x, JStr y => String.eqb x y
  | JArr l, JArr m =>
      (fix go l m := match l, m with
                     | [], [] => true
                     | x :: l', y :: m' => json_eqb x y && go l' m'
                     | _, _ => false
                     end) l m
  | JObj l, JObj m =>
      (length l =? length m)%nat &&
      forallb (fun p => match List.find (fun x => String.eqb x.1 p.1) m with Some x => json_eqb p.2 x.2 | None => false end) l
  | _, _ => false
  end.

(** [d.get(key)] of a dict's items. *)
Definition dget {A} (key : string) (l : list (string * A)) : option A :=
  snd <$> List.find (fun p => String.eqb p.1 key) l.

(** [{**d, key: v}] *)
Fixpoint dput {A} (key : string) (v : A) (l : list (string * A)) : list (string * A) :=
  match l with
  | [] => [(key, v)]
  | p :: l' => if String.eqb p.1 key then (key, v) :: l' else p :: dput key v l'
  end.

(** [value.get(key)] *)
Definition get_field (key : string) (v : json) : option json := match v with JObj l => dget key l | _ => None end.

(** [value[key]] *)
Definition field (key : string) (v : json) : res json :=
  match v with
  | JObj l => match dget key l with Some x => Ok x | None => Raise (Exn KeyError key) end
  | _ => Raise (Exn TypeError "indices must be integers")
  end.

(** [value[key]] where a text is expected. *)
Definition str_field (key : string) (v : json) : res string :=
  rbind (field key v) (fun x => match x with JStr s => Ok s | _ => Raise (Exn TypeError key) end).

(** [int(x)] *)
Definition int_of (key : string) (x : json) : res Z :=
  match x with
  | JInt n => Ok n
  | JBool b => Ok (Z.b2z b)
  | JStr s => Domain.py_int s
  | _ => Raise (Exn TypeError key)
  end.

(** [int(v)], on every text that [int] reads. *)
Definition int_json (v : json) : res Z :=
  match v with
  | JInt n => Ok n
  | JBool b => Ok (Z.b2z b)
  | JStr s => match int_text s with Some n => Ok n | None => Raise (Exn ValueError "invalid literal for int()") end
  | _ => Raise (Exn TypeError "int() argument")
  end.

(** [v in {...}] of a set of texts: a list or a dict has no hash. *)
Definition in_set (v : json) (l : list string) : res bool :=
  match v with
  | JStr s => Ok (mem_str s l)
  | JArr _ | JObj _ => Raise (Exn TypeError "unhashable type")
  | _ => Ok false
  end.

(** [int(value[key])] *)
Definition int_field (key : string) (v : json) : res Z := rbind (field key v) (int_of key).

(** [bool(x)] *)
Definition truth (x : json) : bool :=
  match x with
  | JNull => false
  | JBool b => b
  | JInt n => negb (n =? 0)
  | JStr s => negb (String.eqb s "")
  | JArr l => match l with [] => false | _ => true end
  | JObj l => match l with [] => false | _ => true end
  end.

Lemma dget_dput_eq {A} key (v : A) l : dget key (dput key v l) = Some v.
Proof.
  unfold dget. induction l as [|[k x] l IH]; cbn; [by rewrite String.eqb_refl|].
  destruct (String.eqb k key) eqn:Hk; cbn; [by rewrite String.eqb_refl|]. by rewrite Hk.
Qed.

Lemma dget_dput_ne {A} key k (v : A) l : key <> k -> dget key (dput k v l) = dget key l.
Proof.
  intros Hne. unfold dget. induction l as [|[j x] l IH]; cbn.
  - apply not_eq_sym, String.eqb_neq in Hne. by rewrite Hne.
  - destruct (String.eqb_spec j k) as [->|]; cbn.
    + apply not_eq_sym, String.eqb_neq in Hne. by rewrite Hne.
    + by destruct (String.eqb j key).
Qed.

End Json.
