(* ===== verification/JsonText.v ===== *)
(** [json.loads]: the text of a value read back, and the theorem that it reads
    what [dumps] writes.

    The standard library's part of the code that reads JSON it wrote: the
    sessions of the product API.  A string is its UTF-8 bytes, a surrogate
    without its partner included.  The model's JSON has no floats: what a number
    with a fraction or an exponent, or NaN, stands for is an argument. *)

From S2P Require Import Prelude Domain Stdpy Json.
From Stdlib Require Import DecimalString DecimalZ Decimal.
From Stdlib Require DecimalFacts.
Import Domain Stdpy Json.

Module JsonText.

(** * Scanning *)

Definition json_error {A} : res A := Raise (Exn ValueError "JSONDecodeError").

Definition json_space (a : ascii) : bool := let n := byte_of a in (n =? 32) || (n =? 9) || (n =? 10) || (n =? 13).

Definition skip (s : string) : string := drop_left json_space s.

(** The bytes of one code point. *)
Definition utf8 (c : Z) : string :=
  let cont x := char_of (128 + x mod 64) in
  if c <? 128 then String (char_of c) ""
  else if c <? 2048 then String (char_of (192 + c / 64)) (String (cont c) "")
  else if c <? 65536 then String (char_of (224 + c / 4096)) (String (cont (c / 64)) (String (cont c) ""))
  else String (char_of (240 + c / 262144)) (String (cont (c / 4096)) (String (cont (c / 64)) (String (cont c) ""))).

Definition hex4 (a b c d : ascii) : option Z :=
  match hex_value a, hex_value b, hex_value c, hex_value d with
  | Some w, Some x, Some y, Some z => Some (w * 4096 + x * 256 + y * 16 + z)
  | _, _, _, _ => None
  end.

Definition high_surrogate (c : Z) : bool := (0xd800 <=? c) && (c <=? 0xdbff).
Definition low_surrogate (c : Z) : bool := (0xdc00 <=? c) && (c <=? 0xdfff).

(** The character after a backslash. *)
Definition unescape (a : ascii) : option ascii :=
  let n := byte_of a in
  if (n =? 34) || (n =? 92) || (n =? 47) then Some a
  else if n =? 98 then Some (char_of 8) else if n =? 102 then Some (char_of 12)
  else if n =? 110 then Some (char_of 10) else if n =? 114 then Some (char_of 13)
  else if n =? 116 then Some (char_of 9) else None.

Definition prepend (t : string) (r : res (string * string)) : res (string * string) := rbind r (fun p => Ok ((t ++ p.1)%string, p.2)).

(** The rest of a string literal, after its opening quote. *)
Fixpoint scan_string (s : string) : res (string * string) :=
  match s with
  | EmptyString => json_error
  | String a r =>
      if byte_of a =? 34 then Ok (EmptyString, r)
      else if byte_of a <? 32 then json_error
      else if negb (byte_of a =? 92) then prepend (String a "") (scan_string r)
      else
        match r with
        | EmptyString => json_error
        | String e r1 =>
            if negb (byte_of e =? 117) then
              match unescape e with Some c => prepend (String c "") (scan_string r1) | None => json_error end
            else
              match r1 with
              | String x1 (String x2 (String x3 (String x4 r2))) =>
                  match hex4 x1 x2 x3 x4 with
                  | None => json_error
                  | Some c =>
                      match r2 with
                      | String b (String u (String y1 (String y2 (String y3 (String y4 r3))))) =>
                          match hex4 y1 y2 y3 y4 with
                          | Some c2 =>
                              if high_surrogate c && (byte_of b =? 92) && (byte_of u =? 117) && low_surrogate c2
                              then prepend (utf8 (65536 + (c - 0xd800) * 1024 + (c2 - 0xdc00))) (scan_string r3)
                              else prepend (utf8 c) (scan_string r2)
                          | None => prepend (utf8 c) (scan_string r2)
                          end
                      | _ => prepend (utf8 c) (scan_string r2)
                      end
                  end
              | _ => json_error
              end
        end
  end.

Definition is_digit (a : ascii) : bool := (48 <=? byte_of a) && (byte_of a <=? 57).

(** The digits at the head of a text, and what follows. *)
Fixpoint span_digits (s : string) : string * string :=
  match s with
  | String a r => if is_digit a then let '(d, t) := span_digits r in (String a d, t) else (EmptyString, s)
  | EmptyString => (EmptyString, EmptyString)
  end.

(** [(0|[1-9]\d* )] *)
Definition scan_unsigned (sign s : string) : option (string * string) :=
  match s with
  | EmptyString => None
  | String c r =>
      if byte_of c =? 48 then Some ((sign ++ "0")%string, r)
      else match span_digits s with
           | (EmptyString, _) => None
           | (d, t) => Some ((sign ++ d)%string, t)
           end
  end.

(** The part of a number before its fraction. *)
Definition scan_int (s : string) : option (string * string) :=
  match s with
  | String c r => if byte_of c =? 45 then scan_unsigned "-" r else scan_unsigned "" s
  | EmptyString => None
  end.

(** [(\.\d+)?] *)
Definition scan_frac (s : string) : string * string :=
  match s with
  | String c r =>
      if byte_of c =? 46 then match span_digits r with (EmptyString, _) => (EmptyString, s) | (d, t) => (String c d, t) end
      else (EmptyString, s)
  | EmptyString => (EmptyString, s)
  end.

(** [([eE][-+]?\d+)?] *)
Definition scan_exp (s : string) : string * string :=
  match s with
  | String e r =>
      if (byte_of e =? 101) || (byte_of e =? 69) then
        let '(sg, r1) := match r with
                         | String c r1 => if (byte_of c =? 45) || (byte_of c =? 43) then (String c "", r1) else (EmptyString, r)
                         | EmptyString => (EmptyString, r)
                         end in
        match span_digits r1 with (EmptyString, _) => (EmptyString, s) | (d, t) => (String e (sg ++ d), t) end
      else (EmptyString, s)
  | EmptyString => (EmptyString, s)
  end.

Fixpoint after (prefix s : string) : option string :=
  match prefix, s with
  | EmptyString, _ => Some s
  | String a p, String b t => if Ascii.eqb a b then after p t else None
  | _, _ => None
  end.

Section Loads.
Context (parse_float : string -> json).

(** [int] of the digits: more than 4300 of them are refused. *)
Definition int_digits (t : string) : res json :=
  match NilZero.int_of_string t with
  | Some d => if (4300 <? Decimal.nb_digits (match d with Decimal.Pos u => u | Decimal.Neg u => u end))%nat then Raise (Exn ValueError "Exceeds the limit for integer string conversion")
              else Ok (JInt (Z.of_int d))
  | None => json_error
  end.

Definition scan_number (s : string) : res (json * string) :=
  match scan_int s with
  | None => json_error
  | Some (t, r) =>
      let '(f, r1) := scan_frac r in
      let '(e, r2) := scan_exp r1 in
      if String.eqb f "" && String.eqb e "" then rbind (int_digits t) (fun v => Ok (v, r2))
      else Ok (parse_float (t ++ f ++ e)%string, r2)
  end.

(** A literal, a constant, or a number. *)
Definition scan_atom (s : string) : res (json * string) :=
  match after "null" s, after "true" s, after "false" s, after "NaN" s, after "Infinity" s, after "-Infinity" s with
  | Some r, _, _, _, _, _ => Ok (JNull, r)
  | _, Some r, _, _, _, _ => Ok (JBool true, r)
  | _, _, Some r, _, _, _ => Ok (JBool false, r)
  | _, _, _, Some r, _, _ => Ok (parse_float "NaN", r)
  | _, _, _, _, Some r, _ => Ok (parse_float "Infinity", r)
  | _, _, _, _, _, Some r => Ok (parse_float "-Infinity", r)
  | _, _, _, _, _, _ => scan_number s
  end.

(** Items of a container, given how a value is read: up to the closing mark.
    One unit of fuel per item. *)
Fixpoint scan_items (value : string -> res (json * string)) (n : nat) (s : string) : res (list json * string) :=
  match n with
  | O => Raise (Exn OutOfFuel "")
  | S n' =>
      rbind (value s) (fun '(v, r) =>
      match skip r with
      | String c r1 =>
          if byte_of c =? 93 then Ok ([v], r1)
          else if byte_of c =? 44 then rbind (scan_items value n' (skip r1)) (fun '(l, t) => Ok (v :: l, t))
          else json_error
      | EmptyString => json_error
      end)
  end.

Fixpoint scan_pairs (value : string -> res (json * string)) (n : nat) (s : string) : res (list (string * json) * string) :=
  match n with
  | O => Raise (Exn OutOfFuel "")
  | S n' =>
      match s with
      | String q s1 =>
          if negb (byte_of q =? 34) then json_error
          else
            rbind (scan_string s1) (fun '(k, r) =>
            match skip r with
            | String c r1 =>
                if negb (byte_of c =? 58) then json_error
                else
                  rbind (value (skip r1)) (fun '(v, r2) =>
                  match skip r2 with
                  | String c2 r3 =>
                      if byte_of c2 =? 125 then Ok ([(k, v)], r3)
                      else if byte_of c2 =? 44 then rbind (scan_pairs value n' (skip r3)) (fun '(l, t) => Ok ((k, v) :: l, t))
                      else json_error
                  | EmptyString => json_error
                  end)
            | EmptyString => json_error
            end)
      | EmptyString => json_error
      end
  end.

(** [dict(pairs)]: the last value of a key, at the key's first place. *)
Definition dict_of (l : list (string * json)) : list (string * json) := fold_left (fun d p => dput p.1 p.2 d) l [].

(** One unit of fuel per level. *)
Fixpoint scan_value (n : nat) (s : string) : res (json * string) :=
  match n with
  | O => Raise (Exn OutOfFuel "")
  | S n' =>
      match s with
      | EmptyString => json_error
      | String c r =>
          if byte_of c =? 34 then rbind (scan_string r) (fun '(t, r1) => Ok (JStr t, r1))
          else if byte_of c =? 91 then
            match skip r with
            | String c1 r1 => if byte_of c1 =? 93 then Ok (JArr [], r1)
                              else rbind (scan_items (scan_value n') (S (String.length r)) (skip r)) (fun '(l, t) => Ok (JArr l, t))
            | EmptyString => json_error
            end
          else if byte_of c =? 123 then
            match skip r with
            | String c1 r1 => if byte_of c1 =? 125 then Ok (JObj [], r1)
                              else rbind (scan_pairs (scan_value n') (S (String.length r)) (skip r)) (fun '(l, t) => Ok (JObj (dict_of l), t))
            | EmptyString => json_error
            end
          else scan_atom s
      end
  end.

Definition BOM : string := utf8 0xfeff.

(** [json.loads(text)] *)
Definition loads (s : string) : res json :=
  if after BOM s is Some _ then json_error
  else rbind (scan_value (S (String.length s)) (skip s)) (fun '(v, r) => match skip r with EmptyString => Ok v | _ => json_error end).
End Loads.

(** * What [dumps] writes is read *)

(** The induction on a value and the values inside it. *)
Section Induction.
Context (P : json -> Prop).
Context (Hnull : P JNull) (Hbool : forall b, P (JBool b)) (Hint : forall n, P (JInt n)) (Hstr : forall s, P (JStr s)).
Context (Harr : forall l, Forall P l -> P (JArr l)) (Hobj : forall l, Forall (fun p => P p.2) l -> P (JObj l)).

Fixpoint json_nested (v : json) : P v :=
  match v with
  | JNull => Hnull
  | JBool b => Hbool b
  | JInt n => Hint n
  | JStr s => Hstr s
  | JArr l => Harr l ((fix go l := match l return Forall P l with [] => Forall_nil_2 P | x :: l' => Forall_cons_2 P x l' (json_nested x) (go l') end) l)
  | JObj l => Hobj l ((fix go l := match l return Forall (fun p => P p.2) l with [] => Forall_nil_2 _ | x :: l' => Forall_cons_2 _ x l' (json_nested x.2) (go l') end) l)
  end.
End Induction.

Definition int_size (n : Z) : nat := Decimal.nb_digits (match Z.to_int n with Decimal.Pos u => u | Decimal.Neg u => u end).

(** A value [dumps] writes so that it can be read: each key once in a dict, no
    integer beyond [int]'s limit. *)
Fixpoint readable (v : json) : bool :=
  match v with
  | JInt n => (int_size n <=? 4300)%nat
  | JArr l => forallb readable l
  | JObj l => bool_decide (NoDup l.*1) && forallb (fun p => readable p.2) l
  | _ => true
  end.

(** The value with the keys of its dicts in order. *)
Fixpoint sorted (v : json) : json :=
  match v with
  | JArr l => JArr (map sorted l)
  | JObj l => JObj (isort key_leb (map (fun p => (p.1, sorted p.2)) l))
  | _ => v
  end.

(** Sorting by the key commutes with a change of the values. *)
Lemma isort_values {A B} (f : A -> B) (l : list (string * A)) :
  isort key_leb (map (fun p => (p.1, f p.2)) l) = map (fun p => (p.1, f p.2)) (isort key_leb l).
Proof.
  assert (Hi : forall x (l : list (string * A)), isert key_leb (x.1, f x.2) (map (fun p => (p.1, f p.2)) l) = map (fun p => (p.1, f p.2)) (isert key_leb x l)).
  { intros x l0. induction l0 as [|y l0 IH]; [done|]. cbn. unfold key_leb at 1 3. cbn. destruct (String.leb x.1 y.1); [done|]. by rewrite IH. }
  unfold isort. induction l as [|x l IH]; [done|]. cbn. rewrite IH. apply Hi.
Qed.

Lemma dput_new {A} k (v : A) l : k ∉ l.*1 -> dput k v l = l ++ [(k, v)].
Proof.
  induction l as [|[k' v'] l IH]; [done|]. cbn. intros [Hk Hl]%not_elem_of_cons.
  destruct (String.eqb_spec k' k) as [->|]; [done|]. by rewrite IH.
Qed.

Lemma dict_of_nodup l : NoDup l.*1 -> dict_of l = l.
Proof.
  assert (H : forall l acc, NoDup (acc ++ l).*1 -> fold_left (fun d (p : string * json) => dput p.1 p.2 d) l acc = acc ++ l).
  { clear l. induction l as [|[k v] l IH]; intros acc Hn; cbn; [by rewrite app_nil_r|].
    rewrite fmap_app in Hn. apply NoDup_app in Hn as (Hn1 & Hn2 & Hn3). cbn in Hn2, Hn3. rewrite dput_new.
    - rewrite IH; [by rewrite <- app_assoc|]. rewrite <- app_assoc, fmap_app. apply NoDup_app. split_and!; [done|done|done].
    - intros Hk. apply (Hn2 k Hk). left. }
  intros Hn. apply (H l []). done.
Qed.

(** ** Strings *)

Lemma str_cons_app a (s r : string) : (String a s ++ r)%string = String a (s ++ r).
Proof. done. Qed.

Lemma str_app_assoc (a b c : string) : ((a ++ b) ++ c)%string = (a ++ b ++ c)%string.
Proof. induction a as [|x a IH]; [done|]. change (String x ((a ++ b) ++ c) = String x (a ++ b ++ c))%string. by rewrite IH. Qed.

Lemma str_app_nil (a : string) : (a ++ "")%string = a.
Proof. induction a as [|x a IH]; [done|]. change (String x (a ++ "") = String x a)%string. by rewrite IH. Qed.

Lemma str_length_app (a b : string) : String.length (a ++ b) = (String.length a + String.length b)%nat.
Proof. induction a as [|x a IH]; [done|]. change (S (String.length (a ++ b)%string) = S (String.length a + String.length b)). by rewrite IH. Qed.

Lemma scan_string_u x1 x2 x3 x4 c r : hex4 x1 x2 x3 x4 = Some c -> high_surrogate c = false ->
  scan_string (String backslash (String "u" (String x1 (String x2 (String x3 (String x4 r)))))) = prepend (utf8 c) (scan_string r).
Proof.
  intros Hc Hh. cbn [scan_string]. change (byte_of backslash =? 34) with false. change (byte_of backslash <? 32) with false.
  change (negb (byte_of backslash =? 92)) with false. change (negb (byte_of "u" =? 117)) with false. cbv iota. rewrite Hc, Hh.
  destruct r as [|b [|u [|y1 [|y2 [|y3 [|y4 r]]]]]]; try done. by destruct (hex4 y1 y2 y3 y4).
Qed.

Lemma scan_string_chars t rest : scan_string (json_chars t ++ quote ++ rest) = Ok (t, rest).
Proof.
  induction t as [|a t IH]; [done|]. cbn [json_chars]. rewrite str_app_assoc.
  assert (forall r, scan_string (json_char a ++ r) = prepend (String a "") (scan_string r)) as ->; [|by rewrite IH].
  clear. intros r. destruct a as [[] [] [] [] [] [] [] []]; try reflexivity;
    match goal with |- scan_string (json_char ?a ++ _) = _ => let t := eval vm_compute in (json_char a) in change (json_char a) with t end;
    (etransitivity; [eapply (scan_string_u "0" "0"); reflexivity|reflexivity]).
Qed.

(** ** Numbers *)

(** What may follow a number. *)
Definition ends (s : string) : bool :=
  match s with
  | EmptyString => true
  | String c _ => negb (is_digit c) && negb (byte_of c =? 46) && negb (byte_of c =? 101) && negb (byte_of c =? 69)
  end.

Lemma span_digits_uint u rest : ends rest = true -> span_digits (NilEmpty.string_of_uint u ++ rest) = (NilEmpty.string_of_uint u, rest).
Proof.
  intros He. induction u as [|u IH|u IH|u IH|u IH|u IH|u IH|u IH|u IH|u IH|u IH]; cbn [NilEmpty.string_of_uint].
  2-11: rewrite str_cons_app; cbn [span_digits]; by rewrite IH.
  destruct rest as [|c r]; [done|]. cbn [ends] in He. change (span_digits (String c r) = (EmptyString, String c r)). cbn [span_digits].
  by destruct (is_digit c).
Qed.

Lemma scan_frac_ends rest : ends rest = true -> scan_frac rest = (EmptyString, rest).
Proof. destruct rest as [|c r]; [done|]. cbn [ends scan_frac]. by destruct (byte_of c =? 46); [rewrite !andb_false_r|]. Qed.

Lemma scan_exp_ends rest : ends rest = true -> scan_exp rest = (EmptyString, rest).
Proof.
  destruct rest as [|c r]; [done|]. cbn [ends scan_exp].
  destruct (byte_of c =? 101); [by rewrite !andb_false_r|]. by destruct (byte_of c =? 69); [rewrite !andb_false_r|].
Qed.

Lemma scan_unsigned_uint sg u rest : u = Decimal.unorm u -> ends rest = true ->
  scan_unsigned sg (NilZero.string_of_uint u ++ rest) = Some ((sg ++ NilZero.string_of_uint u)%string, rest).
Proof.
  intros Hu He. destruct u as [|u|u|u|u|u|u|u|u|u|u]; [done| |..].
  { assert (u = Decimal.Nil) as ->; [|done]. cbn in Hu. unfold Decimal.unorm in Hu. cbn in Hu.
    destruct (Decimal.nzhead u) as [| | | | | | | | | |] eqn:Hn; try done; [by injection Hu|].
    exfalso. by eapply DecimalFacts.nzhead_nonzero. }
  all: cbn [NilZero.string_of_uint NilEmpty.string_of_uint]; rewrite str_cons_app; unfold scan_unsigned; cbn [span_digits]; by rewrite (span_digits_uint _ _ He).
Qed.

Lemma int_size_digits n : exists u, u = Decimal.unorm u /\ int_size n = Decimal.nb_digits u /\
  py_str n = ((if (n <? 0)%Z then "-" else "") ++ NilZero.string_of_uint u)%string.
Proof.
  unfold int_size, py_str. pose proof (DecimalZ.to_of (Z.to_int n)) as H. rewrite DecimalZ.of_to in H.
  destruct n as [|p|p]; [by exists (Decimal.D0 Decimal.Nil)|..]; exists (Pos.to_uint p); split_and!; try done.
  - by injection H.
  - unfold Z.to_int, Decimal.norm in H. destruct (Decimal.nzhead (Pos.to_uint p)) as [| | | | | | | | | |] eqn:Hn; try done;
      unfold Decimal.unorm; rewrite Hn; by injection H.
Qed.

(** A number, and a text that begins with none of the constants. *)
Lemma scan_atom_int parse_float n rest : (int_size n <= 4300)%nat -> ends rest = true ->
  scan_atom parse_float (py_str n ++ rest) = Ok (JInt n, rest).
Proof.
  intros Hs He. destruct (int_size_digits n) as (u & Hu & Hz & Ht).
  assert (Hi : scan_int (py_str n ++ rest) = Some (py_str n, rest)).
  { rewrite Ht. destruct (n <? 0).
    - exact (scan_unsigned_uint "-" u rest Hu He).
    - pose proof (scan_unsigned_uint "" u rest Hu He) as H. destruct u; done. }
  assert (Hn : scan_atom parse_float (py_str n ++ rest) = scan_number parse_float (py_str n ++ rest)).
  { rewrite Ht. destruct (n <? 0); destruct u; try done. }
  rewrite Hn. unfold scan_number. rewrite Hi, (scan_frac_ends rest He), (scan_exp_ends rest He). cbn.
  unfold int_digits. destruct (int_of_py_str n) as (d & Hd & Hdn). rewrite Hd.
  assert (d = Z.to_int n) as ->.
  { unfold py_str in Hd. rewrite NilZero.isi in Hd; [by injection Hd|..]; destruct n as [|p|p]; try done; cbn; intros H; by injection H as H%DecimalPos.Unsigned.to_uint_nonnil. }
  unfold int_size in Hs. destruct (Nat.ltb_spec 4300 (Decimal.nb_digits (match Z.to_int n with Decimal.Pos u => u | Decimal.Neg u => u end))); [lia|].
  by rewrite Hdn.
Qed.

(** ** Values *)

(** Every value's text begins with a mark of its own. *)
Lemma canonical_head v : exists c t, canonical v = String c t /\ json_space c = false /\ byte_of c <> 93 /\ byte_of c < 128.
Proof.
  destruct v as [|[]|n|s|l|l]; try (by eexists _, _; split_and!; [reflexivity|..]).
  destruct (int_size_digits n) as (u & _ & _ & Ht). change (canonical (JInt n)) with (py_str n). rewrite Ht.
  destruct (n <? 0); [|destruct u]; by eexists _, _; split_and!; [reflexivity|..].
Qed.

Lemma skip_canonical v rest : skip (canonical v ++ rest) = (canonical v ++ rest)%string.
Proof.
  destruct (canonical_head v) as (c & t & -> & Hs & _). rewrite str_cons_app. unfold skip. cbn [drop_left]. by rewrite Hs.
Qed.

Lemma concat_cons2 sep x y l : String.concat sep (x :: y :: l) = (x ++ sep ++ String.concat sep (y :: l))%string.
Proof. done. Qed.

Lemma concat_length sep x l : x ∈ l -> (String.length x <= String.length (String.concat sep l))%nat.
Proof.
  induction l as [|y [|z l] IH]; intros Hx.
  - by apply elem_of_nil in Hx.
  - apply list_elem_of_singleton in Hx as ->. done.
  - rewrite concat_cons2, !str_length_app. apply elem_of_cons in Hx as [->|Hx]; [lia|]. specialize (IH Hx). lia.
Qed.

Lemma concat_count sep l : Forall (fun x => (1 <= String.length x)%nat) l -> (length l <= String.length (String.concat sep l))%nat.
Proof.
  induction l as [|y [|z l] IH]; intros H; [done|by apply Forall_cons in H as [H _]|].
  apply Forall_cons in H as [Hy H]. rewrite concat_cons2, !str_length_app. specialize (IH H). cbn [length] in *. lia.
Qed.

Lemma canonical_length v : (1 <= String.length (canonical v))%nat.
Proof. destruct (canonical_head v) as (c & t & -> & _). cbn. lia. Qed.

Section Reads.
Context (value : string -> res (json * string)).

Definition reads (v : json) : Prop := forall rest, ends rest = true -> value (canonical v ++ rest) = Ok (sorted v, rest).

Lemma scan_items_reads l : Forall reads l -> l <> [] -> forall m rest, (length l <= m)%nat ->
  scan_items value m (String.concat "," (map canonical l) ++ String "]" rest) = Ok (map sorted l, rest).
Proof.
  induction l as [|x [|y l] IH]; [done|..]; intros Hr _ m rest Hm; (destruct m as [|m]; [cbn in Hm; lia|]); apply Forall_cons in Hr as [Hx Hr].
  - change (String.concat "," (map canonical [x])) with (canonical x). cbn [scan_items]. by rewrite Hx.
  - cbn [map]. rewrite concat_cons2, !str_app_assoc. cbn [scan_items].
    change ("," ++ ?r)%string with (String "," r). rewrite Hx by done. cbn [rbind].
    change (skip (String "," ?r)) with (String "," r). cbn [byte_of]. change (byte_of "," =? 93) with false. change (byte_of "," =? 44) with true. cbv iota.
    assert (Hs : forall r, skip (String.concat "," (map canonical (y :: l)) ++ r) = (String.concat "," (map canonical (y :: l)) ++ r)%string).
    { intros r. destruct l as [|z l]; [apply skip_canonical|]. cbn [map]. rewrite concat_cons2, str_app_assoc. apply skip_canonical. }
    change (canonical y :: map canonical l) with (map canonical (y :: l)). rewrite Hs, IH; [done|done|done|]. cbn [length] in *. lia.
Qed.

(** The text of one item of a dict. *)
Definition pair_text (p : string * json) : string := (json_string p.1 ++ ":" ++ canonical p.2)%string.

Lemma pair_text_app p rest : (pair_text p ++ rest)%string = String "034" (json_chars p.1 ++ quote ++ String ":" (canonical p.2 ++ rest)).
Proof. unfold pair_text, json_string. rewrite !str_app_assoc. done. Qed.

Lemma scan_pair p m r : reads p.2 -> ends r = true ->
  scan_pairs value (S m) (pair_text p ++ r) =
  match skip r with
  | String c2 r3 =>
      if byte_of c2 =? 125 then Ok ([(p.1, sorted p.2)], r3)
      else if byte_of c2 =? 44 then rbind (scan_pairs value m (skip r3)) (fun '(l, t) => Ok ((p.1, sorted p.2) :: l, t))
      else json_error
  | EmptyString => json_error
  end.
Proof.
  intros Hp He. rewrite pair_text_app. cbn [scan_pairs]. change (negb (byte_of "034" =? 34)) with false. cbv iota.
  rewrite scan_string_chars. cbn [rbind]. change (skip (String ":" ?r)) with (String ":" r). cbv iota beta.
  change (negb (byte_of ":" =? 58)) with false. cbv iota. rewrite skip_canonical, Hp by done. done.
Qed.

Lemma scan_pairs_reads l : Forall (fun p => reads p.2) l -> l <> [] -> forall m rest, (length l <= m)%nat ->
  scan_pairs value m (String.concat "," (map pair_text l) ++ String "}" rest) = Ok (map (fun p => (p.1, sorted p.2)) l, rest).
Proof.
  induction l as [|x [|y l] IH]; [done|..]; intros Hr _ m rest Hm; (destruct m as [|m]; [cbn in Hm; lia|]); apply Forall_cons in Hr as [Hx Hr].
  - change (String.concat "," (map pair_text [x])) with (pair_text x). by rewrite scan_pair.
  - cbn [map]. rewrite concat_cons2, !str_app_assoc. change ("," ++ ?r)%string with (String "," r). rewrite scan_pair by done.
    change (skip (String "," ?r)) with (String "," r). cbv iota. change (byte_of "," =? 125) with false. change (byte_of "," =? 44) with true. cbv iota.
    assert (Hs : forall r, skip (String.concat "," (map pair_text (y :: l)) ++ r) = (String.concat "," (map pair_text (y :: l)) ++ r)%string).
    { intros r. destruct l as [|z l]; [change (String.concat "," (map pair_text [y])) with (pair_text y); by rewrite pair_text_app|]. cbn [map]. by rewrite concat_cons2, str_app_assoc, pair_text_app. }
    change (pair_text y :: map pair_text l) with (map pair_text (y :: l)). rewrite Hs, IH; [done|done|done|]. cbn [length] in *. lia.
Qed.
End Reads.

Lemma canonical_obj l : canonical (JObj l) = ("{" ++ String.concat "," (map pair_text (isort key_leb l)) ++ "}")%string.
Proof. unfold canonical. cbn [dumps]. rewrite isort_values, map_map. done. Qed.

Lemma pair_text_length p : (S (String.length (canonical p.2)) <= String.length (pair_text p))%nat.
Proof. unfold pair_text. rewrite !str_length_app. cbn. lia. Qed.

Lemma scan_value_canonical parse_float v : readable v = true -> forall n, (String.length (canonical v) < n)%nat -> reads (scan_value parse_float n) v.
Proof.
  induction v as [|b|k|s|l IH|l IH] using json_nested; intros Hv n Hn rest He; (destruct n as [|n]; [lia|]).
  - done.
  - by destruct b.
  - cbn in Hv. apply Nat.leb_le in Hv. pose proof (scan_atom_int parse_float k rest Hv He) as H.
    change (canonical (JInt k)) with (py_str k). destruct (int_size_digits k) as (u & _ & _ & Ht). rewrite Ht in *.
    destruct (k <? 0); destruct u; try exact H; done.
  - change (canonical (JStr s)) with (quote ++ json_chars s ++ quote)%string. rewrite !str_app_assoc.
    change (quote ++ ?r)%string with (String "034" r). cbn [scan_value]. change (byte_of "034" =? 34) with true. cbv iota.
    change (String "034" rest) with (quote ++ rest)%string. by rewrite scan_string_chars.
  - change (canonical (JArr l)) with ("[" ++ String.concat "," (map canonical l) ++ "]")%string in *.
    rewrite !str_length_app in Hn. cbn [String.length] in Hn. rewrite !str_app_assoc. change ("[" ++ ?r)%string with (String "[" r). change ("]" ++ ?r)%string with (String "]" r).
    cbn [scan_value]. change (byte_of "[" =? 34) with false. change (byte_of "[" =? 91) with true. cbv iota.
    destruct l as [|x l]; [done|].
    assert (exists c t, (String.concat "," (map canonical (x :: l)) ++ String "]" rest)%string = String c t /\ json_space c = false /\ byte_of c <> 93) as (c & t & Hct & Hsp & Hc).
    { destruct (canonical_head x) as (c & t & Hx & Hs & Hc & _). destruct l as [|y l]; cbn [map]; [cbn [String.concat]|rewrite concat_cons2]; rewrite Hx, !str_cons_app; eauto. }
    assert (Hsk : skip (String c t) = String c t) by (unfold skip; cbn [drop_left]; by rewrite Hsp).
    rewrite Hct, Hsk, (proj2 (Z.eqb_neq _ _) Hc), <- Hct. rewrite scan_items_reads; [done|..].
    + cbn [readable] in Hv. rewrite forallb_forall in Hv. rewrite Forall_forall in IH |- *. intros y Hy.
      apply IH; [done|by apply Hv, list_elem_of_In|]. pose proof (concat_length "," (canonical y) (map canonical (x :: l))) as H.
      specialize (H (list_elem_of_fmap_2 canonical _ _ Hy)). lia.
    + done.
    + rewrite str_length_app. pose proof (concat_count "," (map canonical (x :: l))) as H. rewrite length_map in H.
      assert (Hf : Forall (fun x => (1 <= String.length x)%nat) (map canonical (x :: l))) by (apply Forall_fmap, Forall_true; intros; apply canonical_length).
      specialize (H Hf). lia.
  - rewrite canonical_obj in *. rewrite !str_length_app in Hn. cbn [String.length] in Hn. rewrite !str_app_assoc.
    change ("{" ++ ?r)%string with (String "{" r). change ("}" ++ ?r)%string with (String "}" r).
    cbn [scan_value sorted]. rewrite isort_values. change (byte_of "{" =? 34) with false. change (byte_of "{" =? 91) with false. change (byte_of "{" =? 123) with true. cbv iota.
    cbn [readable] in Hv. apply andb_true_iff in Hv as [Hnd%bool_decide_eq_true Hv]. rewrite forallb_forall in Hv.
    pose proof (isort_perm key_leb l) as Hperm.
    assert (Hr : Forall (fun p => reads (scan_value parse_float n) p.2) (isort key_leb l)).
    { rewrite Forall_forall in IH |- *. intros p Hp. apply IH; [by rewrite <- Hperm|apply Hv, list_elem_of_In; by rewrite <- Hperm|].
      pose proof (concat_length "," (pair_text p) (map pair_text (isort key_leb l)) (list_elem_of_fmap_2 pair_text _ _ Hp)) as H.
      pose proof (pair_text_length p). lia. }
    destruct (isort key_leb l) as [|x l'] eqn:Hl; [done|].
    assert (exists t, (String.concat "," (map pair_text (x :: l')) ++ String "}" rest)%string = String "034" t) as (t & Hct).
    { destruct l' as [|y l']; cbn [map]; [cbn [String.concat]|rewrite concat_cons2, str_app_assoc]; rewrite pair_text_app; eauto. }
    rewrite Hct. change (skip (String "034" t)) with (String "034" t). cbv iota. change (byte_of "034" =? 125) with false. cbv iota. rewrite <- Hct.
    rewrite scan_pairs_reads; [|done|done|].
    + cbn [rbind]. do 3 f_equal. apply dict_of_nodup. rewrite <- list_fmap_compose. change (NoDup (x :: l').*1). by rewrite Hperm.
    + rewrite str_length_app. pose proof (concat_count "," (map pair_text (x :: l'))) as H. rewrite length_map in H.
      assert (Hf : Forall (fun x => (1 <= String.length x)%nat) (map pair_text (x :: l'))) by (apply Forall_fmap, Forall_true; intros p; cbn; pose proof (pair_text_length p); lia).
      specialize (H Hf). lia.
Qed.

(** [json.loads(json.dumps(v, sort_keys=True, separators=(",", ":")))] *)
Lemma loads_canonical parse_float v : readable v = true -> loads parse_float (canonical v) = Ok (sorted v).
Proof.
  intros Hv. unfold loads. destruct (canonical_head v) as (c & t & Hc & Hs & _ & Hb).
  assert (after BOM (canonical v) = None) as ->.
  { rewrite Hc. change BOM with (String "239" (String "187" (String "191" ""))). cbn [after]. destruct (Ascii.eqb_spec "239" c) as [<-|]; done. }
  pose proof (scan_value_canonical parse_float v Hv (S (String.length (canonical v))) ltac:(lia) EmptyString eq_refl) as H.
  pose proof (skip_canonical v EmptyString) as Hk. rewrite str_app_nil in H, Hk. by rewrite Hk, H.
Qed.

(** ** The fuel is enough *)

(** An outcome that is not for want of fuel, and leaves less text. *)
Definition within {A} (s : string) (r : res (A * string)) : Prop :=
  match r with Ok (_, t) => (String.length t < String.length s)%nat | Raise e => exn_kind e <> OutOfFuel end.

Lemma within_rbind {A B} s (r : res (A * string)) (f : A * string -> res (B * string)) :
  within s r -> (forall a t, (String.length t < String.length s)%nat -> within s (f (a, t))) -> within s (rbind r f).
Proof. intros Hr Hf. destruct r as [[a t]|e]; [by apply Hf|exact Hr]. Qed.

Lemma within_le {A} s s' (r : res (A * string)) : within s r -> (String.length s <= String.length s')%nat -> within s' r.
Proof. destruct r as [[a t]|e]; cbn; [lia|done]. Qed.

Lemma drop_left_length p s : (String.length (drop_left p s) <= String.length s)%nat.
Proof. induction s as [|a s IH]; cbn; [lia|]. destruct (p a); cbn; lia. Qed.

Lemma scan_string_within s : within s (scan_string s).
Proof.
  induction s as [s IH] using (induction_ltof1 _ String.length). unfold ltof in IH.
  assert (Hp : forall t r, (String.length r < String.length s)%nat -> within s (prepend t (scan_string r))).
  { intros t r Hr. specialize (IH r Hr). unfold prepend. destruct (scan_string r) as [[x y]|e]; cbn in *; [lia|done]. }
  destruct s as [|a r]; [done|]. cbn [scan_string]. repeat case_match; try done; try (apply Hp; cbn; lia). cbn. lia.
Qed.

Lemma span_digits_length s : (String.length (span_digits s).2 <= String.length s)%nat /\
  ((span_digits s).1 <> EmptyString -> (String.length (span_digits s).2 < String.length s)%nat).
Proof.
  induction s as [|a s [IH1 IH2]]; [done|]. cbn. destruct (is_digit a); [|done]. destruct (span_digits s) as [d t]. cbn in *. split; [lia|intros _; lia].
Qed.

(** What a run of digits leaves. *)
Ltac digits_left :=
  match goal with E : span_digits ?x = _ |- _ => pose proof (span_digits_length x) as [? ?]; rewrite E in *; cbn in *; try lia end.

Lemma scan_unsigned_length sg s t r : scan_unsigned sg s = Some (t, r) -> (String.length r < String.length s)%nat.
Proof.
  unfold scan_unsigned. destruct s as [|c s]; [done|]. destruct (byte_of c =? 48); [intros [= _ <-]; cbn; lia|].
  destruct (span_digits (String c s)) as [[|x d] r'] eqn:E; [done|]. intros [= _ <-]. pose proof (span_digits_length (String c s)) as [_ H].
  rewrite E in H. by apply H.
Qed.

Lemma scan_int_length s t r : scan_int s = Some (t, r) -> (String.length r < String.length s)%nat.
Proof.
  unfold scan_int. destruct s as [|c s]; [done|]. destruct (byte_of c =? 45); [|apply scan_unsigned_length].
  intros H%scan_unsigned_length. cbn. lia.
Qed.

Lemma scan_frac_length s : (String.length (scan_frac s).2 <= String.length s)%nat.
Proof. unfold scan_frac. repeat case_match; cbn; try lia; digits_left. Qed.

Lemma scan_exp_length s : (String.length (scan_exp s).2 <= String.length s)%nat.
Proof.
  unfold scan_exp. destruct s as [|e r]; [done|]. destruct (_ || _); [|done].
  set (p := match r with String _ _ => _ | _ => _ end). assert (Hp : (String.length p.2 <= String.length r)%nat) by (subst p; repeat case_match; cbn; lia).
  destruct p as [sg r1]. destruct (span_digits r1) as [[|x d] t] eqn:E; [done|]. digits_left.
Qed.

Lemma after_length p s r : after p s = Some r -> (String.length r + String.length p = String.length s)%nat.
Proof.
  revert s. induction p as [|a p IH]; intros [|b s]; cbn; try done; try (by intros [= <-]; cbn; lia).
  destruct (Ascii.eqb a b); [|done]. intros H%IH. lia.
Qed.

Lemma scan_atom_within parse_float s : within s (scan_atom parse_float s).
Proof.
  unfold scan_atom.
  assert (Hn : within s (scan_number parse_float s)).
  { unfold scan_number. destruct (scan_int s) as [[t r]|] eqn:Hi; [|done]. apply scan_int_length in Hi.
    pose proof (scan_frac_length r). destruct (scan_frac r) as [f r1]. pose proof (scan_exp_length r1). destruct (scan_exp r1) as [e r2]. cbn in *.
    destruct (_ && _); [|cbn; lia]. unfold int_digits. repeat case_match; cbn; try done; lia. }
  repeat case_match; try exact Hn; match goal with H : after _ _ = Some _ |- _ => apply after_length in H; cbn in *; lia end.
Qed.

Section Fuel.
Context (value : string -> res (json * string)) (s0 : string).
Context (Hvalue : forall s, (String.length s < String.length s0)%nat -> within s (value s)).

Lemma scan_items_within m s : (String.length s < String.length s0)%nat -> (String.length s < m)%nat -> within s (scan_items value m s).
Proof.
  revert s. induction m as [|m IH]; intros s Hs Hm; [lia|]. cbn [scan_items]. apply within_rbind; [by apply Hvalue|]. intros v r Hr.
  pose proof (drop_left_length json_space r) as Hd. unfold skip at 1. destruct (drop_left json_space r) as [|c r1]; [done|]. cbn in Hd.
  destruct (byte_of c =? 93); [cbn; lia|]. destruct (byte_of c =? 44); [|done].
  pose proof (drop_left_length json_space r1) as Hd1. fold (skip r1) in Hd1.
  apply within_rbind; [eapply within_le; [apply IH; lia|lia]|]. intros l t Ht. cbn. lia.
Qed.

Lemma scan_pairs_within m s : (String.length s < String.length s0)%nat -> (String.length s < m)%nat -> within s (scan_pairs value m s).
Proof.
  revert s. induction m as [|m IH]; intros s Hs Hm; [lia|]. cbn [scan_pairs]. destruct s as [|q s1]; [done|]. cbn in Hs, Hm. destruct (negb _); [done|].
  apply within_rbind; [eapply within_le; [apply scan_string_within|cbn; lia]|]. intros k r Hr. cbn in Hr.
  pose proof (drop_left_length json_space r) as Hd. unfold skip at 1. destruct (drop_left json_space r) as [|c r1]; [done|]. cbn in Hd. destruct (negb _); [done|].
  pose proof (drop_left_length json_space r1) as Hd1. fold (skip r1) in Hd1.
  apply within_rbind; [eapply within_le; [apply Hvalue; lia|cbn; lia]|]. intros v r2 Hr2. cbn in Hr2.
  pose proof (drop_left_length json_space r2) as Hd2. unfold skip at 1.
  assert (Hv : within (skip r1) (value (skip r1))) by (apply Hvalue; lia).
  destruct (drop_left json_space r2) as [|c2 r3]; [done|]. cbn in Hd2.
  destruct (byte_of c2 =? 125); [cbn; lia|]. destruct (byte_of c2 =? 44); [|done].
  pose proof (drop_left_length json_space r3) as Hd3. fold (skip r3) in Hd3.
  destruct (le_lt_dec (String.length (skip r3)) (String.length s1)) as [Hle|]; [|lia].
  apply within_rbind; [eapply within_le; [apply IH|cbn]; lia|]. intros l t Ht. cbn in *. lia.
Qed.
End Fuel.

Lemma scan_value_within parse_float n s : (String.length s < n)%nat -> within s (scan_value parse_float n s).
Proof.
  revert s. induction n as [|n IH]; intros s Hs; [lia|]. cbn [scan_value]. destruct s as [|c r]; [done|]. cbn in Hs.
  assert (Hv : forall s, (String.length s < String.length (String c r))%nat -> within s (scan_value parse_float n s)) by (intros t Ht; cbn in Ht; apply IH; lia).
  pose proof (drop_left_length json_space r) as Hd. fold (skip r) in Hd.
  destruct (byte_of c =? 34).
  { apply within_rbind; [eapply within_le; [apply scan_string_within|cbn; lia]|]. intros a t Ht. done. }
  destruct (byte_of c =? 91); [|destruct (byte_of c =? 123); [|apply scan_atom_within]];
    (destruct (skip r) as [|c1 r1] eqn:Hk; [done|]; case_match; [cbn in *; lia|]; rewrite <- Hk in *; apply within_rbind; [|by intros a t Ht]).
  - eapply within_le; [apply (scan_items_within _ _ Hv); cbn; lia|cbn; lia].
  - eapply within_le; [apply (scan_pairs_within _ _ Hv); cbn; lia|cbn; lia].
Qed.

Lemma loads_fuel parse_float s e : loads parse_float s = Raise e -> exn_kind e <> OutOfFuel.
Proof.
  unfold loads. destruct (after BOM s); [by intros [= <-]|].
  pose proof (drop_left_length json_space s) as Hd. fold (skip s) in Hd.
  pose proof (scan_value_within parse_float (S (String.length s)) (skip s) ltac:(lia)) as H. unfold within in H.
  destruct (scan_value _ _ _) as [[v r]|e']; cbn; [|by intros [= <-]]. destruct (skip r); [done|by intros [= <-]].
Qed.

(** * Bytes *)

Definition cont (b : Z) : bool := (128 <=? b) && (b <=? 191).

(** Well-formed UTF-8, surrogates included ([surrogatepass]). *)
Fixpoint utf8_ok (l : list Z) : bool :=
  match l with
  | [] => true
  | a :: l1 =>
      if a <? 128 then utf8_ok l1
      else
        match l1 with
        | b :: l2 =>
            if (194 <=? a) && (a <=? 223) then cont b && utf8_ok l2
            else
              match l2 with
              | c :: l3 =>
                  if (224 <=? a) && (a <=? 239) then cont b && negb ((a =? 224) && (b <? 160)) && cont c && utf8_ok l3
                  else
                    match l3 with
                    | d :: l4 =>
                        if (240 <=? a) && (a <=? 244) then
                          cont b && negb ((a =? 240) && (b <? 144)) && negb ((a =? 244) && (143 <? b)) && cont c && cont d && utf8_ok l4
                        else false
                    | [] => false
                    end
              | [] => false
              end
        | [] => false
        end
  end.

Definition text_of (l : list Z) : string := fold_right (fun b s => String (char_of b) s) EmptyString l.

(** [json.detect_encoding(b)] is UTF-16 or UTF-32: a byte order mark, or a NUL
    among the first two of two, or of four and more. *)
Definition wide (l : list Z) : bool :=
  match l with
  | a :: b :: l' => (a =? 0xfe) && (b =? 0xff) || (a =? 0xff) && (b =? 0xfe) || negb (length l' =? 1)%nat && ((a =? 0) || (b =? 0))
  | _ => false
  end.

(** The codec utf-8-sig. *)
Definition without_bom (l : list Z) : list Z :=
  match l with a :: b :: c :: l' => if (a =? 0xef) && (b =? 0xbb) && (c =? 0xbf) then l' else l | _ => l end.

Section Bytes.
Context (parse_float : string -> json) (decode_wide : list Z -> res string).

(** [json.loads(b)] *)
Definition loads_bytes (l : list Z) : res json :=
  if wide l then rbind (decode_wide l) (loads parse_float)
  else
    if utf8_ok (without_bom l) then loads parse_float (text_of (without_bom l)) else Raise (Exn ValueError "invalid UTF-8").
End Bytes.

Lemma utf8_ok_ascii l : Forall (fun b => 0 <= b < 128) l -> utf8_ok l = true.
Proof. induction 1 as [|b l Hb _ IH]; [done|]. cbn. by destruct (Z.ltb_spec b 128); [|lia]. Qed.

Lemma text_of_bytes s : text_of (bytes_of s) = s.
Proof.
  induction s as [|a s IH]; [done|]. cbn. unfold text_of in IH. rewrite IH. f_equal. unfold char_of, byte_of.
  by rewrite N2Z.id, ascii_N_embedding.
Qed.

(** ** Sizes and characters *)

Lemma nb_digits_double l : (Decimal.nb_digits (Decimal.Little.double l) <= S (Decimal.nb_digits l))%nat /\
  (Decimal.nb_digits (Decimal.Little.succ_double l) <= S (Decimal.nb_digits l))%nat.
Proof. induction l; cbn; lia. Qed.

Lemma nb_digits_pos p : (Decimal.nb_digits (Pos.to_uint p) <= Pos.size_nat p)%nat.
Proof.
  unfold Pos.to_uint. rewrite DecimalFacts.nb_digits_rev. induction p as [p IH|p IH|]; cbn [Pos.to_little_uint Pos.size_nat].
  - destruct (nb_digits_double (Pos.to_little_uint p)). lia.
  - destruct (nb_digits_double (Pos.to_little_uint p)). lia.
  - cbn. lia.
Qed.

Lemma int_size_bound n : Z.abs n < 2 ^ 63 -> (int_size n <=? 4300)%nat = true.
Proof.
  intros Hn. apply Nat.leb_le. unfold int_size. destruct n as [|p|p]; [cbn; lia|..]; cbn [Z.to_int];
    pose proof (nb_digits_pos p); pose proof (Pos.size_nat_monotone p (2 ^ 63) ltac:(lia)) as Hm; change (Pos.size_nat (2 ^ 63)) with 64%nat in Hm; lia.
Qed.

(** Every text of a value is ASCII. *)
Fixpoint ascii_json (v : json) : bool :=
  match v with
  | JStr s => ascii_only s
  | JArr l => forallb ascii_json l
  | JObj l => forallb (fun p => ascii_only p.1 && ascii_json p.2) l
  | _ => true
  end.

(** ASCII without NUL. *)
Definition plain (s : string) : bool := forallb (fun a => (0 <? byte_of a) && (byte_of a <? 128)) (list_ascii_of_string s).

Lemma plain_app a b : plain (a ++ b)%string = plain a && plain b.
Proof.
  unfold plain. induction a as [|x a IH]; [done|]. rewrite str_cons_app. cbn [list_ascii_of_string forallb]. by rewrite IH, andb_assoc.
Qed.

Lemma json_string_plain s : ascii_only s = true -> plain (json_string s) = true.
Proof.
  intros Hs. unfold json_string. rewrite !plain_app. cbn [andb]. change (plain quote) with true. rewrite andb_true_r. cbn [andb].
  induction s as [|a s IH]; [done|]. unfold ascii_only in Hs; cbn [list_ascii_of_string forallb] in Hs. apply andb_true_iff in Hs as [Ha Hs].
  cbn [json_chars]. rewrite plain_app, (IH Hs), andb_true_r. clear -Ha. destruct a as [[] [] [] [] [] [] [] []]; vm_compute in Ha |- *; done.
Qed.

Lemma uint_plain u : plain (NilEmpty.string_of_uint u) = true.
Proof. unfold plain. induction u as [|u IH|u IH|u IH|u IH|u IH|u IH|u IH|u IH|u IH|u IH]; [done|..]; cbn [NilEmpty.string_of_uint list_ascii_of_string forallb]; by rewrite IH. Qed.

Lemma py_str_plain n : plain (py_str n) = true.
Proof.
  destruct (int_size_digits n) as (u & _ & _ & ->). rewrite plain_app, andb_true_iff. split; [by destruct (n <? 0)|].
  destruct u; [done|..]; exact (uint_plain (_ u)).
Qed.

Lemma concat_plain sep l : plain sep = true -> Forall (fun s => plain s = true) l -> plain (String.concat sep l) = true.
Proof.
  intros Hsep. induction 1 as [|x [|y l] Hx _ IH]; [done|done|]. by rewrite concat_cons2, !plain_app, Hx, Hsep, IH.
Qed.

Lemma canonical_plain v : ascii_json v = true -> plain (canonical v) = true.
Proof.
  induction v as [|b|k|s|l IH|l IH] using json_nested; intros Hv; [done|by destruct b|apply py_str_plain|by apply json_string_plain|..].
  - change (canonical (JArr l)) with ("[" ++ String.concat "," (map canonical l) ++ "]")%string. rewrite !plain_app.
    rewrite concat_plain; [done|done|]. apply Forall_fmap. cbn [ascii_json] in Hv. rewrite forallb_forall in Hv.
    rewrite Forall_forall in IH |- *. intros x Hx. apply IH; [done|]. by apply Hv, list_elem_of_In.
  - rewrite canonical_obj, !plain_app. rewrite concat_plain; [done|done|]. apply Forall_fmap. cbn [ascii_json] in Hv. rewrite forallb_forall in Hv.
    rewrite Forall_forall in IH |- *. intros p Hp. rewrite (isort_perm key_leb l) in Hp. specialize (Hv p ltac:(by apply list_elem_of_In)).
    apply andb_true_iff in Hv as [Hk Hv]. cbn. unfold pair_text. rewrite !plain_app, json_string_plain, IH by done. done.
Qed.

Lemma bytes_of_plain s : plain s = true -> Forall (fun b => 0 < b < 128) (bytes_of s).
Proof.
  unfold plain. induction s as [|a s IH]; [constructor|]. cbn [list_ascii_of_string forallb bytes_of]. intros [Ha Hs]%andb_true_iff.
  constructor; [|by apply IH]. unfold byte_of in *. lia.
Qed.

Lemma bytes_of_range s : is_bytes (bytes_of s).
Proof.
  induction s as [|a s IH]; constructor; [|exact IH]. unfold is_byte, byte_of. pose proof (N_ascii_bounded a). lia.
Qed.

(** A value written in ASCII is read back from its bytes. *)
Lemma loads_bytes_canonical parse_float dec v : readable v = true -> ascii_json v = true ->
  loads_bytes parse_float dec (bytes_of (canonical v)) = Ok (sorted v).
Proof.
  intros Hr Ha. pose proof (bytes_of_plain _ (canonical_plain v Ha)) as Hb. unfold loads_bytes. rewrite <- (loads_canonical parse_float v Hr).
  pose proof (text_of_bytes (canonical v)) as Ht. destruct (bytes_of (canonical v)) as [|a l]; rewrite <- Ht; [done|]. inversion Hb as [|? ? H1 H2]; subst.
  assert (wide (a :: l) = false) as ->.
  { destruct l as [|b l]; [done|]. inversion H2 as [|? ? H3 H4]; subst. cbn. apply orb_false_iff. rewrite !orb_false_iff, !andb_false_iff, orb_false_iff, !Z.eqb_neq. lia. }
  assert (H0 : without_bom (a :: l) = a :: l).
  { destruct l as [|b [|c l]]; [done|done|]. cbn. destruct (Z.eqb_spec a 0xef); [lia|done]. }
  rewrite H0, utf8_ok_ascii; [done|]. eapply Forall_impl; [exact Hb|]. cbn. lia.
Qed.

Example loads_array : loads JStr " [1, -20,0.5,null ] " = Ok (JArr [JInt 1; JInt (-20); JStr "0.5"; JNull]).
Proof. vm_compute. reflexivity. Qed.

Example loads_refuses : map (loads JStr) ["01"; "[1,]"; "-"; "{}x"; ""]%string = replicate 5 json_error.
Proof. vm_compute. reflexivity. Qed.
End JsonText.
