(* ===== verification/RpcClient.v ===== *)
(** The JSON-RPC client of the dispatcher and the indexer: which endpoints may
    be used, how a request is sent again, and what of its answer is believed.

    Source: offchain/gpu/hashcredit_gpu/transactions/rpc.py.  Outside the
    program, and arguments: the network ([net], what each send meets), urllib's
    host of a URL ([urlparse_host]) and the value of a float in a JSON text.  A
    request is the dictionary that is dumped into its body. *)

From S2P Require Import Prelude Domain Stdpy Json JsonText.
Import Domain Stdpy Json JsonText.

Module RpcClient.

(** Models [transactions/rpc.py], [_RETRYABLE_READ_METHODS]. *)
Definition RETRYABLE_READ_METHODS : list string :=
  ["eth_chainId"; "eth_blockNumber"; "eth_getBlockByNumber"; "eth_getTransactionCount"; "eth_gasPrice"; "eth_call"; "eth_estimateGas";
   "eth_getTransactionByHash"; "eth_getTransactionReceipt"; "eth_getLogs"].

(** * Endpoints *)

Section Endpoints.
Context (urlparse_host : string -> res (option string)) (parse_float : string -> json).

(** Models [transactions/rpc.py], [hostname_of]. *)
Definition hostname_of (url : string) : res string :=
  match urlparse_host url with
  | Ok h => Ok (or_else h "<invalid>")
  | Raise e => if bool_decide (exn_kind e = ValueError) then Ok "<invalid>"%string else Raise e
  end.

(** Models [transactions/rpc.py], [JsonRpcClient.__init__]: the client's host. *)
Definition new_client (url : string) (allowlist : list string) : res string :=
  if negb (mem_str url allowlist) then rbind (hostname_of url) (fun h => Raise (Exn PermissionError ("rpc host " ++ h ++ " is not in the manifest allowlist")))
  else
    rbind (if String.prefix "https://" url then Ok false else rbind (hostname_of url) (fun h => Ok (negb (mem_str h ["127.0.0.1"; "localhost"])))) (fun plain =>
    if plain : bool then rbind (hostname_of url) (fun h => Raise (Exn PermissionError ("rpc host " ++ h ++ " must be https")))
    else hostname_of url).

(** [m.get(key)] of an object *)
Definition get_of (key : string) (v : json) : res (option json) :=
  match v with JObj l => Ok (dget key l) | _ => Raise (Exn AttributeError "get") end.

Definition is_str (s : string) (v : option json) : bool := match v with Some (JStr x) => String.eqb x s | _ => false end.

(** [list(v)] of texts *)
Definition texts (v : json) : res (list json) :=
  match v with JArr l => Ok l | JObj l => Ok (map (fun p => JStr p.1) l) | JStr s => Ok (map (fun a => JStr (String a "")) (list_ascii_of_string s)) | _ => Raise (Exn TypeError "not iterable") end.

(** "sha256:" and the digest of a manifest without its own hash *)
Definition manifest_digest (l : list (string * json)) : string :=
  ("sha256:" ++ hex (sha256 (bytes_of (canonical (JObj (filter (fun p => negb (String.eqb p.1 "manifestHash")) l))))))%string.

(** Models [transactions/rpc.py], [load_rpc_allowlist]; [text] is the file's. *)
Definition load_rpc_allowlist (text side : string) : res (Z * list json) :=
  rbind (loads parse_float text) (fun m =>
  match m with
  | JObj l =>
      if negb (is_str (manifest_digest l) (dget "manifestHash" l)) then Raise (Exn PermissionError "manifest hash mismatch")
      else
        rbind (if is_str "LOCAL_MOCK" (dget "executionProfile" l) then Ok false
               else if negb (match dget "mock" l with Some (JBool false) => true | _ => false end) then Ok true
               else if negb (is_str "ATTESTCOIN_NATIVE" (dget "verificationMethod" l)) then Ok true
               else rbind (get_of "version" (default (JObj []) (dget "sdk" l))) (fun v => Ok (negb (is_str "0.18.0" v)))) (fun unbound =>
        if unbound : bool then Raise (Exn PermissionError "native manifest binding required")
        else
          rbind (field side m) (fun part => rbind (rbind (field "chainId" part) int_json) (fun chain =>
          rbind (rbind (field "rpcUrls" part) texts) (fun urls => Ok (chain, urls)))))
  | _ => Raise (Exn AttributeError "items")
  end).

End Endpoints.

(** * A request over the network *)

(** What [errno] tells apart. *)
Inductive errno := ECONNABORTED | ECONNREFUSED | ECONNRESET | EHOSTUNREACH | ENETDOWN | ENETRESET | ENETUNREACH | EPIPE | ETIMEDOUT | OtherErrno.

Definition network_errno (e : errno) : bool := match e with OtherErrno => false | _ => true end.

Inductive cause := ConnectionError | TimeoutError | GaiError | IncompleteRead | OSError (e : errno) | OtherCause.

(** How a send ends: the bytes of the answer, or an exception the client
    catches; [HTTPError] and [URLError] are urllib's. *)
Inductive delivery :=
| Body (raw : list Z)
| HTTPError
| URLError (c : cause)
| Failed (c : cause).

Definition network_cause (c : cause) : bool :=
  match c with ConnectionError | TimeoutError | GaiError | IncompleteRead => true | OSError e => network_errno e | OtherCause => false end.

(** Models [transactions/rpc.py], [HttpTransport.request], lines 113-117. *)
Definition network_failure (d : delivery) : bool :=
  match d with Body _ | HTTPError => false | URLError c | Failed c => network_cause c end.

Record Request := { q_id : Z; q_method : string; q_params : list json }.

(** A transport: its counter, the requests it sent and the seconds it slept. *)
(** Models [transactions/rpc.py], [HttpTransport], lines 89-93. *)
Record HttpTransport := { last_id : Z; sent : list Request; slept : list QArith_base.Q }.

Definition is_read (method : string) : bool := mem_str method RETRYABLE_READ_METHODS.

(** Models [transactions/rpc.py], [HttpTransport.request], lines 106-106. *)
Definition attempts (method : string) : nat := if is_read method then 3 else 1.

Section Network.
Context (net : nat -> Request -> delivery) (parse_float : string -> json).

#[local] Abbreviation M := (PyM HttpTransport).

(** [0.25 * 2 ** attempt] *)
Definition backoff (attempt : nat) : QArith_base.Q := QArith_base.Qmake (2 ^ Z.of_nat attempt) 4.

(** The attempts that are left, [attempt] of them made. *)
(** Models [transactions/rpc.py], [HttpTransport.request], lines 107-124. *)
Fixpoint send (q : Request) (left attempt : nat) : M (list Z) :=
  let* w := get in
  modify (fun w => w <| sent ::= fun l => l ++ [q] |>) ;;;
  let d := net (length (sent w)) q in
  match d with
  | Body raw => ret raw
  | _ =>
      match left with
      | S n =>
          if network_failure d then
            modify (fun w => w <| slept ::= fun l => l ++ [backoff attempt] |>) ;;;
            send q n (S attempt)
          else raise RpcTransportError (q_method q ++ " failed")
      | O => raise RpcTransportError (q_method q ++ " failed")
      end
  end.

(** What of an answer is believed. *)
(** Models [transactions/rpc.py], [HttpTransport.request], lines 125-138. *)
Definition result_of (q : Request) (raw : list Z) : res json :=
  match (if utf8_ok raw then loads parse_float (text_of raw) else Raise (Exn ValueError "invalid UTF-8")) with
  | Raise e => if bool_decide (exn_kind e = ValueError) then Raise (Exn RpcTransportError (q_method q ++ " failed")) else Raise e
  | Ok (JObj l) =>
      if negb (match dget "id" l with Some x => json_eqb x (JInt (q_id q)) | None => false end) then
        Raise (Exn RpcTransportError (q_method q ++ " returned a mismatched JSON-RPC envelope"))
      else if match dget "error" l with Some x => truth x | None => false end then
        match dget "error" l with
        | Some (JObj _) => Raise (Exn RpcError (q_method q ++ " RPC error"))
        | _ => Raise (Exn AttributeError "get")
        end
      else
        match dget "result" l with
        | Some x => Ok x
        | None => Raise (Exn RpcTransportError (q_method q ++ " returned no result"))
        end
  | Ok _ => Raise (Exn RpcTransportError (q_method q ++ " returned a mismatched JSON-RPC envelope"))
  end.

(** Models [transactions/rpc.py], [HttpTransport.request]. *)
Definition request (method : string) (params : list json) : M json :=
  modify (fun w => w <| last_id ::= Z.succ |>) ;;;
  let* w := get in
  let q := {| q_id := last_id w; q_method := method; q_params := params |} in
  let* raw := send q (pred (attempts method)) 0 in
  lift_res (result_of q raw).

End Network.

(** * Quantities *)

(** The digits of [hex(n)], most significant first. *)
Fixpoint hex_digits (fuel : nat) (n : Z) (acc : string) : string :=
  match fuel with
  | O => acc
  | S k => let acc' := String (hex_digit (n mod 16)) acc in if n / 16 =? 0 then acc' else hex_digits k (n / 16) acc'
  end.

(** [hex(n)] *)
Definition py_hex (n : Z) : string :=
  let digits := hex_digits (S (Z.to_nat (Z.log2 (Z.abs n)))) (Z.abs n) "" in
  if n <? 0 then ("-0x" ++ digits)%string else ("0x" ++ digits)%string.

(** Hexadecimal digits with single underscores between them. *)
Fixpoint read_hex (after : bool) (acc : Z) (s : string) : option Z :=
  match s with
  | EmptyString => if after then Some acc else None
  | String a s' =>
      match hex_value a with
      | Some d => read_hex true (acc * 16 + d) s'
      | None => if Ascii.eqb a "_" && after then read_hex false acc s' else None
      end
  end.

Definition without_underscore (s : string) : string := match s with String a s' => if Ascii.eqb a "_" then s' else s | _ => s end.

Definition read_prefixed (s : string) : option Z :=
  match s with
  | String a (String b s') =>
      if Ascii.eqb a "0" && (Ascii.eqb b "x" || Ascii.eqb b "X") then read_hex false 0 (without_underscore s') else read_hex false 0 s
  | _ => read_hex false 0 s
  end.

(** [int(s, 16)] *)
Definition int16 (s : string) : option Z :=
  let sp := int_space (ascii_only s) in
  match drop_right sp (drop_left sp s) with
  | String "-" s' => Z.opp <$> read_prefixed s'
  | String "+" s' => read_prefixed s'
  | s' => read_prefixed s'
  end.

Definition quantity_of (o : option Z) : res Z :=
  match o with Some n => Ok n | None => Raise (Exn ValueError "invalid literal for int() with base 16") end.

(** [int(v, 16)] *)
Definition quantity (v : json) : res Z :=
  match v with
  | JStr s => quantity_of (int16 s)
  | _ => Raise (Exn TypeError "int() can't convert non-string with explicit base")
  end.

(** * The typed wrapper *)

Section Client.
Context {T : Type} (call : string -> list json -> PyM T json).

#[local] Abbreviation C := (PyM T).

Definition as_quantity (m : C json) : C Z := let* v := m in lift_res (quantity v).

(** Models [transactions/rpc.py], [JsonRpcClient.chain_id]. *)
Definition chain_id : C Z := as_quantity (call "eth_chainId" []).

(** Models [transactions/rpc.py], [JsonRpcClient.block_number]. *)
Definition block_number : C Z := as_quantity (call "eth_blockNumber" []).

(** A block's tag: a number or a name *)
Inductive tag := Number (n : Z) | Name (s : string).
Definition tag_text (x : tag) : string := match x with Number n => py_hex n | Name s => s end.

(** Models [transactions/rpc.py], [JsonRpcClient.get_block]. *)
Definition get_block (number : tag) (full : bool) : C json := call "eth_getBlockByNumber" [JStr (tag_text number); JBool full].

(** Models [transactions/rpc.py], [JsonRpcClient.transaction_count]. *)
Definition transaction_count (address at_ : string) : C Z := as_quantity (call "eth_getTransactionCount" [JStr address; JStr at_]).

(** Models [transactions/rpc.py], [JsonRpcClient.gas_price]. *)
Definition gas_price : C Z := as_quantity (call "eth_gasPrice" []).

(** Models [transactions/rpc.py], [JsonRpcClient.eth_call]. *)
Definition eth_call (tx : json) (at_ : string) : C json := call "eth_call" [tx; JStr at_].

(** Models [transactions/rpc.py], [JsonRpcClient.estimate_gas]. *)
Definition estimate_gas (tx : json) : C Z := as_quantity (call "eth_estimateGas" [tx]).

(** Models [transactions/rpc.py], [JsonRpcClient.get_transaction]. *)
Definition get_transaction (hash : string) : C json := call "eth_getTransactionByHash" [JStr hash].

(** Models [transactions/rpc.py], [JsonRpcClient.get_receipt]. *)
Definition get_receipt (hash : string) : C json := call "eth_getTransactionReceipt" [JStr hash].

(** Models [transactions/rpc.py], [JsonRpcClient.get_logs]. *)
Definition get_logs (addresses : list string) (start end_ : Z) : C json :=
  call "eth_getLogs" [JObj [("address", JArr (map JStr addresses)); ("fromBlock", JStr (py_hex start)); ("toBlock", JStr (py_hex end_))]]%string.

(** Models [transactions/rpc.py], [JsonRpcClient.send_raw_transaction]. *)
Definition send_raw_transaction (raw_hex : string) : C json := call "eth_sendRawTransaction" [JStr raw_hex].
End Client.

(** ** Quantities are read back *)

Lemma read_hex_digits fuel n s : 0 <= n < 16 ^ Z.of_nat fuel -> (0 < fuel)%nat ->
  exists k, forall b acc, read_hex b acc (hex_digits fuel n s) = read_hex true (acc * k + n) s.
Proof.
  revert n s. induction fuel as [|fuel IH]; intros n s Hn Hf; [lia|]. cbn [hex_digits].
  assert (Hm : 0 <= n mod 16 < 16) by (apply Z.mod_pos_bound; lia).
  destruct (Z.eqb_spec (n / 16) 0) as [Hz|Hz].
  - exists 16. intros b acc. cbn [read_hex]. rewrite (proj1 (hex_value_digit _ Hm)). do 2 f_equal. pose proof (Z.div_mod n 16 ltac:(lia)). lia.
  - rewrite Nat2Z.inj_succ, Z.pow_succ_r in Hn by lia.
    assert (0 <= n / 16) by (apply Z.div_pos; lia). assert (n / 16 < 16 ^ Z.of_nat fuel) by (apply Z.div_lt_upper_bound; lia).
    destruct (IH (n / 16) (String (hex_digit (n mod 16)) s)) as [k Hk]; [lia|destruct fuel; [cbn in *; lia|lia]|].
    exists (k * 16). intros b acc. rewrite Hk. cbn [read_hex]. rewrite (proj1 (hex_value_digit _ Hm)). f_equal. pose proof (Z.div_mod n 16 ltac:(lia)). lia.
Qed.

Definition plain (a : ascii) : bool := negb (int_space true a) && negb (int_space false a) && (byte_of a <? 128).

Lemma plain_digit n : 0 <= n < 16 -> plain (hex_digit n) = true.
Proof.
  intros Hn. assert (Hall : Forall (fun k => plain (hex_digit (Z.of_nat k)) = true) (seq 0 16)) by (by repeat constructor).
  rewrite Forall_forall in Hall. specialize (Hall (Z.to_nat n)). rewrite Z2Nat.id in Hall by lia. apply Hall, elem_of_seq. lia.
Qed.

Lemma plain_digits fuel n s : forallb plain (list_ascii_of_string s) = true -> forallb plain (list_ascii_of_string (hex_digits fuel n s)) = true.
Proof.
  revert n s. induction fuel as [|fuel IH]; intros n s Hs; [done|]. cbn [hex_digits].
  assert (Hd : forallb plain (list_ascii_of_string (String (hex_digit (n mod 16)) s)) = true).
  { cbn [list_ascii_of_string forallb]. rewrite Hs, andb_true_r. apply plain_digit, Z.mod_pos_bound. lia. }
  destruct (_ =? 0); [done|by apply IH].
Qed.

Lemma strip_plain b s : forallb plain (list_ascii_of_string s) = true -> drop_right (int_space b) (drop_left (int_space b) s) = s.
Proof.
  intros Hs. assert (Hp : forallb (fun a => negb (int_space b a)) (list_ascii_of_string s) = true).
  { rewrite forallb_forall in Hs |- *. intros a Ha. specialize (Hs a Ha). unfold plain in Hs.
    apply andb_true_iff in Hs as [Hs _]. apply andb_true_iff in Hs as [H1 H2]. by destruct b. }
  by rewrite drop_left_none, drop_right_none.
Qed.

(** A block number is sent as text the node reads back: [int(hex(n), 16)] is [n]. *)
Lemma quantity_hex n : 0 <= n -> quantity (JStr (py_hex n)) = Ok n.
Proof.
  intros Hn. unfold quantity, py_hex. rewrite (proj2 (Z.ltb_ge n 0)), Z.abs_eq by lia. set (fuel := S (Z.to_nat (Z.log2 n))).
  unfold int16. rewrite strip_plain by (change ("0x" ++ hex_digits fuel n "")%string with (String "0" (String "x" (hex_digits fuel n "")));
    cbn [list_ascii_of_string forallb]; by rewrite plain_digits).
  assert (Hb : n < 16 ^ Z.of_nat fuel).
  { unfold fuel. rewrite Nat2Z.inj_succ, Z2Nat.id by apply Z.log2_nonneg. destruct (Z.eq_dec n 0) as [->|]; [cbn; lia|].
    pose proof (Z.log2_spec n ltac:(lia)) as [_ H]. eapply Z.lt_le_trans; [exact H|]. apply Z.pow_le_mono_l. pose proof (Z.log2_nonneg n). lia. }
  destruct (read_hex_digits fuel n "" ltac:(lia) ltac:(unfold fuel; lia)) as [k Hk].
  destruct (hex_digits fuel n "") as [|a s].
  { specialize (Hk false 0). by cbn in Hk. }
  specialize (Hk false 0). cbn [read_hex] in Hk. assert (Ha : Ascii.eqb a "_" = false).
  { destruct (Ascii.eqb_spec a "_") as [->|]; [|done]. cbn in Hk. done. }
  change (quantity_of (read_prefixed (String "0" (String "x" (String a s)))) = Ok n). unfold quantity_of, read_prefixed, without_underscore.
  rewrite Ha. change (Ascii.eqb "0" "0" && (Ascii.eqb "x" "x" || Ascii.eqb "x" "X")) with true. cbv iota. cbn [read_hex]. by rewrite Hk.
Qed.

(** * What goes over the wire *)

Section Wire.
Context (net : nat -> Request -> delivery) (parse_float : string -> json).

#[local] Abbreviation request_ := (request net parse_float).

(** A run of sends: copies of one request, each but the last lost to the network. *)
Lemma send_run q left attempt w r w' : send net q left attempt w = (r, w') ->
  exists n, sent w' = sent w ++ replicate (S n) q /\ (n <= left)%nat /\ last_id w' = last_id w /\
    (forall i, (i < n)%nat -> network_failure (net (length (sent w) + i)%nat q) = true) /\
    match r with
    | Ok raw => net (length (sent w) + n)%nat q = Body raw
    | Raise e => exn_kind e = RpcTransportError /\ (forall raw, net (length (sent w) + n)%nat q <> Body raw) /\
                 (network_failure (net (length (sent w) + n)%nat q) = true -> n = left)
    end.
Proof.
  revert attempt w r w'. induction left as [|left IH]; intros attempt w r w' H; cbn [send] in H; unfold bind, get, modify in H; cbn in H.
  all: destruct (net (length (sent w)) q) as [raw| |c|c] eqn:Hd; cbn in H.
  all: try (injection H as <- <-; exists 0%nat; cbn; rewrite Nat.add_0_r, Hd; split_and!; (done || lia || by intros)).
  all: destruct (network_cause c) eqn:Hc; cbn in H; [|injection H as <- <-; exists 0%nat; cbn; rewrite Nat.add_0_r, Hd; cbn; rewrite ?Hc; split_and!; (done || lia || by intros)].
  all: apply IH in H as (n & Hs & Hn & Hid & Hf & Hr); cbn in Hs, Hid, Hf, Hr; exists (S n); rewrite length_app in Hf, Hr; cbn [length] in Hf, Hr.
  all: replace (length (sent w) + S n)%nat with (length (sent w) + 1 + n)%nat by lia.
  all: split_and!; [rewrite Hs, <- app_assoc; done|lia|done| |destruct r; [done|]; destruct Hr as (Hk & Hb & Hl); split_and!; [done|done|]; intros Hx; f_equal; by apply Hl].
  all: intros [|i] Hi; [rewrite Nat.add_0_r, Hd; exact Hc|]; replace (length (sent w) + S i)%nat with (length (sent w) + 1 + i)%nat by lia; apply Hf; lia.
Qed.

(** What an accepted answer is: the object whose id is the request's, without an error. *)
Lemma result_of_Ok q raw v : result_of parse_float q raw = Ok v ->
  exists l x, loads parse_float (text_of raw) = Ok (JObj l) /\ dget "id" l = Some x /\ json_eqb x (JInt (q_id q)) = true /\ dget "result" l = Some v /\
    match dget "error" l with Some e => truth e = false | None => True end.
Proof.
  unfold result_of. destruct (utf8_ok raw); [|by cbn]. destruct (loads _ _) as [y|e] eqn:Hl; [|by case_bool_decide]. destruct y as [| | | | |l]; try done.
  destruct (dget "id" l) as [x|] eqn:Hi; [|done]. destruct (json_eqb x _) eqn:Hx; [|done]. cbn [negb].
  destruct (dget "error" l) as [e|] eqn:He; [destruct (truth e) eqn:Ht; [by destruct e|]|]; (destruct (dget "result" l) as [z|] eqn:Hz; [|done]); intros [= ->]; exists l, x; rewrite He; by split_and!.
Qed.

(** One request: its copies on the wire and where its answer came from. *)
Lemma request_run method params w r w' : request_ method params w = (r, w') ->
  let q := {| q_id := Z.succ (last_id w); q_method := method; q_params := params |} in
  exists n, sent w' = sent w ++ replicate (S n) q /\ (S n <= attempts method)%nat /\ last_id w' = Z.succ (last_id w) /\
    (forall i, (i < n)%nat -> network_failure (net (length (sent w) + i)%nat q) = true) /\
    (forall v, r = Ok v -> exists raw l x, net (length (sent w) + n)%nat q = Body raw /\ loads parse_float (text_of raw) = Ok (JObj l) /\
       dget "id" l = Some x /\ json_eqb x (JInt (q_id q)) = true /\ dget "result" l = Some v).
Proof.
  intros H q. unfold request in H. unfold bind, modify, get in H. cbn in H. fold q in H.
  destruct (send net q (pred (attempts method)) 0 _) as [o wm] eqn:Hs. apply send_run in Hs as (n & H1 & H2 & H3 & H4 & H5). cbn in H1, H3, H4, H5.
  assert (Hatt : (0 < attempts method)%nat) by (unfold attempts; destruct (is_read method); lia).
  exists n. destruct o as [raw|e].
  - unfold lift_res in H. injection H as Hr <-. split_and!; [done|lia|done|done|]. intros v ->.
    apply result_of_Ok in Hr as (l & x & Hl & Hi & Hx & Hv & _). by exists raw, l, x.
  - injection H as <- <-. split_and!; [done|lia|done|done|done].
Qed.

Definition mutation (q : Request) : bool := negb (is_read (q_method q)).

(** A wire on which every id is one request's and no mutation is twice. *)
Record wire_wf (w : HttpTransport) : Prop := {
  ww_ids : forall q, q ∈ sent w -> q_id q <= last_id w;
  ww_one : forall q q', q ∈ sent w -> q' ∈ sent w -> q_id q = q_id q' -> q = q';
  ww_once : NoDup (filter (fun q => mutation q) (sent w));
}.

Definition wire_step (w w' : HttpTransport) : Prop := exists method params r, request_ method params w = (r, w').

Lemma wire_step_wf w w' : wire_step w w' -> wire_wf w -> wire_wf w' /\ sent w `prefix_of` sent w'.
Proof.
  intros (method & params & r & H) [I1 I2 I3]. apply request_run in H as (n & Hs & Hn & Hid & _). set (q := {| q_id := _ |}) in *.
  assert (Hnew : forall x, x ∈ sent w' -> x ∈ sent w \/ x = q).
  { intros x. rewrite Hs, elem_of_app. intros [Hx|Hx]; [by left|right]. by apply elem_of_replicate in Hx as [-> _]. }
  assert (Hq : q_id q = Z.succ (last_id w)) by done.
  split; [split|rewrite Hs; by apply prefix_app_r].
  - intros x Hx. destruct (Hnew x Hx) as [Ho | ->]; [specialize (I1 x Ho); lia|lia].
  - intros x y Hx Hy E. destruct (Hnew x Hx) as [Ho | ->], (Hnew y Hy) as [Hp | ->]; [by apply I2| | |done].
    + specialize (I1 x Ho). lia.
    + specialize (I1 y Hp). lia.
  - rewrite Hs, filter_app. apply NoDup_app. split_and!; [done| |].
    + intros x [_ Hx]%list_elem_of_filter [_ Hy]%list_elem_of_filter. apply elem_of_replicate in Hy as [-> _]. specialize (I1 q Hx). lia.
    + destruct (mutation q) eqn:Hm.
      * assert (n = 0)%nat as -> by (unfold attempts in Hn; unfold mutation in Hm; apply negb_true_iff in Hm; change (q_method q) with method in Hm; rewrite Hm in Hn; lia).
        cbn [replicate]. rewrite filter_cons_bool, Hm. cbn. apply NoDup_singleton.
      * assert (E : filter (fun q => mutation q) (replicate (S n) q) = []); [|rewrite E; constructor].
        clear - Hm. induction (S n) as [|m IH]; [done|]. cbn [replicate]. by rewrite filter_cons_bool, Hm.
Qed.

(** C18: No mutation is sent twice: over any sequence of requests a transport is
    asked for, whatever the network does to each send, every request that is not
    one of the retryable reads is on the wire at most once, all copies of an id
    are one request, and what was sent is never unsent; an answer that is
    returned came back for the last copy of its own request, under its own id,
    and every copy before was lost to the network. *)
Theorem no_mutation_resent w w' method params r w'' :
  wire_wf w -> rtc wire_step w w' -> request_ method params w' = (r, w'') ->
  NoDup (filter (fun q => mutation q) (sent w'')) /\
  (forall q q', q ∈ sent w'' -> q' ∈ sent w'' -> q_id q = q_id q' -> q = q') /\
  sent w `prefix_of` sent w'' /\
  let q := {| q_id := Z.succ (last_id w'); q_method := method; q_params := params |} in
  exists n, sent w'' = sent w' ++ replicate (S n) q /\ (n < 3)%nat /\
    (forall i, (i < n)%nat -> network_failure (net (length (sent w') + i)%nat q) = true) /\
    (forall v, r = Ok v -> exists raw l x, net (length (sent w') + n)%nat q = Body raw /\ loads parse_float (text_of raw) = Ok (JObj l) /\
       dget "id" l = Some x /\ json_eqb x (JInt (q_id q)) = true /\ dget "result" l = Some v).
Proof.
  intros Hw Hr H. assert (Hw' : wire_wf w' /\ sent w `prefix_of` sent w').
  { clear H. induction Hr as [u|u v z Hs _ IH]; [by split|]. destruct (wire_step_wf _ _ Hs Hw) as [Hv Hp]. destruct (IH Hv) as [Hz Hq].
    split; [done|by etrans]. }
  destruct Hw' as [Hw' Hp]. destruct (wire_step_wf w' w'') as [[_ I2 I3] Hp']; [by exists method, params, r|done|].
  split_and!; [done|done|by etrans|]. destruct (request_run _ _ _ _ _ H) as (n & Hs & Hn & _ & Hf & Hv).
  exists n. split_and!; [done| |done|done]. unfold attempts in Hn. destruct (is_read method); lia.
Qed.

End Wire.

(** * Example: a read that takes three sends, then a transaction whose fate is unknown *)

Module NEx.

Definition answer1 : json := JObj [("id", JInt 1); ("result", JStr (py_hex 5))]%string.

Definition net1 (n : nat) (_ : Request) : delivery :=
  match n with 0%nat => Failed ConnectionError | 1%nat => URLError (OSError ECONNRESET) | 2%nat => Body (bytes_of (canonical answer1)) | _ => Failed TimeoutError end.

Definition float0 (_ : string) : json := JNull.
Definition fresh : HttpTransport := {| last_id := 0; sent := []; slept := [] |}.

Definition run1 := request net1 float0 "eth_chainId" [] fresh.
Definition run2 := request net1 float0 "eth_sendRawTransaction" [JStr "0x01"] run1.2.

Example sends : run1.1 = Ok (JStr "0x5") /\ map q_method (sent run2.2) = ["eth_chainId"; "eth_chainId"; "eth_chainId"; "eth_sendRawTransaction"]%string /\
  run2.1 = Raise (Exn RpcTransportError "eth_sendRawTransaction failed") /\ (chain_id (request net1 float0) fresh).1 = Ok 5.
Proof. vm_compute. by split_and!. Qed.

(** An error that is no object is not reported as one: asking it for its code
    raises AttributeError. *)
Example error_text : result_of float0 {| q_id := 1; q_method := "eth_call"; q_params := [] |}
    (bytes_of (canonical (JObj [("id", JInt 1); ("error", JStr "busy")]%string))) = Raise (Exn AttributeError "get").
Proof. vm_compute. reflexivity. Qed.

Lemma fresh_wire_wf : wire_wf fresh.
Proof. split; [by intros q ?%elem_of_nil|by intros q q' ?%elem_of_nil|constructor]. Qed.

Lemma no_mutation_resent_witness : NoDup (filter (fun q => mutation q) (sent run2.2)) /\ length (sent run2.2) = 4%nat.
Proof.
  assert (Hr : rtc (wire_step net1 float0) fresh run1.2).
  { apply rtc_once. exists "eth_chainId"%string, [], run1.1. unfold run1. destruct (request _ _ _ _ _). reflexivity. }
  assert (H : request net1 float0 "eth_sendRawTransaction" [JStr "0x01"] run1.2 = (run2.1, run2.2)) by (unfold run2; destruct (request _ _ _ _ _); reflexivity).
  destruct (no_mutation_resent net1 float0 fresh run1.2 "eth_sendRawTransaction" [JStr "0x01"] run2.1 run2.2 fresh_wire_wf Hr H) as [Hn _].
  split; [exact Hn|vm_compute; reflexivity].
Defined.

End NEx.

End RpcClient.
