(* ===== verification/Session.v ===== *)
(** The bearer sessions of the product API: base64url, the payload's JSON, the
    MAC, and that a token issued is read back until it expires.

    Source: offchain/api/hashcredit_api/gpu/auth/session.py.  [str()] of a list
    or a dict, and what the model's JSON has no value for (floats, UTF-16), are
    arguments; no token the code issues holds any.  [to_json] writes the text of
    [ensure_ascii], which is [dumps]'s when the strings are ASCII and hold no DEL. *)

From S2P Require Import Prelude Domain Stdpy Json JsonText.
Import Domain Stdpy Json JsonText.

Module Session.

(** * base64url *)

Definition B64 : string := "ABCDEFGHIJKLMNOPQRSTUVWXYZabcdefghijklmnopqrstuvwxyz0123456789-_".

Definition b64_digit (n : Z) : ascii := default "A"%char (String.get (Z.to_nat n) B64).

(** The value of a character once - and _ are translated to + and /. *)
Definition b64_value (a : ascii) : option Z :=
  let n := byte_of a in
  if (65 <=? n) && (n <=? 90) then Some (n - 65)
  else if (97 <=? n) && (n <=? 122) then Some (n - 71)
  else if (48 <=? n) && (n <=? 57) then Some (n + 4)
  else if (n =? 45) || (n =? 43) then Some 62
  else if (n =? 95) || (n =? 47) then Some 63
  else None.

(** [base64.urlsafe_b64encode(raw).decode("ascii")] *)
Fixpoint urlsafe_b64encode (l : list Z) : string :=
  match l with
  | a :: b :: c :: l' =>
      String (b64_digit (a / 4)) (String (b64_digit (a mod 4 * 16 + b / 16)) (String (b64_digit (b mod 16 * 4 + c / 64)) (String (b64_digit (c mod 64))
        (urlsafe_b64encode l'))))
  | [a; b] => String (b64_digit (a / 4)) (String (b64_digit (a mod 4 * 16 + b / 16)) (String (b64_digit (b mod 16 * 4)) "="))
  | [a] => String (b64_digit (a / 4)) (String (b64_digit (a mod 4 * 16)) "==")
  | [] => EmptyString
  end.

Definition is_pad (a : ascii) : bool := byte_of a =? 61.

(** [binascii.a2b_base64], not strict: characters outside the alphabet are
    skipped, and padding that completes a group ends the data.  [None] where it
    raises. *)
Fixpoint a2b (quad pads left : Z) (s : string) : option (list Z) :=
  match s with
  | EmptyString => if quad =? 0 then Some [] else None
  | String c s' =>
      if is_pad c then
        if 2 <=? quad then if 4 <=? quad + (pads + 1) then Some [] else a2b quad (pads + 1) left s'
        else a2b quad pads left s'
      else
        match b64_value c with
        | None => a2b quad pads left s'
        | Some v =>
            if quad =? 0 then a2b 1 0 v s'
            else if quad =? 1 then cons (left * 4 + v / 16) <$> a2b 2 0 (v mod 16) s'
            else if quad =? 2 then cons (left * 16 + v / 4) <$> a2b 3 0 (v mod 4) s'
            else cons (left * 64 + v) <$> a2b 0 0 0 s'
        end
  end.

(** Models [auth/session.py], [_b64e]. *)
Definition _b64e (raw : list Z) : string := drop_right is_pad (urlsafe_b64encode raw).

Fixpoint repeat_str (n : nat) (s : string) : string := match n with O => EmptyString | S n' => (s ++ repeat_str n' s)%string end.

(** Models [auth/session.py], [_b64d]. *)
Definition _b64d (s : string) : option (list Z) :=
  let pad := repeat_str (Z.to_nat ((- Z.of_nat (String.length s)) mod 4)) "=" in
  if ascii_only s then a2b 0 0 0 (s ++ pad) else None.

(** * The payload *)

(** Models [auth/session.py], [SessionPayload], lines 30-38. *)
Record SessionPayload := {
  sub : string; (* wallet *)
  cid : Z; (* chain_id *)
  brw : json; (* borrower_id: a text or null *)
  s_roles : list string;
  role_epochs : gmap string Z;
  iat : Z;
  exp : Z;
  jti : string;
}.

(** Models [auth/session.py], [SessionPayload.to_json], lines 40-54. *)
Definition payload_json (p : SessionPayload) : json := JObj [
  ("sub", JStr (sub p)); ("cid", JInt (cid p)); ("brw", brw p); ("roles", JArr (map JStr (s_roles p)));
  ("ep", JObj (map (fun e => (e.1, JInt e.2)) (map_to_list (role_epochs p))));
  ("iat", JInt (iat p)); ("exp", JInt (exp p)); ("jti", JStr (jti p))]%string.

(** Models [auth/session.py], [SessionPayload.to_json]. *)
Definition to_json (p : SessionPayload) : list Z := bytes_of (canonical (payload_json p)).

(** The characters of a text. *)
Fixpoint characters (s : string) : list string :=
  match s with
  | EmptyString => []
  | String a s' =>
      match characters s' with
      | String b t :: l => if cont (byte_of b) then String a (String b t) :: l else String a "" :: String b t :: l
      | l => String a "" :: l
      end
  end.

Section Parse.
Context (parse_float : string -> json) (decode_wide : list Z -> res string) (repr : json -> string).

(** [str(v)] *)
Definition str_of (v : json) : string :=
  match v with
  | JNull => "None" | JBool true => "True" | JBool false => "False" | JInt n => py_str n | JStr s => s
  | _ => repr v
  end.

(** [tuple(str(r) for r in v)] *)
Definition texts_of (v : json) : res (list string) :=
  match v with
  | JArr l => Ok (map str_of l)
  | JObj l => Ok l.*1
  | JStr s => Ok (characters s)
  | _ => Raise (Exn TypeError "object is not iterable")
  end.

(** [{str(k): int(v) for k, v in v.items()}] *)
Definition ints_of (v : json) : res (gmap string Z) :=
  match v with
  | JObj l => rbind (map_res (fun p => rbind (int_json p.2) (fun n => Ok (p.1, n))) l)
                    (fun l => Ok (fold_left (fun m p => <[p.1 := p.2]> m) l ∅))
  | _ => Raise (Exn AttributeError "items")
  end.

(** Models [auth/session.py], [SessionPayload.from_json]. *)
Definition from_json (raw : list Z) : res SessionPayload :=
  rbind (loads_bytes parse_float decode_wide raw) (fun d =>
  rbind (field "sub" d) (fun s =>
  rbind (rbind (field "cid" d) int_json) (fun c =>
  rbind (rbind (field "roles" d) texts_of) (fun rs =>
  rbind (rbind (field "ep" d) ints_of) (fun ep =>
  rbind (rbind (field "iat" d) int_json) (fun i =>
  rbind (rbind (field "exp" d) int_json) (fun e =>
  rbind (field "jti" d) (fun j =>
  Ok {| sub := str_of s; cid := c; brw := default JNull (get_field "brw" d); s_roles := rs; role_epochs := ep;
        iat := i; exp := e; jti := str_of j |})))))))).

(** The payload of a session that begins. *)
Definition begin_session (wallet : string) (chain : Z) (borrower : json) (roles : list string) (epochs : gmap string Z) (ttl now : Z) (jti : string) : SessionPayload :=
  {| sub := wallet; cid := chain; brw := borrower; s_roles := roles; role_epochs := epochs; iat := now; exp := now + ttl; jti := jti |}.

Definition token_of (secret : string) (p : SessionPayload) : string :=
  (_b64e (to_json p) ++ "." ++ _b64e (hmac_sha256 (bytes_of secret) (to_json p)))%string.

(** Models [auth/session.py], [issue_session]. *)
Definition issue_session (secret wallet : string) (chain : Z) (borrower : json) (roles : list string) (epochs : gmap string Z) (ttl now : Z) (jti : string) : string * SessionPayload :=
  let payload := begin_session wallet chain borrower roles epochs ttl now jti in (token_of secret payload, payload).

(** [token.split(".", 1)], of a token with a dot. *)
Fixpoint split_dot (s : string) : option (string * string) :=
  match s with
  | EmptyString => None
  | String c s' => if byte_of c =? 46 then Some (EmptyString, s') else (fun p => (String c p.1, p.2)) <$> split_dot s'
  end.

(** Models [auth/session.py], [parse_session]. *)
Definition parse_session (secret token : string) (now : Z) : option SessionPayload :=
  match split_dot token with
  | None => None
  | Some (body_b64, mac_b64) =>
      match _b64d body_b64, _b64d mac_b64 with
      | Some body, Some mac =>
          if bool_decide (mac = hmac_sha256 (bytes_of secret) body) then
            match from_json body with
            | Ok payload => if exp payload <=? now then None else Some payload
            | Raise _ => None
            end
          else None
      | _, _ => None
      end
  end.
End Parse.

(** * Lemmas *)

Lemma three_ind (P : list Z -> Prop) : P [] -> (forall a, P [a]) -> (forall a b, P [a; b]) -> (forall a b c l, P l -> P (a :: b :: c :: l)) -> forall l, P l.
Proof. intros H0 H1 H2 H3. fix IH 1. intros [|a [|b [|c l]]]; [exact H0|apply H1|apply H2|apply H3, IH]. Qed.

(** ** base64url *)

(** The encoding without its padding. *)
Fixpoint b64_text (l : list Z) : string :=
  match l with
  | a :: b :: c :: l' =>
      String (b64_digit (a / 4)) (String (b64_digit (a mod 4 * 16 + b / 16)) (String (b64_digit (b mod 16 * 4 + c / 64)) (String (b64_digit (c mod 64)) (b64_text l'))))
  | [a; b] => String (b64_digit (a / 4)) (String (b64_digit (a mod 4 * 16 + b / 16)) (String (b64_digit (b mod 16 * 4)) ""))
  | [a] => String (b64_digit (a / 4)) (String (b64_digit (a mod 4 * 16)) "")
  | [] => EmptyString
  end.

(** Of a digit: its value, and that it is no padding, no dot and ASCII. *)
Definition digit_ok (n : Z) : bool :=
  bool_decide (b64_value (b64_digit n) = Some n) && negb (is_pad (b64_digit n)) && negb (byte_of (b64_digit n) =? 46) && (byte_of (b64_digit n) <? 128).

Lemma digits_ok : forallb digit_ok (map Z.of_nat (seq 0 64)) = true.
Proof. vm_compute. reflexivity. Qed.

Lemma b64_digit_ok n : 0 <= n < 64 -> b64_value (b64_digit n) = Some n /\ is_pad (b64_digit n) = false /\ (byte_of (b64_digit n) =? 46) = false /\ (byte_of (b64_digit n) <? 128) = true.
Proof.
  intros Hn. pose proof digits_ok as H. rewrite forallb_forall in H. specialize (H n).
  assert (Hin : In n (map Z.of_nat (seq 0 64))) by (apply in_map_iff; exists (Z.to_nat n); rewrite in_seq; lia).
  apply H in Hin. unfold digit_ok in Hin. rewrite !andb_true_iff, !negb_true_iff, bool_decide_eq_true in Hin. tauto.
Qed.

(** The four digits of a group are digits, and give its bytes back. *)
Lemma group_range a b c : is_byte a -> is_byte b -> is_byte c ->
  (0 <= a / 4 < 64) /\ (0 <= a mod 4 * 16 + b / 16 < 64) /\ (0 <= b mod 16 * 4 + c / 64 < 64) /\ (0 <= c mod 64 < 64).
Proof. unfold is_byte. intros. Z.to_euclidean_division_equations. lia. Qed.

Lemma group_bytes a b c : is_byte a -> is_byte b -> is_byte c ->
  a / 4 * 4 + (a mod 4 * 16 + b / 16) / 16 = a /\
  (a mod 4 * 16 + b / 16) mod 16 * 16 + (b mod 16 * 4 + c / 64) / 4 = b /\
  (b mod 16 * 4 + c / 64) mod 4 * 64 + c mod 64 = c.
Proof. unfold is_byte. intros. Z.to_euclidean_division_equations. lia. Qed.

Lemma is_byte_0 : is_byte 0.
Proof. unfold is_byte. lia. Qed.

Lemma drop_right_keep p a s : p a = false -> drop_right p (String a s) = String a (drop_right p s).
Proof. intros H. cbn. rewrite H. by destruct (drop_right p s). Qed.

(** Every character of the text satisfies what digits do. *)
Lemma b64_text_forall (q : ascii -> bool) l : (forall n, 0 <= n < 64 -> q (b64_digit n) = true) -> is_bytes l ->
  forallb q (list_ascii_of_string (b64_text l)) = true.
Proof.
  intros Hq. induction l as [|a|a b|a b c l IH] using three_ind; intros Hl; [done|..].
  - apply Forall_cons in Hl as [Ha _]. destruct (group_range a 0 0 Ha is_byte_0 is_byte_0) as (H1 & H2 & _). rewrite Z.add_0_r in H2. cbn [b64_text list_ascii_of_string forallb]. by rewrite !Hq.
  - apply Forall_cons in Hl as [Ha [Hb _]%Forall_cons]. destruct (group_range a b 0 Ha Hb is_byte_0) as (H1 & H2 & H3 & _). rewrite Z.add_0_r in H3. cbn [b64_text list_ascii_of_string forallb]. by rewrite !Hq.
  - apply Forall_cons in Hl as [Ha [Hb [Hc Hl]%Forall_cons]%Forall_cons]. destruct (group_range a b c Ha Hb Hc) as (H1 & H2 & H3 & H4). cbn [b64_text list_ascii_of_string forallb]. rewrite !Hq by done. by apply IH.
Qed.

Lemma b64e_text l : is_bytes l -> _b64e l = b64_text l.
Proof.
  unfold _b64e. induction l as [|a|a b|a b c l IH] using three_ind; intros Hl; [done|..]; cbn [urlsafe_b64encode b64_text].
  - apply Forall_cons in Hl as [Ha _]. destruct (group_range a 0 0 Ha is_byte_0 is_byte_0) as (H1 & H2 & _). rewrite Z.add_0_r in H2.
    by rewrite !drop_right_keep by (by apply b64_digit_ok).
  - apply Forall_cons in Hl as [Ha [Hb _]%Forall_cons]. destruct (group_range a b 0 Ha Hb is_byte_0) as (H1 & H2 & H3 & _). rewrite Z.add_0_r in H3.
    by rewrite !drop_right_keep by (by apply b64_digit_ok).
  - apply Forall_cons in Hl as [Ha [Hb [Hc Hl]%Forall_cons]%Forall_cons]. destruct (group_range a b c Ha Hb Hc) as (H1 & H2 & H3 & H4).
    rewrite !drop_right_keep by (by apply b64_digit_ok). by rewrite IH.
Qed.

Definition padding (s : string) : string := repeat_str (Z.to_nat ((- Z.of_nat (String.length s)) mod 4)) "=".

Lemma padding_group a b c d s : padding (String a (String b (String c (String d s)))) = padding s.
Proof.
  unfold padding. cbn [String.length]. set (n := String.length s). replace (- Z.of_nat (S (S (S (S n))))) with (- Z.of_nat n + (-1) * 4) by lia.
  by rewrite Z.mod_add.
Qed.

(** A digit read in each place of a group. *)
Lemma a2b_digit quad pads left n s : 0 <= n < 64 -> a2b quad pads left (String (b64_digit n) s) =
  if quad =? 0 then a2b 1 0 n s
  else if quad =? 1 then cons (left * 4 + n / 16) <$> a2b 2 0 (n mod 16) s
  else if quad =? 2 then cons (left * 16 + n / 4) <$> a2b 3 0 (n mod 4) s
  else cons (left * 64 + n) <$> a2b 0 0 0 s.
Proof. intros Hn. destruct (b64_digit_ok n Hn) as (Hv & Hp & _). cbn [a2b]. by rewrite Hp, Hv. Qed.

Lemma a2b_text l : is_bytes l -> a2b 0 0 0 (b64_text l ++ padding (b64_text l)) = Some l.
Proof.
  induction l as [|a|a b|a b c l IH] using three_ind; intros Hl; [done|..]; cbn [b64_text].
  - apply Forall_cons in Hl as [Ha _]. destruct (group_range a 0 0 Ha is_byte_0 is_byte_0) as (H1 & H2 & _). rewrite Z.add_0_r in H2.
    change (padding _) with "=="%string. rewrite !str_cons_app, !a2b_digit by done. cbn [Z.eqb Z.leb a2b is_pad]. cbn.
    destruct (group_bytes a 0 0 Ha is_byte_0 is_byte_0) as (E & _). rewrite Z.add_0_r in E. by rewrite E.
  - apply Forall_cons in Hl as [Ha [Hb _]%Forall_cons]. destruct (group_range a b 0 Ha Hb is_byte_0) as (H1 & H2 & H3 & _). rewrite Z.add_0_r in H3.
    change (padding _) with "="%string. rewrite !str_cons_app, !a2b_digit by done. cbn.
    destruct (group_bytes a b 0 Ha Hb is_byte_0) as (E1 & E2 & _). rewrite Z.add_0_r in E2. by rewrite E1, E2.
  - apply Forall_cons in Hl as [Ha [Hb [Hc Hl]%Forall_cons]%Forall_cons]. destruct (group_range a b c Ha Hb Hc) as (H1 & H2 & H3 & H4).
    rewrite padding_group, !str_cons_app, !a2b_digit by done. cbn [Z.eqb]. rewrite (IH Hl). cbn.
    destruct (group_bytes a b c Ha Hb Hc) as (E1 & E2 & E3). by rewrite E1, E2, E3.
Qed.

Lemma b64d_b64e l : is_bytes l -> _b64d (_b64e l) = Some l.
Proof.
  intros Hl. rewrite b64e_text by done. unfold _b64d. fold (padding (b64_text l)).
  assert (ascii_only (b64_text l) = true) as ->; [|by apply a2b_text].
  apply b64_text_forall; [|done]. intros n Hn. by apply b64_digit_ok.
Qed.

Lemma split_dot_b64e l s : is_bytes l -> split_dot (_b64e l ++ "." ++ s) = Some (_b64e l, s).
Proof.
  intros Hl. rewrite b64e_text by done.
  assert (H : forallb (fun a => negb (byte_of a =? 46)) (list_ascii_of_string (b64_text l)) = true).
  { apply b64_text_forall; [|done]. intros n Hn. destruct (b64_digit_ok n Hn) as (_ & _ & -> & _). done. }
  induction (b64_text l) as [|a t IH]; [done|]. cbn [list_ascii_of_string forallb] in H. apply andb_true_iff in H as [Ha%negb_true_iff H].
  rewrite str_cons_app. cbn [split_dot]. by rewrite Ha, (IH H).
Qed.

(** ** The payload *)

(** What the code puts into a session: ASCII texts without DEL and integers of
    63 bits. *)
Record session_ok (p : SessionPayload) : Prop := {
  ok_sub : ascii_only (sub p) = true;
  ok_jti : ascii_only (jti p) = true;
  ok_brw : brw p = JNull \/ exists s, brw p = JStr s /\ ascii_only s = true;
  ok_roles : Forall (fun r => ascii_only r = true) (s_roles p);
  ok_epochs : map_Forall (fun k n => ascii_only k = true /\ Z.abs n < 2 ^ 63) (role_epochs p);
  ok_ints : Z.abs (cid p) < 2 ^ 63 /\ Z.abs (iat p) < 2 ^ 63 /\ Z.abs (exp p) < 2 ^ 63;
}.

Lemma json_ints_keys (l : list (string * Z)) : (map (fun e => (e.1, JInt e.2)) l).*1 = l.*1.
Proof. rewrite <- list_fmap_compose. done. Qed.

Lemma payload_readable p : session_ok p -> readable (payload_json p) = true.
Proof.
  intros []. unfold payload_json. cbn [readable fmap list_fmap fst snd forallb].
  assert (readable (brw p) = true) as -> by (by destruct ok_brw0 as [->|(s & -> & _)]).
  destruct ok_ints0 as (H1 & H2 & H3). rewrite !int_size_bound by done.
  assert (forallb readable (map JStr (s_roles p)) = true) as ->.
  { apply forallb_forall. intros x (r & <- & _)%in_map_iff. done. }
  rewrite json_ints_keys, (bool_decide_eq_true_2 _ (NoDup_fst_map_to_list _)). cbn [andb].
  assert (forallb (fun q : string * json => readable q.2) (map (fun e => (e.1, JInt e.2)) (map_to_list (role_epochs p))) = true) as ->; [|by rewrite bool_decide_eq_true_2 by (by apply (bool_decide_unpack _))].
  apply forallb_forall. intros x ([k n] & <- & Hk)%in_map_iff. apply list_elem_of_In, elem_of_map_to_list in Hk. apply int_size_bound. by apply (ok_epochs0 k n Hk).
Qed.

Lemma payload_ascii p : session_ok p -> ascii_json (payload_json p) = true.
Proof.
  intros []. unfold payload_json. cbn [ascii_json forallb fst snd].
  assert (ascii_json (brw p) = true) as -> by (by destruct ok_brw0 as [->|(s & -> & ?)]).
  rewrite ok_sub0, ok_jti0.
  assert (forallb ascii_json (map JStr (s_roles p)) = true) as ->.
  { apply forallb_forall. intros x (r & <- & Hr)%in_map_iff. rewrite Forall_forall in ok_roles0. by apply ok_roles0, list_elem_of_In. }
  assert (forallb (fun q : string * json => ascii_only q.1 && ascii_json q.2) (map (fun e => (e.1, JInt e.2)) (map_to_list (role_epochs p))) = true) as ->; [|done].
  apply forallb_forall. intros x ([k n] & <- & Hk)%in_map_iff. apply list_elem_of_In, elem_of_map_to_list in Hk. destruct (ok_epochs0 k n Hk) as [H _]. cbn [fst snd ascii_json]. by rewrite H.
Qed.

(** The dict of the epochs, whatever the order of its items. *)
Lemma ints_of_map (m : gmap string Z) l : l ≡ₚ map (fun e => (e.1, JInt e.2)) (map_to_list m) -> ints_of (JObj l) = Ok m.
Proof.
  intros Hp. symmetry in Hp. assert (exists l0, l0 ≡ₚ map_to_list m /\ l = map (fun e => (e.1, JInt e.2)) l0) as (l0 & Hl0 & ->).
  { destruct (Permutation_map_inv _ _ (Permutation_sym Hp)) as (l0 & -> & Hl0). by exists l0. }
  assert (Hnd : NoDup l0.*1) by (rewrite Hl0; apply NoDup_fst_map_to_list).
  assert (Hr : map_res (fun p : string * json => rbind (int_json p.2) (fun n => Ok (p.1, n))) (map (fun e => (e.1, JInt e.2)) l0) = Ok l0).
  { clear. induction l0 as [|[k n] l0 IH]; [done|]. cbn. cbn in IH. by rewrite IH. }
  cbn [ints_of]. rewrite Hr. cbn. f_equal. rewrite <- fold_left_rev_right.
  change (list_to_map (rev l0) = m). rewrite <- (list_to_map_to_list m). apply list_to_map_proper.
  - rewrite <- (Permutation_rev l0). done.
  - by rewrite <- Hl0, <- Permutation_rev.
Qed.

Section RoundTrip.
Context (parse_float : string -> json) (decode_wide : list Z -> res string) (repr : json -> string).
#[local] Abbreviation from_json := (from_json parse_float decode_wide repr).
#[local] Abbreviation parse_session := (parse_session parse_float decode_wide repr).

Lemma from_json_to_json p : session_ok p -> from_json (to_json p) = Ok p.
Proof.
  intros Hok. pose proof (payload_readable p Hok) as Hr. pose proof (payload_ascii p Hok) as Ha.
  unfold from_json, to_json. rewrite loads_bytes_canonical by done. cbn [rbind].
  set (ep := isort key_leb (map (fun q : string * json => (q.1, sorted q.2)) (map (fun e => (e.1, JInt e.2)) (map_to_list (role_epochs p))))).
  assert (Hs : sorted (payload_json p) = JObj [("brw", sorted (brw p)); ("cid", JInt (cid p)); ("ep", JObj ep); ("exp", JInt (exp p)); ("iat", JInt (iat p));
    ("jti", JStr (jti p)); ("roles", JArr (map sorted (map JStr (s_roles p)))); ("sub", JStr (sub p))]%string) by reflexivity.
  assert (Hep : ints_of (JObj ep) = Ok (role_epochs p)).
  { apply ints_of_map. unfold ep. rewrite (isort_perm key_leb), map_map. done. }
  assert (Hroles : texts_of repr (JArr (map sorted (map JStr (s_roles p)))) = Ok (s_roles p)).
  { cbn. f_equal. rewrite !map_map. cbn. apply map_id. }
  assert (Hb : sorted (brw p) = brw p) by (by destruct (ok_brw p Hok) as [->|(s & -> & _)]).
  rewrite Hs, Hb.
  change (field "sub" _) with (Ok (JStr (sub p))). cbn [rbind]. change (field "cid" _) with (Ok (JInt (cid p))). cbn [rbind int_json].
  change (field "roles" _) with (Ok (JArr (map sorted (map JStr (s_roles p))))). cbn [rbind]. rewrite Hroles. cbn [rbind].
  change (field "ep" _) with (Ok (JObj ep)). cbn [rbind]. rewrite Hep. cbn [rbind].
  change (field "iat" _) with (Ok (JInt (iat p))). cbn [rbind int_json]. change (field "exp" _) with (Ok (JInt (exp p))). cbn [rbind int_json].
  change (field "jti" _) with (Ok (JStr (jti p))). cbn [rbind str_of]. change (get_field "brw" _) with (Some (brw p)). by destruct p.
Qed.

Lemma to_json_bytes p : is_bytes (to_json p).
Proof. apply bytes_of_range. Qed.

Lemma hmac_bytes key msg : is_bytes (hmac_sha256 key msg).
Proof. apply sha256_bytes. Qed.

(** A token of the code's own, at any time. *)
Lemma parse_token secret p now : session_ok p -> parse_session secret (token_of secret p) now = if exp p <=? now then None else Some p.
Proof.
  intros Hok. unfold parse_session, token_of. rewrite split_dot_b64e by apply to_json_bytes.
  rewrite !b64d_b64e by first [apply to_json_bytes|apply hmac_bytes]. rewrite bool_decide_eq_true_2 by done. by rewrite from_json_to_json.
Qed.

(** What a token that is accepted carries. *)
Lemma parse_session_Some secret token now p : parse_session secret token now = Some p ->
  exists body64 mac64 body, split_dot token = Some (body64, mac64) /\ _b64d body64 = Some body /\
    _b64d mac64 = Some (hmac_sha256 (bytes_of secret) body) /\ from_json body = Ok p /\ now < exp p.
Proof.
  unfold parse_session. destruct (split_dot token) as [[b m]|]; [|done]. destruct (_b64d b) as [body|] eqn:Hb; [|done]. destruct (_b64d m) as [mac|] eqn:Hm; [|done].
  case_bool_decide as Hmac; [|done]. destruct (from_json body) as [q|] eqn:Hq; [|done]. destruct (Z.leb_spec (exp q) now) as [|Hx]; [done|]. intros [= ->].
  exists b, m, body. by rewrite <- Hmac.
Qed.

(** C36: A session is what was issued: a token is read back as the payload it was
    issued for, whatever the order its dict was written in, until it expires
    and not afterwards; and any token that is accepted carries a body under
    the MAC of the secret. *)
Theorem session_roundtrip secret wallet chain borrower roles epochs ttl now jti :
  session_ok (begin_session wallet chain borrower roles epochs ttl now jti) ->
  let '(token, payload) := issue_session secret wallet chain borrower roles epochs ttl now jti in
  (forall t, parse_session secret token t = if now + ttl <=? t then None else Some payload) /\
  (forall token' t p, parse_session secret token' t = Some p ->
     exists body64 mac64 body, split_dot token' = Some (body64, mac64) /\ _b64d body64 = Some body /\
       _b64d mac64 = Some (hmac_sha256 (bytes_of secret) body) /\ from_json body = Ok p /\ t < exp p).
Proof.
  intros Hok. split.
  - intros t. by apply (parse_token secret (begin_session wallet chain borrower roles epochs ttl now jti) t).
  - intros token' t p. apply parse_session_Some.
Qed.
End RoundTrip.

Definition payload1 : SessionPayload := begin_session "0x00000000000000000000000000000000000000Aa" 1 (JStr "01J") ["operator"; "borrower"] {[ "operator" := 2; "borrower" := 0 ]} 3600 1000 "ab".

Lemma payload1_ok : session_ok payload1.
Proof.
  split; try done; [right; by eexists|by repeat constructor|]. unfold payload1, begin_session. cbn [role_epochs].
  apply map_Forall_insert_2; [done|]. by apply map_Forall_singleton.
Qed.

Lemma session_roundtrip_witness : session_ok payload1 /\
  Session.parse_session JStr (fun _ => json_error) canonical "k" (issue_session "k" "0x00000000000000000000000000000000000000Aa" 1 (JStr "01J") ["operator"; "borrower"]
    {[ "operator" := 2; "borrower" := 0 ]} 3600 1000 "ab").1 2000 = Some payload1.
Proof.
  split; [exact payload1_ok|].
  exact (proj1 (session_roundtrip JStr (fun _ => json_error) canonical "k" "0x00000000000000000000000000000000000000Aa" 1 (JStr "01J") ["operator"; "borrower"]
    {[ "operator" := 2; "borrower" := 0 ]} 3600 1000 "ab" payload1_ok) 2000).
Defined.
End Session.
