(* ===== verification/JobQueue.v ===== *)
(** The durable job queue over the [jobs] table, its leases with fencing
    tokens, the dead-letter administration and the worker loop.

    Sources: offchain/gpu/hashcredit_gpu/jobs/queue.py and jobs/worker.py, with
    the SQL function [hcg_lease_job] and the table's constraints
    (migrations/versions/0002_event_cash_job_ledgers.py, db/ledgers.py).

    The database is a record: the two tables the queue writes, the business
    tables of the handlers (a type [B] of their own) and the transaction clock
    [now()], in microseconds.  A public method runs in its own transaction, or
    in the caller's when it is given [cx]: it is the same definition, wrapped
    in [transaction] or not. *)

From S2P Require Import Prelude Domain Stdpy.
From Stdlib Require Import QArith Qminmax Qround Qpower Lqa.
#[local] Open Scope Z_scope.
Import Domain Stdpy.

Module Jobs.

(** * ULIDs, payload hashes and backoff *)

Definition CROCKFORD : string := "0123456789ABCDEFGHJKMNPQRSTVWXYZ".

Definition crockford_digit (n : Z) : ascii := default "0"%char (String.get (Z.to_nat n) CROCKFORD).

(** The loop of [new_ulid]: the digits of [value], most significant first. *)
Fixpoint ulid_digits (n : nat) (value : Z) (acc : string) : string :=
  match n with
  | O => acc
  | S n' => ulid_digits n' (Z.shiftr value 5) (String (crockford_digit (Z.land value 31)) acc)
  end.

(** Models [jobs/queue.py], [new_ulid]. *)
Definition new_ulid (ts rand : Z) : string :=
  ulid_digits 26 (Z.lor (Z.shiftl ts 80) rand) EmptyString.

(** Models [jobs/queue.py], [payload_hash]. *)
Definition payload_hash (payload : json) : string := sha256_hex (canonical payload).

(** Models [jobs/queue.py], [FailureKind]. *)
Inductive FailureKind := TRANSIENT | TERMINAL.

#[export] Instance FailureKind_eq_dec : EqDecision FailureKind.
Proof. solve_decision. Defined.

Definition kind_str (k : FailureKind) : string :=
  match k with TRANSIENT => "TRANSIENT" | TERMINAL => "TERMINAL" end.

(** Models [jobs/queue.py], [BackoffPolicy], lines 78-83. *)
Record BackoffPolicy := {
  base_seconds : Q;
  factor : Q;
  cap_seconds : Q;
  jitter_fraction : Q;
}.

Definition default_backoff : BackoffPolicy :=
  {| base_seconds := 2; factor := 2; cap_seconds := 600; jitter_fraction := 1 # 5 |}.

(** [raw] of [delay]: the floats as exact rationals. *)
Definition raw_delay (p : BackoffPolicy) (attempt : Z) : Q :=
  Qmin (cap_seconds p) (base_seconds p * Qpower (factor p) (Z.max 0 (attempt - 1)))%Q.

(** [r.uniform(a, b)], where [u] is the generator's next [random()]. *)
Definition uniform (a b u : Q) : Q := (a + (b - a) * u)%Q.

(** Models [jobs/queue.py], [BackoffPolicy.delay]. *)
Definition delay (p : BackoffPolicy) (attempt : Z) (u : Q) : Q :=
  let raw := raw_delay p attempt in
  let jitter := (raw * jitter_fraction p)%Q in
  Qmax 0 (raw + uniform (- jitter) jitter u)%Q.

(** [make_interval(secs => q)] in microseconds. *)
Definition micros (q : Q) : Z := Qfloor (q * 1000000 + (1 # 2))%Q.

(** * Tables *)

Inductive JobState := PENDING | LEASED | SUCCEEDED | FAILED | DEAD.

#[export] Instance JobState_eq_dec : EqDecision JobState.
Proof. solve_decision. Defined.

(** The columns of [jobs] the queue reads or writes ([created_at] and
    [updated_at] are left out). *)
Record Job := {
  job_id : string;
  kind : string;
  semantic_idempotency_key : string;
  job_payload_hash : string;
  payload : json;
  state : JobState;
  attempt : Z;
  max_attempts : Z;
  leased_by : option string;
  lease_until : option Z;
  next_run_at : Z;
  last_error : option string;
}.

Record AuditRow := {
  actor : string;
  actor_role : string;
  action : string;
  entity_table : string;
  entity_id : string;
  before : option json;
  after : option json;
  correlation_id : option string;
  prev_hash : option string;
  entry_hash : string;
}.

Record DB (B : Type) := {
  jobs : gmap string Job;
  audit_log : list AuditRow; (* by ascending id *)
  now : Z;
  biz : B;
}.
Arguments jobs {B} _.
Arguments audit_log {B} _.
Arguments now {B} _.
Arguments biz {B} _.

(** Models [jobs/queue.py], [ClaimedJob], lines 93-102. *)
Record ClaimedJob := {
  c_job_id : string;
  c_kind : string;
  c_payload : json;
  c_key : string;
  c_attempt : Z;
  c_max_attempts : Z;
  c_worker : string;
  c_lease_until : option Z;
}.

(** * Audit *)

(** Models [jobs/queue.py], [_audit_entry_hash]. *)
Definition audit_entry_hash (prev : option string) (actor action entity : string) (after : json) : string :=
  sha256_hex (canonical (JObj [("prev", match prev with Some h => JStr h | None => JNull end);
                               ("actor", JStr actor); ("action", JStr action);
                               ("entity", JStr entity); ("after", after)]%string)).

Section WithBiz.
Context {B : Type}.
#[local] Abbreviation M := (PyM (DB B)).

(** Models [jobs/queue.py], [write_audit]. *)
Definition write_audit (act role action_ table entity : string) (bef aft : option json)
    (corr : option string) : M Z :=
  let* db := get in
  let prev := entry_hash <$> last (audit_log db) in
  let h := audit_entry_hash prev act action_ entity (default (JObj []) aft) in
  modify (fun db => db <| audit_log ::= fun l => l ++ [{|
    actor := act; actor_role := role; action := action_; entity_table := table; entity_id := entity;
    before := bef; after := aft; correlation_id := corr; prev_hash := prev; entry_hash := h |}] |>) ;;;
  ret (Z.of_nat (length (audit_log db)) + 1).

(** * Enqueue *)

Definition job_with_key (key : string) (db : DB B) : option Job :=
  snd <$> List.find (fun p => String.eqb (semantic_idempotency_key p.2) key) (map_to_list (jobs db)).

(** Models [jobs/queue.py], [JobQueue.enqueue]; [fresh] is the id [new_ulid]
    drew, and the table's constraints on the row are the checks before the
    insert. *)
Definition enqueue (kind_ : string) (payload_ : json) (key : string) (max_att : Z)
    (run_at : option Z) (fresh : string) : M string :=
  if String.eqb key "" then raise ValueError "semantic_idempotency_key is required"
  else
    let* db := get in
    match job_with_key key db with
    | Some j => ret (job_id j)
    | None =>
        if max_att <? 1 then raise DatabaseError "ck_jobs_attempts"
        else if bool_decide (is_Some (jobs db !! fresh)) then raise DatabaseError "jobs_pkey"
        else
          modify (fun db => db <| jobs ::= <[fresh := {|
            job_id := fresh; kind := kind_; semantic_idempotency_key := key;
            job_payload_hash := payload_hash payload_; payload := payload_; state := PENDING;
            attempt := 0; max_attempts := max_att; leased_by := None; lease_until := None;
            next_run_at := default (now db) run_at; last_error := None |}]> |>) ;;;
          ret fresh
    end.

(** * Claim *)

Definition lease_free (j : Job) (t : Z) : bool :=
  match lease_until j with None => true | Some u => u <? t end.

(** The WHERE clause of [hcg_lease_job], and of the candidate query. *)
Definition leasable (j : Job) (t : Z) : bool :=
  bool_decide (state j = PENDING \/ state j = LEASED) && (attempt j <? max_attempts j)
  && (next_run_at j <=? t) && lease_free j t.

(** Models [0002_event_cash_job_ledgers.py], lines 154-168. *)
Definition hcg_lease_job (id worker : string) (seconds : Z) : M bool :=
  let* db := get in
  match jobs db !! id with
  | Some j =>
      if leasable j (now db) then
        modify (fun db => db <| jobs ::= <[id := j <| state := LEASED |> <| leased_by := Some worker |>
          <| lease_until := Some (now db + seconds * 1000000) |> <| attempt ::= Z.add 1 |>]> |>) ;;;
        ret true
      else ret false
  | None => ret false
  end.

(** ORDER BY next_run_at, job_id *)
Definition job_leb (a b : Job) : bool :=
  if next_run_at a =? next_run_at b then String.leb (job_id a) (job_id b)
  else next_run_at a <=? next_run_at b.

(** The WHERE clause of the candidate query. *)
Definition eligible (kinds : list string) (job_ids : option (list string)) (db : DB B) (j : Job) : bool :=
  leasable j (now db) && mem_str (kind j) kinds
  && match job_ids with Some l => mem_str (job_id j) l | None => true end.

Definition candidate_ids (kinds : list string) (job_ids : option (list string)) (n : nat) (db : DB B)
  : list string :=
  take n (map job_id (isort job_leb
    (filter (fun j => eligible kinds job_ids db j) (map_to_list (jobs db)).*2))).

Definition claimed (worker : string) (j : Job) : ClaimedJob := {|
  c_job_id := job_id j; c_kind := kind j; c_payload := payload j; c_key := semantic_idempotency_key j;
  c_attempt := attempt j; c_max_attempts := max_attempts j; c_worker := worker;
  c_lease_until := lease_until j |}.

Fixpoint claim_loop (worker : string) (seconds : Z) (ids : list string) : M (option ClaimedJob) :=
  match ids with
  | [] => ret None
  | id :: ids' =>
      let* won := hcg_lease_job id worker seconds in
      if (won : bool) then
        let* db := get in
        match jobs db !! id with
        | Some j => ret (Some (claimed worker j))
        | None => raise NoResultFound "no row"
        end
      else claim_loop worker seconds ids'
  end.

(** [not kinds or (job_ids is not None and not job_ids)] *)
Definition nothing_to_claim (kinds : list string) (job_ids : option (list string)) : bool :=
  bool_decide (kinds = []) || bool_decide (job_ids = Some []).

(** Models [jobs/queue.py], [JobQueue.claim]. *)
Definition claim (worker : string) (kinds : list string) (seconds : Z) (candidates : nat)
    (job_ids : option (list string)) : M (option ClaimedJob) :=
  if nothing_to_claim kinds job_ids then ret None
  else transaction (
    let* db := get in
    claim_loop worker seconds (candidate_ids kinds job_ids candidates db)).

(** * Fenced updates *)

(** The row this lease still holds. *)
Definition holds (c : ClaimedJob) (j : Job) (t : Z) : bool :=
  bool_decide (state j = LEASED) && bool_decide (leased_by j = Some (c_worker c))
  && (attempt j =? c_attempt c)
  && match lease_until j with Some u => t <=? u | None => false end.

(** Models [jobs/queue.py], [JobQueue._fenced_update]. *)
Definition fenced_update (c : ClaimedJob) (f : Job -> Job) : M unit :=
  let* db := get in
  match jobs db !! c_job_id c with
  | Some j =>
      if holds c j (now db) then modify (fun db => db <| jobs ::= <[c_job_id c := f j]> |>)
      else raise LeaseLost (c_job_id c)
  | None => raise LeaseLost (c_job_id c)
  end.

(** Models [jobs/queue.py], [JobQueue.renew_lease]. *)
Definition renew_lease (c : ClaimedJob) (seconds : Z) : M unit :=
  let* db := get in
  fenced_update c (fun j => j <| lease_until := Some (now db + seconds * 1000000) |>).

Definition release (s : JobState) (err : option string) (j : Job) : Job :=
  j <| state := s |> <| lease_until := None |> <| leased_by := None |> <| last_error := err |>.

(** Models [jobs/queue.py], [JobQueue.complete]. *)
Definition complete (c : ClaimedJob) : M unit := fenced_update c (release SUCCEEDED None).

(** Models [jobs/queue.py], [JobQueue.fail]; [u] is the jitter's random draw. *)
Definition fail (p : BackoffPolicy) (u : Q) (c : ClaimedJob) (k : FailureKind) (reason0 : string) : M JobState :=
  let reason := substring 0 2000 reason0 in
  let exhausted := c_max_attempts c <=? c_attempt c in
  if bool_decide (k = TERMINAL) || exhausted then
    let err := (kind_str k ++ ": " ++ reason ++
      (if exhausted && bool_decide (k = TRANSIENT)
       then " (attempts exhausted)" else ""))%string in
    fenced_update c (release DEAD (Some err)) ;;;
    ret DEAD
  else
    let d := delay p (c_attempt c) u in
    let err := (kind_str k ++ ": " ++ reason)%string in
    let* db := get in
    fenced_update c (fun j => (release PENDING (Some err) j) <| next_run_at := now db + micros d |>) ;;;
    ret PENDING.

(** * Dead letters *)

(** [str.strip] on the ASCII spaces. *)
Definition is_space (a : ascii) : bool :=
  let n := byte_of a in (n =? 32) || ((9 <=? n) && (n <=? 13)) || ((28 <=? n) && (n <=? 31)).

Fixpoint lstrip (s : string) : string :=
  match s with
  | EmptyString => EmptyString
  | String a s' => if is_space a then lstrip s' else s
  end.

Definition strip (s : string) : string := String.rev (lstrip (String.rev (lstrip s))).

Definition state_str (s : JobState) : string :=
  match s with PENDING => "PENDING" | LEASED => "LEASED" | SUCCEEDED => "SUCCEEDED"
             | FAILED => "FAILED" | DEAD => "DEAD" end.

Definition jopt (x : option string) : json := match x with Some s => JStr s | None => JNull end.

(** Models [jobs/queue.py], [JobQueue.resume]. *)
Definition resume (id act role reason : string) : M unit :=
  if String.eqb act "" || String.eqb role "" || String.eqb (strip reason) "" then
    raise ResumeRequiresReason "resume needs actor, actor_role and a non-empty reason"
  else match of_value (E:=Role) role with
  | None => raise ResumeRequiresReason ("unknown actor_role " ++ role)
  | Some _ =>
      let* db := get in
      match jobs db !! id with
      | None => raise LookupError ("job " ++ id ++ " not found")
      | Some j =>
          if negb (bool_decide (state j = DEAD)) then
            raise ValueError ("job " ++ id ++ " is " ++ state_str (state j) ++ ", only DEAD jobs can be resumed")
          else
            let budget := max_attempts j + attempt j in
            modify (fun db => db <| jobs ::= <[id := j <| state := PENDING |> <| max_attempts := budget |>
              <| lease_until := None |> <| leased_by := None |> <| next_run_at := now db |>]> |>) ;;;
            let* _ := write_audit act role "job.resume" "jobs" id
              (Some (JObj [("state", JStr (state_str (state j))); ("attempt", JInt (attempt j));
                           ("max_attempts", JInt (max_attempts j)); ("last_error", jopt (last_error j))]%string))
              (Some (JObj [("state", JStr "PENDING"); ("attempt", JInt (attempt j)); ("max_attempts", JInt budget);
                           ("reason", JStr (strip reason)); ("previous_error", jopt (last_error j))]%string))
              None in
            ret tt
      end
  end.

(** Models [jobs/queue.py], [JobQueue.list_jobs]; an empty filter string is no filter. *)
Definition list_jobs (state_ : option JobState) (kind_ : option string) (limit : nat) (db : DB B) : list Job :=
  let ok j := match state_ with Some s => bool_decide (state j = s) | None => true end
              && (if truthy kind_ then bool_decide (kind_ = Some (kind j)) else true) in
  take limit (isort job_leb (filter (fun j => ok j) (map_to_list (jobs db)).*2)).

(** * The worker *)

(** [Worker._fail]: the failure of a lost lease is not recorded. *)
(** Models [jobs/worker.py], [Worker._fail]. *)
Definition worker_fail (p : BackoffPolicy) (u : Q) (c : ClaimedJob) (k : FailureKind) (reason : string) : M string :=
  try_except
    (let* s := transaction (fail p u c k reason) in ret (state_str s))
    (fun e => match exn_kind e with
              | LeaseLost => ret "LEASE_LOST"%string
              | _ => lift_res (Raise e)
              end).

(** The name [type(error).__name__] in a reason is the exception class, which
    the model keeps apart from the message. *)
Variable class_name : exn_class -> string.

(** Models [jobs/worker.py], [Worker._fail_exception]. *)
Definition fail_exception (p : BackoffPolicy) (u : Q) (c : ClaimedJob) (k : FailureKind) (e : exn) : M string :=
  let reason := match exn_kind e with
                | TerminalError | TransientError => exn_msg e
                | cl => (class_name cl ++ ": " ++ exn_msg e)%string
                end in
  worker_fail p u c k reason.

(** Models [jobs/worker.py], [Worker.run_one]. *)
Definition run_one (p : BackoffPolicy) (u : Q) (handlers : gmap string (ClaimedJob -> M unit)) (c : ClaimedJob)
  : M string :=
  match handlers !! c_kind c with
  | None => raise KeyError (c_kind c)
  | Some handler =>
      try_except
        (transaction (handler c ;;; complete c) ;;; ret "SUCCEEDED"%string)
        (fun e => match exn_kind e with
                  | LeaseLost => ret "LEASE_LOST"%string
                  | TerminalError => fail_exception p u c TERMINAL e
                  | TransientError => fail_exception p u c TRANSIENT e
                  | _ => fail_exception p u c TRANSIENT e
                  end)
  end.

(** Models [jobs/worker.py], [Worker.run_once]. *)
Definition run_once (p : BackoffPolicy) (u : Q) (worker : string) (lease_seconds : Z)
    (handlers : gmap string (ClaimedJob -> M unit)) : M (option string) :=
  let* job := claim worker (map_to_list handlers).*1 lease_seconds 8 None in
  match job with
  | None => ret None
  | Some c => let* s := run_one p u handlers c in ret (Some s)
  end.

(** * Effects of the statements *)

Lemma fenced_update_Ok c f (db db' : DB B) u :
  fenced_update c f db = (Ok u, db') <->
  exists j, jobs db !! c_job_id c = Some j /\ holds c j (now db) = true /\
            db' = db <| jobs ::= <[c_job_id c := f j]> |>.
Proof.
  unfold fenced_update, bind, get, modify, raise. destruct u.
  destruct (jobs db !! c_job_id c) as [j|]; [|split; [done|by intros (? & ? & _)]].
  destruct (holds c j (now db)) eqn:Hh; split.
  - intros [= <-]. by exists j.
  - intros (j' & [= <-] & _ & ->). done.
  - done.
  - intros (j' & [= <-] & Hh' & _). congruence.
Qed.

Lemma fenced_update_lost c f (db : DB B) :
  (forall j, jobs db !! c_job_id c = Some j -> holds c j (now db) = false) ->
  fenced_update c f db = (Raise (Exn LeaseLost (c_job_id c)), db).
Proof.
  intros Hh. unfold fenced_update, bind, get, raise.
  destruct (jobs db !! c_job_id c) as [j|]; [|done]. by rewrite (Hh j).
Qed.

Lemma fenced_update_Raise c f (db db' : DB B) e :
  fenced_update c f db = (Raise e, db') -> exn_kind e = LeaseLost /\ db' = db.
Proof.
  unfold fenced_update, bind, get, modify, raise.
  destruct (jobs db !! c_job_id c) as [j|]; [destruct (holds _ _ _)|]; [done|..]; by intros [= <- <-].
Qed.

Lemma lease_spec id w secs (db db' : DB B) b :
  hcg_lease_job id w secs db = (Ok b, db') <->
  if b then exists j, jobs db !! id = Some j /\ leasable j (now db) = true /\
       db' = db <| jobs ::= <[id := j <| state := LEASED |> <| leased_by := Some w |>
               <| lease_until := Some (now db + secs * 1000000) |> <| attempt ::= Z.add 1 |>]> |>
  else (forall j, jobs db !! id = Some j -> leasable j (now db) = false) /\ db' = db.
Proof.
  unfold hcg_lease_job, bind, get, modify, ret.
  destruct (jobs db !! id) as [j|]; [destruct (leasable j (now db)) eqn:Hl|]; destruct b; split.
  - intros [= <-]. by exists j.
  - by intros (? & [= <-] & _ & ->).
  - done.
  - intros [Hf ->]. specialize (Hf j eq_refl). congruence.
  - done.
  - intros (? & [= <-] & ? & _). congruence.
  - intros [= <-]. split; [|done]. by intros ? [= <-].
  - by intros [_ ->].
  - done.
  - by intros (? & ? & _).
  - by intros [= <-].
  - by intros [_ ->].
Qed.

Definition leased_job (w : string) (secs t : Z) (j : Job) : Job :=
  j <| state := LEASED |> <| leased_by := Some w |> <| lease_until := Some (t + secs * 1000000) |>
    <| attempt ::= Z.add 1 |>.

Lemma claim_loop_spec w secs ids (db db' : DB B) r :
  claim_loop w secs ids db = (Ok r, db') ->
  match r with
  | None => db' = db
  | Some c => exists id j, id ∈ ids /\ jobs db !! id = Some j /\ leasable j (now db) = true /\
                c = claimed w (leased_job w secs (now db) j) /\
                db' = db <| jobs ::= <[id := leased_job w secs (now db) j]> |>
  end.
Proof.
  revert r. induction ids as [|id ids IH]; intros r H; [by injection H as <- <-|].
  cbn [claim_loop] in H. apply bind_Ok in H as (won & db1 & Hw & H).
  apply lease_spec in Hw. destruct won.
  - destruct Hw as (j & Hj & Hl & ->). unfold bind, get in H. cbn in H.
    rewrite lookup_insert_eq in H. unfold ret in H. simplify_eq.
    exists id, j. split_and!; [apply list_elem_of_here|done|done|reflexivity|reflexivity].
  - destruct Hw as [_ ->]. apply IH in H. destruct r as [c|]; [|done].
    destruct H as (id' & j & Hin & H). exists id', j. split; [by apply list_elem_of_further|done].
Qed.

Lemma claim_loop_total w secs ids (db : DB B) : exists r db', claim_loop w secs ids db = (Ok r, db').
Proof.
  induction ids as [|id ids IH]; [by eexists _, _|]. cbn [claim_loop].
  unfold bind at 1, hcg_lease_job, bind at 1, get at 1.
  destruct (jobs db !! id) as [j|] eqn:Hj; [|exact IH].
  destruct (leasable j (now db)); [|exact IH]. unfold bind, modify, ret, get. cbn.
  rewrite lookup_insert_eq. by eexists _, _.
Qed.

Lemma claim_Ok w kinds secs n only (db db' : DB B) c :
  claim w kinds secs n only db = (Ok (Some c), db') ->
  exists id j, id ∈ candidate_ids kinds only n db /\ jobs db !! id = Some j /\ leasable j (now db) = true /\
    c = claimed w (leased_job w secs (now db) j) /\
    db' = db <| jobs ::= <[id := leased_job w secs (now db) j]> |>.
Proof.
  unfold claim. destruct (nothing_to_claim kinds only); [done|].
  intros H. apply (proj1 (transaction_Ok _ _ _ _)) in H. unfold bind, get in H. by apply claim_loop_spec in H.
Qed.

Lemma holds_not_leasable c j t : holds c j t = true -> leasable j t = false.
Proof.
  unfold holds, leasable, lease_free. intros H. apply andb_true_iff in H as [_ H].
  destruct (lease_until j) as [u|]; [|done]. apply Z.leb_le in H.
  destruct (Z.ltb_spec u t); [lia|]. by rewrite andb_false_r.
Qed.

(** * The queue's invariant *)

Record job_ok (j : Job) : Prop := {
  ok_attempt : 0 <= attempt j <= max_attempts j;
  ok_max : 1 <= max_attempts j;
  ok_leased : state j = LEASED -> is_Some (leased_by j) /\ is_Some (lease_until j);
  ok_free : state j <> LEASED -> leased_by j = None /\ lease_until j = None;
}.

(** Each audit row carries the hash of the row before it. *)
Fixpoint chained (prev : option string) (l : list AuditRow) : Prop :=
  match l with
  | [] => True
  | a :: l' =>
      prev_hash a = prev /\
      entry_hash a = audit_entry_hash prev (actor a) (action a) (entity_id a) (default (JObj []) (after a)) /\
      chained (Some (entry_hash a)) l'
  end.

Record queue_wf (db : DB B) : Prop := {
  wf_jobs : map_Forall (fun id j => job_id j = id /\ job_ok j) (jobs db);
  wf_keys : forall i1 i2 j1 j2, jobs db !! i1 = Some j1 -> jobs db !! i2 = Some j2 ->
              semantic_idempotency_key j1 = semantic_idempotency_key j2 -> i1 = i2;
  wf_audit : chained None (audit_log db);
}.

Lemma chained_snoc prev l a :
  chained prev l ->
  prev_hash a = match last l with Some x => Some (entry_hash x) | None => prev end ->
  entry_hash a = audit_entry_hash (prev_hash a) (actor a) (action a) (entity_id a) (default (JObj []) (after a)) ->
  chained prev (l ++ [a]).
Proof.
  revert prev. induction l as [|x l IH]; intros prev Hc Hp He; cbn in *.
  - split_and!; [done|by rewrite <- Hp|done].
  - destruct Hc as (Hx1 & Hx2 & Hc). split_and!; [done|done|]. apply IH; [done| |done].
    destruct l as [|y l]; [done|].
    change (last (x :: y :: l)) with (last (y :: l)) in Hp.
    destruct (last (y :: l)) eqn:Hl; [done|]. by apply last_None in Hl.
Qed.

(** One row replaced, its id and key kept. *)
Lemma queue_wf_update (db : DB B) id j j' :
  jobs db !! id = Some j -> job_id j' = job_id j ->
  semantic_idempotency_key j' = semantic_idempotency_key j -> job_ok j' ->
  queue_wf db -> queue_wf (db <| jobs ::= <[id := j']> |>).
Proof.
  intros Hj Hid Hkey Hok [Hjobs Hkeys Haud]. split; cbn; [|intros i1 i2 j1 j2 H1 H2 Hk|done].
  - apply map_Forall_insert_2; [|done]. split; [|done]. rewrite Hid. by apply (Hjobs id j Hj).
  - assert (Hback : forall i k, <[id:=j']> (jobs db) !! i = Some k ->
      exists k0, jobs db !! i = Some k0 /\ semantic_idempotency_key k0 = semantic_idempotency_key k).
    { intros i k Hi. apply lookup_insert_Some in Hi as [[<- <-]|[_ Hi]]; [by exists j|by exists k]. }
    apply Hback in H1 as (k1 & H1 & E1). apply Hback in H2 as (k2 & H2 & E2).
    eapply Hkeys; [exact H1|exact H2|congruence].
Qed.

Lemma job_with_key_Some key (db : DB B) j :
  job_with_key key db = Some j -> exists id, jobs db !! id = Some j /\ semantic_idempotency_key j = key.
Proof.
  unfold job_with_key. destruct (List.find _ _) as [[id j']|] eqn:Hf; [|done]. intros [= <-].
  apply find_some in Hf as [Hin Heq%String.eqb_eq]. exists id.
  by apply list_elem_of_In, elem_of_map_to_list in Hin.
Qed.

Lemma job_with_key_None key (db : DB B) id j :
  job_with_key key db = None -> jobs db !! id = Some j -> semantic_idempotency_key j <> key.
Proof.
  unfold job_with_key. destruct (List.find _ _) as [[? ?]|] eqn:Hf; [done|]. intros _ Hj <-.
  apply elem_of_map_to_list, list_elem_of_In in Hj. pose proof (find_none _ _ Hf _ Hj) as Hn. cbv beta in Hn.
  by rewrite String.eqb_refl in Hn.
Qed.

Lemma job_with_key_wf (db : DB B) id j :
  queue_wf db -> jobs db !! id = Some j ->
  exists j', job_with_key (semantic_idempotency_key j) db = Some j' /\ job_id j' = id.
Proof.
  intros Hwf Hj. destruct (job_with_key _ db) as [j'|] eqn:Hk.
  - exists j'. split; [done|]. apply job_with_key_Some in Hk as (id' & Hj' & Heq).
    rewrite (proj1 (wf_jobs _ Hwf id' j' Hj')). by apply (wf_keys _ Hwf id' id j' j).
  - by destruct (job_with_key_None _ _ _ _ Hk Hj).
Qed.

(** Everything but the tables of the queue. *)
Definition keeps (m : M unit) : Prop := forall db, queue_wf db -> queue_wf (m db).2.

Lemma lease_job_ok w secs t j : leasable j t = true -> job_ok j -> job_ok (leased_job w secs t j).
Proof.
  unfold leasable. rewrite !andb_true_iff, Z.ltb_lt. intros [[[_ Ha] _] _] []. split; cbn; try done; lia.
Qed.

Lemma release_ok s err j : s <> LEASED -> job_ok j -> job_ok (release s err j).
Proof. intros Hs []. by split. Qed.

Lemma fenced_keeps c f :
  (forall j, state j = LEASED -> job_ok j -> job_ok (f j)) ->
  (forall j, job_id (f j) = job_id j /\ semantic_idempotency_key (f j) = semantic_idempotency_key j) ->
  forall db : DB B, queue_wf db -> queue_wf (fenced_update c f db).2.
Proof.
  intros Hf Hid db Hwf. destruct (fenced_update c f db) as [[u|e] db'] eqn:H; cbn.
  - apply fenced_update_Ok in H as (j & Hj & Hh & ->). destruct (Hid j).
    eapply queue_wf_update; [exact Hj|done|done| |done]. apply Hf; [|by apply (wf_jobs _ Hwf _ _ Hj)].
    unfold holds in Hh. rewrite !andb_true_iff in Hh. destruct Hh as [[[Hs _] _] _].
    by apply bool_decide_eq_true in Hs.
  - by apply fenced_update_Raise in H as [_ ->].
Qed.

(** * Steps

    Every statement any process can run against the database, in any order:
    one step is one call, successful or not; [JLease] is the single lease
    statement, so that the candidate list of a claim may be stale. *)
Inductive jop :=
| JEnqueue (kind_ : string) (p : json) (key : string) (max_att : Z) (run_at : option Z) (fresh : string)
| JLease (id worker : string) (secs : Z)
| JClaim (worker : string) (kinds : list string) (secs : Z) (n : nat) (only : option (list string))
| JRenew (c : ClaimedJob) (secs : Z)
| JComplete (c : ClaimedJob)
| JFail (p : BackoffPolicy) (u : Q) (c : ClaimedJob) (k : FailureKind) (reason : string)
| JResume (id act role reason : string)
| JTick (d : Z)
| JBiz (b : B).

Definition run_jop (op : jop) : M unit :=
  match op with
  | JEnqueue k p key m r f => let* _ := enqueue k p key m r f in ret tt
  | JLease id w s => let* _ := hcg_lease_job id w s in ret tt
  | JClaim w ks s n only => let* _ := claim w ks s n only in ret tt
  | JRenew c s => renew_lease c s
  | JComplete c => complete c
  | JFail p u c k r => let* _ := fail p u c k r in ret tt
  | JResume id a ro r => resume id a ro r
  | JTick d => modify (fun db => db <| now ::= fun t => t + Z.max 0 d |>)
  | JBiz b => modify (fun db => db <| biz := b |>)
  end.

Definition jstep (db db' : DB B) : Prop := exists op, db' = (run_jop op db).2.

Lemma bind_ret_snd {A} (m : M A) db : ((let* _ := m in ret tt) db).2 = (m db).2.
Proof. unfold bind. by destruct (m db) as [[]]. Qed.

Lemma enqueue_Ok k p key m r f (db db' : DB B) id :
  enqueue k p key m r f db = (Ok id, db') ->
  key <> ""%string /\
  ((exists j, job_with_key key db = Some j /\ id = job_id j /\ db' = db) \/
   (job_with_key key db = None /\ 1 <= m /\ jobs db !! f = None /\ id = f /\
    exists j, semantic_idempotency_key j = key /\ job_id j = f /\ attempt j = 0 /\ max_attempts j = m /\
      state j = PENDING /\ leased_by j = None /\ lease_until j = None /\
      db' = db <| jobs ::= <[f := j]> |>)).
Proof.
  unfold enqueue. destruct (String.eqb_spec key "") as [|Hne]; [done|]. intros H. split; [done|].
  unfold bind at 1 in H. cbn [get] in H. destruct (job_with_key key db) as [j|] eqn:Hk.
  - left. unfold ret in H. simplify_eq. by exists j.
  - right. destruct (Z.ltb_spec m 1) as [|Hm]; [done|].
    destruct (jobs db !! f) as [x|] eqn:Hf; [rewrite bool_decide_true in H by (by eexists); done|].
    rewrite bool_decide_false in H by (intros [? [=]]). unfold bind, modify, ret in H. simplify_eq.
    split_and!; [done|done|done|done|]. eexists. split_and!; [..|reflexivity]; done.
Qed.

Lemma enqueue_keeps k p key m r f : keeps (run_jop (JEnqueue k p key m r f)).
Proof.
  intros db Hwf. cbn [run_jop]. rewrite bind_ret_snd.
  destruct (enqueue k p key m r f db) as [[id|e] db'] eqn:H.
  - apply enqueue_Ok in H as [_ [(j & _ & _ & ->)|(Hk & Hm & Hf & _ & j & Hkey & Hid & Ha & Hmax & Hs & Hb & Hu & ->)]];
      [done|]. cbn. destruct Hwf as [Hjobs Hkeys Haud]. split; cbn.
    + apply map_Forall_insert_2; [|done]. split; [done|]. split; [lia|lia|congruence|done].
    + intros i1 i2 j1 j2 H1 H2 He.
      apply lookup_insert_Some in H1 as [[<- <-]|[Hn1 H1]]; apply lookup_insert_Some in H2 as [[<- <-]|[Hn2 H2]].
      * done.
      * destruct (job_with_key_None _ _ _ _ Hk H2). congruence.
      * destruct (job_with_key_None _ _ _ _ Hk H1). congruence.
      * by eapply Hkeys.
    + done.
  - assert (db' = db); [|by subst]. revert H. unfold enqueue. destruct (String.eqb key ""); [by intros [= _ <-]|].
    unfold bind, get, ret, raise, modify. repeat case_match; by intros [= ? <-].
Qed.

Lemma lease_keeps id w s (db : DB B) : queue_wf db -> queue_wf (hcg_lease_job id w s db).2.
Proof.
  intros Hwf. destruct (hcg_lease_job id w s db) as [[b|e] db'] eqn:H.
  - apply lease_spec in H. destruct b; [|by destruct H as [_ ->]]. destruct H as (j & Hj & Hl & ->).
    eapply queue_wf_update; [exact Hj|done|done| |done].
    apply lease_job_ok; [done|]. by apply (wf_jobs _ Hwf _ _ Hj).
  - revert H. unfold hcg_lease_job, bind, get, modify, ret. repeat case_match; discriminate.
Qed.

Lemma claim_total w ks s n only (db : DB B) : exists r db', claim w ks s n only db = (Ok r, db').
Proof.
  unfold claim. destruct (nothing_to_claim ks only); [by eexists _, _|].
  unfold transaction, bind, get. destruct (claim_loop_total w s (candidate_ids ks only n db) db) as (r & db' & ->).
  by eexists _, _.
Qed.

Lemma claim_None w ks s n only (db db' : DB B) : claim w ks s n only db = (Ok None, db') -> db' = db.
Proof.
  unfold claim. destruct (nothing_to_claim ks only); [by intros [= <-]|].
  intros H. apply (proj1 (transaction_Ok _ _ _ _)) in H. unfold bind, get in H. by apply claim_loop_spec in H.
Qed.

Lemma claim_keeps w ks s n only (db : DB B) : queue_wf db -> queue_wf (claim w ks s n only db).2.
Proof.
  intros Hwf. destruct (claim_total w ks s n only db) as ([c|] & db' & H); rewrite H.
  - apply claim_Ok in H as (id & j & _ & Hj & Hl & _ & ->).
    eapply queue_wf_update; [exact Hj|done|done| |done].
    apply lease_job_ok; [done|]. by apply (wf_jobs _ Hwf _ _ Hj).
  - by apply claim_None in H as ->.
Qed.

(** [fail] is a fenced update that retries or buries the job. *)
Lemma fail_run p u c k r (db : DB B) :
  exists f s, (forall j, job_ok j -> job_ok (f j)) /\
    (forall j, job_id (f j) = job_id j /\ semantic_idempotency_key (f j) = semantic_idempotency_key j /\
               attempt (f j) = attempt j /\ state (f j) = s) /\
    s = (if bool_decide (k = TERMINAL) || (c_max_attempts c <=? c_attempt c) then DEAD else PENDING) /\
    fail p u c k r db = (fenced_update c f ;;; ret s) db.
Proof.
  unfold fail. destruct (bool_decide (k = TERMINAL) || _).
  - eexists _, _. split_and!; [| | |reflexivity]; [|done|done]. intros j. by apply release_ok.
  - unfold bind at 1. cbn [get]. eexists _, _. split_and!; [| | |reflexivity]; [|done|done].
    intros j Hj. pose proof (release_ok PENDING None j ltac:(done) Hj) as []. by split.
Qed.

Lemma fail_keeps p u c k r (db : DB B) : queue_wf db -> queue_wf (fail p u c k r db).2.
Proof.
  intros Hwf. destruct (fail_run p u c k r db) as (f & s & Hok & Hid & _ & ->).
  pose proof (fenced_keeps c f (fun j _ => Hok j) (fun j => conj (proj1 (Hid j)) (proj1 (proj2 (Hid j)))) db Hwf) as Hk.
  unfold bind. by destruct (fenced_update c f db) as [[]].
Qed.

Lemma resume_Ok id a ro r (db db' : DB B) u :
  resume id a ro r db = (Ok u, db') ->
  exists j row, jobs db !! id = Some j /\ state j = DEAD /\ strip r <> ""%string /\
    actor row = a /\ actor_role row = ro /\ entity_id row = id /\
    prev_hash row = (entry_hash <$> last (audit_log db)) /\
    entry_hash row = audit_entry_hash (prev_hash row) (actor row) (action row) (entity_id row)
                       (default (JObj []) (after row)) /\
    db' = db <| jobs ::= <[id := j <| state := PENDING |> <| max_attempts := max_attempts j + attempt j |>
              <| lease_until := None |> <| leased_by := None |> <| next_run_at := now db |>]> |>
             <| audit_log ::= fun l => l ++ [row] |>.
Proof.
  unfold resume. destruct (String.eqb a "" || String.eqb ro "" || String.eqb (strip r) "") eqn:He; [done|].
  destruct (of_value ro); [|done]. unfold bind at 1. cbn [get].
  destruct (jobs db !! id) as [j|] eqn:Hj; [|done].
  destruct (decide (state j = DEAD)) as [Hd|Hd];
    [rewrite bool_decide_true by done|rewrite bool_decide_false by done; done].
  cbn [negb]. unfold write_audit, bind, get, modify, ret. cbn. intros [= _ <-].
  apply orb_false_iff in He as [_ He%String.eqb_neq].
  eexists j, _. split_and!; [..|reflexivity]; done.
Qed.

Lemma resume_Raise id a ro r (db db' : DB B) e : resume id a ro r db = (Raise e, db') -> db' = db.
Proof.
  unfold resume. destruct (String.eqb a "" || _ || _); [by intros [= _ <-]|].
  destruct (of_value ro); [|by intros [= _ <-]]. unfold bind at 1. cbn [get].
  destruct (jobs db !! id) as [j|]; [|by intros [= _ <-]].
  destruct (negb _); [by intros [= _ <-]|]. done.
Qed.

Lemma resume_keeps id a ro r (db : DB B) : queue_wf db -> queue_wf (resume id a ro r db).2.
Proof.
  intros Hwf. destruct (resume id a ro r db) as [[u|e] db'] eqn:H; [|by apply resume_Raise in H as ->].
  apply resume_Ok in H as (j & row & Hj & Hs & _ & _ & _ & _ & Hp & He & ->).
  pose proof (proj2 (wf_jobs _ Hwf _ _ Hj)) as [Ha Hm _ _].
  destruct (queue_wf_update db id j (j <| state := PENDING |> <| max_attempts := max_attempts j + attempt j |>
    <| lease_until := None |> <| leased_by := None |> <| next_run_at := now db |>) Hj) as [Hjobs Hkeys Haud];
    [done|done|split; cbn; [lia|lia|done|done]|done|].
  split; [exact Hjobs|exact Hkeys|]. cbn in *. apply chained_snoc; [done| |done].
  rewrite Hp. by destruct (last (audit_log db)).
Qed.

Lemma run_jop_wf op (db : DB B) : queue_wf db -> queue_wf (run_jop op db).2.
Proof.
  intros Hwf. destruct op; cbn [run_jop]; rewrite ?bind_ret_snd.
  - pose proof (enqueue_keeps kind_ p key max_att run_at fresh db Hwf) as H. cbn in H.
    by rewrite bind_ret_snd in H.
  - by apply lease_keeps.
  - by apply claim_keeps.
  - unfold renew_lease, bind, get. apply fenced_keeps; [|done|done]. intros j Hs [Ha Hm Hl Hf].
    split; cbn; try done. intros _. split; [by apply Hl|by eexists].
  - apply fenced_keeps; [|done|done]. intros j _. by apply release_ok.
  - by apply fail_keeps.
  - by apply resume_keeps.
  - destruct Hwf. by split.
  - destruct Hwf. by split.
Qed.

Lemma jsteps_wf (db db' : DB B) : rtc jstep db db' -> queue_wf db -> queue_wf db'.
Proof. induction 1 as [|x y z [op ->] _ IH]; [done|]. intros Hwf. by apply IH, run_jop_wf. Qed.

(** ** Fencing tokens only grow *)

(** [db'] still has every job of [db], with the same key and a token that did
    not go down. *)
Definition advanced (db db' : DB B) : Prop :=
  forall id j, jobs db !! id = Some j ->
    exists j', jobs db' !! id = Some j' /\ attempt j <= attempt j' /\
               semantic_idempotency_key j' = semantic_idempotency_key j.

Lemma advanced_refl db : advanced db db.
Proof. intros id j Hj. exists j. by split_and!. Qed.

Lemma advanced_trans db1 db2 db3 : advanced db1 db2 -> advanced db2 db3 -> advanced db1 db3.
Proof.
  intros H12 H23 id j Hj. destruct (H12 id j Hj) as (j2 & Hj2 & Ha2 & Hk2).
  destruct (H23 id j2 Hj2) as (j3 & Hj3 & Ha3 & Hk3). exists j3. split_and!; [done|lia|congruence].
Qed.

Lemma advanced_jobs db db' : jobs db' = jobs db -> advanced db db'.
Proof. intros Heq id j Hj. exists j. rewrite Heq. by split_and!. Qed.

Lemma advanced_update (db : DB B) id j j' db' :
  jobs db !! id = Some j -> attempt j <= attempt j' ->
  semantic_idempotency_key j' = semantic_idempotency_key j ->
  jobs db' = <[id := j']> (jobs db) -> advanced db db'.
Proof.
  intros Hj Ha Hk Heq i k Hi. rewrite Heq. destruct (decide (id = i)) as [<-|Hne].
  - assert (k = j) as -> by congruence. exists j'. by rewrite lookup_insert_eq.
  - exists k. rewrite lookup_insert_ne by done. by split_and!.
Qed.

Lemma fenced_advanced c f (db : DB B) :
  (forall j, attempt (f j) = attempt j /\ semantic_idempotency_key (f j) = semantic_idempotency_key j) ->
  advanced db (fenced_update c f db).2.
Proof.
  intros Hf. destruct (fenced_update c f db) as [[u|e] db'] eqn:H; cbn.
  - apply fenced_update_Ok in H as (j & Hj & _ & ->). destruct (Hf j) as [Ha Hk].
    eapply advanced_update; [exact Hj| |exact Hk|reflexivity]. lia.
  - apply fenced_update_Raise in H as [_ ->]. apply advanced_refl.
Qed.

Lemma run_jop_advanced op (db : DB B) : advanced db (run_jop op db).2.
Proof.
  destruct op; cbn [run_jop]; rewrite ?bind_ret_snd.
  - destruct (enqueue kind_ p key max_att run_at fresh db) as [[id|e] db'] eqn:H; cbn.
    + apply enqueue_Ok in H as [_ [(j & _ & _ & ->)|(_ & _ & Hf & _ & j & _ & _ & _ & _ & _ & _ & _ & ->)]];
        [apply advanced_refl|]. intros i k Hi. exists k. cbn.
      rewrite lookup_insert_ne by congruence. by split_and!.
    + assert (db' = db) as ->; [|apply advanced_refl]. revert H. unfold enqueue.
      destruct (String.eqb key ""); [by intros [= _ <-]|].
      unfold bind, get, ret, raise, modify. repeat case_match; by intros [= ? <-].
  - destruct (hcg_lease_job id worker secs db) as [[b|e] db'] eqn:H; cbn.
    + apply lease_spec in H. destruct b; [|destruct H as [_ ->]; apply advanced_refl].
      destruct H as (j & Hj & _ & ->). eapply advanced_update; [exact Hj| | |reflexivity]; [cbn; lia|done].
    + revert H. unfold hcg_lease_job, bind, get, modify, ret. repeat case_match; discriminate.
  - destruct (claim_total worker kinds secs n only db) as ([c|] & db' & H); rewrite H; cbn.
    + apply claim_Ok in H as (id & j & _ & Hj & _ & _ & ->).
      eapply advanced_update; [exact Hj| | |reflexivity]; [cbn; lia|done].
    + apply claim_None in H as ->. apply advanced_refl.
  - unfold renew_lease, bind, get. by apply fenced_advanced.
  - by apply fenced_advanced.
  - destruct (fail_run p u c k reason db) as (f & s & _ & Hid & _ & ->).
    assert (Hk : advanced db (fenced_update c f db).2)
      by (apply fenced_advanced; intros j; by destruct (Hid j) as (_ & ? & ? & _)).
    unfold bind. by destruct (fenced_update c f db) as [[]].
  - destruct (resume id act role reason db) as [[u|e] db'] eqn:H; cbn.
    + apply resume_Ok in H as (j & row & Hj & _ & _ & _ & _ & _ & _ & _ & ->).
      eapply advanced_update; [exact Hj| | |reflexivity]; [cbn; lia|done].
    + apply resume_Raise in H as ->. apply advanced_refl.
  - by apply advanced_jobs.
  - by apply advanced_jobs.
Qed.

Lemma steps_advanced (db db' : DB B) : rtc jstep db db' -> advanced db db'.
Proof.
  induction 1 as [|x y z [op ->] _ IH]; [apply advanced_refl|].
  eapply advanced_trans; [apply run_jop_advanced|exact IH].
Qed.

(** Once the row's token has passed [c]'s, [c] holds nothing. *)
Lemma stale_fenced c f (db : DB B) j :
  jobs db !! c_job_id c = Some j -> c_attempt c < attempt j ->
  fenced_update c f db = (Raise (Exn LeaseLost (c_job_id c)), db).
Proof.
  intros Hj Ha. apply fenced_update_lost. intros j' Hj'. assert (j' = j) as -> by congruence.
  unfold holds. destruct (Z.eqb_spec (attempt j) (c_attempt c)); [lia|]. by rewrite andb_false_r.
Qed.

Lemma stale_fail p u c k r (db : DB B) j :
  jobs db !! c_job_id c = Some j -> c_attempt c < attempt j ->
  fail p u c k r db = (Raise (Exn LeaseLost (c_job_id c)), db).
Proof.
  intros Hj Ha. destruct (fail_run p u c k r db) as (f & s & _ & _ & _ & ->).
  unfold bind. by rewrite (stale_fenced c f db j Hj Ha).
Qed.

Lemma claim_wf_id w ks s n only (db db' : DB B) c :
  queue_wf db -> claim w ks s n only db = (Ok (Some c), db') ->
  exists j, jobs db !! c_job_id c = Some j /\ leasable j (now db) = true /\
    c = claimed w (leased_job w s (now db) j) /\
    db' = db <| jobs ::= <[c_job_id c := leased_job w s (now db) j]> |>.
Proof.
  intros Hwf (id & j & _ & Hj & Hl & -> & ->)%claim_Ok.
  pose proof (proj1 (wf_jobs _ Hwf id j Hj)) as Hid. exists j. cbn. rewrite Hid. by split_and!.
Qed.

(** ** Candidates *)

Lemma job_leb_total a b : job_leb a b = false -> job_leb b a = true.
Proof.
  unfold job_leb. rewrite (Z.eqb_sym (next_run_at b)).
  destruct (Z.eqb_spec (next_run_at a) (next_run_at b)); [apply str_leb_total|].
  rewrite Z.leb_gt, Z.leb_le. lia.
Qed.

Lemma job_leb_trans a b c : job_leb a b = true -> job_leb b c = true -> job_leb a c = true.
Proof.
  unfold job_leb.
  destruct (Z.eqb_spec (next_run_at a) (next_run_at b)), (Z.eqb_spec (next_run_at b) (next_run_at c)),
    (Z.eqb_spec (next_run_at a) (next_run_at c)); rewrite ?Z.leb_le; try (intros; lia).
  apply str_leb_trans.
Qed.

Lemma candidate_spec kinds only n (db : DB B) id :
  queue_wf db -> id ∈ candidate_ids kinds only n db ->
  exists j, jobs db !! id = Some j /\ eligible kinds only db j = true.
Proof.
  intros Hwf Hin. unfold candidate_ids in Hin.
  assert (Hin2 : id ∈ map job_id (isort job_leb
    (filter (fun j => eligible kinds only db j) (map_to_list (jobs db)).*2))).
  { eapply subseteq_take. exact Hin. }
  apply list_elem_of_In, in_map_iff in Hin2 as (j & <- & Hj). apply list_elem_of_In in Hj.
  rewrite isort_perm in Hj. apply list_elem_of_filter in Hj as [He Hj].
  apply list_elem_of_fmap in Hj as ([i k] & -> & Hj). apply elem_of_map_to_list in Hj. cbn in *.
  rewrite (proj1 (wf_jobs _ Hwf i k Hj)). exists k. split; [done|]. by apply Is_true_eq_true.
Qed.

Lemma candidate_first kinds only n (db : DB B) id j :
  queue_wf db -> jobs db !! id = Some j -> eligible kinds only db j = true ->
  exists id1 j1 ids, candidate_ids kinds only (S n) db = id1 :: ids /\ jobs db !! id1 = Some j1 /\
    eligible kinds only db j1 = true /\ job_leb j1 j = true.
Proof.
  intros Hwf Hj He. unfold candidate_ids.
  set (l := filter (fun j => eligible kinds only db j) (map_to_list (jobs db)).*2).
  assert (Hin : j ∈ isort job_leb l).
  { rewrite isort_perm. apply list_elem_of_filter. split; [by rewrite He|].
    apply list_elem_of_fmap. exists (id, j). split; [done|]. by apply elem_of_map_to_list. }
  pose proof (isort_sorted job_leb job_leb_total job_leb_trans l) as Hs.
  destruct (isort job_leb l) as [|j1 l1] eqn:Hl; [by apply elem_of_nil in Hin|].
  assert (Hj1 : j1 ∈ isort job_leb l) by (rewrite Hl; apply list_elem_of_here).
  rewrite isort_perm in Hj1. apply list_elem_of_filter in Hj1 as [He1 Hj1].
  apply list_elem_of_fmap in Hj1 as ([i k] & -> & Hk). apply elem_of_map_to_list in Hk. cbn in *.
  exists i, k, (take n (map job_id l1)).
  split_and!; [by rewrite (proj1 (wf_jobs _ Hwf i k Hk))|done|by apply Is_true_eq_true|].
  apply StronglySorted_inv in Hs as [_ Hs]. apply elem_of_cons in Hin as [->|Hin].
  - unfold job_leb. rewrite Z.eqb_refl. apply str_leb_refl.
  - rewrite Forall_forall in Hs. by apply Hs.
Qed.

(** * Properties of the queue *)

(** From any well-formed database, whatever calls of whatever processes run
    in whatever order, returning or raising: attempts never pass their budget,
    a row is leased exactly when it names a holder and a deadline, no two jobs
    share a semantic key, and the audit log stays hash-chained. *)
Theorem queue_wf_reachable (db db' : DB B) :
  queue_wf db -> rtc jstep db db' ->
  map_Forall (fun id j => job_id j = id /\ job_ok j) (jobs db') /\
  (forall i1 i2 j1 j2, jobs db' !! i1 = Some j1 -> jobs db' !! i2 = Some j2 ->
     semantic_idempotency_key j1 = semantic_idempotency_key j2 -> i1 = i2) /\
  chained None (audit_log db').
Proof. intros Hwf Hr. by destruct (jsteps_wf _ _ Hr Hwf). Qed.

(** C8: Fencing.  Once a job has been claimed a second time (by any worker, the
    same name included, with any calls in between), the first claim's token is
    below the second's, and for ever after completing, failing or renewing
    under the first claim raises LeaseLost and changes nothing. *)
Theorem fencing (db0 db1 db2 db3 db4 : DB B) w1 ks1 s1 n1 o1 w2 ks2 s2 n2 o2 c1 c2 :
  queue_wf db0 ->
  claim w1 ks1 s1 n1 o1 db0 = (Ok (Some c1), db1) -> rtc jstep db1 db2 ->
  claim w2 ks2 s2 n2 o2 db2 = (Ok (Some c2), db3) -> c_job_id c2 = c_job_id c1 ->
  rtc jstep db3 db4 ->
  c_attempt c1 < c_attempt c2 /\
  complete c1 db4 = (Raise (Exn LeaseLost (c_job_id c1)), db4) /\
  (forall secs, renew_lease c1 secs db4 = (Raise (Exn LeaseLost (c_job_id c1)), db4)) /\
  (forall p u k r, fail p u c1 k r db4 = (Raise (Exn LeaseLost (c_job_id c1)), db4)).
Proof.
  intros Hwf0 H1 H12 H2 Hid H34.
  pose proof (claim_keeps w1 ks1 s1 n1 o1 db0 Hwf0) as Hwf1. rewrite H1 in Hwf1. cbn in Hwf1.
  pose proof (jsteps_wf _ _ H12 Hwf1) as Hwf2.
  destruct (claim_wf_id _ _ _ _ _ _ _ _ Hwf0 H1) as (j1 & Hj1 & _ & Hc1 & Hdb1).
  destruct (claim_wf_id _ _ _ _ _ _ _ _ Hwf2 H2) as (j2 & Hj2 & _ & Hc2 & Hdb3).
  assert (Ha1 : c_attempt c1 = attempt (leased_job w1 s1 (now db0) j1)) by (by rewrite Hc1 at 1).
  assert (Ha2 : c_attempt c2 = 1 + attempt j2) by (by rewrite Hc2 at 1).
  assert (Hlk1 : jobs db1 !! c_job_id c1 = Some (leased_job w1 s1 (now db0) j1))
    by (rewrite Hdb1; cbn; apply lookup_insert_eq).
  destruct (steps_advanced _ _ H12 _ _ Hlk1) as (j2' & Hj2' & Hle & _).
  rewrite <- Hid in Hj2'. assert (j2' = j2) as -> by congruence.
  assert (Hlk3 : jobs db3 !! c_job_id c2 = Some (leased_job w2 s2 (now db2) j2))
    by (rewrite Hdb3; cbn; apply lookup_insert_eq).
  destruct (steps_advanced _ _ H34 _ _ Hlk3) as (j4 & Hj4 & Hle4 & _). cbn in Hle4. rewrite Hid in Hj4.
  assert (Hstale : c_attempt c1 < attempt j4) by lia.
  split; [lia|]. split_and!; [by eapply stale_fenced| |].
  - intros secs. unfold renew_lease, bind at 1. cbn [get]. by eapply stale_fenced.
  - intros. by eapply stale_fail.
Qed.

(** Exclusive leases: while a claim still holds its row, no worker's claim
    returns that job; a claim only takes a job that is free, runnable now and
    within its retry budget, of one of the kinds asked for. *)
Theorem exclusive_lease (db db' : DB B) w ks s n only c j held :
  queue_wf db -> claim w ks s n only db = (Ok (Some c), db') ->
  jobs db !! c_job_id held = Some j -> holds held j (now db) = true ->
  c_job_id c <> c_job_id held /\ jobs db' !! c_job_id held = Some j /\
  exists jc, jobs db !! c_job_id c = Some jc /\ lease_free jc (now db) = true /\
    next_run_at jc <= now db /\ attempt jc < max_attempts jc /\ mem_str (kind jc) ks = true /\
    c_attempt c = attempt jc + 1.
Proof.
  intros Hwf H Hj Hh. destruct (claim_Ok _ _ _ _ _ _ _ _ H) as (id & jc & Hin & Hjc & Hl & Hc & Hdb).
  apply candidate_spec in Hin as (jc' & Hjc' & He); [|done]. assert (jc' = jc) as -> by congruence.
  assert (Hid : c_job_id c = id) by (rewrite Hc; cbn; by apply (wf_jobs _ Hwf id jc)).
  assert (Hne : id <> c_job_id held).
  { intros ->. assert (jc = j) as -> by congruence. apply holds_not_leasable in Hh. congruence. }
  rewrite Hid. split_and!; [done| |].
  - rewrite Hdb. cbn. by rewrite lookup_insert_ne.
  - exists jc. unfold eligible, leasable in He. rewrite !andb_true_iff in He.
    destruct He as [[[[[_ Ha] Hr] Hf] Hk] _]. apply Z.ltb_lt in Ha. apply Z.leb_le in Hr.
    split_and!; try done. rewrite Hc. cbn. lia.
Qed.

(** C10: Progress: if some job of the kinds asked for is runnable, a claim leases
    one, and the one it leases is first in the order (next_run_at, job_id). *)
Theorem claim_progress (db : DB B) w ks s n only id j :
  queue_wf db -> jobs db !! id = Some j -> eligible ks only db j = true ->
  exists c db' j1, claim w ks s (S n) only db = (Ok (Some c), db') /\
    jobs db !! c_job_id c = Some j1 /\ job_leb j1 j = true /\
    c = claimed w (leased_job w s (now db) j1).
Proof.
  intros Hwf Hj He. destruct (candidate_first ks only n db id j Hwf Hj He) as (id1 & j1 & ids & Hc & Hj1 & He1 & Hle).
  assert (Hn : nothing_to_claim ks only = false).
  { unfold nothing_to_claim, eligible in *. apply orb_false_iff. split; apply bool_decide_eq_false.
    - intros ->. cbn in He1. rewrite andb_false_r in He1. done.
    - intros ->. cbn in He1. rewrite andb_false_r in He1. done. }
  unfold eligible in He1. apply andb_true_iff in He1 as [[He1 _]%andb_true_iff _].
  eexists _, _, j1. unfold claim. rewrite Hn. unfold transaction, bind, get. rewrite Hc. cbn [claim_loop].
  unfold hcg_lease_job, bind, get. rewrite Hj1, He1. unfold modify, ret. cbn. rewrite lookup_insert_eq.
  split_and!; [reflexivity| |done|reflexivity]. cbn. by rewrite (proj1 (wf_jobs _ Hwf id1 j1 Hj1)).
Qed.

(** Enqueueing is idempotent in the semantic key for ever: after a
    successful enqueue and any calls by anyone, enqueueing the same key again,
    with whatever payload, returns the same job id and changes nothing. *)
Theorem enqueue_idempotent (db0 db1 db2 : DB B) k p m r f k' p' m' r' f' key id :
  queue_wf db0 -> enqueue k p key m r f db0 = (Ok id, db1) -> rtc jstep db1 db2 ->
  enqueue k' p' key m' r' f' db2 = (Ok id, db2).
Proof.
  intros Hwf0 H H12. pose proof (enqueue_keeps k p key m r f db0 Hwf0) as Hwf1. cbn in Hwf1.
  rewrite bind_ret_snd, H in Hwf1. cbn in Hwf1. pose proof (jsteps_wf _ _ H12 Hwf1) as Hwf2.
  assert (Hin : key <> ""%string /\ exists j, jobs db1 !! id = Some j /\ semantic_idempotency_key j = key).
  { destruct (enqueue_Ok _ _ _ _ _ _ _ _ _ H) as
      [Hne [(j & Hk & -> & ->)|(_ & _ & _ & -> & j & Hkey & _ & _ & _ & _ & _ & _ & ->)]]; (split; [done|]).
    - destruct (job_with_key_Some _ _ _ Hk) as (i & Hj & Hkey).
      rewrite (proj1 (wf_jobs _ Hwf0 i j Hj)). by exists j.
    - exists j. cbn. by rewrite lookup_insert_eq. }
  destruct Hin as (Hne & j & Hj & Hkey). destruct (steps_advanced _ _ H12 _ _ Hj) as (j2 & Hj2 & _ & Hk2).
  destruct (job_with_key_wf db2 id j2 Hwf2 Hj2) as (j' & Hw & Hid). rewrite Hk2, Hkey in Hw.
  unfold enqueue. apply String.eqb_neq in Hne. rewrite Hne. unfold bind, get. rewrite Hw. unfold ret. by rewrite Hid.
Qed.

Lemma worker_fail_spec p u c k r (db : DB B) :
  exists s db', worker_fail p u c k r db = (Ok s, db') /\ s <> "SUCCEEDED"%string /\
    biz db' = biz db /\ audit_log db' = audit_log db /\
    (db' = db \/ exists j f, jobs db !! c_job_id c = Some j /\ holds c j (now db) = true /\
                  jobs db' = <[c_job_id c := f]> (jobs db) /\ (state f = PENDING \/ state f = DEAD)).
Proof.
  destruct (fail_run p u c k r db) as (f & st & _ & Hid & Hst & Hrun).
  unfold worker_fail, try_except, bind at 1, transaction. rewrite Hrun. unfold bind at 1.
  destruct (fenced_update c f db) as [[[]|e] db'] eqn:Hf.
  - unfold ret. eexists _, _. split; [reflexivity|].
    apply fenced_update_Ok in Hf as (j & Hj & Hh & ->). destruct (Hid j) as (_ & _ & _ & Hs).
    split; [rewrite Hst; by destruct (_ || _)|]. split_and!; [done|done|]. right.
    exists j, (f j). split_and!; [done|done|done|]. rewrite Hs, Hst. destruct (_ || _); auto.
  - apply fenced_update_Raise in Hf as [He ->]. rewrite He.
    eexists _, _. split; [reflexivity|]. split_and!; [done|done|done|by left].
Qed.

(** C9: The worker's atomicity, for any handler: [run_one] always returns a job
    state (no failure escapes).  "SUCCEEDED" means the handler returned, the
    lease was still held, and its effect was committed together with the
    completion; any other result means every write of the handler was rolled
    back, the business tables and the audit log are as they were, and at most
    the job's own row changed, to PENDING or DEAD, under a lease still held. *)
Theorem run_one_atomic p u (hs : gmap string (ClaimedJob -> M unit)) (h : ClaimedJob -> M unit) c (db : DB B) :
  hs !! c_kind c = Some h ->
  exists s db', run_one p u hs c db = (Ok s, db') /\
  (s = "SUCCEEDED"%string ->
     exists dbh j, h c db = (Ok tt, dbh) /\ jobs dbh !! c_job_id c = Some j /\
       holds c j (now dbh) = true /\
       db' = dbh <| jobs ::= <[c_job_id c := release SUCCEEDED None j]> |>) /\
  (s <> "SUCCEEDED"%string ->
     biz db' = biz db /\ audit_log db' = audit_log db /\
     (db' = db \/ exists j f, jobs db !! c_job_id c = Some j /\ holds c j (now db) = true /\
                   jobs db' = <[c_job_id c := f]> (jobs db) /\ (state f = PENDING \/ state f = DEAD))).
Proof.
  intros Hh. unfold run_one. rewrite Hh. unfold try_except, bind at 1, transaction, bind at 1.
  assert (Hfail : forall k e, exists s db', fail_exception p u c k e db = (Ok s, db') /\ s <> "SUCCEEDED"%string /\
    biz db' = biz db /\ audit_log db' = audit_log db /\
    (db' = db \/ exists j f, jobs db !! c_job_id c = Some j /\ holds c j (now db) = true /\
                   jobs db' = <[c_job_id c := f]> (jobs db) /\ (state f = PENDING \/ state f = DEAD)))
    by (intros k e; apply worker_fail_spec).
  assert (Hbad : forall e, exists s db', match exn_kind e with
      | LeaseLost => ret "LEASE_LOST"%string
      | TerminalError => fail_exception p u c TERMINAL e
      | TransientError => fail_exception p u c TRANSIENT e
      | _ => fail_exception p u c TRANSIENT e
      end db = (Ok s, db') /\ s <> "SUCCEEDED"%string /\
    biz db' = biz db /\ audit_log db' = audit_log db /\
    (db' = db \/ exists j f, jobs db !! c_job_id c = Some j /\ holds c j (now db) = true /\
                   jobs db' = <[c_job_id c := f]> (jobs db) /\ (state f = PENDING \/ state f = DEAD))).
  { intros e. destruct (exn_kind e); try apply Hfail.
    eexists _, _. split; [reflexivity|]. split_and!; [done|done|done|by left]. }
  destruct (h c db) as [[[]|e] dbh] eqn:Hrun.
  - destruct (complete c dbh) as [[[]|e] db'] eqn:Hc.
    + unfold ret. eexists _, _. split; [reflexivity|]. split; [intros _|done].
      apply fenced_update_Ok in Hc as (j & Hj & Hhold & ->). by exists dbh, j.
    + destruct (Hbad e) as (s & db2 & Heq & Hne & Hrest). exists s, db2. split; [exact Heq|]. by split.
  - destruct (Hbad e) as (s & db2 & Heq & Hne & Hrest). exists s, db2. split; [exact Heq|]. by split.
Qed.

(** Only a dead job is resumed, by a known role and with a reason; the token
    is kept and the job gets at least its old budget of further attempts. *)
Theorem resume_budget id a ro r (db db' : DB B) u :
  queue_wf db -> resume id a ro r db = (Ok u, db') ->
  exists j j' row, jobs db !! id = Some j /\ state j = DEAD /\ strip r <> ""%string /\
    jobs db' !! id = Some j' /\ state j' = PENDING /\ attempt j' = attempt j /\
    max_attempts j' - attempt j' = max_attempts j /\ leasable j' (now db') = true /\
    audit_log db' = audit_log db ++ [row] /\ actor row = a /\ actor_role row = ro /\
    prev_hash row = (entry_hash <$> last (audit_log db)).
Proof.
  intros Hwf (j & row & Hj & Hs & Hr & Ha & Hro & _ & Hp & _ & ->)%resume_Ok.
  pose proof (proj2 (wf_jobs _ Hwf id j Hj)) as [Hb Hm _ _].
  exists j. eexists. exists row. cbn. rewrite lookup_insert_eq.
  split_and!; [done|done|done|reflexivity|done|done|cbn; lia| |done|done|done|done].
  unfold leasable, lease_free. cbn. rewrite Z.leb_refl, !andb_true_r.
  apply Z.ltb_lt. lia.
Qed.
End WithBiz.

(** * Backoff *)

Definition policy_ok (p : BackoffPolicy) : Prop :=
  (0 <= base_seconds p /\ 0 <= factor p /\ 0 <= cap_seconds p /\ 0 <= jitter_fraction p <= 1)%Q.

Lemma raw_delay_nonneg p a : policy_ok p -> (0 <= raw_delay p a)%Q.
Proof.
  intros (Hb & Hf & Hc & _). unfold raw_delay. apply Q.min_glb; [done|].
  apply Qmult_le_0_compat; [done|]. by apply Qpower_pos.
Qed.

(** The retry delay stays within the jitter of the exponential backoff and
    is never negative or above the cap plus its jitter, for any draw of the
    generator and any attempt. *)
Theorem delay_bounds p a u :
  policy_ok p -> (0 <= u <= 1)%Q ->
  (0 <= delay p a u /\
   raw_delay p a * (1 - jitter_fraction p) <= delay p a u /\
   delay p a u <= raw_delay p a * (1 + jitter_fraction p) /\
   delay p a u <= cap_seconds p * (1 + jitter_fraction p))%Q.
Proof.
  intros Hp Hu. pose proof (raw_delay_nonneg p a Hp) as Hr. destruct Hp as (Hb & Hf & Hc & Hj0 & Hj1).
  assert (Hcap : (raw_delay p a <= cap_seconds p)%Q) by apply Q.le_min_l.
  unfold delay. set (raw := raw_delay p a) in *. set (j := jitter_fraction p) in *. cbv zeta.
  assert (Hju : (0 <= raw * j)%Q) by (by apply Qmult_le_0_compat).
  assert (Hlo : (raw * (1 - j) <= raw + uniform (- (raw * j)) (raw * j) u)%Q)
    by (unfold uniform; destruct Hu; nra).
  assert (Hhi : (raw + uniform (- (raw * j)) (raw * j) u <= raw * (1 + j))%Q)
    by (unfold uniform; destruct Hu; nra).
  assert (0 <= raw * (1 + j))%Q by nra.
  split; [apply Q.le_max_l|]. split; [|split].
  - eapply Qle_trans; [exact Hlo|apply Q.le_max_r].
  - by apply Q.max_lub.
  - apply Q.max_lub; nra.
Qed.

(** * ULIDs *)

Definition crockford_value (a : ascii) : Z :=
  match String.index 0 (String a EmptyString) CROCKFORD with Some n => Z.of_nat n | None => 0 end.

Definition ulid_step (acc : Z) (a : ascii) : Z := acc * 32 + crockford_value a.

Fixpoint ulid_decode (acc : Z) (s : string) : Z :=
  match s with
  | EmptyString => acc
  | String a s' => ulid_decode (ulid_step acc a) s'
  end.

Lemma crockford_value_digit n : 0 <= n < 32 -> crockford_value (crockford_digit n) = n.
Proof.
  intros Hn. assert (Hall : Forall (fun k => crockford_value (crockford_digit (Z.of_nat k)) = Z.of_nat k) (seq 0 32))
    by (by repeat constructor).
  rewrite Forall_forall in Hall. specialize (Hall (Z.to_nat n)).
  rewrite Z2Nat.id in Hall by lia. apply Hall. apply elem_of_seq. lia.
Qed.

Lemma ulid_digits_decode n v acc a :
  0 <= v -> ulid_decode a (ulid_digits n v acc) = ulid_decode (a * 32 ^ Z.of_nat n + v mod 32 ^ Z.of_nat n) acc.
Proof.
  revert v acc a. induction n as [|n IH]; intros v acc a Hv.
  - cbn [ulid_digits]. rewrite Z.mod_1_r. f_equal. lia.
  - cbn [ulid_digits]. rewrite IH by (by apply Z.shiftr_nonneg). cbn [ulid_decode]. f_equal.
    unfold ulid_step. change 31 with (Z.ones 5). rewrite (Z.land_ones v 5) by lia. rewrite crockford_value_digit by (apply Z.mod_pos_bound; lia).
    rewrite Z.shiftr_div_pow2 by lia. change (2 ^ 5) with 32.
    rewrite Nat2Z.inj_succ, Z.pow_succ_r by lia.
    rewrite Z.rem_mul_r by (try apply Z.pow_nonzero; lia). ring.
Qed.

Lemma ulid_digits_length n v acc : String.length (ulid_digits n v acc) = (n + String.length acc)%nat.
Proof. revert v acc. induction n as [|n IH]; intros v acc; cbn [ulid_digits]; [done|]. rewrite IH. cbn. lia. Qed.

(** A ULID has 26 characters and its base-32 value is the 48-bit time over
    the 80 random bits, so distinct (time, randomness) pairs give distinct ids. *)
Theorem ulid_roundtrip ts rand :
  0 <= ts < 2 ^ 48 -> 0 <= rand < 2 ^ 80 ->
  String.length (new_ulid ts rand) = 26%nat /\
  ulid_decode 0 (new_ulid ts rand) / 2 ^ 80 = ts /\
  ulid_decode 0 (new_ulid ts rand) mod 2 ^ 80 = rand.
Proof.
  intros Hts Hr. unfold new_ulid.
  rewrite lor_shiftl by lia. rewrite ulid_digits_length, ulid_digits_decode by nia. cbn [ulid_decode].
  assert (Hp : 2 ^ 48 * 2 ^ 80 <= 32 ^ Z.of_nat 26) by (vm_compute; discriminate).
  rewrite Z.mod_small by nia.
  split; [done|]. rewrite Z.mul_0_l, Z.add_0_l.
  split.
  - rewrite Z.div_add_l, (Z.div_small rand) by lia. lia.
  - rewrite Z.add_comm, Z.mod_add by lia. by apply Z.mod_small.
Qed.

(** * Witnesses

    A queue with three jobs, two workers and one business number. *)

Definition db_empty : DB Z :=
  {| jobs := ∅; audit_log := []; now := 1000000; biz := 0 |}.

Lemma db_empty_wf : queue_wf db_empty.
Proof. split; [apply map_Forall_empty|intros i1 i2 j1 j2 H; cbn in H; by rewrite lookup_empty in H|done]. Qed.

Definition pay0 : json := JObj [("n", JInt 1)]%string.

Definition db_one : DB Z := (enqueue "PROOF_SUBMIT" pay0 "k1" 3 None "J1" db_empty).2.

Lemma db_one_steps : rtc jstep db_empty db_one.
Proof.
  eapply rtc_l; [|constructor]. exists (JEnqueue "PROOF_SUBMIT" pay0 "k1" 3 None "J1").
  cbn [run_jop]. by rewrite bind_ret_snd.
Qed.

Lemma db_one_wf : queue_wf db_one.
Proof. exact (jsteps_wf _ _ db_one_steps db_empty_wf). Qed.

Definition kinds0 : list string := ["PROOF_SUBMIT"]%string.
Definition db_claim1 : DB Z := (claim "w1" kinds0 60 8 None db_one).2.
(* 61 seconds later *)
Definition db_later : DB Z := (run_jop (JTick 61000000) db_claim1).2.
Definition db_claim2 : DB Z := (claim "w1" kinds0 60 8 None db_later).2.

Definition claim_of (db : DB Z) : ClaimedJob :=
  match (claim "w1" kinds0 60 8 None db).1 with
  | Ok (Some c) => c
  | _ => {| c_job_id := ""; c_kind := ""; c_payload := JNull; c_key := ""; c_attempt := 0;
            c_max_attempts := 0; c_worker := ""; c_lease_until := None |}
  end.

Lemma claim1_run : claim "w1" kinds0 60 8 None db_one = (Ok (Some (claim_of db_one)), db_claim1).
Proof. unfold db_claim1. apply run_Ok. vm_compute. reflexivity. Qed.

Lemma claim2_run : claim "w1" kinds0 60 8 None db_later = (Ok (Some (claim_of db_later)), db_claim2).
Proof. unfold db_claim2. apply run_Ok. vm_compute. reflexivity. Qed.

Lemma later_steps : rtc jstep db_claim1 db_later.
Proof. eapply rtc_l; [|constructor]. by exists (JTick 61000000). Qed.

Lemma db_later_wf : queue_wf db_later.
Proof.
  apply (jsteps_wf _ _ later_steps). pose proof (claim_keeps "w1" kinds0 60 8 None db_one db_one_wf) as H.
  exact H.
Qed.

Lemma queue_wf_reachable_witness : chained None (audit_log db_one) /\ rtc jstep db_empty db_one.
Proof.
  split; [|exact db_one_steps].
  exact (proj2 (proj2 (queue_wf_reachable db_empty db_one db_empty_wf db_one_steps))).
Defined.

Lemma fencing_witness :
  c_attempt (claim_of db_one) = 1 /\ c_attempt (claim_of db_later) = 2 /\
  c_worker (claim_of db_one) = c_worker (claim_of db_later) /\
  complete (claim_of db_one) db_claim2 = (Raise (Exn LeaseLost "J1"), db_claim2).
Proof.
  split_and!; [vm_compute; reflexivity..|].
  assert (Hid : c_job_id (claim_of db_later) = c_job_id (claim_of db_one)) by (vm_compute; reflexivity).
  assert (H1 : c_job_id (claim_of db_one) = "J1"%string) by (vm_compute; reflexivity).
  destruct (fencing db_one db_claim1 db_later db_claim2 db_claim2 _ _ _ _ _ _ _ _ _ _ _ _
    db_one_wf claim1_run later_steps claim2_run Hid (rtc_refl _ _)) as (_ & Hc & _).
  rewrite H1 in Hc. exact Hc.
Defined.

(* two jobs, the first leased *)
Definition db_two : DB Z := (enqueue "PROOF_SUBMIT" pay0 "k2" 3 (Some 0) "J2" db_claim1).2.
Definition db_two_claim : DB Z := (claim "w1" kinds0 60 8 None db_two).2.

Lemma db_two_wf : queue_wf db_two.
Proof.
  pose proof (claim_keeps "w1" kinds0 60 8 None db_one db_one_wf) as H.
  pose proof (enqueue_keeps "PROOF_SUBMIT" pay0 "k2" 3 (Some 0) "J2" _ H) as H2.
  cbn [run_jop] in H2. rewrite bind_ret_snd in H2. exact H2.
Qed.

Lemma exclusive_lease_witness :
  c_job_id (claim_of db_two) = "J2"%string /\ c_job_id (claim_of db_two) <> c_job_id (claim_of db_one).
Proof.
  split; [vm_compute; reflexivity|].
  assert (H : claim "w1" kinds0 60 8 None db_two = (Ok (Some (claim_of db_two)), db_two_claim))
    by (unfold db_two_claim; apply run_Ok; vm_compute; reflexivity).
  assert (Hh : match jobs db_two !! c_job_id (claim_of db_one) with
               | Some j => holds (claim_of db_one) j (now db_two)
               | None => false
               end = true) by (vm_compute; reflexivity).
  destruct (jobs db_two !! c_job_id (claim_of db_one)) as [j|] eqn:Hj; [|discriminate Hh].
  exact (proj1 (exclusive_lease db_two db_two_claim "w1" kinds0 60 8 None (claim_of db_two) j (claim_of db_one)
    db_two_wf H Hj Hh)).
Defined.

Lemma claim_progress_witness :
  exists c db', claim "w9" kinds0 60 1 None db_one = (Ok (Some c), db') /\ c_job_id c = "J1"%string.
Proof.
  assert (He : match jobs db_one !! "J1"%string with
               | Some j => eligible kinds0 None db_one j
               | None => false
               end = true) by (vm_compute; reflexivity).
  destruct (jobs db_one !! "J1"%string) as [j|] eqn:Hj; [|discriminate He].
  destruct (claim_progress db_one "w9" kinds0 60 0 None "J1" j db_one_wf Hj He) as (c & db' & j1 & Hc & _).
  exists c, db'. split; [exact Hc|]. apply (f_equal fst) in Hc. vm_compute in Hc. by injection Hc as <-.
Defined.

Lemma enqueue_idempotent_witness :
  enqueue "OTHER" JNull "k1" 9 (Some 5) "J9" db_claim1 = (Ok "J1"%string, db_claim1).
Proof.
  assert (H : enqueue "PROOF_SUBMIT" pay0 "k1" 3 None "J1" db_empty = (Ok "J1"%string, db_one))
    by (unfold db_one; apply run_Ok; vm_compute; reflexivity).
  apply (enqueue_idempotent db_empty db_one db_claim1 _ _ _ _ _ _ _ _ _ _ _ _ db_empty_wf H).
  eapply rtc_l; [|constructor]. exists (JClaim "w1" kinds0 60 8 None). cbn [run_jop]. by rewrite bind_ret_snd.
Defined.

Definition names0 (k : exn_class) : string := "Error".
Definition handler0 : ClaimedJob -> PyM (DB Z) unit :=
  fun _ => modify (fun db => db <| biz ::= Z.add 7 |>).
Definition handler_bad : ClaimedJob -> PyM (DB Z) unit :=
  fun _ => modify (fun db => db <| biz ::= Z.add 7 |>) ;;; raise TransientError "not ready".

Lemma run_one_atomic_witness :
  exists s db', run_one names0 default_backoff 0 {[ "PROOF_SUBMIT"%string := handler_bad ]} (claim_of db_one) db_claim1
                = (Ok s, db') /\ s = "PENDING"%string /\ biz db' = 0.
Proof.
  assert (Hk : c_kind (claim_of db_one) = "PROOF_SUBMIT"%string) by (vm_compute; reflexivity).
  destruct (run_one_atomic names0 default_backoff 0 {[ "PROOF_SUBMIT"%string := handler_bad ]} handler_bad
    (claim_of db_one) db_claim1) as (s & db' & Hrun & _ & Hbad); [by rewrite Hk, lookup_singleton_eq|].
  exists s, db'. split; [exact Hrun|].
  assert (Hs : s = "PENDING"%string).
  { apply (f_equal fst) in Hrun. vm_compute in Hrun. by injection Hrun as <-. }
  split; [exact Hs|]. destruct Hbad as (Hb & _); [by rewrite Hs|]. rewrite Hb. vm_compute. reflexivity.
Defined.

Definition db_dead : DB Z := (fail default_backoff 0 (claim_of db_one) TERMINAL "unsupported" db_claim1).2.
Definition db_resumed : DB Z := (resume "J1" "alice" "operator" " fixed upstream " db_dead).2.

Lemma resume_budget_witness :
  exists j', jobs db_resumed !! "J1"%string = Some j' /\ attempt j' = 1 /\ max_attempts j' - attempt j' = 3.
Proof.
  assert (H : resume "J1" "alice" "operator" " fixed upstream " db_dead = (Ok tt, db_resumed))
    by (unfold db_resumed; apply run_Ok; vm_compute; reflexivity).
  assert (Hwf : queue_wf db_dead).
  { apply fail_keeps. exact (claim_keeps "w1" kinds0 60 8 None db_one db_one_wf). }
  destruct (resume_budget "J1" "alice" "operator" " fixed upstream " db_dead db_resumed tt Hwf H)
    as (j & j' & row & Hj & _ & _ & Hj' & _ & Ha & Hm & _).
  exists j'. split; [exact Hj'|]. vm_compute in Hj. injection Hj as <-. cbn in *. split; [done|lia].
Defined.

Lemma delay_bounds_witness : (0 <= delay default_backoff 3 (1 # 2) <= 600 * (1 + (1 # 5)))%Q.
Proof.
  destruct (delay_bounds default_backoff 3 (1 # 2)) as (H1 & _ & _ & H2).
  - unfold policy_ok, default_backoff; cbn. repeat split; unfold Qle; cbn; lia.
  - split; unfold Qle; cbn; lia.
  - by split.
Defined.

Lemma ulid_roundtrip_witness :
  new_ulid 1700000000000 12345 = "01HF7YAT0000000000000000C1S"%string \/
  ulid_decode 0 (new_ulid 1700000000000 12345) / 2 ^ 80 = 1700000000000.
Proof. right. apply (ulid_roundtrip 1700000000000 12345); lia. Defined.
End Jobs.
