(* ===== verification/Lifecycle.v ===== *)
(** The transactional outbox and the proof lifecycle.

    Sources: offchain/gpu/hashcredit_gpu/jobs/outbox.py and jobs/proof.py, with
    the trigger [hcg_proof_requests_status_evidence]
    (migrations/versions/0002_event_cash_job_ledgers.py). *)

From S2P Require Import Prelude Domain Stdpy.
Import Domain Stdpy.

(** * The outbox *)

Module Outbox.

(** Models [jobs/outbox.py], [OutboxEvent], lines 23-32. *)
Record OutboxEvent := {
  ev_id : Z;
  aggregate_type : string;
  aggregate_id : string;
  event_type : string;
  idempotency_key : string;
  ev_payload : json;
  ev_attempt : Z;
  created_at : Z;
}.

(** A row of [outbox]: the event and when it was published. *)
Record Row := { event : OutboxEvent; published_at : option Z }.

(** The table, the clock, and what publishers were handed so far: the publisher
    is outside the database, so no rollback takes a call back. *)
Record DB := {
  rows : gmap Z Row;
  next_id : Z;
  now : Z;
  delivered : list OutboxEvent;
}.

Definition key_taken (key : string) (db : DB) : bool :=
  existsb (fun p => String.eqb (idempotency_key (event p.2)) key) (map_to_list (rows db)).

(** Models [jobs/outbox.py], [emit].  A sequence value is drawn even when the
    key conflicts. *)
Definition emit (agg_type agg_id ev_type : string) (payload : json) (key : string) : PyM DB (option Z) :=
  if String.eqb key "" then raise ValueError "idempotency_key is required"
  else
    let* db := get in
    let id := next_id db in
    modify (fun db => db <| next_id ::= Z.succ |>) ;;;
    if key_taken key db then ret None
    else
      modify (fun db => db <| rows ::= <[id := {|
        event := {| ev_id := id; aggregate_type := agg_type; aggregate_id := agg_id; event_type := ev_type;
                    idempotency_key := key; ev_payload := payload; ev_attempt := 0; created_at := now db |};
        published_at := None |}]> |>) ;;;
      ret (Some id).

(** ORDER BY created_at, id *)
Definition row_leb (a b : Row) : bool :=
  let x := event a in let y := event b in
  if created_at x =? created_at y then ev_id x <=? ev_id y else created_at x <=? created_at y.

Definition unpublished (r : Row) : bool := bool_decide (published_at r = None).

Definition batch_ids (batch : nat) (max_attempts : Z) (db : DB) : list Z :=
  take batch (map (fun r => ev_id (event r)) (isort row_leb
    (filter (fun r => unpublished r && (ev_attempt (event r) <? max_attempts)) (map_to_list (rows db)).*2))).

(** What happens to one publication attempt. *)
Inductive Fate :=
| Published       (* the publisher returned *)
| PublisherFailed (* it raised *)
| Crashed.        (* the process died after the publisher returned, before the commit *)

#[export] Instance Fate_eq_dec : EqDecision Fate.
Proof. solve_decision. Defined.

Definition bump (r : Row) : Row := r <| event ::= fun e => e <| ev_attempt ::= Z.succ |> |>.

(** The body of [dispatch_outbox]'s loop, one transaction; [locked] says another
    dispatcher holds the row (SKIP LOCKED). *)
(** Models [jobs/outbox.py], [dispatch_outbox], lines 82-110. *)
Definition dispatch_row (id : Z) (locked : bool) (fate : Fate) : PyM DB (Z * Z) :=
  let* db := get in
  match rows db !! id with
  | Some r =>
      if locked || negb (unpublished r) then ret (0, 0)
      else
        let sent := modify (fun db => db <| delivered ::= fun l => l ++ [event r] |>) in
        match fate with
        | Published =>
            sent ;;;
            modify (fun db => db <| rows ::= <[id := bump r <| published_at := Some (now db) |>]> |>) ;;;
            ret (1, 0)
        | PublisherFailed =>
            modify (fun db => db <| rows ::= <[id := bump r]> |>) ;;; ret (0, 1)
        | Crashed => sent ;;; ret (0, 0)
        end
  | None => ret (0, 0)
  end.

Fixpoint dispatch_rows (ids : list Z) (env : Z -> bool * Fate) (acc : Z * Z) : PyM DB (Z * Z) :=
  match ids with
  | [] => ret acc
  | id :: ids' =>
      let (locked, fate) := env id in
      let* pf := dispatch_row id locked fate in
      if bool_decide (fate = Crashed) then ret acc
      else dispatch_rows ids' env (acc.1 + pf.1, acc.2 + pf.2)
  end.

(** Models [jobs/outbox.py], [dispatch_outbox], lines 67-81.  [env] is the
    environment: which rows are locked and how each publication ends. *)
Definition dispatch_outbox (env : Z -> bool * Fate) (batch : nat) (max_attempts : Z) : PyM DB (Z * Z) :=
  let* db := get in
  dispatch_rows (batch_ids batch max_attempts db) env (0, 0).

(** Models [jobs/outbox.py], [pending_outbox]. *)
Definition pending_outbox (db : DB) : Z :=
  Z.of_nat (length (filter (fun r => unpublished r) (map_to_list (rows db)).*2)).

(** ** Invariant *)

Record outbox_wf (db : DB) : Prop := {
  wf_ids : map_Forall (fun id r => ev_id (event r) = id /\ id < next_id db) (rows db);
  wf_keys : forall i j r s, rows db !! i = Some r -> rows db !! j = Some s ->
              idempotency_key (event r) = idempotency_key (event s) -> i = j;
  wf_sent : map_Forall (fun _ r => is_Some (published_at r) ->
              exists e, e ∈ delivered db /\ idempotency_key e = idempotency_key (event r) /\
                        ev_payload e = ev_payload (event r)) (rows db);
}.

Lemma key_taken_false key db i r :
  key_taken key db = false -> rows db !! i = Some r -> idempotency_key (event r) <> key.
Proof.
  unfold key_taken. intros Hk Hr Heq. apply elem_of_map_to_list, list_elem_of_In in Hr.
  assert (existsb (fun p => String.eqb (idempotency_key (event p.2)) key) (map_to_list (rows db)) = true); [|congruence].
  apply existsb_exists. eexists. split; [exact Hr|]. cbn. rewrite Heq. apply String.eqb_refl.
Qed.

(** Rows never go away, keep their event's facts, and stay published. *)
Definition preserved (db db' : DB) : Prop :=
  (forall id r, rows db !! id = Some r -> exists r', rows db' !! id = Some r' /\
     idempotency_key (event r') = idempotency_key (event r) /\ ev_payload (event r') = ev_payload (event r) /\
     ev_attempt (event r) <= ev_attempt (event r') /\
     (is_Some (published_at r) -> published_at r' = published_at r)) /\
  (exists l, delivered db' = delivered db ++ l).

Lemma preserved_refl db : preserved db db.
Proof. split; [|exists []; by rewrite app_nil_r]. intros id r Hr. exists r. split_and!; done. Qed.

Lemma preserved_trans db1 db2 db3 : preserved db1 db2 -> preserved db2 db3 -> preserved db1 db3.
Proof.
  intros [H12 [l1 E1]] [H23 [l2 E2]]. split.
  - intros id r Hr. destruct (H12 id r Hr) as (r2 & Hr2 & K2 & P2 & A2 & Q2).
    destruct (H23 id r2 Hr2) as (r3 & Hr3 & K3 & P3 & A3 & Q3). exists r3.
    split_and!; [done|congruence|congruence|lia|]. intros Hp. rewrite Q3; [by apply Q2|]. by rewrite (Q2 Hp).
  - exists (l1 ++ l2). by rewrite E2, E1, app_assoc.
Qed.

Lemma dispatch_row_spec id locked fate db :
  exists pf db', dispatch_row id locked fate db = (Ok pf, db') /\
    (outbox_wf db -> outbox_wf db') /\ preserved db db' /\ now db' = now db /\
    (forall r, rows db !! id = Some r -> published_at r = None -> locked = false -> fate = Published ->
       exists r', rows db' !! id = Some r' /\ published_at r' = Some (now db) /\ pf = (1, 0)).
Proof.
  unfold dispatch_row, bind at 1. cbn [get]. destruct (rows db !! id) as [r|] eqn:Hr; last first.
  { eexists _, _. split; [reflexivity|]. split_and!; [done|apply preserved_refl|done|done]. }
  destruct (locked || negb (unpublished r)) eqn:Hskip.
  { eexists _, _. split; [reflexivity|]. split_and!; [done|apply preserved_refl|done|].
    intros r' [= <-] Hp -> _. unfold unpublished in Hskip. by rewrite bool_decide_true in Hskip. }
  apply orb_false_iff in Hskip as [-> Hun]. unfold unpublished in Hun. apply negb_false_iff, bool_decide_eq_true in Hun.
  (* the row replaced by one with the same facts *)
  assert (Hup : forall r' l, idempotency_key (event r') = idempotency_key (event r) ->
    ev_payload (event r') = ev_payload (event r) -> ev_id (event r') = ev_id (event r) ->
    ev_attempt (event r) <= ev_attempt (event r') ->
    (is_Some (published_at r') -> event r ∈ l) ->
    let db' := db <| rows ::= <[id := r']> |> <| delivered ::= fun d => d ++ l |> in
    (outbox_wf db -> outbox_wf db') /\ preserved db db').
  { intros r' l Hk Hpl Hid Ha Hpub db'. split.
    - intros [Hids Hkeys Hsent]. split; cbn.
      + apply map_Forall_insert_2; [|done]. rewrite Hid. by apply (Hids id r).
      + assert (Hback : forall i x, <[id:=r']> (rows db) !! i = Some x -> exists x0, rows db !! i = Some x0 /\
          idempotency_key (event x0) = idempotency_key (event x)).
        { intros i x [[<- <-]|[_ Hx]]%lookup_insert_Some; [by exists r|by exists x]. }
        intros i j x y (x0 & Hx & Ex)%Hback (y0 & Hy & Ey)%Hback Hxy. eapply Hkeys; [exact Hx|exact Hy|congruence].
      + apply map_Forall_insert_2.
        * intros Hp. exists (event r). split_and!; [set_solver|congruence|congruence].
        * intros i x Hx Hp. destruct (Hsent i x Hx Hp) as (e & He & ?). exists e. split; [set_solver|done].
    - split; [|by exists l]. intros i x Hx. cbn. destruct (decide (id = i)) as [<-|Hne].
      + assert (x = r) as -> by congruence. exists r'. rewrite lookup_insert_eq. split_and!; [done..|].
        rewrite Hun. by intros [? ?].
      + exists x. rewrite lookup_insert_ne by done. by split_and!. }
  destruct fate.
  - unfold bind, modify, ret. eexists _, _. split; [reflexivity|].
    destruct (Hup (bump r <| published_at := Some (now db) |>) [event r]) as [Hw Hp];
      [done|done|done|cbn; lia|intros _; apply list_elem_of_here|].
    split_and!; [exact Hw|exact Hp|done|]. intros r' _ _ _ _. eexists. cbn. rewrite lookup_insert_eq. done.
  - unfold bind, modify, ret. eexists _, _. split; [reflexivity|].
    destruct (Hup (bump r) []) as [Hw Hp]; [done|done|done|cbn; lia|cbn; rewrite Hun; by intros [? ?]|].
    assert (E : db <| rows ::= <[id := bump r]> |> <| delivered ::= fun d => d ++ [] |>
      = db <| rows ::= <[id := bump r]> |>) by (unfold set; cbn; by rewrite app_nil_r).
    rewrite E in *. by split_and!.
  - unfold bind, modify, ret. eexists _, _. split; [reflexivity|].
    destruct (Hup r [event r]) as [Hw Hp]; [done|done|done|lia|intros _; apply list_elem_of_here|].
    assert (E : db <| rows ::= <[id := r]> |> <| delivered ::= fun d => d ++ [event r] |>
      = db <| delivered ::= fun d => d ++ [event r] |>) by (unfold set; cbn; by rewrite insert_id).
    rewrite E in *. by split_and!.
Qed.

Lemma dispatch_rows_spec ids env acc db :
  exists pf db', dispatch_rows ids env acc db = (Ok pf, db') /\
    (outbox_wf db -> outbox_wf db') /\ preserved db db' /\ now db' = now db.
Proof.
  revert acc db. induction ids as [|id ids IH]; intros acc db; cbn [dispatch_rows].
  { eexists _, _. split; [reflexivity|]. split_and!; [done|apply preserved_refl|done]. }
  destruct (env id) as [locked fate].
  destruct (dispatch_row_spec id locked fate db) as (pf & db1 & Hrow & Hw & Hp & Hn & _).
  unfold bind at 1. rewrite Hrow. destruct (bool_decide (fate = Crashed)).
  { eexists _, _. split; [reflexivity|]. by split_and!. }
  destruct (IH (acc.1 + pf.1, acc.2 + pf.2) db1) as (pf2 & db2 & Hrest & Hw2 & Hp2 & Hn2).
  exists pf2, db2. split; [exact Hrest|]. split_and!; [auto|by eapply preserved_trans|congruence].
Qed.

Lemma emit_Ok a i t p k db r db' :
  emit a i t p k db = (Ok r, db') ->
  k <> ""%string /\
  ((r = None /\ key_taken k db = true /\ rows db' = rows db) \/
   (r = Some (next_id db) /\ key_taken k db = false /\
    exists row, rows db' = <[next_id db := row]> (rows db) /\ ev_id (event row) = next_id db /\
      idempotency_key (event row) = k /\ ev_payload (event row) = p /\ published_at row = None)) /\
  next_id db' = next_id db + 1 /\ delivered db' = delivered db /\ now db' = now db.
Proof.
  unfold emit. destruct (String.eqb_spec k "") as [|Hne]; [done|]. unfold bind, get, modify, ret.
  destruct (key_taken k db) eqn:Hk; intros [= <- <-]; (split; [done|]); split_and!; try done.
  - by left.
  - right. split_and!; [done|done|]. eexists. split; [reflexivity|done].
Qed.

Lemma emit_wf a i t p k db r db' : emit a i t p k db = (Ok r, db') -> outbox_wf db -> outbox_wf db' /\ preserved db db'.
Proof.
  intros (Hne & Hc & Hnext & Hd & Hn)%emit_Ok [Hids Hkeys Hsent]. destruct Hc as [(-> & Hk & Hr)|(-> & Hk & row & Hr & Hid & Hkey & Hp & Hpub)].
  - split.
    + split; [|by rewrite Hr|by rewrite Hr, Hd]. rewrite Hr, Hnext. intros i' x Hx. destruct (Hids i' x Hx). split; [done|lia].
    + split; [|exists []; by rewrite Hd, app_nil_r]. rewrite Hr. intros id x Hx. exists x. by split_and!.
  - assert (Hfresh : rows db !! next_id db = None).
    { destruct (rows db !! next_id db) as [x|] eqn:Hx; [|done]. destruct (Hids _ x Hx). lia. }
    split.
    + split; rewrite ?Hr.
      * rewrite Hnext. apply map_Forall_insert_2; [split; [done|lia]|].
        intros i' x Hx. destruct (Hids i' x Hx). split; [done|lia].
      * intros i' j' x y Hx Hy Hxy. apply lookup_insert_Some in Hx as [[<- <-]|[Hn1 Hx]];
          apply lookup_insert_Some in Hy as [[<- <-]|[Hn2 Hy]]; [done| | |by eapply Hkeys].
        -- destruct (key_taken_false _ _ _ _ Hk Hy). congruence.
        -- destruct (key_taken_false _ _ _ _ Hk Hx). congruence.
      * rewrite Hd. apply map_Forall_insert_2; [|done]. rewrite Hpub. by intros [? ?].
    + split; [|exists []; by rewrite Hd, app_nil_r]. rewrite Hr. intros id x Hx. exists x.
      rewrite lookup_insert_ne by congruence. by split_and!.
Qed.

(** ** Steps *)

Inductive ostep : DB -> DB -> Prop :=
| ostep_emit a i t p k db r db' : emit a i t p k db = (Ok r, db') -> ostep db db'
| ostep_dispatch env batch max_att db pf db' : dispatch_outbox env batch max_att db = (Ok pf, db') -> ostep db db'
| ostep_time db d : 0 <= d -> ostep db (db <| now ::= Z.add d |>).

Lemma dispatch_spec env batch max_att db :
  exists pf db', dispatch_outbox env batch max_att db = (Ok pf, db') /\
    (outbox_wf db -> outbox_wf db') /\ preserved db db' /\ now db' = now db.
Proof. unfold dispatch_outbox, bind, get. apply dispatch_rows_spec. Qed.

Lemma ostep_wf db db' : ostep db db' -> outbox_wf db -> outbox_wf db' /\ preserved db db'.
Proof.
  intros Hs Hwf. destruct Hs as [a i t p k db r db' H|env batch m db pf db' H|db d _].
  - by eapply emit_wf.
  - destruct (dispatch_spec env batch m db) as (pf2 & db2 & H2 & Hw & Hp & _). rewrite H in H2. simplify_eq. auto.
  - split; [by destruct Hwf|]. split; [|exists []; by rewrite app_nil_r].
    intros id r Hr. exists r. by split_and!.
Qed.

Lemma osteps_wf db db' : rtc ostep db db' -> outbox_wf db -> outbox_wf db' /\ preserved db db'.
Proof.
  induction 1 as [db|x y z Hxy _ IH]; intros Hwf; [split; [done|apply preserved_refl]|].
  destruct (ostep_wf _ _ Hxy Hwf) as [Hy Hp]. destruct (IH Hy) as [Hz Hp2].
  split; [done|by eapply preserved_trans].
Qed.

(** An emitted event is there, and the others stay. *)
Lemma emit_event a i t p k o r o' : emit a i t p k o = (Ok r, o') -> outbox_wf o ->
  outbox_wf o' /\ (exists i x, rows o' !! i = Some x /\ idempotency_key (event x) = k) /\
  forall i x, rows o !! i = Some x -> rows o' !! i = Some x.
Proof.
  intros H Hwf. destruct (emit_wf _ _ _ _ _ _ _ _ H Hwf) as [Hwf' _].
  apply emit_Ok in H as (_ & Hc & _). split; [done|]. destruct Hc as [(_ & Hk & Hr)|(_ & _ & row & Hr & _ & Hkey & _)].
  - split; [|by rewrite Hr]. unfold key_taken in Hk. apply existsb_exists in Hk as ([j x] & Hin & Hx%String.eqb_eq).
    apply list_elem_of_In, elem_of_map_to_list in Hin. exists j, x. by rewrite Hr.
  - split; [exists (next_id o), row; by rewrite Hr, lookup_insert_eq|].
    intros j x Hx. rewrite Hr, lookup_insert_ne; [done|]. intros <-. destruct (wf_ids _ Hwf _ _ Hx). lia.
Qed.

(** Keys stay, whatever an emission returns. *)
Definition has_key (k : string) (db : DB) : Prop := exists i r, rows db !! i = Some r /\ idempotency_key (event r) = k.

Lemma emit_keys a i t p k db : outbox_wf db -> let db' := (emit a i t p k db).2 in outbox_wf db' /\ forall k', has_key k' db -> has_key k' db'.
Proof.
  intros Hwf. cbv zeta. destruct (emit a i t p k db) as [[r|e] db'] eqn:He; cbn [snd].
  - destruct (emit_event _ _ _ _ _ _ _ _ He Hwf) as (Hwf' & _ & Hkeep). split; [done|]. intros k' (j & x & Hx & Hk). exists j, x. split; [by apply Hkeep|done].
  - revert He. unfold emit. destruct (String.eqb k ""); [by intros [= _ <-]|]. unfold bind, get, modify, ret. by destruct (key_taken k db).
Qed.

Definition empty_outbox : DB := {| rows := ∅; next_id := 1; now := 0; delivered := [] |}.

Lemma empty_outbox_wf : outbox_wf empty_outbox.
Proof. split; cbn; [apply map_Forall_empty|intros i j r s H; by rewrite lookup_empty in H|apply map_Forall_empty]. Qed.

(** C11: At least once, and nothing is lost: whatever emits, dispatchers (with
    other dispatchers' locks, publisher failures and crashes between publishing
    and committing) and time do, an emitted event stays in the table with its
    key and payload, a row marked published was handed to a publisher, and a
    duplicate emit of its key adds nothing. *)
Theorem outbox_at_least_once a i t p k db db1 id db2 :
  rtc ostep empty_outbox db -> emit a i t p k db = (Ok (Some id), db1) -> rtc ostep db1 db2 ->
  (exists r, rows db2 !! id = Some r /\ idempotency_key (event r) = k /\ ev_payload (event r) = p /\
     (is_Some (published_at r) -> exists e, e ∈ delivered db2 /\ idempotency_key e = k /\ ev_payload e = p)) /\
  (forall a' i' t' p', exists db3, emit a' i' t' p' k db2 = (Ok None, db3) /\ rows db3 = rows db2).
Proof.
  intros H0 He H12. destruct (osteps_wf _ _ H0 empty_outbox_wf) as [Hwf _].
  destruct (emit_wf _ _ _ _ _ _ _ _ He Hwf) as [Hwf1 _]. destruct (osteps_wf _ _ H12 Hwf1) as [Hwf2 [Hpres _]].
  destruct (emit_Ok _ _ _ _ _ _ _ _ He) as (Hne & [(? & _)|(Hid & _ & row & Hr & _ & Hkey & Hp & _)] & _); [done|].
  injection Hid as ->. destruct (Hpres (next_id db) row) as (r' & Hr' & K & P & _); [rewrite Hr; apply lookup_insert_eq|].
  split.
  - exists r'. split_and!; [done|congruence|congruence|]. intros Hpub.
    destruct (wf_sent _ Hwf2 _ _ Hr' Hpub) as (e & He' & Ke & Pe). exists e. split_and!; [done|congruence|congruence].
  - intros a' i' t' p'. unfold emit. apply String.eqb_neq in Hne. rewrite Hne. unfold bind, get, modify, ret.
    destruct (key_taken k db2) eqn:Hk; [by eexists|]. destruct (key_taken_false _ _ _ _ Hk Hr'). congruence.
Qed.

(** ** Witness *)

Definition ob1 : DB := (emit "asset" "A1" "asset.created" JNull "k1" empty_outbox).2.
(* the first dispatcher crashes after publishing, the second publishes again *)
Definition ob2 : DB := (dispatch_outbox (fun _ => (false, Crashed)) 100 20 ob1).2.
Definition ob3 : DB := (dispatch_outbox (fun _ => (false, Published)) 100 20 ob2).2.

Lemma outbox_at_least_once_witness :
  length (delivered ob3) = 2%nat /\ pending_outbox ob3 = 0 /\
  exists db3, emit "x" "y" "z" JNull "k1" ob3 = (Ok None, db3) /\ rows db3 = rows ob3.
Proof.
  split; [vm_compute; reflexivity|]. split; [vm_compute; reflexivity|].
  assert (He : emit "asset" "A1" "asset.created" JNull "k1" empty_outbox = (Ok (Some 1), ob1))
    by (unfold ob1; apply run_Ok; reflexivity).
  assert (H : rtc ostep ob1 ob3).
  { destruct (dispatch_spec (fun _ => (false, Crashed)) 100 20 ob1) as (pf & d & H1 & _).
    destruct (dispatch_spec (fun _ => (false, Published)) 100 20 ob2) as (pf' & d' & H2 & _).
    assert (d = ob2) as -> by (unfold ob2; by rewrite H1).
    assert (d' = ob3) as -> by (unfold ob3; by rewrite H2).
    eapply rtc_l; [by eapply ostep_dispatch|]. eapply rtc_l; [by eapply ostep_dispatch|constructor]. }
  exact (proj2 (outbox_at_least_once _ _ _ _ _ _ _ _ _ (rtc_refl _ _) He H) "x"%string "y"%string "z"%string JNull).
Defined.

End Outbox.

(** * The proof lifecycle *)

Module Requests.

(** Models [jobs/proof.py], lines 28-34. *)
Definition PROOF_JOB_KINDS : list string :=
  ["PROOF_WAIT_ATTESTATION"; "PROOF_FETCH_ARTIFACT"; "PROOF_SUBMIT"; "PROOF_CONFIRM"; "EVIDENCE_CONSUME"].

(** Models [jobs/proof.py], [Outcome]. *)
Inductive Outcome := O_OK | O_NOT_READY | O_NETWORK_ERROR | O_UNSUPPORTED | O_INVALID | O_EXPIRED.

#[export] Instance Outcome_eq_dec : EqDecision Outcome.
Proof. solve_decision. Defined.

Definition outcome_str (o : Outcome) : string :=
  match o with
  | O_OK => "OK" | O_NOT_READY => "NOT_READY" | O_NETWORK_ERROR => "NETWORK_ERROR"
  | O_UNSUPPORTED => "UNSUPPORTED" | O_INVALID => "INVALID" | O_EXPIRED => "EXPIRED"
  end.

Inductive Failure := F_TRANSIENT | F_TERMINAL.

(** Models [jobs/proof.py], [classify]. *)
Definition classify (o : Outcome) : option Failure :=
  match o with
  | O_OK => None
  | O_NOT_READY | O_NETWORK_ERROR => Some F_TRANSIENT
  | O_UNSUPPORTED | O_INVALID | O_EXPIRED => Some F_TERMINAL
  end.

(** Models [jobs/proof.py], lines 53-59. *)
Definition OK_STATUS : gmap string string := list_to_map
  [("PROOF_WAIT_ATTESTATION", "WAITING_ATTESTATION"); ("PROOF_FETCH_ARTIFACT", "PROOF_READY");
   ("PROOF_SUBMIT", "SUBMITTED"); ("PROOF_CONFIRM", "NATIVE_ACCEPTED"); ("EVIDENCE_CONSUME", "CONSUMED")]%string.

(** Models [jobs/proof.py], lines 61-67. *)
Definition FROM_STATUS (kind : string) : list string :=
  if String.eqb kind "PROOF_WAIT_ATTESTATION" then ["OBSERVED"; "WAITING_ATTESTATION"]
  else if String.eqb kind "PROOF_FETCH_ARTIFACT" then ["WAITING_ATTESTATION"]
  else if String.eqb kind "PROOF_SUBMIT" then ["PROOF_READY"]
  else if String.eqb kind "PROOF_CONFIRM" then ["SUBMITTED"]
  else if String.eqb kind "EVIDENCE_CONSUME" then ["NATIVE_ACCEPTED"]
  else [].

(** Models [jobs/proof.py], lines 68-74. *)
Definition NEXT_KIND (kind : string) : option string :=
  if String.eqb kind "PROOF_WAIT_ATTESTATION" then Some "PROOF_FETCH_ARTIFACT"%string
  else if String.eqb kind "PROOF_FETCH_ARTIFACT" then Some "PROOF_SUBMIT"%string
  else if String.eqb kind "PROOF_SUBMIT" then Some "PROOF_CONFIRM"%string
  else if String.eqb kind "PROOF_CONFIRM" then Some "EVIDENCE_CONSUME"%string
  else None.

(** Models [jobs/proof.py], [job_key]. *)
Definition job_key (kind proof_request_id : string) : string :=
  ("proof:" ++ kind ++ ":" ++ proof_request_id)%string.

(** Models [jobs/proof.py], [Transition], lines 77-85. *)
Record Transition := {
  proof_request_id : string;
  t_kind : string;
  outcome : Outcome;
  status_before : string;
  status_after : string;
  next_kind : option string;
  failure : option Failure;
}.

(** ** The tables *)

Record Request := { status : string; last_error : option string; attempt : Z }.

Record Verification := { nv_request : string; nv_accepted : bool }.

Record Tables := {
  requests : gmap string Request;
  artifacts : gset string;                 (* requests with a proof artifact row *)
  verifications : gmap string Verification;
  consumptions : gset string;              (* verifications with a consumption row *)
}.

Definition has_accepted (t : Tables) (id : string) : bool :=
  existsb (fun p => String.eqb (nv_request p.2) id && nv_accepted p.2) (map_to_list (verifications t)).

Definition has_consumption (t : Tables) (id : string) : bool :=
  existsb (fun p => String.eqb (nv_request p.2) id && bool_decide (p.1 ∈ consumptions t))
    (map_to_list (verifications t)).

(** Models [0002_event_cash_job_ledgers.py], lines 45-74. *)
Definition status_evidence (t : Tables) (id st : string) : res unit :=
  if mem_str st ["PROOF_READY"; "SUBMITTED"; "NATIVE_ACCEPTED"; "CONSUMED"]
     && negb (bool_decide (id ∈ artifacts t)) then
    Raise (Exn DatabaseError "without a stored proof artifact")
  else if mem_str st ["NATIVE_ACCEPTED"; "CONSUMED"] && negb (has_accepted t id) then
    Raise (Exn DatabaseError "without an ACCEPTED native verification")
  else if String.eqb st "CONSUMED" && negb (has_consumption t id) then
    Raise (Exn DatabaseError "without an evidence consumption row")
  else Ok tt.

(** [UPDATE proof_requests SET status = ..., last_error = ..., attempt = attempt + 1] *)
Definition update_status (id st : string) (err : option string) (t : Tables) : res Tables :=
  match requests t !! id with
  | None => Ok t
  | Some r =>
      rbind (status_evidence t id st) (fun _ =>
      Ok (t <| requests ::= <[id := {| status := st; last_error := err; attempt := attempt r + 1 |}]> |>))
  end.

(** A connection in a transaction: what others see, and its own view. *)
Record Conn := { committed : Tables; working : Tables }.

(** Models [jobs/proof.py], [ProofLifecycle.current_status]. *)
Definition current_status (id : string) : PyM Conn string :=
  let* c := get in
  match requests (working c) !! id with
  | Some r => ret (status r)
  | None => raise LookupError ("proof request " ++ id ++ " not found")
  end.

(** Models [jobs/proof.py], [ProofLifecycle.apply]. *)
Definition apply (id kind : string) (o : Outcome) (error : option string) : PyM Conn Transition :=
  if negb (mem_str kind PROOF_JOB_KINDS) then raise ValueError ("unknown proof job kind " ++ kind)
  else
    let* bef := current_status id in
    if mem_str bef ["INVALID"; "UNSUPPORTED"; "EXPIRED"; "CONSUMED"] then
      raise TerminalError ("proof request " ++ id ++ " is terminal (" ++ bef ++ ")")
    else
      match classify o with
      | None =>
          if negb (mem_str bef (FROM_STATUS kind)) then
            raise TerminalError (kind ++ " cannot run from status " ++ bef)
          else
            match OK_STATUS !! kind with
            | None => raise KeyError kind
            | Some aft =>
                let* c := get in
                let* t := lift_res (update_status id aft None (working c)) in
                modify (fun c => c <| working := t |>) ;;;
                ret {| proof_request_id := id; t_kind := kind; outcome := o; status_before := bef;
                       status_after := aft; next_kind := NEXT_KIND kind; failure := None |}
            end
      | Some f =>
          let aft := match f with
                     | F_TRANSIENT => if String.eqb kind "PROOF_WAIT_ATTESTATION" && String.eqb bef "OBSERVED"
                                      then "WAITING_ATTESTATION"%string else bef
                     | F_TERMINAL => outcome_str o
                     end in
          let err := substring 0 2000 (outcome_str o ++ ": " ++ or_else error "") in
          (* cx.rollback(), then a transaction of its own *)
          modify (fun c => c <| working := committed c |>) ;;;
          let* c := get in
          let* t := lift_res (update_status id aft (Some err) (committed c)) in
          modify (fun c => c <| committed := t |> <| working := t |>) ;;;
          raise (match f with F_TRANSIENT => TransientError | F_TERMINAL => TerminalError end)
                (kind ++ " " ++ id ++ ": " ++ outcome_str o)
      end.

(** The worker around a handler that calls [apply]: commit or roll back. *)
Definition in_worker {A} (m : PyM Conn A) : PyM Conn A :=
  fun c => match m c with
           | (Ok a, c') => (Ok a, {| committed := working c'; working := working c' |})
           | (Raise e, c') => (Raise e, {| committed := committed c'; working := committed c' |})
           end.

(** ** What a status claims *)

Definition claims_ok (t : Tables) (id : string) (r : Request) : Prop :=
  status_evidence t id (status r) = Ok tt.

Definition evidenced (t : Tables) : Prop := map_Forall (claims_ok t) (requests t).

Definition consumed_ok (t : Tables) : Prop :=
  forall v, v ∈ consumptions t -> exists nv, verifications t !! v = Some nv /\ nv_accepted nv = true.

Lemma update_status_evidenced id st err t t' :
  evidenced t -> update_status id st err t = Ok t' -> evidenced t'.
Proof.
  intros Hev. unfold update_status. destruct (requests t !! id) as [r|]; [|by intros [= <-]].
  intros ([] & Hs & [= <-])%rbind_Ok. unfold evidenced, claims_ok in *. cbn.
  apply map_Forall_insert_2; [exact Hs|exact Hev].
Qed.

Lemma update_status_lookup id st err t t' r :
  requests t !! id = Some r -> update_status id st err t = Ok t' ->
  requests t' = <[id := {| status := st; last_error := err; attempt := attempt r + 1 |}]> (requests t).
Proof.
  unfold update_status. intros ->. by intros ([] & Hs & [= <-])%rbind_Ok.
Qed.

(** The pipeline's order. *)
Definition rank (st : string) : Z :=
  if String.eqb st "OBSERVED" then 0 else if String.eqb st "WAITING_ATTESTATION" then 1
  else if String.eqb st "PROOF_READY" then 2 else if String.eqb st "SUBMITTED" then 3
  else if String.eqb st "NATIVE_ACCEPTED" then 4 else if String.eqb st "CONSUMED" then 5 else 6.

Definition terminal (st : string) : bool := mem_str st ["INVALID"; "UNSUPPORTED"; "EXPIRED"; "CONSUMED"].

Lemma kind_cases kind :
  mem_str kind PROOF_JOB_KINDS = true ->
  exists a, OK_STATUS !! kind = Some a /\
    forall b, mem_str b (FROM_STATUS kind) = true -> rank b <= rank a <= rank b + 1 /\ rank a <= 5.
Proof.
  unfold mem_str, PROOF_JOB_KINDS. cbn [existsb]. rewrite !orb_true_iff, !String.eqb_eq. intros Hk.
  assert (kind ∈ PROOF_JOB_KINDS) as Hin by (unfold PROOF_JOB_KINDS; set_solver). clear Hk.
  unfold PROOF_JOB_KINDS in Hin. rewrite !elem_of_cons in Hin.
  destruct Hin as [->|[->|[->|[->|[->|[]%elem_of_nil]]]]]; (eexists; split; [vm_compute; reflexivity|]);
    intros b Hb; cbn in Hb; rewrite ?orb_false_r, ?orb_true_iff, ?String.eqb_eq in Hb;
    destruct_or?; subst; by vm_compute.
Qed.

Lemma rank_terminal st o : terminal st = false -> classify o = Some F_TERMINAL -> rank st <= rank (outcome_str o).
Proof.
  intros _ Ho. transitivity 6; [unfold rank; repeat case_match; lia|]. by destruct o.
Qed.

(** The proof lifecycle of one request, through a worker's transaction: a
    successful step was allowed from the status before it, moves the request
    at most one stage forward, and leaves a committed status whose evidence
    rows exist; a failure is recorded in the committed table although the
    handler's own transaction is rolled back, a terminal failure makes the
    status terminal, and every status in the table stays backed by evidence. *)
Theorem proof_step_sound id kind o err c r c' (x : res Transition) :
  committed c = working c -> evidenced (committed c) -> requests (committed c) !! id = Some r ->
  in_worker (apply id kind o err) c = (x, c') ->
  evidenced (committed c') /\ committed c' = working c' /\
  exists r', requests (committed c') !! id = Some r' /\
    (terminal (status r) = true -> r' = r) /\
    rank (status r) <= rank (status r') /\
    match x with
    | Ok t => o = O_OK /\ status_after t = status r' /\ rank (status r') <= rank (status r) + 1 /\
              attempt r' = attempt r + 1
    | Raise e =>
        (exn_kind e = TerminalError /\ o <> O_OK /\ terminal (status r) = false ->
           status r' = outcome_str o /\ terminal (status r') = true /\ is_Some (last_error r'))
    end.
Proof.
  intros Heq Hev Hr Hrun. unfold in_worker, apply in Hrun.
  destruct (mem_str kind PROOF_JOB_KINDS) eqn:Hk; cbn [negb] in Hrun; last first.
  { injection Hrun as <- <-. cbn. split_and!; [done|done|]. exists r. split_and!; [done|done|lia|]. by intros [? _]. }
  unfold bind at 1, current_status, bind at 1 in Hrun. cbn [get] in Hrun. rewrite <- Heq, Hr in Hrun.
  cbn [ret] in Hrun. unfold ret at 1 in Hrun. fold (terminal (status r)) in Hrun.
  destruct (terminal (status r)) eqn:Ht.
  { injection Hrun as <- <-. cbn. split_and!; [done|done|]. exists r. split_and!; [done|done|lia|]. by intros (_ & _ & ?). }
  destruct (classify o) as [f|] eqn:Hcl.
  - (* a failure: recorded in a transaction of its own *)
    unfold bind, modify, get, lift_res in Hrun. cbn in Hrun.
    set (aft := match f with F_TRANSIENT => _ | F_TERMINAL => _ end) in Hrun.
    set (er := substring 0 2000 _) in Hrun.
    assert (Haft : rank (status r) <= rank aft).
    { subst aft. destruct f; [|by apply rank_terminal].
      destruct (String.eqb kind _ && _) eqn:Hb; [|lia].
      apply andb_true_iff in Hb as [_ ->%String.eqb_eq]. by vm_compute. }
    destruct (update_status id aft (Some er) (committed c)) as [t|e] eqn:Hu; cbn in Hrun; injection Hrun as <- <-; cbn.
    + pose proof (update_status_lookup _ _ _ _ _ _ Hr Hu) as Hl.
      split_and!; [by eapply update_status_evidenced|done|]. eexists. rewrite Hl, lookup_insert_eq.
      split; [reflexivity|]. cbn. split_and!; [done|done|]. intros (Hk2 & Ho & _).
      subst aft. destruct f; [by destruct o|]. split_and!; [done|by destruct o|by eexists].
    + split_and!; [done|done|]. exists r. split_and!; [done|done|lia|]. intros (Hk2 & _ & _). exfalso.
      unfold update_status in Hu. rewrite Hr in Hu. unfold rbind, status_evidence in Hu.
      repeat case_match; simplify_eq/=.
  - (* a success *)
    assert (o = O_OK) as -> by by destruct o.
    destruct (mem_str (status r) (FROM_STATUS kind)) eqn:Hfrom; cbn [negb] in Hrun; last first.
    { injection Hrun as <- <-. cbn. split_and!; [done|done|]. exists r. split_and!; [done|done|lia|].
      by intros (_ & ? & _). }
    destruct (kind_cases kind Hk) as (aft & Haft & Hrank). rewrite Haft in Hrun. specialize (Hrank _ Hfrom).
    unfold bind, get, lift_res, modify, ret in Hrun. cbn in Hrun. rewrite <- Heq in Hrun.
    destruct (update_status id aft None (committed c)) as [t|e] eqn:Hu; cbn in Hrun; injection Hrun as <- <-; cbn.
    + pose proof (update_status_lookup _ _ _ _ _ _ Hr Hu) as Hl.
      split_and!; [by eapply update_status_evidenced|done|]. eexists. rewrite Hl, lookup_insert_eq.
      split; [reflexivity|]. cbn. split_and!; [done|lia|done|done|lia|done].
    + split_and!; [done|done|]. exists r. split_and!; [done|done|lia|]. by intros (_ & ? & _).
Qed.

(** ** Witness *)

Definition tables0 : Tables := {|
  requests := {[ "P1"%string := {| status := "WAITING_ATTESTATION"; last_error := None; attempt := 1 |} ]};
  artifacts := {[ "P1"%string ]}; verifications := ∅; consumptions := ∅ |}.
Definition conn0 : Conn := {| committed := tables0; working := tables0 |}.

Lemma tables0_evidenced : evidenced tables0.
Proof.
  unfold evidenced, tables0. cbn. intros id r [<- <-]%lookup_singleton_Some. vm_compute. reflexivity.
Qed.

Lemma proof_step_sound_witness :
  exists r', requests (committed (in_worker (apply "P1" "PROOF_SUBMIT" O_EXPIRED None) conn0).2) !! "P1"%string = Some r' /\
    status r' = "EXPIRED"%string.
Proof.
  destruct (in_worker (apply "P1" "PROOF_SUBMIT" O_EXPIRED None) conn0) as [x c'] eqn:Hrun.
  destruct (proof_step_sound "P1" "PROOF_SUBMIT" O_EXPIRED None conn0 _ c' x eq_refl tables0_evidenced eq_refl Hrun)
    as (_ & _ & r' & Hr' & _ & _ & Hx).
  exists r'. split; [exact Hr'|].
  apply (f_equal fst) in Hrun. vm_compute in Hrun. subst x. apply Hx. split_and!; done.
Defined.

End Requests.
