(* ===== verification/Abi.v ===== *)
(** Keccak-256 as the dispatcher computes it, and the purpose allowlist: which
    contract functions may be signed, and by which credential.

    Source: offchain/gpu/hashcredit_gpu/transactions/abi.py.  The permutation
    is transcribed loop by loop over lists of lanes; [keccak_round_spec] relates
    it to the coordinate form of the Keccak specification. *)

From S2P Require Import Prelude Stdpy.
Import Stdpy.

Module Abi.

(** * Keccak-f[1600] *)

(** Models [transactions/abi.py], [_RC]. *)
Definition RC : list Z := [
  0x0000000000000001; 0x0000000000008082; 0x800000000000808A; 0x8000000080008000;
  0x000000000000808B; 0x0000000080000001; 0x8000000080008081; 0x8000000000008009;
  0x000000000000008A; 0x0000000000000088; 0x0000000080008009; 0x000000008000000A;
  0x000000008000808B; 0x800000000000008B; 0x8000000000008089; 0x8000000000008003;
  0x8000000000008002; 0x8000000000000080; 0x000000000000800A; 0x800000008000000A;
  0x8000000080008081; 0x8000000000008080; 0x0000000080000001; 0x8000000080008008].

(** Models [transactions/abi.py], [_ROT]. *)
Definition ROT : list (list Z) := [
  [0; 36; 3; 41; 18]; [1; 44; 10; 45; 2]; [62; 6; 43; 15; 61]; [28; 55; 25; 21; 56]; [27; 20; 39; 8; 14]].

Definition MASK : Z := 2 ^ 64 - 1.

(** Models [transactions/abi.py], [_rol]. *)
Definition rol (x n0 : Z) : Z :=
  let n := n0 mod 64 in
  if n =? 0 then x else Z.land (Z.lor (Z.shiftl x n) (Z.shiftr x (64 - n))) MASK.

(** [state[x][y]]; the loops only use indices below 5. *)
Definition lane (st : list (list Z)) (x y : nat) : Z := nth y (nth x st []) 0.

(** [state[x][y] = v] *)
Definition set_lane (st : list (list Z)) (x y : nat) (v : Z) : list (list Z) :=
  alter (fun row => <[y := v]> row) x st.

Definition r5 : list nat := seq 0 5.

(** [for x in range(5): for y in range(5): st = f(x, y, st)] *)
Definition for25 (f : nat -> nat -> list (list Z) -> list (list Z)) (st : list (list Z)) : list (list Z) :=
  fold_left (fun st x => fold_left (fun st y => f x y st) r5 st) r5 st.

Definition zero5 : list (list Z) := replicate 5 (replicate 5 0).

(** The body of the round loop of [_keccak_f]. *)
(** Models [transactions/abi.py], [_keccak_f], lines 64-76. *)
Definition keccak_round (st0 : list (list Z)) (rc : Z) : list (list Z) :=
  let c := map (fun x => Z.lxor (Z.lxor (Z.lxor (Z.lxor (lane st0 x 0) (lane st0 x 1)) (lane st0 x 2)) (lane st0 x 3))
                           (lane st0 x 4)) r5 in
  let d := map (fun x => Z.lxor (nth ((x + 4) mod 5) c 0) (rol (nth ((x + 1) mod 5) c 0) 1)) r5 in
  let st1 := for25 (fun x y st => set_lane st x y (Z.lxor (lane st x y) (nth x d 0))) st0 in
  let b := for25 (fun x y b => set_lane b y ((2 * x + 3 * y) mod 5) (rol (lane st1 x y) (nth y (nth x ROT []) 0))) zero5 in
  let st2 := for25 (fun x y st => set_lane st x y
               (Z.lxor (lane b x y) (Z.land (Z.lnot (lane b ((x + 1) mod 5) y)) (lane b ((x + 2) mod 5) y)))) st1 in
  set_lane st2 0 0 (Z.lxor (lane st2 0 0) rc).

(** Models [transactions/abi.py], [_keccak_f], lines 62-64. *)
Definition keccak_f (st : list (list Z)) : list (list Z) := fold_left keccak_round RC st.

(** * The sponge *)

Definition rate : Z := 136.

(** The padding loop: [0x01], zeros up to a multiple of the rate, [0x80] on the
    last byte; at most [rate] zeros are appended. *)
Definition pad (data : list Z) : list Z :=
  let n := Z.of_nat (length data) + 1 in
  let p := data ++ [1] ++ replicate (Z.to_nat ((- n) mod rate)) 0 in
  alter (fun b => Z.lor b 128) (length p - 1)%nat p.

Definition absorb_block (st : list (list Z)) (block : list Z) : list (list Z) :=
  keccak_f (fold_left (fun st i =>
    set_lane st (i mod 5) (i / 5) (Z.lxor (lane st (i mod 5) (i / 5)) (le_int (take 8 (drop (i * 8) block)))))
    (seq 0 17) st).

(** One unit of fuel per block. *)
Fixpoint absorb (fuel : nat) (st : list (list Z)) (l : list Z) : list (list Z) :=
  match fuel, l with
  | S n, _ :: _ => absorb n (absorb_block st (take 136 l)) (drop 136 l)
  | _, _ => st
  end.

(** Models [transactions/abi.py], [keccak256]. *)
Definition keccak256 (data : list Z) : list Z :=
  let padded := pad data in
  let st := absorb (length padded) zero5 padded in
  List.concat (map (fun i => le_bytes 8 (lane st (i mod 5) (i / 5))) (seq 0 4)).

(** Models [transactions/abi.py], [keccak_hex]. *)
Definition keccak_hex (data : list Z) : string := ("0x" ++ hex (keccak256 data))%string.

(** Models [transactions/abi.py], [selector]. *)
Definition selector (signature : string) : string :=
  ("0x" ++ substring 0 8 (hex (keccak256 (bytes_of signature))))%string.

(** * Purposes *)

(** Models [transactions/abi.py], [Purpose]. *)
Record Purpose := {
  name : string;
  contract_role : string;
  signature : string;
  signer_role : string;
  business_entry : bool;
}.

Definition KEEPER : string := "keeper".
Definition TREASURY : string := "treasury".

Definition mk_purpose (n c s r : string) : Purpose :=
  {| name := n; contract_role := c; signature := s; signer_role := r; business_entry := true |}.

Definition PROOF_TUPLE : string := "(uint64,uint64,bytes,bytes32,(bytes32,bool)[],bytes32,bytes32[])".

(** Models [transactions/abi.py], lines 131-172. *)
Definition PURPOSES : list Purpose := [
  mk_purpose "evidence.consume" "evidence_book"
    ("consume(bytes32," ++ PROOF_TUPLE ++ ",address,bytes32[],(uint32,bytes32,bytes32,uint64)[])") KEEPER;
  mk_purpose "receivables.ingest" "receivable_book"
    ("ingest(bytes32," ++ PROOF_TUPLE ++ ",address,bytes32[],(uint32,bytes32,bytes32,bytes32,bytes,uint64)[])") KEEPER;
  mk_purpose "manager.executeReservedDraw" "manager" "executeReservedDraw(bytes32,uint256)" TREASURY;
  mk_purpose "manager.repayFor" "manager" "repayFor(bytes32,uint256)" TREASURY;
  mk_purpose "escrow.sweep" "revenue_escrow" "sweep(uint64)" TREASURY;
  mk_purpose "escrow.forwardClaimed" "revenue_escrow" "forwardClaimed(bytes32,uint256,bytes32)" TREASURY;
  mk_purpose "escrow.claim" "revenue_escrow" "claim(address,bytes)" KEEPER]%string.

Definition VERIFIER_PROBE_SIGNATURE : string := ("verifyAndExtract(" ++ PROOF_TUPLE ++ ",address,bytes32[])")%string.
Definition VERIFIER_PROBE_SELECTOR : string := selector VERIFIER_PROBE_SIGNATURE.

Definition calldata_selector (calldata : list Z) : string := ("0x" ++ hex (take 4 calldata))%string.

(** [PURPOSES.get(name)] *)
Definition find_purpose (n : string) : option Purpose :=
  List.find (fun p => String.eqb (name p) n) PURPOSES.

(** Models [transactions/abi.py], [resolve_purpose]; PurposeNotAllowed is a
    PermissionError. *)
Definition resolve_purpose (n role : string) (calldata : list Z) : res Purpose :=
  match find_purpose n with
  | None => Raise (Exn PermissionError "unknown purpose")
  | Some p =>
      if negb (String.eqb role (signer_role p)) then Raise (Exn PermissionError "requires another credential")
      else if (Z.of_nat (length calldata) <? 4)
              || negb (String.eqb (calldata_selector calldata) (selector (signature p))) then
        Raise (Exn PermissionError "calldata selector does not match purpose")
      else Ok p
  end.

(** Models [transactions/abi.py], [is_verifier_probe]. *)
Definition is_verifier_probe (calldata : list Z) : bool :=
  (4 <=? Z.of_nat (length calldata)) && String.eqb (calldata_selector calldata) VERIFIER_PROBE_SELECTOR.

(** * Test vectors *)

Example keccak_empty :
  hex (keccak256 []) = "c5d2460186f7233c927e7db2dcc703c0e500b653ca82273b7bfad8045d85a470"%string.
Proof. vm_compute. reflexivity. Qed.

Example selector_transfer : selector "transfer(address,uint256)" = "0xa9059cbb"%string.
Proof. vm_compute. reflexivity. Qed.

(** * The round against the specification *)

(** The state as a function of the coordinates, as the specification has it. *)
Definition tab (f : nat -> nat -> Z) : list (list Z) := map (fun x => map (f x) r5) r5.

Definition par (a : nat -> nat -> Z) (x : nat) : Z :=
  Z.lxor (Z.lxor (Z.lxor (Z.lxor (a x 0%nat) (a x 1%nat)) (a x 2%nat)) (a x 3%nat)) (a x 4%nat).

Definition theta (a : nat -> nat -> Z) (x y : nat) : Z :=
  Z.lxor (a x y) (Z.lxor (par a ((x + 4) mod 5)%nat) (rol (par a ((x + 1) mod 5)%nat) 1)).

Definition rho_pi (a : nat -> nat -> Z) (x y : nat) : Z :=
  let x0 := ((x + 3 * y) mod 5)%nat in rol (a x0 x) (nth x (nth x0 ROT []) 0).

Definition chi (a : nat -> nat -> Z) (x y : nat) : Z :=
  Z.lxor (a x y) (Z.land (Z.lnot (a ((x + 1) mod 5)%nat y)) (a ((x + 2) mod 5)%nat y)).

Definition iota (rc : Z) (a : nat -> nat -> Z) (x y : nat) : Z :=
  if (Nat.eqb x 0 && Nat.eqb y 0)%bool then Z.lxor (a x y) rc else a x y.

(** * Properties *)

(** One round of the permutation is the specification's composition of
    theta, rho, pi, chi and iota, on every state. *)
Theorem keccak_round_spec (a : nat -> nat -> Z) rc :
  keccak_round (tab a) rc = tab (iota rc (chi (rho_pi (theta a)))).
Proof. cbv -[rol Z.lxor Z.land Z.lnot]. reflexivity. Qed.

Definition purpose_selectors : list string := map (fun p => selector (signature p)) PURPOSES.

Lemma purpose_selectors_distinct : NoDup (VERIFIER_PROBE_SELECTOR :: purpose_selectors).
Proof. apply (bool_decide_unpack _). vm_compute. exact I. Qed.

Lemma find_purpose_Some n p : find_purpose n = Some p -> p ∈ PURPOSES /\ name p = n.
Proof. intros [Hin Heq%String.eqb_eq]%find_some. by rewrite list_elem_of_In. Qed.

Lemma resolve_Ok n role cd p :
  resolve_purpose n role cd = Ok p ->
  p ∈ PURPOSES /\ name p = n /\ role = signer_role p /\ 4 <= Z.of_nat (length cd) /\
  calldata_selector cd = selector (signature p).
Proof.
  unfold resolve_purpose. destruct (find_purpose n) as [q|] eqn:Hf; [|done].
  destruct (String.eqb_spec role (signer_role q)) as [Hr|]; [|done]. cbn [negb].
  destruct (Z.ltb_spec (Z.of_nat (length cd)) 4) as [|Hl]; [done|].
  destruct (String.eqb_spec (calldata_selector cd) (selector (signature q))) as [Hs|]; [|done].
  cbn. intros [= ->]. apply find_purpose_Some in Hf as [Hin Hn]. by split_and!.
Qed.

(** What may be signed: calldata that resolves under a purpose and a
    credential is for exactly that purpose (no other name accepts it), needs
    exactly that credential, and is never the raw verifier probe. *)
Theorem purpose_binding n role cd p :
  resolve_purpose n role cd = Ok p ->
  name p = n /\ role = signer_role p /\ calldata_selector cd = selector (signature p) /\
  is_verifier_probe cd = false /\
  (forall n' role' p', resolve_purpose n' role' cd = Ok p' -> n' = n /\ role' = role /\ p' = p).
Proof.
  intros (Hin & Hn & Hr & Hl & Hs)%resolve_Ok. pose proof purpose_selectors_distinct as [Hprobe Hnd]%NoDup_cons.
  split_and!; [done|done|done| |].
  - unfold is_verifier_probe. apply andb_false_iff. right. apply String.eqb_neq. rewrite Hs. intros Heq.
    apply Hprobe. rewrite <- Heq. unfold purpose_selectors. apply list_elem_of_In, (in_map (fun p => selector (signature p))).
    by apply list_elem_of_In.
  - intros n' role' p' (Hin' & Hn' & Hr' & _ & Hs')%resolve_Ok.
    assert (p' = p) as ->; [|by subst].
    apply (NoDup_fmap_inj (fun p => selector (signature p)) PURPOSES); [exact Hnd|done|done|congruence].
Qed.

(** ** Witness *)

Definition repay_calldata : list Z := take 4 (keccak256 (bytes_of "repayFor(bytes32,uint256)")) ++ replicate 64 0.

Lemma purpose_binding_witness :
  exists p, resolve_purpose "manager.repayFor" "treasury" repay_calldata = Ok p /\
    is_verifier_probe repay_calldata = false.
Proof.
  assert (H : exists p, resolve_purpose "manager.repayFor" "treasury" repay_calldata = Ok p)
    by (eexists; vm_compute; reflexivity).
  destruct H as [p H]. exists p. split; [exact H|].
  exact (proj1 (proj2 (proj2 (proj2 (purpose_binding _ _ _ _ H))))).
Defined.

End Abi.
