(* ===== verification/Decoders.v ===== *)
(** Event decoders: from a contract's interface to the decoded arguments the
    projections read.

    Source: offchain/gpu/hashcredit_gpu/projections/decoders.py.  Outside the
    program, and parameters: [keccak] and [abi_decode] (eth_utils, eth_abi) and
    the interface files ([abi_of], the parsed JSON of a contract's fixture). *)

From S2P Require Import Prelude Domain Stdpy Json Abi.
Import Domain Stdpy Json.

Module Decoders.

(** Models [projections/decoders.py], [PROJECTED_CONTRACTS]. *)
Definition PROJECTED_CONTRACTS : list string :=
  ["ProtocolRoles"; "AuthorizationVerifier"; "ProviderRegistry"; "AccountRegistry"; "AttestcoinRevenueVerifier"; "EvidenceBook";
   "ControlRegistry"; "DebtLedger"; "LendingVaultV2"; "ReceivableBook"; "GpuRiskPolicy"; "ExposureController"; "RevenueEscrow";
   "CreditFacilityManager"; "SourceEscrow"; "RepaymentRouter"; "RecoveryManager"; "SettlementReceiver"; "GovernanceTimelock";
   "TreasuryTimelock"; "GpuTestToken"].

(** Models [projections/decoders.py], [EventAbi]. *)
Record EventAbi := {
  e_contract : string;
  e_name : string;
  e_signature : string;
  topic0 : string;
  indexed : list (string * string);
  unindexed : list (string * string);
}.

(** What [abi_decode] returns. *)
Inductive pyval :=
| PNone
| PBool (b : bool)
| PInt (n : Z)
| PBytes (l : list Z)
| PStr (s : string)
| PList (l : list pyval).

(** Models [projections/decoders.py], [_json_safe]. *)
Fixpoint json_safe (v : pyval) : json :=
  match v with
  | PNone => JNull
  | PBool b => JBool b
  | PInt n => JStr (py_str n)
  | PBytes l => JStr ("0x" ++ hex l)
  | PList l => JArr (map json_safe l)
  | PStr s => JStr (if String.prefix "0x" s && (String.length s =? 42)%nat then lower s else s)
  end.

(** [s[n:]] *)
Definition from (n : nat) (s : string) : string := substring n (String.length s) s.

Definition ends_with (suffix s : string) : bool := String.prefix (String.rev suffix) (String.rev s).

Definition list_field (key : string) (v : json) : res (list json) :=
  rbind (field key v) (fun x => match x with JArr l => Ok l | _ => Raise (Exn TypeError key) end).

(** [bytes.fromhex] *)
Definition fromhex (s : string) : res (list Z) :=
  match unhex s with Some l => Ok l | None => Raise (Exn ValueError "non-hexadecimal number found in fromhex() arg") end.

(** Models [projections/decoders.py], [_canonical_type]; a level of nesting
    takes one unit of fuel. *)
Fixpoint canonical_type (fuel : nat) (inp : json) : res string :=
  rbind (str_field "type" inp) (fun t =>
  if String.prefix "tuple" t then
    match fuel with
    | O => Raise (Exn OutOfFuel "canonical_type")
    | S n => rbind (list_field "components" inp) (fun cs => rbind (map_res (canonical_type n) cs) (fun ts =>
             Ok ("(" ++ String.concat "," ts ++ ")" ++ from 5 t)%string))
    end
  else Ok t).

(** How deep a document nests. *)
Fixpoint depth (v : json) : nat :=
  match v with
  | JArr l => S (list_max (map depth l))
  | JObj l => S (list_max (map (fun p => depth p.2) l))
  | _ => 0
  end.

Lemma depth_arr l v : v ∈ l -> (depth v < depth (JArr l))%nat.
Proof.
  intros Hv. cbn. assert (H : Forall (fun n => (n <= list_max (map depth l))%nat) (map depth l)) by (apply list_max_le; lia).
  rewrite Forall_forall in H. apply Nat.lt_succ_r, H, list_elem_of_fmap. by exists v.
Qed.

Lemma depth_obj key l v : dget key l = Some v -> (depth v < depth (JObj l))%nat.
Proof.
  intros Hv. assert (Hin : exists k, (k, v) ∈ l).
  { revert Hv. unfold dget. induction l as [|[k x] l IH]; cbn; [done|]. destruct (String.eqb k key); cbn.
    - intros [= ->]. exists k. by left.
    - intros H. destruct (IH H) as [k' Hk]. exists k'. by right. }
  destruct Hin as [k Hk]. cbn. set (ns := map _ l).
  assert (H : Forall (fun n => (n <= list_max ns)%nat) ns) by (apply list_max_le; lia).
  rewrite Forall_forall in H. apply Nat.lt_succ_r, H, list_elem_of_fmap. by exists (k, v).
Qed.

(** The nesting of the document is fuel enough. *)
Lemma canonical_type_fuel fuel inp e :
  (depth inp <= fuel)%nat -> canonical_type fuel inp = Raise e -> exn_kind e <> OutOfFuel.
Proof.
  revert inp. induction fuel as [|fuel IH]; intros inp Hd; cbn [canonical_type]; unfold str_field at 1, list_field, field.
  all: destruct inp as [| | | |l|l]; cbn [rbind]; try by intros [= <-].
  1: { cbn in Hd. lia. }
  destruct (dget "type" l) as [ty|]; cbn [rbind]; [|by intros [= <-]]. destruct ty; cbn [rbind]; try by intros [= <-].
  destruct (String.prefix "tuple" s); [|done]. destruct (dget "components" l) as [cs|] eqn:Hcs; cbn [rbind]; [|by intros [= <-]].
  destruct cs; cbn [rbind]; try by intros [= <-]. destruct (map_res _ _) as [ts|e'] eqn:Hm; cbn [rbind]; [done|]. intros [= <-].
  apply map_res_Raise in Hm as (c & Hc & Hr). eapply IH; [|exact Hr].
  pose proof (depth_obj _ _ _ Hcs). pose proof (depth_arr _ _ Hc). lia.
Qed.

Section Abi.
Context (keccak : list Z -> list Z) (abi_of : string -> list json) (abi_decode : list string -> list Z -> res (list pyval)).

Definition input_of (inp : json) : res (bool * (string * string)) :=
  rbind (str_field "name" inp) (fun n => rbind (canonical_type (depth inp) inp) (fun t =>
  Ok (match get_field "indexed" inp with Some x => truth x | None => false end, (n, t)))).

(** One event of an interface. *)
(** Models [projections/decoders.py], [load_events], lines 76-89. *)
Definition load_event (contract : string) (entry : json) : res EventAbi :=
  rbind (str_field "name" entry) (fun name => rbind (list_field "inputs" entry) (fun inputs => rbind (map_res input_of inputs) (fun ins =>
  let sig := (name ++ "(" ++ String.concat "," (map (fun i => i.2.2) ins) ++ ")")%string in
  Ok {| e_contract := contract; e_name := name; e_signature := sig; topic0 := "0x" ++ hex (keccak (bytes_of sig));
        indexed := map snd (filter (fun i : bool * (string * string) => i.1) ins); unindexed := map snd (filter (fun i : bool * (string * string) => negb i.1) ins) |}))).

Definition is_event (entry : json) : bool :=
  match get_field "type" entry with Some (JStr s) => String.eqb s "event" | _ => false end.

Fixpoint load_all (contract : string) (entries : list json) (out : list (string * EventAbi)) : res (list (string * EventAbi)) :=
  match entries with
  | [] => Ok out
  | x :: l => if is_event x then rbind (load_event contract x) (fun e => load_all contract l (dput (topic0 e) e out)) else load_all contract l out
  end.

(** Models [projections/decoders.py], [load_events]. *)
Definition load_events (contract : string) : res (list (string * EventAbi)) :=
  let filename := if String.eqb contract "TreasuryTimelock" then "GovernanceTimelock"%string else contract in
  load_all contract (abi_of filename) [].

(** Models [projections/decoders.py], [_decode_topic]. *)
Definition decode_topic (typ topic : string) : res pyval :=
  rbind (fromhex (from 2 topic)) (fun raw =>
  if mem_str typ ["string"; "bytes"] || ends_with "]" typ then Ok (PStr ("0x" ++ hex raw))
  else rbind (abi_decode [typ] raw) (fun l => match l with v :: _ => Ok v | [] => Raise (Exn IndexError "tuple index out of range") end)).

(** Models [projections/decoders.py], [DecodedLog]. *)
Record DecodedLog := { dl_contract : string; dl_event : string; args : list (string * json) }.

(** The attributes of [Decoder]. *)
Record Decoder := { address_to_name : list (string * string); events : list (string * list (string * EventAbi)) }.

(** Models [projections/decoders.py], [Decoder.__init__]. *)
Definition make_decoder (contracts : list (string * string)) : res Decoder :=
  if negb (forallb (fun p => mem_str p.1 PROJECTED_CONTRACTS) contracts) then Raise (Exn ValueError "unknown contract names for projection")
  else rbind (map_res (fun p => rbind (load_events p.1) (fun e => Ok (p.1, e))) contracts) (fun evs =>
       Ok {| address_to_name := fold_left (fun m p => dput (lower p.2) p.1 m) contracts []; events := evs |}).

(** Models [projections/decoders.py], [Decoder.addresses]. *)
Definition addresses (d : Decoder) : list string := isort String.leb (map fst (address_to_name d)).

(** Models [projections/decoders.py], [Decoder.contract_of]. *)
Definition contract_of (d : Decoder) (address : string) : option string := dget (lower address) (address_to_name d).

(** Models [projections/decoders.py], [Decoder.topic0]. *)
Definition topic0_of (d : Decoder) (contract event : string) : res string :=
  match dget contract (events d) with
  | None => Raise (Exn KeyError contract)
  | Some evs => match List.find (fun p => String.eqb (e_name p.2) event) evs with
                | Some p => Ok p.1
                | None => Raise (Exn KeyError (contract ++ "." ++ event))
                end
  end.

(** [args[name] = _json_safe(value)], in order. *)
Definition put_args (l : list ((string * string) * pyval)) (a : list (string * json)) : list (string * json) :=
  fold_left (fun a p => dput p.1.1 (json_safe p.2) a) l a.

(** Models [projections/decoders.py], [Decoder.decode]. *)
Definition decode (d : Decoder) (address : string) (topics : list string) (data : string) : res (option DecodedLog) :=
  match contract_of d address, topics with
  | None, _ | _, [] => Ok None
  | Some name, t0 :: rest =>
      match dget name (events d) with
      | None => Raise (Exn KeyError name)
      | Some evs =>
          match dget (lower t0) evs with
          | None => Ok None
          | Some ev =>
              if negb (length topics =? 1 + length (indexed ev))%nat then Raise (Exn ValueError "indexed topics")
              else
                rbind (map_res (fun p => decode_topic p.1.2 p.2) (zip (indexed ev) rest)) (fun vals =>
                let a1 := put_args (zip (indexed ev) vals) [] in
                match unindexed ev with
                | [] => Ok (Some {| dl_contract := name; dl_event := e_name ev; args := a1 |})
                | un =>
                    rbind (if negb (String.eqb data "") && negb (String.eqb data "0x") then fromhex (from 2 data) else Ok []) (fun raw =>
                    rbind (abi_decode (map snd un) raw) (fun values =>
                    if negb (length values =? length un)%nat then Raise (Exn ValueError "zip() argument 2")
                    else Ok (Some {| dl_contract := name; dl_event := e_name ev; args := put_args (zip un values) a1 |})))
                end)
          end
      end
  end.

(** * Decoding is sound *)

Lemma load_all_topics contract entries out r :
  load_all contract entries out = Ok r ->
  (forall k e, dget k out = Some e -> k = topic0 e /\ topic0 e = ("0x" ++ hex (keccak (bytes_of (e_signature e))))%string /\ e_contract e = contract) ->
  forall k e, dget k r = Some e -> k = topic0 e /\ topic0 e = ("0x" ++ hex (keccak (bytes_of (e_signature e))))%string /\ e_contract e = contract.
Proof.
  revert out. induction entries as [|x l IH]; intros out H Hout; cbn in H; [by injection H as <-|].
  destruct (is_event x); [|by eapply IH]. apply rbind_Ok in H as (ev & He & H). eapply IH; [exact H|].
  intros k e Hk. destruct (decide (k = topic0 ev)) as [->|Hne].
  - rewrite dget_dput_eq in Hk. injection Hk as <-. unfold load_event in He. cbv zeta in He.
    apply rbind_Ok in He as (n & _ & He). apply rbind_Ok in He as (i & _ & He). apply rbind_Ok in He as (s & _ & He). by injection He as <-.
  - rewrite dget_dput_ne in Hk by done. by apply Hout.
Qed.

Lemma put_args_dom l a k : is_Some (dget k (put_args l a)) <-> is_Some (dget k a) \/ k ∈ map (fun p => p.1.1) l.
Proof.
  revert a. induction l as [|p l IH]; intros a; cbn [put_args fold_left map].
  - rewrite elem_of_nil. tauto.
  - change (fold_left _ l ?x) with (put_args l x). rewrite IH, elem_of_cons. destruct (decide (k = p.1.1)) as [->|Hne].
    + rewrite dget_dput_eq. split; intros; [by right; left|by left; eexists].
    + rewrite dget_dput_ne by done. tauto.
Qed.

Lemma put_zip_dom l vals a k : length vals = length l ->
  is_Some (dget k (put_args (zip l vals) a)) <-> is_Some (dget k a) \/ k ∈ map fst l.
Proof.
  intros Hlen. rewrite put_args_dom. rewrite <- (map_map fst fst).
  change (map fst (zip l vals)) with ((zip l vals).*1). by rewrite fst_zip by lia.
Qed.

(** C15: What is projected was emitted by the contract it is projected as: a
    decoded log comes from a registered address, its event is one of that
    contract's interface, named by the Keccak hash of the event's canonical
    signature, with exactly as many topics as indexed inputs; its arguments are
    exactly the interface's inputs. *)
Theorem decode_sound contracts d address topics data log :
  make_decoder contracts = Ok d -> decode d address topics data = Ok (Some log) ->
  contract_of d address = Some (dl_contract log) /\
  exists ev t0 rest, topics = t0 :: rest /\ load_events (dl_contract log) = Ok (default [] (dget (dl_contract log) (events d))) /\
    dget (lower t0) (default [] (dget (dl_contract log) (events d))) = Some ev /\
    dl_event log = e_name ev /\ e_contract ev = dl_contract log /\ lower t0 = ("0x" ++ hex (keccak (bytes_of (e_signature ev))))%string /\
    length rest = length (indexed ev) /\
    forall k, is_Some (dget k (args log)) <-> k ∈ map fst (indexed ev ++ unindexed ev).
Proof.
  intros Hd H. unfold decode in H. destruct (contract_of d address) as [name|] eqn:Hc; [|done]. destruct topics as [|t0 rest]; [done|].
  destruct (dget name (events d)) as [evs|] eqn:He; [|done]. destruct (dget (lower t0) evs) as [ev|] eqn:Hev; [|done].
  destruct (negb _) eqn:Hlen; [done|]. apply negb_false_iff, Nat.eqb_eq in Hlen. cbn in Hlen.
  apply rbind_Ok in H as (vals & Hv & H). cbv zeta in H. apply map_res_length in Hv. rewrite length_zip_with in Hv.
  assert (Hload : load_events name = Ok evs).
  { unfold make_decoder in Hd. destruct (negb (forallb _ _)); [done|]. apply rbind_Ok in Hd as (l & Hl & Hd). injection Hd as <-. cbn in He.
    clear - Hl He. revert l Hl He. induction contracts as [|p cs IH]; intros l Hl He; cbn in Hl; [by injection Hl as <-|].
    apply rbind_Ok in Hl as (y & Hy & Hl). apply rbind_Ok in Hl as (r & Hr & Hl). injection Hl as <-.
    apply rbind_Ok in Hy as (e & Hp & Hy). injection Hy as <-. unfold dget in *. cbn in He.
    destruct (String.eqb_spec p.1 name) as [Hn|_]; [cbn in He; injection He as <-; by rewrite <- Hn|by eapply IH]. }
  destruct (load_all_topics _ _ _ _ Hload ltac:(by intros k e H0) _ _ Hev) as (Ht & Hk & Hcon).
  assert (Hdom1 : forall k, is_Some (dget k (put_args (zip (indexed ev) vals) [])) <-> k ∈ map fst (indexed ev)).
  { intros k. rewrite put_zip_dom by lia. split; [intros [[x Hx]|Hx]; [discriminate Hx|done]|by right]. }
  assert (Hgoal : dl_contract log = name /\ dl_event log = e_name ev /\ forall k, is_Some (dget k (args log)) <-> k ∈ map fst (indexed ev ++ unindexed ev)).
  { destruct (unindexed ev) as [|u un] eqn:Hun.
    - injection H as <-. cbn. by rewrite app_nil_r.
    - apply rbind_Ok in H as (raw & _ & H). apply rbind_Ok in H as (values & _ & H).
      destruct (negb _) eqn:Hl; [done|]. apply negb_false_iff, Nat.eqb_eq in Hl. injection H as <-. cbn [dl_contract dl_event args].
      split_and!; [done|done|]. intros k.
      change (match values with [] => [] | x :: l => (u, x) :: zip un l end) with (zip (u :: un) values). rewrite put_zip_dom by done. by rewrite Hdom1, map_app, elem_of_app. }
  destruct Hgoal as (-> & -> & Hdom). split; [done|]. exists ev, t0, rest. rewrite He. cbn [from_option default id]. split_and!; try done; try congruence; lia.
Qed.

(** A decoded integer is read back as itself. *)
Lemma decoded_int key n : int_of key (json_safe (PInt n)) = Ok n.
Proof. apply py_int_str. Qed.

End Abi.

(** * Example *)

Definition abi0 (contract : string) : list json :=
  [JObj [("type", JStr "constructor")];
   JObj [("type", JStr "event"); ("name", JStr "FeeCharged");
         ("inputs", JArr [JObj [("name", JStr "facilityId"); ("type", JStr "bytes32"); ("indexed", JBool true)];
                          JObj [("name", JStr "amount"); ("type", JStr "uint256"); ("indexed", JBool false)]])]]%string.

(** One word: [bytes32] as bytes, [uint256] as a number. *)
Definition words (types : list string) (raw : list Z) : res (list pyval) :=
  Ok (map (fun t => if String.eqb t "uint256" then PInt (le_int (rev raw)) else PBytes raw) types).

Definition addr0 : string := "0xAa000000000000000000000000000000000000aA".
Definition word_hex (n : Z) : string := ("0x" ++ hex (rev (le_bytes 32 n)))%string.
Definition topic_fee : string := Abi.keccak_hex (bytes_of "FeeCharged(bytes32,uint256)").

Definition decoder0 : res Decoder := make_decoder Abi.keccak256 abi0 [("DebtLedger", addr0)]%string.
Definition decoded0 : res (option DecodedLog) :=
  rbind decoder0 (fun d => decode words d addr0 [topic_fee; word_hex 7] (word_hex 250)).

Example decoded_fee :
  decoded0 = Ok (Some {| dl_contract := "DebtLedger"; dl_event := "FeeCharged"; args := [("facilityId", JStr (word_hex 7)); ("amount", JStr "250")] |})%string.
Proof. vm_compute. reflexivity. Qed.

Lemma decode_sound_witness :
  exists d log, decoder0 = Ok d /\ contract_of d addr0 = Some (dl_contract log) /\ is_Some (dget "amount" (args log)).
Proof.
  assert (Hc : match decoded0 with Ok (Some l) => bool_decide (is_Some (dget "amount" (args l))) | _ => false end = true) by (vm_compute; reflexivity).
  unfold decoded0 in Hc. destruct decoder0 as [d|e] eqn:Hd; [|discriminate Hc]. cbn [rbind] in Hc.
  destruct (decode words d addr0 [topic_fee; word_hex 7] (word_hex 250)) as [[log|]|e] eqn:Hl; [|discriminate Hc|discriminate Hc].
  exists d, log. split; [reflexivity|].
  destruct (decode_sound Abi.keccak256 abi0 words [("DebtLedger", addr0)]%string d addr0 [topic_fee; word_hex 7] (word_hex 250) log Hd Hl) as [H _].
  split; [exact H|]. apply bool_decide_eq_true_1 in Hc. exact Hc.
Defined.

End Decoders.
