(* ===== verification/TxIntents.v ===== *)
(** Transaction intents: one row per EVM nonce of a signer, its state machine,
    nonce allocation and the dispatcher that prepares, broadcasts and
    reconciles it.

    Sources: offchain/gpu/hashcredit_gpu/transactions/intents.py, nonce.py and
    dispatcher.py, with the constraints of the table [tx_intents]
    (db/ledgers.py).  The rows are the business tables [biz] of the job
    queue's database: the audit log and the jobs are the same.  The RPC node
    and the signer are outside the program: their answers are arguments. *)

From S2P Require Import Prelude Domain Stdpy JobQueue Abi.
Import Stdpy.

Module Tx.

(** * Data *)

(** Models [transactions/intents.py], [IntentState]. *)
Inductive IntentState := PENDING | SENT | PENDING_MINED | FINALIZED | REPLACED | FAILED | ORPHANED.

#[export] Instance IntentState_eq_dec : EqDecision IntentState.
Proof. solve_decision. Defined.

(** Models [transactions/intents.py], [LIVE_STATES]. *)
Definition LIVE_STATES : list IntentState := [PENDING; SENT; PENDING_MINED; ORPHANED].

Definition live (s : IntentState) : bool := bool_decide (s ∈ LIVE_STATES).

(** Models [transactions/intents.py], [_TRANSITIONS]. *)
Definition TRANSITIONS (s : IntentState) : list IntentState :=
  match s with
  | PENDING => [SENT; PENDING_MINED; REPLACED; FAILED]
  | SENT => [PENDING_MINED; REPLACED; FAILED]
  | PENDING_MINED => [FINALIZED; ORPHANED]
  | ORPHANED => [PENDING_MINED; REPLACED; FAILED]
  | FINALIZED | REPLACED | FAILED => []
  end.

(** Models [transactions/intents.py], [Intent], lines 77-93. *)
Record Intent := {
  tx_intent_id : string;
  intent_job : option string;
  chain_id : Z;
  signer_address : string;
  nonce : Z;
  purpose : string;
  to_address : string;
  calldata_hash : string;
  tx_hash : option string;
  state : IntentState;
  replaces : option string;
  mined_block : option Z;
  finality_block : option Z;
  last_error : option string;
  created_at : Z;
}.

(** Models [transactions/intents.py], [Intent.app_state]. *)
Definition app_state (i : Intent) : string :=
  match state i with
  | FAILED => if String.prefix "ABANDONED" (default EmptyString (last_error i)) then "ABANDONED" else "REVERTED"
  | PENDING => "PENDING" | SENT => "SENT" | PENDING_MINED => "PENDING_MINED"
  | FINALIZED => "FINALIZED" | REPLACED => "REPLACED" | ORPHANED => "ORPHANED"
  end.

#[local] Abbreviation Table := (gmap string Intent).
#[local] Abbreviation DB := (Jobs.DB Table).
#[local] Abbreviation M := (PyM DB).

(** * The table's constraints *)

Definition slot (i : Intent) : Z * string * Z := (chain_id i, signer_address i, nonce i).

(** The row constraints: ck_tx_intents_values, _sent_has_hash, _final_blocks, _no_self_replace. *)
Definition row_ok (i : Intent) : bool :=
  (0 <? chain_id i) && (0 <=? nonce i)
  && (negb (bool_decide (state i ∈ [SENT; PENDING_MINED; FINALIZED])) || bool_decide (is_Some (tx_hash i)))
  && (negb (bool_decide (state i = FINALIZED))
      || match mined_block i, finality_block i with Some m, Some f => m <=? f | _, _ => false end)
  && negb (bool_decide (replaces i = Some (tx_intent_id i))).

(** uq_tx_intents_nonce and uq_tx_intents_tx_hash against another row *)
Definition clash (i k : Intent) : bool :=
  bool_decide (slot k = slot i)
  || match tx_hash i with Some h => bool_decide (tx_hash k = Some h) | None => false end.

Definition unique_in (i : Intent) (t : Table) : bool :=
  forallb (fun p => bool_decide (p.1 = tx_intent_id i) || negb (clash i p.2)) (map_to_list t).

(** An INSERT or UPDATE of the row: the constraints hold or it raises.
    (Foreign keys: the job and the replaced intent are rows the callers read.) *)
Definition put_row (i : Intent) : M unit :=
  let* db := get in
  if negb (row_ok i) then raise DatabaseError "check constraint"
  else if negb (unique_in i (Jobs.biz db)) then raise DatabaseError "unique constraint"
  else modify (fun db => db <| Jobs.biz ::= <[tx_intent_id i := i]> |>).

(** * Reads *)

(** Models [transactions/intents.py], [get]. *)
Definition get_intent (id : string) : M Intent :=
  let* db := get in
  match Jobs.biz db !! id with
  | Some i => ret i
  | None => raise NoResultFound "No row was found when one was required"
  end.

Definition rows (db : DB) : list Intent := (map_to_list (Jobs.biz db)).*2.

(** ORDER BY nonce DESC, created_at DESC *)
Definition live_leb (a b : Intent) : bool :=
  if nonce a =? nonce b then created_at b <=? created_at a else nonce b <=? nonce a.

(** Models [transactions/intents.py], [live_for_job]. *)
Definition live_for_job (job : string) (db : DB) : option Intent :=
  head (isort live_leb (filter (fun i => bool_decide (intent_job i = Some job) && live (state i)) (rows db))).

(** Models [transactions/intents.py], [by_hash]. *)
Definition by_hash (h : string) (db : DB) : option Intent :=
  List.find (fun i => bool_decide (tx_hash i = Some h)) (rows db).

(** Models [transactions/intents.py], [list_live]. *)
Definition list_live (chain : Z) (signer : string) (db : DB) : list Intent :=
  sort_by nonce (filter (fun i => (chain_id i =? chain) && String.eqb (signer_address i) (Domain.lower signer)
                                  && live (state i)) (rows db)).

(** [obj->>'key'] on a JSON object *)
Definition jget (key : string) (v : json) : option string :=
  match v with
  | JObj l => match List.find (fun p => String.eqb p.1 key) l with
              | Some (_, JStr s) => Some s
              | _ => None
              end
  | _ => None
  end.

Definition is_signed_entry (id : string) (a : Jobs.AuditRow) : bool :=
  String.eqb (Jobs.entity_table a) "tx_intents" && String.eqb (Jobs.entity_id a) id
  && String.eqb (Jobs.action a) "TX_SIGNED".

(** The TX_SIGNED payloads of an intent, newest first. *)
Definition signed_entries (id : string) (l : list Jobs.AuditRow) : list json :=
  rev (map (fun a => default JNull (Jobs.after a)) (filter (fun a => is_signed_entry id a) l)).

(** Models [transactions/intents.py], [signed_params]. *)
Definition signed_params (id : string) (db : DB) : option json := head (signed_entries id (Jobs.audit_log db)).

Definition add_seen (seen : list string) (h : option string) : list string :=
  match h with
  | Some x => if truthy h && negb (mem_str x seen) then seen ++ [x] else seen
  | None => seen
  end.

(** Models [transactions/intents.py], [all_hashes]. *)
Definition all_hashes (id : string) (db : DB) : list string :=
  fold_left add_seen (map (jget "txHash") (signed_entries id (Jobs.audit_log db))) [].

(** Models [transactions/intents.py], [replaced_hashes]. *)
Definition replaced_hashes (id : string) : M (list string) :=
  let* cur := get_intent id in
  let* db := get in
  ret (filter (fun h => Some h <> tx_hash cur) (all_hashes id db)).

(** * Writes *)

Definition SYSTEM : string := "system".

Definition audit (act role action id : string) (bef aft : option json) (corr : option string) : M unit :=
  let* _ := Jobs.write_audit act role action "tx_intents" id bef aft corr in ret tt.

Definition jint (x : Z) : json := JStr (Domain.py_str x).

(** The abandoned, never broadcast row at this nonce, if any. *)
Definition stale_row (chain : Z) (signer : string) (n : Z) (db : DB) : option Intent :=
  List.find (fun i => bool_decide (slot i = (chain, signer, n)) && bool_decide (state i = FAILED)
                      && bool_decide (tx_hash i = None)) (rows db).

(** Models [transactions/intents.py], [create]; [fresh] is the id [new_ulid] drew. *)
Definition create (job : option string) (chain : Z) (signer : string) (n : Z) (purp to_ cdh : string)
    (rep : option string) (fresh : string) : M Intent :=
  let* db := get in
  match stale_row chain (Domain.lower signer) n db with
  | Some s =>
      put_row (s <| intent_job := job |> <| purpose := purp |> <| to_address := Domain.lower to_ |>
                 <| calldata_hash := cdh |> <| state := PENDING |> <| last_error := None |>
                 <| replaces := rep |>) ;;;
      audit "dispatcher" SYSTEM "TX_NONCE_REISSUED" (tx_intent_id s)
        (Some (JObj [("jobId", Jobs.jopt (intent_job s)); ("purpose", JStr (purpose s));
                     ("to", JStr (to_address s)); ("calldataHash", JStr (calldata_hash s));
                     ("lastError", Jobs.jopt (last_error s))]%string))
        (Some (JObj [("jobId", Jobs.jopt job); ("purpose", JStr purp); ("to", JStr (Domain.lower to_));
                     ("calldataHash", JStr cdh); ("nonce", JInt n)]%string))
        job ;;;
      get_intent (tx_intent_id s)
  | None =>
      if bool_decide (is_Some (Jobs.biz db !! fresh)) then raise DatabaseError "tx_intents_pkey"
      else
        put_row {| tx_intent_id := fresh; intent_job := job; chain_id := chain;
                   signer_address := Domain.lower signer; nonce := n; purpose := purp;
                   to_address := Domain.lower to_; calldata_hash := cdh; tx_hash := None; state := PENDING;
                   replaces := rep; mined_block := None; finality_block := None; last_error := None;
                   created_at := Jobs.now db |} ;;;
        get_intent fresh
  end.

(** Models [transactions/intents.py], [_transition]; [f] is the SET list. *)
Definition transition (id : string) (to_ : IntentState) (f : Intent -> Intent) : M Intent :=
  let* cur := get_intent id in
  if negb (bool_decide (to_ = state cur)) && negb (bool_decide (to_ ∈ TRANSITIONS (state cur))) then
    raise IllegalIntentTransition (app_state cur ++ " not allowed for intent " ++ id)
  else
    put_row ((f cur) <| state := to_ |>) ;;;
    get_intent id.

Definition signed_entry (h raw : string) (max_fee max_prio gas n : Z) : json :=
  JObj [("txHash", JStr h); ("rawTx", JStr raw); ("maxFeePerGas", jint max_fee);
        ("maxPriorityFeePerGas", jint max_prio); ("gasLimit", jint gas); ("nonce", JInt n)]%string.

(** [cur.tx_hash is not None and cur.tx_hash != tx_hash] *)
Definition signed_otherwise (cur : Intent) (h : string) : bool :=
  match tx_hash cur with Some x => negb (String.eqb x h) | None => false end.

(** Models [transactions/intents.py], [record_signed]. *)
Definition record_signed (id h raw : string) (max_fee max_prio gas : Z) (actor : string) : M Intent :=
  let* cur := get_intent id in
  if negb (bool_decide (state cur = PENDING)) then
    raise IllegalIntentTransition ("cannot sign an intent in state " ++ app_state cur)
  else if signed_otherwise cur h then
    raise IllegalIntentTransition "intent already signed with a different hash"
  else
    put_row (cur <| tx_hash := Some h |>) ;;;
    audit actor SYSTEM "TX_SIGNED" id None (Some (signed_entry h raw max_fee max_prio gas (nonce cur))) (intent_job cur) ;;;
    get_intent id.

(** [int(prev.get("maxFeePerGas", "0"))] *)
Definition prev_max_fee (prev : option json) : res Z :=
  Domain.py_int (default "0"%string (prev ≫= jget "maxFeePerGas")).

(** Models [transactions/intents.py], [record_fee_bump]. *)
Definition record_fee_bump (id h raw : string) (max_fee max_prio gas : Z) (actor : string) : M Intent :=
  let* cur := get_intent id in
  match tx_hash cur with
  | Some old =>
      if negb (bool_decide (state cur = PENDING \/ state cur = SENT)) then
        raise IllegalIntentTransition ("cannot fee-bump an intent in state " ++ app_state cur)
      else
        let* db := get in
        let prev := signed_params id db in
        let* fee := lift_res (prev_max_fee prev) in
        if max_fee <=? fee then raise IllegalIntentTransition "replacement must raise maxFeePerGas"
        else
          put_row (cur <| tx_hash := Some h |> <| state := PENDING |>) ;;;
          audit actor SYSTEM "TX_REPLACED_FEE" id
            (Some (JObj [("txHash", JStr old); ("maxFeePerGas", Jobs.jopt (prev ≫= jget "maxFeePerGas"))]%string))
            (Some (JObj [("txHash", JStr h); ("replacedHash", JStr old); ("state", JStr "REPLACED_FEE")]%string))
            (intent_job cur) ;;;
          audit actor SYSTEM "TX_SIGNED" id None (Some (signed_entry h raw max_fee max_prio gas (nonce cur)))
            (intent_job cur) ;;;
          get_intent id
  | None => raise IllegalIntentTransition ("cannot fee-bump an intent in state " ++ app_state cur)
  end.

(** Models [transactions/intents.py], [mark_sent]. *)
Definition mark_sent (id : string) : M Intent := transition id SENT (fun i => i <| last_error := None |>).

(** Models [transactions/intents.py], [mark_mined]. *)
Definition mark_mined (id : string) (block receipt_status : Z) : M Intent :=
  if receipt_status =? 1 then
    transition id PENDING_MINED (fun i => i <| mined_block := Some block |> <| last_error := None |>)
  else
    transition id FAILED (fun i => i <| mined_block := Some block |>
      <| last_error := Some ("REVERTED: receipt status 0 at block " ++ Domain.py_str block)%string |>).

(** Models [transactions/intents.py], [mark_final]. *)
Definition mark_final (id : string) (finality : Z) : M Intent :=
  transition id FINALIZED (fun i => i <| finality_block := Some finality |>).

(** Models [transactions/intents.py], [mark_orphaned]. *)
Definition mark_orphaned (id reason : string) : M Intent :=
  transition id ORPHANED (fun i => i <| mined_block := None |>
    <| last_error := Some ("ORPHANED: " ++ reason)%string |>).

(** Models [transactions/intents.py], [mark_replaced]. *)
Definition mark_replaced (id by_ : string) : M Intent :=
  transition id REPLACED (fun i => i <| last_error := Some ("REPLACED by " ++ by_)%string |>).

(** Models [transactions/intents.py], [abandon]. *)
Definition abandon (id act role reason : string) : M Intent :=
  if String.eqb (Jobs.strip reason) "" then raise ValueError "abandon requires a reason"
  else
    let* cur := get_intent id in
    if bool_decide (is_Some (tx_hash cur)) then
      raise IllegalIntentTransition "signed transaction cannot be abandoned while it may still mine"
    else
      let* out := transition id FAILED (fun i => i <| last_error := Some ("ABANDONED: " ++ reason)%string |>) in
      audit act role "TX_ABANDONED" id
        (Some (JObj [("state", JStr (app_state cur)); ("txHash", Jobs.jopt (tx_hash cur))]%string))
        (Some (JObj [("state", JStr "ABANDONED"); ("reason", JStr reason)]%string))
        (intent_job cur) ;;;
      ret out.

(** * Nonces *)

(** Models [transactions/nonce.py], [lock_key]. *)
Definition lock_key (chain : Z) (signer : string) : Z :=
  Z.land (be_int (take 8 (sha256 (bytes_of (Domain.py_str chain ++ ":" ++ Domain.lower signer)%string))))
         0x7FFFFFFFFFFFFFFF.

(** Intents that hold, or may have consumed, their nonce. *)
Definition holding (chain : Z) (signer : string) (i : Intent) : bool :=
  (chain_id i =? chain) && String.eqb (signer_address i) (Domain.lower signer)
  && negb (bool_decide (state i = FAILED) && bool_decide (tx_hash i = None)).

(** Models [transactions/nonce.py], [highest_holding_nonce]. *)
Definition highest_holding_nonce (chain : Z) (signer : string) (db : DB) : option Z :=
  foldr (fun i acc => Some (match acc with Some m => Z.max (nonce i) m | None => nonce i end)) None
    (filter (fun i => holding chain signer i) (rows db)).

(** Models [transactions/nonce.py], [allocate_nonce]. *)
Definition allocate_nonce (chain : Z) (signer : string) (chain_pending_count : Z) (db : DB) : Z :=
  let db_next := match highest_holding_nonce chain signer db with None => 0 | Some n => n + 1 end in
  Z.max db_next chain_pending_count.

(** * The dispatcher *)

(** Models [transactions/dispatcher.py], [DispatcherConfig], lines 39-46. *)
Record Config := {
  cf_chain_id : Z;
  cf_signer_role : string;
  cf_contracts : gmap string string;
  cf_max_gas : Z;
  cf_max_fee : Z;
  cf_finality_depth : Z;
}.

Record Receipt := { r_block_number : Z; r_block_hash : string; r_status : Z }.

(** The node's answers during one call, and the signer's. *)
Record Env := {
  e_eth_call : res unit;
  e_estimate_gas : res Z;
  e_gas_price : res Z;
  e_transaction_count : res Z;
  e_send_raw : string -> res string;
  e_receipt : string -> res (option Receipt);
  e_block_hash : Z -> res (option string);
  e_block_number : res Z;
  e_sign : Z -> string -> list Z -> Z -> Z -> list Z; (* nonce, to, data, gas, price *)
}.

Section Dispatcher.
Context (cfg : Config) (signer : string).

(** The semantic action's latest intent. *)
Definition previous_for_job (job : string) (db : DB) : option Intent :=
head (isort (fun a b => created_at b <=? created_at a)
        (filter (fun i => bool_decide (intent_job i = Some job)) (rows db))).

(** Models [transactions/dispatcher.py], [Dispatcher.prepare]. *)
Definition prepare (env : Env) (job purp : string) (calldata : list Z) (fresh : string) : M Intent :=
let* p := lift_res (Abi.resolve_purpose purp (cf_signer_role cfg) calldata) in
match cf_contracts cfg !! Abi.contract_role p with
| None => raise ValueError ("missing deployment contract " ++ Abi.contract_role p)
| Some to0 =>
    if String.eqb to0 "" then raise ValueError ("missing deployment contract " ++ Abi.contract_role p)
    else
    let to_ := Domain.lower to0 in
    transaction (
      let* db := get in
      match previous_for_job job db with
      | Some existing =>
          if String.eqb (purpose existing) purp && String.eqb (to_address existing) to_
             && String.eqb (calldata_hash existing) (Abi.keccak_hex calldata)
          then ret existing
          else raise ValueError "semantic action already bound to different calldata or destination"
      | None =>
          let* _ := lift_res (e_eth_call env) in
          let* est := lift_res (e_estimate_gas env) in
          let gas := (est * 120 + 99) / 100 in
          let* price := lift_res (e_gas_price env) in
          if (cf_max_gas cfg <? gas) || (cf_max_fee cfg <? price) then
            raise ValueError "simulation exceeds configured gas or fee bound"
          else
            let* count := lift_res (e_transaction_count env) in
            let* db := get in
            let n := allocate_nonce (cf_chain_id cfg) signer count db in
            let* i := create (Some job) (cf_chain_id cfg) signer n purp to_ (Abi.keccak_hex calldata) None fresh in
            let raw := e_sign env n to_ calldata gas price in
            record_signed (tx_intent_id i) (Abi.keccak_hex raw) ("0x" ++ hex raw)%string price 0 gas "dispatcher"
      end)
end.

(** Models [transactions/dispatcher.py], [Dispatcher._owns]. *)
Definition owns (i : Intent) : M unit :=
guard ((chain_id i =? cf_chain_id cfg) && String.eqb (signer_address i) (Domain.lower signer))
  PermissionError "intent belongs to another dispatcher credential".

(** [keccak_hex(bytes.fromhex(raw[2:]))], where a malformed [raw] raises. *)
Definition raw_hash (raw : string) : res string :=
match unhex (substring 2 (String.length raw - 2) raw) with
| Some b => Ok (Abi.keccak_hex b)
| None => Raise (Exn ValueError "non-hexadecimal number found in fromhex() arg")
end.

(** The second transaction of [broadcast]: it re-reads the row under a lock. *)
Definition broadcast_mark (id : string) : M Intent :=
transaction (
  let* cur := get_intent id in
  if bool_decide (state cur = PENDING \/ state cur = SENT) then mark_sent id else ret cur).

(** Models [transactions/dispatcher.py], [Dispatcher.broadcast]. *)
Definition broadcast (env : Env) (id : string) : M Intent :=
let* current := get_intent id in
let* db := get in
let params := signed_params id db in
owns current ;;;
if negb (bool_decide (state current = PENDING \/ state current = SENT \/ state current = ORPHANED)) then ret current
else
  match params, params ≫= jget "rawTx" with
  | None, _ => raise ValueError "persisted signed bytes/hash missing or inconsistent"
  | Some _, None => raise KeyError "rawTx"
  | Some _, Some raw =>
      let* h := lift_res (raw_hash raw) in
      if negb (bool_decide (tx_hash current = Some h)) then
        raise ValueError "persisted signed bytes/hash missing or inconsistent"
      else
        match e_send_raw env raw with
        | Ok sent =>
            if bool_decide (Some (Domain.lower sent) = tx_hash current) then broadcast_mark id
            else ret current
        | Raise e =>
            if bool_decide (exn_kind e = RpcTransportError \/ exn_kind e = RpcError) then ret current
            else lift_res (Raise e)
        end
  end.

(** The first canonical receipt among the intent's hashes. *)
Fixpoint canonical_receipt (env : Env) (hashes : list string) : res (option Receipt) :=
match hashes with
| [] => Ok None
| h :: hs =>
    rbind (e_receipt env h) (fun c =>
    match c with
    | None => canonical_receipt env hs
    | Some r =>
        rbind (e_block_hash env (r_block_number r)) (fun b =>
        match b with
        | Some bh => if String.eqb (Domain.lower bh) (Domain.lower (r_block_hash r)) then Ok (Some r)
                     else canonical_receipt env hs
        | None => canonical_receipt env hs
        end)
    end)
end.

(** Models [transactions/dispatcher.py], [Dispatcher.reconcile]. *)
Definition reconcile (env : Env) (id : string) : M Intent :=
transaction (
  let* current := get_intent id in
  owns current ;;;
  if negb (live (state current)) then ret current
  else
    let* db := get in
    let* receipt := lift_res (canonical_receipt env (all_hashes id db)) in
    match receipt with
    | None =>
        if bool_decide (state current = PENDING_MINED) then mark_orphaned id "receipt no longer canonical"
        else ret current
    | Some r =>
        let number := r_block_number r in
        let* head := lift_res (e_block_number env) in
        if (r_status r =? 0) && (head - number + 1 <? cf_finality_depth cfg) then ret current
        else
          let* current :=
            if negb (bool_decide (state current = PENDING_MINED)) then mark_mined id number (r_status r)
            else ret current in
          if r_status r =? 0 then ret current
          else if cf_finality_depth cfg <=? head - number + 1 then mark_final id head
          else ret current
    end).

End Dispatcher.

(** * Well-formed tables and their evolution *)

Record table_wf (t : Table) : Prop := {
  wf_rows : map_Forall (fun id i => tx_intent_id i = id /\ row_ok i = true) t;
  wf_unique : forall a b i k, t !! a = Some i -> t !! b = Some k -> a <> b -> clash i k = false;
}.

(** What may become of a row: it keeps its nonce slot, and an outcome stays. *)
Definition evolves (i k : Intent) : Prop :=
  slot k = slot i /\
  (state i = FINALIZED -> state k = FINALIZED) /\
  (state i = REPLACED -> state k = REPLACED) /\
  (state i = FAILED -> tx_hash i <> None -> state k = FAILED /\ tx_hash k = tx_hash i).

Definition evolved (db db' : DB) : Prop :=
  (forall id i, Jobs.biz db !! id = Some i -> exists k, Jobs.biz db' !! id = Some k /\ evolves i k) /\
  (exists l, Jobs.audit_log db' = Jobs.audit_log db ++ l).

Lemma evolves_refl i : evolves i i.
Proof. by repeat split. Qed.

Lemma evolves_trans i j k : evolves i j -> evolves j k -> evolves i k.
Proof.
  intros (S1 & F1 & R1 & X1) (S2 & F2 & R2 & X2). split_and!; [congruence|auto|auto|].
  intros Hf Hh. destruct (X1 Hf Hh) as [Hf' Hh']. destruct (X2 Hf') as [? ?]; [congruence|]. split; congruence.
Qed.

Lemma evolved_refl db : evolved db db.
Proof. split; [|exists []; by rewrite app_nil_r]. intros id i Hi. exists i. split; [done|apply evolves_refl]. Qed.

Lemma evolved_trans db1 db2 db3 : evolved db1 db2 -> evolved db2 db3 -> evolved db1 db3.
Proof.
  intros [H12 [l1 E1]] [H23 [l2 E2]]. split; [|exists (l1 ++ l2); by rewrite E2, E1, app_assoc].
  intros id i Hi. destruct (H12 id i Hi) as (j & Hj & Ej). destruct (H23 id j Hj) as (k & Hk & Ek).
  exists k. split; [done|by eapply evolves_trans].
Qed.

(** [sound_at db m]: running [m] from [db] keeps the table well-formed and only
    evolves it, returning or raising. *)
Definition sound_at {A} (db : DB) (m : M A) : Prop :=
  table_wf (Jobs.biz db) -> table_wf (Jobs.biz (m db).2) /\ evolved db (m db).2.

Definition sound {A} (m : M A) : Prop := forall db, sound_at db m.

Lemma sound_bind {A B} db (m : M A) (k : A -> M B) :
  sound_at db m -> (forall a db1, m db = (Ok a, db1) -> sound_at db1 (k a)) -> sound_at db (bind m k).
Proof.
  intros Hm Hk Hwf. specialize (Hm Hwf). unfold bind. destruct (m db) as [[a|e] db1] eqn:Hr; [|exact Hm].
  cbn in Hm. destruct Hm as [Hwf1 Hev]. destruct (Hk a db1 eq_refl Hwf1) as [Hwf2 Hev2].
  split; [done|by eapply evolved_trans].
Qed.

Lemma sound_pure {A} db (m : M A) : (m db).2 = db -> sound_at db m.
Proof. intros Heq Hwf. rewrite Heq. split; [done|apply evolved_refl]. Qed.

Lemma sound_transaction {A} db (m : M A) : sound_at db m -> sound_at db (transaction m).
Proof.
  intros Hm Hwf. specialize (Hm Hwf). unfold transaction. destruct (m db) as [[a|e] db1]; [exact Hm|].
  split; [exact Hwf|apply evolved_refl].
Qed.

Lemma get_intent_Ok id db i db' : get_intent id db = (Ok i, db') <-> Jobs.biz db !! id = Some i /\ db' = db.
Proof. unfold get_intent, bind, get, ret, raise. destruct (Jobs.biz db !! id); naive_solver. Qed.

Lemma get_intent_snd id db : (get_intent id db).2 = db.
Proof. unfold get_intent, bind, get, ret, raise. by destruct (Jobs.biz db !! id). Qed.

Lemma sound_get_intent id : sound (get_intent id).
Proof. intros db. apply sound_pure, get_intent_snd. Qed.

Lemma audit_run act role action id bef aft corr db :
  exists row, audit act role action id bef aft corr db = (Ok tt, db <| Jobs.audit_log ::= fun l => l ++ [row] |>) /\
    Jobs.entity_table row = "tx_intents"%string /\ Jobs.entity_id row = id /\ Jobs.action row = action /\
    Jobs.after row = aft.
Proof. eexists. unfold audit, Jobs.write_audit, bind, get, modify, ret. split; [reflexivity|]. by split_and!. Qed.

Lemma sound_audit act role action id bef aft corr : sound (audit act role action id bef aft corr).
Proof.
  intros db Hwf. destruct (audit_run act role action id bef aft corr db) as (row & -> & _). cbn.
  split; [done|]. split; [|by eexists]. intros i k Hk. exists k. split; [done|apply evolves_refl].
Qed.

(** ** Writing a row *)

Lemma clash_sym i k : clash i k = clash k i.
Proof.
  unfold clash. f_equal; [by apply bool_decide_ext|].
  destruct (tx_hash i) as [h|] eqn:Hi, (tx_hash k) as [h'|] eqn:Hk;
    repeat case_bool_decide; try done; congruence.
Qed.

Lemma unique_in_spec i t :
  unique_in i t = true -> forall id k, t !! id = Some k -> id <> tx_intent_id i -> clash i k = false.
Proof.
  unfold unique_in. rewrite forallb_forall. intros Hall id k Hk Hne.
  assert (Hin : In (id, k) (map_to_list t)) by (apply list_elem_of_In; by apply elem_of_map_to_list).
  specialize (Hall (id, k) Hin). cbn in Hall.
  rewrite bool_decide_false in Hall by done. by apply negb_true_iff in Hall.
Qed.

Lemma put_row_Ok i db u db' :
  put_row i db = (Ok u, db') <->
  row_ok i = true /\ unique_in i (Jobs.biz db) = true /\ db' = db <| Jobs.biz ::= <[tx_intent_id i := i]> |>.
Proof.
  unfold put_row, bind, get, modify, raise. destruct u.
  destruct (row_ok i); cbn [negb]; [destruct (unique_in i (Jobs.biz db)); cbn [negb]|]; split.
  - by intros [= <-].
  - by intros (_ & _ & ->).
  - done.
  - by intros (_ & ? & _).
  - done.
  - by intros (? & _).
Qed.

Lemma put_row_Raise i db e db' : put_row i db = (Raise e, db') -> db' = db.
Proof. unfold put_row, bind, get, modify, raise. destruct (negb _); [|destruct (negb _)]; by intros [= ? <-]. Qed.

Lemma put_row_wf i db db' u : table_wf (Jobs.biz db) -> put_row i db = (Ok u, db') -> table_wf (Jobs.biz db').
Proof.
  intros [Hrows Huniq] (Hok & Hun & ->)%put_row_Ok. pose proof (unique_in_spec _ _ Hun) as Hu. split; cbn.
  - by apply map_Forall_insert_2.
  - intros a b x y Ha Hb Hne. apply lookup_insert_Some in Ha as [[<- <-]|[Hna Ha]];
      apply lookup_insert_Some in Hb as [[<- <-]|[Hnb Hb]]; [done|by eapply Hu| |by eapply Huniq].
    rewrite clash_sym. by eapply Hu.
Qed.

Lemma sound_put i db :
  (forall k, Jobs.biz db !! tx_intent_id i = Some k -> evolves k i) -> sound_at db (put_row i).
Proof.
  intros Hev Hwf. destruct (put_row i db) as [[u|e] db'] eqn:Hp; cbn.
  - split; [by eapply put_row_wf|]. apply put_row_Ok in Hp as (_ & _ & ->).
    split; [|exists []; by rewrite app_nil_r]. intros id k Hk. cbn.
    destruct (decide (tx_intent_id i = id)) as [<-|Hne].
    + exists i. rewrite lookup_insert_eq. split; [done|by apply Hev].
    + exists k. rewrite lookup_insert_ne by done. split; [done|apply evolves_refl].
  - apply put_row_Raise in Hp as ->. split; [done|apply evolved_refl].
Qed.

(** ** Soundness of every operation *)

(** The SET list of a transition leaves the identity, the slot and the hash. *)
Definition neutral (f : Intent -> Intent) : Prop :=
  forall i, tx_intent_id (f i) = tx_intent_id i /\ slot (f i) = slot i /\ tx_hash (f i) = tx_hash i.

Lemma transition_sound id to_ f : neutral f -> sound (transition id to_ f).
Proof.
  intros Hf db Hwf0. revert Hwf0. apply sound_bind; [apply sound_get_intent|].
  intros cur db1 [Hcur ->]%get_intent_Ok. destruct (_ && _) eqn:Hallow; [by apply sound_pure|].
  intros Hwf. pose proof (proj1 (wf_rows _ Hwf id cur Hcur)) as Hid. revert Hwf. apply sound_bind.
  - destruct (Hf cur) as (Hfi & Hfs & Hfh). apply sound_put. cbn. rewrite Hfi, Hid.
    intros k Hk. assert (k = cur) as -> by congruence. clear Hk.
    apply andb_false_iff in Hallow. rewrite !negb_false_iff, !bool_decide_eq_true in Hallow.
    split; [exact Hfs|]. split_and!; cbn.
    + intros Hs. destruct Hallow as [->|Hin]; [done|]. rewrite Hs in Hin. by apply elem_of_nil in Hin.
    + intros Hs. destruct Hallow as [->|Hin]; [done|]. rewrite Hs in Hin. by apply elem_of_nil in Hin.
    + intros Hs _. destruct Hallow as [->|Hin]; [done|]. rewrite Hs in Hin. by apply elem_of_nil in Hin.
  - intros u db1 _. apply sound_get_intent.
Qed.

Lemma mark_sent_sound id : sound (mark_sent id).
Proof. apply transition_sound. by intros i. Qed.
Lemma mark_mined_sound id b s : sound (mark_mined id b s).
Proof. unfold mark_mined. destruct (s =? 1); apply transition_sound; by intros i. Qed.
Lemma mark_final_sound id f : sound (mark_final id f).
Proof. apply transition_sound. by intros i. Qed.
Lemma mark_orphaned_sound id r : sound (mark_orphaned id r).
Proof. apply transition_sound. by intros i. Qed.
Lemma mark_replaced_sound id r : sound (mark_replaced id r).
Proof. apply transition_sound. by intros i. Qed.

Lemma abandon_sound id act role reason : sound (abandon id act role reason).
Proof.
  intros db. unfold abandon. destruct (String.eqb _ _); [by apply sound_pure|].
  apply sound_bind; [apply sound_get_intent|]. intros cur db1 _.
  destruct (bool_decide _); [by apply sound_pure|].
  apply sound_bind; [apply transition_sound; by intros i|]. intros out db2 _.
  apply sound_bind; [apply sound_audit|]. intros u db3 _. by apply sound_pure.
Qed.

Lemma stale_row_Some chain s n db i :
  stale_row chain s n db = Some i ->
  (exists id, Jobs.biz db !! id = Some i) /\ slot i = (chain, s, n) /\ state i = FAILED /\ tx_hash i = None.
Proof.
  unfold stale_row. intros [Hin Hp]%find_some. rewrite !andb_true_iff, !bool_decide_eq_true in Hp.
  destruct Hp as [[? ?] ?]. split_and!; try done. apply list_elem_of_In in Hin.
  unfold rows in Hin. apply list_elem_of_fmap in Hin as ([id k] & -> & Hk). apply elem_of_map_to_list in Hk. by exists id.
Qed.

Lemma create_sound job chain signer n purp to_ cdh rep fresh : sound (create job chain signer n purp to_ cdh rep fresh).
Proof.
  intros db. unfold create. apply sound_bind; [by apply sound_pure|]. intros db0 db1 [-> ->]%get_Ok.
  destruct (stale_row _ _ _ db) as [s|] eqn:Hs.
  - apply stale_row_Some in Hs as ((id & Hid) & Hslot & Hst & Hh). intros Hwf.
    pose proof (proj1 (wf_rows _ Hwf id s Hid)) as Hkey. revert Hwf. apply sound_bind.
    + apply sound_put. cbn. rewrite Hkey. intros k Hk. assert (k = s) as -> by congruence.
      split; [done|]. rewrite Hst, Hh. by split_and!.
    + intros u db1 _. apply sound_bind; [apply sound_audit|]. intros u2 db2 _. apply sound_get_intent.
  - destruct (bool_decide _) eqn:Hb; [by apply sound_pure|]. apply bool_decide_eq_false in Hb.
    apply sound_bind; [|intros; apply sound_get_intent]. apply sound_put. cbn. intros k Hk. destruct Hb. by eexists.
Qed.

Lemma record_signed_sound id h raw a b c act : sound (record_signed id h raw a b c act).
Proof.
  intros db. unfold record_signed. apply sound_bind; [apply sound_get_intent|].
  intros cur db1 [Hcur ->]%get_intent_Ok. destruct (negb _) eqn:Hst; [by apply sound_pure|].
  apply negb_false_iff, bool_decide_eq_true in Hst. destruct (signed_otherwise cur h); [by apply sound_pure|].
  intros Hwf. pose proof (proj1 (wf_rows _ Hwf id cur Hcur)) as Hkey. revert Hwf. apply sound_bind.
  - apply sound_put. cbn. rewrite Hkey. intros k Hk. assert (k = cur) as -> by congruence.
    split; [done|]. rewrite Hst. by split_and!.
  - intros u db1 _. apply sound_bind; [apply sound_audit|]. intros; apply sound_get_intent.
Qed.

Lemma record_fee_bump_sound id h raw a b c act : sound (record_fee_bump id h raw a b c act).
Proof.
  intros db. unfold record_fee_bump. apply sound_bind; [apply sound_get_intent|].
  intros cur db1 [Hcur ->]%get_intent_Ok. destruct (tx_hash cur) as [old|]; [|by apply sound_pure].
  destruct (negb _) eqn:Hst; [by apply sound_pure|]. apply negb_false_iff, bool_decide_eq_true in Hst.
  apply sound_bind; [by apply sound_pure|]. intros db0 db1 [-> ->]%get_Ok.
  apply sound_bind; [by apply sound_pure|]. intros fee db1. unfold lift_res. intros [= _ <-].
  destruct (a <=? fee); [by apply sound_pure|].
  intros Hwf. pose proof (proj1 (wf_rows _ Hwf id cur Hcur)) as Hkey. revert Hwf. apply sound_bind.
  - apply sound_put. cbn. rewrite Hkey. intros k Hk. assert (k = cur) as -> by congruence.
    split; [done|]. destruct Hst as [-> | ->]; by split_and!.
  - intros u db1 _. do 2 (apply sound_bind; [apply sound_audit|]; intros). apply sound_get_intent.
Qed.

Lemma lift_res_sound {A} (r : res A) : sound (lift_res r).
Proof. intros db. by apply sound_pure. Qed.

Lemma guard_sound b k msg : sound (guard b k msg).
Proof. intros db. apply sound_pure. by destruct b. Qed.

Lemma prepare_sound cfg signer env job purp cd fresh : sound (prepare cfg signer env job purp cd fresh).
Proof.
  intros db. unfold prepare. apply sound_bind; [apply lift_res_sound|]. intros p db1 _.
  destruct (cf_contracts cfg !! _) as [to0|]; [|by apply sound_pure].
  destruct (String.eqb to0 ""); [by apply sound_pure|].
  apply sound_transaction, sound_bind; [by apply sound_pure|]. intros db0 db2 [-> ->]%get_Ok.
  destruct (previous_for_job job db1) as [ex|]; [destruct (_ && _); by apply sound_pure|].
  apply sound_bind; [apply lift_res_sound|]. intros ? ? _. apply sound_bind; [apply lift_res_sound|]. intros ? ? _.
  apply sound_bind; [apply lift_res_sound|]. intros ? ? _. destruct (_ || _); [by apply sound_pure|].
  apply sound_bind; [apply lift_res_sound|]. intros ? ? _. apply sound_bind; [by apply sound_pure|]. intros ? ? _.
  apply sound_bind; [apply create_sound|]. intros ? ? _. apply record_signed_sound.
Qed.

Lemma broadcast_mark_sound id : sound (broadcast_mark id).
Proof.
  intros db. apply sound_transaction, sound_bind; [apply sound_get_intent|]. intros ? ? _.
  destruct (bool_decide _); [apply mark_sent_sound|by apply sound_pure].
Qed.

Lemma broadcast_sound cfg signer env id : sound (broadcast cfg signer env id).
Proof.
  intros db. unfold broadcast. apply sound_bind; [apply sound_get_intent|]. intros cur db1 _.
  apply sound_bind; [by apply sound_pure|]. intros ? ? _. apply sound_bind; [apply guard_sound|]. intros ? ? _.
  destruct (negb _); [by apply sound_pure|].
  destruct (signed_params id _) as [v|]; [|by apply sound_pure]. destruct (Some v ≫= jget "rawTx") as [raw|]; [|by apply sound_pure].
  apply sound_bind; [apply lift_res_sound|]. intros ? ? _. destruct (negb _); [by apply sound_pure|].
  destruct (e_send_raw env raw).
  - destruct (bool_decide _); [apply broadcast_mark_sound|by apply sound_pure].
  - destruct (bool_decide _); by apply sound_pure.
Qed.

Lemma reconcile_sound cfg signer env id : sound (reconcile cfg signer env id).
Proof.
  intros db. apply sound_transaction, sound_bind; [apply sound_get_intent|]. intros cur db1 _.
  apply sound_bind; [apply guard_sound|]. intros ? ? _. destruct (negb _); [by apply sound_pure|].
  apply sound_bind; [by apply sound_pure|]. intros ? ? _. apply sound_bind; [apply lift_res_sound|].
  intros [r|] ? _; [|destruct (bool_decide _); [apply mark_orphaned_sound|by apply sound_pure]].
  apply sound_bind; [apply lift_res_sound|]. intros ? ? _. destruct (_ && _); [by apply sound_pure|].
  apply sound_bind; [destruct (negb _); [apply mark_mined_sound|by apply sound_pure]|]. intros ? ? _.
  destruct (_ =? 0); [by apply sound_pure|]. destruct (_ <=? _); [apply mark_final_sound|by apply sound_pure].
Qed.

(** * Steps *)

Inductive iop :=
| ICreate (job : option string) (chain : Z) (signer : string) (n : Z) (purp to_ cdh : string) (rep : option string) (fresh : string)
| ISigned (id h raw : string) (a b c : Z) (act : string)
| IFeeBump (id h raw : string) (a b c : Z) (act : string)
| ISent (id : string)
| IMined (id : string) (block status : Z)
| IFinal (id : string) (f : Z)
| IOrphaned (id reason : string)
| IReplaced (id by_ : string)
| IAbandon (id act role reason : string)
| IPrepare (cfg : Config) (signer : string) (env : Env) (job purp : string) (cd : list Z) (fresh : string)
| IBroadcast (cfg : Config) (signer : string) (env : Env) (id : string)
| IReconcile (cfg : Config) (signer : string) (env : Env) (id : string).

Definition run_iop (op : iop) : M Intent :=
  match op with
  | ICreate j c s n p t d r f => create j c s n p t d r f
  | ISigned id h raw a b c act => record_signed id h raw a b c act
  | IFeeBump id h raw a b c act => record_fee_bump id h raw a b c act
  | ISent id => mark_sent id
  | IMined id b s => mark_mined id b s
  | IFinal id f => mark_final id f
  | IOrphaned id r => mark_orphaned id r
  | IReplaced id b => mark_replaced id b
  | IAbandon id a ro r => abandon id a ro r
  | IPrepare cfg s env j p cd f => prepare cfg s env j p cd f
  | IBroadcast cfg s env id => broadcast cfg s env id
  | IReconcile cfg s env id => reconcile cfg s env id
  end.

(** One call, committed or rolled back. *)
Definition istep (db db' : DB) : Prop := exists op, db' = (transaction (run_iop op) db).2.

Lemma run_iop_sound op : sound (run_iop op).
Proof.
  destruct op; cbn [run_iop]; auto using create_sound, record_signed_sound, record_fee_bump_sound, mark_sent_sound,
    mark_mined_sound, mark_final_sound, mark_orphaned_sound, mark_replaced_sound, abandon_sound, prepare_sound,
    broadcast_sound, reconcile_sound.
Qed.

Lemma isteps_sound db db' : rtc istep db db' -> table_wf (Jobs.biz db) -> table_wf (Jobs.biz db') /\ evolved db db'.
Proof.
  induction 1 as [db|x y z [op ->] _ IH]; intros Hwf; [split; [done|apply evolved_refl]|].
  destruct (sound_transaction x (run_iop op) (run_iop_sound op x) Hwf) as [Hwf1 Hev].
  destruct (IH Hwf1) as [Hwf2 Hev2]. split; [done|by eapply evolved_trans].
Qed.

(** * Hashes *)

Definition seen_in (x : string) (l : list (option string)) : Prop := x <> ""%string /\ Some x ∈ l.

Lemma add_seen_elem x l acc :
  x ∈ fold_left add_seen l acc <-> x ∈ acc \/ seen_in x l.
Proof.
  revert acc. induction l as [|h l IH]; intros acc; cbn [fold_left].
  - unfold seen_in. rewrite elem_of_nil. naive_solver.
  - rewrite IH. unfold seen_in. rewrite elem_of_cons. destruct h as [y|]; cbn; [|naive_solver].
    destruct (String.eqb_spec y "") as [->|Hne]; cbn; [naive_solver|].
    unfold mem_str. destruct (existsb (String.eqb y) acc) eqn:Hex; cbn.
    + apply existsb_exists in Hex as (z & Hz & ->%String.eqb_eq). apply list_elem_of_In in Hz. naive_solver.
    + rewrite elem_of_app, list_elem_of_singleton. naive_solver.
Qed.

Lemma all_hashes_spec id db x :
  x ∈ all_hashes id db <->
  x <> ""%string /\ exists a, a ∈ Jobs.audit_log db /\ is_signed_entry id a = true /\
                       jget "txHash" (default JNull (Jobs.after a)) = Some x.
Proof.
  assert (Hiff : Some x ∈ map (jget "txHash") (signed_entries id (Jobs.audit_log db)) <->
    exists a, a ∈ Jobs.audit_log db /\ is_signed_entry id a = true /\
              jget "txHash" (default JNull (Jobs.after a)) = Some x).
  { unfold signed_entries. rewrite map_rev, map_map. split.
    - intros Hin%list_elem_of_In%in_rev%in_map_iff. destruct Hin as (a & Ha & Hin).
      apply list_elem_of_In, list_elem_of_filter in Hin as [Hp Hin]. exists a.
      split_and!; [done|by apply Is_true_eq_true|done].
    - intros (a & Hin & Hp & Ha). apply list_elem_of_In. apply -> in_rev. apply in_map_iff. exists a.
      split; [done|]. apply list_elem_of_In, list_elem_of_filter. split; [by apply Is_true_eq_left|done]. }
  unfold all_hashes. rewrite add_seen_elem. unfold seen_in. rewrite Hiff, elem_of_nil. tauto.
Qed.

Lemma all_hashes_mono id db db' x : evolved db db' -> x ∈ all_hashes id db -> x ∈ all_hashes id db'.
Proof.
  intros [_ [l E]]. rewrite !all_hashes_spec. intros (Hne & a & Ha & Hp & Hx). split; [done|].
  exists a. split_and!; [|done|done]. rewrite E. apply elem_of_app. by left.
Qed.

Lemma signed_entry_hash h raw a b c n : jget "txHash" (signed_entry h raw a b c n) = Some h.
Proof. done. Qed.

Lemma audit_signed act id h raw a b c n corr (db db' : DB) u :
  h <> ""%string -> audit act SYSTEM "TX_SIGNED" id None (Some (signed_entry h raw a b c n)) corr db = (Ok u, db') ->
  h ∈ all_hashes id db'.
Proof.
  intros Hne H. destruct (audit_run act SYSTEM "TX_SIGNED" id None (Some (signed_entry h raw a b c n)) corr db)
    as (row & Hrun & Ht & Hi & Ha & Haf). rewrite Hrun in H. injection H as _ <-.
  apply all_hashes_spec. split; [done|]. exists row. split_and!.
  - cbn. apply elem_of_app. right. apply list_elem_of_here.
  - unfold is_signed_entry. by rewrite Ht, Hi, Ha, !String.eqb_refl.
  - by rewrite Haf.
Qed.

Lemma record_signed_hash id h raw a b c act db i db' :
  h <> ""%string -> record_signed id h raw a b c act db = (Ok i, db') -> h ∈ all_hashes id db'.
Proof.
  intros Hne H. unfold record_signed in H. apply bind_Ok in H as (cur & db1 & [_ ->]%get_intent_Ok & H).
  destruct (negb _); [done|]. destruct (signed_otherwise cur h); [done|].
  apply bind_Ok in H as (u & db1 & _ & H). apply bind_Ok in H as (u2 & db2 & Ha & [_ ->]%get_intent_Ok).
  by eapply audit_signed.
Qed.

Lemma record_fee_bump_hash id h raw a b c act db i db' :
  h <> ""%string -> record_fee_bump id h raw a b c act db = (Ok i, db') -> h ∈ all_hashes id db'.
Proof.
  intros Hne H. unfold record_fee_bump in H. apply bind_Ok in H as (cur & db1 & [_ ->]%get_intent_Ok & H).
  destruct (tx_hash cur) as [old|]; [|done]. destruct (negb _); [done|].
  apply bind_Ok in H as (? & ? & [-> ->]%get_Ok & H). apply bind_Ok in H as (fee & ? & Hf & H).
  destruct (a <=? fee); [done|]. apply bind_Ok in H as (u & db1 & _ & H).
  apply bind_Ok in H as (u1 & db2 & _ & H). apply bind_Ok in H as (u2 & db3 & Ha & [_ ->]%get_intent_Ok).
  by eapply audit_signed.
Qed.

(** * Nonces *)

Lemma highest_holding_ge chain signer db i id :
  Jobs.biz db !! id = Some i -> holding chain signer i = true ->
  exists n, highest_holding_nonce chain signer db = Some n /\ nonce i <= n.
Proof.
  intros Hi Hh. unfold highest_holding_nonce.
  assert (Hin : i ∈ filter (fun i => holding chain signer i) (rows db)).
  { apply list_elem_of_filter. split; [by apply Is_true_eq_left|]. unfold rows.
    apply list_elem_of_fmap. exists (id, i). split; [done|]. by apply elem_of_map_to_list. }
  induction (filter _ (rows db)) as [|k l IH]; [by apply elem_of_nil in Hin|]. cbn.
  apply elem_of_cons in Hin as [<-|Hin].
  - destruct (foldr _ None l) as [m|]; eexists; (split; [reflexivity|lia]).
  - destruct (IH Hin) as (n & -> & Hle). eexists. split; [reflexivity|lia].
Qed.

Lemma allocate_above chain signer count db i id :
  Jobs.biz db !! id = Some i -> holding chain signer i = true ->
  nonce i < allocate_nonce chain signer count db.
Proof.
  intros Hi Hh. destruct (highest_holding_ge _ _ _ _ _ Hi Hh) as (n & Hn & Hle).
  unfold allocate_nonce. rewrite Hn. lia.
Qed.

Lemma stale_row_None chain s n db id i :
  stale_row chain s n db = None -> Jobs.biz db !! id = Some i -> slot i = (chain, s, n) ->
  ~ (state i = FAILED /\ tx_hash i = None).
Proof.
  unfold stale_row. intros Hn Hi Hs [Hf Hh].
  assert (Hin : In i (rows db)).
  { apply list_elem_of_In. unfold rows. apply list_elem_of_fmap. exists (id, i). split; [done|].
    by apply elem_of_map_to_list. }
  pose proof (find_none _ _ Hn i Hin) as Hp. cbv beta in Hp.
  by rewrite !bool_decide_true in Hp.
Qed.

Lemma unique_in_intro i t :
  (forall id k, t !! id = Some k -> id <> tx_intent_id i -> clash i k = false) -> unique_in i t = true.
Proof.
  intros Hall. unfold unique_in. apply forallb_forall. intros [id k] Hin. apply list_elem_of_In, elem_of_map_to_list in Hin.
  cbn. destruct (decide (id = tx_intent_id i)); [by rewrite bool_decide_true|].
  rewrite (Hall id k) by done. by rewrite orb_true_r.
Qed.

(** * Properties *)

(** C12: For any sequence of committed or rolled-back calls: no two intents ever
    share a (chain, signer, nonce) slot or a transaction hash, a row keeps its
    slot, the constraints of its state hold, and an outcome is final: FINALIZED
    and REPLACED rows stay so, and a reverted row stays FAILED with its hash
    (only an abandoned, never broadcast row is re-issued). *)
Theorem intents_reachable db db' :
  table_wf (Jobs.biz db) -> rtc istep db db' ->
  (forall a b i k, Jobs.biz db' !! a = Some i -> Jobs.biz db' !! b = Some k -> a <> b ->
     slot i <> slot k /\ (forall h, tx_hash i = Some h -> tx_hash k <> Some h)) /\
  map_Forall (fun id i => tx_intent_id i = id /\ row_ok i = true) (Jobs.biz db') /\
  (forall id i, Jobs.biz db !! id = Some i -> exists k, Jobs.biz db' !! id = Some k /\ evolves i k).
Proof.
  intros Hwf Hr. destruct (isteps_sound _ _ Hr Hwf) as [[Hrows Huniq] [Hev _]].
  split_and!; [|exact Hrows|exact Hev]. intros a b i k Ha Hb Hne.
  specialize (Huniq a b i k Ha Hb Hne). unfold clash in Huniq. apply orb_false_iff in Huniq as [Hs Hh].
  apply bool_decide_eq_false in Hs. split; [congruence|]. intros h Hi. rewrite Hi in Hh.
  by apply bool_decide_eq_false in Hh.
Qed.

(** The hash is on record before anything is sent, and for good: after a
    successful [record_signed] or fee bump, and whatever happens later, the
    hash is among those the reconciler watches for that intent. *)
Theorem hash_never_lost id h raw a b c act db i db1 db2 :
  table_wf (Jobs.biz db) -> h <> ""%string ->
  record_signed id h raw a b c act db = (Ok i, db1) \/ record_fee_bump id h raw a b c act db = (Ok i, db1) ->
  rtc istep db1 db2 -> h ∈ all_hashes id db2.
Proof.
  intros Hwf Hne Hrec H12.
  assert (Hin : h ∈ all_hashes id db1 /\ table_wf (Jobs.biz db1)).
  { destruct Hrec as [H|H].
    - destruct (record_signed_sound id h raw a b c act db Hwf) as [Hw _]. rewrite H in Hw.
      split; [by eapply record_signed_hash|exact Hw].
    - destruct (record_fee_bump_sound id h raw a b c act db Hwf) as [Hw _]. rewrite H in Hw.
      split; [by eapply record_fee_bump_hash|exact Hw]. }
  destruct Hin as [Hin Hw1]. destruct (isteps_sound _ _ H12 Hw1) as [_ Hev]. by eapply all_hashes_mono.
Qed.

(** Nonce allocation: the allocated nonce is not below the chain's pending
    count and above every nonce an intent of the signer holds, and creating the
    intent with it always succeeds: a fresh row, or the abandoned row of that
    nonce re-issued. *)
Theorem allocate_create job chain signer count purp to_ cdh fresh db :
  table_wf (Jobs.biz db) -> 0 < chain -> 0 <= count -> Jobs.biz db !! fresh = None ->
  let n := allocate_nonce chain signer count db in
  (count <= n) /\
  (forall id i, Jobs.biz db !! id = Some i -> holding chain signer i = true -> nonce i < n) /\
  exists i db', create job chain signer n purp to_ cdh None fresh db = (Ok i, db') /\
    slot i = (chain, Domain.lower signer, n) /\ state i = PENDING /\ tx_hash i = None /\
    calldata_hash i = cdh /\ intent_job i = job.
Proof.
  intros Hwf Hchain Hcount Hfresh n.
  assert (Hn : count <= n) by (subst n; unfold allocate_nonce; lia).
  split_and!; [done|intros id i Hi Hh; by eapply allocate_above|].
  unfold create, bind at 1. cbn [get].
  destruct (stale_row chain (Domain.lower signer) n db) as [s|] eqn:Hs.
  - apply stale_row_Some in Hs as ((id & Hid) & Hslot & Hst & Hh).
    destruct (wf_rows _ Hwf id s Hid) as [Hkey Hok]. subst id.
    set (i := s <| intent_job := job |> <| purpose := purp |> <| to_address := Domain.lower to_ |>
                <| calldata_hash := cdh |> <| state := PENDING |> <| last_error := None |> <| replaces := None |>).
    assert (Hput : put_row i db = (Ok tt, db <| Jobs.biz ::= <[tx_intent_id i := i]> |>)).
    { apply put_row_Ok. split_and!; [| |done].
      - unfold row_ok in *. rewrite !andb_true_iff in Hok. destruct Hok as [[[[Hc Hnn] _] _] _].
        change (chain_id i) with (chain_id s). change (nonce i) with (nonce s). by rewrite Hc, Hnn.
      - apply unique_in_intro. intros id k Hk Hne. pose proof (wf_unique _ Hwf (tx_intent_id s) id s k Hid Hk) as Hu.
        unfold clash in *. change (slot i) with (slot s). change (tx_hash i) with (tx_hash s). apply Hu. by intros <-. }
    unfold bind at 1. rewrite Hput.
    match goal with |- context [audit ?a ?b ?c ?d ?e ?f ?g] =>
      destruct (audit_run a b c d e f g (db <| Jobs.biz ::= <[tx_intent_id i := i]> |>)) as (row & Haud & _) end.
    unfold bind at 1. rewrite Haud.
    eexists i, _. split; [apply get_intent_Ok; split; [|reflexivity]; apply lookup_insert_eq|]. by split_and!.
  - rewrite bool_decide_false by (rewrite Hfresh; by intros [? [=]]).
    set (i := {| tx_intent_id := fresh; intent_job := job; chain_id := chain |}).
    assert (Hput : put_row i db = (Ok tt, db <| Jobs.biz ::= <[tx_intent_id i := i]> |>)).
    { apply put_row_Ok. split_and!; [| |done].
      - unfold row_ok. cbn. apply Z.ltb_lt in Hchain. rewrite Hchain.
        assert ((0 <=? n) = true) as -> by (apply Z.leb_le; lia). done.
      - apply unique_in_intro. intros id k Hk Hne. unfold clash. cbn. rewrite orb_false_r.
        apply bool_decide_eq_false. intros Hslot. unfold slot in Hslot. cbn in Hslot. injection Hslot as Hc1 Hc2 Hc3.
        assert (Hhold : holding chain signer k = true).
        { unfold holding.
          rewrite Hc1, Hc2, Z.eqb_refl, String.eqb_refl. cbn. apply negb_true_iff.
          destruct (bool_decide (state k = FAILED)) eqn:Hf, (bool_decide (tx_hash k = None)) eqn:Hh; try done.
          apply bool_decide_eq_true in Hf, Hh. exfalso. eapply stale_row_None; [exact Hs|exact Hk| |by split].
          unfold slot. by rewrite Hc1, Hc2, Hc3. }
        pose proof (allocate_above chain signer count db k id Hk Hhold) as Hlt. lia. }
    unfold bind at 1. rewrite Hput.
    eexists i, _. split; [apply get_intent_Ok; split; [|reflexivity]; apply lookup_insert_eq|]. by split_and!.
Qed.

(** Broadcasting changes the database only when the node acknowledged the
    recorded transaction: the bytes sent are the persisted ones, their Keccak
    hash is the intent's, and the node returned that hash.  Any transport or
    RPC error leaves every row as it was. *)
Theorem broadcast_only_recorded cfg signer env id db x db' :
  broadcast cfg signer env id db = (x, db') -> db' <> db ->
  exists i v raw b sent,
    Jobs.biz db !! id = Some i /\ signed_params id db = Some v /\ jget "rawTx" v = Some raw /\
    unhex (substring 2 (String.length raw - 2) raw) = Some b /\ tx_hash i = Some (Abi.keccak_hex b) /\
    e_send_raw env raw = Ok sent /\ Domain.lower sent = Abi.keccak_hex b /\
    (state i = PENDING \/ state i = SENT).
Proof.
  intros H Hne. unfold broadcast, bind at 1 in H.
  destruct (get_intent id db) as [[i|e] db1] eqn:Hg.
  2: { pose proof (get_intent_snd id db) as Hs. rewrite Hg in Hs. cbn in Hs. by injection H as _ <-. }
  apply get_intent_Ok in Hg as [Hi ->]. unfold bind at 1 in H. cbn [get] in H.
  unfold bind at 1, owns, guard in H. destruct (_ && _); [|by injection H as _ <-]. unfold ret at 1 in H.
  destruct (negb _) eqn:Hst; [by injection H as _ <-|].
  destruct (signed_params id db) as [v|] eqn:Hv; [|by injection H as _ <-].
  cbn [mbind option_bind] in H. destruct (jget "rawTx" v) as [raw|] eqn:Hraw; [|by injection H as _ <-].
  unfold bind at 1, lift_res, raw_hash in H.
  destruct (unhex _) as [b|] eqn:Hb; [|by injection H as _ <-].
  destruct (decide (tx_hash i = Some (Abi.keccak_hex b))) as [Hh|Hh];
    [rewrite bool_decide_true in H by done|rewrite bool_decide_false in H by done; by injection H as _ <-].
  cbn [negb] in H. destruct (e_send_raw env raw) as [sent|e] eqn:Hsend; last first.
  { destruct (bool_decide (exn_kind e = RpcTransportError \/ exn_kind e = RpcError)); by injection H as _ <-. }
  destruct (decide (Some (Domain.lower sent) = tx_hash i)) as [Hs|Hs];
    [rewrite bool_decide_true in H by done|rewrite bool_decide_false in H by done; by injection H as _ <-].
  exists i, v, raw, b, sent. split_and!; try done; [congruence|].
  unfold broadcast_mark, transaction, bind at 1 in H.
  destruct (get_intent id db) as [[j|e] db1] eqn:Hg; last first.
  { by injection H as _ <-. }
  apply get_intent_Ok in Hg as [Hj ->]. assert (j = i) as -> by congruence.
  destruct (decide (state i = PENDING \/ state i = SENT)) as [|Hns]; [done|].
  rewrite bool_decide_false in H by done. by injection H as _ <-.
Qed.

Lemma canonical_receipt_Some env hs r :
  canonical_receipt env hs = Ok (Some r) ->
  exists h bh, h ∈ hs /\ e_receipt env h = Ok (Some r) /\ e_block_hash env (r_block_number r) = Ok (Some bh) /\
    Domain.lower bh = Domain.lower (r_block_hash r).
Proof.
  induction hs as [|h hs IH]; cbn; [done|]. intros (c & Hc & H)%rbind_Ok.
  destruct c as [r'|]; [|destruct (IH H) as (h' & bh & Hin & ?); exists h', bh; split; [by apply list_elem_of_further|done]].
  apply rbind_Ok in H as (b & Hb & H). destruct b as [bh|].
  - destruct (String.eqb_spec (Domain.lower bh) (Domain.lower (r_block_hash r'))) as [Heq|].
    + injection H as ->. exists h, bh. split_and!; [apply list_elem_of_here|done..].
    + destruct (IH H) as (h' & bh' & Hin & ?); exists h', bh'; split; [by apply list_elem_of_further|done].
  - destruct (IH H) as (h' & bh' & Hin & ?); exists h', bh'; split; [by apply list_elem_of_further|done].
Qed.

Lemma transition_Ok id to_ f db i db' :
  transition id to_ f db = (Ok i, db') -> exists cur, Jobs.biz db !! id = Some cur /\
    (to_ = state cur \/ to_ ∈ TRANSITIONS (state cur)) /\ (tx_intent_id (f cur) = id -> i = (f cur) <| state := to_ |>).
Proof.
  unfold transition. intros H. apply bind_Ok in H as (cur & db1 & [Hcur ->]%get_intent_Ok & H).
  destruct (_ && _) eqn:Ha; [done|]. apply bind_Ok in H as (u & db1 & (_ & _ & ->)%put_row_Ok & H).
  apply get_intent_Ok in H as [Hi ->]. exists cur. split; [done|]. split.
  - apply andb_false_iff in Ha. rewrite !negb_false_iff, !bool_decide_eq_true in Ha. done.
  - intros Hid. cbn in Hi. rewrite Hid, lookup_insert_eq in Hi. by injection Hi as <-.
Qed.

Lemma transition_state id to_ f db i db' :
  table_wf (Jobs.biz db) -> neutral f -> transition id to_ f db = (Ok i, db') -> state i = to_.
Proof.
  intros Hwf Hf H. apply transition_Ok in H as (c & Hc & _ & Hi). rewrite Hi; [done|].
  rewrite (proj1 (Hf c)). by apply (wf_rows _ Hwf id c).
Qed.

Lemma mark_final_state id n db i db' :
  table_wf (Jobs.biz db) -> mark_final id n db = (Ok i, db') -> state i = FINALIZED.
Proof. intros Hwf. apply transition_state; [done|by intros k]. Qed.

Lemma mark_orphaned_state id m db i db' :
  table_wf (Jobs.biz db) -> mark_orphaned id m db = (Ok i, db') -> state i = ORPHANED.
Proof. intros Hwf. apply transition_state; [done|by intros k]. Qed.

Lemma mark_mined_state id b s db i db' :
  table_wf (Jobs.biz db) -> mark_mined id b s db = (Ok i, db') ->
  state i = if s =? 1 then PENDING_MINED else FAILED.
Proof. intros Hwf. unfold mark_mined. destruct (s =? 1); apply transition_state; try done; by intros k. Qed.

(** The part of [reconcile] after the receipt was found. *)
Lemma reconcile_receipt cfg id i0 r head db i db' :
  (if (r_status r =? 0) && (head - r_block_number r + 1 <? cf_finality_depth cfg) then ret i0
   else
     let* current :=
       if negb (bool_decide (state i0 = PENDING_MINED)) then mark_mined id (r_block_number r) (r_status r)
       else ret i0 in
     if r_status r =? 0 then ret current
     else if cf_finality_depth cfg <=? head - r_block_number r + 1 then mark_final id head
     else ret current) db = (Ok i, db') ->
  table_wf (Jobs.biz db) -> state i0 <> FINALIZED -> state i0 <> FAILED -> r_status r = 0 \/ r_status r = 1 ->
  state i = FINALIZED \/ state i = FAILED ->
  cf_finality_depth cfg <= head - r_block_number r + 1 /\
  (state i = FINALIZED -> r_status r = 1) /\ (state i = FAILED -> r_status r = 0).
Proof.
  intros H Hwf Hnf Hnx Hst Hout. destruct (_ && _) eqn:Hsh; [injection H as -> _; tauto|].
  apply bind_Ok in H as (cur & db1 & Hm & H).
  assert (Hcur : cur = i0 \/ state cur = if r_status r =? 1 then PENDING_MINED else FAILED).
  { destruct (negb _); [right; by eapply mark_mined_state|left; by injection Hm]. }
  assert (Hwf1 : table_wf (Jobs.biz db1)).
  { destruct (negb _); [|by injection Hm as _ <-].
    pose proof (mark_mined_sound id (r_block_number r) (r_status r) db Hwf) as [Hw _]. by rewrite Hm in Hw. }
  destruct Hst as [Hst|Hst]; rewrite Hst in *; cbn in Hsh, Hcur, H.
  - apply Z.ltb_ge in Hsh. injection H as -> _. destruct Hcur as [->|Hc]; [tauto|].
    split_and!; [done|congruence|done].
  - destruct (Z.leb_spec (cf_finality_depth cfg) (head - r_block_number r + 1)) as [Hd|Hd].
    + pose proof (mark_final_state _ _ _ _ _ Hwf1 H) as Hf. split_and!; [done|done|congruence].
    + injection H as -> _. destruct Hcur as [->|Hc]; [tauto|]. rewrite Hc in Hout. by destruct Hout.
Qed.

(** A live intent only reaches an outcome on chain facts at finality depth:
    it becomes FINALIZED or FAILED only if the node reported a receipt for one
    of the hashes signed for it, in a block that is canonical at its height and
    at least the configured depth below the head, with status 1 for FINALIZED
    and 0 for FAILED.  A timeout or a missing receipt never fails an intent. *)
Theorem reconcile_evidence cfg signer env id db i0 i db' :
  reconcile cfg signer env id db = (Ok i, db') -> Jobs.biz db !! id = Some i0 -> live (state i0) = true ->
  (forall h r, e_receipt env h = Ok (Some r) -> r_status r = 0 \/ r_status r = 1) ->
  table_wf (Jobs.biz db) ->
  state i = FINALIZED \/ state i = FAILED ->
  exists h r bh head, h ∈ all_hashes id db /\ e_receipt env h = Ok (Some r) /\
    e_block_hash env (r_block_number r) = Ok (Some bh) /\ Domain.lower bh = Domain.lower (r_block_hash r) /\
    e_block_number env = Ok head /\ cf_finality_depth cfg <= head - r_block_number r + 1 /\
    (state i = FINALIZED -> r_status r = 1) /\ (state i = FAILED -> r_status r = 0).
Proof.
  intros H Hi0 Hlive Hstat Hwf Hout. unfold reconcile in H. apply (proj1 (transaction_Ok _ _ _ _)) in H.
  apply bind_Ok in H as (cur & db1 & [Hcur ->]%get_intent_Ok & H). assert (cur = i0) as -> by congruence.
  apply bind_Ok in H as (u & db1 & Ho & H). unfold owns in Ho. apply guard_Ok in Ho as [_ ->].
  rewrite Hlive in H. cbn [negb] in H. apply bind_Ok in H as (? & ? & [-> ->]%get_Ok & H).
  apply bind_Ok in H as (receipt & db1 & Hr & H). unfold lift_res in Hr. injection Hr as Hr <-.
  assert (Hnout : state i0 <> FINALIZED /\ state i0 <> FAILED).
  { unfold live in Hlive. apply bool_decide_eq_true in Hlive. unfold LIVE_STATES in Hlive.
    split; intros He; rewrite He in Hlive; set_solver. }
  destruct Hnout as [Hnf Hnx]. destruct receipt as [r|]; last first.
  { destruct (bool_decide (state i0 = PENDING_MINED)); [|injection H as -> _; tauto].
    apply mark_orphaned_state in H; [|done]. rewrite H in Hout. by destruct Hout. }
  apply canonical_receipt_Some in Hr as (h & bh & Hh & Hrec & Hbh & Heq).
  apply bind_Ok in H as (head & db1 & Hhd & H). unfold lift_res in Hhd. injection Hhd as Hhd <-.
  exists h, r, bh, head. do 5 (split; [done|]). by eapply reconcile_receipt; eauto.
Qed.

(** A mined intent is only re-checked, never re-booked: reconciling a
    PENDING_MINED intent makes it ORPHANED, or leaves the database alone (for
    a canonical receipt of status 0 at any depth: such an intent never fails),
    or finalizes it with the block it was first seen mined in, wherever its
    receipt is now. *)
Theorem reconcile_mined cfg signer env id db i0 i db' :
  reconcile cfg signer env id db = (Ok i, db') -> Jobs.biz db !! id = Some i0 -> state i0 = PENDING_MINED ->
  table_wf (Jobs.biz db) ->
  state i = ORPHANED \/ (i = i0 /\ db' = db) \/
  (state i = FINALIZED /\ mined_block i = mined_block i0 /\ e_block_number env = Ok (default 0 (finality_block i))).
Proof.
  intros H Hi0 Hst Hwf. unfold reconcile in H. apply (proj1 (transaction_Ok _ _ _ _)) in H.
  apply bind_Ok in H as (cur & db1 & [Hcur ->]%get_intent_Ok & H). assert (cur = i0) as -> by congruence.
  apply bind_Ok in H as (u & db1 & Ho & H). unfold owns in Ho. apply guard_Ok in Ho as [_ ->].
  assert (Hlive : live (state i0) = true) by (by rewrite Hst).
  rewrite Hlive in H. cbn [negb] in H. apply bind_Ok in H as (? & ? & [-> ->]%get_Ok & H).
  apply bind_Ok in H as (receipt & db1 & Hr & H). unfold lift_res in Hr. injection Hr as Hr <-.
  destruct receipt as [r|]; [|left; rewrite bool_decide_true in H by done; by eapply mark_orphaned_state].
  apply bind_Ok in H as (head & db1 & Hhd & H). unfold lift_res in Hhd. injection Hhd as Hhd <-.
  right. destruct ((r_status r =? 0) && _); [injection H as -> ->; by left|].
  rewrite bool_decide_true in H by done. apply bind_Ok in H as (cur & db1 & Hm & H).
  injection Hm as <- <-. destruct (_ =? _); [injection H as -> ->; by left|].
  destruct (_ <=? _); [|injection H as -> ->; by left]. right.
  apply transition_Ok in H as (c & Hc & _ & Hi). assert (c = i0) as -> by congruence.
  rewrite Hi; [|by apply (wf_rows _ Hwf id i0)]. by rewrite Hhd.
Qed.

(** ** Witnesses *)

Definition raw0 : string := ("0x" ++ hex [1; 2; 3])%string.
Definition hash0 : string := Abi.keccak_hex [1; 2; 3].
Definition signer0 : string := "0xab".

Definition row0 (s : IntentState) (h : option string) : Intent :=
  {| tx_intent_id := "I1"; intent_job := Some "J1"%string; chain_id := 1; signer_address := signer0; nonce := 7;
     purpose := "manager.repayFor"; to_address := "0xcd"; calldata_hash := "0xef"; tx_hash := h; state := s;
     replaces := None; mined_block := None; finality_block := None; last_error := None; created_at := 100 |}.

Definition db_of (i : Intent) : DB :=
  {| Jobs.jobs := ∅; Jobs.audit_log := []; Jobs.now := 100; Jobs.biz := {[ "I1"%string := i ]} |}.

Lemma single_wf i : tx_intent_id i = "I1"%string -> row_ok i = true -> table_wf {[ "I1"%string := i ]}.
Proof.
  intros Hid Hok. split; [by apply map_Forall_singleton|].
  intros a b x y [<- _]%lookup_singleton_Some [<- _]%lookup_singleton_Some Hne. done.
Qed.

Definition db_pending : DB := db_of (row0 PENDING None).
Lemma db_pending_wf : table_wf (Jobs.biz db_pending).
Proof. by apply single_wf. Qed.

Definition db_signed : DB := (record_signed "I1" hash0 raw0 10 1 21000 "dispatcher" db_pending).2.

Lemma db_signed_run : exists i, record_signed "I1" hash0 raw0 10 1 21000 "dispatcher" db_pending = (Ok i, db_signed).
Proof.
  unfold db_signed.
  destruct (record_signed "I1" hash0 raw0 10 1 21000 "dispatcher" db_pending) as [[i|e] d] eqn:H; [by exists i|].
  apply (f_equal (fun p => is_ok p.1)) in H. vm_compute in H. discriminate H.
Qed.

Lemma db_signed_wf : table_wf (Jobs.biz db_signed).
Proof. exact (proj1 (record_signed_sound "I1" hash0 raw0 10 1 21000 "dispatcher" db_pending db_pending_wf)). Qed.

Definition cfg0 : Config :=
  {| cf_chain_id := 1; cf_signer_role := "treasury"; cf_contracts := ∅; cf_max_gas := 1000000; cf_max_fee := 100;
     cf_finality_depth := 3 |}.

(* the node has mined the transaction, with the given status, at block 20 of 22 *)
Definition env0 (status : Z) : Env :=
  {| e_eth_call := Ok tt; e_estimate_gas := Ok 21000; e_gas_price := Ok 10; e_transaction_count := Ok 7;
     e_send_raw := fun _ => Ok hash0;
     e_receipt := fun h => Ok (if String.eqb h hash0 then
       Some {| r_block_number := 20; r_block_hash := "0xAA"; r_status := status |} else None);
     e_block_hash := fun n => Ok (Some "0xaa"%string); e_block_number := Ok 22; e_sign := fun _ _ _ _ _ => [1; 2; 3] |}.

Lemma intents_reachable_witness : exists k, Jobs.biz db_signed !! "I1"%string = Some k /\ evolves (row0 PENDING None) k.
Proof.
  refine (proj2 (proj2 (intents_reachable db_pending db_signed db_pending_wf _)) "I1"%string _ _); [|by vm_compute].
  eapply rtc_l; [|constructor]. exists (ISigned "I1" hash0 raw0 10 1 21000 "dispatcher"). cbn [run_iop].
  unfold transaction, db_signed. destruct db_signed_run as [i Hi]. rewrite Hi. reflexivity.
Defined.

Definition db_orphaned : DB :=
  (transaction (run_iop (IOrphaned "I1" "reorg")) (transaction (run_iop (IMined "I1" 20 1)) db_signed).2).2.

Lemma hash_never_lost_witness : hash0 ∈ all_hashes "I1" db_orphaned.
Proof.
  destruct db_signed_run as [i Hi].
  apply (hash_never_lost "I1" hash0 raw0 10 1 21000 "dispatcher" db_pending i db_signed db_orphaned db_pending_wf);
    [by vm_compute|by left|].
  eapply rtc_l; [eexists; reflexivity|]. eapply rtc_l; [eexists; reflexivity|]. constructor.
Defined.

Lemma allocate_create_witness :
  allocate_nonce 1 "0xAB" 3 db_signed = 8 /\
  exists i db', create None 1 "0xAB" 8 "p" "0xcd" "0xef" None "I2" db_signed = (Ok i, db') /\ slot i = (1, "0xab"%string, 8).
Proof.
  assert (Hn : allocate_nonce 1 "0xAB" 3 db_signed = 8) by (vm_compute; reflexivity). split; [exact Hn|].
  destruct (allocate_create None 1 "0xAB" 3 "p" "0xcd" "0xef" "I2" db_signed db_signed_wf) as (_ & _ & H);
    [done|done|by vm_compute|].
  rewrite Hn in H. destruct H as (i & db' & Hc & Hs & _). exists i, db'. by split.
Defined.

Definition db_sent : DB := (broadcast cfg0 signer0 (env0 1) "I1" db_signed).2.

Lemma broadcast_only_recorded_witness :
  db_sent <> db_signed /\ exists b, Some hash0 = Some (Abi.keccak_hex b).
Proof.
  assert (Hne : db_sent <> db_signed).
  { intros Heq. apply (f_equal (fun db => match Jobs.biz db !! "I1"%string with
      | Some i => bool_decide (state i = SENT) | None => false end)) in Heq. vm_compute in Heq. discriminate Heq. }
  split; [exact Hne|].
  destruct (broadcast_only_recorded cfg0 signer0 (env0 1) "I1" db_signed _ db_sent
    (surjective_pairing _) Hne) as (i & v & raw & b & sent & Hi & _ & _ & _ & Hh & _).
  exists b. rewrite <- Hh.
  assert (Hs : match Jobs.biz db_signed !! "I1"%string with
               | Some i => bool_decide (tx_hash i = Some hash0) | None => false end = true) by (vm_compute; reflexivity).
  rewrite Hi in Hs. by apply bool_decide_eq_true_1 in Hs.
Defined.

Definition db_final (status : Z) : DB := (reconcile cfg0 signer0 (env0 status) "I1" db_signed).2.

Lemma reconcile_evidence_witness :
  exists i h r, reconcile cfg0 signer0 (env0 0) "I1" db_signed = (Ok i, db_final 0) /\ state i = FAILED /\
    h ∈ all_hashes "I1" db_signed /\ e_receipt (env0 0) h = Ok (Some r) /\ r_status r = 0.
Proof.
  destruct (reconcile cfg0 signer0 (env0 0) "I1" db_signed) as [[i|e] d] eqn:H; last first.
  { apply (f_equal (fun p => is_ok p.1)) in H. vm_compute in H. discriminate H. }
  assert (Hf : state i = FAILED).
  { apply (f_equal (fun p => match p.1 with Ok i => bool_decide (state i = FAILED) | _ => false end)) in H.
    cbn in H. apply (bool_decide_eq_true_1 _). rewrite <- H. by vm_compute. }
  assert (Hd : d = db_final 0) by (unfold db_final; by rewrite H). subst d.
  assert (Hl : match Jobs.biz db_signed !! "I1"%string with
               | Some i => live (state i) | None => false end = true) by (vm_compute; reflexivity).
  destruct (Jobs.biz db_signed !! "I1"%string) as [i0|] eqn:Hi0; [|discriminate Hl].
  destruct (reconcile_evidence cfg0 signer0 (env0 0) "I1" db_signed i0 i (db_final 0) H Hi0 Hl) as
    (h & r & bh & head & Hh & Hr & _ & _ & _ & _ & _ & Hs).
  - intros h r. cbn. destruct (String.eqb h hash0); intros [= <-]. by left.
  - exact db_signed_wf.
  - by right.
  - exists i, h, r. split_and!; [done|done|done|done|by apply Hs].
Defined.

(* booked at block 19, the receipt is now in block 20 *)
Definition db_moved : DB := (transaction (run_iop (IMined "I1" 19 1)) db_signed).2.

Lemma reconcile_mined_witness :
  exists i, (reconcile cfg0 signer0 (env0 1) "I1" db_moved).1 = Ok i /\ state i = FINALIZED /\ mined_block i = Some 19.
Proof.
  destruct (reconcile cfg0 signer0 (env0 1) "I1" db_moved) as [[i|e] d] eqn:H; last first.
  { apply (f_equal (fun p => is_ok p.1)) in H. vm_compute in H. discriminate H. }
  assert (Hf : state i = FINALIZED).
  { apply (f_equal (fun p => match p.1 with Ok i => bool_decide (state i = FINALIZED) | _ => false end)) in H.
    cbn in H. apply (bool_decide_eq_true_1 _). rewrite <- H. by vm_compute. }
  exists i. split; [done|]. split; [done|].
  assert (Hl : match Jobs.biz db_moved !! "I1"%string with
               | Some i => bool_decide (state i = PENDING_MINED) && bool_decide (mined_block i = Some 19)
               | None => false end = true) by (vm_compute; reflexivity).
  destruct (Jobs.biz db_moved !! "I1"%string) as [i0|] eqn:Hi0; [|discriminate Hl].
  apply andb_true_iff in Hl as [Hs%bool_decide_eq_true Hb%bool_decide_eq_true].
  assert (Hwf : table_wf (Jobs.biz db_moved))
    by exact (proj1 (sound_transaction db_signed _ (run_iop_sound (IMined "I1" 19 1) db_signed) db_signed_wf)).
  destruct (reconcile_mined cfg0 signer0 (env0 1) "I1" db_moved i0 i d H Hi0 Hs Hwf) as [Ho|[[-> _]|(_ & Hm & _)]].
  - rewrite Ho in Hf. discriminate Hf.
  - exact Hb.
  - rewrite Hm. exact Hb.
Defined.

End Tx.
