(* ===== verification/Bitcoin.v ===== *)
(** Bitcoin data as the prover reads it: block headers, Merkle trees, varints,
    transaction outputs and script templates.

    Sources: offchain/prover/hashcredit_prover/bitcoin.py, and [_encode_varint]
    of offchain/api/hashcredit_api/btc_signmessage.py.  The hash is the real
    double SHA-256 of [Stdpy]; the theorems never look inside it: where they
    need a collision-free hash they exhibit the collision instead. *)

From S2P Require Import Prelude Stdpy.
Import Stdpy.

Module Bitcoin.

#[local] Abbreviation bytes := (list Z).

(** * Hashes and byte order *)

(** Models [hashcredit_prover/bitcoin.py], [sha256d]. *)
Definition sha256d (data : bytes) : bytes := sha256 (sha256 data).

(** Models [hashcredit_prover/bitcoin.py], [reverse_bytes]. *)
Definition reverse_bytes (data : bytes) : bytes := rev data.

(** Models [hashcredit_prover/bitcoin.py], [bytes_to_hex_le]. *)
Definition bytes_to_hex_le (data : bytes) : string := hex (reverse_bytes data).

(** [bytes.fromhex] *)
Definition fromhex (s : string) : res bytes :=
  match unhex s with
  | Some b => Ok b
  | None => Raise (Exn ValueError "non-hexadecimal number found in fromhex() arg")
  end.

(** Models [hashcredit_prover/bitcoin.py], [hex_le_to_bytes]. *)
Definition hex_le_to_bytes (hex_str : string) : res bytes := rbind (fromhex hex_str) (fun b => Ok (reverse_bytes b)).

(** Models [hashcredit_prover/bitcoin.py], [txid_display_to_internal]. *)
Definition txid_display_to_internal (txid_display : string) : res bytes := hex_le_to_bytes txid_display.

(** Models [hashcredit_prover/bitcoin.py], [txid_internal_to_display]. *)
Definition txid_internal_to_display (txid_internal : bytes) : string := bytes_to_hex_le txid_internal.

(** * Block headers *)

(** Models [hashcredit_prover/bitcoin.py], [BlockHeader], lines 68-77. *)
Record BlockHeader := {
  version : Z;
  prev_block_hash : bytes;
  merkle_root : bytes;
  timestamp : Z;
  bits : Z;
  nonce : Z;
}.

(** Models [hashcredit_prover/bitcoin.py], [BlockHeader.from_bytes]. *)
Definition from_bytes (data : bytes) : res BlockHeader :=
  if negb (zlen data =? 80) then Raise (Exn ValueError "Header must be 80 bytes")
  else Ok {| version := le_int (slice 0 4 data);
             prev_block_hash := slice 4 36 data;
             merkle_root := slice 36 68 data;
             timestamp := le_int (slice 68 72 data);
             bits := le_int (slice 72 76 data);
             nonce := le_int (slice 76 80 data) |}.

(** Models [hashcredit_prover/bitcoin.py], [BlockHeader.to_bytes]. *)
Definition to_bytes (h : BlockHeader) : res bytes :=
  rbind (to_bytes_le 4 (version h)) (fun v =>
  rbind (to_bytes_le 4 (timestamp h)) (fun t =>
  rbind (to_bytes_le 4 (bits h)) (fun b =>
  rbind (to_bytes_le 4 (nonce h)) (fun n =>
  Ok (v ++ prev_block_hash h ++ merkle_root h ++ t ++ b ++ n))))).

(** Models [hashcredit_prover/bitcoin.py], [BlockHeader.block_hash]. *)
Definition block_hash (h : BlockHeader) : res bytes := rbind (to_bytes h) (fun d => Ok (sha256d d)).

(** Models [hashcredit_prover/bitcoin.py], [BlockHeader.block_hash_hex]. *)
Definition block_hash_hex (h : BlockHeader) : res string := rbind (block_hash h) (fun d => Ok (bytes_to_hex_le d)).

(** * Merkle trees *)

(** [if len(hashes) % 2 == 1: hashes.append(hashes[-1])] *)
Definition dup_last (l : list bytes) : list bytes :=
  if Z.odd (zlen l) then l ++ [List.last l []] else l.

(** The inner loop over [range(0, len(hashes), 2)], the length being even. *)
Fixpoint pair_hashes (l : list bytes) : list bytes :=
  match l with
  | a :: b :: l' => sha256d (a ++ b) :: pair_hashes l'
  | _ => []
  end.

Definition next_level (l : list bytes) : list bytes := pair_hashes (dup_last l).

(** [while len(hashes) > 1]; one unit of fuel per level. *)
Fixpoint root_loop (fuel : nat) (l : list bytes) : res bytes :=
  match l with
  | [] => Raise (Exn IndexError "list index out of range")
  | [h] => Ok h
  | _ => match fuel with
         | O => Raise (Exn OutOfFuel "")
         | S n => root_loop n (next_level l)
         end
  end.

(** Models [hashcredit_prover/bitcoin.py], [compute_merkle_root]. *)
Definition compute_merkle_root (txids : list bytes) : res bytes :=
  match txids with
  | [] => Raise (Exn ValueError "Cannot compute Merkle root of empty list")
  | _ => root_loop (length txids) txids
  end.

(** The loop of [generate_merkle_proof]: the siblings, then the root. *)
Fixpoint proof_loop (fuel : nat) (l : list bytes) (index : Z) (proof : list bytes) : res (list bytes * bytes) :=
  match l with
  | [] => Raise (Exn IndexError "list index out of range")
  | [h] => Ok (proof, h)
  | _ => match fuel with
         | O => Raise (Exn OutOfFuel "")
         | S n =>
             let hashes := dup_last l in
             rbind (py_nth hashes (Z.lxor index 1)) (fun sibling =>
             proof_loop n (pair_hashes hashes) (index / 2) (proof ++ [sibling]))
         end
  end.

(** Models [hashcredit_prover/bitcoin.py], [generate_merkle_proof]. *)
Definition generate_merkle_proof (txids : list bytes) (tx_index : Z) : res (list bytes * bytes) :=
  match txids with
  | [] => Raise (Exn ValueError "Cannot generate proof for empty list")
  | _ =>
      if (tx_index <? 0) || (zlen txids <=? tx_index) then Raise (Exn ValueError "tx_index out of range")
      else proof_loop (length txids) txids tx_index []
  end.

(** One turn of the loop of [verify_merkle_proof]. *)
Definition merkle_step (st : bytes * Z) (sibling : bytes) : bytes * Z :=
  let current := st.1 in let index := st.2 in
  ((if Z.land index 1 =? 0 then sha256d (current ++ sibling) else sha256d (sibling ++ current)), index / 2).

Definition merkle_fold (txid : bytes) (proof : list bytes) (index : Z) : bytes :=
  (fold_left merkle_step proof (txid, index)).1.

(** Models [hashcredit_prover/bitcoin.py], [verify_merkle_proof]. *)
Definition verify_merkle_proof (txid root : bytes) (proof : list bytes) (tx_index : Z) : bool :=
  bool_decide (merkle_fold txid proof tx_index = root).

(** * Transactions *)

(** Models [hashcredit_prover/bitcoin.py], [parse_varint]. *)
Definition parse_varint (data : bytes) (offset : Z) : res (Z * Z) :=
  rbind (py_nth data offset) (fun first =>
  if first <? 0xFD then Ok (first, offset + 1)
  else if first =? 0xFD then Ok (le_int (slice (offset + 1) (offset + 3) data), offset + 3)
  else if first =? 0xFE then Ok (le_int (slice (offset + 1) (offset + 5) data), offset + 5)
  else Ok (le_int (slice (offset + 1) (offset + 9) data), offset + 9)).

(** Models [hashcredit_prover/bitcoin.py], [TxOutput]. *)
Record TxOutput := { value : Z; script_pubkey : bytes }.

(** The loop over the inputs: the offset after them.  [fuel] bounds the turns
    the data allows, not [range(input_count)]. *)
Fixpoint skip_inputs (fuel : nat) (count : Z) (raw_tx : bytes) (offset : Z) : res Z :=
  if count <=? 0 then Ok offset
  else match fuel with
       | O => Raise (Exn OutOfFuel "")
       | S n =>
           rbind (parse_varint raw_tx (offset + 32 + 4)) (fun '(script_len, offset) =>
           skip_inputs n (count - 1) raw_tx (offset + script_len + 4))
       end.

(** The loop over the outputs. *)
Fixpoint read_outputs (fuel : nat) (count : Z) (raw_tx : bytes) (offset : Z) (outputs : list TxOutput) :
    res (list TxOutput) :=
  if count <=? 0 then Ok outputs
  else match fuel with
       | O => Raise (Exn OutOfFuel "")
       | S n =>
           let v := le_int (slice offset (offset + 8) raw_tx) in
           rbind (parse_varint raw_tx (offset + 8)) (fun '(script_len, offset) =>
           read_outputs n (count - 1) raw_tx (offset + script_len)
             (outputs ++ [{| value := v; script_pubkey := slice offset (offset + script_len) raw_tx |}]))
       end.

(** [raw_tx[offset] == 0x00 and raw_tx[offset + 1] == 0x01] *)
Definition witness_marker (raw_tx : bytes) (offset : Z) : res bool :=
  rbind (py_nth raw_tx offset) (fun a =>
  if a =? 0 then rbind (py_nth raw_tx (offset + 1)) (fun b => Ok (b =? 1)) else Ok false).

(** Models [hashcredit_prover/bitcoin.py], [parse_tx_outputs]. *)
Definition parse_tx_outputs (raw_tx : bytes) : res (list TxOutput) :=
  rbind (witness_marker raw_tx 4) (fun marker =>
  let offset := if marker then 4 + 2 else 4 in
  rbind (parse_varint raw_tx offset) (fun '(input_count, offset) =>
  rbind (skip_inputs (S (length raw_tx)) input_count raw_tx offset) (fun offset =>
  rbind (parse_varint raw_tx offset) (fun '(output_count, offset) =>
  read_outputs (S (length raw_tx)) output_count raw_tx offset [])))).

Definition byte_at (l : bytes) (i : nat) : Z := nth i l 0.

Inductive script_type := P2WPKH | P2PKH | SCRIPT_UNKNOWN.

(** Models [hashcredit_prover/bitcoin.py], [extract_pubkey_hash]. *)
Definition extract_pubkey_hash (s : bytes) : option bytes * script_type :=
  if (zlen s =? 22) && (byte_at s 0 =? 0x00) && (byte_at s 1 =? 0x14) then (Some (slice 2 22 s), P2WPKH)
  else if (zlen s =? 25) && (byte_at s 0 =? 0x76) && (byte_at s 1 =? 0xA9) && (byte_at s 2 =? 0x14)
          && (byte_at s 23 =? 0x88) && (byte_at s 24 =? 0xAC) then (Some (slice 3 23 s), P2PKH)
  else (None, SCRIPT_UNKNOWN).

(** Models [hashcredit_api/btc_signmessage.py], [_encode_varint]. *)
Definition encode_varint (n : Z) : res bytes :=
  if n <? 0 then Raise (Exn ValueError "varint must be non-negative")
  else if n <? 0xFD then Ok [n]
  else if n <=? 0xFFFF then rbind (to_bytes_le 2 n) (fun b => Ok (0xFD :: b))
  else if n <=? 0xFFFFFFFF then rbind (to_bytes_le 4 n) (fun b => Ok (0xFE :: b))
  else rbind (to_bytes_le 8 n) (fun b => Ok (0xFF :: b)).

(** * Lemmas *)

Lemma zlen_app {A} (l k : list A) : zlen (l ++ k) = zlen l + zlen k.
Proof. unfold zlen. rewrite length_app. lia. Qed.

Lemma zlen_nonneg {A} (l : list A) : 0 <= zlen l.
Proof. unfold zlen. lia. Qed.

Lemma sha256d_length d : length (sha256d d) = 32%nat.
Proof. apply sha256_length. Qed.

Lemma sha256d_bytes d : is_bytes (sha256d d).
Proof. apply sha256_bytes. Qed.

Lemma hex_le_roundtrip d : is_bytes d -> hex_le_to_bytes (bytes_to_hex_le d) = Ok d.
Proof.
  intros Hd. unfold hex_le_to_bytes, bytes_to_hex_le, fromhex, reverse_bytes.
  rewrite unhex_hex by (by apply Forall_rev). cbn. by rewrite rev_involutive.
Qed.

(** ** Merkle trees *)

Lemma lxor_even j : 0 <= j -> Z.lxor (2 * j) 1 = 2 * j + 1.
Proof. intros Hj. destruct j as [|p|p]; [reflexivity|reflexivity|lia]. Qed.

Lemma lxor_odd j : 0 <= j -> Z.lxor (2 * j + 1) 1 = 2 * j.
Proof. intros Hj. destruct j as [|p|p]; [reflexivity|reflexivity|lia]. Qed.

Lemma land_even j : 0 <= j -> Z.land (2 * j) 1 = 0.
Proof. intros Hj. destruct j as [|p|p]; [reflexivity|reflexivity|lia]. Qed.

Lemma land_odd j : 0 <= j -> Z.land (2 * j + 1) 1 = 1.
Proof. intros Hj. destruct j as [|p|p]; [reflexivity|reflexivity|lia]. Qed.

Lemma pair_hashes_lookup l j a b :
  l !! (2 * j)%nat = Some a -> l !! (2 * j + 1)%nat = Some b -> pair_hashes l !! j = Some (sha256d (a ++ b)).
Proof.
  revert l. induction j as [|j IH]; intros l Ha Hb; destruct l as [|x [|y l]]; try done.
  - cbn in *. congruence.
  - cbn. apply IH.
    + rewrite <- Ha. by replace (2 * S j)%nat with (S (S (2 * j))) by lia.
    + rewrite <- Hb. by replace (2 * S j + 1)%nat with (S (S (2 * j + 1))) by lia.
Qed.

Lemma pair_hashes_length l : length (pair_hashes l) = Nat.div2 (length l).
Proof.
  assert (H : forall n l, (length l <= n)%nat -> length (pair_hashes l) = Nat.div2 (length l)).
  { clear l. induction n as [|n IH]; intros l Hl; destruct l as [|a [|b l]]; cbn in *; try lia.
    f_equal. apply IH. lia. }
  by apply (H (length l)).
Qed.

Lemma dup_last_spec l :
  (2 <= length l)%nat ->
  exists m, length (dup_last l) = (2 * m)%nat /\ (length l <= 2 * m)%nat /\ (m < length l)%nat /\
    forall i x, l !! i = Some x -> dup_last l !! i = Some x.
Proof.
  intros Hl. unfold dup_last, zlen. destruct (Z.odd (Z.of_nat (length l))) eqn:Ho.
  - apply Z.odd_spec in Ho as [k Hk]. exists (Z.to_nat (k + 1)). rewrite length_app. cbn [length].
    split_and!; try lia. intros i x Hi. by apply lookup_app_l_Some.
  - assert (He : Z.even (Z.of_nat (length l)) = true) by (rewrite <- Z.negb_odd; by rewrite Ho).
    apply Z.even_spec in He as [k Hk]. exists (Z.to_nat k). split_and!; try lia. done.
Qed.

Lemma next_level_length l :
  (2 <= length l)%nat -> (1 <= length (next_level l) < length l)%nat.
Proof.
  intros Hl. destruct (dup_last_spec l Hl) as (m & Hm & Hle & Hlt & _). unfold next_level.
  rewrite pair_hashes_length, Hm, Nat.div2_double. lia.
Qed.

Lemma next_level_bytes32 l : Forall (fun h => length h = 32%nat) (next_level l).
Proof.
  unfold next_level. generalize (dup_last l). intros k.
  assert (H : forall n k, (length k <= n)%nat -> Forall (fun h => length h = 32%nat) (pair_hashes k)).
  { induction n as [|n IH]; intros k' Hk; destruct k' as [|a [|b k']]; cbn in *; try lia; try constructor.
    - apply sha256d_length.
    - apply IH. lia. }
  by apply (H (length k)).
Qed.

Lemma last_cons_lookup (l : list bytes) : l <> [] -> last l = Some (List.last l []).
Proof.
  intros Hl. induction l as [|x l IH]; [done|]. destruct l as [|y l]; [done|].
  change (last (x :: y :: l)) with (last (y :: l)). rewrite IH by done. done.
Qed.

Lemma dup_last_Forall (P : bytes -> Prop) l : l <> [] -> Forall P l -> Forall P (dup_last l).
Proof.
  intros Hne Hl. unfold dup_last. destruct (Z.odd _); [|done]. apply Forall_app. split; [done|].
  constructor; [|done]. rewrite Forall_forall in Hl. apply Hl.
  pose proof (last_cons_lookup l Hne) as Hlast. by apply last_Some_elem_of.
Qed.

(** The sibling the generator picks and the parent the verifier computes. *)
Lemma level_step l k x :
  (2 <= length l)%nat -> l !! k = Some x ->
  exists s, py_nth (dup_last l) (Z.lxor (Z.of_nat k) 1) = Ok s /\ s ∈ dup_last l /\
    next_level l !! Z.to_nat (Z.of_nat k / 2) = Some (merkle_step (x, Z.of_nat k) s).1.
Proof.
  intros Hl Hx. destruct (dup_last_spec l Hl) as (m & Hm & _ & _ & Hkeep).
  pose proof (lookup_lt_Some _ _ _ Hx) as Hk. apply Hkeep in Hx. pose proof (lookup_lt_Some _ _ _ Hx) as Hkd.
  assert (Hpar : exists j, k = (2 * j)%nat \/ k = (2 * j + 1)%nat).
  { exists (Nat.div2 k). pose proof (Nat.div2_odd k) as Hd. destruct (Nat.odd k); cbn [Nat.b2n] in Hd; lia. }
  destruct Hpar as [j [-> | ->]].
  - assert (Hs : is_Some (dup_last l !! (2 * j + 1)%nat)) by (apply lookup_lt_is_Some; lia).
    destruct Hs as [s Hs]. exists s. unfold merkle_step. cbn [fst snd].
    replace (Z.of_nat (2 * j)) with (2 * Z.of_nat j) by lia. rewrite lxor_even, land_even by lia. cbn [Z.eqb].
    split_and!.
    + apply py_nth_Ok; [lia|]. by replace (Z.to_nat (2 * Z.of_nat j + 1)) with (2 * j + 1)%nat by lia.
    + by eapply list_elem_of_lookup_2.
    + rewrite (Z.mul_comm 2), Z.div_mul, Nat2Z.id by lia. by apply pair_hashes_lookup.
  - assert (Hs : is_Some (dup_last l !! (2 * j)%nat)) by (apply lookup_lt_is_Some; lia).
    destruct Hs as [s Hs]. exists s. unfold merkle_step. cbn [fst snd].
    replace (Z.of_nat (2 * j + 1)) with (2 * Z.of_nat j + 1) by lia. rewrite lxor_odd, land_odd by lia. cbn [Z.eqb].
    split_and!.
    + apply py_nth_Ok; [lia|]. by replace (Z.to_nat (2 * Z.of_nat j)) with (2 * j)%nat by lia.
    + by eapply list_elem_of_lookup_2.
    + replace ((2 * Z.of_nat j + 1) / 2) with (Z.of_nat j) by (apply (Z.div_unique _ _ _ 1); lia).
      rewrite Nat2Z.id. by apply pair_hashes_lookup.
Qed.

Definition hash32 (h : bytes) : Prop := length h = 32%nat.

Lemma proof_loop_spec fuel l k x acc :
  (length l <= fuel)%nat -> l !! k = Some x ->
  exists p r, proof_loop fuel l (Z.of_nat k) acc = Ok (acc ++ p, r) /\ root_loop fuel l = Ok r /\
    merkle_fold x p (Z.of_nat k) = r /\ (Forall hash32 l -> Forall hash32 p).
Proof.
  revert l k x acc. induction fuel as [|fuel IH]; intros l k x acc Hfuel Hx.
  { destruct l; [done|]. cbn in Hfuel. lia. }
  destruct l as [|h [|h2 l]]; [done| |].
  - destruct k; [|done]. injection Hx as <-. exists [], h. cbn. rewrite app_nil_r. by split_and!.
  - set (lv := h :: h2 :: l) in *. assert (Hl : (2 <= length lv)%nat) by (cbn; lia).
    destruct (level_step lv k x Hl Hx) as (s & Hs & Hin & Hnext).
    pose proof (next_level_length lv Hl) as [_ Hlen].
    assert (Hk2 : Z.of_nat k / 2 = Z.of_nat (Z.to_nat (Z.of_nat k / 2))).
    { rewrite Z2Nat.id; [done|]. apply Z.div_pos; lia. }
    destruct (IH (next_level lv) (Z.to_nat (Z.of_nat k / 2)) _ (acc ++ [s]) ltac:(lia) Hnext) as (p & r & Hp & Hr & Hf & H32).
    exists (s :: p), r. change (proof_loop (S fuel) lv (Z.of_nat k) acc) with
      (rbind (py_nth (dup_last lv) (Z.lxor (Z.of_nat k) 1)) (fun sibling =>
       proof_loop fuel (pair_hashes (dup_last lv)) (Z.of_nat k / 2) (acc ++ [sibling]))).
    rewrite Hs. cbn [rbind]. rewrite Hk2. split_and!.
    + rewrite <- app_assoc in Hp. exact Hp.
    + exact Hr.
    + rewrite <- Hf. unfold merkle_fold. cbn [fold_left]. by rewrite <- Hk2.
    + intros H0. constructor; [|apply H32, next_level_bytes32].
      pose proof (dup_last_Forall hash32 lv ltac:(done) H0) as Hd. rewrite Forall_forall in Hd. by apply Hd.
Qed.

Definition collision : Prop := exists x y, x <> y /\ sha256d x = sha256d y.

Lemma merkle_step_length st s : hash32 (merkle_step st s).1.
Proof. unfold merkle_step. cbn. destruct (_ =? 0); apply sha256d_length. Qed.

Lemma merkle_step_inj t t' i s s' :
  hash32 t -> hash32 t' -> hash32 s -> hash32 s' ->
  (merkle_step (t, i) s).1 = (merkle_step (t', i) s').1 -> (t = t' /\ s = s') \/ collision.
Proof.
  unfold hash32, merkle_step. cbn. intros Ht Ht' Hs Hs'. destruct (_ =? 0); intros Heq.
  - destruct (decide (t ++ s = t' ++ s')) as [He|Hne]; [|right; by eexists _, _].
    left. apply app_inj_1 in He; [done|congruence].
  - destruct (decide (s ++ t = s' ++ t')) as [He|Hne]; [|right; by eexists _, _].
    left. apply app_inj_1 in He as [? ?]; [done|congruence].
Qed.

Lemma merkle_fold_inj p p' t t' i :
  length p = length p' -> hash32 t -> hash32 t' -> Forall hash32 p -> Forall hash32 p' ->
  merkle_fold t p i = merkle_fold t' p' i -> (t = t' /\ p = p') \/ collision.
Proof.
  unfold merkle_fold. revert p' t t' i. induction p as [|s p IH]; intros [|s' p'] t t' i; try done.
  - cbn. intros _ _ _ _ _ ->. by left.
  - cbn [length fold_left]. intros [= Hlen] Ht Ht' [Hs Hp]%Forall_cons [Hs' Hp']%Forall_cons Heq.
    destruct (IH p' (merkle_step (t, i) s).1 (merkle_step (t', i) s').1 (i / 2) Hlen
      (merkle_step_length _ _) (merkle_step_length _ _) Hp Hp' Heq) as [[Hst ->]|?]; [|by right].
    destruct (merkle_step_inj t t' i s s' Ht Ht' Hs Hs' Hst) as [[-> ->]|?]; [by left|by right].
Qed.

(** ** Varints and transactions *)

Lemma py_nth_Raise {A} (l : list A) i e : py_nth l i = Raise e -> exn_kind e = IndexError.
Proof. unfold py_nth. repeat case_match; intros; by simplify_eq. Qed.

Lemma py_nth_bound {A} (l : list A) i x : 0 <= i -> py_nth l i = Ok x -> i < zlen l.
Proof. intros Hi Hx. apply py_nth_Ok in Hx; [|done]. apply lookup_lt_Some in Hx. unfold zlen. lia. Qed.

Lemma slice_bytes a b l : is_bytes l -> is_bytes (slice a b l).
Proof. intros Hl. unfold slice. by apply Forall_take, Forall_drop. Qed.

Lemma parse_varint_Ok data off v off' :
  is_bytes data -> 0 <= off -> parse_varint data off = Ok (v, off') -> 0 <= v /\ off < off' /\ off < zlen data.
Proof.
  intros Hd Hoff (first & Hf & H)%rbind_Ok. pose proof (py_nth_bound _ _ _ Hoff Hf) as Hlt.
  assert (Hb : is_byte first).
  { apply py_nth_Ok in Hf; [|done]. rewrite Forall_forall in Hd. apply Hd. by eapply list_elem_of_lookup_2. }
  assert (Hs : forall a b, 0 <= le_int (slice a b data)).
  { intros a b. pose proof (le_int_bound _ (slice_bytes a b _ Hd)). lia. }
  unfold is_byte in Hb. repeat (case_match; simplify_eq); split_and!; try lia; apply Hs.
Qed.

Lemma parse_varint_Raise data off e : parse_varint data off = Raise e -> exn_kind e = IndexError.
Proof.
  unfold parse_varint. destruct (py_nth data off) as [x|e'] eqn:Hf; cbn.
  - repeat case_match; done.
  - intros [= <-]. by eapply py_nth_Raise.
Qed.

Definition in_time {A} (r : res A) : Prop := forall e, r = Raise e -> exn_kind e = IndexError.

Lemma in_time_bind {A B} (r : res A) (f : A -> res B) :
  in_time r -> (forall a, r = Ok a -> in_time (f a)) -> in_time (rbind r f).
Proof. intros Hr Hf. destruct r as [a|e]; cbn; [by apply Hf|]. intros e' [= <-]. by apply Hr. Qed.

Lemma varint_in_time data off : in_time (parse_varint data off).
Proof. intros e. apply parse_varint_Raise. Qed.

Lemma skip_inputs_unfold n count raw off :
  skip_inputs (S n) count raw off =
  if count <=? 0 then Ok off
  else rbind (parse_varint raw (off + 32 + 4)) (fun '(script_len, offset) =>
       skip_inputs n (count - 1) raw (offset + script_len + 4)).
Proof. done. Qed.

Lemma read_outputs_unfold n count raw off outs :
  read_outputs (S n) count raw off outs =
  if count <=? 0 then Ok outs
  else rbind (parse_varint raw (off + 8)) (fun '(script_len, offset) =>
       read_outputs n (count - 1) raw (offset + script_len)
         (outs ++ [{| value := le_int (slice off (off + 8) raw);
                      script_pubkey := slice offset (offset + script_len) raw |}])).
Proof. done. Qed.

(** The fuel is never what stops the loops. *)
Lemma skip_inputs_in_time n count raw off :
  is_bytes raw -> 0 <= off -> zlen raw <= off + Z.of_nat n ->
  in_time (skip_inputs (S n) count raw off) /\ forall off', skip_inputs (S n) count raw off = Ok off' -> 0 <= off'.
Proof.
  intros Hraw. revert count off. induction n as [|n IH]; intros count off Hoff Hn; rewrite skip_inputs_unfold.
  all: destruct (count <=? 0); [split; [by intros e [=]|by intros off' [= <-]]|].
  all: destruct (parse_varint raw (off + 32 + 4)) as [[v o]|e] eqn:Hp; cbn [rbind].
  all: try (split; [by intros e' [= <-]; apply parse_varint_Raise in Hp|done]).
  all: apply parse_varint_Ok in Hp as (Hv & Ho & Hlt); [|done|lia].
  - lia.
  - apply IH; lia.
Qed.

Lemma read_outputs_in_time n count raw off outs :
  is_bytes raw -> 0 <= off -> zlen raw <= off + Z.of_nat n -> in_time (read_outputs (S n) count raw off outs).
Proof.
  intros Hraw. revert count off outs. induction n as [|n IH]; intros count off outs Hoff Hn; rewrite read_outputs_unfold.
  all: destruct (count <=? 0); [by intros e [=]|].
  all: apply in_time_bind; [apply varint_in_time|]; intros [v o] Hp.
  all: apply parse_varint_Ok in Hp as (Hv & Ho & Hlt); [|done|lia].
  - lia.
  - apply IH; lia.
Qed.

Lemma witness_marker_in_time raw off : in_time (witness_marker raw off).
Proof.
  unfold witness_marker. apply in_time_bind; [intros e; apply py_nth_Raise|]. intros a _.
  destruct (a =? 0); [|by intros e [=]]. apply in_time_bind; [intros e; apply py_nth_Raise|]. by intros b _ e [=].
Qed.

Lemma parse_tx_outputs_in_time raw : is_bytes raw -> in_time (parse_tx_outputs raw).
Proof.
  intros Hraw. unfold parse_tx_outputs. apply in_time_bind; [apply witness_marker_in_time|]. intros marker _.
  apply in_time_bind; [apply varint_in_time|]. intros [n off] Hn.
  apply parse_varint_Ok in Hn as (Hnn & Hoff & _); [|done|destruct marker; lia].
  assert (Hoff0 : 0 <= off) by (destruct marker; lia).
  assert (Hfuel : forall o, 0 <= o -> zlen raw <= o + Z.of_nat (length raw)) by (unfold zlen; lia).
  destruct (skip_inputs_in_time (length raw) n raw off Hraw Hoff0 (Hfuel _ Hoff0)) as [Hs Hpos].
  apply in_time_bind; [exact Hs|]. intros off2 Hoff2%Hpos. apply in_time_bind; [apply varint_in_time|].
  intros [m off3] Hm. apply parse_varint_Ok in Hm as (_ & Hoff3 & _); [|done|done].
  apply read_outputs_in_time; [done|lia|apply Hfuel; lia].
Qed.

(** ** A reference serialisation *)

Record TxInput := { prevout : bytes; script_sig : bytes; sequence : bytes }.

Definition varint (n : Z) : bytes := match encode_varint n with Ok b => b | Raise _ => [] end.

Definition encode_input (i : TxInput) : bytes :=
  prevout i ++ varint (zlen (script_sig i)) ++ script_sig i ++ sequence i.

Definition encode_output (o : TxOutput) : bytes :=
  le_bytes 8 (value o) ++ varint (zlen (script_pubkey o)) ++ script_pubkey o.

Definition encode_tx (ver : bytes) (segwit : bool) (ins : list TxInput) (outs : list TxOutput) (tail_ : bytes) : bytes :=
  ver ++ (if segwit then [0; 1] else []) ++ varint (zlen ins) ++ List.concat (map encode_input ins) ++
  varint (zlen outs) ++ List.concat (map encode_output outs) ++ tail_.

Definition input_ok (i : TxInput) : Prop :=
  zlen (prevout i) = 36 /\ zlen (sequence i) = 4 /\ zlen (script_sig i) < 2 ^ 64.
Definition output_ok (o : TxOutput) : Prop := 0 <= value o < 2 ^ 64 /\ zlen (script_pubkey o) < 2 ^ 64.

Lemma py_nth_app {A} (p : list A) x q : py_nth (p ++ x :: q) (zlen p) = Ok x.
Proof. apply py_nth_Ok; [apply zlen_nonneg|]. unfold zlen. rewrite Nat2Z.id. by apply list_lookup_middle. Qed.

Lemma py_nth_app2 {A} (p : list A) x y q : py_nth (p ++ x :: y :: q) (zlen p + 1) = Ok y.
Proof.
  replace (zlen p + 1) with (zlen (p ++ [x])) by (by rewrite zlen_app).
  replace (p ++ x :: y :: q) with ((p ++ [x]) ++ y :: q) by (by rewrite <- app_assoc). apply py_nth_app.
Qed.

Lemma slice_field {A} (p x q : list A) off len :
  off = zlen p -> len = zlen x -> slice off (off + len) (p ++ x ++ q) = x.
Proof. intros -> ->. apply slice_app. Qed.

Lemma parse_varint_encode pre n post :
  0 <= n < 2 ^ 64 -> parse_varint (pre ++ varint n ++ post) (zlen pre) = Ok (n, zlen pre + zlen (varint n)).
Proof.
  intros Hn. unfold varint, encode_varint. rewrite (proj2 (Z.ltb_ge n 0)) by lia.
  destruct (Z.ltb_spec n 0xFD) as [H1|H1].
  { unfold parse_varint. cbn [app]. rewrite py_nth_app. cbn [rbind]. rewrite (proj2 (Z.ltb_lt n 0xFD)) by lia. done. }
  assert (Hw : forall k w tag, 0 <= n < 256 ^ Z.of_nat k -> w = 1 + Z.of_nat k ->
    rbind (to_bytes_le k n) (fun b => Ok (tag :: b)) = Ok (tag :: le_bytes k n) /\
    py_nth (pre ++ (tag :: le_bytes k n) ++ post) (zlen pre) = Ok tag /\
    le_int (slice (zlen pre + 1) (zlen pre + w) (pre ++ (tag :: le_bytes k n) ++ post)) = n /\
    zlen (tag :: le_bytes k n) = w).
  { intros k w tag Hk ->. split_and!.
    - by rewrite (proj2 (to_bytes_le_Ok k n _) (conj Hk eq_refl)).
    - apply py_nth_app.
    - replace (pre ++ (tag :: le_bytes k n) ++ post) with ((pre ++ [tag]) ++ le_bytes k n ++ post)
        by (by rewrite <- app_assoc).
      replace (zlen pre + (1 + Z.of_nat k)) with (zlen pre + 1 + Z.of_nat k) by lia.
      rewrite slice_field; [by apply le_int_bytes|by rewrite zlen_app|]. unfold zlen. by rewrite le_bytes_length.
    - unfold zlen. cbn [length]. rewrite le_bytes_length. lia. }
  unfold parse_varint.
  destruct (Z.leb_spec n 0xFFFF) as [H2|H2]; [|destruct (Z.leb_spec n 0xFFFFFFFF) as [H3|H3]].
  - destruct (Hw 2%nat 3 0xFD) as (-> & -> & Hv & ->); [lia..|]. cbn [rbind].
    change (0xFD <? 0xFD) with false. change (0xFD =? 0xFD) with true. cbv iota. by rewrite Hv.
  - destruct (Hw 4%nat 5 0xFE) as (-> & -> & Hv & ->); [lia..|]. cbn [rbind].
    change (0xFE <? 0xFD) with false. change (0xFE =? 0xFD) with false. change (0xFE =? 0xFE) with true.
    cbv iota. by rewrite Hv.
  - destruct (Hw 8%nat 9 0xFF) as (-> & -> & Hv & ->); [lia..|]. cbn [rbind].
    change (0xFF <? 0xFD) with false. change (0xFF =? 0xFD) with false. change (0xFF =? 0xFE) with false.
    cbv iota. by rewrite Hv.
Qed.

Lemma parse_varint_at pre n post raw off :
  raw = pre ++ varint n ++ post -> off = zlen pre -> 0 <= n < 2 ^ 64 ->
  parse_varint raw off = Ok (n, off + zlen (varint n)).
Proof. intros -> -> Hn. by apply parse_varint_encode. Qed.

Lemma skip_inputs_encode ins fuel pre post :
  Forall input_ok ins -> (length ins <= fuel)%nat ->
  skip_inputs (S fuel) (zlen ins) (pre ++ List.concat (map encode_input ins) ++ post) (zlen pre)
  = Ok (zlen pre + zlen (List.concat (map encode_input ins))).
Proof.
  intros Hok. revert fuel pre. induction Hok as [|i ins (Hp & Hs & Hl) _ IH]; intros fuel pre Hfuel.
  { cbn. by rewrite Z.add_0_r. }
  destruct fuel as [|fuel]; [cbn in Hfuel; lia|]. rewrite skip_inputs_unfold.
  assert (Hn : zlen (i :: ins) = zlen ins + 1) by (unfold zlen; cbn [length]; lia).
  pose proof (zlen_nonneg ins). rewrite (proj2 (Z.leb_gt (zlen (i :: ins)) 0)) by lia. cbn [map List.concat].
  set (rest := List.concat (map encode_input ins)).
  rewrite (parse_varint_at (pre ++ prevout i) (zlen (script_sig i)) (script_sig i ++ sequence i ++ rest ++ post)).
  2: { unfold encode_input. by rewrite <- !app_assoc. }
  2: { rewrite zlen_app. lia. }
  2: { pose proof (zlen_nonneg (script_sig i)). lia. }
  cbn [rbind]. rewrite Hn. replace (zlen ins + 1 - 1) with (zlen ins) by lia.
  specialize (IH fuel (pre ++ encode_input i) ltac:(cbn in Hfuel; lia)). fold rest in IH.
  rewrite <- !app_assoc in IH. rewrite <- app_assoc.
  assert (Hlen : zlen (pre ++ encode_input i)
    = zlen pre + 32 + 4 + zlen (varint (zlen (script_sig i))) + zlen (script_sig i) + 4).
  { unfold encode_input. rewrite !zlen_app. lia. }
  rewrite <- Hlen. rewrite IH. rewrite !zlen_app. f_equal. lia.
Qed.

Lemma read_outputs_encode outs fuel pre post acc :
  Forall output_ok outs -> (length outs <= fuel)%nat ->
  read_outputs (S fuel) (zlen outs) (pre ++ List.concat (map encode_output outs) ++ post) (zlen pre) acc = Ok (acc ++ outs).
Proof.
  intros Hok. revert fuel pre acc. induction Hok as [|o outs (Hv & Hl) _ IH]; intros fuel pre acc Hfuel.
  { cbn. by rewrite app_nil_r. }
  destruct fuel as [|fuel]; [cbn in Hfuel; lia|]. rewrite read_outputs_unfold.
  assert (Hn : zlen (o :: outs) = zlen outs + 1) by (unfold zlen; cbn [length]; lia).
  pose proof (zlen_nonneg outs). rewrite (proj2 (Z.leb_gt (zlen (o :: outs)) 0)) by lia. cbn [map List.concat].
  set (rest := List.concat (map encode_output outs)).
  assert (H8 : zlen (le_bytes 8 (value o)) = 8) by (unfold zlen; by rewrite le_bytes_length).
  rewrite (parse_varint_at (pre ++ le_bytes 8 (value o)) (zlen (script_pubkey o)) (script_pubkey o ++ rest ++ post)).
  2: { unfold encode_output. by rewrite <- !app_assoc. }
  2: { rewrite zlen_app. lia. }
  2: { pose proof (zlen_nonneg (script_pubkey o)). lia. }
  cbn [rbind]. rewrite Hn. replace (zlen outs + 1 - 1) with (zlen outs) by lia.
  specialize (IH fuel (pre ++ encode_output o) (acc ++ [o]) ltac:(cbn in Hfuel; lia)). fold rest in IH.
  assert (Hlen : zlen (pre ++ encode_output o)
    = zlen pre + 8 + zlen (varint (zlen (script_pubkey o))) + zlen (script_pubkey o)).
  { unfold encode_output. rewrite !zlen_app. lia. }
  rewrite <- Hlen. rewrite <- app_assoc.
  assert (Hval : slice (zlen pre) (zlen pre + 8) (pre ++ encode_output o ++ rest ++ post) = le_bytes 8 (value o)).
  { unfold encode_output. rewrite <- !app_assoc. by apply slice_field. }
  assert (Hscr : slice (zlen pre + 8 + zlen (varint (zlen (script_pubkey o)))) (zlen (pre ++ encode_output o))
                   (pre ++ encode_output o ++ rest ++ post) = script_pubkey o).
  { rewrite Hlen. unfold encode_output. rewrite <- !app_assoc.
    rewrite (app_assoc pre), (app_assoc (pre ++ _)). apply slice_field; [|done]. rewrite !zlen_app. lia. }
  rewrite Hval, Hscr, le_int_bytes by (cbn; lia). rewrite <- app_assoc in IH. rewrite <- !app_assoc in IH.
  destruct o. exact IH.
Qed.

Lemma varint_pos n : 0 <= n < 2 ^ 64 -> varint n <> [].
Proof.
  intros Hn Hv. pose proof (parse_varint_encode [] n [] Hn) as Hp. rewrite Hv in Hp. cbn in Hp. discriminate Hp.
Qed.

Lemma varint_head n : 0 < n < 2 ^ 64 -> exists b l, varint n = b :: l /\ b <> 0.
Proof.
  intros Hn. unfold varint, encode_varint. rewrite (proj2 (Z.ltb_ge n 0)) by lia.
  destruct (Z.ltb_spec n 0xFD); [exists n, []; split; [done|lia]|].
  assert (Hw : forall k, 0 <= n < 256 ^ Z.of_nat k -> to_bytes_le k n = Ok (le_bytes k n))
    by (intros k Hk; by apply to_bytes_le_Ok).
  destruct (Z.leb_spec n 0xFFFF); [|destruct (Z.leb_spec n 0xFFFFFFFF)].
  - rewrite (Hw 2%nat) by lia. by eexists _, _.
  - rewrite (Hw 4%nat) by lia. by eexists _, _.
  - rewrite (Hw 8%nat) by lia. by eexists _, _.
Qed.

Lemma encode_tx_marker ver segwit ins outs tail_ :
  zlen ver = 4 -> ins <> [] -> zlen ins < 2 ^ 64 ->
  witness_marker (encode_tx ver segwit ins outs tail_) 4 = Ok segwit.
Proof.
  intros Hver Hne Hn. unfold witness_marker, encode_tx. rewrite <- Hver. destruct segwit.
  - cbn [app]. rewrite py_nth_app. cbn [rbind Z.eqb].
    by rewrite py_nth_app2.
  - destruct (varint_head (zlen ins)) as (b & l & -> & Hb).
    { unfold zlen in *. destruct ins; [done|]. cbn [length] in *. lia. }
    cbn [app]. rewrite py_nth_app. cbn [rbind]. by destruct (Z.eqb_spec b 0).
Qed.

Lemma concat_length_ge {A} (f : A -> bytes) l :
  Forall (fun x => (1 <= length (f x))%nat) l -> (length l <= length (List.concat (map f l)))%nat.
Proof. induction 1 as [|x l Hx _ IH]; [done|]. cbn. rewrite length_app. lia. Qed.

(** Headers: parsing what a header serialises to gives it back, and every
    80-byte string is the serialisation of its parse, so the block hash is the
    hash of the bytes received. *)
Lemma header_parse data :
  is_bytes data -> zlen data = 80 ->
  exists h, from_bytes data = Ok h /\ to_bytes h = Ok data /\ block_hash h = Ok (sha256d data).
Proof.
  intros Hb Hlen.
  assert (Hs : exists a b c d e f, data = a ++ b ++ c ++ d ++ e ++ f /\ zlen a = 4 /\ zlen b = 32 /\ zlen c = 32 /\
    zlen d = 4 /\ zlen e = 4 /\ zlen f = 4).
  { unfold zlen in *. exists (take 4 data), (take 32 (drop 4 data)), (take 32 (drop 36 data)), (take 4 (drop 68 data)),
      (take 4 (drop 72 data)), (drop 76 data).
    rewrite !length_take, !length_drop. split_and!; [|lia..].
    rewrite <- (take_drop 4 data) at 1. f_equal.
    rewrite <- (take_drop 32 (drop 4 data)) at 1. rewrite drop_drop. f_equal.
    rewrite <- (take_drop 32 (drop (4 + 32) data)) at 1. rewrite drop_drop. f_equal.
    rewrite <- (take_drop 4 (drop (4 + 32 + 32) data)) at 1. rewrite drop_drop. f_equal.
    rewrite <- (take_drop 4 (drop (4 + 32 + 32 + 4) data)) at 1. rewrite drop_drop. done. }
  destruct Hs as (a & b & c & d & e & f & -> & Ha & Hb' & Hc & Hd & He & Hf).
  rewrite !Forall_app in Hb. destruct Hb as (Wa & Wb & Wc & Wd & We & Wf).
  assert (Hfield : forall l, is_bytes l -> zlen l = 4 -> to_bytes_le 4 (le_int l) = Ok l).
  { intros l Hl H4. apply to_bytes_le_Ok. pose proof (le_int_bound l Hl) as Hbd. rewrite H4 in Hbd. split; [exact Hbd|].
    assert (length l = 4%nat) as Hl4 by (unfold zlen in H4; lia). rewrite <- Hl4 at 1. by rewrite le_bytes_int. }
  set (h := {| version := le_int a; prev_block_hash := b; merkle_root := c; timestamp := le_int d; bits := le_int e;
               nonce := le_int f |}).
  assert (Hto : to_bytes h = Ok (a ++ b ++ c ++ d ++ e ++ f)).
  { unfold to_bytes, h. cbn [version timestamp bits nonce prev_block_hash merkle_root]. by rewrite !Hfield. }
  exists h. split_and!; [|exact Hto|unfold block_hash; by rewrite Hto].
  unfold from_bytes. rewrite Hlen. cbn [negb Z.eqb Pos.eqb]. unfold h. f_equal. f_equal.
  - f_equal. apply (slice_field [] a _ 0 4); [done|lia].
  - apply (slice_field a b _ 4 32); lia.
  - rewrite (app_assoc a). apply (slice_field (a ++ b) c _ 36 32); rewrite ?zlen_app; lia.
  - rewrite (app_assoc a), (app_assoc (a ++ b)). f_equal.
    apply (slice_field ((a ++ b) ++ c) d _ 68 4); rewrite ?zlen_app; lia.
  - rewrite (app_assoc a), (app_assoc (a ++ b)), (app_assoc ((a ++ b) ++ c)). f_equal.
    apply (slice_field (((a ++ b) ++ c) ++ d) e _ 72 4); rewrite ?zlen_app; lia.
  - rewrite (app_assoc a), (app_assoc (a ++ b)), (app_assoc ((a ++ b) ++ c)), (app_assoc (((a ++ b) ++ c) ++ d)). f_equal.
    rewrite <- (app_nil_r f) at 1. apply (slice_field ((((a ++ b) ++ c) ++ d) ++ e) f [] 76 4); rewrite ?zlen_app; lia.
Qed.

(** * Properties *)

(** For every non-empty list of 32-byte txids and index in range, the
    generator returns a proof whose root is [compute_merkle_root] and which the
    verifier accepts for the txid at that index; and that txid and proof are
    the only ones of their size the verifier accepts there, unless a collision
    of the double SHA-256 exists. *)
Theorem merkle_proofs txids k t :
  txids !! k = Some t -> Forall hash32 txids ->
  exists p root, generate_merkle_proof txids (Z.of_nat k) = Ok (p, root) /\ compute_merkle_root txids = Ok root /\
    verify_merkle_proof t root p (Z.of_nat k) = true /\
    forall t' p', hash32 t' -> Forall hash32 p' -> length p' = length p ->
      verify_merkle_proof t' root p' (Z.of_nat k) = true -> (t' = t /\ p' = p) \/ collision.
Proof.
  intros Ht H32. pose proof (lookup_lt_Some _ _ _ Ht) as Hk.
  destruct (proof_loop_spec (length txids) txids k t [] (le_n _) Ht) as (p & root & Hp & Hr & Hf & Hp32).
  exists p, root. unfold generate_merkle_proof, compute_merkle_root, verify_merkle_proof.
  rewrite (proj2 (Z.ltb_ge (Z.of_nat k) 0)) by lia.
  rewrite (proj2 (Z.leb_gt (zlen txids) (Z.of_nat k))) by (unfold zlen; lia).
  destruct txids as [|x l]; [done|]. split_and!; [exact Hp|exact Hr|by apply bool_decide_eq_true|].
  intros t' p' Ht' Hp' Hlen Hv%bool_decide_eq_true. rewrite <- Hf in Hv.
  apply merkle_fold_inj in Hv; [done|done|done| |done|by apply Hp32].
  rewrite Forall_forall in H32. apply H32. by eapply list_elem_of_lookup_2.
Qed.

(** Parsing is total and exact: on any bytes the output parser returns or
    raises IndexError (the loops are bounded by the data, whatever counts it
    announces), and on the serialisation of a transaction with at least one
    input, with or without the witness marker and whatever follows the
    outputs, it returns exactly the outputs. *)
Theorem parse_outputs_exact raw ver segwit ins outs tail_ :
  is_bytes raw -> zlen ver = 4 -> ins <> [] -> Forall input_ok ins -> Forall output_ok outs ->
  zlen ins < 2 ^ 64 -> zlen outs < 2 ^ 64 ->
  (forall e, parse_tx_outputs raw = Raise e -> exn_kind e = IndexError) /\
  parse_tx_outputs (encode_tx ver segwit ins outs tail_) = Ok outs.
Proof.
  intros Hraw Hver Hne Hins Houts Hn Hm. split; [by apply parse_tx_outputs_in_time|].
  pose proof (zlen_nonneg ins). pose proof (zlen_nonneg outs). unfold parse_tx_outputs.
  rewrite encode_tx_marker by done. cbn [rbind].
  set (raw' := encode_tx ver segwit ins outs tail_). set (hd := ver ++ (if segwit then [0; 1] else [])).
  assert (Hoff : (if segwit then 4 + 2 else 4) = zlen hd)
    by (subst hd; rewrite zlen_app, Hver; by destruct segwit).
  assert (Hlens : (length ins <= length raw')%nat /\ (length outs <= length raw')%nat).
  { subst raw'. unfold encode_tx. rewrite !length_app.
    assert (length ins <= length (List.concat (map encode_input ins)))%nat.
    { apply concat_length_ge. eapply Forall_impl; [exact Hins|]. intros i (Hp & _). unfold encode_input.
      rewrite length_app. unfold zlen in Hp. lia. }
    assert (length outs <= length (List.concat (map encode_output outs)))%nat.
    { apply concat_length_ge. eapply Forall_impl; [exact Houts|]. intros o _. unfold encode_output.
      rewrite length_app, le_bytes_length. lia. }
    lia. }
  rewrite Hoff. rewrite (parse_varint_at hd (zlen ins) (List.concat (map encode_input ins) ++
    varint (zlen outs) ++ List.concat (map encode_output outs) ++ tail_)); [|by subst raw' hd; unfold encode_tx; rewrite <- app_assoc|done|lia].
  cbn [rbind].
  assert (Hin := skip_inputs_encode ins (length raw') (hd ++ varint (zlen ins))
    (varint (zlen outs) ++ List.concat (map encode_output outs) ++ tail_) Hins (proj1 Hlens)).
  assert (Hraw1 : (hd ++ varint (zlen ins)) ++ List.concat (map encode_input ins) ++
    varint (zlen outs) ++ List.concat (map encode_output outs) ++ tail_ = raw')
    by (subst raw' hd; unfold encode_tx; by rewrite <- !app_assoc).
  rewrite Hraw1, zlen_app in Hin. rewrite Hin. cbn [rbind].
  rewrite (parse_varint_at (hd ++ varint (zlen ins) ++ List.concat (map encode_input ins)) (zlen outs)
    (List.concat (map encode_output outs) ++ tail_)); [|by rewrite <- Hraw1, <- !app_assoc|by rewrite !zlen_app, Z.add_assoc|lia].
  cbn [rbind].
  assert (Hout := read_outputs_encode outs (length raw') (hd ++ varint (zlen ins) ++ List.concat (map encode_input ins) ++
    varint (zlen outs)) tail_ [] Houts (proj2 Hlens)).
  rewrite <- !app_assoc in Hout. rewrite <- !app_assoc in Hraw1. rewrite Hraw1 in Hout.
  rewrite !zlen_app in Hout. etransitivity; [|exact Hout]. f_equal. lia.
Qed.

(** The scripts the prover accepts are exactly the two templates: a hash is
    extracted if and only if the script is OP_0 PUSH20 of it or the five
    opcodes of pay-to-pubkey-hash around it, and it has 20 bytes. *)
Theorem extract_templates s h ty :
  extract_pubkey_hash s = (Some h, ty) <->
  length h = 20%nat /\
  ((ty = P2WPKH /\ s = [0; 0x14] ++ h) \/ (ty = P2PKH /\ s = [0x76; 0xA9; 0x14] ++ h ++ [0x88; 0xAC])).
Proof.
  split.
  - unfold extract_pubkey_hash, byte_at. case_match eqn:H1; [|case_match eqn:H2; [|intros [=]]].
    + rewrite !andb_true_iff, !Z.eqb_eq in H1. destruct H1 as [[Hl H0] H14]. intros He. injection He as <- <-.
      unfold zlen in Hl. assert (Hl' : length s = 22%nat) by lia.
      do 23 (destruct s as [|? s]; try discriminate Hl'). cbn in H0, H14. subst. split; [done|]. by left.
    + rewrite !andb_true_iff, !Z.eqb_eq in H2. destruct H2 as [[[[[Hl Ha] Hb] Hc] Hd] Hf]. intros He. injection He as <- <-.
      unfold zlen in Hl. assert (Hl' : length s = 25%nat) by lia.
      do 26 (destruct s as [|? s]; try discriminate Hl'). cbn in Ha, Hb, Hc, Hd, Hf. subst. split; [done|]. by right.
  - intros [Hl H]. do 21 (destruct h as [|? h]; try discriminate Hl). by destruct H as [[-> ->]|[-> ->]].
Qed.

(** ** Witnesses *)

Definition leaf (b : Z) : bytes := replicate 32 b.
Definition leaves3 : list bytes := [leaf 1; leaf 2; leaf 3].

Lemma merkle_proofs_witness :
  exists p root, generate_merkle_proof leaves3 2 = Ok (p, root) /\ verify_merkle_proof (leaf 3) root p 2 = true.
Proof.
  destruct (merkle_proofs leaves3 2 (leaf 3)) as (p & root & Hp & _ & Hv & _); [reflexivity|repeat (constructor; [reflexivity|]); constructor|].
  exists p, root. split; [exact Hp|exact Hv].
Defined.

Definition in0 : TxInput := {| prevout := replicate 36 7; script_sig := []; sequence := replicate 4 255 |}.
Definition out0 : TxOutput := {| value := 5000000000; script_pubkey := [0; 0x14] ++ replicate 20 9 |}.
Definition out1 : TxOutput := {| value := 7; script_pubkey := replicate 300 1 |}.

Lemma bytes_b l : forallb (fun b => (0 <=? b) && (b <? 256)) l = true -> is_bytes l.
Proof.
  rewrite forallb_forall. intros H. apply Forall_forall. intros b Hb%list_elem_of_In%H.
  unfold is_byte. lia.
Qed.

Lemma parse_outputs_exact_witness :
  parse_tx_outputs (encode_tx [2; 0; 0; 0] true [in0] [out0; out1] [0; 0; 0; 0]) = Ok [out0; out1] /\
  (forall e, parse_tx_outputs (replicate 50 255) = Raise e -> exn_kind e = IndexError).
Proof.
  destruct (parse_outputs_exact (replicate 50 255) [2; 0; 0; 0] true [in0] [out0; out1] [0; 0; 0; 0]) as [H1 H2];
    [by apply bytes_b| done|done| | |done|done|by split].
  - constructor; [by split_and!|constructor].
  - constructor; [by split_and!|]. constructor; [by split_and!|constructor].
Defined.

End Bitcoin.
