(* ===== verification/SpvProof.v ===== *)
(** The SPV proof builder of the prover and its local verifier.

    Sources: offchain/prover/hashcredit_prover/proof_builder.py and the header
    range of rpc.py.  The Bitcoin
    node is outside the program: its answers are the functions of [Rpc].
    The ABI encoder (eth_abi) is an argument of [encode_for_contract]. *)

From S2P Require Import Prelude Domain Stdpy Bitcoin.
Import Stdpy Bitcoin.

Module Spv.

#[local] Abbreviation bytes := (list Z).

(** The node's answers during one call. *)
Record Rpc := {
  get_block_hash : Z -> res string;
  get_block_header_hex : string -> res string;
  get_block_txids : string -> res (list string);
  get_raw_transaction : string -> res string;
}.

(** [range(start, start + n)] *)
Definition zrange (start : Z) (n : nat) : list Z := map (fun i => start + Z.of_nat i) (seq 0 n).

(** Models [hashcredit_prover/rpc.py], [BitcoinRPC.get_headers_in_range]. *)
Definition get_headers_in_range (rpc : Rpc) (start_height end_height : Z) : res (list (Z * string * string)) :=
  map_res (fun height =>
    rbind (get_block_hash rpc height) (fun block_hash =>
    rbind (get_block_header_hex rpc block_hash) (fun header_hex => Ok (height, block_hash, header_hex))))
    (zrange start_height (Z.to_nat (end_height + 1 - start_height))).

(** [l.index(x)], [None] where it raises ValueError. *)
Fixpoint index_of (x : string) (l : list string) : option Z :=
  match l with
  | [] => None
  | y :: l' => if String.eqb y x then Some 0 else Z.succ <$> index_of x l'
  end.

(** Models [hashcredit_prover/proof_builder.py], [SpvProof], lines 33-58. *)
Record SpvProof := {
  checkpoint_height : Z;
  headers : list bytes;
  tx_block_index : Z;
  raw_tx : bytes;
  merkle_proof : list bytes;
  tx_index : Z;
  output_index : Z;
  borrower : string;
}.

(** [[bytes.ljust(p, ...)[:32] for p in self.merkle_proof]]: the unbound method
    takes the fill byte as the width, which is no integer. *)
Definition merkle_proof_bytes32 (l : list bytes) : res (list bytes) :=
  map_res (fun _ : bytes => Raise (Exn TypeError "'bytes' object cannot be interpreted as an integer")) l.

(** Models [hashcredit_prover/proof_builder.py], [SpvProof.encode_for_contract]. *)
Definition encode_for_contract
    (encode : Z * list bytes * Z * bytes * list bytes * Z * Z * string -> res bytes) (p : SpvProof) : res bytes :=
  rbind (merkle_proof_bytes32 (merkle_proof p)) (fun mp =>
  encode (checkpoint_height p, headers p, tx_block_index p, raw_tx p, mp, tx_index p, output_index p, borrower p)).

(** Models [hashcredit_prover/proof_builder.py], [SpvProof.to_dict]. *)
Definition to_dict (p : SpvProof) : json :=
  JObj [("checkpointHeight", JInt (checkpoint_height p)); ("headers", JArr (map (fun h => JStr (hex h)) (headers p)));
        ("txBlockIndex", JInt (tx_block_index p)); ("rawTx", JStr (hex (raw_tx p)));
        ("merkleProof", JArr (map (fun h => JStr (hex h)) (merkle_proof p)));
        ("txIndex", JInt (tx_index p)); ("outputIndex", JInt (output_index p)); ("borrower", JStr (borrower p))]%string.

(** Models [hashcredit_prover/proof_builder.py], [ProofBuildResult]. *)
Record ProofBuildResult := {
  proof : SpvProof;
  txid : bytes;
  amount_sats : Z;
  pubkey_hash : bytes;
  r_script_type : script_type;
  block_height : Z;
  block_timestamp : Z;
}.

Definition MIN_CONFIRMATIONS : Z := 6.

Definition fail {A} (k : exn_class) (msg : string) : res A := Raise (Exn k msg).

(** [None] where the code raises instead of finding a supported output. *)
Definition payout_output (raw : bytes) (out_index : Z) : res (TxOutput * bytes * script_type) :=
  rbind (parse_tx_outputs raw) (fun outputs =>
  if zlen outputs <=? out_index then fail ValueError "Output index out of range"
  else rbind (py_nth outputs out_index) (fun output =>
  match extract_pubkey_hash (script_pubkey output) with
  | (Some h, ty) => Ok (output, h, ty)
  | (None, _) => fail ValueError "Unsupported script type"
  end)).

(** The raw transaction and its check against the requested id. *)
Definition checked_tx (rpc : Rpc) (txid_ : string) : res bytes :=
  rbind (get_raw_transaction rpc txid_) (fun raw_tx_hex =>
  rbind (fromhex raw_tx_hex) (fun raw =>
  if negb (String.eqb (hex (rev (sha256d raw))) (Domain.lower txid_)) then fail ValueError "TXID mismatch"
  else Ok raw)).

(** The position of the transaction in its block, its Merkle proof and root. *)
Definition block_proof (gen : list bytes -> Z -> res (list bytes * bytes)) (rpc : Rpc) (txid_ : string)
    (target_height : Z) : res (Z * (list bytes * bytes)) :=
  rbind (get_block_hash rpc target_height) (fun target_block_hash =>
  rbind (get_block_txids rpc target_block_hash) (fun block_txids =>
  match index_of txid_ block_txids with
  | None => fail ValueError "Transaction not found in block"
  | Some i => rbind (map_res hex_le_to_bytes block_txids) (fun txids_internal =>
              rbind (gen txids_internal i) (fun pr => Ok (i, pr)))
  end)).

(** Models [hashcredit_prover/proof_builder.py], [ProofBuilder.build_proof]. *)
Definition build_proof (rpc : Rpc) (txid_ : string) (out_index checkpoint target_height : Z) (borrower_ : string)
    (tip : option Z) : res ProofBuildResult :=
  let tip_height := match tip with Some t => t | None => target_height + MIN_CONFIRMATIONS - 1 end in
  if target_height <=? checkpoint then fail ValueError "target_height must be > checkpoint_height"
  else if tip_height <? target_height then fail ValueError "tip_height must be >= target_height"
  else
    let confirmations := tip_height - target_height + 1 in
    if confirmations <? MIN_CONFIRMATIONS then fail ValueError "Insufficient confirmations"
    else
      let block_index := target_height - checkpoint - 1 in
      rbind (checked_tx rpc txid_) (fun raw =>
      rbind (payout_output raw out_index) (fun '(output, h, ty) =>
      rbind (get_headers_in_range rpc (checkpoint + 1) tip_height) (fun headers_data =>
      rbind (map_res (fun hd => fromhex hd.2) headers_data) (fun hs =>
      rbind (block_proof generate_merkle_proof rpc txid_ target_height) (fun '(i, (mp, root)) =>
      rbind (py_nth hs block_index) (fun hb =>
      rbind (from_bytes hb) (fun header =>
      if negb (bool_decide (root = merkle_root header)) then fail ValueError "Computed Merkle root does not match block header"
      else Ok {| proof := {| checkpoint_height := checkpoint; headers := hs; tx_block_index := block_index;
                             raw_tx := raw; merkle_proof := mp; tx_index := i; output_index := out_index;
                             borrower := borrower_ |};
                 txid := sha256d raw; amount_sats := value output; pubkey_hash := h; r_script_type := ty;
                 block_height := target_height; block_timestamp := timestamp header |}))))))).

(** The loop over the headers: [prev] is [prev_hash]. *)
Fixpoint headers_linked (prev : option bytes) (l : list bytes) : res bool :=
  match l with
  | [] => Ok true
  | hb :: l' =>
      rbind (from_bytes hb) (fun h =>
      if match prev with Some p => negb (bool_decide (prev_block_hash h = p)) | None => false end then Ok false
      else rbind (block_hash h) (fun p => headers_linked (Some p) l'))
  end.

(** Models [hashcredit_prover/proof_builder.py], [ProofBuilder.verify_proof_locally]. *)
Definition verify_proof_locally (r : ProofBuildResult) : res bool :=
  let p := proof r in
  if bool_decide (headers p = []) then Ok false
  else if zlen (headers p) <=? tx_block_index p then Ok false
  else if zlen (headers p) - tx_block_index p <? MIN_CONFIRMATIONS then Ok false
  else rbind (headers_linked None (headers p)) (fun linked =>
       if negb linked then Ok false
       else rbind (py_nth (headers p) (tx_block_index p)) (fun hb =>
            rbind (from_bytes hb) (fun header =>
            Ok (verify_merkle_proof (sha256d (raw_tx p)) (merkle_root header) (merkle_proof p) (tx_index p))))).

(** ** Lemmas *)

Lemma index_of_Some x l i : index_of x l = Some i -> exists k, i = Z.of_nat k /\ l !! k = Some x.
Proof.
  revert i. induction l as [|y l IH]; intros i; cbn; [done|].
  destruct (String.eqb_spec y x) as [->|]; [intros [= <-]; by exists 0%nat|].
  destruct (index_of x l) as [j|]; [|done]. intros [= <-]. destruct (IH j eq_refl) as (k & -> & Hk).
  exists (S k). split; [lia|done].
Qed.

Lemma lower_ascii_hex a :
  is_space (Domain.lower_ascii a) = is_space a /\ hex_value (Domain.lower_ascii a) = hex_value a.
Proof. destruct a as [[] [] [] [] [] [] [] []]; vm_compute; by split. Qed.

Lemma lower_cons a s : Domain.lower (String a s) = String (Domain.lower_ascii a) (Domain.lower s).
Proof. reflexivity. Qed.

Lemma unhex_lower s : unhex (Domain.lower s) = unhex s.
Proof.
  assert (H : forall n s, (String.length s <= n)%nat -> unhex (Domain.lower s) = unhex s); [|by apply (H (String.length s))].
  clear s. induction n as [|n IH]; intros s Hn; destruct s as [|a s]; try done; cbn in Hn; [lia|].
  rewrite lower_cons. cbn [unhex]. destruct (lower_ascii_hex a) as [-> ->].
  destruct (is_space a); [apply IH; lia|]. destruct s as [|b s]; [done|]. rewrite lower_cons.
  destruct (lower_ascii_hex b) as [_ ->]. cbn in Hn. by rewrite (IH s) by lia.
Qed.

Lemma fromhex_bytes s l : fromhex s = Ok l -> is_bytes l.
Proof. unfold fromhex. destruct (unhex s) eqn:Hu; intros [= <-]. by eapply unhex_bytes. Qed.

Lemma checked_tx_Ok rpc txid_ raw :
  checked_tx rpc txid_ = Ok raw ->
  txid_internal_to_display (sha256d raw) = Domain.lower txid_ /\ hex_le_to_bytes txid_ = Ok (sha256d raw) /\ is_bytes raw.
Proof.
  intros (s & _ & (b & Hb & H)%rbind_Ok)%rbind_Ok.
  destruct (String.eqb_spec (hex (rev (sha256d b))) (Domain.lower txid_)) as [He|]; [|done]. injection H as ->.
  split_and!; [exact He| |by eapply fromhex_bytes].
  unfold hex_le_to_bytes, fromhex. rewrite <- unhex_lower, <- He.
  rewrite unhex_hex by apply Forall_rev, sha256d_bytes. cbn. unfold reverse_bytes. by rewrite rev_involutive.
Qed.

Lemma generate_Ok txids k t p root :
  txids !! k = Some t -> generate_merkle_proof txids (Z.of_nat k) = Ok (p, root) ->
  verify_merkle_proof t root p (Z.of_nat k) = true.
Proof.
  intros Ht Hg. destruct (proof_loop_spec (length txids) txids k t [] (le_n _) Ht) as (q & r & Hq & _ & Hf & _).
  unfold generate_merkle_proof in Hg. destruct txids as [|x l]; [done|]. destruct (_ || _); [done|].
  rewrite Hq in Hg. injection Hg as <- <-. by apply bool_decide_eq_true.
Qed.

Lemma block_proof_Ok rpc txid_ h i p root t :
  block_proof generate_merkle_proof rpc txid_ h = Ok (i, (p, root)) -> hex_le_to_bytes txid_ = Ok t ->
  0 <= i /\ verify_merkle_proof t root p i = true.
Proof.
  intros (bh & _ & (ids & _ & H)%rbind_Ok)%rbind_Ok Ht.
  destruct (index_of txid_ ids) as [j|] eqn:Hj; [|done]. apply index_of_Some in Hj as (k & -> & Hk).
  apply rbind_Ok in H as (ts & Hts & ([q r] & Hg & [= <- <- <-])%rbind_Ok). split; [lia|].
  destruct (map_res_lookup _ _ _ _ _ Hts Hk) as (t' & Ht' & He). assert (t' = t) as -> by congruence.
  by eapply generate_Ok.
Qed.

(** The chain condition the local check makes: 80-byte headers, each one
    naming the hash of the one before. *)
Definition chained_headers (l : list bytes) : Prop :=
  Forall (fun h => zlen h = 80) l /\
  forall i a b, l !! i = Some a -> l !! S i = Some b -> slice 4 36 b = sha256d a.

Lemma from_bytes_Ok data h : from_bytes data = Ok h -> zlen data = 80 /\ prev_block_hash h = slice 4 36 data.
Proof. unfold from_bytes. destruct (Z.eqb_spec (zlen data) 80); [|done]. by intros [= <-]. Qed.

Lemma header_hash data h : is_bytes data -> from_bytes data = Ok h -> block_hash h = Ok (sha256d data).
Proof.
  intros Hb Hf. destruct (from_bytes_Ok _ _ Hf) as [Hl _].
  destruct (header_parse data Hb Hl) as (h' & Hf' & _ & Hh). congruence.
Qed.

Lemma headers_linked_Ok prev l :
  Forall is_bytes l -> chained_headers l ->
  match prev, l with Some p, b :: _ => slice 4 36 b = p | _, _ => True end ->
  headers_linked prev l = Ok true.
Proof.
  intros Hb. revert prev. induction Hb as [|hb l Hhb _ IH]; intros prev [H80 Hch] Hprev; [done|].
  apply Forall_cons in H80 as [H80 Hl80]. cbn [headers_linked].
  destruct (header_parse hb Hhb H80) as (h & Hf & _ & Hh). rewrite Hf. cbn [rbind].
  destruct (from_bytes_Ok _ _ Hf) as [_ Hp].
  assert (match prev with Some p => negb (bool_decide (prev_block_hash h = p)) | None => false end = false) as ->.
  { destruct prev as [p|]; [|done]. rewrite bool_decide_true; [done|]. by rewrite Hp, Hprev. }
  rewrite Hh. cbn [rbind]. apply IH.
  - split; [done|]. intros i a b Ha Hb. by apply (Hch (S i)).
  - destruct l as [|b l]; [done|]. by apply (Hch 0%nat).
Qed.

Lemma build_proof_inv rpc txid_ oi cp th bor tip r :
  build_proof rpc txid_ oi cp th bor tip = Ok r ->
  exists output hb header,
    cp < th /\ tx_block_index (proof r) = th - cp - 1 /\ checkpoint_height (proof r) = cp /\ tx_index (proof r) >= 0 /\
    zlen (headers (proof r)) = default (th + 5) tip - cp /\ th + 5 <= default (th + 5) tip /\
    Forall is_bytes (headers (proof r)) /\
    txid_internal_to_display (sha256d (raw_tx (proof r))) = Domain.lower txid_ /\
    txid r = sha256d (raw_tx (proof r)) /\
    payout_output (raw_tx (proof r)) oi = Ok (output, pubkey_hash r, r_script_type r) /\ amount_sats r = value output /\
    py_nth (headers (proof r)) (th - cp - 1) = Ok hb /\ from_bytes hb = Ok header /\
    block_timestamp r = timestamp header /\
    verify_merkle_proof (txid r) (merkle_root header) (merkle_proof (proof r)) (tx_index (proof r)) = true.
Proof.
  unfold build_proof. set (tiph := match tip with Some t => t | None => th + MIN_CONFIRMATIONS - 1 end).
  assert (Htip : tiph = default (th + 5) tip) by (subst tiph; unfold MIN_CONFIRMATIONS; destruct tip; cbn; lia).
  destruct (Z.leb_spec th cp) as [|Hcp]; [done|]. destruct (Z.ltb_spec tiph th) as [|Hth]; [done|].
  destruct (Z.ltb_spec (tiph - th + 1) MIN_CONFIRMATIONS) as [|Hconf]; [done|].
  intros (raw & Hraw & H)%rbind_Ok. apply rbind_Ok in H as ([[output h] ty] & Hout & H).
  apply rbind_Ok in H as (hd & Hhd & H). apply rbind_Ok in H as (hs & Hhs & H).
  apply rbind_Ok in H as ([i [mp root]] & Hbp & H). apply rbind_Ok in H as (hb & Hhb & H).
  apply rbind_Ok in H as (header & Hheader & H).
  destruct (decide (root = merkle_root header)) as [Hroot|Hne];
    [rewrite bool_decide_true in H by done|by rewrite bool_decide_false in H].
  cbn [negb] in H. injection H as <-. cbn [proof txid amount_sats pubkey_hash r_script_type block_timestamp raw_tx
    headers tx_block_index checkpoint_height tx_index merkle_proof].
  apply checked_tx_Ok in Hraw as (Hdisp & Hle & _). destruct (block_proof_Ok _ _ _ _ _ _ _ Hbp Hle) as [Hi Hv].
  exists output, hb, header. unfold MIN_CONFIRMATIONS in Hconf. split_and!; try done; try lia.
  - unfold zlen. rewrite (map_res_length _ _ _ Hhs), (map_res_length _ _ _ Hhd). unfold zrange.
    rewrite length_map, length_seq. lia.
  - apply map_res_Ok in Hhs. clear -Hhs. induction Hhs; constructor; [by eapply fromhex_bytes|done].
  - by rewrite <- Hroot.
Qed.

(** ** Theorems *)


(** The encoder cannot be used: whatever ABI encoder it is given, a proof with a
    non-empty Merkle branch (every proof from a block of at least two
    transactions) raises TypeError before encoding. *)
Lemma encode_never enc p :
  merkle_proof p <> [] -> exists e, encode_for_contract enc p = Raise e /\ exn_kind e = TypeError.
Proof.
  intros Hp. unfold encode_for_contract, merkle_proof_bytes32. destruct (merkle_proof p) as [|x l]; [done|].
  cbn. eexists. by split.
Qed.

(** ** Witnesses: a block of two transactions at height 101, checkpoint 100 *)

Definition raw0 : bytes := encode_tx [2; 0; 0; 0] false [in0] [out1; out0] [0; 0; 0; 0].
Definition other_txid : bytes := replicate 32 5.
Definition root0 : bytes := sha256d (other_txid ++ sha256d raw0).

Definition mk_header (prev root : bytes) : bytes := [1; 0; 0; 0] ++ prev ++ root ++ replicate 12 0.

(** The headers of heights 101 to 106. *)
Definition chain0 : list bytes :=
  let h1 := mk_header (replicate 32 0) root0 in
  rev (Nat.iter 5 (fun l => match l with h :: _ => mk_header (sha256d h) (replicate 32 8) :: l | [] => [] end) [h1]).

Definition txid0 : string := txid_internal_to_display (sha256d raw0).

Definition rpc0 : Rpc :=
  {| get_block_hash := fun h => Ok (Domain.py_str h);
     get_block_header_hex := fun bh => rbind (Domain.py_int bh) (fun h => rbind (py_nth chain0 (h - 101)) (fun d => Ok (hex d)));
     get_block_txids := fun _ => Ok [txid_internal_to_display other_txid; txid0];
     get_raw_transaction := fun _ => Ok (hex raw0) |}.


End Spv.
