(* ===== verification/ApiSpv.v ===== *)
(** The API's copy of the Bitcoin and proof-building logic, and its agreement
    with the prover's.

    Source: offchain/api/hashcredit_api/proof.py. *)

From S2P Require Import Prelude Domain Stdpy Bitcoin SpvProof.
Import Stdpy Bitcoin.

Module ApiSpv.
Import Spv.

#[local] Abbreviation bytes := (list Z).

(** Models [hashcredit_api/proof.py], [hex_le_to_bytes]. *)
Definition hex_le_to_bytes (hex_str : string) : res bytes := rbind (fromhex hex_str) (fun b => Ok (rev b)).

(** Models [hashcredit_api/proof.py], [BlockHeader.from_bytes]. *)
Definition from_bytes (data : bytes) : res BlockHeader :=
  if negb (zlen data =? 80) then Raise (Exn ValueError "Header must be 80 bytes")
  else Ok {| version := le_int (slice 0 4 data); prev_block_hash := slice 4 36 data;
             merkle_root := slice 36 68 data; timestamp := le_int (slice 68 72 data);
             bits := le_int (slice 72 76 data); nonce := le_int (slice 76 80 data) |}.

(** Models [hashcredit_api/proof.py], [BlockHeader.block_hash]. *)
Definition block_hash (h : BlockHeader) : res bytes :=
  rbind (to_bytes_le 4 (version h)) (fun v =>
  rbind (to_bytes_le 4 (timestamp h)) (fun t =>
  rbind (to_bytes_le 4 (bits h)) (fun b =>
  rbind (to_bytes_le 4 (nonce h)) (fun n =>
  Ok (sha256d (v ++ prev_block_hash h ++ merkle_root h ++ t ++ b ++ n)))))).

(** Models [hashcredit_api/proof.py], [parse_varint]: the value and the bytes consumed. *)
Definition parse_varint (data : bytes) (offset : Z) : res (Z * Z) :=
  rbind (py_nth data offset) (fun first =>
  if first <? 0xFD then Ok (first, 1)
  else if first =? 0xFD then Ok (le_int (slice (offset + 1) (offset + 3) data), 3)
  else if first =? 0xFE then Ok (le_int (slice (offset + 1) (offset + 5) data), 5)
  else Ok (le_int (slice (offset + 1) (offset + 9) data), 9)).

Fixpoint skip_inputs (fuel : nat) (count : Z) (raw_tx : bytes) (offset : Z) : res Z :=
  if count <=? 0 then Ok offset
  else match fuel with
       | O => Raise (Exn OutOfFuel "")
       | S n =>
           rbind (parse_varint raw_tx (offset + 36)) (fun '(script_len, consumed) =>
           skip_inputs n (count - 1) raw_tx (offset + 36 + (consumed + script_len + 4)))
       end.

Fixpoint read_outputs (fuel : nat) (count : Z) (raw_tx : bytes) (offset : Z) (outputs : list TxOutput) :
    res (list TxOutput) :=
  if count <=? 0 then Ok outputs
  else match fuel with
       | O => Raise (Exn OutOfFuel "")
       | S n =>
           let v := le_int (slice offset (offset + 8) raw_tx) in
           rbind (parse_varint raw_tx (offset + 8)) (fun '(script_len, consumed) =>
           let offset := offset + 8 + consumed in
           read_outputs n (count - 1) raw_tx (offset + script_len)
             (outputs ++ [{| value := v; script_pubkey := slice offset (offset + script_len) raw_tx |}]))
       end.

(** Models [hashcredit_api/proof.py], [parse_tx_outputs]. *)
Definition parse_tx_outputs (raw_tx : bytes) : res (list TxOutput) :=
  rbind (witness_marker raw_tx 4) (fun is_segwit =>
  let offset := if is_segwit then 4 + 2 else 4 in
  rbind (parse_varint raw_tx offset) (fun '(input_count, consumed) =>
  rbind (skip_inputs (S (length raw_tx)) input_count raw_tx (offset + consumed)) (fun offset =>
  rbind (parse_varint raw_tx offset) (fun '(output_count, consumed) =>
  read_outputs (S (length raw_tx)) output_count raw_tx (offset + consumed) [])))).

(** Models [hashcredit_api/proof.py], [extract_pubkey_hash]. *)
Definition extract_pubkey_hash (s : bytes) : option bytes * script_type :=
  if (zlen s =? 25) && (byte_at s 0 =? 0x76) && (byte_at s 1 =? 0xA9) && (byte_at s 2 =? 0x14)
     && (byte_at s 23 =? 0x88) && (byte_at s 24 =? 0xAC) then (Some (slice 3 23 s), P2PKH)
  else if (zlen s =? 22) && (byte_at s 0 =? 0x00) && (byte_at s 1 =? 0x14) then (Some (slice 2 22 s), P2WPKH)
  else (None, SCRIPT_UNKNOWN).

(** The sibling is appended only when its index is in range. *)
Fixpoint proof_loop (fuel : nat) (l : list bytes) (index : Z) (proof : list bytes) : res (list bytes * bytes) :=
  match l with
  | [] => Raise (Exn IndexError "list index out of range")
  | [h] => Ok (proof, h)
  | _ => match fuel with
         | O => Raise (Exn OutOfFuel "")
         | S n =>
             let level := dup_last l in
             let sibling_index := Z.lxor index 1 in
             rbind (if sibling_index <? zlen level
                    then rbind (py_nth level sibling_index) (fun s => Ok (proof ++ [s]))
                    else Ok proof) (fun proof =>
             proof_loop n (pair_hashes level) (index / 2) proof)
         end
  end.

(** Models [hashcredit_api/proof.py], [generate_merkle_proof]. *)
Definition generate_merkle_proof (txids : list bytes) (tx_index : Z) : res (list bytes * bytes) :=
  match txids with
  | [] => Raise (Exn ValueError "Empty txid list")
  | _ => proof_loop (length txids) txids tx_index []
  end.

Definition merkle_step (st : bytes * Z) (sibling : bytes) : bytes * Z :=
  ((if st.2 mod 2 =? 0 then sha256d (st.1 ++ sibling) else sha256d (sibling ++ st.1)), st.2 / 2).

(** Models [hashcredit_api/proof.py], [verify_merkle_proof]. *)
Definition verify_merkle_proof (txid root : bytes) (proof : list bytes) (tx_index : Z) : bool :=
  bool_decide ((fold_left merkle_step proof (txid, tx_index)).1 = root).

(** Models [hashcredit_api/proof.py], [SpvProof], lines 194-204. *)
Record SpvProof := {
  checkpoint_height : Z;
  headers : list bytes;
  raw_tx : bytes;
  merkle_proof : list bytes;
  tx_index : Z;
  output_index : Z;
  borrower : string;
}.

(** [p.ljust(32, 0)[:32]] *)
Definition pad32 (p : bytes) : bytes := take 32 (p ++ replicate (32 - length p) 0).

(** Models [hashcredit_api/proof.py], [SpvProof.encode_for_contract]. *)
Definition encode_for_contract (encode : Z * list bytes * bytes * list bytes * Z * Z * string -> res bytes)
    (p : SpvProof) : res bytes :=
  encode (checkpoint_height p, headers p, raw_tx p, map pad32 (merkle_proof p), tx_index p, output_index p, borrower p).

(** Models [hashcredit_api/proof.py], [ProofBuildResult]. *)
Record ProofBuildResult := {
  proof : SpvProof;
  txid : bytes;
  amount_sats : Z;
  pubkey_hash : bytes;
  r_script_type : script_type;
  block_height : Z;
  block_timestamp : Z;
}.

Definition payout_output (raw : bytes) (out_index : Z) : res (TxOutput * bytes * script_type) :=
  rbind (parse_tx_outputs raw) (fun outputs =>
  if zlen outputs <=? out_index then fail ValueError "Output index out of range"
  else rbind (py_nth outputs out_index) (fun output =>
  match extract_pubkey_hash (script_pubkey output) with
  | (Some h, ty) => Ok (output, h, ty)
  | (None, _) => fail ValueError "Unsupported script type"
  end)).

(** Models [hashcredit_api/proof.py], [ProofBuilder.build_proof]. *)
Definition build_proof (rpc : Rpc) (txid_ : string) (out_index checkpoint target_height : Z) (borrower_ : string) :
    res ProofBuildResult :=
  rbind (checked_tx rpc txid_) (fun raw =>
  rbind (payout_output raw out_index) (fun '(output, h, ty) =>
  rbind (get_headers_in_range rpc (checkpoint + 1) target_height) (fun headers_data =>
  rbind (map_res (fun hd => fromhex hd.2) headers_data) (fun hs =>
  rbind (block_proof generate_merkle_proof rpc txid_ target_height) (fun '(i, (mp, root)) =>
  rbind (py_nth hs (-1)) (fun hb =>
  rbind (from_bytes hb) (fun header =>
  if negb (bool_decide (root = merkle_root header)) then fail ValueError "Computed Merkle root does not match block header"
  else Ok {| proof := {| checkpoint_height := checkpoint; headers := hs; raw_tx := raw; merkle_proof := mp;
                         tx_index := i; output_index := out_index; borrower := borrower_ |};
             txid := sha256d raw; amount_sats := value output; pubkey_hash := h; r_script_type := ty;
             block_height := target_height; block_timestamp := timestamp header |}))))))).

(** * Agreement with the prover *)

Lemma api_varint data off :
  Bitcoin.parse_varint data off = rbind (ApiSpv.parse_varint data off) (fun '(v, c) => Ok (v, off + c)).
Proof.
  unfold Bitcoin.parse_varint, ApiSpv.parse_varint. destruct (py_nth data off) as [x|e]; [|done]. cbn [rbind].
  repeat case_match; done.
Qed.

Lemma api_skip fuel count raw off : ApiSpv.skip_inputs fuel count raw off = Bitcoin.skip_inputs fuel count raw off.
Proof.
  revert count off. induction fuel as [|n IH]; intros count off; cbn; [done|]. destruct (count <=? 0); [done|].
  replace (off + 32 + 4) with (off + 36) by lia. rewrite api_varint.
  destruct (ApiSpv.parse_varint raw (off + 36)) as [[v c]|e]; [|done]. cbn [rbind]. rewrite IH. f_equal. lia.
Qed.

Lemma api_read fuel count raw off outs :
  ApiSpv.read_outputs fuel count raw off outs = Bitcoin.read_outputs fuel count raw off outs.
Proof.
  revert count off outs. induction fuel as [|n IH]; intros count off outs; cbn; [done|]. destruct (count <=? 0); [done|].
  rewrite api_varint. destruct (ApiSpv.parse_varint raw (off + 8)) as [[v c]|e]; [|done]. cbn [rbind]. apply IH.
Qed.

Lemma api_parse raw : ApiSpv.parse_tx_outputs raw = Bitcoin.parse_tx_outputs raw.
Proof.
  unfold ApiSpv.parse_tx_outputs, Bitcoin.parse_tx_outputs. destruct (witness_marker raw 4) as [m|e]; [|done].
  cbn [rbind]. rewrite api_varint. destruct (ApiSpv.parse_varint raw _) as [[n c]|e]; [|done]. cbn [rbind].
  rewrite api_skip. destruct (Bitcoin.skip_inputs _ _ _ _) as [off|e]; [|done]. cbn [rbind]. rewrite api_varint.
  destruct (ApiSpv.parse_varint raw off) as [[k c']|e]; [|done]. cbn [rbind]. apply api_read.
Qed.

Lemma api_extract s : ApiSpv.extract_pubkey_hash s = Bitcoin.extract_pubkey_hash s.
Proof.
  unfold ApiSpv.extract_pubkey_hash, Bitcoin.extract_pubkey_hash.
  destruct (Z.eqb_spec (zlen s) 25) as [->|]; [|done]. by change (25 =? 22) with false.
Qed.

Lemma api_proof_loop fuel l k acc :
  (k < length l)%nat -> (length l <= fuel)%nat ->
  ApiSpv.proof_loop fuel l (Z.of_nat k) acc = Bitcoin.proof_loop fuel l (Z.of_nat k) acc.
Proof.
  revert l k acc. induction fuel as [|n IH]; intros l k acc Hk Hf; [destruct l; cbn in *; lia|].
  destruct l as [|h [|h2 l]]; [done|done|]. set (lv := h :: h2 :: l) in *.
  assert (Hl : (2 <= length lv)%nat) by (cbn; lia).
  destruct (proj2 (lookup_lt_is_Some lv k) Hk) as [x Hx].
  destruct (level_step lv k x Hl Hx) as (s & Hs & _ & Hnext).
  change (rbind (if Z.lxor (Z.of_nat k) 1 <? zlen (dup_last lv)
                 then rbind (py_nth (dup_last lv) (Z.lxor (Z.of_nat k) 1)) (fun s => Ok (acc ++ [s])) else Ok acc)
            (fun acc => ApiSpv.proof_loop n (pair_hashes (dup_last lv)) (Z.of_nat k / 2) acc) =
          rbind (py_nth (dup_last lv) (Z.lxor (Z.of_nat k) 1)) (fun sibling =>
            Bitcoin.proof_loop n (pair_hashes (dup_last lv)) (Z.of_nat k / 2) (acc ++ [sibling]))).
  assert (Hpos : 0 <= Z.lxor (Z.of_nat k) 1) by (apply Z.lxor_nonneg; lia).
  rewrite (proj2 (Z.ltb_lt _ _) (py_nth_bound _ _ _ Hpos Hs)). rewrite Hs. cbn [rbind].
  assert (Hk2 : Z.of_nat k / 2 = Z.of_nat (Z.to_nat (Z.of_nat k / 2))).
  { rewrite Z2Nat.id; [done|]. apply Z.div_pos; lia. }
  rewrite Hk2. apply IH.
  - apply lookup_lt_Some in Hnext. exact Hnext.
  - pose proof (next_level_length lv Hl) as [_ Hlt]. unfold next_level in Hlt. lia.
Qed.

Lemma api_merkle_step st s : ApiSpv.merkle_step st s = Bitcoin.merkle_step st s.
Proof. unfold ApiSpv.merkle_step, Bitcoin.merkle_step. by rewrite (Z.land_ones _ 1) by lia. Qed.

(** The API's copy of the Bitcoin logic computes what the prover's does, on
    every input: header parsing and hashing, transaction outputs (errors
    included), script templates, Merkle verification, and Merkle generation for
    every index in range. *)
Theorem api_agrees data h raw s txids k t root p i :
  (k < length txids)%nat ->
  ApiSpv.from_bytes data = Bitcoin.from_bytes data /\ ApiSpv.block_hash h = Bitcoin.block_hash h /\
  ApiSpv.parse_tx_outputs raw = Bitcoin.parse_tx_outputs raw /\
  ApiSpv.extract_pubkey_hash s = Bitcoin.extract_pubkey_hash s /\
  ApiSpv.generate_merkle_proof txids (Z.of_nat k) = Bitcoin.generate_merkle_proof txids (Z.of_nat k) /\
  ApiSpv.verify_merkle_proof t root p i = Bitcoin.verify_merkle_proof t root p i.
Proof.
  intros Hk. split_and!; [done| |apply api_parse|apply api_extract| |].
  - unfold ApiSpv.block_hash, Bitcoin.block_hash, Bitcoin.to_bytes.
    destruct (to_bytes_le 4 (version h)); [|done]. destruct (to_bytes_le 4 (timestamp h)); [|done].
    destruct (to_bytes_le 4 (bits h)); [|done]. by destruct (to_bytes_le 4 (nonce h)).
  - unfold ApiSpv.generate_merkle_proof, Bitcoin.generate_merkle_proof. destruct txids as [|x l]; [cbn in Hk; lia|].
    rewrite (proj2 (Z.ltb_ge (Z.of_nat k) 0)) by lia.
    rewrite (proj2 (Z.leb_gt (zlen (x :: l)) (Z.of_nat k))) by (unfold zlen; lia).
    by apply api_proof_loop.
  - unfold ApiSpv.verify_merkle_proof, Bitcoin.verify_merkle_proof, merkle_fold. f_equal. f_equal. f_equal.
    generalize (t, i) as st. induction p as [|x p IH]; intros st; [done|]. cbn [fold_left].
    by rewrite api_merkle_step, IH.
Qed.

(** ** Witnesses *)

Lemma api_agrees_witness :
  ApiSpv.generate_merkle_proof leaves3 2 = Bitcoin.generate_merkle_proof leaves3 2.
Proof.
  assert (Hk : (2 < length leaves3)%nat) by (cbn; lia).
  exact (proj1 (proj2 (proj2 (proj2 (proj2 (api_agrees [] {| version := 0; prev_block_hash := []; merkle_root := [];
    timestamp := 0; bits := 0; nonce := 0 |} [] [] leaves3 2 [] [] [] 0 Hk)))))).
Defined.

End ApiSpv.
