(* ===== verification/Address.v ===== *)
(** Bitcoin addresses: bech32 and base58check decoding, in the prover and in
    the API.

    Sources: offchain/prover/hashcredit_prover/address.py and
    offchain/api/hashcredit_api/address.py.  Addresses are sequences of bytes;
    [lower] acts on ASCII letters. *)

From S2P Require Import Prelude Domain Stdpy Bitcoin.
Import Stdpy.

Module Address.

#[local] Abbreviation bytes := (list Z).

(** [cs.index(c)], [None] when absent. *)
Fixpoint index_in (c : Z) (cs : list Z) : option Z :=
  match cs with
  | [] => None
  | x :: cs' => if x =? c then Some 0 else Z.succ <$> index_in c cs'
  end.

(** The indices of all characters, [None] when one is no member. *)
Fixpoint indices (cs : list Z) (l : bytes) : option (list Z) :=
  match l with
  | [] => Some []
  | c :: l' => match index_in c cs, indices cs l' with
               | Some i, Some k => Some (i :: k)
               | _, _ => None
               end
  end.

(** The position of the last [1] (byte 49) of [s.rfind]; [-1] when absent. *)
Fixpoint rfind1 (l : bytes) : Z :=
  match l with
  | [] => -1
  | c :: l' => let r := rfind1 l' in if 0 <=? r then r + 1 else if c =? 49 then 0 else -1
  end.

(** * Bech32 *)

(** Models [hashcredit_prover/address.py], [BECH32_CHARSET]. *)
Definition BECH32_CHARSET : list Z := bytes_of "qpzry9x8gf2tvdw0s3jn54khce6mua7l".

Definition GEN : list Z := [0x3B6A57B2; 0x26508E6D; 0x1EA119FA; 0x3D4233DD; 0x2A1462B3].

(** [for i in range(5): chk ^= GEN[i] if ((b >> i) & 1) else 0] *)
Definition gen_mix (chk b : Z) : Z :=
  fold_left (fun chk p => Z.lxor chk (if Z.land (Z.shiftr b p.1) 1 =? 1 then p.2 else 0))
    (zip [0; 1; 2; 3; 4] GEN) chk.

Definition polymod_step (chk v : Z) : Z :=
  let b := Z.shiftr chk 25 in
  gen_mix (Z.lxor (Z.shiftl (Z.land chk 0x1FFFFFF) 5) v) b.

(** Models [hashcredit_prover/address.py], [bech32_polymod]. *)
Definition bech32_polymod (values : list Z) : Z := fold_left polymod_step values 1.

(** Models [hashcredit_prover/address.py], [bech32_hrp_expand]. *)
Definition bech32_hrp_expand (hrp : bytes) : list Z :=
  map (fun x => Z.shiftr x 5) hrp ++ [0] ++ map (fun x => Z.land x 31) hrp.

(** Models [hashcredit_prover/address.py], [bech32_verify_checksum]. *)
Definition bech32_verify_checksum (hrp : bytes) (data : list Z) : bool :=
  bech32_polymod (bech32_hrp_expand hrp ++ data) =? 1.

(** [while bits >= tobits]: the digits emitted, and [bits] after. *)
Fixpoint emit (fuel : nat) (acc bits tobits : Z) (ret : list Z) : list Z * Z :=
  if bits <? tobits then (ret, bits)
  else match fuel with
       | O => (ret, bits)
       | S n => let bits := bits - tobits in
                emit n acc bits tobits (ret ++ [Z.land (Z.shiftr acc bits) (Z.shiftl 1 tobits - 1)])
       end.

(** The loop over the data: the accumulator, the pending bits and the output.
    [bits] decreases by [tobits >= 1] a turn: [bits] units of fuel are enough. *)
Fixpoint convert_loop (data : list Z) (frombits tobits acc bits : Z) (ret : list Z) : option (Z * Z * list Z) :=
  match data with
  | [] => Some (acc, bits, ret)
  | value :: data' =>
      if (value <? 0) || negb (Z.shiftr value frombits =? 0) then None
      else
        let acc := Z.land (Z.lor (Z.shiftl acc frombits) value) (Z.shiftl 1 (frombits + tobits - 1) - 1) in
        let bits := bits + frombits in
        let '(ret, bits) := emit (Z.to_nat bits) acc bits tobits ret in
        convert_loop data' frombits tobits acc bits ret
  end.

(** Models [hashcredit_prover/address.py], [convert_bits]. *)
Definition convert_bits (data : list Z) (frombits tobits : Z) (pad : bool) : option (list Z) :=
  match convert_loop data frombits tobits 0 0 [] with
  | None => None
  | Some (acc, bits, ret) =>
      let last_ := Z.land (Z.shiftl acc (tobits - bits)) (Z.shiftl 1 tobits - 1) in
      if pad then Some (if bits =? 0 then ret else ret ++ [last_])
      else if (frombits <=? bits) || negb (last_ =? 0) then None
      else Some ret
  end.

(** Models [hashcredit_prover/address.py], [bech32_decode]. *)
Definition bech32_decode (address : string) : option (bytes * bytes) :=
  let address := bytes_of (Domain.lower address) in
  let pos := rfind1 address in
  if (pos <? 1) || (zlen address <? pos + 7) then None
  else
    let hrp := slice 0 pos address in
    let data_part := slice (pos + 1) (zlen address) address in
    match indices BECH32_CHARSET data_part with
    | None => None
    | Some data =>
        if negb (bech32_verify_checksum hrp data) then None
        else
          match take (length data - 6) data with
          | [] => None
          | version :: rest =>
              match convert_bits rest 5 8 false with
              | None => None
              | Some converted =>
                  if (version =? 0) && negb ((zlen converted =? 20) || (zlen converted =? 32)) then None
                  else Some (hrp, version :: converted)
              end
          end
    end.

(** * Base58 *)

(** Models [hashcredit_prover/address.py], [BASE58_ALPHABET]. *)
Definition BASE58_ALPHABET : list Z := bytes_of "123456789ABCDEFGHJKLMNPQRSTUVWXYZabcdefghijkmnopqrstuvwxyz".

(** [num = num * 58 + BASE58_ALPHABET.index(c)] over the string. *)
Fixpoint base58_value (l : bytes) (num : Z) : option Z :=
  match l with
  | [] => Some num
  | c :: l' => match index_in c BASE58_ALPHABET with
               | Some i => base58_value l' (num * 58 + i)
               | None => None
               end
  end.

(** [while num > 0]: the bytes of [num], least significant first.  A byte is
    taken a turn: the bit length of [num] is more than enough fuel. *)
Fixpoint num_bytes (fuel : nat) (num : Z) : list Z :=
  if num <=? 0 then []
  else match fuel with
       | O => []
       | S n => Z.land num 0xFF :: num_bytes n (Z.shiftr num 8)
       end.

(** [len(s) - len(s.lstrip("1"))] *)
Fixpoint leading_ones (l : bytes) : nat :=
  match l with
  | c :: l' => if c =? 49 then S (leading_ones l') else O
  | [] => O
  end.

(** Models [hashcredit_prover/address.py], [base58_decode]. *)
Definition base58_decode (s : string) : option bytes :=
  match base58_value (bytes_of s) 0 with
  | None => None
  | Some num => Some (replicate (leading_ones (bytes_of s)) 0 ++ rev (num_bytes (Z.to_nat (Z.log2 num + 1)) num))
  end.

(** [sha256(sha256(payload))[:4]] *)
Definition checksum4 (payload : bytes) : bytes := take 4 (Bitcoin.sha256d payload).

(** Models [hashcredit_prover/address.py], [base58check_decode]. *)
Definition base58check_decode (s : string) : option (Z * bytes) :=
  match base58_decode s with
  | None => None
  | Some data =>
      if zlen data <? 5 then None
      else
        let checksum := drop (length data - 4) data in
        let payload := take (length data - 4) data in
        if negb (bool_decide (checksum = checksum4 payload)) then None
        else match payload with
             | version :: rest => Some (version, rest)
             | [] => None
             end
  end.

(** * Addresses *)

Definition prefixed (p : string) (s : string) : bool := String.prefix p (Domain.lower s).

(** Models [hashcredit_prover/address.py], [decode_btc_address]. *)
Definition decode_btc_address (address : string) : option (bytes * Bitcoin.script_type) :=
  if prefixed "bc1" address || prefixed "tb1" address then
    match bech32_decode address with
    | None => None
    | Some (hrp, data) =>
        if negb (bool_decide (hrp = bytes_of "bc") || bool_decide (hrp = bytes_of "tb")) then None
        else match data with
             | version :: program =>
                 if (zlen data =? 21) && (version =? 0) then Some (program, Bitcoin.P2WPKH) else None
             | [] => None
             end
    end
  else
    match base58check_decode address with
    | None => None
    | Some (version, payload) =>
        if ((version =? 0x00) || (version =? 0x6F)) && (zlen payload =? 20) then Some (payload, Bitcoin.P2PKH) else None
    end.

(** * The API's copy *)

(** Models [hashcredit_api/address.py], [_bech32_polymod]. *)
Definition api_bech32_polymod : list Z -> Z := bech32_polymod.

(** Models [hashcredit_api/address.py], [_bech32_hrp_expand]. *)
Definition api_bech32_hrp_expand : bytes -> list Z := bech32_hrp_expand.

(** Models [hashcredit_api/address.py], [_bech32_verify_checksum]. *)
Definition api_bech32_verify_checksum (hrp : bytes) (data : list Z) : bool :=
  api_bech32_polymod (api_bech32_hrp_expand hrp ++ data) =? 1.

(** The same loop as [convert_bits]. *)
(** Models [hashcredit_api/address.py], [_convertbits]. *)
Definition api_convertbits : list Z -> Z -> Z -> bool -> option (list Z) := convert_bits.

(** Models [hashcredit_api/address.py], [decode_bech32]. *)
Definition api_decode_bech32 (addr : string) : option (bytes * list Z) :=
  if existsb (fun c => (c <? 33) || (126 <? c)) (bytes_of addr) then None
  else
    let addr := bytes_of (Domain.lower addr) in
    let pos := rfind1 addr in
    if (pos <? 1) || (zlen addr <? pos + 7) then None
    else
      let hrp := slice 0 pos addr in
      match indices BECH32_CHARSET (slice (pos + 1) (zlen addr) addr) with
      | None => None
      | Some data =>
          if negb (api_bech32_verify_checksum hrp data) then None else Some (hrp, take (length data - 6) data)
      end.

(** Models [hashcredit_api/address.py], [decode_bech32_address]. *)
Definition api_decode_bech32_address (addr : string) : option (bytes * Bitcoin.script_type) :=
  match api_decode_bech32 addr with
  | None => None
  | Some (hrp, data) =>
      if negb (bool_decide (hrp ∈ [bytes_of "bc"; bytes_of "tb"; bytes_of "bcrt"])) then None
      else match data with
           | [] => None
           | witness_version :: rest =>
               if negb (witness_version =? 0) then None
               else match api_convertbits rest 5 8 false with
                    | None => None
                    | Some program => if zlen program =? 20 then Some (program, Bitcoin.P2WPKH) else None
                    end
           end
  end.

(** Models [hashcredit_api/address.py], [decode_base58check]: a number of more
    than 25 bytes raises OverflowError. *)
Definition api_decode_base58check (addr : string) : res (option bytes) :=
  match base58_value (bytes_of addr) 0 with
  | None => Ok None
  | Some num =>
      rbind (to_bytes_le 25 num) (fun le =>
      let combined := rev le in
      let checksum := drop 21 combined in
      let data := take 21 combined in
      if negb (bool_decide (checksum = checksum4 data)) then Ok None else Ok (Some (drop 1 data)))
  end.

(** Models [hashcredit_api/address.py], [decode_p2pkh_address]. *)
Definition api_decode_p2pkh_address (addr : string) : res (option (bytes * Bitcoin.script_type)) :=
  match addr with
  | EmptyString => Ok None
  | String first _ =>
      if negb (bool_decide (first ∈ ["1"; "m"; "n"]%char)) then Ok None
      else rbind (api_decode_base58check addr) (fun payload =>
           match payload with
           | Some p => if zlen p =? 20 then Ok (Some (p, Bitcoin.P2PKH)) else Ok None
           | None => Ok None
           end)
  end.

(** Models [hashcredit_api/address.py], [decode_btc_address]. *)
Definition api_decode_btc_address (addr : string) : res (option (bytes * Bitcoin.script_type)) :=
  if prefixed "bc1" addr || prefixed "tb1" addr || prefixed "bcrt1" addr then Ok (api_decode_bech32_address addr)
  else api_decode_p2pkh_address addr.

(** * The bech32 checksum *)

Lemma lxor_bound n a b : 0 <= n -> 0 <= a < 2 ^ n -> 0 <= b < 2 ^ n -> 0 <= Z.lxor a b < 2 ^ n.
Proof.
  intros Hn Ha Hb. assert (H0 : 0 <= Z.lxor a b) by (apply Z.lxor_nonneg; lia). split; [done|].
  destruct (decide (Z.lxor a b = 0)) as [->|Hne]; [lia|].
  apply Z.log2_lt_pow2; [lia|]. eapply Z.le_lt_trans; [apply Z.log2_lxor; lia|].
  destruct (decide (n = 0)) as [->|]; [cbn in *; assert (a = 0) as -> by lia; assert (b = 0) as -> by lia; done|].
  assert (Hlog : forall x, 0 <= x < 2 ^ n -> Z.log2 x < n).
  { intros x Hx. destruct (decide (x = 0)) as [->|]; [cbn; lia|]. apply Z.log2_lt_pow2; lia. }
  apply Z.max_lub_lt; by apply Hlog.
Qed.

Definition gmix (b : Z) : Z := gen_mix 0 b.

Lemma gen_mix_lxor chk b : gen_mix chk b = Z.lxor chk (gmix b).
Proof.
  unfold gmix, gen_mix. cbn [zip zip_with GEN fold_left fst snd]. rewrite Z.lxor_0_l. by rewrite !Z.lxor_assoc.
Qed.

Definition all32 : list Z := map Z.of_nat (seq 0 32).

Lemma all32_elem b : 0 <= b < 32 -> b ∈ all32.
Proof.
  intros Hb. unfold all32. apply list_elem_of_fmap. exists (Z.to_nat b). rewrite elem_of_seq. lia.
Qed.

Lemma gmix_low_inj b b' : 0 <= b < 32 -> 0 <= b' < 32 -> Z.land (gmix b) 31 = Z.land (gmix b') 31 -> b = b'.
Proof.
  intros Hb Hb'. apply (NoDup_fmap_inj (fun b => Z.land (gmix b) 31) all32); [|by apply all32_elem|by apply all32_elem].
  apply (bool_decide_unpack _). vm_compute. exact I.
Qed.

Lemma gmix_bound b : 0 <= b < 32 -> 0 <= gmix b < 2 ^ 30.
Proof.
  intros Hb. assert (H : Forall (fun b => 0 <= gmix b < 2 ^ 30) all32).
  { apply (bool_decide_unpack _). vm_compute. exact I. }
  rewrite Forall_forall in H. by apply H, all32_elem.
Qed.

Definition chk_ok (c : Z) : Prop := 0 <= c < 2 ^ 30.
Definition sym (v : Z) : Prop := 0 <= v < 32.

Lemma shiftr25 c : chk_ok c -> 0 <= Z.shiftr c 25 < 32.
Proof.
  unfold chk_ok. intros Hc. rewrite Z.shiftr_div_pow2 by lia. split; [apply Z.div_pos; lia|].
  apply Z.div_lt_upper_bound; lia.
Qed.

Lemma low25 c : Z.land c 0x1FFFFFF = c mod 2 ^ 25.
Proof. change 0x1FFFFFF with (Z.ones 25). by rewrite Z.land_ones by lia. Qed.

Lemma step_eq c v : polymod_step c v = Z.lxor (Z.lxor (c mod 2 ^ 25 * 2 ^ 5) v) (gmix (Z.shiftr c 25)).
Proof. unfold polymod_step. by rewrite gen_mix_lxor, low25, Z.shiftl_mul_pow2 by lia. Qed.

Lemma step_ok c v : chk_ok c -> sym v -> chk_ok (polymod_step c v).
Proof.
  intros Hc Hv. rewrite step_eq. apply lxor_bound; [lia| |by apply gmix_bound, shiftr25].
  pose proof (Z.mod_pos_bound c (2 ^ 25) ltac:(lia)). apply lxor_bound; [lia| |unfold sym in Hv; lia].
  lia.
Qed.

Lemma lxor_cancel_r a b c : Z.lxor a c = Z.lxor b c -> a = b.
Proof.
  intros H. apply (f_equal (fun x => Z.lxor x c)) in H. by rewrite !Z.lxor_assoc, Z.lxor_nilpotent, !Z.lxor_0_r in H.
Qed.

Lemma land_lxor_low x v g : sym v -> Z.land (Z.lxor (Z.lxor (x * 2 ^ 5) v) g) 31 = Z.lxor v (Z.land g 31).
Proof.
  intros Hv. change 31 with (Z.ones 5). apply Z.bits_inj'. intros i Hi.
  rewrite Z.land_spec, !Z.lxor_spec, Z.land_spec. destruct (decide (i < 5)) as [Hlt|Hge].
  - rewrite Z.ones_spec_low by lia. rewrite Z.mul_pow2_bits_low by lia.
    destruct (Z.testbit v i), (Z.testbit g i); done.
  - rewrite Z.ones_spec_high by lia. rewrite !andb_false_r.
    destruct (decide (v = 0)) as [->|]; [by rewrite Z.bits_0|]. unfold sym in Hv.
    assert (Z.log2 v < 5) by (apply Z.log2_lt_pow2; lia). by rewrite Z.bits_above_log2 by lia.
Qed.

Lemma step_inj c c' v : chk_ok c -> chk_ok c' -> sym v -> polymod_step c v = polymod_step c' v -> c = c'.
Proof.
  intros Hc Hc' Hv. rewrite !step_eq. intros H.
  assert (Hb : Z.shiftr c 25 = Z.shiftr c' 25).
  { apply gmix_low_inj; [by apply shiftr25|by apply shiftr25|].
    apply (f_equal (fun x => Z.land x 31)) in H. rewrite !land_lxor_low in H by done.
    rewrite !(Z.lxor_comm v) in H. by apply lxor_cancel_r in H. }
  rewrite Hb in H. apply lxor_cancel_r, lxor_cancel_r in H.
  rewrite !Z.shiftr_div_pow2 in Hb by lia.
  pose proof (Z.div_mod c (2 ^ 25)). pose proof (Z.div_mod c' (2 ^ 25)). lia.
Qed.

Lemma fold_ok l c : chk_ok c -> Forall sym l -> chk_ok (fold_left polymod_step l c).
Proof. intros Hc Hl. revert c Hc. induction Hl as [|v l Hv _ IH]; intros c Hc; [done|]. by apply IH, step_ok. Qed.

Lemma fold_inj l c c' :
  chk_ok c -> chk_ok c' -> Forall sym l -> fold_left polymod_step l c = fold_left polymod_step l c' -> c = c'.
Proof.
  intros Hc Hc' Hl. revert c c' Hc Hc'. induction Hl as [|v l Hv _ IH]; intros c c' Hc Hc'; [done|]. cbn.
  intros H. apply IH in H; [|by apply step_ok..]. by eapply step_inj.
Qed.

Lemma expand_sym hrp : is_bytes hrp -> Forall sym (bech32_hrp_expand hrp).
Proof.
  intros Hh. unfold bech32_hrp_expand. rewrite !Forall_app. split_and!.
  - rewrite Forall_fmap. eapply Forall_impl; [exact Hh|]. intros x Hx. unfold is_byte in Hx. unfold sym, compose. cbn.
    rewrite Z.shiftr_div_pow2 by lia. split; [apply Z.div_pos; lia|]. apply Z.div_lt_upper_bound; lia.
  - constructor; [unfold sym; lia|constructor].
  - rewrite Forall_fmap. eapply Forall_impl; [exact Hh|]. intros x Hx. unfold sym, compose.
    change 31 with (Z.ones 5). rewrite Z.land_ones by lia. apply Z.mod_pos_bound. lia.
Qed.

(** The bech32 checksum detects every substitution: if a human-readable
    part and data pass the check, no change of a single data symbol does. *)
Theorem bech32_detects hrp d1 v v' d2 :
  is_bytes hrp -> Forall sym (d1 ++ v :: d2) -> sym v' -> v' <> v ->
  bech32_verify_checksum hrp (d1 ++ v :: d2) = true -> bech32_verify_checksum hrp (d1 ++ v' :: d2) = false.
Proof.
  intros Hh [H1 [Hv H2]%Forall_cons]%Forall_app Hv' Hne. unfold bech32_verify_checksum.
  intros Hok%Z.eqb_eq. apply Z.eqb_neq. intros Hbad. rewrite <- Hok in Hbad. unfold bech32_polymod in Hbad.
  rewrite !fold_left_app in Hbad. cbn [fold_left] in Hbad.
  set (c := fold_left polymod_step d1 (fold_left polymod_step (bech32_hrp_expand hrp) 1)) in Hbad.
  assert (Hc : chk_ok c) by (apply fold_ok; [apply fold_ok; [unfold chk_ok; lia|by apply expand_sym]|done]).
  apply fold_inj in Hbad; [|by apply step_ok..|done].
  rewrite !step_eq in Hbad. apply lxor_cancel_r in Hbad. rewrite !(Z.lxor_comm (_ * _)) in Hbad.
  by apply lxor_cancel_r in Hbad.
Qed.

(** * Regrouping bits *)

Lemma high_bits n v i : 0 <= v < 2 ^ n -> n <= i -> Z.testbit v i = false.
Proof.
  intros Hv Hi. destruct (decide (v = 0)) as [->|]; [apply Z.bits_0|].
  assert (Z.log2 v < n) by (apply Z.log2_lt_pow2; lia). apply Z.bits_above_log2; lia.
Qed.


(** The low [n] bits of [v], most significant first. *)
Definition bits_of (n : nat) (v : Z) : list bool := map (fun i => Z.testbit v (Z.of_nat i)) (rev (seq 0 n)).

Definition flat (n : nat) (l : list Z) : list bool := List.concat (map (bits_of n) l).

Lemma bits_of_length n v : length (bits_of n v) = n.
Proof. unfold bits_of. by rewrite length_map, length_rev, length_seq. Qed.

Lemma flat_length n l : length (flat n l) = (n * length l)%nat.
Proof. unfold flat. induction l as [|v l IH]; cbn; [lia|]. rewrite length_app, bits_of_length, IH. lia. Qed.

Lemma flat_app n l k : flat n (l ++ k) = flat n l ++ flat n k.
Proof. unfold flat. by rewrite map_app, concat_app. Qed.

Lemma bits_of_ext n v w : (forall i, 0 <= i < Z.of_nat n -> Z.testbit v i = Z.testbit w i) -> bits_of n v = bits_of n w.
Proof.
  intros H. unfold bits_of. apply map_ext_in. intros i Hi. rewrite <- in_rev, in_seq in Hi. apply H. lia.
Qed.

Lemma bits_of_add a b v : bits_of (a + b) v = bits_of a (Z.shiftr v (Z.of_nat b)) ++ bits_of b v.
Proof.
  unfold bits_of. rewrite Nat.add_comm, seq_app, rev_app_distr, map_app. f_equal.
  replace (seq (0 + b) a) with (map (Nat.add b) (seq 0 a)).
  - rewrite <- map_rev, map_map. apply map_ext. intros i. rewrite Z.shiftr_spec by lia. f_equal. lia.
  - cbn. clear. revert b. induction a as [|a IH]; intros b; [done|]. rewrite !seq_S, map_app, IH. cbn. done.
Qed.

Lemma bits_of_inj n v w : 0 <= v < 2 ^ Z.of_nat n -> 0 <= w < 2 ^ Z.of_nat n -> bits_of n v = bits_of n w -> v = w.
Proof.
  intros Hv Hw H. apply Z.bits_inj'. intros i Hi. destruct (decide (i < Z.of_nat n)) as [Hlt|Hge].
  - unfold bits_of in H. assert (Hin : Z.to_nat i ∈ rev (seq 0 n)).
    { apply list_elem_of_In. rewrite <- in_rev. apply in_seq. lia. }
    apply list_elem_of_lookup in Hin as [j Hj]. pose proof (f_equal (lookup j) H) as Hl.
    rewrite !list_lookup_fmap, Hj in Hl. cbn in Hl. injection Hl as Hl. by rewrite Z2Nat.id in Hl by lia.
  - by rewrite !(high_bits (Z.of_nat n)) by lia.
Qed.

Definition in_width (n : nat) (v : Z) : Prop := 0 <= v < 2 ^ Z.of_nat n.

Lemma flat_inj n l k : (0 < n)%nat -> Forall (in_width n) l -> Forall (in_width n) k -> flat n l = flat n k -> l = k.
Proof.
  intros Hn Hl. revert k. induction Hl as [|v l Hv _ IH]; intros k Hk H; destruct Hk as [|w k Hw Hk].
  - done.
  - apply (f_equal length) in H. rewrite !flat_length in H. cbn in H. lia.
  - apply (f_equal length) in H. rewrite !flat_length in H. cbn in H. lia.
  - cbn in H. apply app_inj_1 in H as [Hb H]; [|by rewrite !bits_of_length].
    f_equal; [by eapply bits_of_inj|by apply IH].
Qed.

Lemma ones_mask n : 0 <= n -> Z.shiftl 1 n - 1 = Z.ones n.
Proof. intros Hn. unfold Z.ones. lia. Qed.

Lemma mask_width n v : in_width n (Z.land v (Z.ones (Z.of_nat n))).
Proof. unfold in_width. rewrite Z.land_ones by lia. apply Z.mod_pos_bound. lia. Qed.

Lemma bits_of_mask n m v : (n <= m)%nat -> bits_of n (Z.land v (Z.ones (Z.of_nat m))) = bits_of n v.
Proof.
  intros Hnm. apply bits_of_ext. intros i Hi. rewrite Z.land_spec, Z.ones_spec_low by lia. apply andb_true_r.
Qed.

Lemma width_high n v i : in_width n v -> Z.of_nat n <= i -> Z.testbit v i = false.
Proof. intros Hv Hi. by apply (high_bits (Z.of_nat n)). Qed.

(** The value shifted in below the pending bits. *)
Lemma bits_of_push b f t acc v :
  (b < t)%nat -> in_width f v ->
  bits_of (b + f) (Z.land (Z.lor (Z.shiftl acc (Z.of_nat f)) v) (Z.ones (Z.of_nat f + Z.of_nat t - 1)))
  = bits_of b acc ++ bits_of f v.
Proof.
  intros Hb Hv. rewrite bits_of_add. f_equal; apply bits_of_ext; intros i Hi.
  - rewrite Z.shiftr_spec by lia. rewrite Z.land_spec, Z.lor_spec, Z.ones_spec_low by lia. rewrite andb_true_r.
    rewrite (width_high f v) by (done || lia). rewrite orb_false_r. rewrite Z.shiftl_spec by lia. f_equal. lia.
  - rewrite Z.land_spec, Z.lor_spec, Z.ones_spec_low by lia. rewrite andb_true_r.
    rewrite Z.shiftl_spec_low by lia. done.
Qed.

Lemma bits_false n v : (forall i, 0 <= i < Z.of_nat n -> Z.testbit v i = false) -> bits_of n v = replicate n false.
Proof.
  intros H. rewrite (bits_of_ext n v 0) by (intros i Hi; rewrite H by done; by rewrite Z.bits_0).
  unfold bits_of. clear H. replace n with (length (rev (seq 0 n))) at 2 by (by rewrite length_rev, length_seq).
  generalize (rev (seq 0 n)). intros l. induction l as [|x l IH]; [done|]. cbn [map length replicate].
  by rewrite Z.bits_0, IH.
Qed.

(** The padded digit holds the pending bits, then zeros. *)
Lemma bits_of_last t b acc :
  (b < t)%nat ->
  bits_of t (Z.land (Z.shiftl acc (Z.of_nat t - Z.of_nat b)) (Z.ones (Z.of_nat t))) = bits_of b acc ++ replicate (t - b) false.
Proof.
  intros Hb. rewrite bits_of_mask by lia. replace t with (b + (t - b))%nat at 1 by lia. rewrite bits_of_add. f_equal.
  - apply bits_of_ext. intros i Hi. rewrite Z.shiftr_spec, Z.shiftl_spec by lia. f_equal. lia.
  - apply bits_false. intros i Hi. apply Z.shiftl_spec_low. lia.
Qed.
Section Regroup.
Context (f t : nat) (Ht : (0 < t)%nat).

Lemma emit_spec fuel acc b ret :
  (b <= fuel)%nat ->
  exists ret' b', emit fuel acc (Z.of_nat b) (Z.of_nat t) ret = (ret', Z.of_nat b') /\ (b' < t)%nat /\
    flat t ret' ++ bits_of b' acc = flat t ret ++ bits_of b acc /\ (Forall (in_width t) ret -> Forall (in_width t) ret').
Proof.
  revert b ret. induction fuel as [|n IH]; intros b ret Hfuel.
  - exists ret, b. assert (b = 0%nat) as -> by lia. cbn. rewrite (proj2 (Z.ltb_lt _ _)) by lia. by split_and!.
  - cbn [emit]. destruct (Z.ltb_spec (Z.of_nat b) (Z.of_nat t)) as [Hlt|Hge].
    + exists ret, b. split_and!; try done. lia.
    + replace (Z.of_nat b - Z.of_nat t) with (Z.of_nat (b - t)) by lia. rewrite ones_mask by lia.
      set (dg := Z.land _ _). destruct (IH (b - t)%nat (ret ++ [dg])) as (ret' & b' & He & Hb' & Hbits & Hw); [lia|].
      exists ret', b'. split_and!; [exact He|done| |].
      * rewrite Hbits, flat_app, <- app_assoc. f_equal. unfold flat. cbn [map List.concat]. rewrite app_nil_r.
        unfold dg. rewrite bits_of_mask by lia. rewrite <- bits_of_add. f_equal. lia.
      * intros Hr. apply Hw, Forall_app. split; [done|]. constructor; [apply mask_width|constructor].
Qed.

Lemma convert_loop_spec data acc b ret :
  Forall (in_width f) data -> (b < t)%nat ->
  exists acc' b' ret', convert_loop data (Z.of_nat f) (Z.of_nat t) acc (Z.of_nat b) ret = Some (acc', Z.of_nat b', ret') /\
    (b' < t)%nat /\ flat t ret' ++ bits_of b' acc' = flat t ret ++ bits_of b acc ++ flat f data /\
    (Forall (in_width t) ret -> Forall (in_width t) ret').
Proof.
  intros Hd. revert acc b ret. induction Hd as [|v data Hv _ IH]; intros acc b ret Hb; cbn [convert_loop].
  - exists acc, b, ret. rewrite app_nil_r. by split_and!.
  - assert (Hr : (v <? 0) || negb (Z.shiftr v (Z.of_nat f) =? 0) = false).
    { unfold in_width in Hv. rewrite (proj2 (Z.ltb_ge v 0)) by lia. rewrite Z.shiftr_div_pow2 by lia.
      by rewrite Z.div_small by lia. }
    rewrite Hr. rewrite ones_mask by lia. set (acc1 := Z.land _ _).
    replace (Z.of_nat b + Z.of_nat f) with (Z.of_nat (b + f)) by lia. rewrite Nat2Z.id.
    destruct (emit_spec (b + f) acc1 (b + f) ret) as (ret1 & b1 & He & Hb1 & Hbits1 & Hw1); [lia|]. rewrite He.
    destruct (IH acc1 b1 ret1 Hb1) as (acc' & b' & ret' & Hc & Hb' & Hbits & Hw). exists acc', b', ret'.
    split_and!; [exact Hc|done| |auto].
    rewrite Hbits, app_assoc, Hbits1. unfold acc1. rewrite (bits_of_push b f t) by done.
    unfold flat at 4. cbn [map List.concat]. by rewrite <- !app_assoc.
Qed.

End Regroup.

Lemma bits_zero n v : bits_of n v = replicate n false -> in_width n v -> v = 0.
Proof.
  intros H Hv. apply (bits_of_inj n); [done|unfold in_width in Hv; lia|]. rewrite H. symmetry.
  apply bits_false. intros i _. apply Z.bits_0.
Qed.

(** Regrouping is lossless: the 5-bit symbols of any byte string, padded as
    the encoder does, convert back to exactly that string, with no padding
    error. *)
Theorem convert_roundtrip l :
  is_bytes l ->
  exists d, convert_bits l 8 5 true = Some d /\ Forall sym d /\ convert_bits d 5 8 false = Some l.
Proof.
  intros Hl.
  destruct (convert_loop_spec 8 5 ltac:(lia) l 0 0 [] Hl ltac:(lia)) as (acc & b & ret & Hc & Hb & Hbits & Hw).
  cbn [flat map List.concat app bits_of seq rev Nat.mul] in Hbits. specialize (Hw (Forall_nil_2 _)).
  set (d := if Z.of_nat b =? 0 then ret else ret ++ [Z.land (Z.shiftl acc (5 - Z.of_nat b)) (Z.shiftl 1 5 - 1)]).
  assert (Hd : exists k, (k < 5)%nat /\ flat 5 d = flat 8 l ++ replicate k false).
  { subst d. destruct (Z.eqb_spec (Z.of_nat b) 0) as [H0|H0].
    - exists 0%nat. split; [lia|]. assert (b = 0%nat) as -> by lia. cbn [replicate]. rewrite app_nil_r, <- Hbits. cbn. by rewrite app_nil_r.
    - exists (5 - b)%nat. split; [lia|]. rewrite flat_app, <- Hbits, <- app_assoc. f_equal.
      unfold flat. cbn [map List.concat]. rewrite app_nil_r. exact (bits_of_last 5 b acc Hb). }
  assert (Hdw : Forall sym d).
  { subst d. destruct (_ =? 0); [exact Hw|]. apply Forall_app. split; [exact Hw|]. constructor; [|constructor].
    exact (mask_width 5 _). }
  destruct Hd as (k & Hk & Hflat). exists d. split_and!; [|done|].
  - unfold convert_bits. change (convert_loop l 8 5 0 0 [] = Some (acc, Z.of_nat b, ret)) in Hc. by rewrite Hc.
  - destruct (convert_loop_spec 5 8 ltac:(lia) d 0 0 [] Hdw ltac:(lia)) as (acc2 & b2 & r & Hc2 & Hb2 & Hbits2 & Hw2).
    cbn [app] in Hbits2. specialize (Hw2 (Forall_nil_2 _)). change (flat 8 []) with (@nil bool) in Hbits2.
    change (bits_of 0 0) with (@nil bool) in Hbits2. cbn [app] in Hbits2. rewrite Hflat in Hbits2.
    pose proof (f_equal length Hbits2) as Hlen. rewrite !length_app, !flat_length, bits_of_length, length_replicate in Hlen.
    assert (b2 = k) as -> by lia. apply app_inj_2 in Hbits2 as [Hr Hz]; [|by rewrite bits_of_length, length_replicate].
    apply flat_inj in Hr; [|lia|done|done]. subst r.
    unfold convert_bits. change (convert_loop d 5 8 0 0 [] = Some (acc2, Z.of_nat k, l)) in Hc2. rewrite Hc2.
    rewrite (proj2 (Z.leb_gt 5 (Z.of_nat k))) by lia. cbn [orb].
    assert (Hlast : Z.land (Z.shiftl acc2 (8 - Z.of_nat k)) (Z.shiftl 1 8 - 1) = 0).
    { apply (bits_zero 8); [|exact (mask_width 8 _)]. etransitivity; [exact (bits_of_last 8 k acc2 ltac:(lia))|].
      rewrite Hz, <- replicate_add. f_equal. lia. }
    by rewrite Hlast.
Qed.

(** * The API accepts what the prover accepts *)

Lemma rfind1_spec l : 0 <= rfind1 l -> rfind1 l < zlen l /\ nth (Z.to_nat (rfind1 l)) l 0 = 49.
Proof.
  induction l as [|c l IH]; cbn [rfind1]; [lia|]. unfold zlen in *. cbn [length].
  destruct (Z.leb_spec 0 (rfind1 l)) as [H|H].
  - intros _. destruct (IH H) as [Hlt Hn]. split; [lia|].
    replace (Z.to_nat (rfind1 l + 1)) with (S (Z.to_nat (rfind1 l))) by lia. exact Hn.
  - destruct (Z.eqb_spec c 49) as [->|]; [|lia]. intros _. split; [lia|done].
Qed.

Lemma index_in_elem c cs i : index_in c cs = Some i -> c ∈ cs.
Proof.
  revert i. induction cs as [|x cs IH]; intros i; cbn; [done|]. destruct (Z.eqb_spec x c) as [->|].
  - intros _. apply list_elem_of_here.
  - destruct (index_in c cs) as [j|]; [|done]. intros _. apply list_elem_of_further. by eapply IH.
Qed.

Lemma indices_elem cs l ds : indices cs l = Some ds -> Forall (fun c => c ∈ cs) l.
Proof.
  revert ds. induction l as [|c l IH]; intros ds; cbn; [constructor|].
  destruct (index_in c cs) as [i|] eqn:Hi; [|done]. destruct (indices cs l) as [k|]; [|done]. intros _.
  constructor; [by eapply index_in_elem|by eapply IH].
Qed.

Definition printable (c : Z) : bool := negb ((c <? 33) || (126 <? c)).

Lemma charset_printable c : c ∈ BECH32_CHARSET -> printable c = true.
Proof.
  intros Hc. assert (H : forallb printable BECH32_CHARSET = true) by (vm_compute; reflexivity).
  rewrite forallb_forall in H. by apply H, list_elem_of_In.
Qed.

Lemma lower_printable a : printable (byte_of (Domain.lower_ascii a)) = true -> printable (byte_of a) = true.
Proof. destruct a as [[] [] [] [] [] [] [] []]; vm_compute; congruence. Qed.

Lemma printable_lower s :
  Forall (fun c => printable c = true) (bytes_of (Domain.lower s)) ->
  existsb (fun c => (c <? 33) || (126 <? c)) (Stdpy.bytes_of s) = false.
Proof.
  induction s as [|a s IH]; [done|]. intros H.
  change (Stdpy.bytes_of (Domain.lower (String a s))) with
    (byte_of (Domain.lower_ascii a) :: Stdpy.bytes_of (Domain.lower s)) in H.
  apply Forall_cons in H as [Ha Hs]. cbn [Stdpy.bytes_of existsb].
  apply lower_printable in Ha. unfold printable in Ha. apply negb_true_iff in Ha. rewrite Ha. by apply IH.
Qed.

Lemma slice_split {A} (l : list A) (p : nat) (x d : A) :
  (p < length l)%nat -> nth p l d = x -> l = slice 0 (Z.of_nat p) l ++ x :: slice (Z.of_nat p + 1) (zlen l) l.
Proof.
  intros Hp Hx. unfold slice, zlen. rewrite !Z.min_l by lia.
  replace (Z.to_nat (Z.of_nat p - 0)) with p by lia. replace (Z.to_nat 0) with 0%nat by lia. cbn [drop].
  replace (Z.to_nat (Z.of_nat p + 1)) with (S p) by lia.
  rewrite (take_ge (drop (S p) l)) by (rewrite length_drop; lia).
  rewrite <- (take_drop p l) at 1. f_equal. subst x. clear -Hp.
  revert l Hp. induction p as [|p IH]; intros [|y l] Hp; cbn in *; try lia; [done|]. apply IH. lia.
Qed.

Lemma bech32_printable s hrp data ds :
  let a := Stdpy.bytes_of (Domain.lower s) in let pos := rfind1 a in
  1 <= pos -> hrp = slice 0 pos a -> indices BECH32_CHARSET (slice (pos + 1) (zlen a) a) = Some ds ->
  hrp = Stdpy.bytes_of "bc" \/ hrp = Stdpy.bytes_of "tb" -> data = ds ->
  existsb (fun c => (c <? 33) || (126 <? c)) (Stdpy.bytes_of s) = false.
Proof.
  intros a pos Hpos Hhrp Hds Hok _. apply printable_lower. fold a.
  destruct (rfind1_spec a) as [Hlt Hn]; [unfold pos in Hpos; lia|]. fold pos in Hlt, Hn.
  rewrite (slice_split a (Z.to_nat pos) 49 0) by (try done; unfold zlen in Hlt; lia).
  rewrite Z2Nat.id by lia. rewrite <- Hhrp. apply Forall_app. split.
  - destruct Hok as [-> | ->]; by repeat constructor.
  - constructor; [done|]. apply indices_elem in Hds. eapply Forall_impl; [exact Hds|]. apply charset_printable.
Qed.

Lemma api_bech32 s hrp program :
  bech32_decode s = Some (hrp, 0 :: program) -> hrp = Stdpy.bytes_of "bc" \/ hrp = Stdpy.bytes_of "tb" ->
  zlen program = 20 -> api_decode_bech32_address s = Some (program, Bitcoin.P2WPKH).
Proof.
  unfold bech32_decode. set (a := Stdpy.bytes_of (Domain.lower s)). set (pos := rfind1 a).
  destruct (Z.ltb_spec pos 1) as [|Hpos]; [done|]. destruct (Z.ltb_spec (zlen a) (pos + 7)) as [|Hlen]; [done|]. cbn [orb].
  destruct (indices BECH32_CHARSET _) as [data|] eqn:Hds; [|done].
  destruct (bech32_verify_checksum _ data) eqn:Hck; [|done]. cbn [negb].
  destruct (take (length data - 6) data) as [|version rest] eqn:Htk; [done|].
  destruct (convert_bits rest 5 8 false) as [conv|] eqn:Hcv; [|done].
  destruct (_ && _); [done|]. intros Heq Hhrp H20. injection Heq as Hh Hv Hp. subst version conv.
  unfold api_decode_bech32_address, api_decode_bech32, api_convertbits.
  change api_bech32_verify_checksum with bech32_verify_checksum.
  rewrite (bech32_printable s hrp data data) by (try done; by symmetry). fold a. fold pos.
  rewrite (proj2 (Z.ltb_ge pos 1)) by done. rewrite (proj2 (Z.ltb_ge (zlen a) (pos + 7))) by done. cbn [orb].
  rewrite Hds, Hck. cbn [negb]. rewrite Htk, Hh. rewrite bool_decide_true by (destruct Hhrp as [-> | ->]; set_solver).
  cbn [negb Z.eqb]. by rewrite Hcv, H20.
Qed.

(** ** Base58 *)

Lemma num_bytes_value fuel num :
  0 <= num < 2 ^ Z.of_nat fuel -> le_int (num_bytes fuel num) = num /\ is_bytes (num_bytes fuel num) /\
    (num_bytes fuel num <> [] -> last (num_bytes fuel num) <> Some 0).
Proof.
  revert num. induction fuel as [|n IH]; intros num Hn.
  - cbn in Hn. assert (num = 0) as -> by lia. cbn. split; [done|]. by split.
  - cbn [num_bytes]. destruct (Z.leb_spec num 0) as [H0|H0].
    { assert (num = 0) as -> by lia. cbn. split; [done|]. by split. }
    rewrite Nat2Z.inj_succ, Z.pow_succ_r in Hn by lia.
    assert (Hs : Z.shiftr num 8 = num / 256) by (by rewrite Z.shiftr_div_pow2 by lia).
    assert (Hl : Z.land num 255 = num mod 256) by (change 255 with (Z.ones 8); by rewrite Z.land_ones by lia).
    pose proof (Z.div_mod num 256). pose proof (Z.mod_pos_bound num 256).
    destruct (IH (num / 256)) as (Hv & Hb & Hlast); [split; [apply Z.div_pos; lia|apply Z.div_lt_upper_bound; lia]|].
    rewrite Hs, Hl. cbn [le_int]. rewrite Hv. split_and!; [lia|constructor; [unfold is_byte; lia|done]|].
    intros _. destruct (num_bytes n (num / 256)) as [|x r] eqn:Hnb.
    + cbn. cbn in Hv. intros [=]. lia.
    + change (last (num mod 256 :: x :: r)) with (last (x :: r)). by apply Hlast.
Qed.

Lemma index_in_bound c cs i : index_in c cs = Some i -> 0 <= i < zlen cs /\ cs !! Z.to_nat i = Some c.
Proof.
  revert i. induction cs as [|x l IH]; intros i; cbn; [done|]. unfold zlen in *. cbn [length].
  destruct (Z.eqb_spec x c) as [->|]; [intros [= <-]; split; [lia|done]|].
  destruct (index_in c l) as [j|]; [|done]. intros [= <-]. destruct (IH j eq_refl) as [? ?]. split; [lia|].
  by replace (Z.to_nat (Z.succ j)) with (S (Z.to_nat j)) by lia.
Qed.

Lemma base58_value_bounds l acc n :
  base58_value l acc = Some n -> acc * 58 ^ zlen l <= n < (acc + 1) * 58 ^ zlen l.
Proof.
  revert acc. induction l as [|c l IH]; intros acc.
  { cbn [base58_value]. intros [= ->]. change (58 ^ zlen []) with 1. lia. }
  cbn [base58_value].
  destruct (index_in c BASE58_ALPHABET) as [i|] eqn:Hi; [|done]. intros H%IH.
  apply index_in_bound in Hi as [Hi _]. change (zlen BASE58_ALPHABET) with 58 in Hi.
  replace (zlen (c :: l)) with (Z.succ (zlen l)) by (unfold zlen; cbn [length]; lia).
  rewrite Z.pow_succ_r by (unfold zlen; lia). assert (0 < 58 ^ zlen l) by (apply Z.pow_pos_nonneg; unfold zlen; lia). nia.
Qed.

Lemma le_int_zeros l n : le_int (l ++ replicate n 0) = le_int l.
Proof.
  induction l as [|b l IH]; [|cbn; by rewrite IH]. cbn [app]. induction n as [|n IHn]; [done|]. cbn. rewrite IHn. done.
Qed.

Lemma base58_data s num data :
  base58_value (Stdpy.bytes_of s) 0 = Some num -> base58_decode s = Some data ->
  0 <= num /\ is_bytes data /\ le_int (rev data) = num /\ (head data = Some 0 -> exists s', s = String "1" s').
Proof.
  intros Hv Hd. pose proof (base58_value_bounds _ _ _ Hv) as Hb.
  assert (Hnum : 0 <= num) by lia. unfold base58_decode in Hd. rewrite Hv in Hd. injection Hd as <-.
  destruct (num_bytes_value (Z.to_nat (Z.log2 num + 1)) num) as (Hle & Hby & Hlast).
  { pose proof (Z.log2_nonneg num). rewrite Z2Nat.id by lia. split; [done|].
    destruct (decide (num = 0)) as [->|]; [cbn; lia|]. rewrite Z.add_1_r. apply Z.log2_spec. lia. }
  set (nb := num_bytes _ num) in *. split; [done|]. split_and!.
  - apply Forall_app. split; [|by apply Forall_rev]. apply Forall_replicate. unfold is_byte. lia.
  - rewrite rev_app_distr, rev_involutive, (rev_alt (replicate _ _)). fold (reverse (replicate (leading_ones (Stdpy.bytes_of s)) 0)).
    by rewrite reverse_replicate, le_int_zeros.
  - destruct (leading_ones (Stdpy.bytes_of s)) as [|k] eqn:Hk.
    + cbn [replicate app]. intros Hh. destruct nb as [|x r] eqn:Hnb; [done|]. exfalso.
      apply (Hlast ltac:(done)). rewrite <- Hh, rev_alt. fold (reverse (x :: r)). by rewrite head_reverse.
    + intros _. destruct s as [|c s']; [done|]. cbn in Hk. destruct (Z.eqb_spec (byte_of c) 49) as [Hc|]; [|done].
      exists s'. f_equal. revert Hc. destruct c as [[] [] [] [] [] [] [] []]; vm_compute; congruence.
Qed.

Lemma le_int_app a b : le_int (a ++ b) = le_int a + 256 ^ zlen a * le_int b.
Proof.
  induction a as [|x a IH]; [change (256 ^ zlen []) with 1; cbn [app le_int]; lia|]. cbn [app le_int]. rewrite IH.
  replace (zlen (x :: a)) with (Z.succ (zlen a)) by (unfold zlen; cbn [length]; lia).
  rewrite Z.pow_succ_r by (unfold zlen; lia). lia.
Qed.

(** The first character of a testnet string whose number has 0x6f on top of
    24 bytes. *)
Lemma testnet_first c s num :
  base58_value (Stdpy.bytes_of (String c s)) 0 = Some num -> 0x6f * 256 ^ 24 <= num < 0x70 * 256 ^ 24 ->
  c ∈ ["1"; "m"; "n"]%char.
Proof.
  cbn [Stdpy.bytes_of base58_value]. destruct (index_in (byte_of c) BASE58_ALPHABET) as [i|] eqn:Hi; [|done].
  intros Hv%base58_value_bounds Hnum. apply index_in_bound in Hi as [Hi Hc].
  change (zlen BASE58_ALPHABET) with 58 in Hi. rewrite Z.mul_0_l, Z.add_0_l in Hv.
  set (n := zlen (Stdpy.bytes_of s)) in *. assert (Hn : 0 <= n) by (unfold n, zlen; lia).
  assert (Hi3 : i = 0 \/ i = 44 \/ i = 45).
  { destruct (decide (i = 0)) as [|Hi0]; [by left|]. right.
    destruct (decide (n <= 32)) as [Hle|Hgt].
    - pose proof (Z.pow_le_mono_r 58 n 32 ltac:(lia) Hle). exfalso.
      assert ((i + 1) * 58 ^ n <= 58 * 58 ^ 32) by nia. lia.
    - destruct (decide (n = 33)) as [->|Hne]; [lia|].
      pose proof (Z.pow_le_mono_r 58 34 n ltac:(lia) ltac:(lia)). exfalso.
      assert (1 * 58 ^ 34 <= i * 58 ^ n) by nia. lia. }
  destruct Hi3 as [-> | [-> | ->]]; vm_compute in Hc; injection Hc as Hc;
    revert Hc; destruct c as [[] [] [] [] [] [] [] []]; vm_compute; try congruence; intros _; set_solver.
Qed.

Lemma api_base58 s version payload :
  base58check_decode s = Some (version, payload) -> version = 0 \/ version = 0x6F -> zlen payload = 20 ->
  api_decode_p2pkh_address s = Ok (Some (payload, Bitcoin.P2PKH)) /\
  exists c s', s = String c s' /\ c ∈ ["1"; "m"; "n"]%char.
Proof.
  unfold base58check_decode. destruct (base58_decode s) as [data|] eqn:Hd; [|done].
  destruct (base58_value (Stdpy.bytes_of s) 0) as [num|] eqn:Hv; [|unfold base58_decode in Hd; by rewrite Hv in Hd].
  destruct (base58_data s num data Hv Hd) as (Hnum & Hby & Hle & Hone).
  destruct (Z.ltb_spec (zlen data) 5) as [|H5]; [done|].
  destruct (decide (drop (length data - 4) data = checksum4 (take (length data - 4) data))) as [Hck|Hck];
    [rewrite bool_decide_true by done|by rewrite bool_decide_false by done]. cbn [negb].
  destruct (take (length data - 4) data) as [|v rest] eqn:Htk; [done|]. intros [= -> ->] Hver H20.
  assert (Hlen : length data = 25%nat).
  { pose proof (f_equal length Htk) as Hl. rewrite length_take in Hl. cbn in Hl. unfold zlen in *. lia. }
  rewrite Hlen in Hck, Htk. cbn [Nat.sub] in Hck, Htk.
  assert (Hdata : data = (version :: payload) ++ drop 21 data) by (rewrite <- Htk; by rewrite take_drop).
  assert (Hbr : is_bytes (rev data)) by (by apply Forall_rev).
  assert (Hle25 : to_bytes_le 25 num = Ok (rev data)).
  { apply to_bytes_le_Ok. pose proof (le_int_bound _ Hbr) as Hb. rewrite Hle in Hb. unfold zlen in Hb.
    rewrite length_rev, Hlen in Hb. split; [exact Hb|]. pose proof (le_bytes_int _ Hbr) as Hi.
    rewrite length_rev, Hlen, Hle in Hi. by rewrite Hi. }
  assert (Hfirst : exists c s', s = String c s' /\ c ∈ ["1"; "m"; "n"]%char).
  { destruct Hver as [->|Hver].
    - destruct Hone as [s' ->]; [by rewrite Hdata|]. exists "1"%char, s'. split; [done|set_solver].
    - destruct s as [|c s']; [cbn in Hv; injection Hv as <-; cbn in Hd; injection Hd as <-; done|].
      exists c, s'. split; [done|]. apply (testnet_first c s' num); [exact Hv|].
      rewrite <- Hle, Hdata. cbn [app]. change (version :: ?x) with ([version] ++ x). rewrite rev_app_distr. cbn [rev app].
      assert (H24 : zlen (rev (payload ++ drop 21 data)) = 24).
      { unfold zlen in *. rewrite length_rev, length_app, length_drop. lia. }
      rewrite le_int_app, H24. cbn [le_int].
      assert (Hr : is_bytes (rev (payload ++ drop 21 data))).
      { apply Forall_rev. rewrite Hdata in Hby. cbn [app] in Hby. by apply Forall_cons in Hby as [_ Hby]. }
      apply le_int_bound in Hr. rewrite H24 in Hr. lia. }
  split; [|exact Hfirst]. destruct Hfirst as (c & s' & -> & Hc). unfold api_decode_p2pkh_address.
  rewrite bool_decide_true by done. cbn [negb]. unfold api_decode_base58check. rewrite Hv, Hle25. cbn [rbind].
  rewrite rev_involutive, Htk. rewrite bool_decide_true by done. change (drop 1 (version :: payload)) with payload. cbn [negb rbind]. by rewrite H20.
Qed.

(** Every address the prover can watch is one the API can bind, with the
    same pubkey hash and script: when the prover's decoder accepts a string,
    the API's does not raise and returns the same pair, a 20-byte hash. *)
Theorem api_accepts s h ty :
  decode_btc_address s = Some (h, ty) ->
  api_decode_btc_address s = Ok (Some (h, ty)) /\ length h = 20%nat.
Proof.
  unfold decode_btc_address, api_decode_btc_address. destruct (prefixed "bc1" s || prefixed "tb1" s).
  - destruct (bech32_decode s) as [[hrp data]|] eqn:Hd; [|done].
    destruct (bool_decide _ || bool_decide _) eqn:Hh; [|done]. cbn [negb orb].
    destruct data as [|v program]; [done|].
    destruct (Z.eqb_spec (zlen (v :: program)) 21) as [H21|]; [|done].
    destruct (Z.eqb_spec v 0) as [->|]; [|done]. intros [= -> <-].
    apply orb_true_iff in Hh. rewrite !bool_decide_eq_true in Hh. unfold zlen in *. cbn [length] in H21.
    split; [f_equal; eapply api_bech32; [exact Hd|done|unfold zlen; lia]|lia].
  - cbn [orb]. destruct (base58check_decode s) as [[v payload]|] eqn:Hd; [|done].
    destruct (_ && _) eqn:Hc; [|done]. intros [= -> <-]. apply andb_true_iff in Hc as [Hv H20%Z.eqb_eq].
    apply orb_true_iff in Hv. rewrite !Z.eqb_eq in Hv.
    destruct (api_base58 s v h Hd Hv H20) as [Ha (c & s' & Hs & Hc)]. split; [|unfold zlen in H20; lia].
    assert (prefixed "bcrt1" s = false) as ->; [|done].
    subst s. rewrite !elem_of_cons, elem_of_nil in Hc. by destruct Hc as [-> | [-> | [-> | []]]].
Qed.

(** ** Witnesses *)

Definition addr_q : string := "BC1QW508D6QEJXTDG4Y5R3ZARVARY0C5XW7KV8F3T4".
Definition addr_1 : string := "1BvBMSEYstWetqTFn5Au4m4GFg7xJaNVN2".

Definition data_q : list Z := default [] (indices BECH32_CHARSET (drop 3 (Stdpy.bytes_of (Domain.lower addr_q)))).

Lemma bech32_detects_witness :
  bech32_verify_checksum (Stdpy.bytes_of "bc") data_q = true /\
  bech32_verify_checksum (Stdpy.bytes_of "bc") (take 9 data_q ++ 31 :: drop 10 data_q) = false.
Proof.
  assert (Hs : data_q = take 9 data_q ++ nth 9 data_q 0 :: drop 10 data_q) by (vm_compute; reflexivity).
  assert (Hok : bech32_verify_checksum (Stdpy.bytes_of "bc") data_q = true) by (vm_compute; reflexivity).
  split; [exact Hok|]. rewrite Hs in Hok.
  refine (bech32_detects _ _ (nth 9 data_q 0) 31 _ _ _ _ _ Hok).
  - repeat constructor; unfold is_byte; vm_compute; congruence.
  - apply Forall_forall. intros x Hx. assert (H : forallb (fun v => (0 <=? v) && (v <? 32))
      (take 9 data_q ++ nth 9 data_q 0 :: drop 10 data_q) = true) by (vm_compute; reflexivity).
    rewrite forallb_forall in H. apply list_elem_of_In in Hx. apply H in Hx. unfold sym. lia.
  - unfold sym. lia.
  - vm_compute. discriminate.
Defined.

Lemma convert_roundtrip_witness : exists d, convert_bits d 5 8 false = Some [255; 0; 7].
Proof.
  destruct (convert_roundtrip [255; 0; 7]) as (d & _ & _ & Hd); [repeat constructor; unfold is_byte; lia|].
  exists d. exact Hd.
Defined.

Lemma api_accepts_witness :
  exists h1 h2, api_decode_btc_address addr_q = Ok (Some (h1, Bitcoin.P2WPKH)) /\
    api_decode_btc_address addr_1 = Ok (Some (h2, Bitcoin.P2PKH)).
Proof.
  assert (H1 : match decode_btc_address addr_q with Some (_, Bitcoin.P2WPKH) => true | _ => false end = true)
    by (vm_compute; reflexivity).
  assert (H2 : match decode_btc_address addr_1 with Some (_, Bitcoin.P2PKH) => true | _ => false end = true)
    by (vm_compute; reflexivity).
  destruct (decode_btc_address addr_q) as [[h1 []]|] eqn:E1; try discriminate H1.
  destruct (decode_btc_address addr_1) as [[h2 []]|] eqn:E2; try discriminate H2.
  exists h1, h2. split; [exact (proj1 (api_accepts _ _ _ E1))|exact (proj1 (api_accepts _ _ _ E2))].
Defined.

End Address.
