(* ===== verification/Columns.v ===== *)
(** Column constraints the tables share: the regular expressions of the CHECK
    clauses, the widths of the string columns and the rows of a table.

    Source: offchain/gpu/hashcredit_gpu/db/models.py.  PostgreSQL's [~] matches
    [$] at the end of the text only. *)

From S2P Require Import Prelude Domain.

Module Columns.

Definition in_range (lo hi a : ascii) : bool := (nat_of_ascii lo <=? nat_of_ascii a)%nat && (nat_of_ascii a <=? nat_of_ascii hi)%nat.

(** Models [db/models.py], [ULID_CHECK]. *)
Definition ULID_CHECK (s : string) : bool :=
  Nat.eqb (String.length s) 26 &&
  Domain.string_forallb (fun a => in_range "0" "9" a || in_range "A" "H" a || in_range "J" "K" a || in_range "M" "N" a ||
                                  in_range "P" "T" a || in_range "V" "Z" a) s.

Definition lower_hex (a : ascii) : bool := in_range "0" "9" a || in_range "a" "f" a.

(** [^0x[0-9a-f]{n}$] *)
Definition hex_text (n : nat) (s : string) : bool :=
  match s with
  | String "0" (String "x" s') => Nat.eqb (String.length s') n && Domain.string_forallb lower_hex s'
  | _ => false
  end.

(** Models [db/models.py], [ADDR_CHECK]. *)
Definition ADDR_CHECK (s : string) : bool := hex_text 40 s.

(** Models [db/models.py], [HEX32_CHECK]. *)
Definition HEX32_CHECK (s : string) : bool := hex_text 64 s.

(** [^(vault|secret|doc)://] *)
Definition REF_CHECK (s : string) : bool :=
  String.prefix "vault://" s || String.prefix "secret://" s || String.prefix "doc://" s.

(** [VARCHAR(n)] *)
Definition fits (n : nat) (s : string) : bool := (String.length s <=? n)%nat.

(** [col IS NULL OR p(col)] *)
Definition null_or {A} (p : A -> bool) (c : option A) : bool := match c with Some x => p x | None => true end.

(** Models [db/models.py], [_in]. *)
Definition in_values (E : Type) `{Domain.StrEnum E} (s : string) : bool :=
  existsb (fun e : E => String.eqb (Domain.value e) s) Domain.members.

(** The rows of a table that satisfy a WHERE clause. *)
Definition select {K V} `{Countable K} (p : V -> bool) (t : gmap K V) : list V :=
  filter (fun v => p v) (map_to_list t).*2.

(** [session.scalar] of a query: the first row, if any. *)
Definition scalar {K V} `{Countable K} (p : V -> bool) (t : gmap K V) : option V := head (select p t).

Lemma elem_of_select {K V} `{Countable K} (p : V -> bool) (t : gmap K V) v :
  v ∈ select p t <-> p v = true /\ exists k, t !! k = Some v.
Proof.
  unfold select. rewrite list_elem_of_filter, list_elem_of_fmap. split.
  - intros [Hp ([k w] & -> & Hk%elem_of_map_to_list)]. split; [by apply Is_true_true|by exists k].
  - intros [Hp [k Hk]]. split; [by apply Is_true_true|]. exists (k, v). split; [done|]. by apply elem_of_map_to_list.
Qed.

Lemma scalar_Some {K V} `{Countable K} (p : V -> bool) (t : gmap K V) v :
  scalar p t = Some v -> p v = true /\ exists k, t !! k = Some v.
Proof.
  unfold scalar. destruct (select p t) as [|w l] eqn:Hs; [done|]. intros [= ->].
  apply elem_of_select. rewrite Hs. apply list_elem_of_here.
Qed.

Lemma scalar_None {K V} `{Countable K} (p : V -> bool) (t : gmap K V) k v :
  scalar p t = None -> t !! k = Some v -> p v = false.
Proof.
  unfold scalar. destruct (select p t) as [|w l] eqn:Hs; [|done]. intros _ Hk.
  destruct (p v) eqn:Hp; [|done]. assert (v ∈ select p t) as Hin by (apply elem_of_select; eauto).
  rewrite Hs in Hin. by apply elem_of_nil in Hin.
Qed.

Lemma select_nil {K V} `{Countable K} (p : V -> bool) (t : gmap K V) :
  ~ select p t <> [] -> forall k v, t !! k = Some v -> p v = false.
Proof.
  intros Hn k v Hk. destruct (p v) eqn:Hp; [|done]. destruct Hn. intros He.
  assert (v ∈ select p t) as Hin by (apply elem_of_select; eauto). rewrite He in Hin. by apply elem_of_nil in Hin.
Qed.

Lemma select_insert_new {K V} `{Countable K} (p : V -> bool) (t : gmap K V) k v :
  t !! k = None -> select p (<[k := v]> t) ≡ₚ if p v then v :: select p t else select p t.
Proof.
  intros Hk. unfold select. rewrite (map_to_list_insert t k v) by done. rewrite fmap_cons, filter_cons. cbn [snd].
  destruct (p v); [by rewrite decide_True|by rewrite decide_False by (cbn; tauto)].
Qed.

End Columns.
