(* ===== verification/Projection.v ===== *)
(** The read models of the chain: replaying the canonical logs of a deployment
    into facilities, evidence, receivables, credit status, repayments and
    entities.

    Sources: offchain/gpu/hashcredit_gpu/projections/indexer.py ([replay] and
    its parts), reconciliation/chain_reader.py ([pair_repayment_events]) and the
    CHECK clauses of db/projections_models.py.  The rows of one deployment; a
    decoded argument that is not a text where one is expected raises
    [TypeError]. *)

From S2P Require Import Prelude Domain Stdpy Json Columns.
Import Domain Stdpy Json Columns.

Module Projection.

(** * Rows *)

(** Models [db/projections_models.py], [ChainDeployment]. *)
Record ChainDeployment := {
  deployment_id : string;
  d_chain_id : Z;
  d_profile : string;
  deployment_block : Z;
  contracts : list (string * string);
  finality_depth : Z;
}.

(** Models [db/projections_models.py], [ChainBlock]. *)
Record ChainBlock := { number : Z; b_hash : string; parent_hash : string; timestamp : Z; b_tier : string }.

(** Models [db/projections_models.py], [ChainLog]. *)
Record ChainLog := {
  block_number : Z;
  block_hash : string;
  tx_hash : string;
  tx_index : Z;
  log_index : Z;
  tx_status : Z;
  l_address : string;
  contract_name : string;
  event_name : string;
  topics : list string;
  data : string;
  decoded : json;
  tier : string;
}.

(** Models [db/projections_models.py], [ProjectedFacility]. *)
Record ProjectedFacility := {
  facility_key : string;
  borrower_key : option string;
  execution_profile : string;
  f_state : string;
  principal : Z;
  fees : Z;
  unpaid_interest_recorded : Z;
  rate_bps : Z;
  last_accrual_at : option Z;
  accrual_frozen : bool;
  last_decision_hash : option string;
  authorization_valid_until : option Z;
  f_last_block : Z;
}.

(** Models [db/projections_models.py], [ProjectedEvidence]. *)
Record ProjectedEvidence := {
  source_event_id : string;
  economic_event_key : string;
  consumer_address : string;
  meaning : string;
  manifest_hash : string;
  verification_method : string;
  e_profile : string;
  verified_in_same_tx : bool;
  proven_height : Z;
  proven_tx_index : Z;
  proven_log_ordinal : Z;
  consumption_tx_hash : string;
  e_block : Z;
  e_block_hash : string;
  e_log_index : Z;
}.

(** Models [db/projections_models.py], [ProjectedEntity]. *)
Record ProjectedEntity := { state : list (string * json); n_last_block : Z }.

(** Models [db/projections_models.py], [ProjectedReceivable]. *)
Record ProjectedReceivable := {
  account_key : string;
  obligation_ref : string;
  r_facility : option string;
  r_state : string;
  net : Z;
  paid : Z;
  revision : Z;
  r_disputed : bool;
  recognition_tx_hash : string;
  last_tx_hash : string;
  first_block : Z;
  r_last_block : Z;
  history : list json;
}.

(** Models [db/projections_models.py], [ProjectedRepayment]. *)
Record ProjectedRepayment := {
  p_tx_hash : string;
  p_log_index : Z;
  p_facility : string;
  repaid_contract : string;
  payer : string;
  settlement_ref : option string;
  requested : Z;
  received : Z;
  fee_paid : Z;
  interest_paid : Z;
  principal_paid : Z;
  excess : Z;
  new_debt : Z;
  p_block : Z;
  p_block_hash : string;
  p_timestamp : Z;
}.

(** Models [db/projections_models.py], [ProjectedFacilityCredit]. *)
Record ProjectedFacilityCredit := {
  c_state : string;
  state_trigger : option string;
  state_authority : option string;
  state_changed_at : option Z;
  state_tx_hash : option string;
  schedule_due_at : option Z;
  schedule_grace_seconds : option Z;
  schedule_due_amount : option Z;
  schedule_set_at : option Z;
  c_disputed : bool;
  default_reason : option string;
  default_approved_at : option Z;
  reserve_owner : option string;
  reserve_pledged : Z;
  reserve_applied : Z;
  impairment : Z;
  loss_id : option string;
  loss_amount : option Z;
  written_off_at : option Z;
  transitions : list json;
  c_last_block : Z;
}.

(** The projected tables of one tier. *)
Record Tables := {
  facilities : gmap string ProjectedFacility;
  evidence : list ProjectedEvidence;
  credits : gmap string ProjectedFacilityCredit;
  receivables : gmap string ProjectedReceivable;
  repayments : list ProjectedRepayment;
  entities : gmap (string * string) ProjectedEntity;
}.

Definition no_rows : Tables :=
  {| facilities := ∅; evidence := []; credits := ∅; receivables := ∅; repayments := []; entities := ∅ |}.

#[local] Abbreviation M := (PyM Tables).

(** [list(FacilityState)[i].value] *)
Definition facility_state (i : Z) : res string := py_nth (map value (members (E:=FacilityState))) i.

Definition profile_at (i : Z) : res string := py_nth (map value (members (E:=ExecutionProfile))) i.

Definition get_text (key : string) (a : json) : option string :=
  match get_field key a with Some (JStr s) => Some s | _ => None end.

(** [int(a[key]) if key in a else d] *)
Definition int_or (key : string) (a : json) (d : option Z) : res (option Z) :=
  match get_field key a with Some x => rbind (int_of key x) (fun n => Ok (Some n)) | None => Ok d end.

(** * Facilities *)

Definition new_facility (d : ChainDeployment) (key : string) (log : ChainLog) : ProjectedFacility := {|
  facility_key := key; borrower_key := None; execution_profile := d_profile d; f_state := "DRAFT"; principal := 0; fees := 0;
  unpaid_interest_recorded := 0; rate_bps := 0; last_accrual_at := None; accrual_frozen := false; last_decision_hash := None;
  authorization_valid_until := None; f_last_block := block_number log |}.

(** Models [projections/indexer.py], lines 298-332. *)
Definition facility_event (d : ChainDeployment) (ev : string) (a : json) (f : ProjectedFacility) : res ProjectedFacility :=
  if String.eqb ev "FacilityOpened" then
    rbind (match get_field "profile" a with
           | Some x => rbind (int_of "profile" x) (fun i => rbind (profile_at i) (fun p =>
                         if String.eqb p (d_profile d) then Ok tt else Raise (Exn ValueError "event execution profile differs from deployment")))
           | None => Ok tt
           end) (fun _ =>
    rbind (int_or "rateBps" a (Some (rate_bps f))) (fun rate =>
    rbind (int_or "openedAt" a (last_accrual_at f)) (fun opened =>
    Ok (f <| borrower_key := match get_text "borrowerId" a with Some b => Some b | None => borrower_key f end |>
          <| rate_bps := default (rate_bps f) rate |> <| last_accrual_at := opened |>))))
  else if mem_str ev ["Drawn"; "Capitalized"] then
    rbind (int_field "newPrincipal" a) (fun p =>
    let f := f <| principal := p |> in
    if String.eqb ev "Capitalized" then
      rbind (int_field "interestUnits" a) (fun i => Ok (f <| unpaid_interest_recorded ::= fun x => x - i |>))
    else Ok f)
  else if String.eqb ev "Accrued" then
    rbind (int_field "interestUnits" a) (fun i => rbind (int_field "to" a) (fun t => rbind (int_field "rateBps" a) (fun rate =>
    Ok (f <| unpaid_interest_recorded ::= Z.add i |> <| last_accrual_at := Some t |> <| rate_bps := rate |>))))
  else if String.eqb ev "FeeCharged" then
    rbind (int_field "amount" a) (fun x => Ok (f <| fees ::= Z.add x |>))
  else if String.eqb ev "Allocated" then
    rbind (int_field "feePaid" a) (fun x => rbind (int_field "interestPaid" a) (fun i => rbind (int_field "principalPaid" a) (fun p =>
    let f := f <| fees ::= fun y => y - x |> <| unpaid_interest_recorded ::= fun y => y - i |> <| principal ::= fun y => y - p |> in
    rbind (int_field "newDebt" a) (fun debt =>
    if fees f + unpaid_interest_recorded f + principal f =? debt then Ok f
    else Raise (Exn ValueError "debt event conservation discrepancy")))))
  else if String.eqb ev "AccrualFrozen" then Ok (f <| accrual_frozen := true |>)
  else if mem_str ev ["StateSet"; "StateChanged"] then
    rbind (match get_field "state" a with
           | Some x => int_of "state" x
           | None => match get_field "to" a with Some x => int_of "to" x | None => Raise (Exn TypeError "int(None)") end
           end) (fun i => rbind (facility_state i) (fun st => Ok (f <| f_state := st |>)))
  else if String.eqb ev "FacilityFrozen" then Ok (f <| f_state := "DRAW_FROZEN"%string |>)
  else if String.eqb ev "AuthorizationAnchored" then
    rbind (str_field "decisionHash" a) (fun h => rbind (int_field "validUntil" a) (fun u =>
    Ok (f <| last_decision_hash := Some h |> <| authorization_valid_until := Some u |>)))
  else Ok f.

(** Models [projections/indexer.py], lines 279-297. *)
Definition project_facility (d : ChainDeployment) (log : ChainLog) : M unit :=
  match get_text "facilityId" (decoded log) with
  | Some key =>
      if negb (String.eqb key "") && mem_str (contract_name log) ["DebtLedger"; "CreditFacilityManager"] then
        let* t := get in
        let f := default (new_facility d key log) (facilities t !! key) in
        let* f' := lift_res (facility_event d (event_name log) (decoded log) (f <| f_last_block := block_number log |>)) in
        modify (fun t => t <| facilities ::= <[key := f']> |>)
      else ret tt
  | None => ret tt
  end.

(** * Evidence *)

(** [verified]: the native verifier's events, by transaction and id; a later
    one replaces an earlier one. *)
(** Models [projections/indexer.py], lines 249-254. *)
Definition verified (logs : list ChainLog) (tx id : string) : option json :=
  decoded <$> last (filter (fun l => String.eqb (contract_name l) "AttestcoinRevenueVerifier" && String.eqb (event_name l) "SourceEventVerified" &&
                               String.eqb (tx_hash l) tx && bool_decide (get_text "id" (decoded l) = Some id)) logs).

(** Models [projections/indexer.py], lines 333-361. *)
Definition project_evidence (d : ChainDeployment) (all : list ChainLog) (log : ChainLog) : M unit :=
  let a := decoded log in
  if String.eqb (contract_name log) "EvidenceBook" && String.eqb (event_name log) "SourceEventConsumed" then
    let* id := lift_res (str_field "id" a) in
    match verified all (tx_hash log) id with
    | Some proof =>
        if negb (truth proof) then raise ValueError "app consumption lacks native verifier event in same transaction"
        else
          let* eco := lift_res (str_field "economicEventId" a) in
          let* consumer := lift_res (str_field "consumer" a) in
          let* mean := lift_res (str_field "meaning" a) in
          let* manifest := lift_res (str_field "manifestHash" a) in
          let* height := lift_res (int_field "height" proof) in
          let* index := lift_res (int_field "txIndex" proof) in
          let* ordinal := lift_res (int_field "logOrdinal" proof) in
          modify (fun t => t <| evidence ::= fun l => l ++ [{|
            source_event_id := id; economic_event_key := eco; consumer_address := consumer; meaning := mean; manifest_hash := manifest;
            verification_method := if String.eqb (d_profile d) "LOCAL_MOCK" then "LOCAL_MOCK" else "ATTESTCOIN_NATIVE";
            e_profile := d_profile d; verified_in_same_tx := true; proven_height := height; proven_tx_index := index;
            proven_log_ordinal := ordinal; consumption_tx_hash := tx_hash log; e_block := block_number log;
            e_block_hash := block_hash log; e_log_index := log_index log |}] |>)
    | None => raise ValueError "app consumption lacks native verifier event in same transaction"
    end
  else ret tt.

(** * Receivables *)

(** Models [projections/indexer.py], [CORRECTION_REASON_CANCEL]. *)
Definition CORRECTION_REASON_CANCEL : Z := 3.

(** An event of a receivable that is known; [None] when it is not one of its
    events. *)
(** Models [projections/indexer.py], [_project_receivable], lines 553-577. *)
Definition receivable_event (ev : string) (a : json) (r : ProjectedReceivable) : res (option ProjectedReceivable) :=
  if String.eqb ev "ReceivableAssigned" then
    rbind (str_field "facilityId" a) (fun f => rbind (int_field "revision" a) (fun v =>
    Ok (Some (r <| r_facility := Some f |> <| r_state := "ASSIGNED"%string |> <| revision := v |>))))
  else if String.eqb ev "ReceivableCorrected" then
    rbind (int_field "delta" a) (fun x => rbind (int_field "revision" a) (fun v => rbind (int_field "reason" a) (fun why =>
    let r := r <| net ::= Z.add x |> <| revision := v |> in
    Ok (Some (if why =? CORRECTION_REASON_CANCEL then r <| r_state := "CANCELLED"%string |> else r)))))
  else if String.eqb ev "ReceivablePaid" then
    rbind (int_field "amount" a) (fun x => rbind (int_field "unpaidAfter" a) (fun after =>
    let r := r <| paid ::= Z.add x |> <| revision ::= Z.succ |> in
    if negb (net r - paid r =? after) then Raise (Exn ValueError "receivable payout conservation discrepancy")
    else Ok (Some (if paid r =? net r then r <| r_state := "PAID"%string |> else r))))
  else if String.eqb ev "ReceivablePayoutCancelled" then
    rbind (int_field "amount" a) (fun x =>
    let r := r <| paid ::= fun y => y - x |> <| revision ::= Z.succ |> in
    Ok (Some (if String.eqb (r_state r) "PAID" then r <| r_state := (if truthy (r_facility r) then "ASSIGNED" else "OPEN")%string |> else r)))
  else if String.eqb ev "ReceivableDisputed" then
    rbind (field "disputed" a) (fun x => Ok (Some (r <| r_disputed := truth x |>)))
  else Ok None.

Definition new_receivable (a : json) (log : ChainLog) : res ProjectedReceivable :=
  rbind (str_field "accountKey" a) (fun acc => rbind (str_field "obligationRef" a) (fun ob => rbind (int_field "net" a) (fun n =>
  Ok {| account_key := acc; obligation_ref := ob; r_facility := None; r_state := "OPEN"; net := n; paid := 0; revision := 1;
        r_disputed := false; recognition_tx_hash := tx_hash log; last_tx_hash := tx_hash log; first_block := block_number log;
        r_last_block := block_number log; history := [] |}))).

(** Models [projections/indexer.py], [_project_receivable], lines 522-590. *)
Definition project_receivable (log : ChainLog) : M unit :=
  let a := decoded log in let ev := event_name log in
  match get_text "receivableId" a with
  | None => ret tt
  | Some key =>
      if String.eqb key "" then ret tt
      else
        let* t := get in
        let* r' := lift_res (match receivables t !! key with
                             | Some r => if String.eqb ev "ReceivableRecognized" then
                                           Raise (Exn ValueError "receivable recognised twice in the canonical journal")
                                         else receivable_event ev a r
                             | None => if String.eqb ev "ReceivableRecognized" then rbind (new_receivable a log) (fun r => Ok (Some r))
                                       else Raise (Exn ValueError "receivable event before its recognition in the canonical journal")
                             end) in
        match r' with
        | None => ret tt
        | Some r =>
            if (net r <? 0) || (paid r <? 0) || (net r <? paid r) then raise ValueError "receivable amount conservation discrepancy"
            else
              modify (fun t => t <| receivables ::= <[key := r <| last_tx_hash := tx_hash log |> <| r_last_block := block_number log |>
                <| history ::= fun h => h ++ [JObj [("event", JStr ev); ("txHash", JStr (tx_hash log)); ("blockNumber", JInt (block_number log));
                                                    ("logIndex", JInt (log_index log)); ("args", a)]%string] |>]> |>)
        end
  end.

(** * Credit status *)

(** Models [projections/indexer.py], [CREDIT_EVENTS]. *)
Definition CREDIT_EVENTS : list (string * string) :=
  [("CreditFacilityManager", "StateChanged"); ("RecoveryManager", "ScheduleSet"); ("RecoveryManager", "DisputeSet");
   ("RecoveryManager", "DefaultApproved"); ("RecoveryManager", "ReserveFunded"); ("RecoveryManager", "ReserveApplied");
   ("RecoveryManager", "LossApplied"); ("LendingVaultV2", "ImpairmentRecognized"); ("LendingVaultV2", "ImpairmentReversed");
   ("LendingVaultV2", "WrittenOff")]%string.

Definition credit_event (log : ChainLog) : bool :=
  existsb (fun p => String.eqb p.1 (contract_name log) && String.eqb p.2 (event_name log)) CREDIT_EVENTS.

Definition new_credit (log : ChainLog) : ProjectedFacilityCredit := {|
  c_state := "DRAFT"; state_trigger := None; state_authority := None; state_changed_at := None; state_tx_hash := None; schedule_due_at := None;
  schedule_grace_seconds := None; schedule_due_amount := None; schedule_set_at := None; c_disputed := false; default_reason := None;
  default_approved_at := None; reserve_owner := None; reserve_pledged := 0; reserve_applied := 0; impairment := 0; loss_id := None;
  loss_amount := None; written_off_at := None; transitions := []; c_last_block := block_number log |}.

(** Models [projections/indexer.py], [_project_credit], lines 471-519. *)
Definition credit_step (log : ChainLog) (at_ : Z) (c : ProjectedFacilityCredit) : res ProjectedFacilityCredit :=
  let a := decoded log in let ev := event_name log in
  if String.eqb ev "StateChanged" then
    rbind (int_field "to" a) (fun i => rbind (facility_state i) (fun st =>
    rbind (str_field "trigger" a) (fun trig => rbind (str_field "authority" a) (fun auth =>
    rbind (int_field "from" a) (fun j => rbind (facility_state j) (fun from =>
    Ok (c <| c_state := st |> <| state_trigger := Some trig |> <| state_authority := Some auth |> <| state_changed_at := Some at_ |>
          <| state_tx_hash := Some (tx_hash log) |>
          <| transitions ::= fun l => l ++ [JObj [("from", JStr from); ("to", JStr st); ("trigger", JStr trig); ("authority", JStr auth);
                                                 ("txHash", JStr (tx_hash log)); ("blockNumber", JInt (block_number log)); ("at", JInt at_)]%string] |>)))))))
  else if String.eqb ev "ScheduleSet" then
    rbind (int_field "dueAt" a) (fun due => rbind (int_field "graceSeconds" a) (fun g => rbind (int_field "dueAmount" a) (fun x =>
    Ok (c <| schedule_due_at := Some due |> <| schedule_grace_seconds := Some g |> <| schedule_due_amount := Some x |>
          <| schedule_set_at := Some at_ |> <| c_disputed := false |>))))
  else if String.eqb ev "DisputeSet" then
    rbind (field "disputed" a) (fun x =>
    let c := c <| c_disputed := truth x |> in
    Ok (if truth x then c <| default_reason := None |> <| default_approved_at := None |> else c))
  else if String.eqb ev "DefaultApproved" then
    rbind (str_field "reason" a) (fun why => Ok (c <| default_reason := Some why |> <| default_approved_at := Some at_ |>))
  else if String.eqb ev "ReserveFunded" then
    rbind (str_field "owner" a) (fun o => rbind (int_field "amount" a) (fun x =>
    Ok (c <| reserve_owner := Some o |> <| reserve_pledged ::= Z.add x |>)))
  else if String.eqb ev "ReserveApplied" then
    rbind (int_field "amount" a) (fun x =>
    if reserve_pledged c <? x then Raise (Exn ValueError "reserve application exceeds the pledged reserve")
    else Ok (c <| reserve_pledged ::= fun y => y - x |> <| reserve_applied ::= Z.add x |>))
  else if String.eqb ev "ImpairmentRecognized" then
    rbind (int_field "amount" a) (fun x => Ok (c <| impairment ::= Z.add x |>))
  else if String.eqb ev "ImpairmentReversed" then
    rbind (int_field "amount" a) (fun x =>
    if impairment c <? x then Raise (Exn ValueError "impairment reversal exceeds the recognised impairment")
    else Ok (c <| impairment ::= fun y => y - x |>))
  else if String.eqb ev "WrittenOff" then Ok (c <| impairment := 0 |>)
  else if String.eqb ev "LossApplied" then
    rbind (field "writeOff" a) (fun w =>
    if truth w then
      rbind (str_field "lossId" a) (fun l => rbind (int_field "amount" a) (fun x =>
      Ok (c <| loss_id := Some l |> <| loss_amount := Some x |> <| written_off_at := Some at_ |>)))
    else Ok c)
  else Ok c.

(** Models [projections/indexer.py], [_project_credit], lines 445-470. *)
Definition project_credit (blocks : gmap Z ChainBlock) (log : ChainLog) : M unit :=
  let* key := lift_res (str_field "facilityId" (decoded log)) in
  match blocks !! block_number log with
  | None => raise ValueError "credit event lacks its canonical block journal row"
  | Some b =>
      let* t := get in
      let c := default (new_credit log) (credits t !! key) in
      let* c' := lift_res (credit_step log (timestamp b) (c <| c_last_block := block_number log |>)) in
      modify (fun t => t <| credits ::= <[key := c']> |>)
  end.

(** * Repayments *)

Definition REPAYMENT_CONTRACTS : list string := ["CreditFacilityManager"; "RepaymentRouter"]%string.
Definition ZERO_REF : string := "0x0000000000000000000000000000000000000000000000000000000000000000".

Definition is_digit (c : ascii) : bool := in_range "0" "9" c.

(** Models [reconciliation/chain_reader.py], [_uint]. *)
Definition uint (x : json) : res Z :=
  let bad := Raise (Exn ValueError "invalid canonical uint") in
  rbind (match x with
         | JInt n => Ok n
         | JStr s => if negb (String.eqb s "") && string_forallb is_digit s then py_int s else bad
         | _ => bad
         end) (fun n => if (0 <=? n) && (n <? 2 ^ 256) then Ok n else Raise (Exn ValueError "canonical uint out of range")).

Definition uint_field (key : string) (a : json) : res Z := rbind (field key a) uint.

(** [x.lower()] of an argument *)
Definition lower_of (x : json) : res string := match x with JStr s => Ok (lower s) | _ => Raise (Exn AttributeError "lower") end.

Fixpoint filter_res {A} (p : A -> res bool) (l : list A) : res (list A) :=
  match l with
  | [] => Ok []
  | x :: l' => rbind (p x) (fun b => rbind (filter_res p l') (fun r => Ok (if b : bool then x :: r else r)))
  end.

(** The events of the deployment's own contracts about the facility. *)
Definition is_configured (cs : list (string * string)) (fk : string) (l : ChainLog) : res bool :=
  if String.eqb (lower (l_address l)) (lower (default ""%string (dget (contract_name l) cs))) then
    rbind (match get_field "facilityId" (decoded l) with Some x => lower_of x | None => Ok ""%string end) (fun f => Ok (String.eqb f (lower fk)))
  else Ok false.

Definition is_repaid (l : ChainLog) : bool := mem_str (contract_name l) REPAYMENT_CONTRACTS && String.eqb (event_name l) "Repaid".

Definition is_allocated (l : ChainLog) : bool := String.eqb (contract_name l) "DebtLedger" && String.eqb (event_name l) "Allocated".

Definition is_vault_receipt (l : ChainLog) : bool := String.eqb (contract_name l) "LendingVaultV2" && String.eqb (event_name l) "RepaymentReceived".

Definition same_tx (r l : ChainLog) : bool :=
  String.eqb (tx_hash l) (tx_hash r) && (block_number l =? block_number r) && String.eqb (block_hash l) (block_hash r) && (tx_index l =? tx_index r).

(** [max(..., default=-1)] and [min(..., default=inf)] of log indices *)
Definition max_index (l : list ChainLog) : Z := foldr Z.max (-1) (map log_index l).
Definition before_next (i : Z) (l : list ChainLog) : bool := forallb (fun e => i <? log_index e) l.

(** The amounts of a leg agree. *)
(** Models [reconciliation/chain_reader.py], [pair_repayment_events], lines 89-104. *)
Definition amounts_agree (repaid allocated vault : ChainLog) (allow : bool) : res bool :=
  let a := decoded allocated in let v := decoded vault in let r := decoded repaid in
  let router := String.eqb (contract_name repaid) "RepaymentRouter" in
  rbind (if router && negb allow then rbind (field "settlementRef" r) (fun x => rbind (lower_of x) (fun s => Ok (negb (String.eqb s ZERO_REF)))) else Ok false) (fun named =>
  if named : bool then Ok false
  else
    rbind (uint_field "feePaid" a) (fun fee => rbind (uint_field "interestPaid" a) (fun int => rbind (uint_field "principalPaid" a) (fun prin =>
    rbind (uint_field "excess" a) (fun ex => rbind (uint_field "newDebt" a) (fun debt =>
    rbind (uint_field "received" v) (fun rcv => rbind (uint_field "applied" v) (fun app => rbind (uint_field "excess" v) (fun vex =>
    rbind (uint_field "requested" r) (fun _ =>
    if (rcv <=? 0) || negb (rcv =? app + vex) || negb (app =? fee + int + prin) || negb (vex =? ex) then Ok false
    else
      rbind (uint_field "newDebt" r) (fun rdebt => if negb (rdebt =? debt) then Ok false else
      rbind (uint_field "received" r) (fun rr => if negb (rcv =? rr) then Ok false else
      rbind (uint_field "applied" r) (fun ra => if negb (app =? ra) then Ok false else
      rbind (uint_field "excess" r) (fun re => if negb (vex =? re) then Ok false else
      if router then
        rbind (uint_field "feePaid" r) (fun rf => if negb (rf =? fee) then Ok false else
        rbind (uint_field "interestPaid" r) (fun ri => if negb (ri =? int) then Ok false else
        rbind (uint_field "principalPaid" r) (fun rp => Ok (rp =? prin))))
      else Ok true)))))))))))))).

(** Models [reconciliation/chain_reader.py], [pair_repayment_events], lines 51-104. *)
Definition pair_body (logs : list ChainLog) (cs : list (string * string)) (target : Z) (fk : string) (allow : bool)
  : res (option (ChainLog * ChainLog * ChainLog)) :=
  rbind (filter_res (is_configured cs fk) logs) (fun configured =>
  match filter (fun l => (log_index l =? target) && is_repaid l) configured with
  | [repaid] =>
      let same := filter (fun l => same_tx repaid l) configured in
      let previous := max_index (filter (fun l => is_repaid l && (log_index l <? target)) same) in
      let leg := filter (fun l => (previous <? log_index l) && (log_index l <? target)) same in
      match filter (fun l => is_allocated l) leg, filter (fun l => is_vault_receipt l) leg with
      | [allocated], [vault] =>
          if log_index vault <=? log_index allocated then Ok None
          else
            let next := filter (fun l => (target <? log_index l) && (is_repaid l || is_allocated l)) same in
            if existsb (fun l => String.eqb (contract_name l) "RepaymentRouter" && String.eqb (event_name l) "AllocationApplied" &&
                                 (log_index allocated <? log_index l) && before_next (log_index l) next) same then Ok None
            else rbind (amounts_agree repaid allocated vault allow) (fun ok => Ok (if ok : bool then Some (repaid, allocated, vault) else None))
      | _, _ => Ok None
      end
  | _ => Ok None
  end).

(** Models [reconciliation/chain_reader.py], [pair_repayment_events]: every
    exception the body can raise is one the code catches. *)
Definition pair_repayment_events (logs : list ChainLog) (cs : list (string * string)) (target : Z) (fk : string) (allow : bool)
  : option (ChainLog * ChainLog * ChainLog) :=
  match pair_body logs cs target fk allow with Ok o => o | Raise _ => None end.

(** One paired leg as a row. *)
(** Models [projections/indexer.py], [_project_repayments], lines 609-644. *)
Definition repayment_row (blocks : gmap Z ChainBlock) (fk : string) (repaid allocated vault : ChainLog) : res ProjectedRepayment :=
  let a := decoded allocated in let c := decoded vault in let r := decoded repaid in
  rbind (int_field "feePaid" a) (fun fee => rbind (int_field "interestPaid" a) (fun int => rbind (int_field "principalPaid" a) (fun prin =>
  rbind (int_field "received" r) (fun rcv => rbind (int_field "excess" r) (fun ex => rbind (int_field "newDebt" r) (fun debt =>
  rbind (int_field "received" c) (fun crcv => rbind (int_field "excess" c) (fun cex => rbind (int_field "newDebt" a) (fun adebt =>
  if negb (fee + int + prin + ex =? rcv) || negb (crcv =? rcv) || negb (cex =? ex) || negb (adebt =? debt) then
    Raise (Exn ValueError "repayment event conservation discrepancy")
  else
    match blocks !! block_number repaid with
    | Some b =>
        if negb (String.eqb (b_hash b) (block_hash repaid)) then
          Raise (Exn ValueError "repayment log is not anchored in the canonical block journal")
        else
          rbind (str_field "payer" r) (fun pay => rbind (int_field "requested" r) (fun req =>
          Ok {| p_tx_hash := tx_hash repaid; p_log_index := log_index repaid; p_facility := fk; repaid_contract := contract_name repaid;
                payer := pay; settlement_ref := get_text "settlementRef" r; requested := req; received := rcv; fee_paid := fee;
                interest_paid := int; principal_paid := prin; excess := ex; new_debt := debt; p_block := block_number repaid;
                p_block_hash := block_hash repaid; p_timestamp := timestamp b |}))
    | None => Raise (Exn ValueError "repayment log is not anchored in the canonical block journal")
    end))))))))).

(** Models [projections/indexer.py], [_project_repayments], lines 593-608. *)
Definition project_repayment (d : ChainDeployment) (blocks : gmap Z ChainBlock) (logs : list ChainLog) (log : ChainLog) : M unit :=
  if negb (is_repaid log) then ret tt
  else match get_text "facilityId" (decoded log) with
       | Some fk =>
           if String.eqb fk "" then ret tt
           else match pair_repayment_events (filter (fun l => String.eqb (tx_hash l) (tx_hash log)) logs) (contracts d) (log_index log) fk true with
                | None => ret tt
                | Some (repaid, allocated, vault) =>
                    let* row := lift_res (repayment_row blocks fk repaid allocated vault) in
                    modify (fun t => t <| repayments ::= fun l => l ++ [row] |>)
                end
       | None => ret tt
       end.

(** * Entities and vault shares *)

(** Models [projections/indexer.py], lines 366-377. *)
Definition entity_kind (contract : string) : string :=
  default "ADMIN"%string (dget contract
    [("LendingVaultV2", "VAULT"); ("ProviderRegistry", "PROVIDER"); ("ControlRegistry", "CONTROL_AGREEMENT"); ("ReceivableBook", "RECEIVABLE");
     ("ExposureController", "RESERVATION"); ("GpuRiskPolicy", "POLICY"); ("ProtocolRoles", "ROLE"); ("RevenueEscrow", "ESCROW");
     ("SourceEscrow", "ESCROW"); ("EvidenceBook", "VERIFIER_BINDING")]%string).

(** Models [projections/indexer.py], lines 378-391. *)
Definition entity_key (log : ChainLog) : res string :=
  match List.find (fun k => bool_decide (is_Some (get_field k (decoded log))))
          ["receivableId"; "reservationId"; "agreementId"; "providerId"; "accountKey"]%string with
  | Some k => str_field k (decoded log)
  | None => Ok (l_address log)
  end.

Definition ZERO_ADDRESS : string := "0x0000000000000000000000000000000000000000".

Definition balances_of (st : list (string * json)) : res (list (string * json)) :=
  match dget "shareBalances" st with None => Ok [] | Some (JObj l) => Ok l | Some _ => Raise (Exn TypeError "dict()") end.

(** [balances[who] = str(int(balances.get(who, "0")) + amount)] *)
Definition move_shares (who : string) (amount : Z) (b : list (string * json)) : res (list (string * json)) :=
  rbind (int_of who (default (JStr "0") (dget who b))) (fun n => Ok (dput who (JStr (py_str (n + amount))) b)).

Fixpoint any_negative (b : list (string * json)) : res bool :=
  match b with
  | [] => Ok false
  | p :: b' => rbind (int_of p.1 p.2) (fun n => if n <? 0 then Ok true else any_negative b')
  end.

(** Models [projections/indexer.py], lines 405-425. *)
Definition share_transfer (a : json) (st : list (string * json)) : res (list (string * json)) :=
  rbind (balances_of st) (fun b0 =>
  rbind (int_of "totalShares" (default (JStr "0") (dget "totalShares" st))) (fun t0 =>
  rbind (int_field "value" a) (fun amount =>
  rbind (str_field "from" a) (fun from =>
  let mint := String.eqb from ZERO_ADDRESS in
  rbind (if mint then Ok b0 else move_shares from (- amount) b0) (fun b1 =>
  rbind (str_field "to" a) (fun to =>
  let burn := String.eqb to ZERO_ADDRESS in
  let t1 := t0 + (if mint then amount else 0) - (if burn then amount else 0) in
  rbind (if burn then Ok b1 else move_shares to amount b1) (fun b2 =>
  rbind (any_negative b2) (fun neg =>
  if (t1 <? 0) || (neg : bool) then Raise (Exn ValueError "share event conservation discrepancy; deployment history incomplete")
  else Ok (dput "totalShares" (JStr (py_str t1)) (dput "shareBalances" (JObj b2) st)))))))))).

(** Models [projections/indexer.py], lines 392-404. *)
Definition project_entity (log : ChainLog) : M unit :=
  let* key := lift_res (entity_key log) in
  let id := (entity_kind (contract_name log), key) in
  let* t := get in
  let st0 := match entities t !! id with Some e => state e | None => [] end in
  let st1 := dput "lastTxHash" (JStr (tx_hash log)) (dput "lastEvent" (JStr (event_name log)) (dput (event_name log) (decoded log) st0)) in
  let* st2 := lift_res (if String.eqb (contract_name log) "LendingVaultV2" && String.eqb (event_name log) "Transfer"
                        then share_transfer (decoded log) st1 else Ok st1) in
  modify (fun t => t <| entities ::= <[id := {| state := st2; n_last_block := block_number log |}]> |>).

(** * Replay *)

(** Models [projections/indexer.py], lines 273-278. *)
Definition project_log (d : ChainDeployment) (blocks : gmap Z ChainBlock) (all : list ChainLog) (log : ChainLog) : M unit :=
  if String.eqb (event_name log) "UNKNOWN" then ret tt
  else
    project_facility d log ;;;
    project_evidence d all log ;;;
    (if String.eqb (contract_name log) "ReceivableBook" then project_receivable log else ret tt) ;;;
    (if credit_event log then project_credit blocks log else ret tt) ;;;
    project_entity log.

(** The CHECK clauses and unique keys the rows meet at [s.flush()]. *)
Definition facility_check (f : ProjectedFacility) : bool :=
  HEX32_CHECK (facility_key f) && (0 <=? principal f) && (0 <=? fees f) && (0 <=? unpaid_interest_recorded f) &&
  null_or HEX32_CHECK (borrower_key f).

Definition credit_check (c : ProjectedFacilityCredit) : bool :=
  (0 <=? reserve_pledged c) && (0 <=? reserve_applied c) && (0 <=? impairment c) && null_or (fun x => 0 <=? x) (loss_amount c) &&
  Bool.eqb (bool_decide (loss_id c = None)) (bool_decide (written_off_at c = None)).

Definition receivable_check (r : ProjectedReceivable) : bool :=
  HEX32_CHECK (account_key r) && HEX32_CHECK (obligation_ref r) && (0 <=? net r) && (0 <=? paid r) && (paid r <=? net r) && (1 <=? revision r).

Definition evidence_check (e : ProjectedEvidence) : bool :=
  HEX32_CHECK (source_event_id e) && HEX32_CHECK (economic_event_key e) && ADDR_CHECK (consumer_address e).

Definition repayment_check (p : ProjectedRepayment) : bool :=
  HEX32_CHECK (p_tx_hash p) && HEX32_CHECK (p_facility p) && HEX32_CHECK (p_block_hash p) && ADDR_CHECK (payer p) &&
  mem_str (repaid_contract p) REPAYMENT_CONTRACTS && null_or HEX32_CHECK (settlement_ref p) &&
  (0 <=? requested p) && (0 <=? received p) && (0 <=? fee_paid p) && (0 <=? interest_paid p) && (0 <=? principal_paid p) && (0 <=? excess p) &&
  (0 <=? new_debt p) && (fee_paid p + interest_paid p + principal_paid p + excess p =? received p).

Fixpoint no_dup (l : list string) : bool := match l with [] => true | x :: l' => negb (mem_str x l') && no_dup l' end.

Definition flush : M unit :=
  let* t := get in
  if forallb (fun p => facility_check p.2) (map_to_list (facilities t)) && forallb (fun p => credit_check p.2) (map_to_list (credits t)) &&
     forallb (fun p => HEX32_CHECK p.1 && receivable_check p.2) (map_to_list (receivables t)) && forallb evidence_check (evidence t) &&
     no_dup (map source_event_id (evidence t)) && no_dup (map economic_event_key (evidence t)) && forallb repayment_check (repayments t)
  then ret tt else raise DatabaseError "check constraint".

(** Models [projections/indexer.py], lines 271-272. *)
Definition tier_logs (t : string) (logs : list ChainLog) : list ChainLog :=
  if String.eqb t "PENDING" then logs else filter (fun l => String.eqb (tier l) t) logs.

(** One tier of [replay], from empty tables. *)
(** Models [projections/indexer.py], [replay], lines 269-275. *)
Definition project_tier (d : ChainDeployment) (blocks : gmap Z ChainBlock) (all : list ChainLog) (t : string) : res Tables :=
  let mine := tier_logs t all in
  fst ((for_each mine (project_repayment d blocks mine) ;;;
        for_each mine (project_log d blocks all) ;;;
        flush ;;; get) no_rows).

(** ORDER BY block_number, tx_index, log_index *)
Definition log_leb (a b : ChainLog) : bool :=
  if block_number a =? block_number b then
    if tx_index a =? tx_index b then log_index a <=? log_index b else tx_index a <=? tx_index b
  else block_number a <=? block_number b.

(** Models [projections/indexer.py], [replay], lines 231-269 : the read models of
    both tiers, FINALIZED first. *)
Definition replay (d : ChainDeployment) (blocks : gmap Z ChainBlock) (logs : list ChainLog) : res (Tables * Tables) :=
  let all := isort log_leb logs in
  rbind (project_tier d blocks all "FINALIZED") (fun f => rbind (project_tier d blocks all "PENDING") (fun p => Ok (f, p))).


(** * Sums in dictionaries of numbers kept as text *)

Definition texts (m : list (string * Z)) : list (string * json) := map (fun p => (p.1, JStr (py_str p.2))) m.

Lemma dget_texts who m : dget who (texts m) = (fun n => JStr (py_str n)) <$> dget who m.
Proof. unfold dget, texts. induction m as [|[k n] m IH]; [done|]. cbn. by destruct (String.eqb k who). Qed.

Lemma dput_texts who n m : dput who (JStr (py_str n)) (texts m) = texts (dput who n m).
Proof. unfold texts. induction m as [|[k x] m IH]; [done|]. cbn. destruct (String.eqb k who); cbn; [done|by rewrite IH]. Qed.

Lemma sum_dput who n (m : list (string * Z)) : sumz (dput who n m).*2 = sumz m.*2 - default 0 (dget who m) + n.
Proof.
  unfold dget, sumz. induction m as [|[k x] m IH]; cbn; [lia|].
  destruct (String.eqb k who) eqn:Hk; cbn; [lia|]. unfold fmap in *. lia.
Qed.

Lemma int_of_str key n : int_of key (JStr (py_str n)) = Ok n.
Proof. apply py_int_str. Qed.

Lemma move_texts who amount m :
  move_shares who amount (texts m) = Ok (texts (dput who (default 0 (dget who m) + amount) m)).
Proof.
  unfold move_shares. rewrite dget_texts. destruct (dget who m) as [n|] eqn:Hn; cbn [fmap option_fmap option_map from_option id].
  - by rewrite int_of_str, <- dput_texts.
  - change (JStr "0") with (JStr (py_str 0)). by rewrite int_of_str, <- dput_texts.
Qed.

Lemma any_negative_texts m : any_negative (texts m) = Ok (existsb (fun p => p.2 <? 0) m).
Proof. induction m as [|[k n] m IH]; [done|]. cbn [texts map any_negative existsb fst snd]. rewrite int_of_str. cbn [rbind]. by destruct (n <? 0). Qed.

(** * The vault's shares *)

(** The state of a vault holds balances that are not negative and add up to its
    total. *)
Definition shares_ok (st : list (string * json)) : Prop :=
  exists m, balances_of st = Ok (texts m) /\ int_of "totalShares" (default (JStr "0") (dget "totalShares" st)) = Ok (sumz m.*2) /\
    forall p, p ∈ m -> 0 <= p.2.

Lemma shares_ok_dput key v st : key <> "shareBalances"%string -> key <> "totalShares"%string -> shares_ok st -> shares_ok (dput key v st).
Proof.
  intros H1 H2 (m & Hb & Ht & Hp). exists m. unfold balances_of in *.
  rewrite !dget_dput_ne by (by apply not_eq_sym). done.
Qed.

Lemma share_transfer_ok a st st' : share_transfer a st = Ok st' -> shares_ok st -> shares_ok st'.
Proof.
  intros H (m & Hb & Ht & _). unfold share_transfer in H. rewrite Hb, Ht in H. cbn [rbind] in H.
  apply rbind_Ok in H as (amount & _ & H). apply rbind_Ok in H as (from & _ & H). cbv zeta in H.
  apply rbind_Ok in H as (b1 & H1 & H). apply rbind_Ok in H as (to & _ & H). apply rbind_Ok in H as (b2 & H2 & H).
  assert (exists m1, b1 = texts m1 /\ sumz m1.*2 = sumz m.*2 - (if String.eqb from ZERO_ADDRESS then 0 else amount)) as (m1 & -> & S1).
  { destruct (String.eqb from ZERO_ADDRESS); [exists m; injection H1 as <-; split; [done|lia]|].
    rewrite move_texts in H1. injection H1 as <-. eexists. split; [done|]. rewrite sum_dput. lia. }
  assert (exists m2, b2 = texts m2 /\ sumz m2.*2 = sumz m1.*2 + (if String.eqb to ZERO_ADDRESS then 0 else amount)) as (m2 & -> & S2).
  { destruct (String.eqb to ZERO_ADDRESS); [exists m1; injection H2 as <-; split; [done|lia]|].
    rewrite move_texts in H2. injection H2 as <-. eexists. split; [done|]. rewrite sum_dput. lia. }
  rewrite any_negative_texts in H. cbn [rbind] in H. destruct ((_ <? 0) || _) eqn:Hneg; [done|]. injection H as <-.
  apply orb_false_iff in Hneg as [_ Hneg]. exists m2. split_and!.
  - unfold balances_of. rewrite dget_dput_ne by done. by rewrite dget_dput_eq.
  - rewrite dget_dput_eq. cbn [from_option id]. rewrite int_of_str. f_equal.
    rewrite S2, S1. destruct (String.eqb from ZERO_ADDRESS), (String.eqb to ZERO_ADDRESS); lia.
  - intros p Hin. destruct (p.2 <? 0) eqn:Hn; [|lia]. exfalso. apply not_true_iff_false in Hneg. apply Hneg.
    apply existsb_exists. exists p. split; [by apply list_elem_of_In|done].
Qed.

#[local] Arguments entity_kind : simpl never.

Definition vaults_ok (t : Tables) : Prop := forall key e, entities t !! ("VAULT"%string, key) = Some e -> shares_ok (state e).

(** Event names of the contracts' interfaces: none is a key of the model's own. *)
Definition plain_event (log : ChainLog) : Prop := event_name log <> "shareBalances"%string /\ event_name log <> "totalShares"%string.

Lemma project_entity_vaults log t u t' : plain_event log -> project_entity log t = (Ok u, t') -> vaults_ok t -> vaults_ok t'.
Proof.
  intros [N1 N2] H Ht. unfold project_entity in H. apply bind_Ok in H as (key & ? & Hk & H). unfold lift_res in Hk. injection Hk as _ <-.
  apply bind_Ok in H as (x & ? & Hg & H). apply get_Ok in Hg as [-> ->]. cbv zeta in H.
  apply bind_Ok in H as (st2 & ? & Hs & H). unfold lift_res in Hs. injection Hs as Hs <-. apply modify_Ok in H as ->.
  intros k e He. cbn in He. apply lookup_insert_Some in He as [[Heq <-]|[_ He]]; [|by eapply Ht].
  cbn [state]. apply pair_equal_spec in Heq as [Hkind Hkey]. subst k.
  assert (H0 : shares_ok match entities t !! (entity_kind (contract_name log), key) with Some e => state e | None => [] end).
  { rewrite Hkind. destruct (entities t !! ("VAULT"%string, key)) as [e|] eqn:He; [by eapply Ht|]. exists []. split_and!; [done|done|]. by intros p ?%elem_of_nil. }
  set (st0 := match entities t !! _ with Some e => state e | None => [] end) in *.
  assert (H1 : shares_ok (dput "lastTxHash" (JStr (tx_hash log)) (dput "lastEvent" (JStr (event_name log)) (dput (event_name log) (decoded log) st0))))
    by (by repeat apply shares_ok_dput).
  destruct (_ && _); [by eapply share_transfer_ok|by injection Hs as <-].
Qed.

(** What the other projectors leave alone. *)
Definition same_entities (t t' : Tables) : Prop := entities t' = entities t.

#[export] Instance same_entities_preorder : PreOrder same_entities.
Proof. split; [done|]. intros t u v H1 H2. unfold same_entities in *. congruence. Qed.

#[local] Hint Extern 1 (same_entities _ _) => reflexivity : keeps.

Lemma facility_entities d log : keeps same_entities (project_facility d log).
Proof. unfold project_facility. keeps_tac. Qed.

Lemma evidence_entities d all log : keeps same_entities (project_evidence d all log).
Proof. unfold project_evidence. keeps_tac. Qed.

Lemma receivable_entities log : keeps same_entities (project_receivable log).
Proof. unfold project_receivable. keeps_tac. Qed.

Lemma credit_entities blocks log : keeps same_entities (project_credit blocks log).
Proof. unfold project_credit. keeps_tac. Qed.

Lemma repayment_entities d blocks mine log : keeps same_entities (project_repayment d blocks mine log).
Proof. unfold project_repayment. keeps_tac. Qed.


Lemma project_log_vaults d blocks all log t u t' :
  plain_event log -> project_log d blocks all log t = (Ok u, t') -> vaults_ok t -> vaults_ok t'.
Proof.
  intros Hp H Ht. unfold project_log in H. destruct (String.eqb (event_name log) "UNKNOWN"); [by apply ret_Ok in H as [_ ->]|].
  do 4 (let x := fresh "x" in let t1 := fresh "t" in let H1 := fresh "H" in apply bind_Ok in H as (x & t1 & H1 & H)).
  apply (keeps_run same_entities) in H0, H1, H2, H3; try (keeps_tac; auto using facility_entities, evidence_entities, receivable_entities, credit_entities).
  assert (entities t3 = entities t) as He by (unfold same_entities in *; congruence).
  eapply project_entity_vaults; [done|exact H|]. intros k e. rewrite He. apply Ht.
Qed.

(** An invariant of a loop that returns. *)
Lemma for_each_Ok {S A} (P : S -> Prop) (l : list A) (f : A -> PyM S unit) s u s' :
  (forall x s u s', x ∈ l -> f x s = (Ok u, s') -> P s -> P s') -> for_each l f s = (Ok u, s') -> P s -> P s'.
Proof.
  revert s. induction l as [|x l IH]; intros s Hf H Hs; [by apply ret_Ok in H as [_ ->]|].
  apply bind_Ok in H as (v & s1 & Hx & H). eapply IH; [|exact H|].
  - intros y t w t' Hy. apply Hf. by right.
  - eapply Hf; [by left|exact Hx|done].
Qed.

(** A tier's tables come from a run of its projectors. *)
Lemma project_tier_Ok d blocks all t T :
  project_tier d blocks all t = Ok T ->
  exists t1 u1 u2, for_each (tier_logs t all) (project_repayment d blocks (tier_logs t all)) no_rows = (Ok u1, t1) /\
    for_each (tier_logs t all) (project_log d blocks all) t1 = (Ok u2, T) /\ (flush T).1 = Ok tt.
Proof.
  unfold project_tier. cbv zeta. match goal with |- fst ?x = _ -> _ => destruct x as [r t'] eqn:H end. cbn [fst]. intros ->.
  apply bind_Ok in H as (u1 & t1 & H1 & H). apply bind_Ok in H as (u2 & t2 & H2 & H). apply bind_Ok in H as (u3 & t3 & H3 & H).
  apply get_Ok in H as [-> ->].
  assert (t3 = t2 /\ (flush t2).1 = Ok tt) as [-> Hf].
  { unfold flush, bind, get in *. destruct (_ && _); [|done]. apply ret_Ok in H3 as [-> ->]. done. }
  by exists t1, u1, u2.
Qed.

(** The vault's share register is conserved: after a replay of logs with
    plain event names, in either tier, the balances of a vault entity are not
    negative and add up to its total of shares, whatever was minted, burnt and
    transferred. *)
Theorem shares_conserved d blocks all t T key e :
  (forall log, log ∈ all -> plain_event log) ->
  project_tier d blocks all t = Ok T -> entities T !! ("VAULT"%string, key) = Some e ->
  exists m, balances_of (state e) = Ok (texts m) /\
    int_of "totalShares" (default (JStr "0") (dget "totalShares" (state e))) = Ok (sumz m.*2) /\ forall p, p ∈ m -> 0 <= p.2.
Proof.
  intros Hplain (t1 & u1 & u2 & H1 & H2 & _)%project_tier_Ok He.
  assert (Hl : forall log, log ∈ tier_logs t all -> plain_event log).
  { intros log Hin. apply Hplain. unfold tier_logs in Hin. destruct (String.eqb t "PENDING"); [done|]. by apply list_elem_of_filter in Hin as [_ ?]. }
  assert (V1 : vaults_ok t1).
  { eapply (for_each_Ok vaults_ok); [|exact H1|by intros k x ?]. intros log s u s' _ Hr Hs k x.
    pose proof (keeps_run same_entities _ _ _ _ (repayment_entities d blocks _ log) Hr) as E. unfold same_entities in E. rewrite E. apply Hs. }
  refine (for_each_Ok vaults_ok _ _ _ _ _ _ H2 V1 key e He). intros log s u s' Hin Hr. eapply project_log_vaults; [by apply Hl|exact Hr].
Qed.


(** * Reserves *)

(** What the logs fund of a facility's reserve. *)
Definition funded (key : string) (log : ChainLog) : Z :=
  if credit_event log && String.eqb (event_name log) "ReserveFunded" && bool_decide (get_text "facilityId" (decoded log) = Some key) then
    match int_field "amount" (decoded log) with Ok n => n | Raise _ => 0 end
  else 0.

Definition reserve (c : ProjectedFacilityCredit) : Z := reserve_pledged c + reserve_applied c.

(** The reserve a log adds: funding only, an application moves it. *)
Lemma credit_step_reserve log at_ c c' : credit_step log at_ c = Ok c' ->
  reserve c' = reserve c + (if String.eqb (event_name log) "ReserveFunded" then match int_field "amount" (decoded log) with Ok n => n | Raise _ => 0 end else 0).
Proof.
  unfold credit_step. cbv zeta. intros H.
  destruct (String.eqb (event_name log) "ReserveFunded") eqn:Hf.
  - apply String.eqb_eq in Hf. rewrite Hf in H. cbn -[int_field str_field] in H.
    apply rbind_Ok in H as (o & _ & H). apply rbind_Ok in H as (x & Hx & H). injection H as <-. rewrite Hx. unfold reserve. cbn. lia.
  - rewrite Z.add_0_r. unfold reserve.
    repeat match type of H with
      | (if String.eqb ?e ?s then _ else _) = _ => let E := fresh "E" in destruct (String.eqb e s) eqn:E
      | rbind _ _ = Ok _ => let x := fresh "x" in let Hx := fresh "Hx" in apply rbind_Ok in H as (x & Hx & H)
      | (if ?b then Raise _ else _) = _ => destruct b; [discriminate H|]
      | (if ?b then _ else Ok _) = _ => destruct b
      | Ok _ = Ok _ => injection H as <-
      | false = true => discriminate
      end; cbn; try destruct (truth _); cbn; first [lia | congruence | idtac].
Qed.

Definition same_credits (t t' : Tables) : Prop := credits t' = credits t.

#[export] Instance same_credits_preorder : PreOrder same_credits.
Proof. split; [done|]. intros t u v H1 H2. unfold same_credits in *. congruence. Qed.

#[local] Hint Extern 1 (same_credits _ _) => reflexivity : keeps.

Lemma facility_credits d log : keeps same_credits (project_facility d log).
Proof. unfold project_facility. keeps_tac. Qed.

Lemma evidence_credits d all log : keeps same_credits (project_evidence d all log).
Proof. unfold project_evidence. keeps_tac. Qed.

Lemma receivable_credits log : keeps same_credits (project_receivable log).
Proof. unfold project_receivable. keeps_tac. Qed.

Lemma entity_credits log : keeps same_credits (project_entity log).
Proof. unfold project_entity. keeps_tac. Qed.

Lemma repayment_credits d blocks mine log : keeps same_credits (project_repayment d blocks mine log).
Proof. unfold project_repayment. keeps_tac. Qed.

(** A loop's invariant over the items it has done. *)
Lemma for_each_done {S A} (P : list A -> S -> Prop) (f : A -> PyM S unit) :
  (forall l x s u s', P l s -> f x s = (Ok u, s') -> P (l ++ [x]) s') ->
  forall l0 l s u s', P l0 s -> for_each l f s = (Ok u, s') -> P (l0 ++ l) s'.
Proof.
  intros Hf l0 l. revert l0. induction l as [|x l IH]; intros l0 s u s' Hs H; [apply ret_Ok in H as [_ ->]; by rewrite app_nil_r|].
  apply bind_Ok in H as (v & s1 & Hx & H). change (x :: l) with ([x] ++ l). rewrite app_assoc. eapply IH; [|exact H]. by eapply Hf.
Qed.

Definition reserves_ok (done_ : list ChainLog) (t : Tables) : Prop :=
  forall key, match credits t !! key with
              | Some c => reserve c = sumz (map (funded key) done_)
              | None => sumz (map (funded key) done_) = 0
              end.

Lemma project_credit_reserves blocks log done_ t u t' :
  credit_event log = true -> project_credit blocks log t = (Ok u, t') -> reserves_ok done_ t -> reserves_ok (done_ ++ [log]) t'.
Proof.
  intros Hc H Ht. unfold project_credit in H. apply bind_Ok in H as (key & ? & Hk & H). unfold lift_res in Hk. injection Hk as Hk <-.
  destruct (blocks !! block_number log) as [b|]; [|done]. apply bind_Ok in H as (x & ? & Hg & H). apply get_Ok in Hg as [-> ->]. cbv zeta in H.
  apply bind_Ok in H as (c' & ? & Hs & H). unfold lift_res in Hs. injection Hs as Hs <-. apply modify_Ok in H as ->.
  apply credit_step_reserve in Hs.
  assert (Hkey : get_text "facilityId" (decoded log) = Some key).
  { unfold str_field, field, get_text, get_field in *. destruct (decoded log) as [| | | | |l]; try done. destruct (dget "facilityId" l) as [[]|]; try done. by injection Hk as ->. }
  intros k. specialize (Ht k). cbn [credits]. change (credits (t <| credits ::= ?f |>)) with (f (credits t)).
  rewrite map_app, sumz_app. cbn [map]. change (sumz [?a]) with (a + 0). unfold funded at 2. unfold funded at 3. rewrite Hc, Hkey. cbn [andb].
  destruct (decide (key = k)) as [<-|Hne].
  - rewrite lookup_insert_eq, Hs. rewrite bool_decide_true by done. rewrite andb_true_r.
    destruct (credits t !! key) as [c|]; cbn [from_option default id]; unfold reserve in *; cbn in *; lia.
  - rewrite lookup_insert_ne by done. rewrite bool_decide_false by congruence. rewrite andb_false_r. by rewrite !Z.add_0_r.
Qed.

Lemma project_log_reserves d blocks all log done_ t u t' :
  reserves_ok done_ t -> project_log d blocks all log t = (Ok u, t') -> reserves_ok (done_ ++ [log]) t'.
Proof.
  intros Ht H. unfold project_log in H.
  assert (Hskip : credit_event log = false -> forall s, credits s = credits t -> reserves_ok (done_ ++ [log]) s).
  { intros Hc s Hs key. specialize (Ht key). rewrite Hs, map_app, sumz_app. cbn [map]. unfold funded at 2 4. rewrite Hc. cbn. by rewrite !Z.add_0_r. }
  destruct (String.eqb_spec (event_name log) "UNKNOWN") as [Hu|_].
  { apply ret_Ok in H as [_ ->]. apply Hskip; [|done]. unfold credit_event. rewrite Hu. cbn. by rewrite ?andb_false_r. }
  do 4 (let x := fresh "x" in let t1 := fresh "t" in let H1 := fresh "H" in apply bind_Ok in H as (x & t1 & H1 & H)).
  apply (keeps_run same_credits) in H0, H1, H2, H; try (keeps_tac; auto using facility_credits, evidence_credits, receivable_credits, entity_credits).
  unfold same_credits in *. assert (Ht2 : credits t2 = credits t) by congruence.
  destruct (credit_event log) eqn:Hc.
  - intros key. rewrite H. refine (project_credit_reserves blocks log done_ t2 x2 t3 Hc H3 _ key). intros k. rewrite Ht2. apply Ht.
  - apply ret_Ok in H3 as [_ ->]. apply Hskip; [done|congruence].
Qed.

(** Reserves are conserved: after a replay, what a facility's credit row
    shows as pledged and as applied adds up to everything the tier's logs funded,
    and neither part is negative. *)
Theorem reserve_conserved d blocks all t T key c :
  project_tier d blocks all t = Ok T -> credits T !! key = Some c ->
  reserve_pledged c + reserve_applied c = sumz (map (funded key) (tier_logs t all)) /\ 0 <= reserve_pledged c /\ 0 <= reserve_applied c.
Proof.
  intros (t1 & u1 & u2 & H1 & H2 & Hf)%project_tier_Ok Hc.
  assert (C1 : credits t1 = ∅).
  { apply (for_each_Ok (fun t => credits t = ∅)) in H1; [done| |done]. intros log s u s' _ Hr Hs.
    pose proof (keeps_run same_credits _ _ _ _ (repayment_credits d blocks _ log) Hr) as E. unfold same_credits in E. by rewrite E. }
  assert (R : reserves_ok ([] ++ tier_logs t all) T).
  { refine (for_each_done reserves_ok _ _ [] _ _ _ _ _ H2); [intros l log s u s' Hs Hr; by eapply project_log_reserves|].
    intros k. by rewrite C1, lookup_empty. }
  specialize (R key). rewrite Hc in R. cbn [app] in R. split; [exact R|].
  unfold flush, bind, get in Hf. destruct (_ && _) eqn:Hck; [|done].
  do 5 (apply andb_true_iff in Hck as [Hck _]). apply andb_true_iff in Hck as [_ Hck].
  rewrite forallb_forall in Hck. specialize (Hck (key, c)). unfold credit_check in Hck. cbn [snd] in Hck.
  assert (Hin : List.In (key, c) (map_to_list (credits T))) by (by apply list_elem_of_In, elem_of_map_to_list).
  specialize (Hck Hin). repeat (apply andb_true_iff in Hck as [Hck ?]). lia.
Qed.


Lemma log_leb_total x y : log_leb x y = false -> log_leb y x = true.
Proof.
  unfold log_leb. destruct (Z.eqb_spec (block_number x) (block_number y)) as [->|Hn].
  - rewrite Z.eqb_refl. destruct (Z.eqb_spec (tx_index x) (tx_index y)) as [->|Hn]; [rewrite Z.eqb_refl; lia|].
    rewrite (proj2 (Z.eqb_neq _ _)) by lia. lia.
  - rewrite (proj2 (Z.eqb_neq _ _)) by lia. lia.
Qed.

Lemma log_leb_trans x y z : log_leb x y = true -> log_leb y z = true -> log_leb x z = true.
Proof.
  unfold log_leb. repeat match goal with |- context [?a =? ?b] => destruct (Z.eqb_spec a b) end; lia.
Qed.


(** * Pairing *)

Lemma filter_res_spec {A} (p : A -> res bool) l r : filter_res p l = Ok r -> forall x, x ∈ r <-> x ∈ l /\ p x = Ok true.
Proof.
  revert r. induction l as [|y l IH]; intros r H x; cbn in H.
  - injection H as <-. rewrite elem_of_nil. tauto.
  - apply rbind_Ok in H as (b & Hb & H). apply rbind_Ok in H as (r' & Hr & H). injection H as <-. specialize (IH r' Hr x).
    rewrite elem_of_cons. destruct b; rewrite ?elem_of_cons, IH; (split; [intros H; try destruct H as [->|H]; tauto|]); intros [[->|Hx] Hp]; auto.
    congruence.
Qed.

(** A single element of a filtered list. *)
Lemma filter_one {A} (p : A -> bool) (l : list A) x :
  filter (fun y => p y) l = [x] -> x ∈ l /\ p x = true /\ forall y, y ∈ l -> p y = true -> y = x.
Proof.
  intros H. assert (Hx : x ∈ filter (fun y => p y) l) by (rewrite H; by left).
  apply list_elem_of_filter in Hx as [Hp Hx]. split_and!; [done|by apply Is_true_true|].
  intros y Hy Hpy. assert (Hin : y ∈ filter (fun y => p y) l) by (apply list_elem_of_filter; split; [by apply Is_true_true|done]).
  rewrite H in Hin. by apply list_elem_of_singleton in Hin.
Qed.

Lemma max_index_ge l x : x ∈ l -> log_index x <= max_index l.
Proof. unfold max_index. induction l as [|y l IH]; [by intros ?%elem_of_nil|]. intros [->|H]%elem_of_cons; cbn; [lia|]. specialize (IH H). cbn in IH. lia. Qed.

(** What a paired leg is. *)
Record leg_of (logs : list ChainLog) (cs : list (string * string)) (target : Z) (fk : string) (r a v : ChainLog) : Prop := {
  leg_logs : r ∈ logs /\ a ∈ logs /\ v ∈ logs;
  leg_kinds : is_repaid r = true /\ is_allocated a = true /\ is_vault_receipt v = true;
  leg_own : is_configured cs fk r = Ok true /\ is_configured cs fk a = Ok true /\ is_configured cs fk v = Ok true;
  leg_tx : same_tx r a = true /\ same_tx r v = true;
  leg_order : log_index a < log_index v < target /\ log_index r = target;
  leg_bounds : forall l, l ∈ logs -> is_configured cs fk l = Ok true -> same_tx r l = true -> is_repaid l = true ->
    log_index l < target -> log_index l < log_index a;
  leg_amounts : exists fee int prin ex debt app,
    uint_field "feePaid" (decoded a) = Ok fee /\ uint_field "interestPaid" (decoded a) = Ok int /\
    uint_field "principalPaid" (decoded a) = Ok prin /\ uint_field "excess" (decoded a) = Ok ex /\
    uint_field "newDebt" (decoded a) = Ok debt /\ uint_field "newDebt" (decoded r) = Ok debt /\
    uint_field "received" (decoded v) = Ok (app + ex) /\ uint_field "received" (decoded r) = Ok (app + ex) /\
    uint_field "applied" (decoded v) = Ok app /\ app = fee + int + prin /\ 0 < app + ex;
}.

Lemma amounts_agree_true r a v allow : amounts_agree r a v allow = Ok true ->
  exists fee int prin ex debt app,
    uint_field "feePaid" (decoded a) = Ok fee /\ uint_field "interestPaid" (decoded a) = Ok int /\
    uint_field "principalPaid" (decoded a) = Ok prin /\ uint_field "excess" (decoded a) = Ok ex /\
    uint_field "newDebt" (decoded a) = Ok debt /\ uint_field "newDebt" (decoded r) = Ok debt /\
    uint_field "received" (decoded v) = Ok (app + ex) /\ uint_field "received" (decoded r) = Ok (app + ex) /\
    uint_field "applied" (decoded v) = Ok app /\ app = fee + int + prin /\ 0 < app + ex.
Proof.
  unfold amounts_agree. cbv zeta. intros H. apply rbind_Ok in H as (named & _ & H). destruct named; [done|].
  do 9 (let x := fresh "x" in let E := fresh "E" in apply rbind_Ok in H as (x & E & H)).
  destruct (_ || _) eqn:Hb; [done|]. repeat (apply orb_false_iff in Hb as [Hb ?]).
  repeat match goal with E : negb _ = false |- _ => apply negb_false_iff, Z.eqb_eq in E end. apply Z.leb_gt in Hb.
  do 2 (let x := fresh "y" in let E := fresh "G" in apply rbind_Ok in H as (x & E & H);
        match type of H with (if negb (?p =? ?q) then _ else _) = _ => destruct (Z.eqb_spec p q); [cbn [negb] in H|discriminate H] end).
  exists x, x0, x1, x2, x3, x5. subst. split_and!; try done; try lia; f_equal; congruence || (rewrite E4; f_equal; lia) || (rewrite G0; f_equal; lia).
Qed.

Lemma pair_leg logs cs target fk allow r a v : pair_repayment_events logs cs target fk allow = Some (r, a, v) -> leg_of logs cs target fk r a v.
Proof.
  unfold pair_repayment_events, pair_body. destruct (rbind _ _) as [o|e] eqn:H; [|done]. intros ->.
  apply rbind_Ok in H as (conf & Hconf & H). pose proof (filter_res_spec _ _ _ Hconf) as Hin. clear Hconf.
  destruct (filter _ conf) as [|r0 [|]] eqn:Hr; try done. cbv zeta in H.
  apply filter_one in Hr as (Hrin & Hrp & _). apply andb_true_iff in Hrp as [Hri%Z.eqb_eq Hrep].
  set (same := filter (fun l => same_tx r0 l) conf) in *.
  set (previous := max_index (filter (fun l => is_repaid l && (log_index l <? target)) same)) in *.
  set (leg := filter (fun l => (previous <? log_index l) && (log_index l <? target)) same) in *.
  destruct (filter _ leg) as [|a0 [|]] eqn:Ha; try done. destruct (filter (fun l => is_vault_receipt l) leg) as [|v0 [|]] eqn:Hv; try done.
  destruct (log_index v0 <=? log_index a0) eqn:Hav; [done|]. apply Z.leb_gt in Hav. destruct (existsb _ _); [done|].
  apply rbind_Ok in H as (ok & Hok & H). destruct ok; [|done]. injection H as -> -> ->.
  apply filter_one in Ha as (Hain & Hap & _). apply filter_one in Hv as (Hvin & Hvp & _).
  assert (Hleg : forall x, x ∈ leg -> previous < log_index x < target /\ same_tx r x = true /\ x ∈ conf).
  { intros x Hx. unfold leg in Hx. apply list_elem_of_filter in Hx as [Hb Hx]. unfold same in Hx. apply list_elem_of_filter in Hx as [Ht Hx].
    apply Is_true_true, andb_true_iff in Hb as [B1%Z.ltb_lt B2%Z.ltb_lt]. apply Is_true_true in Ht. done. }
  destruct (Hleg a Hain) as (Pa & Ta & Ca). destruct (Hleg v Hvin) as (Pv & Tv & Cv).
  destruct (proj1 (Hin r) Hrin), (proj1 (Hin a) Ca), (proj1 (Hin v) Cv). split; try done; try lia.
  - intros l Hl Hc Ht Hp Hlt. enough (log_index l <= previous) by lia. apply max_index_ge.
    apply list_elem_of_filter. split; [apply Is_true_true, andb_true_iff; split; [done|lia]|].
    apply list_elem_of_filter. split; [by apply Is_true_true|]. by apply Hin.
  - by eapply amounts_agree_true.
Qed.

Lemma same_tx_trans r s l : same_tx r s = true -> same_tx s l = same_tx r l.
Proof.
  unfold same_tx. intros H. repeat (apply andb_true_iff in H as [H ?]).
  apply String.eqb_eq in H. apply Z.eqb_eq in H0, H2. apply String.eqb_eq in H1. by rewrite H, H0, H1, H2.
Qed.

(** A measured leg backs one repayment: pairing answers only with a Repaid
    event of the deployment's own manager or router, preceded in its own
    transaction by one allocation and then one vault receipt of the same
    facility, whose amounts agree to the unit and split what the vault measured;
    and two repayments of one transaction never share an allocation or a
    receipt. *)
Theorem legs_disjoint logs cs fk t1 t2 al1 al2 r1 a1 v1 r2 a2 v2 :
  pair_repayment_events logs cs t1 fk al1 = Some (r1, a1, v1) ->
  pair_repayment_events logs cs t2 fk al2 = Some (r2, a2, v2) ->
  leg_of logs cs t1 fk r1 a1 v1 /\ leg_of logs cs t2 fk r2 a2 v2 /\
  (same_tx r1 r2 = true -> t1 <> t2 -> log_index a1 <> log_index a2 /\ log_index v1 <> log_index v2 /\
     log_index a1 <> log_index v2 /\ log_index v1 <> log_index a2).
Proof.
  intros H1%pair_leg H2%pair_leg. split; [done|]. split; [done|]. intros Ht Hne.
  assert (Hgap : forall t t' r a v r' a' v', leg_of logs cs t fk r a v -> leg_of logs cs t' fk r' a' v' -> same_tx r' r = true -> t < t' ->
    log_index a < log_index a' /\ log_index v < log_index v' /\ log_index v < log_index a').
  { intros t t' r a v r' a' v' L L' Hs Hlt. destruct L as [(Lr & _) (K & _) (O & _) _ [Or Oe] _ _]. destruct L' as [_ _ _ _ [Or' _] B' _].
    specialize (B' r Lr O Hs K). lia. }
  assert (Hs21 : same_tx r2 r1 = true).
  { rewrite (same_tx_trans _ _ _ Ht). unfold same_tx. by rewrite !String.eqb_refl, !Z.eqb_refl. }
  destruct (Z.lt_ge_cases t1 t2) as [Hlt|Hge].
  - destruct (Hgap _ _ _ _ _ _ _ _ H1 H2 Hs21 Hlt) as (? & ? & ?). destruct (leg_order _ _ _ _ _ _ _ H1), (leg_order _ _ _ _ _ _ _ H2). lia.
  - destruct (Hgap _ _ _ _ _ _ _ _ H2 H1 Ht ltac:(lia)) as (? & ? & ?). destruct (leg_order _ _ _ _ _ _ _ H1), (leg_order _ _ _ _ _ _ _ H2). lia.
Qed.

(** * What a tier depends on *)

Definition final (l : ChainLog) : bool := String.eqb (tier l) "FINALIZED".

(** The logs of a transaction are in one block, so in one tier. *)
Definition tx_tiers (all : list ChainLog) : Prop := forall l l', l ∈ all -> l' ∈ all -> tx_hash l = tx_hash l' -> tier l = tier l'.

Lemma filter_filter {A} (p q : A -> bool) (l : list A) :
  (forall x, x ∈ l -> q x = true -> p x = true) -> filter (fun x => q x) (filter (fun x => p x) l) = filter (fun x => q x) l.
Proof.
  induction l as [|x l IH]; intros H; [done|]. specialize (IH (fun y Hy => H y (list_elem_of_further _ _ _ Hy))).
  specialize (H x (list_elem_of_here _ _)). rewrite !filter_cons. destruct (p x) eqn:Hp.
  - rewrite (decide_True (P:=Is_true true)) by done. rewrite filter_cons. by rewrite IH.
  - rewrite (decide_False (P:=Is_true false)) by (cbn; tauto). destruct (q x); [by specialize (H eq_refl)|].
    by rewrite (decide_False (P:=Is_true false)) by (cbn; tauto).
Qed.

Lemma verified_final all log id : tx_tiers all -> log ∈ all -> final log = true -> verified (filter (fun l => final l) all) (tx_hash log) id = verified all (tx_hash log) id.
Proof.
  intros Ht Hl Hf. unfold verified.
  set (q := fun l : ChainLog => String.eqb (contract_name l) "AttestcoinRevenueVerifier" && String.eqb (event_name l) "SourceEventVerified" &&
                                String.eqb (tx_hash l) (tx_hash log) && bool_decide (get_text "id" (decoded l) = Some id)).
  do 2 f_equal. refine (filter_filter final q all _). intros x Hx Hq. unfold q in Hq.
  apply andb_true_iff in Hq as [Hq _]. apply andb_true_iff in Hq as [_ Hq%String.eqb_eq]. unfold final in *. by rewrite (Ht x log Hx Hl Hq).
Qed.

Lemma for_each_ext {S A} (l : list A) (f g : A -> PyM S unit) :
  (forall x s, x ∈ l -> f x s = g x s) -> forall s, for_each l f s = for_each l g s.
Proof.
  induction l as [|x l IH]; intros H s; [done|]. cbn [for_each]. unfold bind. rewrite H by (by left).
  destruct (g x s) as [[u|e] s1]; [|done]. apply IH. intros y t Hy. apply H. by right.
Qed.

Lemma bind_ext {S A B} (m m' : PyM S A) (k k' : A -> PyM S B) :
  (forall s, m s = m' s) -> (forall a s, k a s = k' a s) -> forall s, bind m k s = bind m' k' s.
Proof. intros Hm Hk s. unfold bind. rewrite Hm. destruct (m' s) as [[a|e] s1]; [apply Hk|done]. Qed.

Lemma project_log_ext d b1 b2 all1 all2 log :
  b1 !! block_number log = b2 !! block_number log -> (forall id, verified all1 (tx_hash log) id = verified all2 (tx_hash log) id) ->
  forall s, project_log d b1 all1 log s = project_log d b2 all2 log s.
Proof.
  intros Hb Hv s. unfold project_log. destruct (String.eqb (event_name log) "UNKNOWN"); [done|].
  apply bind_ext; [done|]. intros u t. apply bind_ext.
  - intros t'. unfold project_evidence. cbv zeta. destruct (_ && _); [|done]. apply bind_ext; [done|]. intros id t''. by rewrite Hv.
  - intros u' t'. apply bind_ext; [done|]. intros u'' t''. apply bind_ext; [|done]. intros t3. destruct (credit_event log); [|done].
    unfold project_credit. apply bind_ext; [done|]. intros key t4. by rewrite Hb.
Qed.

Lemma repayment_ext d b1 b2 mine log :
  (forall l, l ∈ mine -> b1 !! block_number l = b2 !! block_number l) ->
  forall s, project_repayment d b1 mine log s = project_repayment d b2 mine log s.
Proof.
  intros Hb s. unfold project_repayment. destruct (negb (is_repaid log)); [done|]. destruct (get_text "facilityId" (decoded log)) as [fk|]; [|done].
  destruct (String.eqb fk ""); [done|]. destruct (pair_repayment_events _ _ _ _ _) as [[[r a] v]|] eqn:Hp; [|done].
  destruct (leg_logs _ _ _ _ _ _ _ (pair_leg _ _ _ _ _ _ _ _ Hp)) as (Hr & _). apply list_elem_of_filter in Hr as [_ Hr].
  apply bind_ext; [|done]. intros t. unfold lift_res, repayment_row. cbv zeta. by rewrite (Hb r Hr).
Qed.

(** The finalized read models are a function of the finalized logs alone:
    whatever pending logs there are, and whatever blocks above them, two journals
    with the same finalized logs and blocks project to the same tables; and
    neither tier depends on the order in which the logs were stored. *)
Theorem finalized_independent d b1 b2 all1 all2 :
  tx_tiers all1 -> tx_tiers all2 -> filter (fun l => final l) all1 = filter (fun l => final l) all2 ->
  (forall l, l ∈ all1 -> final l = true -> b1 !! block_number l = b2 !! block_number l) ->
  project_tier d b1 all1 "FINALIZED" = project_tier d b2 all2 "FINALIZED" /\
  forall b l l', l ≡ₚ l' -> (forall x y, x ∈ l -> y ∈ l -> log_leb x y = true -> log_leb y x = true -> x = y) -> replay d b l = replay d b l'.
Proof.
  intros T1 T2 Hf Hb. split.
  - unfold project_tier, tier_logs. change (String.eqb "FINALIZED" "PENDING") with false. cbv iota zeta.
    change (filter (fun l => String.eqb (tier l) "FINALIZED") all1) with (filter (fun l => final l) all1).
    change (filter (fun l => String.eqb (tier l) "FINALIZED") all2) with (filter (fun l => final l) all2). rewrite <- Hf.
    set (mine := filter (fun l => final l) all1) in *.
    assert (Hm1 : forall l, l ∈ mine -> l ∈ all1 /\ final l = true).
    { intros l Hl. unfold mine in Hl. apply list_elem_of_filter in Hl as [H1 H2]. split; [done|by apply Is_true_true]. }
    assert (Hm2 : forall l, l ∈ mine -> l ∈ all2 /\ final l = true).
    { intros l Hl. rewrite Hf in Hl. apply list_elem_of_filter in Hl as [H1 H2]. split; [done|by apply Is_true_true]. }
    f_equal. apply bind_ext.
    + intros s. apply for_each_ext. intros log t Hl. apply repayment_ext. intros l Hin. by apply Hb; apply Hm1.
    + intros u t. apply bind_ext; [|done]. intros t'. apply for_each_ext. intros log t'' Hl.
      destruct (Hm1 log Hl) as [A1 F1]. destruct (Hm2 log Hl) as [A2 _].
      apply project_log_ext; [by apply Hb|]. intros id. rewrite <- (verified_final all1), <- (verified_final all2) by done.
      fold mine. by rewrite <- Hf.
  - intros b l l' Hp Ha. unfold replay. by rewrite (isort_unique log_leb log_leb_total log_leb_trans l l' Hp Ha).
Qed.


(** * Examples *)

Definition h64 (c : string) : string := ("0x000000000000000000000000000000000000000000000000000000000000000" ++ c)%string.
Definition a40 (c : string) : string := ("0x000000000000000000000000000000000000000" ++ c)%string.

Definition mk (blk i : Z) (contract ev : string) (args : list (string * json)) (t : string) : ChainLog := {|
  block_number := blk; block_hash := h64 (py_str blk); tx_hash := h64 (py_str blk); tx_index := 0; log_index := i; tx_status := 1;
  l_address := a40 "a"; contract_name := contract; event_name := ev; topics := []; data := "0x"; decoded := JObj args; tier := t |}.

Definition F1 : string := h64 "f".
Definition num (key : string) (n : Z) : string * json := (key, JStr (py_str n)).

Definition d0 : ChainDeployment := {|
  deployment_id := "D"; d_chain_id := 31337; d_profile := "LOCAL_MOCK"; deployment_block := 1; finality_depth := 2;
  contracts := [("DebtLedger", a40 "a"); ("LendingVaultV2", a40 "a"); ("RepaymentRouter", a40 "a"); ("RecoveryManager", a40 "a")]%string |}.

Definition blk (n : Z) : ChainBlock := {| number := n; b_hash := h64 (py_str n); parent_hash := h64 (py_str (n - 1)); timestamp := 100 + n; b_tier := "FINALIZED" |}.
Definition blocks0 : gmap Z ChainBlock := <[1 := blk 1]> (<[2 := blk 2]> (<[3 := blk 3]> ∅)).

Definition logs0 : list ChainLog := [
  mk 1 0 "DebtLedger" "FacilityOpened" [("facilityId", JStr F1); num "rateBps" 1000; num "openedAt" 101] "FINALIZED";
  mk 1 1 "DebtLedger" "Drawn" [("facilityId", JStr F1); num "amount" 500; num "newPrincipal" 500] "FINALIZED";
  mk 1 2 "LendingVaultV2" "Transfer" [("from", JStr ZERO_ADDRESS); ("to", JStr (a40 "1")); num "value" 1000] "FINALIZED";
  mk 1 3 "LendingVaultV2" "Transfer" [("from", JStr (a40 "1")); ("to", JStr (a40 "2")); num "value" 400] "FINALIZED";
  mk 2 0 "DebtLedger" "Accrued" [("facilityId", JStr F1); num "interestUnits" 2; num "to" 102; num "rateBps" 1000] "FINALIZED";
  mk 2 1 "DebtLedger" "Allocated" [("facilityId", JStr F1); num "feePaid" 0; num "interestPaid" 2; num "principalPaid" 98; num "excess" 0; num "newDebt" 402] "FINALIZED";
  mk 2 2 "LendingVaultV2" "RepaymentReceived" [("facilityId", JStr F1); num "received" 100; num "applied" 100; num "excess" 0] "FINALIZED";
  mk 2 3 "RepaymentRouter" "Repaid" [("facilityId", JStr F1); ("payer", JStr (a40 "9")); ("settlementRef", JStr (h64 "e")); num "requested" 100; num "received" 100;
    num "applied" 100; num "feePaid" 0; num "interestPaid" 2; num "principalPaid" 98; num "excess" 0; num "newDebt" 402] "FINALIZED";
  mk 2 4 "DebtLedger" "Allocated" [("facilityId", JStr F1); num "feePaid" 0; num "interestPaid" 0; num "principalPaid" 2; num "excess" 0; num "newDebt" 400] "FINALIZED";
  mk 2 5 "LendingVaultV2" "RepaymentReceived" [("facilityId", JStr F1); num "received" 2; num "applied" 2; num "excess" 0] "FINALIZED";
  mk 2 6 "RepaymentRouter" "Repaid" [("facilityId", JStr F1); ("payer", JStr (a40 "9")); ("settlementRef", JStr (h64 "e")); num "requested" 2; num "received" 2;
    num "applied" 2; num "feePaid" 0; num "interestPaid" 0; num "principalPaid" 2; num "excess" 0; num "newDebt" 400] "FINALIZED";
  mk 3 0 "RecoveryManager" "ReserveFunded" [("facilityId", JStr F1); ("owner", JStr (a40 "3")); num "amount" 30] "PENDING";
  mk 3 1 "RecoveryManager" "ReserveApplied" [("facilityId", JStr F1); num "amount" 10] "PENDING"]%string.

Definition tables (r : res Tables) : Tables := match r with Ok t => t | Raise _ => no_rows end.
Definition final0 : res Tables := project_tier d0 blocks0 logs0 "FINALIZED".
Definition pending0 : res Tables := project_tier d0 blocks0 logs0 "PENDING".

Example replay_ex :
  principal <$> facilities (tables final0) !! F1 = Some 400 /\
  map (fun p => (p_log_index p, received p, principal_paid p)) (repayments (tables final0)) = [(3, 100, 98); (6, 2, 2)] /\
  (fun c => (reserve_pledged c, reserve_applied c)) <$> credits (tables pending0) !! F1 = Some (20, 10) /\
  credits (tables final0) !! F1 = None.
Proof. split_and!; vm_compute; reflexivity. Qed.

Lemma tables_of_Ok r : is_ok r = true -> r = Ok (tables r).
Proof. by destruct r. Qed.

Lemma final0_Ok : project_tier d0 blocks0 logs0 "FINALIZED" = Ok (tables final0).
Proof. apply tables_of_Ok. vm_compute. reflexivity. Qed.

Lemma pending0_Ok : project_tier d0 blocks0 logs0 "PENDING" = Ok (tables pending0).
Proof. apply tables_of_Ok. vm_compute. reflexivity. Qed.

Lemma logs0_plain log : log ∈ logs0 -> plain_event log.
Proof.
  intros Hin. assert (H : forallb (fun l => negb (String.eqb (event_name l) "shareBalances") && negb (String.eqb (event_name l) "totalShares")) logs0 = true) by reflexivity.
  rewrite forallb_forall in H. specialize (H log (proj1 (list_elem_of_In _ _) Hin)). apply andb_true_iff in H as [H1 H2].
  apply negb_true_iff, String.eqb_neq in H1, H2. by split.
Qed.

Lemma shares_conserved_witness :
  exists e m, entities (tables final0) !! ("VAULT"%string, a40 "a") = Some e /\ balances_of (state e) = Ok (texts m) /\ sumz m.*2 = 1000.
Proof.
  assert (Ht : (fun e => int_of "totalShares" (default (JStr "0") (dget "totalShares" (state e)))) <$> entities (tables final0) !! ("VAULT"%string, a40 "a") = Some (Ok 1000))
    by (vm_compute; reflexivity).
  destruct (entities (tables final0) !! ("VAULT"%string, a40 "a")) as [e|] eqn:He; [|discriminate Ht].
  cbn [fmap option_fmap option_map] in Ht. injection Ht as Ht. exists e.
  destruct (shares_conserved d0 blocks0 logs0 "FINALIZED" (tables final0) (a40 "a") e logs0_plain final0_Ok He) as (m & Hb & Hs & _).
  exists m. split; [reflexivity|]. split; [exact Hb|]. rewrite Ht in Hs. injection Hs as Hs. symmetry. exact Hs.
Defined.

Lemma reserve_conserved_witness :
  exists c, credits (tables pending0) !! F1 = Some c /\ reserve_pledged c + reserve_applied c = 30.
Proof.
  assert (Hc : bool_decide (is_Some (credits (tables pending0) !! F1)) = true) by (vm_compute; reflexivity).
  destruct (credits (tables pending0) !! F1) as [c|] eqn:He; [|discriminate Hc]. exists c. split; [reflexivity|].
  destruct (reserve_conserved d0 blocks0 logs0 "PENDING" (tables pending0) F1 c pending0_Ok He) as [H _]. rewrite H. vm_compute. reflexivity.
Defined.

Definition leg1 := pair_repayment_events logs0 (contracts d0) 3 F1 true.
Definition leg2 := pair_repayment_events logs0 (contracts d0) 6 F1 true.

Lemma legs_disjoint_witness :
  exists r1 a1 v1 r2 a2 v2, leg1 = Some (r1, a1, v1) /\ leg2 = Some (r2, a2, v2) /\ log_index a1 <> log_index a2.
Proof.
  assert (H : match leg1, leg2 with Some (r1, _, _), Some (r2, _, _) => same_tx r1 r2 | _, _ => false end = true) by (vm_compute; reflexivity).
  destruct leg1 as [[[r1 a1] v1]|] eqn:H1; [|discriminate H]. destruct leg2 as [[[r2 a2] v2]|] eqn:H2; [|discriminate H].
  exists r1, a1, v1, r2, a2, v2. split; [reflexivity|]. split; [reflexivity|].
  destruct (legs_disjoint logs0 (contracts d0) F1 3 6 true true r1 a1 v1 r2 a2 v2 H1 H2) as (_ & _ & Hd).
  exact (proj1 (Hd H ltac:(discriminate))).
Defined.

(** The journal without its pending block. *)
Definition logs1 : list ChainLog := filter (fun l => final l) logs0.

Definition by_block (l : list ChainLog) : bool :=
  forallb (fun x => forallb (fun y => negb (String.eqb (tx_hash x) (tx_hash y)) || String.eqb (tier x) (tier y)) l) l.

Lemma by_block_tiers l : by_block l = true -> tx_tiers l.
Proof.
  unfold by_block. rewrite forallb_forall. intros H x y Hx Hy Heq. specialize (H x (proj1 (list_elem_of_In _ _) Hx)).
  rewrite forallb_forall in H. specialize (H y (proj1 (list_elem_of_In _ _) Hy)). rewrite Heq, String.eqb_refl in H. by apply String.eqb_eq.
Qed.

Lemma finalized_independent_witness :
  project_tier d0 blocks0 logs0 "FINALIZED" = project_tier d0 (delete 3 blocks0) logs1 "FINALIZED".
Proof.
  refine (proj1 (finalized_independent d0 blocks0 (delete 3 blocks0) logs0 logs1 _ _ _ _)).
  - apply by_block_tiers. vm_compute. reflexivity.
  - apply by_block_tiers. vm_compute. reflexivity.
  - vm_compute. reflexivity.
  - intros l Hl Hf. assert (H : forallb (fun l => negb (final l) || negb (block_number l =? 3)) logs0 = true) by (vm_compute; reflexivity).
    rewrite forallb_forall in H. specialize (H l (proj1 (list_elem_of_In _ _) Hl)). rewrite Hf in H. cbn [negb orb] in H.
    apply negb_true_iff, Z.eqb_neq in H. symmetry. apply lookup_delete_ne. intros Heq. apply H. symmetry. exact Heq.
Defined.


End Projection.
