(* ===== verification/Indexer.v ===== *)
(** The chain indexer: one call of [sync] extends the journal of blocks and
    logs of a deployment, rolls pending blocks back on a reorganisation and
    replays the read models, in one transaction.

    Source: offchain/gpu/hashcredit_gpu/projections/indexer.py
    ([ChainIndexer.sync]).  The RPC node is outside the program: each call sees
    a node of its own ([env], by the number of the call), so the chain may move
    between any two calls.  Its quantities are taken as numbers ([int(x, 16)]).
    The rows are those of one deployment. *)

From S2P Require Import Prelude Domain Stdpy Json Columns Projection.
Import Domain Stdpy Json Columns Projection.

Module Indexer.

(** * The node *)

Record RpcBlock := { rb_number : Z; rb_hash : string; rb_parent : string; rb_time : Z }.

Record RawLog := {
  w_address : string;
  w_topics : list string;
  w_data : string;
  w_block : Z;
  w_block_hash : string;
  w_tx : string;
  w_tx_index : Z;
  w_index : Z;
  w_removed : bool;
}.

Record Receipt := { rc_block_hash : string; rc_status : Z }.

Record Rpc := {
  chain_id : Z;
  head : Z;
  get_block : Z -> option RpcBlock;
  get_logs : list string -> Z -> Z -> list RawLog;
  get_receipt : string -> option Receipt;
}.

(** What [sync] uses of the deployment's decoder. *)
Record Decoder := {
  addresses : list string;
  contract_of : string -> option string;
  decode : string -> list string -> string -> res (option (string * json));
}.

(** * The tables *)

(** Models [db/projections_models.py], [ChainCursor]. *)
Record ChainCursor := { last_block_number : Z; last_block_hash : string; finalized_block_number : Z }.

(** Models [db/projections_models.py], [ReorgJournal]. *)
Record ReorgJournal := { fork_block : Z; old_hash : string; new_hash : string; logs_rolled_back : Z }.

Record DB := {
  deployment : option ChainDeployment;
  cursor : option ChainCursor;
  blocks : gmap Z ChainBlock;
  logs : list ChainLog;
  journal : list ReorgJournal;
  views : Tables * Tables;
}.

(** The database inside the transaction, and the calls made so far. *)
Record World := { db : DB; calls : nat }.

(** Models [projections/indexer.py], lines 222-228. *)
Record SyncResult := { r_last : Z; r_finalized : option Z; r_head : Z; r_lag : Z }.

Section Node.
Context (env : nat -> Rpc) (decoder_for : list (string * string) -> res Decoder).

#[local] Abbreviation M := (PyM World).

Definition rpc {A} (f : Rpc -> A) : M A :=
  let* w := get in
  modify (fun w => w <| calls ::= S |>) ;;;
  ret (f (env (calls w))).

Definition tables : M DB := gets db.
Definition update (f : DB -> DB) : M unit := modify (fun w => w <| db ::= f |>).

(** * Reorganisations *)

(** Deletes the rows above a block. *)
Definition cut (n : Z) (x : DB) : DB :=
  x <| logs ::= fun l => filter (fun g => block_number g <=? n) l |> <| blocks ::= filter (fun p => p.1 <= n) |>.

(** Walks down to the last block the node agrees on. *)
(** Models [projections/indexer.py], [ChainIndexer.sync], lines 73-83. *)
Fixpoint find_ancestor (fuel : nat) (dep finalized ancestor : Z) : M Z :=
  if ancestor <? dep then ret ancestor
  else
    let* x := tables in
    let* actual := rpc (fun r => get_block r ancestor) in
    let agreed := match blocks x !! ancestor, actual with
                  | Some known, Some b => String.eqb (b_hash known) (lower (rb_hash b))
                  | _, _ => false
                  end in
    if agreed then ret ancestor
    else if ancestor <=? finalized then raise FinalizedReorg "canonical chain changed at finalized block"
    else match fuel with
         | O => raise OutOfFuel "find_ancestor"
         | S n => find_ancestor n dep finalized (ancestor - 1)
         end.

(** Models [projections/indexer.py], [ChainIndexer.sync], lines 84-107. *)
Definition roll_back (c : ChainCursor) (head_ last ancestor : Z) : M unit :=
  if ancestor <? last then
    let* tip := rpc (fun r => get_block r (Z.min last head_)) in
    let* x := tables in
    let count := zlen (filter (fun g => ancestor <? block_number g) (logs x)) in
    update (cut ancestor) ;;;
    match tip with
    | None => raise TypeError "'NoneType' object is not subscriptable"
    | Some b =>
        update (fun x => x <| journal ::= fun l => l ++ [{| fork_block := ancestor; old_hash := last_block_hash c;
                                                           new_hash := lower (rb_hash b); logs_rolled_back := count |}] |>)
    end
  else ret tt.

(** * Reading a chunk *)

Definition tier_at (target n : Z) : string := if n <=? target then "FINALIZED" else "PENDING".

(** Models [projections/indexer.py], [ChainIndexer.sync], lines 112-128. *)
Fixpoint read_blocks (count : nat) (number_ target : Z) (parent : option string) : M unit :=
  match count with
  | O => ret tt
  | S n =>
      let* block := rpc (fun r => get_block r number_) in
      match block with
      | None => raise TransientChainChange "canonical block unavailable"
      | Some b =>
          if negb (rb_number b =? number_) then raise TransientChainChange "canonical block unavailable"
          else if truthy parent && negb (String.eqb (lower (rb_parent b)) (default ""%string parent)) then
            raise TransientChainChange "chain changed while indexing; retry atomically"
          else
            let* x := tables in
            if bool_decide (is_Some (blocks x !! number_)) then raise DatabaseError "chain_blocks_pkey"
            else if negb (HEX32_CHECK (lower (rb_hash b)) && HEX32_CHECK (lower (rb_parent b))) then raise DatabaseError "ck_chain_blocks_hashes"
            else
              update (fun x => x <| blocks ::= <[number_ := {| number := number_; b_hash := lower (rb_hash b); parent_hash := lower (rb_parent b);
                                                               timestamp := rb_time b; b_tier := tier_at target number_ |}]> |>) ;;;
              read_blocks n (number_ + 1) target (Some (lower (rb_hash b)))
      end
  end.

Definition raw_leb (a b : RawLog) : bool :=
  if w_block a =? w_block b then
    if w_tx_index a =? w_tx_index b then w_index a <=? w_index b else w_tx_index a <=? w_tx_index b
  else w_block a <=? w_block b.

(** [raw["blockHash"], raw["transactionHash"], raw["logIndex"]] *)
Definition position (r : RawLog) : string * string * Z := (w_block_hash r, w_tx r, w_index r).

Definition same_position (g : ChainLog) (l : ChainLog) : bool :=
  String.eqb (block_hash l) (block_hash g) && String.eqb (tx_hash l) (tx_hash g) && (log_index l =? log_index g).

Definition log_check (g : ChainLog) : bool :=
  HEX32_CHECK (block_hash g) && HEX32_CHECK (tx_hash g) && ADDR_CHECK (l_address g) &&
  (0 <=? block_number g) && (0 <=? tx_index g) && (0 <=? log_index g).

(** The row of a raw log. *)
(** Models [projections/indexer.py], [ChainIndexer.sync], lines 161-181. *)
Definition log_row (dec : Decoder) (bh : string) (target : Z) (raw : RawLog) : res ChainLog :=
  rbind (decode dec (w_address raw) (w_topics raw) (w_data raw)) (fun d =>
  match contract_of dec (w_address raw) with
  | None => Raise (Exn ValueError "RPC returned unregistered contract")
  | Some name =>
      Ok {| block_number := w_block raw; block_hash := bh; tx_hash := lower (w_tx raw); tx_index := w_tx_index raw; log_index := w_index raw;
            tx_status := 1; l_address := lower (w_address raw); contract_name := name;
            event_name := match d with Some p => p.1 | None => "UNKNOWN"%string end; topics := w_topics raw; data := w_data raw;
            decoded := match d with Some p => p.2 | None => JObj [] end; tier := tier_at target (w_block raw) |}
  end).

Definition receipt_for (tx : string) (receipts : gmap string (option Receipt)) : M (option Receipt * gmap string (option Receipt)) :=
  match receipts !! tx with
  | Some r => ret (r, receipts)
  | None => let* r := rpc (fun n => get_receipt n tx) in ret (r, <[tx := r]> receipts)
  end.

(** Models [projections/indexer.py], [ChainIndexer.sync], lines 141-181. *)
Fixpoint read_logs (dec : Decoder) (last end_ target : Z) (l : list RawLog) (seen : list (string * string * Z))
    (receipts : gmap string (option Receipt)) : M unit :=
  match l with
  | [] => ret tt
  | raw :: l' =>
      let n := w_block raw in
      if (n <=? last) || (end_ <? n) || w_removed raw then raise TransientChainChange "RPC returned log outside canonical requested range"
      else
        let* x := tables in
        match blocks x !! n with
        | None => raise AttributeError "'NoneType' object has no attribute 'hash'"
        | Some b =>
            if negb (String.eqb (lower (w_block_hash raw)) (b_hash b)) then raise TransientChainChange "log belongs to another block hash"
            else if bool_decide (position raw ∈ seen) then read_logs dec last end_ target l' seen receipts
            else
              let* got := receipt_for (lower (w_tx raw)) receipts in
              let ok := match got.1 with Some r => String.eqb (lower (rc_block_hash r)) (b_hash b) && (rc_status r =? 1) | None => false end in
              if negb ok then raise TransientChainChange "log lacks canonical successful receipt"
              else
                let* g := lift_res (log_row dec (b_hash b) target raw) in
                if existsb (same_position g) (logs x) then raise DatabaseError "uq_chain_logs_position"
                else if negb (log_check g) then raise DatabaseError "ck_chain_logs"
                else
                  update (fun x => x <| logs ::= fun gs => gs ++ [g] |>) ;;;
                  read_logs dec last end_ target l' (position raw :: seen) got.2
        end
  end.

(** Models [projections/indexer.py], [ChainIndexer.sync], lines 130-187. *)
Definition read_chunk_logs (dec : Decoder) (last end_ target : Z) : M unit :=
  if last <? end_ then
    let* raws := rpc (fun r => get_logs r (addresses dec) (last + 1) end_) in
    read_logs dec last end_ target (isort raw_leb raws) [] ∅ ;;;
    let* tip := rpc (fun r => get_block r end_) in
    let* x := tables in
    match tip, blocks x !! end_ with
    | Some b, Some row => if negb (String.eqb (lower (rb_hash b)) (b_hash row)) then raise TransientChainChange "chain changed before index commit"
                          else ret tt
    | _, _ => raise TypeError "'NoneType' object is not subscriptable"
    end
  else ret tt.

(** * Commit *)

(** [update(model).where(number <= target_final).values(tier="FINALIZED")] *)
(** Models [projections/indexer.py], [ChainIndexer.sync], lines 195-203. *)
Definition finalize (target : Z) (x : DB) : DB :=
  x <| blocks ::= fmap (fun b => if number b <=? target then b <| b_tier := "FINALIZED"%string |> else b) |>
    <| logs ::= map (fun g => if block_number g <=? target then g <| tier := "FINALIZED"%string |> else g) |>.

(** Models [projections/indexer.py], [ChainIndexer.sync], lines 204-228. *)
Definition commit (d : ChainDeployment) (end_ target head_ : Z) : M SyncResult :=
  update (finalize target) ;;;
  let* x := tables in
  let* v := lift_res (replay d (blocks x) (logs x)) in
  update (fun x => x <| views := v |>) ;;;
  match blocks x !! end_ with
  | None => raise AttributeError "'NoneType' object has no attribute 'hash'"
  | Some row =>
      update (fun x => x <| cursor := Some {| last_block_number := end_; last_block_hash := b_hash row; finalized_block_number := target |} |>) ;;;
      ret {| r_last := end_; r_finalized := Some target; r_head := head_; r_lag := head_ - end_ |}
  end.

(** From a journal cut to its common ancestor [last]: read the chunk above it
    and commit. *)
(** Models [projections/indexer.py], [ChainIndexer.sync], lines 108-111. *)
Definition extend (d : ChainDeployment) (dec : Decoder) (chunk head_ last : Z) : M SyncResult :=
  let end_ := Z.min head_ (last + chunk) in
  let target := Z.max (deployment_block d - 1) (Z.min end_ (head_ - finality_depth d)) in
  let* x := tables in
  read_blocks (Z.to_nat (end_ - last)) (last + 1) target (b_hash <$> blocks x !! last) ;;;
  read_chunk_logs dec last end_ target ;;;
  if end_ <? deployment_block d then
    ret {| r_last := last; r_finalized := None; r_head := head_; r_lag := Z.max 0 (head_ - last) |}
  else commit d end_ target head_.

(** The body of the transaction. *)
(** Models [projections/indexer.py], [ChainIndexer.sync], lines 51-72. *)
Definition sync_body (chunk : Z) : M SyncResult :=
  let* x := tables in
  match deployment x with
  | None => raise ValueError "unknown deployment"
  | Some d =>
      let* cid := rpc chain_id in
      if negb (cid =? d_chain_id d) then raise ValueError "RPC chain differs from deployment"
      else
        let* dec := lift_res (decoder_for (contracts d)) in
        match cursor x with
        | None =>
            let* head_ := rpc head in
            extend d dec chunk head_ (deployment_block d - 1)
        | Some c =>
            let last := last_block_number c in
            update (cut last) ;;;
            let* head_ := rpc head in
            let* ancestor := find_ancestor (Z.to_nat (last - deployment_block d + 1)) (deployment_block d) (finalized_block_number c) last in
            roll_back c head_ last ancestor ;;;
            extend d dec chunk head_ ancestor
        end
  end.

(** Models [projections/indexer.py], [ChainIndexer.sync], lines 46-50. A failure
    rolls the tables back, not the calls. *)
Definition sync (chunk : Z) : M SyncResult :=
  if negb ((1 <=? chunk) && (chunk <=? 5000)) then raise ValueError "chunk_size must be between 1 and 5000"
  else fun w => match sync_body chunk w with
                | (Ok r, w') => (Ok r, w')
                | (Raise e, w') => (Raise e, w' <| db := db w |>)
                end.

End Node.

(** * The journal *)

(** Rows from the deployment block to [top], without a gap and linked by their
    hashes; every log is in a row of its hash. *)
Record upto (dep top : Z) (x : DB) : Prop := {
  up_key : forall n row, blocks x !! n = Some row -> number row = n /\ dep <= n <= top /\ HEX32_CHECK (b_hash row) = true;
  up_full : forall n, dep <= n <= top -> is_Some (blocks x !! n);
  up_link : forall n a b, blocks x !! n = Some a -> blocks x !! (n + 1) = Some b -> parent_hash b = b_hash a;
  up_logs : forall g, g ∈ logs x -> exists row, blocks x !! block_number g = Some row /\ b_hash row = block_hash g;
}.

(** Everything at or below a block is final. *)
Definition final_to (fin : Z) (x : DB) : Prop :=
  (forall n row, blocks x !! n = Some row -> n <= fin -> b_tier row = "FINALIZED"%string) /\
  (forall g, g ∈ logs x -> block_number g <= fin -> tier g = "FINALIZED"%string).

(** The rows reach some block [top] at or above the finalized one; rows above
    the cursor are orphans. *)
Definition journal_wf (x : DB) : Prop :=
  forall d, deployment x = Some d ->
  let dep := deployment_block d in
  match cursor x with
  | None => upto dep (dep - 1) x
  | Some c => dep <= last_block_number c /\ dep - 1 <= finalized_block_number c <= last_block_number c /\
              (exists top, finalized_block_number c <= top /\ upto dep top x) /\ final_to (finalized_block_number c) x
  end.

Lemma upto_same dep top x y : blocks y = blocks x -> logs y = logs x -> upto dep top x -> upto dep top y.
Proof. intros Hb Hl [K F L G]. split; rewrite ?Hb, ?Hl; done. Qed.

Lemma cut_block n x m : blocks (cut n x) !! m = if decide (m <= n) then blocks x !! m else None.
Proof.
  unfold cut. cbn. destruct (decide (m <= n)) as [Hle|Hgt].
  - destruct (blocks x !! m) as [row|] eqn:Hr; [by apply map_lookup_filter_Some_2|].
    apply map_lookup_filter_None_2. by left.
  - apply map_lookup_filter_None_2. right. intros row _. exact Hgt.
Qed.

Lemma cut_logs n x g : g ∈ logs (cut n x) <-> g ∈ logs x /\ block_number g <= n.
Proof. unfold cut. cbn. rewrite list_elem_of_filter. rewrite Is_true_true, Z.leb_le. tauto. Qed.

Lemma cut_upto dep top n x : upto dep top x -> n <= top -> upto dep n (cut n x).
Proof.
  intros [K F L G] Hn. split.
  - intros m row. rewrite cut_block. destruct (decide (m <= n)); [|done]. intros H. destruct (K _ _ H) as (? & ? & ?). split_and!; [done|lia|lia|done].
  - intros m Hm. rewrite cut_block, decide_True by lia. apply F. lia.
  - intros m a b. rewrite !cut_block. destruct (decide (m <= n)); [|done]. destruct (decide (m + 1 <= n)); [|done]. apply L.
  - intros g [Hg Hle]%cut_logs. destruct (G g Hg) as (row & Hr & Hh). exists row. rewrite cut_block, decide_True by done. done.
Qed.

Lemma cut_above dep top n x : upto dep top x -> top <= n -> upto dep top (cut n x).
Proof.
  intros [K F L G] Hn. assert (Hb : forall m, blocks (cut n x) !! m = blocks x !! m).
  { intros m. rewrite cut_block. destruct (decide (m <= n)); [done|]. destruct (blocks x !! m) eqn:E; [|done]. destruct (K _ _ E). lia. }
  split.
  - intros m row. rewrite Hb. apply K.
  - intros m. rewrite Hb. apply F.
  - intros m a b. rewrite !Hb. apply L.
  - intros g [Hg _]%cut_logs. rewrite Hb. by apply G.
Qed.

Section Runs.
Context (env : nat -> Rpc) (decoder_for : list (string * string) -> res Decoder).

Lemma rpc_Ok {A} (f : Rpc -> A) w a w' : rpc env f w = (Ok a, w') -> a = f (env (calls w)) /\ db w' = db w /\ calls w' = S (calls w).
Proof. unfold rpc, bind, get, modify, ret. by intros [= <- <-]. Qed.

Lemma tables_Ok w x w' : tables w = (Ok x, w') -> x = db w /\ w' = w.
Proof. unfold tables. by intros [-> ->]%gets_Ok. Qed.

Lemma update_Ok f w u w' : update f w = (Ok u, w') -> db w' = f (db w) /\ calls w' = calls w.
Proof. unfold update. by intros ->%modify_Ok. Qed.

(** The walk down stops at a row the node agrees on, or below the deployment;
    never below the finalized block. *)
Lemma find_ancestor_Ok fuel dep fin a w r w' :
  find_ancestor env fuel dep fin a w = (Ok r, w') -> dep - 1 <= fin <= a ->
  db w' = db w /\ fin <= r <= a /\
  (dep <= r -> exists known b t, blocks (db w) !! r = Some known /\ get_block (env t) r = Some b /\ b_hash known = lower (rb_hash b)).
Proof.
  revert a w. induction fuel as [|fuel IH]; intros a w H Hf; cbn [find_ancestor] in H.
  all: destruct (a <? dep) eqn:Hd; [apply ret_Ok in H as [-> ->]; split_and!; [done|lia|lia|lia]|].
  all: apply bind_Ok in H as (x & w1 & Ht & H); apply tables_Ok in Ht as [-> ->].
  all: apply bind_Ok in H as (actual & w1 & Hr & H); apply rpc_Ok in Hr as (-> & Hdb & _); cbv zeta in H.
  all: match type of H with (if ?b then _ else _) _ = _ => destruct b eqn:Hag end.
  all: try (apply ret_Ok in H as [-> ->]; split_and!; [done|lia|lia|]; intros _;
            destruct (blocks (db w) !! a) as [known|]; [|done]; destruct (get_block (env (calls w)) a) as [b|] eqn:Hb; [|done];
            apply String.eqb_eq in Hag; by exists known, b, (calls w)).
  all: destruct (a <=? fin) eqn:Hle; [done|].
  - done.
  - destruct (IH _ _ H) as (H1 & H2 & H3); [lia|]. rewrite Hdb in *. split_and!; [done|lia|lia|done].
Qed.

(** The fuel bounds the walk: it ends in an answer or a refusal of the code's. *)
Lemma find_ancestor_fuel fuel dep fin a w e w' :
  (Z.to_nat (a - dep + 1) <= fuel)%nat -> find_ancestor env fuel dep fin a w = (Raise e, w') -> exn_kind e = FinalizedReorg.
Proof.
  revert a w. induction fuel as [|fuel IH]; intros a w Hf H; cbn [find_ancestor] in H.
  all: destruct (a <? dep) eqn:Hd; [done|].
  - lia.
  - unfold tables, gets, bind at 1, rpc, bind at 1, get, bind at 1, modify, bind at 1, ret in H. cbn -[find_ancestor] in H.
    match type of H with (if ?b then _ else _) _ = _ => destruct b end; [done|].
    destruct (a <=? fin); [by injection H as <- _|]. eapply IH; [|exact H]. lia.
Qed.

Lemma roll_back_Ok c h last a w u w' :
  roll_back env c h last a w = (Ok u, w') ->
  blocks (db w') = blocks (if a <? last then cut a (db w) else db w) /\ logs (db w') = logs (if a <? last then cut a (db w) else db w) /\
  cursor (db w') = cursor (db w) /\ deployment (db w') = deployment (db w).
Proof.
  unfold roll_back. destruct (a <? last); [|by intros [_ ->]%ret_Ok]. intros H.
  apply bind_Ok in H as (tip & w1 & Hr & H). apply rpc_Ok in Hr as (_ & Hd1 & _).
  apply bind_Ok in H as (x & w2 & Ht & H). apply tables_Ok in Ht as [-> ->]. cbv zeta in H.
  apply bind_Ok in H as (u2 & w3 & Hu & H). apply update_Ok in Hu as [Hd3 _]. destruct tip as [b|]; [|done].
  apply update_Ok in H as [-> _]. rewrite Hd3, Hd1. done.
Qed.

(** ** Blocks *)

Lemma hex_truthy h : HEX32_CHECK h = true -> truthy (Some h) = true.
Proof. by destruct h. Qed.

(** A new top row, linked to the one below it. *)
Lemma upto_push dep n x row :
  upto dep (n - 1) x -> dep <= n -> number row = n -> HEX32_CHECK (b_hash row) = true ->
  (forall below, blocks x !! (n - 1) = Some below -> parent_hash row = b_hash below) ->
  upto dep n (x <| blocks ::= <[n := row]> |>).
Proof.
  intros [K F L G] Hn Hnum Hhex Hlink.
  assert (Hnone : forall m, n <= m -> blocks x !! m = None).
  { intros m Hm. destruct (blocks x !! m) eqn:E; [|done]. destruct (K _ _ E). lia. }
  split; cbn.
  - intros m r [[<- <-]|[Hne Hr]]%lookup_insert_Some; [split_and!; [done|lia|lia|done]|]. destruct (K _ _ Hr) as (? & ? & ?). split_and!; [done|lia|lia|done].
  - intros m Hm. destruct (decide (n = m)) as [->|Hne]; [rewrite lookup_insert_eq; by eexists|]. rewrite lookup_insert_ne by done. apply F. lia.
  - intros m a b [[<- <-]|[Hne Ha]]%lookup_insert_Some Hb.
    + rewrite lookup_insert_ne in Hb by lia. rewrite Hnone in Hb by lia. done.
    + apply lookup_insert_Some in Hb as [[Hm <-]|[Hne2 Hb]]; [|by eapply L]. apply Hlink. replace (n - 1) with m by lia. done.
  - intros g Hg. destruct (G g Hg) as (r & Hr & Hh). exists r. rewrite lookup_insert_ne; [done|]. intros E. rewrite Hnone in Hr by lia. done.
Qed.

Lemma read_blocks_Ok dep count n target parent w u w' :
  read_blocks env count n target parent w = (Ok u, w') ->
  upto dep (n - 1) (db w) -> dep <= n -> parent = b_hash <$> blocks (db w) !! (n - 1) ->
  upto dep (n - 1 + Z.of_nat count) (db w') /\ logs (db w') = logs (db w) /\ cursor (db w') = cursor (db w) /\
  deployment (db w') = deployment (db w) /\ (forall m, m < n -> blocks (db w') !! m = blocks (db w) !! m) /\
  (forall m, n <= m < n + Z.of_nat count -> exists row b t, blocks (db w') !! m = Some row /\ get_block (env t) m = Some b /\ b_hash row = lower (rb_hash b)).
Proof.
  revert n parent w. induction count as [|count IH]; intros n parent w H Hup Hn Hpar; cbn [read_blocks] in H.
  - apply ret_Ok in H as [_ ->]. rewrite Z.add_0_r. split_and!; try done. intros m Hm. lia.
  - apply bind_Ok in H as (ob & w1 & Hr & H). apply rpc_Ok in Hr as (-> & Hd1 & _).
    destruct (get_block (env (calls w)) n) as [b|] eqn:Hb; [|done]. destruct (negb (rb_number b =? n)) eqn:Hnum; [done|].
    destruct (truthy parent && _) eqn:Hlink; [done|]. apply bind_Ok in H as (x & w2 & Ht & H). apply tables_Ok in Ht as [-> ->].
    destruct (bool_decide _) eqn:Hnew; [done|]. destruct (negb (_ && _)) eqn:Hhex; [done|]. apply negb_false_iff, andb_true_iff in Hhex as [Hh1 Hh2].
    apply bind_Ok in H as (u2 & w2 & Hu & H). apply update_Ok in Hu as [Hd2 _]. rewrite Hd1 in *.
    set (row := {| number := n |}) in *.
    assert (Hup2 : upto dep n (db w2)).
    { rewrite Hd2. apply upto_push; [done|done|done|done|]. intros below Hbel. rewrite Hbel in Hpar. cbn in Hpar. subst parent.
      destruct (up_key _ _ _ Hup _ _ Hbel) as (_ & _ & Hx). rewrite (hex_truthy _ Hx) in Hlink. cbn in Hlink.
      apply negb_false_iff, String.eqb_eq in Hlink. exact Hlink. }
    assert (Hrow : blocks (db w2) !! n = Some row) by (rewrite Hd2; cbn; apply lookup_insert_eq).
    destruct (IH (n + 1) _ w2 H) as (H1 & H2 & H3 & H4 & H5 & H6).
    { replace (n + 1 - 1) with n by lia. done. }
    { lia. }
    { replace (n + 1 - 1) with n by lia. by rewrite Hrow. }
    split_and!.
    + replace (n - 1 + Z.of_nat (S count)) with (n + 1 - 1 + Z.of_nat count) by lia. done.
    + rewrite H2, Hd2. done.
    + rewrite H3, Hd2. done.
    + rewrite H4, Hd2. done.
    + intros m Hm. rewrite H5 by lia. rewrite Hd2. cbn. rewrite lookup_insert_ne by lia. done.
    + intros m Hm. destruct (decide (m = n)) as [->|Hne].
      * exists row, b, (calls w). rewrite H5 by lia. done.
      * apply H6. lia.
Qed.

(** ** Logs *)

Lemma receipt_for_Ok tx m w p w' : receipt_for env tx m w = (Ok p, w') -> db w' = db w.
Proof.
  unfold receipt_for. destruct (m !! tx); [by intros [_ ->]%ret_Ok|]. intros H.
  apply bind_Ok in H as (r & w1 & Hr & H). apply rpc_Ok in Hr as (_ & Hd & _). by apply ret_Ok in H as [_ ->].
Qed.

(** The row a raw log became. *)
Definition row_of (raw : RawLog) (g : ChainLog) : Prop :=
  block_number g = w_block raw /\ tx_hash g = lower (w_tx raw) /\ log_index g = w_index raw /\ block_hash g = lower (w_block_hash raw).

Lemma log_row_Ok dec bh target raw g : log_row dec bh target raw = Ok g ->
  block_number g = w_block raw /\ tx_hash g = lower (w_tx raw) /\ log_index g = w_index raw /\ block_hash g = bh /\ tx_status g = 1.
Proof.
  unfold log_row. intros (o & _ & H)%rbind_Ok. destruct (contract_of dec (w_address raw)); [|done]. by injection H as <-.
Qed.

(** The logs read are rows of the chunk's blocks; every raw log has its row,
    and nothing else is added. *)
Lemma read_logs_Ok dec last end_ target l seen receipts w u w' :
  read_logs env dec last end_ target l seen receipts w = (Ok u, w') ->
  blocks (db w') = blocks (db w) /\ cursor (db w') = cursor (db w) /\ deployment (db w') = deployment (db w) /\
  exists new, logs (db w') = logs (db w) ++ new /\
    (forall g, g ∈ new -> last < block_number g <= end_ /\ (exists raw, raw ∈ l /\ row_of raw g) /\
       exists b, blocks (db w) !! block_number g = Some b /\ b_hash b = block_hash g) /\
    (forall raw, raw ∈ l -> position raw ∈ seen \/ exists raw' g, raw' ∈ l /\ position raw' = position raw /\ g ∈ new /\ row_of raw' g).
Proof.
  revert seen receipts w. induction l as [|raw l IH]; intros seen receipts w H; cbn [read_logs] in H.
  { apply ret_Ok in H as [_ ->]. split_and!; [done|done|done|]. exists []. split_and!; [by rewrite app_nil_r|by intros g ?%elem_of_nil|by intros raw ?%elem_of_nil]. }
  destruct ((w_block raw <=? last) || _ || _) eqn:Hrange; [done|]. apply orb_false_iff in Hrange as [Hrange _].
  apply orb_false_iff in Hrange as [Hlo%Z.leb_gt Hhi%Z.ltb_ge].
  apply bind_Ok in H as (x & w1 & Ht & H). apply tables_Ok in Ht as [-> ->]. destruct (blocks (db w) !! w_block raw) as [b|] eqn:Hb; [|done].
  destruct (String.eqb_spec (lower (w_block_hash raw)) (b_hash b)) as [Hh|]; [|done]. cbn [negb] in H.
  destruct (bool_decide (position raw ∈ seen)) eqn:Hseen.
  - apply bool_decide_eq_true_1 in Hseen. destruct (IH _ _ _ H) as (H1 & H2 & H3 & new & Hl & Hn & Hr). split_and!; [done|done|done|].
    exists new. split_and!; [done| |].
    + intros g Hg. destruct (Hn g Hg) as (A & (r & Hin & Hrow) & B). split_and!; [lia|lia| |done]. exists r. split; [by right|done].
    + intros r [->|Hin]%elem_of_cons; [by left|]. destruct (Hr r Hin) as [Hs|(r' & g & Hr' & Hp & Hg & Hrow)]; [by left|].
      right. exists r', g. split_and!; [by right|done|done|done].
  - apply bind_Ok in H as (got & w1 & Hgot & H). apply receipt_for_Ok in Hgot. cbv zeta in H. destruct (negb _); [done|].
    apply bind_Ok in H as (g & w2 & Hg & H). unfold lift_res in Hg. injection Hg as Hg <-. apply log_row_Ok in Hg as (G1 & G2 & G3 & G4 & _).
    destruct (existsb _ _); [done|]. destruct (negb (log_check g)); [done|].
    apply bind_Ok in H as (u2 & w3 & Hu & H). apply update_Ok in Hu as [Hd3 _]. rewrite Hgot in Hd3.
    destruct (IH _ _ _ H) as (H1 & H2 & H3 & new & Hl & Hn & Hr). rewrite Hd3 in *. split_and!; [done|done|done|].
    assert (Hrow : row_of raw g) by (unfold row_of; by rewrite G1, G2, G3, G4, Hh).
    exists (g :: new). split_and!.
    + rewrite Hl. cbn. by rewrite <- app_assoc.
    + intros g' [->|Hg']%elem_of_cons.
      * rewrite G1. split_and!; [lia|lia| |by exists b]. exists raw. split; [by left|done].
      * destruct (Hn g' Hg') as (A & (r & Hin & Hro) & B). split_and!; [lia|lia| |done]. exists r. split; [by right|done].
    + intros r [->|Hin]%elem_of_cons.
      * right. exists raw, g. split_and!; [by left|done|by left|done].
      * destruct (Hr r Hin) as [[Hs|Hs]%elem_of_cons|(r' & g' & Hr' & Hp & Hg' & Hro)].
        -- right. exists raw, g. split_and!; [by left|done|by left|done].
        -- by left.
        -- right. exists r', g'. split_and!; [by right|done|by right|done].
Qed.


Lemma read_chunk_logs_Ok dec last end_ target w u w' :
  read_chunk_logs env dec last end_ target w = (Ok u, w') ->
  blocks (db w') = blocks (db w) /\ cursor (db w') = cursor (db w) /\ deployment (db w') = deployment (db w) /\
  exists new raws, logs (db w') = logs (db w) ++ new /\
    (last < end_ -> exists t, raws = isort raw_leb (get_logs (env t) (addresses dec) (last + 1) end_)) /\
    (forall g, g ∈ new -> last < block_number g <= end_ /\ (exists raw, raw ∈ raws /\ row_of raw g) /\
       exists b, blocks (db w) !! block_number g = Some b /\ b_hash b = block_hash g) /\
    (forall raw, raw ∈ raws -> exists raw' g, raw' ∈ raws /\ position raw' = position raw /\ g ∈ new /\ row_of raw' g).
Proof.
  unfold read_chunk_logs. destruct (last <? end_) eqn:He.
  - intros H. apply bind_Ok in H as (raws & w1 & Hr & H). apply rpc_Ok in Hr as (-> & Hd1 & _).
    apply bind_Ok in H as (u1 & w2 & Hl & H). apply read_logs_Ok in Hl as (B & C & D & new & L & Hn & Hm). rewrite Hd1 in *.
    apply bind_Ok in H as (tip & w3 & Ht & H). apply rpc_Ok in Ht as (_ & Hd3 & _).
    apply bind_Ok in H as (x & w4 & Hx & H). apply tables_Ok in Hx as [-> ->].
    assert (w' = w3) as ->.
    { destruct tip as [b|]; [|done]. destruct (blocks (db w3) !! end_); [|done]. destruct (negb _); [done|]. by apply ret_Ok in H as [_ ->]. }
    rewrite Hd3. split_and!; [done|done|done|]. eexists new, _. split_and!; [done|by eexists|done|].
    intros raw Hin. destruct (Hm raw Hin) as [?%elem_of_nil|?]; done.
  - intros [_ ->]%ret_Ok. split_and!; [done|done|done|]. exists [], []. rewrite app_nil_r.
    split_and!; [done|lia|by intros g ?%elem_of_nil|by intros g ?%elem_of_nil].
Qed.

(** ** Commit *)

Definition final_block (target : Z) (b : ChainBlock) : ChainBlock :=
  if number b <=? target then b <| b_tier := "FINALIZED"%string |> else b.

Definition final_log (target : Z) (g : ChainLog) : ChainLog :=
  if block_number g <=? target then g <| tier := "FINALIZED"%string |> else g.

Lemma finalize_blocks target x n : blocks (finalize target x) !! n = final_block target <$> blocks x !! n.
Proof. unfold finalize. cbn. apply lookup_fmap. Qed.

Lemma finalize_logs target x : logs (finalize target x) = map (final_log target) (logs x).
Proof. done. Qed.

Lemma final_block_core target b : number (final_block target b) = number b /\ b_hash (final_block target b) = b_hash b /\ parent_hash (final_block target b) = parent_hash b.
Proof. unfold final_block. by destruct (number b <=? target). Qed.

Lemma final_log_core target g :
  block_number (final_log target g) = block_number g /\ block_hash (final_log target g) = block_hash g /\
  tx_hash (final_log target g) = tx_hash g /\ log_index (final_log target g) = log_index g.
Proof. unfold final_log. by destruct (block_number g <=? target). Qed.

Lemma finalize_upto dep top target x : upto dep top x -> upto dep top (finalize target x).
Proof.
  intros [K F L G]. split.
  - intros n row. rewrite finalize_blocks. intros (b & Hb & ->)%fmap_Some. destruct (final_block_core target b) as (-> & -> & _). by apply K.
  - intros n Hn. rewrite finalize_blocks. by apply fmap_is_Some, F.
  - intros n a b. rewrite !finalize_blocks. intros (a' & Ha & ->)%fmap_Some (b' & Hb & ->)%fmap_Some.
    destruct (final_block_core target a') as (_ & -> & _), (final_block_core target b') as (_ & _ & ->). by eapply L.
  - intros g. rewrite finalize_logs. intros (g' & -> & Hg)%list_elem_of_fmap. destruct (final_log_core target g') as (-> & -> & _).
    destruct (G g' Hg) as (row & Hr & Hh). exists (final_block target row). rewrite finalize_blocks, Hr.
    destruct (final_block_core target row) as (_ & -> & _). done.
Qed.

Lemma finalize_final dep top target x : upto dep top x -> final_to target (finalize target x).
Proof.
  intros [K _ _ _]. split.
  - intros n row. rewrite finalize_blocks. intros (b & Hb & ->)%fmap_Some Hn. unfold final_block.
    destruct (K _ _ Hb) as [<- _]. by rewrite (proj2 (Z.leb_le _ _) Hn).
  - intros g. rewrite finalize_logs. intros (g' & -> & Hg)%list_elem_of_fmap. destruct (final_log_core target g') as (-> & _). intros Hn. unfold final_log.
    by rewrite (proj2 (Z.leb_le _ _) Hn).
Qed.

Lemma commit_Ok d end_ target h w r w' :
  commit d end_ target h w = (Ok r, w') ->
  exists row, blocks (db w) !! end_ = Some row /\
    blocks (db w') = blocks (finalize target (db w)) /\ logs (db w') = logs (finalize target (db w)) /\ deployment (db w') = deployment (db w) /\
    cursor (db w') = Some {| last_block_number := end_; last_block_hash := b_hash row; finalized_block_number := target |}.
Proof.
  unfold commit. intros H. apply bind_Ok in H as (u1 & w1 & Hu & H). apply update_Ok in Hu as [Hd1 _].
  apply bind_Ok in H as (x & w2 & Hx & H). apply tables_Ok in Hx as [-> ->].
  apply bind_Ok in H as (v & w2 & Hv & H). unfold lift_res in Hv. injection Hv as _ <-.
  apply bind_Ok in H as (u2 & w3 & Hu & H). apply update_Ok in Hu as [Hd3 _].
  destruct (blocks (db w1) !! end_) as [row|] eqn:Hrow; [|done].
  apply bind_Ok in H as (u4 & w4 & Hu & H). apply update_Ok in Hu as [Hd4 _]. apply ret_Ok in H as [_ ->].
  rewrite Hd1, finalize_blocks in Hrow. apply fmap_Some in Hrow as (b & Hb & ->). destruct (final_block_core target b) as (_ & Hh & _).
  exists b. rewrite Hd4, Hd3, Hd1, <- Hh. done.
Qed.

(** ** The call *)

(** The logs at or below a block, in their order. *)
Definition logs_to (n : Z) (x : DB) : list ChainLog := filter (fun g => block_number g <=? n) (logs x).

Lemma logs_to_cut n m x : n <= m -> logs_to n (cut m x) = logs_to n x.
Proof.
  intros Hnm. unfold logs_to, cut. cbn. induction (logs x) as [|g l IH]; [done|]. rewrite !filter_cons.
  destruct (decide (block_number g <=? m)) as [H|H]; [by rewrite filter_cons, IH|].
  rewrite IH. destruct (decide (block_number g <=? n)) as [H2%Is_true_true|]; [|done]. exfalso. apply H, Is_true_true. lia.
Qed.

(** What a chunk added: its rows are the node's, its logs come from one answer
    to [get_logs]. *)
Record chunk_read (dec : Decoder) (last end_ : Z) (new : list ChainLog) (raws : list RawLog) (x y : DB) : Prop := {
  cr_cursor : cursor y = cursor x;
  cr_deployment : deployment y = deployment x;
  cr_old : forall m, m <= last -> blocks y !! m = blocks x !! m;
  cr_rows : forall m, last < m <= end_ -> exists row b t, blocks y !! m = Some row /\ get_block (env t) m = Some b /\ b_hash row = lower (rb_hash b);
  cr_logs : logs y = logs x ++ new;
  cr_answer : last < end_ -> exists t, raws = isort raw_leb (get_logs (env t) (addresses dec) (last + 1) end_);
  cr_sound : forall g, g ∈ new -> last < block_number g <= end_ /\ (exists raw, raw ∈ raws /\ row_of raw g) /\
               exists b, blocks y !! block_number g = Some b /\ b_hash b = block_hash g;
  cr_complete : forall raw, raw ∈ raws -> exists raw' g, raw' ∈ raws /\ position raw' = position raw /\ g ∈ new /\ row_of raw' g;
}.

Lemma extend_Ok d dec chunk head_ last w r w' :
  extend env d dec chunk head_ last w = (Ok r, w') ->
  let dep := deployment_block d in
  let end_ := Z.min head_ (last + chunk) in
  let target := Z.max (dep - 1) (Z.min end_ (head_ - finality_depth d)) in
  dep - 1 <= last -> upto dep last (db w) ->
  exists w2 new raws, upto dep (Z.max last end_) (db w2) /\ chunk_read dec last end_ new raws (db w) (db w2) /\
    (end_ < dep /\ w' = w2 \/ dep <= end_ /\ commit d end_ target head_ w2 = (Ok r, w')).
Proof.
  intros H dep end_ target Hlast Hup. unfold extend in H. fold dep in H. fold end_ in H. fold target in H.
  apply bind_Ok in H as (x & w0 & Hx & H). apply tables_Ok in Hx as [-> ->].
  apply bind_Ok in H as (u1 & w1 & Hb & H). apply bind_Ok in H as (u2 & w2 & Hl & H).
  apply (read_blocks_Ok dep) in Hb as (B1 & B2 & B3 & B4 & B5 & B6); [|by replace (last + 1 - 1) with last by lia|lia|by replace (last + 1 - 1) with last by lia].
  apply read_chunk_logs_Ok in Hl as (L1 & L2 & L3 & new & raws & L4 & L5 & L6 & L7).
  replace (last + 1 - 1 + Z.of_nat (Z.to_nat (end_ - last))) with (Z.max last end_) in B1 by lia.
  assert (Hup2 : upto dep (Z.max last end_) (db w2)).
  { destruct B1 as [K F L G]. split; rewrite ?L1; [done|done|done|]. intros g. rewrite L4, elem_of_app. intros [Hg|Hg]; [by apply G|].
    destruct (L6 g Hg) as (_ & _ & Hrow). done. }
  exists w2, new, raws. split_and!; [done| |].
  - split; try done.
    + by rewrite L2.
    + by rewrite L3.
    + intros m Hm. rewrite L1. apply B5. lia.
    + intros m Hm. rewrite L1. apply B6. lia.
    + by rewrite L4, B2.
    + rewrite L1. done.
  - destruct (end_ <? dep) eqn:He; [left; apply ret_Ok in H as [_ ->]; split; [lia|done]|right]. split; [lia|done].
Qed.

Definition start_final (x : DB) (dep : Z) : Z := from_option finalized_block_number (dep - 1) (cursor x).

(** Every successful call extends the journal cut to some block at or above
    the finalized one. *)
Lemma sync_body_Ok chunk w r w' :
  sync_body env decoder_for chunk w = (Ok r, w') -> journal_wf (db w) ->
  exists d dec w1 head_ last,
    deployment (db w) = Some d /\ decoder_for (contracts d) = Ok dec /\
    extend env d dec chunk head_ last w1 = (Ok r, w') /\
    deployment (db w1) = Some d /\ cursor (db w1) = cursor (db w) /\
    deployment_block d - 1 <= start_final (db w) (deployment_block d) <= last /\
    upto (deployment_block d) last (db w1) /\
    (forall n, n <= last -> blocks (db w1) !! n = blocks (db w) !! n) /\ logs (db w1) = logs_to last (db w).
Proof.
  unfold sync_body. intros H Hwf. apply bind_Ok in H as (x & w0 & Hx & H). apply tables_Ok in Hx as [-> ->].
  destruct (deployment (db w)) as [d|] eqn:Hd; [|done]. specialize (Hwf d Hd). cbn zeta in Hwf.
  apply bind_Ok in H as (cid & w0 & Hr & H). apply rpc_Ok in Hr as (_ & Hd0 & _). destruct (negb _); [done|].
  apply bind_Ok in H as (dec & w1 & Hdec & H). unfold lift_res in Hdec. injection Hdec as Hdec <-.
  unfold start_final. destruct (cursor (db w)) as [c|] eqn:Hc; cbn [from_option].
  - destruct Hwf as (Hlast & Hfin & (top & Htop & Hup) & _). cbv zeta in H.
    apply bind_Ok in H as (u & w1 & Hu & H). apply update_Ok in Hu as [Hd1 _]. rewrite Hd0 in Hd1.
    apply bind_Ok in H as (head_ & w2 & Hr & H). apply rpc_Ok in Hr as (_ & Hd2 & _).
    apply bind_Ok in H as (a & w3 & Hf & H). apply find_ancestor_Ok in Hf as (Hd3 & Ha & Hag); [|lia].
    apply bind_Ok in H as (u4 & w4 & Hb & H). apply roll_back_Ok in Hb as (B & L & C & D). rewrite Hd3, Hd2, Hd1 in *.
    assert (Hup1 : upto (deployment_block d) (Z.min top (last_block_number c)) (cut (last_block_number c) (db w))).
    { destruct (Z.le_gt_cases (last_block_number c) top); [rewrite Z.min_r by lia; by eapply cut_upto|rewrite Z.min_l by lia; eapply cut_above; [done|lia]]. }
    assert (Hatop : a <= Z.min top (last_block_number c)).
    { destruct (Z.le_gt_cases (deployment_block d) a) as [Hda|]; [|lia]. destruct (Hag Hda) as (known & _ & _ & Hk & _).
      destruct (up_key _ _ _ Hup1 _ _ Hk) as (_ & ? & _). lia. }
    exists d, dec, w4, head_, a. rewrite D, C. cbn. split_and!; try done; try lia.
    + eapply (upto_same _ _ (cut a (cut (last_block_number c) (db w)))); [| |by eapply cut_upto].
      * rewrite B. destruct (a <? last_block_number c) eqn:Hal; [done|].
        apply map_eq. intros m. rewrite (cut_block a). destruct (decide (m <= a)); [done|]. rewrite cut_block. by rewrite decide_False by lia.
      * rewrite L. destruct (a <? last_block_number c) eqn:Hal; [done|]. replace a with (last_block_number c) by lia.
        symmetry. apply (logs_to_cut (last_block_number c) (last_block_number c)). lia.
    + intros n Hn. rewrite B. destruct (a <? last_block_number c); rewrite !cut_block, ?decide_True by lia; done.
    + rewrite L. destruct (a <? last_block_number c) eqn:Hal.
      * change (logs (cut a ?x)) with (logs_to a x). apply logs_to_cut. lia.
      * by replace a with (last_block_number c) by lia.
  - apply bind_Ok in H as (head_ & w2 & Hr & H). apply rpc_Ok in Hr as (_ & Hd2 & _). rewrite Hd0 in Hd2.
    exists d, dec, w2, head_, (deployment_block d - 1). rewrite Hd2. split_and!; try done; try lia.
    unfold logs_to. destruct (logs (db w)) as [|g l] eqn:Hl; [done|]. exfalso.
    destruct (up_logs _ _ _ Hwf g) as (row & Hr & _); [rewrite Hl; by left|]. destruct (up_key _ _ _ Hwf _ _ Hr). lia.
Qed.

Lemma sync_Ok chunk w r w' : sync env decoder_for chunk w = (Ok r, w') -> sync_body env decoder_for chunk w = (Ok r, w').
Proof. unfold sync. destruct (negb _); [done|]. by destruct (sync_body env decoder_for chunk w) as [[]]. Qed.

Lemma sync_Raise chunk w e w' : sync env decoder_for chunk w = (Raise e, w') -> db w' = db w.
Proof. unfold sync. destruct (negb _); [by intros [= _ <-]|]. destruct (sync_body env decoder_for chunk w) as [[] ]; [done|]. by intros [= _ <-]. Qed.

Lemma filter_none_list {A} (P : A -> Prop) `{!forall x, Decision (P x)} (l : list A) : (forall x, x ∈ l -> ~ P x) -> filter P l = [].
Proof.
  induction l as [|x l IH]; intros Hno; [done|]. rewrite filter_cons, decide_False by (apply Hno; by left). apply IH. intros y Hy. apply Hno. by right.
Qed.

Lemma in_logs_to n x g : g ∈ logs_to n x <-> g ∈ logs x /\ block_number g <= n.
Proof. unfold logs_to. rewrite list_elem_of_filter, Is_true_true, Z.leb_le. tauto. Qed.

Lemma final_to_same fin x y :
  (forall n, n <= fin -> blocks y !! n = blocks x !! n) -> logs_to fin y = logs_to fin x -> final_to fin x -> final_to fin y.
Proof.
  intros Hb Hl [Fb Fl]. split.
  - intros n row Hr Hn. apply (Fb n); [by rewrite <- Hb|done].
  - intros g Hg Hn. apply Fl; [|done]. assert (Hin : g ∈ logs_to fin y) by by apply in_logs_to. rewrite Hl in Hin. by apply in_logs_to in Hin as [? _].
Qed.

Lemma final_to_eq fin x y : blocks y = blocks x -> logs y = logs x -> final_to fin x -> final_to fin y.
Proof. intros Hb Hl. apply final_to_same; [by rewrite Hb|unfold logs_to; by rewrite Hl]. Qed.

(** A row already final is left as it is. *)
Lemma finalize_kept_block target fin x n : final_to fin x -> n <= fin -> blocks (finalize target x) !! n = blocks x !! n.
Proof.
  intros [Fb _] Hn. rewrite finalize_blocks. destruct (blocks x !! n) as [b|] eqn:Hb; [|done]. cbn. f_equal. unfold final_block.
  destruct (number b <=? target); [|done]. pose proof (Fb n b Hb Hn) as Ht. destruct b. cbn in *. by rewrite Ht.
Qed.

Lemma finalize_kept_logs target fin x : final_to fin x -> logs_to fin (finalize target x) = logs_to fin x.
Proof.
  intros [_ Fl]. unfold logs_to. rewrite finalize_logs. induction (logs x) as [|g l IH]; [done|]. cbn [map]. rewrite !filter_cons.
  destruct (final_log_core target g) as (-> & _). rewrite IH by (intros g' Hg'; apply Fl; by right).
  destruct (decide (block_number g <=? fin)) as [H%Is_true_true|]; [|done]. f_equal. unfold final_log.
  destruct (block_number g <=? target); [|done]. pose proof (Fl g) as Ht. destruct g. cbn in *. rewrite Ht; [done|by left|lia].
Qed.

(** The tables after a successful call: at or below the finalized block of the
    cursor nothing changes, and everything up to the new one is final. *)
Lemma sync_step chunk w r w' :
  sync env decoder_for chunk w = (Ok r, w') -> journal_wf (db w) ->
  journal_wf (db w') /\
  forall d, deployment (db w) = Some d ->
  let fin := start_final (db w) (deployment_block d) in
  (forall n, n <= fin -> blocks (db w') !! n = blocks (db w) !! n) /\ logs_to fin (db w') = logs_to fin (db w).
Proof.
  intros H%sync_Ok Hwf. destruct (sync_body_Ok _ _ _ _ H Hwf) as (d & dec & w1 & head_ & last & Hd & _ & He & D1 & C1 & Hfin & Hup & Hblk & Hlog).
  destruct (extend_Ok _ _ _ _ _ _ _ _ He) as (w2 & new & raws & Hup2 & R & Hend); [lia|done|].
  assert (Hfinal : final_to (start_final (db w) (deployment_block d)) (db w)).
  { specialize (Hwf d Hd). cbn zeta in Hwf. unfold start_final. destruct (cursor (db w)) as [c|]; [by destruct Hwf as (_ & _ & _ & ?)|].
    split; cbn; [intros n row Hr; destruct (up_key _ _ _ Hwf _ _ Hr); lia|].
    intros g Hg. destruct (up_logs _ _ _ Hwf g Hg) as (row & Hr & _). destruct (up_key _ _ _ Hwf _ _ Hr). lia. }
  set (fin := start_final (db w) (deployment_block d)) in *.
  assert (Hlogs2 : logs_to fin (db w2) = logs_to fin (db w)).
  { unfold logs_to. rewrite (cr_logs _ _ _ _ _ _ _ R), Hlog, filter_app. rewrite (filter_none_list _ new).
    - rewrite app_nil_r. apply (logs_to_cut fin last (db w)). lia.
    - intros g Hg. destruct (cr_sound _ _ _ _ _ _ _ R g Hg) as [? _]. rewrite Is_true_true. lia. }
  assert (Hblk2 : forall n, n <= fin -> blocks (db w2) !! n = blocks (db w) !! n).
  { intros n Hn. rewrite (cr_old _ _ _ _ _ _ _ R), Hblk by lia. done. }
  assert (Hfinal2 : final_to fin (db w2)) by (by eapply final_to_same).
  destruct Hend as [[Hlt ->]|[Hge Hc]].
  - split; [|intros d' Hd'; by replace d' with d by congruence]. intros d' Hd'. rewrite (cr_deployment _ _ _ _ _ _ _ R), D1 in Hd'. injection Hd' as <-.
    cbn zeta. rewrite (cr_cursor _ _ _ _ _ _ _ R), C1. specialize (Hwf d Hd). cbn zeta in Hwf. unfold start_final in *.
    destruct (cursor (db w)) as [c|]; cbn in *.
    + destruct Hwf as (? & ? & _ & _). split_and!; [done|lia|lia| |done]. eexists. split; [|exact Hup2]. lia.
    + replace (deployment_block d - 1) with (Z.max last (Z.min head_ (last + chunk))); [done|]. destruct (Z.le_gt_cases (deployment_block d) last) as [Hle|]; [|lia].
      destruct (up_full _ _ _ Hup (deployment_block d)) as [row Hr]; [lia|]. rewrite Hblk in Hr by lia. destruct (up_key _ _ _ Hwf _ _ Hr). lia.
  - apply commit_Ok in Hc as (row & Hrow & B & L & D & C). split.
    + intros d' Hd'. rewrite D, (cr_deployment _ _ _ _ _ _ _ R), D1 in Hd'. injection Hd' as <-. cbn zeta. rewrite C. cbn.
      split_and!; [lia|lia|lia| |].
      * eexists. split; [|eapply upto_same; [exact B|exact L|by apply finalize_upto]]. lia.
      * eapply final_to_eq; [exact B|exact L|by eapply finalize_final].
    + intros d' Hd'. replace d' with d by congruence. fold fin. split.
      * intros n Hn. rewrite B. rewrite (finalize_kept_block _ fin) by done. by apply Hblk2.
      * unfold logs_to. rewrite L. etrans; [by apply (finalize_kept_logs _ fin)|]. exact Hlogs2.
Qed.

(** ** A node that answers from one chain *)

(** [chain n] is the canonical block at a height and [logs_of h] the logs that
    a block hash commits to: [eth_getLogs] answers the logs of the canonical
    blocks of the range that come from the addresses asked for. *)
Record serves (chain : Z -> option RpcBlock) (logs_of : string -> list RawLog) : Prop := {
  sv_block : forall t n, get_block (env t) n = chain n;
  sv_logs : forall t A a b raw, raw ∈ get_logs (env t) A a b <->
    exists n bk, a <= n <= b /\ chain n = Some bk /\ raw ∈ logs_of (lower (rb_hash bk)) /\ lower (w_address raw) ∈ A;
  sv_place : forall n bk raw, chain n = Some bk -> raw ∈ logs_of (lower (rb_hash bk)) -> w_block raw = n /\ lower (w_block_hash raw) = lower (rb_hash bk);
  sv_position : forall h h' raw raw', raw ∈ logs_of h -> raw' ∈ logs_of h' -> position raw = position raw' -> raw = raw';
}.

(** The journal holds, for each of its blocks, the logs its hash commits to,
    and no others. *)
Record faithful (A : list string) (logs_of : string -> list RawLog) (x : DB) : Prop := {
  ft_complete : forall n row raw, blocks x !! n = Some row -> raw ∈ logs_of (b_hash row) -> lower (w_address raw) ∈ A ->
    exists g, g ∈ logs x /\ block_number g = n /\ row_of raw g;
  ft_sound : forall g, g ∈ logs x -> exists raw, raw ∈ logs_of (block_hash g) /\ lower (w_address raw) ∈ A /\ row_of raw g;
}.


Lemma raw_isort (l : list RawLog) raw : raw ∈ isort raw_leb l <-> raw ∈ l.
Proof. by rewrite isort_perm. Qed.

(** Cutting keeps the logs of the blocks that stay. *)
Lemma faithful_cut A logs_of n x y :
  (forall m, blocks y !! m = if decide (m <= n) then blocks x !! m else None) -> logs y = logs_to n x ->
  faithful A logs_of x -> faithful A logs_of y.
Proof.
  intros Hb Hl [C S]. split.
  - intros m row raw Hr Hin Ha. rewrite Hb in Hr. destruct (decide (m <= n)) as [Hm|]; [|done].
    destruct (C m row raw Hr Hin Ha) as (g & Hg & Hn & Hro). exists g. rewrite Hl, in_logs_to. split_and!; [done|lia|done|done].
  - intros g Hg. rewrite Hl in Hg. apply in_logs_to in Hg as [Hg _]. by apply S.
Qed.

Lemma faithful_finalize A logs_of target x : faithful A logs_of x -> faithful A logs_of (finalize target x).
Proof.
  intros [C S]. split.
  - intros m row raw. rewrite finalize_blocks. intros (b & Hb & ->)%fmap_Some. destruct (final_block_core target b) as (_ & -> & _). intros Hin Ha.
    destruct (C m b raw Hb Hin Ha) as (g & Hg & Hn & Hro). exists (final_log target g). rewrite finalize_logs.
    destruct (final_log_core target g) as (E1 & E2 & E3 & E4). unfold row_of. rewrite E1, E2, E3, E4. split_and!; [by apply list_elem_of_fmap_2|done|apply Hro..].
  - intros g. rewrite finalize_logs. intros (g' & -> & Hg)%list_elem_of_fmap. destruct (final_log_core target g') as (E1 & E2 & E3 & E4).
    unfold row_of. rewrite E1, E2, E3, E4. by apply S.
Qed.

Lemma faithful_chunk chain logs_of dec last end_ new raws x y :
  serves chain logs_of -> chunk_read dec last end_ new raws x y ->
  (forall n row, blocks y !! n = Some row -> n <= Z.max last end_) ->
  faithful (addresses dec) logs_of x -> faithful (addresses dec) logs_of y.
Proof.
  intros [Sb Sl Sp Su] R Htop [C S].
  assert (Hraw : last < end_ -> forall raw, raw ∈ raws <->
            exists n bk, last + 1 <= n <= end_ /\ chain n = Some bk /\ raw ∈ logs_of (lower (rb_hash bk)) /\ lower (w_address raw) ∈ addresses dec).
  { intros Hlt raw. destruct (cr_answer _ _ _ _ _ _ _ R Hlt) as (t & ->). rewrite raw_isort. apply Sl. }
  split.
  - intros m row raw Hr Hin Ha. rewrite (cr_logs _ _ _ _ _ _ _ R). destruct (Z.le_gt_cases m last) as [Hm|Hm].
    + rewrite (cr_old _ _ _ _ _ _ _ R) in Hr by done. destruct (C m row raw Hr Hin Ha) as (g & Hg & Hn & Hro).
      exists g. rewrite elem_of_app. split_and!; [by left|done|done].
    + pose proof (Htop m row Hr) as Hmax.
      destruct (cr_rows _ _ _ _ _ _ _ R m) as (row' & bk & t' & Hr' & Hbk & Hh); [lia|].
      rewrite Hr in Hr'. injection Hr' as <-. rewrite Sb in Hbk. rewrite Hh in Hin.
      destruct (cr_complete _ _ _ _ _ _ _ R raw) as (raw' & g & Hin' & Hpos & Hg & Hro).
      { apply Hraw; [lia|]. exists m, bk. split_and!; [lia|lia|done|done|done]. }
      apply Hraw in Hin' as (n' & bk' & _ & _ & Hin' & _); [|lia]. assert (raw' = raw) as -> by (by eapply Su).
      exists g. rewrite elem_of_app. split_and!; [by right| |done]. destruct (Sp m bk raw Hbk Hin) as [<- _]. apply Hro.
  - intros g. rewrite (cr_logs _ _ _ _ _ _ _ R), elem_of_app. intros [Hg|Hg]; [by apply S|].
    destruct (cr_sound _ _ _ _ _ _ _ R g Hg) as (Hlt & (raw & Hin & Hro) & _).
    apply Hraw in Hin as (n & bk & _ & Hbk & Hin & Ha); [|lia].
    exists raw. destruct (Sp n bk raw Hbk Hin) as [_ Hh]. destruct Hro as (H1 & H2 & H3 & Hbh). unfold row_of. rewrite Hbh, Hh. done.
Qed.

Lemma faithful_same A logs_of x y : blocks y = blocks x -> logs y = logs x -> faithful A logs_of x -> faithful A logs_of y.
Proof. intros Hb Hl [C S]. split; rewrite ?Hb, ?Hl; done. Qed.

(** ** Histories *)

Fixpoint syncs (chunks : list Z) (w : World) : World :=
  match chunks with
  | [] => w
  | c :: cs => syncs cs (sync env decoder_for c w).2
  end.

Lemma sync_wf chunk w : journal_wf (db w) -> journal_wf (db (sync env decoder_for chunk w).2).
Proof.
  intros Hwf. destruct (sync env decoder_for chunk w) as [[r|e] w'] eqn:H; cbn.
  - by destruct (sync_step _ _ _ _ H Hwf).
  - by rewrite (sync_Raise _ _ _ _ H).
Qed.

Lemma syncs_wf chunks w : journal_wf (db w) -> journal_wf (db (syncs chunks w)).
Proof. revert w. induction chunks as [|c cs IH]; intros w Hw; cbn; [done|]. by apply IH, sync_wf. Qed.

(** A deployment registered and not yet synced. *)
Definition fresh (d : ChainDeployment) (v : Tables * Tables) (n : nat) : World :=
  {| db := {| deployment := Some d; cursor := None; blocks := ∅; logs := []; journal := []; views := v |}; calls := n |}.

Lemma fresh_wf d v n : journal_wf (db (fresh d v n)).
Proof. intros d' [= <-]. cbn [fresh db cursor]. split; cbn [blocks logs].
  - intros m row. by rewrite lookup_empty.
  - lia.
  - intros m a b. by rewrite lookup_empty.
  - by intros g ?%elem_of_nil. Qed.

(** C13: Whatever the node answers at each call, and whether
    the calls succeed or fail, the rows of the journal stay a gapless,
    hash-linked run of blocks from the deployment block, every log row belongs
    to a journal row of its block hash, and every row at or below the cursor's
    finalized block is marked final. *)
Theorem journal_reachable d v n chunks : journal_wf (db (syncs chunks (fresh d v n))).
Proof. apply syncs_wf, fresh_wf. Qed.

(** C14: From any reachable journal, one more call, however the
    chain was reorganised in between, leaves every block and log row at or
    below the cursor's finalized block exactly as it is, order and tier
    included. *)
Theorem finalized_kept d v n chunks chunk :
  let w := syncs chunks (fresh d v n) in
  let w' := (sync env decoder_for chunk w).2 in
  forall e, deployment (db w) = Some e ->
  let fin := start_final (db w) (deployment_block e) in
  (forall m, m <= fin -> blocks (db w') !! m = blocks (db w) !! m) /\ logs_to fin (db w') = logs_to fin (db w).
Proof.
  intros w w' e He fin. subst w'. destruct (sync env decoder_for chunk w) as [[r|x] w'] eqn:H; cbn [snd].
  - apply (sync_step _ _ _ _ H); [apply syncs_wf, fresh_wf|done].
  - by rewrite (sync_Raise _ _ _ _ H).
Qed.

(** Against a node that answers from one chain, a
    successful call keeps the journal faithful: each of its blocks has a log
    row for every log its hash commits to from the addresses of the
    deployment, and no other log row exists. *)
Theorem journal_complete chain logs_of d dec chunk w r w' :
  serves chain logs_of -> journal_wf (db w) -> deployment (db w) = Some d -> decoder_for (contracts d) = Ok dec ->
  faithful (addresses dec) logs_of (db w) ->
  sync env decoder_for chunk w = (Ok r, w') -> faithful (addresses dec) logs_of (db w').
Proof.
  intros Hsv Hwf Hd Hdec Hf H%sync_Ok.
  destruct (sync_body_Ok _ _ _ _ H Hwf) as (d' & dec' & w1 & head_ & last & Hd' & Hdec' & He & D1 & C1 & Hfin & Hup & Hblk & Hlog).
  rewrite Hd in Hd'. injection Hd' as <-. rewrite Hdec in Hdec'. injection Hdec' as <-.
  destruct (extend_Ok _ _ _ _ _ _ _ _ He) as (w2 & new & raws & Hup2 & R & Hend); [lia|done|].
  assert (Hf1 : faithful (addresses dec) logs_of (db w1)).
  { eapply faithful_cut; [|exact Hlog|exact Hf]. intros m. case_decide as Hm; [by apply Hblk|].
    destruct (blocks (db w1) !! m) eqn:Hr; [|done]. destruct (up_key _ _ _ Hup _ _ Hr). lia. }
  assert (Hf2 : faithful (addresses dec) logs_of (db w2)).
  { eapply faithful_chunk; [done|done| |done]. intros m row Hr. destruct (up_key _ _ _ Hup2 _ _ Hr). lia. }
  destruct Hend as [[_ ->]|[_ Hc]]; [done|]. apply commit_Ok in Hc as (row & _ & B & L & _).
  eapply faithful_same; [exact B|exact L|by apply faithful_finalize].
Qed.
End Runs.


(** ** Nodes *)

Fixpoint copies (n : nat) (c : string) : string := match n with O => EmptyString | S m => (c ++ copies m c)%string end.
Definition hx (c : string) : string := ("0x" ++ copies 64 c)%string.

(** Blocks 0 to 4, named by a letter each; the log is in block 2. *)
Definition a_block (name : Z -> string) (n : Z) : option RpcBlock :=
  if (0 <=? n) && (n <=? 4) then Some {| rb_number := n; rb_hash := hx (name n); rb_parent := hx (name (n - 1)); rb_time := 100 + n |} else None.

Definition a_raw : RawLog :=
  {| w_address := ("0x" ++ copies 40 "a")%string; w_topics := []; w_data := "0x"; w_block := 2; w_block_hash := hx "2"; w_tx := hx "9"; w_tx_index := 0;
     w_index := 0; w_removed := false |}.

Definition raw_logs_of (h : string) : list RawLog := if String.eqb h (hx "2") then [a_raw] else [].

Definition a_node (h : Z) (name : Z -> string) : Rpc := {|
  chain_id := 7;
  head := h;
  get_block := a_block name;
  get_logs A a b := if (a <=? 2) && (2 <=? b) && bool_decide (lower (w_address a_raw) ∈ A) then [a_raw] else [];
  get_receipt tx := if String.eqb tx (hx "9") then Some {| rc_block_hash := hx "2"; rc_status := 1 |} else None;
|}.

Definition straight (n : Z) : string :=
  match n with 0 => "0" | 1 => "1" | 2 => "2" | 3 => "3" | 4 => "4" | _ => "f" end.
Definition forked (n : Z) : string := match n with 3 => "c" | 4 => "d" | _ => straight n end.

Definition a_decoder : Decoder :=
  {| addresses := [("0x" ++ copies 40 "a")%string]; contract_of _ := Some "DebtLedger"; decode _ _ _ := Ok None |}.

Definition a_deployment : ChainDeployment :=
  {| deployment_id := "d"; d_chain_id := 7; d_profile := "LOCAL_MOCK"; deployment_block := 1; contracts := []; finality_depth := 1 |}.


Definition no_views : Tables * Tables := (no_rows, no_rows).

Definition one_decoder (_ : list (string * string)) : res Decoder := Ok a_decoder.

(** The straight chain to block 4, then the same chain from a node that lags at
    block 2, then a chain that leaves it at block 3. *)
Definition lagging (t : nat) : Rpc :=
  if (t <? 9)%nat then a_node 4 straight else if (t <? 12)%nat then a_node 2 straight else a_node 4 forked.

Definition lagged (calls : nat) : World := syncs lagging one_decoder (repeat 250 calls) (fresh a_deployment no_views 0).

(** The finalized block of the cursor can move back: a
    node that reports a lower head, while it still answers for the journal's
    tip, brings the cursor down, the rows above it are then deleted as orphans,
    and a block the journal had marked final is replaced by another without
    [FinalizedReorg]. *)
Theorem finality_regresses :
  let row n w := (fun b => (b_hash b, b_tier b)) <$> blocks (db w) !! n in
  let final w := finalized_block_number <$> cursor (db w) in
  (final (lagged 1) = Some 3 /\ row 3 (lagged 1) = Some (hx "3", "FINALIZED"%string)) /\
  (final (lagged 2) = Some 1 /\ row 3 (lagged 2) = Some (hx "3", "FINALIZED"%string)) /\
  (final (lagged 3) = Some 3 /\ row 3 (lagged 3) = Some (hx "c", "FINALIZED"%string) /\ journal (db (lagged 3)) = []).
Proof. vm_compute. repeat split. Qed.

(** A chain that leaves the straight one at its tip. *)
Definition tip_moves (t : nat) : Rpc := if (t <? 9)%nat then a_node 4 straight else a_node 4 (fun n => if n =? 4 then "d"%string else straight n).

Lemma finalized_kept_witness :
  let w := syncs tip_moves one_decoder [250] (fresh a_deployment no_views 0) in
  let w' := (sync tip_moves one_decoder 250 w).2 in
  (b_hash <$> blocks (db w) !! 4) = Some (hx "4") /\ (b_hash <$> blocks (db w') !! 4) = Some (hx "d") /\ logs_to 3 (db w') = logs_to 3 (db w).
Proof.
  split; [vm_compute; reflexivity|]. split; [vm_compute; reflexivity|].
  apply (finalized_kept tip_moves one_decoder a_deployment no_views 0 [250] 250 a_deployment). vm_compute. reflexivity.
Defined.

Lemma serves_straight : serves (fun _ => a_node 4 straight) (a_block straight) raw_logs_of.
Proof.
  assert (Hblk : forall n bk, a_block straight n = Some bk -> n = 0 \/ n = 1 \/ n = 2 \/ n = 3 \/ n = 4).
  { intros n bk. unfold a_block. destruct (_ && _) eqn:Hn; [|done]. lia. }
  assert (Htwo : forall n bk raw, a_block straight n = Some bk -> raw ∈ raw_logs_of (lower (rb_hash bk)) -> n = 2 /\ raw = a_raw).
  { intros n bk raw Hn Hin. destruct (Hblk n bk Hn) as [->|[->|[->|[->| ->]]]]; vm_compute in Hn; injection Hn as <-; vm_compute in Hin.
    all: try by apply elem_of_nil in Hin. split; [done|]. by apply list_elem_of_singleton in Hin. }
  split.
  - done.
  - intros t A a b raw. cbn [get_logs a_node]. split.
    + destruct (_ && _ && _) eqn:Hc; [|by intros ?%elem_of_nil]. intros ->%list_elem_of_singleton.
      apply andb_true_iff in Hc as [Hr Ha%bool_decide_eq_true_1]. exists 2. eexists. split_and!; [lia|lia|reflexivity|by left|done].
    + intros (n & bk & Hr & Hn & Hin & Ha). destruct (Htwo n bk raw Hn Hin) as [-> ->].
      rewrite (proj2 (Z.leb_le a 2)), (proj2 (Z.leb_le 2 b)), bool_decide_eq_true_2 by (done || lia). by left.
  - intros n bk raw Hn Hin. destruct (Htwo n bk raw Hn Hin) as [-> ->]. injection Hn as <-. done.
  - intros h h' raw raw'. unfold raw_logs_of. destruct (String.eqb h _); [|by intros ?%elem_of_nil]. destruct (String.eqb h' _); [|by intros _ ?%elem_of_nil].
    by intros ->%list_elem_of_singleton ->%list_elem_of_singleton.
Qed.

Lemma journal_complete_witness :
  exists w', faithful (addresses a_decoder) raw_logs_of (db w') /\ length (logs (db w')) = 1%nat /\ is_Some (blocks (db w') !! 4).
Proof.
  set (w := fresh a_deployment no_views 0).
  assert (Hc : match sync (fun _ => a_node 4 straight) one_decoder 250 w with
               | (Ok _, w') => (length (logs (db w')) =? 1)%nat && bool_decide (is_Some (blocks (db w') !! 4)) | _ => false end = true) by (vm_compute; reflexivity).
  destruct (sync (fun _ => a_node 4 straight) one_decoder 250 w) as [[r|e] w'] eqn:H; [|discriminate Hc].
  exists w'. apply andb_true_iff in Hc as [Hn Hb]. split; [|split; [by apply Nat.eqb_eq|by apply bool_decide_eq_true_1 in Hb]].
  eapply (journal_complete (fun _ => a_node 4 straight) one_decoder (a_block straight) raw_logs_of a_deployment a_decoder 250 w r w');
    [exact serves_straight|apply fresh_wf|reflexivity|reflexivity| |exact H].
  split; cbn; [intros n row raw Hr; by rewrite lookup_empty in Hr|by intros g ?%elem_of_nil].
Defined.


End Indexer.
