(* ===== verification/Views.v ===== *)
(** Contract views and the reconciliation of the read models with them.

    Source: offchain/gpu/hashcredit_gpu/projections/views.py ([ContractViews])
    and projections/reconcile.py ([reconcile_views]).  Outside the program, and
    parameters: eth_abi's [decode] and [encode], the interface files ([abi_of]),
    the text of a float or a container ([repr]) and the node, one per call
    ([env]).  The tables are the indexer's, of one deployment; each call of
    [reconcile_views] is one transaction. *)

From Stdlib Require Import DecimalString.
From S2P Require Import Prelude Domain Stdpy Json JsonText Session Abi Decoders Columns Projection Indexer.
Import Domain Stdpy Json Session Decoders Columns Projection.

Module Views.

(** * Values of an ABI *)

(** What [encode] takes: a Python value, lists and tuples alike. *)
Inductive arg :=
| VJson (v : json)
| VInt (n : Z)
| VBytes (l : list Z)
| VSeq (l : list arg).

(** [t[: t.rfind(c)]]: without [c] the index is [-1]. *)
Definition up_to (c : ascii) (t : string) : string :=
  match String.index 0 (String c "") (String.rev t) with
  | Some i => substring 0 (String.length t - 1 - i) t
  | None => substring 0 (String.length t - 1) t
  end.

(** [{**spec, "type": t}] *)
Definition with_type (t : string) (spec : json) : json :=
  match spec with JObj l => JObj (dput "type" (JStr t) l) | v => v end.

(** [re.fullmatch(r"u?int[0-9]*", t)] *)
Definition is_int_type (t : string) : bool :=
  let u := if String.prefix "u" t then from 1 t else t in
  String.prefix "int" u && string_forallb is_digit (from 3 u).

(** [s.removeprefix("0x")] *)
Definition without_0x (s : string) : string := if String.prefix "0x" s then from 2 s else s.

(** [iter(v)] *)
Definition items (v : json) : res (list json) :=
  match v with
  | JArr l => Ok l
  | JObj l => Ok (map (fun p => JStr p.1) l)
  | JStr s => Ok (map JStr (characters s))
  | _ => Raise (Exn TypeError "object is not iterable")
  end.

(** [[f(x, y) for x, y in zip(l, m, strict=True)]] *)
Fixpoint zip_strict {A B C} (f : A -> B -> res C) (l : list A) (m : list B) : res (list C) :=
  match l, m with
  | [], [] => Ok []
  | x :: l', y :: m' => rbind (f x y) (fun z => rbind (zip_strict f l' m') (fun r => Ok (z :: r)))
  | _, _ => Raise (Exn ValueError "zip() argument 2")
  end.

(** A level of arrays or tuples takes one unit of fuel. *)
(** Models [projections/views.py], [_input_value]. *)
Fixpoint input_value (fuel : nat) (spec value : json) : res arg :=
  rbind (str_field "type" spec) (fun t =>
  if ends_with "]" t then
    match fuel with
    | O => Raise (Exn OutOfFuel "input_value")
    | S n => rbind (items value) (fun l => rbind (map_res (input_value n (with_type (up_to "[" t) spec)) l) (fun r => Ok (VSeq r)))
    end
  else
    match is_int_type t, String.prefix "bytes" t, value with
    | true, _, JStr s =>
        match NilZero.int_of_string s with
        | Some d => Ok (VInt (Z.of_int d))
        | None => Raise (Exn ValueError "ABI integer inputs require exact decimal units")
        end
    | false, true, JStr s => rbind (fromhex (without_0x s)) (fun l => Ok (VBytes l))
    | _, _, _ =>
        if String.prefix "tuple" t then
          match fuel with
          | O => Raise (Exn OutOfFuel "input_value")
          | S n =>
              rbind (list_field "components" spec) (fun cs =>
              rbind (match value with JObj _ => map_res (fun c => rbind (str_field "name" c) (fun k => field k value)) cs | _ => items value end) (fun vs =>
              rbind (zip_strict (input_value n) cs vs) (fun r => Ok (VSeq r))))
          end
        else Ok (VJson value)
    end).

(** [iter(v)] of a decoded value *)
Definition elements (v : pyval) : res (list pyval) :=
  match v with
  | PList l => Ok l
  | PBytes l => Ok (map PInt l)
  | PStr s => Ok (map PStr (characters s))
  | _ => Raise (Exn TypeError "object is not iterable")
  end.

(** [{c["name"] or str(i): f(c, v) for i, (c, v) in enumerate(zip(cs, vs, strict=True))}] *)
Fixpoint named_from (f : json -> pyval -> res json) (i : Z) (cs : list json) (vs : list pyval) (out : list (string * json)) : res (list (string * json)) :=
  match cs, vs with
  | [], [] => Ok out
  | c :: cs', v :: vs' =>
      rbind (str_field "name" c) (fun k => rbind (f c v) (fun x => named_from f (i + 1) cs' vs' (dput (if String.eqb k "" then py_str i else k) x out)))
  | _, _ => Raise (Exn ValueError "zip() argument 2")
  end.

(** Models [projections/views.py], [_output_value]. *)
Fixpoint output_value (fuel : nat) (spec : json) (value : pyval) : res json :=
  rbind (str_field "type" spec) (fun t =>
  if ends_with "]" t then
    match fuel with
    | O => Raise (Exn OutOfFuel "output_value")
    | S n => rbind (elements value) (fun l => rbind (map_res (output_value n (with_type (up_to "[" t) spec)) l) (fun r => Ok (JArr r)))
    end
  else if String.eqb t "tuple" then
    match fuel with
    | O => Raise (Exn OutOfFuel "output_value")
    | S n => rbind (list_field "components" spec) (fun cs => rbind (elements value) (fun vs =>
             rbind (named_from (output_value n) 0 cs vs []) (fun l => Ok (JObj l))))
    end
  else Ok (json_safe value)).

(** ** The weight of a specification is fuel enough *)

Fixpoint weight (v : json) : nat :=
  match v with
  | JStr s => S (String.length s)
  | JArr l => S (list_sum (map weight l))
  | JObj l => S (list_sum (map (fun p => weight p.2) l))
  | _ => 1
  end.

Lemma sum_ge {A} (f : A -> nat) l x : x ∈ l -> (f x <= list_sum (map f l))%nat.
Proof. induction l as [|y l IH]; [by intros ?%elem_of_nil|]. intros [->|H]%elem_of_cons; [simpl; lia|]. specialize (IH H). simpl in *. lia. Qed.

Lemma dget_In {A} key (l : list (string * A)) v : dget key l = Some v -> exists k, (k, v) ∈ l.
Proof.
  unfold dget. induction l as [|[k x] l IH]; cbn; [done|]. destruct (String.eqb k key); cbn.
  - intros [= ->]. exists k. by left.
  - intros H. destruct (IH H) as [k' Hk]. exists k'. by right.
Qed.

Lemma weight_component spec cs c : list_field "components" spec = Ok cs -> c ∈ cs -> (weight c < weight spec)%nat.
Proof.
  unfold list_field, field. destruct spec as [| | | | |l]; try done. destruct (dget "components" l) as [v|] eqn:Hv; [|done].
  destruct v as [| | | |m|]; try done. cbn [rbind]. intros [= ->] Hc. apply dget_In in Hv as [k Hk].
  pose proof (sum_ge (fun p : string * json => weight p.2) l _ Hk). pose proof (sum_ge weight cs c Hc). cbn in *. unfold list_sum in *. lia.
Qed.

Lemma substring_length n s : (String.length (substring 0 n s) <= n)%nat.
Proof. revert n. induction s as [|a s IH]; intros [|n]; cbn; [lia..|]. specialize (IH n). lia. Qed.

Lemma up_to_shorter c t : t <> ""%string -> (String.length (up_to c t) < String.length t)%nat.
Proof.
  intros Ht. assert (0 < String.length t)%nat by (destruct t; [done|cbn; lia]). unfold up_to.
  destruct (String.index _ _ _) as [i|]; eapply Nat.le_lt_trans; try apply substring_length; lia.
Qed.

Lemma weight_dput t0 t l : dget "type" l = Some (JStr t0) -> (String.length t < String.length t0)%nat ->
  (list_sum (map (fun p : string * json => weight p.2) (dput "type" (JStr t) l)) < list_sum (map (fun p : string * json => weight p.2) l))%nat.
Proof.
  intros H Ht. induction l as [|[k x] l IH]; [done|]. unfold dget in *. cbn in *. destruct (String.eqb k "type"); cbn in *.
  - injection H as ->. cbn. lia.
  - specialize (IH H). unfold list_sum in *. lia.
Qed.

Lemma weight_inner c spec t : str_field "type" spec = Ok t -> t <> ""%string -> (weight (with_type (up_to c t) spec) < weight spec)%nat.
Proof.
  unfold str_field, field. destruct spec as [| | | | |l]; try done. destruct (dget "type" l) as [v|] eqn:Hv; [|done].
  destruct v; try done. cbn [rbind]. intros [= ->] Ht. pose proof (weight_dput _ _ _ Hv (up_to_shorter c t Ht)). cbn in *. unfold list_sum in *. lia.
Qed.

Lemma zip_strict_Raise {A B C} (f : A -> B -> res C) l m e : zip_strict f l m = Raise e ->
  e = Exn ValueError "zip() argument 2" \/ exists x y, x ∈ l /\ f x y = Raise e.
Proof.
  revert m. induction l as [|x l IH]; intros [|y m]; cbn; try by (intros [= <-]; left).
  destruct (f x y) as [z|e'] eqn:Hf; cbn [rbind].
  - destruct (zip_strict f l m) as [r|e'] eqn:Hz; cbn [rbind]; [done|]. intros [= ->].
    destruct (IH m Hz) as [->|(x' & y' & Hx & He)]; [by left|]. right. exists x', y'. split; [by right|done].
  - intros [= ->]. right. exists x, y. split; [by left|done].
Qed.

Lemma named_from_Raise f i cs vs out e : named_from f i cs vs out = Raise e ->
  (exn_kind e <> OutOfFuel) \/ exists c v, c ∈ cs /\ f c v = Raise e.
Proof.
  revert i vs out. induction cs as [|c cs IH]; intros i [|v vs] out; cbn; try by (intros [= <-]; left).
  unfold str_field, field. destruct c as [| | | | |l]; cbn [rbind]; try by (intros [= <-]; left).
  destruct (dget "name" l) as [x|]; cbn [rbind]; [|by (intros [= <-]; left)]. destruct x; cbn [rbind]; try by (intros [= <-]; left).
  destruct (f (JObj l) v) as [z|e'] eqn:Hf; cbn [rbind].
  - intros H. destruct (IH _ _ _ H) as [?|(c' & v' & Hc & He)]; [by left|]. right. exists c', v'. split; [by right|done].
  - intros [= ->]. right. exists (JObj l), v. split; [by left|done].
Qed.

Lemma weight_pos v : (0 < weight v)%nat.
Proof. destruct v; cbn; lia. Qed.

Definition fuelled {A} (r : res A) : Prop := forall e, r = Raise e -> exn_kind e <> OutOfFuel.

Lemma fuelled_bind {A B} (r : res A) (f : A -> res B) : fuelled r -> (forall a, r = Ok a -> fuelled (f a)) -> fuelled (rbind r f).
Proof. intros Hr Hf e He. destruct r as [a|e']; cbn in He; [by apply (Hf a)|]. injection He as ->. by apply Hr. Qed.

Lemma fuelled_Ok {A} (a : A) : fuelled (Ok a).
Proof. done. Qed.

Lemma fuelled_raise {A} k m : k <> OutOfFuel -> fuelled (Raise (A:=A) (Exn k m)).
Proof. by intros Hk e [= <-]. Qed.

Ltac leaf := first [apply fuelled_Ok | by apply fuelled_raise].

Lemma fuelled_map {A B} (f : A -> res B) l : (forall x, x ∈ l -> fuelled (f x)) -> fuelled (map_res f l).
Proof. intros H e (x & Hx & He)%map_res_Raise. by eapply H. Qed.

Lemma fuelled_zip {A B C} (f : A -> B -> res C) l m : (forall x y, x ∈ l -> fuelled (f x y)) -> fuelled (zip_strict f l m).
Proof. intros H e [->|(x & y & Hx & He)]%zip_strict_Raise; [done|by eapply H]. Qed.

Lemma fuelled_named f cs i vs out : (forall c v, c ∈ cs -> fuelled (f c v)) -> fuelled (named_from f i cs vs out).
Proof. intros H e [?|(c & v & Hc & He)]%named_from_Raise; [done|by eapply H]. Qed.

Lemma fuelled_field key v : fuelled (field key v).
Proof. unfold field. destruct v; try leaf. destruct (dget key l); leaf. Qed.

Lemma fuelled_str_field key v : fuelled (str_field key v).
Proof. apply fuelled_bind; [apply fuelled_field|]. intros [] _; leaf. Qed.

Lemma fuelled_list_field key v : fuelled (list_field key v).
Proof. apply fuelled_bind; [apply fuelled_field|]. intros [] _; leaf. Qed.

Lemma fuelled_items v : fuelled (items v).
Proof. destruct v; leaf. Qed.

Lemma fuelled_elements v : fuelled (elements v).
Proof. destruct v; leaf. Qed.

Lemma fuelled_fromhex s : fuelled (fromhex s).
Proof. unfold fromhex. destruct (unhex s); leaf. Qed.

Create HintDb fuelled.
#[local] Hint Resolve fuelled_Ok fuelled_field fuelled_str_field fuelled_list_field fuelled_items fuelled_elements fuelled_fromhex : fuelled.

Lemma not_empty_array t : ends_with "]" t = true -> t <> ""%string.
Proof. by intros H ->. Qed.

Lemma input_value_fuel fuel spec v : (weight spec <= fuel)%nat -> fuelled (input_value fuel spec v).
Proof.
  revert spec v. induction fuel as [|n IH]; intros spec v Hw; [pose proof (weight_pos spec); lia|]. cbn [input_value].
  apply fuelled_bind; [auto with fuelled|]. intros t Ht. destruct (ends_with "]" t) eqn:Ha.
  { apply fuelled_bind; [auto with fuelled|]. intros l _. apply fuelled_bind; [|auto with fuelled].
    apply fuelled_map. intros x _. apply IH. pose proof (weight_inner "[" spec t Ht (not_empty_array t Ha)). lia. }
  assert (Htuple : fuelled (if String.prefix "tuple" t then
            rbind (list_field "components" spec) (fun cs =>
              rbind (match v with JObj _ => map_res (fun c => rbind (str_field "name" c) (fun k => field k v)) cs | _ => items v end) (fun vs =>
              rbind (zip_strict (input_value n) cs vs) (fun r => Ok (VSeq r)))) else Ok (VJson v))).
  { destruct (String.prefix "tuple" t); [|auto with fuelled]. apply fuelled_bind; [auto with fuelled|]. intros cs Hcs. apply fuelled_bind.
    - destruct v; auto with fuelled. apply fuelled_map. intros c _. apply fuelled_bind; auto with fuelled.
    - intros vs _. apply fuelled_bind; [|auto with fuelled]. apply fuelled_zip. intros c y Hc. apply IH.
      pose proof (weight_component _ _ _ Hcs Hc). lia. }
  destruct (is_int_type t), (String.prefix "bytes" t), v; try exact Htuple.
  1, 2: destruct (NilZero.int_of_string _); [auto with fuelled|by apply fuelled_raise].
  apply fuelled_bind; auto with fuelled.
Qed.

Lemma output_value_fuel fuel spec v : (weight spec <= fuel)%nat -> fuelled (output_value fuel spec v).
Proof.
  revert spec v. induction fuel as [|n IH]; intros spec v Hw; [pose proof (weight_pos spec); lia|]. cbn [output_value].
  apply fuelled_bind; [auto with fuelled|]. intros t Ht. destruct (ends_with "]" t) eqn:Ha.
  { apply fuelled_bind; [auto with fuelled|]. intros l _. apply fuelled_bind; [|auto with fuelled].
    apply fuelled_map. intros x _. apply IH. pose proof (weight_inner "[" spec t Ht (not_empty_array t Ha)). lia. }
  destruct (String.eqb t "tuple"); [|auto with fuelled].
  apply fuelled_bind; [auto with fuelled|]. intros cs Hcs. apply fuelled_bind; [auto with fuelled|]. intros vs _.
  apply fuelled_bind; [|auto with fuelled]. apply fuelled_named. intros c y Hc. apply IH. pose proof (weight_component _ _ _ Hcs Hc). lia.
Qed.

(** * The node and the tables *)

(** The node of one call: its chain and its answers to [eth_call] of an address
    with calldata at a block. *)
Record Node := { base : Indexer.Rpc; eth_call : string -> string -> Z -> res string }.

(** Models [db/projections_models.py], [ProjectionDiscrepancy]. *)
Record Discrepancy := { pd_block : Z; pd_subject : string; pd_projected : string; pd_canonical : string; pd_class : string; pd_note : string }.

(** The tables, the calls made so far and the counters of the run. *)
Record World := { w_db : Indexer.DB; findings : list Discrepancy; w_calls : nat; checked : Z; found : Z }.

(** The answer of [reconcile_views]. *)
Record Report := { rp_checked : Z; rp_found : Z; rp_block : option Z; rp_reason : option string }.

Section Views.
Context (env : nat -> Node) (abi_of : string -> list json) (abi_encode : list string -> list arg -> res (list Z))
        (abi_decode : list string -> list Z -> res (list pyval)) (repr : json -> string).

#[local] Abbreviation M := (PyM World).

Definition rpc {A} (f : Node -> A) : M A :=
  let* w := get in
  modify (fun w => w <| w_calls ::= S |>) ;;;
  ret (f (env (w_calls w))).

Definition text_is (key s : string) (v : json) : bool :=
  match get_field key v with Some (JStr x) => String.eqb x s | _ => false end.

(** The function of the interface with this name and so many inputs. *)
Definition is_view (function : string) (n : nat) (x : json) : res bool :=
  if text_is "type" "function" x && text_is "name" function x then
    rbind (list_field "inputs" x) (fun l => Ok (length l =? n)%nat)
  else Ok false.

Definition canonical (v : json) : res string := canonical_type (depth v) v.

(** The call of a view: address, calldata and the specification of its outputs. *)
(** Models [projections/views.py], [ContractViews.read], lines 46-62. *)
Definition request (contracts : list (string * string)) (contract function : string) (args : list json) : res (string * string * list json) :=
  rbind (filter_res (is_view function (length args)) (abi_of contract)) (fun matches =>
  match matches with
  | [fn] =>
      rbind (rbind (field "stateMutability" fn) (fun m => in_set m ["view"; "pure"])) (fun readable =>
      if negb readable then Raise (Exn ValueError "expected one pinned read-only contract function")
      else
        rbind (list_field "inputs" fn) (fun ins => rbind (map_res canonical ins) (fun types =>
        let sel := Abi.selector (function ++ "(" ++ String.concat "," types ++ ")") in
        rbind (zip_strict (fun i v => input_value (weight i) i v) ins args) (fun vals => rbind (abi_encode types vals) (fun enc =>
        match dget contract contracts with
        | None => Raise (Exn KeyError contract)
        | Some to => rbind (list_field "outputs" fn) (fun outs => Ok (to, (sel ++ hex enc)%string, outs))
        end)))))
  | _ => Raise (Exn ValueError "expected one pinned read-only contract function")
  end).

(** Models [projections/views.py], [ContractViews.read], lines 63-68. *)
Definition answer (outs : list json) (raw : string) : res json :=
  rbind (map_res canonical outs) (fun types => rbind (fromhex (without_0x raw)) (fun data => rbind (abi_decode types data) (fun vals =>
  rbind (zip_strict (fun o v => output_value (weight o) o v) outs vals) (fun result =>
  Ok (match result with [x] => x | l => JArr l end))))).

(** Models [projections/views.py], [ContractViews.read]. *)
Definition read (contracts : list (string * string)) (block : Z) (contract function : string) (args : list json) : M json :=
  let* q := lift_res (request contracts contract function args) in
  let* raw := rpc (fun n => eth_call n q.1.1 q.1.2 block) in
  let* raw := lift_res raw in
  lift_res (answer q.2 raw).

(** What a node answers to a view at a block. *)
Definition view_at (n : Node) (contracts : list (string * string)) (block : Z) (contract function : string) (args : list json) : res json :=
  rbind (request contracts contract function args) (fun q => rbind (eth_call n q.1.1 q.1.2 block) (answer q.2)).

(** * Comparisons *)

Definition same_finding (a b : Discrepancy) : bool :=
  (pd_block a =? pd_block b) && String.eqb (pd_subject a) (pd_subject b) && String.eqb (pd_projected a) (pd_projected b) && String.eqb (pd_canonical a) (pd_canonical b).

(** Models [projections/reconcile.py], [reconcile_views], lines 37-68. *)
Definition compare (block : Z) (subject : string) (projected canonical : json) (expected_lag : bool) : M unit :=
  modify (fun w => w <| checked ::= Z.succ |>) ;;;
  if String.eqb (str_of repr projected) (str_of repr canonical) then ret tt
  else
    let row := {| pd_block := block; pd_subject := subject; pd_projected := str_of repr projected; pd_canonical := str_of repr canonical;
                  pd_class := if expected_lag then "EXPECTED_LAG" else "DISCREPANCY";
                  pd_note := if expected_lag then "Accrued interest in view exceeds last recorded accrual" else "Read model differs from canonical contract" |} in
    when (negb expected_lag) (modify (fun w => w <| found ::= Z.succ |>)) ;;;
    let* w := get in
    if existsb (same_finding row) (findings w) then ret tt
    else modify (fun w => w <| findings ::= fun l => l ++ [row] |>).

(** Models [projections/reconcile.py], [reconcile_views], lines 84-112. *)
Definition reconcile_facility (cs : list (string * string)) (block : Z) (f : ProjectedFacility) : M unit :=
  let key := facility_key f in
  let* data := read cs block "DebtLedger" "view_" [JStr key] in
  let* x := lift_res (field "principal" data) in
  compare block (key ++ ":principal") (JInt (principal f)) x false ;;;
  let* x := lift_res (field "fees" data) in
  compare block (key ++ ":fees") (JInt (fees f)) x false ;;;
  let* p := lift_res (rbind (int_field "executionProfile" data) profile_at) in
  compare block (key ++ ":profile") (JStr (execution_profile f)) (JStr p) false ;;;
  let* at_ := lift_res (int_field "lastAccrualAt" data) in
  let* debt := read cs block "DebtLedger" "legalDebtAt" [JStr key; JInt at_] in
  compare block (key ++ ":recordedDebt") (JInt (principal f + fees f + unpaid_interest_recorded f)) debt false ;;;
  let* x := lift_res (field "unpaidInterest" data) in
  let* n := lift_res (int_field "unpaidInterest" data) in
  compare block (key ++ ":currentInterest") (JInt (unpaid_interest_recorded f)) x (unpaid_interest_recorded f <=? n).

(** Models [projections/reconcile.py], [reconcile_views], lines 116-125. *)
Definition VAULT_VIEWS : list string := ["availableCash"; "totalShares"; "totalBorrowerOwned"; "nav"; "totalImpairment"].

(** The dictionary of the canonical vault views. *)
Fixpoint read_vault (cs : list (string * string)) (block : Z) (keys : list string) (out : list (string * json)) : M (list (string * json)) :=
  match keys with
  | [] => ret out
  | k :: l => let* x := read cs block "LendingVaultV2" k [] in read_vault cs block l (dput k x out)
  end.

(** [state.get("shareBalances", {}).items()] *)
Definition share_items (e : ProjectedEntity) : res (list (string * json)) :=
  match dget "shareBalances" (state e) with
  | None => Ok []
  | Some (JObj l) => Ok l
  | Some _ => Raise (Exn AttributeError "items")
  end.

Definition final_tables (w : World) : Tables := (Indexer.views (w_db w)).1.

Definition note_canonical (block : Z) (canonical : list (string * json)) (e : ProjectedEntity) : ProjectedEntity :=
  {| state := dput "canonicalBlock" (JInt block) (dput "canonical" (JObj canonical) (state e)); n_last_block := n_last_block e |}.

Definition set_entity (key : string * string) (e : ProjectedEntity) (w : World) : World :=
  w <| w_db := (w_db w) <| Indexer.views ::= fun v => (v.1 <| entities ::= <[key := e]> |>, v.2) |> |>.

(** Models [projections/reconcile.py], [reconcile_views], lines 115-142. *)
Definition check_vault (cs : list (string * string)) (block : Z) (key : string * string) (entity : option ProjectedEntity) : M unit :=
  let* canonical := read_vault cs block VAULT_VIEWS [] in
  let* total := lift_res (field "totalShares" (JObj canonical)) in
  compare block "vault:totalShares" (match entity with Some e => default (JStr "0") (dget "totalShares" (state e)) | None => JStr "0" end) total false ;;;
  match entity with
  | None => ret tt
  | Some e =>
      let* l := lift_res (share_items e) in
      for_each l (fun p =>
        let* x := read cs block "LendingVaultV2" "balanceOf" [JStr p.1] in
        compare block ("lp:" ++ p.1 ++ ":shares") p.2 x false) ;;;
      modify (set_entity key (note_canonical block canonical e))
  end.

(** Models [projections/reconcile.py], [reconcile_views], lines 113-115. *)
Definition reconcile_vault (cs : list (string * string)) (block : Z) (vault : string) : M unit :=
  let key := ("VAULT"%string, lower vault) in
  let* w := get in
  check_vault cs block key (entities (final_tables w) !! key).

(** Models [projections/reconcile.py], [reconcile_views], lines 79-84. *)
Definition check_ledger (cs : list (string * string)) (block : Z) (rows : list ProjectedFacility) : M unit :=
  let* n := read cs block "DebtLedger" "facilityCount" [] in
  compare block "facilityCount" (JInt (zlen rows)) n false ;;;
  for_each rows (reconcile_facility cs block).

(** The block the node has at a height is the journal's. *)
Definition block_moved (b : ChainBlock) : M bool :=
  let* actual := rpc (fun n => Indexer.get_block (base n) (number b)) in
  match actual with
  | None => raise TypeError "'NoneType' object is not subscriptable"
  | Some a => ret (negb (String.eqb (lower (Indexer.rb_hash a)) (b_hash b)))
  end.

(** Models [projections/reconcile.py], [reconcile_views], lines 70-78. *)
Definition compare_all (d : ChainDeployment) (b : ChainBlock) : M unit :=
  let cs := contracts d in
  (if bool_decide (is_Some (dget "DebtLedger" cs)) then
     let* w := get in
     check_ledger cs (number b) (select (fun _ => true) (facilities (final_tables w)))
   else ret tt) ;;;
  match dget "LendingVaultV2" cs with
  | Some vault => reconcile_vault cs (number b) vault
  | None => ret tt
  end.

(** Models [projections/reconcile.py], [reconcile_views], lines 19-36. *)
Definition reconcile_body : M Report :=
  let* w := get in
  match Indexer.deployment (w_db w), Indexer.cursor (w_db w) with
  | Some d, Some c =>
      match Indexer.blocks (w_db w) !! Indexer.finalized_block_number c with
      | None => ret {| rp_checked := 0; rp_found := 0; rp_block := None; rp_reason := Some "FINALIZED_BLOCK_PENDING"%string |}
      | Some b =>
          let* cid := rpc (fun n => Indexer.chain_id (base n)) in
          if negb (cid =? d_chain_id d) then raise ValueError "canonical deployment/block changed during reconciliation"
          else
            let* moved := block_moved b in
            if moved : bool then raise ValueError "canonical deployment/block changed during reconciliation"
            else
              modify (fun w => w <| checked := 0 |> <| found := 0 |>) ;;;
              compare_all d b ;;;
              let* moved := block_moved b in
              if moved : bool then raise ValueError "canonical block changed before reconciliation commit"
              else
                let* w := get in
                ret {| rp_checked := checked w; rp_found := found w; rp_block := Some (number b); rp_reason := None |}
      end
  | _, _ => ret {| rp_checked := 0; rp_found := 0; rp_block := None; rp_reason := Some "INDEX_CURSOR_MISSING"%string |}
  end.

(** Models [projections/reconcile.py], [reconcile_views]. A failure rolls the
    tables back, not the calls. *)
Definition reconcile_views : M Report := fun w =>
  match reconcile_body w with
  | (Ok r, w') => (Ok r, w')
  | (Raise e, w') => (Raise e, w <| w_calls := w_calls w' |>)
  end.

(** * What a run of comparisons shows *)

(** [m] makes calls and counts discrepancies; when it counted none, and all of
    its calls were made from [lo] on and before [hi], its result has [Q]. *)
Record quiet (lo hi : nat) {A} (m : M A) (Q : A -> Prop) : Prop := {
  quiet_grows : forall w a w', m w = (Ok a, w') -> (w_calls w <= w_calls w')%nat /\ found w <= found w';
  quiet_shows : forall w a w', m w = (Ok a, w') -> (lo <= w_calls w)%nat -> (w_calls w' <= hi)%nat -> found w' = found w -> Q a;
}.

Lemma quiet_bind lo hi {A B} (m : M A) (f : A -> M B) Q R :
  quiet lo hi m Q -> (forall a, quiet lo hi (f a) (fun b => Q a -> R b)) -> quiet lo hi (bind m f) R.
Proof.
  intros [G1 S1] Hf. split.
  - intros w b w' (a & w1 & H1 & H2)%bind_Ok. pose proof (G1 _ _ _ H1). pose proof (quiet_grows _ _ _ _ (Hf a) _ _ _ H2). lia.
  - intros w b w' (a & w1 & H1 & H2)%bind_Ok Hlo Hhi Heq. pose proof (G1 _ _ _ H1). pose proof (quiet_grows _ _ _ _ (Hf a) _ _ _ H2).
    eapply (quiet_shows _ _ _ _ (Hf a)); [exact H2|lia..|]. eapply S1; [exact H1|lia..].
Qed.

Lemma quiet_weaken lo hi {A} (m : M A) (Q R : A -> Prop) : quiet lo hi m Q -> (forall a, Q a -> R a) -> quiet lo hi m R.
Proof. intros [G S] H. split; [exact G|]. intros w a w' Hr H1 H2 H3. eapply H, S; [exact Hr|done..]. Qed.

Lemma quiet_lift lo hi {A} (r : res A) : quiet lo hi (lift_res r) (fun a => r = Ok a).
Proof. split; intros w a w' H; injection H as -> ->; [lia|done]. Qed.

Lemma quiet_ret lo hi {A} (a : A) : quiet lo hi (ret a) (fun b => b = a).
Proof. split; intros w b w' [-> ->]%ret_Ok; [lia|done]. Qed.

Lemma quiet_rpc lo hi {A} (f : Node -> A) : quiet lo hi (rpc f) (fun a => exists i, (lo <= i < hi)%nat /\ a = f (env i)).
Proof.
  split; intros w a w' H; injection H as <- <-; [cbn; lia|]. intros Hlo Hhi _. cbn in Hhi. exists (w_calls w). split; [lia|done].
Qed.

Lemma quiet_read lo hi cs blk contract function args :
  quiet lo hi (read cs blk contract function args) (fun v => exists i, (lo <= i < hi)%nat /\ view_at (env i) cs blk contract function args = Ok v).
Proof.
  unfold read. eapply quiet_bind; [apply quiet_lift|]. intros q. eapply quiet_bind; [apply quiet_rpc|]. intros raw.
  eapply quiet_bind; [apply quiet_lift|]. intros raw'. eapply quiet_weaken; [apply quiet_lift|].
  intros v Hv Hraw (i & Hi & ->) Hq. exists i. split; [done|]. unfold view_at. rewrite Hq. cbn [rbind]. rewrite Hraw. exact Hv.
Qed.

Lemma compare_Ok blk subject p c lag w u w' : compare blk subject p c lag w = (Ok u, w') ->
  w_calls w' = w_calls w /\ w_db w' = w_db w /\ checked w' = Z.succ (checked w) /\
  (str_of repr p = str_of repr c /\ found w' = found w /\ findings w' = findings w \/
   str_of repr p <> str_of repr c /\ found w' = (if lag then found w else Z.succ (found w)) /\
   exists row, pd_block row = blk /\ pd_subject row = subject /\ pd_projected row = str_of repr p /\ pd_canonical row = str_of repr c /\
     (findings w' = findings w /\ existsb (same_finding row) (findings w) = true \/
      findings w' = findings w ++ [row] /\ existsb (same_finding row) (findings w) = false)).
Proof.
  unfold compare. intros H. apply bind_Ok in H as (u0 & w0 & ->%modify_Ok & H).
  destruct (String.eqb_spec (str_of repr p) (str_of repr c)) as [He|He].
  { apply ret_Ok in H as [_ ->]. split_and!; try done. by left. }
  cbv zeta in H. set (row := {| pd_block := blk |}) in *.
  apply bind_Ok in H as (u1 & w1 & H1 & H). apply bind_Ok in H as (w2 & w3 & [-> ->]%get_Ok & H).
  assert (E : w_calls w1 = w_calls w /\ w_db w1 = w_db w /\ checked w1 = Z.succ (checked w) /\ found w1 = (if lag then found w else Z.succ (found w)) /\ findings w1 = findings w).
  { destruct lag; cbn in H1; injection H1 as _ <-; by split_and!. }
  destruct E as (E1 & E2 & E3 & E4 & E5).
  destruct (existsb _ _) eqn:Hx; [apply ret_Ok in H as [_ ->]|apply modify_Ok in H as ->]; cbn; split_and!; try done; right; (split; [done|]); (split; [done|]);
    exists row; rewrite E5 in Hx |- *; split_and!; try done; [by left|by right].
Qed.

Lemma quiet_compare lo hi blk subject p c lag :
  quiet lo hi (compare blk subject p c lag) (fun _ => lag = true \/ str_of repr p = str_of repr c).
Proof.
  split; intros w u w' (E1 & _ & _ & [(He & Hf & _)|(He & Hf & _)])%compare_Ok; [split; lia|split; destruct lag; lia| |]; intros _ _ Heq; [by right|].
  left. destruct lag; [done|lia].
Qed.

Lemma quiet_for_each lo hi {A} (l : list A) (f : A -> M unit) (Q : A -> Prop) :
  (forall x, quiet lo hi (f x) (fun _ => Q x)) -> quiet lo hi (for_each l f) (fun _ => forall x, x ∈ l -> Q x).
Proof.
  intros Hf. induction l as [|x l IH]; cbn [for_each]; [eapply quiet_weaken; [apply quiet_ret|]; by intros ? _ y ?%elem_of_nil|].
  eapply quiet_bind; [apply Hf|]. intros []. eapply quiet_weaken; [exact IH|]. intros [] Hl Hx y [->|Hy]%elem_of_cons; [done|by apply Hl].
Qed.

Lemma quiet_pure lo hi {A} (r : World -> A) : quiet lo hi (fun w => (Ok (r w), w)) (fun _ => True).
Proof. split; intros w a w' H; injection H as _ <-; [lia|done]. Qed.

Definition view_between (lo hi : nat) (cs : list (string * string)) (blk : Z) (contract function : string) (args : list json) (v : json) : Prop :=
  exists i, (lo <= i < hi)%nat /\ view_at (env i) cs blk contract function args = Ok v.

(** A field of a decoded dictionary, as text. *)
Definition shows (data : json) (key text : string) : Prop := exists v, field key data = Ok v /\ str_of repr v = text.

(** The ledger's views of a facility are those of its row. *)
Record agrees (lo hi : nat) (cs : list (string * string)) (blk : Z) (f : ProjectedFacility) (data : json) : Prop := {
  ag_view : view_between lo hi cs blk "DebtLedger" "view_" [JStr (facility_key f)] data;
  ag_principal : shows data "principal" (py_str (principal f));
  ag_fees : shows data "fees" (py_str (fees f));
  ag_profile : rbind (int_field "executionProfile" data) profile_at = Ok (execution_profile f);
  ag_debt : exists at_ debt, int_field "lastAccrualAt" data = Ok at_ /\
    view_between lo hi cs blk "DebtLedger" "legalDebtAt" [JStr (facility_key f); JInt at_] debt /\
    str_of repr debt = py_str (principal f + fees f + unpaid_interest_recorded f);
  ag_interest : shows data "unpaidInterest" (py_str (unpaid_interest_recorded f)) \/
    exists n, int_field "unpaidInterest" data = Ok n /\ unpaid_interest_recorded f <= n;
}.

(** One statement of a run of comparisons. *)
Ltac quiet_step :=
  first
    [ apply quiet_read | apply quiet_compare | apply quiet_lift | apply quiet_rpc | apply quiet_ret | apply quiet_pure ].

Lemma quiet_facility lo hi cs blk f : quiet lo hi (reconcile_facility cs blk f) (fun _ => exists data, agrees lo hi cs blk f data).
Proof.
  unfold reconcile_facility. cbv zeta.
  repeat (eapply quiet_bind; [quiet_step|]; intros ?). eapply quiet_weaken; [quiet_step|].
  intros ? Hint Hn Hx Hdebt Hview Hat Hprof Hp Hfees Hf Hprin Hpr Hdata. exists a.
  split; [done|exists a0|exists a2| |exists a6, a7|].
  - destruct Hprin as [|Hprin]; [done|]. by split.
  - destruct Hfees as [|Hfees]; [done|]. by split.
  - destruct Hprof as [|Hprof]; [done|]. cbn in Hprof. by rewrite Hprof.
  - destruct Hdebt as [|Hdebt]; [done|]. by split_and!.
  - cbv beta in Hint. destruct Hint as [Hint|Hint]; [right; exists a10; split; [done|lia]|left; by exists a9].
Qed.

(** The vault's views are those of its row. *)
Record vault_agrees (lo hi : nat) (cs : list (string * string)) (blk : Z) (entity : option ProjectedEntity) : Prop := {
  va_total : exists v, view_between lo hi cs blk "LendingVaultV2" "totalShares" [] v /\
    str_of repr (default (JStr "0") (entity ≫= fun e => dget "totalShares" (state e))) = str_of repr v;
  va_shares : forall e, entity = Some e -> exists l, share_items e = Ok l /\
    forall who n, (who, n) ∈ l -> exists v, view_between lo hi cs blk "LendingVaultV2" "balanceOf" [JStr who] v /\ str_of repr n = str_of repr v;
}.

Lemma quiet_modify lo hi (f : World -> World) : (forall w, w_calls (f w) = w_calls w /\ found (f w) = found w) -> quiet lo hi (modify f) (fun _ => True).
Proof. intros H. split; intros w u w' ->%modify_Ok; destruct (H w); [lia|done]. Qed.

Lemma quiet_read_vault lo hi cs blk keys out :
  quiet lo hi (read_vault cs blk keys out)
    (fun out' => forall k v, dget k out' = Some v -> dget k out = Some v \/ view_between lo hi cs blk "LendingVaultV2" k [] v).
Proof.
  revert out. induction keys as [|k keys IH]; intros out; cbn [read_vault].
  - eapply quiet_weaken; [apply quiet_ret|]. intros o -> k v Hv. by left.
  - eapply quiet_bind; [apply quiet_read|]. intros x. eapply quiet_weaken; [apply IH|].
    intros o Ho Hx j v Hv. destruct (Ho j v Hv) as [Hd|]; [|by right]. destruct (decide (j = k)) as [->|Hne].
    + rewrite dget_dput_eq in Hd. injection Hd as <-. by right.
    + rewrite dget_dput_ne in Hd by done. by left.
Qed.

Lemma quiet_vault lo hi cs blk key entity : quiet lo hi (check_vault cs blk key entity) (fun _ => vault_agrees lo hi cs blk entity).
Proof.
  unfold check_vault. eapply quiet_bind; [apply quiet_read_vault|]. intros canon. eapply quiet_bind; [apply quiet_lift|]. intros total.
  eapply quiet_bind; [apply quiet_compare|]. intros ?.
  assert (Htotal : forall P : Prop, (forall e, entity = Some e -> P -> exists l, share_items e = Ok l /\
      forall who n, (who, n) ∈ l -> exists v, view_between lo hi cs blk "LendingVaultV2" "balanceOf" [JStr who] v /\ str_of repr n = str_of repr v) -> P ->
    false = true \/ str_of repr (match entity with Some e => default (JStr "0") (dget "totalShares" (state e)) | None => JStr "0" end) = str_of repr total ->
    field "totalShares" (JObj canon) = Ok total ->
    (forall k v, dget k canon = Some v -> dget k [] = Some v \/ view_between lo hi cs blk "LendingVaultV2" k [] v) -> vault_agrees lo hi cs blk entity).
  { intros P HP Hp [|Ht] Hf Hc; [done|]. unfold field in Hf. destruct (dget "totalShares" canon) as [v|] eqn:Hv; [|done]. injection Hf as ->.
    destruct (Hc _ _ Hv) as [|Hb]; [done|]. split; [exists total; split; [done|by destruct entity]|]. intros e He. by apply HP. }
  destruct entity as [e|].
  - eapply quiet_bind; [apply quiet_lift|]. intros l. eapply quiet_bind.
    { apply quiet_for_each. intros p. eapply quiet_bind; [apply quiet_read|]. intros x.
      eapply quiet_weaken; [apply quiet_compare|]. intros ? Hp (i & Hi & Hx).
      instantiate (1 := fun p => exists v, view_between lo hi cs blk "LendingVaultV2" "balanceOf" [JStr p.1] v /\ str_of repr p.2 = str_of repr v).
      exists x. split; [by exists i|]. by destruct Hp. }
    intros ?. eapply quiet_weaken; [by apply quiet_modify|]. intros ? _ Hl Hi. apply (Htotal True); [|done].
    intros e' [= <-] _. exists l. split; [done|]. intros who n Hin. by apply (Hl (who, n)).
  - eapply quiet_weaken; [apply quiet_ret|]. intros ? _. by apply (Htotal True).
Qed.

Lemma quiet_ledger lo hi cs blk rows : quiet lo hi (check_ledger cs blk rows) (fun _ =>
  (exists n, view_between lo hi cs blk "DebtLedger" "facilityCount" [] n /\ str_of repr n = py_str (zlen rows)) /\
  forall f, f ∈ rows -> exists data, agrees lo hi cs blk f data).
Proof.
  unfold check_ledger. eapply quiet_bind; [apply quiet_read|]. intros n. eapply quiet_bind; [apply quiet_compare|]. intros ?.
  eapply quiet_weaken; [apply quiet_for_each; intros f; apply quiet_facility|]. intros ? Hf [|Hn] Hv; [done|]. split; [by exists n|done].
Qed.

(** * What a run leaves alone *)

Definition finding_key (r : Discrepancy) : Z * string * string * string := (pd_block r, pd_subject r, pd_projected r, pd_canonical r).

Lemma same_finding_key a b : same_finding a b = true <-> finding_key a = finding_key b.
Proof.
  unfold same_finding, finding_key. rewrite !andb_true_iff, Z.eqb_eq, !String.eqb_eq. split; [by intros [[[-> ->] ->] ->]|by intros [= -> -> -> ->]].
Qed.

(** The tables as they were; findings are added, each once. *)
Record recorded (w w' : World) : Prop := {
  rec_db : w_db w' = w_db w;
  rec_findings : findings w `prefix_of` findings w';
  rec_once : NoDup (map finding_key (findings w)) -> NoDup (map finding_key (findings w'));
}.

#[export] Instance recorded_preorder : PreOrder recorded.
Proof.
  split; [by intros w; split|]. intros u v w [D1 F1 O1] [D2 F2 O2]. split; [congruence|by etrans|by intros H; apply O2, O1].
Qed.

Lemma compare_total blk subject p c lag w : exists w', compare blk subject p c lag w = (Ok tt, w').
Proof.
  unfold compare. cbn. destruct (String.eqb _ _); [by eexists|]. unfold bind at 1. destruct lag; cbn; destruct (existsb _ _); by eexists.
Qed.

Lemma compare_recorded blk subject p c lag : keeps recorded (compare blk subject p c lag).
Proof.
  intros w. destruct (compare_total blk subject p c lag w) as [w' H]. rewrite H. cbn.
  apply compare_Ok in H as (_ & Hd & _ & [(_ & _ & Hf)|(_ & _ & row & _ & _ & _ & _ & [[Hf _]|[Hf Hx]])]); split; try done; try (rewrite Hf; done).
  - rewrite Hf. by apply prefix_app_r.
  - rewrite Hf, map_app. intros Hn. apply NoDup_app. split_and!; [done| |apply NoDup_singleton].
    intros k Hk ->%list_elem_of_singleton. apply list_elem_of_fmap in Hk as (r & Hr & Hin).
    apply not_true_iff_false in Hx. apply Hx, existsb_exists. exists r. split; [by apply list_elem_of_In|by apply same_finding_key].
Qed.

Lemma rpc_recorded {A} (f : Node -> A) : keeps recorded (rpc f).
Proof. intros w. by split. Qed.

#[local] Hint Resolve compare_recorded rpc_recorded : keeps.

Lemma read_recorded cs blk contract function args : keeps recorded (read cs blk contract function args).
Proof. unfold read. keeps_tac. Qed.

#[local] Hint Resolve read_recorded : keeps.

Lemma facility_recorded cs blk f : keeps recorded (reconcile_facility cs blk f).
Proof. unfold reconcile_facility. keeps_tac. Qed.

#[local] Hint Resolve facility_recorded : keeps.

Lemma ledger_recorded cs blk rows : keeps recorded (check_ledger cs blk rows).
Proof. unfold check_ledger. keeps_tac. Qed.

Lemma read_vault_recorded cs blk keys out : keeps recorded (read_vault cs blk keys out).
Proof. revert out. induction keys as [|k keys IH]; intros out; cbn [read_vault]; keeps_tac. Qed.

Lemma moved_recorded b : keeps recorded (block_moved b).
Proof. unfold block_moved. keeps_tac. Qed.

#[local] Hint Resolve ledger_recorded read_vault_recorded moved_recorded : keeps.

(** The row of the vault carries the views it was compared with. *)
Definition annotated (e e' : ProjectedEntity) : Prop :=
  n_last_block e' = n_last_block e /\ forall k, k <> "canonical"%string -> k <> "canonicalBlock"%string -> dget k (state e') = dget k (state e).

Record uncorrected (w w' : World) : Prop := {
  un_db : w_db w' = (w_db w) <| Indexer.views := ((final_tables w) <| entities := entities (final_tables w') |>, (Indexer.views (w_db w)).2) |>;
  un_rows : forall key, match entities (final_tables w) !! key, entities (final_tables w') !! key with
                        | Some e, Some e' => annotated e e'
                        | None, None => True
                        | _, _ => False
                        end;
  un_findings : findings w `prefix_of` findings w';
  un_once : NoDup (map finding_key (findings w)) -> NoDup (map finding_key (findings w'));
}.

Lemma recorded_uncorrected w w' : recorded w w' -> uncorrected w w'.
Proof.
  intros [D F O]. assert (Ht : final_tables w' = final_tables w) by (unfold final_tables; by rewrite D).
  split; [|intros key; rewrite Ht; by destruct (_ !! key)|done|done].
  rewrite Ht, D. unfold final_tables. by destruct (w_db w) as [???? j [[] ]].
Qed.

Lemma check_vault_uncorrected cs blk key w u w' :
  check_vault cs blk key (entities (final_tables w) !! key) w = (Ok u, w') -> uncorrected w w'.
Proof.
  unfold check_vault. intros H. apply bind_Ok in H as (canon & w1 & H1 & H). apply bind_Ok in H as (total & w2 & H2 & H).
  apply bind_Ok in H as (u1 & w3 & H3 & H).
  assert (R : recorded w w3).
  { etransitivity; [by eapply (keeps_run recorded); [apply read_vault_recorded|]|]. injection H2 as _ ->. by eapply (keeps_run recorded); [apply compare_recorded|]. }
  destruct (entities (final_tables w) !! key) as [e|] eqn:He; [|apply ret_Ok in H as [_ ->]; by apply recorded_uncorrected].
  apply bind_Ok in H as (l & w4 & H4 & H). injection H4 as _ <-. apply bind_Ok in H as (u2 & w5 & H5 & ->%modify_Ok).
  assert (R5 : recorded w w5).
  { etransitivity; [exact R|]. eapply (keeps_run recorded); [|exact H5]. keeps_tac. }
  destruct R5 as [D F O]. split; [| |done|done].
  - unfold set_entity, final_tables. cbn. rewrite D. by destruct (w_db w) as [???? j [[] ]].
  - intros k. unfold set_entity, final_tables. cbn. rewrite D. fold (final_tables w). destruct (decide (k = key)) as [->|Hne].
    + rewrite lookup_insert_eq, He. split; [done|]. intros j Hc Hb. unfold note_canonical. cbn [state]. by rewrite !dget_dput_ne.
    + rewrite lookup_insert_ne by done. by destruct (_ !! k).
Qed.

Lemma uncorrected_refl w w' : w_db w' = w_db w -> findings w' = findings w -> uncorrected w w'.
Proof. intros D F. apply recorded_uncorrected. split; [done|by rewrite F|by rewrite F]. Qed.

Lemma uncorrected_recorded u v w : uncorrected u v -> recorded v w -> uncorrected u w.
Proof.
  intros [U1 U2 U3 U4] [D F O]. assert (Ht : final_tables w = final_tables v) by (unfold final_tables; by rewrite D).
  split; rewrite ?Ht; [by rewrite D|done|by etrans|by intros H; apply O, U4].
Qed.

Lemma recorded_uncorrected_trans u v w : recorded u v -> uncorrected v w -> uncorrected u w.
Proof.
  intros [D F O] [U1 U2 U3 U4]. assert (Ht : final_tables v = final_tables u) by (unfold final_tables; by rewrite D).
  split; [by rewrite U1, Ht, D|by rewrite <- Ht|by etrans|by intros H; apply U4, O].
Qed.

Lemma compare_all_uncorrected d b w u w' : compare_all d b w = (Ok u, w') -> uncorrected w w'.
Proof.
  unfold compare_all. intros H. apply bind_Ok in H as (u1 & w1 & H1 & H).
  assert (R : recorded w w1).
  { eapply (keeps_run recorded); [|exact H1]. keeps_tac. }
  eapply recorded_uncorrected_trans; [exact R|]. destruct (dget "LendingVaultV2" _) as [vault|]; [|apply ret_Ok in H as [_ ->]; by apply uncorrected_refl].
  unfold reconcile_vault in H. cbv zeta in H. apply bind_Ok in H as (w2 & w3 & [-> ->]%get_Ok & H). by eapply check_vault_uncorrected.
Qed.

(** What a report that has looked at a block went through. *)
Lemma body_run w r w' blk : reconcile_body w = (Ok r, w') -> rp_block r = Some blk ->
  exists d c b w1 w2, Indexer.deployment (w_db w) = Some d /\ Indexer.cursor (w_db w) = Some c /\
    Indexer.blocks (w_db w) !! Indexer.finalized_block_number c = Some b /\ number b = blk /\
    Indexer.chain_id (base (env (w_calls w))) = d_chain_id d /\
    (forall i, i = S (w_calls w) \/ i = w_calls w2 -> exists a, Indexer.get_block (base (env i)) blk = Some a /\ lower (Indexer.rb_hash a) = b_hash b) /\
    w1 = w <| w_calls := S (S (w_calls w)) |> <| checked := 0 |> <| found := 0 |> /\ compare_all d b w1 = (Ok tt, w2) /\
    w' = w2 <| w_calls ::= S |> /\ rp_found r = found w2 /\ rp_checked r = checked w2.
Proof.
  unfold reconcile_body. intros H Hr. apply bind_Ok in H as (w0 & w00 & [-> ->]%get_Ok & H).
  destruct (Indexer.deployment (w_db w)) as [d|] eqn:Hd; [|apply ret_Ok in H as [-> _]; done].
  destruct (Indexer.cursor (w_db w)) as [c|] eqn:Hc; [|apply ret_Ok in H as [-> _]; done].
  destruct (Indexer.blocks (w_db w) !! _) as [b|] eqn:Hb; [|apply ret_Ok in H as [-> _]; done].
  apply bind_Ok in H as (cid & wa & Ha & H). injection Ha as <- <-. destruct (negb _) eqn:Hcid; [done|]. apply negb_false_iff, Z.eqb_eq in Hcid.
  assert (Hmoved : forall w v w', block_moved b w = (Ok v, w') -> v = false ->
    w' = w <| w_calls ::= S |> /\ exists a, Indexer.get_block (base (env (w_calls w))) (number b) = Some a /\ lower (Indexer.rb_hash a) = b_hash b).
  { intros x v x' Hm Hv. unfold block_moved in Hm. apply bind_Ok in Hm as (o & y & Hy & Hm). injection Hy as <- <-.
    destruct (Indexer.get_block _ _) as [a|]; [|done]. apply ret_Ok in Hm as [Hn ->]. split; [done|]. exists a. split; [done|].
    rewrite Hv in Hn. symmetry in Hn. by apply negb_false_iff, String.eqb_eq in Hn. }
  apply bind_Ok in H as (m1 & wb & Hm1 & H). destruct m1; [done|]. apply Hmoved in Hm1 as [-> Hb1]; [|done].
  apply bind_Ok in H as ([] & wc & ->%modify_Ok & H). apply bind_Ok in H as ([] & w2 & Hall & H).
  apply bind_Ok in H as (m2 & we & Hm2 & H). destruct m2; [done|]. apply Hmoved in Hm2 as [-> Hb2]; [|done].
  apply bind_Ok in H as (wf & wg & [-> ->]%get_Ok & [-> ->]%ret_Ok). cbn in Hr. injection Hr as <-.
  eexists d, c, b, _, w2. split_and!; [done..| |reflexivity|exact Hall|done|done|done].
  intros i [-> | ->]; [exact Hb1|exact Hb2].
Qed.

Lemma body_uncorrected w r w' : reconcile_body w = (Ok r, w') -> uncorrected w w'.
Proof.
  intros H. destruct (rp_block r) as [blk|] eqn:Hr.
  - destruct (body_run _ _ _ _ H Hr) as (d & c & b & w1 & w2 & _ & _ & _ & _ & _ & _ & -> & Hall & -> & _).
    apply compare_all_uncorrected in Hall. apply (uncorrected_recorded _ w2); [|by split].
    eapply recorded_uncorrected_trans; [|exact Hall]. by split.
  - unfold reconcile_body in H. apply bind_Ok in H as (w0 & w00 & [-> ->]%get_Ok & H).
    destruct (Indexer.deployment _) as [d|]; [|apply ret_Ok in H as [_ ->]; by apply uncorrected_refl].
    destruct (Indexer.cursor _) as [c|]; [|apply ret_Ok in H as [_ ->]; by apply uncorrected_refl].
    destruct (_ !! _) as [b|]; [|apply ret_Ok in H as [_ ->]; by apply uncorrected_refl]. exfalso.
    apply bind_Ok in H as (cid & wa & _ & H). destruct (negb _); [done|]. apply bind_Ok in H as (m1 & wb & _ & H). destruct m1; [done|].
    apply bind_Ok in H as (? & wc & _ & H). apply bind_Ok in H as (? & w2 & _ & H). apply bind_Ok in H as (m2 & we & _ & H). destruct m2; [done|].
    apply bind_Ok in H as (wf & wg & _ & [-> _]%ret_Ok). done.
Qed.

(** Reconciliation reports and never corrects: whatever the node answers,
    every projected facility, credit file, receivable, evidence and repayment of
    either tier, the journal, the logs and the cursor are as they were; the one
    row it writes, the vault's, gains only the canonical views it was compared
    with; findings are only added, none twice for one block, subject and pair of
    values; and a call that raises leaves every table alone. *)
Theorem reconciliation_never_corrects w r w' :
  reconcile_views w = (r, w') ->
  uncorrected w w' /\ (forall e, r = Raise e -> w_db w' = w_db w /\ findings w' = findings w).
Proof.
  unfold reconcile_views. destruct (reconcile_body w) as [[rp|e] wb] eqn:H; intros [= <- <-].
  - split; [by eapply body_uncorrected|done].
  - split; [by apply uncorrected_refl|done].
Qed.

(** C16: A clean report is agreement with the chain: when reconciliation answers
    with a block and no discrepancy, that block is the journal's finalized one,
    the node had its hash before the first view was read and after the last, and
    in between it answered views of the deployment's own contracts at that block
    equal, as text, to the read models: the number of facilities, the principal,
    fees, profile and recorded debt of each, the vault's total shares and the
    balance of each liquidity provider; a facility's accrued interest may only
    lag behind the ledger's. *)
Theorem clean_report_agrees w r w' blk :
  reconcile_views w = (Ok r, w') -> rp_block r = Some blk -> rp_found r = 0 ->
  exists d c b lo hi, Indexer.deployment (w_db w) = Some d /\ Indexer.cursor (w_db w) = Some c /\
    Indexer.blocks (w_db w) !! Indexer.finalized_block_number c = Some b /\ number b = blk /\
    (forall i, i = pred lo \/ i = hi -> exists a, Indexer.get_block (base (env i)) blk = Some a /\ lower (Indexer.rb_hash a) = b_hash b) /\
    (is_Some (dget "DebtLedger" (contracts d)) ->
      (exists n, view_between lo hi (contracts d) blk "DebtLedger" "facilityCount" [] n /\
                 str_of repr n = py_str (zlen (select (fun _ => true) (facilities (final_tables w))))) /\
      forall key f, facilities (final_tables w) !! key = Some f -> exists data, agrees lo hi (contracts d) blk f data) /\
    (forall vault, dget "LendingVaultV2" (contracts d) = Some vault ->
      vault_agrees lo hi (contracts d) blk (entities (final_tables w) !! ("VAULT"%string, lower vault))).
Proof.
  unfold reconcile_views. destruct (reconcile_body w) as [[rp|e] wb] eqn:H; [|done]. intros [= -> ->] Hr Hz.
  destruct (body_run _ _ _ _ H Hr) as (d & c & b & w1 & w2 & Hd & Hc & Hb & Hn & _ & Hend & -> & Hall & -> & Hf & _).
  set (lo := S (S (w_calls w))). set (hi := w_calls w2). exists d, c, b, lo, hi.
  split_and!; [done..|intros i [-> | ->]; [apply Hend; by left|apply Hend; by right]| |].
  all: unfold compare_all in Hall; apply bind_Ok in Hall as (u1 & wm & H1 & H2).
  all: assert (G2 : (w_calls wm <= hi)%nat /\ found wm <= found w2)
    by (destruct (dget "LendingVaultV2" (contracts d)) as [vault|]; [exact (quiet_grows _ _ _ _ (quiet_vault lo hi _ _ _ _) _ _ _ H2)|apply ret_Ok in H2 as [_ ->]; split; lia]).
  - intros Hledger. rewrite bool_decide_eq_true_2 in H1 by done. apply bind_Ok in H1 as (wx & wy & [-> ->]%get_Ok & H1).
    destruct (quiet_grows _ _ _ _ (quiet_ledger lo hi _ _ _) _ _ _ H1) as [_ G1]. cbn in G1.
    destruct (quiet_shows _ _ _ _ (quiet_ledger lo hi _ _ _) _ _ _ H1) as [Hcount Hrows]; [cbn; lia|lia|cbn; lia|].
    rewrite Hn in Hcount, Hrows. split; [exact Hcount|]. intros key f Hkey. apply Hrows. apply elem_of_select. split; [done|by exists key].
  - intros vault Hv. rewrite Hv in H2. unfold reconcile_vault in H2. cbv zeta in H2. apply bind_Ok in H2 as (wx & wy & [-> ->]%get_Ok & H2).
    assert (R : recorded (w <| w_calls := lo |> <| checked := 0 |> <| found := 0 |>) wm /\ (lo <= w_calls wm)%nat /\ 0 <= found wm).
    { destruct (bool_decide _); [|apply ret_Ok in H1 as [_ ->]; split; [by split|cbn; lia]]. apply bind_Ok in H1 as (wx & wy & [-> ->]%get_Ok & H1).
      split; [eapply (keeps_run recorded); [apply ledger_recorded|exact H1]|]. exact (quiet_grows _ _ _ _ (quiet_ledger lo hi _ _ _) _ _ _ H1). }
    destruct R as ([D _ _] & R1 & R2). rewrite <- Hn.
    assert (Ht : final_tables wm = final_tables w) by (unfold final_tables; by rewrite D). rewrite <- Ht.
    eapply (quiet_shows _ _ _ _ (quiet_vault lo hi _ _ _ _)); [exact H2|done|done|lia].
Qed.

End Views.

(** * Example: a facility whose interest lags behind the ledger *)

Module VEx.

Definition uint_out (name : string) : json := JObj [("name", JStr name); ("type", JStr "uint256")]%string.
Definition view_abi (name : string) (ins : list string) (out : json) : json :=
  JObj [("type", JStr "function"); ("name", JStr name); ("inputs", JArr (map (fun t => JObj [("name", JStr ""); ("type", JStr t)]) ins));
        ("outputs", JArr [out]); ("stateMutability", JStr "view")]%string.

Definition abi0 (contract : string) : list json := [
  view_abi "facilityCount" [] (uint_out "");
  view_abi "view_" ["bytes32"] (JObj [("name", JStr "v"); ("type", JStr "tuple");
    ("components", JArr (map uint_out ["principal"; "fees"; "executionProfile"; "lastAccrualAt"; "unpaidInterest"]))]);
  view_abi "legalDebtAt" ["bytes32"; "uint64"] (uint_out "")]%string.

(** One byte per argument, and one per word of the answer. *)
Definition encode0 (_ : list string) (l : list arg) : res (list Z) := Ok (map (fun _ => 0) l).
Definition decode0 (types : list string) (raw : list Z) : res (list pyval) :=
  Ok (match types with ["uint256"%string] => map PInt raw | _ => [PList (map PInt raw)] end).

Definition node0 : Node := {|
  base := {| Indexer.chain_id := 5; Indexer.head := 2; Indexer.get_block := fun n => Some {| Indexer.rb_number := n; Indexer.rb_hash := "0xAB"; Indexer.rb_parent := "0x"; Indexer.rb_time := 0 |};
             Indexer.get_logs := fun _ _ _ => []; Indexer.get_receipt := fun _ => None |};
  eth_call := fun _ data _ => Ok (match String.length data with 10%nat => "0x01" | 12%nat => "0x0a02000007" | _ => "0x11" end)%string;
|}.

Definition row0 : ProjectedFacility := {|
  facility_key := "0x0f"; borrower_key := None; execution_profile := "LOCAL_MOCK"; f_state := "ACTIVE"; principal := 10; fees := 2;
  unpaid_interest_recorded := 5; rate_bps := 0; last_accrual_at := None; accrual_frozen := false; last_decision_hash := None;
  authorization_valid_until := None; f_last_block := 1 |}.

Definition world0 : World := {|
  w_db := {| Indexer.deployment := Some {| deployment_id := "D"; d_chain_id := 5; d_profile := "LOCAL_MOCK"; deployment_block := 1; contracts := [("DebtLedger", "0x0d")]; finality_depth := 0 |};
             Indexer.cursor := Some {| Indexer.last_block_number := 2; Indexer.last_block_hash := "0xab"; Indexer.finalized_block_number := 2 |};
             Indexer.blocks := {[ 2 := {| number := 2; b_hash := "0xab"; parent_hash := "0x"; timestamp := 0; b_tier := "FINALIZED" |} ]};
             Indexer.logs := []; Indexer.journal := [];
             Indexer.views := (no_rows <| facilities := {[ "0x0f" := row0 ]} |>, no_rows) |};
  findings := []; w_calls := 0; checked := 0; found := 0 |}%string.

Definition run0 : res Report * World := reconcile_views (fun _ => node0) abi0 encode0 decode0 (fun _ => "") world0.
Definition report0 : Report := {| rp_checked := 6; rp_found := 0; rp_block := Some 2; rp_reason := None |}.

Lemma run0_Ok : run0 = (Ok report0, run0.2).
Proof. apply run_Ok. vm_compute. reflexivity. Qed.

Lemma reconciliation_never_corrects_witness : uncorrected world0 run0.2.
Proof.
  destruct (reconciliation_never_corrects (fun _ => node0) abi0 encode0 decode0 (fun _ => ""%string) world0 (Ok report0) run0.2 run0_Ok) as [H _]. exact H.
Defined.

Lemma clean_report_agrees_witness :
  exists lo hi data, agrees (fun _ => node0) abi0 encode0 decode0 (fun _ => ""%string) lo hi [("DebtLedger", "0x0d")]%string 2 row0 data.
Proof.
  destruct (clean_report_agrees (fun _ => node0) abi0 encode0 decode0 (fun _ => ""%string) world0 report0 run0.2 2 run0_Ok eq_refl eq_refl)
    as (d & c & b & lo & hi & Hd & _ & _ & _ & _ & Hl & _).
  injection Hd as <-. destruct Hl as [_ Hl]; [by eexists|]. destruct (Hl "0x0f"%string row0 eq_refl) as [data Ha]. by exists lo, hi, data.
Defined.

End VEx.

End Views.
