(* ===== verification/Ledger.v ===== *)
(** The event and cash ledgers' database: the tables the receivable service, the
    cash reconciler and the settlement legs share, exact units, aware times and
    the exception cases.

    Sources: offchain/gpu/hashcredit_gpu/db/ledgers.py, db/models.py,
    receivables/service.py (units, aware, exception). *)

From S2P Require Import Prelude Domain Stdpy Columns Lifecycle.
Import Domain Columns Stdpy.

Module Ledger.

(** * Exact units and aware times *)

(** Models [receivables/service.py], [units]; the value is an [int]. *)
Definition units (value : Z) (name : string) (signed : bool) : res Z :=
  if (negb signed && (value <? 0)) || (10 ^ 78 <=? Z.abs value) then
    Raise (Exn ReceivableError (name ++ " must be exact " ++ (if signed then "signed " else "nonnegative ") ++ "integer base units"))
  else Ok value.

(** Models [receivables/service.py], [aware]. *)
Definition aware (value : datetime) (name : string) : res Z :=
  match value with
  | Aware t => Ok t
  | Naive _ => Raise (Exn ReceivableError (name ++ " must be timezone-aware"))
  end.

(** * Rows *)

(** Models [db/models.py], [Provider], lines 55-68. *)
Record Provider := {
  provider_id : string;
  source_env_id : string;
  source_chain_key : Z;
  source_chain_id : Z;
  p_profile : string;
  environment_status : string;
  p_manifest : option string;
  capabilities : list (string * string);
}.

(** Models [db/models.py], [ProviderAccount], lines 135-140. *)
Record ProviderAccount := {
  provider_account_id : string;
  pa_provider : string;
  external_account_id : string;
  pa_borrower : string;
}.

(** Models [db/models.py], [PolicyVersion], lines 304-310. *)
Record PolicyVersion := { policy_version_id : string; test_only : bool }.

(** Models [db/models.py], [ControlAgreement], lines 331-344. *)
Record ControlAgreement := {
  control_agreement_id : string;
  ca_borrower : string;
  ca_account : string;
  control_grade : string;
  ca_version : Z;
  effective_from : option Z;
  effective_to : option Z;
}.

(** Models [db/models.py], [Facility], lines 385-409. *)
Record Facility := {
  facility_id : string;
  f_borrower : string;
  f_vault : string;
  loan_chain_id : Z;
  loan_token_address : option string;
  loan_decimals : Z;
  f_policy : string;
  f_profile : string;
  maturity_at : option Z;
  f_control : option string;
  funded_agreement_version : option Z;
}.

(** Models [db/models.py], [CreditDecision], lines 438-449. *)
Record CreditDecision := { credit_decision_id : string; d_facility : string; d_status : string }.

(** The columns of [native_verifications] and [evidence_consumptions] the code
    reads. *)
Record NativeVerification := { native_verification_id : string; nv_status : string }.

Record EvidenceConsumption := {
  consumption_id : string;
  ev_verification : string;
  meaning : string;
  trust : string;
  verification_method : string;
  ev_profile : string;
  ev_account : string;
  env_id : string;
  chain_key : Z;
  ev_manifest : string;
  proven_at : Z;
  valid_until : Z;
}.

(** Models [db/ledgers.py], [Receivable]. *)
Record Receivable := {
  receivable_id : string;
  economic_event_id : string;
  r_account : string;
  obligation_ref : string;
  asset_chain_id : Z;
  asset_token_address : option string;
  asset_decimals : Z;
  gross : Z;
  net : Z;
  paid_amount : Z;
  unpaid_amount : Z;
  r_state : string;
  revision : Z;
  r_facility : option string;
  checkpoint_seq : option Z;
  checkpoint_consumption_id : option string;
  period_from : option Z;
  period_to : option Z;
  due_at : option Z;
  disputed_reason : option string;
  r_profile : string;
}.

(** The CHECK clauses of [receivables]; amounts are NUMERIC(78,0). *)
Definition receivable_check (r : Receivable) : bool :=
  ULID_CHECK (receivable_id r) && (0 <? asset_chain_id r) && (0 <=? asset_decimals r) && (asset_decimals r <=? 36) &&
  null_or ADDR_CHECK (asset_token_address r) && (0 <=? paid_amount r) && (paid_amount r <=? net r) && (net r <=? gross r) &&
  (gross r <? 10 ^ 78) && (unpaid_amount r =? net r - paid_amount r) && in_values Domain.ReceivableState (r_state r) &&
  (1 <=? revision r) && (revision r <? 2 ^ 31) &&
  (negb (String.eqb (r_state r) "ASSIGNED") || (if r_facility r is Some _ then true else false)) &&
  (negb (String.eqb (r_state r) "PAID") || (unpaid_amount r =? 0)) &&
  (negb (String.eqb (r_state r) "DISPUTED") || (if disputed_reason r is Some _ then true else false)) &&
  in_values Domain.ExecutionProfile (r_profile r) && fits 300 (economic_event_id r) && fits 128 (obligation_ref r).

(** Models [db/ledgers.py], [REVISION_KINDS]. *)
Definition REVISION_KINDS : list string :=
  ["RECOGNIZED"; "CORRECTION"; "ASSIGNMENT"; "PAYOUT"; "CANCELLATION"; "DISPUTE"; "CHECKPOINT"].

(** Models [db/ledgers.py], [ReceivableRevision]. *)
Record ReceivableRevision := {
  v_receivable : string;
  v_revision : Z;
  v_kind : string;
  v_observation : string;
  delta : Z;
  net_after : Z;
  unpaid_after : Z;
  out_of_order : bool;
}.

Definition revision_check (v : ReceivableRevision) : bool :=
  mem_str (v_kind v) REVISION_KINDS && (1 <=? v_revision v) && (v_revision v <? 2 ^ 31) && (0 <=? net_after v) && (0 <=? unpaid_after v).

(** Models [db/ledgers.py], [Settlement]. *)
Record Settlement := {
  settlement_id : string;
  s_account : string;
  s_state : string;
  s_chain_id : Z;
  s_token : option string;
  s_decimals : Z;
  source_amount : Z;
  payout_consumption_id : option string;
  s_profile : string;
}.

(** Models [db/ledgers.py], [CASH_SOURCE_KINDS]. *)
Definition CASH_SOURCE_KINDS : list string := ["SETTLEMENT"; "DIRECT_REPAYMENT"; "RECOVERY"; "UNKNOWN"].

(** Models [db/ledgers.py], [CashReceipt]. *)
Record CashReceipt := {
  cash_receipt_id : string;
  c_vault : string;
  c_chain_id : Z;
  c_token : option string;
  c_decimals : Z;
  c_amount : Z;
  c_tx_hash : string;
  c_log_index : Z;
  payer_address : option string;
  c_source_kind : string;
  c_settlement : option string;
  cash_state : string;
  c_profile : string;
  c_received_at : Z;
}.

Definition receipt_check (c : CashReceipt) : bool :=
  ULID_CHECK (cash_receipt_id c) && (0 <? c_chain_id c) && (0 <=? c_decimals c) && (c_decimals c <=? 36) && (0 <? c_amount c) &&
  (c_amount c <? 10 ^ 78) && (0 <=? c_log_index c) && (c_log_index c <? 2 ^ 31) && null_or ADDR_CHECK (c_token c) &&
  HEX32_CHECK (c_tx_hash c) && null_or ADDR_CHECK (payer_address c) && mem_str (c_source_kind c) CASH_SOURCE_KINDS &&
  mem_str (cash_state c) ["DESTINATION_RECEIVED"; "ALLOCATED"; "RETURNED"] &&
  (negb (String.eqb (c_source_kind c) "SETTLEMENT") || (if c_settlement c is Some _ then true else false)) &&
  in_values Domain.ExecutionProfile (c_profile c) && fits 64 (c_vault c).

(** Models [db/ledgers.py], [Allocation]. *)
Record Allocation := {
  allocation_id : string;
  al_receipt : string;
  al_facility : string;
  received : Z;
  fee_paid : Z;
  interest_paid : Z;
  principal_paid : Z;
  excess : Z;
  new_debt : Z;
  onchain_tx_hash : string;
}.

Definition allocation_check (a : Allocation) : bool :=
  ULID_CHECK (allocation_id a) && (0 <? received a) && (0 <=? fee_paid a) && (0 <=? interest_paid a) && (0 <=? principal_paid a) &&
  (0 <=? excess a) && (0 <=? new_debt a) && (fee_paid a + interest_paid a + principal_paid a + excess a =? received a) &&
  HEX32_CHECK (onchain_tx_hash a).

(** Models [db/ledgers.py], [ExceptionCase]. *)
Record ExceptionCase := {
  x_kind : string;
  severity : string;
  entity_table : string;
  entity_id : string;
  x_detail : list (string * json);
  x_open : bool; (* resolved_at IS NULL *)
}.

(** * The database *)

Record DB := {
  providers : gmap string Provider;
  accounts : gmap string ProviderAccount;
  observations : gmap string string;      (* provider of a raw observation *)
  policies : gmap string PolicyVersion;
  controls : gmap string ControlAgreement;
  facilities : gmap string Facility;
  decisions : gmap string CreditDecision;
  verifications : gmap string NativeVerification;
  evidence : gmap string EvidenceConsumption;
  receivables : gmap string Receivable;
  revisions : list ReceivableRevision;     (* in the order of insertion *)
  settlements : gmap string Settlement;
  receipts : gmap string CashReceipt;
  allocations : gmap string Allocation;
  cases : list ExceptionCase;
  outbox : Outbox.DB;
}.

#[local] Abbreviation M := (PyM DB).

Definition violated {A} (name : string) : M A := raise DatabaseError name.

(** A statement on the outbox table. *)
Definition on_outbox {A} (m : PyM Outbox.DB A) : M A :=
  fun s => match m (outbox s) with (r, o) => (r, s <| outbox := o |>) end.

(** Takes a run that returned apart into the runs of its statements. *)
Ltac run_inv H :=
  cbv zeta in H;
  lazymatch type of H with
  | bind _ _ _ = (Ok _, _) =>
      let a := fresh "a" in let t := fresh "s" in let H1 := fresh "Hr" in
      apply bind_Ok in H; destruct H as (a & t & H1 & H); run_inv H1; run_inv H
  | get _ = (Ok _, _) => apply get_Ok in H; destruct H as [-> ->]
  | modify _ _ = (Ok _, _) => apply modify_Ok in H; try rewrite H in *; clear H
  | ret _ _ = (Ok _, _) => apply ret_Ok in H; destruct H as [-> ->]
  | lift_res ?r _ = (Ok _, _) => unfold lift_res in H; destruct r eqn:?; [injection H as <- <-|discriminate H]
  | raise _ _ _ = (Ok _, _) => discriminate H
  | (if ?b then _ else _) _ = (Ok _, _) => let E := fresh "Hb" in destruct b eqn:E; run_inv H
  | (match ?o with Some _ => _ | None => _ end) _ = (Ok _, _) => let E := fresh "Ho" in destruct o eqn:E; run_inv H
  | (match ?p with pair _ _ => _ end) _ = (Ok _, _) => let E := fresh "Hp" in destruct p eqn:E; run_inv H
  | _ => idtac
  end.

Definition emit (agg_type agg_id ev_type key : string) (payload : json) : M (option Z) :=
  on_outbox (Outbox.emit agg_type agg_id ev_type payload key).

Definition same_case (code table id : string) (x : ExceptionCase) : bool :=
  x_open x && String.eqb (x_kind x) code && String.eqb (entity_table x) table && String.eqb (entity_id x) id.

(** Models [receivables/service.py], [exception]; [uuid4] is taken as fresh. *)
Definition exception (code table id : string) (detail : list (string * json)) : M unit :=
  let* s := get in
  if existsb (same_case code table id) (cases s) then ret tt
  else if negb (fits 64 code && fits 64 table && fits 300 id) then violated "exceptions"
  else modify (fun s => s <| cases ::= fun l => l ++ [{| x_kind := code; severity := "BLOCKING"; entity_table := table;
                                                         entity_id := id; x_detail := detail; x_open := true |}] |>).

(** An open blocking case about a row. *)
Definition blocked (table id : string) (s : DB) : bool :=
  existsb (fun x => x_open x && String.eqb (severity x) "BLOCKING" && String.eqb (entity_table x) table && String.eqb (entity_id x) id) (cases s).

(** ** What the shared statements leave alone *)

(** Everything but the cases and the outbox. *)
Definition same_rows (s s' : DB) : Prop := exists c o, s' = s <| cases := c |> <| outbox := o |>.

Lemma same_rows_refl s : same_rows s s.
Proof. exists (cases s), (outbox s). by destruct s. Qed.

Lemma same_rows_trans s t u : same_rows s t -> same_rows t u -> same_rows s u.
Proof. intros (c & o & ->) (c' & o' & ->). by exists c', o'. Qed.

Lemma exception_same code table id det s r s' :
  exception code table id det s = (r, s') -> same_rows s s' /\ outbox s' = outbox s /\ exists l, cases s' = cases s ++ l.
Proof.
  unfold exception, bind, get. destruct (existsb _ _).
  - intros [= <- <-]. split_and!; [apply same_rows_refl|done|]. exists []. by rewrite app_nil_r.
  - destruct (negb _).
    + intros [= <- <-]. split_and!; [apply same_rows_refl|done|]. exists []. by rewrite app_nil_r.
    + intros [= <- <-]. split_and!; [by eexists (cases s ++ [_]), (outbox s)|done|by eexists].
Qed.

Lemma emit_same a i t k p s r s' :
  emit a i t k p s = (r, s') -> same_rows s s' /\ cases s' = cases s /\ exists r', Outbox.emit a i t p k (outbox s) = (r', outbox s').
Proof.
  unfold emit, on_outbox. destruct (Outbox.emit a i t p k (outbox s)) as [x o]. intros [= <- <-].
  split_and!; [by exists (cases s), o|done|by exists x].
Qed.

(** A key is emitted at most once, and a repeated emission changes no row. *)
Lemma emit_total a i t k p s : k <> ""%string -> exists r s', emit a i t k p s = (Ok r, s').
Proof.
  intros Hk. unfold emit, on_outbox, Outbox.emit. apply String.eqb_neq in Hk. rewrite Hk.
  unfold bind, get, modify, ret. destruct (Outbox.key_taken k (outbox s)); by eexists _, _.
Qed.

End Ledger.
