(* ===== verification/Providers.v ===== *)
(** Provider adapters: the observations they return, the guards they share, and
    the admission gates.

    Sources: offchain/gpu/hashcredit_gpu/providers/types.py, base.py and
    errors.py.  An instant is UTC; the four fields every observation fixes
    ([provenance], [trust], [verification_method], [native_status]) are
    constants, so no observation of the model can claim more. *)

From S2P Require Import Prelude Domain.
Import Domain.

Module Providers.

(** * Capabilities *)

(** Models [providers/types.py], [Support]. *)
Inductive Support := SUPPORTED | UNSUPPORTED | UNKNOWN.

#[export] Instance Support_eq_dec : EqDecision Support.
Proof. solve_decision. Defined.

#[export] Program Instance Support_enum : StrEnum Support := {|
  value x := match x with SUPPORTED => "SUPPORTED" | UNSUPPORTED => "UNSUPPORTED" | UNKNOWN => "UNKNOWN" end%string;
  members := [SUPPORTED; UNSUPPORTED; UNKNOWN];
|}.
Next Obligation. intros []; cbn; tauto. Qed.
Next Obligation. by intros [] []. Qed.

(** Models [providers/types.py], [Support.usable]. *)
Definition usable (s : Support) : bool := bool_decide (s = SUPPORTED).

(** Models [providers/types.py], [Capabilities], lines 42-53. *)
Record Capabilities := {
  list_assets : Support;
  fetch_revenue : Support;
  fetch_settlements : Support;
  get_control_state : Support;
  claim_revenue : Support;
  request_control_change : Support;
  source_support : Support;
}.

(** [getattr(capabilities, op)] *)
Definition capability (c : Capabilities) (op : string) : res Support :=
  if String.eqb op "list_assets" then Ok (list_assets c)
  else if String.eqb op "fetch_revenue" then Ok (fetch_revenue c)
  else if String.eqb op "fetch_settlements" then Ok (fetch_settlements c)
  else if String.eqb op "get_control_state" then Ok (get_control_state c)
  else if String.eqb op "claim_revenue" then Ok (claim_revenue c)
  else if String.eqb op "request_control_change" then Ok (request_control_change c)
  else if String.eqb op "source_support" then Ok (source_support c)
  else Raise (Exn AttributeError op).

(** Models [providers/types.py], [Capabilities.require]. *)
Definition require (c : Capabilities) (op : string) : res unit :=
  rbind (capability c op) (fun s => if usable s then Ok tt else Raise (Exn UnsupportedOperation op)).

(** * Pages, windows and accounts *)

(** Models [providers/types.py], [Cursor]. *)
Record Cursor := { token : option string; has_more : bool }.

#[export] Instance Cursor_eq_dec : EqDecision Cursor.
Proof. solve_decision. Defined.

(** Models [providers/types.py], [Page]. *)
Record Page (A : Type) := { items : list A; next : Cursor }.
Arguments items {A} _.
Arguments next {A} _.

(** Models [providers/types.py], [Window], lines 75-80. *)
Record Window := { start : Z; end_ : Z; max_age_seconds : Z; w_as_of : option Z }.

(** Models [providers/types.py], [Window._ordered]; the field's own bound is
    checked first. *)
Definition make_window (s e age : Z) (at_ : option Z) : res Window :=
  if age <? 0 then Raise (Exn ValidationError "max_age_seconds")
  else if e <? s then Raise (Exn ValidationError "window end before start")
  else Ok {| start := s; end_ := e; max_age_seconds := age; w_as_of := at_ |}.

(** Models [providers/types.py], [AccountRef], lines 89-91. *)
Record AccountRef := { a_slug : string; external_account_id : string }.

#[export] Instance AccountRef_eq_dec : EqDecision AccountRef.
Proof. solve_decision. Defined.

(** Models [providers/types.py], [AccountRef.account_key]. *)
Definition account_key (a : AccountRef) : string := (a_slug a ++ ":" ++ external_account_id a)%string.

(** * Observations *)

(** Models [providers/types.py], [_AssertedObservation], lines 98-109. *)
Record Asserted := { provider_slug : string; observed_at : Z; as_of : Z; account : AccountRef }.

#[export] Instance Asserted_eq_dec : EqDecision Asserted.
Proof. solve_decision. Defined.

Definition PROVENANCE : string := "PROVIDER_API".
Definition TRUST : string := "ASSERTED".
Definition METHOD : string := "OFFCHAIN_ASSERTION".
Definition NATIVE_STATUS : string := "NOT_REQUIRED".

(** Models [providers/types.py], [_AssertedObservation._tz]. *)
Definition tz (v : datetime) : res Z :=
  match v with Aware t => Ok t | Naive _ => Raise (Exn ValueError "timestamps must be timezone-aware") end.

#[export] Instance Money_eq_dec : EqDecision Money.
Proof. solve_decision. Defined.

(** Models [providers/types.py], [RevenueObservation], lines 127-137. *)
Record RevenueObservation := {
  r_base : Asserted;
  provider_event_ref : string;
  r_revision : Z;
  period_start : Z;
  period_end : Z;
  gross : Money;
  deductions : Money;
  net : Money;
  earnings_provenance : EarningsProvenance;
  r_settlement_ref : option string;
}.

#[export] Instance RevenueObservation_eq_dec : EqDecision RevenueObservation.
Proof. solve_decision. Defined.

(** Models [providers/types.py], [SettlementObservation]. *)
Record SettlementObservation := {
  s_base : Asserted;
  settlement_ref : string;
  s_revision : Z;
  s_amount : Money;
  payer : option string;
  payee : option string;
  paid_at : option Z;
  s_status : string;
  tx_ref : option string;
}.

#[export] Instance SettlementObservation_eq_dec : EqDecision SettlementObservation.
Proof. solve_decision. Defined.

(** Models [providers/types.py], [RevenueObservation._consistent]. *)
Definition consistent (r : RevenueObservation) : res unit :=
  if negb (bool_decide (asset_key (asset (gross r)) = asset_key (asset (net r)))) ||
     negb (bool_decide (asset_key (asset (gross r)) = asset_key (asset (deductions r)))) then
    Raise (Exn ValueError "gross/deductions/net must share one asset")
  else
    rbind (units (gross r)) (fun g => rbind (units (deductions r)) (fun d => rbind (units (net r)) (fun n =>
    if negb (g - d =? n) then Raise (Exn ValueError "net must equal gross - deductions")
    else if (n <? 0) || (d <? 0) then Raise (Exn ValueError "negative revenue components")
    else Ok tt))).

(** The fields' own constraints. *)
Definition revenue_fields (r : RevenueObservation) : bool :=
  1 <=? r_revision r.

Definition settlement_fields (s : SettlementObservation) : bool :=
  (1 <=? s_revision s) && mem_str (s_status s) ["ANNOUNCED"; "PAID"; "REVERSED"].

(** The constructors: [pydantic] turns a [ValueError] of a validator into its
    own [ValidationError]. *)
Definition make_revenue (r : RevenueObservation) : res RevenueObservation :=
  if negb (revenue_fields r) then Raise (Exn ValidationError "RevenueObservation")
  else match consistent r with Ok _ => Ok r | Raise e => Raise (Exn ValidationError "RevenueObservation") end.

Definition make_settlement (s : SettlementObservation) : res SettlementObservation :=
  if settlement_fields s then Ok s else Raise (Exn ValidationError "SettlementObservation").

(** What an adapter's page or a webhook carries. *)
Inductive Observation := Revenue (r : RevenueObservation) | Settle (s : SettlementObservation).

#[export] Instance Observation_eq_dec : EqDecision Observation.
Proof. solve_decision. Defined.

Definition base (o : Observation) : Asserted := match o with Revenue r => r_base r | Settle s => s_base s end.

(** Models [providers/types.py], [AssetListing]. *)
Record AssetListing := {
  l_base : Asserted;
  external_asset_id : string;
  l_kind : AssetKind;
  parent_external_id : option string;
  attributes : list (string * string);
}.

(** Models [providers/types.py], [ControlStateObservation]. *)
Record ControlStateObservation := {
  k_base : Asserted;
  receiver : option string;
  receiver_chain_id : option Z;
  borrower_can_change_receiver : option bool;
  observed_grade : ControlGrade;
}.

(** * Write actions *)

(** Models [providers/types.py], [ClaimRequest]. *)
Record ClaimRequest := { cq_account : AccountRef; cq_amount : option Money; cq_key : string }.

(** Models [providers/types.py], [ClaimResult]; its [cash_state] is NONE. *)
Record ClaimResult := { cr_base : Asserted; cr_key : string; cr_accepted : bool; cr_ref : option string }.

(** Models [providers/types.py], [ControlChangeRequest]. *)
Record ControlChangeRequest := { ch_account : AccountRef; new_receiver : string; new_receiver_chain_id : Z; ch_key : string }.

(** Models [providers/types.py], [ControlChangeResult]; its
    [control_grade_effect] is NONE. *)
Record ControlChangeResult := { cc_base : Asserted; cc_key : string; cc_accepted : bool; cc_ref : option string }.

(** * The adapter contract *)

(** Models [providers/types.py], [AdapterIdentity]. *)
Record AdapterIdentity := {
  i_slug : string;
  execution_profile : ExecutionProfile;
  is_mock : bool;
  partner_revenue : string;
  source_chain_ids : list Z;
  supported_assets : list AssetRef;
}.

(** Models [providers/base.py], [ProviderAdapter._require]. *)
Definition require_op (i : AdapterIdentity) (c : Capabilities) (op : string) : res unit :=
  rbind (capability c op) (fun s => if usable s then Ok tt else Raise (Exn UnsupportedOperation (i_slug i ++ "." ++ op))).

(** Models [providers/base.py], [ProviderAdapter._require_account]. *)
Definition require_account (i : AdapterIdentity) (a : AccountRef) : res unit :=
  if String.eqb (a_slug a) (i_slug i) then Ok tt else Raise (Exn UnsupportedOperation "account namespace").

(** Models [providers/base.py], [ProviderAdapter._require_chain]. *)
Definition require_chain (i : AdapterIdentity) (chain : Z) : res unit :=
  if bool_decide (chain ∈ source_chain_ids i) then Ok tt else Raise (Exn UnsupportedChainError "chain not declared for this adapter").

(** Models [providers/base.py], [check_freshness]; [clock] is [datetime.now].
    [total_seconds] is exact on whole microseconds. *)
Definition check_freshness (as_of : Z) (w : Window) (clock : Z) : res unit :=
  let now := default clock (w_as_of w) in
  if max_age_seconds w * 1000000 <? now - as_of then Raise (Exn ExpiredData "observation is older than the bound") else Ok tt.

(** Models [providers/base.py], [is_mock_slug]. *)
Definition is_mock_slug (slug : string) : bool :=
  existsb (fun p => String.eqb slug p || String.prefix p slug) ["mock-"; "mockdepin-testonly"].

(** The reasons [assert_production_admissible] collects. *)
Definition admission_reasons (i : AdapterIdentity) (c : Capabilities) : list string :=
  (if is_mock i || is_mock_slug (i_slug i) then ["mock adapter"] else []) ++
  (if bool_decide (execution_profile i = EP_PRODUCTION) then [] else [("execution profile " ++ value (execution_profile i))%string]) ++
  (if String.eqb (partner_revenue i) "REAL" then [] else [("partner revenue " ++ partner_revenue i)%string]) ++
  (if usable (source_support c) then [] else ["official source support"]).

(** Models [providers/base.py], [assert_production_admissible]. *)
Definition assert_production_admissible (i : AdapterIdentity) (c : Capabilities) : res unit :=
  match admission_reasons i c with
  | [] => Ok tt
  | l => Raise (Exn NotProductionAdmissible (i_slug i ++ ": " ++ String.concat "; " l))
  end.

(** Models [providers/base.py], [assert_native_capable]. *)
Definition assert_native_capable (i : AdapterIdentity) : res unit := Raise (Exn NotNativeCapable (i_slug i)).

End Providers.
