(* ===== verification/Ingestion.v ===== *)
(** Provider ingestion: the persistent cursors of a stream, the transactional
    collector, proof candidates, source-proof requests and backfills.

    Sources: offchain/gpu/hashcredit_gpu/ingestion/cursors.py, collector.py,
    proof_candidates.py, requests.py and backfill.py, on top of the outbox and
    the job queue, with the constraints of db/ledgers.py.

    Outside the program, and given by the tick of the call ([env]): the
    provider's adapter, the clock and the random part of an id.  [model_dump]
    (pydantic's JSON form of an observation) is a parameter.  The text column
    [position] is modelled as the document that [json.dumps] writes and
    [json.loads] reads back. *)

From S2P Require Import Prelude Domain Stdpy Datetime Json JobQueue Lifecycle Columns Ledger Providers.
Import Domain Stdpy Datetime Json Columns Providers.

Module Ingestion.

(** * Tables *)

(** Models [db/ledgers.py], [IngestCursor]. *)
Record CursorRow := { position : json; backfill_from : option string }.

(** Models [db/ledgers.py], [RawSourceObservation], lines 69-79. *)
Record RawObservation := {
  observation_id : string;
  o_provider : string;
  origin : string;
  schema_id : string;
  schema_revision : Z;
  o_hash : string;
  payload_ref : option string;
  o_trust : string;
  o_observed_at : Z;
}.

(** [^(secret|vault|doc|blob|s3)://] *)
(** Models [db/ledgers.py], [REF_CHECK]. *)
Definition LEDGER_REF_CHECK (s : string) : bool :=
  existsb (fun p => String.prefix p s) ["secret://"; "vault://"; "doc://"; "blob://"; "s3://"].

(** Models [db/ledgers.py], [OBSERVATION_ORIGINS]. *)
Definition OBSERVATION_ORIGINS : list string := ["CHAIN"; "API"; "WEBHOOK"; "MANUAL"].

(** Models [db/ledgers.py], [RawSourceObservation], lines 80-89. *)
Definition raw_check (r : RawObservation) : bool :=
  ULID_CHECK (observation_id r) && mem_str (origin r) OBSERVATION_ORIGINS && HEX32_CHECK (o_hash r) && null_or LEDGER_REF_CHECK (payload_ref r) &&
  in_values Domain.Trust (o_trust r) && (1 <=? schema_revision r) && (schema_revision r <? 2 ^ 31) && fits 64 (schema_id r).

(** Models [db/ledgers.py], [MANIFEST_CHECK]. *)
Definition MANIFEST_CHECK (s : string) : bool :=
  String.prefix "sha256:" s && (String.length s =? 71)%nat && string_forallb lower_hex (substring 7 64 s).

(** Models [db/ledgers.py], [ProofRequest], lines 99-110. *)
Record ProofRequest := {
  proof_request_id : string;
  env_id : string;
  chain_key : Z;
  tx_hash : string;
  p_provider : string;
  p_profile : string;
  p_manifest : string;
  sdk_version : string;
  encoding_version : Z;
  abi_sha256s : json;
  decoder_ref : option string;
  status : string;
}.

(** Models [db/ledgers.py], [ProofRequest], lines 119-130. *)
Definition request_check (r : ProofRequest) : bool :=
  ULID_CHECK (proof_request_id r) && HEX32_CHECK (tx_hash r) && (0 <? chain_key r) && (chain_key r <? 2 ^ 31) &&
  in_values Domain.ExecutionProfile (p_profile r) && MANIFEST_CHECK (p_manifest r) && (encoding_version r =? 1) &&
  in_values Domain.NativeStatus (status r) && negb (String.eqb (status r) "NOT_REQUIRED") && fits 64 (env_id r) && fits 32 (sdk_version r).

(** Models [db/ledgers.py], [ExceptionCase], lines 614-620. *)
Record GapCase := { exception_id : string; g_entity : string; g_detail : json }.

Record Tables := {
  providers : gmap string Ledger.Provider;
  accounts : gmap string Ledger.ProviderAccount;
  cursors : gmap (string * string) CursorRow;
  raws : list RawObservation;       (* in the order of insertion *)
  requests : list ProofRequest;     (* likewise *)
  outbox : Outbox.DB;
  queue : Jobs.DB unit;
  gaps : list GapCase;              (* the open [SOURCE_RETENTION_GAP] cases *)
}.

(** The database, the raw store (which no rollback reaches) and the number of
    calls made to the outside. *)
Record World := { db : Tables; blobs : gmap string string; ticks : nat }.

#[local] Abbreviation M := (PyM World).

(** A transaction: [with engine.begin()]. *)
Definition begin {A} (m : M A) : M A :=
  fun w => match m w with
           | (Ok a, w') => (Ok a, w')
           | (Raise e, w') => (Raise e, w' <| db := db w |>)
           end.

Definition tables : M Tables := gets db.
Definition update (f : Tables -> Tables) : M unit := modify (fun w => w <| db ::= f |>).

Definition on_outbox {A} (m : PyM Outbox.DB A) : M A :=
  fun w => match m (outbox (db w)) with (r, o) => (r, w <| db ::= fun t => t <| outbox := o |> |>) end.

Definition on_queue {A} (m : PyM (Jobs.DB unit) A) : M A :=
  fun w => match m (queue (db w)) with (r, q) => (r, w <| db ::= fun t => t <| queue := q |> |>) end.

Definition violated {A} (name : string) : M A := raise DatabaseError name.

(** * Cursors *)

(** Models [ingestion/cursors.py], [CursorState], lines 38-48. *)
Record CursorState := {
  c_provider : string;
  c_stream : string;
  high_water : option Z;
  page_token : option string;
  window_end : option Z;
  overlap_seconds : Z;
  c_backfill : option string;
}.

#[export] Instance CursorState_eq_dec : EqDecision CursorState.
Proof. solve_decision. Defined.

Definition jopt (x : option string) : json := match x with Some s => JStr s | None => JNull end.

(** A [datetime] exists for the years 1 to 9999 only. *)
(** Models [ingestion/cursors.py], [_iso]. *)
Definition iso (t : option Z) : res json :=
  match t with
  | None => Ok JNull
  | Some t => if representable t then Ok (JStr (isoformat t)) else Raise (Exn OverflowError "date value out of range")
  end.

(** Models [ingestion/cursors.py], [_parse]. *)
Definition parse (v : option json) : res (option Z) :=
  match v with
  | None | Some JNull => Ok None
  | Some (JStr s) =>
      if String.eqb s "" then Ok None
      else rbind (fromisoformat s) (fun d => match d with Aware t | Naive t => Ok (Some t) end)
  | Some _ => Raise (Exn TypeError "fromisoformat: argument must be str")
  end.

(** Models [ingestion/cursors.py], [CursorState.to_position]. *)
Definition to_position (st : CursorState) : res json :=
  rbind (iso (high_water st)) (fun h => rbind (iso (window_end st)) (fun e =>
  Ok (JObj [("high_water", h); ("page_token", jopt (page_token st)); ("window_end", e); ("overlap_seconds", JInt (overlap_seconds st))]%string))).

(** Models [ingestion/cursors.py], [CursorState.from_row]. *)
Definition from_row (provider stream : string) (r : CursorRow) : res CursorState :=
  let d := position r in
  rbind (parse (get_field "high_water" d)) (fun h => rbind (parse (get_field "window_end" d)) (fun e =>
  rbind (match get_field "page_token" d with
         | None | Some JNull => Ok None
         | Some (JStr s) => Ok (Some s)
         | Some _ => Raise (Exn TypeError "page_token") end) (fun t =>
  rbind (int_of "overlap_seconds" (default (JInt 0) (get_field "overlap_seconds" d))) (fun o =>
  Ok {| c_provider := provider; c_stream := stream; high_water := h; page_token := t; window_end := e; overlap_seconds := o;
        c_backfill := backfill_from r |})))).

(** Models [ingestion/cursors.py], [CursorStore.load]. *)
Definition load (provider stream : string) : M (option CursorState) :=
  let* t := tables in
  match cursors t !! (provider, stream) with
  | None => ret None
  | Some r => let* st := lift_res (from_row provider stream r) in ret (Some st)
  end.

(** Models [ingestion/cursors.py], [CursorStore.open]. *)
Definition open (provider stream : string) (initial_start : option datetime) (overlap : Z) : M CursorState :=
  let* st := load provider stream in
  match st with
  | Some st => ret st
  | None =>
      match initial_start with
      | None => raise MissingCursorError (provider ++ "/" ++ stream ++ ": no cursor and no initial_start")
      | Some (Naive _) => raise ValueError "initial_start must include a timezone"
      | Some (Aware t0) =>
          let* pos := lift_res (to_position {| c_provider := provider; c_stream := stream; high_water := Some t0; page_token := None;
                                               window_end := None; overlap_seconds := overlap; c_backfill := None |}) in
          let* t := tables in
          (if bool_decide (is_Some (cursors t !! (provider, stream))) then ret tt
           else if negb (bool_decide (is_Some (providers t !! provider))) then violated "ingest_cursors_provider_id_fkey"
           else if negb (fits 64 stream) then violated "value too long for type character varying(64)"
           else update (fun t => t <| cursors ::= <[(provider, stream) := {| position := pos; backfill_from := None |}]> |>)) ;;;
          let* st2 := load provider stream in
          match st2 with Some st2 => ret st2 | None => raise AssertionError "cursor" end
      end
  end.

(** Models [ingestion/cursors.py], [CursorStore.save]. *)
Definition save (st : CursorState) : M unit :=
  let* pos := lift_res (to_position st) in
  update (fun t => t <| cursors ::= alter (fun _ => {| position := pos; backfill_from := c_backfill st |}) (c_provider st, c_stream st) |>).

(** Models [ingestion/cursors.py], [CursorStore.with_page]. *)
Definition with_page (st : CursorState) (tok : option string) (e : Z) : CursorState := st <| page_token := tok |> <| window_end := Some e |>.

(** Models [ingestion/cursors.py], [CursorStore.advanced]. *)
Definition advanced (st : CursorState) (e : Z) : CursorState := st <| high_water := Some e |> <| page_token := None |> <| window_end := None |>.

(** * Raw stores *)

(** Models [ingestion/collector.py], [payload_hash_of]. *)
Definition payload_hash_of (body : string) : string := sha256_hex body.

(** [payload_hash[2:]] *)
Definition blob_ref (h : string) : string := ("blob://raw/" ++ substring 2 (String.length h) h)%string.

(** Models [ingestion/collector.py], [MemoryRawStore.put]. *)
Definition memory_put (h body : string) : PyM (gmap string string) string :=
  modify (fun m => match m !! h with Some _ => m | None => <[h := body]> m end) ;;; ret (blob_ref h).

(** The volume maps the name of a file, the hash without [0x], to its bytes;
    linking a file that exists fails. *)
(** Models [ingestion/collector.py], [FileRawStore.put]. *)
Definition file_put (h body : string) : PyM (gmap string string) string :=
  if negb (String.eqb h (payload_hash_of body)) then raise ValueError "raw content does not match hash"
  else
    let* m := get in
    match m !! h with
    | None => modify (<[h := body]>) ;;; ret (blob_ref h)
    | Some found => if negb (String.eqb found body) then raise ValueError "raw artifact integrity mismatch" else ret (blob_ref h)
    end.

(** What the collector needs of a store ([RawStore]): a stored body stays, and
    a reference is handed out only for a body that is there. *)
Class RawStore (put : string -> string -> PyM (gmap string string) string) : Prop := {
  put_keeps h b m k v : m !! k = Some v -> (put h b m).2 !! k = Some v;
  put_stores h b m r : (put h b m).1 = Ok r -> r = blob_ref h /\ is_Some ((put h b m).2 !! h);
}.

#[export] Instance memory_store : RawStore memory_put.
Proof.
  split.
  - intros h b m k v Hk. unfold memory_put, bind, modify, ret. cbn. destruct (m !! h) eqn:Hh; [done|].
    rewrite lookup_insert_ne; [done|congruence].
  - intros h b m r. unfold memory_put, bind, modify, ret. cbn. intros [= <-]. split; [done|].
    destruct (m !! h) eqn:Hh; [by rewrite Hh|by rewrite lookup_insert_eq].
Qed.

#[export] Instance file_store : RawStore file_put.
Proof.
  split.
  - intros h b m k v Hk. unfold file_put. destruct (negb _); [done|]. unfold bind, get, modify, ret, raise.
    destruct (m !! h) eqn:Hh; [by destruct (negb _)|]. cbn. rewrite lookup_insert_ne; [done|congruence].
  - intros h b m r. unfold file_put. destruct (negb _); [done|]. unfold bind, get, modify, ret, raise.
    destruct (m !! h) eqn:Hh; [destruct (negb _); [done|]|]; cbn; intros [= <-]; (split; [done|]); [by rewrite Hh|by rewrite lookup_insert_eq].
Qed.

(** * The outside *)

Record Env := {
  fetch : string -> AccountRef -> Window -> option Cursor -> res (Page Observation);
  clock : Z;
  ulid : string;
}.

(** Models [ingestion/proof_candidates.py], [ProofEnv]. *)
Record ProofEnv := {
  e_env : string;
  e_chain_key : Z;
  source_chain_id : Z;
  e_manifest : string;
  e_sdk : string;
  e_profile : string;
}.

(** Models [ingestion/collector.py], [IngestionConfig]. *)
Record IngestionConfig := {
  provider_id : string;
  proof_env : ProofEnv;
  cfg_overlap : Z;
  max_window_seconds : Z;
  cfg_max_age : Z;
  cfg_schema : string;
  cfg_revision : Z;
}.

Section Collector.
Context (env : nat -> Env) (model_dump : Observation -> json) (put : string -> string -> PyM (gmap string string) string) (cfg : IngestionConfig).

Definition ext {A} (f : Env -> A) : M A :=
  let* w := get in modify (fun w => w <| ticks ::= S |>) ;;; ret (f (env (ticks w))).

Definition on_blobs {A} (m : PyM (gmap string string) A) : M A :=
  fun w => match m (blobs w) with (r, b) => (r, w <| blobs := b |>) end.

(** * Proof candidates *)

(** Models [ingestion/proof_candidates.py], [ProofCandidate]. *)
Record ProofCandidate := {
  pc_provider : string;
  pc_env : string;
  pc_chain_key : Z;
  pc_tx : string;
  pc_settlement : string;
  pc_account : string;
}.

(** Models [ingestion/proof_candidates.py], [_TX_RE]. *)
Definition TX_RE : string -> bool := match_dollar HEX32_CHECK.

(** Models [ingestion/proof_candidates.py], [candidate_from_settlement]. *)
Definition candidate_from_settlement (s : SettlementObservation) (e : ProofEnv) (provider : string) : option ProofCandidate :=
  if negb (String.eqb (s_status s) "PAID") || negb (truthy (tx_ref s)) then None
  else
    let tx := lower (default ""%string (tx_ref s)) in
    if negb (TX_RE tx) then None
    else if negb (Domain.chain_id (asset (s_amount s)) =? source_chain_id e) then None
    else Some {| pc_provider := provider; pc_env := e_env e; pc_chain_key := e_chain_key e; pc_tx := tx; pc_settlement := settlement_ref s;
                 pc_account := account_key (account (s_base s)) |}.

Definition ALLOWED_INITIAL_STATUS : string := "OBSERVED".
Definition WAIT_JOB : string := "PROOF_WAIT_ATTESTATION".

Definition same_query (e : string) (ck : Z) (tx : string) (r : ProofRequest) : bool :=
  String.eqb (env_id r) e && (chain_key r =? ck) && String.eqb (tx_hash r) tx.

(** [INSERT INTO proof_requests]: the row's own constraints, the key and the
    provider. *)
Definition insert_request (r : ProofRequest) : M unit :=
  let* t := tables in
  if negb (request_check r) then violated "ck_proof_requests"
  else if existsb (fun x => String.eqb (proof_request_id x) (proof_request_id r)) (requests t) then violated "proof_requests_pkey"
  else if negb (bool_decide (is_Some (providers t !! p_provider r))) then violated "proof_requests_provider_id_fkey"
  else update (fun t => t <| requests ::= fun l => l ++ [r] |>).

Definition candidate_key (e : string) (ck : Z) (tx : string) : string := ("proof-candidate:" ++ e ++ ":" ++ py_str ck ++ ":" ++ tx)%string.

Definition candidate_row (c : ProofCandidate) (e : ProofEnv) (rid : string) : ProofRequest := {|
  proof_request_id := rid; env_id := pc_env c; chain_key := pc_chain_key c; tx_hash := pc_tx c; p_provider := pc_provider c;
  p_profile := e_profile e; p_manifest := e_manifest e; sdk_version := e_sdk e; encoding_version := 1; abi_sha256s := JObj [];
  decoder_ref := None; status := ALLOWED_INITIAL_STATUS |}.

(** Models [ingestion/proof_candidates.py], [emit_candidate]. *)
Definition emit_candidate (c : ProofCandidate) (e : ProofEnv) (oid : string) : M (option string) :=
  let* rid := ext ulid in
  let* t := tables in
  if negb (request_check (candidate_row c e rid)) then violated "ck_proof_requests"
  else if existsb (same_query (pc_env c) (pc_chain_key c) (pc_tx c)) (requests t) then ret None
  else
    insert_request (candidate_row c e rid) ;;;
    let* _ := on_outbox (Outbox.emit "proof_request" rid "PROOF_CANDIDATE_OBSERVED"
      (JObj [("proofRequestId", JStr rid); ("envId", JStr (pc_env c)); ("chainKey", JInt (pc_chain_key c)); ("txHash", JStr (pc_tx c));
             ("settlementRef", JStr (pc_settlement c)); ("accountKey", JStr (pc_account c)); ("rawObservationId", JStr oid);
             ("nativeStatus", JStr ALLOWED_INITIAL_STATUS)]%string)
      (candidate_key (pc_env c) (pc_chain_key c) (pc_tx c))) in
    let* fresh := ext ulid in
    let* _ := on_queue (Jobs.enqueue WAIT_JOB
      (JObj [("proofRequestId", JStr rid); ("txHash", JStr (pc_tx c)); ("chainKey", JInt (pc_chain_key c)); ("envId", JStr (pc_env c))]%string)
      (Requests.job_key WAIT_JOB rid) 10 None fresh) in
    ret (Some rid).

(** * Source-proof requests of API callers *)

(** The fields of the manifest the code reads. *)
Record Manifest := {
  m_hash : string;
  m_profile : string;
  m_chain_id : Z;
  m_chain_key : Z;
  m_mock : bool;
  m_method : string;
  m_sdk : string;
  m_encoding : Z;
  m_abi : json;
  m_decoder : string;
}.

Definition manifest_bound (p : Ledger.Provider) (m : Manifest) : bool :=
  bool_decide (Ledger.p_manifest p = Some (m_hash m)) && String.eqb (Ledger.p_profile p) (m_profile m) &&
  (Ledger.source_chain_id p =? m_chain_id m) && (Ledger.source_chain_key p =? m_chain_key m) &&
  String.eqb (Ledger.environment_status p) "PROBED" && bool_decide (dget "source_support" (Ledger.capabilities p) = Some "SUPPORTED"%string) &&
  negb (m_mock m) && String.eqb (m_method m) "ATTESTCOIN_NATIVE".

Definition source_key (e : string) (ck : Z) (tx : string) : string := ("proof-source:" ++ e ++ ":" ++ py_str ck ++ ":" ++ tx)%string.

Definition source_row (p : Ledger.Provider) (m : Manifest) (tx rid : string) : ProofRequest := {|
  proof_request_id := rid; env_id := Ledger.source_env_id p; chain_key := Ledger.source_chain_key p; tx_hash := tx;
  p_provider := Ledger.provider_id p; p_profile := Ledger.p_profile p; p_manifest := default ""%string (Ledger.p_manifest p);
  sdk_version := m_sdk m; encoding_version := m_encoding m; abi_sha256s := m_abi m; decoder_ref := Some (m_decoder m); status := "OBSERVED" |}.

(** Models [ingestion/requests.py], [request_source_proof]; the advisory lock
    on the key makes the call one step. *)
Definition request_source_proof (account tx : string) (m : Manifest) : M ProofRequest :=
  if negb (HEX32_CHECK tx) then raise ValueError "normalized source transaction hash required"
  else
    let* t := tables in
    match (accounts t !! account) ≫= (fun a => providers t !! Ledger.pa_provider a) with
    | None => raise ValueError "unknown provider account"
    | Some p =>
        if negb (manifest_bound p m) then raise ValueError "provider source/native manifest is not supported and bound"
        else
          match List.find (same_query (Ledger.source_env_id p) (Ledger.source_chain_key p) tx) (requests t) with
          | Some r =>
              if negb (String.eqb (p_provider r) (Ledger.provider_id p)) || negb (bool_decide (Some (p_manifest r) = Ledger.p_manifest p)) then
                raise ValueError "source transaction already belongs to another provider/manifest"
              else ret r
          | None =>
              let* rid := ext ulid in
              let row := source_row p m tx rid in
              insert_request row ;;;
              let* _ := on_outbox (Outbox.emit "proof_request" rid "PROOF_CANDIDATE_OBSERVED"
                (JObj [("proofRequestId", JStr rid); ("providerAccountId", JStr account); ("txHash", JStr tx); ("nativeStatus", JStr "OBSERVED")]%string)
                (source_key (Ledger.source_env_id p) (Ledger.source_chain_key p) tx)) in
              let* fresh := ext ulid in
              let* _ := on_queue (Jobs.enqueue WAIT_JOB (JObj [("proofRequestId", JStr rid)]%string) (Requests.job_key WAIT_JOB rid) 100 None fresh) in
              ret row
          end
    end.

(** * The collector *)

Definition STREAMS : list string := ["revenue"; "settlements"].

(** Models [ingestion/collector.py], [canonical_payload]. *)
Definition canonical_payload (o : Observation) : string := canonical (model_dump o).

(** The columns the unique key of [raw_source_observations] names. *)
Definition same_payload (provider org h : string) (r : RawObservation) : bool :=
  String.eqb (o_provider r) provider && String.eqb (origin r) org && String.eqb (o_hash r) h.

Definition raw_key (org h : string) : string := ("raw:" ++ provider_id cfg ++ ":" ++ org ++ ":" ++ h)%string.

(** [stream.upper()] of a name of [STREAMS] *)
Definition observed_event (stream : string) : string :=
  ("OBSERVED_" ++ string_map (fun a => let n := nat_of_ascii a in if ((97 <=? n) && (n <=? 122))%nat then ascii_of_nat (n - 32) else a) stream)%string.

(** Models [ingestion/collector.py], [Collector.store_observation]. *)
Definition store_observation (o : Observation) (org stream : string) : M (string * bool) :=
  let h := payload_hash_of (canonical_payload o) in
  let* ref := on_blobs (put h (canonical_payload o)) in
  let* oid := ext ulid in
  let row := {| observation_id := oid; o_provider := provider_id cfg; origin := org; schema_id := (cfg_schema cfg ++ ":" ++ stream)%string;
                schema_revision := cfg_revision cfg; o_hash := h; payload_ref := Some ref; o_trust := "ASSERTED";
                o_observed_at := observed_at (base o) |} in
  let* t := tables in
  if negb (raw_check row) then violated "ck_raw_obs"
  else
    match List.find (same_payload (provider_id cfg) org h) (raws t) with
    | Some r => ret (observation_id r, false)
    | None =>
        if existsb (fun r => String.eqb (observation_id r) oid) (raws t) then violated "raw_source_observations_pkey"
        else if negb (bool_decide (is_Some (providers t !! provider_id cfg))) then violated "raw_source_observations_provider_id_fkey"
        else
          update (fun t => t <| raws ::= fun l => l ++ [row] |>) ;;;
          let* _ := on_outbox (Outbox.emit "raw_source_observation" oid (observed_event stream)
            (JObj [("observationId", JStr oid); ("payloadHash", JStr h); ("origin", JStr org); ("stream", JStr stream); ("trust", JStr "ASSERTED");
                   ("verificationMethod", JStr "OFFCHAIN_ASSERTION")]%string) (raw_key org h)) in
          ret (oid, true)
    end.

(** Models [ingestion/collector.py], [Collector._store_page]. *)
Fixpoint store_page (stream : string) (l : list Observation) (stored dup cands : Z) : M (Z * Z * Z) :=
  match l with
  | [] => ret (stored, dup, cands)
  | o :: l' =>
      let* r := store_observation o "API" stream in
      let '(oid, new) := (r : string * bool) in
      if negb new then store_page stream l' stored (dup + 1) cands
      else
        match o with
        | Settle s =>
            match candidate_from_settlement s (proof_env cfg) (provider_id cfg) with
            | Some c =>
                let* rid := emit_candidate c (proof_env cfg) oid in
                store_page stream l' (stored + 1) dup (if truthy rid then cands + 1 else cands)
            | None => store_page stream l' (stored + 1) dup cands
            end
        | Revenue _ => store_page stream l' (stored + 1) dup cands
        end
  end.

(** Models [ingestion/collector.py], [CollectResult]. *)
Record CollectResult := {
  res_stream : string;
  pages : Z;
  fetched : Z;
  n_stored : Z;
  duplicates : Z;
  candidates : Z;
  committed_page_tokens : list (option string);
  gap_id : option string;
}.

Definition no_result (stream : string) : CollectResult :=
  {| res_stream := stream; pages := 0; fetched := 0; n_stored := 0; duplicates := 0; candidates := 0; committed_page_tokens := []; gap_id := None |}.

(** A window being collected: the cursor it was read from, its bounds and the
    page to ask for. *)
Record Task := { t_st : CursorState; t_from : Z; t_to : Z; t_cursor : option Cursor }.

(** [datetime +- timedelta]: out of the years 1 to 9999 it overflows. *)
Definition shift (t d : Z) : res Z :=
  if representable (t + d) then Ok (t + d) else Raise (Exn OverflowError "date value out of range").

(** The window to collect; [None] when there is nothing new. *)
(** Models [ingestion/collector.py], [Collector._collect], lines 210-225. *)
Definition plan (st : CursorState) (until : Z) (backfill : bool) (window_start : option Z) : res (option Task) :=
  match high_water st with
  | None => Raise (Exn AssertionError "")
  | Some hw =>
      rbind (shift (default hw window_start) (- overlap_seconds st * 1000000)) (fun from =>
      match page_token st, window_end st with
      | Some tok, Some e => Ok (Some {| t_st := st; t_from := from; t_to := e; t_cursor := Some {| token := Some tok; has_more := true |} |})
      | _, _ =>
          rbind (if backfill then Ok until else rbind (shift from (max_window_seconds cfg * 1000000)) (fun e => Ok (Z.min until e))) (fun e =>
          if (e <=? hw) && negb backfill then Ok None
          else Ok (Some {| t_st := st; t_from := from; t_to := e; t_cursor := None |}))
      end)
  end.

(** The cursor after a page. *)
(** Models [ingestion/collector.py], [Collector._collect], lines 241-246. *)
Definition next_state (k : Task) (n : Cursor) : CursorState :=
  if has_more n then with_page (t_st k) (token n) (t_to k) else advanced (t_st k) (t_to k).

(** The transaction of a page; [crash] is the fault hook before the commit. *)
(** Models [ingestion/collector.py], [Collector._collect], lines 247-258. *)
Definition commit_page (stream : string) (k : Task) (p : Page Observation) (crash : bool) : M (Z * Z * Z) :=
  begin (
    let* current := load (c_provider (t_st k)) (c_stream (t_st k)) in
    if negb (bool_decide (current = Some (t_st k))) then raise IngestionCrash "stream cursor changed concurrently; retry from persisted cursor"
    else
      let* n := store_page stream (items p) 0 0 0 in
      save (next_state k (next p)) ;;;
      (if crash then raise IngestionCrash "before commit" else ret tt) ;;;
      ret n).

(** Models [ingestion/collector.py], [Collector._open_gap_exception]. *)
Definition open_gap_exception (k : Task) (detail : string) : M string :=
  let* eid := ext ulid in
  let entity := (c_provider (t_st k) ++ "/" ++ c_stream (t_st k))%string in
  begin (
    let* from := lift_res (iso (Some (t_from k))) in
    let* to := lift_res (iso (Some (t_to k))) in
    let* hw := lift_res (iso (high_water (t_st k))) in
    let* t := tables in
    if negb (ULID_CHECK eid && fits 300 entity) then violated "exceptions"
    else if existsb (fun g => String.eqb (exception_id g) eid) (gaps t) then violated "exceptions_pkey"
    else
      update (fun t => t <| gaps ::= fun l => l ++ [{| exception_id := eid; g_entity := entity; g_detail :=
        JObj [("windowStart", from); ("windowEnd", to); ("highWater", hw); ("detail", JStr detail);
              ("action", JStr "cursor NOT advanced; operator must confirm the gap (backfill from provider export or accept)")]%string |}] |>) ;;;
      ret eid).

(** One turn of the loop: the result so far, and the task the loop goes on
    with, if it does. *)
(** Models [ingestion/collector.py], [Collector._collect], lines 231-268. *)
Definition turn (acct : AccountRef) (stream : string) (before after : Z -> bool) (w : Window) (k : Task) (r : CollectResult) :
    M (CollectResult * option Task) :=
  let* page := ext (fun e => fetch e stream acct w (t_cursor k)) in
  match page with
  | Raise e =>
      if bool_decide (exn_kind e = ExpiredData) then
        let* eid := open_gap_exception k (exn_msg e) in
        ret (r <| gap_id := Some eid |>, None)
      else lift_res (Raise e)
  | Ok p =>
      let no := pages r + 1 in
      let* n := commit_page stream k p (before no) in
      let '(s, d, c) := (n : Z * Z * Z) in
      if after no then raise IngestionCrash "after commit"
      else
        let r' := {| res_stream := res_stream r; pages := no; fetched := fetched r + zlen (items p); n_stored := n_stored r + s;
                     duplicates := duplicates r + d; candidates := candidates r + c;
                     committed_page_tokens := committed_page_tokens r ++ [if has_more (next p) then token (next p) else None];
                     gap_id := gap_id r |} in
        ret (r', if has_more (next p) then Some {| t_st := next_state k (next p); t_from := t_from k; t_to := t_to k; t_cursor := Some (next p) |}
                 else None)
  end.

Fixpoint turns (fuel : nat) (acct : AccountRef) (stream : string) (before after : Z -> bool) (w : Window) (k : Task) (r : CollectResult) : M CollectResult :=
  match fuel with
  | O => raise OutOfFuel "pages"
  | S n =>
      let* x := turn acct stream before after w k r in
      match x.2 with
      | None => ret x.1
      | Some k' => turns n acct stream before after w k' x.1
      end
  end.

(** Models [ingestion/collector.py], [Collector._collect], lines 200-230. *)
Definition collect (fuel : nat) (acct : AccountRef) (stream : string) (before after : Z -> bool) (st : CursorState) (until : Z) (backfill : bool)
    (window_start : option Z) : M CollectResult :=
  let* k := lift_res (plan st until backfill window_start) in
  match k with
  | None => ret (no_result (c_stream st))
  | Some k =>
      let* now := ext clock in
      let* w := lift_res (make_window (t_from k) (t_to k) (cfg_max_age cfg) (Some now)) in
      turns fuel acct stream before after w k (no_result (c_stream st))
  end.

(** Models [ingestion/collector.py], [Collector.stream_name]. *)
Definition stream_name (stream : string) (a : AccountRef) : string := (stream ++ ":" ++ account_key a)%string.

(** Models [ingestion/collector.py], [Collector.poll]. *)
Definition poll (fuel : nat) (acct : AccountRef) (stream : string) (before after : Z -> bool) (initial_start : option datetime) (until : option Z) :
    M CollectResult :=
  if negb (mem_str stream STREAMS) then raise ValueError ("unknown stream " ++ stream)
  else
    let* now := ext clock in
    let* st := begin (open (provider_id cfg) (stream_name stream acct) initial_start (cfg_overlap cfg)) in
    collect fuel acct stream before after st (Z.min (default now until) now) false None.

(** Models [ingestion/collector.py], [Collector.collect_window]. *)
Definition collect_window (fuel : nat) (acct : AccountRef) (stream : string) (before after : Z -> bool) (from to : Z) (tag : string) : M CollectResult :=
  let* st := begin (open (provider_id cfg) (tag ++ ":" ++ stream_name stream acct) (Some (Aware from)) 0) in
  collect fuel acct stream before after st to true (Some from).

(** * Backfills *)

(** The window of a chunk. *)
(** Models [ingestion/backfill.py], [backfill_account], lines 37-38. *)
Definition chunk_at (start end_ cursor chunk overlap : Z) : res (Z * Z) :=
  rbind (shift cursor (chunk * 1000000)) (fun ce => rbind (shift cursor (- overlap * 1000000)) (fun cs => Ok (Z.max start cs, Z.min end_ ce))).

(** [int(t.timestamp())] *)
Definition seconds (t : Z) : Z := Z.quot t 1000000.

Definition backfill_tag (c : Z * Z) : string := ("backfill:" ++ py_str (seconds c.1) ++ "-" ++ py_str (seconds c.2))%string.

(** Models [ingestion/backfill.py], [backfill_account], lines 34-42. *)
Fixpoint backfill_loop (fuel pages_ : nat) (acct : AccountRef) (stream : string) (before after : Z -> bool) (start end_ cursor chunk overlap : Z)
    (results : list CollectResult) : M (list CollectResult) :=
  if end_ <=? cursor then ret results
  else match fuel with
       | O => raise OutOfFuel "chunks"
       | S n =>
           let* c := lift_res (chunk_at start end_ cursor chunk overlap) in
           let* r := collect_window pages_ acct stream before after c.1 c.2 (backfill_tag c) in
           backfill_loop n pages_ acct stream before after start end_ c.2 chunk overlap (results ++ [r])
       end.

(** Models [ingestion/backfill.py], [backfill_account]. *)
Definition backfill_account (fuel pages_ : nat) (acct : AccountRef) (stream : string) (before after : Z -> bool) (start end_ chunk overlap : Z) :
    M (list CollectResult) :=
  if end_ <=? start then raise ValueError "backfill end must be after start"
  else if chunk <=? overlap then raise ValueError "chunk must be longer than the overlap"
  else backfill_loop fuel pages_ acct stream before after start end_ start chunk overlap [].

(** Models [ingestion/backfill.py], [refetch_corrections]. *)
Definition refetch_corrections (fuel : nat) (acct : AccountRef) (stream : string) (before after : Z -> bool) (around radius : Z) (tag_suffix : string) :
    M CollectResult :=
  let* from := lift_res (shift around (- radius * 1000000)) in
  let* to := lift_res (shift around (radius * 1000000)) in
  collect_window fuel acct stream before after from to ("refetch:" ++ tag_suffix).

(** * What runs leave behind *)

Context {store : RawStore put}.

Definition event_with (key : string) (t : Tables) : Prop := exists i r, Outbox.rows (outbox t) !! i = Some r /\ Outbox.idempotency_key (Outbox.event r) = key.

Definition job_with (key : string) (t : Tables) : Prop := exists i j, Jobs.jobs (queue t) !! i = Some j /\ Jobs.semantic_idempotency_key j = key.

(** Rows, events, jobs and bodies only accumulate. *)
Record grows (w w' : World) : Prop := {
  g_raws : exists l, raws (db w') = raws (db w) ++ l;
  g_requests : exists l, requests (db w') = requests (db w) ++ l;
  g_events : forall k, event_with k (db w) -> event_with k (db w');
  g_jobs : forall k, job_with k (db w) -> job_with k (db w');
  g_blobs : forall k v, blobs w !! k = Some v -> blobs w' !! k = Some v;
  g_registry : providers (db w') = providers (db w) /\ accounts (db w') = accounts (db w);
}.

#[export] Instance grows_preorder : PreOrder grows.
Proof.
  split.
  - intros w. split; try done; exists []; by rewrite app_nil_r.
  - intros w1 w2 w3 [(a & A) (b & B) C D E [F F']] [(a' & A') (b' & B') C' D' E' [G G']]. split; eauto.
    + exists (a ++ a'). by rewrite A', A, app_assoc.
    + exists (b ++ b'). by rewrite B', B, app_assoc.
    + by rewrite G, G', F, F'.
Qed.

(** The invariant: each raw observation is there once, with its body and its
    event; each query has one request, with its event and its job; nothing
    claims a status of the proof pipeline. *)
Record ingest_wf (w : World) : Prop := {
  wf_outbox : Outbox.outbox_wf (outbox (db w));
  wf_raw_ids : NoDup (observation_id <$> raws (db w));
  wf_raw_keys : NoDup ((fun r => (o_provider r, origin r, o_hash r)) <$> raws (db w));
  wf_raws : forall r, r ∈ raws (db w) -> raw_check r = true /\ o_trust r = "ASSERTED"%string /\ payload_ref r = Some (blob_ref (o_hash r)) /\
    is_Some (blobs w !! o_hash r) /\ event_with ("raw:" ++ o_provider r ++ ":" ++ origin r ++ ":" ++ o_hash r) (db w);
  wf_request_ids : NoDup (proof_request_id <$> requests (db w));
  wf_queries : NoDup ((fun r => (env_id r, chain_key r, tx_hash r)) <$> requests (db w));
  wf_requests : forall r, r ∈ requests (db w) -> request_check r = true /\ status r = ALLOWED_INITIAL_STATUS /\
    job_with (Requests.job_key WAIT_JOB (proof_request_id r)) (db w) /\
    (event_with (candidate_key (env_id r) (chain_key r) (tx_hash r)) (db w) \/ event_with (source_key (env_id r) (chain_key r) (tx_hash r)) (db w));
}.

Definition good {A} (m : M A) : Prop := forall w a w', m w = (Ok a, w') -> ingest_wf w -> ingest_wf w' /\ grows w w'.

Lemma good_bind {A B} (m : M A) (f : A -> M B) : good m -> (forall a, good (f a)) -> good (bind m f).
Proof.
  intros Hm Hf w b w' H Hw. apply bind_Ok in H as (a & w1 & H1 & H2).
  destruct (Hm _ _ _ H1 Hw) as [W1 G1]. destruct (Hf a _ _ _ H2 W1) as [W2 G2]. split; [done|by etransitivity].
Qed.

Lemma good_pure {A} (r : World -> res A) : good (fun w => (r w, w)).
Proof. intros w a w' [= _ <-] Hw. split; [done|reflexivity]. Qed.

(** Statements that leave these tables alone. *)
Lemma good_same {A} (m : M A) :
  (forall w a w', m w = (Ok a, w') -> raws (db w') = raws (db w) /\ requests (db w') = requests (db w) /\ outbox (db w') = outbox (db w) /\
     queue (db w') = queue (db w) /\ blobs w' = blobs w /\ providers (db w') = providers (db w) /\ accounts (db w') = accounts (db w)) -> good m.
Proof.
  intros Hm w a w' H Hw. apply Hm in H as (A1 & A2 & A3 & A4 & A5 & A6 & A7). split.
  - destruct Hw. split; unfold event_with, job_with in *; rewrite ?A1, ?A2, ?A3, ?A4, ?A5; done.
  - split; unfold event_with, job_with; rewrite ?A1, ?A2, ?A3, ?A4, ?A5; [exists []; by rewrite app_nil_r|exists []; by rewrite app_nil_r|done..|by split].
Qed.

Lemma good_ext {A} (f : Env -> A) : good (ext f).
Proof. apply good_same. intros w a w'. unfold ext, bind, get, modify, ret. by intros [= _ <-]. Qed.

Lemma ext_Ok {A} (f : Env -> A) w a w' : ext f w = (Ok a, w') -> db w' = db w /\ blobs w' = blobs w /\ exists t, a = f (env t).
Proof. unfold ext, bind, get, modify, ret. intros [= <- <-]. split_and!; [done|done|by eexists]. Qed.

Lemma on_outbox_Ok {A} (m : PyM Outbox.DB A) w a w' : on_outbox m w = (Ok a, w') ->
  exists o, m (outbox (db w)) = (Ok a, o) /\ w' = w <| db ::= fun t => t <| outbox := o |> |>.
Proof. unfold on_outbox. destruct (m (outbox (db w))) as [r o]. intros [= -> <-]. by exists o. Qed.

Lemma on_queue_Ok {A} (m : PyM (Jobs.DB unit) A) w a w' : on_queue m w = (Ok a, w') ->
  exists q, m (queue (db w)) = (Ok a, q) /\ w' = w <| db ::= fun t => t <| queue := q |> |>.
Proof. unfold on_queue. destruct (m (queue (db w))) as [r q]. intros [= -> <-]. by exists q. Qed.

Lemma ingest_tables_Ok w t w' : tables w = (Ok t, w') -> t = db w /\ w' = w.
Proof. unfold tables. by intros [-> ->]%gets_Ok. Qed.

Lemma ingest_update_Ok f w u w' : update f w = (Ok u, w') -> w' = w <| db ::= f |>.
Proof. unfold update. by intros ->%modify_Ok. Qed.

Lemma enqueue_job k p key m r f (q : Jobs.DB unit) id q' : Jobs.enqueue k p key m r f q = (Ok id, q') ->
  (exists i j, Jobs.jobs q' !! i = Some j /\ Jobs.semantic_idempotency_key j = key) /\
  forall i j, Jobs.jobs q !! i = Some j -> Jobs.jobs q' !! i = Some j.
Proof.
  intros (_ & [(j & Hj & _ & ->)|(_ & _ & Hf & _ & j & Hkey & _ & _ & _ & _ & _ & _ & ->)])%Jobs.enqueue_Ok.
  - split; [|done]. unfold Jobs.job_with_key in Hj. destruct (List.find _ _) as [[i x]|] eqn:Hx; [|done]. injection Hj as <-.
    apply List.find_some in Hx as [Hin Hx%String.eqb_eq]. apply list_elem_of_In, elem_of_map_to_list in Hin. by exists i, x.
  - cbn. split; [exists f, j; by rewrite lookup_insert_eq|]. intros i x Hx. rewrite lookup_insert_ne; [done|congruence].
Qed.

Lemma find_none_notin {A} (p : A -> bool) l x : List.find p l = None -> x ∈ l -> p x = false.
Proof. intros H Hin. apply list_elem_of_In in Hin. by eapply List.find_none. Qed.

Lemma existsb_false_in {A} (p : A -> bool) l x : existsb p l = false -> x ∈ l -> p x = false.
Proof.
  intros H Hin. destruct (p x) eqn:Hx; [|done]. assert (existsb p l = true); [|congruence].
  apply existsb_exists. exists x. split; [by apply list_elem_of_In|done].
Qed.

Lemma NoDup_snoc_map {A B} (f : A -> B) l x : NoDup (f <$> l) -> (forall y, y ∈ l -> f y <> f x) -> NoDup (f <$> (l ++ [x])).
Proof.
  intros Hl Hx. rewrite fmap_app. apply NoDup_app. split_and!; [done| |apply NoDup_singleton].
  intros y (z & -> & Hz)%list_elem_of_fmap Hy%list_elem_of_singleton. by eapply Hx.
Qed.

(** ** The operations *)

Lemma on_blobs_Ok {A} (m : PyM (gmap string string) A) w a w' : on_blobs m w = (Ok a, w') ->
  (m (blobs w)).1 = Ok a /\ db w' = db w /\ blobs w' = (m (blobs w)).2.
Proof. unfold on_blobs. destruct (m (blobs w)) as [r b]. by intros [= -> <-]. Qed.

Definition stored_row (o : Observation) (org stream oid : string) : RawObservation :=
  let h := payload_hash_of (canonical_payload o) in
  {| observation_id := oid; o_provider := provider_id cfg; origin := org; schema_id := (cfg_schema cfg ++ ":" ++ stream)%string;
     schema_revision := cfg_revision cfg; o_hash := h; payload_ref := Some (blob_ref h); o_trust := "ASSERTED";
     o_observed_at := observed_at (base o) |}.

(** A stored observation: found by its hash, or appended with its event. *)
Lemma store_observation_Ok o org stream w oid new w' :
  store_observation o org stream w = (Ok (oid, new), w') ->
  let h := payload_hash_of (canonical_payload o) in
  (forall k v, blobs w !! k = Some v -> blobs w' !! k = Some v) /\ is_Some (blobs w' !! h) /\
  ((new = false /\ db w' = db w /\ exists r, r ∈ raws (db w) /\ same_payload (provider_id cfg) org h r = true /\ observation_id r = oid) \/
   (new = true /\ raw_check (stored_row o org stream oid) = true /\
    (forall r, r ∈ raws (db w) -> same_payload (provider_id cfg) org h r = false /\ observation_id r <> oid) /\
    exists r' ob, Outbox.emit "raw_source_observation" oid (observed_event stream)
            (JObj [("observationId", JStr oid); ("payloadHash", JStr h); ("origin", JStr org); ("stream", JStr stream); ("trust", JStr "ASSERTED");
                   ("verificationMethod", JStr "OFFCHAIN_ASSERTION")]%string) (raw_key org h) (outbox (db w)) = (Ok r', ob) /\
    db w' = (db w) <| raws ::= fun l => l ++ [stored_row o org stream oid] |> <| outbox := ob |>)).
Proof.
  intros H h. unfold store_observation in H. fold h in H. apply bind_Ok in H as (ref & w1 & Hb & H). apply on_blobs_Ok in Hb as (Hput & Hd1 & Hb1).
  destruct (put_stores _ _ _ _ Hput) as [-> Hin]. rewrite <- Hb1 in Hin.
  apply bind_Ok in H as (id & w2 & Hu & H). apply ext_Ok in Hu as (Hd2 & Hb2 & _). cbv zeta in H.
  apply bind_Ok in H as (t & w3 & Ht & H). apply ingest_tables_Ok in Ht as [-> ->].
  assert (Hkeep : forall k v, blobs w !! k = Some v -> blobs w2 !! k = Some v) by (intros k v Hk; rewrite Hb2, Hb1; by apply put_keeps).
  rewrite Hd2, Hd1 in H. destruct (negb (raw_check _)) eqn:Hck; [done|]. apply negb_false_iff in Hck.
  destruct (List.find _ _) as [r|] eqn:Hf.
  - apply ret_Ok in H as [[= -> ->] ->]. apply List.find_some in Hf as [Hr Hs]. split_and!; [done|by rewrite Hb2|]. left.
    split_and!; [done|congruence|]. exists r. split_and!; [by apply list_elem_of_In|done|done].
  - destruct (existsb _ _) eqn:Hid; [done|]. destruct (negb _); [done|].
    apply bind_Ok in H as (u & w4 & Hu & H). apply ingest_update_Ok in Hu. apply bind_Ok in H as (r' & w5 & He & H).
    apply on_outbox_Ok in He as (ob & He & ->). apply ret_Ok in H as [[= -> ->] ->]. subst w4. cbn in He |- *.
    rewrite Hd2, Hd1 in He. split_and!; [done|by rewrite Hb2|]. right. split_and!; [done|done| |].
    + intros r Hr. split; [by eapply find_none_notin|]. intros <-.
      pose proof (existsb_false_in _ _ _ Hid Hr) as Hx. cbn in Hx. by rewrite String.eqb_refl in Hx.
    + exists r', ob. split; [done|]. by rewrite Hd2, Hd1.
Qed.

Lemma grows_blobs w w' : db w' = db w -> (forall k v, blobs w !! k = Some v -> blobs w' !! k = Some v) -> grows w w'.
Proof. intros Hd Hb. split; rewrite ?Hd; try done; exists []; by rewrite app_nil_r. Qed.

Lemma wf_blobs_grow w w' : db w' = db w -> (forall k v, blobs w !! k = Some v -> blobs w' !! k = Some v) -> ingest_wf w -> ingest_wf w'.
Proof.
  intros Hd Hb [A B C D E F G]. split; rewrite ?Hd; try done. intros r Hr. destruct (D r Hr) as (D1 & D2 & D3 & [v D4] & D5).
  split_and!; [done|done|done|exists v; by apply Hb|done].
Qed.

Lemma store_good o org stream : good (store_observation o org stream).
Proof.
  intros w [oid new] w' H Hw. destruct (store_observation_Ok _ _ _ _ _ _ _ H) as (Hb & Hin & [(_ & Hd & _)|(_ & Hck & Hnew & r' & ob & He & Hd)]).
  { split; [by eapply wf_blobs_grow|by apply grows_blobs]. }
  destruct (Outbox.emit_event _ _ _ _ _ _ _ _ He (wf_outbox _ Hw)) as (Hob & Hev & Hevs). set (h := payload_hash_of (canonical_payload o)) in *.
  assert (Hevk : forall k, event_with k (db w) -> event_with k (db w')).
  { intros k (i & x & Hx & Hk). exists i, x. rewrite Hd. split; [by apply Hevs|done]. }
  split.
  - destruct Hw as [A B C D E F G]. split; rewrite ?Hd; cbn; try done.
    + apply NoDup_snoc_map; [done|]. intros r Hr. by destruct (Hnew r Hr).
    + apply NoDup_snoc_map; [done|]. intros r Hr. cbn. destruct (Hnew r Hr) as [Hs _]. intros [= E1 E2 E3]. unfold same_payload in Hs.
      rewrite E1, E2, E3, !String.eqb_refl in Hs. done.
    + intros r [Hr|Hr%list_elem_of_singleton]%elem_of_app.
      * destruct (D r Hr) as (D1 & D2 & D3 & [v D4] & D5). split_and!; [done|done|done|exists v; by apply Hb|]. rewrite <- Hd. by apply Hevk.
      * subst r. split_and!; [done|done|done|done|]. cbn. exact Hev.
    + intros r Hr. destruct (G r Hr) as (G1 & G2 & G3 & G4). split_and!; [done|done|done|]. rewrite <- Hd. destruct G4; [left|right]; by apply Hevk.
  - split; [rewrite Hd; by eexists|rewrite Hd; exists []; by rewrite app_nil_r|done|by rewrite Hd|done|by rewrite Hd].
Qed.

(** A new request with its event and its job. *)
Lemma insert_good r job_payload attempts agg key_ payload :
  key_ = candidate_key (env_id r) (chain_key r) (tx_hash r) \/ key_ = source_key (env_id r) (chain_key r) (tx_hash r) ->
  status r = ALLOWED_INITIAL_STATUS -> forall w u w',
  (let* _ := (insert_request r ;;;
    on_outbox (Outbox.emit agg (proof_request_id r) "PROOF_CANDIDATE_OBSERVED" payload key_)) in
    let* fresh := ext ulid in
    on_queue (Jobs.enqueue WAIT_JOB job_payload (Requests.job_key WAIT_JOB (proof_request_id r)) attempts None fresh)) w = (Ok u, w') ->
  existsb (same_query (env_id r) (chain_key r) (tx_hash r)) (requests (db w)) = false ->
  ingest_wf w -> ingest_wf w' /\ grows w w' /\ r ∈ requests (db w').
Proof.
  intros Hkey Hst w u w' H Hq Hw. apply bind_Ok in H as (x1 & w1 & H1 & H). apply bind_Ok in H1 as (x2 & w2 & Hins & Hem).
  apply bind_Ok in H as (fresh & w3 & Hf & Hen). apply ext_Ok in Hf as (Hd3 & Hb3 & _).
  unfold insert_request in Hins. apply bind_Ok in Hins as (t & w4 & Ht & Hins). apply ingest_tables_Ok in Ht as [-> ->].
  destruct (negb (request_check r)) eqn:Hck; [done|]. apply negb_false_iff in Hck. destruct (existsb (fun x => String.eqb (proof_request_id x) _) _) eqn:Hid; [done|].
  destruct (negb _); [done|]. apply ingest_update_Ok in Hins as ->. apply on_outbox_Ok in Hem as (ob & Hem & ->). apply on_queue_Ok in Hen as (q & Hen & ->).
  cbn in Hem, Hd3, Hb3. rewrite Hd3 in Hen. cbn in Hen.
  destruct (Outbox.emit_event _ _ _ _ _ _ _ _ Hem (wf_outbox _ Hw)) as (Hob & Hev & Hevs). destruct (enqueue_job _ _ _ _ _ _ _ _ _ Hen) as [Hjob Hjobs].
  assert (Hevk : forall k, event_with k (db w) -> exists i x, Outbox.rows ob !! i = Some x /\ Outbox.idempotency_key (Outbox.event x) = k).
  { intros k (i & x & Hx & Hk). exists i, x. split; [by apply Hevs|done]. }
  assert (Hjk : forall k, job_with k (db w) -> exists i x, Jobs.jobs q !! i = Some x /\ Jobs.semantic_idempotency_key x = k).
  { intros k (i & x & Hx & Hk). exists i, x. split; [by apply Hjobs|done]. }
  split_and!.
  - destruct Hw as [A B C D E F G]. split; unfold event_with, job_with; cbn; rewrite ?Hd3, ?Hb3; cbn; try done.
    + intros x Hx. destruct (D x Hx) as (D1 & D2 & D3 & D4 & D5). split_and!; [done|done|done|done|by apply Hevk].
    + apply NoDup_snoc_map; [done|]. intros x Hx Heq. pose proof (existsb_false_in _ _ _ Hid Hx) as Hn. cbn in Hn. by rewrite Heq, String.eqb_refl in Hn.
    + apply NoDup_snoc_map; [done|]. intros x Hx [= E1 E2 E3]. pose proof (existsb_false_in _ _ _ Hq Hx) as Hn. unfold same_query in Hn.
      by rewrite E1, E2, E3, !String.eqb_refl, Z.eqb_refl in Hn.
    + intros x [Hx|Hx%list_elem_of_singleton]%elem_of_app.
      * destruct (G x Hx) as (G1 & G2 & G3 & G4). split_and!; [done|done|by apply Hjk|]. destruct G4; [left|right]; by apply Hevk.
      * subst x. split_and!; [done|done|done|]. destruct Hkey as [<-|<-]; [left|right]; exact Hev.
  - split; cbn; [idtac|idtac|intros k Hk; apply Hevk in Hk; unfold event_with; cbn|intros k Hk; apply Hjk in Hk; unfold job_with; cbn|idtac|idtac]; rewrite ?Hd3, ?Hb3; cbn; [exists []; by rewrite app_nil_r|by eexists|exact Hk|exact Hk|done|done].
  - cbn. rewrite Hd3. cbn. apply elem_of_app. right. by left.
Qed.

(** ** Transactions and calls *)

Lemma bind_swap {A B C} (m : M A) (n : M B) (f : B -> M C) w :
  (let* _ := m in let* b := n in f b) w = (let* b := (m ;;; n) in f b) w.
Proof. unfold bind. destruct (m w) as [[a|e] w1]; [|done]. by destruct (n w1) as [[b|e] w2]. Qed.

Lemma emit_candidate_good c e oid : good (emit_candidate c e oid).
Proof.
  intros w rid w' H Hw. unfold emit_candidate in H. apply bind_Ok in H as (id & w1 & Hu & H). apply ext_Ok in Hu as (Hd & Hb & _).
  apply bind_Ok in H as (t & w2 & Ht & H). apply ingest_tables_Ok in Ht as [-> ->]. destruct (negb _); [done|].
  assert (Hw1 : ingest_wf w1) by (eapply wf_blobs_grow; [exact Hd|by rewrite Hb|done]).
  assert (G1 : grows w w1) by (apply grows_blobs; [done|by rewrite Hb]).
  destruct (existsb _ _) eqn:Hq; [apply ret_Ok in H as [_ ->]; split; [done|exact G1]|].
  rewrite bind_swap in H. apply bind_Ok in H as (x & w3 & H3 & H). apply bind_Ok in H as (fresh & w4 & H4 & H).
  apply bind_Ok in H as (y & w5 & H5 & H). apply ret_Ok in H as [_ ->].
  edestruct (insert_good (candidate_row c e id)) as (W & G & _); [by left|done| |exact Hq|exact Hw1|split; [exact W|by etransitivity]].
  apply bind_Ok. exists x, w3. split; [exact H3|]. apply bind_Ok. exists fresh, w4. split; [exact H4|exact H5].
Qed.

Lemma request_good account_ tx m : good (request_source_proof account_ tx m).
Proof.
  intros w r w' H Hw. unfold request_source_proof in H. destruct (negb _); [done|]. apply bind_Ok in H as (t & w2 & Ht & H). apply ingest_tables_Ok in Ht as [-> ->].
  destruct (_ ≫= _) as [p|]; [|done]. destruct (negb _); [done|]. destruct (List.find _ _) as [r0|] eqn:Hf.
  { destruct (_ || _); [done|]. apply ret_Ok in H as [_ ->]. split; [done|reflexivity]. }
  apply bind_Ok in H as (id & w1 & Hu & H). apply ext_Ok in Hu as (Hd & Hb & _). cbv zeta in H.
  assert (Hw1 : ingest_wf w1) by (eapply wf_blobs_grow; [exact Hd|by rewrite Hb|done]).
  assert (G1 : grows w w1) by (apply grows_blobs; [done|by rewrite Hb]).
  rewrite bind_swap in H. apply bind_Ok in H as (x & w3 & H3 & H). apply bind_Ok in H as (fresh & w4 & H4 & H).
  apply bind_Ok in H as (y & w5 & H5 & H). apply ret_Ok in H as [_ ->].
  edestruct (insert_good (source_row p m tx id)) as (W & G & _); [by right|done| | |exact Hw1|split; [exact W|by etransitivity]].
  - apply bind_Ok. exists x, w3. split; [exact H3|]. apply bind_Ok. exists fresh, w4. split; [exact H4|exact H5].
  - rewrite Hd. cbn. destruct (existsb _ _) eqn:He; [|done]. apply existsb_exists in He as (y' & Hy & Hs).
    pose proof (List.find_none _ _ Hf y' Hy). cbn in *. congruence.
Qed.

Lemma store_page_good stream l s d c : good (store_page stream l s d c).
Proof.
  revert s d c. induction l as [|o l IH]; intros s d c; cbn [store_page]; [apply good_pure|].
  apply good_bind; [apply store_good|]. intros [oid new]. destruct (negb new); [apply IH|]. destruct o as [r|st]; [apply IH|].
  destruct (candidate_from_settlement _ _ _); [|apply IH]. apply good_bind; [apply emit_candidate_good|]. intros rid. apply IH.
Qed.

Lemma load_good p st : good (load p st).
Proof.
  unfold load. apply good_bind; [apply good_pure|]. intros t. destruct (cursors t !! (p, st)); [|apply good_pure].
  apply good_bind; [apply good_pure|]. intros a. apply good_pure.
Qed.

Lemma update_good f : (forall t, raws (f t) = raws t /\ requests (f t) = requests t /\ outbox (f t) = outbox t /\ queue (f t) = queue t /\
  providers (f t) = providers t /\ accounts (f t) = accounts t) -> good (update f).
Proof. intros Hf. apply good_same. intros w a w' ->%ingest_update_Ok. cbn. destruct (Hf (db w)) as (? & ? & ? & ? & ? & ?). by split_and!. Qed.

Lemma save_good st : good (save st).
Proof. unfold save. apply good_bind; [apply good_pure|]. intros p. by apply update_good. Qed.

Lemma open_good p s i o : good (open p s i o).
Proof.
  unfold open. apply good_bind; [apply load_good|]. intros [st|]; [apply good_pure|]. destruct i as [[t|t]|]; [|apply good_pure..].
  apply good_bind; [apply good_pure|]. intros pos. apply good_bind; [apply good_pure|]. intros t'.
  apply good_bind; [|intros _; apply good_bind; [apply load_good|]; intros [x|]; apply good_pure].
  destruct (bool_decide _); [apply good_pure|]. destruct (negb _); [apply good_pure|]. destruct (negb _); [apply good_pure|]. by apply update_good.
Qed.

(** What a failure may change: bodies put in the store. *)
Definition bodies (w w' : World) : Prop := forall k v, blobs w !! k = Some v -> blobs w' !! k = Some v.

#[export] Instance bodies_preorder : PreOrder bodies.
Proof. split; [by intros w k v|]. intros a b c H1 H2 k v H. by apply H2, H1. Qed.

Lemma ext_bodies {A} (f : Env -> A) : keeps bodies (ext f).
Proof. by intros w k v H. Qed.

Lemma on_blobs_bodies h b : keeps bodies (on_blobs (put h b)).
Proof. intros w k v Hk. unfold on_blobs. pose proof (put_keeps h b _ _ _ Hk) as H. by destruct (put h b (blobs w)). Qed.

Lemma update_bodies f : keeps bodies (update f).
Proof. by intros w k v H. Qed.

Lemma on_outbox_bodies {A} (m : PyM Outbox.DB A) : keeps bodies (on_outbox m).
Proof. intros w k v Hk. unfold on_outbox. by destruct (m _). Qed.

Lemma on_queue_bodies {A} (m : PyM (Jobs.DB unit) A) : keeps bodies (on_queue m).
Proof. intros w k v Hk. unfold on_queue. by destruct (m _). Qed.

Lemma tables_bodies : keeps bodies tables.
Proof. by intros w k v H. Qed.

#[local] Hint Resolve ext_bodies on_blobs_bodies update_bodies on_outbox_bodies on_queue_bodies tables_bodies : keeps.

Lemma store_bodies o org stream : keeps bodies (store_observation o org stream).
Proof. unfold store_observation, violated. keeps_tac. Qed.

Lemma emit_candidate_bodies c e oid : keeps bodies (emit_candidate c e oid).
Proof. unfold emit_candidate, insert_request, violated. keeps_tac. Qed.

#[local] Hint Resolve store_bodies emit_candidate_bodies : keeps.

Lemma store_page_bodies stream l s d c : keeps bodies (store_page stream l s d c).
Proof. revert s d c. induction l as [|o l IH]; intros; cbn [store_page]; keeps_tac. Qed.

Lemma load_bodies p s : keeps bodies (load p s).
Proof. unfold load. keeps_tac. Qed.

Lemma open_bodies p s i o : keeps bodies (open p s i o).
Proof. unfold open, violated. pose proof load_bodies. keeps_tac. Qed.

Lemma request_bodies account_ tx m : keeps bodies (request_source_proof account_ tx m).
Proof. unfold request_source_proof, insert_request, violated. keeps_tac. Qed.

#[local] Hint Resolve store_page_bodies load_bodies open_bodies request_bodies : keeps.

(** A call keeps the invariant whether it returns or raises. *)
Definition safe {A} (m : M A) : Prop := forall w, ingest_wf w -> ingest_wf (m w).2 /\ grows w (m w).2.

Lemma safe_begin {A} (m : M A) : good m -> keeps bodies m -> safe (begin m).
Proof.
  intros Hg Hk w Hw. specialize (Hk w). unfold begin. destruct (m w) as [[a|e] w'] eqn:H; cbn in Hk |- *; [by apply (Hg _ _ _ H)|].
  split; [apply (wf_blobs_grow w); [done|exact Hk|done]|by apply grows_blobs].
Qed.

Lemma safe_bind {A B} (m : M A) (f : A -> M B) : safe m -> (forall a, safe (f a)) -> safe (bind m f).
Proof.
  intros Hm Hf w Hw. unfold bind. destruct (Hm w Hw) as [W G]. destruct (m w) as [[a|e] w1]; [|done]. cbn in W, G.
  destruct (Hf a w1 W) as [W2 G2]. split; [done|by etransitivity].
Qed.

Lemma safe_pure {A} (r : World -> res A) : safe (fun w => (r w, w)).
Proof. intros w Hw. split; [done|reflexivity]. Qed.

Lemma safe_ext {A} (f : Env -> A) : safe (ext f).
Proof. intros w Hw. split; [by apply (wf_blobs_grow w)|by apply grows_blobs]. Qed.

Lemma commit_page_safe stream k p crash : safe (commit_page stream k p crash).
Proof.
  unfold commit_page. apply safe_begin.
  - apply good_bind; [apply load_good|]. intros c. destruct (negb _); [apply good_pure|]. apply good_bind; [apply store_page_good|]. intros n.
    apply good_bind; [apply save_good|]. intros _. apply good_bind; [destruct crash; apply good_pure|]. intros _. apply good_pure.
  - unfold save. keeps_tac.
Qed.

Lemma open_gap_safe k d : safe (open_gap_exception k d).
Proof.
  unfold open_gap_exception. apply safe_bind; [apply safe_ext|]. intros eid. cbv zeta. apply safe_begin; [|unfold violated; keeps_tac].
  do 3 (apply good_bind; [apply good_pure|]; intros ?). apply good_bind; [apply good_pure|]. intros t.
  destruct (negb _); [apply good_pure|]. destruct (existsb _ _); [apply good_pure|]. apply good_bind; [by apply update_good|]. intros _. apply good_pure.
Qed.

Lemma turns_safe fuel acct stream before after win k r : safe (turns fuel acct stream before after win k r).
Proof.
  revert k r. induction fuel as [|n IH]; intros k r; cbn [turns]; [apply safe_pure|]. apply safe_bind.
  - unfold turn. apply safe_bind; [apply safe_ext|]. intros [p|e].
    + apply safe_bind; [apply commit_page_safe|]. intros [[a b] c]. destruct (after _); apply safe_pure.
    + destruct (bool_decide _); [|apply safe_pure]. apply safe_bind; [apply open_gap_safe|]. intros eid. apply safe_pure.
  - intros [r' [k'|]]; [apply IH|apply safe_pure].
Qed.

Lemma collect_safe fuel acct stream before after st until b ws : safe (collect fuel acct stream before after st until b ws).
Proof.
  unfold collect. apply safe_bind; [apply safe_pure|]. intros [k|]; [|apply safe_pure]. apply safe_bind; [apply safe_ext|]. intros now.
  apply safe_bind; [apply safe_pure|]. intros w. apply turns_safe.
Qed.

Lemma begin_open_safe p s i o : safe (begin (open p s i o)).
Proof. apply safe_begin; [apply open_good|apply open_bodies]. Qed.

Lemma poll_safe fuel acct stream before after i u : safe (poll fuel acct stream before after i u).
Proof.
  unfold poll. destruct (negb _); [apply safe_pure|]. apply safe_bind; [apply safe_ext|]. intros now.
  apply safe_bind; [apply begin_open_safe|]. intros st. apply collect_safe.
Qed.

Lemma collect_window_safe fuel acct stream before after f t tag : safe (collect_window fuel acct stream before after f t tag).
Proof. unfold collect_window. apply safe_bind; [apply begin_open_safe|]. intros st. apply collect_safe. Qed.

Lemma backfill_safe fuel pages_ acct stream before after s e c o : safe (backfill_account fuel pages_ acct stream before after s e c o).
Proof.
  unfold backfill_account. destruct (_ <=? _); [apply safe_pure|]. destruct (c <=? o); [apply safe_pure|]. generalize (@nil CollectResult). generalize s at 2.
  induction fuel as [|n IH]; intros cur l; cbn [backfill_loop]; (destruct (e <=? cur); [apply safe_pure|]); [apply safe_pure|].
  apply safe_bind; [apply safe_pure|]. intros ch. apply safe_bind; [apply collect_window_safe|]. intros r. apply IH.
Qed.

(** * Cursors come back as they were saved *)

Lemma iso_parse t v : iso t = Ok v -> parse (Some v) = Ok t.
Proof.
  destruct t as [t|]; cbn [iso]; [|by intros [= <-]]. destruct (representable t) eqn:Hr; [|done]. intros [= <-]. unfold parse.
  assert (String.eqb (isoformat t) "" = false) as ->.
  { apply String.eqb_neq. intros E. pose proof (isoformat_roundtrip t Hr) as H. rewrite E in H. vm_compute in H. discriminate H. }
  by rewrite isoformat_roundtrip.
Qed.

Lemma to_position_read st pos :
  to_position st = Ok pos -> from_row (c_provider st) (c_stream st) {| position := pos; backfill_from := c_backfill st |} = Ok st.
Proof.
  unfold to_position. intros (h & Hh & H)%rbind_Ok. apply rbind_Ok in H as (e & He & [= <-]). unfold from_row. cbn [position].
  change (get_field "high_water" _) with (Some h). change (get_field "window_end" _) with (Some e).
  rewrite (iso_parse _ _ Hh). cbn [rbind]. rewrite (iso_parse _ _ He). cbn [rbind].
  change (get_field "page_token" _) with (Some (jopt (page_token st))). change (get_field "overlap_seconds" _) with (Some (JInt (overlap_seconds st))).
  destruct st as [p s hw tok we o b]. by destruct tok.
Qed.

(** * No observation is skipped *)

(** An observation, whenever it was observed. *)
Definition core (o : Observation) : Observation :=
  let still b := b <| observed_at := 0 |> in
  match o with Revenue r => Revenue (r <| r_base ::= still |>) | Settle s => Settle (s <| s_base ::= still |>) end.

(** The raw rows only accumulate, and the cursors are left alone. *)
Definition steady (w w' : World) : Prop := cursors (db w') = cursors (db w) /\ forall r, r ∈ raws (db w) -> r ∈ raws (db w').

#[export] Instance steady_preorder : PreOrder steady.
Proof. split; [by intros w; split|]. intros a b c [A B] [A' B']. split; [congruence|auto]. Qed.

Lemma steady_same w w' : db w' = db w -> steady w w'.
Proof. intros H. split; by rewrite H. Qed.

Lemma ext_steady {A} (f : Env -> A) : keeps steady (ext f).
Proof. intros w. by apply steady_same. Qed.

Lemma on_blobs_steady {A} (m : PyM (gmap string string) A) : keeps steady (on_blobs m).
Proof. intros w. unfold on_blobs. destruct (m _). by apply steady_same. Qed.

Lemma on_outbox_steady {A} (m : PyM Outbox.DB A) : keeps steady (on_outbox m).
Proof. intros w. unfold on_outbox. by destruct (m _). Qed.

Lemma on_queue_steady {A} (m : PyM (Jobs.DB unit) A) : keeps steady (on_queue m).
Proof. intros w. unfold on_queue. by destruct (m _). Qed.

Lemma add_raw_steady row : keeps steady (update (fun t => t <| raws ::= fun l => l ++ [row] |>)).
Proof. intros w. split; [done|]. intros r Hr. cbn. apply elem_of_app. by left. Qed.

Lemma add_request_steady row : keeps steady (update (fun t => t <| requests ::= fun l => l ++ [row] |>)).
Proof. by intros w. Qed.

Lemma add_gap_steady row : keeps steady (update (fun t => t <| gaps ::= fun l => l ++ [row] |>)).
Proof. by intros w. Qed.

Lemma tables_steady : keeps steady tables.
Proof. intros w. by apply steady_same. Qed.

#[local] Hint Resolve ext_steady on_blobs_steady on_outbox_steady on_queue_steady add_raw_steady add_request_steady add_gap_steady tables_steady : keeps.

Lemma store_steady o org stream : keeps steady (store_observation o org stream).
Proof. unfold store_observation, violated. keeps_tac. Qed.

Lemma emit_candidate_steady c e oid : keeps steady (emit_candidate c e oid).
Proof. unfold emit_candidate, insert_request, violated. keeps_tac. Qed.

#[local] Hint Resolve store_steady emit_candidate_steady : keeps.

Lemma store_page_steady stream l s d c : keeps steady (store_page stream l s d c).
Proof. revert s d c. induction l as [|o l IH]; intros; cbn [store_page]; keeps_tac. Qed.

Lemma request_steady account_ tx m : keeps steady (request_source_proof account_ tx m).
Proof. unfold request_source_proof, insert_request, violated. keeps_tac. Qed.

Lemma load_steady p s : keeps steady (load p s).
Proof. unfold load. keeps_tac. Qed.

Lemma begin_steady {A} (m : M A) : keeps steady m -> keeps steady (begin m).
Proof. intros Hm w. specialize (Hm w). unfold begin. destruct (m w) as [[a|e] w']; [done|]. by apply steady_same. Qed.

Lemma open_gap_steady k d : keeps steady (open_gap_exception k d).
Proof.
  unfold open_gap_exception. apply keeps_bind; [typeclasses eauto|apply ext_steady|]. intros eid. cbv zeta. apply begin_steady.
  unfold violated. keeps_tac.
Qed.

(** The observation has a raw row. *)
Definition seen (t : Tables) (o : Observation) : Prop := exists r o', r ∈ raws t /\
  same_payload (provider_id cfg) "API" (payload_hash_of (canonical_payload o')) r = true /\ core o' = o.

Lemma seen_steady w w' o : steady w w' -> seen (db w) o -> seen (db w') o.
Proof. intros [_ H] (r & o' & Hr & Hs). exists r, o'. split; [by apply H|done]. Qed.

Lemma store_page_seen stream l s d c w n w' :
  store_page stream l s d c w = (Ok n, w') -> forall o, o ∈ l -> seen (db w') (core o).
Proof.
  revert s d c w. induction l as [|x l IH]; intros s d c w H o Ho; [by apply elem_of_nil in Ho|]. cbn [store_page] in H.
  apply bind_Ok in H as ([oid new] & w1 & Hs & H).
  assert (Hx : seen (db w1) (core x)).
  { destruct (store_observation_Ok _ _ _ _ _ _ _ Hs) as (_ & _ & [(_ & -> & r & Hr & Hp & _)|(_ & _ & _ & r' & ob & _ & ->)]).
    - by exists r, x.
    - eexists _, x. split_and!; [apply elem_of_app; right; by left| |done]. unfold same_payload. cbn. by rewrite !String.eqb_refl. }
  assert (Hrest : exists w2 s2 d2 c2, steady w1 w2 /\ store_page stream l s2 d2 c2 w2 = (Ok n, w')).
  { destruct (negb new); [by exists w1, s, (d + 1), c|]. destruct x as [rv|st]; [by exists w1, (s + 1), d, c|].
    destruct (candidate_from_settlement _ _ _) as [cand|]; [|by exists w1, (s + 1), d, c].
    apply bind_Ok in H as (rid & w2 & Hc & H). eexists w2, _, _, _. split; [by eapply keeps_run; [apply emit_candidate_steady|]|exact H]. }
  destruct Hrest as (w2 & s2 & d2 & c2 & Hst & Hp). apply elem_of_cons in Ho as [->|Ho]; [|by eapply IH].
  eapply seen_steady; [|exact Hx]. etransitivity; [exact Hst|]. by eapply keeps_run; [apply store_page_steady|].
Qed.

(** ** One stream and its collectors *)

Section Stream.
Context (acct : AccountRef) (stream : string) (init : Z).

Definition name : string := stream_name stream acct.
Definition overlap : Z := cfg_overlap cfg * 1000000.
Definition row (t : Tables) : option CursorRow := cursors t !! (provider_id cfg, name).

Definition opening : M CursorState := begin (open (provider_id cfg) name (Some (Aware init)) (cfg_overlap cfg)).

(** Collectors of the stream, interleaved: each opens the cursor, then takes
    its turns; it may die between two of them, and anything else may happen to
    the tables that leaves this cursor and the raw rows alone. *)
Inductive sys : World * list Task -> World * list Task -> Prop :=
| sys_open until w st w' k ts :
    opening w = (Ok st, w') -> plan st until false None = Ok (Some k) -> sys (w, ts) (w', k :: ts)
| sys_idle w o w' ts : opening w = (o, w') -> sys (w, ts) (w', ts)
| sys_turn before after win r k ts1 ts2 w o w' :
    start win = t_from k -> end_ win = t_to k -> turn acct stream before after win k r w = (o, w') ->
    sys (w, ts1 ++ k :: ts2) (w', ts1 ++ match o with Ok (_, Some k') => [k'] | _ => [] end ++ ts2)
| sys_crash k ts1 ts2 w : sys (w, ts1 ++ k :: ts2) (w, ts1 ++ ts2)
| sys_other w w' ts : row (db w') = row (db w) -> (forall r, r ∈ raws (db w) -> r ∈ raws (db w')) -> sys (w, ts) (w', ts).

(** A provider that answers from a fixed [truth]: the pages of a window,
    followed from its start, hold every observation dated in it. [rest s e c]
    is what the pages from [c] on still hold. *)
Record honest (truth : list Observation) (rest : Z -> Z -> option Cursor -> list Observation) : Prop := {
  hn_start : forall s e o, o ∈ truth -> s <= as_of (base o) <= e -> o ∈ rest s e None;
  hn_page : forall t w c p, fetch (env t) stream acct w c = Ok p -> forall o, o ∈ rest (start w) (end_ w) c ->
    (exists o', o' ∈ items p /\ core o' = o) \/ has_more (next p) = true /\ o ∈ rest (start w) (end_ w) (Some (next p));
}.

(** ** The invariant *)

Context (truth : list Observation) (rest : Z -> Z -> option Cursor -> list Observation).

Definition pending (t : Tables) (s e : Z) (c : option Cursor) : Prop :=
  forall o, o ∈ truth -> s <= as_of (base o) <= e -> seen t o \/ o ∈ rest s e c.

Record cursor_ok (t : Tables) (st : CursorState) (h : Z) : Prop := {
  co_high : high_water st = Some h;
  co_key : c_provider st = provider_id cfg /\ c_stream st = name;
  co_overlap : overlap_seconds st = cfg_overlap cfg;
  co_after : init <= h;
  co_covered : h = init \/ forall o, o ∈ truth -> init - overlap <= as_of (base o) <= h -> seen t o;
  co_inflight : forall tok e, page_token st = Some tok -> window_end st = Some e ->
    h < e /\ pending t (h - overlap) e (Some {| token := Some tok; has_more := true |});
}.

Definition row_ok (t : Tables) : Prop :=
  forall r, row t = Some r -> exists st h, from_row (provider_id cfg) name r = Ok st /\ cursor_ok t st h.

Record task_ok (t : Tables) (k : Task) : Prop := {
  ta_high : high_water (t_st k) = Some (t_from k + overlap);
  ta_key : c_provider (t_st k) = provider_id cfg /\ c_stream (t_st k) = name;
  ta_overlap : overlap_seconds (t_st k) = cfg_overlap cfg;
  ta_after : t_from k + overlap < t_to k;
  ta_pending : pending t (t_from k) (t_to k) (t_cursor k);
}.

Definition sys_inv (s : World * list Task) : Prop := row_ok (db s.1) /\ forall k, k ∈ s.2 -> task_ok (db s.1) k.

Context (Hhonest : honest truth rest) (Hoverlap : 0 <= cfg_overlap cfg).

Definition more (t t' : Tables) : Prop := forall r, r ∈ raws t -> r ∈ raws t'.

Lemma seen_more t t' o : more t t' -> seen t o -> seen t' o.
Proof. intros H (r & o' & Hr & Hs). exists r, o'. split; [by apply H|done]. Qed.

Lemma pending_more t t' s e c : more t t' -> pending t s e c -> pending t' s e c.
Proof. intros Hm H o Ho Hd. destruct (H o Ho Hd); [left; by eapply seen_more|by right]. Qed.

Lemma cursor_more t t' st h : more t t' -> cursor_ok t st h -> cursor_ok t' st h.
Proof.
  intros Hm [A B C D E F]. split; try done.
  - destruct E as [|E]; [by left|right]. intros o Ho Hd. by eapply seen_more, E.
  - intros tok e Ht He. destruct (F tok e Ht He). split; [done|by eapply pending_more].
Qed.

Lemma row_more t t' : more t t' -> row t' = row t -> row_ok t -> row_ok t'.
Proof. intros Hm Hr H r. rewrite Hr. intros Hrow. destruct (H r Hrow) as (st & h & Hf & Hc). exists st, h. split; [done|by eapply cursor_more]. Qed.

Lemma task_more t t' k : more t t' -> task_ok t k -> task_ok t' k.
Proof. intros Hm [A B C D E]. split; try done. by eapply pending_more. Qed.

Lemma load_Ok p s w o w' : load p s w = (Ok o, w') ->
  w' = w /\ match o with None => cursors (db w) !! (p, s) = None | Some st => exists r, cursors (db w) !! (p, s) = Some r /\ from_row p s r = Ok st end.
Proof.
  unfold load. intros H. apply bind_Ok in H as (t & w1 & Ht & H). apply ingest_tables_Ok in Ht as [-> ->].
  destruct (cursors (db w) !! (p, s)) as [r|] eqn:Hr; [|by apply ret_Ok in H as [-> ->]].
  apply bind_Ok in H as (st & w1 & Hl & H). unfold lift_res in Hl. injection Hl as Hf <-. apply ret_Ok in H as [-> ->]. split; [done|by exists r].
Qed.

(** Opening reads the cursor, or creates it at its start. *)
Lemma opening_Ok w st w' : opening w = (Ok st, w') -> row_ok (db w) ->
  raws (db w') = raws (db w) /\ row_ok (db w') /\ exists h, cursor_ok (db w') st h.
Proof.
  intros H Hok. unfold opening, begin in H. destruct (open _ _ _ _ w) as [[st0|e] w0] eqn:Ho; [|done]. injection H as <- <-.
  unfold open in Ho. apply bind_Ok in Ho as (o1 & w1 & Hl & Ho). apply load_Ok in Hl as [-> Hl]. destruct o1 as [st1|].
  { apply ret_Ok in Ho as [-> ->]. destruct Hl as (r & Hr & Hf). destruct (Hok r Hr) as (st2 & h & Hf2 & Hc).
    rewrite Hf in Hf2. injection Hf2 as <-. split; [done|split; [done|by exists h]]. }
  apply bind_Ok in Ho as (pos & w1 & Hp & Ho). unfold lift_res in Hp. injection Hp as Hp <-.
  apply bind_Ok in Ho as (t & w1 & Ht & Ho). apply ingest_tables_Ok in Ht as [-> ->]. apply bind_Ok in Ho as (u & w1 & Hi & Ho).
  rewrite bool_decide_eq_false_2 in Hi by (rewrite Hl; by intros [? [=]]). destruct (negb _); [done|]. destruct (negb _); [done|]. apply ingest_update_Ok in Hi as ->.
  apply bind_Ok in Ho as (o2 & w2 & Hl2 & Ho). apply load_Ok in Hl2 as [-> Hl2]. destruct o2 as [st2|]; [|done]. apply ret_Ok in Ho as [-> ->].
  destruct Hl2 as (r & Hr & Hf). cbn in Hr. rewrite lookup_insert_eq in Hr. injection Hr as <-.
  apply to_position_read in Hp. cbn in Hp. rewrite Hp in Hf. injection Hf as <-. cbn.
  assert (Hc : cursor_ok ((db w) <| cursors ::= <[(provider_id cfg, name) := {| position := pos; backfill_from := None |}]> |>)
            {| c_provider := provider_id cfg; c_stream := name; high_water := Some init; page_token := None; window_end := None;
               overlap_seconds := cfg_overlap cfg; c_backfill := None |} init) by (split; try done; by left).
  split; [done|]. split; [|by exists init]. intros r. unfold row. cbn. rewrite lookup_insert_eq. intros [= <-]. by eexists _, init.
Qed.

Lemma plan_ok t st h until k : cursor_ok t st h -> plan st until false None = Ok (Some k) -> task_ok t k.
Proof.
  intros Hc H. unfold plan in H. rewrite (co_high _ _ _ Hc) in H. cbn [default] in H. apply rbind_Ok in H as (from & Hfrom & H).
  unfold shift in Hfrom. destruct (representable _); [|done]. injection Hfrom as <-. rewrite (co_overlap _ _ _ Hc) in H.
  assert (Hf : h + - cfg_overlap cfg * 1000000 = h - overlap) by (unfold overlap; lia).
  destruct (page_token st) as [tok|] eqn:Ht; [destruct (window_end st) as [e|] eqn:He|].
  - injection H as <-. destruct (co_inflight _ _ _ Hc tok e Ht He) as [Hlt Hp]. split; cbn; try apply Hc.
    + rewrite (co_high _ _ _ Hc). f_equal. lia.
    + lia.
    + by rewrite Hf.
  - apply rbind_Ok in H as (e & _ & H). destruct (e <=? h) eqn:Hle; [done|]. injection H as <-. split; cbn; try apply Hc.
    + rewrite (co_high _ _ _ Hc). f_equal. lia.
    + lia.
    + intros o Ho Hd. right. by eapply hn_start.
  - apply rbind_Ok in H as (e & _ & H). destruct (e <=? h) eqn:Hle; [done|]. injection H as <-. split; cbn; try apply Hc.
    + rewrite (co_high _ _ _ Hc). f_equal. lia.
    + lia.
    + intros o Ho Hd. right. by eapply hn_start.
Qed.

(** A committed page: the items are seen, and the cursor is the next one. *)
Lemma commit_page_Ok k p crash w n w' :
  commit_page stream k p crash w = (Ok n, w') -> c_provider (t_st k) = provider_id cfg -> c_stream (t_st k) = name ->
  (exists r, row (db w) = Some r /\ from_row (provider_id cfg) name r = Ok (t_st k)) /\
  (exists r, row (db w') = Some r /\ from_row (provider_id cfg) name r = Ok (next_state k (next p))) /\
  more (db w) (db w') /\ forall o, o ∈ items p -> seen (db w') (core o).
Proof.
  intros H Hp Hs. unfold commit_page, begin in H. destruct (bind _ _ w) as [[n0|e] w0] eqn:Hm; [|done].
  injection H as <- <-. rewrite Hp, Hs in Hm. apply bind_Ok in Hm as (cur & w1 & Hl & Hm). apply load_Ok in Hl as [-> Hl].
  destruct (bool_decide (cur = Some (t_st k))) eqn:Hcur; [|done]. apply bool_decide_eq_true_1 in Hcur as ->. cbn [negb] in Hm.
  destruct Hl as (r0 & Hr0 & Hf0). apply bind_Ok in Hm as (n1 & w2 & Hst & Hm). apply bind_Ok in Hm as (u & w3 & Hsv & Hm).
  apply bind_Ok in Hm as (u2 & w4 & Hcr & Hm). apply ret_Ok in Hm as [-> ->]. destruct crash; [done|]. apply ret_Ok in Hcr as [_ ->].
  unfold save in Hsv. apply bind_Ok in Hsv as (pos & w5 & Hpos & Hsv). unfold lift_res in Hpos. injection Hpos as Hpos <-. apply ingest_update_Ok in Hsv as ->.
  destruct (keeps_run steady _ _ _ _ (store_page_steady _ _ _ _ _) Hst) as [Hcu Hra].
  assert (Hns : c_provider (next_state k (next p)) = provider_id cfg /\ c_stream (next_state k (next p)) = name).
  { unfold next_state. by destruct (has_more (next p)). }
  destruct Hns as [Hns1 Hns2]. apply to_position_read in Hpos. rewrite Hns1, Hns2 in *. split_and!.
  - by exists r0.
  - eexists. unfold row. cbn. rewrite Hcu, lookup_alter_eq, Hr0. split; [reflexivity|exact Hpos].
  - exact Hra.
  - intros o Ho. destruct (store_page_seen _ _ _ _ _ _ _ _ Hst o Ho) as (r & o' & Hr & Hsd). by exists r, o'.
Qed.

(** One turn: what was still pending is stored, or is on the next page. *)
Lemma turn_ok before after win k r w o w' :
  start win = t_from k -> end_ win = t_to k -> turn acct stream before after win k r w = (o, w') ->
  row_ok (db w) -> task_ok (db w) k ->
  row_ok (db w') /\ more (db w) (db w') /\ forall r' k', o = Ok (r', Some k') -> task_ok (db w') k'.
Proof.
  intros Hs He H Hrow Hk. destruct (ta_key _ _ Hk) as [Kp Ks]. unfold turn in H. unfold bind at 1, ext at 1, bind at 1, get at 1, bind at 1, modify at 1, ret at 1 in H.
  cbn beta iota in H. set (w1 := w <| ticks ::= S |>) in *. assert (Hd1 : db w1 = db w) by done.
  destruct (fetch (env (ticks w)) stream acct win (t_cursor k)) as [p|e] eqn:Hp.
  2:{ assert (steady w1 w' /\ forall r' k', o <> Ok (r', Some k')) as [[Hcu Hra] Hno].
      { destruct (bool_decide _); [|unfold lift_res in H; injection H as <- <-; by split].
        destruct (open_gap_exception k (exn_msg e) w1) as [g w2] eqn:Hg. pose proof (keeps_run steady _ _ _ _ (open_gap_steady _ _) Hg) as Hst.
        unfold bind in H. rewrite Hg in H. destruct g; injection H as <- <-; by split. }
      split_and!; [eapply row_more; [exact Hra|unfold row; by rewrite Hcu|by rewrite Hd1]|exact Hra|]. intros r' k' ->. by destruct (Hno r' k'). }
  cbv zeta in H. destruct (commit_page stream k p (before (pages r + 1)) w1) as [[n|e] w2] eqn:Hc.
  2:{ unfold bind in H. rewrite Hc in H. injection H as <- <-. assert (Hd : db w2 = db w).
      { unfold commit_page, begin in Hc. destruct (bind _ _ w1) as [[]]; [done|]. by injection Hc as _ <-. }
      rewrite Hd. split_and!; [done|by intros x|done]. }
  destruct (commit_page_Ok _ _ _ _ _ _ Hc Kp Ks) as ((r0 & Hr0 & Hf0) & (r1 & Hr1 & Hf1) & Hm & Hseen). rewrite Hd1 in *.
  destruct (Hrow r0 Hr0) as (st & h & Hf & Hco). rewrite Hf0 in Hf. injection Hf as <-.
  assert (Hh : h = t_from k + overlap) by (pose proof (co_high _ _ _ Hco) as E; rewrite (ta_high _ _ Hk) in E; by injection E).
  assert (Hnext : forall o, o ∈ truth -> t_from k <= as_of (base o) <= t_to k ->
            seen (db w2) o \/ has_more (next p) = true /\ o ∈ rest (t_from k) (t_to k) (Some (next p))).
  { intros x Hx Hdx. destruct (ta_pending _ _ Hk x Hx Hdx) as [Hsn|Hin]; [left; by eapply seen_more|]. rewrite <- Hs, <- He in Hin.
    destruct (hn_page _ _ Hhonest _ _ _ _ Hp x Hin) as [(x' & Hx' & <-)|[Hmr Hin2]]; [left; by apply Hseen|right]. by rewrite Hs, He in Hin2. }
  assert (Hcov : has_more (next p) = false -> forall x, x ∈ truth -> init - overlap <= as_of (base x) <= t_to k -> seen (db w2) x).
  { intros Hno x Hx Hdx. destruct (Z.le_gt_cases (t_from k) (as_of (base x))) as [Hle|Hgt].
    - destruct (Hnext x Hx) as [|[Hmr _]]; [lia|done|congruence].
    - destruct (co_covered _ _ _ Hco) as [Hi|Hi]; [lia|]. eapply seen_more; [exact Hm|]. apply Hi; [done|]. unfold overlap in *. lia. }
  assert (Hrow2 : row_ok (db w2)).
  { intros rx Hrx. rewrite Hr1 in Hrx. injection Hrx as <-. exists (next_state k (next p)). unfold next_state in Hf1 |- *. destruct (has_more (next p)) eqn:Hmr.
    - exists h. split; [done|]. split; cbn; try apply Hco; try apply Hk.
      + destruct (co_covered _ _ _ Hco) as [|Hi]; [by left|right]. intros x Hx Hdx. eapply seen_more; [exact Hm|by apply Hi].
      + intros tok e Ht [= <-]. pose proof (ta_after _ _ Hk). split; [lia|]. intros x Hx Hdx. replace (h - overlap) with (t_from k) in * by lia.
        destruct (Hnext x Hx Hdx) as [|[_ Hin]]; [by left|right]. by destruct (next p) as [tk hm]; cbn in *; subst.
    - exists (t_to k). split; [done|]. split; cbn; try apply Hco; try apply Hk; try done.
      + pose proof (ta_after _ _ Hk). pose proof (co_after _ _ _ Hco). lia.
      + right. intros x Hx Hdx. by apply Hcov. }
  unfold bind in H. rewrite Hc in H. destruct n as [[s d] c]. destruct (after (pages r + 1)).
  { injection H as <- <-. by split_and!. }
  injection H as <- <-. split_and!; [done|done|]. intros r' k' [= _ Hk']. destruct (has_more (next p)) eqn:Hmr; [|done]. injection Hk' as <-.
  split; cbn; unfold next_state; rewrite ?Hmr; cbn; try apply Hk. intros x Hx Hdx. destruct (Hnext x Hx Hdx) as [|[_ Hin]]; [by left|by right].
Qed.

Lemma sys_inv_step s s' : sys s s' -> sys_inv s -> sys_inv s'.
Proof.
  intros Hstep [Hrow Hts]. destruct Hstep as [until w st w' k ts Ho Hp|w o w' ts Ho|before after win r k ts1 ts2 w o w' Hs He Ht|k ts1 ts2 w|w w' ts Hr Hm]; cbn in *.
  - destruct (opening_Ok _ _ _ Ho Hrow) as (Hra & Hrow' & h & Hco). split; [done|]. cbn. intros k' [->|Hk']%elem_of_cons; [by eapply plan_ok|].
    eapply task_more; [|by apply Hts]. intros r Hr. by rewrite Hra.
  - destruct o as [st|e].
    + destruct (opening_Ok _ _ _ Ho Hrow) as (Hra & Hrow' & _). split; [done|]. cbn. intros k' Hk'. eapply task_more; [|by apply Hts]. intros r Hr. by rewrite Hra.
    + assert (db w' = db w) as E.
      { unfold opening, begin in Ho. destruct (open _ _ _ _ w) as [[]]; [done|]. by injection Ho as _ <-. }
      split; cbn; rewrite E; done.
  - destruct (turn_ok _ _ _ _ _ _ _ _ Hs He Ht Hrow) as (Hrow' & Hm & Hk'); [apply Hts, elem_of_app; right; by left|]. split; [done|]. cbn.
    intros x [Hx|[Hx|Hx]%elem_of_app]%elem_of_app.
    + eapply task_more; [exact Hm|]. apply Hts, elem_of_app. by left.
    + destruct o as [[r' [k'|]]|e]; [|by apply elem_of_nil in Hx..]. apply list_elem_of_singleton in Hx as ->. by eapply Hk'.
    + eapply task_more; [exact Hm|]. apply Hts, elem_of_app. right. by right.
  - split; [done|]. cbn. intros x Hx. apply Hts. apply elem_of_app in Hx as [?|?]; apply elem_of_app; [by left|right; by right].
  - split; [by eapply row_more|]. cbn. intros x Hx. eapply task_more; [exact Hm|by apply Hts].
Qed.

Lemma turn_bounds before after win k r w r' k' w' :
  turn acct stream before after win k r w = (Ok (r', Some k'), w') -> t_from k' = t_from k /\ t_to k' = t_to k.
Proof.
  unfold turn. intros H. apply bind_Ok in H as ([p|e] & w1 & _ & H).
  - apply bind_Ok in H as ([[s d] c] & w2 & _ & H). destruct (after _); [done|]. apply ret_Ok in H as [[= _ H] _].
    destruct (has_more (next p)); [by injection H as ->|done].
  - destruct (bool_decide _); [|done]. apply bind_Ok in H as (eid & w2 & _ & H). by apply ret_Ok in H as [[= _ H] _].
Qed.

Lemma turns_sys fuel before after win k r w ts o w' :
  start win = t_from k -> end_ win = t_to k -> turns fuel acct stream before after win k r w = (o, w') -> rtc sys (w, k :: ts) (w', ts).
Proof.
  revert k r w. induction fuel as [|n IH]; intros k r w Hs He H; cbn [turns] in H.
  { injection H as _ <-. apply rtc_once, (sys_crash k [] ts). }
  destruct (turn acct stream before after win k r w) as [x w1] eqn:Ht.
  pose proof (sys_turn before after win r k [] ts w x w1 Hs He Ht) as Hstep. cbn [app] in Hstep.
  eapply rtc_l; [exact Hstep|]. unfold bind in H. rewrite Ht in H. destruct x as [[r' [k'|]]|e]; cbn in H |- *.
  - destruct (turn_bounds _ _ _ _ _ _ _ _ _ Ht) as [<- <-] in Hs, He. by eapply IH.
  - by injection H as _ <-.
  - by injection H as _ <-.
Qed.

Lemma make_window_bounds s e a t w : make_window s e a t = Ok w -> start w = s /\ end_ w = e.
Proof. unfold make_window. destruct (a <? 0); [done|]. destruct (e <? s); [done|]. by intros [= <-]. Qed.

(** A run of [poll] is a sequence of steps of the interleaved system: it
    opens the cursor, takes its turns, and leaves no collector behind, whether
    it returns, raises or dies. *)
Theorem poll_refines fuel before after until w ts :
  rtc sys (w, ts) ((poll fuel acct stream before after (Some (Aware init)) until w).2, ts).
Proof.
  destruct (poll _ _ _ _ _ _ _ w) as [o w'] eqn:H. cbn. revert H. unfold poll. destruct (negb _); [by intros [= _ <-]|]. intros H. unfold bind at 1 in H. unfold ext at 1, bind at 1, get, bind at 1, modify, ret at 1 in H. cbn beta iota in H.
  set (w1 := w <| ticks ::= S |>) in *. apply (rtc_l _ _ (w1, ts)); [by apply sys_other|].
  fold name in H. fold opening in H. unfold bind at 1 in H. destruct (opening w1) as [[st|e] w2] eqn:Ho; [|injection H as _ <-; by apply rtc_once, (sys_idle w1 (Raise e))].
  unfold collect in H. unfold bind at 1, lift_res at 1 in H. destruct (plan st _ false None) as [[k|]|e] eqn:Hp.
  - eapply rtc_l; [eapply sys_open; [exact Ho|exact Hp]|]. unfold bind at 1 in H. unfold ext at 1, bind at 1, get, bind at 1, modify, ret at 1 in H. cbn beta iota in H.
    set (w3 := w2 <| ticks ::= S |>) in *. apply (rtc_l _ _ (w3, k :: ts)); [by apply sys_other|].
    unfold bind at 1, lift_res at 1 in H. destruct (make_window _ _ _ _) as [win|e] eqn:Hw; [|injection H as _ <-; apply rtc_once, (sys_crash k [] ts)].
    apply make_window_bounds in Hw as [Hs He]. by eapply turns_sys.
  - injection H as _ <-. by apply rtc_once, (sys_idle w1 (Ok st)).
  - injection H as _ <-. by apply rtc_once, (sys_idle w1 (Ok st)).
Qed.

(** C29: Nothing is skipped: from tables without a cursor for the stream, and
    whatever crashes, rate limits, gaps and races between collectors happen, an
    observation dated from the start (less the overlap) up to the stored
    high-water mark has a raw row, provided the provider's pages of a window
    hold what is dated in it. *)
Theorem no_gap w0 w ts r st h :
  row (db w0) = None -> rtc sys (w0, []) (w, ts) ->
  row (db w) = Some r -> from_row (provider_id cfg) name r = Ok st -> high_water st = Some h ->
  h = init \/ forall o, o ∈ truth -> init - overlap <= as_of (base o) <= h -> seen (db w) o.
Proof.
  intros H0 Hrun Hr Hf Hh. assert (Hinv : sys_inv (w, ts)).
  { assert (Hi : sys_inv (w0, [])) by (split; [intros r' Hr'; cbn in Hr'; congruence|by intros k ?%elem_of_nil]).
    remember (w0, []) as s0 eqn:E0. remember (w, ts) as s1 eqn:E1. clear E0 E1 Hr. revert Hi. induction Hrun as [s|s1' s2 s3 Hst _ IH]; [done|].
    intros Hi. by apply IH, (sys_inv_step _ _ Hst). }
  destruct Hinv as [Hrow _]. destruct (Hrow r Hr) as (st' & h' & Hf' & Hc). rewrite Hf in Hf'. injection Hf' as <-.
  pose proof (co_high _ _ _ Hc) as E. rewrite Hh in E. injection E as <-. apply (co_covered _ _ _ Hc).
Qed.

(** Calls for other streams do not touch this cursor. *)
Definition foreign (w w' : World) : Prop := row (db w') = row (db w) /\ more (db w) (db w').

#[local] Instance foreign_preorder : PreOrder foreign.
Proof. split; [intros w; split; [done|by unfold more]|]. intros a b c [A B] [A' B']. split; [congruence|]. intros r Hr. by apply B', B. Qed.

Lemma foreign_same w w' : db w' = db w -> foreign w w'.
Proof. intros H. unfold foreign, more. by rewrite H. Qed.

Lemma steady_foreign {A} (m : M A) : keeps steady m -> keeps foreign m.
Proof. intros Hm w. destruct (Hm w) as [Hc Hr]. split; [unfold row; by rewrite Hc|exact Hr]. Qed.

Lemma begin_foreign {A} (m : M A) : keeps foreign m -> keeps foreign (begin m).
Proof. intros Hm w. specialize (Hm w). unfold begin. destruct (m w) as [[a|e] w']; [done|]. by apply foreign_same. Qed.

Lemma save_foreign st : (c_provider st, c_stream st) <> (provider_id cfg, name) -> keeps foreign (save st).
Proof.
  intros Hne w. unfold save, bind, lift_res. destruct (to_position st); [|by apply foreign_same]. split; [|by intros r].
  unfold row. cbn. by rewrite lookup_alter_ne.
Qed.

Lemma commit_foreign s k p crash : (c_provider (t_st k), c_stream (t_st k)) <> (provider_id cfg, name) -> keeps foreign (commit_page s k p crash).
Proof.
  intros Hne. assert (Hs : forall n, keeps foreign (save (next_state k n))).
  { intros n. apply save_foreign. unfold next_state. by destruct (has_more n). }
  unfold commit_page. apply begin_foreign. pose proof (fun p s => steady_foreign _ (load_steady p s)) as Hl.
  pose proof (fun s l a b c => steady_foreign _ (store_page_steady s l a b c)) as Hp. keeps_tac.
Qed.

Lemma collect_foreign fuel a s before after st until b ws :
  (c_provider st, c_stream st) <> (provider_id cfg, name) -> keeps foreign (collect fuel a s before after st until b ws).
Proof.
  intros Hne. pose proof (fun A f => steady_foreign _ (@ext_steady A f)) as Hx. pose proof (fun k d => steady_foreign _ (open_gap_steady k d)) as Hg.
  assert (Ht : forall n win k r, (c_provider (t_st k), c_stream (t_st k)) <> (provider_id cfg, name) -> keeps foreign (turns n a s before after win k r)).
  { induction n as [|n IH]; intros win k r Hk; cbn [turns]; [apply keeps_pure; typeclasses eauto|]. pose proof (fun p c => commit_foreign s k p c Hk) as Hc.
    intros w. unfold bind. assert (Hturn : keeps foreign (turn a s before after win k r)) by (unfold turn; keeps_tac).
    specialize (Hturn w). destruct (turn a s before after win k r w) as [[[r' [k'|]]|e] w1] eqn:E; cbn in Hturn |- *; [|done..].
    etransitivity; [exact Hturn|]. apply IH. unfold turn in E. apply bind_Ok in E as ([p|e] & w2 & _ & E).
    - apply bind_Ok in E as ([[x y] z] & w3 & _ & E). destruct (after _); [done|]. apply ret_Ok in E as [[= _ E] _].
      destruct (has_more (next p)) eqn:Hm; [|done]. injection E as ->. cbn. unfold next_state. by rewrite Hm.
    - destruct (bool_decide _); [|done]. apply bind_Ok in E as (eid & w3 & _ & E). by apply ret_Ok in E as [[= _ E] _]. }
  unfold collect. intros w. unfold bind at 1, lift_res at 1. destruct (plan st until b ws) as [[k|]|e] eqn:Hp; [|by apply foreign_same..].
  assert (Hk : t_st k = st).
  { unfold plan in Hp. destruct (high_water st); [|done]. apply rbind_Ok in Hp as (f & _ & Hp).
    destruct (page_token st); [destruct (window_end st)|]; [by injection Hp as <-|..]; apply rbind_Ok in Hp as (e & _ & Hp); destruct (_ && _); by injection Hp as <- || done. }
  assert (Hk' : forall win, keeps foreign (turns fuel a s before after win k (no_result (c_stream st)))) by (intros win; apply Ht; by rewrite Hk).
  revert w. change (keeps foreign (let* now := ext clock in let* w := lift_res (make_window (t_from k) (t_to k) (cfg_max_age cfg) (Some now)) in
    turns fuel a s before after w k (no_result (c_stream st)))). keeps_tac.
Qed.
End Stream.

(** * Round trip and bounds *)

(** A saved cursor reads back as it was saved: every state whose datetimes
    exist (years 1 to 9999) is written, and [load] of its row returns it. *)
Theorem cursor_roundtrip st w :
  is_Some (cursors (db w) !! (c_provider st, c_stream st)) ->
  (forall t, high_water st = Some t \/ window_end st = Some t -> representable t = true) ->
  exists w', save st w = (Ok tt, w') /\ load (c_provider st) (c_stream st) w' = (Ok (Some st), w').
Proof.
  intros [r0 Hr0] Hrep. assert (Hiso : forall t, high_water st = t \/ window_end st = t -> exists v, iso t = Ok v).
  { intros [t|] Ht; cbn [iso]; [|by eexists]. rewrite (Hrep t Ht). by eexists. }
  destruct (Hiso (high_water st)) as [h Hh]; [by left|]. destruct (Hiso (window_end st)) as [e He]; [by right|].
  destruct (to_position st) as [pos|x] eqn:Hpos; [|unfold to_position in Hpos; rewrite Hh in Hpos; cbn in Hpos; by rewrite He in Hpos].
  eexists. split; [unfold save, bind, lift_res; rewrite Hpos; reflexivity|].
  unfold load, bind, tables, gets. cbn. rewrite lookup_alter_eq, Hr0. cbn.
  apply to_position_read in Hpos. unfold lift_res. by rewrite Hpos.
Qed.

Definition us : Z := 1000000.

Lemma shift_ok t d : representable (t + d) = true -> shift t d = Ok (t + d).
Proof. unfold shift. by intros ->. Qed.

(** The windows of a backfill, one after the other. *)
Fixpoint collect_all (pages_ : nat) (acct : AccountRef) (stream : string) (before after : Z -> bool) (l : list (Z * Z)) (results : list CollectResult) :
    M (list CollectResult) :=
  match l with
  | [] => ret results
  | c :: l' =>
      let* r := collect_window pages_ acct stream before after c.1 c.2 (backfill_tag c) in
      collect_all pages_ acct stream before after l' (results ++ [r])
  end.

Section Backfill.
Context (start end_ chunk overlap : Z).
Context (Hchunk : 0 <= overlap < chunk) (Hlow : representable (start - overlap * us) = true) (Hhigh : representable (end_ + chunk * us) = true).

Lemma between_representable t : start - overlap * us <= t <= end_ + chunk * us -> representable t = true.
Proof. intros Ht. unfold representable in *. lia. Qed.

Lemma chunk_at_ok cursor : start <= cursor < end_ ->
  chunk_at start end_ cursor chunk overlap = Ok (Z.max start (cursor - overlap * us), Z.min end_ (cursor + chunk * us)).
Proof.
  intros Hc. unfold chunk_at. fold us. assert (0 < us) by done.
  rewrite shift_ok by (apply between_representable; nia). cbn [rbind]. rewrite shift_ok by (apply between_representable; nia). cbn [rbind].
  do 3 f_equal. lia.
Qed.

Lemma backfill_windows n : forall cursor, start <= cursor < end_ -> (end_ - cursor) / (chunk * us) <= Z.of_nat n ->
  exists l, zlen l <= (end_ - cursor) / (chunk * us) + 1 /\
    (forall t, cursor <= t <= end_ -> exists c, c ∈ l /\ c.1 <= t <= c.2) /\
    (forall c, c ∈ l -> start <= c.1 /\ c.1 < c.2 /\ c.2 <= end_ /\ c.2 - c.1 <= (chunk + overlap) * us) /\
    forall fuel pages_ acct stream before after results w, (length l <= fuel)%nat ->
      backfill_loop fuel pages_ acct stream before after start end_ cursor chunk overlap results w =
      collect_all pages_ acct stream before after l results w.
Proof.
  assert (0 < us) by done. assert (0 < chunk * us) by nia.
  induction n as [|n IH]; intros cursor Hc Hn.
  all: pose proof (chunk_at_ok cursor Hc) as Hw; set (c := (Z.max start _, Z.min end_ _)) in Hw.
  all: assert (Hcw : start <= c.1 /\ c.1 < c.2 /\ c.2 <= end_ /\ c.2 - c.1 <= (chunk + overlap) * us /\ c.1 <= cursor) by (cbn; nia).
  all: destruct (Z.le_gt_cases end_ (cursor + chunk * us)) as [Hend|Hmore].
  1,3: exists [c]; split_and!;
    [ unfold zlen; cbn; assert (0 <= (end_ - cursor) / (chunk * us)) by (apply Z.div_pos; lia); lia
    | intros t Ht; exists c; split; [by left|cbn in *; lia]
    | intros c' ->%list_elem_of_singleton; tauto
    | intros fuel pages_ acct stream before after results w Hf; destruct fuel as [|fuel]; [cbn in Hf; lia|]; cbn [backfill_loop collect_all];
      destruct (Z.leb_spec end_ cursor); [lia|]; rewrite Hw; unfold bind, lift_res; destruct (collect_window _ _ _ _ _ _ _ _ w) as [[r|e] w1]; [|done];
      destruct fuel; cbn [backfill_loop]; (destruct (Z.leb_spec end_ c.2) as [|Hx]; [done|cbn in Hx; lia]) ].
  { exfalso. assert (1 <= (end_ - cursor) / (chunk * us)); [|lia]. apply Z.div_le_lower_bound; lia. }
  assert (Hc2 : c.2 = cursor + chunk * us) by (cbn; lia).
  assert (Hdiv : (end_ - cursor) / (chunk * us) = (end_ - c.2) / (chunk * us) + 1).
  { rewrite Hc2. replace (end_ - cursor) with (end_ - (cursor + chunk * us) + 1 * (chunk * us)) by lia. rewrite Z.div_add by lia. lia. }
  destruct (IH c.2) as (l & Hlen & Hcov & Hin & Hrun); [lia|lia|]. exists (c :: l). split_and!.
  - unfold zlen in *. rewrite length_cons, Nat2Z.inj_succ. lia.
  - intros t Ht. destruct (Z.le_gt_cases t c.2) as [|Hgt]; [exists c; split; [by left|lia]|].
    destruct (Hcov t) as (c' & Hc' & Hb); [lia|]. exists c'. split; [by right|done].
  - intros c' [->|Hc']%elem_of_cons; [tauto|by apply Hin].
  - intros fuel pages_ acct stream before after results w Hf. destruct fuel as [|fuel]; [cbn in Hf; lia|]. cbn [backfill_loop collect_all].
    destruct (Z.leb_spec end_ cursor); [lia|]. rewrite Hw. unfold bind, lift_res. destruct (collect_window _ _ _ _ _ _ _ _ w) as [[r|e] w1]; [|done].
    apply Hrun. cbn in Hf. lia.
Qed.
End Backfill.

(** A backfill ends and covers its period: it collects at most one window
    per chunk and one more, every instant of the period lies in one of them,
    none leaves the period or is longer than a chunk and its overlap, and with
    fuel for the windows the loop is exactly the sequence of their
    collections. *)
Theorem backfill_covers pages_ acct stream before after start end_ chunk overlap :
  start < end_ -> 0 <= overlap < chunk ->
  representable (start - overlap * us) = true -> representable (end_ + chunk * us) = true ->
  exists l, zlen l <= (end_ - start) / (chunk * us) + 1 /\
    (forall t, start <= t <= end_ -> exists c, c ∈ l /\ c.1 <= t <= c.2) /\
    (forall c, c ∈ l -> start <= c.1 /\ c.1 < c.2 /\ c.2 <= end_ /\ c.2 - c.1 <= (chunk + overlap) * us) /\
    forall fuel w, (length l <= fuel)%nat ->
      backfill_account fuel pages_ acct stream before after start end_ chunk overlap w = collect_all pages_ acct stream before after l [] w.
Proof.
  intros Hse Hch Hlow Hhigh. assert (0 < us) by done.
  destruct (backfill_windows start end_ chunk overlap Hch Hlow Hhigh (Z.to_nat ((end_ - start) / (chunk * us))) start) as (l & Hlen & Hcov & Hin & Hrun).
  { lia. }
  { rewrite Z2Nat.id; [lia|]. apply Z.div_pos; nia. }
  exists l. split_and!; [done..|]. intros fuel w Hf. unfold backfill_account.
  destruct (Z.leb_spec end_ start); [lia|]. destruct (Z.leb_spec chunk overlap); [lia|]. by apply Hrun.
Qed.

(** A negative overlap passes the guard, and the first window then starts
    after the period does: what is dated before it is in no window. *)
Lemma backfill_negative_overlap start end_ chunk overlap c :
  overlap < 0 -> chunk_at start end_ start chunk overlap = Ok c -> start < c.1.
Proof.
  unfold chunk_at. intros Ho H. apply rbind_Ok in H as (ce & _ & H). apply rbind_Ok in H as (cs & Hcs & [= <-]).
  unfold shift in Hcs. destruct (representable _); [|done]. injection Hcs as <-. cbn. lia.
Qed.


(** * Limits of the columns *)

(** [ingest_cursors.stream] holds 64 characters: a backfill of an account
    whose key is longer than what its tag leaves cannot open its cursor. *)
Lemma collect_window_width fuel acct stream before after from to tag w :
  fits 64 (tag ++ ":" ++ stream_name stream acct) = false -> representable from = true ->
  cursors (db w) !! (provider_id cfg, (tag ++ ":" ++ stream_name stream acct)%string) = None -> is_Some (providers (db w) !! provider_id cfg) ->
  collect_window fuel acct stream before after from to tag w = (Raise (Exn DatabaseError "value too long for type character varying(64)"), w).
Proof.
  intros Hfit Hrep Hrow [p Hp]. unfold collect_window, bind, begin, open, load, tables, gets, lift_res, to_position, iso, update, violated, modify, ret, raise, bind.
  cbn [high_water window_end rbind]. rewrite Hrow, Hrep. cbn [rbind]. rewrite Hrow. rewrite bool_decide_eq_false_2 by (by intros [? [=]]).
  rewrite bool_decide_eq_true_2 by (rewrite Hp; by eexists). cbn [negb]. rewrite Hfit. by destruct w.
Qed.

(** A hash the pattern accepts and the column refuses fails the page it is on,
    whenever the page is fetched. *)
Lemma emit_candidate_refused c e oid w :
  HEX32_CHECK (pc_tx c) = false -> (emit_candidate c e oid w).1 = Raise (Exn DatabaseError "ck_proof_requests").
Proof.
  intros H. unfold emit_candidate, bind, ext, get, modify, ret, tables, gets, violated, raise, bind. cbn.
  unfold request_check. cbn. rewrite H. by rewrite andb_false_r.
Qed.
End Collector.

(** [re.match] lets [$] match before a trailing newline. *)
Example tx_newline :
  let tx := ("0x00000000000000000000000000000000000000000000000000000000000000aa" ++ newline)%string in TX_RE tx = true /\ HEX32_CHECK tx = false.
Proof. vm_compute. split; reflexivity. Qed.

(** What the tag of a backfill leaves of the 64 characters: 21. *)
Example backfill_width :
  String.length (backfill_tag (1767225600000000, 1767312000000000) ++ ":settlements:") = 43%nat.
Proof. vm_compute. reflexivity. Qed.

(** * A concrete run *)

Module Ex.

Definition account_ : AccountRef := {| a_slug := "mock-gpu"; external_account_id := "a1" |}.
Definition env_ : ProofEnv :=
  {| e_env := "sepolia"; e_chain_key := 1; source_chain_id := 11155111; e_manifest := "sha256:"; e_sdk := "1"; e_profile := "LOCAL_MOCK" |}.
Definition cfg_ : IngestionConfig :=
  {| provider_id := "mock-gpu"; proof_env := env_; cfg_overlap := 60; max_window_seconds := 86400; cfg_max_age := 86400;
     cfg_schema := "provider"; cfg_revision := 1 |}.
Definition asset_ : AssetRef := {| Domain.chain_id := 11155111; address := None; symbol := "USDC"; decimals := 6 |}.

(** One settlement, dated one second after the epoch. *)
Definition paid (seen_at : Z) : Observation := Settle {|
  s_base := {| provider_slug := "mock-gpu"; observed_at := seen_at; as_of := 1000000; account := account_ |};
  settlement_ref := "s1"; s_revision := 1; s_amount := {| amount := "5"; asset := asset_ |}; payer := None; payee := None; paid_at := None;
  s_status := "ANNOUNCED"; tx_ref := None |}.

Definition dump (o : Observation) : json := JInt (observed_at (base o)).

Definition in_window (w : Window) (o : Observation) : bool := (start w <=? as_of (base o)) && (as_of (base o) <=? end_ w).

Definition answer (w : Window) (c : option Cursor) : Page Observation :=
  {| items := match c with None => filter (fun o => in_window w o) [paid 7] | Some _ => [] end; next := {| token := None; has_more := false |} |}.

Definition digit (n : nat) : string := String (ascii_of_nat (48 + n mod 10)) EmptyString.
Definition env (t : nat) : Env :=
  {| fetch := fun _ _ w c => Ok (answer w c); clock := 10000000; ulid := "0123456789012345678901234" ++ digit t |}.

Definition provider_ : Ledger.Provider :=
  {| Ledger.provider_id := "mock-gpu"; Ledger.source_env_id := "sepolia"; Ledger.source_chain_key := 1; Ledger.source_chain_id := 11155111;
     Ledger.p_profile := "LOCAL_MOCK"; Ledger.environment_status := "UNPROBED"; Ledger.p_manifest := None; Ledger.capabilities := [] |}.

Definition w0 : World := {|
  db := {| providers := {["mock-gpu" := provider_]}; accounts := ∅; cursors := ∅; raws := []; requests := []; outbox := Outbox.empty_outbox;
           queue := {| Jobs.jobs := ∅; Jobs.audit_log := []; Jobs.now := 0; Jobs.biz := tt |}; gaps := [] |};
  blobs := ∅; ticks := 0 |}.

Definition truth : list Observation := [core (paid 7)].
Definition rest (s e : Z) (c : option Cursor) : list Observation := match c with None => filter (fun o => s <= as_of (base o) <= e) truth | Some _ => [] end.

Lemma honest_env : honest env account_ "settlements" truth rest.
Proof.
  split.
  - intros s e o Ho Hd. by apply list_elem_of_filter.
  - intros t w c p [= <-] o Ho. left. destruct c as [c|]; [by apply elem_of_nil in Ho|]. apply list_elem_of_filter in Ho as [Hd ->%list_elem_of_singleton].
    exists (paid 7). split; [|done]. apply list_elem_of_filter. split; [|by left]. unfold in_window. cbn in *. apply Is_true_true. lia.
Qed.

Definition never (n : Z) : bool := false.
Definition polled := poll env dump memory_put cfg_ 3 account_ "settlements" never never (Some (Aware 0)) None w0.

(** The same settlement, fetched again at another instant, is stored again. *)
Example refetched_twice :
  let m := (store_observation env dump memory_put cfg_ (paid 7) "API" "settlements" ;;;
            store_observation env dump memory_put cfg_ (paid 8) "API" "settlements") in
  length (raws (db (m w0).2)) = 2%nat.
Proof. vm_compute. reflexivity. Qed.

(** A collector opens the cursor at the epoch and takes its one turn. *)
Definition opened := opening cfg_ account_ "settlements" 0 w0.
Definition task_ : option Task :=
  match opened.1 with Ok st => match plan cfg_ st 5000000 false None with Ok k => k | _ => None end | _ => None end.
Definition window_ (k : Task) : Window := {| start := t_from k; end_ := t_to k; max_age_seconds := 86400; w_as_of := None |}.
Definition turned : option (PyM World (CollectResult * option Task)) :=
  k ← task_; Some (turn env dump memory_put cfg_ account_ "settlements" never never (window_ k) k (no_result "s")).
Definition last : World := match turned with Some m => (m opened.2).2 | None => w0 end.

Lemma run_last : exists ts, rtc (sys env dump memory_put cfg_ account_ "settlements" 0) (w0, []) (last, ts).
Proof.
  assert (Ho : exists st, opened.1 = Ok st /\ exists k, plan cfg_ st 5000000 false None = Ok (Some k)).
  { destruct opened.1 as [st|e] eqn:E; vm_compute in E; [|discriminate E]. injection E as <-. eexists. split; [reflexivity|]. eexists. vm_compute. reflexivity. }
  destruct Ho as (st & Ho & k & Hk). assert (Ht : task_ = Some k) by (unfold task_; by rewrite Ho, Hk).
  unfold last, turned. rewrite Ht. cbn [mbind option_bind].
  eexists. eapply rtc_l; [eapply (sys_open _ _ _ _ _ _ _ _ _ _ opened.2); [|exact Hk]; rewrite <- Ho; apply surjective_pairing|].
  apply rtc_once, (sys_turn _ _ _ _ _ _ _ never never (window_ k) (no_result "s") k [] []); [reflexivity|reflexivity|]. apply surjective_pairing.
Qed.

Lemma no_gap_witness : seen dump cfg_ (db last) (core (paid 7)).
Proof.
  destruct run_last as [ts Hrun].
  assert (Hh : (r ← row cfg_ account_ "settlements" (db last);
                match from_row "mock-gpu" (name account_ "settlements") r with Ok st => high_water st | Raise _ => None end) = Some 5000000)
    by (vm_compute; reflexivity).
  destruct (row cfg_ account_ "settlements" (db last)) as [r|] eqn:Hr; [|discriminate Hh]. cbn [mbind option_bind] in Hh.
  destruct (from_row _ _ r) as [st|] eqn:Hf; [|discriminate Hh].
  destruct (no_gap env dump memory_put cfg_ account_ "settlements" 0 truth rest honest_env ltac:(discriminate) w0 last ts r st 5000000 eq_refl Hrun Hr Hf Hh)
    as [E|Hall]; [discriminate E|].
  apply Hall; [by left|]. vm_compute. split; discriminate.
Defined.

Definition state_ : CursorState :=
  {| c_provider := "mock-gpu"; c_stream := "s"; high_water := Some 5000000; page_token := Some "off:2"; window_end := Some 6000000;
     overlap_seconds := 60; c_backfill := None |}.

Lemma cursor_roundtrip_witness :
  let w := w0 <| db ::= fun t => t <| cursors := {[("mock-gpu", "s") := {| position := JObj []; backfill_from := None |}]} |> |> in
  exists w', save state_ w = (Ok tt, w') /\ load "mock-gpu" "s" w' = (Ok (Some state_), w').
Proof.
  intros w. apply (cursor_roundtrip state_ w).
  - exists {| position := JObj []; backfill_from := None |}. vm_compute. reflexivity.
  - intros t [[= <-]|[= <-]]; vm_compute; reflexivity.
Defined.

(** Two days and an hour in chunks of a day: at most three windows. *)
Lemma backfill_covers_witness : exists l, zlen l <= 3 /\
  forall fuel w, (length l <= fuel)%nat ->
    backfill_account env dump memory_put cfg_ fuel 9 account_ "settlements" never never 0 176400000000 86400 300 w =
    collect_all env dump memory_put cfg_ 9 account_ "settlements" never never l [] w.
Proof.
  destruct (backfill_covers env dump memory_put cfg_ 9 account_ "settlements" never never 0 176400000000 86400 300) as (l & Hlen & _ & _ & Hrun);
    [reflexivity|split; [discriminate|reflexivity]|vm_compute; reflexivity|vm_compute; reflexivity|].
  exists l. split; [exact Hlen|exact Hrun].
Defined.
End Ex.
End Ingestion.
