(* ===== verification/Webhook.v ===== *)
(** Signed webhooks: the check of the signature, and the receiver that stores
    what a webhook asserts on the collector's path; with them, every operation
    of the ingestion as one step relation.

    Source: offchain/gpu/hashcredit_gpu/ingestion/webhook.py.

    A body is a string of bytes; the text of a header is one character per
    byte (latin-1), as HTTP servers decode it.  [json.loads] and pydantic's
    reading of an observation's fields are parameters; the validators of
    providers/types.py are not.  [timestamp()] is a float, exact to the
    microsecond at the dates in question. *)

From S2P Require Import Prelude Domain Stdpy Json JobQueue Lifecycle Columns Providers Ingestion.
Import Domain Stdpy Json Columns Providers Ingestion.

Module Webhook.

#[local] Abbreviation M := (PyM World).

(** * Signatures *)

(** Models [ingestion/webhook.py], [sign_webhook]. *)
Definition sign_webhook (secret : list Z) (timestamp : Z) (body : string) : string :=
  hex (hmac_sha256 secret (bytes_of (py_str timestamp ++ "." ++ body))).

(** [hmac.compare_digest] of two texts. *)
Definition compare_digest (a b : string) : res bool :=
  if ascii_only a && ascii_only b then Ok (String.eqb a b)
  else Raise (Exn TypeError "comparing strings with non-ASCII characters is not supported").

(** * The check *)

Definition SIGNATURE_HEADER : string := "x-rackline-signature".
Definition TIMESTAMP_HEADER : string := "x-rackline-timestamp".

(** [{k.lower(): v for k, v in headers.items()}] *)
Definition lower_keys (headers : list (string * string)) : list (string * string) :=
  fold_left (fun d h => dput (lower h.1) h.2 d) headers [].

Section Webhook.
Context (env : nat -> Env) (model_dump : Observation -> json) (put : string -> string -> PyM (gmap string string) string) (cfg : IngestionConfig).
Context (loads : string -> res json).
Context (revenue_of : list (string * json) -> option RevenueObservation) (settlement_of : list (string * json) -> option SettlementObservation).
Context (secret : list Z) (max_skew max_bytes : Z).

Definition webhook_error {A} (code : string) : res A := Raise (Exn WebhookError code).

(** Models [ingestion/webhook.py], [verify_webhook]. *)
Definition verify_webhook (headers : list (string * string)) (body : string) (now : Z) : res (list (string * json)) :=
  if max_bytes <? zlen (bytes_of body) then webhook_error "PAYLOAD_TOO_LARGE"
  else
    let hdr := lower_keys headers in
    match dget TIMESTAMP_HEADER hdr, dget SIGNATURE_HEADER hdr with
    | Some ts_raw, Some sig =>
        if String.eqb ts_raw "" || String.eqb sig "" then webhook_error "MISSING_HEADERS"
        else
          match int_text ts_raw with
          | None => webhook_error "BAD_TIMESTAMP"
          | Some ts =>
              if max_skew <? Z.abs (seconds now - ts) then webhook_error "STALE_TIMESTAMP"
              else
                rbind (compare_digest (sign_webhook secret ts body) (lower sig)) (fun same =>
                if negb same then webhook_error "BAD_SIGNATURE"
                else
                  match loads body with
                  | Ok (JObj payload) => Ok payload
                  | Ok _ => webhook_error "BAD_JSON"
                  | Raise e => if bool_decide (exn_kind e = ValueError) then webhook_error "BAD_JSON" else Raise e
                  end)
          end
    | _, _ => webhook_error "MISSING_HEADERS"
    end.

(** * The receiver *)

(** Models [ingestion/webhook.py], [WebhookOutcome]. *)
Record WebhookOutcome := { observation_id : string; stored : bool; proof_request_id : option string }.

(** [RevenueObservation( **data)] or [SettlementObservation( **data)] *)
Definition build (kind : string) (data : list (string * json)) : res Observation :=
  if String.eqb kind "revenue" then
    match revenue_of data with Some r => rbind (make_revenue r) (fun r => Ok (Revenue r)) | None => Raise (Exn ValidationError "RevenueObservation") end
  else
    match settlement_of data with Some s => rbind (make_settlement s) (fun s => Ok (Settle s)) | None => Raise (Exn ValidationError "SettlementObservation") end.

(** The observation of a payload and its kind. *)
(** Models [ingestion/webhook.py], [WebhookReceiver.receive], lines 119-132. *)
Definition observation_of (payload : list (string * json)) : res (string * Observation) :=
  match dget "kind" payload, dget "observation" payload with
  | Some (JStr kind), Some (JObj data) =>
      if mem_str kind ["revenue"; "settlement"] then
        match build kind data with
        | Raise e => if bool_decide (exn_kind e = ValidationError) then webhook_error "BAD_OBSERVATION" else Raise e
        | Ok obs =>
            if negb (String.eqb (provider_slug (base obs)) (provider_id cfg)) || negb (String.eqb (a_slug (account (base obs))) (provider_id cfg)) then
              webhook_error "PROVIDER_MISMATCH"
            else Ok (if String.eqb kind "revenue" then "revenue"%string else "settlements"%string, obs)
        end
      else webhook_error "BAD_KIND"
  | _, _ => webhook_error "BAD_KIND"
  end.

(** The transaction. *)
(** Models [ingestion/webhook.py], [WebhookReceiver.receive], lines 133-146. *)
Definition store_webhook (stream : string) (obs : Observation) : M WebhookOutcome :=
  begin (
    let* r := store_observation env model_dump put cfg obs "WEBHOOK" stream in
    let '(oid, new) := (r : string * bool) in
    let* rid :=
      (match new, obs with
       | true, Settle s =>
           match candidate_from_settlement s (proof_env cfg) (provider_id cfg) with
           | Some c => emit_candidate env c (proof_env cfg) oid
           | None => ret None
           end
       | _, _ => ret None
       end) in
    ret {| observation_id := oid; stored := new; proof_request_id := rid |}).

(** Models [ingestion/webhook.py], [WebhookReceiver.receive], lines 108-118. *)
Definition receive (headers : list (string * string)) (body : string) (now : option Z) : M WebhookOutcome :=
  let* n := (match now with Some t => ret t | None => ext env clock end) in
  let* payload := lift_res (verify_webhook headers body n) in
  let* o := lift_res (observation_of payload) in
  store_webhook o.1 o.2.

(** * Lemmas *)

Lemma hex_length l : String.length (hex l) = (2 * length l)%nat.
Proof. induction l as [|b l IH]; [done|]. cbn. rewrite IH. lia. Qed.

Lemma hex_ascii l : is_bytes l -> ascii_only (hex l) = true.
Proof.
  assert (Hd : forall x, 0 <= x < 16 -> (byte_of (hex_digit x) <? 128) = true).
  { intros x Hx. assert (In x (map Z.of_nat (seq 0 16))) as Hin by (apply in_map_iff; exists (Z.to_nat x); rewrite in_seq; lia).
    cbn in Hin. repeat (destruct Hin as [<-|Hin]; [reflexivity|]). done. }
  induction 1 as [|b l Hb _ IH]; [done|]. unfold is_byte in Hb. unfold ascii_only in *.
  cbn. rewrite !Hd, IH; [done|pose proof (Z.mod_pos_bound b 16); lia|]. split; [apply Z.div_pos; lia|apply Z.div_lt_upper_bound; lia].
Qed.

Lemma sign_shape ts body : ascii_only (sign_webhook secret ts body) = true /\ String.length (sign_webhook secret ts body) = 64%nat.
Proof. unfold sign_webhook, hmac_sha256. split; [apply hex_ascii, sha256_bytes|by rewrite hex_length, sha256_length]. Qed.

Lemma receive_clock now w : exists n w1, (match now with Some t => ret t | None => ext env clock end) w = (Ok n, w1) /\ db w1 = db w /\ blobs w1 = blobs w.
Proof. destruct now as [t|]; [by exists t, w|]. by eexists _, _. Qed.

(** An accepted body is the object returned. *)
Lemma webhook_payload headers body now payload : verify_webhook headers body now = Ok payload -> loads body = Ok (JObj payload).
Proof.
  unfold verify_webhook. intros H. destruct (_ <? _); [done|]. destruct (dget TIMESTAMP_HEADER _); [|done]. destruct (dget SIGNATURE_HEADER _); [|done].
  destruct (_ || _); [done|]. destruct (int_text _); [|done]. destruct (_ <? _); [done|]. apply rbind_Ok in H as (b & _ & H). destruct (negb b); [done|].
  destruct (loads body) as [[]|e]; try done; [by injection H as ->|]. by destruct (bool_decide _).
Qed.

(** A webhook is accepted exactly when its body is within the size limit,
    both headers are there, the timestamp is an integer within the allowed skew
    of the clock, the signature is the HMAC of timestamp and body under the
    secret, and the body is a JSON object; the payload is then that object. *)
Theorem webhook_authentic headers body now payload :
  verify_webhook headers body now = Ok payload <->
  zlen (bytes_of body) <= max_bytes /\
  exists ts_raw sig ts, dget TIMESTAMP_HEADER (lower_keys headers) = Some ts_raw /\ dget SIGNATURE_HEADER (lower_keys headers) = Some sig /\
    int_text ts_raw = Some ts /\ Z.abs (seconds now - ts) <= max_skew /\
    lower sig = sign_webhook secret ts body /\ loads body = Ok (JObj payload).
Proof.
  unfold verify_webhook. split.
  - destruct (Z.ltb_spec max_bytes (zlen (bytes_of body))) as [|Hsize]; [done|]. intros H. split; [done|].
    destruct (dget TIMESTAMP_HEADER _) as [ts_raw|]; [|done]. destruct (dget SIGNATURE_HEADER _) as [sig|]; [|done].
    destruct (_ || _); [done|]. destruct (int_text ts_raw) as [ts|] eqn:Hts; [|done].
    destruct (Z.ltb_spec max_skew (Z.abs (seconds now - ts))); [done|]. exists ts_raw, sig, ts. split_and!; [done|done|done|done| |].
    + apply rbind_Ok in H as (b & Hc & H). unfold compare_digest in Hc. destruct (_ && _); [|done]. injection Hc as <-.
      destruct (String.eqb_spec (sign_webhook secret ts body) (lower sig)); [done|done].
    + apply rbind_Ok in H as (b & _ & H). destruct (negb b); [done|]. destruct (loads body) as [[]|e]; try done; [by injection H as ->|].
      by destruct (bool_decide _).
  - intros (Hsize & ts_raw & sig & ts & Ht & Hs & Hi & Hskew & Hsig & Hl). destruct (Z.ltb_spec max_bytes (zlen (bytes_of body))); [lia|].
    rewrite Ht, Hs. destruct (sign_shape ts body) as [Hasc Hlen].
    assert (String.eqb ts_raw "" = false) as -> by (apply String.eqb_neq; intros ->; by vm_compute in Hi).
    assert (String.eqb sig "" = false) as -> by (apply String.eqb_neq; intros ->; by rewrite <- Hsig in Hlen).
    rewrite Hi. destruct (Z.ltb_spec max_skew (Z.abs (seconds now - ts))); [lia|]. unfold compare_digest. rewrite Hsig, Hasc. cbn.
    by rewrite String.eqb_refl, Hl.
Qed.

Lemma receive_Ok headers body now w out w' : receive headers body now w = (Ok out, w') ->
  exists payload o w1, loads body = Ok (JObj payload) /\ observation_of payload = Ok o /\ db w1 = db w /\ blobs w1 = blobs w /\
    store_webhook o.1 o.2 w1 = (Ok out, w').
Proof.
  unfold receive. intros H. apply bind_Ok in H as (n & w1 & Hn & H). apply bind_Ok in H as (payload & w2 & Hp & H).
  apply bind_Ok in H as (o & w3 & Ho & H). unfold lift_res in Hp, Ho. injection Hp as Hp <-. injection Ho as Ho <-.
  exists payload, o, w1. apply webhook_payload in Hp. assert (db w1 = db w /\ blobs w1 = blobs w) as [Hd Hb].
  { destruct now as [t|]; [by apply ret_Ok in Hn as [_ ->]|by apply ext_Ok in Hn as (? & ? & _)]. }
  by split_and!.
Qed.

Context {store : RawStore put}.

Lemma store_webhook_good stream obs : good (
    let* r := store_observation env model_dump put cfg obs "WEBHOOK" stream in
    let '(oid, new) := (r : string * bool) in
    let* rid :=
      (match new, obs with
       | true, Settle s =>
           match candidate_from_settlement s (proof_env cfg) (provider_id cfg) with
           | Some c => emit_candidate env c (proof_env cfg) oid
           | None => ret None
           end
       | _, _ => ret None
       end) in
    ret {| observation_id := oid; stored := new; proof_request_id := rid |}).
Proof.
  apply good_bind; [by apply store_good|]. intros [oid new]. apply good_bind; [|intros rid; apply good_pure].
  destruct new; [|apply good_pure]. destruct obs as [r|st]; [apply good_pure|].
  destruct (candidate_from_settlement _ _ _); [apply emit_candidate_good|apply good_pure].
Qed.

Lemma store_webhook_safe stream obs : safe (store_webhook stream obs).
Proof.
  unfold store_webhook. apply safe_begin; [apply store_webhook_good|].
  pose proof (store_bodies env model_dump put cfg) as Hs. pose proof (emit_candidate_bodies env) as He. keeps_tac.
Qed.

Lemma receive_safe headers body now : safe (receive headers body now).
Proof.
  unfold receive. apply safe_bind; [destruct now; [apply safe_pure|apply safe_ext]|]. intros n.
  apply safe_bind; [apply safe_pure|]. intros p. apply safe_bind; [apply safe_pure|]. intros o. apply store_webhook_safe.
Qed.

Lemma refetch_safe fuel acct stream before after around radius tag : safe (refetch_corrections env model_dump put cfg fuel acct stream before after around radius tag).
Proof.
  unfold refetch_corrections. apply safe_bind; [apply safe_pure|]. intros f. apply safe_bind; [apply safe_pure|]. intros t. by apply collect_window_safe.
Qed.

Lemma request_safe account_ tx m : safe (begin (request_source_proof env account_ tx m)).
Proof. apply safe_begin; [apply request_good|apply request_bodies]. Qed.

(** * Histories *)

(** Every operation of the ingestion, whatever it returns or raises and
    wherever it dies (fuel), and what the relay, the workers and the rest of
    the program do to the tables they share with it. *)
Inductive step : World -> World -> Prop :=
| step_poll fuel acct stream before after i u w : step w (poll env model_dump put cfg fuel acct stream before after i u w).2
| step_window fuel acct stream before after f t tag w : step w (collect_window env model_dump put cfg fuel acct stream before after f t tag w).2
| step_backfill fuel pages_ acct stream before after s e c o w :
    step w (backfill_account env model_dump put cfg fuel pages_ acct stream before after s e c o w).2
| step_refetch fuel acct stream before after a r tag w : step w (refetch_corrections env model_dump put cfg fuel acct stream before after a r tag w).2
| step_request account_ tx m w : step w (begin (request_source_proof env account_ tx m) w).2
| step_webhook headers body now w : step w (receive headers body now w).2
| step_other w w' :
    raws (db w') = raws (db w) -> requests (db w') = requests (db w) -> blobs w' = blobs w -> Outbox.outbox_wf (outbox (db w')) ->
    (forall k, event_with k (db w) -> event_with k (db w')) -> (forall k, job_with k (db w) -> job_with k (db w')) ->
    providers (db w') = providers (db w) /\ accounts (db w') = accounts (db w) -> step w w'.

Lemma other_keeps w w' :
  raws (db w') = raws (db w) -> requests (db w') = requests (db w) -> blobs w' = blobs w -> Outbox.outbox_wf (outbox (db w')) ->
  (forall k, event_with k (db w) -> event_with k (db w')) -> (forall k, job_with k (db w) -> job_with k (db w')) ->
  providers (db w') = providers (db w) /\ accounts (db w') = accounts (db w) -> ingest_wf w -> ingest_wf w' /\ grows w w'.
Proof.
  intros Hr Hq Hb Ho He Hj Hreg [A B C D E F G]. split.
  - split; rewrite ?Hr, ?Hq, ?Hb; try done.
    + intros r Hin. destruct (D r Hin) as (? & ? & ? & ? & ?). split_and!; [done..|by apply He].
    + intros r Hin. destruct (G r Hin) as (? & ? & ? & [?|?]); split_and!; [done|done|by apply Hj|left; by apply He|done|done|by apply Hj|right; by apply He].
  - split; rewrite ?Hr, ?Hq, ?Hb; [exists []; by rewrite app_nil_r|exists []; by rewrite app_nil_r|done..].
Qed.

Lemma step_keeps w w' : step w w' -> ingest_wf w -> ingest_wf w' /\ grows w w'.
Proof.
  intros [] Hw; [by apply poll_safe|by apply collect_window_safe|by apply backfill_safe|by apply refetch_safe|by apply request_safe|by apply receive_safe|].
  by apply other_keeps.
Qed.

Lemma history_keeps w w' : rtc step w w' -> ingest_wf w -> ingest_wf w' /\ grows w w'.
Proof.
  induction 1 as [w|w w1 w2 Hs _ IH]; intros Hw; [split; [done|reflexivity]|].
  destruct (step_keeps _ _ Hs Hw) as [Hw1 G1]. destruct (IH Hw1) as [Hw2 G2]. split; [done|by etransitivity].
Qed.

(** C30: Through any history of polls, windows, backfills, refetches, proof
    requests and webhooks, failures and crashes included, the tables stay well
    formed: a raw observation is stored once per origin and hash, asserted,
    with its body in the store and its event in the outbox; a query has one
    request, still only observed, with its event and its job; and nothing
    stored is lost. *)
Theorem ingest_reachable w w' : ingest_wf w -> rtc step w w' -> ingest_wf w' /\ grows w w'.
Proof. intros Hw H. by apply history_keeps. Qed.

(** * Replays *)

Lemma store_webhook_Ok stream obs w out w' : store_webhook stream obs w = (Ok out, w') ->
  exists r, r ∈ raws (db w') /\ same_payload (provider_id cfg) "WEBHOOK" (payload_hash_of (canonical_payload model_dump obs)) r = true /\
    Ingestion.observation_id r = observation_id out.
Proof.
  unfold store_webhook, begin. intros H. destruct (bind _ _ w) as [[out0|e] w0] eqn:Hm; [|done]. injection H as <- <-.
  apply bind_Ok in Hm as ([oid new] & w1 & Hs & Hm). apply bind_Ok in Hm as (rid & w2 & Hc & Hm). apply ret_Ok in Hm as [-> ->]. cbn [observation_id].
  assert (Hst : steady w1 w2).
  { destruct new; [|apply ret_Ok in Hc as [_ ->]; reflexivity]. destruct obs as [r|st]; [apply ret_Ok in Hc as [_ ->]; reflexivity|].
    destruct (candidate_from_settlement _ _ _); [by eapply keeps_run; [apply emit_candidate_steady|]|apply ret_Ok in Hc as [_ ->]; reflexivity]. }
  destruct Hst as [_ Hra]. destruct (store_observation_Ok env model_dump put cfg _ _ _ _ _ _ _ Hs) as (_ & _ & [(_ & Hd & r & Hr & Hp & Hi)|(_ & _ & _ & r' & ob & _ & Hd)]).
  - exists r. split_and!; [apply Hra; by rewrite Hd|done|done].
  - exists (stored_row model_dump cfg obs "WEBHOOK" stream oid). split_and!; [|unfold same_payload; cbn; by rewrite !String.eqb_refl|done].
    apply Hra. rewrite Hd. cbn. apply elem_of_app. right. by left.
Qed.

Lemma raw_unique w r r' : ingest_wf w -> r ∈ raws (db w) -> r' ∈ raws (db w) ->
  forall p org h, same_payload p org h r = true -> same_payload p org h r' = true -> r = r'.
Proof.
  intros Hw Hr Hr' p org h Hs Hs'. pose proof (wf_raw_keys _ Hw) as Hnd. unfold same_payload in *.
  repeat match goal with H : _ && _ = true |- _ => apply andb_true_iff in H as [H ?] end.
  repeat match goal with H : String.eqb _ _ = true |- _ => apply String.eqb_eq in H end.
  apply list_elem_of_lookup in Hr as [i Hi]. apply list_elem_of_lookup in Hr' as [j Hj].
  enough (i = j) by congruence. eapply NoDup_lookup; [exact Hnd|rewrite list_lookup_fmap, Hi; reflexivity|].
  rewrite list_lookup_fmap, Hj. cbn. congruence.
Qed.

(** A webhook whose observation is there changes no table. *)
Lemma store_webhook_again stream obs r w out w' : store_webhook stream obs w = (out, w') -> ingest_wf w -> r ∈ raws (db w) ->
  same_payload (provider_id cfg) "WEBHOOK" (payload_hash_of (canonical_payload model_dump obs)) r = true ->
  db w' = db w /\ forall o, out = Ok o -> o = {| observation_id := Ingestion.observation_id r; stored := false; proof_request_id := None |}.
Proof.
  unfold store_webhook, begin. intros H Hw Hr Hs. destruct (bind _ _ w) as [[out0|e] w0] eqn:Hm; [|injection H as <- <-; split; [done|intros o [=]]].
  injection H as <- <-. apply bind_Ok in Hm as ([oid new] & w1 & Hst & Hm).
  destruct (store_observation_Ok env model_dump put cfg _ _ _ _ _ _ _ Hst) as (_ & _ & [(-> & Hd & r' & Hr' & Hp & <-)|(_ & _ & Hno & _)]).
  - apply bind_Ok in Hm as (rid & w2 & Hc & Hm). apply ret_Ok in Hc as [-> ->]. apply ret_Ok in Hm as [-> ->]. split; [done|].
    intros o [= <-]. by rewrite (raw_unique w r r' Hw Hr Hr' _ _ _ Hs Hp).
  - destruct (Hno r Hr) as [Hf _]. congruence.
Qed.

(** A webhook delivered again is a no-op: once a body was accepted, a later
    delivery of it, whatever happened in between and whatever its headers,
    changes no table, and when it is accepted it answers with the first
    observation's id, nothing stored and no request. *)
Theorem webhook_replay headers1 headers2 body now1 now2 w1 w2 w3 w4 out1 out2 :
  ingest_wf w1 -> receive headers1 body now1 w1 = (Ok out1, w2) -> rtc step w2 w3 -> receive headers2 body now2 w3 = (out2, w4) ->
  db w4 = db w3 /\ forall o, out2 = Ok o -> o = {| observation_id := observation_id out1; stored := false; proof_request_id := None |}.
Proof.
  intros Hw1 H1 Hhist H2. assert (Hw2 : ingest_wf w2) by (pose proof (receive_safe headers1 body now1 w1 Hw1) as [Hw _]; by rewrite H1 in Hw).
  destruct (history_keeps _ _ Hhist Hw2) as [Hw3 [[l Hraws] _ _ _ _ _]].
  apply receive_Ok in H1 as (payload & o & wa & Hl & Ho & _ & _ & H1). apply store_webhook_Ok in H1 as (r & Hr & Hs & Hid). rewrite <- Hid.
  assert (Hr3 : r ∈ raws (db w3)) by (rewrite Hraws; apply elem_of_app; by left).
  unfold receive in H2. destruct (receive_clock now2 w3) as (n & wb & Hn & Hd & Hb). unfold bind at 1 in H2. rewrite Hn in H2.
  unfold bind at 1, lift_res at 1 in H2. destruct (verify_webhook headers2 body n) as [p2|e] eqn:Hv; [|injection H2 as <- <-; split; [done|intros o' [=]]].
  apply webhook_payload in Hv. rewrite Hl in Hv. injection Hv as <-. unfold bind at 1, lift_res at 1 in H2. rewrite Ho in H2.
  destruct (store_webhook_again _ _ r _ _ _ H2) as [Hd4 Hout]; [by eapply wf_blobs_grow; [exact Hd|rewrite Hb|]|by rewrite Hd|done|].
  split; [by rewrite Hd4|done].
Qed.
End Webhook.

(** RFC 4231, test case 2. *)
Example hmac_rfc4231 :
  hex (hmac_sha256 (bytes_of "Jefe") (bytes_of "what do ya want for nothing?")) = "5bdcc146bf60754e6a042426089575c75a003f089d2739839dec58b964ec3843"%string.
Proof. vm_compute. reflexivity. Qed.

Example int_text_ex :
  int_text " 1_700 " = Some 1700 /\ int_text "-5" = Some (-5) /\ int_text "+5" = Some 5 /\ int_text "1__0" = None /\ int_text "_1" = None /\
  int_text "1_" = None /\ int_text "" = None /\ int_text "1.0" = None.
Proof. vm_compute. repeat split. Qed.

(** A signature that is not ASCII is not refused as a bad signature. *)
Lemma non_ascii_signature : forall secret ts body sig, ascii_only (lower sig) = false -> exists e,
  compare_digest (sign_webhook secret ts body) (lower sig) = Raise e /\ exn_kind e = TypeError.
Proof. intros secret ts body sig H. unfold compare_digest. rewrite H, andb_false_r. by eexists. Qed.

(** * A concrete delivery *)

Module WEx.
Import Ingestion.Ex.

Definition key_ : list Z := [1; 2; 3].
Definition loads (s : string) : res json := Ok (JObj [("kind", JStr "settlement"); ("observation", JObj [])]%string).
Definition settlement_of (d : list (string * json)) : option SettlementObservation := match paid 7 with Settle s => Some s | _ => None end.
Definition headers_ : list (string * string) := [("X-Rackline-Timestamp", "10"); ("X-Rackline-Signature", sign_webhook key_ 10 "{}")]%string.
#[local] Abbreviation deliver h := (
  receive env dump memory_put cfg_ loads (fun _ => None) settlement_of key_ 300 1000 h "{}" None).

Lemma empty_wf : ingest_wf w0.
Proof.
  split; try (intros r Hr; by apply elem_of_nil in Hr); [|by apply NoDup_nil..].
  apply Outbox.empty_outbox_wf.
Qed.

Lemma ingest_reachable_witness : ingest_wf polled.2 /\ grows w0 polled.2.
Proof.
  apply (ingest_reachable env dump memory_put cfg_ loads (fun _ => None) settlement_of key_ 300 1000); [exact empty_wf|].
  apply rtc_once. unfold polled. apply step_poll.
Defined.

Lemma webhook_replay_witness : exists o w, deliver headers_ w0 = (Ok o, w) /\ db (deliver headers_ w).2 = db w.
Proof.
  assert (Hs : match (deliver headers_ w0).1 with Ok o => stored o | Raise _ => false end = true) by (vm_compute; reflexivity).
  destruct (deliver headers_ w0) as [[o|e] w] eqn:H1; [|discriminate Hs]. clear Hs. exists o, w. split; [reflexivity|].
  destruct (deliver headers_ w) as [o2 w2] eqn:H2. cbn [snd].
  pose proof (webhook_replay _ _ _ _ _ _ _ _ _ _ _ _ _ _ _ _ _ _ _ _ _ empty_wf H1 (rtc_refl _ _) H2) as [Hdb _]. exact Hdb.
Defined.
End WEx.
End Webhook.
