(* ===== verification/Mock.v ===== *)
(** The mock provider adapter: pages, money and timestamps of a JSON fixture,
    rate limits, idempotent write actions; and that it keeps what the collector
    relies on.

    Source: offchain/gpu/hashcredit_gpu/providers/mock.py.

    A fixture's numbers are integers.  Arguments: [datetime.fromisoformat] on
    the spellings of ISO 8601 (an aware result is given as its instant), the
    text of a list or a dict, and pydantic's reading of an asset, an integer
    and a boolean. *)

From Stdlib Require Import DecimalString DecimalFacts.
From S2P Require Import Prelude Domain Stdpy Datetime Json JsonText JobQueue Lifecycle Columns Ledger Providers Ingestion.
Import Domain Stdpy Json Columns Providers.

Module Mock.

(** * Values of a fixture *)

(** [d.get(key, default)] *)
Definition get_or (key : string) (dflt v : json) : res json :=
  match v with
  | JObj l => Ok (default dflt (dget key l))
  | _ => Raise (Exn AttributeError "get")
  end.

Definition has_key (key : string) (v : json) : bool := if get_field key v is Some _ then true else false.

(** [list(v)] *)
Definition list_json (v : json) : res (list json) :=
  match v with
  | JArr l => Ok l
  | JObj l => Ok (map (fun p => JStr p.1) l)
  | JStr s => Ok (map (fun a => JStr (String a EmptyString)) (list_ascii_of_string s))
  | _ => Raise (Exn TypeError "object is not iterable")
  end.

Fixpoint filter_res {A} (p : A -> res bool) (l : list A) : res (list A) :=
  match l with
  | [] => Ok []
  | x :: l' => rbind (p x) (fun b => rbind (filter_res p l') (fun r => Ok (if b then x :: r else r)))
  end.

(** [s.split(colon)[1]] *)
Fixpoint until_colon (s : string) : string :=
  match s with
  | EmptyString => EmptyString
  | String a s' => if Ascii.eqb a ":" then EmptyString else String a (until_colon s')
  end.

Fixpoint second_part (s : string) : option string :=
  match s with
  | EmptyString => None
  | String a s' => if Ascii.eqb a ":" then Some (until_colon s') else second_part s'
  end.

(** * The adapter *)

Record Adapter := {
  fx : json;
  page_size : Z;
  identity : AdapterIdentity;
  caps : Capabilities;
  claims : gmap string ClaimResult;
  control_changes : gmap string ControlChangeResult;
  calls : Z;
  rate_limit_every : Z;
}.

#[local] Abbreviation M := (PyM Adapter).

Section Mock.
Context (fromisoformat : string -> option datetime) (repr : json -> string).
Context (asset_of : json -> res AssetRef) (pydantic_int : json -> option Z) (pydantic_bool : json -> option bool).

(** [str(v)] *)
Definition str_json (v : json) : string :=
  match v with
  | JStr s => s
  | JInt n => py_str n
  | JBool true => "True"
  | JBool false => "False"
  | JNull => "None"
  | v => repr v
  end.

(** Models [providers/mock.py], [_dt]. *)
Definition dt (v : json) : res Z :=
  match v with
  | JStr s =>
      match fromisoformat s with
      | None => Raise (Exn MalformedResponse "bad timestamp")
      | Some (Naive _) => Raise (Exn MalformedResponse "naive timestamp")
      | Some (Aware t) => Ok t
      end
  | _ => Raise (Exn MalformedResponse "timestamp must be a string")
  end.

Definition PAGE_SIZE : Z := 2.

Definition support_of (v : json) : res Support :=
  match v with
  | JStr s => match of_value s with Some x => Ok x | None => Raise (Exn ValueError "Support") end
  | _ => Raise (Exn ValueError "Support")
  end.

(** [Capabilities( **{k: Support(v) for k, v in caps.items()})]: fields not named
    are UNKNOWN, names that are no field are ignored. *)
Definition capabilities_of (v : json) : res Capabilities :=
  match v with
  | JObj l =>
      rbind (map_res (fun p => rbind (support_of p.2) (fun s => Ok (p.1, s))) l) (fun d =>
      let at_ k := default UNKNOWN (dget k d) in
      Ok {| list_assets := at_ "list_assets"; fetch_revenue := at_ "fetch_revenue"; fetch_settlements := at_ "fetch_settlements";
            get_control_state := at_ "get_control_state"; claim_revenue := at_ "claim_revenue";
            request_control_change := at_ "request_control_change"; source_support := at_ "source_support" |}%string)
  | _ => Raise (Exn AttributeError "items")
  end.

(** Models [providers/mock.py], [MockProviderAdapter.__init__]. *)
Definition make_mock (fixture : json) (size : option Z) : res Adapter :=
  rbind (get_or "providerSlug" (JStr "") fixture) (fun slug0 =>
  let slug := str_json slug0 in
  if negb (is_mock_slug slug) then Raise (Exn ValueError "mock adapter slug must start with 'mock-' (separate provider namespace)")
  else
    rbind (get_or "executionProfile" (JStr "LOCAL_MOCK") fixture) (fun p =>
    match (match p with JStr s => of_value (E := ExecutionProfile) s | _ => None end) with
    | None => Raise (Exn ValueError "ExecutionProfile")
    | Some profile =>
        if bool_decide (profile = EP_PRODUCTION) then Raise (Exn ValueError "a mock adapter cannot run under the PRODUCTION profile")
        else
          rbind (get_or "supportedAssets" (JArr []) fixture) (fun sa => rbind (list_json sa) (fun sa => rbind (map_res asset_of sa) (fun assets =>
          rbind (get_or "partnerRevenue" (JStr "SIMULATED") fixture) (fun pr =>
          rbind (get_or "sourceChainIds" (JArr []) fixture) (fun ch => rbind (list_json ch) (fun ch => rbind (map_res int_json ch) (fun chains =>
          match pr with
          | JStr revenue =>
              if negb (mem_str revenue ["REAL"; "SIMULATED"; "UNKNOWN"]) then Raise (Exn ValidationError "partner_revenue")
              else
                rbind (get_or "capabilities" (JObj []) fixture) (fun c => rbind (capabilities_of c) (fun c =>
                rbind (get_or "rateLimitEvery" (JInt 0) fixture) (fun rl => rbind (int_json rl) (fun rl =>
                Ok {| fx := fixture;
                      page_size := match size with Some n => if n =? 0 then PAGE_SIZE else n | None => PAGE_SIZE end;
                      identity := {| i_slug := slug; execution_profile := profile; is_mock := true; partner_revenue := revenue;
                                     source_chain_ids := chains; supported_assets := assets |};
                      caps := c; claims := ∅; control_changes := ∅; calls := 0; rate_limit_every := rl |}))))
          | _ => Raise (Exn ValidationError "partner_revenue")
          end)))))))
    end)).

(** * Helpers *)

(** Models [providers/mock.py], [MockProviderAdapter._tick]. *)
Definition tick : M unit :=
  modify (fun a => a <| calls ::= Z.succ |>) ;;;
  let* a := get in
  if negb (rate_limit_every a =? 0) && (calls a mod rate_limit_every a =? 0) then raise RateLimited "rate limited (retry_after=1)" else ret tt.

Section Reads.
Context (a : Adapter) (clock : Z).

(** [raw.get(address) or the empty string, lowered] *)
Definition address_text (raw : json) : res string :=
  match get_field "address" raw with
  | Some (JStr s) => Ok (lower s)
  | Some v => if truth v then Raise (Exn AttributeError "lower") else Ok ""%string
  | None => Ok ""%string
  end.

(** Models [providers/mock.py], [MockProviderAdapter._asset]; the later of two
    assets with one key is kept. *)
Definition asset_ref (raw : json) : res AssetRef :=
  match raw with
  | JObj _ =>
      if negb (has_key "chainId" raw && has_key "decimals" raw && has_key "symbol" raw) then Raise (Exn MissingUnit "asset missing a field")
      else
        rbind (rbind (field "chainId" raw) int_json) (fun chain => rbind (require_chain (identity a) chain) (fun _ =>
        rbind (address_text raw) (fun addr => rbind (rbind (field "decimals" raw) int_json) (fun dec =>
        match List.find (fun x => bool_decide (asset_key x = (chain, addr, dec))) (rev (supported_assets (identity a))) with
        | Some x => Ok x
        | None => Raise (Exn UnsupportedChainError "asset not admitted")
        end))))
  | _ => Raise (Exn MissingUnit "amount without asset reference")
  end.

(** Models [providers/mock.py], [MockProviderAdapter._money]; a [Money] that
    refuses its amount raises a [ValidationError]. *)
Definition money (raw : json) : res Money :=
  match get_field "amount" raw with
  | None => Raise (Exn MissingUnit "money must be {amount, asset}")
  | Some (JInt _ as v) | Some (JStr _ as v) =>
      rbind (asset_ref (default JNull (get_field "asset" raw))) (fun x =>
      match make_money (str_json v) x with Ok m => Ok m | Raise _ => Raise (Exn ValidationError "amount") end)
  | Some _ => Raise (Exn MissingUnit "amount must be an integer string of base units, never a float")
  end.

(** Models [providers/mock.py], [MockProviderAdapter._account_rows]. *)
Definition account_rows (section : string) (acct : AccountRef) : res (list json) :=
  rbind (require_account (identity a) acct) (fun _ =>
  rbind (get_or section (JObj []) (fx a)) (fun s => rbind (get_or (external_account_id acct) JNull s) (fun rows =>
  match rows with JNull => Raise (Exn MalformedResponse "unknown account") | _ => list_json rows end))).

(** Models [providers/mock.py], [MockProviderAdapter._page]. *)
Definition page {A} (rows : list A) (c : option Cursor) : res (list A * Cursor) :=
  rbind (match c with
         | Some {| token := Some t |} =>
             match second_part t with
             | None => Raise (Exn MalformedResponse "bad cursor")
             | Some p => match int_text p with
                         | None => Raise (Exn MalformedResponse "bad cursor")
                         | Some n => if zlen rows <? n then Raise (Exn MalformedResponse "cursor beyond end") else Ok n
                         end
             end
         | _ => Ok 0
         end) (fun start =>
  let e := Z.min (start + page_size a) (zlen rows) in
  Ok (py_slice start e rows, {| token := Some ("off:" ++ py_str e)%string; has_more := e <? zlen rows |})).

(** Models [providers/mock.py], [MockProviderAdapter._observed]. *)
Definition observed : res Z :=
  rbind (get_or "observedAt" JNull (fx a)) (fun v => if truth v then dt v else Ok clock).

(** Models [providers/mock.py], [MockProviderAdapter._in_window]. *)
Definition in_window (w : Window) (r : json) : res bool :=
  rbind (match field "asOf" r with
         | Raise e => if bool_decide (exn_kind e = KeyError) then Raise (Exn MalformedResponse "row missing asOf") else Raise e
         | Ok v => dt v
         end) (fun t => Ok ((start w <=? t) && (t <=? end_ w))).

(** A field pydantic takes as a text or None. *)
Definition text_or_none (v : json) : res (option string) :=
  match v with JNull => Ok None | JStr s => Ok (Some s) | _ => Raise (Exn ValidationError "string_type") end.

(** [except KeyError] and [except ValueError] of a row. *)
Definition row_errors {A} (r : res A) : res A :=
  match r with
  | Ok x => Ok x
  | Raise e => match exn_kind e with KeyError | ValueError | ValidationError => Raise (Exn MalformedResponse (exn_msg e)) | _ => Raise e end
  end.

Definition asserted (acct : AccountRef) (seen at_ : Z) : Asserted :=
  {| provider_slug := i_slug (identity a); observed_at := seen; as_of := at_; account := acct |}.

Definition get_null (key : string) (r : json) : json := default JNull (get_field key r).

(** Models [providers/mock.py], [MockProviderAdapter.fetch_settlements], lines 235-257. *)
Definition settlement_row (acct : AccountRef) (w : Window) (r : json) : res Observation :=
  row_errors (
    rbind (rbind (field "asOf" r) dt) (fun at_ => rbind (check_freshness at_ w clock) (fun _ =>
    rbind observed (fun seen =>
    rbind (field "settlementRef" r) (fun sref => rbind (rbind (field "revision" r) int_json) (fun revision =>
    rbind (rbind (field "amount" r) money) (fun amount =>
    rbind (if truth (get_null "paidAt" r) then rbind (dt (get_null "paidAt" r)) (fun t => Ok (Some t)) else Ok None) (fun paid =>
    rbind (field "status" r) (fun status => rbind (text_or_none (get_null "payer" r)) (fun payer =>
    rbind (text_or_none (get_null "payee" r)) (fun payee => rbind (text_or_none (get_null "txRef" r)) (fun tx =>
    rbind (make_settlement {| s_base := asserted acct seen at_; settlement_ref := str_json sref; s_revision := revision; s_amount := amount;
                              payer := payer; payee := payee; paid_at := paid;
                              s_status := match status with JStr s => s | _ => ""%string end; tx_ref := tx |}) (fun s => Ok (Settle s)))))))))))))).

Definition provenance_of (v : json) : option EarningsProvenance := match v with JStr s => of_value s | _ => None end.

(** Models [providers/mock.py], [MockProviderAdapter.fetch_revenue], lines 195-216. *)
Definition revenue_row (acct : AccountRef) (w : Window) (r : json) : res RevenueObservation :=
  row_errors (
    rbind (rbind (field "asOf" r) dt) (fun at_ => rbind (check_freshness at_ w clock) (fun _ =>
    rbind observed (fun seen =>
    rbind (field "providerEventRef" r) (fun eref => rbind (rbind (field "revision" r) int_json) (fun revision =>
    rbind (rbind (field "periodStart" r) dt) (fun ps => rbind (rbind (field "periodEnd" r) dt) (fun pe =>
    rbind (rbind (field "gross" r) money) (fun gross => rbind (rbind (field "deductions" r) money) (fun ded => rbind (rbind (field "net" r) money) (fun net =>
    rbind (field "earningsProvenance" r) (fun ep =>
    match provenance_of ep with
    | None => Raise (Exn ValueError "EarningsProvenance")
    | Some ep =>
        rbind (text_or_none (get_null "settlementRef" r)) (fun sref =>
        make_revenue {| r_base := asserted acct seen at_; provider_event_ref := str_json eref; r_revision := revision; period_start := ps;
                        period_end := pe; gross := gross; deductions := ded; net := net; earnings_provenance := ep; r_settlement_ref := sref |})
    end)))))))))))).
End Reads.

(** * Reads *)

(** The rows of a section dated in the window. *)
Definition window_rows (a : Adapter) (section : string) (acct : AccountRef) (w : Window) : res (list json) :=
  rbind (account_rows a section acct) (filter_res (in_window w)).

Definition asset_row (a : Adapter) (clock : Z) (acct : AccountRef) (r : json) : res AssetListing :=
  rbind (observed a clock) (fun seen => rbind (rbind (field "asOf" r) dt) (fun at_ =>
  rbind (field "externalAssetId" r) (fun eid => rbind (field "kind" r) (fun kind =>
  match (match kind with JStr s => of_value (E := AssetKind) s | _ => None end) with
  | None => Raise (Exn ValueError "AssetKind")
  | Some kind =>
      rbind (get_or "attributes" (JObj []) r) (fun at_tr =>
      match at_tr with
      | JObj l =>
          rbind (text_or_none (get_null "parentExternalId" r)) (fun parent =>
          Ok {| l_base := asserted a acct seen at_; external_asset_id := str_json eid; l_kind := kind; parent_external_id := parent;
                attributes := map (fun p => (p.1, str_json p.2)) l |})
      | _ => Raise (Exn AttributeError "items")
      end)
  end)))).

(** Models [providers/mock.py], [MockProviderAdapter.list_assets]. *)
Definition list_assets (acct : AccountRef) (c : option Cursor) (clock : Z) : M (Page AssetListing) :=
  let* a := get in
  lift_res (require_op (identity a) (caps a) "list_assets") ;;;
  tick ;;;
  let* p := lift_res (rbind (account_rows a "assets" acct) (fun rows => page a rows c)) in
  let* items := lift_res (map_res (asset_row a clock acct) p.1) in
  ret {| items := items; next := p.2 |}.

(** The revisions of an event grow within a page. *)
(** Models [providers/mock.py], [MockProviderAdapter.fetch_revenue], lines 192-223. *)
Fixpoint revenue_rows (a : Adapter) (clock : Z) (acct : AccountRef) (w : Window) (seen : gmap string Z) (l : list json) : res (list Observation) :=
  match l with
  | [] => Ok []
  | r :: l' =>
      rbind (revenue_row a clock acct w r) (fun o =>
      match seen !! provider_event_ref o with
      | Some prev =>
          if r_revision o <=? prev then Raise (Exn MalformedResponse "revision not monotonic")
          else rbind (revenue_rows a clock acct w (<[provider_event_ref o := r_revision o]> seen) l') (fun os => Ok (Revenue o :: os))
      | None => rbind (revenue_rows a clock acct w (<[provider_event_ref o := r_revision o]> seen) l') (fun os => Ok (Revenue o :: os))
      end)
  end.

(** Models [providers/mock.py], [MockProviderAdapter.fetch_revenue], lines 185-191. *)
Definition fetch_revenue (acct : AccountRef) (w : Window) (c : option Cursor) (clock : Z) : M (Page Observation) :=
  let* a := get in
  lift_res (require_op (identity a) (caps a) "fetch_revenue") ;;;
  tick ;;;
  let* p := lift_res (rbind (window_rows a "revenue" acct w) (fun rows => page a rows c)) in
  let* items := lift_res (revenue_rows a clock acct w ∅ p.1) in
  ret {| items := items; next := p.2 |}.

(** Models [providers/mock.py], [MockProviderAdapter.fetch_settlements], lines 226-258. *)
Definition fetch_settlements (acct : AccountRef) (w : Window) (c : option Cursor) (clock : Z) : M (Page Observation) :=
  let* a := get in
  lift_res (require_op (identity a) (caps a) "fetch_settlements") ;;;
  tick ;;;
  let* p := lift_res (rbind (window_rows a "settlements" acct w) (fun rows => page a rows c)) in
  let* items := lift_res (map_res (settlement_row a clock acct w) p.1) in
  ret {| items := items; next := p.2 |}.

(** Models [ingestion/collector.py], [Collector._fetch]. *)
Definition fetch_page (stream : string) (acct : AccountRef) (w : Window) (c : option Cursor) (clock : Z) : M (Page Observation) :=
  if String.eqb stream "revenue" then fetch_revenue acct w c clock else fetch_settlements acct w c clock.

(** Models [providers/mock.py], [MockProviderAdapter.get_control_state]. *)
Definition get_control_state (acct : AccountRef) (clock : Z) : M ControlStateObservation :=
  let* a := get in
  lift_res (require_op (identity a) (caps a) "get_control_state") ;;;
  tick ;;;
  lift_res (
    rbind (require_account (identity a) acct) (fun _ =>
    rbind (rbind (get_or "controlState" (JObj []) (fx a)) (get_or (external_account_id acct) JNull)) (fun r =>
    match r with
    | JNull => Raise (Exn MalformedResponse "unknown account")
    | _ =>
        rbind (get_or "receiverChainId" JNull r) (fun chain =>
        rbind (match chain with JNull => Ok tt | _ => rbind (int_json chain) (require_chain (identity a)) end) (fun _ =>
        rbind (observed a clock) (fun seen => rbind (rbind (field "asOf" r) dt) (fun at_ =>
        rbind (text_or_none (get_null "receiver" r)) (fun rcv =>
        rbind (match chain with JNull => Ok None | _ => match pydantic_int chain with Some n => Ok (Some n) | None => Raise (Exn ValidationError "int") end end) (fun ch =>
        rbind (match get_null "borrowerCanChangeReceiver" r with
               | JNull => Ok None
               | v => match pydantic_bool v with Some b => Ok (Some b) | None => Raise (Exn ValidationError "bool") end end) (fun can =>
        match default (JStr "E0") (get_field "observedGrade" r) with
        | JStr "E0" => Ok {| k_base := asserted a acct seen at_; receiver := rcv; receiver_chain_id := ch; borrower_can_change_receiver := can; observed_grade := CG_E0 |}
        | JStr "E1" => Ok {| k_base := asserted a acct seen at_; receiver := rcv; receiver_chain_id := ch; borrower_can_change_receiver := can; observed_grade := CG_E1 |}
        | _ => Raise (Exn ValidationError "observed_grade")
        end)))))))
    end))).

(** * Writes *)

Definition ref_of (kind : string) (n : nat) : string := ("mock-" ++ kind ++ "-" ++ py_str (Z.of_nat n + 1))%string.

(** Models [providers/mock.py], [MockProviderAdapter.claim_revenue]. *)
Definition claim_revenue (q : ClaimRequest) (clock : Z) : M ClaimResult :=
  let* a := get in
  lift_res (require_op (identity a) (caps a) "claim_revenue") ;;;
  tick ;;;
  lift_res (require_account (identity a) (cq_account q)) ;;;
  match claims a !! cq_key q with
  | Some r => ret r
  | None =>
      let* seen := lift_res (observed a clock) in
      let r := {| cr_base := asserted a (cq_account q) seen seen; cr_key := cq_key q; cr_accepted := true; cr_ref := Some (ref_of "claim" (size (claims a))) |} in
      modify (fun a => a <| claims ::= <[cq_key q := r]> |>) ;;;
      ret r
  end.

(** Models [providers/mock.py], [MockProviderAdapter.request_control_change]. *)
Definition request_control_change (q : ControlChangeRequest) (clock : Z) : M ControlChangeResult :=
  let* a := get in
  lift_res (require_op (identity a) (caps a) "request_control_change") ;;;
  tick ;;;
  lift_res (require_account (identity a) (ch_account q)) ;;;
  lift_res (require_chain (identity a) (new_receiver_chain_id q)) ;;;
  match control_changes a !! ch_key q with
  | Some r => ret r
  | None =>
      let* seen := lift_res (observed a clock) in
      let r := {| cc_base := asserted a (ch_account q) seen seen; cc_key := ch_key q; cc_accepted := true; cc_ref := Some (ref_of "control" (size (control_changes a))) |} in
      modify (fun a => a <| control_changes ::= <[ch_key q := r]> |>) ;;;
      ret r
  end.

(** * An honest provider *)

Lemma row_errors_Ok {A} (r : res A) x : row_errors r = Ok x -> r = Ok x.
Proof. destruct r as [y|e]; cbn; [done|]. by destruct (exn_kind e). Qed.

Lemma row_errors_intro {A} (r : res A) x : r = Ok x -> row_errors r = Ok x.
Proof. by intros ->. Qed.

(** A row of either section. *)
Definition row_obs (revenue : bool) (a : Adapter) (clock : Z) (acct : AccountRef) (w : Window) (r : json) : res Observation :=
  if revenue then rbind (revenue_row a clock acct w r) (fun o => Ok (Revenue o)) else settlement_row a clock acct w r.

Definition instant (t : Z) : Window := {| start := t; end_ := t; max_age_seconds := 0; w_as_of := Some t |}.

(** What a row states, whenever it is asked for. *)
Definition stated (revenue : bool) (a : Adapter) (acct : AccountRef) (r : json) : option Observation :=
  match rbind (field "asOf" r) dt with
  | Ok t => match row_obs revenue a 0 acct (instant t) r with Ok o => Some (Ingestion.core o) | Raise _ => None end
  | Raise _ => None
  end.

Lemma observed_any a c c' t : observed a c = Ok t -> exists t', observed a c' = Ok t'.
Proof. unfold observed. intros (v & Hv & H)%rbind_Ok. rewrite Hv. cbn [rbind]. destruct (truth v); eauto. Qed.

Lemma fresh_now c t : check_freshness t (instant t) c = Ok tt.
Proof. unfold check_freshness. cbn. by rewrite Z.sub_diag. Qed.

Ltac split_row H := repeat match type of H with rbind ?m _ = Ok _ => apply rbind_Ok in H as (? & ? & H) end.
Ltac replay_row := repeat match goal with E : _ = Ok _ |- _ => rewrite E; cbn [rbind]; clear E end.

Lemma settlement_stated a c acct w r o : settlement_row a c acct w r = Ok o ->
  stated false a acct r = Some (Ingestion.core o) /\ rbind (field "asOf" r) dt = Ok (as_of (base o)).
Proof.
  unfold stated, row_obs, settlement_row. intros H%row_errors_Ok. apply rbind_Ok in H as (t & Ht & H). apply rbind_Ok in H as (u & _ & H).
  apply rbind_Ok in H as (seen & Hs & H). apply (observed_any a c 0) in Hs as [seen' Hs']. split_row H.
  injection H as <-. unfold make_settlement in *. destruct (settlement_fields _) eqn:Hf; [|done]. match goal with E : Ok _ = Ok _ |- _ => injection E as <- end.
  split; [|exact Ht]. rewrite Ht. cbn [rbind]. rewrite fresh_now. cbn [rbind]. rewrite Hs'. cbn [rbind]. clear Ht Hs'. replay_row.
  unfold settlement_fields in *. cbn in *. by rewrite Hf.
Qed.

Lemma revenue_stated a c acct w r o : revenue_row a c acct w r = Ok o ->
  stated true a acct r = Some (Ingestion.core (Revenue o)) /\ rbind (field "asOf" r) dt = Ok (as_of (r_base o)).
Proof.
  unfold stated, row_obs, revenue_row. intros H%row_errors_Ok. apply rbind_Ok in H as (t & Ht & H). apply rbind_Ok in H as (u & _ & H).
  apply rbind_Ok in H as (seen & Hs & H). apply (observed_any a c 0) in Hs as [seen' Hs']. split_row H.
  destruct (provenance_of _) as [ep|] eqn:Hep; [|done]. split_row H. unfold make_revenue in H.
  destruct (negb (revenue_fields _)) eqn:Hf; [done|]. destruct (consistent _) as [u'|e'] eqn:Hc in H; [|done]. injection H as <-.
  split; [|exact Ht]. rewrite Ht. cbn [rbind]. rewrite fresh_now. cbn [rbind]. rewrite Hs'. cbn [rbind]. clear Ht Hs'.
  repeat match goal with E : ?m = Ok _ |- context [rbind ?m _] => rewrite E; cbn [rbind]; clear E end. rewrite Hep.
  unfold make_revenue.
  match goal with |- context [negb (revenue_fields ?x)] => assert (negb (revenue_fields x) = false) as -> by exact Hf end.
  match goal with |- context [consistent ?x] => assert (consistent x = Ok u') as -> by exact Hc end. reflexivity.
Qed.

(** ** Page tokens *)

(** The value of decimal digits after [acc]. *)
Fixpoint digits_value (d : Decimal.uint) (acc : Z) : Z :=
  match d with
  | Decimal.Nil => acc
  | Decimal.D0 d => digits_value d (acc * 10) | Decimal.D1 d => digits_value d (acc * 10 + 1) | Decimal.D2 d => digits_value d (acc * 10 + 2)
  | Decimal.D3 d => digits_value d (acc * 10 + 3) | Decimal.D4 d => digits_value d (acc * 10 + 4) | Decimal.D5 d => digits_value d (acc * 10 + 5)
  | Decimal.D6 d => digits_value d (acc * 10 + 6) | Decimal.D7 d => digits_value d (acc * 10 + 7) | Decimal.D8 d => digits_value d (acc * 10 + 8)
  | Decimal.D9 d => digits_value d (acc * 10 + 9)
  end.

Lemma of_uint_acc_value d : forall p, Z.pos (Pos.of_uint_acc d p) = digits_value d (Z.pos p).
Proof. induction d; intros p; cbn [Pos.of_uint_acc digits_value]; [done|..]; rewrite IHd; f_equal; rewrite ?Pos2Z.inj_add, ?Pos2Z.inj_mul; lia. Qed.

Lemma of_uint_value d : Z.of_N (Pos.of_uint d) = digits_value d 0.
Proof. induction d; cbn [Pos.of_uint digits_value Z.of_N]; [done|exact IHd|..]; apply of_uint_acc_value. Qed.

Lemma read_digits_value d : forall after count acc, after = true \/ d <> Decimal.Nil -> count + Z.of_nat (Decimal.nb_digits d) <= 4300 ->
  read_digits after count acc (NilEmpty.string_of_uint d) = Some (digits_value d acc).
Proof.
  induction d; intros after count acc Ha Hc; cbn [NilEmpty.string_of_uint].
  { destruct Ha as [->|]; [|done]. cbn in Hc |- *. by destruct (Z.leb_spec count 4300); [|lia]. }
  all: cbn [Decimal.nb_digits] in Hc; cbn [read_digits]; (etransitivity; [apply IHd; [by left|lia]|]); cbn [digits_value]; do 2 f_equal; match goal with |- context [byte_of ?c] => change (byte_of c) with (Z.of_N (N_of_ascii c)) end; cbn [N_of_ascii]; cbn; lia.
Qed.

Lemma string_of_uint_plain (q : ascii -> bool) d : (forall n, 48 <= n <= 57 -> q (char_of n) = false) -> forall s, s = NilEmpty.string_of_uint d ->
  forallb (fun a => negb (q a)) (list_ascii_of_string s) = true.
Proof.
  intros Hq. induction d; intros s ->; [done|..]; cbn [NilEmpty.string_of_uint list_ascii_of_string forallb]; rewrite IHd by done; rewrite andb_true_r; apply negb_true_iff.
  - apply (Hq 48). lia. - apply (Hq 49). lia. - apply (Hq 50). lia. - apply (Hq 51). lia. - apply (Hq 52). lia.
  - apply (Hq 53). lia. - apply (Hq 54). lia. - apply (Hq 55). lia. - apply (Hq 56). lia. - apply (Hq 57). lia.
Qed.

Lemma int_text_uint d : d <> Decimal.Nil -> (Decimal.nb_digits d <= 4300)%nat -> int_text (NilEmpty.string_of_uint d) = Some (digits_value d 0).
Proof.
  intros Hd Hn. unfold int_text. cbv zeta. set (sp := int_space _).
  assert (Hsp : forallb (fun a => negb (sp a)) (list_ascii_of_string (NilEmpty.string_of_uint d)) = true).
  { eapply string_of_uint_plain; [|reflexivity]. intros n Hr. unfold sp, int_space. clear sp. generalize (ascii_only (NilEmpty.string_of_uint d)).
    assert (In n (map Z.of_nat (seq 48 10))) as Hin by (apply in_map_iff; exists (Z.to_nat n); rewrite in_seq; lia).
    cbn in Hin. repeat (destruct Hin as [<-|Hin]; [by intros []|]). done. }
  rewrite drop_left_none, drop_right_none by done.
  pose proof (read_digits_value d false 0 0 (or_intror Hd) ltac:(lia)) as Hr. destruct d; [done|exact Hr..].
Qed.

Lemma py_str_uint n : 0 <= n < 2 ^ 63 -> exists d, py_str n = NilEmpty.string_of_uint d /\ d <> Decimal.Nil /\
  (Decimal.nb_digits d <= 64)%nat /\ digits_value d 0 = n.
Proof.
  intros Hn. pose proof (DecimalZ.of_to n) as Hz. destruct n as [|p|p]; [exists (Decimal.D0 Decimal.Nil); split_and!; [done|done|cbn; lia|done]| |lia]. cbn in Hz.
  unfold Z.of_int, Z.of_uint in Hz. rewrite of_uint_value in Hz. exists (Pos.to_uint p).
  pose proof (DecimalPos.Unsigned.to_uint_nonnil p) as Hnil. split_and!; [|done| |done].
  - unfold py_str. cbn. by destruct (Pos.to_uint p).
  - pose proof (JsonText.JsonText.nb_digits_pos p). pose proof (Pos.size_nat_monotone p (2 ^ 63) ltac:(lia)) as Hm. change (Pos.size_nat (2 ^ 63)) with 64%nat in Hm. lia.
Qed.

Lemma int_text_py_str n : 0 <= n < 2 ^ 63 -> int_text (py_str n) = Some n.
Proof. intros Hn. destruct (py_str_uint n Hn) as (d & -> & Hd & Hl & <-). apply int_text_uint; [done|lia]. Qed.

Lemma second_part_off n : 0 <= n < 2 ^ 63 -> second_part ("off:" ++ py_str n) = Some (py_str n).
Proof.
  intros Hn. destruct (py_str_uint n Hn) as (d & -> & _ & _ & _). etransitivity; [reflexivity|]. apply (f_equal Some).
  assert (H : forallb (fun a => negb (Ascii.eqb a ":")) (list_ascii_of_string (NilEmpty.string_of_uint d)) = true).
  { eapply (string_of_uint_plain (fun a => Ascii.eqb a ":")); [|reflexivity]. intros k Hr.
    assert (In k (map Z.of_nat (seq 48 10))) as Hin by (apply in_map_iff; exists (Z.to_nat k); rewrite in_seq; lia).
    cbn in Hin. repeat (destruct Hin as [<-|Hin]; [reflexivity|]). done. }
  induction (NilEmpty.string_of_uint d) as [|a s IH]; [done|].
  cbn [until_colon list_ascii_of_string forallb] in *. apply andb_true_iff in H as [Ha H]. apply negb_true_iff in Ha as ->. by rewrite IH.
Qed.

(** ** Pages *)

Lemma filter_res_Ok {A} (p : A -> res bool) l r : filter_res p l = Ok r ->
  r = List.filter (fun x => match p x with Ok b => b | Raise _ => false end) l.
Proof.
  revert r. induction l as [|x l IH]; intros r; cbn; [by intros [= <-]|]. intros (b & Hb & H)%rbind_Ok. apply rbind_Ok in H as (r' & Hr & [= <-]).
  rewrite Hb. rewrite (IH _ Hr). by destruct b.
Qed.

Lemma revenue_rows_Ok a c acct w l : forall seen os, revenue_rows a c acct w seen l = Ok os ->
  Forall2 (fun r o => row_obs true a c acct w r = Ok o) l os.
Proof.
  induction l as [|r l IH]; intros seen os; cbn [revenue_rows]; [intros [= <-]; constructor|]. intros (o & Ho & H)%rbind_Ok.
  assert (exists seen' os', revenue_rows a c acct w seen' l = Ok os' /\ os = Revenue o :: os') as (seen' & os' & Hr & ->).
  { destruct (seen !! _); [destruct (_ <=? _); [done|]|]; apply rbind_Ok in H as (os' & Hr & [= <-]); by eexists _, os'. }
  constructor; [unfold row_obs; by rewrite Ho|by eapply IH].
Qed.

(** A fetched page: a slice of the window's rows, each read. *)
Lemma fetch_page_Ok stream acct w c clock a p a' : fetch_page stream acct w c clock a = (Ok p, a') ->
  let revenue := String.eqb stream "revenue" in
  exists rows l, window_rows a (if revenue then "revenue" else "settlements")%string acct w = Ok rows /\ page a rows c = Ok (l, next p) /\
    Forall2 (fun r o => row_obs revenue a clock acct w r = Ok o) l (items p).
Proof.
  unfold fetch_page. destruct (String.eqb stream "revenue").
  - unfold fetch_revenue. intros H. apply bind_Ok in H as (a1 & w1 & Hg & H). injection Hg as <- <-. apply bind_Ok in H as (u & w2 & _ & H).
    apply bind_Ok in H as (u2 & w3 & _ & H). apply bind_Ok in H as ([l n] & w4 & Hp & H). apply bind_Ok in H as (its & w5 & Hi & H). apply ret_Ok in H as [-> _].
    unfold lift_res in Hp, Hi. injection Hp as Hp _. injection Hi as Hi _. apply rbind_Ok in Hp as (rows & Hw & Hp). exists rows, l. split_and!; [done|done|].
    by eapply revenue_rows_Ok.
  - unfold fetch_settlements. intros H. apply bind_Ok in H as (a1 & w1 & Hg & H). injection Hg as <- <-. apply bind_Ok in H as (u & w2 & _ & H).
    apply bind_Ok in H as (u2 & w3 & _ & H). apply bind_Ok in H as ([l n] & w4 & Hp & H). apply bind_Ok in H as (its & w5 & Hi & H). apply ret_Ok in H as [-> _].
    unfold lift_res in Hp, Hi. injection Hp as Hp _. injection Hi as Hi _. apply rbind_Ok in Hp as (rows & Hw & Hp). exists rows, l. split_and!; [done|done|].
    by apply map_res_Ok.
Qed.

Lemma core_as_of o : as_of (base (Ingestion.core o)) = as_of (base o).
Proof. by destruct o as [[[]]|[[]]]. Qed.

Lemma row_obs_stated revenue a c acct w r o : row_obs revenue a c acct w r = Ok o ->
  stated revenue a acct r = Some (Ingestion.core o) /\ rbind (field "asOf" r) dt = Ok (as_of (base o)).
Proof.
  destruct revenue; cbn [row_obs]; [|apply settlement_stated]. intros (x & Hx & [= <-])%rbind_Ok. by eapply revenue_stated.
Qed.

Lemma stated_time revenue a acct r o : stated revenue a acct r = Some o -> rbind (field "asOf" r) dt = Ok (as_of (base o)).
Proof.
  unfold stated. destruct (rbind _ _) as [t|e] eqn:Ht; [|done]. destruct (row_obs _ _ _ _ _ _) as [o'|e] eqn:Ho; [|done]. intros [= <-].
  apply row_obs_stated in Ho as [_ Ho]. by rewrite Ht, core_as_of in *.
Qed.

Section Honest.
Context (a : Adapter) (acct : AccountRef) (stream : string).
Context (calls_ : nat -> Z) (clock_ : nat -> Z) (ulid_ : nat -> string).

(** The adapter as the collector meets it: at any count of calls. *)
Definition adapter_env (t : nat) : Ingestion.Env := {|
  Ingestion.fetch := fun s acct w c => (fetch_page s acct w c (clock_ t) (a <| calls := calls_ t |>)).1;
  Ingestion.clock := clock_ t; Ingestion.ulid := ulid_ t |}.

Definition revenue : bool := String.eqb stream "revenue".
Definition all_rows : list json := match account_rows a (if revenue then "revenue" else "settlements")%string acct with Ok l => l | Raise _ => [] end.
Definition within (s e : Z) (r : json) : bool :=
  match in_window {| start := s; end_ := e; max_age_seconds := 0; w_as_of := None |} r with Ok b => b | Raise _ => false end.

Definition truth_ : list Observation := omap (stated revenue a acct) all_rows.

(** The row a page starts at. *)
Definition start_of (c : option Cursor) : option Z :=
  match c with
  | Some {| token := Some t |} => n ← second_part t ≫= int_text; if n <? 0 then None else Some n
  | _ => Some 0
  end.

Definition rest_ (s e : Z) (c : option Cursor) : list Observation :=
  match start_of c with
  | Some n => omap (stated revenue a acct) (drop (Z.to_nat n) (List.filter (within s e) all_rows))
  | None => []
  end.

Lemma start_of_off n b : 0 <= n < 2 ^ 63 -> start_of (Some {| token := Some ("off:" ++ py_str n)%string; has_more := b |}) = Some n.
Proof.
  intros Hn. unfold start_of. rewrite second_part_off by done. cbn [mbind option_bind]. rewrite int_text_py_str by done. cbn [mbind option_bind].
  destruct (Z.ltb_spec n 0); [lia|done].
Qed.

Lemma page_Ok {A} k (rows : list A) c l n nx : 0 < page_size a -> page (a <| calls := k |>) rows c = Ok (l, nx) -> start_of c = Some n ->
  let e := Z.min (n + page_size a) (zlen rows) in
  0 <= n <= zlen rows /\ l = take (Z.to_nat (e - n)) (drop (Z.to_nat n) rows) /\
  nx = {| token := Some ("off:" ++ py_str e)%string; has_more := e <? zlen rows |}.
Proof.
  intros Hsize H Hn. unfold page in H. apply rbind_Ok in H as (m & Hm & [= <- <-]).
  assert (m = n /\ 0 <= n <= zlen rows) as [-> Hb].
  { unfold start_of in Hn. pose proof (Zle_0_nat (length rows)). unfold zlen in *. destruct c as [[[t|] b]|]; [|injection Hm as <-; injection Hn as <-; lia..].
    destruct (second_part t) as [p|]; [|done]. cbn [mbind option_bind] in Hn. destruct (int_text p) as [x|]; [|done]. cbn [mbind option_bind] in Hn.
    destruct (Z.ltb_spec x 0); [done|]. injection Hn as <-. destruct (Z.ltb_spec (Z.of_nat (length rows)) x); [done|]. injection Hm as <-. lia. }
  split_and!; [lia|lia| |done]. cbn [page_size set]. unfold py_slice. set (e := Z.min _ _). assert (He : n <= e <= zlen rows) by lia.
  destruct (Z.ltb_spec n 0); [lia|]. change (Z.min (n + page_size (a <| calls := k |>)) (zlen rows)) with e. destruct (Z.ltb_spec e 0); [lia|].
  unfold slice. do 2 f_equal; lia.
Qed.

Lemma stated_within s e r o : stated revenue a acct r = Some o -> s <= as_of (base o) <= e -> within s e r = true.
Proof.
  intros Hs%stated_time Hd. apply rbind_Ok in Hs as (v & Hv & Ht). unfold within, in_window. rewrite Hv. rewrite Ht. cbn [rbind start end_].
  apply andb_true_iff. split; lia.
Qed.

Lemma window_rows_within w rows : window_rows (a <| calls := 0 |>) (if revenue then "revenue" else "settlements")%string acct w = Ok rows ->
  rows = List.filter (within (start w) (end_ w)) all_rows.
Proof. unfold window_rows, all_rows. intros (l & Hl & H)%rbind_Ok. apply filter_res_Ok in H as ->. unfold account_rows in *. cbn in Hl. by rewrite Hl. Qed.

(** C31: The mock adapter is a provider the collector can rely on: for either
    stream, at any count of calls and any clock, following the cursor of a
    window gives every observation its rows state with a date in the window,
    on the page or on the pages after it. *)
Theorem mock_honest : 0 < page_size a -> zlen all_rows < 2 ^ 63 -> Ingestion.honest adapter_env acct stream truth_ rest_.
Proof.
  intros Hsize Hlen. split.
  - intros s e o Ho Hd. apply list_elem_of_omap in Ho as (r & Hr & Hs). unfold rest_. cbn. rewrite drop_0. apply list_elem_of_omap. exists r. split; [|done].
    apply list_elem_of_In, filter_In. split; [by apply list_elem_of_In|by eapply stated_within].
  - intros t w c p Hp o Ho. cbn in Hp. destruct (fetch_page _ _ _ _ _ _) as [r a'] eqn:Hf. cbn in Hp. subst r.
    destruct (fetch_page_Ok _ _ _ _ _ _ _ _ Hf) as (rows & l & Hw & Hpg & Hits). fold revenue in Hw, Hits.
    apply window_rows_within in Hw. assert (Hr : zlen rows <= zlen all_rows) by (rewrite Hw; unfold zlen; pose proof (filter_length_le (within (start w) (end_ w)) all_rows); lia).
    unfold rest_ in Ho. destruct (start_of c) as [n|] eqn:Hn; [|by apply elem_of_nil in Ho]. rewrite <- Hw in Ho.
    apply list_elem_of_omap in Ho as (r & Hin & Hs). apply list_elem_of_lookup in Hin as [i Hi]. rewrite lookup_drop in Hi.
    destruct (page_Ok _ _ _ _ _ _ Hsize Hpg Hn) as (Hnr & -> & Hnx). set (e := Z.min (n + page_size a) (zlen rows)) in *. unfold zlen in *.
    assert (Hil : (Z.to_nat n + i < length rows)%nat) by (apply lookup_lt_is_Some; by eexists).
    destruct (Z.lt_ge_cases (n + Z.of_nat i) e) as [Hlt|Hge].
    + left. assert (Hl : take (Z.to_nat (e - n)) (drop (Z.to_nat n) rows) !! i = Some r) by (rewrite lookup_take_lt by lia; by rewrite lookup_drop).
      destruct (Forall2_lookup_l _ _ _ _ _ Hits Hl) as (o' & Ho' & Hobs). apply row_obs_stated in Hobs as [Hst _].
      exists o'. split; [by eapply list_elem_of_lookup_2|]. assert (Hst' : stated revenue a acct r = Some (Ingestion.core o')) by exact Hst. congruence.
    + right. rewrite Hnx. cbn [has_more]. split; [apply Z.ltb_lt; lia|]. unfold rest_. rewrite start_of_off by (unfold zlen; lia).
      apply list_elem_of_omap. exists r. split; [|done]. rewrite <- Hw. apply (list_elem_of_lookup_2 _ (Z.to_nat n + i - Z.to_nat e)). rewrite lookup_drop.
      rewrite <- Hi. f_equal. lia.
Qed.
End Honest.

(** * Histories *)

(** What stays: who the adapter is, and the writes it has accepted. *)
Record kept (a a' : Adapter) : Prop := {
  k_fixture : fx a' = fx a;
  k_identity : identity a' = identity a /\ caps a' = caps a;
  k_claims : forall k r, claims a !! k = Some r -> claims a' !! k = Some r;
  k_changes : forall k r, control_changes a !! k = Some r -> control_changes a' !! k = Some r;
}.

#[export] Instance kept_preorder : PreOrder kept.
Proof. split; [by intros a|]. intros a b c [A [B B'] C D] [A' [E E'] F G]. split; [congruence|split; congruence|auto|auto]. Qed.

Lemma tick_run a : exists r, tick a = (r, a <| calls ::= Z.succ |>).
Proof. unfold tick, bind, modify, get, ret, raise. destruct (_ && _); by eexists. Qed.

Lemma tick_kept : keeps kept tick.
Proof. intros a. destruct (tick_run a) as [r ->]. by split. Qed.

#[local] Hint Resolve tick_kept : keeps.

Lemma fetch_kept stream acct w c clock : keeps kept (fetch_page stream acct w c clock).
Proof. unfold fetch_page, fetch_revenue, fetch_settlements. keeps_tac. Qed.

Lemma list_kept acct c clock : keeps kept (list_assets acct c clock).
Proof. unfold list_assets. keeps_tac. Qed.

Lemma control_kept acct clock : keeps kept (get_control_state acct clock).
Proof. unfold get_control_state. keeps_tac. Qed.

(** A claim is in the table with its answer, and is written only when its key
    is new. *)
Lemma claim_run q clock a o a' : claim_revenue q clock a = (o, a') ->
  kept a a' /\ (is_Some (claims a !! cq_key q) -> claims a' = claims a) /\ forall r, o = Ok r -> claims a' !! cq_key q = Some r.
Proof.
  unfold claim_revenue, bind, get, lift_res. destruct (require_op _ _ _); [|intros [= <- <-]; split; [done|split; [done|by intros r [=]]]].
  destruct (tick_run a) as [r ->]. destruct r; [|intros [= <- <-]; split; [by split|split; [done|by intros r [=]]]].
  destruct (require_account _ _); [|intros [= <- <-]; split; [by split|split; [done|by intros r [=]]]].
  destruct (claims a !! cq_key q) as [r|] eqn:Hk; [intros [= <- <-]; split; [by split|split; [done|by intros r' [= <-]]]|].
  destruct (observed a clock) as [seen|e]; [|intros [= <- <-]; split; [by split|split; [done|by intros r [=]]]].
  intros [= <- <-]. split_and!.
  - split; try done. intros k r Hr. cbn. rewrite lookup_insert_ne; [done|congruence].
  - by intros [? [=]].
  - intros r [= <-]. cbn. by rewrite lookup_insert_eq.
Qed.

Lemma change_run q clock a o a' : request_control_change q clock a = (o, a') ->
  kept a a' /\ (is_Some (control_changes a !! ch_key q) -> control_changes a' = control_changes a) /\
  forall r, o = Ok r -> control_changes a' !! ch_key q = Some r.
Proof.
  unfold request_control_change, bind, get, lift_res. destruct (require_op _ _ _); [|intros [= <- <-]; split; [done|split; [done|by intros r [=]]]].
  destruct (tick_run a) as [r ->]. destruct r; [|intros [= <- <-]; split; [by split|split; [done|by intros r [=]]]].
  destruct (require_account _ _); [|intros [= <- <-]; split; [by split|split; [done|by intros r [=]]]].
  destruct (require_chain _ _); [|intros [= <- <-]; split; [by split|split; [done|by intros r [=]]]].
  destruct (control_changes a !! ch_key q) as [r|] eqn:Hk; [intros [= <- <-]; split; [by split|split; [done|by intros r' [= <-]]]|].
  destruct (observed a clock) as [seen|e]; [|intros [= <- <-]; split; [by split|split; [done|by intros r [=]]]].
  intros [= <- <-]. split_and!.
  - split; try done. intros k r Hr. cbn. rewrite lookup_insert_ne; [done|congruence].
  - by intros [? [=]].
  - intros r [= <-]. cbn. by rewrite lookup_insert_eq.
Qed.

(** Any call, whatever it returns. *)
Inductive mstep : Adapter -> Adapter -> Prop :=
| m_list acct c clock a : mstep a (list_assets acct c clock a).2
| m_fetch stream acct w c clock a : mstep a (fetch_page stream acct w c clock a).2
| m_control acct clock a : mstep a (get_control_state acct clock a).2
| m_claim q clock a : mstep a (claim_revenue q clock a).2
| m_change q clock a : mstep a (request_control_change q clock a).2.

Lemma mstep_kept a a' : mstep a a' -> kept a a'.
Proof.
  intros []; [by apply list_kept|by apply fetch_kept|by apply control_kept|..].
  - exact (proj1 (claim_run _ _ _ _ _ (surjective_pairing _))).
  - exact (proj1 (change_run _ _ _ _ _ (surjective_pairing _))).
Qed.

Lemma history_kept a a' : rtc mstep a a' -> kept a a'.
Proof. induction 1 as [a|a b c Hs _ IH]; [reflexivity|]. etransitivity; [by apply mstep_kept|done]. Qed.

Lemma make_mock_identity fixture size a : make_mock fixture size = Ok a -> is_mock (identity a) = true /\ is_mock_slug (i_slug (identity a)) = true.
Proof.
  unfold make_mock. intros (s & _ & H)%rbind_Ok. destruct (is_mock_slug (str_json s)) eqn:Hs; [|done]. cbn [negb] in H. apply rbind_Ok in H as (p & _ & H).
  destruct (match p with JStr s => of_value s | _ => None end) as [pr|]; [|done]. destruct (bool_decide _); [done|]. split_row H.
  match type of H with match ?pr with _ => _ end = _ => destruct pr; try done end. destruct (negb _); [done|]. split_row H. by injection H as <-.
Qed.

(** A mock stays a mock, and acts once: after any calls to an adapter built
    from a fixture it still cannot pass the production gate, a repeated claim
    gets the first answer and adds nothing, and so does a repeated control
    change. *)
Theorem mock_writes_once fixture size a0 a1 : make_mock fixture size = Ok a0 -> rtc mstep a0 a1 ->
  (exists e, assert_production_admissible (identity a1) (caps a1) = Raise e) /\
  (forall q q' c c' r a2 a3 o a4, claim_revenue q c a1 = (Ok r, a2) -> rtc mstep a2 a3 -> claim_revenue q' c' a3 = (o, a4) -> cq_key q' = cq_key q ->
     claims a4 = claims a3 /\ forall r', o = Ok r' -> r' = r) /\
  (forall q q' c c' r a2 a3 o a4, request_control_change q c a1 = (Ok r, a2) -> rtc mstep a2 a3 -> request_control_change q' c' a3 = (o, a4) ->
     ch_key q' = ch_key q -> control_changes a4 = control_changes a3 /\ forall r', o = Ok r' -> r' = r).
Proof.
  intros Hm Hh. apply make_mock_identity in Hm as [Hmock _]. destruct (history_kept _ _ Hh) as [_ [Hid _] _ _]. split_and!.
  - unfold assert_production_admissible, admission_reasons. rewrite Hid, Hmock. cbn. by eexists.
  - intros q q' c c' r a2 a3 o a4 H1 H2 H3 Hk. destruct (claim_run _ _ _ _ _ H1) as (_ & _ & Hr). specialize (Hr r eq_refl).
    apply (k_claims _ _ (history_kept _ _ H2)) in Hr. destruct (claim_run _ _ _ _ _ H3) as (_ & Hsame & Ho). rewrite Hk in *.
    rewrite Hsame in * by (by eexists). split; [done|]. intros r' Hr'. specialize (Ho r' Hr'). congruence.
  - intros q q' c c' r a2 a3 o a4 H1 H2 H3 Hk. destruct (change_run _ _ _ _ _ H1) as (_ & _ & Hr). specialize (Hr r eq_refl).
    apply (k_changes _ _ (history_kept _ _ H2)) in Hr. destruct (change_run _ _ _ _ _ H3) as (_ & Hsame & Ho). rewrite Hk in *.
    rewrite Hsame in * by (by eexists). split; [done|]. intros r' Hr'. specialize (Ho r' Hr'). congruence.
Qed.
End Mock.

(** * A fixture *)

Module MEx.

Definition iso (s : string) : option datetime := match Datetime.fromisoformat s with Ok d => Some d | Raise _ => None end.
Definition asset_ : AssetRef := {| chain_id := 11155111; address := None; symbol := "USDC"; decimals := 6 |}.
Definition money_ : json := JObj [("amount", JStr "5"); ("asset", JObj [("chainId", JInt 11155111); ("symbol", JStr "USDC"); ("decimals", JInt 6)])]%string.
Definition row_ (r day : string) : json :=
  JObj [("asOf", JStr ("2026-01-" ++ day ++ "T00:00:00+00:00")); ("settlementRef", JStr r); ("revision", JInt 1); ("amount", money_); ("status", JStr "PAID")]%string.
Definition fixture_ : json :=
  JObj [("providerSlug", JStr "mock-gpu"); ("supportedAssets", JArr [JNull]); ("sourceChainIds", JArr [JInt 11155111]);
        ("capabilities", JObj [("fetch_settlements", JStr "SUPPORTED"); ("claim_revenue", JStr "SUPPORTED")]);
        ("settlements", JObj [("a1", JArr [row_ "s1" "01"; row_ "s2" "02"; row_ "s3" "03"])])]%string.
Definition built : res Adapter := make_mock (fun _ => EmptyString) (fun _ => Ok asset_) fixture_ None.
Definition blank : Adapter := {| fx := JNull; page_size := 2; identity := {| i_slug := ""; execution_profile := EP_LOCAL_MOCK; is_mock := true;
  partner_revenue := ""; source_chain_ids := []; supported_assets := [] |}; caps := {| Providers.list_assets := UNKNOWN; Providers.fetch_revenue := UNKNOWN;
  Providers.fetch_settlements := UNKNOWN; Providers.get_control_state := UNKNOWN; Providers.claim_revenue := UNKNOWN;
  Providers.request_control_change := UNKNOWN; source_support := UNKNOWN |}; claims := ∅; control_changes := ∅; calls := 0; rate_limit_every := 0 |}.
Definition adapter_ : Adapter := match built with Ok a => a | Raise _ => blank end.

Lemma built_ok : built = Ok adapter_.
Proof. vm_compute. reflexivity. Qed.

Definition acct (n : string) : AccountRef := {| a_slug := "mock-gpu"; external_account_id := n |}.

(** Three rows, in two pages. *)
Example two_pages :
  let w := {| start := 0; end_ := 4000000000000000; max_age_seconds := 10000000000; w_as_of := None |} in
  let get c := (fetch_page iso (fun _ => EmptyString) "settlements" (acct "a1") w c 0 adapter_).1 in
  let refs (p : Page Observation) := map (fun o => match o with Settle s => settlement_ref s | _ => ""%string end) (items p) in
  match get None with
  | Ok p => refs p = ["s1"; "s2"]%string /\ has_more (next p) = true /\
      match get (Some (next p)) with Ok q => refs q = ["s3"]%string /\ has_more (next q) = false | Raise _ => False end
  | Raise _ => False
  end.
Proof. vm_compute. repeat split. Qed.

Definition claim_ (n : string) : ClaimRequest := {| cq_account := acct n; cq_amount := None; cq_key := "k" |}.

(** One key for two accounts: the second gets the first one's answer. *)
Example claim_key_shared :
  match claim_revenue iso (claim_ "a1") 7 adapter_ with
  | (Ok _, a) => match (claim_revenue iso (claim_ "a2") 8 a).1 with Ok r => account (cr_base r) = acct "a1" | Raise _ => False end
  | _ => False
  end.
Proof. vm_compute. reflexivity. Qed.

Lemma mock_honest_witness : Ingestion.honest
  (adapter_env iso (fun _ => EmptyString) adapter_ (fun t => Z.of_nat t) (fun _ => 0) (fun _ => EmptyString)) (acct "a1") "settlements"
  (truth_ iso (fun _ => EmptyString) adapter_ (acct "a1") "settlements") (rest_ iso (fun _ => EmptyString) adapter_ (acct "a1") "settlements").
Proof. apply mock_honest; [reflexivity|vm_compute; reflexivity]. Defined.

Lemma mock_writes_once_witness : exists e, assert_production_admissible (identity adapter_) (caps adapter_) = Raise e.
Proof.
  destruct (mock_writes_once iso (fun _ => EmptyString) (fun _ => Ok asset_) (fun _ => None) (fun _ => None) fixture_ None adapter_ adapter_ built_ok (rtc_refl _ _)) as (H & _).
  exact H.
Defined.
End MEx.
End Mock.
