(* ===== verification/Control.v ===== *)
(** Partner actions: approved claims and receiver changes, sent to a provider
    once, acknowledged in a transaction of their own, and recorded only when
    their effect is observed.

    Source: offchain/gpu/hashcredit_gpu/control/executor.py, on top of the
    outbox, the queue and the audit log.  The partner's adapter and the effect
    reader are outside the program: arguments whose answers depend on the calls
    made so far; so is pydantic's reading of an amount.  As in the settlement
    legs, the handler runs in the worker's transaction and commits its
    acknowledgement on its own. *)

From S2P Require Import Prelude Domain Stdpy Json JobQueue Lifecycle Columns Providers.
From Stdlib Require Import QArith.
#[local] Open Scope Z_scope.
Import Domain Stdpy Json Columns Providers.

Module Control.

(** * Data *)

(** Models [control/executor.py], [WriteBinding]. *)
Record WriteBinding := {
  b_provider : string;
  b_profile : string;
  partner_binding : string;
  credential_scope : list string;
  allowed_receivers : list string;
  b_chain : Z;
  claim_cap : Z;
  approval_ref : string;
  idempotent_requests : bool;
}.

(** Models [control/executor.py], [EffectObservation]. *)
Record EffectObservation := { applied : bool; e_reference : option string }.

(** Models [db/models.py], [ProviderAccount], lines 135-142. *)
Record PAccount := { pa_provider : string; pa_external : string; auth_scope : list string }.

(** Every write asked of the partner so far. *)
Inductive Request := Claim (q : ClaimRequest) | Change (q : ControlChangeRequest).
Definition Calls := list Request.

Definition req_key (r : Request) : string := match r with Claim q => cq_key q | Change q => ch_key q end.
Definition req_account (r : Request) : AccountRef := match r with Claim q => cq_account q | Change q => ch_account q end.

(** What an acknowledgement of either kind carries. *)
Record Ack := { k_account : AccountRef; k_key : string; k_accepted : bool; k_ref : option string }.

(** The partner's adapter. *)
Record Partner := {
  p_identity : AdapterIdentity;
  p_capabilities : Calls -> Capabilities;
  p_claim : Calls -> ClaimRequest -> res Ack;
  p_change : Calls -> ControlChangeRequest -> res Ack;
}.

(** Models [control/executor.py], [EffectReader]. *)
Record EffectReader := {
  observe : Calls -> json -> res EffectObservation;
  release_permitted : Calls -> json -> res bool;
}.

(** * Transactions *)

(** What a transaction sees. *)
Record TS := { accounts : gmap string PAccount; outbox : Outbox.DB; queue : Jobs.DB unit }.

(** The committed state, what the worker's open transaction does to it, and
    the calls, which no rollback takes back. *)
Record World := { base : TS; pending : TS -> TS; calls : Calls }.

Definition view (w : World) : TS := pending w (base w).

Definition on_outbox {A} (m : PyM Outbox.DB A) : PyM TS A :=
  fun t => match m (outbox t) with (r, o) => (r, t <| outbox := o |>) end.

Definition on_queue {A} (m : PyM (Jobs.DB unit) A) : PyM TS A :=
  fun t => match m (queue t) with (r, q) => (r, t <| queue := q |>) end.

(** A statement of the worker's transaction. *)
Definition on_view {A} (m : PyM TS A) : PyM World A :=
  fun w => ((m (view w)).1, w <| pending := fun t => (m (pending w t)).2 |>).

(** [with self.engine.begin() as own]: a transaction of its own. *)
Definition own {A} (m : PyM TS A) : PyM World A :=
  fun w => match m (base w) with
           | (Ok a, t) => (Ok a, w <| base := t |>)
           | (Raise e, _) => (Raise e, w)
           end.

Definition begin {A} (m : PyM World A) : PyM World A :=
  fun w => match m (w <| pending := id |>) with
           | (Ok a, w') => (Ok a, {| base := view w'; pending := id; calls := calls w' |})
           | (Raise e, w') => (Raise e, w' <| pending := id |>)
           end.

Section Executor.
Context (money_of : json -> res Money) (ad : Partner) (b : WriteBinding) (effects : EffectReader).

Definition terminal {A} (msg : string) : res A := Raise (Exn TerminalError msg).

(** [action[kind]] of a claim. *)
Definition is_claim (kind : json) : bool := json_eqb kind (JStr "CLAIM").
Definition operation_of (kind : json) : string := if is_claim kind then "claim_revenue" else "request_control_change".

Definition get (key : string) (v : json) : json := default JNull (get_field key v).

(** The checks on what is asked for. *)
(** Models [control/executor.py], [ControlExecutor._authorize], lines 92-109. *)
Definition authorize_effect (h : Calls) (write : bool) (action kind : json) : res unit :=
  if is_claim kind then
    rbind (rbind (field "amount" action) money_of) (fun m => rbind (units m) (fun n =>
    if (n <=? 0) || (claim_cap b <? n) || negb (bool_decide (asset m ∈ supported_assets (p_identity ad))) then terminal "claim amount or asset exceeds approved binding"
    else Ok tt))
  else
    rbind (in_set (get "receiver" action) (allowed_receivers b)) (fun ok =>
    if negb ok || negb (json_eqb (get "receiverChainId" action) (JInt (b_chain b))) then terminal "receiver is outside approved agreement targets"
    else if write && json_eqb kind (JStr "RELEASE") then
      rbind (release_permitted effects h action) (fun ok => if ok then Ok tt else terminal "release blocked by debt, unresolved refunds or active agreement")
    else Ok tt).

(** Models [control/executor.py], [ControlExecutor._authorize]. *)
Definition authorize (t : TS) (h : Calls) (now : Z) (write : bool) (action : json) : res AccountRef :=
  let i := p_identity ad in
  if String.eqb (approval_ref b) "" || negb (idempotent_requests b) || negb (String.eqb (i_slug i) (b_provider b))
     || negb (String.eqb (value (execution_profile i)) (b_profile b)) then terminal "write binding is missing or inconsistent"
  else if negb (String.eqb (b_profile b) "LOCAL_MOCK") && negb (mem_str (partner_binding b) ["SANDBOX_VERIFIED"; "LIVE_VERIFIED"]) then
    terminal "partner write binding is unconfigured"
  else if String.eqb (b_profile b) "PRODUCTION" && (is_mock i || negb (String.eqb (partner_binding b) "LIVE_VERIFIED")) then
    terminal "production requires live partner write authority"
  else
    rbind (field "kind" action) (fun kind =>
    rbind (in_set kind ["CLAIM"; "SET_RECEIVER"; "RELEASE"]) (fun known =>
    if negb known then terminal "unsupported provider action"
    else
      rbind (str_field "providerAccountId" action) (fun pid =>
      match accounts t !! pid with
      | None => terminal "provider account binding mismatch"
      | Some acct =>
          if negb (String.eqb (pa_provider acct) (b_provider b)) then terminal "provider account binding mismatch"
          else if write && (negb (mem_str (operation_of kind) (credential_scope b)) || negb (mem_str (operation_of kind) (auth_scope acct))) then
            terminal "partner write scope revoked or unavailable"
          else if negb (truth (get "reason" action)) || negb (truth (get "approvedBy" action))
                  || negb (json_eqb (get "approvalRef" action) (JStr (approval_ref b))) then terminal "reason and bound approval required"
          else
            rbind (in_set (get "approvedRole" action) ["operator"; "treasury"]) (fun role =>
            if negb role then terminal "action requires operator or treasury approval"
            else
              rbind (if write then rbind (rbind (field "deadline" action) int_json) (fun d =>
                                   if d <=? Z.quot now 1000000 then terminal "provider action deadline expired" else Ok tt)
                     else Ok tt) (fun _ =>
              rbind (if write then match require (p_capabilities ad h) (operation_of kind) with
                                   | Raise e => if bool_decide (exn_kind e = UnsupportedOperation) then terminal "partner operation unsupported" else Raise e
                                   | Ok _ => Ok tt
                                   end
                     else Ok tt) (fun _ =>
              rbind (authorize_effect h write action kind) (fun _ =>
              Ok {| a_slug := pa_provider acct; external_account_id := pa_external acct |}))))
      end))).

Definition ACTION : string := "PROVIDER_ACTION".
Definition action_key (aid : string) : string := ("provider-action:" ++ b_provider b ++ ":" ++ aid)%string.
Definition ack_key (aid : string) : string := ("provider-ack:" ++ b_provider b ++ ":" ++ aid)%string.
Definition effect_key (aid : string) : string := ("provider-effect:" ++ b_provider b ++ ":" ++ aid)%string.

(** Models [control/executor.py], [ControlExecutor.enqueue]. *)
Definition enqueue (h : Calls) (now : Z) (action : json) (fresh : string) : PyM TS string :=
  let* t := Prelude.get in
  let* _ := lift_res (authorize t h now true action) in
  match get "actionId" action with
  | JStr aid =>
      if String.eqb aid "" || negb (fits 128 aid) then raise ValueError "bounded semantic actionId required"
      else
        match Jobs.job_with_key (action_key aid) (queue t) with
        | Some j =>
            if negb (json_eqb (Jobs.payload j) action) then raise ValueError "provider actionId already bound to different request"
            else on_queue (Jobs.enqueue ACTION action (action_key aid) 100 None fresh)
        | None => on_queue (Jobs.enqueue ACTION action (action_key aid) 100 None fresh)
        end
  | _ => raise ValueError "bounded semantic actionId required"
  end.

(** The request of an action. *)
(** Models [control/executor.py], [ControlExecutor.handle], lines 138-154. *)
Definition request_of (acct : AccountRef) (aid : string) (action : json) : res Request :=
  rbind (field "kind" action) (fun kind =>
  if is_claim kind then
    rbind (rbind (field "amount" action) money_of) (fun m => Ok (Claim {| cq_account := acct; cq_amount := Some m; cq_key := aid |}))
  else
    rbind (str_field "receiver" action) (fun r => rbind (int_field "receiverChainId" action) (fun c =>
    Ok (Change {| ch_account := acct; new_receiver := r; new_receiver_chain_id := c; ch_key := aid |})))).

(** The call happened, whatever comes back. *)
Definition call_partner (r : Request) : PyM World Ack :=
  let* w := Prelude.get in
  modify (fun w => w <| calls ::= fun l => l ++ [r] |>) ;;;
  lift_res (match r with Claim q => p_claim ad (calls w) q | Change q => p_change ad (calls w) q end).

Definition with_key (key : string) (r : Outbox.Row) : bool := String.eqb (Outbox.idempotency_key (Outbox.event r)) key.

Definition jopt (x : option string) : json := match x with Some s => JStr s | None => JNull end.

(** The write and its acknowledgement. *)
(** Models [control/executor.py], [ControlExecutor.handle], lines 135-173. *)
Definition send_action (now : Z) (acct : AccountRef) (aid : string) (action : json) : PyM World EffectObservation :=
  let* w := Prelude.get in
  let* _ := lift_res (authorize (view w) (calls w) now true action) in
  let* r := lift_res (request_of acct aid action) in
  let* result := call_partner r in
  if negb (bool_decide (k_account result = acct)) || negb (String.eqb (k_key result) aid) then raise TerminalError "provider acknowledgement binding mismatch"
  else if negb (k_accepted result) then raise TerminalError "provider rejected approved action"
  else
    let* _ := own (on_outbox (Outbox.emit "provider_action" aid "PROVIDER_ACTION_ACKNOWLEDGED"
      (JObj [("providerRef", jopt (k_ref result)); ("cashState", JStr "NONE"); ("controlGradeEffect", JStr "NONE")]%string) (ack_key aid))) in
    let* w := Prelude.get in
    lift_res (observe effects (calls w) action).

(** The effect's record. *)
(** Models [control/executor.py], [ControlExecutor.handle], lines 174-204. *)
Definition record_effect (jid aid : string) (action : json) (effect : EffectObservation) : PyM World unit :=
  if negb (applied effect) || negb (truthy (e_reference effect)) then raise TransientError "provider action acknowledged; applied effect not observed"
  else
    let* emitted := on_view (on_outbox (Outbox.emit "provider_action" aid "PROVIDER_ACTION_EFFECT_OBSERVED"
      (JObj [("effectRef", jopt (e_reference effect)); ("cashState", JStr "NONE"); ("controlGradeEffect", JStr "NONE");
             ("partnerBinding", JStr (partner_binding b))]%string) (effect_key aid))) in
    match emitted with
    | None => ret tt
    | Some _ =>
        let* by_ := lift_res (str_field "approvedBy" action) in
        let* role := lift_res (str_field "approvedRole" action) in
        let* pid := lift_res (str_field "providerAccountId" action) in
        let* reason := lift_res (field "reason" action) in
        let* _ := on_view (on_queue (Jobs.write_audit by_ role "PROVIDER_EFFECT_OBSERVED" "provider_accounts" pid None
          (Some (JObj [("actionId", JStr aid); ("effectRef", jopt (e_reference effect)); ("reason", reason)]%string)) (Some jid))) in
        ret tt
    end.

(** Models [control/executor.py], [ControlExecutor.handle]. *)
Definition handle (now : Z) (job : Jobs.ClaimedJob) : PyM World unit :=
  let action := Jobs.c_payload job in
  let* w := Prelude.get in
  let* acct := lift_res (authorize (view w) (calls w) now false action) in
  let* effect := lift_res (observe effects (calls w) action) in
  let* aid := lift_res (str_field "actionId" action) in
  let* effect :=
    (if negb (applied effect) && (if scalar (with_key (ack_key aid)) (Outbox.rows (outbox (view w))) is Some _ then false else true)
     then send_action now acct aid action
     else ret effect) in
  record_effect (Jobs.c_job_id job) aid action effect.

(** The worker's transaction around the handler. *)
Definition run_handler (now : Z) (job : Jobs.ClaimedJob) : PyM World unit :=
  begin (handle now job ;;; on_view (on_queue (Jobs.complete job))).

(** [Worker.run_one] with this handler. *)
Definition run_action (class_name : exn_class -> string) (p : Jobs.BackoffPolicy) (u : Q) (now : Z) (job : Jobs.ClaimedJob) : PyM World string :=
  try_except (run_handler now job ;;; ret "SUCCEEDED"%string)
    (fun e => match exn_kind e with
              | LeaseLost => ret "LEASE_LOST"%string
              | TerminalError => own (on_queue (Jobs.fail_exception class_name p u job Jobs.TERMINAL e))
              | _ => own (on_queue (Jobs.fail_exception class_name p u job Jobs.TRANSIENT e))
              end).

(** * What is asked of the partner *)

Definition op_of (r : Request) : string := match r with Claim _ => "claim_revenue" | Change _ => "request_control_change" end.

(** A request within the authority of the binding: what the approval, the
    scopes, the deadline and the capability say when it is made. *)
Record permitted (t : TS) (h : Calls) (now : Z) (action : json) (r : Request) : Prop := {
  pm_binding : approval_ref b <> ""%string /\ idempotent_requests b = true /\ i_slug (p_identity ad) = b_provider b;
  pm_production : b_profile b = "PRODUCTION"%string -> is_mock (p_identity ad) = false /\ partner_binding b = "LIVE_VERIFIED"%string;
  pm_account : exists pid acct, accounts t !! pid = Some acct /\ str_field "providerAccountId" action = Ok pid /\ pa_provider acct = b_provider b /\
    req_account r = {| a_slug := pa_provider acct; external_account_id := pa_external acct |} /\ op_of r ∈ auth_scope acct;
  pm_scope : op_of r ∈ credential_scope b /\ require (p_capabilities ad h) (op_of r) = Ok tt;
  pm_approval : get "approvalRef" action = JStr (approval_ref b) /\
    (get "approvedRole" action = JStr "operator" \/ get "approvedRole" action = JStr "treasury");
  pm_deadline : exists d, rbind (field "deadline" action) int_json = Ok d /\ Z.quot now 1000000 < d;
  pm_effect : match r with
    | Claim q => exists m n, cq_amount q = Some m /\ units m = Ok n /\ 0 < n <= claim_cap b /\ asset m ∈ supported_assets (p_identity ad)
    | Change q => new_receiver q ∈ allowed_receivers b /\ new_receiver_chain_id q = b_chain b
    end;
}.

Lemma mem_str_elem s l : mem_str s l = true -> s ∈ l.
Proof. unfold mem_str. intros (x & Hx & ->%String.eqb_eq)%existsb_exists. by apply list_elem_of_In. Qed.

Lemma in_set_true v l : in_set v l = Ok true -> exists s, v = JStr s /\ s ∈ l.
Proof. destruct v; try done. cbn. intros [= H]. exists s. split; [done|by apply mem_str_elem]. Qed.

Lemma json_eqb_str v s : json_eqb v (JStr s) = true -> v = JStr s.
Proof. destruct v; try done. cbn. by intros ->%String.eqb_eq. Qed.

Lemma str_field_get key v s s' : str_field key v = Ok s -> get key v = JStr s' -> s = s'.
Proof.
  unfold str_field, field, get, get_field. destruct v; try done. destruct (dget key l) as [x|]; [|done]. cbn. destruct x; try done. by intros [= <-] [= <-].
Qed.

Lemma int_field_eq key v n m : int_field key v = Ok n -> json_eqb (get key v) (JInt m) = true -> n = m.
Proof.
  unfold int_field, field, get, get_field. destruct v; try done. destruct (dget key l) as [x|]; [|done]. cbn. destruct x; try done; cbn.
  - intros [= <-] H. lia. - intros [= <-] H. lia.
Qed.

Ltac next_check H := match type of H with (if ?c then _ else _) = _ => let E := fresh "E" in destruct c eqn:E; [discriminate H|] end.

(** An authorised write is permitted. *)
Lemma authorize_permitted t h now action acct aid r :
  authorize t h now true action = Ok acct -> request_of acct aid action = Ok r -> permitted t h now action r /\ req_key r = aid.
Proof.
  unfold authorize. intros H Hr. cbv zeta in H. next_check H. next_check H. next_check H.
  apply rbind_Ok in H as (kind & Hkind & H). apply rbind_Ok in H as (known & Hknown & H). next_check H.
  apply rbind_Ok in H as (pid & Hpid & H). destruct (accounts t !! pid) as [row|] eqn:Hrow; [|discriminate H]. next_check H. next_check H. next_check H.
  apply rbind_Ok in H as (role & Hrole & H). next_check H. apply rbind_Ok in H as (u1 & Hdl & H). apply rbind_Ok in H as (u2 & Hcap & H).
  apply rbind_Ok in H as (u3 & Heff & [= <-]).
  repeat match goal with
    | E : _ || _ = false |- _ => apply orb_false_iff in E as [? ?]
    | E : true && _ = false |- _ => cbn [andb] in E
    | E : negb _ = false |- _ => apply negb_false_iff in E
    end. subst role.
  unfold request_of in Hr. rewrite Hkind in Hr. cbn [rbind] in Hr.
  assert (Hop : op_of r = operation_of kind /\ req_account r = {| a_slug := pa_provider row; external_account_id := pa_external row |} /\ req_key r = aid).
  { unfold operation_of. destruct (is_claim kind); apply rbind_Ok in Hr as (x & _ & Hr); [by injection Hr as <-|]. apply rbind_Ok in Hr as (c & _ & Hr). by injection Hr as <-. }
  destruct Hop as (Hop & Hacct & Hkey). split; [|done].
  apply rbind_Ok in Hdl as (d & Hd & Hdl). destruct (d <=? _) eqn:Hd2; [done|].
  destruct (require _ _) as [[]|e] eqn:Hreq; [|by destruct (bool_decide _)].
  apply in_set_true in Hrole as (ro & Hro & Hin). split.
  - split_and!; [by apply String.eqb_neq|done|by apply String.eqb_eq].
  - intros Hp. assert (Hp2 : String.eqb (b_profile b) "PRODUCTION" = true) by (by rewrite Hp).
    match goal with E : String.eqb (b_profile b) "PRODUCTION" && _ = false |- _ => rewrite Hp2 in E; cbn [andb] in E; apply orb_false_iff in E as [? Epb] end.
    split; [done|]. apply negb_false_iff in Epb. by apply String.eqb_eq.
  - exists pid, row. split_and!; [done|done|by apply String.eqb_eq|done|]. rewrite Hop.
    match goal with E : mem_str _ (auth_scope row) = true |- _ => by apply mem_str_elem in E end.
  - rewrite Hop. split; [|done]. match goal with E : mem_str _ (credential_scope b) = true |- _ => by apply mem_str_elem in E end.
  - split; [by apply json_eqb_str|]. rewrite Hro. apply elem_of_cons in Hin as [->|Hin]; [by left|]. apply list_elem_of_singleton in Hin as ->. by right.
  - exists d. split; [done|]. lia.
  - unfold authorize_effect in Heff. destruct (is_claim kind).
    + apply rbind_Ok in Heff as (m & Hm & Heff). apply rbind_Ok in Heff as (n & Hn & Heff). rewrite Hm in Hr. injection Hr as <-. cbn [cq_amount].
      destruct (_ || _) eqn:Eb in Heff; [discriminate Heff|]. apply orb_false_iff in Eb as [Eb Ea]. apply orb_false_iff in Eb as [Eb1 Eb2]. apply negb_false_iff, bool_decide_eq_true in Ea.
      exists m, n. split_and!; [done|done|lia|lia|done].
    + apply rbind_Ok in Heff as (ok & Hok & Heff). destruct (_ || _) eqn:Eb in Heff; [discriminate Heff|]. apply orb_false_iff in Eb as [Eb1 Eb2]. apply negb_false_iff in Eb1, Eb2. subst ok.
      apply in_set_true in Hok as (s & Hs & Hin2). apply rbind_Ok in Hr as (rc & Hrc & Hr). apply rbind_Ok in Hr as (c & Hc & Hr). injection Hr as <-. cbn [new_receiver new_receiver_chain_id].
      split; [by rewrite (str_field_get _ _ _ _ Hrc Hs)|]. by eapply int_field_eq.
Qed.

(** ** One run of the handler *)

(** The account is the row's, whatever else is checked. *)
Lemma authorize_account t h now wr action acct : authorize t h now wr action = Ok acct ->
  exists pid row, str_field "providerAccountId" action = Ok pid /\ accounts t !! pid = Some row /\
    acct = {| a_slug := pa_provider row; external_account_id := pa_external row |}.
Proof.
  unfold authorize. intros H. cbv zeta in H. next_check H. next_check H. next_check H.
  apply rbind_Ok in H as (kind & Hkind & H). apply rbind_Ok in H as (known & Hknown & H). next_check H.
  apply rbind_Ok in H as (pid & Hpid & H). destruct (accounts t !! pid) as [row|] eqn:Hrow; [|discriminate H]. next_check H. next_check H. next_check H.
  apply rbind_Ok in H as (role & _ & H). next_check H. apply rbind_Ok in H as (u1 & _ & H). apply rbind_Ok in H as (u2 & _ & H).
  apply rbind_Ok in H as (u3 & _ & [= <-]). by exists pid, row.
Qed.

Lemma authorize_same t h now action a1 a2 : authorize t h now false action = Ok a1 -> authorize t h now true action = Ok a2 -> a2 = a1.
Proof.
  intros (p1 & r1 & Hp1 & Hr1 & ->)%authorize_account (p2 & r2 & Hp2 & Hr2 & ->)%authorize_account. congruence.
Qed.

(** The handler asks for nothing, or for one request, which the state it sees
    authorises, whose effect is not there and which no one has acknowledged. *)
Lemma handle_calls now job w r w' : handle now job w = (r, w') ->
  calls w' = calls w \/
  exists acct aid req e, authorize (view w) (calls w) now true (Jobs.c_payload job) = Ok acct /\ request_of acct aid (Jobs.c_payload job) = Ok req /\
    str_field "actionId" (Jobs.c_payload job) = Ok aid /\ scalar (with_key (ack_key aid)) (Outbox.rows (outbox (view w))) = None /\
    observe effects (calls w) (Jobs.c_payload job) = Ok e /\ applied e = false /\ calls w' = calls w ++ [req].
Proof.
  assert (Hrec : forall jid aid action e w r w', record_effect jid aid action e w = (r, w') -> calls w' = calls w).
  { intros jid aid action e w0 r0 w0'. unfold record_effect. destruct (_ || _); [by intros [= _ <-]|]. unfold bind at 1, on_view at 1. cbn [fst snd].
    destruct (on_outbox _ (view w0)) as [[[x|]|e'] t']; [|by intros [= _ <-]..]. cbn [fst].
    unfold bind, lift_res. destruct (str_field _ _); [|by intros [= _ <-]]. destruct (str_field _ _); [|by intros [= _ <-]].
    destruct (str_field _ _); [|by intros [= _ <-]]. destruct (field _ _); [|by intros [= _ <-]]. unfold on_view. destruct (on_queue _ _).1; by intros [= _ <-]. }
  unfold handle. cbv zeta. unfold bind at 1, Prelude.get at 1. unfold bind at 1, lift_res at 1.
  destruct (authorize (view w) (calls w) now false _) as [acct|e] eqn:Hau; [|intros [= _ <-]; by left].
  unfold bind at 1, lift_res at 1. destruct (observe _ _ _) as [eff|e] eqn:Hobs; [|intros [= _ <-]; by left].
  unfold bind at 1, lift_res at 1. destruct (str_field "actionId" _) as [aid|e] eqn:Haid; [|intros [= _ <-]; by left]. unfold bind at 1.
  destruct (negb (applied eff) && _) eqn:Hgo.
  2:{ unfold ret at 1. intros H%Hrec. by left. }
  apply andb_true_iff in Hgo as [Happ Hack]. apply negb_true_iff in Happ. destruct (scalar _ _) as [x|] eqn:Hsc; [done|].
  destruct (send_action now acct aid _ w) as [s w1] eqn:Hsend.
  assert (Hc1 : calls w1 = calls w \/ exists a2 req, authorize (view w) (calls w) now true (Jobs.c_payload job) = Ok a2 /\
            request_of acct aid (Jobs.c_payload job) = Ok req /\ a2 = acct /\ calls w1 = calls w ++ [req]).
  { revert Hsend. unfold send_action. unfold bind at 1, Prelude.get at 1. unfold bind at 1, lift_res at 1.
    destruct (authorize (view w) (calls w) now true _) as [a2|e2] eqn:Hau2; [|intros [= _ <-]; by left].
    unfold bind at 1, lift_res at 1. destruct (request_of _ _ _) as [req|e2] eqn:Hreq; [|intros [= _ <-]; by left].
    intros H. right. exists a2, req. split_and!; [done|done|by eapply authorize_same|]. revert H. unfold bind at 1, call_partner.
    unfold bind at 1, Prelude.get at 1, bind at 1, modify at 1, lift_res at 1.
    destruct (match req with Claim q => _ | Change q => _ end) as [result|e2]; [|by intros [= _ <-]].
    destruct (_ || _); [by intros [= _ <-]|]. destruct (negb (k_accepted result)); [by intros [= _ <-]|].
    unfold bind at 1, own at 1. destruct (on_outbox _ _) as [[x|e2] t']; [|by intros [= _ <-]].
    unfold bind, Prelude.get, lift_res. destruct (observe _ _ _); by intros [= _ <-]. }
  intros H. assert (Hc2 : calls w' = calls w1) by (destruct s as [eff2|e2]; [by apply Hrec in H|by injection H as _ <-]).
  destruct Hc1 as [Hc1|(a2 & req & Ha2 & Hreq & -> & Hc1)]; [left; congruence|]. right. exists acct, aid, req, eff. rewrite Hc2. by split_and!.
Qed.

(** C32: A partner is asked only within authority: a run of the handler makes no
    request, or one, and that one is for the action's own key and account,
    under the bound approval and an operator's or treasury's role, before the
    deadline, within the scopes of the credential and of the account and the
    partner's capabilities as they are when it is made, for an amount within
    the cap of a supported asset or a receiver of the agreement; and then no
    acknowledgement of the action is on record. *)
Theorem partner_calls_authorised now job w :
  let w' := (handle now job w).2 in calls w' = calls w \/
  exists req, calls w' = calls w ++ [req] /\ permitted (view w) (calls w) now (Jobs.c_payload job) req /\
    str_field "actionId" (Jobs.c_payload job) = Ok (req_key req) /\
    forall i row, Outbox.rows (outbox (view w)) !! i = Some row -> Outbox.idempotency_key (Outbox.event row) <> ack_key (req_key req).
Proof.
  cbv zeta. destruct (handle_calls now job w _ _ (surjective_pairing _)) as [H|(acct & aid & req & e & Ha & Hr & Haid & Hsc & _ & _ & Hc)]; [by left|right].
  exists req.
  destruct (authorize_permitted _ _ _ _ _ _ _ Ha Hr) as [Hp <-]. split_and!; [done|done|done|].
  intros i row Hrow Hk. pose proof (scalar_None _ _ _ _ Hsc Hrow) as Hf. unfold with_key in Hf. rewrite Hk, String.eqb_refl in Hf. done.
Qed.
End Executor.

(** * Histories *)

(** What a statement does to the outbox: keys stay. *)
Definition extends (t t' : TS) : Prop :=
  Outbox.outbox_wf (outbox t) -> Outbox.outbox_wf (outbox t') /\ forall k, Outbox.has_key k (outbox t) -> Outbox.has_key k (outbox t').

#[export] Instance extends_preorder : PreOrder extends.
Proof.
  split; [by intros t Ht|]. intros t u v H1 H2 Ht. destruct (H1 Ht) as [Hu K1]. destruct (H2 Hu) as [Hv K2]. split; [done|auto].
Qed.

Lemma emit_extends a i t p k : keeps extends (on_outbox (Outbox.emit a i t p k)).
Proof.
  intros s Hs. unfold on_outbox. pose proof (Outbox.emit_keys a i t p k (outbox s) Hs) as H. cbv zeta in H.
  destruct (Outbox.emit a i t p k (outbox s)) as [r o]. exact H.
Qed.

Lemma on_queue_extends {A} (m : PyM (Jobs.DB unit) A) : keeps extends (on_queue m).
Proof. intros s Hs. unfold on_queue. by destruct (m (queue s)). Qed.

Record frame (w w' : World) : Prop := {
  fr_base : extends (base w) (base w');
  fr_pending : (forall t, extends t (pending w t)) -> forall t, extends t (pending w' t);
}.

#[export] Instance frame_preorder : PreOrder frame.
Proof. split; [by intros w; split|]. intros u v w [B1 P1] [B2 P2]. split; [by etransitivity|auto]. Qed.

Lemma on_view_frame {A} (m : PyM TS A) : keeps extends m -> keeps frame (on_view m).
Proof. intros Hm w. split; [reflexivity|]. intros Hp t. cbn. etransitivity; [apply Hp|apply Hm]. Qed.

Lemma own_frame {A} (m : PyM TS A) : keeps extends m -> keeps frame (own m).
Proof. intros Hm w. unfold own. specialize (Hm (base w)). destruct (m (base w)) as [[a|e] t]; [|reflexivity]. by split. Qed.

Lemma call_frame ad r : keeps frame (call_partner ad r).
Proof. intros w. by split. Qed.

#[local] Hint Resolve emit_extends on_queue_extends on_view_frame own_frame call_frame : keeps.

Lemma handle_frame money_of ad b effects now job : keeps frame (handle money_of ad b effects now job).
Proof. unfold handle, send_action, record_effect. keeps_tac. Qed.

Lemma action_enqueue_extends money_of ad b effects h now action fresh : keeps extends (enqueue money_of ad b effects h now action fresh).
Proof. unfold enqueue. keeps_tac. Qed.

(** Executors with any bindings, and anything else that keeps the keys of the
    outbox. *)
Inductive step (w : World) : World -> Prop :=
| step_enqueue money_of ad b effects now action fresh :
    step w (begin (on_view (enqueue money_of ad b effects (calls w) now action fresh)) w).2
| step_run money_of ad b effects cn p u now job : step w (run_action money_of ad b effects cn p u now job w).2
| step_other t : extends (base w) t -> step w (w <| base := t |>).

Definition acked (provider aid : string) (t : TS) : Prop := Outbox.has_key ("provider-ack:" ++ provider ++ ":" ++ aid)%string (outbox t).

Definition for_action (provider aid : string) (r : Request) : bool := String.eqb (a_slug (req_account r)) provider && String.eqb (req_key r) aid.

(** A call's effect on the committed state and on the requests. *)
Definition silent (provider aid : string) (w w' : World) : Prop :=
  extends (base w) (base w') /\ List.filter (for_action provider aid) (calls w') = List.filter (for_action provider aid) (calls w).

Lemma begin_silent {A} (m : PyM World A) provider aid w :
  frame (w <| pending := id |>) (m (w <| pending := id |>)).2 ->
  List.filter (for_action provider aid) (calls (m (w <| pending := id |>)).2) = List.filter (for_action provider aid) (calls w) ->
  silent provider aid w (begin m w).2.
Proof.
  intros [Hb Hp] Hc. unfold begin. destruct (m (w <| pending := id |>)) as [[a|e] w'] eqn:Hm; cbn in *; (split; [|exact Hc]); cbn; [|exact Hb].
  etransitivity; [exact Hb|]. apply Hp. intros t. reflexivity.
Qed.

Lemma handle_silent money_of ad b effects now job provider aid w : pending w = id -> acked provider aid (base w) ->
  List.filter (for_action provider aid) (calls (handle money_of ad b effects now job w).2) = List.filter (for_action provider aid) (calls w).
Proof.
  intros Hid (i & row & Hrow & Hkey). destruct (handle money_of ad b effects now job w) as [r w'] eqn:H. cbn [snd].
  apply handle_calls in H as [->|(acct & a2 & req & e & Ha & Hr & _ & Hsc & _ & _ & ->)]; [done|].
  rewrite List.filter_app. cbn. destruct (for_action provider aid req) eqn:Hf; [|by rewrite app_nil_r]. exfalso.
  apply andb_true_iff in Hf as [Hs%String.eqb_eq Hk%String.eqb_eq].
  destruct (authorize_permitted _ _ _ _ _ _ _ _ _ _ _ Ha Hr) as [Hp Hreq]. destruct (pm_account _ _ _ _ _ _ _ Hp) as (pid & acc & _ & _ & Hpr & Hra & _).
  unfold view in Hsc. rewrite Hid in Hsc. cbn in Hsc. pose proof (scalar_None _ _ _ _ Hsc Hrow) as Hf. unfold with_key in Hf.
  rewrite Hkey in Hf. rewrite Hra in Hs. cbn in Hs. unfold ack_key in Hf. rewrite <- Hreq, <- Hpr, Hs, Hk, String.eqb_refl in Hf. done.
Qed.

Lemma run_silent money_of ad b effects cn p u now job provider aid w : acked provider aid (base w) ->
  silent provider aid w (run_action money_of ad b effects cn p u now job w).2.
Proof.
  intros Hack. assert (Hh : silent provider aid w (run_handler money_of ad b effects now job w).2).
  { unfold run_handler. apply begin_silent.
    - assert (Hk : keeps frame (handle money_of ad b effects now job ;;; on_view (on_queue (Jobs.complete job)))) by (pose proof (handle_frame money_of ad b effects now job); keeps_tac).
      apply Hk.
    - pose proof (handle_silent money_of ad b effects now job provider aid (w <| pending := id |>) eq_refl Hack) as Hs. unfold bind.
      destruct (handle _ _ _ _ _ _ _) as [[x|e] w1]; exact Hs. }
  unfold run_action, try_except, bind. destruct (run_handler _ _ _ _ _ _ w) as [[x|e] w1]; [done|]. cbn [snd] in Hh.
  assert (Hfail : forall k, silent provider aid w (own (on_queue (Jobs.fail_exception cn p u job k e)) w1).2).
  { intros k. destruct Hh as [Hb Hc]. destruct (own_frame (on_queue (Jobs.fail_exception cn p u job k e)) (on_queue_extends _) w1) as [Hb2 _].
    split; [by etransitivity|]. rewrite <- Hc. unfold own. by destruct (on_queue _ (base w1)) as [[]]. }
  destruct (exn_kind e); first [apply Hfail|exact Hh].
Qed.

Lemma step_silent provider aid w w' : acked provider aid (base w) -> step w w' -> silent provider aid w w'.
Proof.
  intros Hack [money_of ad b effects now action fresh|money_of ad b effects cn p u now job|t Ht].
  - apply begin_silent; [apply on_view_frame, action_enqueue_extends|done].
  - by apply run_silent.
  - by split.
Qed.

(** C33: An acknowledged action is never asked for again: once its
    acknowledgement is committed, no run of any executor, no retry, crash or
    forged job, and nothing else that keeps the outbox's keys, makes another
    request of that provider for that action. *)
Theorem acknowledged_never_resent provider aid w w' :
  Outbox.outbox_wf (outbox (base w)) -> acked provider aid (base w) -> rtc step w w' ->
  List.filter (for_action provider aid) (calls w') = List.filter (for_action provider aid) (calls w).
Proof.
  intros Hwf Hack H. induction H as [w|w u w' Hs _ IH]; [done|]. destruct (step_silent _ _ _ _ Hack Hs) as [Hb <-].
  destruct (Hb Hwf) as [Hwf' Hk]. apply IH; [done|]. by apply Hk.
Qed.

(** * A concrete executor *)

Module CEx.

Definition binding_ : WriteBinding := {|
  b_provider := "mock-gpu"; b_profile := "LOCAL_MOCK"; partner_binding := "NONE"; credential_scope := ["request_control_change"];
  allowed_receivers := ["0xaa"]; b_chain := 1; claim_cap := 0; approval_ref := "a-1"; idempotent_requests := true |}%string.

Definition all_supported : Capabilities := {|
  list_assets := SUPPORTED; fetch_revenue := SUPPORTED; fetch_settlements := SUPPORTED; get_control_state := SUPPORTED; claim_revenue := SUPPORTED;
  request_control_change := SUPPORTED; source_support := SUPPORTED |}.

Definition accept (acct : AccountRef) (key : string) : res Ack := Ok {| k_account := acct; k_key := key; k_accepted := true; k_ref := None |}.

Definition partner_ : Partner := {|
  p_identity := {| i_slug := "mock-gpu"; execution_profile := EP_LOCAL_MOCK; is_mock := true; partner_revenue := "SIMULATED"; source_chain_ids := [];
                   supported_assets := [] |};
  p_capabilities := fun _ => all_supported;
  p_claim := fun _ q => accept (cq_account q) (cq_key q);
  p_change := fun _ q => accept (ch_account q) (ch_key q) |}%string.

(** The effect is not visible yet. *)
Definition effects_ : EffectReader := {| observe := fun _ _ => Ok {| applied := false; e_reference := None |}; release_permitted := fun _ _ => Ok false |}.

Definition action_ : json := JObj
  [("actionId", JStr "x1"); ("kind", JStr "SET_RECEIVER"); ("providerAccountId", JStr "mock-gpu:a"); ("reason", JStr "r"); ("approvedBy", JStr "op");
   ("approvedRole", JStr "operator"); ("approvalRef", JStr "a-1"); ("deadline", JInt 100); ("receiver", JStr "0xaa"); ("receiverChainId", JInt 1)]%string.

Definition job_ : Jobs.ClaimedJob := {|
  Jobs.c_job_id := "j"; Jobs.c_kind := "PROVIDER_ACTION"; Jobs.c_payload := action_; Jobs.c_key := "k"; Jobs.c_attempt := 1; Jobs.c_max_attempts := 100;
  Jobs.c_worker := "w"; Jobs.c_lease_until := None |}%string.

Definition world_ (o : Outbox.DB) : World := {|
  base := {| accounts := {["mock-gpu:a"%string := {| pa_provider := "mock-gpu"; pa_external := "a"; auth_scope := ["request_control_change"] |}]}%string; outbox := o;
             queue := {| Jobs.jobs := ∅; Jobs.audit_log := []; Jobs.now := 0; Jobs.biz := tt |} |};
  pending := id; calls := [] |}.

Definition run_ (w : World) := run_action (fun _ => Raise (Exn ValidationError "")) partner_ binding_ effects_ (fun _ => EmptyString) Jobs.default_backoff 0%Q 5 job_ w.

(** The first run asks once and commits the acknowledgement; the second asks
    no more. *)
Example asked_once :
  length (calls (run_ (world_ Outbox.empty_outbox)).2) = 1%nat /\
  length (calls (run_ (run_ (world_ Outbox.empty_outbox)).2).2) = 1%nat /\
  Outbox.key_taken "provider-ack:mock-gpu:x1" (outbox (base (run_ (world_ Outbox.empty_outbox)).2)) = true.
Proof. vm_compute. repeat split. Qed.

Definition acked_outbox : Outbox.DB := (Outbox.emit "provider_action" "x1" "PROVIDER_ACTION_ACKNOWLEDGED" JNull "provider-ack:mock-gpu:x1" Outbox.empty_outbox).2.

Lemma acknowledged_never_resent_witness : List.filter (for_action "mock-gpu" "x1") (calls (run_ (world_ acked_outbox)).2) = [].
Proof.
  pose proof (acknowledged_never_resent "mock-gpu" "x1" (world_ acked_outbox) (run_ (world_ acked_outbox)).2) as H. apply H; clear H.
  - apply (Outbox.emit_keys "provider_action" "x1" "PROVIDER_ACTION_ACKNOWLEDGED" JNull "provider-ack:mock-gpu:x1" Outbox.empty_outbox Outbox.empty_outbox_wf).
  - exists 1. eexists. split; vm_compute; reflexivity.
  - apply rtc_once. unfold run_. apply step_run.
Defined.
End CEx.
End Control.
