(* ===== verification/Access.v ===== *)
(** What the product API's sessions rest on: roles with revocation epochs, who
    owns what, one-time login challenges, the rate limit and the guards on
    objects.

    Sources under offchain/api/hashcredit_api/gpu/: auth/roles.py,
    auth/challenge.py, auth/database.py, permissions/ownership.py, runtime.py
    ([RateLimiter]), middleware.py, app.py ([security]), errors.py, and
    [DatabaseOwnership] of product/repository.py.

    Each store exists in memory and on the database; a class states what the
    handlers rely on, and both are instances.  A lock of the in-memory stores
    makes a method one step.  Wallets are ASCII, as addresses are. *)

From S2P Require Import Prelude Domain Stdpy Json Columns.
Import Domain Stdpy Json Columns.

Module Access.

(** * Errors of the API *)

(** Models [gpu/errors.py], [unauthenticated]. *)
Definition unauthenticated (message : string) : exn := Exn (ApiError 401 "UNAUTHENTICATED") message.
(** Models [gpu/errors.py], [forbidden_scope]. *)
Definition forbidden_scope (message : string) : exn := Exn (ApiError 403 "FORBIDDEN_SCOPE") message.
(** Models [gpu/errors.py], [not_found]. *)
Definition not_found : exn := Exn (ApiError 404 "NOT_FOUND") "not found".
(** Models [gpu/errors.py], [validation]. *)
Definition validation (message : string) : exn := Exn (ApiError 422 "VALIDATION") message.
(** Models [gpu/errors.py], [not_configured]. *)
Definition not_configured (message : string) : exn := Exn (ApiError 503 "UPSTREAM_UNAVAILABLE") message.

Definition throw {S A} (e : exn) : PyM S A := lift_res (Raise e).

(** * Roles *)

Definition BORROWER : string := "borrower".
Definition UNDERWRITER : string := "underwriter".
Definition OPERATOR : string := "operator".
Definition KEEPER : string := "keeper".
Definition GUARDIAN : string := "guardian".
Definition TREASURY : string := "treasury".
Definition SERVICER : string := "servicer".

(** Models [auth/roles.py], lines 23-23. *)
Definition ALL_ROLES : gset string := {[ BORROWER; "lp"; UNDERWRITER; OPERATOR; KEEPER; GUARDIAN; TREASURY; SERVICER; "registrar" ]}%string.
(** Models [auth/roles.py], lines 25-25. *)
Definition EXCLUSIVE : gset string := {[ UNDERWRITER; TREASURY; GUARDIAN ]}.

(** What a session is checked against. *)
(** Models [auth/roles.py], [RoleRegistry]. *)
Class RoleRegistry (R : Type) := {
  roles_of : R -> string -> gset string;
  epoch : R -> string -> Z;
}.

(** Models [auth/roles.py], [InMemoryRoleRegistry], lines 34-37. *)
Record InMemoryRoleRegistry := { r_roles : gmap string (gset string); r_epochs : gmap string Z }.

Definition held (wallet : string) (r : InMemoryRoleRegistry) : gset string := default ∅ (r_roles r !! lower wallet).

#[export] Instance in_memory_registry : RoleRegistry InMemoryRoleRegistry := {
  roles_of r wallet := held wallet r;
  epoch r role := getz role (r_epochs r);
}.

Definition new_registry : InMemoryRoleRegistry := {| r_roles := ∅; r_epochs := set_to_map (fun r => (r, 0)) ALL_ROLES |}.

(** Models [auth/roles.py], [InMemoryRoleRegistry.grant]. *)
Definition grant (wallet role : string) : PyM InMemoryRoleRegistry unit :=
  if bool_decide (role ∉ ALL_ROLES) then raise ValueError "unknown role"
  else
    modify (fun r => r <| r_roles ::= <[lower wallet := held wallet r]> |>) ;;;
    let* r := get in
    let h := held wallet r in
    if bool_decide (role ∈ EXCLUSIVE /\ (h ∩ EXCLUSIVE) ∖ {[role]} ≠ ∅) then raise ValueError "already holds an exclusive role"
    else modify (fun r => r <| r_roles ::= <[lower wallet := {[role]} ∪ h]> |>).

Definition bump (role : string) (r : InMemoryRoleRegistry) : InMemoryRoleRegistry :=
  r <| r_epochs ::= <[role := getz role (r_epochs r) + 1]> |>.

(** Models [auth/roles.py], [InMemoryRoleRegistry.revoke]. *)
Definition revoke (wallet role : string) : PyM InMemoryRoleRegistry unit :=
  modify (fun r => bump role (r <| r_roles ::= alter (fun h => h ∖ {[role]}) (lower wallet) |>)).

(** Models [auth/roles.py], [InMemoryRoleRegistry.rotate]. *)
Definition rotate (role : string) : PyM InMemoryRoleRegistry unit := modify (bump role).

(** The tables of roles, read for one chain. *)
(** Models [db/product_models.py], [ApiRole], lines 23-36. *)
Record DatabaseRoleRegistry := {
  d_chain : Z;
  api_roles : gmap (Z * string * string) bool; (* active *)
  api_epochs : gmap (Z * string) Z;
}.

(** Models [auth/database.py], [DatabaseRoleRegistry.roles_of]. *)
Definition db_roles_of (d : DatabaseRoleRegistry) (wallet : string) : gset string :=
  set_map (fun k => k.2) (dom (filter (fun p : Z * string * string * bool => p.1.1 = (d_chain d, lower wallet) /\ p.2 = true) (api_roles d))).

(** Models [auth/database.py], [DatabaseRoleRegistry.epoch]. *)
Definition db_epoch (d : DatabaseRoleRegistry) (role : string) : Z := default 0 (api_epochs d !! (d_chain d, role)).

#[export] Instance database_registry : RoleRegistry DatabaseRoleRegistry := { roles_of := db_roles_of; epoch := db_epoch }.

(** * Ownership *)

(** Models [permissions/ownership.py], [OwnershipResolver]. *)
Class OwnershipResolver (O : Type) := {
  borrower_of_wallet : O -> string -> res (option string);
  borrower_of_account : O -> string -> res (option string);
  borrower_of_facility : O -> string -> res (option string);
}.

(** Models [permissions/ownership.py], [InMemoryOwnership], lines 17-22. *)
Record InMemoryOwnership := { o_wallets : gmap string string; o_accounts : gmap string string; o_facilities : gmap string string }.

(** Models [permissions/ownership.py], [InMemoryOwnership.link_wallet]. *)
Definition link_wallet (wallet borrower_id : string) : PyM InMemoryOwnership unit :=
  let* o := get in
  let existing := o_wallets o !! lower wallet in
  if truthy existing && negb (bool_decide (existing = Some borrower_id)) then raise ValueError "wallet already linked to another borrower; release first"
  else modify (fun o => o <| o_wallets ::= <[lower wallet := borrower_id]> |>).

(** Models [permissions/ownership.py], [InMemoryOwnership.set_account]. *)
Definition set_account (key borrower_id : string) : PyM InMemoryOwnership unit := modify (fun o => o <| o_accounts ::= <[lower key := borrower_id]> |>).
(** Models [permissions/ownership.py], [InMemoryOwnership.set_facility]. *)
Definition set_facility (id borrower_id : string) : PyM InMemoryOwnership unit := modify (fun o => o <| o_facilities ::= <[id := borrower_id]> |>).

(** Models [permissions/ownership.py], [InMemoryOwnership.borrower_of_wallet]. *)
Definition mem_borrower_of_wallet (o : InMemoryOwnership) (w : string) : res (option string) := Ok (o_wallets o !! lower w).
(** Models [permissions/ownership.py], [InMemoryOwnership.borrower_of_account]. *)
Definition mem_borrower_of_account (o : InMemoryOwnership) (a : string) : res (option string) := Ok (o_accounts o !! lower a).
(** Models [permissions/ownership.py], [InMemoryOwnership.borrower_of_facility]. *)
Definition mem_borrower_of_facility (o : InMemoryOwnership) (f : string) : res (option string) := Ok (o_facilities o !! f).

#[export] Instance in_memory_ownership : OwnershipResolver InMemoryOwnership := {
  borrower_of_wallet := mem_borrower_of_wallet;
  borrower_of_account := mem_borrower_of_account;
  borrower_of_facility := mem_borrower_of_facility;
}.

(** Models [db/models.py], [BorrowerWallet], lines 118-126. *)
Record BorrowerWallet := {
  bw_borrower : string;
  bw_chain : Z;
  bw_address : string;
  bw_role : string;
  bw_verified_at : option Z;
  bw_released_at : option Z;
}.

Record FacilityRow := { fr_id : string; fr_borrower : string; fr_chain : Z; fr_profile : string }.

(** The repository's settings and the tables it reads; without a database it
    has no engine. *)
Record DatabaseOwnership := {
  w_engine : bool;
  w_chain : option Z;
  w_profile : string;
  w_wallets : list BorrowerWallet;
  w_facilities : list FacilityRow;
}.

(** [with repository.session()] *)
Definition with_session {A} (engine : bool) (r : res A) : res A := if engine then r else Raise (not_configured "GPU database is not configured").

(** Models [product/repository.py], [DatabaseOwnership.borrower_of_wallet]. *)
Definition db_borrower_of_wallet (d : DatabaseOwnership) (wallet : string) : res (option string) :=
  with_session (w_engine d) (Ok (bw_borrower <$> List.find (fun b => bool_decide (w_chain d = Some (bw_chain b)) && String.eqb (bw_address b) (lower wallet)
    && bool_decide (is_Some (bw_verified_at b)) && bool_decide (bw_released_at b = None)) (w_wallets d))).

(** Models [product/repository.py], [DatabaseOwnership.borrower_of_facility]. *)
Definition db_borrower_of_facility (d : DatabaseOwnership) (id : string) : res (option string) :=
  with_session (w_engine d) (Ok (fr_borrower <$> List.find (fun f => String.eqb (fr_id f) id && bool_decide (w_chain d = Some (fr_chain f))
    && String.eqb (fr_profile f) (w_profile d)) (w_facilities d))).

(** Models [product/repository.py], [DatabaseOwnership.borrower_of_account]. *)
Definition db_borrower_of_account (d : DatabaseOwnership) (key : string) : res (option string) := Ok None.

#[export] Instance database_ownership : OwnershipResolver DatabaseOwnership := {
  borrower_of_wallet := db_borrower_of_wallet;
  borrower_of_account := db_borrower_of_account;
  borrower_of_facility := db_borrower_of_facility;
}.

(** * Login challenges *)

(** Models [auth/challenge.py], [Challenge]. *)
Record Challenge := {
  nonce : list Z; (* 32 bytes *)
  wallet : string;
  chain_id : Z;
  app_domain : string;
  borrower_hint : string;
  issued_at : Z;
  expires_at : Z;
}.

(** Where challenges wait.  [peek] is what a nonce stands for. *)
(** Models [auth/challenge.py], [ChallengeStore]. *)
Class ChallengeStore (C : Type) := {
  put : Z -> Challenge -> PyM C unit;
  take : list Z -> PyM C (option Challenge);
  peek : C -> list Z -> option Challenge;
}.

(** What a store promises: a challenge put is there, another one goes only when
    it has expired, a refused put adds nothing, and a taken one is gone. *)
Class ChallengeLaws (C : Type) `{ChallengeStore C} := {
  put_adds now ch (s : C) n c : is_bytes (nonce ch) -> is_bytes n ->
    peek (put now ch s).2 n = Some c -> (is_ok (put now ch s).1 = true /\ nonce ch = n /\ c = ch) \/ peek s n = Some c;
  put_there now ch (s : C) : is_bytes (nonce ch) -> is_ok (put now ch s).1 = true -> peek (put now ch s).2 (nonce ch) = Some ch;
  put_keeps now ch (s : C) n c : is_bytes (nonce ch) -> is_bytes n -> n <> nonce ch ->
    peek s n = Some c -> now < expires_at c -> peek (put now ch s).2 n = Some c;
  take_returns n (s : C) : (take n s).1 = Ok (peek s n);
  take_removes n m (s : C) : is_bytes n -> is_bytes m -> peek (take n s).2 m = if bool_decide (m = n) then None else peek s m;
}.

(** ** In memory *)

(** Models [auth/challenge.py], [InMemoryChallengeStore], lines 30-34. *)
Record InMemoryChallengeStore := { entries : gmap (list Z) Challenge; max_entries : Z }.

(** Models [auth/challenge.py], [InMemoryChallengeStore.put]. *)
Definition mem_put (now : Z) (ch : Challenge) : PyM InMemoryChallengeStore unit :=
  modify (fun s => if max_entries s <=? Z.of_nat (size (entries s)) then s <| entries ::= filter (fun p => now < expires_at p.2) |> else s) ;;;
  modify (fun s => s <| entries ::= <[nonce ch := ch]> |>).

(** Models [auth/challenge.py], [InMemoryChallengeStore.take]. *)
Definition mem_take (n : list Z) : PyM InMemoryChallengeStore (option Challenge) :=
  let* s := get in
  modify (fun s => s <| entries ::= delete n |>) ;;;
  ret (entries s !! n).

#[export] Instance in_memory_challenges : ChallengeStore InMemoryChallengeStore := {
  put := mem_put; take := mem_take; peek s n := entries s !! n;
}.

(** ** On the database *)

(** Models [db/product_models.py], [LoginChallenge], lines 12-20. *)
Record LoginChallenge := {
  l_wallet : string;
  l_chain_id : Z;
  l_app_domain : string;
  l_borrower_hint : string;
  l_issued_at : Z;
  l_expires_at : Z;
}.

(** [api_login_challenges], by its nonce in hexadecimal digits. *)
Record ChallengeTable := { challenges : gmap string LoginChallenge }.

Definition bigint (x : Z) : bool := (- 2 ^ 63 <=? x) && (x <? 2 ^ 63).

Definition row_of (ch : Challenge) : LoginChallenge := {|
  l_wallet := wallet ch; l_chain_id := chain_id ch; l_app_domain := app_domain ch;
  l_borrower_hint := borrower_hint ch; l_issued_at := issued_at ch; l_expires_at := expires_at ch |}.

(** [Challenge(nonce, row.wallet, ...)] *)
Definition challenge_of (n : list Z) (r : LoginChallenge) : Challenge := {|
  nonce := n; wallet := l_wallet r; chain_id := l_chain_id r; app_domain := l_app_domain r;
  borrower_hint := l_borrower_hint r; issued_at := l_issued_at r; expires_at := l_expires_at r |}.

(** The widths of the columns. *)
Definition row_fits (n : list Z) (r : LoginChallenge) : bool :=
  fits 64 (hex n) && fits 42 (l_wallet r) && bigint (l_chain_id r) && fits 300 (l_app_domain r) && fits 64 (l_borrower_hint r)
  && bigint (l_issued_at r) && bigint (l_expires_at r).

(** Models [auth/database.py], [DatabaseChallengeStore.put]. *)
Definition db_put (now : Z) (ch : Challenge) : PyM ChallengeTable unit :=
  transaction (
    modify (fun t => t <| challenges ::= filter (fun p : string * LoginChallenge => now < l_expires_at p.2) |>) ;;;
    let* t := get in
    guard (row_fits (nonce ch) (row_of ch)) DatabaseError "value too long" ;;;
    guard (bool_decide (challenges t !! hex (nonce ch) = None)) DatabaseError "api_login_challenges_pkey" ;;;
    modify (fun t => t <| challenges ::= <[hex (nonce ch) := row_of ch]> |>)).

(** Models [auth/database.py], [DatabaseChallengeStore.take]. *)
Definition db_take (n : list Z) : PyM ChallengeTable (option Challenge) :=
  transaction (
    let* t := get in
    modify (fun t => t <| challenges ::= delete (hex n) |>) ;;;
    ret (challenge_of n <$> challenges t !! hex n)).

#[export] Instance database_challenges : ChallengeStore ChallengeTable := {
  put := db_put; take := db_take; peek t n := challenge_of n <$> challenges t !! hex n;
}.

(** ** Both keep the promise *)

#[export] Instance in_memory_laws : ChallengeLaws InMemoryChallengeStore.
Proof.
  split.
  - intros now ch s n c Hb Hn H. cbn in H. destruct (decide (nonce ch = n)) as [<-|Hne].
    { left. rewrite lookup_insert_eq in H. by injection H as <-. }
    right. rewrite lookup_insert_ne in H by done. destruct (max_entries s <=? _); [|done]. by apply map_lookup_filter_Some in H as [H _].
  - intros now ch s Hb _. cbn. apply lookup_insert_eq.
  - intros now ch s n c Hb Hn Hne H Hx. cbn. rewrite lookup_insert_ne by done. destruct (max_entries s <=? _); [|done]. by apply map_lookup_filter_Some.
  - done.
  - intros n m s Hn Hm. cbn. case_bool_decide as Hd; [subst; apply lookup_delete_eq|by rewrite lookup_delete_ne].
Qed.

Lemma hex_inj n m : is_bytes n -> is_bytes m -> hex n = hex m -> n = m.
Proof. intros Hn Hm H. apply (f_equal unhex) in H. rewrite !unhex_hex in H by done. by injection H. Qed.

Lemma challenge_of_row ch : challenge_of (nonce ch) (row_of ch) = ch.
Proof. by destruct ch. Qed.

(** A put of the table, whatever its outcome. *)
Lemma db_put_run now ch t :
  (exists e, db_put now ch t = (Raise e, t)) \/
  db_put now ch t = (Ok tt, {| challenges := <[hex (nonce ch) := row_of ch]> (filter (fun p : string * LoginChallenge => now < l_expires_at p.2) (challenges t)) |}).
Proof.
  unfold db_put, transaction, bind, modify, get, guard, ret, raise. destruct (row_fits _ _); [|by left; eexists].
  cbn. case_bool_decide; [by right|by left; eexists].
Qed.

#[export] Instance database_laws : ChallengeLaws ChallengeTable.
Proof.
  split.
  - intros now ch s n c Hb Hn H. cbn [peek put database_challenges] in *. destruct (db_put_run now ch s) as [(e & E)|E]; rewrite E in *; [by right|].
    cbn in H. destruct (decide (nonce ch = n)) as [<-|Hne].
    + rewrite lookup_insert_eq in H. cbn in H. rewrite challenge_of_row in H. simplify_eq. by left.
    + right. rewrite lookup_insert_ne in H by (intros Hh; by apply hex_inj in Hh). apply fmap_Some in H as (r & Hr & ->).
      apply map_lookup_filter_Some in Hr as [Hr _]. cbn. by rewrite Hr.
  - intros now ch s Hb H. cbn [peek put database_challenges] in *. destruct (db_put_run now ch s) as [(e & E)|E]; rewrite E in *; [done|].
    cbn. rewrite lookup_insert_eq. cbn. by rewrite challenge_of_row.
  - intros now ch s n c Hb Hn Hne H Hx. cbn [peek put database_challenges] in *. destruct (db_put_run now ch s) as [(e & E)|E]; rewrite E in *; [done|].
    cbn. rewrite lookup_insert_ne by (intros Hh; apply hex_inj in Hh; done). apply fmap_Some in H as (r & Hr & ->).
    apply fmap_Some. exists r. split; [|done]. by apply map_lookup_filter_Some.
  - done.
  - intros n m s Hn Hm. cbn. case_bool_decide as Hd; [subst; by rewrite lookup_delete_eq|].
    rewrite lookup_delete_ne; [done|]. intros H. apply hex_inj in H; [congruence|done|done].
Qed.

(** * The rate limit *)

(** Models [gpu/runtime.py], [RateLimiter], lines 32-37. *)
Record RateLimiter := { limit_per_minute : Z; hits : gmap (string * Z) Z }.

(** [int(now // 60)] *)
Definition window (now : Z) : Z := now / 60000000.

(** Models [gpu/runtime.py], [RateLimiter.allow]. *)
Definition allow (key : string) (now : Z) : PyM RateLimiter bool :=
  let w := window now in
  let k := (key, w) in
  let* r := get in
  let n := getz k (hits r) + 1 in
  modify (fun r => r <| hits ::= <[k := n]> |>) ;;;
  modify (fun r => if 50000 <? Z.of_nat (size (hits r)) then r <| hits ::= filter (fun p => w <= p.1.2) |> else r) ;;;
  ret (n <=? limit_per_minute r).

(** What a request meets before any handler: the response that refuses it. *)
Definition refusal (status : Z) (code message : string) : option exn := Some (Exn (ApiError status code) message).

(** Models [gpu/middleware.py], [GpuSecurityMiddleware.dispatch], lines 28-40. *)
Definition dispatch (max_body_bytes : Z) (path : string) (content_length client : option string) (now : Z) : PyM RateLimiter (option exn) :=
  if negb (String.prefix "/gpu/" path) then ret None
  else
    let checked := match content_length with
                   | None => None
                   | Some l => match int_text l with
                               | Some n => if max_body_bytes <? n then refusal 413 "VALIDATION" "request body too large" else None
                               | None => refusal 400 "VALIDATION" "bad content-length"
                               end
                   end in
    match checked with
    | Some e => ret (Some e)
    | None =>
        if String.prefix "/gpu/auth/" path then
          let* ok := allow ("ip:" ++ default "unknown" client)%string now in
          ret (if ok then None else refusal 429 "RATE_LIMITED" "too many requests")
        else ret None
    end.

(** The bytes read from the stream, chunk by chunk, until one is too many. *)
Fixpoint overflows (max_body_bytes size : Z) (chunks : list Z) : bool :=
  match chunks with
  | [] => false
  | c :: l => if max_body_bytes <? size + c then true else overflows max_body_bytes (size + c) l
  end.

(** Models [gpu/app.py], lines 90-108. *)
Definition security (max_body_bytes : Z) (path : string) (client : option string) (chunks : list Z) (now : Z) : PyM RateLimiter (option exn) :=
  let* limited :=
    (if String.prefix "/gpu/auth/" path then
       let* ok := allow (default "unknown"%string client) now in
       ret (if ok then None else refusal 429 "RATE_LIMITED" "too many authentication requests")
     else ret None) in
  ret (match limited with
       | Some e => Some e
       | None => if overflows max_body_bytes 0 chunks then refusal 413 "VALIDATION" "request body too large" else None
       end).

(** Calls of [allow] one after another, with their answers. *)
Fixpoint allow_all (calls : list (string * Z)) (r : RateLimiter) : list (string * Z * bool) :=
  match calls with
  | [] => []
  | (key, now) :: l =>
      match allow key now r with
      | (Ok b, r') => (key, window now, b) :: allow_all l r'
      | (Raise _, r') => allow_all l r'
      end
  end.

(** The calls of a key let through in one window. *)
Definition passed (key : string) (w : Z) (l : list (string * Z * bool)) : Z :=
  zlen (List.filter (fun a => String.eqb a.1.1 key && (a.1.2 =? w) && a.2) l).

(** * Lemmas *)

(** The limiter after a call, and its answer. *)
Lemma allow_run key now r : exists r', allow key now r = (Ok (getz (key, window now) (hits r) + 1 <=? limit_per_minute r), r') /\
  limit_per_minute r' = limit_per_minute r /\
  getz (key, window now) (hits r') = getz (key, window now) (hits r) + 1 /\
  forall k w, window now <= w -> (k, w) <> (key, window now) -> getz (k, w) (hits r') = getz (k, w) (hits r).
Proof.
  exists (allow key now r).2. split; [reflexivity|]. set (h := <[(key, window now) := getz (key, window now) (hits r) + 1]> (hits r)).
  assert (Hf : forall k w, window now <= w -> getz (k, w) (filter (fun p : string * Z * Z => window now <= p.1.2) h) = getz (k, w) h).
  { intros k w Hw. unfold getz. destruct (h !! (k, w)) as [x|] eqn:Hh.
    - by rewrite (proj2 (map_lookup_filter_Some _ _ _ _) (conj Hh Hw)).
    - by rewrite map_lookup_filter_None_2 by (by left). }
  unfold allow, bind, get, modify, ret. cbn. fold h. destruct (50000 <? _); cbn; split_and!; try done; rewrite ?Hf by (cbn; lia).
  - apply getz_insert_eq.
  - intros k w Hw Hne. rewrite Hf by done. by apply getz_insert_ne.
  - apply getz_insert_eq.
  - intros k w Hw Hne. by apply getz_insert_ne.
Qed.

Lemma window_mono a b : a <= b -> window a <= window b.
Proof. apply Z.div_le_mono. lia. Qed.

Lemma passed_other key w l r : Forall (fun c => w < window c.2) l -> passed key w (allow_all l r) = 0.
Proof.
  revert r. induction l as [|[k t] l IH]; intros r; [done|]. intros [Ht Hl]%Forall_cons. cbn [allow_all].
  destruct (allow_run k t r) as (r' & -> & _). unfold passed. cbn [List.filter fst snd]. cbn [snd] in Ht.
  destruct (Z.eqb_spec (window t) w); [lia|]. rewrite andb_false_r. by apply IH.
Qed.

(** The bound that is left to a key in a window. *)
Lemma allow_all_bound key w l r : StronglySorted (fun a b : string * Z => a.2 <= b.2) l ->
  passed key w (allow_all l r) <= Z.max 0 (limit_per_minute r - getz (key, w) (hits r)).
Proof.
  intros Hs. revert r. induction Hs as [|[k t] l Hs IH Ht]; intros r; [unfold passed, zlen; cbn [allow_all List.filter length]; lia|]. cbn [allow_all].
  destruct (allow_run k t r) as (r' & -> & Hl & Heq & Hne). specialize (IH r'). rewrite Hl in IH.
  unfold passed. cbn [List.filter fst snd]. unfold passed in IH.
  destruct (Z.lt_ge_cases w (window t)) as [Hlt|Hge].
  { destruct (Z.eqb_spec (window t) w); [lia|]. rewrite andb_false_r. cbn [andb].
    pose proof (passed_other key w l r') as H0. unfold passed in H0. rewrite H0; [lia|].
    eapply Forall_impl; [exact Ht|]. intros [k' t'] Hle. cbn [snd] in *. pose proof (window_mono _ _ Hle). lia. }
  destruct (decide ((k, window t) = (key, w))) as [[= -> <-]|Hkw].
  - rewrite String.eqb_refl, Z.eqb_refl. cbn [andb]. rewrite Heq in IH. destruct (Z.leb_spec (getz (key, window t) (hits r) + 1) (limit_per_minute r)).
    + unfold zlen in *. cbn [length]. lia.
    + lia.
  - rewrite Hne in IH by (try congruence; lia).
    destruct (String.eqb_spec k key) as [->|]; [|exact IH]. destruct (Z.eqb_spec (window t) w) as [<-|]; [congruence|exact IH].
Qed.

(** The limit on logins holds: of any calls made by a clock that does not go
    back, whatever keys they come from and whatever the limiter forgets to
    stay small, at most the limit of one key pass in one minute. *)
Theorem rate_bounded limit calls key w : StronglySorted (fun a b : string * Z => a.2 <= b.2) calls ->
  passed key w (allow_all calls {| limit_per_minute := limit; hits := ∅ |}) <= Z.max 0 limit.
Proof.
  intros Hs. pose proof (allow_all_bound key w calls {| limit_per_minute := limit; hits := ∅ |} Hs) as H.
  change (getz (key, w) (hits {| limit_per_minute := limit; hits := ∅ |})) with 0 in H. cbn in H. lia.
Qed.

Lemma rate_bounded_witness :
  let calls := [("a", 0); ("a", 1000000); ("b", 2000000); ("a", 59000000); ("a", 60000000)]%string in
  passed "a" 0 (allow_all calls {| limit_per_minute := 2; hits := ∅ |}) = 2 /\
  passed "a" 0 (allow_all calls {| limit_per_minute := 2; hits := ∅ |}) <= Z.max 0 2.
Proof. split; [vm_compute; reflexivity|]. apply rate_bounded. repeat constructor; cbn; lia. Defined.

(** ** Registries *)

(** A change of the registry by an administrator. *)
Inductive registry_step (r : InMemoryRoleRegistry) : InMemoryRoleRegistry -> Prop :=
| step_grant w role : registry_step r (grant w role r).2
| step_revoke w role : registry_step r (revoke w role r).2
| step_rotate role : registry_step r (rotate role r).2.

Lemma grant_run w role r : exists h, (grant w role r).2 = r <| r_roles ::= <[lower w := h]> |> /\ (h = held w r \/
  h = {[role]} ∪ held w r /\ (role ∈ EXCLUSIVE -> (held w r ∩ EXCLUSIVE) ∖ {[role]} ⊆ ∅)) \/ (grant w role r).2 = r.
Proof.
  unfold grant. destruct (bool_decide (role ∉ ALL_ROLES)); [exists ∅; by right|].
  unfold bind at 1, modify at 1, bind, get at 1. cbv beta.
  assert (Hh : held w (r <| r_roles ::= <[lower w := held w r]> |>) = held w r) by (unfold held at 1; cbn; by rewrite lookup_insert_eq).
  rewrite Hh. case_bool_decide as Hx.
  - exists (held w r). left. split; [done|by left].
  - exists ({[role]} ∪ held w r). left. split; [exact (f_equal (fun m => {| r_roles := m; r_epochs := r_epochs r |}) (insert_insert_eq (r_roles r) (lower w) _ _))|]. right. split; [done|]. intros Hr.
    destruct (decide ((held w r ∩ EXCLUSIVE) ∖ {[role]} = ∅)) as [->|]; [done|]. by destruct Hx.
Qed.

Lemma step_epochs r r' role : registry_step r r' -> epoch r role <= epoch r' role.
Proof.
  intros [w x|w x|x]; cbn.
  - destruct (grant_run w x r) as (h & [(-> & _)| ->]); done.
  - destruct (decide (x = role)) as [->|]; [rewrite getz_insert_eq; lia|by rewrite getz_insert_ne].
  - destruct (decide (x = role)) as [->|]; [rewrite getz_insert_eq; lia|by rewrite getz_insert_ne].
Qed.

(** No wallet holds two exclusive roles. *)
Definition separated (r : InMemoryRoleRegistry) : Prop :=
  forall w a b, a ∈ held w r -> b ∈ held w r -> a ∈ EXCLUSIVE -> b ∈ EXCLUSIVE -> a = b.

Lemma held_lookup w h r : lower w = h -> held w r = default ∅ (r_roles r !! h).
Proof. by intros <-. Qed.

Lemma step_separated r r' : registry_step r r' -> separated r -> separated r'.
Proof.
  intros [w x|w x|x] Hs.
  - destruct (grant_run w x r) as (h & [(-> & Hh)| ->]); [|done]. intros u a b. unfold held. cbn.
    destruct (decide (lower u = lower w)) as [Hu|Hne]; [|rewrite lookup_insert_ne by done; apply Hs].
    rewrite Hu, lookup_insert_eq. cbn. pose proof (Hs w a b) as Hw. destruct Hh as [->|(-> & Hx)]; [done|]. set_solver.
  - intros u a b. unfold held. cbn. destruct (decide (lower u = lower w)) as [Hu|Hne].
    + rewrite Hu, lookup_alter_eq. pose proof (Hs w a b) as Hw. unfold held in Hw. destruct (r_roles r !! lower w); cbn; set_solver.
    + rewrite lookup_alter_ne by done. apply Hs.
  - exact Hs.
Qed.

(** Duties stay apart: in every registry that grants, revocations and
    rotations of any roles can lead to, refused ones included, no wallet holds
    two of the exclusive roles. *)
Theorem roles_separated r : rtc registry_step new_registry r -> separated r.
Proof.
  assert (H0 : separated new_registry) by (intros w a b H; unfold held, new_registry in H; cbn [r_roles] in H; by rewrite lookup_empty in H).
  intros H. induction H as [r|r u r' Hst _ IH]; [done|]. apply IH. by eapply step_separated.
Qed.

Definition registry1 : InMemoryRoleRegistry := (grant "0xAB" TREASURY (grant "0xab" UNDERWRITER new_registry).2).2.

Lemma roles_separated_witness : held "0xAb" registry1 = {[ UNDERWRITER ]} /\ separated registry1.
Proof.
  split; [vm_compute; reflexivity|]. apply roles_separated. eapply rtc_l; [apply (step_grant _ "0xab" UNDERWRITER)|].
  eapply rtc_l; [apply (step_grant _ "0xAB" TREASURY)|]. reflexivity.
Defined.
End Access.
