(* ===== verification/Login.v ===== *)
(** Logging in with a wallet, and the principal of a request: a challenge is
    issued, its signature exchanged for a session, and the session checked
    against the live roles and links on every request.

    Sources under offchain/api/hashcredit_api/gpu/: auth/eip712.py,
    auth/erc1271.py, auth/router.py and permissions/deps.py, over the stores of
    [Access] and the tokens of [Session].

    Outside the program, and arguments: the checks and the checksum of an
    address (eth_utils), the encoding of typed data and the recovery of a
    signer (eth_account), eth_abi, the node, and the random bytes drawn.  A
    handler is one step: once the challenge is taken it only reads. *)

From S2P Require Import Prelude Domain Stdpy Json JsonText Session Abi Access.
Import Domain Stdpy Json JsonText Session Access.

Module Login.

(** * The message a wallet signs *)

Definition DOMAIN_NAME : string := "Rackline API Login".
Definition DOMAIN_VERSION : string := "1".
Definition PURPOSE : string := "API_LOGIN".

(** Models [auth/eip712.py], [domain_salt]. *)
Definition domain_salt (app_domain : string) : list Z := Abi.keccak256 (bytes_of app_domain).

(** Models [auth/eip712.py], [LoginMessage], lines 49-56. *)
Record LoginMessage := {
  m_wallet : string;
  m_chain_id : Z;
  m_app_domain : string;
  m_nonce : list Z;
  m_issued_at : Z;
  m_expires_at : Z;
  m_borrower_hint : string;
}.

(** The fields of the domain and of the message, bytes as [B]: bytes where they
    are signed, their hexadecimal text where they are sent. *)
Record TypedData (B : Type) := {
  td_name : string;
  td_version : string;
  td_domain_chain : Z;
  td_salt : B;
  td_wallet : string;
  td_chain : Z;
  td_app_domain : string;
  td_purpose : string;
  td_nonce : B;
  td_issued_at : Z;
  td_expires_at : Z;
  td_borrower_hint : string;
}.

Record Signable := { sg_version : list Z; sg_header : list Z; sg_body : list Z }.

(** Models [auth/router.py], [ChallengeRequest], lines 19-23. *)
Record ChallengeRequest := { cr_wallet : string; cr_chain_id : Z; cr_hint : string }.

(** Models [auth/router.py], [VerifyRequest], lines 33-39. *)
Record VerifyRequest := { v_wallet : string; v_chain_id : Z; v_nonce : string; v_signature : string; wallet_kind : string }.

(** Models [auth/router.py], [ChallengeResponse]. *)
Record ChallengeResponse := { c_nonce : string; c_issued_at : Z; c_expires_at : Z; c_typed : TypedData string }.

(** Models [auth/router.py], [VerifyResponse]. *)
Record VerifyResponse := { t_token : string; t_expires_at : Z; t_wallet : string; t_borrower : option string; t_roles : list string }.

(** The part of [GpuRuntime] the handlers read. *)
Record Settings := {
  rt_chain_id : Z;
  rt_app_domain : string;
  session_secret : option string;
  session_ttl : Z;
  challenge_ttl : Z;
  known_borrowers : gset string;
}.

(** Models [permissions/deps.py], [Principal], lines 23-29. *)
Record Principal := { p_wallet : string; p_chain_id : Z; p_borrower : option string; p_roles : gset string; p_session : SessionPayload }.

(** The stores: challenges, roles, links, and what the log redactor hides. *)
Record World (C R O : Type) := { w_challenges : C; w_roles : R; w_owner : O; redacted : list string }.
Arguments w_challenges {C R O} _.
Arguments w_roles {C R O} _.
Arguments w_owner {C R O} _.
Arguments redacted {C R O} _.

Section Login.
Context (is_address : string -> bool) (to_checksum_address : string -> string).
Context (encode_typed_data : TypedData (list Z) -> Signable) (recover_message : Signable -> list Z -> option string).
Context (erc1271 : string -> list Z -> list Z -> bool).
Context (parse_float : string -> json) (decode_wide : list Z -> res string) (repr : json -> string).
Context (rt : Settings).

(** Models [auth/eip712.py], [LoginMessage.typed_data]. *)
Definition typed_data (m : LoginMessage) : TypedData (list Z) := {|
  td_name := DOMAIN_NAME; td_version := DOMAIN_VERSION; td_domain_chain := m_chain_id m; td_salt := domain_salt (m_app_domain m);
  td_wallet := to_checksum_address (m_wallet m); td_chain := m_chain_id m; td_app_domain := m_app_domain m; td_purpose := PURPOSE;
  td_nonce := m_nonce m; td_issued_at := m_issued_at m; td_expires_at := m_expires_at m; td_borrower_hint := m_borrower_hint m |}.

(** Models [auth/eip712.py], [LoginMessage.signable]. *)
Definition signable (m : LoginMessage) : Signable := encode_typed_data (typed_data m).

(** Models [auth/eip712.py], [LoginMessage.digest]. *)
Definition digest (m : LoginMessage) : list Z :=
  let s := signable m in Abi.keccak256 (0x19 :: sg_version s ++ sg_header s ++ sg_body s).

(** Models [auth/eip712.py], [recover_eoa]. *)
Definition recover_eoa (m : LoginMessage) (signature : list Z) : option string :=
  if negb (zlen signature =? 65) then None else to_checksum_address <$> recover_message (signable m) signature.

Definition message_of (ch : Challenge) : LoginMessage := {|
  m_wallet := wallet ch; m_chain_id := chain_id ch; m_app_domain := app_domain ch; m_nonce := nonce ch;
  m_issued_at := issued_at ch; m_expires_at := expires_at ch; m_borrower_hint := borrower_hint ch |}.

(** What pydantic checks before a handler runs. *)
Definition schema : exn := validation "request does not match the API schema".

Definition without_0x (s : string) : string := default s (after "0x" s).

(** Models [auth/router.py], [_hex_bytes]. *)
Definition _hex_bytes (value : string) (length : Z) (name : string) : res (list Z) :=
  match unhex (without_0x value) with
  | None => Raise (validation (name ++ " must be hex"))
  | Some raw => if negb (zlen raw =? length) then Raise (validation (name ++ " must be the right length")) else Ok raw
  end.

(** Models [auth/router.py], [_rt]. *)
Definition secret_of : res string :=
  match session_secret rt with
  | Some s => Ok s
  | None => Raise (not_configured "session auth not configured (GPU_SESSION_SECRET)")
  end.

(** The challenge that a request asks for. *)
(** Models [auth/router.py], [challenge], lines 76-87. *)
Definition new_challenge (body : ChallengeRequest) (now : Z) (fresh : list Z) : Challenge := {|
  nonce := fresh; wallet := to_checksum_address (cr_wallet body); chain_id := cr_chain_id body; app_domain := rt_app_domain rt;
  borrower_hint := cr_hint body; issued_at := now; expires_at := now + challenge_ttl rt |}.

(** [td["domain"]["salt"] = ...; td["message"]["nonce"] = ...] *)
Definition in_hex (td : TypedData (list Z)) : TypedData string := {|
  td_name := td_name _ td; td_version := td_version _ td; td_domain_chain := td_domain_chain _ td; td_salt := ("0x" ++ hex (td_salt _ td))%string;
  td_wallet := td_wallet _ td; td_chain := td_chain _ td; td_app_domain := td_app_domain _ td; td_purpose := td_purpose _ td;
  td_nonce := ("0x" ++ hex (td_nonce _ td))%string; td_issued_at := td_issued_at _ td; td_expires_at := td_expires_at _ td; td_borrower_hint := td_borrower_hint _ td |}.

Section Stores.
Context {C R O : Type} `{ChallengeStore C, RoleRegistry R, OwnershipResolver O}.
#[local] Abbreviation W := (World C R O).

Definition on_challenges {A} (m : PyM C A) : PyM W A :=
  fun w => let '(r, c) := m (w_challenges w) in (r, {| w_challenges := c; w_roles := w_roles w; w_owner := w_owner w; redacted := redacted w |}).

(** Models [auth/router.py], [challenge]. *)
Definition challenge (body : ChallengeRequest) (now : Z) (fresh : list Z) : PyM W ChallengeResponse :=
  if (cr_chain_id body <=? 0) || (64 <? zlen (characters (cr_hint body))) then throw schema
  else
    let* _ := lift_res secret_of in
    if negb (is_address (cr_wallet body)) then throw (validation "wallet must be an EVM address")
    else if negb (cr_chain_id body =? rt_chain_id rt) then throw (validation "chainId is not this API's chain")
    else
      let ch := new_challenge body now fresh in
      on_challenges (put now ch) ;;;
      ret {| c_nonce := ("0x" ++ hex fresh)%string; c_issued_at := issued_at ch; c_expires_at := expires_at ch; c_typed := in_hex (typed_data (message_of ch)) |}.

(** The signature and what it must be over. *)
(** Models [auth/router.py], [verify], lines 117-124. *)
Definition authentic (kind : string) (ch : Challenge) (w : string) (signature : list Z) : res unit :=
  if String.eqb kind "eoa" then
    match recover_eoa (message_of ch) signature with
    | Some r => if String.eqb (lower r) (lower w) then Ok tt else Raise (unauthenticated "signature does not match wallet")
    | None => Raise (unauthenticated "signature does not match wallet")
    end
  else if erc1271 w (digest (message_of ch)) signature then Ok tt else Raise (unauthenticated "contract wallet rejected the signature").

(** The roles of a session: the registry's, and the borrower's of a link. *)
(** Models [auth/router.py], [verify], lines 125-128. *)
Definition session_roles (reg : R) (w : string) (borrower : option string) : list string :=
  let roles := isort String.leb (elements (roles_of reg w)) in
  if bool_decide (is_Some borrower) && negb (mem_str "borrower" roles) then roles ++ ["borrower"]%string else roles.

Definition opt_json (x : option string) : json := match x with Some s => JStr s | None => JNull end.

(** Models [gpu/secrets.py], [Redactor.register]. *)
Definition register (value : string) : PyM W unit :=
  modify (fun w => if (8 <=? String.length value)%nat then {| w_challenges := w_challenges w; w_roles := w_roles w; w_owner := w_owner w; redacted := value :: redacted w |} else w).

(** What follows the challenge's checks. *)
(** Models [auth/router.py], [verify], lines 125-143. *)
Definition open_session (secret w : string) (chain issued : Z) (jti : string) : PyM W VerifyResponse :=
  let* st := get in
  let* borrower := lift_res (borrower_of_wallet (w_owner st) w) in
  let roles := session_roles (w_roles st) w borrower in
  let '(token, payload) := issue_session secret w chain (opt_json borrower) roles
    (list_to_map (map (fun r => (r, epoch (w_roles st) r)) roles)) (session_ttl rt) issued jti in
  register token ;;;
  ret {| t_token := token; t_expires_at := exp payload; t_wallet := w; t_borrower := borrower; t_roles := roles |}.

(** The clock is read for the challenge and again for the session. *)
(** Models [auth/router.py], [verify]. *)
Definition verify (body : VerifyRequest) (now issued : Z) (jti : string) : PyM W VerifyResponse :=
  if (v_chain_id body <=? 0) || negb (mem_str (wallet_kind body) ["eoa"; "erc1271"]) then throw schema
  else
    let* secret := lift_res secret_of in
    if negb (is_address (v_wallet body)) then throw (validation "wallet must be an EVM address")
    else
      let w := to_checksum_address (v_wallet body) in
      let* n := lift_res (_hex_bytes (v_nonce body) 32 "nonce") in
      match unhex (without_0x (v_signature body)) with
      | None => throw (validation "signature must be hex")
      | Some signature =>
          if (zlen signature =? 0) || String.eqb (wallet_kind body) "eoa" && negb (zlen signature =? 65) then throw (validation "signature has an invalid length")
          else
            let* taken := on_challenges (take n) in
            match taken with
            | None => throw (unauthenticated "unknown or already used challenge")
            | Some ch =>
                if expires_at ch <=? now then throw (unauthenticated "challenge expired")
                else if negb (String.eqb (lower (wallet ch)) (lower w)) || negb (chain_id ch =? v_chain_id body) || negb (chain_id ch =? rt_chain_id rt) then
                  throw (unauthenticated "challenge binding mismatch")
                else
                  lift_res (authentic (wallet_kind body) ch w signature) ;;;
                  open_session secret w (chain_id ch) issued jti
            end
      end.

(** * The principal of a request *)

(** [str.strip()] of a header. *)
Definition strip (s : string) : string := let sp := int_space false in drop_right sp (drop_left sp s).

Definition unauth {A} (message : string) : res A := Raise (unauthenticated message).

(** Every role the session carries is held, at the epoch it was issued. *)
(** Models [permissions/deps.py], [current_principal], lines 55-60. *)
Definition roles_live (reg : R) (p : SessionPayload) : bool :=
  forallb (fun r => String.eqb r BORROWER || bool_decide (r ∈ roles_of reg (sub p)) && (epoch reg r =? default (-1) (role_epochs p !! r))) (s_roles p).

(** A session whose token was accepted, against what holds now. *)
(** Models [permissions/deps.py], [current_principal], lines 52-73. *)
Definition live_principal (reg : R) (own : O) (p : SessionPayload) : res Principal :=
  if negb (cid p =? rt_chain_id rt) then unauth "session chain mismatch"
  else if negb (roles_live reg p) then unauth "session role revoked"
  else
    rbind (borrower_of_wallet own (sub p)) (fun borrower =>
    if negb (json_eqb (brw p) JNull) && negb (json_eqb (opt_json borrower) (brw p)) then unauth "wallet link changed"
    else if mem_str BORROWER (s_roles p) && bool_decide (borrower = None) then unauth "wallet link released"
    else Ok {| p_wallet := sub p; p_chain_id := cid p; p_borrower := borrower; p_roles := list_to_set (s_roles p); p_session := p |}).

(** Models [permissions/deps.py], [current_principal]. *)
Definition current_principal (reg : R) (own : O) (header : option string) (now : Z) : res Principal :=
  match session_secret rt with
  | None => Raise (not_configured "session auth not configured")
  | Some secret =>
      let header := default EmptyString header in
      match after "bearer " (lower header) with
      | None => unauth "authentication required"
      | Some _ =>
          match parse_session parse_float decode_wide repr secret (strip (String.substring 7 (String.length header - 7) header)) now with
          | None => unauth "invalid or expired session"
          | Some p => live_principal reg own p
          end
      end
  end.

(** ** Guards *)

(** Models [permissions/deps.py], lines 20-20. *)
Definition STAFF_READ_ROLES : gset string := {[ UNDERWRITER; OPERATOR; KEEPER; SERVICER; GUARDIAN; TREASURY ]}.

(** Models [permissions/deps.py], [require_role]. *)
Definition require_role (allowed : gset string) (p : Principal) : res Principal :=
  if bool_decide (p_roles p ∩ allowed = ∅) then Raise (forbidden_scope "requires one of") else Ok p.

(** Models [permissions/deps.py], [_owned_or_staff]. *)
Definition _owned_or_staff (p : Principal) (owner : option string) : res unit :=
  if negb (bool_decide (p_roles p ∩ STAFF_READ_ROLES = ∅)) then
    if bool_decide (owner = None) then Raise not_found else Ok tt
  else if bool_decide (owner = None) || bool_decide (p_borrower p = None) || negb (bool_decide (owner = p_borrower p)) then Raise not_found
  else Ok tt.

(** Models [permissions/deps.py], [borrower_access]. *)
Definition borrower_access (id : string) (p : Principal) : res string :=
  rbind (_owned_or_staff p (if bool_decide (id ∈ known_borrowers rt) then Some id else None)) (fun _ => Ok id).

(** Models [permissions/deps.py], [account_access]. *)
Definition account_access (own : O) (key : string) (p : Principal) : res string :=
  rbind (borrower_of_account own key) (fun o => rbind (_owned_or_staff p o) (fun _ => Ok key)).

(** Models [permissions/deps.py], [facility_access]. *)
Definition facility_access (own : O) (id : string) (p : Principal) : res string :=
  rbind (borrower_of_facility own id) (fun o => rbind (_owned_or_staff p o) (fun _ => Ok id)).
End Stores.
End Login.

(** * Contract wallets *)

(** Models [auth/erc1271.py], [RejectAllErc1271Checker]. *)
Definition reject_all (wallet : string) (digest signature : list Z) : bool := false.

Definition MAGIC : list Z := [0x16; 0x26; 0xba; 0x7e].

(** What the node says, each call of it able to raise. *)
Record Node := {
  n_chain_id : res Z;
  n_latest : res Z;
  n_code : string -> Z -> res (list Z);
  n_call : string -> list Z -> Z -> res (list Z);
}.

(** Models [auth/erc1271.py], [RpcErc1271Checker.is_valid_signature]. *)
Definition rpc_is_valid_signature (encode : list Z -> list Z -> res (list Z)) (checksum : string -> res string) (node : Node) (chain : Z)
    (wallet : string) (digest signature : list Z) : bool :=
  let check :=
    rbind (n_chain_id node) (fun c => if negb (c =? chain) then Ok false else
    rbind (checksum wallet) (fun address => rbind (n_latest node) (fun block =>
    rbind (n_code node address block) (fun code => if bool_decide (code = []) then Ok false else
    rbind (encode digest signature) (fun args => rbind (n_call node address (MAGIC ++ args) block) (fun result =>
    Ok ((32 <=? zlen result) && bool_decide (firstn 4 result = MAGIC)))))))) in
  match check with Ok b => b | Raise _ => false end.

(** * Lemmas *)

(** Stores enter the theorems through their laws. *)
Section Theorems.
Context (is_address : string -> bool) (to_checksum_address : string -> string).
Context (encode_typed_data : TypedData (list Z) -> Signable) (recover_message : Signable -> list Z -> option string).
Context (erc1271 : string -> list Z -> list Z -> bool).
Context (rt : Settings).
Context {C R O : Type} `{ChallengeLaws C, RoleRegistry R, OwnershipResolver O}.
#[local] Abbreviation W := (World C R O).
#[local] Abbreviation challenge := (challenge is_address to_checksum_address rt).
#[local] Abbreviation verify := (verify is_address to_checksum_address encode_typed_data recover_message erc1271 rt).
#[local] Abbreviation authentic := (authentic to_checksum_address encode_typed_data recover_message erc1271).
#[local] Abbreviation new_challenge := (new_challenge to_checksum_address rt).

Lemma hex_bytes_Ok v k name n : _hex_bytes v k name = Ok n -> is_bytes n /\ zlen n = k.
Proof.
  unfold _hex_bytes. destruct (unhex (without_0x v)) as [raw|] eqn:Hu; [|done]. destruct (Z.eqb_spec (zlen raw) k); [|done].
  intros [= <-]. split; [by eapply unhex_bytes|done].
Qed.

(** ** What a handler does to the store *)

(** A call of [challenge]. *)
Lemma challenge_store body now fresh (w : W) : is_bytes fresh ->
  w_challenges (challenge body now fresh w).2 = w_challenges w \/
  (is_ok (challenge body now fresh w).1 = is_ok (put now (new_challenge body now fresh) (w_challenges w)).1 /\
   w_challenges (challenge body now fresh w).2 = (put now (new_challenge body now fresh) (w_challenges w)).2 /\
   cr_chain_id body = rt_chain_id rt /\ is_address (cr_wallet body) = true).
Proof.
  intros Hf. unfold challenge. destruct (_ || _); [by left|]. unfold bind, lift_res. destruct (secret_of rt); [|by left].
  destruct (is_address (cr_wallet body)); [|by left]. cbn [negb]. destruct (Z.eqb_spec (cr_chain_id body) (rt_chain_id rt)) as [He|]; [|by left]. cbn [negb].
  right. unfold bind, on_challenges, lift_res. cbv beta iota zeta. destruct (put now (new_challenge body now fresh) (w_challenges w)) as [[u|e] c]; cbn; by split_and!.
Qed.

(** What a successful [verify] found. *)
Record logged_in (body : VerifyRequest) (now : Z) (n : list Z) (ch : Challenge) : Prop := {
  li_nonce : _hex_bytes (v_nonce body) 32 "nonce" = Ok n;
  li_fresh : now < expires_at ch;
  li_wallet : lower (wallet ch) = lower (to_checksum_address (v_wallet body));
  li_chain : chain_id ch = v_chain_id body /\ chain_id ch = rt_chain_id rt;
  li_signature : exists s, unhex (without_0x (v_signature body)) = Some s /\
    authentic (wallet_kind body) ch (to_checksum_address (v_wallet body)) s = Ok tt;
}.

Lemma open_session_store secret w chain issued jti (st : W) : w_challenges (open_session rt secret w chain issued jti st).2 = w_challenges st.
Proof.
  unfold open_session, bind, get, lift_res. cbn. destruct (borrower_of_wallet _ _) as [b|]; [|done]. cbn. unfold register, modify. cbn. by repeat case_match.
Qed.

(** A call of [verify]: the store is left, or a nonce is taken from it; when it
    answers, the nonce's challenge was there and everything about it holds. *)
Lemma verify_store body now issued jti (w : W) :
  (w_challenges (verify body now issued jti w).2 = w_challenges w /\ is_ok (verify body now issued jti w).1 = false) \/
  exists n, _hex_bytes (v_nonce body) 32 "nonce" = Ok n /\ w_challenges (verify body now issued jti w).2 = (take n (w_challenges w)).2 /\
    (is_ok (verify body now issued jti w).1 = true -> exists ch, peek (w_challenges w) n = Some ch /\ logged_in body now n ch).
Proof.
  unfold verify, bind, lift_res. destruct (_ || _); [by left|]. destruct (secret_of rt) as [secret|]; [|by left].
  destruct (is_address (v_wallet body)); [|by left]. cbn [negb].
  destruct (_hex_bytes (v_nonce body) 32 "nonce") as [n|e] eqn:Hn; [|by left].
  destruct (unhex (without_0x (v_signature body))) as [s|] eqn:Hs; [|by left]. destruct (_ || _); [by left|].
  right. exists n. split; [done|]. unfold on_challenges. pose proof (take_returns n (w_challenges w)) as Ht.
  destruct (take n (w_challenges w)) as [r c]. cbn [fst] in Ht. subst r. cbn [snd].
  destruct (peek (w_challenges w) n) as [ch|]; [|done].
  destruct (Z.leb_spec (expires_at ch) now) as [|Hx]; [done|].
  destruct (String.eqb_spec (lower (wallet ch)) (lower (to_checksum_address (v_wallet body)))) as [Hw|]; [|done].
  destruct (Z.eqb_spec (chain_id ch) (v_chain_id body)) as [Hc1|]; [|done]. destruct (Z.eqb_spec (chain_id ch) (rt_chain_id rt)) as [Hc2|]; [|done]. cbn [negb orb].
  destruct (authentic (wallet_kind body) ch (to_checksum_address (v_wallet body)) s) as [[]|e] eqn:Ha; [|done].
  rewrite open_session_store. split; [done|]. intros _. exists ch. split; [done|]. split; try done. by exists s.
Qed.

(** ** Histories *)

(** What succeeded, as a client sees it. *)
Inductive Event := Put (ch : Challenge) | LogIn (body : VerifyRequest) (now : Z).

(** One request after another, refused ones included; roles and links change
    between them in any way. *)
Inductive step (w : W) : option Event -> W -> Prop :=
| step_challenge body now fresh : is_bytes fresh -> is_ok (challenge body now fresh w).1 = true ->
    step w (Some (Put (new_challenge body now fresh))) (challenge body now fresh w).2
| step_challenge_refused body now fresh : is_bytes fresh -> is_ok (challenge body now fresh w).1 = false -> step w None (challenge body now fresh w).2
| step_verify body now issued jti : is_ok (verify body now issued jti w).1 = true -> step w (Some (LogIn body now)) (verify body now issued jti w).2
| step_verify_refused body now issued jti : is_ok (verify body now issued jti w).1 = false -> step w None (verify body now issued jti w).2
| step_admin w' : w_challenges w' = w_challenges w -> step w None w'.

Definition events_of (e : option Event) : list Event := match e with Some x => [x] | None => [] end.

Inductive run (w0 : W) : list Event -> W -> Prop :=
| run_nil : run w0 [] w0
| run_step es w e w' : run w0 es w -> step w e w' -> run w0 (es ++ events_of e) w'.

Definition is_put (n : list Z) (e : Event) : bool := if e is Put ch then bool_decide (nonce ch = n) else false.
Definition is_login (n : list Z) (e : Event) : bool := if e is LogIn body _ then bool_decide (_hex_bytes (v_nonce body) 32 "nonce" = Ok n) else false.

Definition puts (n : list Z) (es : list Event) : nat := length (List.filter (is_put n) es).
Definition logins (n : list Z) (es : list Event) : nat := length (List.filter (is_login n) es).

Definition waiting (w : W) (n : list Z) : nat := if peek (w_challenges w) n is Some _ then 1%nat else 0%nat.

Lemma puts_app n es es' : puts n (es ++ es') = (puts n es + puts n es')%nat.
Proof. unfold puts. by rewrite List.filter_app, length_app. Qed.

Lemma logins_app n es es' : logins n (es ++ es') = (logins n es + logins n es')%nat.
Proof. unfold logins. by rewrite List.filter_app, length_app. Qed.

(** A login's place in a history, and what made it good. *)
Definition earned (es : list Event) (body : VerifyRequest) (now : Z) : Prop :=
  exists n ch, logged_in body now n ch /\ nonce ch = n /\ Put ch ∈ es /\ (logins n es < puts n es)%nat.

Record history_ok (es : list Event) (w : W) : Prop := {
  ho_waiting : forall n c, is_bytes n -> peek (w_challenges w) n = Some c -> nonce c = n /\ Put c ∈ es;
  ho_count : forall n, is_bytes n -> (logins n es + waiting w n <= puts n es)%nat;
  ho_earned : forall l1 body now l2, es = l1 ++ LogIn body now :: l2 -> earned l1 body now;
}.

(** The histories that end in [e], if anything. *)
Lemma snoc_split (es : list Event) e l1 x l2 : es ++ events_of e = l1 ++ x :: l2 -> (exists l, es = l1 ++ x :: l) \/ (e = Some x /\ l1 = es).
Proof.
  destruct e as [y|]; cbn; [|rewrite app_nil_r; eauto]. intros H3. destruct (exists_last (l := x :: l2)) as (l & z & Hz); [done|].
  rewrite Hz, app_assoc in H3. apply app_inj_tail in H3 as [-> ->]. destruct l as [|x' l]; cbn in Hz; injection Hz as <- Hz; [right|left].
  - by rewrite app_nil_r.
  - by exists l.
Qed.

(** Nothing succeeded and no challenge came: what held goes on to hold. *)
Lemma history_none es w w' : history_ok es w -> (forall n c, is_bytes n -> peek (w_challenges w') n = Some c -> peek (w_challenges w) n = Some c) -> history_ok es w'.
Proof.
  intros [H3 H4 H5] Hp. split; [|intros n Hn|exact H5].
  - intros n c Hn Hc. apply H3; [done|]. by apply Hp.
  - specialize (H4 n Hn). unfold waiting in *. destruct (peek (w_challenges w') n) as [c|] eqn:Hc; [|lia]. by rewrite (Hp n c Hn Hc) in H4.
Qed.

Lemma history_step es w e w' : history_ok es w -> step w e w' -> history_ok (es ++ events_of e) w'.
Proof.
  intros Hok [body now fresh Hf Hr|body now fresh Hf Hr|body now issued jti Hr|body now issued jti Hr|w1 Hw]; cbn [events_of].
  - destruct Hok as [H3 H4 H5].
    assert (Hp : forall n c, is_bytes n -> peek (w_challenges (challenge body now fresh w).2) n = Some c -> (nonce c = n /\ c = new_challenge body now fresh) \/ peek (w_challenges w) n = Some c).
    { intros n c Hn Hc. destruct (challenge_store body now fresh w Hf) as [E|(_ & E & _)]; rewrite E in Hc; [by right|].
      apply put_adds in Hc as [(_ & <- & ->)|Hc]; [by left|by right|done|done]. }
    split.
    + intros n c Hn [(E & ->)|Hc]%Hp; [|destruct (H3 n c Hn Hc)|done]; (split; [done|set_solver]).
    + intros n Hn. specialize (H4 n Hn). rewrite logins_app, puts_app. unfold waiting in *. unfold logins at 2, puts at 2. cbn [List.filter is_login is_put].
      destruct (peek (w_challenges (challenge body now fresh w).2) n) as [c|] eqn:Hc; [|case_bool_decide; cbn [length] in *; lia].
      apply Hp in Hc as [(E & ->)|Hc]; [|rewrite Hc in H4|done]; [rewrite (bool_decide_eq_true_2 _ E); cbn [length]; lia|]. case_bool_decide; cbn [length] in *; lia.
    + intros l1 b t l2 [(l & E)|[E _]]%(snoc_split es (Some _)); [by eapply H5|done].
  - rewrite app_nil_r. apply (history_none es w); [done|]. intros n c Hn Hc. destruct (challenge_store body now fresh w Hf) as [E|(Hk & E & _)]; rewrite E in Hc; [done|].
    apply put_adds in Hc as [(Ht & _)|Hc]; [congruence|done|done|done].
  - destruct (verify_store body now issued jti w) as [[_ E]|(n0 & Hn0 & E & Hl)]; [congruence|]. destruct (Hl Hr) as (ch & Hch & Hin). clear Hl.
    destruct (hex_bytes_Ok _ _ _ _ Hn0) as [Hb0 _]. destruct Hok as [H3 H4 H5].
    assert (Hp : forall n, is_bytes n -> peek (w_challenges (verify body now issued jti w).2) n = if bool_decide (n = n0) then None else peek (w_challenges w) n) by (intros n Hn; rewrite E; by apply take_removes).
    split.
    + intros n c Hn Hc. rewrite Hp in Hc by done. case_bool_decide; [done|]. destruct (H3 n c Hn Hc) as [Hk Hi]. split; [done|set_solver].
    + intros n Hn. specialize (H4 n Hn). rewrite logins_app, puts_app. unfold waiting in *. unfold logins at 2, puts at 2. cbn [List.filter is_login is_put]. rewrite Hp by done. rewrite Hn0.
      destruct (decide (n = n0)) as [->|Hne].
      * rewrite !bool_decide_eq_true_2 by done. rewrite Hch in H4. cbn [length]. lia.
      * rewrite !bool_decide_eq_false_2 by congruence. cbn [length]. lia.
    + intros l1 b t l2 [(l & El)|[Eb ->]]%(snoc_split es (Some _)); [by eapply H5|]. injection Eb as <- <-. exists n0, ch.
      destruct (H3 n0 ch Hb0 Hch) as [Hk Hi]. split_and!; [done|done|done|]. specialize (H4 n0 Hb0). unfold waiting in H4. rewrite Hch in H4. lia.
  - rewrite app_nil_r. apply (history_none es w); [done|]. intros n c Hn Hc. destruct (verify_store body now issued jti w) as [[E _]|(n0 & Hn0 & E & _)]; rewrite E in Hc; [done|].
    rewrite take_removes in Hc; [by case_bool_decide|by apply hex_bytes_Ok in Hn0 as [? _]|done].
  - rewrite app_nil_r. apply (history_none es w); [done|]. intros n c _. by rewrite Hw.
Qed.

Lemma run_ok w0 es w : (forall n, is_bytes n -> peek (w_challenges w0) n = None) -> run w0 es w -> history_ok es w.
Proof.
  intros H3 Hr. induction Hr as [|es w e w' _ IH Hs]; [|by eapply history_step]. split.
  - intros n c Hn. by rewrite H3.
  - intros n Hn. unfold waiting. by rewrite H3.
  - intros l1 b t l2 E. by destruct l1.
Qed.

(** C34: Every login answers a challenge of its own: in any history of requests,
    on either store, with roles and links changing in between, a session is
    issued only for a challenge issued before, for this chain, not yet
    expired, to this wallet, over whose message the signature was made; and
    fewer sessions were issued before for its nonce than challenges, so no
    challenge is answered twice. *)
Theorem login_authentic w0 es w l1 body now l2 : (forall n, is_bytes n -> peek (w_challenges w0) n = None) ->
  run w0 es w -> es = l1 ++ LogIn body now :: l2 ->
  exists n ch s, _hex_bytes (v_nonce body) 32 "nonce" = Ok n /\ nonce ch = n /\ Put ch ∈ l1 /\ (logins n l1 < puts n l1)%nat /\
    now < expires_at ch /\ chain_id ch = rt_chain_id rt /\ lower (wallet ch) = lower (to_checksum_address (v_wallet body)) /\
    unhex (without_0x (v_signature body)) = Some s /\
    (if String.eqb (wallet_kind body) "eoa" then
       exists r, recover_eoa to_checksum_address encode_typed_data recover_message (message_of ch) s = Some r /\ lower r = lower (wallet ch)
     else erc1271 (to_checksum_address (v_wallet body)) (digest to_checksum_address encode_typed_data (message_of ch)) s = true).
Proof.
  intros H3 Hr He. destruct (ho_earned _ _ (run_ok _ _ _ H3 Hr) _ _ _ _ He) as (n & ch & [Hn Hx Hw [_ Hc] (s & Hs & Ha)] & Hk & Hp & Hl).
  exists n, ch, s. split_and!; try done. unfold authentic in Ha. destruct (String.eqb _ _).
  - destruct (recover_eoa _ _ _ _ _) as [r|]; [|done]. exists r. split; [done|]. destruct (String.eqb_spec (lower r) (lower (to_checksum_address (v_wallet body)))); [congruence|done].
  - by destruct (erc1271 _ _ _).
Qed.

(** ** The principal of a request *)

Context (parse_float : string -> json) (decode_wide : list Z -> res string) (repr : json -> string).

#[local] Abbreviation principal := (current_principal parse_float decode_wide repr rt (R := R) (O := O)).

(** What a request that is authenticated rests on. *)
Lemma principal_Ok reg own header now pr : principal reg own header now = Ok pr ->
  roles_live reg (p_session pr) = true /\ cid (p_session pr) = rt_chain_id rt /\ now < exp (p_session pr) /\
  borrower_of_wallet own (sub (p_session pr)) = Ok (p_borrower pr) /\ p_roles pr = list_to_set (s_roles (p_session pr)) /\
  (BORROWER ∈ p_roles pr -> p_borrower pr <> None) /\
  exists secret token, session_secret rt = Some secret /\ parse_session parse_float decode_wide repr secret token now = Some (p_session pr).
Proof.
  unfold principal. cbv zeta. destruct (session_secret rt) as [secret|]; [|done]. destruct (after _ _); [|done].
  destruct (parse_session _ _ _ _ _ _) as [p|] eqn:Hp; [|done]. unfold live_principal. destruct (Z.eqb_spec (cid p) (rt_chain_id rt)) as [Hc|]; [|done]. cbn [negb].
  destruct (roles_live reg p) eqn:Hl; [|done]. cbn [negb]. destruct (borrower_of_wallet own (sub p)) as [b|] eqn:Hb; [|done]. cbn [rbind].
  destruct (_ && _); [done|]. destruct (mem_str BORROWER (s_roles p) && bool_decide (b = None)) eqn:Hx; [done|]. intros [= <-]. cbn.
  pose proof (parse_session_Some _ _ _ _ _ _ _ Hp) as (_ & _ & _ & _ & _ & _ & _ & He). split_and!; try done; [|by eexists _, _].
  intros Hin ->. rewrite elem_of_list_to_set in Hin. rewrite bool_decide_eq_true_2 in Hx by done. rewrite andb_true_r in Hx.
  unfold mem_str in Hx. rewrite <- not_true_iff_false, existsb_exists in Hx. apply Hx. exists BORROWER. split; [by apply list_elem_of_In|apply String.eqb_refl].
Qed.

(** ** A session just opened *)

Lemma list_ascii_app a b : list_ascii_of_string (a ++ b) = list_ascii_of_string a ++ list_ascii_of_string b.
Proof. induction a as [|x a IH]; [done|]. rewrite str_cons_app. cbn [list_ascii_of_string app]. by rewrite IH. Qed.

Lemma substring_all s : String.substring 0 (String.length s) s = s.
Proof. induction s as [|a s IH]; [done|]. cbn. by rewrite IH. Qed.

Lemma digits_no_space : forallb (fun n => negb (int_space false (b64_digit n))) (map Z.of_nat (seq 0 64)) = true.
Proof. vm_compute. reflexivity. Qed.

Lemma strip_token secret p : strip (token_of secret p) = token_of secret p.
Proof.
  assert (H3 : forall l, is_bytes l -> forallb (fun a => negb (int_space false a)) (list_ascii_of_string (_b64e l)) = true).
  { intros l Hl. rewrite b64e_text by done. apply b64_text_forall; [|done]. intros n Hn. pose proof digits_no_space as Hd. rewrite forallb_forall in Hd.
    apply Hd, in_map_iff. exists (Z.to_nat n). rewrite in_seq. lia. }
  assert (Ht : forallb (fun a => negb (int_space false a)) (list_ascii_of_string (token_of secret p)) = true).
  { unfold token_of. rewrite !list_ascii_app, !forallb_app, !H3 by first [apply to_json_bytes|apply hmac_bytes]. done. }
  unfold strip. by rewrite drop_left_none, drop_right_none.
Qed.

Lemma bearer s : after "bearer " (lower ("Bearer " ++ s)%string) = Some (lower s) /\
  String.substring 7 (String.length ("Bearer " ++ s)%string - 7) ("Bearer " ++ s)%string = s.
Proof.
  split; [done|]. change (String.substring 0 (String.length s - 0) s = s). by rewrite Nat.sub_0_r, substring_all.
Qed.

(** A request with a session's own token. *)
Lemma principal_token secret p reg own t : session_secret rt = Some secret -> session_ok p ->
  principal reg own (Some ("Bearer " ++ token_of secret p)%string) t = if exp p <=? t then Raise (unauthenticated "invalid or expired session") else live_principal rt reg own p.
Proof.
  intros Hs Hok. unfold principal. rewrite Hs. cbn [default from_option id]. cbv zeta. destruct (bearer (token_of secret p)) as [-> ->].
  rewrite strip_token, parse_token by done. by destruct (exp p <=? t).
Qed.

(** The session [verify] opens. *)
Definition session_of (reg : R) (r : VerifyResponse) (issued : Z) (jti : string) : SessionPayload :=
  begin_session (t_wallet r) (rt_chain_id rt) (opt_json (t_borrower r)) (t_roles r) (list_to_map (map (fun x => (x, epoch reg x)) (t_roles r))) (session_ttl rt) issued jti.

Lemma verify_opens body now issued jti (w : W) r w' : verify body now issued jti w = (Ok r, w') ->
  w_roles w' = w_roles w /\ w_owner w' = w_owner w /\ borrower_of_wallet (w_owner w) (t_wallet r) = Ok (t_borrower r) /\
  t_roles r = session_roles (w_roles w) (t_wallet r) (t_borrower r) /\
  exists secret, session_secret rt = Some secret /\ t_token r = token_of secret (session_of (w_roles w) r issued jti).
Proof.
  unfold verify, bind, lift_res. destruct (_ || _); [done|]. destruct (secret_of rt) as [secret|] eqn:Hs; [|done].
  destruct (is_address (v_wallet body)); [|done]. cbn [negb]. destruct (_hex_bytes _ _ _) as [n|e]; [|done].
  destruct (unhex _) as [s|]; [|done]. destruct (_ || _); [done|]. unfold on_challenges. pose proof (take_returns n (w_challenges w)) as Ht.
  destruct (take n (w_challenges w)) as [x c]. cbn [fst] in Ht. subst x. destruct (peek (w_challenges w) n) as [ch|]; [|done].
  destruct (expires_at ch <=? now); [done|]. destruct (negb _ || negb _ || negb (chain_id ch =? rt_chain_id rt)) eqn:Hc; [done|].
  apply orb_false_iff in Hc as [_ Hc%negb_false_iff%Z.eqb_eq]. destruct (authentic _ _ _ _); [|done].
  unfold open_session, bind, get, lift_res. cbn [w_owner w_roles]. set (wa := to_checksum_address (v_wallet body)).
  destruct (borrower_of_wallet (w_owner w) wa) as [b|] eqn:Hb; [|done]. cbv zeta. unfold issue_session. cbv zeta. unfold register, modify, ret.
  intros [= <- <-]. cbn [t_wallet t_borrower t_roles t_token]. split_and!; [by case_match|by case_match|done|done|].
  exists secret. split; [|by rewrite Hc]. unfold secret_of in Hs. destruct (session_secret rt); [by injection Hs as ->|done].
Qed.

Lemma roles_live_fresh reg w b chain ttl issued jti :
  roles_live reg (begin_session w chain (opt_json b) (session_roles reg w b) (list_to_map (map (fun x => (x, epoch reg x)) (session_roles reg w b))) ttl issued jti) = true.
Proof.
  unfold roles_live. cbn [s_roles sub role_epochs begin_session]. apply forallb_forall. intros x Hx. apply list_elem_of_In in Hx.
  assert (Hk : forall l, x ∈ l -> (list_to_map (map (fun y => (y, epoch reg y)) l) : gmap string Z) !! x = Some (epoch reg x)).
  { intros l. induction l as [|y l IH]; intros Hy; [by apply elem_of_nil in Hy|]. cbn [map list_to_map foldr].
    destruct (decide (y = x)) as [->|Hne]; [apply lookup_insert_eq|]. rewrite lookup_insert_ne by done. apply IH.
    by apply elem_of_cons in Hy as [->|Hy]. }
  rewrite Hk by done. cbn. rewrite Z.eqb_refl, andb_true_r. unfold session_roles in Hx.
  assert (Hr : x ∈ isort String.leb (elements (roles_of reg w)) -> (String.eqb x BORROWER || bool_decide (x ∈ roles_of reg w)) = true).
  { rewrite (isort_perm String.leb), elem_of_elements. intros Hin. rewrite bool_decide_eq_true_2 by done. apply orb_true_r. }
  destruct (_ && _); [|by apply Hr]. apply elem_of_app in Hx as [Hx| ->%list_elem_of_singleton]; [by apply Hr|done].
Qed.

(** A session that was just opened authenticates its wallet, with the link
    and the roles the login saw, until it expires; except that a wallet the
    registry itself lists as a borrower, with no link, has been given a
    session that no request accepts. *)
Theorem fresh_session_admitted body now issued jti (w : W) r w' t : verify body now issued jti w = (Ok r, w') ->
  let p := session_of (w_roles w) r issued jti in session_ok p -> t < issued + session_ttl rt ->
  principal (w_roles w') (w_owner w') (Some ("Bearer " ++ t_token r))%string t =
  if mem_str BORROWER (t_roles r) && bool_decide (t_borrower r = None) then Raise (unauthenticated "wallet link released")
  else Ok {| p_wallet := t_wallet r; p_chain_id := rt_chain_id rt; p_borrower := t_borrower r; p_roles := list_to_set (t_roles r); p_session := p |}.
Proof.
  intros Hv p Hok Ht. destruct (verify_opens _ _ _ _ _ _ _ Hv) as (Hr & Ho & Hb & Hroles & secret & Hs & Htok).
  rewrite Hr, Ho, Htok, (principal_token secret) by done. change (session_of (w_roles w) r issued jti) with p.
  change (exp p) with (issued + session_ttl rt). destruct (Z.leb_spec (issued + session_ttl rt) t); [lia|]. unfold live_principal.
  change (cid p) with (rt_chain_id rt). rewrite Z.eqb_refl. cbn [negb].
  assert (roles_live (w_roles w) p = true) as -> by (unfold p, session_of; rewrite Hroles; apply roles_live_fresh).
  cbn [negb]. change (sub p) with (t_wallet r). rewrite Hb. cbn [rbind]. change (brw p) with (opt_json (t_borrower r)). change (s_roles p) with (t_roles r).
  assert (json_eqb (opt_json (t_borrower r)) (opt_json (t_borrower r)) = true) as -> by (destruct (t_borrower r); [apply String.eqb_refl|done]).
  by rewrite andb_false_r.
Qed.

(** ** Guards *)

(** An object is open to staff when it exists and to the borrower who owns it;
    any other request gets the same answer as for one that does not exist. *)
Lemma owned_or_staff_exact p owner :
  (_owned_or_staff p owner = Ok tt <-> exists o, owner = Some o /\ (p_roles p ∩ STAFF_READ_ROLES ≠ ∅ \/ p_borrower p = Some o)) /\
  forall e, _owned_or_staff p owner = Raise e -> e = not_found.
Proof.
  unfold _owned_or_staff. destruct owner as [o|]; [|by case_bool_decide; cbn; (split; [naive_solver|by intros e [= <-]])].
  repeat case_bool_decide; cbn; (split; [naive_solver|first [done|by intros e [= <-]]]).
Qed.
End Theorems.

(** * Revocation *)

Section Revocation.
Context (parse_float : string -> json) (decode_wide : list Z -> res string) (repr : json -> string) (rt : Settings) {O : Type} `{OwnershipResolver O}.

Lemma registry_epochs r r' role : rtc registry_step r r' -> epoch r role <= epoch r' role.
Proof. intros Hr. induction Hr as [|r u r' Hs _ IH]; [lia|]. pose proof (step_epochs _ _ role Hs). lia. Qed.

(** An administrator's act against a role. *)
Definition withdrawn (role : string) (r r' : InMemoryRoleRegistry) : Prop := (exists w, r' = (revoke w role r).2) \/ r' = (rotate role r).2.

Lemma withdrawn_epoch role r r' : withdrawn role r r' -> epoch r' role = epoch r role + 1.
Proof. intros [[w ->]| ->]; cbn; by rewrite getz_insert_eq. Qed.

End Revocation.

(** * A concrete login *)

Module LEx.

Definition wallet_ : string := "0x00000000000000000000000000000000000000aa".
Definition is_address_ (s : string) : bool := (String.length s =? 42)%nat.
Definition checksum_ (s : string) : string := s.

(** An encoding that keeps the wallet, and a signer who owns every message with
    27 at its end. *)
Definition encode_ (td : TypedData (list Z)) : Signable :=
  {| sg_version := [1]; sg_header := bytes_of (td_name _ td); sg_body := bytes_of (td_wallet _ td) ++ td_nonce _ td |}.
Definition recover_ (s : Signable) (signature : list Z) : option string :=
  if bool_decide (last signature = Some 27) then Some (text_of (firstn 42 (sg_body s))) else None.

Definition settings_ : Settings := {|
  rt_chain_id := 1; rt_app_domain := "app"; session_secret := Some "k"; session_ttl := 3600; challenge_ttl := 300; known_borrowers := ∅ |}.

Definition nonce_ : list Z := replicate 32 7.
Definition roles0 : InMemoryRoleRegistry := (grant wallet_ OPERATOR new_registry).2.
Definition owner0 : InMemoryOwnership := {| o_wallets := {[ wallet_ := "01B" ]}; o_accounts := ∅; o_facilities := ∅ |}.
Definition world0 : World InMemoryChallengeStore InMemoryRoleRegistry InMemoryOwnership :=
  {| w_challenges := {| entries := ∅; max_entries := 10000 |}; w_roles := roles0; w_owner := owner0; redacted := [] |}.

Definition ask : ChallengeRequest := {| cr_wallet := wallet_; cr_chain_id := 1; cr_hint := EmptyString |}.
Definition answer : VerifyRequest := {| v_wallet := wallet_; v_chain_id := 1; v_nonce := ("0x" ++ hex nonce_)%string;
  v_signature := hex (replicate 64 0 ++ [27]); wallet_kind := "eoa" |}.

#[local] Abbreviation asked := (challenge is_address_ checksum_ settings_ ask 1000 nonce_ world0).
#[local] Abbreviation answered := (verify is_address_ checksum_ encode_ recover_ reject_all settings_ answer 1100 1101 "jti" asked.2).
#[local] Abbreviation put_ := (Put (new_challenge checksum_ settings_ ask 1000 nonce_)).

Lemma run_ : run is_address_ checksum_ encode_ recover_ reject_all settings_ world0 [put_; LogIn answer 1100] answered.2.
Proof.
  apply (run_step _ _ _ _ _ _ world0 [put_] asked.2 (Some (LogIn answer 1100))).
  - apply (run_step _ _ _ _ _ _ world0 [] world0 (Some put_)); [apply run_nil|]. apply step_challenge; [|reflexivity].
    unfold nonce_. apply Forall_replicate. unfold is_byte. lia.
  - apply step_verify. reflexivity.
Qed.

Lemma login_authentic_witness :
  run is_address_ checksum_ encode_ recover_ reject_all settings_ world0 [put_; LogIn answer 1100] answered.2 /\
  exists n ch s, _hex_bytes (v_nonce answer) 32 "nonce" = Ok n /\ nonce ch = n /\ Put ch ∈ [put_] /\ (logins n [put_] < puts n [put_])%nat /\
    1100 < expires_at ch /\ chain_id ch = 1 /\ lower (wallet ch) = lower wallet_ /\ unhex (without_0x (v_signature answer)) = Some s /\
    exists r, recover_eoa checksum_ encode_ recover_ (message_of ch) s = Some r /\ lower r = lower (wallet ch).
Proof.
  split; [exact run_|].
  exact (login_authentic is_address_ checksum_ encode_ recover_ reject_all settings_ world0 [put_; LogIn answer 1100] answered.2 [put_] answer 1100 []
    (fun _ _ => eq_refl) run_ eq_refl).
Defined.

Definition roles_ : list string := [OPERATOR; BORROWER].
Definition payload_ : SessionPayload :=
  begin_session wallet_ 1 (JStr "01B") roles_ (list_to_map (map (fun x => (x, epoch roles0 x)) roles_)) 3600 1101 "jti".
Definition response_ : VerifyResponse := {| t_token := token_of "k" payload_; t_expires_at := 4701; t_wallet := wallet_; t_borrower := Some "01B"%string; t_roles := roles_ |}.

Lemma answered_ : answered = (Ok response_, answered.2).
Proof. apply run_Ok. reflexivity. Qed.

Lemma payload_ok : session_ok payload_.
Proof.
  split; [done|done|right; by exists "01B"%string|by repeat constructor| |by vm_compute].
  unfold payload_. cbn [role_epochs begin_session]. intros k n. unfold roles_. cbn [map list_to_map foldr].
  intros [[<- <-]|[_ [[<- <-]|[_ H]]%lookup_insert_Some]]%lookup_insert_Some; [by vm_compute|by vm_compute|by rewrite lookup_empty in H].
Qed.

Lemma fresh_session_admitted_witness : answered = (Ok response_, answered.2) /\
  current_principal JStr (fun _ => json_error) canonical settings_ (w_roles answered.2) (w_owner answered.2) (Some ("Bearer " ++ t_token response_))%string 4700 =
  Ok {| p_wallet := wallet_; p_chain_id := 1; p_borrower := Some "01B"%string; p_roles := list_to_set roles_; p_session := payload_ |}.
Proof.
  split; [exact answered_|].
  exact (fresh_session_admitted is_address_ checksum_ encode_ recover_ reject_all settings_ JStr (fun _ => json_error) canonical
    answer 1100 1101 "jti" asked.2 response_ answered.2 4700 answered_ payload_ok eq_refl).
Defined.

Definition principal_ : Principal := {| p_wallet := wallet_; p_chain_id := 1; p_borrower := Some "01B"%string; p_roles := list_to_set roles_; p_session := payload_ |}.


(** A wallet the registry lists as a borrower, without a link: every request
    with its new session is refused, whatever its other roles. *)
Definition world1 : World InMemoryChallengeStore InMemoryRoleRegistry InMemoryOwnership :=
  {| w_challenges := {| entries := ∅; max_entries := 10000 |}; w_roles := (grant wallet_ BORROWER roles0).2;
     w_owner := {| o_wallets := ∅; o_accounts := ∅; o_facilities := ∅ |}; redacted := [] |}.

#[local] Abbreviation asked1 := (challenge is_address_ checksum_ settings_ ask 1000 nonce_ world1).
#[local] Abbreviation answered1 := (verify is_address_ checksum_ encode_ recover_ reject_all settings_ answer 1100 1101 "jti" asked1.2).

Definition roles1 : list string := [BORROWER; OPERATOR].
Definition payload1 : SessionPayload :=
  begin_session wallet_ 1 JNull roles1 (list_to_map (map (fun x => (x, epoch (w_roles world1) x)) roles1)) 3600 1101 "jti".
Definition response1 : VerifyResponse := {| t_token := token_of "k" payload1; t_expires_at := 4701; t_wallet := wallet_; t_borrower := None; t_roles := roles1 |}.

Lemma answered1_ : answered1 = (Ok response1, answered1.2).
Proof. apply run_Ok. reflexivity. Qed.

Lemma locked_payload_ok : session_ok payload1.
Proof.
  split; [done|done|by left|by repeat constructor| |by vm_compute].
  unfold payload1. cbn [role_epochs begin_session]. intros k n. unfold roles1. cbn [map list_to_map foldr].
  intros [[<- <-]|[_ [[<- <-]|[_ H]]%lookup_insert_Some]]%lookup_insert_Some; [by vm_compute|by vm_compute|by rewrite lookup_empty in H].
Qed.

Lemma granted_borrower_locked_out : answered1 = (Ok response1, answered1.2) /\
  forall t, t < 4701 -> current_principal JStr (fun _ => json_error) canonical settings_ (w_roles answered1.2) (w_owner answered1.2) (Some ("Bearer " ++ t_token response1))%string t =
    Raise (unauthenticated "wallet link released").
Proof.
  split; [exact answered1_|]. intros t Ht.
  pose proof (verify_opens is_address_ checksum_ encode_ recover_ reject_all settings_ answer 1100 1101 "jti" asked1.2 response1 answered1.2 answered1_) as (Hr & Ho & _).
  rewrite Hr, Ho. change (w_roles asked1.2) with (w_roles world1). change (w_owner asked1.2) with (w_owner world1).
  change (t_token response1) with (token_of "k" payload1). rewrite (principal_token settings_ JStr (fun _ => json_error) canonical "k") by first [reflexivity|exact locked_payload_ok].
  change (exp payload1) with 4701. destruct (Z.leb_spec 4701 t); [lia|]. vm_compute. reflexivity.
Qed.
End LEx.
End Login.
