(* ===== verification/Commands.v ===== *)
(** The product API's durable commands: each runs once per idempotency key, and
    none of them authorises anything financial.

    Sources under offchain/api/hashcredit_api/gpu/product/: commands.py,
    [scope] of router.py and the [operations] query of repository.py, on the
    jobs, the audit log and the tables of db/ledgers.py, db/models.py and
    db/product_models.py.

    A body is what pydantic made of the request.  The advisory lock serialises
    the commands of a wallet: a command is one transaction and one step.  The
    handlers' clock is an argument, as are the ids drawn.  [lower] is
    [str.lower] of a wallet, which is ASCII. *)

From S2P Require Import Prelude Domain Stdpy Json JsonText Session Datetime JobQueue Columns Access Login.
Import Domain Stdpy Json JsonText Session Columns Access Login.

Module Commands.

#[local] Existing Instance Jobs.JobState_eq_dec.

(** * Bodies *)

(** Models [product/commands.py], [Command].  With [Onboarding], [Connect] and
    [Action] of the same file. *)
Inductive Body :=
| Onboarding (idempotencyKey jurisdiction registrationReference : string)
| Connect (idempotencyKey providerId externalAccountId evidenceReference reason : string)
| Action (idempotencyKey action reason : string) (expectedVersion : Z).

Definition idempotency_key_of (b : Body) : string := match b with Onboarding k _ _ | Connect k _ _ _ _ | Action k _ _ _ => k end.

(** [body.model_dump()] *)
Definition model_dump (b : Body) : json :=
  match b with
  | Onboarding k j r => JObj [("idempotencyKey", JStr k); ("jurisdiction", JStr j); ("registrationReference", JStr r)]%string
  | Connect k p x e r => JObj [("idempotencyKey", JStr k); ("providerId", JStr p); ("externalAccountId", JStr x); ("evidenceReference", JStr e); ("reason", JStr r)]%string
  | Action k a r v => JObj [("idempotencyKey", JStr k); ("action", JStr a); ("reason", JStr r); ("expectedVersion", JInt v)]%string
  end.

Definition len_in (lo hi : Z) (s : string) : bool := let n := zlen (characters s) in (lo <=? n) && (n <=? hi).

(** [^[A-Za-z0-9_.:-]+$] *)
Definition key_char (a : ascii) : bool :=
  in_range "A" "Z" a || in_range "a" "z" a || in_range "0" "9" a || mem_str (String a "") ["_"; "."; ":"; "-"].

(** White space, the one outside ASCII included. *)
Definition WHITE : list string := map utf8
  [9; 10; 11; 12; 13; 32; 0x85; 0xa0; 0x1680; 0x2000; 0x2001; 0x2002; 0x2003; 0x2004; 0x2005; 0x2006; 0x2007; 0x2008; 0x2009; 0x200a;
   0x2028; 0x2029; 0x202f; 0x205f; 0x3000].

(** [^(doc|vault|secret)://[^\s]+$] *)
Definition reference_ok (s : string) : bool :=
  match after "doc://" s, after "vault://" s, after "secret://" s with
  | Some r, _, _ | _, Some r, _ | _, _, Some r => negb (String.eqb r "") && forallb (fun c => negb (mem_str c WHITE)) (characters r)
  | _, _, _ => false
  end.

(** Models [product/commands.py], lines 29-49. *)
Definition well_formed (b : Body) : bool :=
  len_in 8 100 (idempotency_key_of b) && string_forallb key_char (idempotency_key_of b) &&
  match b with
  | Onboarding _ j r => len_in 2 64 j && len_in 7 300 r && reference_ok r
  | Connect _ p x e r => len_in 1 64 p && len_in 1 128 x && len_in 7 300 e && reference_ok e && len_in 5 1000 r
  | Action _ a r v => mem_str a ["assign"; "acknowledge"; "retry"; "resolve"] && len_in 5 1000 r && (0 <=? v)
  end.

(** ** Hashes *)

Definition code_point (c : string) : Z :=
  match bytes_of c with
  | [a] => a
  | [a; b] => (a - 192) * 64 + (b - 128)
  | [a; b; c] => (a - 224) * 4096 + (b - 128) * 64 + (c - 128)
  | [a; b; c; d] => (a - 240) * 262144 + (b - 128) * 4096 + (c - 128) * 64 + (d - 128)
  | _ => 0xfffd
  end.

Definition u_escape (n : Z) : string := (String backslash "u" ++ hex [n / 256; n mod 256])%string.

Definition escape_char (c : string) : string :=
  let n := code_point c in
  if (32 <=? n) && (n <=? 126) then c
  else if n <? 0x10000 then u_escape n
  else (u_escape (0xd800 + (n - 0x10000) / 1024) ++ u_escape (0xdc00 + (n - 0x10000) mod 1024))%string.

(** What [ensure_ascii] makes of a text [dumps] wrote. *)
Definition ensure_ascii (s : string) : string := String.concat "" (map escape_char (characters s)).

Definition sha256_text (s : string) : string := hex (sha256 (bytes_of (ensure_ascii s))).

Definition digest_of (b : Body) : string := sha256_text (canonical (model_dump b)).

(** Models [product/commands.py], [new_id]. *)
Definition new_id (millis rand : Z) : string :=
  let value := Z.lor (Z.shiftl millis 80) rand in
  String.concat "" (map (fun i => String (Jobs.crockford_digit (Z.land (Z.shiftr value (5 * Z.of_nat i)) 31)) "") (rev (seq 0 26))).

(** * Tables *)

(** Models [db/product_models.py], [ApiCommand], lines 39-47. *)
Record ApiCommand := { ac_payload_hash : string; ac_response : json }.

(** Models [db/models.py], [LegalEntity], lines 83-91. *)
Record LegalEntity := { le_jurisdiction : string; le_registration_ref : string }.

(** Models [db/models.py], [Borrower], lines 103-110. *)
Record Borrower := { bo_entity : string; kyc_status : string; underwriting_status : string }.

(** Models [db/product_models.py], [ConnectionApplication], lines 50-60. *)
Record ConnectionApplication := {
  ca_borrower : string; ca_provider : string; ca_external : string; ca_evidence : string; ca_reason : string; ca_status : string }.

(** Models [db/ledgers.py], [ExceptionCase], lines 612-623. *)
Record ExceptionCase := {
  ec_kind : string; severity : string; ec_table : string; ec_entity : string; detail : json;
  resolved_at : option Z; resolved_by : option string; resolution : option string }.

(** Models [db/product_models.py], [OperationReview], lines 63-70. *)
Record OperationReview := { version : Z; rv_state : string; assignee : option string; last_reason : option string; rv_updated_at : option Z }.

Record ProofRow := { pr_profile : string; pr_manifest : string; pr_status : string }.
Record AccountRow := { a_provider : string; a_borrower : string }.
Record SourcedRow := { so_account : string; so_profile : string }.

(** [ProductSettings]: what the commands read of them. *)
Record Settings := { engine : bool; profile : string; set_chain : option Z; manifest_hash : option string }.

(** The database: the queue's tables, those the commands write, and those that
    say which cases belong to this deployment. *)
Record DB := {
  queue : Jobs.DB unit;
  commands : gmap (Z * string * string * string) ApiCommand;
  legal_entities : gmap string LegalEntity;
  borrowers : gmap string Borrower;
  wallets : list BorrowerWallet;
  applications : gmap string ConnectionApplication;
  cases : gmap string ExceptionCase;
  reviews : gmap string OperationReview;
  providers : gmap string string; (* execution profile *)
  accounts_ : gmap string AccountRow;
  facilities_ : list FacilityRow;
  receivables_ : gmap string SourcedRow;
  settlements_ : gmap string SourcedRow;
  proofs : gmap string ProofRow;
}.

#[local] Abbreviation M := (PyM DB).

Definition api_error (status : Z) (code message : string) : exn := Exn (ApiError status code) message.
Definition conflict (message : string) : exn := api_error 409 "STATE_CONFLICT" message.

Definition check (b : bool) (constraint : string) : M unit := guard b DatabaseError constraint.

(** * Audit *)

Definition opt_obj (x : option json) : json := default JNull x.

(** [{**after, "reason": reason}] *)
Definition with_reason (after : json) (reason : string) : json :=
  match after with JObj l => JObj (dput "reason" (JStr reason) l) | v => v end.

(** Models [product/commands.py], [audit]; the row's CHECK on the role is met
    when the session is flushed. *)
Definition audit (p : Principal) (action table id : string) (before : option json) (after : json) (reason : string) (role : option string) (now : Z) : M unit :=
  let payload := JObj [("actor", JStr (lower (p_wallet p))); ("action", JStr action); ("entity", JStr id); ("before", opt_obj before);
                       ("after", after); ("reason", JStr reason); ("at", JStr (Datetime.isoformat now))]%string in
  let role := or_else role BORROWER in
  check (in_values Domain.Role role) "ck_audit_log_role" ;;;
  modify (fun s => s <| queue ::= fun q => q <| Jobs.audit_log ::= fun l => l ++ [{|
    Jobs.actor := lower (p_wallet p); Jobs.actor_role := role; Jobs.action := action; Jobs.entity_table := table; Jobs.entity_id := id;
    Jobs.before := before; Jobs.after := Some (with_reason after reason); Jobs.correlation_id := None; Jobs.prev_hash := None;
    Jobs.entry_hash := ("0x" ++ sha256_text (dumps ", " ": " payload))%string |}] |> |>).

(** * What belongs to this deployment *)

Section Product.
Context (cfg : Settings).

(** Models [product/repository.py], [ProductRepository.accounts]. *)
Definition accounts (p : Principal) (staff : bool) (s : DB) (id : string) : bool :=
  match accounts_ s !! id with
  | Some a => bool_decide (providers s !! a_provider a = Some (profile cfg)) && (staff || bool_decide (p_borrower p = Some (a_borrower a)))
  | None => false
  end.

(** Models [product/repository.py], [ProductRepository.facilities]. *)
Definition facilities (p : Principal) (staff : bool) (s : DB) (id : string) : bool :=
  existsb (fun f => String.eqb (fr_id f) id && String.eqb (fr_profile f) (profile cfg) && bool_decide (set_chain cfg = Some (fr_chain f))
                    && (staff || bool_decide (p_borrower p = Some (fr_borrower f)))) (facilities_ s).

Definition sourced (t : gmap string SourcedRow) (p : Principal) (staff : bool) (s : DB) (id : string) : bool :=
  match t !! id with Some r => accounts p staff s (so_account r) && String.eqb (so_profile r) (profile cfg) | None => false end.

Definition our_proof (s : DB) (id : string) : bool :=
  match proofs s !! id with Some r => String.eqb (pr_profile r) (profile cfg) && bool_decide (manifest_hash cfg = Some (pr_manifest r)) | None => false end.

(** The [operations] query: a case is in scope through what it is about. *)
(** Models [product/repository.py], [ProductRepository.query], lines 112-124. *)
Definition in_operations (p : Principal) (staff : bool) (s : DB) (c : ExceptionCase) : bool :=
  let id := ec_entity c in
  String.eqb (ec_table c) "facilities" && facilities p staff s id
  || String.eqb (ec_table c) "provider_accounts" && accounts p staff s id
  || String.eqb (ec_table c) "receivables" && sourced (receivables_ s) p staff s id
  || String.eqb (ec_table c) "settlements" && sourced (settlements_ s) p staff s id
  || String.eqb (ec_table c) "proof_requests" && our_proof s id.

(** Models [product/router.py], lines 14-25. *)
Definition RESOURCES : list (string * gset string) := [
  ("providers", ∅); ("connections", {[ OPERATOR ]}); ("assets", {[ UNDERWRITER; OPERATOR ]});
  ("facilities", {[ UNDERWRITER; OPERATOR; KEEPER; SERVICER; TREASURY; GUARDIAN ]}); ("receivables", {[ UNDERWRITER; OPERATOR ]});
  ("settlements", {[ OPERATOR; KEEPER ]}); ("control-agreements", {[ UNDERWRITER; OPERATOR ]}); ("repayments", {[ OPERATOR; SERVICER ]});
  ("recoveries", {[ OPERATOR; UNDERWRITER; SERVICER ]}); ("operations", {[ OPERATOR; SERVICER; GUARDIAN ]})]%string.

(** Models [product/router.py], [scope]. *)
Definition scope (resource : string) (p : Principal) : res bool :=
  if String.eqb resource "providers" then Ok false
  else
    match dget resource RESOURCES with
    | None => Raise (Exn KeyError resource)
    | Some staff_roles =>
        let staff := negb (bool_decide (p_roles p ∩ staff_roles = ∅)) in
        if mem_str resource ["recoveries"; "operations"] && negb staff then Raise (forbidden_scope "operator or credit scope required")
        else if negb staff && (bool_decide (BORROWER ∉ p_roles p) || bool_decide (p_borrower p = None)) then
          Raise (forbidden_scope "verified borrower linkage or resource-specific staff scope required")
        else Ok staff
    end.

(** * The commands *)

Definition command_key (p : Principal) (scope_ key : string) : Z * string * string * string := (p_chain_id p, lower (p_wallet p), scope_, key).

(** Models [product/commands.py], [execute]. *)
Definition execute (p : Principal) (scope_ : string) (body : Body) (fn : M json) : M json :=
  if negb (engine cfg) then throw (not_configured "GPU database is not configured")
  else
    let digest := digest_of body in
    let key := command_key p scope_ (idempotency_key_of body) in
    transaction (
      let* s := get in
      match commands s !! key with
      | Some prior =>
          if negb (String.eqb (ac_payload_hash prior) digest) then throw (api_error 409 "IDEMPOTENCY_CONFLICT" "idempotency key was already used with different input")
          else ret (ac_response prior)
      | None =>
          let* data := fn in
          let result := JObj [("schemaVersion", JStr "1.0"); ("data", data); ("financialAuthorization", JBool false)]%string in
          check (fits 42 (lower (p_wallet p)) && fits 200 scope_) "api_commands" ;;;
          modify (fun s => s <| commands ::= <[key := {| ac_payload_hash := digest; ac_response := result |}]> |>) ;;;
          ret result
      end).

(** [M.BorrowerWallet]'s open link of a wallet. *)
Definition open_link (chain : Z) (address : string) (l : list BorrowerWallet) : option BorrowerWallet :=
  List.find (fun b => (bw_chain b =? chain) && String.eqb (bw_address b) address && bool_decide (bw_released_at b = None)) l.

Definition onboarded (borrower : string) : json := JObj [("borrowerId", JStr borrower); ("state", JStr "PENDING_REVIEW"); ("refreshSession", JBool true)]%string.

(** Models [product/commands.py], lines 87-103. *)
Definition run_onboard (p : Principal) (jurisdiction reference : string) (entity_id borrower_id : string) (now : Z) : M json :=
  let address := lower (p_wallet p) in
  let* s := get in
  match open_link (p_chain_id p) address (wallets s) with
  | Some b => ret (onboarded (bw_borrower b))
  | None =>
      check (ULID_CHECK entity_id && REF_CHECK reference && bool_decide (legal_entities s !! entity_id = None)) "legal_entities" ;;;
      modify (fun s => s <| legal_entities ::= <[entity_id := {| le_jurisdiction := jurisdiction; le_registration_ref := reference |}]> |>) ;;;
      check (ULID_CHECK borrower_id && bool_decide (borrowers s !! borrower_id = None)) "borrowers" ;;;
      modify (fun s => s <| borrowers ::= <[borrower_id := {| bo_entity := entity_id; kyc_status := "PENDING"; underwriting_status := "NONE" |}]> |>) ;;;
      check (ADDR_CHECK address) "ck_borrower_wallets_addr" ;;;
      modify (fun s => s <| wallets ::= fun l => l ++ [{| bw_borrower := borrower_id; bw_chain := p_chain_id p; bw_address := address; bw_role := "SIGNER";
                                                           bw_verified_at := Some now; bw_released_at := None |}] |>) ;;;
      audit p "SUBMIT_ONBOARDING" "borrowers" borrower_id None (JObj [("kycStatus", JStr "PENDING"); ("underwritingStatus", JStr "NONE")]%string)
        "wallet-signed submission for review" None now ;;;
      ret (onboarded borrower_id)
  end.

Definition application (id state : string) : json := JObj [("applicationId", JStr id); ("state", JStr state); ("credentialConfigured", JBool false)]%string.

(** The application of an account, if it was made before. *)
Definition same_application (borrower provider external : string) (a : ConnectionApplication) : bool :=
  String.eqb (ca_borrower a) borrower && String.eqb (ca_provider a) provider && String.eqb (ca_external a) external.

(** Models [product/commands.py], lines 110-124. *)
Definition run_connect (p : Principal) (borrower provider external evidence reason : string) (ident : string) (now : Z) : M json :=
  let* s := get in
  if negb (bool_decide (providers s !! provider = Some (profile cfg))) then throw not_found
  else
    match List.find (fun a => same_application borrower provider external a.2) (map_to_list (applications s)) with
    | Some (id, a) => ret (application id (ca_status a))
    | None =>
        check (bool_decide (applications s !! ident = None) && bool_decide (is_Some (borrowers s !! borrower))) "connection_applications" ;;;
        modify (fun s => s <| applications ::= <[ident := {| ca_borrower := borrower; ca_provider := provider; ca_external := external;
                                                           ca_evidence := evidence; ca_reason := reason; ca_status := "PENDING_REVIEW" |}]> |>) ;;;
        audit p "REQUEST_CONNECTION" "connection_applications" ident None
          (JObj [("status", JStr "PENDING_REVIEW"); ("providerId", JStr provider)]%string) reason None now ;;;
        ret (application ident "PENDING_REVIEW")
    end.

(** [job.payload.get(key)] and [session.get(..., id) if id else None]: an id that
    is no text cannot be compared with the column. *)
Definition id_of (key : string) (v : json) : res (option string) :=
  match v with
  | JObj _ =>
      match get_field key v with
      | Some (JStr s) => Ok (if String.eqb s "" then None else Some s)
      | Some x => if truth x then Raise (Exn DatabaseError "operator does not exist") else Ok None
      | None => Ok None
      end
  | _ => Raise (Exn AttributeError "get")
  end.

Definition PROOF_KINDS : list string := ["PROOF_FETCH_ARTIFACT"; "PROOF_WAIT_ATTESTATION"].

(** Whether a retry may touch a job. *)
(** Models [product/commands.py], lines 164-180. *)
Definition retryable (s : DB) (c : ExceptionCase) : res (string * Jobs.Job) :=
  if (if get_field "retryable" (detail c) is Some (JBool false) then true else false) then Raise (conflict "case is not eligible for retry")
  else
    rbind (id_of "jobId" (detail c)) (fun jid =>
    match match jid with Some id => (fun j => (id, j)) <$> Jobs.jobs (queue s) !! id | None => None end with
    | None => Raise (conflict "case has no failed retryable job")
    | Some (id, j) =>
        if negb (bool_decide (Jobs.state j = Jobs.FAILED \/ Jobs.state j = Jobs.DEAD)) then Raise (conflict "case has no failed retryable job")
        else if String.prefix "TERMINAL:" (default EmptyString (Jobs.last_error j)) then Raise (conflict "terminal proof failure requires a new valid request")
        else if negb (mem_str (Jobs.kind j) PROOF_KINDS) then Raise (forbidden_scope "this job requires its dedicated financial authorization workflow")
        else
          rbind (id_of "proofRequestId" (Jobs.payload j)) (fun pid =>
          match match pid with Some x => proofs s !! x | None => None end with
          | None => Raise (conflict "job has no proof in this deployment")
          | Some pr =>
              if negb (String.eqb (pr_profile pr) (profile cfg) && bool_decide (manifest_hash cfg = Some (pr_manifest pr))) then
                Raise (conflict "job has no proof in this deployment")
              else if negb (mem_str (pr_status pr) (if String.eqb (Jobs.kind j) "PROOF_WAIT_ATTESTATION" then ["OBSERVED"; "WAITING_ATTESTATION"] else ["WAITING_ATTESTATION"])) then
                Raise (conflict "proof is terminal or has moved past this job; refresh its verified status")
              else Ok (id, j)
          end)
    end).

(** Models [product/commands.py], lines 181-182. *)
Definition revive (now : Z) (j : Jobs.Job) : Jobs.Job :=
  j <| Jobs.state := Jobs.PENDING |> <| Jobs.next_run_at := now |> <| Jobs.last_error := None |>
    <| Jobs.max_attempts ::= fun m => Z.max m (Jobs.attempt j + 3) |>.

(** What an action does to the case, its job and its review's state. *)
(** Models [product/commands.py], lines 158-188. *)
Definition apply_action (p : Principal) (id action reason : string) (c : ExceptionCase) (rv : OperationReview) (now : Z) : M OperationReview :=
  if String.eqb action "assign" then ret (rv <| assignee := Some (lower (p_wallet p)) |> <| rv_state := "ASSIGNED" |>)
  else if String.eqb action "acknowledge" then ret (rv <| rv_state := "ACKNOWLEDGED" |>)
  else if String.eqb action "retry" then
    let* s := get in
    let* found := lift_res (retryable s c) in
    let '(jid, j) := (found : string * Jobs.Job) in
    modify (fun s => s <| queue ::= fun q => q <| Jobs.jobs ::= <[jid := revive now j]> |> |>) ;;;
    ret (rv <| rv_state := "RETRY_REQUESTED" |>)
  else if String.eqb (severity c) "BLOCKING" then throw (conflict "blocking cases require verified remediation before resolution")
  else
    modify (fun s => s <| cases ::= <[id := c <| resolved_at := Some now |> <| resolved_by := Some OPERATOR |> <| resolution := Some reason |>]> |>) ;;;
    ret (rv <| rv_state := "RESOLVED" |>).

Definition new_review : OperationReview := {| version := 0; rv_state := "OPEN"; assignee := None; last_reason := None; rv_updated_at := None |}.

Definition opt_text (x : option string) : json := match x with Some s => JStr s | None => JNull end.

(** [next(r for r in (OPERATOR, SERVICER, GUARDIAN) if r in p.roles)] *)
(** Models [product/commands.py], lines 192-192. *)
Definition actor_role_of (p : Principal) : res string :=
  match List.find (fun r => bool_decide (r ∈ p_roles p)) [OPERATOR; SERVICER; GUARDIAN] with
  | Some r => Ok r
  | None => Raise (Exn ValueError "StopIteration")
  end.

(** [body.action.upper()] *)
Definition upper (s : string) : string :=
  string_map (fun a => if (97 <=? byte_of a) && (byte_of a <=? 122) then char_of (byte_of a - 32) else a) s.

(** Models [product/commands.py], lines 143-194. *)
Definition run_action (p : Principal) (id action reason : string) (expected : Z) (now : Z) : M json :=
  let* s := get in
  match cases s !! id with
  | None => throw not_found
  | Some c =>
      if negb (in_operations p true s c) then throw not_found
      else
        let rv := default new_review (reviews s !! id) in
        if negb (version rv =? expected) then throw (conflict "case changed; refresh before applying this action")
        else if bool_decide (is_Some (resolved_at c)) then throw (conflict "case is already resolved")
        else
          let before := JObj [("version", JInt (version rv)); ("state", JStr (rv_state rv))]%string in
          let* rv := apply_action p id action reason c rv now in
          let rv := rv <| version ::= Z.succ |> <| last_reason := Some reason |> <| rv_updated_at := Some now |> in
          modify (fun s => s <| reviews ::= <[id := rv]> |>) ;;;
          let after := JObj [("exceptionId", JStr id); ("version", JInt (version rv)); ("state", JStr (rv_state rv)); ("assignee", opt_text (assignee rv))]%string in
          let* role := lift_res (actor_role_of p) in
          audit p (upper action) "exceptions" id (Some before) after reason (Some role) now ;;;
          ret after
  end.

(** Models [product/commands.py], lines 86-104. *)
Definition onboard (p : Principal) (body : Body) (entity_id borrower_id : string) (now : Z) : M json :=
  match body with
  | Onboarding _ j r => if negb (well_formed body) then throw schema else execute p "onboarding" body (run_onboard p j r entity_id borrower_id now)
  | _ => throw schema
  end.

(** Models [product/commands.py], lines 107-125. *)
Definition connect (p : Principal) (body : Body) (ident : string) (now : Z) : M json :=
  match body with
  | Connect _ provider external evidence reason =>
      if negb (well_formed body) then throw schema
      else
        match p_borrower p with
        | Some b => if bool_decide (BORROWER ∈ p_roles p) then execute p "connections" body (run_connect p b provider external evidence reason ident now)
                    else throw (forbidden_scope "complete borrower onboarding and refresh your wallet session")
        | None => throw (forbidden_scope "complete borrower onboarding and refresh your wallet session")
        end
  | _ => throw schema
  end.

(** Models [product/commands.py], lines 140-195. *)
Definition act (p : Principal) (id : string) (body : Body) (now : Z) : M json :=
  match body with
  | Action _ action reason expected =>
      if negb (well_formed body) then throw schema
      else
        let* _ := lift_res (scope "operations" p) in
        execute p ("operations:" ++ id) body (run_action p id action reason expected now)
  | _ => throw schema
  end.
End Product.

(** * Requests and histories *)

Inductive Command :=
| COnboard (p : Principal) (body : Body) (entity_id borrower_id : string) (now : Z)
| CConnect (p : Principal) (body : Body) (ident : string) (now : Z)
| CAct (p : Principal) (id : string) (body : Body) (now : Z).

Section Commands.
Context (cfg : Settings).

Definition serve (c : Command) : M json :=
  match c with
  | COnboard p body e b now => onboard cfg p body e b now
  | CConnect p body i now => connect cfg p body i now
  | CAct p id body now => act cfg p id body now
  end.

Definition caller (c : Command) : Principal := match c with COnboard p _ _ _ _ | CConnect p _ _ _ | CAct p _ _ _ => p end.
Definition body_of (c : Command) : Body := match c with COnboard _ b _ _ _ | CConnect _ b _ _ | CAct _ _ b _ => b end.
Definition scope_of (c : Command) : string :=
  match c with COnboard _ _ _ _ _ => "onboarding" | CConnect _ _ _ _ => "connections" | CAct _ id _ _ => "operations:" ++ id end.
Definition key_of (c : Command) : Z * string * string * string := command_key (caller c) (scope_of c) (idempotency_key_of (body_of c)).

(** Any command of anyone, and anything else that keeps the record of commands. *)
Inductive step (s : DB) : DB -> Prop :=
| step_serve c : step s (serve c s).2
| step_other s' : commands s ⊆ commands s' -> step s s'.

(** * Lemmas *)

(** What a handler does before its entry is written leaves the entries alone. *)
Definition same_commands (s s' : DB) : Prop := commands s = commands s'.

#[local] Instance same_commands_preorder : PreOrder same_commands.
Proof. split; [done|]. intros a b c H1 H2. by transitivity (commands b). Qed.

Lemma run_onboard_same p j r e b now : keeps same_commands (run_onboard p j r e b now).
Proof. unfold run_onboard, audit, check. keeps_tac; done. Qed.

Lemma run_connect_same p b pr x e r i now : keeps same_commands (run_connect cfg p b pr x e r i now).
Proof. unfold run_connect, audit, check. keeps_tac; done. Qed.

Lemma run_action_same p id a r v now : keeps same_commands (run_action cfg p id a r v now).
Proof. unfold run_action, apply_action, audit, check. keeps_tac; done. Qed.

(** The refusals that do not look at the database. *)
Definition precheck (c : Command) : option exn :=
  match c with
  | COnboard _ body _ _ _ => match body with Onboarding _ _ _ => if well_formed body then None else Some schema | _ => Some schema end
  | CConnect p body _ _ =>
      match body with
      | Connect _ _ _ _ _ =>
          if negb (well_formed body) then Some schema
          else if bool_decide (is_Some (p_borrower p) /\ BORROWER ∈ p_roles p) then None
          else Some (forbidden_scope "complete borrower onboarding and refresh your wallet session")
      | _ => Some schema
      end
  | CAct p _ body _ =>
      match body with
      | Action _ _ _ _ => if negb (well_formed body) then Some schema else match scope "operations" p with Raise e => Some e | Ok _ => None end
      | _ => Some schema
      end
  end.

(** A command is refused whatever the database holds, or runs under its key. *)
Lemma serve_shape c :
  (exists e, precheck c = Some e /\ forall s, serve c s = (Raise e, s)) \/
  precheck c = None /\ exists fn, keeps same_commands fn /\ forall s, serve c s = execute cfg (caller c) (scope_of c) (body_of c) fn s.
Proof.
  destruct c as [p body e b now|p body i now|p id body now]; cbn [serve caller scope_of body_of precheck].
  - unfold onboard. destruct body as [k j r| |]; try (left; by eexists). destruct (well_formed _); [|left; by eexists].
    right. split; [done|]. eexists. split; [apply run_onboard_same|done].
  - unfold connect. destruct body as [|k pr x e r|]; try (left; by eexists). destruct (well_formed _); [|left; by eexists]. cbn [negb].
    destruct (p_borrower p) as [b|]; [|left; eexists; by rewrite bool_decide_eq_false_2 by (intros [[] _]; done)].
    destruct (decide (BORROWER ∈ p_roles p)) as [Hb|Hb]; [|left; eexists; by rewrite !bool_decide_eq_false_2 by tauto].
    right. rewrite !bool_decide_eq_true_2 by eauto. split; [done|]. eexists. split; [apply run_connect_same|done].
  - unfold act. destruct body as [| |k a r v]; try (left; by eexists). destruct (well_formed _); [|left; by eexists]. cbn [negb].
    destruct (scope "operations" p) as [st|e] eqn:Hs; [|left; by exists e].
    right. split; [done|]. eexists. split; [apply run_action_same|done].
Qed.

(** A command that meets its own entry. *)
Lemma execute_again p sc body fn s prior : commands s !! command_key p sc (idempotency_key_of body) = Some prior ->
  execute cfg p sc body fn s =
  if negb (engine cfg) then (Raise (not_configured "GPU database is not configured"), s)
  else if String.eqb (ac_payload_hash prior) (digest_of body) then (Ok (ac_response prior), s)
  else (Raise (api_error 409 "IDEMPOTENCY_CONFLICT" "idempotency key was already used with different input"), s).
Proof.
  intros H. unfold execute. destruct (negb (engine cfg)); [done|]. unfold transaction, bind, get. rewrite H. by destruct (String.eqb _ _).
Qed.

(** A command that answers leaves its entry; one that does not leaves nothing. *)
Lemma execute_run p sc body fn s : keeps same_commands fn ->
  let key := command_key p sc (idempotency_key_of body) in
  (exists e, execute cfg p sc body fn s = (Raise e, s)) \/
  exists r s', execute cfg p sc body fn s = (Ok r, s') /\ engine cfg = true /\ commands s' !! key = Some {| ac_payload_hash := digest_of body; ac_response := r |} /\
    commands s ⊆ commands s'.
Proof.
  intros Hk key. destruct (commands s !! key) as [prior|] eqn:Hp.
  { rewrite (execute_again _ _ _ _ _ prior Hp). destruct (engine cfg); [|left; by eexists]. cbn [negb].
    destruct (String.eqb_spec (ac_payload_hash prior) (digest_of body)) as [He|]; [|left; by eexists]. right. exists (ac_response prior), s. split_and!; [done|done| |done].
    rewrite Hp, <- He. by destruct prior. }
  unfold execute. destruct (engine cfg); [|left; by eexists]. cbn [negb]. unfold transaction, bind, get. fold key. rewrite Hp.
  pose proof (Hk s) as Hs. destruct (fn s) as [[d|e] s1]; [|left; by eexists]. cbn [snd] in Hs. unfold check, guard, modify, ret, raise.
  destruct (_ && _); [|left; by eexists]. right. eexists _, _. split; [reflexivity|]. split; [done|]. cbn. rewrite <- Hs. split; [apply lookup_insert_eq|].
  by apply insert_subseteq.
Qed.

Lemma step_grows s s' : step s s' -> commands s ⊆ commands s'.
Proof.
  intros [c|t H]; [|done]. destruct (serve_shape c) as [(e & _ & He)|(_ & fn & Hk & Hs)]; [by rewrite He|]. rewrite Hs.
  destruct (execute_run (caller c) (scope_of c) (body_of c) fn s Hk) as [[e ->]|(r & s1 & -> & _ & _ & H)]; done.
Qed.

Lemma steps_grow s s' : rtc step s s' -> commands s ⊆ commands s'.
Proof. intros H. induction H as [s|s u s' H _ IH]; [done|]. etransitivity; [by eapply step_grows|exact IH]. Qed.

(** The same request, made again. *)
Definition again (c c' : Command) : Prop :=
  match c, c' with
  | COnboard p b _ _ _, COnboard p' b' _ _ _ => p = p' /\ b = b'
  | CConnect p b _ _, CConnect p' b' _ _ => p = p' /\ b = b'
  | CAct p i b _, CAct p' i' b' _ => p = p' /\ i = i' /\ b = b'
  | _, _ => False
  end.

Lemma again_precheck c c' : again c c' -> precheck c' = precheck c /\ key_of c' = key_of c /\ body_of c' = body_of c.
Proof. destruct c, c'; cbn; try done; intuition (by subst). Qed.

(** C37: A command runs once: when it has been answered, then whatever commands
    and other work follow, the same request gets the same answer and changes
    nothing; and any request under its key, with whatever body, roles, clock
    and ids, changes nothing, and is answered only as the first was. *)
Theorem command_once c r s s1 s2 : serve c s = (Ok r, s1) -> rtc step s1 s2 ->
  (forall c', again c c' -> serve c' s2 = (Ok r, s2)) /\
  (forall c', key_of c' = key_of c -> (serve c' s2).2 = s2 /\
     forall r', (serve c' s2).1 = Ok r' -> r' = r /\ digest_of (body_of c') = digest_of (body_of c)).
Proof.
  intros H Hst. destruct (serve_shape c) as [(e & _ & He)|(Hpre & fn & Hk & Hs)]; [by rewrite He in H|]. rewrite Hs in H.
  destruct (execute_run (caller c) (scope_of c) (body_of c) fn s Hk) as [[e E]|(r0 & s0 & E & Hen & Hl & _)]; rewrite E in H; [done|]. injection H as -> ->.
  pose proof (lookup_weaken _ _ _ _ Hl (steps_grow _ _ Hst)) as He2. fold (key_of c) in He2.
  assert (Hrun : forall c', key_of c' = key_of c -> precheck c' = None ->
    serve c' s2 = if String.eqb (digest_of (body_of c)) (digest_of (body_of c')) then (Ok r, s2) else (Raise (api_error 409 "IDEMPOTENCY_CONFLICT" "idempotency key was already used with different input"), s2)).
  { intros c' Hkey Hp. destruct (serve_shape c') as [(e & Hp' & _)|(_ & fn' & _ & Hs')]; [congruence|]. rewrite <- Hkey in He2.
    rewrite Hs', (execute_again _ _ _ _ _ _ He2), Hen. done. }
  split.
  - intros c' Ha. destruct (again_precheck c c' Ha) as (Hp & Hkey & Hb). rewrite Hrun by congruence. by rewrite Hb, String.eqb_refl.
  - intros c' Hkey. destruct (serve_shape c') as [(e & _ & Hr)|(Hp & _)]; [by rewrite Hr|]. rewrite Hrun by done.
    destruct (String.eqb_spec (digest_of (body_of c)) (digest_of (body_of c'))); split; try done. by intros r' [= <-].
Qed.

(** * What commands cannot do *)

(** A job no retry may touch: of another kind than the proof jobs, not failed,
    or failed for good. *)
Definition out_of_reach (j : Jobs.Job) : Prop :=
  mem_str (Jobs.kind j) PROOF_KINDS = false \/ (Jobs.state j <> Jobs.FAILED /\ Jobs.state j <> Jobs.DEAD) \/
  String.prefix "TERMINAL:" (default EmptyString (Jobs.last_error j)) = true.

Record bounded (s s' : DB) : Prop := {
  bd_cases : forall id c, cases s !! id = Some c -> severity c = "BLOCKING"%string \/ is_Some (resolved_at c) -> cases s' !! id = Some c;
  bd_new_cases : forall id, cases s !! id = None -> cases s' !! id = None;
  bd_jobs : forall id j, Jobs.jobs (queue s) !! id = Some j -> out_of_reach j -> Jobs.jobs (queue s') !! id = Some j;
  bd_new_jobs : forall id, Jobs.jobs (queue s) !! id = None -> Jobs.jobs (queue s') !! id = None;
  bd_borrowers : forall id b, borrowers s' !! id = Some b -> borrowers s !! id = Some b \/ kyc_status b = "PENDING"%string /\ underwriting_status b = "NONE"%string;
  bd_kept : borrowers s ⊆ borrowers s' /\ applications s ⊆ applications s' /\ commands s ⊆ commands s';
  bd_facts : providers s' = providers s /\ accounts_ s' = accounts_ s /\ facilities_ s' = facilities_ s /\ receivables_ s' = receivables_ s /\
    settlements_ s' = settlements_ s /\ proofs s' = proofs s;
  bd_audit : exists l, Jobs.audit_log (queue s') = Jobs.audit_log (queue s) ++ l;
}.

(** The fields a write does not reach. *)
Ltac bounded_tac := split; cbn; try done; try (by left); try (by split_and!); try (exists []; by rewrite app_nil_r); try (by eexists).

#[local] Instance bounded_preorder : PreOrder bounded.
Proof.
  split.
  - intros s. bounded_tac.
  - intros a b c [A1 A2 A3 A4 A5 A6 A7 A8] [B1 B2 B3 B4 B5 B6 B7 B8]. split; eauto.
    + intros id x Hx. destruct (B5 id x Hx) as [H|H]; [by apply A5|by right].
    + destruct A6 as (? & ? & ?), B6 as (? & ? & ?). split_and!; by etransitivity.
    + destruct A7 as (? & ? & ? & ? & ? & ?), B7 as (? & ? & ? & ? & ? & ?). split_and!; congruence.
    + destruct A8 as [l Hl], B8 as [l' Hl']. exists (l ++ l'). by rewrite Hl', Hl, app_assoc.
Qed.

(** The ways a command writes. *)
Lemma bounded_review id rv s : bounded s (s <| reviews ::= <[id := rv]> |>).
Proof. bounded_tac. Qed.

Lemma bounded_audit (row : Jobs.AuditRow) s : bounded s (s <| queue ::= fun q => q <| Jobs.audit_log ::= fun l => l ++ [row] |> |>).
Proof. bounded_tac. Qed.

Lemma audit_bounded p a t id b af r role now : keeps bounded (audit p a t id b af r role now).
Proof. unfold audit, check. keeps_tac. apply bounded_audit. Qed.

Lemma bounded_resolve id c now by_ reason s : cases s !! id = Some c -> severity c <> "BLOCKING"%string -> resolved_at c = None ->
  bounded s (s <| cases ::= <[id := c <| resolved_at := Some now |> <| resolved_by := by_ |> <| resolution := reason |>]> |>).
Proof.
  intros Hc Hs Hr. bounded_tac.
  - intros i x Hx Hb. destruct (decide (id = i)) as [<-|]; [|by rewrite lookup_insert_ne]. rewrite Hc in Hx. injection Hx as <-.
    destruct Hb as [Hb|Hb]; [done|]. rewrite Hr in Hb. by destruct Hb.
  - intros i Hi. rewrite lookup_insert_ne; [done|]. intros <-. congruence.
Qed.

Lemma bounded_revive jid j now s : Jobs.jobs (queue s) !! jid = Some j -> ~ out_of_reach j ->
  bounded s (s <| queue ::= fun q => q <| Jobs.jobs ::= <[jid := revive now j]> |> |>).
Proof.
  intros Hj Hn. bounded_tac.
  - intros i x Hx Hb. destruct (decide (jid = i)) as [<-|]; [|by rewrite lookup_insert_ne]. rewrite Hj in Hx. injection Hx as <-. done.
  - intros i Hi. rewrite lookup_insert_ne; [done|]. intros <-. congruence.
Qed.

(** A job that may be retried. *)
Lemma retryable_Ok s c jid j : retryable cfg s c = Ok (jid, j) -> Jobs.jobs (queue s) !! jid = Some j /\ ~ out_of_reach j.
Proof.
  unfold retryable. destruct (if get_field _ _ is Some (JBool false) then true else false); [done|]. destruct (id_of "jobId" (detail c)) as [jid0|]; [|done]. cbn [rbind].
  destruct jid0 as [i|]; [|done]. destruct (Jobs.jobs (queue s) !! i) as [j0|] eqn:Hj; [|done]. cbn [fmap option_fmap option_map].
  case_bool_decide as Hst; [|done]. cbn [negb]. destruct (String.prefix "TERMINAL:" _) eqn:Ht; [done|]. destruct (mem_str (Jobs.kind j0) PROOF_KINDS) eqn:Hk; [|done]. cbn [negb].
  destruct (id_of "proofRequestId" _) as [pid|]; [|done]. cbn [rbind]. destruct (if pid is Some x then proofs s !! x else None) as [pr|]; [|done].
  destruct (negb _); [done|]. destruct (negb _); [done|]. intros [= <- <-]. split; [done|]. unfold out_of_reach. rewrite Hk, Ht. intros [|[[? ?]|]]; [done| |done].
  by destruct Hst.
Qed.

(** What an action does before its review is written. *)
Lemma apply_action_bounded p id a r c rv now s : cases s !! id = Some c -> resolved_at c = None -> bounded s (apply_action cfg p id a r c rv now s).2.
Proof.
  intros Hc Hr. unfold apply_action. destruct (String.eqb a "assign"); [reflexivity|]. destruct (String.eqb a "acknowledge"); [reflexivity|].
  destruct (String.eqb a "retry").
  - unfold bind, get, lift_res. destruct (retryable cfg s c) as [[jid j]|e] eqn:Hj; [|reflexivity]. apply retryable_Ok in Hj as [Hj Hn]. by apply bounded_revive.
  - destruct (String.eqb_spec (severity c) "BLOCKING"); [reflexivity|]. by apply bounded_resolve.
Qed.

Lemma run_action_bounded p id a r v now : keeps bounded (run_action cfg p id a r v now).
Proof.
  intros s. unfold run_action, bind at 1, get at 1. destruct (cases s !! id) as [c|] eqn:Hc; [|reflexivity].
  destruct (negb (in_operations _ _ _ _ _)); [reflexivity|]. destruct (negb (version _ =? v)); [reflexivity|]. case_bool_decide as Hr; [reflexivity|].
  unfold bind at 1. set (rv := default new_review (reviews s !! id)).
  assert (Hn : resolved_at c = None) by (destruct (resolved_at c); [by destruct Hr|done]).
  pose proof (apply_action_bounded p id a r c rv now s Hc Hn) as H. destruct (apply_action cfg p id a r c rv now s) as [[rv'|e] s1]; [|exact H].
  cbn [snd] in H. etransitivity; [exact H|].
  match goal with |- bounded _ (?m s1).2 => assert (Hk : keeps bounded m); [|apply Hk] end.
  pose proof audit_bounded. keeps_tac. apply bounded_review.
Qed.

Lemma run_onboard_bounded p j r e b now : keeps bounded (run_onboard p j r e b now).
Proof.
  intros s. unfold run_onboard, bind at 1, get at 1. destruct (open_link _ _ _); [reflexivity|].
  unfold check at 1, bind at 1, guard at 1. destruct (_ && _) eqn:H1; [|reflexivity]. unfold ret at 1, bind at 1, modify at 1.
  unfold check at 1, bind at 1, guard at 1. destruct (ULID_CHECK b && _) eqn:H2; [|bounded_tac]. unfold ret at 1, bind at 1, modify at 1.
  match goal with |- bounded _ (?m ?s1).2 => assert (Hk : keeps bounded m); [|transitivity s1; [|apply Hk]] end.
  - pose proof audit_bounded. unfold check. keeps_tac. bounded_tac.
  - apply andb_true_iff in H2 as [_ H2%bool_decide_eq_true]. cbn in H2. bounded_tac; cbn.
    + intros id x Hx. destruct (decide (b = id)) as [<-|]; [rewrite lookup_insert_eq in Hx; injection Hx as <-; by right|].
      rewrite lookup_insert_ne in Hx by done. by left.
    + split_and!; [by apply insert_subseteq|done|done].
Qed.

Lemma run_connect_bounded p b pr x e r i now : keeps bounded (run_connect cfg p b pr x e r i now).
Proof.
  intros s. unfold run_connect, bind at 1, get at 1. destruct (negb _); [reflexivity|]. destruct (List.find _ _) as [[]|]; [reflexivity|].
  unfold check at 1, bind at 1, guard at 1. destruct (_ && _) eqn:H1; [|reflexivity]. unfold ret at 1, bind at 1, modify at 1.
  match goal with |- bounded _ (?m ?s1).2 => assert (Hk : keeps bounded m); [|transitivity s1; [|apply Hk]] end.
  - pose proof audit_bounded. keeps_tac.
  - apply andb_true_iff in H1 as [H1%bool_decide_eq_true _]. bounded_tac. split_and!; [done|by apply insert_subseteq|done].
Qed.

Lemma execute_bounded p sc body fn : keeps bounded fn -> keeps same_commands fn -> keeps bounded (execute cfg p sc body fn).
Proof.
  intros Hf Hc s. destruct (execute_run p sc body fn s Hc) as [[e ->]|(r & s' & E & _ & _ & Hs)]; [reflexivity|]. rewrite E. cbn [snd].
  destruct (commands s !! command_key p sc (idempotency_key_of body)) as [prior|] eqn:Hp.
  { rewrite (execute_again _ _ _ _ _ prior Hp) in E. repeat case_match; simplify_eq; reflexivity. }
  unfold execute in E. destruct (engine cfg); [|done]. cbn [negb] in E. cbv zeta in E. rewrite transaction_Ok in E. unfold check, guard, bind, get, modify, ret, raise in E. cbv beta iota in E. rewrite Hp in E.
  specialize (Hf s). specialize (Hc s). destruct (fn s) as [[d|e] s1]; [|done]. cbn [snd] in Hf, Hc. etransitivity; [exact Hf|].
  destruct (_ && _) eqn:Hfit; [|done]. injection E as _ <-.
  bounded_tac. split_and!; [done|done|]. apply insert_subseteq. by rewrite <- Hc.
Qed.

Lemma serve_bounded c : keeps bounded (serve c).
Proof.
  destruct c as [p body e b now|p body i now|p id body now]; cbn [serve].
  - unfold onboard. destruct body as [k j r| |]; try by (intros s; reflexivity). destruct (negb _); [intros s; reflexivity|].
    apply execute_bounded; [apply run_onboard_bounded|apply run_onboard_same].
  - unfold connect. destruct body as [|k pr x e r|]; try by (intros s; reflexivity). destruct (negb _); [intros s; reflexivity|].
    destruct (p_borrower p) as [b|]; [|intros s; reflexivity]. case_bool_decide; [|intros s; reflexivity].
    apply execute_bounded; [apply run_connect_bounded|apply run_connect_same].
  - unfold act. destruct body as [| |k a r v]; try by (intros s; reflexivity). destruct (negb _); [intros s; reflexivity|].
    apply keeps_bind; [typeclasses eauto|intros s; reflexivity|]. intros _. apply execute_bounded; [apply run_action_bounded|apply run_action_same].
Qed.

(** Commands, by anyone, in any order. *)
Inductive served (s : DB) : DB -> Prop := served_by c : served s (serve c s).2.

(** No command authorises anything: whatever commands are given, by anyone
    and in any order, no blocking case is ever resolved and no resolved one
    reopened; no job but a failed proof job that may be tried again is
    touched, and none is added; no borrower is approved, and none is removed;
    the records of providers, accounts, facilities, receivables, settlements
    and proofs stay as they are; and the audit log only grows. *)
Theorem commands_bounded s s' : rtc served s s' -> bounded s s'.
Proof.
  intros H. induction H as [s|s u s' [c] _ IH]; [reflexivity|]. etransitivity; [apply (serve_bounded c s)|exact IH].
Qed.

(** ** Who can act *)

(** The servicer's role, listed among those that may act on cases, cannot:
    the audit log's CHECK refuses it, so an action of a servicer who is no
    operator never succeeds and changes nothing, whatever it asks for. *)
Theorem servicer_never_acts p id body now s :
  SERVICER ∈ p_roles p -> OPERATOR ∉ p_roles p -> commands s !! key_of (CAct p id body now) = None ->
  scope "operations" p = Ok true /\ exists e, act cfg p id body now s = (Raise e, s).
Proof.
  intros Hs Ho Hkey. split.
  { unfold scope. cbn. rewrite (bool_decide_eq_false_2 (p_roles p ∩ _ = ∅)) by set_solver. done. }
  destruct (serve_shape (CAct p id body now)) as [(e & _ & He)|(Hpre & _)]; [exists e; exact (He s)|].
  unfold key_of in Hkey. cbn [serve caller scope_of body_of] in *. unfold act. destruct body as [| |k a r v]; try by eexists. destruct (negb (well_formed _)); [by eexists|].
  unfold bind at 1, lift_res at 1. destruct (scope "operations" p); [|by eexists]. unfold execute. destruct (negb (engine cfg)); [by eexists|]. cbv zeta.
  unfold transaction, bind at 1, get at 1. rewrite Hkey. unfold bind at 1.
  assert (Hrun : exists e s', run_action cfg p id a r v now s = (Raise e, s')).
  { unfold run_action, bind at 1, get at 1. destruct (cases s !! id) as [c|]; [|by eexists _, _]. destruct (negb (in_operations _ _ _ _ _)); [by eexists _, _|].
    destruct (negb (version _ =? v)); [by eexists _, _|]. case_bool_decide; [by eexists _, _|]. unfold bind at 1.
    destruct (apply_action _ _ _ _ _ _ _ _) as [[rv|e] s1]; [|by eexists _, _]. unfold bind at 1, modify at 1, bind at 1, lift_res at 1.
    assert (actor_role_of p = Ok SERVICER) as ->.
    { unfold actor_role_of. cbn. rewrite (bool_decide_eq_false_2 _ Ho), (bool_decide_eq_true_2 _ Hs). done. }
    unfold audit, bind, check, guard, raise. cbn. by eexists _, _. }
  destruct Hrun as (e & s' & ->). by eexists.
Qed.
End Commands.

(** * One operator and one case *)

Module KEx.

Definition settings_ : Settings := {| engine := true; profile := "RWA_V1"; set_chain := Some 1; manifest_hash := None |}.
Definition facility_ : FacilityRow := {| fr_id := "01F"; fr_borrower := "01B"; fr_chain := 1; fr_profile := "RWA_V1" |}.
Definition case_ (level : string) : ExceptionCase := {|
  ec_kind := "RECONCILIATION"; severity := level; ec_table := "facilities"; ec_entity := "01F"; detail := JObj [];
  resolved_at := None; resolved_by := None; resolution := None |}.

Definition db_ (level : string) : DB := {|
  queue := {| Jobs.jobs := ∅; Jobs.audit_log := []; Jobs.now := 0; Jobs.biz := tt |}; commands := ∅; legal_entities := ∅; borrowers := ∅; wallets := []; applications := ∅;
  cases := {[ "01C"%string := case_ level ]}; reviews := ∅; providers := ∅; accounts_ := ∅; facilities_ := [facility_];
  receivables_ := ∅; settlements_ := ∅; proofs := ∅ |}.

(** A member of staff with one role. *)
Definition staff (role : string) : Principal := {|
  p_wallet := "0x00000000000000000000000000000000000000aa"; p_chain_id := 1; p_borrower := None; p_roles := {[ role ]};
  p_session := begin_session "0x00000000000000000000000000000000000000aa" 1 JNull [role] ∅ 3600 0 "jti" |}.

Definition assign : Command := CAct (staff OPERATOR) "01C" (Action "key-assign" "assign" "mine to look at" 0) 5.
Definition resolve (v : Z) : Command := CAct (staff OPERATOR) "01C" (Action "key-resolve" "resolve" "reviewed, nothing due" v) 9.

#[local] Abbreviation s0 := (db_ "WARNING").
#[local] Abbreviation s1 := (serve settings_ assign s0).2.
#[local] Abbreviation s2 := (serve settings_ (resolve 1) s1).2.

Definition assigned : json := JObj [("schemaVersion", JStr "1.0");
  ("data", JObj [("exceptionId", JStr "01C"); ("version", JInt 1); ("state", JStr "ASSIGNED"); ("assignee", JStr "0x00000000000000000000000000000000000000aa")]);
  ("financialAuthorization", JBool false)]%string.

Lemma assign_run : serve settings_ assign s0 = (Ok assigned, s1).
Proof. apply run_Ok. reflexivity. Qed.

(** Assigned, resolved, and assigned once more under the first key. *)
Lemma command_once_witness : rtc (step settings_) s1 s2 /\ serve settings_ assign s2 = (Ok assigned, s2).
Proof.
  assert (H : rtc (step settings_) s1 s2) by (apply rtc_once, step_serve).
  split; [exact H|].
  exact (proj1 (command_once settings_ assign assigned s0 s1 s2 assign_run H) assign (conj eq_refl (conj eq_refl eq_refl))).
Defined.

(** An assignment and a resolution, of a case that blocks. *)
Lemma commands_bounded_witness :
  let s := db_ "BLOCKING" in let s' := (serve settings_ (resolve 1) (serve settings_ assign s).2).2 in
  rtc (served settings_) s s' /\ cases s' !! "01C"%string = Some (case_ "BLOCKING").
Proof.
  intros s s'. assert (H : rtc (served settings_) s s') by (eapply rtc_l; [apply served_by|]; eapply rtc_once, served_by).
  split; [exact H|]. exact (bd_cases _ _ (commands_bounded settings_ s s' H) "01C"%string (case_ "BLOCKING") eq_refl (or_introl eq_refl)).
Defined.

Lemma servicer_never_acts_witness :
  scope "operations" (staff SERVICER) = Ok true /\
  exists e, act settings_ (staff SERVICER) "01C" (Action "key-assign" "assign" "mine to look at" 0) 5 s0 = (Raise e, s0).
Proof.
  refine (servicer_never_acts settings_ (staff SERVICER) "01C" (Action "key-assign" "assign" "mine to look at" 0) 5 s0 _ _ _); [|easy|reflexivity].
  cbn [p_roles staff]. set_solver.
Defined.
End KEx.
End Commands.
