(* ===== verification/ProofWorker.v ===== *)
(** The proof worker: how a proof job fails, is published for an operator, is
    reaped, and how a proof is fetched and kept.

    Source: offchain/prover/hashcredit_prover/gpu/attestcoin_worker.py, on the
    queue and worker of jobs/queue.py and jobs/worker.py, the requests of
    jobs/proof.py, the outbox of jobs/outbox.py, and the cases that
    api/hashcredit_api/gpu/product/commands.py acts on.

    The advisory lock and the row locks order the transactions, so each is one
    step.  A [Tick] holds what a call draws from outside: the clock, ids, the
    jitter, the SDK's answers, and what other sessions commit between the two
    transactions of a reaping.  The session's time zone is UTC.  The handlers
    that need the dispatcher (PROOF_SUBMIT and after) are any handlers here;
    [ProofSubmission] has them. *)

From S2P Require Import Prelude Domain Stdpy Json JsonText Datetime JobQueue Lifecycle Columns Ingestion Access Login Commands.
Import Domain Stdpy Json Columns.

Module ProofWorker.

#[local] Existing Instance Jobs.JobState_eq_dec.

(** * State *)

(** The columns of a proof request that no job changes.
    Models [db/ledgers.py], [ProofRequest], lines 99-107. *)
Record RequestFacts := { f_env : string; f_provider : string; f_profile : string; f_manifest : string; f_sdk : string; f_chain_key : Z; f_tx : string }.

(** Models [db/ledgers.py], [ProofArtifact], lines 136-145. *)
Record Artifact := {
  ar_id : string; ar_request : string; ar_hash : string; ar_ref : string; ar_length : Z; ar_sdk : string;
  ar_height : Z; ar_tx_index : option Z }.

(** The tables besides the queue's; a request's status is in [tables]. *)
Record Biz := {
  facts : gmap string RequestFacts;
  tables : Requests.Tables;
  artifacts : list Artifact;
  api_ready_at : gmap string Z;
  cases : gmap string Commands.ExceptionCase;
  reviews : gmap string Commands.OperationReview;
  outbox : Outbox.DB;
}.

#[local] Abbreviation DB := (Jobs.DB Biz).

(** The database, and the volume of the raw store, which no rollback undoes. *)
Record World := { db : DB; volume : gmap string string }.

Definition on_db {A} (m : PyM DB A) : PyM World A := fun w => match m (db w) with (r, d) => (r, w <| db := d |>) end.
Definition on_volume {A} (m : PyM (gmap string string) A) : PyM World A := fun w => match m (volume w) with (r, v) => (r, w <| volume := v |>) end.

(** [with engine.begin()] around a handler that also writes files. *)
Definition begin {A} (m : PyM World A) : PyM World A :=
  fun w => match m w with
           | (Ok a, w') => (Ok a, w')
           | (Raise e, w') => (Raise e, w' <| db := db w |>)
           end.

Definition update (f : Biz -> Biz) : PyM DB unit := modify (fun s => s <| Jobs.biz ::= f |>).

Definition on_outbox {A} (m : PyM Outbox.DB A) : PyM DB A :=
  fun s => match m (outbox (Jobs.biz s)) with (r, o) => (r, s <| Jobs.biz ::= fun b => b <| outbox := o |> |>) end.

(** A statement of [ProofLifecycle] in this transaction; an [OK] outcome never
    rolls it back. *)
Definition on_requests {A} (m : PyM Requests.Conn A) : PyM DB A :=
  fun s => let t := tables (Jobs.biz s) in
           match m {| Requests.committed := t; Requests.working := t |} with
           | (r, c) => (r, s <| Jobs.biz ::= fun b => b <| tables := Requests.working c |> |>)
           end.

Definition status_of (s : DB) (rid : string) : option string := Requests.status <$> Requests.requests (tables (Jobs.biz s)) !! rid.

(** The manifest the worker was started with. *)
Record Manifest := { m_hash : string; m_profile : string; m_chain_key : Z; m_sdk : string }.

(** How a run of the official SDK's command ends. *)
Inductive SdkRun := TimedOut | CannotStart | Exited (returncode : Z) (stdout : list Z).

Record Tick := {
  clock : Z;
  jitter : QArith_base.Q;
  fresh_case : string;
  fresh_artifact : string;
  fresh_submit : string;
  fresh_fetch : string;
  sdk : string -> json -> SdkRun;
  others : DB -> DB;
}.

(** [detail ->> key]: an id is never the text of anything else. *)
Definition astext (key : string) (v : json) : option string :=
  match get_field key v with
  | Some (JStr s) => Some s
  | Some (JInt n) => Some (canonical (JInt n))
  | _ => None
  end.

(** [job.payload.get("proofRequestId")], compared with a text column. *)
Definition request_id_of (payload : json) : res (option string) :=
  match payload with
  | JObj _ =>
      match get_field "proofRequestId" payload with
      | Some (JStr s) => Ok (Some s)
      | None | Some JNull => Ok None
      | Some _ => Raise (Exn DatabaseError "operator does not exist")
      end
  | _ => Raise (Exn AttributeError "get")
  end.

(** A request by its id. *)
Definition request_row (s : DB) (rid : option string) : option (string * RequestFacts * Requests.Request) :=
  match rid with
  | Some i => match facts (Jobs.biz s) !! i, Requests.requests (tables (Jobs.biz s)) !! i with Some f, Some r => Some (i, f, r) | _, _ => None end
  | None => None
  end.

Definition check (b : bool) (constraint : string) : PyM DB unit := guard b DatabaseError constraint.

(** * The worker *)

Section Worker.
Context (manifest : Manifest) (deployment : string).
Context (policy : Jobs.BackoffPolicy) (worker_id : string) (lease_seconds : Z).
Context (class_name : exn_class -> string).

(** The jobs of this deployment.
    Models [gpu/attestcoin_worker.py], [ProofWorker._jobs]. *)
Definition ours (kinds : list string) (s : DB) (j : Jobs.Job) : bool :=
  mem_str (Jobs.kind j) kinds &&
  match request_row s (astext "proofRequestId" (Jobs.payload j)) with
  | Some (_, f, _) => String.eqb (f_manifest f) (m_hash manifest) && String.eqb (f_profile f) (m_profile manifest)
                      && (f_chain_key f =? m_chain_key manifest) && String.eqb (f_sdk f) (m_sdk manifest)
  | None => false
  end.

(** The lock itself orders transactions; its statements read the payload.
    Models [gpu/attestcoin_worker.py], [ProofWorker._lock_case]. *)
Definition lock_case (c : Jobs.ClaimedJob) : PyM DB unit := lift_res (request_id_of (Jobs.c_payload c)) ;;; ret tt.

(** Models [gpu/attestcoin_worker.py], [ProofWorker._before_handler]. *)
Definition before_handler (c : Jobs.ClaimedJob) : PyM DB unit :=
  lock_case c ;;;
  let* s := get in
  match Jobs.jobs s !! Jobs.c_job_id c with
  | Some j => if Jobs.holds c j (Jobs.now s) then ret tt else raise LeaseLost "proof lease is no longer held before handling"
  | None => raise LeaseLost "proof lease is no longer held before handling"
  end.

(** The open case of a job. *)
Definition about (rid job : string) (c : Commands.ExceptionCase) : bool :=
  String.eqb (Commands.ec_table c) "proof_requests" && String.eqb (Commands.ec_entity c) rid
  && bool_decide (astext "jobId" (Commands.detail c) = Some job) && bool_decide (Commands.resolved_at c = None).

Definition open_case (rid job : string) (s : DB) : option (string * Commands.ExceptionCase) :=
  List.find (fun p => about rid job p.2) (map_to_list (cases (Jobs.biz s))).

(** The statuses a job's retry can start from. *)
Definition allowed (kind : string) : list string :=
  if String.eqb kind "PROOF_WAIT_ATTESTATION" then ["OBSERVED"; "WAITING_ATTESTATION"]
  else if String.eqb kind "PROOF_FETCH_ARTIFACT" then ["WAITING_ATTESTATION"]
  else [].

Definition terminal (k : Jobs.FailureKind) : bool := match k with Jobs.TERMINAL => true | Jobs.TRANSIENT => false end.

(** Models [gpu/attestcoin_worker.py], [ProofWorker._publish_dead_letter], lines 155-169. *)
Definition dead_detail (c : Jobs.ClaimedJob) (k : Jobs.FailureKind) (f : RequestFacts) (status : string) : list (string * json) :=
  [("jobId", JStr (Jobs.c_job_id c)); ("jobKind", JStr (Jobs.c_kind c));
   ("failureKind", JStr (if terminal k then "TERMINAL" else "TRANSIENT_EXHAUSTED"));
   ("proofStatus", JStr status); ("retryable", JBool (negb (terminal k) && mem_str status (allowed (Jobs.c_kind c))));
   ("attempt", JInt (Jobs.c_attempt c)); ("maxAttempts", JInt (Jobs.c_max_attempts c));
   ("deploymentId", JStr deployment); ("executionProfile", JStr (f_profile f)); ("manifestHash", JStr (f_manifest f));
   ("errorCode", JStr (if terminal k then "PROOF_TERMINAL_FAILURE" else "PROOF_RETRY_EXHAUSTED"));
   ("financialAuthorization", JBool false)]%string.

(** The row of the case.
    Models [gpu/attestcoin_worker.py], [ProofWorker._publish_dead_letter], lines 169-174. *)
Definition dead_case (c : Jobs.ClaimedJob) (k : Jobs.FailureKind) (rid : string) (f : RequestFacts) (status : string) : Commands.ExceptionCase := {|
  Commands.ec_kind := if terminal k then "PROOF_TERMINAL_FAILURE" else "PROOF_RETRY_EXHAUSTED";
  Commands.severity := if terminal k then "BLOCKING" else "WARNING";
  Commands.ec_table := "proof_requests"; Commands.ec_entity := rid; Commands.detail := JObj (dead_detail c k f status);
  Commands.resolved_at := None; Commands.resolved_by := None; Commands.resolution := None |}.

Definition letter_key (c : Jobs.ClaimedJob) (until : Z) : string :=
  ("proof-dead-letter:" ++ Jobs.c_job_id c ++ ":" ++ py_str (Jobs.c_attempt c) ++ ":" ++ Datetime.isoformat until)%string.

(** A case that is worked on again. *)
Definition reopened (now : Z) (rv : Commands.OperationReview) : Commands.OperationReview :=
  rv <| Commands.rv_state ::= fun st => if String.eqb st "RETRY_REQUESTED" then "OPEN"%string else st |>
     <| Commands.version ::= Z.succ |>
     <| Commands.last_reason := Some "Proof worker exhausted the retry or encountered a terminal failure."%string |>
     <| Commands.rv_updated_at := Some now |>.

(** Models [gpu/attestcoin_worker.py], [ProofWorker._publish_dead_letter]. *)
Definition publish_dead_letter (t : Tick) (c : Jobs.ClaimedJob) (k : Jobs.FailureKind) : PyM DB unit :=
  let* rid := lift_res (request_id_of (Jobs.c_payload c)) in
  let* s := get in
  match request_row s rid with
  | None => ret tt
  | Some (rid, f, r) =>
      let made := dead_case c k rid f (Requests.status r) in
      let* cid :=
        (match open_case rid (Jobs.c_job_id c) s with
         | Some (cid, old) => update (fun b => b <| cases ::= <[cid := made]> |>) ;;; ret cid
         | None =>
             check (ULID_CHECK (fresh_case t) && bool_decide (cases (Jobs.biz s) !! fresh_case t = None)) "exceptions" ;;;
             update (fun b => b <| cases ::= <[fresh_case t := made]> |>) ;;;
             ret (fresh_case t)
         end) in
      update (fun b => b <| reviews ::= alter (reopened (clock t)) cid |>) ;;;
      match Jobs.c_lease_until c with
      | None => raise AttributeError "isoformat"
      | Some until =>
          let* _ := on_outbox (Outbox.emit "exceptions" cid "PROOF_JOB_DEAD_LETTERED"
            (JObj (("exceptionId"%string, JStr cid) :: dead_detail c k f (Requests.status r))) (letter_key c until)) in
          ret tt
      end
  end.

(** Models [gpu/attestcoin_worker.py], [ProofWorker._record_proof_failure]. *)
Definition record_proof_failure (c : Jobs.ClaimedJob) (outcome : string) : PyM DB unit :=
  let* rid := lift_res (request_id_of (Jobs.c_payload c)) in
  let* s := get in
  match request_row s rid with
  | None => ret tt
  | Some (rid, _, r) =>
      if negb (mem_str (Requests.status r) ["OBSERVED"; "WAITING_ATTESTATION"]) then ret tt
      else
        let status :=
          if mem_str outcome ["NOT_READY"; "NETWORK_ERROR"] then
            if String.eqb (Jobs.c_kind c) "PROOF_WAIT_ATTESTATION" then "WAITING_ATTESTATION"%string else Requests.status r
          else outcome in
        let* tb := lift_res (Requests.update_status rid status (Some outcome) (tables (Jobs.biz s))) in
        update (fun b => b <| tables := tb |>)
  end.

Definition exhausted (c : Jobs.ClaimedJob) : bool := Jobs.c_max_attempts c <=? Jobs.c_attempt c.

(** Models [gpu/attestcoin_worker.py], [ProofWorker._fail]. *)
Definition fail (t : Tick) (c : Jobs.ClaimedJob) (k : Jobs.FailureKind) (reason : string) (outcome : option string) : PyM DB string :=
  try_except (transaction (
    lock_case c ;;;
    let* state := Jobs.fail policy (jitter t) c k reason in
    (match outcome with Some o => record_proof_failure c o | None => ret tt end) ;;;
    when (terminal k || exhausted c) (publish_dead_letter t c k) ;;;
    ret (Jobs.state_str state)))
    (fun e => match exn_kind e with LeaseLost => ret "LEASE_LOST"%string | _ => lift_res (Raise e) end).

(** Models [gpu/attestcoin_worker.py], [ProofWorker._fail_exception]. *)
Definition fail_exception (t : Tick) (c : Jobs.ClaimedJob) (k : Jobs.FailureKind) (e : exn) : PyM DB string :=
  match exn_kind e with
  | ProofTransientFailure o | ProofTerminalFailure o => fail t c k (exn_msg e) (Some o)
  | TerminalError | TransientError => fail t c k (exn_msg e) None
  | cl => fail t c k (class_name cl ++ ": " ++ exn_msg e)%string None
  end.

(** [Worker.run_one], with the two methods above in its place for theirs.
    Models [jobs/worker.py], [Worker.run_one]. *)
Definition run_one (t : Tick) (handlers : gmap string (Jobs.ClaimedJob -> PyM World unit)) (c : Jobs.ClaimedJob) : PyM World string :=
  match handlers !! Jobs.c_kind c with
  | None => raise KeyError (Jobs.c_kind c)
  | Some handler =>
      try_except
        (begin (on_db (before_handler c) ;;; handler c ;;; on_db (Jobs.complete c)) ;;; ret "SUCCEEDED"%string)
        (fun e => match exn_kind e with
                  | LeaseLost => ret "LEASE_LOST"%string
                  | TerminalError | ProofTerminalFailure _ => on_db (fail_exception t c Jobs.TERMINAL e)
                  | _ => on_db (fail_exception t c Jobs.TRANSIENT e)
                  end)
  end.

(** A lease that ran out in its last attempt. *)
Definition spent (now : Z) (j : Jobs.Job) : bool :=
  bool_decide (Jobs.state j = Jobs.LEASED) && (Jobs.max_attempts j <=? Jobs.attempt j)
  && match Jobs.lease_until j with Some u => u <? now | None => false end.

Definition spent_rows (kinds : list string) (s : DB) : list Jobs.Job :=
  isort Jobs.job_leb (filter (fun j => ours kinds s j && spent (Jobs.now s) j) (map_to_list (Jobs.jobs s)).*2).

(** The generation the reaper read. *)
Definition same_lease (c : Jobs.ClaimedJob) (j : Jobs.Job) : bool :=
  (Jobs.attempt j =? Jobs.c_attempt c) && bool_decide (Jobs.leased_by j = Some (Jobs.c_worker c))
  && bool_decide (Jobs.lease_until j = Jobs.c_lease_until c).

Definition EXPIRED_REASON : string := "TRANSIENT: worker lease expired after final attempt (attempts exhausted)".

(** The second half of a reaping, in the transaction that publishes it.
    Models [gpu/attestcoin_worker.py], [ProofWorker._reap_exhausted], lines 109-123. *)
Definition reap (t : Tick) (c : Jobs.ClaimedJob) : PyM DB string :=
  publish_dead_letter t c Jobs.TRANSIENT ;;;
  let* s := get in
  match Jobs.jobs s !! Jobs.c_job_id c with
  | Some j =>
      if spent (Jobs.now s) j && same_lease c j then
        modify (fun s => s <| Jobs.jobs ::= <[Jobs.c_job_id c := Jobs.release Jobs.DEAD (Some EXPIRED_REASON) j]> |>) ;;;
        ret "DEAD"%string
      else raise LeaseLost "exhausted lease changed before publication"
  | None => raise LeaseLost "exhausted lease changed before publication"
  end.

(** Other sessions may commit after the row is read.
    Models [gpu/attestcoin_worker.py], [ProofWorker._reap_exhausted]. *)
Definition reap_exhausted (t : Tick) (kinds : list string) : PyM DB (option string) :=
  let* s := get in
  match spent_rows kinds s with
  | [] => ret None
  | j :: _ =>
      modify (others t) ;;;
      try_except
        (let* st := transaction (reap t (Jobs.claimed (default EmptyString (Jobs.leased_by j)) j)) in ret (Some st))
        (fun e => match exn_kind e with LeaseLost => ret (Some "LEASE_LOST"%string) | _ => lift_res (Raise e) end)
  end.

(** Models [gpu/attestcoin_worker.py], [ProofWorker.run_once], lines 131-136. *)
Definition candidates (kinds : list string) (s : DB) : list string :=
  take 8 (map Jobs.job_id (isort Jobs.job_leb
    (filter (fun j => ours kinds s j && Jobs.leasable j (Jobs.now s)) (map_to_list (Jobs.jobs s)).*2))).

(** Models [gpu/attestcoin_worker.py], [ProofWorker.run_once]. *)
Definition run_once (t : Tick) (handlers : gmap string (Jobs.ClaimedJob -> PyM World unit)) : PyM World (option string) :=
  let kinds := (map_to_list handlers).*1 in
  let* reaped := on_db (reap_exhausted t kinds) in
  match reaped with
  | Some st => ret (Some st)
  | None =>
      let* w := get in
      let* job := on_db (Jobs.claim worker_id kinds lease_seconds 8 (Some (candidates kinds (db w)))) in
      match job with
      | None => ret None
      | Some c => let* st := run_one t handlers c in ret (Some st)
      end
  end.

(** * Lemmas *)

(** The tables of requests only grow in what they say of a finished request. *)
Definition settled (b b' : Biz) : Prop :=
  facts b' = facts b /\
  forall rid r, Requests.requests (tables b) !! rid = Some r -> mem_str (Requests.status r) ["OBSERVED"; "WAITING_ATTESTATION"] = false ->
    Requests.requests (tables b') !! rid = Some r.

Lemma settled_refl b : settled b b.
Proof. by split. Qed.

Lemma fail_shape u c k reason (s s' : DB) st : Jobs.fail policy u c k reason s = (Ok st, s') ->
  exists j j', Jobs.jobs s !! Jobs.c_job_id c = Some j /\ Jobs.holds c j (Jobs.now s) = true /\
    s' = s <| Jobs.jobs ::= <[Jobs.c_job_id c := j']> |> /\
    if terminal k || exhausted c then st = Jobs.DEAD /\ exists why, j' = Jobs.release Jobs.DEAD (Some (Jobs.kind_str k ++ ": " ++ why)%string) j
    else st = Jobs.PENDING /\ Jobs.state j' = Jobs.PENDING /\ Jobs.lease_until j' = None.
Proof.
  unfold Jobs.fail. fold (exhausted c). assert (bool_decide (k = Jobs.TERMINAL) = terminal k) as -> by (by destruct k). destruct (terminal k || exhausted c); intros H.
  - apply bind_Ok in H as (? & ? & (j & Hj & Hh & ->)%Jobs.fenced_update_Ok & [-> ->]%ret_Ok).
    eexists j, _. split_and!; [done|done|done|done|]. by eexists.
  - cbv zeta in H. unfold bind at 1, get at 1 in H. apply bind_Ok in H as (? & ? & (j & Hj & Hh & ->)%Jobs.fenced_update_Ok & [-> ->]%ret_Ok).
    by eexists j, _.
Qed.

Lemma update_status_settled rid status err r (b : Biz) tb :
  Requests.requests (tables b) !! rid = Some r -> mem_str (Requests.status r) ["OBSERVED"; "WAITING_ATTESTATION"] = true ->
  Requests.update_status rid status err (tables b) = Ok tb -> settled b (b <| tables := tb |>).
Proof.
  intros Hr Hm. unfold Requests.update_status. rewrite Hr. intros (x0 & _ & [= <-])%rbind_Ok. split; [done|].
  intros i y Hy Hf. cbn. rewrite lookup_insert_ne; [done|]. intros <-. congruence.
Qed.

Lemma request_row_Some s o rid f r : request_row s o = Some (rid, f, r) ->
  o = Some rid /\ facts (Jobs.biz s) !! rid = Some f /\ Requests.requests (tables (Jobs.biz s)) !! rid = Some r.
Proof. unfold request_row. destruct o; [|done]. repeat case_match; naive_solver. Qed.

Lemma record_Ok c o s s' u : record_proof_failure c o s = (Ok u, s') ->
  exists tb, s' = s <| Jobs.biz ::= fun b => b <| tables := tb |> |> /\ settled (Jobs.biz s) (Jobs.biz s') /\
    forall rid, is_Some (Requests.requests tb !! rid) <-> is_Some (Requests.requests (tables (Jobs.biz s)) !! rid).
Proof.
  unfold record_proof_failure, bind at 1, lift_res at 1. destruct (request_id_of _) as [o'|]; [|done]. unfold bind at 1, get at 1.
  assert (Hsame : exists tb, s = s <| Jobs.biz ::= fun b => b <| tables := tb |> |> /\ settled (Jobs.biz s) (Jobs.biz s) /\
    forall rid, is_Some (Requests.requests tb !! rid) <-> is_Some (Requests.requests (tables (Jobs.biz s)) !! rid)).
  { exists (tables (Jobs.biz s)). split_and!; [|apply settled_refl|done]. by destruct s as [? ? ? []]. }
  destruct (request_row s o') as [[[rid f] r]|] eqn:Hrow; [|by intros [= _ <-]]. apply request_row_Some in Hrow as (-> & Hf & Hr).
  destruct (negb _) eqn:Hm; [by intros [= _ <-]|]. apply negb_false_iff in Hm.
  cbv zeta. unfold bind at 1, lift_res at 1. destruct (Requests.update_status _ _ _ _) as [tb|e] eqn:Hu; [|done]. intros [= _ <-].
  exists tb. split_and!; [done|by eapply update_status_settled|].
  intros i. unfold Requests.update_status in Hu. rewrite Hr in Hu. apply rbind_Ok in Hu as (? & _ & [= <-]). cbn.
  destruct (decide (rid = i)) as [<-|]; [rewrite lookup_insert_eq, Hr; by split; eexists|by rewrite lookup_insert_ne].
Qed.

Lemma open_case_Some rid job s cid x : open_case rid job s = Some (cid, x) -> cases (Jobs.biz s) !! cid = Some x /\ about rid job x = true.
Proof. intros [Hin%list_elem_of_In%elem_of_map_to_list Ha]%List.find_some. done. Qed.

Lemma open_case_None rid job s cid x : open_case rid job s = None -> cases (Jobs.biz s) !! cid = Some x -> about rid job x = false.
Proof.
  intros H Hx. apply (List.find_none _ _ H (cid, x)). by apply list_elem_of_In, elem_of_map_to_list.
Qed.

Lemma dead_case_about c k rid f status : about rid (Jobs.c_job_id c) (dead_case c k rid f status) = true.
Proof. unfold about. cbn. by rewrite String.eqb_refl, !bool_decide_eq_true_2. Qed.

(** No job has two open cases. *)
Definition one_open (s : DB) : Prop :=
  forall rid job i j x y, cases (Jobs.biz s) !! i = Some x -> cases (Jobs.biz s) !! j = Some y -> about rid job x = true -> about rid job y = true -> i = j.

(** What is there after a job was given up. *)
Definition published (c : Jobs.ClaimedJob) (k : Jobs.FailureKind) (s : DB) : Prop :=
  forall rid f r, request_id_of (Jobs.c_payload c) = Ok (Some rid) -> request_row s (Some rid) = Some (rid, f, r) ->
  exists cid until, Jobs.c_lease_until c = Some until /\
    cases (Jobs.biz s) !! cid = Some (dead_case c k rid f (Requests.status r)) /\
    (forall i x, cases (Jobs.biz s) !! i = Some x -> about rid (Jobs.c_job_id c) x = true -> i = cid) /\
    Outbox.has_key (letter_key c until) (outbox (Jobs.biz s)).

Lemma about_jobid rid job rid' job' x : about rid job x = true -> about rid' job' x = true -> rid = rid' /\ job = job'.
Proof.
  unfold about. intros [[[_ H1%String.eqb_eq]%andb_true_iff H2%bool_decide_eq_true]%andb_true_iff _]%andb_true_iff.
  intros [[[_ H3%String.eqb_eq]%andb_true_iff H4%bool_decide_eq_true]%andb_true_iff _]%andb_true_iff. split; congruence.
Qed.

(** A case put where it leaves the job one open case. *)
Lemma one_open_insert (s s' : DB) rid job cid x : one_open s -> about rid job x = true ->
  (exists old, cases (Jobs.biz s) !! cid = Some old /\ about rid job old = true) \/ open_case rid job s = None ->
  cases (Jobs.biz s') = <[cid := x]> (cases (Jobs.biz s)) ->
  one_open s' /\ forall i y, cases (Jobs.biz s') !! i = Some y -> about rid job y = true -> i = cid.
Proof.
  intros H1 Hx Hold Hc.
  assert (Ho : forall i y, cases (Jobs.biz s') !! i = Some y -> about rid job y = true -> i = cid).
  { intros i y Hy Ha. destruct (decide (cid = i)) as [|Hne]; [done|]. rewrite Hc, lookup_insert_ne in Hy by done.
    destruct Hold as [(old & Hold & Hao)|Hn]; [by eapply H1|]. by rewrite (open_case_None _ _ _ _ _ Hn Hy) in Ha. }
  split; [|exact Ho]. intros rid' job' i j y z Hy Hz Hay Haz.
  assert (Hcase : forall i y, cases (Jobs.biz s') !! i = Some y -> about rid' job' y = true -> i = cid \/ i <> cid /\ cases (Jobs.biz s) !! i = Some y).
  { intros i' y' Hy' _. rewrite Hc in Hy'. destruct (decide (cid = i')) as [|Hne]; [by left|]. right. rewrite lookup_insert_ne in Hy' by done. split; [by intros <-|done]. }
  assert (Hcid : forall i y, i <> cid -> cases (Jobs.biz s') !! cid = Some x -> cases (Jobs.biz s') !! i = Some y -> about rid' job' y = true -> about rid' job' x = true -> i = cid).
  { intros i' y' Hne _ Hy' Ha' Hax. destruct (about_jobid _ _ _ _ _ Hx Hax) as [-> ->]. by eapply Ho. }
  assert (Hin : cases (Jobs.biz s') !! cid = Some x) by (rewrite Hc; apply lookup_insert_eq).
  destruct (Hcase _ _ Hy Hay) as [->|[Hi Hsi]], (Hcase _ _ Hz Haz) as [->|[Hj Hsj]]; [done| | |by eapply H1].
  - symmetry. rewrite Hin in Hy. injection Hy as <-. by eapply Hcid.
  - rewrite Hin in Hz. injection Hz as <-. by eapply Hcid.
Qed.

(** What publishing writes. *)
Lemma publish_Ok t c k s s' u : publish_dead_letter t c k s = (Ok u, s') -> one_open s -> Outbox.outbox_wf (outbox (Jobs.biz s)) ->
  Jobs.jobs s' = Jobs.jobs s /\ Jobs.now s' = Jobs.now s /\ tables (Jobs.biz s') = tables (Jobs.biz s) /\ facts (Jobs.biz s') = facts (Jobs.biz s) /\
  one_open s' /\ Outbox.outbox_wf (outbox (Jobs.biz s')) /\ published c k s'.
Proof.
  intros H H1 Hwf. unfold publish_dead_letter, bind at 1, lift_res at 1 in H. destruct (request_id_of (Jobs.c_payload c)) as [o|e] eqn:Hid; [|done].
  unfold bind at 1, get at 1 in H. destruct (request_row s o) as [[[rid f] r]|] eqn:Hrow; last first.
  { injection H as _ <-. split_and!; try done. intros rid f r Hid' Hrow'. congruence. }
  cbv zeta in H. apply request_row_Some in Hrow as (-> & Hf & Hr).
  apply bind_Ok in H as (cid & s1 & Hc & H).
  assert (Hs1 : s1 = s <| Jobs.biz ::= fun b => b <| cases ::= <[cid := dead_case c k rid f (Requests.status r)]> |> |> /\
    ((exists old, cases (Jobs.biz s) !! cid = Some old /\ about rid (Jobs.c_job_id c) old = true) \/ open_case rid (Jobs.c_job_id c) s = None)).
  { destruct (open_case rid (Jobs.c_job_id c) s) as [[cid0 old]|] eqn:Ho; unfold update, check in Hc; py_inv Hc.
    - apply open_case_Some in Ho. split; [done|]. left. by exists old.
    - split; [done|by right]. }
  destruct Hs1 as [-> Hold]. clear Hc. unfold update in H. unfold bind at 1, modify at 1 in H.
  destruct (Jobs.c_lease_until c) as [until|] eqn:Hu; [|done]. apply bind_Ok in H as (x & s2 & He & [_ ->]%ret_Ok).
  unfold on_outbox in He. match type of He with context [Outbox.emit ?a ?i ?t ?p ?k ?o] => destruct (Outbox.emit a i t p k o) as [ob o'] eqn:Hob end.
  injection He as -> <-. cbn [Jobs.biz outbox] in Hob. destruct (Outbox.emit_event _ _ _ _ _ _ _ _ Hob Hwf) as (Hwf' & (i & y & Hy & Hk) & _).
  match goal with |- Jobs.jobs ?z = _ /\ _ => set (s' := z) end.
  destruct (one_open_insert s s' rid (Jobs.c_job_id c) cid (dead_case c k rid f (Requests.status r)) H1 (dead_case_about _ _ _ _ _) Hold eq_refl) as [Hone Honly].
  split_and!; try done. intros rid' f' r' Hid' Hrow. rewrite Hid in Hid'. injection Hid' as <-.
  apply request_row_Some in Hrow as (_ & Hf' & Hr'). cbn in Hf', Hr'. assert (f' = f) as -> by congruence. assert (r' = r) as -> by congruence.
  exists cid, until. split_and!; [done|apply lookup_insert_eq|exact Honly|]. by exists i, y.
Qed.

(** A failure is one transaction. *)
Lemma fail_Raise t c k reason o s e s' : fail t c k reason o s = (Raise e, s') -> s' = s.
Proof.
  unfold fail, try_except, transaction. match goal with |- context [bind ?m ?f s] => destruct (bind m f s) as [[x|e'] s1] end; [done|].
  destruct (exn_kind e'); unfold lift_res, ret; by intros [= _ <-].
Qed.

(** What every step of the worker keeps. *)
Record worker_wf (s : DB) : Prop := { wf_one : one_open s; wf_outbox : Outbox.outbox_wf (outbox (Jobs.biz s)) }.

Lemma fail_spec t c k reason o s st s' : worker_wf s -> fail t c k reason o s = (Ok st, s') ->
  worker_wf s' /\ settled (Jobs.biz s) (Jobs.biz s') /\
  (st = "LEASE_LOST"%string /\ s' = s \/
   exists j j', Jobs.jobs s !! Jobs.c_job_id c = Some j /\ Jobs.holds c j (Jobs.now s) = true /\
     Jobs.jobs s' = <[Jobs.c_job_id c := j']> (Jobs.jobs s) /\
     if terminal k || exhausted c then
       st = "DEAD"%string /\ (exists why, j' = Jobs.release Jobs.DEAD (Some (Jobs.kind_str k ++ ": " ++ why)%string) j) /\ published c k s'
     else st = "PENDING"%string /\ Jobs.state j' = Jobs.PENDING /\ Jobs.lease_until j' = None /\
          cases (Jobs.biz s') = cases (Jobs.biz s) /\ reviews (Jobs.biz s') = reviews (Jobs.biz s) /\ outbox (Jobs.biz s') = outbox (Jobs.biz s)).
Proof.
  intros [H1 Hwf] H. unfold fail, try_except in H.
  match type of H with context [transaction ?m] => destruct (transaction m s) as [[x|e] s2] eqn:Hm end; last first.
  { assert (s2 = s) as -> by (revert Hm; unfold transaction; destruct (bind _ _ s) as [[?|?] ?]; by intros [= _ <-]).
    destruct (exn_kind e); unfold lift_res, ret in H; try done. injection H as <- <-. split; [done|]. split; [apply settled_refl|by left]. }
  injection H as <- <-. rewrite transaction_Ok in Hm. apply bind_Ok in Hm as (? & s0 & Hl & Hm).
  assert (s0 = s) as -> by (revert Hl; unfold lock_case, bind, lift_res; destruct (request_id_of _); [by intros [= _ <-]|done]). clear Hl.
  apply bind_Ok in Hm as (js & s1 & Hf & Hm). apply fail_shape in Hf as (j & j' & Hj & Hh & -> & Hst).
  apply bind_Ok in Hm as (? & s1 & Ho & Hm).
  assert (Hs1 : settled (Jobs.biz s) (Jobs.biz s1) /\ Jobs.jobs s1 = <[Jobs.c_job_id c := j']> (Jobs.jobs s) /\
    cases (Jobs.biz s1) = cases (Jobs.biz s) /\ reviews (Jobs.biz s1) = reviews (Jobs.biz s) /\ outbox (Jobs.biz s1) = outbox (Jobs.biz s)).
  { destruct o; [|injection Ho as _ <-; by split; [apply settled_refl|]]. apply record_Ok in Ho as (tb & -> & Hs & _). done. }
  destruct Hs1 as (Hset & Hjobs & Hc1 & Hr1 & Ho1). clear Ho.
  assert (Hone1 : one_open s1) by (unfold one_open in *; by rewrite Hc1).
  assert (Hwf1 : Outbox.outbox_wf (outbox (Jobs.biz s1))) by by rewrite Ho1.
  apply bind_Ok in Hm as (? & s3 & Hp & [-> ->]%ret_Ok). unfold when in Hp. destruct (terminal k || exhausted c).
  - apply publish_Ok in Hp as (Hj3 & _ & Ht3 & Hf3 & Hone3 & Hwf3 & Hpub); [|done..]. destruct Hst as [-> Hwhy].
    split; [done|]. split; [by destruct Hset; split; rewrite ?Hf3, ?Ht3|]. right. exists j, j'. by rewrite Hj3.
  - injection Hp as _ <-. split; [done|]. split; [done|]. right. exists j, j'. by destruct Hst as (-> & ? & ?).
Qed.

(** C38: A failing proof job leaves a complete record or none: when its lease is
    lost nothing changes; when it may be tried again it goes back to the queue
    and no case is touched; when it is given up - for good, or out of attempts -
    it is DEAD in the same commit that leaves exactly one open case about it,
    saying whether a retry is possible, and an event for the outbox.  No proof
    that was prepared, accepted, consumed or refused is ever downgraded, and a
    call that raises changes nothing. *)
Theorem failure_recorded t c k reason o s : worker_wf s ->
  match fail t c k reason o s with
  | (Raise _, s') => s' = s
  | (Ok st, s') =>
      worker_wf s' /\ settled (Jobs.biz s) (Jobs.biz s') /\
      (st = "LEASE_LOST"%string /\ s' = s \/
       exists j j', Jobs.jobs s !! Jobs.c_job_id c = Some j /\ Jobs.holds c j (Jobs.now s) = true /\
         Jobs.jobs s' = <[Jobs.c_job_id c := j']> (Jobs.jobs s) /\
         if terminal k || exhausted c then
           st = "DEAD"%string /\ (exists why, j' = Jobs.release Jobs.DEAD (Some (Jobs.kind_str k ++ ": " ++ why)%string) j) /\ published c k s'
         else st = "PENDING"%string /\ Jobs.state j' = Jobs.PENDING /\ Jobs.lease_until j' = None /\
              cases (Jobs.biz s') = cases (Jobs.biz s) /\ reviews (Jobs.biz s') = reviews (Jobs.biz s) /\ outbox (Jobs.biz s') = outbox (Jobs.biz s))
  end.
Proof.
  intros H. destruct (fail t c k reason o s) as [[st|e] s'] eqn:Hf; [by eapply fail_spec|by eapply fail_Raise].
Qed.

(** * What an operator can do with the case *)

(** The database as the product API sees it: the queue, the cases, the reviews
    and the proofs are these, the rest is any. *)
Definition product (rest : Commands.DB) (s : DB) : Commands.DB :=
  rest <| Commands.queue := {| Jobs.jobs := Jobs.jobs s; Jobs.audit_log := Jobs.audit_log s; Jobs.now := Jobs.now s; Jobs.biz := tt |} |>
       <| Commands.cases := cases (Jobs.biz s) |> <| Commands.reviews := reviews (Jobs.biz s) |>
       <| Commands.proofs := map_imap (fun i f =>
            (fun r => {| Commands.pr_profile := f_profile f; Commands.pr_manifest := f_manifest f; Commands.pr_status := Requests.status r |})
            <$> Requests.requests (tables (Jobs.biz s)) !! i) (facts (Jobs.biz s)) |>.

Lemma request_id_Some v rid : request_id_of v = Ok (Some rid) -> exists l, v = JObj l /\ get_field "proofRequestId" v = Some (JStr rid).
Proof. unfold request_id_of. destruct v; try done. destruct (get_field _ _) as [[]|] eqn:Hg; try done. intros [= ->]. by eexists. Qed.

Lemma id_of_Some key l s : get_field key (JObj l) = Some (JStr s) -> s <> EmptyString -> Commands.id_of key (JObj l) = Ok (Some s).
Proof. intros H Hs. unfold Commands.id_of. rewrite H. by destruct (String.eqb_spec s ""). Qed.

Lemma allowed_kind kind status : mem_str status (allowed kind) = true -> mem_str kind Commands.PROOF_KINDS = true /\
  mem_str status (if String.eqb kind "PROOF_WAIT_ATTESTATION" then ["OBSERVED"; "WAITING_ATTESTATION"]%string else ["WAITING_ATTESTATION"]%string) = true.
Proof.
  unfold allowed, Commands.PROOF_KINDS, mem_str. destruct (String.eqb_spec kind "PROOF_WAIT_ATTESTATION") as [->|]; [done|].
  destruct (String.eqb_spec kind "PROOF_FETCH_ARTIFACT") as [->|]; [done|done].
Qed.

(** The API's verdict on the case of a dead job. *)
Lemma retryable_dead cfg rest s c k rid f r j why :
  Jobs.jobs s !! Jobs.c_job_id c = Some (Jobs.release Jobs.DEAD (Some (Jobs.kind_str k ++ ": " ++ why)%string) j) ->
  Jobs.kind j = Jobs.c_kind c -> Jobs.payload j = Jobs.c_payload c -> Jobs.c_job_id c <> EmptyString -> rid <> EmptyString ->
  request_id_of (Jobs.c_payload c) = Ok (Some rid) -> request_row s (Some rid) = Some (rid, f, r) ->
  Commands.profile cfg = f_profile f -> Commands.manifest_hash cfg = Some (f_manifest f) ->
  let case := dead_case c k rid f (Requests.status r) in
  if negb (terminal k) && mem_str (Requests.status r) (allowed (Jobs.c_kind c))
  then Commands.retryable cfg (product rest s) case = Ok (Jobs.c_job_id c, Jobs.release Jobs.DEAD (Some (Jobs.kind_str k ++ ": " ++ why)%string) j)
  else exists e, Commands.retryable cfg (product rest s) case = Raise e.
Proof.
  intros Hj Hk Hp Hn Hn' Hid Hrow Hpr Hm case. apply request_row_Some in Hrow as (_ & Hf & Hr).
  unfold Commands.retryable. destruct (negb (terminal k) && _) eqn:Hb.
  - assert ((if get_field "retryable" (Commands.detail case) is Some (JBool false) then true else false) = false) as ->
      by (cbn; by rewrite Hb).
    change (Commands.detail case) with (JObj (dead_detail c k f (Requests.status r))).
    rewrite (id_of_Some "jobId" _ (Jobs.c_job_id c)) by done. cbn [rbind product Commands.queue Jobs.jobs]. cbn. rewrite Hj. cbn.
    apply andb_true_iff in Hb as [Hk'%negb_true_iff Hs]. destruct k; [|done]. cbn.
    apply allowed_kind in Hs as [Hk1 Hk2]. rewrite Hk. unfold mem_str, Commands.PROOF_KINDS in Hk1. cbn in Hk1. rewrite Hk1.
    rewrite bool_decide_eq_true_2 by (by right). cbn. rewrite Hp. apply request_id_Some in Hid as (l & -> & Hg).
    rewrite (id_of_Some _ _ rid) by done. cbn. rewrite map_lookup_imap, Hf. cbn. rewrite Hr. cbn.
    rewrite Hpr, Hm, String.eqb_refl, bool_decide_eq_true_2 by done. cbn. unfold mem_str in Hk2. cbn in Hk2.
    destruct (String.eqb (Jobs.c_kind c) _); cbn in Hk2 |- *; by rewrite Hk2.
  - assert ((if get_field "retryable" (Commands.detail case) is Some (JBool false) then true else false) = true) as ->
      by (cbn; by rewrite Hb). by eexists.
Qed.

Lemma retry_refused cfg p cid why x rv now s e : Commands.retryable cfg s x = Raise e ->
  Commands.apply_action cfg p cid "retry" why x rv now s = (Raise e, s).
Proof.
  intros He. unfold Commands.apply_action. change (String.eqb "retry" "assign") with false. change (String.eqb "retry" "acknowledge") with false.
  change (String.eqb "retry" "retry") with true. cbv beta iota. unfold bind, get, lift_res. by rewrite He.
Qed.

(** The case of a given-up proof job says exactly what the product API will
    do with it: it is marked retryable if and only if a retry of it is accepted,
    and then the revived job can be leased again at once; the case of a terminal
    failure can be neither retried nor resolved by any command. *)
Theorem retry_contract cfg rest t c k reason o s s' rid f r j :
  worker_wf s -> fail t c k reason o s = (Ok "DEAD"%string, s') ->
  Jobs.jobs s !! Jobs.c_job_id c = Some j -> Jobs.kind j = Jobs.c_kind c -> Jobs.payload j = Jobs.c_payload c ->
  Jobs.c_job_id c <> EmptyString -> rid <> EmptyString ->
  request_id_of (Jobs.c_payload c) = Ok (Some rid) -> request_row s' (Some rid) = Some (rid, f, r) ->
  Commands.profile cfg = f_profile f -> Commands.manifest_hash cfg = Some (f_manifest f) ->
  let x := dead_case c k rid f (Requests.status r) in
  (exists cid, cases (Jobs.biz s') !! cid = Some x /\ about rid (Jobs.c_job_id c) x = true) /\
  (get_field "retryable" (Commands.detail x) = Some (JBool true) <-> exists j', Commands.retryable cfg (product rest s') x = Ok (Jobs.c_job_id c, j')) /\
  (forall j', Commands.retryable cfg (product rest s') x = Ok (Jobs.c_job_id c, j') -> forall now, Jobs.leasable (Commands.revive now j') now = true) /\
  (k = Jobs.TERMINAL -> forall p cid act why rv now, act ∈ ["retry"; "resolve"]%string ->
     exists e, Commands.apply_action cfg p cid act why x rv now (product rest s') = (Raise e, product rest s')).
Proof.
  intros Hw Hf Hj Hk Hp Hn Hn' Hid Hrow Hpr Hm x. apply fail_spec in Hf as (_ & _ & [[? _]|Hd]); [done| |done].
  destruct Hd as (j0 & j' & Hj0 & _ & Hjobs & Hd). assert (j0 = j) as -> by congruence.
  destruct (terminal k || exhausted c); [|by destruct Hd]. destruct Hd as (_ & (why & ->) & Hpub).
  destruct (Hpub _ _ _ Hid Hrow) as (cid & until & _ & Hc & _ & _).
  assert (Hj' : Jobs.jobs s' !! Jobs.c_job_id c = Some (Jobs.release Jobs.DEAD (Some (Jobs.kind_str k ++ ": " ++ why)%string) j))
    by (by rewrite Hjobs, lookup_insert_eq).
  pose proof (retryable_dead cfg rest s' c k rid f r j why Hj' Hk Hp Hn Hn' Hid Hrow Hpr Hm) as Hr. cbv zeta in Hr. fold x in Hr.
  change (get_field "retryable" (Commands.detail x)) with (Some (JBool (negb (terminal k) && mem_str (Requests.status r) (allowed (Jobs.c_kind c))))).
  split_and!; [exists cid; split; [done|apply dead_case_about]| | |].
  - destruct (negb (terminal k) && _); [by split; [eexists|]|]. destruct Hr as [e Hr]. split; [done|]. intros [j' Hr']. by pose proof (eq_trans (eq_sym Hr) Hr').
  - intros j' Hr' now. destruct (negb (terminal k) && _); [|destruct Hr as [e Hr]; by pose proof (eq_trans (eq_sym Hr) Hr')].
    pose proof (eq_trans (eq_sym Hr) Hr') as E. injection E as <-. unfold Jobs.leasable, Jobs.lease_free, Commands.revive. cbn.
    rewrite bool_decide_eq_true_2 by (by left). rewrite Z.leb_refl, !andb_true_r. cbn. lia.
  - intros -> p cid' act why' rv now Ha. cbn [terminal negb andb] in Hr. destruct Hr as [e He].
    apply elem_of_cons in Ha as [->|Ha%list_elem_of_singleton]; [|rewrite Ha].
    + exists e. by apply retry_refused.
    + by eexists.
Qed.

(** * Reaping *)

Lemma spent_rows_spec kinds s j : j ∈ spent_rows kinds s <-> (exists id, Jobs.jobs s !! id = Some j) /\ ours kinds s j = true /\ spent (Jobs.now s) j = true.
Proof.
  unfold spent_rows. rewrite isort_perm, list_elem_of_filter, list_elem_of_fmap. rewrite Is_true_true, andb_true_iff. split.
  - intros [[Ho Hs] ([i k] & -> & Hin%elem_of_map_to_list)]. split; [by exists i|done].
  - intros [[id Hid] H]. split; [done|]. exists (id, j). split; [done|by apply elem_of_map_to_list].
Qed.

Lemma reap_Ok t c s st s' : worker_wf s -> reap t c s = (Ok st, s') ->
  st = "DEAD"%string /\ worker_wf s' /\ published c Jobs.TRANSIENT s' /\ tables (Jobs.biz s') = tables (Jobs.biz s) /\
  exists j, Jobs.jobs s !! Jobs.c_job_id c = Some j /\ spent (Jobs.now s) j = true /\ same_lease c j = true /\
    Jobs.jobs s' = <[Jobs.c_job_id c := Jobs.release Jobs.DEAD (Some EXPIRED_REASON) j]> (Jobs.jobs s).
Proof.
  intros [H1 H2] H. unfold reap in H. apply bind_Ok in H as (? & s1 & Hp & H). apply publish_Ok in Hp as (Hj & Hn & Ht & _ & Ho & Hw & Hpub); [|done..].
  unfold bind at 1, get at 1 in H. rewrite Hj, Hn in H. destruct (Jobs.jobs s !! Jobs.c_job_id c) as [j|] eqn:Hjc; [|done].
  destruct (spent _ j && same_lease c j) eqn:Hs; [|done]. apply andb_true_iff in Hs as [Hs Hl]. apply bind_Ok in H as (? & s2 & ->%modify_Ok & [-> ->]%ret_Ok).
  split_and!; [done|by split|done|done|]. exists j. split_and!; [done|done|done|]. cbn. by rewrite Hj.
Qed.

(** Reaping touches only a lease that has run out in its last attempt:
    whatever other sessions commit in between, it either leaves their state
    alone or buries exactly the generation it read, still expired then, without
    running its handler and with its case and event in the same commit; and it
    answers that there is nothing to reap only when no job of this deployment
    has such a lease. *)
Theorem reap_only_spent t kinds s : worker_wf (others t s) ->
  match reap_exhausted t kinds s with
  | (Ok None, s') => s' = s /\ forall id j, Jobs.jobs s !! id = Some j -> ours kinds s j = true -> spent (Jobs.now s) j = false
  | (Ok (Some st), s') =>
      st = "LEASE_LOST"%string /\ s' = others t s \/
      st = "DEAD"%string /\ worker_wf s' /\ tables (Jobs.biz s') = tables (Jobs.biz (others t s)) /\ exists j j1 w,
        ours kinds s j = true /\ spent (Jobs.now s) j = true /\
        Jobs.jobs (others t s) !! Jobs.job_id j = Some j1 /\ spent (Jobs.now (others t s)) j1 = true /\
        Jobs.attempt j1 = Jobs.attempt j /\ Jobs.lease_until j1 = Jobs.lease_until j /\
        Jobs.jobs s' = <[Jobs.job_id j := Jobs.release Jobs.DEAD (Some EXPIRED_REASON) j1]> (Jobs.jobs (others t s)) /\
        published (Jobs.claimed w j) Jobs.TRANSIENT s'
  | (Raise _, s') => s' = others t s
  end.
Proof.
  intros Hw. unfold reap_exhausted, bind at 1, get at 1. destruct (spent_rows kinds s) as [|j l] eqn:Hrows.
  { split; [done|]. intros id j Hj Ho. destruct (spent (Jobs.now s) j) eqn:Hs; [|done]. exfalso.
    assert (Hin : j ∈ spent_rows kinds s) by (apply spent_rows_spec; eauto). rewrite Hrows in Hin. by apply elem_of_nil in Hin. }
  assert (Hj : j ∈ spent_rows kinds s) by (rewrite Hrows; by left). apply spent_rows_spec in Hj as (_ & Ho & Hs).
  unfold bind at 1, modify at 1, try_except. set (s1 := others t s) in *. set (w := default EmptyString (Jobs.leased_by j)).
  unfold bind at 1. destruct (transaction (reap t (Jobs.claimed w j)) s1) as [[st|e] s2] eqn:Ht.
  - rewrite transaction_Ok in Ht. apply reap_Ok in Ht as (-> & Hw2 & Hpub & Htb & j1 & Hj1 & Hs1 & Hl & Hjobs); [|done]. right.
    unfold same_lease in Hl. apply andb_true_iff in Hl as [[Ha%Z.eqb_eq _]%andb_true_iff Hu%bool_decide_eq_true].
    split_and!; [done|done|done|]. exists j, j1, w. by split_and!.
  - apply transaction_Raise in Ht as ->. destruct (exn_kind e); cbn; try done. by left.
Qed.

Lemma letter_key_nonempty c u : letter_key c u <> EmptyString.
Proof. done. Qed.

Lemma publish_total t c k s o until : request_id_of (Jobs.c_payload c) = Ok o -> Jobs.c_lease_until c = Some until ->
  ULID_CHECK (fresh_case t) = true -> cases (Jobs.biz s) !! fresh_case t = None -> exists s', publish_dead_letter t c k s = (Ok tt, s').
Proof.
  intros Hid Hu Hf Hn. unfold publish_dead_letter, bind at 1, lift_res. rewrite Hid. unfold bind at 1, get at 1.
  destruct (request_row s o) as [[[rid f] r]|]; [|by eexists]. cbv zeta. unfold bind at 1.
  assert (Hc : forall m : PyM DB string, (exists cid s1, m s = (Ok cid, s1)) -> forall n : string -> PyM DB unit, (forall cid s1, exists s2, n cid s1 = (Ok tt, s2)) ->
    exists s', match m s with (Ok a, s1) => n a s1 | (Raise e, s1) => (Raise e, s1) end = (Ok tt, s')).
  { intros m (cid & s1 & Hm) n Hall. rewrite Hm. apply Hall. }
  apply Hc.
  - destruct (open_case _ _ s) as [[cid old]|]; [by eexists _, _|]. unfold check, guard, bind, update, modify, ret. rewrite Hf, Hn.
    rewrite bool_decide_eq_true_2 by done. by eexists _, _.
  - intros cid s1. unfold bind at 1, update, modify at 1. rewrite Hu. unfold bind, on_outbox.
    match goal with |- context [Outbox.emit ?a ?i ?t ?p ?k ?o] => destruct (Outbox.emit a i t p k o) as [[x|e] o'] eqn:He end; [by eexists|].
    exfalso. revert He. unfold Outbox.emit. destruct (String.eqb_spec (letter_key c until) "") as [E|_]; [by apply letter_key_nonempty in E|].
    unfold bind, get, modify, ret. by destruct (Outbox.key_taken _ _).
Qed.

(** An exhausted lease does not stay: with a fresh id at hand and no one in
    the way, the worker's next turn buries a job of this deployment whose last
    lease has run out. *)
Theorem reap_progress t kinds s id j :
  Jobs.queue_wf s -> others t s = s -> ULID_CHECK (fresh_case t) = true -> cases (Jobs.biz s) !! fresh_case t = None ->
  (forall i x, Jobs.jobs s !! i = Some x -> ours kinds s x = true -> exists rid, request_id_of (Jobs.payload x) = Ok rid) ->
  worker_wf s -> Jobs.jobs s !! id = Some j -> ours kinds s j = true -> spent (Jobs.now s) j = true ->
  exists s' i x, reap_exhausted t kinds s = (Ok (Some "DEAD"%string), s') /\ Jobs.jobs s !! i = Some x /\
    ours kinds s x = true /\ spent (Jobs.now s) x = true /\ Jobs.job_leb x j = true /\
    Jobs.jobs s' = <[i := Jobs.release Jobs.DEAD (Some EXPIRED_REASON) x]> (Jobs.jobs s).
Proof.
  intros Hq Hot Hf Hn Hids Hw Hj Ho Hs. assert (Hin : j ∈ spent_rows kinds s) by (apply spent_rows_spec; eauto).
  unfold reap_exhausted, bind at 1, get at 1.
  assert (Hsort : StronglySorted (fun a b => Jobs.job_leb a b = true) (spent_rows kinds s)).
  { apply isort_sorted; [apply Jobs.job_leb_total|apply Jobs.job_leb_trans]. }
  destruct (spent_rows kinds s) as [|x l] eqn:Hrows; [by apply elem_of_nil in Hin|].
  assert (Hx : x ∈ spent_rows kinds s) by (rewrite Hrows; by left). apply spent_rows_spec in Hx as ([i Hi] & Hox & Hsx).
  pose proof (proj1 (Jobs.wf_jobs _ Hq i x Hi)) as Hxi. cbn in Hxi. subst i.
  unfold bind at 1, modify at 1. rewrite Hot. set (w := default EmptyString (Jobs.leased_by x)).
  destruct (Hids _ _ Hi Hox) as [rid Hrid].
  assert (Hsx' := Hsx). unfold spent in Hsx'. apply andb_true_iff in Hsx' as [[Hst%bool_decide_eq_true _]%andb_true_iff Hlu].
  destruct (Jobs.lease_until x) as [u|] eqn:Hu; [|done].
  destruct (Jobs.ok_leased _ (proj2 (Jobs.wf_jobs _ Hq _ x Hi)) Hst) as [[wk Hwk] _].
  destruct (publish_total t (Jobs.claimed w x) Jobs.TRANSIENT s rid u Hrid Hu Hf Hn) as [s1 Hp].
  destruct (publish_Ok _ _ _ _ _ _ Hp (wf_one _ Hw) (wf_outbox _ Hw)) as (Hj1 & Hn1 & _).
  assert (Hr : reap t (Jobs.claimed w x) s = (Ok "DEAD"%string, s1 <| Jobs.jobs ::= <[Jobs.job_id x := Jobs.release Jobs.DEAD (Some EXPIRED_REASON) x]> |>)).
  { unfold reap, bind at 1. rewrite Hp. unfold bind at 1, get at 1. cbn [Jobs.c_job_id Jobs.claimed]. rewrite Hj1, Hi, Hn1, Hsx.
    unfold same_lease, w. cbn. rewrite Hwk, Z.eqb_refl, !bool_decide_eq_true_2 by done. done. }
  unfold try_except, bind, transaction. rewrite Hr. eexists _, (Jobs.job_id x), x. split; [reflexivity|]. split_and!; [done|done|done| |].
  - apply elem_of_cons in Hin as [->|Hin]; [destruct (Jobs.job_leb x x) eqn:E; [done|by rewrite (Jobs.job_leb_total _ _ E) in E]|]. inversion Hsort as [|? ? _ Hall]; subst. rewrite Forall_forall in Hall. by apply Hall.
  - cbn. by rewrite Hj1.
Qed.
End Worker.

(** * The pipeline *)

Section Pipeline.
Context (manifest : Manifest) (pg_integer : string -> option Z) (parse_float : string -> json) (decode_wide : list Z -> res string).

Definition MAX_SDK : Z := 4194304.

(** [response.get("version") != 1]: True equals 1. *)
Definition is_one (x : option json) : bool := match x with Some (JInt n) => n =? 1 | Some (JBool b) => b | _ => false end.

(** [OSError] and [ValueError] end as transient failures, the bounds as
    terminal ones.
    Models [gpu/attestcoin_worker.py], [OfficialSdkClient.call]. *)
Definition call (t : Tick) (command : string) (payload : json) : res json :=
  if negb (mem_str command ["proof"; "encode-submission"]) then Raise (Exn ValueError "unsupported official SDK operation")
  else if MAX_SDK <? zlen (bytes_of (Commands.ensure_ascii (canonical payload))) then Raise (Exn TerminalError "official SDK input exceeds bound")
  else
    match sdk t command payload with
    | TimedOut => Raise (Exn TransientError "official SDK timeout")
    | CannotStart => Raise (Exn TransientError "official SDK returned invalid JSON or could not start")
    | Exited code stdout =>
        if negb (code =? 0) then Raise (Exn TransientError "official SDK command failed")
        else if MAX_SDK <? zlen stdout then Raise (Exn TerminalError "official SDK output exceeds bound")
        else
          match JsonText.loads_bytes parse_float decode_wide stdout with
          | Raise e => match exn_kind e with
                       | ValueError => Raise (Exn TransientError "official SDK returned invalid JSON or could not start")
                       | _ => Raise e
                       end
          | Ok response =>
              if is_one (get_field "version" response) then Ok response
              else Raise (Exn TerminalError "official SDK response schema mismatch")
          end
    end.

(** Models [gpu/attestcoin_worker.py], [ProofPipeline._request]. *)
Definition _request (s : DB) (c : Jobs.ClaimedJob) : res (string * RequestFacts * Requests.Request) :=
  rbind (match Jobs.c_payload c with
         | JObj l => match dget "proofRequestId" l with
                     | None => Raise (Exn KeyError "proofRequestId")
                     | Some _ => request_id_of (Jobs.c_payload c)
                     end
         | _ => Raise (Exn TypeError "indices must be integers")
         end) (fun rid =>
  match request_row s rid with
  | None => Raise (Exn TerminalError "unknown proof request")
  | Some (rid, f, r) =>
      if negb (String.eqb (f_manifest f) (m_hash manifest) && String.eqb (f_profile f) (m_profile manifest)
               && (f_chain_key f =? m_chain_key manifest) && String.eqb (f_sdk f) (m_sdk manifest))
      then Raise (Exn TerminalError "proof request does not match worker manifest")
      else Ok (rid, f, r)
  end).

(** Models [gpu/attestcoin_worker.py], [ProofPipeline._advance]. *)
Definition _advance (rid kind job : string) : PyM DB unit :=
  let* tr := on_requests (Requests.apply rid kind Requests.O_OK None) in
  match Requests.next_kind tr with
  | None => ret tt
  | Some k => let* _ := Jobs.enqueue k (JObj [("proofRequestId"%string, JStr rid)]) (Requests.job_key k rid) 100 None job in ret tt
  end.

(** The failure an SDK status other than PROOF_READY stands for.
    Models [gpu/attestcoin_worker.py], [ProofPipeline.fetch], lines 331-341. *)
Definition not_ready (status : option json) : exn :=
  match status with
  | Some (JStr o) =>
      if mem_str o ["NOT_READY"; "NETWORK_ERROR"] then Exn (ProofTransientFailure o) o
      else if mem_str o ["UNSUPPORTED"; "INVALID"; "EXPIRED"] then Exn (ProofTerminalFailure o) o
      else Exn (ProofTerminalFailure "INVALID") "INVALID"
  | _ => Exn (ProofTerminalFailure "INVALID") "INVALID"
  end.

Definition is_text (x : option json) (s : string) : bool := match x with Some (JStr t) => String.eqb t s | _ => false end.

(** [claimed_tx_index], an integer column with its check. *)
Definition tx_index_column (x : json) : res (option Z) :=
  let bounded n := if (0 <=? n) && (n <? 2 ^ 31) then Ok (Some n) else Raise (Exn DatabaseError "claimed_tx_index") in
  match x with
  | JNull => Ok None
  | JInt n => bounded n
  | JStr s => match pg_integer s with Some n => bounded n | None => Raise (Exn DatabaseError "claimed_tx_index") end
  | _ => Raise (Exn DatabaseError "claimed_tx_index")
  end.

(** [int(output["height"])] in its column. *)
Definition height_column (n : Z) : bool := (0 <=? n) && (n <? 2 ^ 63).

Definition has_artifact (rid digest : string) (s : DB) : bool :=
  existsb (fun a => String.eqb (ar_request a) rid && String.eqb (ar_hash a) digest) (artifacts (Jobs.biz s)).

Definition body_of (output : json) : string := Commands.ensure_ascii (canonical output).

(** The row of a body that is kept, unless it is there.
    Models [gpu/attestcoin_worker.py], [ProofPipeline.fetch], lines 349-371. *)
Definition keep_artifact (t : Tick) (rid : string) (f : RequestFacts) (output : json) (ref : string) : PyM DB unit :=
  let body := body_of output in
  let digest := Ingestion.payload_hash_of body in
  let* s := get in
  (if has_artifact rid digest s then ret tt
   else
     let* height := lift_res (int_field "height" output) in
     let* index := lift_res (rbind (field "txIndex" output) tx_index_column) in
     check (ULID_CHECK (fresh_artifact t) && forallb (fun a => negb (String.eqb (ar_id a) (fresh_artifact t))) (artifacts (Jobs.biz s))
            && HEX32_CHECK digest && Ingestion.LEDGER_REF_CHECK ref && height_column height && (0 <? Z.of_nat (String.length body))) "proof_artifacts" ;;;
     update (fun b => b <| artifacts ::= fun l => l ++ [{| ar_id := fresh_artifact t; ar_request := rid; ar_hash := digest; ar_ref := ref;
                                                           ar_length := Z.of_nat (String.length body); ar_sdk := f_sdk f; ar_height := height; ar_tx_index := index |}] |>
                       <| tables ::= fun tb => tb <| Requests.artifacts ::= union {[rid]} |> |>)) ;;;
  update (fun b => b <| api_ready_at ::= <[rid := clock t]> |>).

(** Models [gpu/attestcoin_worker.py], [ProofPipeline.fetch]. *)
Definition fetch (t : Tick) (c : Jobs.ClaimedJob) : PyM World unit :=
  let* w := get in
  let* found := lift_res (_request (db w) c) in
  let '(rid, f, r) := (found : string * RequestFacts * Requests.Request) in
  if mem_str (Requests.status r) ["PROOF_READY"; "SUBMITTED"; "NATIVE_ACCEPTED"; "CONSUMED"] then ret tt
  else
    let* output := lift_res (call t "proof" (JObj [("version", JInt 1); ("txHash", JStr (f_tx f)); ("manifestHash", JStr (f_manifest f))]%string)) in
    if negb (is_text (get_field "manifestHash" output) (f_manifest f) && is_text (get_field "txHash" output) (f_tx f)) then
      raise TerminalError "SDK response belongs to another request"
    else if negb (is_text (get_field "status" output) "PROOF_READY") then lift_res (Raise (not_ready (get_field "status" output)))
    else if negb ((if get_field "nativeAccepted" output is Some (JBool false) then true else false) && is_text (get_field "sdkVersion" output) (f_sdk f)) then
      raise TerminalError "SDK output cannot claim native acceptance or another SDK version"
    else
      let body := body_of output in
      let* ref := on_volume (Ingestion.file_put (Ingestion.payload_hash_of body) body) in
      on_db (
        keep_artifact t rid f output ref ;;;
        when (String.eqb (Requests.status r) "OBSERVED") (_advance rid "PROOF_WAIT_ATTESTATION" (fresh_fetch t)) ;;;
        _advance rid "PROOF_FETCH_ARTIFACT" (fresh_submit t)).

(** The handlers of a worker without a submission plan.
    Models [gpu/attestcoin_worker.py], [ProofPipeline.handlers]. *)
Definition handlers (t : Tick) : gmap string (Jobs.ClaimedJob -> PyM World unit) :=
  {[ "PROOF_WAIT_ATTESTATION"%string := fetch t; "PROOF_FETCH_ARTIFACT"%string := fetch t ]}.

(** * Fetching a proof *)

Lemma apply_OK kind rid (tb : Requests.Tables) tr c :
  Requests.apply rid kind Requests.O_OK None {| Requests.committed := tb; Requests.working := tb |} = (Ok tr, c) ->
  exists r status, Requests.requests tb !! rid = Some r /\ mem_str (Requests.status r) (Requests.FROM_STATUS kind) = true /\
    Requests.OK_STATUS !! kind = Some status /\ Requests.next_kind tr = Requests.NEXT_KIND kind /\
    Requests.working c = tb <| Requests.requests ::= <[rid := {| Requests.status := status; Requests.last_error := None; Requests.attempt := Requests.attempt r + 1 |}]> |>.
Proof.
  unfold Requests.apply. destruct (negb _); [done|]. unfold bind at 1, Requests.current_status, bind at 1, get at 1. cbn [Requests.working].
  destruct (Requests.requests tb !! rid) as [r|] eqn:Hr; [|done]. unfold ret at 1. destruct (mem_str _ ["INVALID"; "UNSUPPORTED"; "EXPIRED"; "CONSUMED"]); [done|].
  cbn [Requests.classify]. destruct (mem_str (Requests.status r) (Requests.FROM_STATUS kind)) eqn:Hfrom; [|done]. cbn [negb].
  destruct (Requests.OK_STATUS !! kind) as [st|] eqn:Hok; [|done]. unfold bind at 1, get at 1, bind at 1, lift_res. cbn [Requests.working].
  unfold Requests.update_status. rewrite Hr. destruct (Requests.status_evidence tb rid st); [|done]. cbn [rbind]. intros [= <- <-].
  by exists r, st.
Qed.

Lemma advance_Ok rid kind job s s' u : _advance rid kind job s = (Ok u, s') ->
  exists r status, Requests.requests (tables (Jobs.biz s)) !! rid = Some r /\ mem_str (Requests.status r) (Requests.FROM_STATUS kind) = true /\
    Requests.OK_STATUS !! kind = Some status /\ artifacts (Jobs.biz s') = artifacts (Jobs.biz s) /\ facts (Jobs.biz s') = facts (Jobs.biz s) /\
    Requests.requests (tables (Jobs.biz s')) = <[rid := {| Requests.status := status; Requests.last_error := None; Requests.attempt := Requests.attempt r + 1 |}]> (Requests.requests (tables (Jobs.biz s))) /\
    forall k, Requests.NEXT_KIND kind = Some k -> exists i x, Jobs.jobs s' !! i = Some x /\ Jobs.semantic_idempotency_key x = Requests.job_key k rid.
Proof.
  unfold _advance, bind at 1, on_requests. destruct (Requests.apply _ _ _ _ _) as [[tr|e] c] eqn:Ha; [|done].
  apply apply_OK in Ha as (r & status & Hr & Hf & Hok & Hnext & Hw). rewrite Hnext. intros H. exists r, status.
  destruct (Requests.NEXT_KIND kind) as [k|].
  - apply bind_Ok in H as (id & s1 & He & [_ ->]%ret_Ok). apply Jobs.enqueue_Ok in He as (_ & [(j & Hj & _ & ->)|(_ & _ & _ & _ & j & Hkey & _ & _ & _ & _ & _ & _ & ->)]).
    + apply Jobs.job_with_key_Some in Hj as (i & Hi & Hkey). split_and!; try done; [by cbn; rewrite Hw|]. intros k' [= <-]. by exists i, j.
    + split_and!; try done; [by cbn; rewrite Hw|]. intros k' [= <-]. exists (job), j. split; [apply lookup_insert_eq|done].
  - injection H as _ <-. split_and!; try done. by cbn; rewrite Hw.
Qed.

Lemma keep_artifact_Ok t rid f output ref s s' u : keep_artifact t rid f output ref s = (Ok u, s') ->
  Requests.requests (tables (Jobs.biz s')) = Requests.requests (tables (Jobs.biz s)) /\ facts (Jobs.biz s') = facts (Jobs.biz s) /\
  (exists l, artifacts (Jobs.biz s') = artifacts (Jobs.biz s) ++ l) /\
  exists a, a ∈ artifacts (Jobs.biz s') /\ ar_request a = rid /\ ar_hash a = Ingestion.payload_hash_of (body_of output).
Proof.
  unfold keep_artifact, bind at 1, get at 1. intros (? & s1 & H & ->%modify_Ok)%bind_Ok. cbn.
  destruct (has_artifact _ _ s) eqn:Ha.
  - injection H as _ <-. split_and!; [done|done|exists []; by rewrite app_nil_r|]. unfold has_artifact in Ha.
    apply existsb_exists in Ha as (a & Hin%list_elem_of_In & [H1%String.eqb_eq H2%String.eqb_eq]%andb_true_iff). by exists a.
  - unfold check, update in H. py_inv H. unfold lift_res in *. simplify_eq/=. split_and!; [done|done|by eexists|]. eexists. split; [apply elem_of_app; right; by apply list_elem_of_singleton|done].
Qed.

Lemma file_put_Ok h body m r m' : Ingestion.file_put h body m = (Ok r, m') -> h = Ingestion.payload_hash_of body /\ m' !! h = Some body /\ forall k v, m !! k = Some v -> m' !! k = Some v.
Proof.
  unfold Ingestion.file_put. destruct (String.eqb_spec h (Ingestion.payload_hash_of body)) as [->|]; [|done]. cbn [negb]. unfold bind, get, modify, ret, raise.
  destruct (m !! _) as [found|] eqn:Hm.
  - destruct (String.eqb_spec found body) as [->|]; [|done]. by intros [= _ <-].
  - intros [= _ <-]. split_and!; [done|apply lookup_insert_eq|]. intros k v Hk. rewrite lookup_insert_ne; [done|]. intros <-. congruence.
Qed.

Definition proof_query (f : RequestFacts) : json := JObj [("version", JInt 1); ("txHash", JStr (f_tx f)); ("manifestHash", JStr (f_manifest f))]%string.

(** A proof that is fetched is kept as it came: when the handler returns on
    a request that was not ready yet, the SDK was asked about this request's
    transaction under this deployment's manifest, answered for both, with the
    pinned version and without a claim of acceptance; the whole answer is in the
    raw store under its hash, an artifact of the request carries that hash, the
    request is PROOF_READY and no further, its submission is queued, and no
    other request has changed. *)
Theorem fetched_proof_kept t c w w' u : fetch t c w = (Ok u, w') ->
  exists rid f r, request_row (db w) (Some rid) = Some (rid, f, r) /\ f_manifest f = m_hash manifest /\ f_sdk f = m_sdk manifest /\
    (mem_str (Requests.status r) ["PROOF_READY"; "SUBMITTED"; "NATIVE_ACCEPTED"; "CONSUMED"] = true /\ w' = w \/
     exists output, call t "proof" (proof_query f) = Ok output /\
       get_field "manifestHash" output = Some (JStr (f_manifest f)) /\ get_field "txHash" output = Some (JStr (f_tx f)) /\
       get_field "nativeAccepted" output = Some (JBool false) /\ get_field "sdkVersion" output = Some (JStr (f_sdk f)) /\
       mem_str (Requests.status r) ["OBSERVED"; "WAITING_ATTESTATION"] = true /\
       volume w' !! Ingestion.payload_hash_of (body_of output) = Some (body_of output) /\
       (exists a, a ∈ artifacts (Jobs.biz (db w')) /\ ar_request a = rid /\ ar_hash a = Ingestion.payload_hash_of (body_of output)) /\
       status_of (db w') rid = Some "PROOF_READY"%string /\
       (exists i x, Jobs.jobs (db w') !! i = Some x /\ Jobs.semantic_idempotency_key x = Requests.job_key "PROOF_SUBMIT" rid) /\
       forall i, i <> rid -> Requests.requests (tables (Jobs.biz (db w'))) !! i = Requests.requests (tables (Jobs.biz (db w))) !! i).
Proof.
  unfold fetch, bind at 1, get at 1, bind at 1, lift_res at 1. destruct (_request (db w) c) as [[[rid f] r]|e] eqn:Hreq; [|done].
  unfold _request in Hreq. apply rbind_Ok in Hreq as (o & _ & Hreq). destruct (request_row (db w) o) as [[[rid' f'] r']|] eqn:Hrow; [|done].
  destruct (String.eqb (f_manifest f') _ && _ && _ && _) eqn:Hm; [|done]. injection Hreq as -> -> ->.
  apply andb_true_iff in Hm as [[[H1%String.eqb_eq _]%andb_true_iff _]%andb_true_iff H2%String.eqb_eq].
  pose proof (request_row_Some _ _ _ _ _ Hrow) as (-> & _ & _). intros H. exists rid, f, r. split_and!; [done|done|done|].
  destruct (mem_str (Requests.status r) _) eqn:Hready; [left; by injection H as _ <-|]. right.
  unfold bind at 1, lift_res at 1 in H. fold (proof_query f) in H. destruct (call t "proof" (proof_query f)) as [output|e] eqn:Hcall; [|done].
  assert (Htext : forall k s, is_text (get_field k output) s = true -> get_field k output = Some (JStr s)).
  { intros k s. unfold is_text. destruct (get_field k output) as [[]|]; try done. by intros ->%String.eqb_eq. }
  destruct (is_text (get_field "manifestHash" output) _ && _) eqn:Hb; [|done]. apply andb_true_iff in Hb as [Hmh Hth]. cbn [negb] in H.
  destruct (is_text (get_field "status" output) _); [|done]. cbn [negb] in H.
  destruct (_ && is_text (get_field "sdkVersion" output) _) eqn:Hb; [|done]. apply andb_true_iff in Hb as [Hna Hsdk]. cbn [negb] in H.
  cbv zeta in H. apply bind_Ok in H as (ref & w1 & Hput & H). unfold on_volume in Hput.
  destruct (Ingestion.file_put _ _ (volume w)) as [rf v1] eqn:Hfp. injection Hput as -> <-. apply file_put_Ok in Hfp as (_ & Hv & _).
  unfold on_db in H. cbn [db] in H. match type of H with (let (_, _) := ?m ?d in _) = _ => destruct (m d) as [x s'] eqn:Hrun end. injection H as -> <-. change (db (w <| volume := v1 |>)) with (db w) in Hrun.
  change (db (w <| volume := v1 |> <| db := s' |>)) with s'. change (volume (w <| volume := v1 |> <| db := s' |>)) with v1.
  apply bind_Ok in Hrun as (? & s1 & Hk & Hrun). apply keep_artifact_Ok in Hk as (Hr1 & Hf1 & _ & a & Ha & Har & Hah).
  apply bind_Ok in Hrun as (? & s2 & Hw & Hadv).
  apply request_row_Some in Hrow as (_ & Hf & Hr).
  apply advance_Ok in Hadv as (r2 & status & Hr2 & Hfrom & Hok & Ha3 & _ & Hreqs & Hjob).
  assert (status = "PROOF_READY"%string) as -> by (vm_compute in Hok; congruence).
  assert (Hs2 : artifacts (Jobs.biz s2) = artifacts (Jobs.biz s1) /\ (mem_str (Requests.status r) ["OBSERVED"; "WAITING_ATTESTATION"] = true) /\
    forall i, i <> rid -> Requests.requests (tables (Jobs.biz s2)) !! i = Requests.requests (tables (Jobs.biz s1)) !! i).
  { unfold when in Hw. destruct (String.eqb_spec (Requests.status r) "OBSERVED") as [E|E].
    - apply advance_Ok in Hw as (r3 & st & _ & _ & _ & Ha2 & _ & Hq & _). split; [done|]. split; [by rewrite E|]. intros i Hi. by rewrite Hq, lookup_insert_ne.
    - injection Hw as _ <-. split; [done|]. split; [|done]. rewrite Hr1, Hr in Hr2. injection Hr2 as <-. unfold mem_str in *. cbn in Hfrom |- *.
      apply orb_true_iff in Hfrom as [->|]; [by rewrite orb_true_r|done]. }
  destruct Hs2 as (Ha2 & Hst & Hoth). exists output. split_and!; [done|by apply Htext|by apply Htext| |by apply Htext|done|done| | | |].
  - destruct (get_field "nativeAccepted" output) as [[|[]| | | |]|]; done.
  - exists a. by rewrite Ha3, Ha2.
  - unfold status_of. by rewrite Hreqs, lookup_insert_eq.
  - by apply Hjob.
  - intros i Hi. by rewrite Hreqs, lookup_insert_ne, Hoth, Hr1.
Qed.

(** * Other deployments *)

Section Others.
Context (id : string) (j : Jobs.Job).

(** A job that is there stays as it is. *)
Definition untouched (s s' : DB) : Prop := Jobs.jobs s !! id = Some j -> Jobs.jobs s' !! id = Some j.

#[local] Instance untouched_preorder : PreOrder untouched.
Proof. split; unfold untouched; [by intros s|]. intros a b c H1 H2 H. by apply H2, H1. Qed.

Lemma biz_untouched f : keeps untouched (update f).
Proof. intros s H. exact H. Qed.

Lemma outbox_untouched {A} (m : PyM Outbox.DB A) : keeps untouched (on_outbox m).
Proof. intros s. unfold on_outbox. destruct (m _) as [r o]. by intros H. Qed.

Lemma publish_untouched t c k deployment : keeps untouched (publish_dead_letter deployment t c k).
Proof.
  unfold publish_dead_letter, check. pose proof biz_untouched. pose proof @outbox_untouched. keeps_tac.
Qed.

Lemma record_untouched c o : keeps untouched (record_proof_failure c o).
Proof. unfold record_proof_failure. pose proof biz_untouched. keeps_tac. Qed.

Lemma fenced_untouched c f : Jobs.c_job_id c <> id -> keeps untouched (Jobs.fenced_update c f).
Proof.
  intros Hn s H. destruct (Jobs.fenced_update c f s) as [[[]|e] s'] eqn:E.
  - apply Jobs.fenced_update_Ok in E as (x & _ & _ & ->). cbn. by rewrite lookup_insert_ne.
  - by apply Jobs.fenced_update_Raise in E as [_ ->].
Qed.

Lemma queue_fail_untouched policy u c k r : Jobs.c_job_id c <> id -> keeps untouched (Jobs.fail policy u c k r).
Proof.
  intros Hn s. destruct (Jobs.fail_run policy u c k r s) as (f & st & _ & _ & _ & E). rewrite E.
  apply keeps_bind; [typeclasses eauto|by apply fenced_untouched|]. intros []. keeps_tac.
Qed.

Lemma fail_untouched deployment policy t c k r o : Jobs.c_job_id c <> id -> keeps untouched (fail deployment policy t c k r o).
Proof.
  intros Hn. unfold fail, lock_case. pose proof publish_untouched. pose proof record_untouched. pose proof queue_fail_untouched. keeps_tac.
Qed.

Lemma advance_untouched rid kind job : keeps untouched (_advance rid kind job).
Proof.
  unfold _advance. apply keeps_bind; [typeclasses eauto| |].
  - unfold on_requests. intros x. destruct (Requests.apply _ _ _ _ _). by intros H.
  - intros tr. destruct (Requests.next_kind tr); [|keeps_tac].
    apply keeps_bind; [typeclasses eauto| |intros _; keeps_tac].
    intros z H. destruct (Jobs.enqueue _ _ _ _ _ _ z) as [[x|e] z'] eqn:E; cbn [snd].
    + apply Jobs.enqueue_Ok in E as (_ & [(y & _ & _ & ->)|(_ & _ & Hn & _ & y & _ & _ & _ & _ & _ & _ & _ & ->)]); [done|].
      cbn. rewrite lookup_insert_ne; [done|]. intros <-. congruence.
    + revert E. unfold Jobs.enqueue, bind, get, raise, modify, ret. repeat case_match; intros; by simplify_eq.
Qed.

Lemma keep_artifact_untouched t rid f output ref : keeps untouched (keep_artifact t rid f output ref).
Proof. unfold keep_artifact, check. pose proof biz_untouched. keeps_tac. Qed.

Definition spared (w w' : World) : Prop := untouched (db w) (db w').

#[local] Instance spared_preorder : PreOrder spared.
Proof. split; unfold spared; [by intros w|]. intros a b c H1 H2. by transitivity (db b). Qed.

Lemma on_db_spared {A} (m : PyM DB A) : keeps untouched m -> keeps spared (on_db m).
Proof. intros Hm w. unfold on_db, spared. pose proof (Hm (db w)) as H. by destruct (m (db w)). Qed.

Lemma on_volume_spared {A} (m : PyM (gmap string string) A) : keeps spared (on_volume m).
Proof. intros w. unfold on_volume, spared. destruct (m _). by intros H. Qed.

Lemma begin_spared {A} (m : PyM World A) : keeps spared m -> keeps spared (begin m).
Proof. intros Hm w. unfold begin. pose proof (Hm w) as H. destruct (m w) as [[a|e] w']; [exact H|]. by intros Hj. Qed.

Lemma fetch_spared t c : keeps spared (fetch t c).
Proof.
  unfold fetch. pose proof @on_volume_spared. keeps_tac. apply on_db_spared.
  pose proof keep_artifact_untouched. pose proof advance_untouched. keeps_tac.
Qed.

Lemma run_one_spared deployment policy class t c : Jobs.c_job_id c <> id -> keeps spared (run_one deployment policy class t (handlers t) c).
Proof.
  intros Hn. unfold run_one. destruct (handlers t !! Jobs.c_kind c) as [h|] eqn:Hh; [|keeps_tac].
  assert (h = fetch t) as ->.
  { unfold handlers in Hh. apply lookup_insert_Some in Hh as [[_ <-]|[_ [_ <-]%lookup_singleton_Some]]; done. }
  assert (Hf : forall k e, keeps spared (on_db (fail_exception deployment policy class t c k e))).
  { intros k e. apply on_db_spared. unfold fail_exception. pose proof fail_untouched. destruct (exn_kind e); eauto. }
  apply keeps_try; [typeclasses eauto| |].
  - apply keeps_bind; [typeclasses eauto| |intros _; keeps_tac]. apply begin_spared.
    pose proof fetch_spared. apply keeps_bind; [typeclasses eauto| |intros _; apply keeps_bind; [typeclasses eauto|done|intros _]].
    + apply on_db_spared. unfold before_handler, lock_case. keeps_tac.
    + apply on_db_spared. by apply fenced_untouched.
  - intros e. destruct (exn_kind e); try apply Hf; keeps_tac.
Qed.
End Others.

Lemma reap_untouched deployment t kinds s id j r s' :
  Jobs.queue_wf s -> others t s = s -> Jobs.jobs s !! id = Some j -> ours manifest kinds s j = false ->
  reap_exhausted manifest deployment t kinds s = (r, s') -> Jobs.jobs s' !! id = Some j /\ (r = Ok None -> s' = s).
Proof.
  intros Hq Hot Hj Ho H. unfold reap_exhausted, bind at 1, get at 1 in H. destruct (spent_rows manifest kinds s) as [|x l] eqn:Hrows.
  { injection H as <- <-. by split. }
  assert (Hx : x ∈ spent_rows manifest kinds s) by (rewrite Hrows; by left). apply spent_rows_spec in Hx as ([i Hi] & Hox & _).
  pose proof (proj1 (Jobs.wf_jobs _ Hq i x Hi)) as Hxi. cbn in Hxi. subst i.
  assert (Hne : Jobs.job_id x <> id) by (intros <-; congruence).
  unfold bind at 1, modify at 1 in H. rewrite Hot in H. split.
  - match type of H with ?m s = _ => assert (Hk : keeps (untouched id j) m); [|pose proof (Hk s Hj) as H'; by rewrite H in H'] end.
    pose proof (publish_untouched id j). pose proof (untouched_preorder id j). unfold reap. keeps_tac.
    intros H'. cbn. by rewrite lookup_insert_ne.
  - revert H. unfold try_except, bind. destruct (transaction _ _) as [[st|e] s2]; [by intros [= <- _]|]. by destruct (exn_kind e); intros [= <- _].
Qed.

Lemma candidates_ours kinds s i : Jobs.queue_wf s -> i ∈ candidates manifest kinds s -> exists x, Jobs.jobs s !! i = Some x /\ ours manifest kinds s x = true.
Proof.
  intros Hq Hin. unfold candidates in Hin. eapply subseteq_take in Hin. apply list_elem_of_In, in_map_iff in Hin as (x & <- & Hx).
  apply list_elem_of_In in Hx. rewrite isort_perm, list_elem_of_filter, list_elem_of_fmap in Hx. destruct Hx as [Ho ([k y] & -> & Hk%elem_of_map_to_list)].
  apply Is_true_true, andb_true_iff in Ho as [Ho _]. cbn [fst snd] in *. rewrite (proj1 (Jobs.wf_jobs _ Hq k y Hk)). by exists y.
Qed.

(** A worker leaves other deployments alone: a job whose request was made
    under another manifest, profile, chain key or SDK version, or whose kind the
    worker does not handle, is never leased, failed or reaped by it, whatever
    its turn does and however it ends. *)
Theorem other_deployments_untouched deployment policy worker secs class t w id j :
  Jobs.queue_wf (db w) -> others t (db w) = db w ->
  Jobs.jobs (db w) !! id = Some j -> ours manifest (map_to_list (handlers t)).*1 (db w) j = false ->
  Jobs.jobs (db (run_once manifest deployment policy worker secs class t (handlers t) w).2) !! id = Some j.
Proof.
  intros Hq Hot Hj Ho. unfold run_once. cbv zeta. set (kinds := (map_to_list (handlers t)).*1) in *. unfold bind at 1, on_db at 1.
  destruct (reap_exhausted manifest deployment t kinds (db w)) as [r s1] eqn:Hr. apply (reap_untouched _ _ _ _ _ _ _ _ Hq Hot Hj Ho) in Hr as [Hj1 Hn].
  destruct r as [[st|]|e]; [exact Hj1| |exact Hj1]. rewrite (Hn eq_refl). clear Hn Hj1.
  unfold bind at 1, get at 1. change (db (w <| db := db w |>)) with (db w). unfold bind at 1, on_db at 1. change (db (w <| db := db w |>)) with (db w).
  destruct (Jobs.claim worker kinds secs 8 (Some (candidates manifest kinds (db w))) (db w)) as [[[c|]|e] s2] eqn:Hc.
  - apply Jobs.claim_Ok in Hc as (i & x & Hin & Hi & _ & -> & ->).
    apply (Jobs.candidate_spec _ _ _ _ _ Hq) in Hin as (y & Hy & He). pose proof (proj1 (Jobs.wf_jobs _ Hq i y Hy)) as Hyi.
    assert (y = x) as -> by congruence. unfold Jobs.eligible in He. apply andb_true_iff in He as [_ He].
    apply existsb_exists in He as (k & Hk%list_elem_of_In & <-%String.eqb_eq). rewrite Hyi in Hk.
    destruct (candidates_ours _ _ _ Hq Hk) as (z & Hz & Hoz). assert (Hne : i <> id) by (intros <-; congruence).
    unfold bind at 1. match goal with |- context [run_one ?d ?p ?cl ?t ?h ?c ?w1] =>
      assert (Hs : spared id j w1 (run_one d p cl t h c w1).2) by (apply run_one_spared; cbn; by rewrite Hyi);
      destruct (run_one d p cl t h c w1) as [[st|e] w2] end; apply Hs; cbn; by rewrite lookup_insert_ne.
  - apply Jobs.claim_None in Hc as ->. exact Hj.
  - destruct (Jobs.claim_total worker kinds secs 8 (Some (candidates manifest kinds (db w))) (db w)) as (x & s3 & E). congruence.
Qed.
End Pipeline.

(** * One request, three failures and a proof *)

Module PEx.

Definition ulid_ : string := "01ARZ3NDEKTSV4RRFFQ69G5FAV".
Definition ulid2_ : string := "01ARZ3NDEKTSV4RRFFQ69G5FAW".
Definition manifest_ : Manifest := {| m_hash := "m1"; m_profile := "RWA_V1"; m_chain_key := 3; m_sdk := "1.2" |}.
Definition facts_ : RequestFacts := {| f_env := "rackline"; f_provider := "prov"; f_profile := "RWA_V1"; f_manifest := "m1"; f_sdk := "1.2"; f_chain_key := 3; f_tx := "0xabc" |}.

Definition answer_ : json := JObj [("height", JInt 100); ("manifestHash", JStr "m1"); ("nativeAccepted", JBool false); ("sdkVersion", JStr "1.2");
  ("status", JStr "PROOF_READY"); ("txHash", JStr "0xabc"); ("txIndex", JInt 7); ("version", JInt 1)]%string.

Definition tick_ : Tick := {| clock := 5; jitter := QArith_base.Qmake 1 2; fresh_case := ulid_; fresh_artifact := ulid2_; fresh_submit := "J8"; fresh_fetch := "J9";
  sdk _ _ := Exited 0 (bytes_of (canonical answer_)); others s := s |}.

(** A job in its last attempt, leased until 40. *)
Definition job_ : Jobs.Job := {|
  Jobs.job_id := "J1"; Jobs.kind := "PROOF_FETCH_ARTIFACT"; Jobs.semantic_idempotency_key := "k1"; Jobs.job_payload_hash := "h";
  Jobs.payload := JObj [("proofRequestId", JStr "R1")]%string; Jobs.state := Jobs.LEASED; Jobs.attempt := 3; Jobs.max_attempts := 3;
  Jobs.leased_by := Some "w"%string; Jobs.lease_until := Some 40; Jobs.next_run_at := 0; Jobs.last_error := None |}.

Definition db_ (now : Z) : Jobs.DB Biz := {|
  Jobs.jobs := {[ "J1"%string := job_ ]}; Jobs.audit_log := []; Jobs.now := now;
  Jobs.biz := {| facts := {[ "R1"%string := facts_ ]};
    tables := {| Requests.requests := {[ "R1"%string := {| Requests.status := "WAITING_ATTESTATION"; Requests.last_error := None; Requests.attempt := 0 |} ]};
                 Requests.artifacts := ∅; Requests.verifications := ∅; Requests.consumptions := ∅ |};
    artifacts := []; api_ready_at := ∅; cases := ∅; reviews := ∅; outbox := Outbox.empty_outbox |} |}.

Definition claim_ : Jobs.ClaimedJob := Jobs.claimed "w" job_.
Definition reject_float (s : string) : json := JNull.
Definition reject_wide (l : list Z) : res string := Raise (Exn ValueError "utf-16").
Definition pg_ (s : string) : option Z := None.

Lemma db_wf now : worker_wf (db_ now).
Proof. split; [|apply Outbox.empty_outbox_wf]. intros rid job i j x y Hx. cbn in Hx. by rewrite lookup_empty in Hx. Qed.

#[local] Abbreviation fail_ := (fail "D1" Jobs.default_backoff tick_ claim_).

Lemma failure_recorded_witness : worker_wf (db_ 30) /\ worker_wf (fail_ Jobs.TRANSIENT "late" (Some "NOT_READY"%string) (db_ 30)).2.
Proof.
  split; [apply db_wf|].
  pose proof (failure_recorded "D1" Jobs.default_backoff tick_ claim_ Jobs.TRANSIENT "late" (Some "NOT_READY"%string) (db_ 30) (db_wf 30)) as H.
  destruct (fail_ Jobs.TRANSIENT "late" (Some "NOT_READY"%string) (db_ 30)) as [[st|e] s']; [exact (proj1 H)|]. cbn [snd]. rewrite H. apply db_wf.
Defined.

Definition settings_ : Commands.Settings := {| Commands.engine := true; Commands.profile := "RWA_V1"; Commands.set_chain := Some 1; Commands.manifest_hash := Some "m1"%string |}.

#[local] Abbreviation dead_ k := (fail_ k "late" None (db_ 30)).2.

Lemma dead_run k : fail_ k "late" None (db_ 30) = (Ok "DEAD"%string, dead_ k).
Proof. apply run_Ok. destruct k; vm_compute; reflexivity. Qed.

Lemma dead_row k : request_row (dead_ k) (Some "R1"%string) = Some ("R1"%string, facts_, {| Requests.status := "WAITING_ATTESTATION"; Requests.last_error := None; Requests.attempt := 0 |}).
Proof. destruct k; vm_compute; reflexivity. Qed.

(** Out of attempts while the proof is awaited: retryable.  For good: not. *)
Lemma retry_contract_witness :
  (exists j', Commands.retryable settings_ (product (Commands.KEx.db_ "WARNING") (dead_ Jobs.TRANSIENT))
                (dead_case "D1" claim_ Jobs.TRANSIENT "R1" facts_ "WAITING_ATTESTATION") = Ok ("J1"%string, j')) /\
  ~ exists j', Commands.retryable settings_ (product (Commands.KEx.db_ "WARNING") (dead_ Jobs.TERMINAL))
                (dead_case "D1" claim_ Jobs.TERMINAL "R1" facts_ "WAITING_ATTESTATION") = Ok ("J1"%string, j').
Proof.
  pose proof (fun k => retry_contract "D1" Jobs.default_backoff settings_ (Commands.KEx.db_ "WARNING") tick_ claim_ k "late" None (db_ 30) _ "R1" facts_ _ job_
    (db_wf 30) (dead_run k) eq_refl eq_refl eq_refl ltac:(done) ltac:(done) eq_refl (dead_row k) eq_refl eq_refl) as H.
  split.
  - exact (proj1 (proj1 (proj2 (H Jobs.TRANSIENT))) eq_refl).
  - intros Hr. apply (proj1 (proj2 (H Jobs.TERMINAL))) in Hr. discriminate Hr.
Defined.

Definition kinds_ : list string := ["PROOF_FETCH_ARTIFACT"]%string.

Lemma queue_wf_ now : Jobs.queue_wf (db_ now).
Proof.
  split; cbn.
  - intros i x [<- <-]%lookup_singleton_Some. split; [done|]. split; cbn; [lia|lia|by eauto|done].
  - intros i j x y [<- _]%lookup_singleton_Some [<- _]%lookup_singleton_Some. done.
  - done.
Qed.

(** The worker of the last attempt is gone at 50; then nothing is left to reap. *)
Lemma reap_progress_witness :
  exists s' i x, reap_exhausted manifest_ "D1" tick_ kinds_ (db_ 50) = (Ok (Some "DEAD"%string), s') /\ Jobs.jobs (db_ 50) !! i = Some x /\
    ours manifest_ kinds_ (db_ 50) x = true /\ spent (Jobs.now (db_ 50)) x = true /\ Jobs.job_leb x job_ = true /\
    Jobs.jobs s' = <[i := Jobs.release Jobs.DEAD (Some EXPIRED_REASON) x]> (Jobs.jobs (db_ 50)).
Proof.
  refine (reap_progress manifest_ "D1" tick_ kinds_ (db_ 50) "J1" job_ (queue_wf_ 50) eq_refl eq_refl eq_refl _ (db_wf 50) eq_refl eq_refl eq_refl).
  intros i x Hx _. cbn in Hx. apply lookup_singleton_Some in Hx as [<- <-]. by exists (Some "R1"%string).
Defined.

(** While the lease may still be renewed, nothing is reaped. *)
Lemma reap_only_spent_witness : worker_wf (db_ 30) /\ reap_exhausted manifest_ "D1" tick_ kinds_ (db_ 30) = (Ok None, db_ 30).
Proof.
  split; [apply db_wf|]. pose proof (reap_only_spent manifest_ "D1" tick_ kinds_ (db_ 30) (db_wf 30)) as H.
  destruct (reap_exhausted manifest_ "D1" tick_ kinds_ (db_ 30)) as [[[st|]|e] s'] eqn:E; [|by destruct H as [-> _]|].
  - vm_compute in E. discriminate E.
  - vm_compute in E. discriminate E.
Defined.

(** ** The proof arrives *)

Definition world_ : World := {| db := db_ 30; volume := ∅ |}.

Lemma call_ : call reject_float reject_wide tick_ "proof" (proof_query facts_) = Ok answer_.
Proof.
  unfold call. change (negb (mem_str "proof" ["proof"; "encode-submission"]%string)) with false. cbv iota.
  assert ((MAX_SDK <? zlen (bytes_of (Commands.ensure_ascii (canonical (proof_query facts_))))) = false) as -> by reflexivity.
  change (sdk tick_ "proof" (proof_query facts_)) with (Exited 0 (bytes_of (canonical answer_))). cbv beta iota.
  assert ((MAX_SDK <? zlen (bytes_of (canonical answer_))) = false) as -> by reflexivity. change (negb (0 =? 0)) with false. cbv iota.
  rewrite JsonText.loads_bytes_canonical by reflexivity. reflexivity.
Qed.

#[local] Abbreviation fetched := (fetch manifest_ pg_ reject_float reject_wide tick_ claim_ world_).

(** A digest is 32 bytes in lower-case hex, without evaluating it. *)
Lemma digest_hex32 body : HEX32_CHECK (Ingestion.payload_hash_of body) = true.
Proof.
  unfold Ingestion.payload_hash_of, sha256_hex, HEX32_CHECK, hex_text. cbn [String.append].
  assert (H : forall l, is_bytes l -> String.length (hex l) = (2 * length l)%nat /\ Domain.string_forallb lower_hex (hex l) = true).
  { assert (Hd : forall x, 0 <= x < 16 -> lower_hex (hex_digit x) = true).
    { intros x Hx. assert (Hc : Forall (fun x => lower_hex (hex_digit x) = true) (map Z.of_nat (seq 0 16))) by (repeat constructor).
      rewrite Forall_forall in Hc. apply Hc, list_elem_of_fmap. exists (Z.to_nat x). rewrite elem_of_seq. lia. }
    induction 1 as [|b l Hb _ [IH1 IH2]]; [done|]. unfold is_byte in Hb. cbn. rewrite IH1. split; [lia|].
    rewrite !Hd by (split; try apply Z.div_pos; try apply Z.mod_pos_bound; try apply Z.div_lt_upper_bound; lia). exact IH2. }
  destruct (H _ (sha256_bytes (bytes_of body))) as [H1 H2]. rewrite sha256_length in H1.
  match goal with |- context [String.append "0x" ?h] => change (String.append "0x" h) with (String "0" (String "x" h)) end. cbv beta iota.
  by rewrite H1, H2.
Qed.

Lemma fetched_ : fetched = (Ok tt, fetched.2).
Proof.
  apply run_Ok. unfold fetch, bind at 1, get at 1, bind at 1, lift_res at 1. cbn [db world_].
  assert (_request manifest_ (db_ 30) claim_ = Ok ("R1"%string, facts_, {| Requests.status := "WAITING_ATTESTATION"; Requests.last_error := None; Requests.attempt := 0 |})) as -> by reflexivity.
  cbv beta iota. cbn [Requests.status]. change (mem_str "WAITING_ATTESTATION" ["PROOF_READY"; "SUBMITTED"; "NATIVE_ACCEPTED"; "CONSUMED"]%string) with false. cbv iota.
  unfold bind at 1, lift_res at 1. fold (proof_query facts_). rewrite call_.
  assert (is_text (get_field "manifestHash" answer_) (f_manifest facts_) && is_text (get_field "txHash" answer_) (f_tx facts_) = true) as -> by reflexivity.
  cbn [negb]. change (is_text (get_field "status" answer_) "PROOF_READY") with true.
  assert ((if get_field "nativeAccepted" answer_ is Some (JBool false) then true else false) && is_text (get_field "sdkVersion" answer_) (f_sdk facts_) = true) as -> by reflexivity.
  cbn [negb]. set (body := body_of answer_). set (h := Ingestion.payload_hash_of body).
  assert (Hput : Ingestion.file_put h body ∅ = (Ok (Ingestion.blob_ref h), {[ h := body ]})).
  { unfold Ingestion.file_put. fold h. rewrite String.eqb_refl. reflexivity. }
  unfold bind at 1, on_volume. cbn [volume world_]. rewrite Hput. unfold on_db. cbn [db].
  unfold keep_artifact. cbv zeta. fold body. fold h. assert (Hh : HEX32_CHECK h = true) by apply digest_hex32. unfold check. rewrite Hh.
  clear Hput Hh. clearbody h. reflexivity.
Qed.

Lemma fetched_proof_kept_witness :
  fetched = (Ok tt, fetched.2) /\ status_of (db fetched.2) "R1" = Some "PROOF_READY"%string.
Proof.
  split; [exact fetched_|].
  destruct (fetched_proof_kept manifest_ pg_ reject_float reject_wide tick_ claim_ world_ fetched.2 tt fetched_) as (rid & f & r & Hrow & _ & _ & H).
  apply request_row_Some in Hrow as (_ & Hf & Hr). cbn in Hf, Hr. apply lookup_singleton_Some in Hf as [<- _]. apply lookup_singleton_Some in Hr as [_ <-].
  destruct H as [[H _]|(output & _ & _ & _ & _ & _ & _ & _ & _ & H & _)]; [discriminate H|exact H].
Defined.

(** Its last lease has run out, but a worker of another manifest leaves it. *)
Definition foreign_ : Manifest := {| m_hash := "m2"; m_profile := "RWA_V1"; m_chain_key := 3; m_sdk := "1.2" |}.
Definition class_ (k : exn_class) : string := "Error".
Definition world50 : World := {| db := db_ 50; volume := ∅ |}.

Lemma other_deployments_untouched_witness :
  spent 50 job_ = true /\
  Jobs.jobs (db (run_once foreign_ "D2" Jobs.default_backoff "w2" 120 class_ tick_ (handlers foreign_ pg_ reject_float reject_wide tick_) world50).2) !! "J1"%string = Some job_.
Proof.
  split; [reflexivity|].
  exact (other_deployments_untouched foreign_ pg_ reject_float reject_wide "D2" Jobs.default_backoff "w2" 120 class_ tick_ world50 "J1" job_
    (queue_wf_ 50) eq_refl eq_refl eq_refl).
Defined.
End PEx.
End ProofWorker.
