(* ===== verification/Receivables.v ===== *)
(** Observed receivables: recording obligations, applying revisions, and the
    gate report on a receivable.

    Source: offchain/gpu/hashcredit_gpu/receivables/service.py, with the
    constraints of db/ledgers.py and the trigger
    [hcg_receivable_revisions_monotonic] of migration 0002.  The caller owns the
    transaction; the advisory and row locks make each call atomic. *)

From S2P Require Import Prelude Domain Stdpy Columns Lifecycle Ledger.
Import Domain Columns Stdpy Ledger.

Module Receivables.

#[local] Abbreviation M := (PyM DB).

(** Models [receivables/service.py], [RevenueKind]. *)
Inductive RevenueKind :=
| RK_OPERATING_RECEIVABLE | RK_SELF_TRANSFER | RK_INCENTIVE | RK_REFUND | RK_BORROWING | RK_FUTURE_REVENUE | RK_UNKNOWN.

#[export] Instance RevenueKind_eq_dec : EqDecision RevenueKind.
Proof. solve_decision. Defined.

#[export] Program Instance RevenueKind_enum : StrEnum RevenueKind := {|
  value e := match e with
    | RK_OPERATING_RECEIVABLE => "OPERATING_RECEIVABLE"
    | RK_SELF_TRANSFER => "SELF_TRANSFER"
    | RK_INCENTIVE => "INCENTIVE"
    | RK_REFUND => "REFUND"
    | RK_BORROWING => "BORROWING"
    | RK_FUTURE_REVENUE => "FUTURE_REVENUE"
    | RK_UNKNOWN => "UNKNOWN"
    end%string;
  members := [RK_OPERATING_RECEIVABLE; RK_SELF_TRANSFER; RK_INCENTIVE; RK_REFUND; RK_BORROWING; RK_FUTURE_REVENUE; RK_UNKNOWN];
|}.
Solve Obligations with enum_tac.

(** Models [receivables/service.py], [ObligationInput]. *)
Record ObligationInput := {
  i_receivable : string;
  i_account : string;
  i_ref : string;
  i_observation : string;
  i_asset : AssetRef;
  i_gross : Z;
  i_net : Z;
  i_paid : Z;
  i_revision : Z;
  i_kind : RevenueKind;
  i_from : datetime;
  i_to : datetime;
  i_due : datetime;
  i_profile : string;
}.

(** Models [receivables/service.py], [ReceivableResult]. *)
Record ReceivableResult := { res_receivable : option string; res_created : bool; applied : bool; res_reason : option string }.

(** Models [receivables/service.py], [EligibilityResult]. *)
Record EligibilityResult := {
  el_receivable : string;
  el_policy : string;
  el_profile : string;
  eligible : bool;
  eligible_source_units : Z;
  observed_unpaid_units : Z;
  reasons : list string;
  borrowing_base_loan_units : option Z;
}.

Definition fail {A} (msg : string) : M A := raise ReceivableError msg.

(** [session.get(T, id)] *)
Definition row {V} (t : gmap string V) (id : string) : option V := t !! id.

(** Models [receivables/service.py], [_source].  The foreign key of an account
    says its provider exists. *)
Definition source (account_id observation_id profile : string) : M (ProviderAccount * Provider) :=
  let* s := get in
  match row (accounts s) account_id with
  | None => fail "unknown provider account"
  | Some account =>
      match row (providers s) (pa_provider account) with
      | None => raise AttributeError "provider"
      | Some provider =>
          if negb (String.eqb (p_profile provider) profile) then fail "execution profile mismatch"
          else if negb (bool_decide (row (observations s) observation_id = Some (pa_provider account))) then
            fail "observation provider mismatch"
          else ret (account, provider)
      end
  end.

(** Models [receivables/service.py], [_trace]. *)
Definition trace (r : Receivable) (observation_id action : string) : M unit :=
  let* _ := emit "receivable" (receivable_id r) action ("receivable:" ++ receivable_id r ++ ":" ++ observation_id)
    (JObj [("receivableId"%string, JStr (receivable_id r)); ("economicEventId"%string, JStr (economic_event_id r));
           ("observationId"%string, JStr observation_id); ("revision"%string, JInt (revision r));
           ("net"%string, JStr (py_str (net r))); ("paid"%string, JStr (py_str (paid_amount r)));
           ("unpaid"%string, JStr (py_str (unpaid_amount r))); ("executionProfile"%string, JStr (r_profile r));
           ("trust"%string, JStr "ASSERTED"); ("creditApproved"%string, JBool false)]) in
  ret tt.

(** INSERT INTO receivable_revisions: the constraints and the trigger. *)
Definition latest_revision (rid : string) (l : list ReceivableRevision) : option Z :=
  foldr (fun v acc => if String.eqb (v_receivable v) rid && negb (out_of_order v) then
                        Some (match acc with Some m => Z.max (v_revision v) m | None => v_revision v end) else acc) None l.

Definition same_revision (v w : ReceivableRevision) : bool :=
  String.eqb (v_receivable v) (v_receivable w) && (v_revision v =? v_revision w) && String.eqb (v_kind v) (v_kind w).

Definition insert_revision (v : ReceivableRevision) : M unit :=
  let* s := get in
  if negb (revision_check v) then violated "receivable_revisions check"
  else if bool_decide (receivables s !! v_receivable v = None) then violated "receivable_id_fkey"
  else if existsb (same_revision v) (revisions s) then violated "uq_receivable_revisions_rev"
  else if negb (out_of_order v) && (if latest_revision (v_receivable v) (revisions s) is Some m then v_revision v <=? m else false)
       then violated "receivable revision is not after latest"
  else
    modify (fun s => s <| revisions ::= fun l => l ++ [v] |>) ;;;
    if out_of_order v then ret tt
    else modify (fun s => s <| receivables ::= alter (fun r => if revision r <? v_revision v then r <| revision := v_revision v |> else r) (v_receivable v) |>).

Definition insert_receivable (r : Receivable) : M unit :=
  let* s := get in
  if negb (receivable_check r) then violated "receivables check"
  else if bool_decide (is_Some (receivables s !! receivable_id r)) then violated "receivables_pkey"
  else if bool_decide (select (fun x => String.eqb (economic_event_id x) (economic_event_id r)) (receivables s) <> []) then
    violated "uq_receivables_economic_event"
  else if bool_decide (select (fun x => String.eqb (r_account x) (r_account r) && String.eqb (obligation_ref x) (obligation_ref r)) (receivables s) <> [])
       then violated "uq_receivables_account_ref"
  else modify (fun s => s <| receivables ::= <[receivable_id r := r]> |>).

Definition update_receivable (r : Receivable) : M unit :=
  if negb (receivable_check r) then violated "receivables check" else modify (fun s => s <| receivables ::= <[receivable_id r := r]> |>).

Definition done_ (id : string) (created_ applied_ : bool) (why : option string) : ReceivableResult :=
  {| res_receivable := Some id; res_created := created_; applied := applied_; res_reason := why |}.

(** The character [/] occurs. *)
Fixpoint has_slash (s : string) : bool :=
  match s with
  | EmptyString => false
  | String a s' => Ascii.eqb a "/" || has_slash s'
  end.

Definition economic_id (provider external ref : string) : string := provider ++ "/" ++ external ++ "/OBLIGATION/" ++ ref.

Definition opt_lt (a b : option Z) : bool := match a, b with Some x, Some y => x <? y | _, _ => false end.

(** The receivables of the same account whose service period overlaps. *)
Definition overlaps (r : Receivable) (s : DB) : list Receivable :=
  select (fun o => String.eqb (r_account o) (r_account r) && negb (String.eqb (receivable_id o) (receivable_id r)) &&
                   opt_lt (period_from o) (period_to r) && opt_lt (period_from r) (period_to o) &&
                   negb (mem_str (r_state o) ["CANCELLED"; "WRITTEN_OFF"])) (receivables s).

(** The row already records what the command says. *)
Definition same_obligation (r : Receivable) (c : ObligationInput) (from to due : Z) : bool :=
  (revision r =? i_revision c) && (gross r =? i_gross c) && (net r =? i_net c) && (paid_amount r =? i_paid c) &&
  (asset_chain_id r =? chain_id (i_asset c)) && bool_decide (asset_token_address r = address (i_asset c)) &&
  (asset_decimals r =? decimals (i_asset c)) && bool_decide (period_from r = Some from) && bool_decide (period_to r = Some to) &&
  bool_decide (due_at r = Some due) && String.eqb (r_profile r) (i_profile c).

(** Models [receivables/service.py], [record_obligation]. *)
Definition record_obligation (c : ObligationInput) (as_of : datetime) : M ReceivableResult :=
  let* now := lift_res (aware as_of "as_of") in
  let* from := lift_res (aware (i_from c) "period_from") in
  let* to := lift_res (aware (i_to c) "period_to") in
  let* due := lift_res (aware (i_due c) "due_at") in
  let* _ := lift_res (units (i_gross c) "gross" false) in
  let* _ := lift_res (units (i_net c) "net" false) in
  let* _ := lift_res (units (i_paid c) "paid_amount" false) in
  let* _ := lift_res (units (i_revision c) "revision" false) in
  if (i_revision c <? 1) || negb ((0 <=? i_paid c) && (i_paid c <=? i_net c) && (i_net c <=? i_gross c)) then
    fail "invalid revision or gross/net/paid relationship"
  else if String.eqb (i_ref c) "" || has_slash (i_ref c) || negb (fits 128 (i_ref c)) then
    fail "obligation reference must be stable, nonempty and unambiguous"
  else if (to <=? from) || (due <? to) then fail "invalid service period or due date"
  else
    let* ap := source (i_account c) (i_observation c) (i_profile c) in
    let (account, provider) := (ap : ProviderAccount * Provider) in
    if negb (chain_id (i_asset c) =? source_chain_id provider) then fail "source chain does not match provider"
    else if negb (bool_decide (i_kind c = RK_OPERATING_RECEIVABLE)) || (now <? to) then
      let why := (if (now <? to)%Z then "FUTURE_REVENUE" else "NON_OPERATING:" ++ value (i_kind c))%string in
      exception "REVENUE_INELIGIBLE" "raw_source_observations" (i_observation c) [("reason"%string, JStr why)] ;;;
      ret {| res_receivable := None; res_created := false; applied := false; res_reason := Some why |}
    else
      let* s := get in
      match scalar (fun r => String.eqb (r_account r) (provider_account_id account) && String.eqb (obligation_ref r) (i_ref c)) (receivables s) with
      | Some r =>
          if same_obligation r c from to due then
            trace r (i_observation c) "RECEIVABLE_OBSERVATION_MERGED" ;;;
            ret (done_ (receivable_id r) false false (Some "DUPLICATE_OBSERVATION"%string))
          else
            let why := (if negb (i_revision c =? revision r)%Z then "REVISION_REQUIRES_DELTA" else "AMOUNT_OR_BINDING_CONFLICT")%string in
            exception why "receivables" (receivable_id r) [("observationId"%string, JStr (i_observation c))] ;;;
            ret (done_ (receivable_id r) false false (Some why))
      | None =>
          let r := {| receivable_id := i_receivable c;
                      economic_event_id := economic_id (provider_id provider) (external_account_id account) (i_ref c);
                      r_account := provider_account_id account; obligation_ref := i_ref c; asset_chain_id := chain_id (i_asset c);
                      asset_token_address := address (i_asset c); asset_decimals := decimals (i_asset c); gross := i_gross c;
                      net := i_net c; paid_amount := i_paid c; unpaid_amount := i_net c - i_paid c;
                      r_state := if i_net c =? i_paid c then "PAID" else "RECOGNIZED"; revision := i_revision c;
                      r_facility := None; checkpoint_seq := None; checkpoint_consumption_id := None; period_from := Some from;
                      period_to := Some to; due_at := Some due; disputed_reason := None; r_profile := i_profile c |} in
          insert_receivable r ;;;
          insert_revision {| v_receivable := receivable_id r; v_revision := revision r; v_kind := "RECOGNIZED";
                             v_observation := i_observation c; delta := i_net c; net_after := net r;
                             unpaid_after := unpaid_amount r; out_of_order := false |} ;;;
          let* s := get in
          for_each (overlaps r s) (fun o =>
            exception "PERIOD_OVERLAP_REVIEW" "receivables" (receivable_id o) [("otherReceivableId"%string, JStr (receivable_id r))] ;;;
            exception "PERIOD_OVERLAP_REVIEW" "receivables" (receivable_id r) [("otherReceivableId"%string, JStr (receivable_id o))]) ;;;
          trace r (i_observation c) "RECEIVABLE_OBSERVED" ;;;
          ret (done_ (receivable_id r) true true None)
      end.

(** Revokes the open credit decisions of a facility. Models [receivables/service.py], lines 428-437. *)
Definition revoke (facility : string) (d : CreditDecision) : CreditDecision :=
  if String.eqb (d_facility d) facility && mem_str (d_status d) ["DRAFT"; "APPROVED"] then d <| d_status := "REVOKED"%string |> else d.

(** Net and paid after a revision of the given kind. Models [receivables/service.py], lines 391-397. *)
Definition revised (kind : string) (delta net paid : Z) : Z * Z :=
  if String.eqb kind "CORRECTION" then (net + delta, paid)
  else if String.eqb kind "PAYOUT" then (net, paid + delta)
  else (net, paid - delta).

(** Models [receivables/service.py], [apply_revision]. *)
Definition apply_revision (rid observation_id : string) (rev : Z) (kind : string) (d : Z) : M ReceivableResult :=
  let* _ := lift_res (units rev "revision" false) in
  let* _ := lift_res (units d "delta" (String.eqb kind "CORRECTION")) in
  if negb (mem_str kind ["CORRECTION"; "PAYOUT"; "CANCELLATION"]) || (d =? 0) then
    fail "explicit nonzero correction/payout/cancellation required"
  else
    let* s := get in
    match row (receivables s) rid with
    | None => fail "unknown receivable"
    | Some r =>
        let* _ := source (r_account r) observation_id (r_profile r) in
        let note := [("observationId"%string, JStr observation_id)] in
        match List.find (fun v => String.eqb (v_receivable v) rid && (v_revision v =? rev) && String.eqb (v_kind v) kind) (revisions s) with
        | Some previous =>
            if delta previous =? d then ret (done_ rid false false (Some "DUPLICATE_REVISION"%string))
            else
              exception "REVISION_CONFLICT" "receivables" rid note ;;;
              ret (done_ rid false false (Some "REVISION_CONFLICT"%string))
        | None =>
            if existsb (fun v => String.eqb (v_receivable v) rid && String.eqb (v_observation v) observation_id) (revisions s) then
              exception "OBSERVATION_ALREADY_APPLIED" "receivables" rid note ;;;
              ret (done_ rid false false (Some "OBSERVATION_ALREADY_APPLIED"%string))
            else if negb (rev =? revision r + 1) then
              insert_revision {| v_receivable := rid; v_revision := rev; v_kind := kind; v_observation := observation_id;
                                 delta := d; net_after := net r; unpaid_after := unpaid_amount r; out_of_order := true |} ;;;
              exception "REVISION_OUT_OF_ORDER" "receivables" rid note ;;;
              ret (done_ rid false false (Some "REVISION_OUT_OF_ORDER"%string))
            else if mem_str (r_state r) ["CANCELLED"; "WRITTEN_OFF"; "DISPUTED"] then
              fail "inactive/disputed receivable requires reviewed resolution"
            else
              let (net', paid') := revised kind d (net r) (paid_amount r) in
              if negb ((0 <=? paid') && (paid' <=? net') && (net' <=? gross r)) then
                exception "REVISION_BALANCE_CONFLICT" "receivables" rid note ;;;
                ret (done_ rid false false (Some "REVISION_BALANCE_CONFLICT"%string))
              else
                let r' := r <| net := net' |> <| paid_amount := paid' |> <| unpaid_amount := net' - paid' |> <| revision := rev |>
                  <| r_state := (if (paid' =? net')%Z then "PAID" else if negb (paid' =? 0)%Z then "PARTIALLY_PAID"
                                 else if truthy (r_facility r) then "ASSIGNED" else "RECOGNIZED")%string |>
                  <| checkpoint_seq := None |> <| checkpoint_consumption_id := None |> in
                update_receivable r' ;;;
                insert_revision {| v_receivable := rid; v_revision := rev; v_kind := kind; v_observation := observation_id;
                                   delta := d; net_after := net'; unpaid_after := net' - paid'; out_of_order := false |} ;;;
                (if truthy (r_facility r) then modify (fun s => s <| decisions ::= fmap (revoke (default ""%string (r_facility r))) |>)
                 else ret tt) ;;;
                trace r' observation_id "RECEIVABLE_REVISED" ;;;
                ret (done_ rid false true None)
        end
    end.

(** ** The gate report *)

Definition one (b : bool) (r : string) : list string := if b then [r] else [].

(** [dict.fromkeys(l)]: the first occurrence of each. *)
Definition fromkeys (l : list string) : list string := fold_left (fun acc x => if mem_str x acc then acc else acc ++ [x]) l [].

Definition control_current (c : option ControlAgreement) (r : Receivable) (f : Facility) (now : Z) : bool :=
  match c with
  | None => false
  | Some c =>
      mem_str (control_grade c) ["E2"; "E3"] && String.eqb (ca_account c) (r_account r) && String.eqb (ca_borrower c) (f_borrower f) &&
      bool_decide (funded_agreement_version f = Some (ca_version c)) &&
      match effective_from c with Some t => t <=? now | None => false end &&
      match effective_to c with Some t => now <? t | None => true end
  end.

Definition checkpoint_bound (c : option EvidenceConsumption) (v : option NativeVerification) (r : Receivable) (f : Facility) (p : Provider) : bool :=
  match c, v with
  | Some c, Some v =>
      String.eqb (meaning c) "CHECKPOINT" && String.eqb (trust c) "PROVEN" && String.eqb (verification_method c) "ATTESTCOIN_NATIVE" &&
      String.eqb (ev_profile c) (f_profile f) && String.eqb (ev_account c) (r_account r) && String.eqb (env_id c) (source_env_id p) &&
      (chain_key c =? source_chain_key p) && bool_decide (p_manifest p = Some (ev_manifest c)) && String.eqb (nv_status v) "ACCEPTED"
  | _, _ => false
  end.

(** Models [receivables/service.py], [evaluate_receivable]. *)
Definition evaluate_receivable (rid fid : string) (as_of : datetime) : M EligibilityResult :=
  let* now := lift_res (aware as_of "as_of") in
  let* s := get in
  match row (receivables s) rid, row (facilities s) fid with
  | Some r, Some f =>
      match row (accounts s) (r_account r) with
      | None => raise AttributeError "account"
      | Some account =>
          match row (providers s) (pa_provider account) with
          | None => raise AttributeError "provider"
          | Some provider =>
              let policy := row (policies s) (f_policy f) in
              let control := if truthy (f_control f) then row (controls s) (default ""%string (f_control f)) else None in
              let checkpoint := if truthy (checkpoint_consumption_id r) then row (evidence s) (default ""%string (checkpoint_consumption_id r)) else None in
              let verification := match checkpoint with Some c => row (verifications s) (ev_verification c) | None => None end in
              let bound := checkpoint_bound checkpoint verification r f provider in
              let l :=
                one (negb (String.eqb (r_profile r) (f_profile f) && String.eqb (p_profile provider) (f_profile f))) "PROFILE_MISMATCH" ++
                one (negb (bool_decide (r_facility r = Some fid) && String.eqb (pa_borrower account) (f_borrower f))) "FACILITY_ASSIGNMENT_MISMATCH" ++
                one (negb (String.eqb (environment_status provider) "PROBED" &&
                           bool_decide ((list_to_map (capabilities provider) : gmap string string) !! "source_support"%string = Some "SUPPORTED"%string)))
                  "SOURCE_SUPPORT_UNCONFIRMED" ++
                one (match policy with None => true | Some p => String.eqb (f_profile f) "PRODUCTION" && test_only p end) "POLICY_NOT_APPROVED" ++
                one (mem_str (r_state r) ["PAID"; "CANCELLED"; "WRITTEN_OFF"; "DISPUTED"] || (unpaid_amount r <=? 0)) "NO_ELIGIBLE_UNPAID_BALANCE" ++
                one (match period_to r with None => true | Some t => now <? t end) "SERVICE_NOT_EARNED" ++
                one (match due_at r with None => true
                     | Some t => (t <=? now) || match maturity_at f with Some m => m <? t | None => false end end) "MATURITY_INELIGIBLE" ++
                one (blocked "receivables" rid s) "RECONCILIATION_EXCEPTION" ++
                one (negb (control_current control r f now)) "E2_CONTROL_NOT_CURRENT" ++
                (if negb bound then ["NATIVE_CHECKPOINT_MISSING_OR_INVALID"%string]
                 else one (match checkpoint with Some c => (valid_until c <=? now) || (now <? proven_at c) | None => false end) "NATIVE_CHECKPOINT_EXPIRED") ++
                ["DECODED_BUSINESS_BINDING_NOT_IMPLEMENTED"; "CURRENT_UNPAID_PROTECTION_NOT_IMPLEMENTED"]%string in
              ret {| el_receivable := rid; el_policy := f_policy f; el_profile := f_profile f; eligible := false;
                     eligible_source_units := 0; observed_unpaid_units := unpaid_amount r; reasons := fromkeys l;
                     borrowing_base_loan_units := None |}
          end
      end
  | _, _ => fail "unknown receivable or facility"
  end.

(** * The history of a receivable

    What a list of applied revisions says: the first recognises the claim, each
    later one carries the next number and moves the net or the paid amount. *)

Inductive history : list ReceivableRevision -> Z -> Z -> Z -> Prop :=
| history_recognized v paid :
    v_kind v = "RECOGNIZED"%string -> delta v = net_after v -> unpaid_after v = net_after v - paid -> 0 <= paid <= net_after v ->
    history [v] (v_revision v) (net_after v) paid
| history_revised l rev n p v :
    history l rev n p -> v_revision v = rev + 1 -> v_kind v ∈ ["CORRECTION"; "PAYOUT"; "CANCELLATION"]%string -> delta v <> 0 ->
    (revised (v_kind v) (delta v) n p).1 = net_after v -> unpaid_after v = net_after v - (revised (v_kind v) (delta v) n p).2 ->
    0 <= (revised (v_kind v) (delta v) n p).2 <= net_after v ->
    history (l ++ [v]) (rev + 1) (net_after v) (revised (v_kind v) (delta v) n p).2.

(** The revisions of a receivable that were applied, in order. *)
Definition applied_rows (rid : string) (l : list ReceivableRevision) : list ReceivableRevision :=
  filter (fun v => String.eqb (v_receivable v) rid && negb (out_of_order v)) l.

#[local] Arguments applied_rows : simpl never.

Record wf (s : DB) : Prop := {
  wf_rows : forall rid r, receivables s !! rid = Some r ->
    receivable_id r = rid /\ receivable_check r = true /\ history (applied_rows rid (revisions s)) (revision r) (net r) (paid_amount r);
  wf_refs : forall v, v ∈ revisions s -> is_Some (receivables s !! v_receivable v);
  wf_once : NoDup (map (fun v => (v_receivable v, v_observation v)) (revisions s));
}.

Lemma same_rows_wf s s' : same_rows s s' -> wf s -> wf s'.
Proof. intros (c & o & ->) [H1 H2 H3]. by split. Qed.

(** ** Inserting a revision *)

Lemma latest_le rid l m v : latest_revision rid l = Some m -> v ∈ l -> v_receivable v = rid -> out_of_order v = false -> v_revision v <= m.
Proof.
  revert m. induction l as [|w l IH]; intros m; [done|]. cbn. intros H Hin Hr Ho. apply elem_of_cons in Hin as [<-|Hin].
  - rewrite Hr, String.eqb_refl, Ho in H. cbn in H. destruct (foldr _ None l); injection H as <-; lia.
  - destruct (String.eqb _ _ && _); [|by apply IH]. fold (latest_revision rid l) in H.
    destruct (latest_revision rid l) as [m'|] eqn:Hm; injection H as <-; [specialize (IH m' eq_refl Hin Hr Ho); lia|].
    assert (Hex : exists m', latest_revision rid l = Some m'); [|destruct Hex; congruence].
    clear -Hin Hr Ho. induction l as [|w l IH]; [by apply elem_of_nil in Hin|]. cbn. apply elem_of_cons in Hin as [<-|Hin].
    + rewrite Hr, String.eqb_refl, Ho. cbn. by eexists.
    + destruct (IH Hin) as [m' Hm']. fold (latest_revision rid l). rewrite Hm'. destruct (_ && _); by eexists.
Qed.

Definition next_row (v : ReceivableRevision) (r : Receivable) : Receivable :=
  if revision r <? v_revision v then r <| revision := v_revision v |> else r.

Lemma insert_revision_run v s u s' :
  insert_revision v s = (Ok u, s') ->
  (out_of_order v = true /\ s' = s <| revisions ::= fun l => l ++ [v] |>) \/
  (out_of_order v = false /\ s' = s <| revisions ::= fun l => l ++ [v] |> <| receivables ::= alter (next_row v) (v_receivable v) |>).
Proof.
  intros H. unfold insert_revision, violated in H. run_inv H; [by left|by right].
Qed.

Lemma insert_revision_ref v s u s' : insert_revision v s = (Ok u, s') -> is_Some (receivables s !! v_receivable v).
Proof.
  intros H. unfold insert_revision, violated in H. run_inv H; apply bool_decide_eq_false in Hb0; by apply not_eq_None_Some.
Qed.

Lemma applied_rows_app rid l v :
  applied_rows rid (l ++ [v]) = applied_rows rid l ++ (if String.eqb (v_receivable v) rid && negb (out_of_order v) then [v] else []).
Proof. unfold applied_rows. rewrite filter_app. f_equal. rewrite filter_cons_bool. by destruct (_ && _). Qed.

Lemma once_snoc l v :
  NoDup (map (fun v => (v_receivable v, v_observation v)) l) ->
  existsb (fun w => String.eqb (v_receivable w) (v_receivable v) && String.eqb (v_observation w) (v_observation v)) l = false ->
  NoDup (map (fun v => (v_receivable v, v_observation v)) (l ++ [v])).
Proof.
  intros Hnd Hex. rewrite map_app. apply NoDup_app. split_and!; [done| |apply NoDup_singleton].
  intros p Hp Hq. apply list_elem_of_singleton in Hq as ->. apply list_elem_of_fmap in Hp as (w & [= Hr Ho] & Hw).
  assert (Ht : existsb (fun w => String.eqb (v_receivable w) (v_receivable v) && String.eqb (v_observation w) (v_observation v)) l = true); [|congruence].
  apply existsb_exists. exists w. split; [by apply list_elem_of_In|]. by rewrite <- Hr, <- Ho, !String.eqb_refl.
Qed.

(** A revision recorded as out of order changes no receivable. *)
Lemma out_of_order_wf s v :
  wf s -> out_of_order v = true -> is_Some (receivables s !! v_receivable v) ->
  existsb (fun w => String.eqb (v_receivable w) (v_receivable v) && String.eqb (v_observation w) (v_observation v)) (revisions s) = false ->
  wf (s <| revisions ::= fun l => l ++ [v] |>).
Proof.
  intros [H1 H2 H3] Ho Hr Hex. split; cbn.
  - intros rid r Hrow. rewrite applied_rows_app, Ho, andb_false_r, app_nil_r. by apply H1.
  - intros w [Hw|Hw]%elem_of_app; [by apply H2|]. by apply list_elem_of_singleton in Hw as ->.
  - by apply once_snoc.
Qed.

(** A revision applied with its receivable's new row. *)
Lemma applied_wf s v r' :
  wf s -> out_of_order v = false -> v_receivable v = receivable_id r' -> receivable_check r' = true -> revision r' = v_revision v ->
  history (applied_rows (receivable_id r') (revisions s) ++ [v]) (revision r') (net r') (paid_amount r') ->
  existsb (fun w => String.eqb (v_receivable w) (v_receivable v) && String.eqb (v_observation w) (v_observation v)) (revisions s) = false ->
  wf (s <| receivables ::= <[receivable_id r' := r']> |> <| revisions ::= fun l => l ++ [v] |>).
Proof.
  intros [H1 H2 H3] Ho Hr Hc Hrev Hh Hex. split; cbn.
  - intros rid r Hrow. rewrite applied_rows_app, Ho, Hr. cbn [negb]. rewrite andb_true_r.
    destruct (decide (receivable_id r' = rid)) as [<-|Hne].
    + rewrite lookup_insert_eq in Hrow. injection Hrow as <-. by rewrite String.eqb_refl.
    + rewrite lookup_insert_ne in Hrow by done. apply String.eqb_neq in Hne. rewrite Hne, app_nil_r. by apply H1.
  - intros w [Hw|Hw]%elem_of_app.
    + destruct (decide (receivable_id r' = v_receivable w)) as [<-|]; [rewrite lookup_insert_eq; by eexists|].
      rewrite lookup_insert_ne by done. by apply H2.
    + apply list_elem_of_singleton in Hw as ->. rewrite Hr, lookup_insert_eq. by eexists.
  - by apply once_snoc.
Qed.

(** ** Outcomes *)

Lemma source_run a o p s r s' : source a o p s = (Ok r, s') -> s' = s /\ receivables s' = receivables s /\ accounts s !! a = Some r.1.
Proof.
  intros H. unfold source, fail in H. run_inv H. done.
Qed.

Lemma trace_same r o a s u s' : trace r o a s = (Ok u, s') -> same_rows s s' /\ cases s' = cases s.
Proof.
  intros H. unfold trace in H. apply bind_Ok in H as (x & t & (Hs & Hc & _)%emit_same & H). run_inv H. done.
Qed.

Lemma exceptions_same l (f : Receivable -> M unit) s u s' :
  (forall x t u t', f x t = (Ok u, t') -> same_rows t t') -> for_each l f s = (Ok u, s') -> same_rows s s'.
Proof.
  intros Hf. revert s. induction l as [|x l IH]; intros s H; cbn in H; [run_inv H; apply same_rows_refl|].
  apply bind_Ok in H as (v & t & Hx & H). eapply same_rows_trans; [by eapply Hf|]. by apply IH.
Qed.

Lemma next_row_same v r (m : gmap string Receivable) id : revision r = v_revision v -> alter (next_row v) id (<[id := r]> m) = <[id := r]> m.
Proof.
  intros Hr. apply map_eq. intros j. destruct (decide (id = j)) as [<-|Hne].
  - rewrite lookup_alter_eq, lookup_insert_eq. cbn. unfold next_row. by rewrite Hr, Z.ltb_irrefl.
  - rewrite lookup_alter_ne, !lookup_insert_ne by done. done.
Qed.

Lemma next_row_state v r s : revision r = v_revision v -> receivable_id r = v_receivable v ->
  s <| receivables ::= <[receivable_id r := r]> |> <| revisions ::= fun l => l ++ [v] |> <| receivables ::= alter (next_row v) (v_receivable v) |>
  = s <| receivables ::= <[receivable_id r := r]> |> <| revisions ::= fun l => l ++ [v] |>.
Proof. intros Hr Hid. unfold set. cbn. by rewrite <- Hid, next_row_same. Qed.

(** The row and the first revision a command creates. *)
Definition recognised (c : ObligationInput) (r : Receivable) (v : ReceivableRevision) : Prop :=
  receivable_id r = i_receivable c /\ gross r = i_gross c /\ net r = i_net c /\ paid_amount r = i_paid c /\ revision r = i_revision c /\
  obligation_ref r = i_ref c /\ v_receivable v = receivable_id r /\ v_revision v = revision r /\ v_kind v = "RECOGNIZED"%string /\ v_observation v = i_observation c /\
  delta v = net r /\ net_after v = net r /\ unpaid_after v = net r - paid_amount r /\ out_of_order v = false.

Lemma record_obligation_run c as_of s r s' :
  record_obligation c as_of s = (Ok r, s') ->
  (applied r = false /\ same_rows s s') \/
  (applied r = true /\ res_receivable r = Some (i_receivable c) /\ res_created r = true /\
   exists row v t, recognised c row v /\ receivable_check row = true /\ receivables s !! receivable_id row = None /\
     t = s <| receivables ::= <[receivable_id row := row]> |> <| revisions ::= fun l => l ++ [v] |> /\ same_rows t s').
Proof.
  intros H. unfold record_obligation in H.
  do 8 (apply bind_Ok in H as (? & ? & Hl & H); unfold lift_res in Hl; injection Hl as _ <-).
  cbv zeta in H. destruct (_ || _); [done|]. destruct (_ || _); [done|]. destruct (_ || _); [done|].
  apply bind_Ok in H as ([account provider] & t & (-> & _)%source_run & H). destruct (negb (_ =? _)); [done|].
  destruct (_ || _).
  { apply bind_Ok in H as (u & t & (Hs & _)%exception_same & H). run_inv H. by left. }
  apply bind_Ok in H as (w & t & Hg & H). run_inv Hg. destruct (scalar _ _) as [row|].
  { destruct (same_obligation _ _ _ _ _).
    - apply bind_Ok in H as (u & t & [Hs _]%trace_same & H). run_inv H. by left.
    - apply bind_Ok in H as (u & t & (Hs & _)%exception_same & H). run_inv H. by left. }
  right. set (row := {| receivable_id := i_receivable c |}) in *.
  apply bind_Ok in H as (u1 & s1 & Hi & H). unfold insert_receivable, violated in Hi. run_inv Hi.
  set (v := {| v_receivable := receivable_id row |}) in *.
  apply bind_Ok in H as (u2 & s2 & Hv & H). apply insert_revision_run in Hv as [[? _]|[_ ->]]; [done|].
  apply bind_Ok in H as (u3 & s3 & Hg & H). run_inv Hg.
  apply bind_Ok in H as (u4 & s4 & Hx & H). apply exceptions_same in Hx.
  2: { intros o t u t' Ht. apply bind_Ok in Ht as (? & ? & (H1 & _)%exception_same & (H2 & _)%exception_same). by eapply same_rows_trans. }
  apply bind_Ok in H as (u5 & s5 & [Ht _]%trace_same & H). run_inv H. split_and!; [done..|].
  exists row, v. eexists. split_and!; [by split_and!| | |reflexivity|].
  - by apply negb_false_iff.
  - apply bool_decide_eq_false in Hb0. by apply eq_None_not_Some.
  - eapply same_rows_trans; [|exact Ht]. eapply same_rows_trans; [|exact Hx].
    rewrite next_row_state by done. apply same_rows_refl.
Qed.

Lemma record_obligation_wf c as_of s r s' : record_obligation c as_of s = (Ok r, s') -> wf s -> wf s'.
Proof.
  intros H Hs. apply record_obligation_run in H as [[_ Hsame]|(_ & _ & _ & row & v & t & Hrec & Hc & Hn & -> & Hsame)];
    [by eapply same_rows_wf|]. eapply same_rows_wf; [exact Hsame|].
  destruct Hrec as (_ & _ & _ & _ & _ & _ & Hv & Hrv & Hk & _ & Hd & Hna & Hua & Hooo).
  assert (Hnone : forall w, w ∈ revisions s -> v_receivable w <> receivable_id row).
  { intros w Hw Heq. apply (wf_refs s Hs) in Hw as [x Hx]. congruence. }
  assert (Hfresh : forall (p : ReceivableRevision -> bool), existsb (fun w => String.eqb (v_receivable w) (v_receivable v) && p w) (revisions s) = false).
  { intros p. destruct (existsb _ _) eqn:He; [|done]. apply existsb_exists in He as (w & Hw & Hp).
    apply andb_true_iff in Hp as [Hp%String.eqb_eq _]. destruct (Hnone w); [by apply list_elem_of_In|congruence]. }
  apply applied_wf; try done.
  assert (Hnil : applied_rows (receivable_id row) (revisions s) = []).
  { unfold applied_rows. destruct (filter _ _) as [|w l] eqn:Hf; [done|].
    assert (Hin : w ∈ w :: l) by apply list_elem_of_here. rewrite <- Hf in Hin. apply list_elem_of_filter in Hin as [Hp Hw].
    apply Is_true_true, andb_true_iff in Hp as [Hp%String.eqb_eq _]. by destruct (Hnone w). }
  rewrite Hnil. cbn. rewrite <- Hrv, <- Hna. apply history_recognized; [done|congruence|congruence|].
  unfold receivable_check in Hc. repeat (apply andb_true_iff in Hc; destruct Hc as [Hc ?]). lia.
Qed.

Lemma mem_str_In x l : mem_str x l = true -> x ∈ l.
Proof. unfold mem_str. intros (y & Hy & ->%String.eqb_eq)%existsb_exists. by apply list_elem_of_In. Qed.

(** A revision that was applied, and its new row. *)
Definition applies (s : DB) (rid obs : string) (rev : Z) (kind : string) (d : Z) (r r' : Receivable) (v : ReceivableRevision) : Prop :=
  receivables s !! rid = Some r /\ rev = revision r + 1 /\ kind ∈ ["CORRECTION"; "PAYOUT"; "CANCELLATION"]%string /\ d <> 0 /\
  mem_str (r_state r) ["CANCELLED"; "WRITTEN_OFF"; "DISPUTED"]%string = false /\
  (net r', paid_amount r') = revised kind d (net r) (paid_amount r) /\ 0 <= paid_amount r' <= net r' /\ net r' <= gross r /\
  unpaid_amount r' = net r' - paid_amount r' /\ revision r' = rev /\ receivable_id r' = receivable_id r /\ gross r' = gross r /\
  r_facility r' = r_facility r /\ checkpoint_consumption_id r' = None /\ checkpoint_seq r' = None /\ receivable_check r' = true /\
  v = {| v_receivable := rid; v_revision := rev; v_kind := kind; v_observation := obs; delta := d; net_after := net r';
         unpaid_after := net r' - paid_amount r'; out_of_order := false |}.

Definition unused (rid obs : string) (s : DB) : Prop :=
  existsb (fun w => String.eqb (v_receivable w) rid && String.eqb (v_observation w) obs) (revisions s) = false.

Lemma apply_revision_run rid obs rev kind d s res s' :
  apply_revision rid obs rev kind d s = (Ok res, s') -> wf s ->
  res_receivable res = Some rid /\ res_created res = false /\
  ((applied res = false /\ same_rows s s') \/
   (applied res = false /\ res_reason res = Some "REVISION_OUT_OF_ORDER"%string /\ unused rid obs s /\
    exists v, v_receivable v = rid /\ v_observation v = obs /\ out_of_order v = true /\ is_Some (receivables s !! rid) /\
      same_rows (s <| revisions ::= fun l => l ++ [v] |>) s') \/
   (applied res = true /\ res_reason res = None /\ unused rid obs s /\
    exists r r' v, applies s rid obs rev kind d r r' v /\
      same_rows (s <| receivables ::= <[rid := r']> |> <| revisions ::= fun l => l ++ [v] |>
                   <| decisions ::= fun m => if truthy (r_facility r) then fmap (revoke (default ""%string (r_facility r))) m else m |>) s')).
Proof.
  intros H Hs. unfold apply_revision in H.
  do 2 (apply bind_Ok in H as (? & ? & Hl & H); unfold lift_res in Hl; injection Hl as _ <-).
  destruct (negb (mem_str kind _) || (d =? 0)) eqn:Hkd; [done|]. apply orb_false_iff in Hkd as [Hk%negb_false_iff Hd%Z.eqb_neq].
  apply bind_Ok in H as (w & t & Hg & H). run_inv Hg. destruct (row (receivables s) rid) as [r|] eqn:Hr; [|done].
  apply bind_Ok in H as (ap & t & (-> & _)%source_run & H). cbv zeta in H.
  destruct (List.find _ _) as [previous|].
  { destruct (delta previous =? d).
    - run_inv H. split_and!; [done..|]. left. split; [done|apply same_rows_refl].
    - apply bind_Ok in H as (u & t & (Hx & _)%exception_same & H). run_inv H. split_and!; [done..|]. by left. }
  destruct (existsb _ _) eqn:Hun.
  { apply bind_Ok in H as (u & t & (Hx & _)%exception_same & H). run_inv H. split_and!; [done..|]. by left. }
  destruct (Z.eqb_spec rev (revision r + 1)) as [Hrev|Hrev]; cbn [negb] in H.
  2: { apply bind_Ok in H as (u & t & Hv & H). apply insert_revision_run in Hv as [[Ho ->]|[? _]]; [|done].
    apply bind_Ok in H as (u2 & t2 & (Hx & _)%exception_same & H). run_inv H. split_and!; [done..|]. right. left.
    split_and!; [done..|]. eexists. split_and!; [| | | |exact Hx]; done. }
  destruct (mem_str (r_state r) _) eqn:Hst; [done|].
  destruct (revised kind d (net r) (paid_amount r)) as [net' paid'] eqn:Hnp.
  destruct (negb _) eqn:Hbal.
  { apply bind_Ok in H as (u & t & (Hx & _)%exception_same & H). run_inv H. split_and!; [done..|]. by left. }
  apply negb_false_iff, andb_true_iff in Hbal as [[H1%Z.leb_le H2%Z.leb_le]%andb_true_iff H3%Z.leb_le].
  match type of H with bind (update_receivable ?x) _ _ = _ => set (r' := x) in * end.
  destruct (wf_rows s Hs _ _ Hr) as (Hid & _ & _).
  apply bind_Ok in H as (u1 & s1 & Hup & H). unfold update_receivable, violated in Hup. run_inv Hup. apply negb_false_iff in Hb.
  match type of H with bind (insert_revision ?x) _ _ = _ => set (v := x) in * end.
  apply bind_Ok in H as (u2 & s2 & Hv & H). apply insert_revision_run in Hv as [[? _]|[_ ->]]; [done|].
  rewrite next_row_state in H by done. change (receivable_id r') with (receivable_id r) in H. rewrite Hid in H.
  apply bind_Ok in H as (u3 & s3 & Hdec & H). apply bind_Ok in H as (u4 & s4 & [Ht _]%trace_same & H). run_inv H.
  split_and!; [done..|]. right. right. split_and!; [done..|]. exists r, r', v.
  split; [unfold applies; split_and!; try done; by apply mem_str_In|].
  eapply same_rows_trans; [|exact Ht]. destruct (truthy (r_facility r)); run_inv Hdec; by exists (cases s), (outbox s).
Qed.

Lemma apply_revision_wf rid obs rev kind d s res s' : apply_revision rid obs rev kind d s = (Ok res, s') -> wf s -> wf s'.
Proof.
  intros H Hs. apply apply_revision_run in H as (_ & _ & [[_ Hx]|[(_ & _ & Hun & v & Hv & Ho & Hooo & Hr & Hx)|(_ & _ & Hun & r & r' & v & Ha & Hx)]]); [| | |done].
  - by eapply same_rows_wf.
  - eapply same_rows_wf; [exact Hx|]. apply out_of_order_wf; try done; by rewrite Hv, ?Ho.
  - eapply same_rows_wf; [exact Hx|].
    destruct Ha as (Hr & Hrev & Hk & Hd & _ & Hnp & Hb & _ & _ & Hrev' & Hid & _ & _ & _ & _ & Hc & Hv).
    destruct (wf_rows s Hs _ _ Hr) as (Hid0 & _ & Hh).
    assert (Hw : wf (s <| receivables ::= <[receivable_id r' := r']> |> <| revisions ::= fun l => l ++ [v] |>)).
    { apply applied_wf; try done; try (rewrite Hv; cbn; congruence).
      rewrite Hid, Hid0, Hrev', Hrev. pose proof (history_revised _ _ _ _ v Hh) as Hh'. subst v. cbn in Hh'.
        rewrite <- Hnp in Hh'. cbn in Hh'. by apply Hh'. }
    rewrite Hid, Hid0 in Hw. destruct Hw as [W1 W2 W3]. by split.
Qed.

(** * Any sequence of calls *)

(** The rest of the system: facilities are assigned, receivables disputed or
    cancelled, cases resolved; the amounts and the revisions are this
    service's. *)
Definition kept (r r' : Receivable) : Prop :=
  receivable_id r' = receivable_id r /\ gross r' = gross r /\ net r' = net r /\ paid_amount r' = paid_amount r /\
  unpaid_amount r' = unpaid_amount r /\ revision r' = revision r /\ receivable_check r' = true.

Inductive step (s : DB) : DB -> Prop :=
| step_obligation c as_of : step s (transaction (record_obligation c as_of) s).2
| step_revision rid obs rev kind d : step s (transaction (apply_revision rid obs rev kind d) s).2
| step_world s' :
    revisions s' = revisions s ->
    (forall rid r', receivables s' !! rid = Some r' -> exists r, receivables s !! rid = Some r /\ kept r r') ->
    (forall rid, is_Some (receivables s !! rid) -> is_Some (receivables s' !! rid)) -> step s s'.

Definition grows (s s' : DB) : Prop := exists l, revisions s' = revisions s ++ l.

Lemma same_rows_grows s s' : same_rows s s' -> grows s s'.
Proof. intros (c & o & ->). exists []. by rewrite app_nil_r. Qed.

Lemma step_wf s s' : step s s' -> wf s -> wf s' /\ grows s s'.
Proof.
  intros H Hs.
  assert (Hnil : grows s s) by (exists []; by rewrite app_nil_r).
  destruct H as [c as_of|rid obs rev kind d|s' Hrev Hrows Hkeys].
  - unfold transaction. destruct (record_obligation c as_of s) as [[r|e] t] eqn:Hrun; [|done].
    split; [by eapply record_obligation_wf|].
    apply record_obligation_run in Hrun as [[_ Hx]|(_ & _ & _ & row & v & t' & _ & _ & _ & -> & (c' & o & ->))]; [by apply same_rows_grows|by exists [v]].
  - unfold transaction. destruct (apply_revision rid obs rev kind d s) as [[r|e] t] eqn:Hrun; [|done].
    split; [by eapply apply_revision_wf|].
    apply apply_revision_run in Hrun as (_ & _ & [[_ Hx]|[(_ & _ & _ & v & _ & _ & _ & _ & (c' & o & ->))|(_ & _ & _ & r0 & r' & v & _ & (c' & o & ->))]]);
      [by apply same_rows_grows|by exists [v]|by exists [v]|done].
  - split; [|by exists []; rewrite Hrev, app_nil_r]. destruct Hs as [H1 H2 H3]. split; rewrite ?Hrev; try done.
    + intros rid r' Hr'. destruct (Hrows rid r' Hr') as (r & Hr & Hid & _ & Hn & Hp & _ & Hv & Hc).
      destruct (H1 rid r Hr) as (Hrid & _ & Hh). split_and!; [congruence|done|]. by rewrite Hv, Hn, Hp.
    + intros v Hv. by apply Hkeys, H2.
Qed.

Lemma rtc_step_wf s s' : rtc step s s' -> wf s -> wf s' /\ grows s s'.
Proof.
  induction 1 as [s|s t u Hp _ IH]; intros Hs; [split; [done|]; exists []; by rewrite app_nil_r|].
  destruct (step_wf _ _ Hp Hs) as [Ht [l Hl]]. destruct (IH Ht) as [Hu [k Hk]]. split; [done|]. exists (l ++ k).
  by rewrite Hk, Hl, app_assoc.
Qed.

(** The numbers of a history are consecutive. *)
Lemma history_numbers l rev n p : history l rev n p -> forall i v, l !! i = Some v -> v_revision v = rev - zlen l + 1 + Z.of_nat i.
Proof.
  unfold zlen. induction 1 as [v paid|l rev n p v Hh IH Hv]; intros i w Hi.
  - apply list_lookup_singleton_Some in Hi as [-> <-]. cbn. lia.
  - rewrite length_app. cbn. apply lookup_app_Some in Hi as [Hi|[Hge Hi]].
    + rewrite (IH i w Hi). lia.
    + apply list_lookup_singleton_Some in Hi as [Hz <-]. lia.
Qed.

Lemma receivable_balance r : receivable_check r = true ->
  0 <= paid_amount r <= net r /\ net r <= gross r < 10 ^ 78 /\ unpaid_amount r = net r - paid_amount r.
Proof. unfold receivable_check. intros Hc. repeat (apply andb_true_iff in Hc; destruct Hc as [Hc ?]). lia. Qed.


(** The facility's decisions that can still be drawn on. *)
Definition drawable (s : DB) (fac : string) : Prop :=
  exists i d, decisions s !! i = Some d /\ d_facility d = fac /\ (d_status d = "DRAFT"%string \/ d_status d = "APPROVED"%string).

(** What a revision does when the call returns. Applied: it carries the next
    number, moves exactly the amount of its kind, clears the checkpoint and
    revokes every open credit decision of the receivable's facility. Not
    applied (duplicate, conflict, late, reused observation, impossible balance):
    no receivable and no decision changes. *)
Theorem revision_effect rid obs rev kind d s res s' :
  wf s -> apply_revision rid obs rev kind d s = (Ok res, s') ->
  if applied res then
    exists r r', receivables s !! rid = Some r /\ receivables s' = <[rid := r']> (receivables s) /\ rev = revision r + 1 /\
      revision r' = rev /\ gross r' = gross r /\ checkpoint_consumption_id r' = None /\ checkpoint_seq r' = None /\
      match kind with
      | "CORRECTION" => net r' = net r + d /\ paid_amount r' = paid_amount r
      | "PAYOUT" => net r' = net r /\ paid_amount r' = paid_amount r + d
      | _ => kind = "CANCELLATION" /\ net r' = net r /\ paid_amount r' = paid_amount r - d
      end%string /\
      (forall fac, r_facility r = Some fac -> fac <> ""%string -> ~ drawable s' fac)
  else receivables s' = receivables s /\ decisions s' = decisions s.
Proof.
  intros Hs H. apply apply_revision_run in H as (_ & _ & [[-> (c & o & ->)]|[(-> & _ & _ & v & _ & _ & _ & _ & (c & o & ->))|(-> & _ & _ & r & r' & v & Ha & (c & o & ->))]]); [done|done| |done].
  destruct Ha as (Hr & Hrev & Hk & Hd & _ & Hnp & Hb & _ & _ & Hrev' & _ & Hg & _ & Hcp & Hcs & _ & _).
  exists r, r'. split_and!; try done.
  - apply elem_of_cons in Hk as [->|[->|[->|[]%elem_of_nil]%elem_of_cons]%elem_of_cons]; injection Hnp as -> ->; done.
  - intros fac Hf Hne (i & x & Hi & Hx & Hst). cbn in Hi. rewrite Hf in Hi. cbn in Hi.
    apply String.eqb_neq in Hne. rewrite Hne in Hi. cbn in Hi. rewrite lookup_fmap in Hi.
    destruct (decisions s !! i) as [y|]; [|done]. injection Hi as <-. revert Hx Hst. unfold revoke.
    destruct (String.eqb (d_facility y) fac && mem_str (d_status y) ["DRAFT"; "APPROVED"]) eqn:Hm.
    + cbn. by intros _ [[=]|[=]].
    + intros Hy Hst. rewrite Hy, String.eqb_refl in Hm. cbn [andb] in Hm. by destruct Hst as [Hst|Hst]; rewrite Hst in Hm.
Qed.

(** A late revision is lost: once a revision was recorded out of order, no
    later call with its number and kind is ever applied, whatever its delta and
    observation, also after the missing revisions arrived. *)
Theorem late_revision_lost rid obs rev kind d s res s' v :
  wf s -> v ∈ revisions s -> v_receivable v = rid -> v_revision v = rev -> v_kind v = kind ->
  apply_revision rid obs rev kind d s = (Ok res, s') -> applied res = false /\ receivables s' = receivables s.
Proof.
  intros Hs Hv Hr Hrev Hk H. unfold apply_revision in H.
  do 2 (apply bind_Ok in H as (? & ? & Hl & H); unfold lift_res in Hl; injection Hl as _ <-).
  destruct (_ || _); [done|]. apply bind_Ok in H as (w & t & Hg & H). run_inv Hg. destruct (row _ _) as [r|]; [|done].
  apply bind_Ok in H as (ap & t & (-> & _)%source_run & H). cbv zeta in H.
  destruct (List.find _ _) as [previous|] eqn:Hf.
  - destruct (delta previous =? d); [run_inv H; done|].
    apply bind_Ok in H as (u & t & ((c & o & ->) & _)%exception_same & H). by run_inv H.
  - apply find_none with (x := v) in Hf; [|by apply list_elem_of_In]. subst. by rewrite !String.eqb_refl, Z.eqb_refl in Hf.
Qed.

(** The gate report reads and never approves. *)
Lemma evaluate_never_eligible rid fid as_of s res s' :
  evaluate_receivable rid fid as_of s = (Ok res, s') -> s' = s /\ eligible res = false /\ eligible_source_units res = 0.
Proof.
  intros H. unfold evaluate_receivable in H. apply bind_Ok in H as (? & ? & Hl & H). unfold lift_res in Hl. injection Hl as _ <-.
  apply bind_Ok in H as (w & t & Hg & H). run_inv Hg. destruct (row _ rid) as [r|]; [|done]. destruct (row _ fid) as [f|]; [|done].
  destruct (row _ _) as [a|]; [|done]. destruct (row _ _) as [p|]; [|done]. by run_inv H.
Qed.

(** * Examples *)

Definition rid0 : string := "01HZZZZZZZZZZZZZZZZZZZZZZR".
Definition tok0 : string := "0x00000000000000000000000000000000000000aa".

Definition db0 : DB := {|
  providers := {["p"%string := {| provider_id := "p"; source_env_id := "env"; source_chain_key := 1; source_chain_id := 1;
                                 p_profile := "LOCAL_MOCK"; environment_status := "PROBED"; p_manifest := None; capabilities := [] |}]};
  accounts := {["p:1"%string := {| provider_account_id := "p:1"; pa_provider := "p"; external_account_id := "1"; pa_borrower := "b" |}]};
  observations := {["o1"%string := "p"%string; "o2"%string := "p"%string; "o3"%string := "p"%string; "o4"%string := "p"%string]};
  policies := ∅; controls := ∅; facilities := ∅; decisions := ∅; verifications := ∅; evidence := ∅; receivables := ∅;
  revisions := []; settlements := ∅; receipts := ∅; allocations := ∅; cases := [];
  outbox := {| Outbox.rows := ∅; Outbox.next_id := 1; Outbox.now := 0; Outbox.delivered := [] |} |}.

Definition cmd0 : ObligationInput := {|
  i_receivable := rid0; i_account := "p:1"; i_ref := "inv-1"; i_observation := "o1";
  i_asset := {| chain_id := 1; address := Some tok0; symbol := "USDC"; decimals := 6 |};
  i_gross := 1000; i_net := 900; i_paid := 0; i_revision := 1; i_kind := RK_OPERATING_RECEIVABLE;
  i_from := Aware 0; i_to := Aware 100; i_due := Aware 200; i_profile := "LOCAL_MOCK" |}.

(** Recognised, then revision 3 (late), 2 and again 3. *)
Definition s1 : DB := (transaction (record_obligation cmd0 (Aware 150)) db0).2.
Definition s2 : DB := (transaction (apply_revision rid0 "o2" 3 "PAYOUT" 100) s1).2.
Definition s3 : DB := (transaction (apply_revision rid0 "o3" 2 "PAYOUT" 300) s2).2.

Example late_revision :
  ((fun r => (revision r, net r, paid_amount r, r_state r)) <$> receivables s3 !! rid0,
   res_reason <$> (match (apply_revision rid0 "o4" 3 "PAYOUT" 100 s3).1 with Ok r => Some r | Raise _ => None end),
   length (revisions s3)) =
  (Some (2, 900, 300, "PARTIALLY_PAID"%string), Some (Some "DUPLICATE_REVISION"%string), 3%nat).
Proof. vm_compute. reflexivity. Qed.

Lemma db0_wf : wf db0.
Proof. split; [by intros rid r|by intros v Hv%elem_of_nil|constructor]. Qed.

Lemma s2_reach : rtc step db0 s2.
Proof.
  eapply (rtc_l _ db0 s1); [exact (step_obligation db0 cmd0 (Aware 150))|].
  apply rtc_once. exact (step_revision s1 rid0 "o2" 3 "PAYOUT" 100).
Qed.

Lemma s3_reach : rtc step db0 s3.
Proof. eapply rtc_r; [exact s2_reach|]. exact (step_revision s2 rid0 "o3" 2 "PAYOUT" 300). Qed.

Lemma s3_row : exists r, receivables s3 !! rid0 = Some r /\ (revision r =? 2) && (net r =? 900) && (paid_amount r =? 300) = true.
Proof.
  assert (H : match receivables s3 !! rid0 with Some r => (revision r =? 2) && (net r =? 900) && (paid_amount r =? 300) | None => false end = true)
    by (vm_compute; reflexivity).
  destruct (receivables s3 !! rid0) as [r|]; [|discriminate H]. by exists r.
Qed.


Lemma s2_wf : wf s2.
Proof. exact (proj1 (rtc_step_wf db0 s2 s2_reach db0_wf)). Qed.

Lemma revision_effect_witness :
  exists res s', apply_revision rid0 "o3" 2 "PAYOUT" 300 s2 = (Ok res, s') /\ applied res = true /\
    exists r r', receivables s2 !! rid0 = Some r /\ receivables s' = <[rid0 := r']> (receivables s2).
Proof.
  assert (Hc : match (apply_revision rid0 "o3" 2 "PAYOUT" 300 s2).1 with Ok r => applied r | Raise _ => false end = true) by (vm_compute; reflexivity).
  destruct (apply_revision rid0 "o3" 2 "PAYOUT" 300 s2) as [[res|e] s'] eqn:H; [|discriminate Hc]. cbn [fst] in Hc.
  exists res, s'. split; [reflexivity|]. split; [exact Hc|].
  pose proof (revision_effect rid0 "o3" 2 "PAYOUT" 300 s2 res s' s2_wf H) as He. rewrite Hc in He.
  destruct He as (r & r' & Hr & Hr' & _). exists r, r'. split; [exact Hr|exact Hr'].
Defined.

Lemma late_revision_lost_witness :
  exists res s', apply_revision rid0 "o4" 3 "PAYOUT" 100 s3 = (Ok res, s') /\ applied res = false.
Proof.
  assert (Hc : match (apply_revision rid0 "o4" 3 "PAYOUT" 100 s3).1 with Ok r => true | Raise _ => false end = true) by (vm_compute; reflexivity).
  assert (Hv : match List.find (fun v => String.eqb (v_receivable v) rid0 && (v_revision v =? 3) && String.eqb (v_kind v) "PAYOUT") (revisions s3) with
               | Some _ => true | None => false end = true) by (vm_compute; reflexivity).
  destruct (List.find _ (revisions s3)) as [v|] eqn:Hf; [|discriminate Hv]. apply find_some in Hf as [Hin Hp].
  apply andb_true_iff in Hp as [Hp Hk%String.eqb_eq]. apply andb_true_iff in Hp as [Hr%String.eqb_eq Hrev%Z.eqb_eq].
  destruct (apply_revision rid0 "o4" 3 "PAYOUT" 100 s3) as [[res|e] s'] eqn:H; [|discriminate Hc].
  exists res, s'. split; [reflexivity|].
  apply (late_revision_lost rid0 "o4" 3 "PAYOUT" 100 s3 res s' v);
    [exact (proj1 (rtc_step_wf db0 s3 s3_reach db0_wf))|apply list_elem_of_In; exact Hin|exact Hr|exact Hrev|exact Hk|exact H].
Defined.

End Receivables.
