(* ===== verification/CashEngine.v ===== *)
(** The destination cash reconciler: finalized receipts of loan currency and
    confirmed allocations, recorded from a trusted chain reader.

    Source: offchain/gpu/hashcredit_gpu/reconciliation/engine.py, with the
    constraints of db/ledgers.py and the trigger [hcg_allocations_within_receipt]
    of migration 0002.  The reader is an argument, which [ChainReader] implements.  The
    caller owns the transaction; the locks make each call atomic. *)

From S2P Require Import Prelude Domain Stdpy Columns Lifecycle Ledger.
Import Domain Columns Stdpy Ledger.

Module CashEngine.

#[local] Abbreviation M := (PyM DB).

(** Models [reconciliation/engine.py], [DestinationRoute]. *)
Record DestinationRoute := { vault_id : string; receiver_address : string; rt_asset : AssetRef; rt_profile : string }.

(** Models [reconciliation/engine.py], [ReceiptFact]. *)
Record ReceiptFact := {
  rf_id : string;
  rf_asset : AssetRef;
  rf_amount : Z;
  rf_tx_hash : string;
  rf_log_index : Z;
  block_hash : string;
  block_number : Z;
  rf_payer : option string;
  payee_address : string;
  rf_source_kind : string;
  rf_profile : string;
  rf_received_at : datetime;
  rf_canonical : bool;
  rf_finalized : bool;
  rf_status : Z;
  rf_settlement : option string;
}.

(** Models [reconciliation/engine.py], [AllocationFact]. *)
Record AllocationFact := {
  af_id : string;
  af_receipt : string;
  af_facility : string;
  af_received : Z;
  af_fee : Z;
  af_interest : Z;
  af_principal : Z;
  af_excess : Z;
  af_new_debt : Z;
  af_tx_hash : string;
  af_chain_id : Z;
  af_profile : string;
  af_canonical : bool;
  af_finalized : bool;
  af_status : Z;
}.

(** Models [reconciliation/engine.py], [CashEvidenceReader]. *)
Record CashEvidenceReader := {
  receipt : string -> option ReceiptFact;
  allocation : string -> option AllocationFact;
}.

(** Models [reconciliation/engine.py], [ReconciliationResult]. *)
Record ReconciliationResult := { result_id : option string; result_created : bool; result_reason : option string }.

Definition nothing (why : string) : ReconciliationResult := {| result_id := None; result_created := false; result_reason := Some why |}.

(** Models [reconciliation/engine.py], [_hash]. *)
Definition is_hash (s : string) : bool := HEX32_CHECK s.

(** Models [reconciliation/engine.py], [_address]. *)
Definition is_address (s : option string) : bool := match s with Some a => ADDR_CHECK a | None => false end.

(** Models [reconciliation/engine.py], [_block]. *)
Definition block (code table id : string) : M ReconciliationResult :=
  exception code table id [] ;;;
  ret (nothing code).

Definition same_key (chain : Z) (tx : string) (log : Z) (c : CashReceipt) : bool :=
  (c_chain_id c =? chain) && String.eqb (c_tx_hash c) tx && (c_log_index c =? log).

Definition insert_receipt (c : CashReceipt) : M unit :=
  let* s := get in
  if negb (receipt_check c) then violated "cash_receipts check"
  else if bool_decide (is_Some (receipts s !! cash_receipt_id c)) then violated "cash_receipts_pkey"
  else if bool_decide (select (same_key (c_chain_id c) (c_tx_hash c) (c_log_index c)) (receipts s) <> []) then violated "uq_cash_receipts_semantic_key"
  else if negb (null_or (fun i => bool_decide (is_Some (settlements s !! i))) (c_settlement c)) then violated "settlement_id_fkey"
  else modify (fun s => s <| receipts ::= <[cash_receipt_id c := c]> |>).

(** [SUM(received)] over the allocations of a receipt. *)
Definition allocated (cid : string) (m : gmap string Allocation) : Z :=
  map_sum (fun _ a => if String.eqb (al_receipt a) cid then received a else 0) m.

Definition of_receipt (cid fid : string) (a : Allocation) : bool := String.eqb (al_receipt a) cid && String.eqb (al_facility a) fid.

(** INSERT INTO allocations: the constraints and the trigger. *)
Definition insert_allocation (a : Allocation) : M unit :=
  let* s := get in
  match receipts s !! al_receipt a with
  | None => violated "allocation references unknown cash receipt"
  | Some c =>
      if c_amount c <? allocated (al_receipt a) (delete (allocation_id a) (allocations s)) + received a then violated "allocations exceed the received amount"
      else if negb (allocation_check a) then violated "allocations check"
      else if bool_decide (is_Some (allocations s !! allocation_id a)) then violated "allocations_pkey"
      else if bool_decide (facilities s !! al_facility a = None) then violated "facility_id_fkey"
      else if bool_decide (select (of_receipt (al_receipt a) (al_facility a)) (allocations s) <> []) then violated "uq_allocations_receipt_facility"
      else modify (fun s => s <| allocations ::= <[allocation_id a := a]> |>)
  end.

Definition json_opt (o : option string) : json := match o with Some s => JStr s | None => JNull end.

Definition not_one (status : Z) : bool := negb (status =? 1).

(** The business classification of a fact; [None] when it stands. *)
Definition misclassified (f : ReceiptFact) (profile : string) (s : DB) : option string :=
  if String.eqb (rf_source_kind f) "SETTLEMENT" then
    match (if truthy (rf_settlement f) then settlements s !! default ""%string (rf_settlement f) else None) with
    | Some st => if String.eqb (s_profile st) profile && negb (mem_str (s_state st) ["ANNOUNCED"; "REVERSED"]) then None
                 else Some "SOURCE_SETTLEMENT_UNRECONCILED"%string
    | None => Some "SOURCE_SETTLEMENT_UNRECONCILED"%string
    end
  else if bool_decide (rf_settlement f <> None) then Some "CASH_CLASSIFICATION_CONFLICT"%string
  else None.

Definition same_receipt (c : CashReceipt) (f : ReceiptFact) (rt : DestinationRoute) (kind : string) : bool :=
  String.eqb (c_vault c) (vault_id rt) && bool_decide (c_token c = address (rf_asset f)) && (c_decimals c =? decimals (rf_asset f)) &&
  (c_amount c =? rf_amount f) && bool_decide (payer_address c = rf_payer f) && String.eqb (c_source_kind c) kind &&
  String.eqb (c_profile c) (rf_profile f) && bool_decide (c_settlement c = rf_settlement f).

(** Models [reconciliation/engine.py], [record_destination_receipt]. *)
Definition record_destination_receipt (reference : string) (route : DestinationRoute) (reader : option CashEvidenceReader) : M ReconciliationResult :=
  match reader with
  | None => ret (nothing "DESTINATION_READER_NOT_CONFIGURED")
  | Some rd =>
  match receipt rd reference with
  | None => ret (nothing "DESTINATION_RECEIPT_NOT_FOUND")
  | Some f =>
  let* _ := lift_res (units (rf_amount f) "amount" false) in
  let* _ := lift_res (units (rf_log_index f) "log_index" false) in
  let* _ := lift_res (units (block_number f) "block_number" false) in
  let* at_ := lift_res (aware (rf_received_at f) "received_at") in
  if (rf_amount f =? 0) || negb (is_hash (rf_tx_hash f)) || negb (is_hash (block_hash f)) then
    raise ValueError "positive measured amount and canonical transaction/block hashes required"
  else if negb (is_address (Some (payee_address f))) || negb (is_address (Some (receiver_address route))) then
    raise ValueError "normalized receiver address required"
  else
    let chain := chain_id (rf_asset f) in
    let key := ("destination-cash:" ++ py_str chain ++ ":" ++ rf_tx_hash f ++ ":" ++ py_str (rf_log_index f))%string in
    let* s := get in
    let existing := scalar (same_key chain (rf_tx_hash f) (rf_log_index f)) (receipts s) in
    let entity := match existing with Some c => cash_receipt_id c | None => rf_id f end in
    if negb (rf_canonical f) || not_one (rf_status f) then block "DESTINATION_NOT_CANONICAL_FINAL" "cash_receipts" entity
    else if negb (rf_finalized f) then ret (nothing "DESTINATION_NOT_CANONICAL_FINAL")
    else if negb (bool_decide (asset_key (rf_asset f) = asset_key (rt_asset route)) && String.eqb (payee_address f) (receiver_address route) &&
                  String.eqb (rf_profile f) (rt_profile route)) then block "DESTINATION_ROUTE_MISMATCH" "cash_receipts" entity
    else if negb (mem_str (rf_source_kind f) ["SETTLEMENT"; "DIRECT_REPAYMENT"; "RECOVERY"; "UNKNOWN"]) then
      block "NOT_DESTINATION_CASH" "cash_receipts" entity
    else if bool_decide (rf_payer f <> None) && negb (is_address (rf_payer f)) then raise ValueError "normalized payer address required"
    else
      match misclassified f (rt_profile route) s with
      | Some why => block why "cash_receipts" entity
      | None =>
      let source_kind := if truthy (rf_payer f) then rf_source_kind f else "UNKNOWN"%string in
      match existing with
      | Some c =>
          if same_receipt c f route source_kind then
            ret {| result_id := Some entity; result_created := false; result_reason := Some "DUPLICATE_RECEIPT"%string |}
          else block "DESTINATION_RECEIPT_CONFLICT" "cash_receipts" entity
      | None =>
          insert_receipt {| cash_receipt_id := rf_id f; c_vault := vault_id route; c_chain_id := chain; c_token := address (rf_asset f);
                            c_decimals := decimals (rf_asset f); c_amount := rf_amount f; c_tx_hash := rf_tx_hash f;
                            c_log_index := rf_log_index f; payer_address := rf_payer f; c_source_kind := source_kind;
                            c_settlement := rf_settlement f; cash_state := "DESTINATION_RECEIVED"; c_profile := rf_profile f;
                            c_received_at := at_ |} ;;;
          let* _ := emit "cash_receipt" (rf_id f) "DESTINATION_CASH_RECONCILED" key
            (JObj [("cashReceiptId"%string, JStr (rf_id f)); ("reference"%string, JStr reference); ("chainId"%string, JInt chain);
                   ("txHash"%string, JStr (rf_tx_hash f)); ("logIndex"%string, JInt (rf_log_index f));
                   ("blockHash"%string, JStr (block_hash f)); ("blockNumber"%string, JStr (py_str (block_number f)));
                   ("payee"%string, JStr (payee_address f)); ("amount"%string, JStr (py_str (rf_amount f)));
                   ("executionProfile"%string, JStr (rf_profile f)); ("debtApplied"%string, JBool false)]) in
          (if String.eqb source_kind "UNKNOWN" then exception "UNCLASSIFIED_DESTINATION_CASH" "cash_receipts" (rf_id f) [] else ret tt) ;;;
          ret {| result_id := Some (rf_id f); result_created := true;
                 result_reason := if String.eqb source_kind "UNKNOWN" then Some "UNCLASSIFIED_DESTINATION_CASH"%string else None |}
      end
      end
  end
  end.

(** Cash of a settlement goes to the borrower of its account. *)
Definition other_borrower (c : CashReceipt) (f : Facility) (s : DB) : res bool :=
  if negb (String.eqb (c_source_kind c) "SETTLEMENT") then Ok false
  else match c_settlement c with
       | None => Raise (Exn AttributeError "settlement")
       | Some i =>
           match settlements s !! i with
           | None => Raise (Exn AttributeError "settlement")
           | Some st => match accounts s !! s_account st with
                        | None => Raise (Exn AttributeError "account")
                        | Some a => Ok (negb (String.eqb (pa_borrower a) (f_borrower f)))
                        end
           end
       end.

Definition same_allocation (a : Allocation) (f : AllocationFact) : bool :=
  (received a =? af_received f) && (fee_paid a =? af_fee f) && (interest_paid a =? af_interest f) && (principal_paid a =? af_principal f) &&
  (excess a =? af_excess f) && (new_debt a =? af_new_debt f) && String.eqb (onchain_tx_hash a) (af_tx_hash f).

Definition route_match (f : Facility) (c : CashReceipt) (a : AllocationFact) : bool :=
  (loan_chain_id f =? c_chain_id c) && bool_decide (loan_token_address f = c_token c) && (loan_decimals f =? c_decimals c) &&
  String.eqb (f_vault f) (c_vault c) && (af_chain_id a =? c_chain_id c).

(** Models [reconciliation/engine.py], [record_confirmed_allocation]. *)
Definition record_confirmed_allocation (reference : string) (reader : option CashEvidenceReader) : M ReconciliationResult :=
  match reader with
  | None => ret (nothing "DESTINATION_READER_NOT_CONFIGURED")
  | Some rd =>
  match allocation rd reference with
  | None => ret (nothing "FINAL_REPAYMENT_EVENT_NOT_FOUND")
  | Some a =>
  let* _ := lift_res (units (af_received a) "received" false) in
  let* _ := lift_res (units (af_fee a) "fee_paid" false) in
  let* _ := lift_res (units (af_interest a) "interest_paid" false) in
  let* _ := lift_res (units (af_principal a) "principal_paid" false) in
  let* _ := lift_res (units (af_excess a) "excess" false) in
  let* _ := lift_res (units (af_new_debt a) "new_debt" false) in
  if (af_received a <=? 0) || negb (af_received a =? af_fee a + af_interest a + af_principal a + af_excess a) then
    raise ValueError "repayment split must exactly equal measured allocated cash"
  else if negb (is_hash (af_tx_hash a)) then raise ValueError "normalized repayment transaction hash required"
  else
    let* s := get in
    match receipts s !! af_receipt a with
    | None => block "DESTINATION_RECEIPT_MISSING" "allocations" (af_id a)
    | Some c =>
    let id := cash_receipt_id c in
    if negb (af_canonical a) || not_one (af_status a) then block "REPAYMENT_NOT_CANONICAL_FINAL" "cash_receipts" id
    else if negb (af_finalized a) then ret (nothing "REPAYMENT_NOT_CANONICAL_FINAL")
    else
      match facilities s !! af_facility a with
      | None => block "FACILITY_CASH_ROUTE_MISMATCH" "allocations" (af_id a)
      | Some f =>
      if negb (route_match f c a) then block "FACILITY_CASH_ROUTE_MISMATCH" "allocations" (af_id a)
      else if negb (String.eqb (f_profile f) (c_profile c) && String.eqb (af_profile a) (c_profile c)) then
        block "CASH_PROFILE_MISMATCH" "allocations" (af_id a)
      else if String.eqb (cash_state c) "RETURNED" || String.eqb (c_source_kind c) "UNKNOWN" then
        block "CASH_NOT_ALLOCATABLE" "allocations" (af_id a)
      else if blocked "cash_receipts" id s then ret (nothing "CASH_RECONCILIATION_EXCEPTION")
      else
        let* other := lift_res (other_borrower c f s) in
        if other : bool then block "OTHER_BORROWER_CASH" "allocations" (af_id a)
        else
          match scalar (of_receipt id (facility_id f)) (allocations s) with
          | Some e =>
              if same_allocation e a then
                ret {| result_id := Some (allocation_id e); result_created := false; result_reason := Some "DUPLICATE_ALLOCATION"%string |}
              else block "ALLOCATION_CONFLICT" "allocations" (af_id a)
          | None =>
              let sum := allocated id (allocations s) in
              if c_amount c <? sum + af_received a then block "ALLOCATION_EXCEEDS_RECEIPT" "allocations" (af_id a)
              else
                insert_allocation {| allocation_id := af_id a; al_receipt := id; al_facility := facility_id f; received := af_received a;
                                     fee_paid := af_fee a; interest_paid := af_interest a; principal_paid := af_principal a;
                                     excess := af_excess a; new_debt := af_new_debt a; onchain_tx_hash := af_tx_hash a |} ;;;
                (if sum + af_received a =? c_amount c then
                   modify (fun s => s <| receipts ::= <[id := c <| cash_state := "ALLOCATED"%string |>]> |>)
                 else ret tt) ;;;
                let* _ := emit "allocation" (af_id a) "CONFIRMED_REPAYMENT_RECONCILED" ("cash-allocation:" ++ id ++ ":" ++ facility_id f)
                  (JObj [("allocationId"%string, JStr (af_id a)); ("reference"%string, JStr reference); ("cashReceiptId"%string, JStr id);
                         ("facilityId"%string, JStr (facility_id f)); ("received"%string, JStr (py_str (af_received a)));
                         ("excess"%string, JStr (py_str (af_excess a))); ("txHash"%string, JStr (af_tx_hash a));
                         ("executionProfile"%string, JStr (af_profile a))]) in
                ret {| result_id := Some (af_id a); result_created := true; result_reason := None |}
          end
      end
    end
  end
  end.

(** * Outcomes *)

(** What a recorded receipt rests on. *)
Record receipt_grounds (s : DB) (route : DestinationRoute) (f : ReceiptFact) (c : CashReceipt) : Prop := {
  rg_final : rf_canonical f = true /\ rf_finalized f = true /\ rf_status f = 1;
  rg_route : asset_key (rf_asset f) = asset_key (rt_asset route) /\ payee_address f = receiver_address route /\ rf_profile f = rt_profile route;
  rg_row : c_vault c = vault_id route /\ c_chain_id c = chain_id (rf_asset f) /\ c_token c = address (rf_asset f) /\
           c_decimals c = decimals (rf_asset f) /\ c_amount c = rf_amount f /\ c_tx_hash c = rf_tx_hash f /\
           c_log_index c = rf_log_index f /\ payer_address c = rf_payer f /\ c_settlement c = rf_settlement f /\
           c_profile c = rf_profile f /\ cash_state c = "DESTINATION_RECEIVED"%string;
  rg_kind : c_source_kind c = (if truthy (rf_payer f) then rf_source_kind f else "UNKNOWN"%string) /\
            (rf_source_kind f = "SETTLEMENT"%string -> exists i st, rf_settlement f = Some i /\ settlements s !! i = Some st /\
               s_profile st = rf_profile f /\ s_state st <> "ANNOUNCED"%string /\ s_state st <> "REVERSED"%string);
  rg_check : receipt_check c = true /\ receipts s !! cash_receipt_id c = None /\
             forall i d, receipts s !! i = Some d -> same_key (c_chain_id c) (c_tx_hash c) (c_log_index c) d = false;
}.

Lemma block_same code table id s r s' : block code table id s = (Ok r, s') -> r = nothing code /\ same_rows s s'.
Proof. intros H. unfold block in H. apply bind_Ok in H as (u & t & (Hx & _)%exception_same & H). by run_inv H. Qed.

Lemma misclassified_None f profile s :
  misclassified f profile s = None -> rf_source_kind f = "SETTLEMENT"%string ->
  exists i st, rf_settlement f = Some i /\ settlements s !! i = Some st /\ s_profile st = profile /\ s_state st <> "ANNOUNCED"%string /\ s_state st <> "REVERSED"%string.
Proof.
  unfold misclassified. intros H Hkind. rewrite Hkind in H. change (String.eqb "SETTLEMENT" "SETTLEMENT") with true in H. cbv iota in H.
  destruct (truthy (rf_settlement f)) eqn:Ht; [|discriminate H]. destruct (rf_settlement f) as [i|]; [|discriminate Ht].
  change (default ""%string (Some i)) with i in H. destruct (settlements s !! i) as [st|] eqn:Hst; [|done]. exists i, st.
  destruct (String.eqb_spec (s_profile st) profile) as [Hp|]; [|done]. cbn [andb] in H.
  split_and!; try done; intros Heq; by rewrite Heq in H.
Qed.

Definition same_outcome (s : DB) (r : ReconciliationResult) (s' : DB) : Prop := result_created r = false /\ same_rows s s'.

Ltac idle H := (* a branch that records nothing *)
  left; first [ apply block_same in H as [-> H]; by split
              | apply ret_Ok in H as [-> ->]; split; [done|apply same_rows_refl] ].

Lemma record_receipt_run reference route reader s r s' :
  record_destination_receipt reference route reader s = (Ok r, s') ->
  same_outcome s r s' \/
  (result_created r = true /\ exists rd f c, reader = Some rd /\ receipt rd reference = Some f /\ receipt_grounds s route f c /\
     cash_receipt_id c = rf_id f /\ result_id r = Some (rf_id f) /\ same_rows (s <| receipts ::= <[cash_receipt_id c := c]> |>) s').
Proof.
  intros H. unfold record_destination_receipt in H. destruct reader as [rd|]; [|idle H].
  destruct (receipt rd reference) as [f|] eqn:Hf; [|idle H].
  do 3 (apply bind_Ok in H as (? & ? & Hl & H); unfold lift_res in Hl; injection Hl as _ <-).
  apply bind_Ok in H as (at_ & ? & Hl & H); unfold lift_res in Hl; injection Hl as _ <-.
  destruct (_ || negb (is_hash (block_hash f))); [done|]. destruct (_ || _); [done|].
  cbv zeta in H. apply bind_Ok in H as (w & t & Hg & H). run_inv Hg.
  destruct (negb (rf_canonical f) || _) eqn:Hcan; [idle H|]. destruct (negb (rf_finalized f)) eqn:Hfin; [idle H|].
  destruct (negb (bool_decide _ && _ && _)) eqn:Hroute; [idle H|]. destruct (negb (mem_str _ _)) eqn:Hkind; [idle H|].
  destruct (_ && negb (is_address _)); [done|].
  destruct (misclassified f _ s) as [why|] eqn:Hmis; [idle H|].
  destruct (scalar _ _) as [c|]; [destruct (same_receipt _ _ _ _); idle H|].
  right. set (c := {| cash_receipt_id := rf_id f |}) in *.
  apply bind_Ok in H as (u & t & Hi & H). unfold insert_receipt, violated in Hi. run_inv Hi.
  apply bind_Ok in H as (e & t2 & (He & _)%emit_same & H). apply bind_Ok in H as (u2 & t3 & Hx & H).
  assert (Hx' : same_rows t2 t3).
  { destruct (String.eqb _ "UNKNOWN"); [by apply exception_same in Hx as [Hx _]|run_inv Hx; apply same_rows_refl]. }
  run_inv H. split; [done|]. exists rd, f, c. split_and!; try done; [|by eapply same_rows_trans].
  apply negb_false_iff in Hb, Hfin, Hroute. apply orb_false_iff in Hcan as [Hcan%negb_false_iff Hst%negb_false_iff%Z.eqb_eq].
  apply andb_true_iff in Hroute as [[Hk%bool_decide_eq_true Hp%String.eqb_eq]%andb_true_iff Hpr%String.eqb_eq].
  apply bool_decide_eq_false in Hb0, Hb1.
  split; [done|done|by split_and!| |].
  - split; [done|]. intros Hs. rewrite Hpr. by apply misclassified_None.
  - split_and!; [done|by apply eq_None_not_Some|]. by apply select_nil.
Qed.

(** What a recorded allocation rests on. *)
Record allocation_grounds (s : DB) (a : AllocationFact) (c : CashReceipt) (f : Facility) (x : Allocation) : Prop := {
  ag_final : af_canonical a = true /\ af_finalized a = true /\ af_status a = 1;
  ag_split : 0 < af_received a /\ af_received a = af_fee a + af_interest a + af_principal a + af_excess a;
  ag_rows : receipts s !! af_receipt a = Some c /\ facilities s !! af_facility a = Some f;
  ag_route : loan_chain_id f = c_chain_id c /\ loan_token_address f = c_token c /\ loan_decimals f = c_decimals c /\
             f_vault f = c_vault c /\ f_profile f = c_profile c /\ af_profile a = c_profile c;
  ag_state : cash_state c <> "RETURNED"%string /\ c_source_kind c <> "UNKNOWN"%string /\ blocked "cash_receipts" (cash_receipt_id c) s = false;
  ag_borrower : c_source_kind c = "SETTLEMENT"%string -> exists i st acc, c_settlement c = Some i /\ settlements s !! i = Some st /\
                  accounts s !! s_account st = Some acc /\ pa_borrower acc = f_borrower f;
  ag_row : allocation_id x = af_id a /\ al_receipt x = cash_receipt_id c /\ al_facility x = facility_id f /\ received x = af_received a /\
           principal_paid x = af_principal a /\ interest_paid x = af_interest a /\ fee_paid x = af_fee a /\ excess x = af_excess a;
  ag_new : allocations s !! allocation_id x = None /\ allocation_check x = true /\
           allocated (cash_receipt_id c) (allocations s) + received x <= c_amount c /\
           forall i y, allocations s !! i = Some y -> of_receipt (al_receipt x) (al_facility x) y = false;
}.

Definition full (s : DB) (c : CashReceipt) (x : Allocation) : bool := allocated (cash_receipt_id c) (allocations s) + received x =? c_amount c.

(** The state after an allocation, up to cases and outbox. *)
Definition allocate (s : DB) (c : CashReceipt) (x : Allocation) : DB :=
  s <| allocations ::= <[allocation_id x := x]> |>
    <| receipts ::= fun m => if full s c x then <[cash_receipt_id c := c <| cash_state := "ALLOCATED"%string |>]> m else m |>.

Lemma other_borrower_false c f s : other_borrower c f s = Ok false -> c_source_kind c = "SETTLEMENT"%string ->
  exists i st acc, c_settlement c = Some i /\ settlements s !! i = Some st /\ accounts s !! s_account st = Some acc /\ pa_borrower acc = f_borrower f.
Proof.
  unfold other_borrower. intros H Hk. rewrite Hk in H. change (negb (String.eqb "SETTLEMENT" "SETTLEMENT")) with false in H. cbv iota in H.
  destruct (c_settlement c) as [i|]; [|done]. destruct (settlements s !! i) as [st|] eqn:Hst; [|done].
  destruct (accounts s !! s_account st) as [acc|] eqn:Ha; [|done]. injection H as H. apply negb_false_iff, String.eqb_eq in H.
  by exists i, st, acc.
Qed.

Lemma record_allocation_run reference reader s r s' :
  record_confirmed_allocation reference reader s = (Ok r, s') ->
  same_outcome s r s' \/
  (result_created r = true /\ exists rd a c f x, reader = Some rd /\ allocation rd reference = Some a /\ allocation_grounds s a c f x /\
     result_id r = Some (allocation_id x) /\ same_rows (allocate s c x) s').
Proof.
  intros H. unfold record_confirmed_allocation in H. destruct reader as [rd|]; [|idle H].
  destruct (allocation rd reference) as [a|] eqn:Hf; [|idle H].
  do 6 (apply bind_Ok in H as (? & ? & Hl & H); unfold lift_res in Hl; injection Hl as _ <-).
  destruct ((af_received a <=? 0) || _) eqn:Hsplit; [done|]. destruct (negb (is_hash _)); [done|].
  apply bind_Ok in H as (w & t & Hg & H). run_inv Hg. destruct (receipts s !! af_receipt a) as [c|] eqn:Hc; [|idle H]. cbv zeta in H.
  destruct (negb (af_canonical a) || _) eqn:Hcan; [idle H|]. destruct (negb (af_finalized a)) eqn:Hfin; [idle H|].
  destruct (facilities s !! af_facility a) as [f|] eqn:Hfac; [|idle H].
  destruct (negb (route_match f c a)) eqn:Hroute; [idle H|]. destruct (negb (_ && _)) eqn:Hprof; [idle H|].
  destruct (String.eqb (cash_state c) "RETURNED" || _) eqn:Hst; [idle H|]. destruct (blocked _ _ s) eqn:Hbl; [idle H|].
  apply bind_Ok in H as (other & t & Hl & H). unfold lift_res in Hl. injection Hl as Hob <-. destruct other; [idle H|].
  destruct (scalar _ _) as [e|]; [destruct (same_allocation _ _); idle H|]. destruct (c_amount c <? _) eqn:Hcap; [idle H|].
  right. set (al := {| allocation_id := af_id a |}) in *.
  apply bind_Ok in H as (u & t & Hi & H). unfold insert_allocation, violated in Hi. run_inv Hi.
  apply bind_Ok in H as (u2 & t2 & Hup & H). apply bind_Ok in H as (e & t3 & (He & _)%emit_same & H). run_inv H.
  split; [done|]. exists rd, a, c, f, al.
  assert (Hsame : same_rows (allocate s c al) t2).
  { change (allocated (cash_receipt_id c) (allocations s) + af_received a =? c_amount c) with (full s c al) in Hup. unfold allocate.
    destruct (full s c al); run_inv Hup; [apply same_rows_refl|by exists (cases s), (outbox s)]. }
  split_and!; try done; [|by eapply same_rows_trans].
  apply orb_false_iff in Hsplit as [Hpos%Z.leb_gt Hsum%negb_false_iff%Z.eqb_eq].
  apply orb_false_iff in Hcan as [Hcan%negb_false_iff Hone%negb_false_iff%Z.eqb_eq]. apply negb_false_iff in Hfin, Hroute, Hprof.
  apply andb_true_iff in Hprof as [Hp1%String.eqb_eq Hp2%String.eqb_eq].
  apply orb_false_iff in Hst as [Hs1%String.eqb_neq Hs2%String.eqb_neq]. apply Z.ltb_ge in Hcap.
  unfold route_match in Hroute. repeat (apply andb_true_iff in Hroute; destruct Hroute as [Hroute ?]).
  split; try done.
  - apply Z.eqb_eq in Hroute. split_and!; try done; [by eapply bool_decide_eq_true_1|by apply Z.eqb_eq|by apply String.eqb_eq].
  - by apply other_borrower_false.
  - apply bool_decide_eq_false in Hb1, Hb3. split_and!; [by apply eq_None_not_Some|by apply negb_false_iff|done|]. by apply select_nil.
Qed.

(** * The invariant of the cash tables *)

Record cash_wf (s : DB) : Prop := {
  cw_receipts : forall i c, receipts s !! i = Some c -> cash_receipt_id c = i /\ receipt_check c = true;
  cw_key : forall i j c d, receipts s !! i = Some c -> receipts s !! j = Some d -> same_key (c_chain_id c) (c_tx_hash c) (c_log_index c) d = true -> i = j;
  cw_allocations : forall i a, allocations s !! i = Some a -> allocation_id a = i /\ allocation_check a = true /\ is_Some (receipts s !! al_receipt a);
  cw_once : forall i j a b, allocations s !! i = Some a -> allocations s !! j = Some b -> al_receipt a = al_receipt b -> al_facility a = al_facility b -> i = j;
  cw_cap : forall i c, receipts s !! i = Some c -> allocated i (allocations s) <= c_amount c /\
             (cash_state c = "ALLOCATED"%string -> allocated i (allocations s) = c_amount c) /\
             (cash_state c = "DESTINATION_RECEIVED"%string -> allocated i (allocations s) < c_amount c);
}.

Lemma same_rows_cash s s' : same_rows s s' -> cash_wf s -> cash_wf s'.
Proof. intros (c & o & ->) [H1 H2 H3 H4 H5]. by split. Qed.

Lemma allocated_insert m x cid : m !! allocation_id x = None ->
  allocated cid (<[allocation_id x := x]> m) = (if String.eqb (al_receipt x) cid then received x else 0) + allocated cid m.
Proof. intros H. unfold allocated. by rewrite map_sum_insert. Qed.

Lemma allocated_none m cid : (forall i a, m !! i = Some a -> al_receipt a <> cid) -> allocated cid m = 0.
Proof.
  intros H. unfold allocated. rewrite (map_sum_ext _ (fun _ _ => 0)).
  - clear H. induction m as [|k v m Hk IH] using map_ind; [apply map_sum_empty|]. by rewrite map_sum_insert.
  - intros k v Hv. cbn. destruct (String.eqb_spec (al_receipt v) cid); [|done]. by destruct (H k v Hv).
Qed.

Lemma receipt_cash_wf s c :
  cash_wf s -> receipt_check c = true -> receipts s !! cash_receipt_id c = None -> cash_state c = "DESTINATION_RECEIVED"%string ->
  (forall i d, receipts s !! i = Some d -> same_key (c_chain_id c) (c_tx_hash c) (c_log_index c) d = false) ->
  cash_wf (s <| receipts ::= <[cash_receipt_id c := c]> |>).
Proof.
  intros [H1 H2 H3 H4 H5] Hc Hn Hst Hk. split; cbn; try done.
  - intros i d [[<- <-]|[_ Hd]]%lookup_insert_Some; [done|by apply H1].
  - intros i j d e [[<- <-]|[Hi Hd]]%lookup_insert_Some [[<- <-]|[Hj He]]%lookup_insert_Some Hs; [done| | |by eapply H2].
    + by rewrite (Hk j e He) in Hs.
    + unfold same_key in Hs. apply andb_true_iff in Hs as [[E1%Z.eqb_eq E2%String.eqb_eq]%andb_true_iff E3%Z.eqb_eq].
      pose proof (Hk i d Hd) as Hf. unfold same_key in Hf. rewrite E1, E2, E3, !Z.eqb_refl, String.eqb_refl in Hf. done.
  - intros i a Ha. destruct (H3 i a Ha) as (E1 & E2 & [d Hd]). split_and!; [done|done|].
    destruct (decide (cash_receipt_id c = al_receipt a)) as [->|]; [rewrite lookup_insert_eq; by eexists|].
    rewrite lookup_insert_ne by done. by exists d.
  - intros i d [[<- <-]|[_ Hd]]%lookup_insert_Some; [|by apply H5].
    rewrite allocated_none.
    + unfold receipt_check in Hc. repeat (apply andb_true_iff in Hc; destruct Hc as [Hc ?]).
      rewrite Hst. split_and!; [lia|done|lia].
    + intros j a Ha Heq. destruct (H3 j a Ha) as (_ & _ & [d Hd]). congruence.
Qed.

Lemma allocation_cash_wf s a c f x : cash_wf s -> allocation_grounds s a c f x -> cash_wf (allocate s c x).
Proof.
  intros [H1 H2 H3 H4 H5] [_ _ [Hc _] _ [Hret _] _ (_ & Hr & _ & _) (Hn & Hck & Hle & Hnone)].
  destruct (H1 _ _ Hc) as [Hid Hcc]. rewrite Hid in *. destruct (H5 _ _ Hc) as (Hcap & _).
  assert (Hpos : 0 < received x).
  { unfold allocation_check in Hck. repeat (apply andb_true_iff in Hck; destruct Hck as [Hck ?]). lia. }
  assert (Hrec : forall i d, receipts (allocate s c x) !! i = Some d -> exists d0, receipts s !! i = Some d0 /\
    cash_receipt_id d = cash_receipt_id d0 /\ receipt_check d = true /\ c_amount d = c_amount d0 /\
    same_key (c_chain_id d) (c_tx_hash d) (c_log_index d) = same_key (c_chain_id d0) (c_tx_hash d0) (c_log_index d0) /\
    (forall ch tx lg, same_key ch tx lg d = same_key ch tx lg d0) /\
    (if decide (i = af_receipt a) then cash_state d = (if full s c x then "ALLOCATED"%string else cash_state d0) else d = d0)).
  { intros i d Hd. cbn in Hd. rewrite Hid in Hd. destruct (full s c x).
    - destruct (decide (i = af_receipt a)) as [->|Hne].
      + rewrite lookup_insert_eq in Hd. injection Hd as <-. exists c. split_and!; try done.
        unfold receipt_check in *. cbn. repeat (apply andb_true_iff in Hcc; destruct Hcc as [Hcc ?]).
        repeat (apply andb_true_iff; split); done.
      + rewrite lookup_insert_ne in Hd by done. exists d. split_and!; try done. by eapply H1.
    - exists d. split_and!; try done; [by eapply H1|by case_decide]. }
  assert (Hal : allocations (allocate s c x) = <[allocation_id x := x]> (allocations s)) by done.
  assert (Hsum : forall i, allocated i (allocations (allocate s c x)) = (if decide (i = af_receipt a) then received x else 0) + allocated i (allocations s)).
  { intros i. rewrite Hal, (allocated_insert _ _ _ Hn), Hr.
    destruct (String.eqb_spec (af_receipt a) i) as [->|Hne]; [by rewrite decide_True|by rewrite decide_False]. }
  split.
  - intros i d (d0 & Hd & -> & Hck' & _)%Hrec. split; [by apply H1|done].
  - intros i j d e (d0 & Hd & _ & _ & _ & -> & _)%Hrec (e0 & He & _ & _ & _ & _ & -> & _)%Hrec. by eapply H2.
  - rewrite Hal. intros i b [[<- <-]|[_ Hb]]%lookup_insert_Some; cbn.
    + split_and!; [done|done|]. rewrite Hr, Hid. destruct (full s c x); [rewrite lookup_insert_eq; by eexists|by exists c].
    + destruct (H3 i b Hb) as (E1 & E2 & [d Hd]). split_and!; [done|done|]. rewrite Hid. destruct (full s c x); [|by exists d].
      destruct (decide (af_receipt a = al_receipt b)) as [->|]; [rewrite lookup_insert_eq; by eexists|rewrite lookup_insert_ne by done; by exists d].
  - rewrite Hal. intros i j b e [[<- <-]|[_ Hb]]%lookup_insert_Some [[<- <-]|[_ He]]%lookup_insert_Some Hre Hfe; [done| | |by eapply H4].
    + pose proof (Hnone j e He) as Hf. unfold of_receipt in Hf. by rewrite Hre, Hfe, !String.eqb_refl in Hf.
    + pose proof (Hnone i b Hb) as Hf. unfold of_receipt in Hf. by rewrite Hre, Hfe, !String.eqb_refl in Hf.
  - intros i d (d0 & Hd & _ & _ & -> & _ & _ & Hst)%Hrec. rewrite Hsum. destruct (H5 i d0 Hd) as (B1 & B2 & B3).
    destruct (decide (i = af_receipt a)) as [->|Hne]; [|rewrite Z.add_0_l; by subst d0].
    assert (d0 = c) as -> by congruence. unfold full in Hst. rewrite Hid in Hst.
    destruct (Z.eqb_spec (allocated (af_receipt a) (allocations s) + received x) (c_amount c)) as [Heq|Hneq]; rewrite Hst.
    + split_and!; [lia|lia|done].
    + split_and!; [lia|intros Ha; specialize (B2 Ha); lia|lia].
Qed.

(** The rest of the system: settlements, facilities, accounts and cases change;
    the cash tables are this module's. *)
Inductive step (s : DB) : DB -> Prop :=
| step_receipt reference route reader : step s (transaction (record_destination_receipt reference route reader) s).2
| step_allocation reference reader : step s (transaction (record_confirmed_allocation reference reader) s).2
| step_world s' : receipts s' = receipts s -> allocations s' = allocations s -> step s s'.

(** Rows stay, with their amounts. *)
Definition durable (s s' : DB) : Prop :=
  (forall i c, receipts s !! i = Some c -> exists c', receipts s' !! i = Some c' /\ c' <| cash_state := cash_state c |> = c) /\
  (forall i a, allocations s !! i = Some a -> allocations s' !! i = Some a).

Lemma durable_refl s : durable s s.
Proof. split; [|done]. intros i c Hc. exists c. split; [done|]. by destruct c. Qed.

Lemma durable_trans s t u : durable s t -> durable t u -> durable s u.
Proof.
  intros [H1 H2] [K1 K2]. split; [|auto]. intros i c Hc. destruct (H1 i c Hc) as (c' & Hc' & <-). destruct (K1 i c' Hc') as (c'' & Hc'' & <-).
  exists c''. split; [done|]. by destruct c''.
Qed.

Lemma same_rows_durable s s' : same_rows s s' -> durable s s'.
Proof. intros (c & o & ->). split; [|done]. intros i d Hd. exists d. split; [done|]. by destruct d. Qed.

Lemma receipt_step reference route reader s r s' :
  record_destination_receipt reference route reader s = (Ok r, s') -> cash_wf s -> cash_wf s' /\ durable s s'.
Proof.
  intros H Hs. apply record_receipt_run in H as [[_ Hx]|(_ & rd & f & c & _ & _ & Hg & _ & _ & Hx)].
  - split; [by eapply same_rows_cash|by apply same_rows_durable].
  - destruct Hg as [_ _ Hrow _ (Hck & Hn & Hk)]. destruct Hrow as (_ & _ & _ & _ & _ & _ & _ & _ & _ & _ & Hst).
    split; [eapply same_rows_cash; [exact Hx|by apply receipt_cash_wf]|].
    eapply durable_trans; [|by apply same_rows_durable]. split; [|done]. intros i d Hd. exists d. cbn.
    rewrite lookup_insert_ne by congruence. split; [done|by destruct d].
Qed.

Lemma allocation_step reference reader s r s' :
  record_confirmed_allocation reference reader s = (Ok r, s') -> cash_wf s -> cash_wf s' /\ durable s s'.
Proof.
  intros H Hs. apply record_allocation_run in H as [[_ Hx]|(_ & rd & a & c & f & x & _ & _ & Hg & _ & Hx)].
  - split; [by eapply same_rows_cash|by apply same_rows_durable].
  - split; [eapply same_rows_cash; [exact Hx|by eapply allocation_cash_wf]|].
    eapply durable_trans; [|by apply same_rows_durable]. destruct Hg as [_ _ [Hc _] _ _ _ _ (Hn & _)].
    destruct (cw_receipts s Hs _ _ Hc) as [Hid _]. split.
    + intros i d Hd. cbn. rewrite Hid. destruct (full s c x); [|exists d; split; [done|by destruct d]].
      destruct (decide (af_receipt a = i)) as [<-|Hne].
      * exists (c <| cash_state := "ALLOCATED"%string |>). rewrite lookup_insert_eq. split; [done|]. assert (d = c) as -> by congruence. by destruct c.
      * exists d. rewrite lookup_insert_ne by done. split; [done|by destruct d].
    + intros i b Hb. cbn. rewrite lookup_insert_ne; [done|]. congruence.
Qed.

Lemma step_cash s s' : step s s' -> cash_wf s -> cash_wf s' /\ durable s s'.
Proof.
  intros H Hs. destruct H as [reference route reader|reference reader|s' Hr Ha].
  - unfold transaction. destruct (record_destination_receipt reference route reader s) as [[r|e] t] eqn:Hrun; cbn;
      [by eapply receipt_step|split; [done|apply durable_refl]].
  - unfold transaction. destruct (record_confirmed_allocation reference reader s) as [[r|e] t] eqn:Hrun; cbn;
      [by eapply allocation_step|split; [done|apply durable_refl]].
  - split; [|split; [intros i c Hc; exists c; rewrite Hr; split; [done|by destruct c]|by rewrite Ha]].
    destruct Hs as [H1 H2 H3 H4 H5]. split; rewrite ?Hr, ?Ha; done.
Qed.

Lemma rtc_step_cash s s' : rtc step s s' -> cash_wf s -> cash_wf s' /\ durable s s'.
Proof.
  induction 1 as [s|s t u Hp _ IH]; intros Hs; [split; [done|apply durable_refl]|].
  destruct (step_cash _ _ Hp Hs) as [Ht Hd]. destruct (IH Ht) as [Hu Hd']. split; [done|by eapply durable_trans].
Qed.

(** C25: Cash is allocated at most once, over any sequence of receipts,
    allocations and retries, whatever the reader reports: a log is one receipt;
    a facility takes from a receipt once; the allocations of a receipt never
    exceed it, exhaust it exactly when it is marked ALLOCATED, and each splits
    into fee, interest, principal and excess to the unit; no recorded receipt
    or allocation is lost or altered. *)
Theorem cash_reachable s s' :
  cash_wf s -> rtc step s s' ->
  (forall i j c d, receipts s' !! i = Some c -> receipts s' !! j = Some d ->
     c_chain_id c = c_chain_id d -> c_tx_hash c = c_tx_hash d -> c_log_index c = c_log_index d -> i = j) /\
  (forall i j a b, allocations s' !! i = Some a -> allocations s' !! j = Some b -> al_receipt a = al_receipt b ->
     al_facility a = al_facility b -> i = j) /\
  (forall i c, receipts s' !! i = Some c -> allocated i (allocations s') <= c_amount c /\
     (cash_state c = "ALLOCATED"%string -> allocated i (allocations s') = c_amount c) /\
     (cash_state c = "DESTINATION_RECEIVED"%string -> allocated i (allocations s') < c_amount c)) /\
  (forall i a, allocations s' !! i = Some a -> is_Some (receipts s' !! al_receipt a) /\ 0 < received a /\
     received a = fee_paid a + interest_paid a + principal_paid a + excess a) /\
  durable s s'.
Proof.
  intros Hs Hr. destruct (rtc_step_cash _ _ Hr Hs) as [[H1 H2 H3 H4 H5] Hd]. split_and!; try done.
  - intros i j c d Hc Hd' E1 E2 E3. eapply H2; [exact Hc|exact Hd'|]. unfold same_key. by rewrite E1, E2, E3, !Z.eqb_refl, String.eqb_refl.
  - intros i a Ha. destruct (H3 i a Ha) as (_ & Hck & Hrc). split; [done|].
    unfold allocation_check in Hck. repeat (apply andb_true_iff in Hck; destruct Hck as [Hck ?]). lia.
Qed.

(** An allocation is mirrored only on full grounds: a call that records one
    found, through a configured reader, a canonical final successful repayment
    whose split is exact, a receipt of the same token, vault and profile as the
    facility that is classified, not returned, under no open case, with enough
    left unallocated, and, for settlement cash, a settlement of the facility's
    own borrower; every other call that returns leaves the cash tables alone. *)
Theorem allocation_guard reference reader s r s' :
  cash_wf s -> record_confirmed_allocation reference reader s = (Ok r, s') ->
  if result_created r then
    exists rd a c f x, reader = Some rd /\ allocation rd reference = Some a /\ af_canonical a = true /\ af_finalized a = true /\ af_status a = 1 /\
      af_received a = af_fee a + af_interest a + af_principal a + af_excess a /\
      receipts s !! af_receipt a = Some c /\ facilities s !! af_facility a = Some f /\
      (loan_chain_id f, loan_token_address f, loan_decimals f, f_vault f, f_profile f) = (c_chain_id c, c_token c, c_decimals c, c_vault c, c_profile c) /\
      c_source_kind c <> "UNKNOWN"%string /\ cash_state c <> "RETURNED"%string /\ blocked "cash_receipts" (af_receipt a) s = false /\
      allocated (af_receipt a) (allocations s) + af_received a <= c_amount c /\
      (c_source_kind c = "SETTLEMENT"%string -> exists i st acc, c_settlement c = Some i /\ settlements s !! i = Some st /\
         accounts s !! s_account st = Some acc /\ pa_borrower acc = f_borrower f) /\
      allocations s' = <[af_id a := x]> (allocations s) /\ result_id r = Some (af_id a) /\ principal_paid x = af_principal a /\
      interest_paid x = af_interest a /\ fee_paid x = af_fee a /\ excess x = af_excess a
  else receipts s' = receipts s /\ allocations s' = allocations s.
Proof.
  intros Hs H. apply record_allocation_run in H as [[-> (c & o & ->)]|(-> & rd & a & c & f & x & Hrd & Ha & Hg & Hid & (cs & o & ->))]; [done|].
  destruct Hg as [(F1 & F2 & F3) [S1 S2] [Hc Hf] (R1 & R2 & R3 & R4 & R5 & _) (G1 & G2 & G3) Hb (X1 & X2 & X3 & X4 & X5 & X6 & X7 & X8) (_ & _ & Hle & _)].
  destruct (cw_receipts s Hs _ _ Hc) as [Hcid _]. exists rd, a, c, f, x.
  rewrite Hcid in G3, Hle. rewrite X4 in Hle. split_and!; try done.
  - by rewrite R1, R2, R3, R4, R5.
  - by rewrite <- X1.
  - by rewrite <- X1.
Qed.

(** * Examples *)

Definition addr_v : string := "0x00000000000000000000000000000000000000bb".
Definition tok : string := "0x00000000000000000000000000000000000000aa".
Definition hash1 : string := "0x0000000000000000000000000000000000000000000000000000000000000001".
Definition usd : AssetRef := {| chain_id := 5; address := Some tok; symbol := "USDC"; decimals := 6 |}.
Definition cid : string := "01HZZZZZZZZZZZZZZZZZZZZZZC".
Definition fid : string := "01HZZZZZZZZZZZZZZZZZZZZZZF".
Definition aid : string := "01HZZZZZZZZZZZZZZZZZZZZZZA".

Definition fact : ReceiptFact := {|
  rf_id := cid; rf_asset := usd; rf_amount := 500; rf_tx_hash := hash1; rf_log_index := 0; block_hash := hash1; block_number := 7;
  rf_payer := Some addr_v; payee_address := addr_v; rf_source_kind := "DIRECT_REPAYMENT"; rf_profile := "LOCAL_MOCK";
  rf_received_at := Aware 10; rf_canonical := true; rf_finalized := true; rf_status := 1; rf_settlement := None |}.

Definition payment : AllocationFact := {|
  af_id := aid; af_receipt := cid; af_facility := fid; af_received := 500; af_fee := 10; af_interest := 40; af_principal := 400;
  af_excess := 50; af_new_debt := 0; af_tx_hash := hash1; af_chain_id := 5; af_profile := "LOCAL_MOCK"; af_canonical := true;
  af_finalized := true; af_status := 1 |}.

Definition rd0 : CashEvidenceReader := {| receipt := fun _ => Some fact; allocation := fun _ => Some payment |}.
Definition route0 : DestinationRoute := {| vault_id := "v"; receiver_address := addr_v; rt_asset := usd; rt_profile := "LOCAL_MOCK" |}.

Definition db0 : DB := {|
  providers := ∅; accounts := ∅; observations := ∅; policies := ∅; controls := ∅;
  facilities := {[fid := {| facility_id := fid; f_borrower := "b"; f_vault := "v"; loan_chain_id := 5; loan_token_address := Some tok;
                            loan_decimals := 6; f_policy := "p"; f_profile := "LOCAL_MOCK"; maturity_at := None; f_control := None;
                            funded_agreement_version := None |}]};
  decisions := ∅; verifications := ∅; evidence := ∅; receivables := ∅; revisions := []; settlements := ∅; receipts := ∅; allocations := ∅;
  cases := []; outbox := {| Outbox.rows := ∅; Outbox.next_id := 1; Outbox.now := 0; Outbox.delivered := [] |} |}.

Definition db1 : DB := (transaction (record_destination_receipt "r" route0 (Some rd0)) db0).2.
Definition db2 : DB := (transaction (record_confirmed_allocation "r" (Some rd0)) db1).2.

Example cash_flow :
  (cash_state <$> receipts db1 !! cid, cash_state <$> receipts db2 !! cid, principal_paid <$> allocations db2 !! aid,
   (record_confirmed_allocation "r" (Some rd0) db2).1, (record_confirmed_allocation "r" None db1).1) =
  (Some "DESTINATION_RECEIVED", Some "ALLOCATED", Some 400,
   Ok {| result_id := Some aid; result_created := false; result_reason := Some "DUPLICATE_ALLOCATION" |},
   Ok (nothing "DESTINATION_READER_NOT_CONFIGURED"))%string.
Proof. vm_compute. reflexivity. Qed.

Lemma cash_db0_wf : cash_wf db0.
Proof. split; [by intros i c|by intros i j c d|by intros i a|by intros i j a b|by intros i c]. Qed.

Lemma db1_reach : rtc step db0 db1.
Proof. apply rtc_once. exact (step_receipt db0 "r" route0 (Some rd0)). Qed.

Lemma db2_reach : rtc step db0 db2.
Proof. eapply rtc_r; [exact db1_reach|]. exact (step_allocation db1 "r" (Some rd0)). Qed.

Lemma db2_row : exists c, receipts db2 !! cid = Some c /\ String.eqb (cash_state c) "ALLOCATED" && (c_amount c =? 500) = true.
Proof.
  assert (H : match receipts db2 !! cid with Some c => String.eqb (cash_state c) "ALLOCATED" && (c_amount c =? 500) | None => false end = true)
    by (vm_compute; reflexivity).
  destruct (receipts db2 !! cid) as [c|]; [|discriminate H]. exists c. split; [reflexivity|exact H].
Qed.

Lemma cash_reachable_witness : allocated cid (allocations db2) = 500.
Proof.
  destruct db2_row as (c & Hc & Hs). apply andb_true_iff in Hs as [Hs%String.eqb_eq Ha%Z.eqb_eq]. rewrite <- Ha.
  exact (proj1 (proj2 (proj1 (proj2 (proj2 (cash_reachable db0 db2 cash_db0_wf db2_reach))) cid c Hc)) Hs).
Defined.

Lemma cash_db1_wf : cash_wf db1.
Proof. exact (proj1 (rtc_step_cash db0 db1 db1_reach cash_db0_wf)). Qed.

Lemma allocation_guard_witness :
  exists r s', record_confirmed_allocation "r" (Some rd0) db1 = (Ok r, s') /\ result_created r = true /\
    exists a x, allocations s' = <[af_id a := x]> (allocations db1) /\ result_id r = Some (af_id a).
Proof.
  assert (Hc : match (record_confirmed_allocation "r" (Some rd0) db1).1 with Ok r => result_created r | Raise _ => false end = true)
    by (vm_compute; reflexivity).
  destruct (record_confirmed_allocation "r" (Some rd0) db1) as [[r|e] s'] eqn:H; [|discriminate Hc]. cbn [fst] in Hc.
  exists r, s'. split; [reflexivity|]. split; [exact Hc|].
  pose proof (allocation_guard "r" (Some rd0) db1 r s' cash_db1_wf H) as Hg. rewrite Hc in Hg.
  destruct Hg as (rd & a & c & f & x & Hg). exists a, x. split; apply Hg.
Defined.

End CashEngine.
