(* ===== verification/ChainReader.v ===== *)
(** The canonical repayment reader: what the chain shows of one direct repayment,
    as the receipt and the allocation the cash reconciler records.

    Source: offchain/gpu/hashcredit_gpu/reconciliation/chain_reader.py
    ([stable_id], [_is_direct_router_transaction], [CanonicalRepaymentReader];
    [pair_repayment_events] is in Projection.v) with [FacilityBinding] of
    db/product_models.py.  The node and eth_abi are outside the program, as in
    Views.v; the node's transactions ([get_transaction]) carry their quantities
    as numbers.  The chain's rows are the indexer's, of one deployment. *)

From S2P Require Import Prelude Domain Stdpy Datetime Json Session JobQueue Decoders Columns Projection Indexer Views Ledger CashEngine.
Import Domain Stdpy Json Decoders Columns Projection Views.

Module ChainReader.

(** [for i in reversed(range(n))] *)
Definition base32 (n : nat) (v : Z) (rest : string) : string :=
  foldr (fun i s => String (Jobs.crockford_digit (Z.land (Z.shiftr v (5 * Z.of_nat i)) 31)) s) rest (rev (seq 0 n)).

(** Models [reconciliation/chain_reader.py], [stable_id]. *)
Definition stable_id (reference : string) : string := base32 26 (be_int (take 16 (sha256 (bytes_of reference)))) "".

(** Models [db/product_models.py], [FacilityBinding], lines 73-79. *)
Record FacilityBinding := { b_facility : string; onchain_id : string; binding_tx_hash : string }.

(** A transaction of the node; [None] is a JSON null. *)
Record Transaction := {
  t_hash : string;
  t_block_hash : option string;
  t_block_number : option Z;
  t_to : option string;
  t_from : string;
  t_input : string;
}.

(** [s.rsplit(":", 1)] *)
Fixpoint rsplit_colon (s : string) : option (string * string) :=
  match s with
  | EmptyString => None
  | String a s' =>
      match rsplit_colon s' with
      | Some (l, r) => Some (String a l, r)
      | None => if Ascii.eqb a ":" then Some (EmptyString, s') else None
      end
  end.

(** [x.lower()], [int(x, 16)] of what may be null *)
Definition lower_opt (x : option string) : res string :=
  match x with Some s => Ok (lower s) | None => Raise (Exn AttributeError "'NoneType' object has no attribute 'lower'") end.
Definition number_opt (x : option Z) : res Z :=
  match x with Some n => Ok n | None => Raise (Exn TypeError "int() can't convert non-string with explicit base") end.

(** [contracts[key]] *)
Definition contract_at (key : string) (cs : list (string * string)) : res string :=
  match dget key cs with Some a => Ok a | None => Raise (Exn KeyError key) end.

(** [a or b] where each may raise *)
Definition por (a : res bool) (b : res bool) : res bool := rbind a (fun x => if x : bool then Ok true else b).
Definition differs (a b : res string) : res bool := rbind a (fun x => rbind b (fun y => Ok (negb (String.eqb x y)))).

(** A field of the event, in lower case *)
Definition lower_field (key : string) (a : json) : res string := rbind (field key a) lower_of.

(** Models [reconciliation/chain_reader.py], [_is_direct_router_transaction], lines 112-118. *)
Definition not_of_event (t : Transaction) (r : ChainLog) (cs : list (string * string)) : res bool :=
  por (Ok (negb (String.eqb (lower (t_hash t)) (tx_hash r))))
 (por (differs (lower_opt (t_block_hash t)) (Ok (block_hash r)))
 (por (rbind (number_opt (t_block_number t)) (fun n => Ok (negb (n =? block_number r))))
 (por (differs (lower_opt (t_to t)) (rbind (contract_at "RepaymentRouter" cs) (fun a => Ok (lower a))))
      (differs (Ok (lower (t_from t))) (lower_field "payer" (decoded r)))))).

Definition caught (e : exn) : bool :=
  bool_decide (exn_kind e ∈ [AttributeError; KeyError; TypeError; ValueError; OverflowError]).

Section Direct.
Context (keccak : list Z -> list Z) (abi_decode : list string -> list Z -> res (list pyval)).

Definition EXACT : string := "repayExact(bytes32,uint256)".
Definition FOR : string := "repayFor(bytes32,uint256,bytes32)".

(** [selectors.get(data[:4])] *)
Definition types_of (data : list Z) : list string :=
  let sel := take 4 data in
  if bool_decide (sel = take 4 (keccak (bytes_of FOR))) then ["bytes32"; "uint256"; "bytes32"]%string
  else if bool_decide (sel = take 4 (keccak (bytes_of EXACT))) then ["bytes32"; "uint256"]%string
  else [].

(** The facility of the arguments is the event's, the amount covers what was
    requested and the settlement reference, if any, is zero. *)
(** Models [reconciliation/chain_reader.py], [_is_direct_router_transaction], lines 129-131. *)
Definition arguments_match (values : list pyval) (r : ChainLog) : res bool :=
  rbind (py_nth values 0) (fun v0 =>
  rbind (match v0 with PBytes b => Ok ("0x" ++ hex b)%string | _ => Raise (Exn AttributeError "hex") end) (fun key =>
  rbind (lower_field "facilityId" (decoded r)) (fun fid =>
  if negb (String.eqb key fid) then Ok false
  else
    rbind (int_field "requested" (decoded r)) (fun req =>
    rbind (py_nth values 1) (fun v1 =>
    match v1 with
    | PInt n =>
        if negb (req <=? n) then Ok false
        else if (length values =? 2)%nat then Ok true
        else rbind (py_nth values 2) (fun v2 => Ok (match v2 with PBytes b => bool_decide (b = replicate 32 0) | _ => false end))
    | _ => Raise (Exn TypeError "'<=' not supported")
    end))))).

(** Models [reconciliation/chain_reader.py], [_is_direct_router_transaction], lines 111-131. *)
Definition direct_body (t : option Transaction) (r : ChainLog) (cs : list (string * string)) : res bool :=
  match t with
  | None => Ok false
  | Some t =>
      rbind (not_of_event t r cs) (fun other => if other : bool then Ok false else
      rbind (fromhex (without_0x (t_input t))) (fun data =>
      let types := types_of data in
      if (length types =? 0)%nat || negb (length data =? 4 + 32 * length types)%nat then Ok false
      else rbind (abi_decode types (drop 4 data)) (fun values => arguments_match values r)))
  end.

(** Models [reconciliation/chain_reader.py], [_is_direct_router_transaction]. *)
Definition is_direct_router_transaction (t : option Transaction) (r : ChainLog) (cs : list (string * string)) : res bool :=
  match direct_body t r cs with
  | Raise e => if caught e then Ok false else Raise e
  | ok => ok
  end.

End Direct.

(** * The reader *)

(** [int(index)] *)
Definition index_of (s : string) : res Z :=
  match int_text s with Some n => Ok n | None => Raise (Exn ValueError "invalid literal for int()") end.

(** [next((l for l in logs if ... and l.log_index == int(index)), None)] *)
Fixpoint find_repaid (index : string) (logs : list ChainLog) : res (option ChainLog) :=
  match logs with
  | [] => Ok None
  | l :: logs' =>
      if is_repaid l then rbind (index_of index) (fun n => if log_index l =? n then Ok (Some l) else find_repaid index logs')
      else find_repaid index logs'
  end.

(** A successful log of the transaction on a finalized block of the journal.
    Models [reconciliation/chain_reader.py], [CanonicalRepaymentReader._facts], lines 155-165. *)
Definition is_final (tx : string) (x : Indexer.DB) (l : ChainLog) : bool :=
  match Indexer.blocks x !! block_number l with
  | Some b => String.eqb (b_hash b) (block_hash l) && String.eqb (tx_hash l) (lower tx) && String.eqb (tier l) "FINALIZED" &&
              (tx_status l =? 1) && String.eqb (b_tier b) "FINALIZED"
  | None => false
  end.

(** Models [reconciliation/chain_reader.py], [CanonicalRepaymentReader._facts], lines 152-166. *)
Definition final_logs (tx : string) (x : Indexer.DB) : list ChainLog := filter (fun l => is_final tx x l) (Indexer.logs x).

Definition json_of (o : option string) : json := match o with Some s => JStr s | None => JNull end.

(** [a[k] != b[k]] *)
Definition field_differs (key : string) (a b : json) : res bool :=
  rbind (field key a) (fun x => rbind (field key b) (fun y => Ok (negb (json_eqb x y)))).

(** [datetime.fromtimestamp(n, UTC)] *)
Definition fromtimestamp (n : Z) : res datetime :=
  if Datetime.representable (n * 1000000) then Ok (Aware (n * 1000000)) else Raise (Exn ValueError "year is out of range").

Definition text_or_none (x : json) : res (option string) :=
  match x with JStr s => Ok (Some s) | JNull => Ok None | _ => Raise (Exn TypeError "payer") end.

Definition Facts : Type := CashEngine.ReceiptFact * CashEngine.AllocationFact.

(** The two facts of a paired leg. *)
(** Models [reconciliation/chain_reader.py], [CanonicalRepaymentReader._facts], lines 231-274. *)
Definition facts_of (d : ChainDeployment) (f : Ledger.Facility) (b : ChainBlock) (r a v : ChainLog) (canonical : bool) : res Facts :=
  let chain := py_str (d_chain_id d) in
  let reference := (tx_hash r ++ ":" ++ py_str (log_index r))%string in
  let cash_id := stable_id ("cash:" ++ chain ++ ":" ++ reference) in
  let status := if canonical then 1 else 0 in
  rbind (make_asset (Ledger.loan_chain_id f) (Ledger.loan_token_address f) "LOAN" (Ledger.loan_decimals f)) (fun asset =>
  rbind (int_field "received" (decoded v)) (fun amount =>
  rbind (rbind (field "payer" (decoded r)) text_or_none) (fun payer =>
  rbind (contract_at "LendingVaultV2" (contracts d)) (fun payee =>
  rbind (fromtimestamp (timestamp b)) (fun at_ =>
  let receipt_fact := {|
    CashEngine.rf_id := cash_id; CashEngine.rf_asset := asset; CashEngine.rf_amount := amount; CashEngine.rf_tx_hash := tx_hash r;
    CashEngine.rf_log_index := log_index r; CashEngine.block_hash := block_hash r; CashEngine.block_number := block_number r;
    CashEngine.rf_payer := payer; CashEngine.payee_address := lower payee; CashEngine.rf_source_kind := "DIRECT_REPAYMENT";
    CashEngine.rf_profile := d_profile d; CashEngine.rf_received_at := at_; CashEngine.rf_canonical := canonical;
    CashEngine.rf_finalized := true; CashEngine.rf_status := status; CashEngine.rf_settlement := None |} in
  rbind (int_field "feePaid" (decoded a)) (fun fee => rbind (int_field "interestPaid" (decoded a)) (fun int =>
  rbind (int_field "principalPaid" (decoded a)) (fun prin => rbind (int_field "excess" (decoded a)) (fun ex =>
  rbind (int_field "newDebt" (decoded a)) (fun debt =>
  Ok (receipt_fact, {|
    CashEngine.af_id := stable_id ("allocation:" ++ chain ++ ":" ++ reference); CashEngine.af_receipt := cash_id;
    CashEngine.af_facility := Ledger.facility_id f; CashEngine.af_received := amount; CashEngine.af_fee := fee; CashEngine.af_interest := int;
    CashEngine.af_principal := prin; CashEngine.af_excess := ex; CashEngine.af_new_debt := debt; CashEngine.af_tx_hash := tx_hash r;
    CashEngine.af_chain_id := d_chain_id d; CashEngine.af_profile := d_profile d; CashEngine.af_canonical := canonical;
    CashEngine.af_finalized := true; CashEngine.af_status := status |})))))))))))%string.

(** Models [reconciliation/chain_reader.py], [CanonicalRepaymentReader._facts], lines 214-220. *)
Definition disagree (r a v : ChainLog) : res bool :=
  por (field_differs "received" (decoded v) (decoded r))
 (por (field_differs "applied" (decoded v) (decoded r))
 (por (field_differs "excess" (decoded v) (decoded r)) (field_differs "newDebt" (decoded a) (decoded r)))).

(** Models [reconciliation/chain_reader.py], [CanonicalRepaymentReader._facts], lines 224-230. *)
Definition is_canonical (r : ChainLog) (actual : option Indexer.RpcBlock) (receipt : option Indexer.Receipt) : bool :=
  match actual, receipt with
  | Some b, Some c =>
      String.eqb (lower (Indexer.rb_hash b)) (block_hash r) && String.eqb (lower (Indexer.rc_block_hash c)) (block_hash r) && (Indexer.rc_status c =? 1)
  | _, _ => false
  end.

Section Reader.
Context (env : nat -> Node) (get_transaction : nat -> string -> option Transaction) (abi_of : string -> list json)
        (abi_encode : list string -> list arg -> res (list Z)) (abi_decode : list string -> list Z -> res (list pyval)) (keccak : list Z -> list Z)
        (bindings : list FacilityBinding) (facilities : gmap string Ledger.Facility).

#[local] Abbreviation M := (PyM World).

(** [self.rpc.get_transaction(hash)]: one more call. *)
Definition ask_transaction (hash : string) : M (option Transaction) :=
  let* w := get in
  modify (fun w => w <| w_calls ::= S |>) ;;;
  ret (get_transaction (w_calls w) hash).

(** The facility the deployment knows by this key, on the loan chain. *)
(** Models [reconciliation/chain_reader.py], [CanonicalRepaymentReader._facts], lines 179-194. *)
Definition bound_facility (d : ChainDeployment) (r : ChainLog) : res (option (string * Ledger.Facility)) :=
  rbind (str_field "facilityId" (decoded r)) (fun key =>
  match List.find (fun b => String.eqb (onchain_id b) key) bindings with
  | None => Ok None
  | Some b =>
      match facilities !! b_facility b with
      | Some f =>
          if String.eqb (Ledger.f_profile f) (d_profile d) && (Ledger.loan_chain_id f =? d_chain_id d) then Ok (Some (key, f))
          else Raise (Exn ValueError "facility binding profile/chain mismatch")
      | None => Raise (Exn ValueError "facility binding profile/chain mismatch")
      end
  end).

(** Models [reconciliation/chain_reader.py], [CanonicalRepaymentReader._facts], lines 199-202. *)
Definition accepted (d : ChainDeployment) (r : ChainLog) : M bool :=
  if String.eqb (contract_name r) "RepaymentRouter" then
    let* t := ask_transaction (tx_hash r) in
    lift_res (is_direct_router_transaction keccak abi_decode t r (contracts d))
  else ret true.

(** Models [reconciliation/chain_reader.py], [CanonicalRepaymentReader._facts], lines 203-230. *)
Definition measure (d : ChainDeployment) (f : Ledger.Facility) (r a v : ChainLog) : M (option Facts) :=
  let* token := read env abi_of abi_encode abi_decode (contracts d) (block_number r) "LendingVaultV2" "asset" [] in
  if negb (json_eqb token (json_of (Ledger.loan_token_address f))) then raise ValueError "facility loan token differs from actual vault asset"
  else
    let* bad := lift_res (disagree r a v) in
    if bad : bool then raise ValueError "canonical repayment events disagree"
    else
      let* w := get in
      let* actual := rpc env (fun n => Indexer.get_block (base n) (block_number r)) in
      let* receipt := rpc env (fun n => Indexer.get_receipt (base n) (tx_hash r)) in
      match Indexer.blocks (w_db w) !! block_number r with
      | None => raise AttributeError "'NoneType' object has no attribute 'timestamp'"
      | Some b => let* x := lift_res (facts_of d f b r a v (is_canonical r actual receipt)) in ret (Some x)
      end.

(** Models [reconciliation/chain_reader.py], [CanonicalRepaymentReader._facts]. *)
Definition facts (reference : string) : M (option Facts) :=
  match rsplit_colon reference with
  | None => raise ValueError "not enough values to unpack"
  | Some (tx, index) =>
      let* w := get in
      match Indexer.deployment (w_db w) with
      | None => raise ValueError "cash reader deployment chain mismatch"
      | Some d =>
          let* cid := rpc env (fun n => Indexer.chain_id (base n)) in
          if negb (cid =? d_chain_id d) then raise ValueError "cash reader deployment chain mismatch"
          else
            let logs := final_logs tx (w_db w) in
            let* found := lift_res (find_repaid index logs) in
            match found with
            | None => ret None
            | Some r =>
                let* bound := lift_res (bound_facility d r) in
                match bound with
                | None => ret None
                | Some (key, f) =>
                    match pair_repayment_events logs (contracts d) (log_index r) key false with
                    | None => ret None
                    | Some (r, a, v) =>
                        let* ok := accepted d r in
                        if ok : bool then measure d f r a v else ret None
                    end
                end
            end
      end
  end.

(** Models [reconciliation/chain_reader.py], [CanonicalRepaymentReader.receipt]. *)
Definition receipt (reference : string) : M (option CashEngine.ReceiptFact) :=
  let* f := facts reference in ret (fst <$> f).

(** Models [reconciliation/chain_reader.py], [CanonicalRepaymentReader.allocation]. *)
Definition allocation (reference : string) : M (option CashEngine.AllocationFact) :=
  let* f := facts reference in ret (snd <$> f).

End Reader.

(** * Identifiers *)

Lemma base32_digits n v rest : base32 n v rest = Jobs.ulid_digits n v rest.
Proof.
  unfold base32. revert v rest. induction n as [|n IH]; intros v rest; [done|].
  cbn [Jobs.ulid_digits]. rewrite <- IH, <- cons_seq, <- seq_shift. cbn [rev]. rewrite foldr_app. cbn [foldr]. rewrite Z.mul_0_r, Z.shiftr_0_r.
  assert (E : forall i, Z.shiftr v (5 * Z.of_nat (S i)) = Z.shiftr (Z.shiftr v 5) (5 * Z.of_nat i)) by (intros i; rewrite Z.shiftr_shiftr by lia; f_equal; lia).
  rewrite <- map_rev. clear IH. induction (rev (seq 0 n)) as [|i l IHl]; [done|]. cbn [map foldr]. by rewrite IHl, E.
Qed.

Lemma digit_char n : 0 <= n < 32 ->
  let a := Jobs.crockford_digit n in
  in_range "0" "9" a || in_range "A" "H" a || in_range "J" "K" a || in_range "M" "N" a || in_range "P" "T" a || in_range "V" "Z" a = true.
Proof.
  intros Hn. assert (Hall : Forall (fun k => (fun a => in_range "0" "9" a || in_range "A" "H" a || in_range "J" "K" a || in_range "M" "N" a || in_range "P" "T" a || in_range "V" "Z" a)
    (Jobs.crockford_digit (Z.of_nat k)) = true) (seq 0 32)) by (by repeat constructor).
  rewrite Forall_forall in Hall. specialize (Hall (Z.to_nat n)). rewrite Z2Nat.id in Hall by lia. apply Hall, elem_of_seq. lia.
Qed.

Lemma digits_chars n v acc : 0 <= v ->
  string_forallb (fun a => in_range "0" "9" a || in_range "A" "H" a || in_range "J" "K" a || in_range "M" "N" a || in_range "P" "T" a || in_range "V" "Z" a) acc = true ->
  string_forallb (fun a => in_range "0" "9" a || in_range "A" "H" a || in_range "J" "K" a || in_range "M" "N" a || in_range "P" "T" a || in_range "V" "Z" a) (Jobs.ulid_digits n v acc) = true.
Proof.
  revert v acc. induction n as [|n IH]; intros v acc Hv Ha; [done|]. cbn [Jobs.ulid_digits]. apply IH; [by apply Z.shiftr_nonneg|].
  cbn [string_forallb]. rewrite Ha, andb_true_r. apply digit_char. change 31 with (Z.ones 5). rewrite Z.land_ones by lia. by apply Z.mod_pos_bound.
Qed.

Lemma be_int_bound l a : is_bytes l -> 0 <= a -> 0 <= fold_left (fun acc b => acc * 256 + b) l a < (a + 1) * 256 ^ zlen l.
Proof.
  intros Hl. revert a. induction Hl as [|b l Hb Hl IH]; intros a Ha; cbn [fold_left]; [unfold zlen; change (256 ^ Z.of_nat (length (A:=Z) [])) with 1; lia|].
  unfold is_byte in Hb. specialize (IH (a * 256 + b) ltac:(lia)). unfold zlen in *. cbn [length]. rewrite Nat2Z.inj_succ, Z.pow_succ_r by lia.
  assert (0 < 256 ^ Z.of_nat (length l)) by (apply Z.pow_pos_nonneg; lia). nia.
Qed.

Definition digest16 (reference : string) : Z := be_int (take 16 (sha256 (bytes_of reference))).

Lemma digest16_bound reference : 0 <= digest16 reference < 2 ^ 128.
Proof.
  unfold digest16. pose proof (sha256_bytes (bytes_of reference)) as Hb. pose proof (sha256_length (bytes_of reference)) as Hl.
  set (d := sha256 _) in *. clearbody d. pose proof (be_int_bound (take 16 d) 0 (Forall_take _ _ _ Hb) ltac:(lia)) as H.
  unfold be_int, zlen in *. rewrite length_take, Hl in H. exact H.
Qed.

(** The identifiers of facts fit the columns they are stored in, and spell out
    the digest they are made of. *)
Lemma stable_id_ulid reference :
  ULID_CHECK (stable_id reference) = true /\ Jobs.ulid_decode 0 (stable_id reference) = digest16 reference.
Proof.
  pose proof (digest16_bound reference) as Hb. unfold stable_id. fold (digest16 reference). set (v := digest16 reference) in *. clearbody v.
  rewrite base32_digits. unfold ULID_CHECK. rewrite Jobs.ulid_digits_length. change ((26 + String.length "")%nat =? 26)%nat with true. split.
  - apply digits_chars; [lia|done].
  - rewrite Jobs.ulid_digits_decode by lia. cbn [Jobs.ulid_decode]. rewrite Z.mod_small; [lia|].
    assert (2 ^ 128 < 32 ^ Z.of_nat 26) by (vm_compute; reflexivity). lia.
Qed.

(** * The leg a fact rests on *)

Lemma uint_int key x n : uint x = Ok n -> int_of key x = Ok n /\ 0 <= n.
Proof.
  unfold uint. intros (m & Hm & H)%rbind_Ok. destruct (_ && _) eqn:Hb; [|done]. injection H as ->. split; [|lia].
  destruct x; try done. destruct (negb _ && _); [exact Hm|done].
Qed.

Lemma uint_int_field key a n : uint_field key a = Ok n -> int_field key a = Ok n /\ 0 <= n.
Proof.
  unfold uint_field, int_field. intros (x & Hx & Hu)%rbind_Ok. rewrite Hx. cbn [rbind]. by apply uint_int.
Qed.

Lemma por_false a b : por a b = Ok false -> a = Ok false /\ b = Ok false.
Proof. unfold por. intros (x & Hx & H)%rbind_Ok. destruct x; [done|]. by rewrite Hx. Qed.

Lemma differs_false a b : differs a b = Ok false -> exists x, a = Ok x /\ b = Ok x.
Proof.
  unfold differs. intros (x & Hx & (y & Hy & H)%rbind_Ok)%rbind_Ok. injection H as H. apply negb_false_iff, String.eqb_eq in H as ->. by exists y.
Qed.

(** What an accepted router transaction is: the payer's own top-level call of
    one of the two direct repayments, in the event's block. *)
Record direct_call (keccak : list Z -> list Z) (t : Transaction) (r : ChainLog) (cs : list (string * string)) : Prop := {
  dc_hash : lower (t_hash t) = tx_hash r;
  dc_block : lower <$> t_block_hash t = Some (block_hash r) /\ t_block_number t = Some (block_number r);
  dc_to : exists to router, t_to t = Some to /\ dget "RepaymentRouter" cs = Some router /\ lower to = lower router;
  dc_payer : lower_field "payer" (decoded r) = Ok (lower (t_from t));
  dc_selector : exists data, fromhex (without_0x (t_input t)) = Ok data /\
    (take 4 data = take 4 (keccak (bytes_of EXACT)) \/ take 4 data = take 4 (keccak (bytes_of FOR)));
}.

Lemma direct_true keccak dec t r cs : is_direct_router_transaction keccak dec t r cs = Ok true -> exists x, t = Some x /\ direct_call keccak x r cs.
Proof.
  unfold is_direct_router_transaction. destruct (direct_body _ _ _ _ _) as [b|e] eqn:H; [|by destruct (caught e)]. intros [= ->].
  unfold direct_body in H. destruct t as [x|]; [|done]. exists x. split; [done|].
  apply rbind_Ok in H as (other & Ho & H). destruct other; [done|]. unfold not_of_event in Ho.
  apply por_false in Ho as [H1 Ho]. apply por_false in Ho as [H2 Ho]. apply por_false in Ho as [H3 Ho]. apply por_false in Ho as [H4 H5].
  injection H1 as H1. apply negb_false_iff, String.eqb_eq in H1. apply differs_false in H2 as (h & Hh & [= <-]).
  apply rbind_Ok in H3 as (n & Hn & [= H3]). apply negb_false_iff, Z.eqb_eq in H3 as ->. apply differs_false in H4 as (to & Hto & Hr).
  apply differs_false in H5 as (p & [= <-] & Hp). apply rbind_Ok in H as (data & Hd & H). cbv zeta in H.
  split; [done| | |done|exists data; split; [done|]].
  - unfold lower_opt in Hh. unfold number_opt in Hn. destruct (t_block_hash x); [|done]. destruct (t_block_number x); [|done]. cbn. split; congruence.
  - unfold lower_opt in Hto. destruct (t_to x) as [y|]; [|done]. unfold contract_at in Hr. destruct (dget _ cs) as [router|]; [|done].
    injection Hto as <-. injection Hr as Hr. by exists y, router.
  - unfold types_of in H. case_bool_decide as E1; [by right|]. case_bool_decide as E2; [by left|]. done.
Qed.

Lemma find_repaid_Some index logs r : find_repaid index logs = Ok (Some r) -> r ∈ logs /\ is_repaid r = true /\ index_of index = Ok (log_index r).
Proof.
  induction logs as [|l logs IH]; [done|]. cbn [find_repaid]. intros H. destruct (is_repaid l) eqn:Hl.
  - apply rbind_Ok in H as (n & Hn & H). destruct (Z.eqb_spec (log_index l) n) as [<-|].
    + injection H as ->. split_and!; [by left|done|done].
    + destruct (IH H) as (Hin & Hr). split; [by right|done].
  - destruct (IH H) as (Hin & Hr). split; [by right|done].
Qed.

(** A log of the journal, final with its block. *)
Definition journalled (x : Indexer.DB) (tx : string) (l : ChainLog) : Prop :=
  l ∈ Indexer.logs x /\ tx_hash l = lower tx /\ tier l = "FINALIZED"%string /\ tx_status l = 1 /\
  exists b, Indexer.blocks x !! block_number l = Some b /\ b_hash b = block_hash l /\ b_tier b = "FINALIZED"%string.

Lemma final_logs_journalled tx x l : l ∈ final_logs tx x -> journalled x tx l.
Proof.
  unfold final_logs. intros [H Hl]%list_elem_of_filter. apply Is_true_true in H. unfold is_final in H.
  destruct (Indexer.blocks x !! block_number l) as [b|] eqn:Hb; [|done]. repeat (apply andb_true_iff in H as [H ?]).
  split_and!; [done|by apply String.eqb_eq|by apply String.eqb_eq|by apply Z.eqb_eq|]. exists b. split_and!; [done|by apply String.eqb_eq..].
Qed.

(** Receipt and allocation tell one story: one cash receipt, exactly split. *)
Record one_story (r a v : ChainLog) (f : CashEngine.ReceiptFact) (x : CashEngine.AllocationFact) : Prop := {
  os_receipt : CashEngine.af_receipt x = CashEngine.rf_id f /\ CashEngine.af_tx_hash x = CashEngine.rf_tx_hash f /\
    CashEngine.af_chain_id x = chain_id (CashEngine.rf_asset f) /\ CashEngine.af_profile x = CashEngine.rf_profile f;
  os_split : CashEngine.rf_amount f = CashEngine.af_received x /\ 0 < CashEngine.af_received x /\
    CashEngine.af_received x = CashEngine.af_fee x + CashEngine.af_interest x + CashEngine.af_principal x + CashEngine.af_excess x;
  os_signs : 0 <= CashEngine.af_fee x /\ 0 <= CashEngine.af_interest x /\ 0 <= CashEngine.af_principal x /\ 0 <= CashEngine.af_excess x /\ 0 <= CashEngine.af_new_debt x;
  os_events : uint_field "received" (decoded v) = Ok (CashEngine.rf_amount f) /\ uint_field "received" (decoded r) = Ok (CashEngine.rf_amount f) /\
    uint_field "feePaid" (decoded a) = Ok (CashEngine.af_fee x) /\ uint_field "interestPaid" (decoded a) = Ok (CashEngine.af_interest x) /\
    uint_field "principalPaid" (decoded a) = Ok (CashEngine.af_principal x) /\ uint_field "newDebt" (decoded r) = Ok (CashEngine.af_new_debt x);
  os_place : CashEngine.rf_tx_hash f = tx_hash r /\ CashEngine.rf_log_index f = log_index r /\ CashEngine.block_hash f = block_hash r /\
    CashEngine.block_number f = block_number r;
  os_final : CashEngine.rf_finalized f = true /\ CashEngine.af_finalized x = true /\ CashEngine.rf_canonical f = CashEngine.af_canonical x /\
    CashEngine.rf_status f = (if CashEngine.rf_canonical f then 1 else 0) /\ CashEngine.af_status x = CashEngine.rf_status f;
  os_kind : CashEngine.rf_source_kind f = "DIRECT_REPAYMENT"%string /\ CashEngine.rf_settlement f = None;
  os_ids : ULID_CHECK (CashEngine.rf_id f) = true /\ ULID_CHECK (CashEngine.af_id x) = true;
}.

Lemma make_asset_chain c a s dec x : make_asset c a s dec = Ok x -> chain_id x = c.
Proof. unfold make_asset. destruct (_ || _); [done|]. destruct (addr_validator a); [|done]. by intros [= <-]. Qed.

Lemma make_asset_inv c a s dec x : make_asset c a s dec = Ok x -> address x = lower <$> a /\ decimals x = dec.
Proof.
  unfold make_asset. destruct (_ || _); [done|]. destruct (addr_validator a) as [o|] eqn:Ho; [|done]. intros [= <-]. cbn. split; [|done].
  unfold addr_validator in Ho. destruct a; [|by injection Ho as <-]. destruct (ADDR_RE _); [by injection Ho as <-|done].
Qed.

#[local] Opaque stable_id.

Lemma facts_of_story logs cs target key d fac b r a v canonical f x :
  leg_of logs cs target key r a v -> Ledger.loan_chain_id fac = d_chain_id d ->
  facts_of d fac b r a v canonical = Ok (f, x) ->
  one_story r a v f x /\ CashEngine.rf_canonical f = canonical /\ CashEngine.af_facility x = Ledger.facility_id fac /\ CashEngine.rf_profile f = d_profile d /\
  make_asset (d_chain_id d) (Ledger.loan_token_address fac) "LOAN" (Ledger.loan_decimals fac) = Ok (CashEngine.rf_asset f) /\
  CashEngine.rf_id f = stable_id ("cash:" ++ py_str (d_chain_id d) ++ ":" ++ (tx_hash r ++ ":" ++ py_str (log_index r))) /\
  CashEngine.payee_address f = lower (default ""%string (dget "LendingVaultV2" (contracts d))).
Proof.
  intros L Hchain H. unfold facts_of in H. cbv zeta in H.
  apply rbind_Ok in H as (asset & Ha & H). rewrite Hchain in Ha. apply rbind_Ok in H as (amount & Hm & H). apply rbind_Ok in H as (payer & Hp & H).
  apply rbind_Ok in H as (payee & Hv & H). apply rbind_Ok in H as (at_ & Ht & H). apply rbind_Ok in H as (fee & H1 & H). apply rbind_Ok in H as (int & H2 & H).
  apply rbind_Ok in H as (prin & H3 & H). apply rbind_Ok in H as (ex & H4 & H). apply rbind_Ok in H as (debt & H5 & H).
  destruct (leg_amounts _ _ _ _ _ _ _ L) as (fee' & int' & prin' & ex' & debt' & app & U1 & U2 & U3 & U4 & U5 & U6 & U7 & U8 & U9 & Happ & Hpos).
  pose proof (uint_int_field _ _ _ U1). pose proof (uint_int_field _ _ _ U2). pose proof (uint_int_field _ _ _ U3).
  pose proof (uint_int_field _ _ _ U4). pose proof (uint_int_field _ _ _ U5). pose proof (uint_int_field _ _ _ U7).
  assert (fee = fee') by (destruct H0; congruence). assert (int = int') by (destruct H6; congruence). assert (prin = prin') by (destruct H7; congruence).
  assert (ex = ex') by (destruct H8; congruence). assert (debt = debt') by (destruct H9; congruence). assert (amount = app + ex') by (destruct H10; congruence). subst.
  injection H as <- <-. split_and!; try done; [|unfold contract_at in Hv; by destruct (dget _ (contracts d)); [injection Hv as ->|]].
  split; cbn; split_and!; try done; try lia; try (by apply stable_id_ulid).
  by apply make_asset_chain in Ha.
Qed.

Section Grounds.
Context (env : nat -> Node) (get_transaction : nat -> string -> option Transaction) (abi_of : string -> list json)
        (abi_encode : list string -> list arg -> res (list Z)) (abi_decode : list string -> list Z -> res (list pyval)) (keccak : list Z -> list Z)
        (bindings : list FacilityBinding) (facilities : gmap string Ledger.Facility).

#[local] Abbreviation facts_ := (facts env get_transaction abi_of abi_encode abi_decode keccak bindings facilities).

(** What the facts of a reference rest on. *)
Record grounds (reference : string) (w : World) (f : CashEngine.ReceiptFact) (d : ChainDeployment) (fac : Ledger.Facility) (r a v : ChainLog) : Prop := {
  gr_deployment : Indexer.deployment (w_db w) = Some d /\ Indexer.chain_id (base (env (w_calls w))) = d_chain_id d;
  gr_leg : exists tx index key, rsplit_colon reference = Some (tx, index) /\ index_of index = Ok (log_index r) /\
    (forall l, l ∈ [r; a; v] -> journalled (w_db w) tx l) /\ leg_of (final_logs tx (w_db w)) (contracts d) (log_index r) key r a v /\
    exists b, b ∈ bindings /\ onchain_id b = key /\ facilities !! b_facility b = Some fac;
  gr_profile : Ledger.f_profile fac = d_profile d /\ Ledger.loan_chain_id fac = d_chain_id d;
  gr_router : contract_name r = "RepaymentRouter"%string -> exists i t, get_transaction i (tx_hash r) = Some t /\ direct_call keccak t r (contracts d);
  gr_token : exists i, view_at abi_of abi_encode abi_decode (env i) (contracts d) (block_number r) "LendingVaultV2" "asset" [] = Ok (json_of (Ledger.loan_token_address fac));
  gr_canonical : CashEngine.rf_canonical f = true -> exists i b j c,
    Indexer.get_block (base (env i)) (block_number r) = Some b /\ lower (Indexer.rb_hash b) = block_hash r /\
    Indexer.get_receipt (base (env j)) (tx_hash r) = Some c /\ lower (Indexer.rc_block_hash c) = block_hash r /\ Indexer.rc_status c = 1;
}.

Lemma read_Ok cs blk contract function args w x w' :
  read env abi_of abi_encode abi_decode cs blk contract function args w = (Ok x, w') ->
  view_at abi_of abi_encode abi_decode (env (w_calls w)) cs blk contract function args = Ok x /\ w_db w' = w_db w.
Proof.
  intros H. unfold read in H. apply bind_Ok in H as (q & w1 & H1 & H). injection H1 as Hq <-. apply bind_Ok in H as (raw & w2 & H2 & H). injection H2 as <- <-.
  apply bind_Ok in H as (raw & w3 & H3 & H). injection H3 as Hr <-. injection H as Ha <-. split; [|done].
  unfold view_at. rewrite Hq. cbn [rbind]. rewrite Hr. exact Ha.
Qed.

Lemma json_of_eq x o : json_eqb x (json_of o) = true -> x = json_of o.
Proof. destruct o as [s|], x; try done. cbn. by intros ->%String.eqb_eq. Qed.

Lemma measure_run d fac r a v w f x w' :
  measure env abi_of abi_encode abi_decode d fac r a v w = (Ok (Some (f, x)), w') ->
  exists b canonical, facts_of d fac b r a v canonical = Ok (f, x) /\
    (exists i, view_at abi_of abi_encode abi_decode (env i) (contracts d) (block_number r) "LendingVaultV2" "asset" [] = Ok (json_of (Ledger.loan_token_address fac))) /\
    (canonical = true -> exists i b j c,
      Indexer.get_block (base (env i)) (block_number r) = Some b /\ lower (Indexer.rb_hash b) = block_hash r /\
      Indexer.get_receipt (base (env j)) (tx_hash r) = Some c /\ lower (Indexer.rc_block_hash c) = block_hash r /\ Indexer.rc_status c = 1).
Proof.
  intros H. unfold measure in H. apply bind_Ok in H as (token & w1 & [Ht _]%read_Ok & H). destruct (negb _) eqn:Htok; [done|].
  apply negb_false_iff, json_of_eq in Htok as ->. apply bind_Ok in H as (bad & w2 & H2 & H). injection H2 as _ <-. destruct bad; [done|].
  apply bind_Ok in H as (w3 & w4 & [-> ->]%get_Ok & H). apply bind_Ok in H as (actual & w5 & H5 & H). injection H5 as <- <-.
  apply bind_Ok in H as (rc & w6 & H6 & H). injection H6 as <- <-. destruct (_ !! _) as [b|]; [|done].
  apply bind_Ok in H as (y & w7 & H7 & H). injection H7 as Hf <-. apply ret_Ok in H as [[= <-] _].
  eexists b, _. split; [exact Hf|]. split; [by eexists|]. unfold is_canonical.
  destruct (Indexer.get_block _ _) as [blk|] eqn:Hb; [|done]. destruct (Indexer.get_receipt _ _) as [c|] eqn:Hc; [|done].
  intros [[E1%String.eqb_eq E2%String.eqb_eq]%andb_true_iff E3%Z.eqb_eq]%andb_true_iff. eexists _, blk, _, c. split_and!; [exact Hb|done|exact Hc|done|done].
Qed.

(** Where a reference points in the journal: the leg and its facility. *)
Definition located (reference : string) (x : Indexer.DB) : option (ChainDeployment * string * Ledger.Facility * (ChainLog * ChainLog * ChainLog)) :=
  match rsplit_colon reference, Indexer.deployment x with
  | Some (tx, index), Some d =>
      match find_repaid index (final_logs tx x) with
      | Ok (Some r0) =>
          match bound_facility bindings facilities d r0 with
          | Ok (Some (key, fac)) => pair ((d, key), fac) <$> pair_repayment_events (final_logs tx x) (contracts d) (log_index r0) key false
          | _ => None
          end
      | _ => None
      end
  | _, _ => None
  end.

(** A reader that answers has measured the leg its reference points to. *)
Lemma facts_run reference w f x w' :
  facts_ reference w = (Ok (Some (f, x)), w') ->
  exists d key fac r a v w1, located reference (w_db w) = Some (d, key, fac, (r, a, v)) /\
    Indexer.chain_id (base (env (w_calls w))) = d_chain_id d /\
    (contract_name r = "RepaymentRouter"%string -> exists i t, get_transaction i (tx_hash r) = Some t /\ direct_call keccak t r (contracts d)) /\
    measure env abi_of abi_encode abi_decode d fac r a v w1 = (Ok (Some (f, x)), w').
Proof.
  intros H. unfold facts in H. unfold located. destruct (rsplit_colon reference) as [[tx index]|] eqn:Hsplit; [|done].
  apply bind_Ok in H as (w0 & w00 & [-> ->]%get_Ok & H). destruct (Indexer.deployment (w_db w)) as [d|] eqn:Hd; [|done].
  apply bind_Ok in H as (cid & w1 & H1 & H). injection H1 as <- <-. destruct (negb _) eqn:Hcid; [done|]. apply negb_false_iff, Z.eqb_eq in Hcid.
  apply bind_Ok in H as (o & w2 & H2 & H). injection H2 as Hfind <-. rewrite Hfind. destruct o as [r0|]; [|by apply ret_Ok in H as [[=] _]].
  apply bind_Ok in H as (o & w2 & H2 & H). injection H2 as Hbound <-. rewrite Hbound.
  destruct o as [[key fac]|]; [|by apply ret_Ok in H as [[=] _]].
  destruct (pair_repayment_events _ _ _ _ _) as [[[r a] v]|] eqn:Hpair; [|by apply ret_Ok in H as [[=] _]].
  apply bind_Ok in H as (ok & w3 & Hacc & H). destruct ok; [|by apply ret_Ok in H as [[=] _]].
  exists d, key, fac, r, a, v, w3. split_and!; [done|done| |done]. intros Hrouter. unfold accepted in Hacc. rewrite Hrouter, String.eqb_refl in Hacc.
  apply bind_Ok in Hacc as (t & w4 & H4 & Hacc). injection H4 as <- <-. injection Hacc as Hdir _. apply direct_true in Hdir as (t & Ht & Hdc). eexists _, t. by split.
Qed.

Lemma located_leg reference x d key fac r a v :
  located reference x = Some (d, key, fac, (r, a, v)) ->
  Indexer.deployment x = Some d /\ Ledger.f_profile fac = d_profile d /\ Ledger.loan_chain_id fac = d_chain_id d /\
  (exists b, b ∈ bindings /\ onchain_id b = key /\ facilities !! b_facility b = Some fac) /\
  exists tx index, rsplit_colon reference = Some (tx, index) /\ index_of index = Ok (log_index r) /\
    leg_of (final_logs tx x) (contracts d) (log_index r) key r a v.
Proof.
  unfold located. intros H. destruct (rsplit_colon reference) as [[tx index]|] eqn:Hsplit; [|done]. destruct (Indexer.deployment x) as [d'|]; [|done].
  destruct (find_repaid _ _) as [[r0|]|] eqn:Hfind; try done. apply find_repaid_Some in Hfind as (_ & _ & Hindex).
  destruct (bound_facility _ _ _ _) as [[[k fac']|]|] eqn:Hbound; try done.
  destruct (pair_repayment_events _ _ _ _ _) as [p|] eqn:Hpair; [|done]. injection H as -> -> -> ->. apply pair_leg in Hpair.
  assert (Hidx : log_index r = log_index r0) by apply (leg_order _ _ _ _ _ _ _ Hpair). rewrite <- Hidx in Hindex, Hpair.
  unfold bound_facility in Hbound. apply rbind_Ok in Hbound as (k & Hk & Hbound). destruct (List.find _ bindings) as [bd|] eqn:Hbd; [|done].
  apply List.find_some in Hbd as [Hin Hkey]. apply String.eqb_eq in Hkey. destruct (facilities !! b_facility bd) as [fac0|] eqn:Hfac; [|done].
  destruct (_ && _) eqn:Hprof; [|done]. injection Hbound as -> ->. apply andb_true_iff in Hprof as [Hp1%String.eqb_eq Hp2%Z.eqb_eq].
  split_and!; [done..| |by exists tx, index]. exists bd. split_and!; [by apply list_elem_of_In|done|done].
Qed.

(** C17: Canonical facts are grounded: when the reader answers a reference, the
    three events of one leg (the Repaid of the deployment's own manager or
    router, the ledger's allocation before it and the vault's receipt between)
    are successful logs of that one transaction on finalized blocks of the
    journal; the facility is the one bound to the leg's key, of the deployment's
    profile and chain, and the vault's asset at that block is its loan token; a
    router leg is the payer's own top-level direct call; the receipt and the
    allocation tell one story: same receipt id, transaction and chain, a positive
    measured amount split exactly into fee, interest, principal and excess, each
    the emitted unsigned number; and canonical facts had their block and a
    successful receipt at the node. *)
Theorem canonical_facts reference w f x w' :
  facts_ reference w = (Ok (Some (f, x)), w') ->
  exists d fac r a v, grounds reference w f d fac r a v /\ one_story r a v f x /\ CashEngine.af_facility x = Ledger.facility_id fac /\
    address (CashEngine.rf_asset f) = lower <$> Ledger.loan_token_address fac /\ decimals (CashEngine.rf_asset f) = Ledger.loan_decimals fac /\
    CashEngine.rf_id f = stable_id ("cash:" ++ py_str (d_chain_id d) ++ ":" ++ (tx_hash r ++ ":" ++ py_str (log_index r))).
Proof.
  intros H. apply facts_run in H as (d & key & fac & r & a & v & w1 & Hloc & Hcid & Hrouter & H).
  apply located_leg in Hloc as (Hd & Hp1 & Hp2 & Hbound & tx & index & Hsplit & Hindex & Hleg).
  apply measure_run in H as (b & canonical & Hf & Htoken & Hcan).
  destruct (facts_of_story _ _ _ _ _ _ _ _ _ _ _ _ _ Hleg Hp2 Hf) as (Hstory & Hc & Hfacil & _ & Hasset & Hid & _).
  apply make_asset_inv in Hasset as [Hadr Hdec].
  exists d, fac, r, a, v. split_and!; try done. split; try done; [|by rewrite Hc].
  exists tx, index, key. split_and!; try done. destruct (leg_logs _ _ _ _ _ _ _ Hleg) as (Hr & Ha & Hv).
  intros l Hl. apply final_logs_journalled. repeat (apply elem_of_cons in Hl as [->|Hl]; [done|]). by apply elem_of_nil in Hl.
Qed.

(** Two readings of one reference on one journal agree. *)
Lemma facts_agree reference w1 w2 f1 x1 w1' f2 x2 w2' :
  w_db w1 = w_db w2 -> facts_ reference w1 = (Ok (Some (f1, x1)), w1') -> facts_ reference w2 = (Ok (Some (f2, x2)), w2') ->
  CashEngine.af_receipt x2 = CashEngine.rf_id f1 /\ CashEngine.af_received x2 = CashEngine.rf_amount f1.
Proof.
  intros Hw H1 H2. apply facts_run in H1 as (d1 & k1 & fac1 & r1 & a1 & v1 & u1 & L1 & _ & _ & M1).
  apply facts_run in H2 as (d2 & k2 & fac2 & r2 & a2 & v2 & u2 & L2 & _ & _ & M2). rewrite Hw, L2 in L1. injection L1 as -> -> -> -> -> ->.
  apply located_leg in L2 as (_ & _ & Hp & _ & tx & index & _ & _ & Hleg).
  apply measure_run in M1 as (b1 & c1 & F1 & _). apply measure_run in M2 as (b2 & c2 & F2 & _).
  destruct (facts_of_story _ _ _ _ _ _ _ _ _ _ _ _ _ Hleg Hp F1) as ([_ _ _ (U1 & _) _ _ _ _] & _ & _ & _ & _ & I1 & _).
  destruct (facts_of_story _ _ _ _ _ _ _ _ _ _ _ _ _ Hleg Hp F2) as ([[R2 _] [S2 _] _ (U2 & _) _ _ _ _] & _ & _ & _ & _ & I2 & _).
  split; congruence.
Qed.

(** C26: A direct repayment's cash is allocated whole: when one reference is
    recorded as a destination receipt and then as a confirmed allocation, each
    from a reading of the same journal, the receipt ends ALLOCATED, its amount is
    the amount the vault measured, and its allocations add up to it. *)
Theorem direct_cash_allocated reference w1 w2 f1 x1 w1' f2 x2 w2' rd1 rd2 route s r1 s1 r2 s2 :
  w_db w1 = w_db w2 -> facts_ reference w1 = (Ok (Some (f1, x1)), w1') -> facts_ reference w2 = (Ok (Some (f2, x2)), w2') ->
  CashEngine.receipt rd1 reference = Some f1 -> CashEngine.allocation rd2 reference = Some x2 ->
  CashEngine.cash_wf s ->
  CashEngine.record_destination_receipt reference route (Some rd1) s = (Ok r1, s1) -> CashEngine.result_created r1 = true ->
  CashEngine.record_confirmed_allocation reference (Some rd2) s1 = (Ok r2, s2) -> CashEngine.result_created r2 = true ->
  exists c, Ledger.receipts s2 !! CashEngine.rf_id f1 = Some c /\ Ledger.cash_state c = "ALLOCATED"%string /\
    Ledger.c_amount c = CashEngine.rf_amount f1 /\ CashEngine.allocated (CashEngine.rf_id f1) (Ledger.allocations s2) = Ledger.c_amount c.
Proof.
  intros Hw H1 H2 Hrd1 Hrd2 Hwf R1 C1 R2 C2. destruct (facts_agree _ _ _ _ _ _ _ _ _ Hw H1 H2) as [Hid Hamount].
  apply CashEngine.record_receipt_run in R1 as [[R _]|(_ & rd & f & c & [= <-] & Hf & G & Hcid & _ & Hs1)]; [congruence|].
  rewrite Hrd1 in Hf. injection Hf as <-. destruct (CashEngine.rg_check _ _ _ _ G) as (_ & Hnew & _).
  assert (Hnone : CashEngine.allocated (CashEngine.rf_id f1) (Ledger.allocations s) = 0).
  { apply CashEngine.allocated_none. intros i a Ha Heq. destruct (CashEngine.cw_allocations _ Hwf i a Ha) as (_ & _ & [y Hy]). rewrite Heq, <- Hcid in Hy. congruence. }
  destruct (CashEngine.rg_row _ _ _ _ G) as (_ & _ & _ & _ & Hca & _). destruct Hs1 as (cs1 & o1 & ->).
  apply CashEngine.record_allocation_run in R2 as [[R _]|(_ & rd & x & c' & fac & y & [= <-] & Hx & A & _ & Hs2)]; [congruence|].
  rewrite Hrd2 in Hx. injection Hx as <-. destruct (CashEngine.ag_rows _ _ _ _ _ A) as [Hrow _]. rewrite Hid, <- Hcid in Hrow. cbn in Hrow.
  rewrite lookup_insert_eq in Hrow. injection Hrow as <-. destruct (CashEngine.ag_row _ _ _ _ _ A) as (_ & Hyr & _ & Hrec & _).
  destruct (CashEngine.ag_new _ _ _ _ _ A) as (Hyn & _ & _ & _). destruct Hs2 as (cs2 & o2 & ->).
  match type of A with CashEngine.allocation_grounds ?t _ _ _ _ => assert (Hfull : CashEngine.full t c y = true) end.
  { unfold CashEngine.full. cbn. rewrite Hcid, Hnone, Hrec, Hamount, Hca. apply Z.eqb_refl. }
  exists (c <| Ledger.cash_state := "ALLOCATED"%string |>). cbn. rewrite Hfull, <- Hcid. split_and!; [by rewrite lookup_insert_eq|done|done|].
  rewrite CashEngine.allocated_insert by done. cbn. rewrite Hcid, Hnone, Hyr, Hcid, String.eqb_refl, Hrec, Hamount, Hca. lia.
Qed.

End Grounds.

(** * Example: one direct repayment, from its events to the allocated receipt *)

Module REx.

Definition router : string := a40 "1".
Definition ledger : string := a40 "2".
Definition cs0 : list (string * string) := [("DebtLedger", ledger); ("LendingVaultV2", CashEngine.addr_v); ("RepaymentRouter", router)]%string.

Definition log (i : Z) (contract ev : string) (args : list (string * json)) : ChainLog := {|
  block_number := 2; block_hash := h64 "2"; tx_hash := h64 "7"; tx_index := 0; log_index := i; tx_status := 1;
  l_address := default ""%string (dget contract cs0); contract_name := contract; event_name := ev; topics := []; data := "0x";
  decoded := JObj (("facilityId"%string, JStr F1) :: args); tier := "FINALIZED" |}.

Definition logs_ : list ChainLog := [
  log 1 "DebtLedger" "Allocated" [num "feePaid" 10; num "interestPaid" 40; num "principalPaid" 400; num "excess" 50; num "newDebt" 0];
  log 2 "LendingVaultV2" "RepaymentReceived" [num "received" 500; num "applied" 450; num "excess" 50];
  log 3 "RepaymentRouter" "Repaid" [("payer", JStr (a40 "9")); ("settlementRef", JStr ZERO_REF); num "requested" 500; num "received" 500;
    num "applied" 450; num "feePaid" 10; num "interestPaid" 40; num "principalPaid" 400; num "excess" 50; num "newDebt" 0]]%string.

Definition world1 : World := {|
  w_db := {| Indexer.deployment := Some {| deployment_id := "D"; d_chain_id := 5; d_profile := "LOCAL_MOCK"; deployment_block := 1; contracts := cs0; finality_depth := 2 |};
             Indexer.cursor := None; Indexer.blocks := {[ 2 := blk 2 ]}; Indexer.logs := logs_; Indexer.journal := []; Indexer.views := (no_rows, no_rows) |};
  findings := []; w_calls := 0; checked := 0; found := 0 |}.

Definition node1 : Node := {|
  base := {| Indexer.chain_id := 5; Indexer.head := 9;
             Indexer.get_block := fun n => Some {| Indexer.rb_number := n; Indexer.rb_hash := h64 "2"; Indexer.rb_parent := "0x"; Indexer.rb_time := 0 |};
             Indexer.get_logs := fun _ _ _ => []; Indexer.get_receipt := fun _ => Some {| Indexer.rc_block_hash := h64 "2"; Indexer.rc_status := 1 |} |};
  eth_call := fun _ _ _ => Ok "0x"%string |}.

(** The selector of this keccak is the end of the signature, reversed. *)
Definition keccak1 (l : list Z) : list Z := rev l.
Definition tx1 : Transaction := {|
  t_hash := h64 "7"; t_block_hash := Some (h64 "2"); t_block_number := Some 2; t_to := Some router; t_from := a40 "9";
  t_input := ("0x" ++ hex (take 4 (keccak1 (bytes_of EXACT))) ++ from 2 F1 ++ hex (replicate 30 0 ++ [1; 244]))%string |}.

Definition abi1 (contract : string) : list json :=
  [Views.VEx.view_abi "asset" [] (JObj [("name", JStr ""); ("type", JStr "address")])]%string.
Definition decode1 (types : list string) (raw : list Z) : res (list pyval) :=
  Ok (if bool_decide (types = ["address"%string]) then [PStr CashEngine.tok] else [PBytes (take 32 raw); PInt (be_int (drop 32 raw))]).

Definition bindings1 : list FacilityBinding := [{| b_facility := CashEngine.fid; onchain_id := F1; binding_tx_hash := h64 "1" |}].
Definition reference1 : string := (h64 "7" ++ ":3")%string.

Definition read1 (w : World) : res (option Facts) * World :=
  facts (fun _ => node1) (fun _ _ => Some tx1) abi1 VEx.encode0 decode1 keccak1 bindings1 (Ledger.facilities CashEngine.db0) reference1 w.

Definition facts1 : option Facts := match (read1 world1).1 with Ok o => o | Raise _ => None end.

Lemma facts1_Some : exists f x, facts1 = Some (f, x) /\ read1 world1 = (Ok (Some (f, x)), (read1 world1).2).
Proof.
  assert (H : match (read1 world1).1 with Ok (Some _) => true | _ => false end = true) by (vm_compute; reflexivity).
  unfold facts1. destruct (read1 world1) as [[[[f x]|]|e] w]; [|discriminate H|discriminate H]. exists f, x. split; reflexivity.
Qed.

Lemma canonical_facts_witness : exists f x, facts1 = Some (f, x) /\ CashEngine.af_receipt x = CashEngine.rf_id f /\ 0 < CashEngine.af_received x.
Proof.
  destruct facts1_Some as (f & x & Hf & Hr). exists f, x.
  destruct (canonical_facts (fun _ => node1) (fun _ _ => Some tx1) abi1 VEx.encode0 decode1 keccak1 bindings1 (Ledger.facilities CashEngine.db0) reference1 world1 f x _ Hr)
    as (d & fac & r & a & v & _ & Hs & _). split; [exact Hf|]. split; [exact (proj1 (os_receipt _ _ _ _ _ Hs))|exact (proj1 (proj2 (os_split _ _ _ _ _ Hs)))].
Defined.

Definition rd1 : CashEngine.CashEvidenceReader := {| CashEngine.receipt := fun _ => fst <$> facts1; CashEngine.allocation := fun _ => snd <$> facts1 |}.
Definition recorded1 := CashEngine.record_destination_receipt reference1 CashEngine.route0 (Some rd1) CashEngine.db0.
Definition recorded2 := CashEngine.record_confirmed_allocation reference1 (Some rd1) recorded1.2.

Definition made (o : res CashEngine.ReconciliationResult * Ledger.DB) : bool :=
  match o.1 with Ok r => CashEngine.result_created r | Raise _ => false end.

Lemma made_Ok o : made o = true -> exists r, o = (Ok r, o.2) /\ CashEngine.result_created r = true.
Proof. unfold made. destruct o as [[r|e] s]; [|done]. intros H. by exists r. Qed.

Lemma recorded1_made : made recorded1 = true.
Proof. vm_compute. reflexivity. Qed.

Lemma recorded2_made : made recorded2 = true.
Proof. vm_compute. reflexivity. Qed.

Lemma direct_cash_allocated_witness :
  exists f x c, facts1 = Some (f, x) /\ Ledger.receipts recorded2.2 !! CashEngine.rf_id f = Some c /\ Ledger.cash_state c = "ALLOCATED"%string.
Proof.
  destruct facts1_Some as (f & x & Hf & Hr). destruct (made_Ok _ recorded1_made) as (r1 & R1 & C1). destruct (made_Ok _ recorded2_made) as (r2 & R2 & C2).
  assert (E1 : CashEngine.receipt rd1 reference1 = Some f) by (unfold rd1; cbn [CashEngine.receipt]; rewrite Hf; reflexivity).
  assert (E2 : CashEngine.allocation rd1 reference1 = Some x) by (unfold rd1; cbn [CashEngine.allocation]; rewrite Hf; reflexivity).
  destruct (direct_cash_allocated (fun _ => node1) (fun _ _ => Some tx1) abi1 VEx.encode0 decode1 keccak1 bindings1 (Ledger.facilities CashEngine.db0)
    reference1 world1 world1 f x _ f x _ rd1 rd1 CashEngine.route0 CashEngine.db0 r1 recorded1.2 r2 recorded2.2
    eq_refl Hr Hr E1 E2 CashEngine.cash_db0_wf R1 C1 R2 C2) as (c & Hc & Hs & _).
  exists f, x, c. split; [exact Hf|]. split; [exact Hc|exact Hs].
Defined.

End REx.

End ChainReader.
