(* ===== verification/ProofSubmission.v ===== *)
(** The submission half of the proof pipeline: how a stored proof becomes a
    transaction, how the finalized chain is asked whether the application
    accepted it, and how the evidence it consumed is mirrored.

    Source: offchain/prover/hashcredit_prover/gpu/attestcoin_worker.py
    ([ProofPipeline.submit], [confirm], [consume]), with the tables
    native_verifications and evidence_consumptions (db/ledgers.py) and the
    trigger [hcg_evidence_consumptions_verified] of migration 0002.

    A handler runs in the worker's transaction, but the dispatcher and the
    recorded failures of [ProofLifecycle.apply] commit in transactions of their
    own: a [World] therefore holds the committed tables and the handler's view of
    them.  The newest row of a request is the last inserted.  A [Turn] holds what
    one run draws from outside; the SDK, the RPC node, eth_abi and the signer are
    arguments. *)

From S2P Require Import Prelude Domain Stdpy Json JsonText JobQueue Lifecycle Abi Decoders TxIntents Columns Projection Indexer Views Ledger Ingestion Commands ProofWorker CashEngine ChainReader.
Import Domain Stdpy Json Decoders Columns Projection.

Module Submission.

#[local] Existing Instance Tx.IntentState_eq_dec.

(** * Tables *)

(** Models [db/ledgers.py], [NativeVerification], lines 159-177. *)
Record NativeVerification := {
  nv_id : string;
  nv_request : string;
  nv_artifact : string;
  nv_profile : string;
  nv_method : string;
  nv_chain : Z;
  nv_verifier : string;
  nv_tx : string;
  nv_block : option Z;
  nv_receipt : option Z;
  nv_status : string;
  nv_accepted_at : option Z;
  nv_height : option Z;
  nv_index : option Z;
}.

(** Models [db/ledgers.py], [EvidenceConsumption], lines 202-229. *)
Record EvidenceConsumption := {
  ec_id : string;
  ec_env : string;
  ec_source : string;
  ec_economic : string;
  ec_verification : string;
  ec_provider : string;
  ec_account : string;
  ec_meaning : string;
  ec_method : string;
  ec_trust : string;
  ec_profile : string;
  ec_consumer : string;
  ec_tx : string;
  ec_manifest : string;
  ec_proven : datetime;
  ec_until : datetime;
  ec_chain : Z;
  ec_height : Z;
  ec_index : Z;
  ec_ordinal : Z;
  ec_emitter : string;
  ec_topic : string;
  ec_data : string;
}.

(** Models [db/ledgers.py], [EVIDENCE_MEANINGS]. *)
Definition EVIDENCE_MEANINGS : list string :=
  ["OBLIGATION_RECOGNIZED"; "ASSIGNMENT_RECOGNIZED"; "CORRECTION"; "PAYOUT"; "PAYMENT_CANCELLED"; "CHECKPOINT"].

(** Models [db/ledgers.py], [VERIFICATION_STATUSES]. *)
Definition VERIFICATION_STATUSES : list string := ["SUBMITTED"; "ACCEPTED"; "REJECTED"; "ORPHANED"].

(** The columns and constraints of a verification.
    Models [db/ledgers.py], [NativeVerification], lines 179-197. *)
Definition verification_ok (v : NativeVerification) : bool :=
  ULID_CHECK (nv_id v) && in_values Domain.ExecutionProfile (nv_profile v) && mem_str (nv_method v) ["ATTESTCOIN_NATIVE"; "LOCAL_MOCK"] &&
  Bool.eqb (String.eqb (nv_method v) "LOCAL_MOCK") (String.eqb (nv_profile v) "LOCAL_MOCK") &&
  (0 <? nv_chain v) && (nv_chain v <? 2 ^ 63) && ADDR_CHECK (nv_verifier v) && HEX32_CHECK (nv_tx v) &&
  null_or (fun n => (n =? 0) || (n =? 1)) (nv_receipt v) && mem_str (nv_status v) VERIFICATION_STATUSES &&
  null_or (fun n => n <? 2 ^ 63) (nv_block v) && null_or (fun n => n <? 2 ^ 63) (nv_height v) && null_or (fun n => n <? 2 ^ 31) (nv_index v) &&
  (negb (String.eqb (nv_status v) "ACCEPTED") ||
   (bool_decide (is_Some (nv_accepted_at v)) && bool_decide (nv_receipt v = Some 1) && bool_decide (is_Some (nv_block v)) &&
    bool_decide (is_Some (nv_height v)) && bool_decide (is_Some (nv_index v)))) &&
  (String.eqb (nv_status v) "ACCEPTED" || bool_decide (nv_accepted_at v = None)).

(** The text before the first slash, and after it. *)
Fixpoint cut_slash (s : string) : option (string * string) :=
  match s with
  | EmptyString => None
  | String a s' =>
      if Ascii.eqb a "/" then Some (EmptyString, s')
      else match cut_slash s' with Some (l, r) => Some (String a l, r) | None => None end
  end.

Definition nonempty_of (p : ascii -> bool) (s : string) : bool := negb (String.eqb s "") && string_forallb p s.

(** [^[a-z0-9-]+/[^/]+/[A-Z_]+/.+$] *)
Definition economic_ok (s : string) : bool :=
  match cut_slash s with
  | Some (a, r) =>
      match cut_slash r with
      | Some (b, r) =>
          match cut_slash r with
          | Some (c, r) =>
              nonempty_of (fun x => in_range "a" "z" x || in_range "0" "9" x || Ascii.eqb x "-") a && negb (String.eqb b "") &&
              nonempty_of (fun x => in_range "A" "Z" x || Ascii.eqb x "_") c && negb (String.eqb r "")
          | None => false
          end
      | None => false
      end
  | None => false
  end.

Definition instant (d : datetime) : Z := match d with Aware t | Naive t => t end.

(** The columns and constraints of a consumption.
    Models [db/ledgers.py], [EvidenceConsumption], lines 230-249. *)
Definition consumption_ok (e : EvidenceConsumption) : bool :=
  ULID_CHECK (ec_id e) && HEX32_CHECK (ec_source e) && economic_ok (ec_economic e) && fits 300 (ec_economic e) &&
  mem_str (ec_meaning e) EVIDENCE_MEANINGS && in_values Domain.VerificationMethod (ec_method e) && in_values Domain.Trust (ec_trust e) &&
  in_values Domain.ExecutionProfile (ec_profile e) &&
  negb (String.eqb (ec_profile e) "PRODUCTION" && String.eqb (ec_method e) "LOCAL_MOCK") &&
  Bool.eqb (String.eqb (ec_method e) "OFFCHAIN_ASSERTION") (String.eqb (ec_trust e) "ASSERTED") &&
  ADDR_CHECK (ec_consumer e) && ADDR_CHECK (ec_emitter e) && HEX32_CHECK (ec_tx e) && HEX32_CHECK (ec_topic e) && HEX32_CHECK (ec_data e) &&
  Ingestion.MANIFEST_CHECK (ec_manifest e) && (instant (ec_proven e) <? instant (ec_until e)) &&
  (0 <? ec_chain e) && (ec_chain e <? 2 ^ 31) && (0 <=? ec_height e) && (ec_height e <? 2 ^ 63) &&
  (0 <=? ec_index e) && (ec_index e <? 2 ^ 31) && (0 <=? ec_ordinal e) && (ec_ordinal e <? 2 ^ 31).

Definition locator (e : EvidenceConsumption) : string * Z * Z * Z * Z := (ec_env e, ec_chain e, ec_height e, ec_index e, ec_ordinal e).

(** The unique keys of evidence_consumptions.
    Models [db/ledgers.py], [EvidenceConsumption], lines 247-249. *)
Definition consumption_clash (a b : EvidenceConsumption) : bool :=
  String.eqb (ec_id a) (ec_id b) || (String.eqb (ec_env a) (ec_env b) && String.eqb (ec_source a) (ec_source b)) ||
  String.eqb (ec_economic a) (ec_economic b) || bool_decide (locator a = locator b).

(** The trigger: an accepted verification of the same method and profile.
    Models [0002_event_cash_job_ledgers.py], lines 80-106. *)
Definition evidence_consumptions_verified (v : option NativeVerification) (e : EvidenceConsumption) : bool :=
  match v with
  | None => false
  | Some v =>
      String.eqb (nv_status v) "ACCEPTED" && negb (String.eqb (ec_profile e) "PRODUCTION" && negb (String.eqb (nv_method v) "ATTESTCOIN_NATIVE")) &&
      String.eqb (nv_profile v) (ec_profile e) && (String.eqb (ec_method e) "OFFCHAIN_ASSERTION" || String.eqb (ec_method e) (nv_method v))
  end.

(** * State *)

(** The tables.  [db] is the proof worker's, [chain] the indexer's, of the
    deployment whose environment and manifest hash [binding] holds. *)
Record Store := {
  db : Jobs.DB ProofWorker.Biz;
  intents : gmap string Tx.Intent;
  verifications : list NativeVerification;
  consumptions : list EvidenceConsumption;
  chain : Indexer.DB;
  binding : string * string;
  accounts : gmap string Ledger.ProviderAccount;
}.

(** What others see, what the handler sees, the raw store's volume and the
    calls made to the node so far. *)
Record World := { committed : Store; working : Store; volume : gmap string string; calls : nat }.

#[local] Abbreviation M := (PyM World).

(** A statement of the handler's transaction. *)
Definition on_store {A} (m : PyM Store A) : M A := fun w => match m (working w) with (r, s) => (r, w <| working := s |>) end.
Definition on_db {A} (m : PyM (Jobs.DB ProofWorker.Biz) A) : PyM Store A := fun s => match m (db s) with (r, d) => (r, s <| db := d |>) end.

(** [with engine.begin()]. *)
Definition begin {A} (m : M A) : M A := fun w =>
  match m w with
  | (Ok a, w') => (Ok a, w' <| committed := working w' |>)
  | (Raise e, w') => (Raise e, w' <| working := committed w' |>)
  end.

(** The dispatcher's database. *)
Definition dispatching (s : Store) : Jobs.DB (gmap string Tx.Intent) :=
  {| Jobs.jobs := Jobs.jobs (db s); Jobs.audit_log := Jobs.audit_log (db s); Jobs.now := Jobs.now (db s); Jobs.biz := intents s |}.
Definition dispatched (d : Jobs.DB (gmap string Tx.Intent)) (s : Store) : Store :=
  s <| db ::= fun x => x <| Jobs.audit_log := Jobs.audit_log d |> |> <| intents := Jobs.biz d |>.

(** A call of the dispatcher: its transactions are its own, and what they
    commit is there whatever becomes of the handler. *)
Definition on_dispatcher {A} (m : PyM (Jobs.DB (gmap string Tx.Intent)) A) : M A := fun w =>
  match m (dispatching (committed w)) with
  | (r, d) => (r, w <| committed ::= dispatched d |> <| working ::= dispatched d |>)
  end.

(** [ProofLifecycle.apply] with its rollback and its own transaction. *)
Definition on_requests {A} (m : PyM Requests.Conn A) : M A := fun w =>
  let of_ s := ProofWorker.tables (Jobs.biz (db s)) in
  let with_ t s := s <| db ::= fun x => x <| Jobs.biz ::= fun b => b <| ProofWorker.tables := t |> |> |> in
  match m {| Requests.committed := of_ (committed w); Requests.working := of_ (working w) |} with
  | (Ok a, c) => (Ok a, w <| working ::= with_ (Requests.working c) |>)
  | (Raise e, c) => (Raise e, w <| working := with_ (Requests.committed c) (committed w) |> <| committed ::= with_ (Requests.committed c) |>)
  end.

(** What one run draws from outside: the worker's, what the node answers to the
    two calls of the dispatcher, and ids. *)
Record Turn := {
  tick : ProofWorker.Tick;
  first_answers : Tx.Env;
  second_answers : Tx.Env;
  fresh_intent : string;
  fresh_verification : string;
  fresh_consumption : nat -> string;
  fresh_job : string;
}.

(** [not (row ...)] of a column *)
Definition violated {A} (constraint : string) : PyM Store A := raise DatabaseError constraint.

Definition mirror (s : Store) : Requests.Tables := ProofWorker.tables (Jobs.biz (db s)).
Definition set_mirror (f : Requests.Tables -> Requests.Tables) (s : Store) : Store :=
  s <| db ::= fun x => x <| Jobs.biz ::= fun b => b <| ProofWorker.tables ::= f |> |> |>.

(** INSERT of a verification, with its foreign keys and its unique keys. *)
Definition insert_verification (v : NativeVerification) : PyM Store unit :=
  let* s := get in
  if negb (verification_ok v && bool_decide (is_Some (Requests.requests (mirror s) !! nv_request v)) &&
           existsb (fun a => String.eqb (ProofWorker.ar_id a) (nv_artifact v)) (ProofWorker.artifacts (Jobs.biz (db s))) &&
           forallb (fun x => negb (String.eqb (nv_id x) (nv_id v) || (String.eqb (nv_request x) (nv_request v) && String.eqb (nv_tx x) (nv_tx v)))) (verifications s))
  then violated "native_verifications"
  else
    modify (fun s => s <| verifications ::= fun l => l ++ [v] |>) ;;;
    modify (set_mirror (fun t => t <| Requests.verifications ::= <[nv_id v := {| Requests.nv_request := nv_request v; Requests.nv_accepted := String.eqb (nv_status v) "ACCEPTED" |}]> |>)).

(** UPDATE of a verification by its id. *)
Definition update_verification (v : NativeVerification) : PyM Store unit :=
  if negb (verification_ok v) then violated "native_verifications"
  else
    modify (fun s => s <| verifications ::= map (fun x => if String.eqb (nv_id x) (nv_id v) then v else x) |>) ;;;
    modify (set_mirror (fun t => t <| Requests.verifications ::= <[nv_id v := {| Requests.nv_request := nv_request v; Requests.nv_accepted := String.eqb (nv_status v) "ACCEPTED" |}]> |>)).

(** INSERT of a consumption, with its trigger. *)
Definition insert_consumption (e : EvidenceConsumption) : PyM Store unit :=
  let* s := get in
  if negb (consumption_ok e && evidence_consumptions_verified (List.find (fun v => String.eqb (nv_id v) (ec_verification e)) (verifications s)) e &&
           forallb (fun x => negb (consumption_clash x e)) (consumptions s))
  then violated "evidence_consumptions"
  else
    modify (fun s => s <| consumptions ::= fun l => l ++ [e] |>) ;;;
    modify (set_mirror (fun t => t <| Requests.consumptions ::= union {[ec_verification e]} |>)).

(** The newest verification of a request. *)
Definition latest_verification (rid : string) (s : Store) : option NativeVerification :=
  last (filter (fun v => String.eqb (nv_request v) rid) (verifications s)).

(** Its accepted verification. *)
Definition accepted_verification (rid : string) (s : Store) : option NativeVerification :=
  List.find (fun v => String.eqb (nv_request v) rid && String.eqb (nv_status v) "ACCEPTED") (verifications s).

(** The evidence that a transaction consumed, as the finalized tier has it. *)
Definition consumed_by (tx : string) (s : Store) : list ProjectedEvidence :=
  filter (fun p => String.eqb (consumption_tx_hash p) tx) (evidence (Indexer.views (chain s)).1).

(** [record[key] != value] *)
Definition field_is_not (key value : string) (v : json) : res bool := rbind (field key v) (fun x => Ok (negb (json_eqb x (JStr value)))).

(** A value bound to a text column *)
Definition text_column (key : string) (v : json) : res string :=
  rbind (field key v) (fun x => match x with JStr s => Ok s | _ => Raise (Exn DatabaseError key) end).

(** [d.get(key, default)] *)
Definition get_or (key : string) (d : json) (v : json) : res json :=
  match v with JObj l => Ok (default d (dget key l)) | _ => Raise (Exn AttributeError "get") end.

(** [len(v)] *)
Definition length_of (v : json) : res Z :=
  match v with
  | JArr l => Ok (zlen l)
  | JObj l => Ok (zlen l)
  | JStr s => Ok (Z.of_nat (String.length s))
  | _ => Raise (Exn TypeError "object has no len()")
  end.

(** * The handlers *)

Section Pipeline.
Context (manifest : ProofWorker.Manifest) (destination : json) (plans : list (string * json)).
Context (cfg : Tx.Config) (signer : string).
Context (pg_integer : string -> option Z) (parse_float : string -> json) (decode_wide : list Z -> res string).
Context (env : nat -> Views.Node) (abi_of : string -> list json) (abi_encode : list string -> list Views.arg -> res (list Z))
        (abi_decode : list string -> list Z -> res (list pyval)).

(** [views.read(...)] at a block. *)
Definition read (cs : list (string * string)) (block : Z) (contract function : string) (args : list json) : M json := fun w =>
  match Views.read env abi_of abi_encode abi_decode cs block contract function args
          {| Views.w_db := chain (working w); Views.findings := []; Views.w_calls := calls w; Views.checked := 0; Views.found := 0 |} with
  | (r, v) => (r, w <| calls := Views.w_calls v |>)
  end.

(** Models [gpu/attestcoin_worker.py], [ProofPipeline._request]. *)
Definition _request (c : Jobs.ClaimedJob) : M (string * ProofWorker.RequestFacts * Requests.Request) :=
  let* w := get in lift_res (ProofWorker._request manifest (db (working w)) c).

(** Models [gpu/attestcoin_worker.py], [ProofPipeline._artifact]. *)
Definition _artifact (rid : string) : M (ProofWorker.Artifact * json) :=
  let* w := get in
  match last (filter (fun a => String.eqb (ProofWorker.ar_request a) rid) (ProofWorker.artifacts (Jobs.biz (db (working w))))) with
  | None => raise TerminalError "stored proof artifact missing"
  | Some a =>
      match volume w !! ProofWorker.ar_hash a with
      | None => raise FileNotFoundError (ProofWorker.ar_hash a)
      | Some body =>
          if negb (String.eqb (Ingestion.payload_hash_of body) (ProofWorker.ar_hash a) && (Z.of_nat (String.length body) =? ProofWorker.ar_length a)) then
            raise TerminalError "stored proof artifact hash mismatch"
          else
            let* output := lift_res (JsonText.loads_bytes parse_float decode_wide (bytes_of body)) in
            ret (a, output)
      end
  end.

(** What a plan's encoding by the SDK gives the dispatcher.
    Models [gpu/attestcoin_worker.py], [ProofPipeline.submit], lines 401-409. *)
Definition encoded_submission (t : Turn) (f : ProofWorker.RequestFacts) (plan output : json) : res (string * list Z) :=
  rbind (ProofWorker.call parse_float decode_wide (tick t) "encode-submission" (JObj [("artifact", output); ("plan", plan)]%string)) (fun encoded =>
  rbind (if ProofWorker.is_text (get_field "manifestHash" encoded) (ProofWorker.f_manifest f)
         then rbind (field "purpose" plan) (fun p => Ok (json_eqb (default JNull (get_field "purpose" encoded)) p)) else Ok false) (fun bound =>
  if negb bound then Raise (Exn TerminalError "submission encoding binding mismatch")
  else
    rbind (field "purpose" plan) (fun p =>
    rbind (rbind (str_field "calldata" encoded) (fun s => fromhex (from 2 s))) (fun data =>
    match p with JStr purpose => Ok (purpose, data) | _ => Raise (Exn PermissionError "unknown purpose") end)))).

(** The row of a submission, unless it is there.
    Models [gpu/attestcoin_worker.py], [ProofPipeline.submit], lines 411-433. *)
Definition record_submission (t : Turn) (rid : string) (f : ProofWorker.RequestFacts) (artifact : ProofWorker.Artifact) (hash : option string) : M unit :=
  let* w := get in
  let known h := existsb (fun v => String.eqb (nv_request v) rid && String.eqb (nv_tx v) h) (verifications (working w)) in
  if match hash with Some h => known h | None => false end then ret tt
  else
    let* cid := lift_res (int_field "chainId" destination) in
    let* verifier := lift_res (rbind (field "blockProver" destination) (str_field "address")) in
    match hash with
    | None => raise DatabaseError "submission_tx_hash"
    | Some h =>
        on_store (insert_verification {|
          nv_id := fresh_verification t; nv_request := rid; nv_artifact := ProofWorker.ar_id artifact; nv_profile := ProofWorker.f_profile f;
          nv_method := "ATTESTCOIN_NATIVE"; nv_chain := cid; nv_verifier := lower verifier; nv_tx := h; nv_block := None; nv_receipt := None;
          nv_status := "SUBMITTED"; nv_accepted_at := None; nv_height := None; nv_index := None |})
    end.

(** Models [gpu/attestcoin_worker.py], [ProofPipeline._advance]. *)
Definition _advance (t : Turn) (rid kind : string) : M unit := on_store (on_db (ProofWorker._advance rid kind (fresh_job t))).

(** Models [gpu/attestcoin_worker.py], [ProofPipeline.submit]. *)
Definition submit (t : Turn) (c : Jobs.ClaimedJob) : M unit :=
  let* found := _request c in
  let '(rid, f, r) := (found : string * ProofWorker.RequestFacts * Requests.Request) in
  if mem_str (Requests.status r) ["SUBMITTED"; "NATIVE_ACCEPTED"; "CONSUMED"] then ret tt
  else
    match dget (ProofWorker.f_tx f) plans with
    | None => raise TransientError "source business submission plan is not configured"
    | Some plan =>
        if negb (truth plan) then raise TransientError "source business submission plan is not configured"
        else
          let* found := _artifact rid in
          let* call := lift_res (encoded_submission t f plan found.2) in
          let* intent := on_dispatcher (Tx.prepare cfg signer (first_answers t) (Jobs.c_job_id c) call.1 call.2 (fresh_intent t)) in
          let* _ := on_dispatcher (Tx.broadcast cfg signer (second_answers t) (Tx.tx_intent_id intent)) in
          record_submission t rid f found.1 (Tx.tx_hash intent) ;;;
          _advance t rid "PROOF_SUBMIT"
    end.

(** The outcome of the transaction, where the dispatcher knows it: one that
    failed ends the request, one that is not final is sent again.
    Models [gpu/attestcoin_worker.py], [ProofPipeline.confirm], lines 458-473. *)
Definition settle (t : Turn) (c : Jobs.ClaimedJob) (rid : string) (v : NativeVerification) : M unit :=
  let* w := get in
  match Tx.by_hash (nv_tx v) (dispatching (committed w)) with
  | None => ret tt
  | Some i =>
      let* settled := on_dispatcher (Tx.reconcile cfg signer (first_answers t) (Tx.tx_intent_id i)) in
      (if bool_decide (Tx.state settled = Tx.FAILED) then
         let* _ := on_requests (Requests.apply rid (Jobs.c_kind c) Requests.O_INVALID (Some "APP_TRANSACTION_REVERTED"%string)) in ret tt
       else ret tt) ;;;
      if bool_decide (Tx.state settled = Tx.FINALIZED) then ret tt
      else
        let* _ := on_dispatcher (Tx.broadcast cfg signer (second_answers t) (Tx.tx_intent_id i)) in
        raise TransientError "application transaction finality pending"
  end.

(** The record of the contract is not the projected evidence of this request.
    Models [gpu/attestcoin_worker.py], [ProofPipeline.confirm], lines 495-503. *)
Definition record_differs (f : ProofWorker.RequestFacts) (plan record : json) (p : ProjectedEvidence) : res bool :=
  ChainReader.por (field_is_not "id" (source_event_id p) record)
  (ChainReader.por (field_is_not "economicEventId" (economic_event_key p) record)
  (ChainReader.por (field_is_not "manifestHash" ("0x" ++ from 7 (ProofWorker.f_manifest f)) record)
  (ChainReader.por (rbind (field "providerId" record) (fun x => rbind (field "providerId" plan) (fun y => Ok (negb (json_eqb x y)))))
  (ChainReader.por (field_is_not "method" "0" record)
  (ChainReader.por (field_is_not "trust" "0" record)
      (Ok (negb (verified_in_same_tx p)))))))).

(** Models [gpu/attestcoin_worker.py], [ProofPipeline.confirm], lines 491-512. *)
Definition confirm_one (t : Turn) (f : ProofWorker.RequestFacts) (plan : json) (cs : list (string * string)) (block : Z) (v : NativeVerification) (p : ProjectedEvidence) : M unit :=
  let* record := read cs block "EvidenceBook" "record" [JStr (source_event_id p)] in
  let* other := lift_res (record_differs f plan record p) in
  if other : bool then raise TerminalError "canonical native app record differs from projection"
  else
    match dget "AttestcoinRevenueVerifier" cs with
    | None => raise KeyError "AttestcoinRevenueVerifier"
    | Some a =>
        on_store (update_verification (v <| nv_verifier := lower a |> <| nv_block := Some (e_block p) |> <| nv_receipt := Some 1 |>
          <| nv_height := Some (proven_height p) |> <| nv_index := Some (proven_tx_index p) |>
          <| nv_status := "ACCEPTED"%string |> <| nv_accepted_at := Some (ProofWorker.clock (tick t)) |>))
    end.

(** Models [gpu/attestcoin_worker.py], [ProofPipeline.confirm], lines 474-513. *)
Definition accept (t : Turn) (rid : string) (f : ProofWorker.RequestFacts) (d : ChainDeployment) (cur : Indexer.ChainCursor) (v : NativeVerification) : M unit :=
  let* w := get in
  let projections := consumed_by (nv_tx v) (working w) in
  let plan := default (JObj []) (dget (ProofWorker.f_tx f) plans) in
  let* short := lift_res (match projections with
                          | [] => Ok true
                          | _ => rbind (rbind (get_or "instructions" (JArr []) plan) length_of) (fun n => Ok (negb (zlen projections =? n)))
                          end) in
  if short : bool then raise TransientError "finalized application consumption pending"
  else
    let block := Indexer.finalized_block_number cur in
    let* h := read (contracts d) block "EvidenceBook" "envIdHash" [] in
    if negb (json_eqb h (JStr (Abi.keccak_hex (bytes_of (ProofWorker.f_env f))))) then raise TerminalError "canonical app environment differs from request"
    else
      for_each projections (confirm_one t f plan (contracts d) block v) ;;;
      _advance t rid "PROOF_CONFIRM".

(** Models [gpu/attestcoin_worker.py], [ProofPipeline.confirm]. *)
Definition confirm (t : Turn) (c : Jobs.ClaimedJob) : M unit :=
  let* found := _request c in
  let '(rid, f, r) := (found : string * ProofWorker.RequestFacts * Requests.Request) in
  if mem_str (Requests.status r) ["NATIVE_ACCEPTED"; "CONSUMED"] then ret tt
  else
    let* w := get in
    match Indexer.deployment (chain (working w)) with
    | None => raise TerminalError "proof deployment binding mismatch"
    | Some d =>
        if negb (String.eqb (binding (working w)).1 (ProofWorker.f_env f) && String.eqb (binding (working w)).2 (ProofWorker.f_manifest f) &&
                 String.eqb (d_profile d) (ProofWorker.f_profile f)) then raise TerminalError "proof deployment binding mismatch"
        else
          match latest_verification rid (working w), Indexer.cursor (chain (working w)) with
          | Some v, Some cur => settle t c rid v ;;; accept t rid f d cur v
          | _, _ => raise TransientError "submission or finalized index cursor pending"
          end
    end.

(** The account binding of a plan does not fit the record.
    Models [gpu/attestcoin_worker.py], [ProofPipeline.consume], lines 556-566. *)
Definition binding_differs (f : ProofWorker.RequestFacts) (account : option Ledger.ProviderAccount) (record bound : json) (p : ProjectedEvidence) : res bool :=
  match account with
  | None => Ok true
  | Some a =>
      ChainReader.por (Ok (negb (String.eqb (Ledger.pa_provider a) (ProofWorker.f_provider f))))
     (ChainReader.por (field_is_not "accountKey" (Abi.keccak_hex (bytes_of (Ledger.provider_account_id a))) record)
     (ChainReader.por (field_is_not "economicEventKey" (economic_event_key p) bound)
                      (rbind (str_field "economicEventId" bound) (fun e =>
                         Ok (negb (String.prefix (Ledger.pa_provider a ++ "/" ++ Ledger.external_account_id a ++ "/") e))))))
  end.

(** Models [gpu/attestcoin_worker.py], [ProofPipeline.consume], lines 567-594. *)
Definition consumption_of (t : Turn) (n : nat) (f : ProofWorker.RequestFacts) (v : NativeVerification) (a : Ledger.ProviderAccount)
    (record bound : json) (p : ProjectedEvidence) : res EvidenceConsumption :=
  rbind (field "locator" record) (fun loc =>
  rbind (str_field "economicEventId" bound) (fun economic =>
  rbind (rbind (int_field "meaning" record) (py_nth EVIDENCE_MEANINGS)) (fun m =>
  rbind (text_column "consumer" record) (fun consumer =>
  rbind (rbind (int_field "provenAt" record) ChainReader.fromtimestamp) (fun proven =>
  rbind (rbind (int_field "validUntil" record) ChainReader.fromtimestamp) (fun until =>
  rbind (int_field "chainKey" loc) (fun key => rbind (int_field "height" loc) (fun height =>
  rbind (int_field "txIndex" loc) (fun index => rbind (int_field "logOrdinal" loc) (fun ordinal =>
  rbind (text_column "emitter" record) (fun emitter => rbind (text_column "topic0" record) (fun topic => rbind (text_column "dataHash" record) (fun data =>
  Ok {| ec_id := fresh_consumption t n; ec_env := ProofWorker.f_env f; ec_source := source_event_id p; ec_economic := economic;
        ec_verification := nv_id v; ec_provider := ProofWorker.f_provider f; ec_account := Ledger.provider_account_id a; ec_meaning := m;
        ec_method := "ATTESTCOIN_NATIVE"; ec_trust := "PROVEN"; ec_profile := ProofWorker.f_profile f; ec_consumer := consumer;
        ec_tx := consumption_tx_hash p; ec_manifest := ProofWorker.f_manifest f; ec_proven := proven; ec_until := until; ec_chain := key;
        ec_height := height; ec_index := index; ec_ordinal := ordinal; ec_emitter := emitter; ec_topic := topic; ec_data := data |}))))))))))))).

(** [self.plans[tx].get("bindings", {}).get(str(ordinal))] *)
Definition binding_of (f : ProofWorker.RequestFacts) (p : ProjectedEvidence) : res (option json) :=
  match dget (ProofWorker.f_tx f) plans with
  | None => Raise (Exn KeyError (ProofWorker.f_tx f))
  | Some plan =>
      rbind (get_or "bindings" (JObj []) plan) (fun bs =>
      match bs with JObj l => Ok (dget (py_str (proven_log_ordinal p)) l) | _ => Raise (Exn AttributeError "get") end)
  end.

(** Models [gpu/attestcoin_worker.py], [ProofPipeline.consume], lines 540-594. *)
Definition consume_one (t : Turn) (f : ProofWorker.RequestFacts) (cs : list (string * string)) (v : NativeVerification) (p : ProjectedEvidence) : M unit :=
  let* w := get in
  let s := working w in
  if existsb (fun e => String.eqb (ec_env e) (ProofWorker.f_env f) && String.eqb (ec_source e) (source_event_id p)) (consumptions s) then ret tt
  else
    match Indexer.cursor (chain s) with
    | None => raise AttributeError "'NoneType' object has no attribute 'finalized_block_number'"
    | Some cur =>
        let* record := read cs (Indexer.finalized_block_number cur) "EvidenceBook" "record" [JStr (source_event_id p)] in
        let* bound := lift_res (binding_of f p) in
        match bound with
        | None => raise TransientError "economic event/account binding unavailable"
        | Some bound =>
            if negb (truth bound) then raise TransientError "economic event/account binding unavailable"
            else
              let* id := lift_res (str_field "providerAccountId" bound) in
              let* other := lift_res (binding_differs f (accounts s !! id) record bound p) in
              match accounts s !! id with
              | Some a =>
                  if other : bool then raise TerminalError "economic account binding mismatch"
                  else
                    let* row := lift_res (consumption_of t (length (consumptions s)) f v a record bound p) in
                    on_store (insert_consumption row)
              | None => raise TerminalError "economic account binding mismatch"
              end
        end
    end.

(** Models [gpu/attestcoin_worker.py], [ProofPipeline.consume]. *)
Definition consume (t : Turn) (c : Jobs.ClaimedJob) : M unit :=
  let* found := _request c in
  let '(rid, f, r) := (found : string * ProofWorker.RequestFacts * Requests.Request) in
  if String.eqb (Requests.status r) "CONSUMED" then ret tt
  else
    let* w := get in
    match accepted_verification rid (working w) with
    | None => raise TransientError "native acceptance pending"
    | Some v =>
        match Indexer.deployment (chain (working w)) with
        | None => raise AttributeError "'NoneType' object has no attribute 'contracts'"
        | Some d =>
            for_each (consumed_by (nv_tx v) (working w)) (consume_one t f (contracts d) v) ;;;
            _advance t rid "EVIDENCE_CONSUME"
        end
    end.

(** [fetch] writes the queue's database and the volume. *)
Definition fetch (t : Turn) (c : Jobs.ClaimedJob) : M unit := fun w =>
  match ProofWorker.fetch manifest pg_integer parse_float decode_wide (tick t) c {| ProofWorker.db := db (working w); ProofWorker.volume := volume w |} with
  | (r, x) => (r, w <| working ::= fun s => s <| db := ProofWorker.db x |> |> <| volume := ProofWorker.volume x |>)
  end.

(** Models [gpu/attestcoin_worker.py], [ProofPipeline.handlers]. *)
Definition handlers (t : Turn) : gmap string (Jobs.ClaimedJob -> M unit) :=
  {[ "PROOF_WAIT_ATTESTATION"%string := fetch t; "PROOF_FETCH_ARTIFACT"%string := fetch t; "PROOF_SUBMIT"%string := submit t;
     "PROOF_CONFIRM"%string := confirm t; "EVIDENCE_CONSUME"%string := consume t ]}.

(** * A run of a claimed job *)

Context (deployment : string) (policy : Jobs.BackoffPolicy) (class_name : exn_class -> string).

(** The worker's failure path, in a transaction of its own.
    Models [gpu/attestcoin_worker.py], [ProofWorker._fail_exception]. *)
Definition fail_exception (t : Turn) (c : Jobs.ClaimedJob) (k : Jobs.FailureKind) (e : exn) : M string :=
  begin (on_store (on_db (ProofWorker.fail_exception deployment policy class_name (tick t) c k e))).

(** Models [jobs/worker.py], [Worker.run_one]. *)
Definition run_one (t : Turn) (c : Jobs.ClaimedJob) : M string :=
  match handlers t !! Jobs.c_kind c with
  | None => raise KeyError (Jobs.c_kind c)
  | Some handler =>
      try_except
        (begin (on_store (on_db (ProofWorker.before_handler c)) ;;; handler c ;;; on_store (on_db (Jobs.complete c))) ;;; ret "SUCCEEDED"%string)
        (fun e => match exn_kind e with
                  | LeaseLost => ret "LEASE_LOST"%string
                  | TerminalError | ProofTerminalFailure _ => fail_exception t c Jobs.TERMINAL e
                  | _ => fail_exception t c Jobs.TRANSIENT e
                  end)
  end.

(** * What an acceptance rests on *)

#[local] Opaque verification_ok consumption_ok.

Lemma json_eqb_text x s : json_eqb x (JStr s) = true -> x = JStr s.
Proof. destruct x; cbn; try done. by intros ->%String.eqb_eq. Qed.

Lemma field_is_not_Ok key s v : field_is_not key s v = Ok false -> field key v = Ok (JStr s).
Proof. unfold field_is_not. intros (x & Hx & [= H%negb_false_iff%json_eqb_text])%rbind_Ok. by rewrite Hx, H. Qed.

Lemma step_por_false a b : ChainReader.por a b = Ok false -> a = Ok false /\ b = Ok false.
Proof. unfold ChainReader.por. intros (x & Hx & H)%rbind_Ok. destruct x; [done|]. by rewrite Hx. Qed.

Lemma view_read_Ok cs block contract function args w x w' : read cs block contract function args w = (Ok x, w') ->
  Views.view_at abi_of abi_encode abi_decode (env (calls w)) cs block contract function args = Ok x /\ w' = w <| calls ::= S |>.
Proof.
  unfold read. destruct (Views.read _ _ _ _ _ _ _ _ _ _) as [r v] eqn:H. intros [= -> <-].
  unfold Views.read in H. apply bind_Ok in H as (q & v1 & Hq & H). injection Hq as Hq <-.
  apply bind_Ok in H as (raw & v2 & Hr & H). unfold Views.rpc in Hr. apply bind_Ok in Hr as (v0 & v3 & [-> ->]%get_Ok & Hr).
  apply bind_Ok in Hr as (u & v4 & ->%modify_Ok & [-> ->]%ret_Ok). cbn [Views.w_calls] in H.
  apply bind_Ok in H as (raw & v5 & Hraw & H). injection Hraw as Hraw <-. injection H as H <-.
  unfold Views.view_at. rewrite Hq. cbn [rbind]. rewrite Hraw. cbn [rbind]. split; [exact H|done].
Qed.

(** The node answered a view of the contract while the handler ran. *)
Definition viewed (lo hi : nat) (cs : list (string * string)) (block : Z) (function : string) (args : list json) (x : json) : Prop :=
  exists n, (lo <= n < hi)%nat /\ Views.view_at abi_of abi_encode abi_decode (env n) cs block "EvidenceBook" function args = Ok x.

(** The record the application keeps of a source event is the projected one:
    this request's manifest, the plan's provider, verified natively in the
    transaction that consumed it. *)
Record canonical_record (lo hi : nat) (cs : list (string * string)) (block : Z) (f : ProofWorker.RequestFacts) (plan : json) (p : ProjectedEvidence) : Prop := {
  cr_same_tx : verified_in_same_tx p = true;
  cr_record : exists record provider, viewed lo hi cs block "record" [JStr (source_event_id p)] record /\
    field "id" record = Ok (JStr (source_event_id p)) /\ field "economicEventId" record = Ok (JStr (economic_event_key p)) /\
    field "manifestHash" record = Ok (JStr ("0x" ++ from 7 (ProofWorker.f_manifest f))) /\
    field "method" record = Ok (JStr "0") /\ field "trust" record = Ok (JStr "0") /\
    field "providerId" plan = Ok provider /\ rbind (field "providerId" record) (fun x => Ok (json_eqb x provider)) = Ok true;
}.

Lemma canonical_later lo hi lo' hi' cs block f plan p : (lo' <= lo)%nat -> (hi <= hi')%nat ->
  canonical_record lo hi cs block f plan p -> canonical_record lo' hi' cs block f plan p.
Proof.
  intros Hl Hh [H1 (record & provider & (n & Hn & Hv) & H)]. split; [done|]. exists record, provider. split; [|done]. exists n. split; [lia|done].
Qed.

Lemma record_differs_Ok f plan record p : record_differs f plan record p = Ok false ->
  verified_in_same_tx p = true /\ exists provider,
    field "id" record = Ok (JStr (source_event_id p)) /\ field "economicEventId" record = Ok (JStr (economic_event_key p)) /\
    field "manifestHash" record = Ok (JStr ("0x" ++ from 7 (ProofWorker.f_manifest f))) /\
    field "method" record = Ok (JStr "0") /\ field "trust" record = Ok (JStr "0") /\
    field "providerId" plan = Ok provider /\ rbind (field "providerId" record) (fun x => Ok (json_eqb x provider)) = Ok true.
Proof.
  unfold record_differs. intros [H1 H]%step_por_false. apply step_por_false in H as [H2 H]. apply step_por_false in H as [H3 H]. apply step_por_false in H as [H4 H].
  apply step_por_false in H as [H5 H]. apply step_por_false in H as [H6 [= H7%negb_false_iff]].
  apply rbind_Ok in H4 as (x & Hx & (y & Hy & [= H4%negb_false_iff])%rbind_Ok). split; [done|]. exists y. rewrite Hx. cbn [rbind]. rewrite H4.
  split_and!; try done; by apply field_is_not_Ok.
Qed.

(** The row after a projection was confirmed. *)
Definition accepted_row (t : Turn) (cs : list (string * string)) (v : NativeVerification) (p : ProjectedEvidence) (x : NativeVerification) : Prop :=
  nv_id x = nv_id v /\ nv_request x = nv_request v /\ nv_tx x = nv_tx v /\ nv_status x = "ACCEPTED"%string /\
  nv_block x = Some (e_block p) /\ nv_receipt x = Some 1 /\ nv_height x = Some (proven_height p) /\ nv_index x = Some (proven_tx_index p) /\
  nv_accepted_at x = Some (ProofWorker.clock (tick t)) /\ exists a, dget "AttestcoinRevenueVerifier" cs = Some a /\ nv_verifier x = lower a.

Lemma update_verification_Ok v s u s' : update_verification v s = (Ok u, s') ->
  verification_ok v = true /\
  s' = set_mirror (fun t => t <| Requests.verifications ::= <[nv_id v := {| Requests.nv_request := nv_request v; Requests.nv_accepted := String.eqb (nv_status v) "ACCEPTED" |}]> |>)
         (s <| verifications ::= map (fun x => if String.eqb (nv_id x) (nv_id v) then v else x) |>).
Proof. unfold update_verification. destruct (verification_ok v); [|done]. cbn [negb]. intros (u1 & s1 & ->%modify_Ok & ->%modify_Ok)%bind_Ok. by split. Qed.

(** What the update leaves alone, and the row it leaves. *)
Lemma update_verification_frame v s u s' : update_verification v s = (Ok u, s') ->
  verification_ok v = true /\ ProofWorker.facts (Jobs.biz (db s')) = ProofWorker.facts (Jobs.biz (db s)) /\ chain s' = chain s /\
  Requests.requests (mirror s') = Requests.requests (mirror s) /\
  ((exists y, y ∈ verifications s /\ nv_id y = nv_id v) -> v ∈ verifications s').
Proof.
  intros [Hok ->]%update_verification_Ok. split_and!; [exact Hok|reflexivity|reflexivity|reflexivity|].
  intros (y & Hy & Hid). cbn [verifications set_mirror]. apply list_elem_of_fmap. exists y. split; [|exact Hy]. by rewrite Hid, String.eqb_refl.
Qed.

Lemma confirm_one_Ok t f plan cs block v p w u w' : confirm_one t f plan cs block v p w = (Ok u, w') ->
  canonical_record (calls w) (calls w') cs block f plan p /\ calls w' = S (calls w) /\ committed w' = committed w /\
  (exists x, accepted_row t cs v p x /\ verification_ok x = true /\ update_verification x (working w) = (Ok tt, working w')).
Proof.
  unfold confirm_one. intros (record & w1 & Hr & H)%bind_Ok. apply view_read_Ok in Hr as [Hv ->].
  apply bind_Ok in H as (other & w2 & Ho & H). injection Ho as Ho <-. destruct other; [done|].
  destruct (dget "AttestcoinRevenueVerifier" cs) as [a|] eqn:Ha; [|done]. unfold on_store in H. cbn [working] in H.
  match type of H with (let (_, _) := update_verification ?x ?s in _) = _ => destruct (update_verification x s) as [r s1] eqn:Hu; remember x as row end.
  injection H as -> <-. destruct u. change (working (w <| calls ::= S |>)) with (working w) in Hu.
  split_and!; [|done|done|].
  - apply record_differs_Ok in Ho as (Hs & provider & Ho). split; [done|]. exists record, provider. split; [|done]. exists (calls w). cbn. split; [lia|done].
  - exists row. split; [|split; [by apply update_verification_Ok in Hu as [? _]|done]]. subst row. repeat split. by exists a.
Qed.

(** The rows a loop of confirmations leaves: the last projection's. *)
Lemma confirm_all_Ok t f plan cs block v ps w u w' : for_each ps (confirm_one t f plan cs block v) w = (Ok u, w') ->
  (calls w <= calls w')%nat /\ (forall p, p ∈ ps -> canonical_record (calls w) (calls w') cs block f plan p) /\ committed w' = committed w /\
  ProofWorker.facts (Jobs.biz (db (working w'))) = ProofWorker.facts (Jobs.biz (db (working w))) /\ chain (working w') = chain (working w) /\
  Requests.requests (mirror (working w')) = Requests.requests (mirror (working w)) /\
  (ps = [] -> w' = w) /\
  (forall p, last ps = Some p -> (exists y, y ∈ verifications (working w) /\ nv_id y = nv_id v) -> exists x, x ∈ verifications (working w') /\ accepted_row t cs v p x).
Proof.
  revert w. induction ps as [|p ps IH]; intros w; cbn [for_each].
  { intros [_ ->]%ret_Ok. split_and!; try done. by intros p ?%elem_of_nil. }
  intros (u1 & w1 & H1 & H)%bind_Ok. apply confirm_one_Ok in H1 as (Hc & Hn & Hcm & x & Hx & Hok & Hu).
  apply IH in H as (Hn' & Hall & Hcm' & Hf & Hch & Hq & Hnil & Hlast). apply update_verification_frame in Hu as (_ & Hf1 & Hch1 & Hq1 & Hin).
  assert (Hid : nv_id x = nv_id v) by (by destruct Hx). rewrite Hid in Hin.
  split_and!; [lia| |congruence|congruence|congruence|congruence|done|].
  - intros q [->|Hq']%elem_of_cons; [eapply canonical_later; [| |exact Hc]; lia|]. eapply canonical_later; [| |by apply Hall]; lia.
  - intros q Hq' (y & Hy & Hidy). destruct ps as [|p' ps].
    + injection Hq' as <-. rewrite (Hnil eq_refl). exists x. split; [|exact Hx]. apply Hin. by exists y.
    + apply Hlast; [exact Hq'|]. exists x. split; [|exact Hid]. apply Hin. by exists y.
Qed.

Lemma request_Ok c w x w' : _request c w = (Ok x, w') ->
  w' = w /\ ProofWorker.request_row (db (working w)) (Some x.1.1) = Some x /\
  ProofWorker.f_manifest x.1.2 = ProofWorker.m_hash manifest /\ ProofWorker.f_sdk x.1.2 = ProofWorker.m_sdk manifest.
Proof.
  unfold _request. intros (w0 & w1 & [-> ->]%get_Ok & H)%bind_Ok. injection H as H <-. split; [done|].
  unfold ProofWorker._request in H. apply rbind_Ok in H as (o & _ & H). destruct (ProofWorker.request_row _ o) as [[[rid f] r]|] eqn:Hrow; [|done].
  destruct (String.eqb (ProofWorker.f_manifest f) _ && _ && _ && _) eqn:Hm; [|done]. injection H as <-.
  apply andb_true_iff in Hm as [[[H1%String.eqb_eq _]%andb_true_iff _]%andb_true_iff H2%String.eqb_eq].
  pose proof (ProofWorker.request_row_Some _ _ _ _ _ Hrow) as (-> & _ & _). by split_and!.
Qed.

(** The dispatcher has seen the transaction final, if it sent it. *)
Definition final_or_foreign (t : Turn) (v : NativeVerification) (w w' : World) : Prop :=
  (Tx.by_hash (nv_tx v) (dispatching (committed w)) = None /\ w' = w) \/
  exists i k d, Tx.by_hash (nv_tx v) (dispatching (committed w)) = Some i /\
    Tx.reconcile cfg signer (first_answers t) (Tx.tx_intent_id i) (dispatching (committed w)) = (Ok k, d) /\ Tx.state k = Tx.FINALIZED /\
    w' = w <| committed ::= dispatched d |> <| working ::= dispatched d |>.

Lemma settle_Ok t c rid v w u w' : settle t c rid v w = (Ok u, w') -> final_or_foreign t v w w'.
Proof.
  unfold settle, final_or_foreign. intros (w0 & w1 & [-> ->]%get_Ok & H)%bind_Ok.
  destruct (Tx.by_hash _ _) as [i|]; [|apply ret_Ok in H as [_ ->]; by left]. right.
  apply bind_Ok in H as (k & w2 & Hr & H). unfold on_dispatcher in Hr. destruct (Tx.reconcile _ _ _ _ _) as [r d] eqn:Hd. injection Hr as -> <-.
  exists i, k, d. apply bind_Ok in H as (u1 & w3 & H1 & H). destruct (bool_decide (Tx.state k = Tx.FINALIZED)) eqn:Hf.
  - apply bool_decide_eq_true in Hf. apply ret_Ok in H as [_ ->]. rewrite bool_decide_eq_false_2 in H1 by congruence.
    apply ret_Ok in H1 as [_ ->]. by split_and!.
  - apply bind_Ok in H as (? & ? & _ & H). done.
Qed.

Lemma dispatched_frame d s : chain (dispatched d s) = chain s /\ verifications (dispatched d s) = verifications s /\ consumptions (dispatched d s) = consumptions s /\
  binding (dispatched d s) = binding s /\ mirror (dispatched d s) = mirror s /\ ProofWorker.facts (Jobs.biz (db (dispatched d s))) = ProofWorker.facts (Jobs.biz (db s)).
Proof. by split_and!. Qed.

Lemma settled_frame t v w w' : final_or_foreign t v w w' ->
  chain (working w') = chain (working w) /\ verifications (working w') = verifications (working w) /\ binding (working w') = binding (working w) /\
  mirror (working w') = mirror (working w) /\ ProofWorker.facts (Jobs.biz (db (working w'))) = ProofWorker.facts (Jobs.biz (db (working w))) /\ calls w' = calls w.
Proof.
  intros [[_ ->]|(i & k & d & _ & _ & _ & ->)]; [done|]. destruct (dispatched_frame d (working w)) as (H1 & H2 & _ & H3 & H4 & H5). by split_and!.
Qed.

Lemma latest_In rid s v : latest_verification rid s = Some v -> v ∈ verifications s /\ nv_request v = rid.
Proof.
  unfold latest_verification. intros (l & Hl)%last_Some. assert (Hin : v ∈ filter (fun x => String.eqb (nv_request x) rid) (verifications s)) by (rewrite Hl; set_solver).
  apply list_elem_of_filter in Hin as [H%Is_true_true%String.eqb_eq Hin]. done.
Qed.

(** C39: Acceptance is what the finalized chain says: when the confirmation of a
    submitted request returns, the request was made for this worker's manifest
    and for the environment, manifest and profile of the deployment; the
    transaction it was submitted in is FINALIZED for the dispatcher, if the
    dispatcher sent it; the finalized tier shows evidence consumed by that very
    transaction, as many pieces as the plan has instructions, each verified in
    the same transaction; and the node answered, at the finalized block, the
    environment of the request and for each piece a record of the contract equal
    to the projected one, under the request's manifest and the plan's provider,
    by the native method.  The verification then carries the last piece's block
    and position, the request is NATIVE_ACCEPTED and its consumption is queued. *)
Theorem acceptance_is_canonical t c w u w' : confirm t c w = (Ok u, w') ->
  exists rid f r, ProofWorker.request_row (db (working w)) (Some rid) = Some (rid, f, r) /\ ProofWorker.f_manifest f = ProofWorker.m_hash manifest /\
  (mem_str (Requests.status r) ["NATIVE_ACCEPTED"; "CONSUMED"] = true /\ w' = w \/
   exists d cur v w1 plan ps p n, Requests.status r = "SUBMITTED"%string /\
     Indexer.deployment (chain (working w)) = Some d /\ Indexer.cursor (chain (working w)) = Some cur /\
     binding (working w) = (ProofWorker.f_env f, ProofWorker.f_manifest f) /\ d_profile d = ProofWorker.f_profile f /\
     latest_verification rid (working w) = Some v /\ final_or_foreign t v w w1 /\
     plan = default (JObj []) (dget (ProofWorker.f_tx f) plans) /\
     ps = consumed_by (nv_tx v) (working w) /\ last ps = Some p /\
     rbind (get_or "instructions" (JArr []) plan) length_of = Ok n /\ zlen ps = n /\
     viewed (calls w) (calls w') (contracts d) (Indexer.finalized_block_number cur) "envIdHash" [] (JStr (Abi.keccak_hex (bytes_of (ProofWorker.f_env f)))) /\
     (forall q, q ∈ ps -> consumption_tx_hash q = nv_tx v /\ canonical_record (calls w) (calls w') (contracts d) (Indexer.finalized_block_number cur) f plan q) /\
     (exists x, x ∈ verifications (working w') /\ accepted_row t (contracts d) v p x) /\
     ProofWorker.status_of (db (working w')) rid = Some "NATIVE_ACCEPTED"%string /\
     exists i x, Jobs.jobs (db (working w')) !! i = Some x /\ Jobs.semantic_idempotency_key x = Requests.job_key "EVIDENCE_CONSUME" rid).
Proof.
  unfold confirm. intros ([[rid f] r] & w0 & Hreq & H)%bind_Ok. apply request_Ok in Hreq as (-> & Hrow & Hm & _). cbn [fst snd] in Hrow, Hm.
  exists rid, f, r. split; [done|]. split; [done|]. destruct (mem_str (Requests.status r) _); [left; by apply ret_Ok in H as [_ ->]|]. right.
  apply bind_Ok in H as (? & ? & [-> ->]%get_Ok & H). destruct (Indexer.deployment _) as [d|] eqn:Hd; [|done].
  destruct (String.eqb _ _ && _ && _) eqn:Hb; [|done]. cbn [negb] in H.
  apply andb_true_iff in Hb as [[Hb1%String.eqb_eq Hb2%String.eqb_eq]%andb_true_iff Hb3%String.eqb_eq].
  destruct (latest_verification rid (working w)) as [v|] eqn:Hv; [|done]. destruct (Indexer.cursor _) as [cur|] eqn:Hc; [|done].
  apply bind_Ok in H as (u1 & w1 & Hs & H). apply settle_Ok in Hs. pose proof (settled_frame _ _ _ _ Hs) as (F1 & F2 & _ & F4 & _ & F6).
  unfold accept in H. apply bind_Ok in H as (? & ? & [-> ->]%get_Ok & H). cbv zeta in H.
  assert (Hps : consumed_by (nv_tx v) (working w1) = consumed_by (nv_tx v) (working w)) by (unfold consumed_by; by rewrite F1). rewrite Hps in H.
  set (ps := consumed_by (nv_tx v) (working w)) in *. set (plan := default (JObj []) (dget (ProofWorker.f_tx f) plans)) in *.
  apply bind_Ok in H as (short & w2 & Hshort & H). injection Hshort as Hshort <-. destruct short; [done|].
  assert (Hlen : exists n, rbind (get_or "instructions" (JArr []) plan) length_of = Ok n /\ zlen ps = n /\ ps <> []).
  { destruct ps as [|p ps']; [done|]. apply rbind_Ok in Hshort as (n & Hn & Hz). exists n. split; [exact Hn|]. split; [|done].
    apply Z.eqb_eq, negb_false_iff. congruence. }
  destruct Hlen as (n & Hn & Hz & Hne). destruct (last ps) as [p|] eqn:Hp; [|by apply last_None in Hp].
  apply bind_Ok in H as (h & w3 & Hr & H). apply view_read_Ok in Hr as [Hview ->]. destruct (json_eqb h _) eqn:Hh; [|done]. cbn [negb] in H. apply json_eqb_text in Hh as ->.
  apply bind_Ok in H as (u2 & w4 & Hall & Hadv). apply confirm_all_Ok in Hall as (Hn' & Hall & _ & _ & _ & Hq & _ & Hlast). cbn [calls] in Hn'.
  unfold _advance, on_store, on_db in Hadv. destruct (ProofWorker._advance rid "PROOF_CONFIRM" (fresh_job t) (db (working w4))) as [ra da] eqn:Ha.
  injection Hadv as -> Hw'.
  assert (W : calls w' = calls w4 /\ verifications (working w') = verifications (working w4) /\ db (working w') = da) by (by rewrite <- Hw').
  clear Hw'. destruct W as (W1 & W2 & W3). rewrite W1, W2, W3. apply ProofWorker.advance_Ok in Ha as (r2 & st & Hr2 & Hfrom & Hok & _ & _ & Hreqs & Hjob).
  apply ProofWorker.request_row_Some in Hrow as (_ & _ & Hr0).
  assert (Hreq : Requests.requests (mirror (working w4)) = Requests.requests (mirror (working w))) by (rewrite Hq; change (working (w1 <| calls ::= S |>)) with (working w1); by rewrite F4).
  assert (r2 = r) as -> by (unfold mirror in Hreq; rewrite Hreq in Hr2; congruence).
  assert (Hst : Requests.status r = "SUBMITTED"%string).
  { unfold mem_str in Hfrom. cbn in Hfrom. rewrite orb_false_r in Hfrom. by apply String.eqb_eq in Hfrom. }
  assert (st = "NATIVE_ACCEPTED"%string) as -> by (vm_compute in Hok; congruence).
  exists d, cur, v, w1, plan, ps, p, n. change (calls (w1 <| calls ::= S |>)) with (S (calls w1)) in Hn', Hall. rewrite F6 in Hn', Hall, Hview.
  split_and!; try done.
  - by rewrite <- Hb1, <- Hb2, <- surjective_pairing.
  - exists (calls w). split; [lia|exact Hview].
  - intros q Hq'. split.
    + unfold ps, consumed_by in Hq'. by apply list_elem_of_filter in Hq' as [?%Is_true_true%String.eqb_eq _].
    + eapply canonical_later; [| |by apply Hall]; lia.
  - apply Hlast; [done|]. exists v. split; [|done]. change (working (w1 <| calls ::= S |>)) with (working w1). rewrite F2. by apply latest_In in Hv as [? _].
  - unfold ProofWorker.status_of. by rewrite Hreqs, lookup_insert_eq.
  - by apply Hjob.
Qed.

(** * The status of a request and the evidence for it *)

(** The tables show what a status stands for. *)
Definition proven (tb : Requests.Tables) (rid st : string) : Prop :=
  (mem_str st ["NATIVE_ACCEPTED"; "CONSUMED"] = true -> Requests.has_accepted tb rid = true) /\
  (st = "CONSUMED"%string -> Requests.has_consumption tb rid = true).

(** Verifications and consumptions are as they were; a status that is new is
    one the tables show. *)
Record grown (a b : Requests.Tables) : Prop := {
  gr_verifications : Requests.verifications b = Requests.verifications a;
  gr_consumptions : Requests.consumptions b = Requests.consumptions a;
  gr_status : forall rid r', Requests.requests b !! rid = Some r' ->
    (exists r, Requests.requests a !! rid = Some r /\ Requests.status r = Requests.status r') \/ proven b rid (Requests.status r');
}.

Lemma proven_same a b rid st : Requests.verifications b = Requests.verifications a -> Requests.consumptions b = Requests.consumptions a ->
  proven a rid st -> proven b rid st.
Proof. unfold proven, Requests.has_accepted, Requests.has_consumption. by intros -> ->. Qed.

#[local] Instance grown_preorder : PreOrder grown.
Proof.
  split; [intros a; split; [done|done|]; intros rid r' H; left; by exists r'|]. intros a b c [V1 C1 S1] [V2 C2 S2]. split; [congruence|congruence|].
  intros rid r'' H. destruct (S2 rid r'' H) as [(r' & Hr' & E)|Hp]; [|by right].
  destruct (S1 rid r' Hr') as [(r & Hr & E')|Hp]; [left; exists r; split; [done|congruence]|right]. rewrite <- E. by eapply proven_same.
Qed.

Lemma grown_rows a b : Requests.requests b = Requests.requests a -> Requests.verifications b = Requests.verifications a ->
  Requests.consumptions b = Requests.consumptions a -> grown a b.
Proof. intros R V C. split; [done|done|]. rewrite R. intros rid r' H. left. by exists r'. Qed.

Lemma evidence_proven tb rid st x : Requests.status_evidence tb rid st = Ok x -> proven tb rid st.
Proof.
  unfold Requests.status_evidence, proven. destruct (_ && _); [done|]. destruct (mem_str st ["NATIVE_ACCEPTED"; "CONSUMED"] && _) eqn:H1; [done|].
  destruct (String.eqb st "CONSUMED" && _) eqn:H2; [done|]. intros _. split.
  - intros Hm. rewrite Hm in H1. by apply negb_false_iff in H1.
  - intros ->. by apply negb_false_iff in H2.
Qed.

Lemma update_status_grown rid st err a b : Requests.update_status rid st err a = Ok b -> grown a b.
Proof.
  unfold Requests.update_status. destruct (Requests.requests a !! rid) as [r|] eqn:Hr; [|by intros [= <-]].
  intros (x & Hx%evidence_proven & [= <-])%rbind_Ok. split; [done|done|]. cbn. intros i r' H. destruct (decide (i = rid)) as [->|Hne].
  - rewrite lookup_insert_eq in H. injection H as <-. right. exact Hx.
  - rewrite lookup_insert_ne in H by done. left. by exists r'.
Qed.

(** A statement of [apply]: on success the handler's view has grown, on a
    failure the committed tables have. *)
Lemma apply_grown rid kind o err c r c' : Requests.apply rid kind o err c = (r, c') ->
  grown (Requests.committed c) (Requests.committed c') /\
  match r with Ok _ => grown (Requests.working c) (Requests.working c') | Raise _ => True end.
Proof.
  unfold Requests.apply. destruct (negb _); [by intros [= <- <-]|]. unfold bind at 1, Requests.current_status, bind at 1, get at 1.
  destruct (Requests.requests (Requests.working c) !! rid) as [x|]; [|by intros [= <- <-]]. unfold ret at 1. destruct (mem_str _ _); [by intros [= <- <-]|].
  destruct (Requests.classify o) as [k|].
  - unfold bind at 1, modify at 1, bind at 1, get at 1, bind at 1, lift_res at 1. cbn [Requests.committed].
    destruct (Requests.update_status _ _ _ _) as [tb|e] eqn:Hu; [|by intros [= <- <-]]. unfold bind, modify, raise. intros [= <- <-]. split; [|done].
    by eapply update_status_grown.
  - destruct (negb _); [by intros [= <- <-]|]. destruct (Requests.OK_STATUS !! kind); [|by intros [= <- <-]].
    unfold bind at 1, get at 1, bind at 1, lift_res at 1. destruct (Requests.update_status _ _ _ _) as [tb|e] eqn:Hu; [|by intros [= <- <-]].
    unfold bind, modify, ret. intros [= <- <-]. split; [done|]. by eapply update_status_grown.
Qed.

(** ** What the worker's own statements do to them *)

#[local] Abbreviation PDB := (Jobs.DB ProofWorker.Biz).

Definition worked (s s' : PDB) : Prop :=
  ProofWorker.facts (Jobs.biz s') = ProofWorker.facts (Jobs.biz s) /\ grown (ProofWorker.tables (Jobs.biz s)) (ProofWorker.tables (Jobs.biz s')).

#[local] Instance worked_preorder : PreOrder worked.
Proof. split; [by intros s; split|]. intros a b c [F1 G1] [F2 G2]. split; [congruence|by etrans]. Qed.

Lemma update_worked f : (forall b, ProofWorker.facts (f b) = ProofWorker.facts b /\ grown (ProofWorker.tables b) (ProofWorker.tables (f b))) ->
  keeps worked (ProofWorker.update f).
Proof. intros H s. exact (H (Jobs.biz s)). Qed.

Lemma outbox_worked {A} (m : PyM Outbox.DB A) : keeps worked (ProofWorker.on_outbox m).
Proof. intros s. unfold ProofWorker.on_outbox. by destruct (m _) as [r o]. Qed.

Lemma jobs_worked {A} (m : PyM PDB A) : (forall s, Jobs.biz (m s).2 = Jobs.biz s) -> keeps worked m.
Proof. intros H s. unfold worked. by rewrite H. Qed.

Lemma fenced_worked c f : keeps worked (Jobs.fenced_update c f).
Proof.
  apply jobs_worked. intros s. destruct (Jobs.fenced_update c f s) as [[[]|e] s'] eqn:E.
  - apply Jobs.fenced_update_Ok in E as (x & _ & _ & ->). done.
  - by apply Jobs.fenced_update_Raise in E as [_ ->].
Qed.

Lemma queue_fail_worked u c k r : keeps worked (Jobs.fail policy u c k r).
Proof.
  intros s. destruct (Jobs.fail_run policy u c k r s) as (f & st & _ & _ & _ & E). rewrite E.
  apply keeps_bind; [typeclasses eauto|by apply fenced_worked|]. intros []. keeps_tac.
Qed.

Lemma publish_worked t c k : keeps worked (ProofWorker.publish_dead_letter deployment t c k).
Proof.
  unfold ProofWorker.publish_dead_letter, ProofWorker.check. pose proof @outbox_worked. keeps_tac; apply update_worked; by intros b.
Qed.

Lemma record_worked c o : keeps worked (ProofWorker.record_proof_failure c o).
Proof.
  intros s. unfold ProofWorker.record_proof_failure, bind at 1, lift_res at 1. destruct (ProofWorker.request_id_of _) as [x|]; [|done].
  unfold bind at 1, get at 1. destruct (ProofWorker.request_row s x) as [[[rid f] r]|]; [|done]. destruct (negb _); [done|]. cbv zeta.
  unfold bind at 1, lift_res at 1. destruct (Requests.update_status _ _ _ _) as [tb|e] eqn:Hu; [|done]. split; [done|]. by eapply update_status_grown.
Qed.

Lemma fail_worked t c k r o : keeps worked (ProofWorker.fail deployment policy t c k r o).
Proof.
  unfold ProofWorker.fail, ProofWorker.lock_case. pose proof publish_worked. pose proof record_worked. pose proof queue_fail_worked. keeps_tac.
Qed.

Lemma advance_worked rid kind job : keeps worked (ProofWorker._advance rid kind job).
Proof.
  unfold ProofWorker._advance. apply keeps_bind; [typeclasses eauto| |].
  - intros s. unfold ProofWorker.on_requests. destruct (Requests.apply _ _ _ _ _) as [r c] eqn:E. split; [done|]. cbn [snd].
    assert (Hg : grown (ProofWorker.tables (Jobs.biz s)) (Requests.working c)); [|exact Hg].
    destruct r as [tr|e]; [by apply apply_grown in E as [_ E]|]. revert E. unfold Requests.apply. destruct (negb _); [by intros [= _ <-]|].
    unfold bind at 1, Requests.current_status, bind at 1, get at 1. cbn [Requests.working].
    destruct (Requests.requests _ !! rid) as [x|]; [|by intros [= _ <-]]. unfold ret at 1. destruct (mem_str _ _); [by intros [= _ <-]|].
    cbn [Requests.classify]. destruct (negb _); [by intros [= _ <-]|]. destruct (Requests.OK_STATUS !! kind); [|by intros [= _ <-]].
    unfold bind at 1, get at 1, bind at 1, lift_res at 1. destruct (Requests.update_status _ _ _ _) as [tb|e'] eqn:Hu; [done|by intros [= _ <-]].
  - intros tr. destruct (Requests.next_kind tr); [|keeps_tac]. apply keeps_bind; [typeclasses eauto| |intros _; keeps_tac].
    apply jobs_worked. intros z. destruct (Jobs.enqueue _ _ _ _ _ _ z) as [[x|e] z'] eqn:E; cbn [snd].
    + apply Jobs.enqueue_Ok in E as (_ & [(y & _ & _ & ->)|(_ & _ & Hn & _ & y & _ & _ & _ & _ & _ & _ & _ & ->)]); done.
    + revert E. unfold Jobs.enqueue, bind, get, raise, modify, ret. repeat case_match; intros; by simplify_eq.
Qed.

Lemma keep_artifact_worked t rid f output ref : keeps worked (ProofWorker.keep_artifact pg_integer t rid f output ref).
Proof. unfold ProofWorker.keep_artifact, ProofWorker.check. keeps_tac; apply update_worked; intros b; (split; [done|]); by apply grown_rows. Qed.

Lemma fetch_worked t c x : worked (ProofWorker.db x) (ProofWorker.db (ProofWorker.fetch manifest pg_integer parse_float decode_wide t c x).2).
Proof.
  set (R := fun a b : ProofWorker.World => worked (ProofWorker.db a) (ProofWorker.db b)).
  assert (HR : PreOrder R) by (split; unfold R; [by intros a|intros a b d H1 H2; by etrans]).
  assert (Hdb : forall A (m : PyM PDB A), keeps worked m -> keeps R (ProofWorker.on_db m)).
  { intros A m Hm a. unfold ProofWorker.on_db, R. pose proof (Hm (ProofWorker.db a)) as H. by destruct (m _). }
  assert (Hvol : forall A (m : PyM (gmap string string) A), keeps R (ProofWorker.on_volume m)).
  { intros A m a. unfold ProofWorker.on_volume, R. by destruct (m _). }
  change (R x (ProofWorker.fetch manifest pg_integer parse_float decode_wide t c x).2). revert x.
  change (keeps R (ProofWorker.fetch manifest pg_integer parse_float decode_wide t c)).
  unfold ProofWorker.fetch. keeps_tac. apply Hdb. pose proof keep_artifact_worked. pose proof advance_worked. keeps_tac.
Qed.

(** * The evidence tables *)

Definition facts_of (s : Store) (rid : string) : option ProofWorker.RequestFacts := ProofWorker.facts (Jobs.biz (db s)) !! rid.

(** What a consumption row says of its verification and its request. *)
Definition backed (s : Store) (e : EvidenceConsumption) : Prop :=
  exists v f, v ∈ verifications s /\ nv_id v = ec_verification e /\ nv_status v = "ACCEPTED"%string /\ nv_tx v = ec_tx e /\
    facts_of s (nv_request v) = Some f /\ ec_env e = ProofWorker.f_env f /\ ec_manifest e = ProofWorker.f_manifest f /\
    ec_provider e = ProofWorker.f_provider f /\ ec_profile e = ProofWorker.f_profile f.

(** The tables of evidence: rows that meet their constraints, verifications of
    a request's own profile, consumptions backed by an accepted verification in
    their own transaction, each source event, economic event and log position
    at most once, and no status without its evidence. *)
Record evidence_wf (s : Store) : Prop := {
  ew_ids : NoDup (map nv_id (verifications s));
  ew_rows : forall v, v ∈ verifications s -> verification_ok v = true /\ exists f, facts_of s (nv_request v) = Some f /\ nv_profile v = ProofWorker.f_profile f;
  ew_consumptions : forall e, e ∈ consumptions s -> consumption_ok e = true /\ backed s e;
  ew_once : forall i j a b, consumptions s !! i = Some a -> consumptions s !! j = Some b -> i <> j -> consumption_clash a b = false;
  ew_mirror : forall i x, Requests.verifications (mirror s) !! i = Some x ->
    exists v, v ∈ verifications s /\ nv_id v = i /\ nv_request v = Requests.nv_request x /\ (Requests.nv_accepted x = true -> nv_status v = "ACCEPTED"%string);
  ew_consumed : forall i, i ∈ Requests.consumptions (mirror s) -> exists e, e ∈ consumptions s /\ ec_verification e = i;
  ew_status : forall rid r, Requests.requests (mirror s) !! rid = Some r -> proven (mirror s) rid (Requests.status r);
}.

Lemma consumption_clash_sym a b : consumption_clash a b = consumption_clash b a.
Proof.
  unfold consumption_clash. rewrite (String.eqb_sym (ec_id a)), (String.eqb_sym (ec_env a)), (String.eqb_sym (ec_source a)), (String.eqb_sym (ec_economic a)).
  f_equal. by apply bool_decide_ext.
Qed.

(** What the statuses stand for. *)
Lemma accepted_evidence s rid r : evidence_wf s -> Requests.requests (mirror s) !! rid = Some r ->
  mem_str (Requests.status r) ["NATIVE_ACCEPTED"; "CONSUMED"] = true -> exists v, v ∈ verifications s /\ nv_request v = rid /\ nv_status v = "ACCEPTED"%string.
Proof.
  intros W Hr Hm. destruct (ew_status _ W _ _ Hr) as [Ha _]. apply Ha in Hm. unfold Requests.has_accepted in Hm.
  apply existsb_exists in Hm as ([i x] & Hin%list_elem_of_In%elem_of_map_to_list & [H1%String.eqb_eq H2]%andb_true_iff). cbn [snd] in *.
  destruct (ew_mirror _ W _ _ Hin) as (v & Hv & _ & Hq & Hacc). exists v. split_and!; [done|congruence|by apply Hacc].
Qed.

Lemma consumed_evidence s rid r : evidence_wf s -> Requests.requests (mirror s) !! rid = Some r -> Requests.status r = "CONSUMED"%string ->
  exists e v, e ∈ consumptions s /\ v ∈ verifications s /\ nv_id v = ec_verification e /\ nv_request v = rid.
Proof.
  intros W Hr Hm. destruct (ew_status _ W _ _ Hr) as [_ Hc]. apply Hc in Hm. unfold Requests.has_consumption in Hm.
  apply existsb_exists in Hm as ([i x] & Hin%list_elem_of_In%elem_of_map_to_list & [H1%String.eqb_eq H2%bool_decide_eq_true]%andb_true_iff). cbn [fst snd] in *.
  destruct (ew_mirror _ W _ _ Hin) as (v & Hv & Hi & Hq & _). destruct (ew_consumed _ W _ H2) as (e & He & Hev).
  exists e, v. split_and!; [done|done|congruence|congruence].
Qed.

(** ** Statements *)

(** The other tables changed, and the worker's as its statements change them. *)
Lemma evidence_worked s s' : verifications s' = verifications s -> consumptions s' = consumptions s -> worked (db s) (db s') -> evidence_wf s -> evidence_wf s'.
Proof.
  intros V C [F [GV GC GS]] [W1 W2 W3 W4 W5 W6 W7]. fold (mirror s) (mirror s') in GV, GC, GS.
  assert (Hf : forall rid, facts_of s' rid = facts_of s rid) by (intros rid; unfold facts_of; by rewrite F).
  split; rewrite ?V, ?C, ?GV, ?GC; try done.
  - intros v Hv. destruct (W2 v Hv) as (H1 & f & H2 & H3). split; [done|]. exists f. by rewrite Hf.
  - intros e He. destruct (W3 e He) as (H1 & v & f & H2). split; [done|]. exists v, f. by rewrite V, Hf.
  - intros rid r' Hr'. destruct (GS rid r' Hr') as [(r & Hr & <-)|Hp]; [|done]. eapply proven_same; [exact GV|exact GC|by eapply W7].
Qed.


Lemma has_accepted_spec tb rid : Requests.has_accepted tb rid = true <->
  exists i x, Requests.verifications tb !! i = Some x /\ Requests.nv_request x = rid /\ Requests.nv_accepted x = true.
Proof.
  unfold Requests.has_accepted. rewrite existsb_exists. split.
  - intros ([i x] & Hin%list_elem_of_In%elem_of_map_to_list & [H1%String.eqb_eq H2]%andb_true_iff). by exists i, x.
  - intros (i & x & Hi & <- & Ha). exists (i, x). split; [by apply list_elem_of_In, elem_of_map_to_list|]. cbn. by rewrite String.eqb_refl.
Qed.

Lemma has_consumption_spec tb rid : Requests.has_consumption tb rid = true <->
  exists i x, Requests.verifications tb !! i = Some x /\ Requests.nv_request x = rid /\ i ∈ Requests.consumptions tb.
Proof.
  unfold Requests.has_consumption. rewrite existsb_exists. split.
  - intros ([i x] & Hin%list_elem_of_In%elem_of_map_to_list & [H1%String.eqb_eq H2%bool_decide_eq_true]%andb_true_iff). by exists i, x.
  - intros (i & x & Hi & <- & Ha). exists (i, x). split; [by apply list_elem_of_In, elem_of_map_to_list|]. cbn. by rewrite String.eqb_refl, bool_decide_eq_true_2.
Qed.

(** A verification that is new, or keeps its request and its acceptance, and a
    consumption more, leave what was shown. *)
Lemma proven_more tb tb' i x rid st :
  Requests.verifications tb' = <[i := x]> (Requests.verifications tb) -> Requests.consumptions tb ⊆ Requests.consumptions tb' ->
  (forall y, Requests.verifications tb !! i = Some y -> Requests.nv_request y = Requests.nv_request x /\ (Requests.nv_accepted y = true -> Requests.nv_accepted x = true)) ->
  proven tb rid st -> proven tb' rid st.
Proof.
  intros Hv Hc Hold [Ha Hb].
  assert (Hkeep : forall j y, Requests.verifications tb !! j = Some y -> exists z, Requests.verifications tb' !! j = Some z /\
    Requests.nv_request z = Requests.nv_request y /\ (Requests.nv_accepted y = true -> Requests.nv_accepted z = true)).
  { intros j y Hj. rewrite Hv. destruct (decide (j = i)) as [->|Hne]; [|exists y; by rewrite lookup_insert_ne].
    destruct (Hold y Hj) as [Hr Hacc]. exists x. by rewrite lookup_insert_eq. }
  split.
  - intros Hm. apply has_accepted_spec. apply Ha, has_accepted_spec in Hm as (j & y & Hj & <- & Hacc).
    destruct (Hkeep j y Hj) as (z & Hz & Hr & Hz'). exists j, z. split_and!; [done|done|by apply Hz'].
  - intros Hm. apply has_consumption_spec. apply Hb, has_consumption_spec in Hm as (j & y & Hj & <- & Hin).
    destruct (Hkeep j y Hj) as (z & Hz & Hr & _). exists j, z. split_and!; [done|done|by apply Hc].
Qed.

Lemma proven_consumed tb tb' rid st : Requests.verifications tb' = Requests.verifications tb -> Requests.consumptions tb ⊆ Requests.consumptions tb' ->
  proven tb rid st -> proven tb' rid st.
Proof.
  intros Hv Hc [Ha Hb]. split.
  - intros Hm. apply has_accepted_spec. rewrite Hv. by apply has_accepted_spec, Ha.
  - intros Hm. apply has_consumption_spec. rewrite Hv. apply Hb, has_consumption_spec in Hm as (j & y & Hj & Hr & Hin). exists j, y. split_and!; [done|done|by apply Hc].
Qed.

(** What no statement changes: the columns of requests. *)
Definition same_facts (s s' : Store) : Prop := forall rid, facts_of s' rid = facts_of s rid.

Lemma evidence_backed_same s s' e : same_facts s s' -> (forall v, v ∈ verifications s -> nv_status v = "ACCEPTED"%string -> exists x, x ∈ verifications s' /\ nv_id x = nv_id v /\
    nv_request x = nv_request v /\ nv_tx x = nv_tx v /\ nv_status x = "ACCEPTED"%string) -> backed s e -> backed s' e.
Proof.
  intros F H (v & f & Hv & Hi & Hs & Ht & Hf & R1 & R2 & R3 & R4). destruct (H v Hv Hs) as (x & Hx & H1 & H2 & H3 & H4). exists x, f.
  split_and!; [done|congruence|done|congruence|by rewrite F, H2|done..].
Qed.

Lemma insert_verification_wf v s u s' f : insert_verification v s = (Ok u, s') -> evidence_wf s ->
  facts_of s (nv_request v) = Some f -> nv_profile v = ProofWorker.f_profile f ->
  evidence_wf s' /\ same_facts s s' /\ verifications s' = verifications s ++ [v] /\ consumptions s' = consumptions s.
Proof.
  unfold insert_verification. intros (s0 & s1 & [-> ->]%get_Ok & H)%bind_Ok W Hf Hp.
  destruct (verification_ok v) eqn:Hok; [|done]. destruct (bool_decide _); [|done]. destruct (existsb _ _); [|done].
  destruct (forallb _ (verifications s)) eqn:Hfree; [|done]. cbn [andb negb] in H.
  apply bind_Ok in H as (u1 & s2 & ->%modify_Ok & ->%modify_Ok). unfold set_mirror.
  assert (Hnew : forall x, x ∈ verifications s -> nv_id x <> nv_id v).
  { intros x Hx E. rewrite forallb_forall in Hfree. apply list_elem_of_In, Hfree in Hx. rewrite E, String.eqb_refl in Hx. done. }
  destruct W as [W1 W2 W3 W4 W5 W6 W7].
  assert (Hfresh : Requests.verifications (mirror s) !! nv_id v = None).
  { destruct (Requests.verifications (mirror s) !! nv_id v) as [x|] eqn:Hx; [|done]. destruct (W5 _ _ Hx) as (y & Hy & Hi & _). by destruct (Hnew y Hy). }
  split; [|by split_and!]. split; cbn.
  - rewrite map_app. apply NoDup_app. split_and!; [done| |apply NoDup_singleton]. intros k Hk ->%list_elem_of_singleton.
    apply list_elem_of_fmap in Hk as (x & Hi & Hx). by destruct (Hnew x Hx).
  - intros x [Hx| ->%list_elem_of_singleton]%elem_of_app; [by apply W2|]. split; [done|]. by exists f.
  - intros e He. destruct (W3 e He) as [H1 H2]. split; [done|]. eapply evidence_backed_same; [|  |exact H2]; [done|].
    intros x Hx Hs. exists x. split_and!; try done. apply elem_of_app. by left.
  - exact W4.
  - intros i x [[<- <-]|[Hne Hx]]%lookup_insert_Some.
    + exists v. split_and!; [apply elem_of_app; right; by apply list_elem_of_singleton|done|done|]. cbn. by intros ?%String.eqb_eq.
    + destruct (W5 i x Hx) as (y & Hy & R). exists y. split; [apply elem_of_app; by left|done].
  - exact W6.
  - intros rid r Hr. eapply (proven_more (mirror s) _ (nv_id v)); [reflexivity|done| |by eapply W7]. intros y Hy. congruence.
Qed.

(** Acceptance of a row: its identity, request, transaction and profile stay. *)
Lemma update_verification_wf v s u s' : update_verification v s = (Ok u, s') -> evidence_wf s -> nv_status v = "ACCEPTED"%string ->
  (exists y, y ∈ verifications s /\ nv_id y = nv_id v /\ nv_request y = nv_request v /\ nv_tx y = nv_tx v /\ nv_profile y = nv_profile v) ->
  evidence_wf s' /\ same_facts s s' /\ consumptions s' = consumptions s /\
  (forall y, y ∈ verifications s -> exists x, x ∈ verifications s' /\ nv_id x = nv_id y /\ nv_request x = nv_request y /\ nv_tx x = nv_tx y /\ nv_profile x = nv_profile y /\
     (nv_status y = "ACCEPTED"%string -> nv_status x = "ACCEPTED"%string)).
Proof.
  intros (Hok & ->)%update_verification_Ok [W1 W2 W3 W4 W5 W6 W7] Hst (y0 & Hy0 & I1 & I2 & I3 & I4). unfold set_mirror.
  assert (Huniq : forall y, y ∈ verifications s -> nv_id y = nv_id v -> y = y0).
  { intros y Hy Hi. apply list_elem_of_lookup in Hy as [a Ha]. apply list_elem_of_lookup in Hy0 as [b Hb].
    assert (a = b) as ->; [|congruence]. eapply (NoDup_lookup (map nv_id (verifications s))); [done|by rewrite list_lookup_fmap, Ha|]. rewrite list_lookup_fmap, Hb. cbn. congruence. }
  set (up := fun x : NativeVerification => if String.eqb (nv_id x) (nv_id v) then v else x).
  assert (Hup : forall y, y ∈ verifications s -> nv_id (up y) = nv_id y /\ nv_request (up y) = nv_request y /\ nv_tx (up y) = nv_tx y /\ nv_profile (up y) = nv_profile y /\
     (nv_status y = "ACCEPTED"%string -> nv_status (up y) = "ACCEPTED"%string)).
  { intros y Hy. unfold up. destruct (String.eqb_spec (nv_id y) (nv_id v)) as [E|]; [|done]. rewrite (Huniq y Hy E). by split_and!. }
  assert (Hall : forall y, y ∈ verifications s -> exists x, x ∈ map up (verifications s) /\ nv_id x = nv_id y /\ nv_request x = nv_request y /\ nv_tx x = nv_tx y /\
     nv_profile x = nv_profile y /\ (nv_status y = "ACCEPTED"%string -> nv_status x = "ACCEPTED"%string)).
  { intros y Hy. exists (up y). split; [apply list_elem_of_fmap; by exists y|by apply Hup]. }
  split; [|by split_and!]. split; cbn.
  - assert (E : map nv_id (map up (verifications s)) = map nv_id (verifications s)); [|by rewrite E].
    rewrite List.map_map. apply List.map_ext_in. intros x Hx%list_elem_of_In. by apply Hup in Hx as [? _].
  - intros x (y & -> & Hy)%list_elem_of_fmap. destruct (Hup y Hy) as (_ & Hr & _ & Hp & _). destruct (W2 y Hy) as (Hoky & f & Hf & Hpf). split.
    + unfold up. by destruct (String.eqb _ _).
    + exists f. rewrite Hr, Hp. by split.
  - intros e He. destruct (W3 e He) as [H1 H2]. split; [done|]. eapply evidence_backed_same; [| |exact H2]; [done|]. intros y Hy Hs.
    destruct (Hall y Hy) as (x & Hx & R1 & R2 & R3 & _ & R5). exists x. split_and!; try done. by apply R5.
  - exact W4.
  - intros i x [[<- <-]|[Hne Hx]]%lookup_insert_Some.
    + destruct (Hall y0 Hy0) as (z & Hz & R1 & R2 & _). exists (up y0). split_and!.
      * apply list_elem_of_fmap. by exists y0.
      * unfold up. by rewrite I1, String.eqb_refl.
      * unfold up. by rewrite I1, String.eqb_refl.
      * intros _. unfold up. by rewrite I1, String.eqb_refl.
    + destruct (W5 i x Hx) as (y & Hy & R1 & R2 & R3). destruct (Hup y Hy) as (U1 & U2 & _ & _ & U5). exists (up y).
      split_and!; [apply list_elem_of_fmap; by exists y|congruence|congruence|]. intros Ha. by apply U5, R3.
  - exact W6.
  - intros rid r Hr. eapply (proven_more (mirror s) _ (nv_id v)); [reflexivity|done| |by eapply W7]. intros y Hy.
    destruct (W5 _ _ Hy) as (z & Hz & Zi & Zr & _). rewrite (Huniq z Hz Zi) in Zr. cbn. rewrite Hst. split; [congruence|done].
Qed.

Lemma insert_consumption_wf e s u s' v f : insert_consumption e s = (Ok u, s') -> evidence_wf s ->
  v ∈ verifications s -> nv_id v = ec_verification e -> nv_tx v = ec_tx e -> facts_of s (nv_request v) = Some f ->
  ec_env e = ProofWorker.f_env f -> ec_manifest e = ProofWorker.f_manifest f -> ec_provider e = ProofWorker.f_provider f -> ec_profile e = ProofWorker.f_profile f ->
  evidence_wf s' /\ same_facts s s' /\ verifications s' = verifications s /\ consumptions s' = consumptions s ++ [e].
Proof.
  unfold insert_consumption. intros (s0 & s1 & [-> ->]%get_Ok & H)%bind_Ok W Hv Hi Ht Hf E1 E2 E3 E4.
  destruct (consumption_ok e) eqn:Hok; [|done]. destruct (evidence_consumptions_verified _ e) eqn:Htr; [|done].
  destruct (forallb _ (consumptions s)) eqn:Hfree; [|done]. cbn [andb negb] in H.
  apply bind_Ok in H as (u1 & s2 & ->%modify_Ok & ->%modify_Ok). unfold set_mirror.
  assert (Hst : nv_status v = "ACCEPTED"%string).
  { unfold evidence_consumptions_verified in Htr. destruct (List.find _ _) as [x|] eqn:Hx; [|done]. apply List.find_some in Hx as [Hx Hid%String.eqb_eq].
    apply list_elem_of_In in Hx. apply list_elem_of_lookup in Hx as [a Ha]. pose proof Hv as Hv'. apply list_elem_of_lookup in Hv' as [b Hb].
    assert (a = b) as -> by (eapply (NoDup_lookup (map nv_id (verifications s)) a b (nv_id v)); [apply (ew_ids _ W)|rewrite list_lookup_fmap, Ha; cbn; congruence|by rewrite list_lookup_fmap, Hb]).
    assert (x = v) as -> by congruence. do 3 apply andb_true_iff in Htr as [Htr _]. by apply String.eqb_eq. }
  destruct W as [W1 W2 W3 W4 W5 W6 W7]. split; [|by split_and!]. split; cbn.
  - exact W1.
  - exact W2.
  - intros x [Hx| ->%list_elem_of_singleton]%elem_of_app.
    + destruct (W3 x Hx) as [H1 H2]. split; [done|]. eapply evidence_backed_same; [| |exact H2]; [done|]. intros y Hy Hs. by exists y.
    + split; [done|]. exists v, f. by split_and!.
  - assert (Hclash : forall x, x ∈ consumptions s -> consumption_clash x e = false).
    { intros x Hx%list_elem_of_In. rewrite forallb_forall in Hfree. apply Hfree in Hx. by apply negb_true_iff in Hx. }
    assert (Hcase : forall i a, (consumptions s ++ [e]) !! i = Some a -> consumptions s !! i = Some a /\ a ∈ consumptions s \/ i = length (consumptions s) /\ a = e).
    { intros i a [Ha|[Hl Ha]]%lookup_app_Some; [left; split; [done|by eapply list_elem_of_lookup_2]|right].
      apply list_lookup_singleton_Some in Ha as [H0 <-]. split; [lia|done]. }
    intros i j a b Ha Hb Hne. destruct (Hcase _ _ Ha) as [[Ha' Hina]|[-> ->]], (Hcase _ _ Hb) as [[Hb' Hinb]|[-> ->]].
    + by eapply W4.
    + by apply Hclash.
    + rewrite consumption_clash_sym. by apply Hclash.
    + done.
  - exact W5.
  - intros i [->%elem_of_singleton|Hin]%elem_of_union.
    + exists e. split; [apply elem_of_app; right; by apply list_elem_of_singleton|done].
    + destruct (W6 i Hin) as (x & Hx & R). exists x. split; [apply elem_of_app; by left|done].
  - intros rid r Hr. eapply (proven_consumed (mirror s)); [reflexivity| |by eapply W7]. cbn. set_solver.
Qed.

(** * A handler at work *)

(** What holds of both views of the tables while a handler runs. *)
Record loose (w : World) : Prop := {
  lo_committed : evidence_wf (committed w);
  lo_working : evidence_wf (working w);
  lo_facts : same_facts (committed w) (working w);
  lo_prefix : consumptions (committed w) `prefix_of` consumptions (working w);
}.

(** The verification a handler works on, whatever was written to its row. *)
Definition row_of (v : NativeVerification) (s : Store) : Prop :=
  exists y, y ∈ verifications s /\ nv_id y = nv_id v /\ nv_request y = nv_request v /\ nv_tx y = nv_tx v /\ nv_profile y = nv_profile v.

Section Handler.
Context (rid : string) (f : ProofWorker.RequestFacts) (vo : option NativeVerification).

Record running (w : World) : Prop := {
  rn_loose : loose w;
  rn_known : facts_of (working w) rid = Some f;
  rn_row : forall v, vo = Some v -> nv_request v = rid /\ row_of v (committed w) /\ row_of v (working w);
}.

Definition carries (w w' : World) : Prop := running w -> running w' /\ consumptions (committed w') = consumptions (committed w).

#[local] Instance carries_preorder : PreOrder carries.
Proof. split; [by intros w H|]. intros u v w H1 H2 H. destruct (H1 H) as [H3 E1]. destruct (H2 H3) as [H4 E2]. split; [done|congruence]. Qed.

(** The handler's view changed to [s]. *)
Lemma carries_working w s : evidence_wf s -> same_facts (working w) s -> consumptions (working w) `prefix_of` consumptions s ->
  (forall v, row_of v (working w) -> row_of v s) -> running w -> running (w <| working := s |>).
Proof.
  intros W F P R [[L1 L2 L3 L4] K Hrow]. split; cbn.
  - split; cbn; [done|done|intros i; by rewrite F, L3|by etrans].
  - by rewrite F.
  - intros v Hv. destruct (Hrow v Hv) as (H1 & H2 & H3). split_and!; [done|done|by apply R].
Qed.

Lemma worked_same_facts s s' : worked (db s) (db s') -> same_facts s s'.
Proof. intros [F _] i. unfold facts_of. by rewrite F. Qed.

Lemma on_db_carries {A} (m : PyM (Jobs.DB ProofWorker.Biz) A) : keeps worked m -> keeps carries (on_store (on_db m)).
Proof.
  intros Hm w H. unfold on_store, on_db. pose proof (Hm (db (working w))) as Hk. destruct (m (db (working w))) as [r d]. cbn [snd] in *.
  split; [|done]. apply carries_working; [|by apply worked_same_facts|done|done|exact H]. eapply (evidence_worked (working w)); [| |exact Hk|apply (lo_working _ (rn_loose _ H))]; done.
Qed.

Lemma dispatched_worked d s : worked (db s) (db (dispatched d s)).
Proof. by split. Qed.

Lemma on_dispatcher_carries {A} (m : PyM (Jobs.DB (gmap string Tx.Intent)) A) : keeps carries (on_dispatcher m).
Proof.
  intros w [[L1 L2 L3 L4] K Hrow]. unfold on_dispatcher. destruct (m _) as [r d]. cbn [snd]. split; [|done]. split; [|exact K|exact Hrow].
  split; [exact (evidence_worked (committed w) (dispatched d (committed w)) eq_refl eq_refl (dispatched_worked _ _) L1)
         |exact (evidence_worked (working w) (dispatched d (working w)) eq_refl eq_refl (dispatched_worked _ _) L2)|exact L3|exact L4].
Qed.

Lemma on_requests_carries i kind o err : keeps carries (on_requests (Requests.apply i kind o err)).
Proof.
  intros w H. pose proof H as [[L1 L2 L3 L4] K Hrow]. unfold on_requests. destruct (Requests.apply i kind o err _) as [r c] eqn:E.
  apply apply_grown in E as [G1 G2]. cbn [Requests.committed Requests.working] in G1, G2. destruct r as [tr|e]; cbn [snd]; (split; [|done]).
  - apply carries_working; [|done|done|done|exact H]. eapply (evidence_worked (working w)); [reflexivity|reflexivity| |exact L2]. by split.
  - assert (W : evidence_wf ((committed w) <| db ::= fun x => x <| Jobs.biz ::= fun b => b <| ProofWorker.tables := Requests.committed c |> |> |>)).
    { eapply (evidence_worked (committed w)); [reflexivity|reflexivity| |exact L1]. by split. }
    split; cbn.
    + split; [exact W|exact W|done|done].
    + rewrite <- K. symmetry. apply L3.
    + intros v Hv. destruct (Hrow v Hv) as (H1 & H2 & H3). by split_and!.
Qed.

Lemma read_carries cs block contract function args : keeps carries (read cs block contract function args).
Proof. intros w [[L1 L2 L3 L4] K Hrow]. unfold read. destruct (Views.read _ _ _ _ _ _ _ _ _ _) as [r v]. split; [|done]. split; [by split|exact K|exact Hrow]. Qed.

(** A statement that raises leaves the tables, one that returns keeps them well. *)
Lemma on_store_carries {A} (m : PyM Store A) :
  (forall s r s', m s = (r, s') -> evidence_wf s -> facts_of s rid = Some f -> (forall v, vo = Some v -> nv_request v = rid /\ row_of v s) ->
     s' = s \/ evidence_wf s' /\ same_facts s s' /\ consumptions s `prefix_of` consumptions s' /\ (forall v, row_of v s -> row_of v s')) ->
  keeps carries (on_store m).
Proof.
  intros Hm w H. unfold on_store. destruct (m (working w)) as [r s] eqn:E. cbn [snd]. split; [|done]. pose proof H as [L K Hrow].
  destruct (Hm _ _ _ E (lo_working _ L) K) as [-> | (W & F & P & R)]; [|by destruct w|by apply carries_working].
  intros v Hv. by destruct (Hrow v Hv) as (? & _ & ?).
Qed.

Lemma carries_lift {A B} (r : res A) (k : A -> M B) : (forall a, r = Ok a -> keeps carries (k a)) -> keeps carries (bind (lift_res r) k).
Proof. intros H w. unfold bind, lift_res. destruct r as [a|e]; [by apply H|reflexivity]. Qed.

Lemma carries_for_each {A} (l : list A) (k : A -> M unit) : (forall x, x ∈ l -> keeps carries (k x)) -> keeps carries (for_each l k).
Proof.
  induction l as [|x l IH]; intros H; [apply keeps_pure; typeclasses eauto|]. cbn [for_each].
  apply keeps_bind; [typeclasses eauto|apply H; by left|]. intros _. apply IH. intros y Hy. apply H. by right.
Qed.

Lemma advance_carries t i kind : keeps carries (_advance t i kind).
Proof. apply on_db_carries, advance_worked. Qed.

Lemma update_verification_total v s : (exists s', update_verification v s = (Ok tt, s')) \/ exists e, update_verification v s = (Raise e, s).
Proof. unfold update_verification. destruct (verification_ok v); [left; by eexists|right; by eexists]. Qed.

Lemma insert_verification_total v s : (exists s', insert_verification v s = (Ok tt, s')) \/ exists e, insert_verification v s = (Raise e, s).
Proof. unfold insert_verification, violated, raise, bind, get, modify. match goal with |- context [if ?b then _ else _] => destruct b end; [right|left]; by eexists. Qed.

Lemma insert_consumption_total e s : (exists s', insert_consumption e s = (Ok tt, s')) \/ exists x, insert_consumption e s = (Raise x, s).
Proof. unfold insert_consumption, violated, raise, bind, get, modify. match goal with |- context [if ?b then _ else _] => destruct b end; [right|left]; by eexists. Qed.

Lemma confirm_one_carries t plan cs block v p : vo = Some v -> keeps carries (confirm_one t f plan cs block v p).
Proof.
  intros Hv. unfold confirm_one. apply keeps_bind; [typeclasses eauto|apply read_carries|]. intros record. apply carries_lift. intros [] _; [keeps_tac|].
  destruct (dget _ cs) as [a|]; [|keeps_tac]. apply on_store_carries. intros s r s' H W K Hrow. destruct (Hrow v Hv) as (_ & y & Hy & R).
  match type of H with update_verification ?x s = _ => destruct (update_verification_total x s) as [[s2 E]|[e E]] end; rewrite E in H; injection H as _ <-; [right|by left].
  apply update_verification_wf in E as (W' & F & C & Hall); [|done|done|by exists y]. split_and!; [done|done|by rewrite C|].
  intros z (q & Hq & Z1 & Z2 & Z3 & Z4). destruct (Hall q Hq) as (q' & Hq' & Q1 & Q2 & Q3 & Q4 & _). exists q'. split_and!; congruence || done.
Qed.

Lemma settle_carries t c i v : keeps carries (settle t c i v).
Proof.
  unfold settle. pose proof @on_dispatcher_carries. pose proof on_requests_carries. keeps_tac.
Qed.

Lemma accept_carries t i d cur v : vo = Some v -> keeps carries (accept t i f d cur v).
Proof.
  intros Hv. unfold accept. pose proof read_carries. pose proof advance_carries.
  assert (forall plan cs block p, keeps carries (confirm_one t f plan cs block v p)) by (intros; by apply confirm_one_carries). keeps_tac.
Qed.

Lemma record_submission_carries t artifact h : keeps carries (record_submission t rid f artifact h).
Proof.
  unfold record_submission. apply keeps_bind; [typeclasses eauto|apply keeps_pure; typeclasses eauto|]. intros w. cbv zeta. destruct (match h with Some _ => _ | None => false end); [keeps_tac|].
  apply carries_lift. intros cid _. apply carries_lift. intros verifier _. destruct h as [h|]; [|keeps_tac]. apply on_store_carries. intros s r s' H W K _.
  match type of H with insert_verification ?x s = _ => destruct (insert_verification_total x s) as [[s2 E]|[e E]] end; rewrite E in H; injection H as _ <-; [right|by left].
  eapply insert_verification_wf in E as (W' & F & V & C); [|done|exact K|done]. split_and!; [done|done|by rewrite C|].
  intros v (y & Hy & R). exists y. split; [|done]. rewrite V. apply elem_of_app. by left.
Qed.

Lemma consumption_of_Ok t n v a record bound p e : consumption_of t n f v a record bound p = Ok e ->
  ec_verification e = nv_id v /\ ec_tx e = consumption_tx_hash p /\ ec_env e = ProofWorker.f_env f /\ ec_manifest e = ProofWorker.f_manifest f /\
  ec_provider e = ProofWorker.f_provider f /\ ec_profile e = ProofWorker.f_profile f /\ ec_source e = source_event_id p.
Proof.
  unfold consumption_of. intros H. repeat (apply rbind_Ok in H as (? & _ & H)). injection H as <-. done.
Qed.

Lemma consume_one_carries t cs v p : vo = Some v -> consumption_tx_hash p = nv_tx v -> keeps carries (consume_one t f cs v p).
Proof.
  intros Hv Hp. unfold consume_one. apply keeps_bind; [typeclasses eauto|apply keeps_pure; typeclasses eauto|]. intros w. cbv zeta. destruct (existsb _ _); [keeps_tac|].
  destruct (Indexer.cursor _) as [cur|]; [|keeps_tac]. apply keeps_bind; [typeclasses eauto|apply read_carries|]. intros record.
  apply carries_lift. intros [bound|] _; [|keeps_tac]. destruct (negb _); [keeps_tac|]. apply carries_lift. intros id _. apply carries_lift. intros other _.
  destruct (accounts _ !! id) as [a|]; [|keeps_tac]. destruct other; [keeps_tac|]. apply carries_lift. intros e He. apply consumption_of_Ok in He as (E1 & E2 & E3 & E4 & E5 & E6 & _).
  apply on_store_carries. intros s r s' H W K Hrow. destruct (Hrow v Hv) as (Hq & y & Hy & Y1 & Y2 & Y3 & _).
  destruct (insert_consumption_total e s) as [[s2 E]|[x E]]; rewrite E in H; injection H as _ <-; [right|by left].
  eapply (insert_consumption_wf _ _ _ _ y) in E as (W' & F & V & C); [|done|done|congruence|congruence|by rewrite Y2, Hq|done|done|done|done].
  split_and!; [done|done|by rewrite C; apply prefix_app_r|]. intros z (q & Hz & R). exists q. by rewrite V.
Qed.
End Handler.

(** The start of a handler: only the worker's tables differ between the views. *)
Definition synced (w : World) : Prop :=
  evidence_wf (committed w) /\ exists d, working w = (committed w) <| db := d |> /\ worked (db (committed w)) d.

Lemma synced_loose w : synced w -> loose w.
Proof.
  intros (W & d & E & Hd). split; rewrite ?E; [done| | |done].
  - eapply (evidence_worked (committed w)); [reflexivity|reflexivity|exact Hd|done].
  - by apply worked_same_facts.
Qed.

Lemma synced_running rid f vo w : synced w -> facts_of (working w) rid = Some f ->
  (forall v, vo = Some v -> nv_request v = rid /\ v ∈ verifications (working w)) -> running rid f vo w.
Proof.
  intros S Hf Hv. split; [by apply synced_loose|done|]. intros v E. destruct (Hv v E) as [Hr Hin]. destruct S as (_ & d & Ew & _).
  split; [done|]. rewrite Ew in *. split; by exists v.
Qed.

Lemma sdk_request_run c w : (exists x, _request c w = (Ok x, w)) \/ exists e, _request c w = (Raise e, w).
Proof. unfold _request, bind, get, lift_res. destruct (ProofWorker._request _ _ _) as [x|e]; [left|right]; by eexists. Qed.

(** What a handler's run leaves: both views in order, nothing committed to the
    consumptions. *)
Definition orderly (w w' : World) : Prop := loose w' /\ consumptions (committed w') = consumptions (committed w).

Lemma carried rid f vo (m : M unit) w : keeps (carries rid f vo) m -> running rid f vo w -> orderly w (m w).2.
Proof. intros Hm H. destruct (Hm w H) as [[L _ _] E]. by split. Qed.

(** A handler that reads its request first: the rest is run on it. *)
Lemma after_request c (k : string * ProofWorker.RequestFacts * Requests.Request -> M unit) w : synced w ->
  (forall rid f r, ProofWorker.request_row (db (working w)) (Some rid) = Some (rid, f, r) -> facts_of (working w) rid = Some f -> orderly w (k (rid, f, r) w).2) ->
  orderly w ((let* found := _request c in k found) w).2.
Proof.
  intros S Hk. unfold bind at 1. destruct (sdk_request_run c w) as [[x E]|[e E]]; rewrite E; [|by split; [apply synced_loose|]].
  pose proof (request_Ok _ _ _ _ E) as (_ & Hrow & _). destruct x as [[rid f] r]. apply Hk; [done|]. by apply ProofWorker.request_row_Some in Hrow as (_ & Hf & _).
Qed.

Lemma artifact_carries rid f vo i : keeps (carries rid f vo) (_artifact i).
Proof. unfold _artifact. pose proof (carries_preorder rid f vo). keeps_tac. Qed.

Lemma submit_orderly t c w : synced w -> orderly w (submit t c w).2.
Proof.
  intros S. apply after_request; [done|]. intros rid f r _ Hf. apply (carried rid f None); [|by apply synced_running].
  pose proof (carries_preorder rid f None). pose proof (artifact_carries rid f None). pose proof (fun A => @on_dispatcher_carries rid f None A).
  pose proof (advance_carries rid f None). pose proof (record_submission_carries rid f None t). keeps_tac.
Qed.

Lemma confirm_orderly t c w : synced w -> orderly w (confirm t c w).2.
Proof.
  intros S. apply after_request; [done|]. intros rid f r _ Hf. assert (Hstay : orderly w w) by (split; [by apply synced_loose|done]).
  destruct (mem_str _ _); [exact Hstay|]. unfold bind at 1, get at 1.
  destruct (Indexer.deployment _) as [d|]; [|exact Hstay]. destruct (negb _); [exact Hstay|]. destruct (latest_verification rid (working w)) as [v|] eqn:Hv; [|exact Hstay].
  destruct (Indexer.cursor _) as [cur|]; [|exact Hstay]. apply latest_In in Hv as [Hin Hr].
  apply (carried rid f (Some v)); [|apply synced_running; [done|done|by intros x [= <-]]].
  pose proof (carries_preorder rid f (Some v)). apply keeps_bind; [done|apply settle_carries|]. intros _. by apply accept_carries.
Qed.

Lemma accepted_In rid s v : accepted_verification rid s = Some v -> v ∈ verifications s /\ nv_request v = rid.
Proof.
  unfold accepted_verification. intros [Hin%list_elem_of_In Hb]%List.find_some. split; [done|]. apply andb_true_iff in Hb as [Hb _]. by apply String.eqb_eq.
Qed.

Lemma consume_orderly t c w : synced w -> orderly w (consume t c w).2.
Proof.
  intros S. apply after_request; [done|]. intros rid f r _ Hf. assert (Hstay : orderly w w) by (split; [by apply synced_loose|done]).
  destruct (String.eqb _ _); [exact Hstay|]. unfold bind at 1, get at 1. destruct (accepted_verification rid (working w)) as [v|] eqn:Hv; [|exact Hstay].
  destruct (Indexer.deployment _) as [d|]; [|exact Hstay]. apply accepted_In in Hv as [Hin Hr].
  apply (carried rid f (Some v)); [|apply synced_running; [done|done|by intros x [= <-]]].
  pose proof (carries_preorder rid f (Some v)). apply keeps_bind; [done| |intros _; apply advance_carries]. apply carries_for_each. intros p Hp.
  apply list_elem_of_filter in Hp as [Hp%Is_true_true%String.eqb_eq _]. by apply consume_one_carries.
Qed.

Lemma fetch_orderly t c w : synced w -> orderly w (fetch t c w).2.
Proof.
  intros S. pose proof (synced_loose _ S) as [L1 L2 L3 L4]. unfold fetch. pose proof (fetch_worked (tick t) c {| ProofWorker.db := db (working w); ProofWorker.volume := volume w |}) as Hk.
  destruct (ProofWorker.fetch _ _ _ _ _ _ _) as [r x]. change (worked (db (working w)) (ProofWorker.db x)) in Hk. cbn [snd].
  assert (E : exists s, s = (working w) <| db := ProofWorker.db x |>) by (by eexists). destruct E as [s Es].
  assert (W : evidence_wf s) by (rewrite Es; eapply (evidence_worked (working w)); [reflexivity|reflexivity|exact Hk|exact L2]).
  assert (F : same_facts (committed w) s) by (intros i; transitivity (facts_of (working w) i); [rewrite Es; by apply worked_same_facts|apply L3]).
  assert (P : consumptions s = consumptions (working w)) by (by rewrite Es).
  change (orderly w (w <| working := (working w) <| db := ProofWorker.db x |> |> <| volume := ProofWorker.volume x |>)). rewrite <- Es.
  split; [|done]. split; [exact L1|exact W|exact F|]. change (consumptions (committed w) `prefix_of` consumptions s). by rewrite P.
Qed.

Lemma handler_orderly t k h c w : handlers t !! k = Some h -> synced w -> orderly w (h c w).2.
Proof.
  intros Hh S. assert (Hin : h ∈ [fetch t; submit t; confirm t; consume t]).
  { unfold handlers in Hh. repeat (apply lookup_insert_Some in Hh as [[_ <-]|[_ Hh]]; [set_solver|]). apply lookup_singleton_Some in Hh as [_ <-]. set_solver. }
  repeat (apply elem_of_cons in Hin as [->|Hin]); [by apply fetch_orderly|by apply submit_orderly|by apply confirm_orderly|by apply consume_orderly|by apply elem_of_nil in Hin].
Qed.

(** ** A run of a job *)

(** Between two transactions. *)
Definition world_wf (w : World) : Prop := working w = committed w /\ evidence_wf (committed w).

Definition advanced (w w' : World) : Prop := world_wf w' /\ consumptions (committed w) `prefix_of` consumptions (committed w').

Lemma world_synced w : world_wf w -> synced w.
Proof. intros [E W]. split; [done|]. exists (db (committed w)). split; [by destruct (committed w)|by split]. Qed.

Lemma begin_advanced {A} (m : M A) w : orderly w (m w).2 -> advanced w (begin m w).2.
Proof.
  unfold begin. destruct (m w) as [[a|e] w']; cbn [snd]; intros [[L1 L2 L3 L4] E]; (split; [split; [done|done]|]); cbn; rewrite <- E; done.
Qed.

Lemma on_db_orderly {A} (m : PyM (Jobs.DB ProofWorker.Biz) A) w w1 : keeps worked m -> orderly w w1 -> orderly w (on_store (on_db m) w1).2.
Proof.
  intros Hm [[L1 L2 L3 L4] E]. unfold on_store, on_db. pose proof (Hm (db (working w1))) as Hk. destruct (m (db (working w1))) as [r d]. cbn [snd] in *.
  assert (X : exists s, s = (working w1) <| db := d |>) by (by eexists). destruct X as [s Es].
  assert (W : evidence_wf s) by (rewrite Es; eapply (evidence_worked (working w1)); [reflexivity|reflexivity|exact Hk|exact L2]).
  assert (F : same_facts (committed w1) s) by (intros i; transitivity (facts_of (working w1) i); [rewrite Es; by apply worked_same_facts|apply L3]).
  assert (P : consumptions s = consumptions (working w1)) by (by rewrite Es).
  rewrite <- Es. split; [|exact E]. split; [exact L1|exact W|exact F|]. change (consumptions (committed w1) `prefix_of` consumptions s). by rewrite P.
Qed.

Lemma fail_exception_advanced t c k e w : world_wf w -> advanced w (fail_exception t c k e w).2.
Proof.
  intros H. apply begin_advanced, on_db_orderly; [|split; [by apply synced_loose, world_synced|done]].
  unfold ProofWorker.fail_exception. pose proof fail_worked. destruct (exn_kind e); eauto.
Qed.

Lemma before_handler_total c s : exists r, ProofWorker.before_handler c s = (r, s).
Proof.
  unfold ProofWorker.before_handler, ProofWorker.lock_case, bind, lift_res, get, ret, raise. destruct (ProofWorker.request_id_of _); [|by eexists].
  destruct (Jobs.jobs s !! _); [destruct (Jobs.holds _ _ _)|]; by eexists.
Qed.

Lemma world_advanced_trans u v w : advanced u v -> (world_wf v -> advanced v w) -> advanced u w.
Proof. intros [W P] H. destruct (H W) as [W' P']. split; [done|by etrans]. Qed.

Lemma run_one_advanced t c w : world_wf w -> advanced w (run_one t c w).2.
Proof.
  intros Hw. unfold run_one. destruct (handlers t !! Jobs.c_kind c) as [h|] eqn:Hh; [|by split].
  set (body := on_store (on_db (ProofWorker.before_handler c)) ;;; h c ;;; on_store (on_db (Jobs.complete c))).
  assert (Ho : orderly w (body w).2).
  { pose proof (world_synced _ Hw) as S. unfold body, bind at 1. unfold on_store at 1, on_db at 1. destruct (before_handler_total c (db (working w))) as [r E]. rewrite E.
    assert (Hid : w <| working := (working w) <| db := db (working w) |> |> = w) by (destruct w as [? [] ? ?]; done). rewrite Hid.
    destruct r as [u|e]; [|by split; [apply synced_loose|]]. unfold bind. pose proof (handler_orderly t _ h c w Hh S) as Hc.
    destruct (h c w) as [[u1|e] w1]; [|exact Hc]. apply on_db_orderly; [apply fenced_worked|exact Hc]. }
  apply begin_advanced in Ho. unfold try_except, bind, ret. destruct (begin body w) as [[u|e] w1] eqn:Hb; cbn [snd] in Ho; [exact Ho|].
  assert (Hf : forall k, advanced w (fail_exception t c k e w1).2) by (intros k; eapply world_advanced_trans; [exact Ho|]; by apply fail_exception_advanced).
  destruct (exn_kind e); try exact (Hf _); exact Ho.
Qed.

(** A submission under LOCAL_MOCK is never recorded: its row claims the native
    method, which ck_native_verifications_mock_profile refuses, although the
    transaction has been broadcast by then. *)
Lemma mock_submission_refused t rid f artifact h w u w' :
  ProofWorker.f_profile f = "LOCAL_MOCK"%string -> record_submission t rid f artifact h w = (Ok u, w') -> w' = w.
Proof.
  intros Hp. unfold record_submission, bind at 1, get at 1. cbv zeta. destruct (match h with Some _ => _ | None => false end); [by intros [_ ->]%ret_Ok|].
  intros (cid & w1 & Hc & H)%bind_Ok. injection Hc as _ <-. apply bind_Ok in H as (verifier & w1 & Hv & H). injection Hv as _ <-. destruct h as [h|]; [|done].
  unfold on_store in H. match type of H with context [insert_verification ?x ?s] => assert (Hno : verification_ok x = false); [|unfold insert_verification, bind at 1, get at 1 in H; rewrite Hno in H; done] end.
  with_strategy transparent [verification_ok] (unfold verification_ok). cbn [nv_method nv_profile nv_id]. rewrite Hp. cbn. by rewrite !andb_false_r.
Qed.

(** ** The whole system *)

(** What everything else may do: the rows of evidence are the pipeline's alone;
    a request's columns stay, and its status changes only by a new request that
    is observed; the queue, the audit log, intents, accounts and the chain's
    tables are any. *)
Record elsewhere (s s' : Store) : Prop := {
  el_verifications : verifications s' = verifications s;
  el_consumptions : consumptions s' = consumptions s;
  el_mirror : Requests.verifications (mirror s') = Requests.verifications (mirror s) /\ Requests.consumptions (mirror s') = Requests.consumptions (mirror s);
  el_facts : forall rid f, facts_of s rid = Some f -> facts_of s' rid = Some f;
  el_requests : forall rid r', Requests.requests (mirror s') !! rid = Some r' ->
    (exists r, Requests.requests (mirror s) !! rid = Some r /\ Requests.status r = Requests.status r') \/ Requests.status r' = "OBSERVED"%string;
}.

Inductive step : World -> World -> Prop :=
| step_job t c w : step w (run_one t c w).2
| step_elsewhere w s : elsewhere (committed w) s -> step w (w <| committed := s |> <| working := s |>).

Lemma elsewhere_wf s s' : elsewhere s s' -> evidence_wf s -> evidence_wf s'.
Proof.
  intros [V C [MV MC] F R] [W1 W2 W3 W4 W5 W6 W7]. split; rewrite ?V, ?C, ?MV, ?MC; try done.
  - intros v Hv. destruct (W2 v Hv) as (H1 & f & H2 & H3). split; [done|]. exists f. split; [by apply F|done].
  - intros e He. destruct (W3 e He) as (H1 & v & f & K1 & K2 & K3 & K4 & K5 & K6 & K7 & K8 & K9). split; [done|]. exists v, f. rewrite V. split_and!; try done. by apply F.
  - intros rid r' Hr'. destruct (R rid r' Hr') as [(r & Hr & <-)|E].
    + eapply proven_same; [exact MV|exact MC|by eapply W7].
    + rewrite E. by split.
Qed.

Lemma step_advanced w w' : step w w' -> world_wf w -> advanced w w'.
Proof.
  intros [t c w0|w0 s E] H; [by apply run_one_advanced|]. destruct H as [Hw W]. split; [split; [done|by eapply elsewhere_wf]|].
  cbn. by rewrite (el_consumptions _ _ E).
Qed.

(** Another worker's table of jobs, written between two jobs of the pipeline. *)
Definition leased (g : gmap string Jobs.Job -> gmap string Jobs.Job) (s : Store) : Store := s <| db ::= fun x => x <| Jobs.jobs ::= g |> |>.

Lemma leased_elsewhere g s : elsewhere s (leased g s).
Proof. split; [reflexivity|reflexivity|by split|intros rid f H; exact H|]. intros rid r' Hr'. left. by exists r'. Qed.

Definition elsewhere_world (g : gmap string Jobs.Job -> gmap string Jobs.Job) (w : World) : World :=
  w <| committed := leased g (committed w) |> <| working := leased g (committed w) |>.

Lemma job_lease_job t t' c c' g w : rtc step w (run_one t' c' (elsewhere_world g (run_one t c w).2)).2.
Proof.
  eapply rtc_l; [apply step_job|]. eapply rtc_l; [apply step_elsewhere, leased_elsewhere|]. apply rtc_once, step_job.
Qed.

(** C40: Evidence is consumed once and never without proof: from tables in
    order, whatever jobs of the pipeline run (with any node, SDK and dispatcher,
    succeeding or failing at any statement) and whatever else
    changes the other tables in between, every verification meets its constraints
    under its request's own profile; every consumption is backed by an ACCEPTED
    verification of a request of its environment, manifest, provider and profile,
    in the transaction that request was submitted in; no two consumptions share a
    source event, an economic event or a log position; a request is
    NATIVE_ACCEPTED only with an accepted verification and CONSUMED only with a
    consumption of one of its verifications; and consumptions are never lost. *)
Theorem evidence_reachable w w' : world_wf w -> rtc step w w' ->
  world_wf w' /\ consumptions (committed w) `prefix_of` consumptions (committed w') /\
  (forall e, e ∈ consumptions (committed w') -> consumption_ok e = true /\ backed (committed w') e) /\
  (forall i j a b, consumptions (committed w') !! i = Some a -> consumptions (committed w') !! j = Some b -> i <> j ->
     (ec_env a, ec_source a) <> (ec_env b, ec_source b) /\ ec_economic a <> ec_economic b /\ locator a <> locator b) /\
  (forall rid r, Requests.requests (mirror (committed w')) !! rid = Some r ->
     (mem_str (Requests.status r) ["NATIVE_ACCEPTED"; "CONSUMED"] = true ->
        exists v, v ∈ verifications (committed w') /\ nv_request v = rid /\ nv_status v = "ACCEPTED"%string) /\
     (Requests.status r = "CONSUMED"%string ->
        exists e v, e ∈ consumptions (committed w') /\ v ∈ verifications (committed w') /\ nv_id v = ec_verification e /\ nv_request v = rid)).
Proof.
  intros Hw Hr. assert (Ha : advanced w w').
  { induction Hr as [u|u v z Hs _ IH]; [by split|]. eapply world_advanced_trans; [by apply step_advanced|exact IH]. }
  destruct Ha as [Hw' P]. pose proof (proj2 Hw') as W. split_and!; [done|done|apply (ew_consumptions _ W)| |].
  - intros i j a b Hi Hj Hne. pose proof (ew_once _ W _ _ _ _ Hi Hj Hne) as Hc. unfold consumption_clash in Hc.
    apply orb_false_iff in Hc as [[[_ H1]%orb_false_iff H2%String.eqb_neq]%orb_false_iff H3%bool_decide_eq_false]. split_and!; [|done|done].
    intros [= E1 E2]. by rewrite E1, E2, !String.eqb_refl in H1.
  - intros rid r Hr'. split; [by apply accepted_evidence|by apply consumed_evidence].
Qed.

End Pipeline.

(** * Example: a submitted request is accepted, and its payout consumed *)

Module SEx.

Definition word (n : Z) : list Z := repeat n 32.
Definition h32 (n : Z) : string := ("0x" ++ hex (word n))%string.
Definition addr (n : Z) : string := ("0x" ++ hex (repeat n 20))%string.
Definition manifest_hash_ : string := ("sha256:" ++ hex (word 7))%string.
Definition manifest_ : ProofWorker.Manifest := {| ProofWorker.m_hash := manifest_hash_; ProofWorker.m_profile := "NATIVE_TESTNET"; ProofWorker.m_chain_key := 3; ProofWorker.m_sdk := "1.2" |}.

Definition out (name type : string) : json := JObj [("name", JStr name); ("type", JStr type)]%string.
Definition view_ (name : string) (ins : list json) (o : json) : json :=
  JObj [("type", JStr "function"); ("name", JStr name); ("inputs", JArr ins); ("outputs", JArr [o]); ("stateMutability", JStr "view")]%string.
Definition abi_ (_ : string) : list json := [
  view_ "envIdHash" [] (out "" "bytes32");
  view_ "record" [out "id" "bytes32"] (JObj [("name", JStr ""); ("type", JStr "tuple"); ("components", JArr
    [out "id" "bytes32"; out "economicEventId" "bytes32"; out "manifestHash" "bytes32"; out "providerId" "bytes32"; out "method" "uint8"; out "trust" "uint8";
     out "accountKey" "bytes32"; out "meaning" "uint8"; out "consumer" "address"; out "provenAt" "uint64"; out "validUntil" "uint64";
     JObj [("name", JStr "locator"); ("type", JStr "tuple"); ("components", JArr [out "chainKey" "uint64"; out "height" "uint64"; out "txIndex" "uint32"; out "logOrdinal" "uint32"])];
     out "emitter" "address"; out "topic0" "bytes32"; out "dataHash" "bytes32"])])]%string.

Definition encode_ (_ : list string) (l : list Views.arg) : res (list Z) := Ok [].
Definition decode_ (types : list string) (_ : list Z) : res (list pyval) :=
  Ok (match types with
      | ["bytes32"%string] => [PBytes (Abi.keccak256 (bytes_of "rackline"))]
      | _ => [PList [PBytes (word 1); PBytes (word 2); PBytes (word 7); PBytes (word 9); PInt 0; PInt 0; PBytes (Abi.keccak256 (bytes_of "acct")); PInt 3;
                     PStr (addr 4); PInt 100; PInt 200; PList [PInt 3; PInt 10; PInt 1; PInt 5]; PStr (addr 6); PBytes (word 8); PBytes (word 11)]]
      end).

Definition chain_rpc : Indexer.Rpc := {| Indexer.chain_id := 5; Indexer.head := 2; Indexer.get_block := fun _ => None; Indexer.get_logs := fun _ _ _ => []; Indexer.get_receipt := fun _ => None |}.
Definition node_ (_ : nat) : Views.Node := {| Views.base := chain_rpc; Views.eth_call := fun _ _ _ => Ok "0x"%string |}.

Definition plan_ : json := JObj [("purpose", JStr "evidence"); ("instructions", JArr [JNull]); ("providerId", JStr (h32 9));
  ("bindings", JObj [("5", JObj [("providerAccountId", JStr "acct"); ("economicEventKey", JStr (h32 2)); ("economicEventId", JStr "prov/ext/PAYOUT/1")])])]%string.

Definition silent : Tx.Env := {| Tx.e_eth_call := Raise (Exn RpcError ""); Tx.e_estimate_gas := Raise (Exn RpcError ""); Tx.e_gas_price := Raise (Exn RpcError "");
  Tx.e_transaction_count := Raise (Exn RpcError ""); Tx.e_send_raw := fun _ => Raise (Exn RpcError ""); Tx.e_receipt := fun _ => Raise (Exn RpcError "");
  Tx.e_block_hash := fun _ => Raise (Exn RpcError ""); Tx.e_block_number := Raise (Exn RpcError ""); Tx.e_sign := fun _ _ _ _ _ => [] |}.

Definition turn_ : Turn := {| tick := ProofWorker.PEx.tick_; first_answers := silent; second_answers := silent; fresh_intent := "I1"; fresh_verification := "V2";
  fresh_consumption := fun _ => ProofWorker.PEx.ulid2_; fresh_job := "J2" |}.

Definition projected : ProjectedEvidence := {|
  source_event_id := h32 1; economic_event_key := h32 2; consumer_address := addr 4; meaning := "PAYOUT"; manifest_hash := h32 7;
  verification_method := "ATTESTCOIN_NATIVE"; e_profile := "NATIVE_TESTNET"; verified_in_same_tx := true; proven_height := 10; proven_tx_index := 1;
  proven_log_ordinal := 5; consumption_tx_hash := h32 12; e_block := 2; e_block_hash := h32 13; e_log_index := 0 |}.

Definition chain_ : Indexer.DB := {|
  Indexer.deployment := Some {| deployment_id := "D"; d_chain_id := 5; d_profile := "NATIVE_TESTNET"; deployment_block := 1;
    contracts := [("EvidenceBook", addr 14); ("AttestcoinRevenueVerifier", addr 15)]%string; finality_depth := 0 |};
  Indexer.cursor := Some {| Indexer.last_block_number := 2; Indexer.last_block_hash := h32 13; Indexer.finalized_block_number := 2 |};
  Indexer.blocks := ∅; Indexer.logs := []; Indexer.journal := []; Indexer.views := (no_rows <| evidence := [projected] |>, no_rows) |}.

Definition facts_ : ProofWorker.RequestFacts := {| ProofWorker.f_env := "rackline"; ProofWorker.f_provider := "prov"; ProofWorker.f_profile := "NATIVE_TESTNET";
  ProofWorker.f_manifest := manifest_hash_; ProofWorker.f_sdk := "1.2"; ProofWorker.f_chain_key := 3; ProofWorker.f_tx := h32 16 |}.

Definition job_ (id kind_ : string) : Jobs.Job := {|
  Jobs.job_id := id; Jobs.kind := kind_; Jobs.semantic_idempotency_key := Requests.job_key kind_ "R1"; Jobs.job_payload_hash := "h";
  Jobs.payload := JObj [("proofRequestId", JStr "R1")]%string; Jobs.state := Jobs.LEASED; Jobs.attempt := 1; Jobs.max_attempts := 3;
  Jobs.leased_by := Some "w"%string; Jobs.lease_until := Some 40; Jobs.next_run_at := 0; Jobs.last_error := None |}.

Definition verification_ : NativeVerification := {|
  nv_id := ProofWorker.PEx.ulid_; nv_request := "R1"; nv_artifact := ProofWorker.PEx.ulid2_; nv_profile := "NATIVE_TESTNET"; nv_method := "ATTESTCOIN_NATIVE"; nv_chain := 5;
  nv_verifier := addr 15; nv_tx := h32 12; nv_block := None; nv_receipt := None; nv_status := "SUBMITTED"; nv_accepted_at := None; nv_height := None; nv_index := None |}.

Definition store_ : Store := {|
  db := {| Jobs.jobs := {[ "J1"%string := job_ "J1" "PROOF_CONFIRM" ]}; Jobs.audit_log := []; Jobs.now := 30;
    Jobs.biz := {| ProofWorker.facts := {[ "R1"%string := facts_ ]};
      ProofWorker.tables := {| Requests.requests := {[ "R1"%string := {| Requests.status := "SUBMITTED"; Requests.last_error := None; Requests.attempt := 0 |} ]};
                 Requests.artifacts := {[ "R1"%string ]};
                 Requests.verifications := {[ ProofWorker.PEx.ulid_ := {| Requests.nv_request := "R1"; Requests.nv_accepted := false |} ]}; Requests.consumptions := ∅ |};
      ProofWorker.artifacts := []; ProofWorker.api_ready_at := ∅; ProofWorker.cases := ∅; ProofWorker.reviews := ∅; ProofWorker.outbox := Outbox.empty_outbox |} |};
  intents := ∅; verifications := [verification_]; consumptions := []; chain := chain_; binding := ("rackline"%string, manifest_hash_);
  accounts := {[ "acct"%string := {| Ledger.provider_account_id := "acct"; Ledger.pa_provider := "prov"; Ledger.external_account_id := "ext"; Ledger.pa_borrower := "B" |} ]} |}.

Definition world0 : World := {| committed := store_; working := store_; volume := ∅; calls := 0 |}.

#[local] Abbreviation confirm_ := (confirm manifest_ [(h32 16, plan_)] {| Tx.cf_chain_id := 5; Tx.cf_signer_role := "keeper"; Tx.cf_contracts := ∅; Tx.cf_max_gas := 0; Tx.cf_max_fee := 0; Tx.cf_finality_depth := 1 |} ""
  node_ abi_ encode_ decode_).
#[local] Abbreviation run_ := (run_one manifest_ JNull [(h32 16, plan_)] {| Tx.cf_chain_id := 5; Tx.cf_signer_role := "keeper"; Tx.cf_contracts := ∅; Tx.cf_max_gas := 0; Tx.cf_max_fee := 0; Tx.cf_finality_depth := 1 |} ""
  ProofWorker.PEx.pg_ ProofWorker.PEx.reject_float ProofWorker.PEx.reject_wide node_ abi_ encode_ decode_ "D" Jobs.default_backoff ProofWorker.PEx.class_ turn_).

Definition claim_ (id kind_ : string) : Jobs.ClaimedJob := Jobs.claimed "w" (job_ id kind_).

Definition confirmed : res unit * World := confirm_ turn_ (claim_ "J1" "PROOF_CONFIRM") world0.

Example confirmed_Ok : confirmed.1 = Ok tt.
Proof. vm_compute. reflexivity. Qed.

(** The worker confirms, another takes the next job, and consumes. *)
Definition world1 : World := (run_ (claim_ "J1" "PROOF_CONFIRM") world0).2.
Definition world2 : World := elsewhere_world <["J2"%string := job_ "J2" "EVIDENCE_CONSUME"]> world1.
Definition world3 : World := (run_ (claim_ "J2" "EVIDENCE_CONSUME") world2).2.

Example consumed_once : map ec_economic (consumptions (committed world3)) = ["prov/ext/PAYOUT/1"]%string /\
  ProofWorker.status_of (db (committed world3)) "R1" = Some "CONSUMED"%string.
Proof. vm_compute. split; reflexivity. Qed.

Lemma store_wf_ : evidence_wf store_.
Proof.
  split; cbn.
  - apply NoDup_singleton.
  - intros v ->%list_elem_of_singleton. split; [vm_compute; reflexivity|]. exists facts_. split; reflexivity.
  - by intros e ?%elem_of_nil.
  - intros i j a b Hi. by rewrite lookup_nil in Hi.
  - intros i x [<- <-]%lookup_singleton_Some. exists verification_. split_and!; [by apply list_elem_of_singleton|done|done|done].
  - by intros i ?%elem_of_empty.
  - intros rid r [<- <-]%lookup_singleton_Some. by split.
Qed.

Lemma acceptance_is_canonical_witness :
  exists v, v ∈ verifications (working confirmed.2) /\ nv_status v = "ACCEPTED"%string /\ nv_block v = Some 2 /\
    ProofWorker.status_of (db (working confirmed.2)) "R1" = Some "NATIVE_ACCEPTED"%string.
Proof.
  assert (H : confirm_ turn_ (claim_ "J1" "PROOF_CONFIRM") world0 = (Ok tt, confirmed.2)) by (apply run_Ok; exact confirmed_Ok).
  destruct (acceptance_is_canonical _ _ _ _ ProofWorker.PEx.pg_ ProofWorker.PEx.reject_float _ _ _ _ _ _ _ _ _ H) as (rid & f & r & Hrow & _ & [[Hm _]|C]).
  - assert (rid = "R1"%string) as -> by (apply ProofWorker.request_row_Some in Hrow as (_ & _ & Hr); cbn in Hr; by apply lookup_singleton_Some in Hr as [<- _]).
    cbn in Hrow. injection Hrow as <- <-. discriminate Hm.
  - destruct C as (d & cur & v & w1 & plan & ps & p & n & _ & Hd & _ & _ & _ & Hv & _ & _ & Hps & Hp & _ & _ & _ & _ & (x & Hx & A) & Hst & _).
    assert (rid = "R1"%string) as -> by (apply ProofWorker.request_row_Some in Hrow as (_ & _ & Hr); cbn in Hr; by apply lookup_singleton_Some in Hr as [<- _]).
    exists x. split; [exact Hx|]. destruct A as (_ & _ & _ & A & B & _). split; [exact A|]. split; [|exact Hst]. rewrite B.
    vm_compute in Hv. injection Hv as <-. subst ps. vm_compute in Hp. injection Hp as <-. reflexivity.
Defined.

Lemma evidence_reachable_witness :
  length (consumptions (committed world3)) = 1%nat /\ forall e, e ∈ consumptions (committed world3) -> consumption_ok e = true /\ backed (committed world3) e.
Proof.
  split; [vm_compute; reflexivity|].
  refine (proj1 (proj2 (proj2 (evidence_reachable manifest_ JNull [(h32 16, plan_)] _ "" ProofWorker.PEx.pg_ ProofWorker.PEx.reject_float ProofWorker.PEx.reject_wide
    node_ abi_ encode_ decode_ "D" Jobs.default_backoff ProofWorker.PEx.class_ world0 world3 (conj eq_refl store_wf_) _)))).
  apply job_lease_job.
Defined.

End SEx.

End Submission.
