(* ===== verification/Monitoring.v ===== *)
(** Monitoring: what is reported about a facility, the review cases a report
    opens and closes, and the operator alerts.

    Sources: offchain/gpu/hashcredit_gpu/monitoring/service.py and alerts.py,
    and the pass and the watchdog of
    offchain/prover/hashcredit_prover/gpu/control_monitor.py.  A pass reads the
    tables of the other components; it writes cases, outbox rows and the audit
    log.  Times are microseconds; the chain's rows are those of one deployment;
    the clock and the ids drawn are arguments; an alert's delivery is outside
    the program. *)

From S2P Require Import Prelude Domain Stdpy Json JobQueue Lifecycle Columns Projection Indexer Ledger Commands Views CashEngine ChainReader.
Import Domain Stdpy Json Columns.

Module Monitoring.

(** * What is monitored *)

(** Models [monitoring/service.py], [MonitorPolicy]. *)
Record MonitorPolicy := { observation_max_age_seconds : Z; projection_max_age_seconds : Z; pending_cash_max_age_seconds : Z }.
Definition default_policy : MonitorPolicy :=
  {| observation_max_age_seconds := 3600; projection_max_age_seconds := 300; pending_cash_max_age_seconds := 3600 |}.

(** Models [monitoring/service.py], [Finding]. *)
Record Finding := { code : string; blocks_new_draw : bool; category : string }.

(** Models [db/models.py], [ControlAgreement], lines 331-350. *)
Record Control := { agreement : Ledger.ControlAgreement; receiver_address : option string; last_observed_at : option Z }.

(** Models [db/models.py], [ControlObservation], lines 368-376. *)
Record ControlObservation := { co_control : string; observed_at : Z; co_receiver : option string; provenance : json }.

(** Models [db/ledgers.py], [ProofRequest], lines 95-110. *)
Record ProofRequest := { pr_provider : string; pr_profile : string; pr_manifest : string; pr_status : string }.

(** The tables a pass reads, those of its deployment and the cases it keeps. *)
Record Tables := {
  facilities : gmap string Ledger.Facility;
  controls : gmap string Control;
  observations : list ControlObservation;
  accounts : gmap string Ledger.ProviderAccount;
  providers : gmap string Ledger.Provider;
  requests : list ProofRequest;
  receipts : gmap string Ledger.CashReceipt;
  deployment : option (Projection.ChainDeployment * string); (* and its manifest hash *)
  cursor : option (Indexer.ChainCursor * Z); (* and when it was updated *)
  blocks : gmap Z Projection.ChainBlock;
  projected : gmap string Projection.ProjectedFacility; (* FINALIZED *)
  bindings : list ChainReader.FacilityBinding;
  cases : gmap string Commands.ExceptionCase;
  outbox : Outbox.DB;
}.

Abbreviation DB := (Jobs.DB Tables).

Definition update (f : Tables -> Tables) : PyM DB unit := modify (fun s => s <| Jobs.biz ::= f |>).

Definition on_outbox {A} (m : PyM Outbox.DB A) : PyM DB A := fun s =>
  match m (outbox (Jobs.biz s)) with (r, o) => (r, s <| Jobs.biz ::= fun b => b <| outbox := o |> |>) end.

(** [(now - at).total_seconds() > limit] *)
Definition older (now at_ limit : Z) : bool := limit * 1000000 <? now - at_.

(** The newest observation of an agreement. *)
Fixpoint latest (cid : string) (l : list ControlObservation) : option ControlObservation :=
  match l with
  | [] => None
  | o :: l' =>
      if String.eqb (co_control o) cid then
        match latest cid l' with Some p => if observed_at o <? observed_at p then Some p else Some o | None => Some o end
      else latest cid l'
  end.

Definition mk (c : string) (b : bool) (k : string) : Finding := {| code := c; blocks_new_draw := b; category := k |}.
Definition report (b : bool) (f : Finding) : list Finding := if b then [f] else [].

(** The agreement in force is the one the facility was funded under. *)
(** Models [monitoring/service.py], [assess_facility], lines 50-57. *)
Definition control_current (f : Ledger.Facility) (c : option Control) (now : Z) : bool :=
  match c with
  | None => false
  | Some c =>
      let a := agreement c in
      mem_str (Ledger.control_grade a) ["E2"; "E3"] && bool_decide (Some (Ledger.ca_version a) = Ledger.funded_agreement_version f) &&
      match Ledger.effective_from a with Some t => t <=? now | None => false end &&
      match Ledger.effective_to a with Some t => now <? t | None => true end
  end.

(** Models [monitoring/service.py], [assess_facility], lines 65-75. *)
Definition observed_findings (c : Control) (t : Tables) (now : Z) : res (list Finding) :=
  match latest (Ledger.control_agreement_id (agreement c)) (observations t) with
  | Some o =>
      if observed_at o <=? now then
        match provenance o with
        | JObj l => Ok (report (truthy (co_receiver o) && negb (bool_decide (co_receiver o = receiver_address c))) (mk "CONTROL_RECEIVER_CHANGED" true "CONTROL") ++
                        report (match dget "borrowerCanChangeReceiver" l with Some (JBool b) => b | _ => false end) (mk "CONTROL_BYPASS_OBSERVED" true "CONTROL"))
        | _ => Raise (Exn AttributeError "get")
        end
      else Ok []
  | None => Ok []
  end.

(** Models [monitoring/service.py], [assess_facility], lines 76-97. *)
Definition provider_findings (f : Ledger.Facility) (c : Control) (t : Tables) : list Finding :=
  match accounts t !! Ledger.ca_account (agreement c) ≫= fun a => providers t !! Ledger.pa_provider a with
  | None => []
  | Some p =>
      let mine r := String.eqb (pr_provider r) (Ledger.provider_id p) && String.eqb (pr_profile r) (Ledger.f_profile f) &&
                    match deployment t with Some d => String.eqb (pr_manifest r) d.2 | None => false end in
      let has l := existsb (fun r => mine r && mem_str (pr_status r) l) (requests t) in
      report (negb (String.eqb (Ledger.environment_status p) "PROBED") || negb (bool_decide (dget "source_support" (Ledger.capabilities p) = Some "SUPPORTED"%string)))
             (mk "NATIVE_ENVIRONMENT_UNAVAILABLE" true "OBSERVABILITY") ++
      report (has ["OBSERVED"; "WAITING_ATTESTATION"; "PROOF_READY"; "SUBMITTED"]%string) (mk "NATIVE_PROOF_PENDING" false "OBSERVABILITY") ++
      report (has ["INVALID"; "UNSUPPORTED"; "EXPIRED"]%string) (mk "NATIVE_PROOF_REVIEW_REQUIRED" false "OBSERVABILITY")
  end.

(** Destination cash of the facility's vault that no one has classified. *)
(** Models [monitoring/service.py], [assess_facility], lines 101-112. *)
Definition unclassified_cash (f : Ledger.Facility) (t : Tables) : bool :=
  existsb (fun p : string * Ledger.CashReceipt =>
    String.eqb (Ledger.c_vault p.2) (Ledger.f_vault f) && (Ledger.c_chain_id p.2 =? Ledger.loan_chain_id f) &&
    String.eqb (Ledger.c_profile p.2) (Ledger.f_profile f) && String.eqb (Ledger.cash_state p.2) "DESTINATION_RECEIVED" &&
    String.eqb (Ledger.c_source_kind p.2) "UNKNOWN") (map_to_list (receipts t)).

(** Models [monitoring/service.py], [assess_facility]. *)
Definition assess_facility (id : string) (now : datetime) (policy : MonitorPolicy) (t : Tables) : res (list Finding) :=
  rbind (Ledger.aware now "now") (fun now =>
  match facilities t !! id with
  | None => Raise (Exn ValueError "unknown facility")
  | Some f =>
      let control := Ledger.f_control f ≫= fun c => controls t !! c in
      rbind (match control with
             | None => Ok []
             | Some c =>
                 rbind (observed_findings c t now) (fun seen =>
                 Ok (report (match last_observed_at c with Some at_ => older now at_ (observation_max_age_seconds policy) | None => true end)
                            (mk "CONTROL_OBSERVATION_STALE" true "OBSERVABILITY") ++ seen ++ provider_findings f c t))
             end) (fun about_control =>
      Ok (report (negb (control_current f control now)) (mk "CONTROL_NOT_CURRENT" true "CONTROL") ++ about_control ++
          report (match cursor t with Some c => older now c.2 (projection_max_age_seconds policy) | None => true end) (mk "PROJECTION_STALE" true "OBSERVABILITY") ++
          report (unclassified_cash f t) (mk "UNALLOCATED_CASH_REVIEW" false "CASH")))
  end).

(** * Review cases *)

Definition MONITOR : string := "GPU044_MONITOR".

(** [row.detail.get(key)] *)
Definition detail_get (key : string) (c : Commands.ExceptionCase) : res (option json) :=
  match Commands.detail c with JObj l => Ok (dget key l) | _ => Raise (Exn AttributeError "get") end.

Definition is_text (o : option json) (s : string) : bool := match o with Some (JStr x) => String.eqb x s | _ => false end.

(** An open case about the facility. *)
Definition about (fid : string) (c : Commands.ExceptionCase) : bool :=
  String.eqb (Commands.ec_table c) "facilities" && String.eqb (Commands.ec_entity c) fid && bool_decide (Commands.resolved_at c = None).

(** Models [monitoring/service.py], [record_findings], lines 122-131. *)
Definition monitor_cases (fid : string) (m : gmap string Commands.ExceptionCase) : res (list (string * Commands.ExceptionCase)) :=
  Projection.filter_res (fun p : string * Commands.ExceptionCase => rbind (detail_get "source" p.2) (fun x => Ok (is_text x MONITOR)))
    (filter (fun p : string * Commands.ExceptionCase => about fid p.2) (map_to_list m)).

Definition detail_of (f : Finding) : list (string * json) :=
  [("source", JStr MONITOR); ("category", JStr (category f)); ("blocksNewDraw", JBool (blocks_new_draw f));
   ("repaymentPermitted", JBool true); ("defaultApplied", JBool false)]%string.

(** Models [monitoring/service.py], [record_findings], lines 137-150. *)
Definition new_case (fid : string) (f : Finding) : Commands.ExceptionCase := {|
  Commands.ec_kind := code f; Commands.severity := if blocks_new_draw f then "BLOCKING" else "WARNING";
  Commands.ec_table := "facilities"; Commands.ec_entity := fid; Commands.detail := JObj (detail_of f);
  Commands.resolved_at := None; Commands.resolved_by := None; Commands.resolution := None |}.

Definition check (b : bool) (constraint : string) : PyM DB unit := guard b DatabaseError constraint.

(** Models [monitoring/service.py], [record_findings], lines 136-171; [id] is the
    ULID drawn. *)
Definition open_case (fid : string) (f : Finding) (id : string) : PyM DB unit :=
  let* s := get in
  check (ULID_CHECK id && bool_decide (cases (Jobs.biz s) !! id = None) && fits 64 (code f) && fits 300 fid) "exceptions" ;;;
  update (fun t => t <| cases ::= <[id := new_case fid f]> |>) ;;;
  let* _ := on_outbox (Outbox.emit "facility" fid "MONITORING_REVIEW_REQUIRED"
    (JObj (("exceptionId"%string, JStr id) :: ("reason"%string, JStr (code f)) :: detail_of f)) ("monitor-open:" ++ id)) in
  let* _ := Jobs.write_audit "gpu-monitor" "system" "MONITOR_FINDING_OPENED" "exceptions" id None (Some (JObj (detail_of f))) None in
  ret tt.

(** The case of each finding: the open one of its kind, or a new one under the
    id drawn for it. *)
(** Models [monitoring/service.py], [record_findings], lines 134-172. *)
Fixpoint open_cases (fid : string) (existing : list (string * Commands.ExceptionCase)) (l : list (Finding * string)) : PyM DB (list string) :=
  match l with
  | [] => ret []
  | (f, id) :: l' =>
      let* mine :=
        (match List.find (fun p : string * Commands.ExceptionCase => String.eqb (Commands.ec_kind p.2) (code f)) existing with
         | Some p => ret p.1
         | None => open_case fid f id ;;; ret id
         end) in
      let* rest := open_cases fid existing l' in
      ret (mine :: rest)
  end.

Definition recovered (now : Z) (c : Commands.ExceptionCase) : Commands.ExceptionCase :=
  c <| Commands.resolved_at := Some now |> <| Commands.resolved_by := Some "system"%string |>
    <| Commands.resolution := Some "Current monitored source recovered; no financial state changed"%string |>.

(** Models [monitoring/service.py], [record_findings], lines 173-185. *)
Definition close_case (fid : string) (active : list string) (now : Z) (p : string * Commands.ExceptionCase) : PyM DB unit :=
  if mem_str (Commands.ec_kind p.2) active then ret tt
  else
    let* x := lift_res (detail_get "category" p.2) in
    if is_text x "OBSERVABILITY" then
      update (fun t => t <| cases ::= <[p.1 := recovered now p.2]> |>) ;;;
      let* _ := on_outbox (Outbox.emit "facility" fid "MONITORING_OBSERVATION_RECOVERED"
        (JObj [("exceptionId"%string, JStr p.1); ("reason"%string, JStr (Commands.ec_kind p.2))]) ("monitor-recovered:" ++ p.1)) in
      ret tt
    else ret tt.

(** Models [monitoring/service.py], [record_findings]. *)
Definition record_findings (fid : string) (findings : list (Finding * string)) (now : datetime) : PyM DB (list string) :=
  let* now := lift_res (Ledger.aware now "now") in
  let* s := get in
  let* existing := lift_res (monitor_cases fid (cases (Jobs.biz s))) in
  let* ids := open_cases fid existing findings in
  for_each existing (close_case fid (map (fun p => code p.1) findings) now) ;;;
  ret ids.

(** * A pass over the facilities of a deployment *)

(** The facility's canonical projection says that its life is over. *)
(** Models [gpu/control_monitor.py], [run_once], lines 63-70. *)
Definition terminal (d : Projection.ChainDeployment) (b : ChainReader.FacilityBinding) (t : Tables) : bool :=
  match projected t !! ChainReader.onchain_id b with
  | None => false
  | Some p =>
      String.eqb (Projection.execution_profile p) (Projection.d_profile d) &&
      mem_str (Projection.f_state p) ["REPAID"; "RELEASED"; "CLOSED_WITH_LOSS"] &&
      match cursor t with Some c => Projection.f_last_block p <=? Indexer.finalized_block_number c.1 | None => false end &&
      match blocks t !! Projection.f_last_block p with Some k => String.eqb (Projection.b_tier k) "FINALIZED" | None => false end
  end.

(** The facilities bound to the deployment, of its profile and chain. *)
(** Models [gpu/control_monitor.py], [run_once], lines 54-60. *)
Definition watched (d : Projection.ChainDeployment) (t : Tables) : list (string * ChainReader.FacilityBinding) :=
  flat_map (fun b =>
    match facilities t !! ChainReader.b_facility b with
    | Some f => if String.eqb (Ledger.f_profile f) (Projection.d_profile d) && (Ledger.loan_chain_id f =? Projection.d_chain_id d) then [(ChainReader.b_facility b, b)] else []
    | None => []
    end) (bindings t).

(** Models [gpu/control_monitor.py], [run_once], lines 61-75; [draw] gives the id
    of a finding's case. *)
Definition visit (d : Projection.ChainDeployment) (clock : string -> datetime) (draw : string -> string -> string)
    (p : string * ChainReader.FacilityBinding) : PyM DB Z :=
  let* s := get in
  let now := clock p.1 in
  let* findings := lift_res (if terminal d p.2 (Jobs.biz s) then Ok [] else assess_facility p.1 now default_policy (Jobs.biz s)) in
  let* _ := record_findings p.1 (map (fun f => (f, draw p.1 (code f))) findings) now in
  ret (zlen findings).

Fixpoint visits (d : Projection.ChainDeployment) (clock : string -> datetime) (draw : string -> string -> string)
    (l : list (string * ChainReader.FacilityBinding)) (count : Z) : PyM DB Z :=
  match l with
  | [] => ret count
  | p :: l' => let* n := visit d clock draw p in visits d clock draw l' (count + n)
  end.

(** Models [gpu/control_monitor.py], [run_once]. *)
Definition run_once (clock : string -> datetime) (draw : string -> string -> string) : PyM DB Z :=
  transaction (let* s := get in
    match deployment (Jobs.biz s) with
    | None => raise ValueError "monitor deployment is not registered"
    | Some d => visits d.1 clock draw (watched d.1 (Jobs.biz s)) 0
    end).

(** * Alerts *)

(** Models [monitoring/alerts.py], [SEVERITIES]. *)
Definition SEVERITIES : list string := ["info"; "warning"; "critical"]%string.

Record Post := { po_key : string; po_message : string; po_severity : string; po_resolved : bool; po_at : Z }.

(** The alerter, the alerts it logged or delivered, oldest first. Instants and
    [repeat_seconds] are whole numbers of one unit. *)
(** Models [monitoring/alerts.py], [Alerter], lines 29-36. *)
Record Alerter := { service : string; webhook_url : option string; repeat_seconds : Z; last_sent : gmap string Z; posts : list Post }.

(** Models [monitoring/alerts.py], [Alerter.from_env]; [float_of] is [float]. *)
Definition from_env (float_of : string -> res Z) (strip : string -> string) (service : string) (env : list (string * string)) : res Alerter :=
  let url := strip (or_else (dget "GPU_ALERT_WEBHOOK_URL" env) "") in
  rbind (match dget "GPU_ALERT_REPEAT_SECONDS" env with
         | Some s => if String.eqb s "" then Ok 900 else float_of s
         | None => Ok 900
         end) (fun repeat =>
  Ok {| service := service; webhook_url := if String.prefix "https://" url then Some url else None; repeat_seconds := Z.max 0 repeat; last_sent := ∅; posts := [] |}).

(** Models [monitoring/alerts.py], [Alerter.alert]; a delivery that fails is
    only logged. *)
Definition alert (key message severity : string) (resolved : bool) (at_ : Z) : PyM Alerter bool :=
  if negb (mem_str severity SEVERITIES) then raise ValueError "unknown alert severity"
  else
    let* a := get in
    let post := modify (fun a => a <| posts ::= fun l => l ++ [{| po_key := key; po_message := message; po_severity := severity; po_resolved := resolved; po_at := at_ |}] |>) ;;; ret true in
    if resolved then
      if bool_decide (last_sent a !! key = None) then ret false
      else modify (fun a => a <| last_sent ::= delete key |>) ;;; post
    else
      if (match last_sent a !! key with Some last => at_ - last <? repeat_seconds a | None => false end) then ret false
      else modify (fun a => a <| last_sent ::= <[key := at_]> |>) ;;; post.

(** What the watchdog makes of the projector's cursor. *)
(** Models [gpu/control_monitor.py], [indexer_freshness]. *)
Definition indexer_freshness (t : Tables) (max_age now : Z) : string :=
  match cursor t with
  | None => "MISSING"
  | Some c => if older now c.2 max_age then "STALE" else "FRESH"
  end.

(** The cursor's age in whole seconds and its block *)
Definition age_of (t : Tables) (now : Z) : Z := match cursor t with Some c => Z.quot (now - c.2) 1000000 | None => 0 end.
Definition last_of (t : Tables) : string := match cursor t with Some c => py_str (Indexer.last_block_number c.1) | None => "None" end.

(** Models [gpu/control_monitor.py], [watch_indexer]; the alerter reads a clock
    of its own. *)
Definition watch_indexer (id : string) (t : Tables) (max_age now at_ : Z) : PyM Alerter string :=
  let st := indexer_freshness t max_age now in
  let* _ :=
    (if String.eqb st "FRESH" then alert "indexer-stale" ("projector cursor fresh again (last block " ++ last_of t ++ ")") "warning" true at_
     else if String.eqb st "MISSING" then alert "indexer-stale" ("no projector cursor for deployment " ++ id ++ ": the indexer has never synced") "critical" false at_
     else alert "indexer-stale" ("projector cursor is " ++ py_str (age_of t now) ++ " s old (last block " ++ last_of t ++
            "); the API reports EVIDENCE_STALE and new draws are paused until the indexer catches up") "critical" false at_) in
  ret st.

(** ** Alerts of a key are spaced *)

(** From the instant of the last alert that is not resolved, if any: an alert
    waits for [repeat], and only what was reported is resolved. *)
Fixpoint spaced (repeat : Z) (prev : option Z) (l : list Post) : Prop :=
  match l with
  | [] => True
  | p :: l' =>
      if po_resolved p then prev <> None /\ spaced repeat None l'
      else match prev with Some t => repeat <= po_at p - t | None => True end /\ spaced repeat (Some (po_at p)) l'
  end.

(** The last alert of a list of posts that is not resolved *)
Fixpoint standing (prev : option Z) (l : list Post) : option Z :=
  match l with [] => prev | p :: l' => standing (if po_resolved p then None else Some (po_at p)) l' end.

Definition of_key (key : string) (p : Post) : bool := String.eqb (po_key p) key.

Record alerts_wf (a : Alerter) : Prop := {
  aw_spaced : forall key, spaced (repeat_seconds a) None (filter (fun p => of_key key p) (posts a));
  aw_standing : forall key, last_sent a !! key = standing None (filter (fun p => of_key key p) (posts a));
}.

Lemma spaced_snoc repeat prev l p : spaced repeat prev l ->
  (if po_resolved p then standing prev l <> None else match standing prev l with Some t => repeat <= po_at p - t | None => True end) ->
  spaced repeat prev (l ++ [p]).
Proof.
  revert prev. induction l as [|q l IH]; intros prev; cbn [app spaced standing].
  - intros _. by destruct (po_resolved p).
  - destruct (po_resolved q); intros [H1 H2] H3; (split; [done|by apply IH]).
Qed.

Lemma standing_snoc prev l p : standing prev (l ++ [p]) = if po_resolved p then None else Some (po_at p).
Proof. revert prev. induction l as [|q l IH]; intros prev; cbn [app standing]; [done|apply IH]. Qed.

Lemma post_wf a a' p : alerts_wf a -> repeat_seconds a' = repeat_seconds a -> posts a' = posts a ++ [p] ->
  (forall key, last_sent a' !! key = if of_key key p then (if po_resolved p then None else Some (po_at p)) else last_sent a !! key) ->
  (if po_resolved p then last_sent a !! po_key p <> None else match last_sent a !! po_key p with Some t => repeat_seconds a <= po_at p - t | None => True end) ->
  alerts_wf a'.
Proof.
  intros [S1 S2] Hrep Hposts Hlast Hok. rewrite S2 in Hok. split; intros key; rewrite Hposts, filter_app, filter_cons_bool, ?Hlast, ?Hrep; destruct (of_key key p) eqn:Hk.
  - apply String.eqb_eq in Hk as <-. apply spaced_snoc; [apply S1|done].
  - rewrite app_nil_r. apply S1.
  - by rewrite standing_snoc.
  - rewrite app_nil_r. apply S2.
Qed.

(** Alerts of one key that are delivered are [repeat_seconds] apart unless a
    resolution was delivered between them, and a resolution is delivered only
    for what was reported. *)
Lemma alerts_spaced key message severity resolved at_ a r a' :
  alerts_wf a -> alert key message severity resolved at_ a = (r, a') -> alerts_wf a' /\
    (r = Ok true -> exists p, posts a' = posts a ++ [p] /\ po_key p = key) /\ (r <> Ok true -> a' = a).
Proof.
  intros Ha H. unfold alert in H. destruct (negb _); [injection H as <- <-; by split_and!|]. unfold bind, get, modify, ret in H. cbn in H.
  destruct resolved; cbn in H.
  - case_bool_decide as Hn; cbn in H; injection H as <- <-; [by split_and!|]. split_and!; [|by intros _; eexists|done].
    eapply (post_wf a); [exact Ha|done|done| |exact Hn]. intros k. cbn. unfold of_key. cbn.
    destruct (String.eqb_spec key k) as [->|]; [by rewrite lookup_delete_eq|by rewrite lookup_delete_ne].
  - destruct (match last_sent a !! key with Some _ => _ | None => _ end) eqn:Hb; cbn in H; injection H as <- <-; [by split_and!|].
    split_and!; [|by intros _; eexists|done].
    eapply (post_wf a); [exact Ha|done|done| |cbn; destruct (last_sent a !! key); [by apply Z.ltb_ge in Hb|done]]. intros k. cbn. unfold of_key. cbn.
    destruct (String.eqb_spec key k) as [->|]; [by rewrite lookup_insert_eq|by rewrite lookup_insert_ne].
Qed.

(** * The life of a review case *)

(** Everything but cases, outbox and audit log. *)
Record reviewed (s s' : DB) : Prop := {
  rv_jobs : Jobs.jobs s' = Jobs.jobs s;
  rv_tables : exists o, Jobs.biz s' = (Jobs.biz s) <| cases := cases (Jobs.biz s') |> <| outbox := o |>;
}.

#[export] Instance reviewed_preorder : PreOrder reviewed.
Proof.
  split.
  - intros s. split; [done|]. exists (outbox (Jobs.biz s)). by destruct (Jobs.biz s).
  - intros s u v [J1 [o1 T1]] [J2 [o2 T2]]. split; [congruence|]. exists o2. rewrite T2, T1. done.
Qed.

Lemma outbox_reviewed {A} (m : PyM Outbox.DB A) : keeps reviewed (on_outbox m).
Proof. intros s. unfold on_outbox. destruct (m _) as [r o]. split; [done|]. by exists o. Qed.

Lemma audit_reviewed act role a tb e bef aft corr : keeps reviewed (Jobs.write_audit (B:=Tables) act role a tb e bef aft corr).
Proof. intros s. split; [done|]. exists (outbox (Jobs.biz s)). cbn. by destruct (Jobs.biz s). Qed.

Lemma cases_reviewed f : keeps reviewed (update (fun t => t <| cases ::= f |>)).
Proof. intros s. split; [done|]. exists (outbox (Jobs.biz s)). cbn. by destruct (Jobs.biz s). Qed.

#[local] Hint Resolve outbox_reviewed audit_reviewed cases_reviewed : keeps.

Lemma open_reviewed fid f id : keeps reviewed (open_case fid f id).
Proof. unfold open_case, check. keeps_tac. Qed.

#[local] Hint Resolve open_reviewed : keeps.

Lemma opens_reviewed fid ex l : keeps reviewed (open_cases fid ex l).
Proof. induction l as [|[f id] l IH]; cbn [open_cases]; keeps_tac. Qed.

Lemma close_reviewed fid active now p : keeps reviewed (close_case fid active now p).
Proof. unfold close_case. keeps_tac. Qed.

#[local] Hint Resolve opens_reviewed close_reviewed : keeps.

Lemma record_reviewed fid l now : keeps reviewed (record_findings fid l now).
Proof. unfold record_findings. keeps_tac. Qed.

(** The cases after statements that leave them alone. *)
Lemma outbox_cases {A} (m : PyM Outbox.DB A) s r s' : on_outbox m s = (r, s') -> cases (Jobs.biz s') = cases (Jobs.biz s).
Proof. unfold on_outbox. destruct (m _) as [x o]. by intros [= <- <-]. Qed.

Lemma open_case_run fid f id s u s' : open_case fid f id s = (Ok u, s') ->
  cases (Jobs.biz s) !! id = None /\ cases (Jobs.biz s') = <[id := new_case fid f]> (cases (Jobs.biz s)).
Proof.
  unfold open_case. intros H. apply bind_Ok in H as (s0 & s1 & [-> ->]%get_Ok & H). apply bind_Ok in H as (u1 & s2 & H1 & H).
  unfold check in H1. apply guard_Ok in H1 as [Hc ->]. apply andb_true_iff in Hc as [[[_ Hn%bool_decide_eq_true_1]%andb_true_iff _]%andb_true_iff _].
  apply bind_Ok in H as (u2 & s3 & ->%modify_Ok & H). apply bind_Ok in H as (u3 & s4 & H3%outbox_cases & H). apply bind_Ok in H as (u4 & s5 & H4 & H).
  apply ret_Ok in H as [_ ->]. injection H4 as _ <-. split; [exact Hn|exact H3].
Qed.

Definition closes (active : list string) (c : Commands.ExceptionCase) : bool :=
  negb (mem_str (Commands.ec_kind c) active) && match Commands.detail c with JObj l => is_text (dget "category" l) "OBSERVABILITY" | _ => false end.

Lemma close_case_run fid active now p s u s' : close_case fid active now p s = (Ok u, s') ->
  cases (Jobs.biz s') = if closes active p.2 then <[p.1 := recovered now p.2]> (cases (Jobs.biz s)) else cases (Jobs.biz s).
Proof.
  unfold close_case, closes. destruct (mem_str _ _); cbn [negb andb]; [by intros [_ ->]%ret_Ok|]. intros H. apply bind_Ok in H as (x & s1 & H1 & H).
  unfold detail_get in H1. destruct (Commands.detail p.2) as [| | | | |l]; try (injection H1 as ?; done). injection H1 as <- <-.
  destruct (is_text _ _); [|by apply ret_Ok in H as [_ ->]]. apply bind_Ok in H as (u2 & s3 & ->%modify_Ok & H).
  apply bind_Ok in H as (u3 & s4 & H3%outbox_cases & H). apply ret_Ok in H as [_ ->]. exact H3.
Qed.

(** An open case of the monitor about a facility *)
Definition monitors (fid : string) (c : Commands.ExceptionCase) : bool :=
  about fid c && match Commands.detail c with JObj l => is_text (dget "source" l) MONITOR | _ => false end.

Definition observability (c : Commands.ExceptionCase) : bool :=
  match Commands.detail c with JObj l => is_text (dget "category" l) "OBSERVABILITY" | _ => false end.

(** One open case per facility and kind. *)
Definition one_open (m : gmap string Commands.ExceptionCase) : Prop :=
  forall fid i j c d, m !! i = Some c -> m !! j = Some d -> monitors fid c = true -> monitors fid d = true -> Commands.ec_kind c = Commands.ec_kind d -> i = j.

Lemma monitor_cases_spec fid m ex : monitor_cases fid m = Ok ex -> forall i c, (i, c) ∈ ex <-> m !! i = Some c /\ monitors fid c = true.
Proof.
  unfold monitor_cases. intros H i c. rewrite (Projection.filter_res_spec _ _ _ H). rewrite list_elem_of_filter, elem_of_map_to_list, Is_true_true. cbn.
  unfold monitors, detail_get. split.
  - intros [[Ha Hm] Hx]. split; [done|]. rewrite Ha. apply rbind_Ok in Hx as (x & Hx & [= Ht]). destruct (Commands.detail c); try done. injection Hx as <-. done.
  - intros [Hm [Ha Ht]%andb_true_iff]. split_and!; [done..|]. destruct (Commands.detail c); try done. cbn. by rewrite Ht.
Qed.

Lemma new_monitors fid f fid' : monitors fid' (new_case fid f) = true <-> fid' = fid.
Proof.
  unfold monitors, about. cbn. rewrite !andb_true_r. destruct (String.eqb_spec fid fid') as [->|Hne]; cbn; [done|]. by split; [|intros ->].
Qed.

(** What opening leaves: each finding has its open case, nothing else is new. *)
Lemma open_cases_run fid ex l s ids s' :
  open_cases fid ex l s = (Ok ids, s') -> NoDup (map (fun p => code p.1) l) -> one_open (cases (Jobs.biz s)) ->
  (forall i c, (i, c) ∈ ex -> cases (Jobs.biz s) !! i = Some c /\ monitors fid c = true) ->
  (forall i c, cases (Jobs.biz s) !! i = Some c -> monitors fid c = true -> Commands.ec_kind c ∈ map (fun p => code p.1) l -> (i, c) ∈ ex) ->
  one_open (cases (Jobs.biz s')) /\ cases (Jobs.biz s) ⊆ cases (Jobs.biz s') /\
  (forall i c, cases (Jobs.biz s') !! i = Some c -> cases (Jobs.biz s) !! i = Some c \/ exists f, f ∈ map fst l /\ c = new_case fid f) /\
  Forall2 (fun f id => exists c, cases (Jobs.biz s') !! id = Some c /\ Commands.ec_kind c = code f /\ monitors fid c = true) (map fst l) ids.
Proof.
  revert s ids. induction l as [|[f id] l IH]; intros s ids H Hnd Hone Hex Hnew; cbn [open_cases] in H.
  { apply ret_Ok in H as [-> ->]. split_and!; [done|done|by left|constructor]. }
  apply bind_Ok in H as (mine & s1 & H1 & H). apply bind_Ok in H as (rest & s2 & H2 & [-> ->]%ret_Ok). cbn [map] in Hnd, Hnew |- *. apply NoDup_cons in Hnd as [Hf Hnd].
  assert (Hs1 : one_open (cases (Jobs.biz s1)) /\ cases (Jobs.biz s) ⊆ cases (Jobs.biz s1) /\
    (exists c, cases (Jobs.biz s1) !! mine = Some c /\ Commands.ec_kind c = code f /\ monitors fid c = true) /\
    (forall i c, cases (Jobs.biz s1) !! i = Some c -> cases (Jobs.biz s) !! i = Some c \/ c = new_case fid f)).
  { destruct (List.find _ ex) as [[i c]|] eqn:Hfind.
    - apply ret_Ok in H1 as [-> ->]. apply List.find_some in Hfind as [Hin Hk%String.eqb_eq]. apply list_elem_of_In, Hex in Hin as [Hin Hm].
      split_and!; [done|done|by exists c|by left].
    - apply bind_Ok in H1 as (u & s3 & H1 & [-> ->]%ret_Ok). apply open_case_run in H1 as [Hn Hc]. rewrite Hc.
      assert (Hfresh : forall i c, cases (Jobs.biz s) !! i = Some c -> monitors fid c = true -> Commands.ec_kind c <> code f).
      { intros i c Hi Hm Hk. assert (Hin : (i, c) ∈ ex) by (apply Hnew; [done|done|rewrite Hk; by left]).
        apply list_elem_of_In in Hin. pose proof (List.find_none _ _ Hfind _ Hin) as Hx. cbn in Hx. by apply String.eqb_neq in Hx. }
      split_and!; [|by apply insert_subseteq|exists (new_case fid f); rewrite lookup_insert_eq; split_and!; [done|done|by apply new_monitors]|].
      + intros fid' i j c d [[<- <-]|[Hi Hc']]%lookup_insert_Some [[<- <-]|[Hj Hd]]%lookup_insert_Some Mc Md Hk; [done| | |by eapply Hone].
        * apply new_monitors in Mc as ->. by destruct (Hfresh j d Hd Md).
        * apply new_monitors in Md as ->. by destruct (Hfresh i c Hc' Mc).
      + intros i c [[<- <-]|[Hi Hc']]%lookup_insert_Some; [by right|by left]. }
  destruct Hs1 as (Hone1 & Hsub & (c1 & Hc1 & Hk1 & Hm1) & Hback).
  destruct (IH s1 rest H2 Hnd Hone1) as (R1 & R2 & R3 & R4).
  - intros i c Hi. destruct (Hex i c Hi) as [Hc Hm]. split; [|done]. by eapply lookup_weaken.
  - intros i c Hi Hm Hk. destruct (Hback i c Hi) as [Ho | ->]; [apply Hnew; [done|done|by right]|done].
  - split_and!; [done|by etrans| |].
    + intros i c Hi. destruct (R3 i c Hi) as [Ho|(g & Hg & ->)]; [|right; exists g; split; [by right|done]].
      destruct (Hback i c Ho) as [Hb | ->]; [by left|right; exists f; split; [by left|done]].
    + constructor; [exists c1; split_and!; [by eapply lookup_weaken|done|done]|done].
Qed.

Lemma filter_res_sublist {A} (p : A -> res bool) l r : Projection.filter_res p l = Ok r -> r `sublist_of` l.
Proof.
  revert r. induction l as [|x l IH]; intros r; cbn; [by intros [= <-]|]. intros (b & _ & (r' & Hr & [= <-])%rbind_Ok)%rbind_Ok.
  destruct b; [by apply sublist_skip, IH|by apply sublist_cons, IH].
Qed.

Lemma monitor_cases_nodup fid m ex : monitor_cases fid m = Ok ex -> NoDup (map fst ex).
Proof.
  unfold monitor_cases. intros H%filter_res_sublist. eapply sublist_NoDup; [apply (NoDup_fst_map_to_list m)|].
  apply (fmap_sublist fst). etransitivity; [exact H|apply sublist_filter].
Qed.

(** What closing leaves: the cases of [ex] that close are resolved. *)
Lemma close_cases_run fid active now ex s u s' :
  for_each ex (close_case fid active now) s = (Ok u, s') ->
  (forall i c, (i, c) ∈ ex -> cases (Jobs.biz s) !! i = Some c) -> NoDup (map fst ex) ->
  forall i, cases (Jobs.biz s') !! i = (fun c => if bool_decide (i ∈ map fst ex) && closes active c then recovered now c else c) <$> cases (Jobs.biz s) !! i.
Proof.
  revert s. induction ex as [|[j d] ex IH]; intros s H Hex Hnd i; cbn [for_each] in H.
  { apply ret_Ok in H as [_ ->]. rewrite bool_decide_eq_false_2 by (cbn; by apply not_elem_of_nil). cbn. by destruct (_ !! i). }
  apply bind_Ok in H as (u1 & s1 & H1%close_case_run & H). cbn in H1. cbn [map fst] in Hnd |- *. apply NoDup_cons in Hnd as [Hj Hnd].
  assert (Hjd : cases (Jobs.biz s) !! j = Some d) by (apply Hex; by left).
  assert (Hrest : forall k e, (k, e) ∈ ex -> k <> j).
  { intros k e Hk ->. apply Hj. apply list_elem_of_fmap. by exists (j, e). }
  rewrite (IH s1 H); [| |done].
  - rewrite H1. destruct (decide (i = j)) as [->|Hne].
    + rewrite bool_decide_eq_false_2 by done. rewrite bool_decide_eq_true_2 by (by left). rewrite Hjd. cbn.
      by destruct (closes active d); rewrite ?lookup_insert_eq, ?Hjd.
    + assert (E : bool_decide (i ∈ map fst ex) = bool_decide (i ∈ j :: map fst ex)) by (apply bool_decide_ext; rewrite elem_of_cons; naive_solver).
      rewrite E. by destruct (closes active d); rewrite ?lookup_insert_ne.
  - intros k e Hk. pose proof (Hrest k e Hk). rewrite H1. destruct (closes active d); [rewrite lookup_insert_ne by done|]; apply Hex; by right.
Qed.

Lemma mem_str_iff x l : mem_str x l = true <-> x ∈ l.
Proof.
  unfold mem_str. rewrite existsb_exists, list_elem_of_In. split.
  - by intros (y & Hy & ->%String.eqb_eq).
  - intros Hx. exists x. split; [done|apply String.eqb_refl].
Qed.

Lemma Forall2_mem {A B} (P : A -> B -> Prop) l k : Forall2 P l k -> Forall2 (fun x y => x ∈ l /\ P x y) l k.
Proof. induction 1 as [|x y l k H _ IH]; constructor; [split; [by left|done]|]. eapply Forall2_impl; [exact IH|]. intros z w [Hz Hp]. split; [by right|done]. Qed.

(** Monitoring opens and closes reviews and decides nothing: recording the
    findings of a facility writes nothing but cases, outbox and audit log; every
    finding has its open case afterwards, the one of its kind that was open or a
    new one, and there is one open case per facility and kind; a case that was
    there is as it was, unless it is the monitor's own open case about this
    facility, of a kind no longer reported and of the category OBSERVABILITY,
    which is resolved by the system: a breach of payment or control is never
    closed without a review, nor does an observability case stay open once its
    source recovered. *)
Theorem review_lifecycle fid l now s ids s' :
  record_findings fid l now s = (Ok ids, s') -> NoDup (map (fun p => code p.1) l) -> one_open (cases (Jobs.biz s)) ->
  reviewed s s' /\ one_open (cases (Jobs.biz s')) /\
  Forall2 (fun f id => exists c, cases (Jobs.biz s') !! id = Some c /\ Commands.ec_kind c = code f /\ monitors fid c = true) (map fst l) ids /\
  (exists t, forall i c, cases (Jobs.biz s) !! i = Some c ->
     cases (Jobs.biz s') !! i = Some (if monitors fid c && closes (map (fun p => code p.1) l) c then recovered t c else c)) /\
  (forall i c, cases (Jobs.biz s') !! i = Some c -> monitors fid c = true -> observability c = true -> Commands.ec_kind c ∈ map (fun p => code p.1) l).
Proof.
  intros H Hnd Hone. pose proof (keeps_run reviewed _ _ _ _ (record_reviewed fid l now) H) as Hrv. split; [done|].
  unfold record_findings in H. apply bind_Ok in H as (t & s0 & H0 & H). injection H0 as _ <-. apply bind_Ok in H as (s0 & s1 & [-> ->]%get_Ok & H).
  apply bind_Ok in H as (ex & s1 & H1 & H). injection H1 as Hex <-. apply bind_Ok in H as (ids' & s1 & H1 & H).
  apply bind_Ok in H as (u & s2 & H2 & [-> ->]%ret_Ok). pose proof (monitor_cases_spec _ _ _ Hex) as Hspec.
  destruct (open_cases_run _ _ _ _ _ _ H1 Hnd Hone) as (O1 & O2 & O3 & O4); [by intros i c Hi%Hspec|by intros i c Hi Hm _; apply Hspec|].
  set (codes := map (fun p => code p.1) l) in *.
  assert (C := close_cases_run _ _ _ _ _ _ _ H2 (fun i c Hi => lookup_weaken _ _ _ _ (proj1 (proj1 (Hspec i c) Hi)) O2) (monitor_cases_nodup _ _ _ Hex)).
  assert (Hfst : forall i c, cases (Jobs.biz s) !! i = Some c -> i ∈ map fst ex <-> monitors fid c = true).
  { intros i c Hi. rewrite list_elem_of_fmap. split; [intros ([j d] & -> & [Hj Hm]%Hspec); cbn in Hi; congruence|]. intros Hm. exists (i, c). split; [done|by apply Hspec]. }
  assert (Hcode : forall f, f ∈ map fst l -> code f ∈ codes).
  { intros f ([g id] & -> & Hp)%list_elem_of_fmap. apply list_elem_of_fmap. by exists (g, id). }
  assert (Hrec : forall fid c, monitors fid (recovered t c) = false) by (intros x c; unfold monitors, about; cbn; by rewrite andb_false_r).
  assert (Hback : forall x i c, cases (Jobs.biz s2) !! i = Some c -> monitors x c = true -> cases (Jobs.biz s1) !! i = Some c /\ (i ∈ map fst ex -> closes codes c = false)).
  { intros x i c Hi Hm. rewrite C in Hi. apply fmap_Some in Hi as (c1 & Hi & ->). case_bool_decide as Hin; cbn [andb] in *; [|done].
    destruct (closes codes c1) eqn:Hcl; [by rewrite Hrec in Hm|]. done. }
  split_and!.
  - intros x i j c d Hi Hj Mc Md Hk. destruct (Hback x i c Hi Mc), (Hback x j d Hj Md). by eapply O1.
  - eapply Forall2_impl; [apply Forall2_mem, O4|]. intros f id (Hf & c & Hc & Hk & Hm). exists c. split_and!; [|done|done].
    rewrite C, Hc. cbn. unfold closes. rewrite (proj2 (mem_str_iff _ codes)) by (rewrite Hk; by apply Hcode). by rewrite andb_false_r.
  - exists t. intros i c Hi. rewrite C, (lookup_weaken _ _ _ _ Hi O2). cbn.
    assert (E : bool_decide (i ∈ map fst ex) = monitors fid c) by (apply eq_bool_prop_intro; rewrite bool_decide_spec, Is_true_true; by apply Hfst). by rewrite E.
  - intros i c Hi Hm Ho. destruct (Hback fid i c Hi Hm) as [Hi1 Hcl]. destruct (O3 i c Hi1) as [Hold|(f & Hf & ->)]; [|by apply Hcode].
    specialize (Hcl (proj2 (Hfst i c Hold) Hm)). unfold closes in Hcl. fold (observability c) in Hcl. rewrite Ho, andb_true_r in Hcl.
    by apply negb_false_iff, mem_str_iff in Hcl.
Qed.

(** ** A pass reports each kind once *)

Definition CODES : list string :=
  ["CONTROL_NOT_CURRENT"; "CONTROL_OBSERVATION_STALE"; "CONTROL_RECEIVER_CHANGED"; "CONTROL_BYPASS_OBSERVED"; "NATIVE_ENVIRONMENT_UNAVAILABLE";
   "NATIVE_PROOF_PENDING"; "NATIVE_PROOF_REVIEW_REQUIRED"; "PROJECTION_STALE"; "UNALLOCATED_CASH_REVIEW"]%string.

Lemma report_codes b f : map code (report b f) `sublist_of` [code f].
Proof. destruct b; cbn; [done|apply sublist_nil_l]. Qed.

Lemma observed_codes c t now l : observed_findings c t now = Ok l -> map code l `sublist_of` ["CONTROL_RECEIVER_CHANGED"; "CONTROL_BYPASS_OBSERVED"]%string.
Proof.
  unfold observed_findings. destruct (latest _ _) as [o|]; [|intros [= <-]; apply sublist_nil_l]. destruct (_ <=? _); [|intros [= <-]; apply sublist_nil_l].
  destruct (provenance o); try done. intros [= <-]. rewrite map_app.
  exact (sublist_app _ _ _ _ (report_codes _ (mk "CONTROL_RECEIVER_CHANGED" true "CONTROL")) (report_codes _ (mk "CONTROL_BYPASS_OBSERVED" true "CONTROL"))).
Qed.

Lemma provider_codes f c t : map code (provider_findings f c t) `sublist_of` ["NATIVE_ENVIRONMENT_UNAVAILABLE"; "NATIVE_PROOF_PENDING"; "NATIVE_PROOF_REVIEW_REQUIRED"]%string.
Proof.
  unfold provider_findings. destruct (_ ≫= _) as [p|]; [|apply sublist_nil_l]. cbv zeta. rewrite !map_app.
  exact (sublist_app _ _ _ _ (report_codes _ (mk "NATIVE_ENVIRONMENT_UNAVAILABLE" true "OBSERVABILITY"))
    (sublist_app _ _ _ _ (report_codes _ (mk "NATIVE_PROOF_PENDING" false "OBSERVABILITY")) (report_codes _ (mk "NATIVE_PROOF_REVIEW_REQUIRED" false "OBSERVABILITY")))).
Qed.

Lemma assess_codes id now policy t l : assess_facility id now policy t = Ok l -> NoDup (map code l).
Proof.
  unfold assess_facility. intros (n & _ & H)%rbind_Ok. destruct (facilities t !! id) as [f|]; [|done]. apply rbind_Ok in H as (seen & Hs & [= <-]).
  eapply (sublist_NoDup _ CODES); [apply (bool_decide_unpack (NoDup CODES)); exact I|]. rewrite !map_app.
  apply (sublist_app _ ["CONTROL_NOT_CURRENT"%string] _ _ (report_codes _ (mk "CONTROL_NOT_CURRENT" true "CONTROL"))).
  apply (sublist_app _ ["CONTROL_OBSERVATION_STALE"; "CONTROL_RECEIVER_CHANGED"; "CONTROL_BYPASS_OBSERVED"; "NATIVE_ENVIRONMENT_UNAVAILABLE";
                        "NATIVE_PROOF_PENDING"; "NATIVE_PROOF_REVIEW_REQUIRED"]%string _ ["PROJECTION_STALE"; "UNALLOCATED_CASH_REVIEW"]%string).
  - destruct (_ ≫= _) as [c|]; [|injection Hs as <-; apply sublist_nil_l]. apply rbind_Ok in Hs as (o & Ho & [= <-]). rewrite !map_app.
    exact (sublist_app _ _ _ _ (report_codes _ (mk "CONTROL_OBSERVATION_STALE" true "OBSERVABILITY")) (sublist_app _ _ _ _ (observed_codes _ _ _ _ Ho) (provider_codes f c t))).
  - exact (sublist_app _ _ _ _ (report_codes _ (mk "PROJECTION_STALE" true "OBSERVABILITY")) (report_codes _ (mk "UNALLOCATED_CASH_REVIEW" false "CASH"))).
Qed.

(** * Example: a stale projection that recovered, a breach that stays *)

Module GEx.

Definition id1 : string := "01HZZZZZZZZZZZZZZZZZZZZZZ1".
Definition id2 : string := "01HZZZZZZZZZZZZZZZZZZZZZZ2".
Definition id3 : string := "01HZZZZZZZZZZZZZZZZZZZZZZ3".
Definition breach : Finding := mk "CONTROL_NOT_CURRENT" true "CONTROL".
Definition cash : Finding := mk "UNALLOCATED_CASH_REVIEW" false "CASH".

Definition state0 : DB := {| Jobs.jobs := ∅; Jobs.audit_log := []; Jobs.now := 0; Jobs.biz := {|
  facilities := Ledger.facilities CashEngine.db0; controls := ∅; observations := []; accounts := ∅; providers := ∅; requests := []; receipts := ∅;
  deployment := None; cursor := None; blocks := ∅; projected := ∅; bindings := [];
  cases := <[id1 := new_case CashEngine.fid (mk "PROJECTION_STALE" true "OBSERVABILITY")]> {[ id2 := new_case CashEngine.fid breach ]};
  outbox := Outbox.empty_outbox |} |}.

Definition findings0 : list (Finding * string) := [(breach, ""%string); (cash, id3)].
Definition pass0 := record_findings CashEngine.fid findings0 (Aware 5) state0.

Lemma pass0_Ok : pass0 = (Ok [id2; id3], pass0.2).
Proof. apply run_Ok. vm_compute. reflexivity. Qed.

Lemma state0_cases i c : cases (Jobs.biz state0) !! i = Some c -> i = id1 /\ Commands.ec_kind c = "PROJECTION_STALE"%string \/ i = id2 /\ Commands.ec_kind c = "CONTROL_NOT_CURRENT"%string.
Proof. cbn. intros [[<- <-]|[_ [<- <-]%lookup_singleton_Some]]%lookup_insert_Some; [by left|by right]. Qed.

Lemma state0_one : one_open (cases (Jobs.biz state0)).
Proof.
  intros fid i j c d Hi Hj _ _ Hk. destruct (state0_cases i c Hi) as [[-> E]|[-> E]], (state0_cases j d Hj) as [[-> F]|[-> F]]; try done; rewrite E, F in Hk; done.
Qed.

Lemma review_lifecycle_witness : one_open (cases (Jobs.biz pass0.2)) /\
  exists c, cases (Jobs.biz pass0.2) !! id2 = Some c /\ monitors CashEngine.fid c = true.
Proof.
  assert (Hnd : NoDup (map (fun p : Finding * string => code p.1) findings0)) by (cbn; apply (bool_decide_unpack (NoDup _)); exact I).
  destruct (review_lifecycle CashEngine.fid findings0 (Aware 5) state0 [id2; id3] pass0.2 pass0_Ok Hnd state0_one) as (_ & Ho & Hf & _).
  split; [exact Ho|]. apply Forall2_cons_1 in Hf as [(c & Hc & _ & Hm) _]. exists c. split; [exact Hc|exact Hm].
Defined.

Example recovered0 :
  (Commands.resolved_at <$> cases (Jobs.biz pass0.2) !! id1, Commands.resolved_at <$> cases (Jobs.biz pass0.2) !! id2,
   Commands.severity <$> cases (Jobs.biz pass0.2) !! id3, length (Jobs.audit_log pass0.2)) = (Some (Some 5), Some None, Some "WARNING"%string, 1%nat).
Proof. vm_compute. reflexivity. Qed.

End GEx.

End Monitoring.
