(* ===== verification/Settlement.v ===== *)
(** Settlement legs: from a proven payout, through a plan, a send to the rail
    and its acknowledgement, to destination cash and its allocation.

    Source: offchain/gpu/hashcredit_gpu/settlement/legs.py, on top of the cash
    reconciler, the outbox and the job queue.  The rail's adapter and the cash
    reader are outside the program: arguments.  A handler runs in the worker's
    transaction, but commits the acknowledgement and the destination receipt in
    transactions of their own: the world has a committed state and the state
    the worker's transaction sees. *)

From S2P Require Import Prelude Domain Stdpy Columns Lifecycle JobQueue Json Ledger CashEngine.
From Stdlib Require Import QArith.
#[local] Open Scope Z_scope.
Import Domain Columns Stdpy Json Ledger.

Module Settle.

(** * Bindings, quotes and observations *)

(** Models [settlement/legs.py], [RailBinding]. *)
Record RailBinding := {
  b_rail : string;
  b_profile : string;
  b_status : string;
  partner_binding : string;
  source_asset : AssetRef;
  destination_asset : AssetRef;
  b_receiver : string;
  b_vault : string;
  source_cap : Z;
  max_fee_destination : Z;
  max_slippage_bps : Z;
  approval_ref : string;
  b_refund : string;
}.

(** Models [settlement/legs.py], [Quote]. *)
Record Quote := {
  leg_id : string;
  q_settlement : string;
  rail_id : string;
  q_source : Z;
  expected_destination : Z;
  minimum_destination : Z;
  fee_destination : Z;
  expires_at : Z;
  destination_receiver : string;
  refund_address : string;
}.

#[export] Instance Quote_eq_dec : EqDecision Quote.
Proof. solve_decision. Defined.

(** Models [settlement/legs.py], [LegObservation]. *)
Record LegObservation := { o_state : string; o_reference : string; receipt_reference : option string }.

(** Every call of [send] so far: the rail, the quote and the key. *)
Definition Sends := list (string * Quote * string).

(** Models [settlement/legs.py], [SettlementAdapter]; the rail's answers depend
    on what was sent to it, and each call may raise. *)
Record SettlementAdapter := {
  is_mock : bool;
  idempotent_requests : bool;
  lookup_leg : Sends -> string -> res (option string);
  send : Sends -> Quote -> string -> res string;
  observe : Sends -> string -> res LegObservation;
}.

(** [asdict(quote)] *)
Definition asdict (q : Quote) : json := JObj
  [("leg_id", JStr (leg_id q)); ("settlement_id", JStr (q_settlement q)); ("rail_id", JStr (rail_id q));
   ("source_amount", JInt (q_source q)); ("expected_destination", JInt (expected_destination q));
   ("minimum_destination", JInt (minimum_destination q)); ("fee_destination", JInt (fee_destination q));
   ("expires_at", JInt (expires_at q)); ("destination_receiver", JStr (destination_receiver q));
   ("refund_address", JStr (refund_address q))]%string.

Definition QUOTE_FIELDS : list string :=
  ["leg_id"; "settlement_id"; "rail_id"; "source_amount"; "expected_destination"; "minimum_destination"; "fee_destination";
   "expires_at"; "destination_receiver"; "refund_address"].

(** [Quote( **payload)]: exactly the fields, of the declared types. *)
Definition quote_of (v : json) : res Quote :=
  match v with
  | JObj l =>
      if negb (forallb (fun p => mem_str p.1 QUOTE_FIELDS) l && (length l =? 10)%nat) then Raise (Exn TypeError "unexpected keyword argument")
      else
        rbind (str_field "leg_id" v) (fun leg => rbind (str_field "settlement_id" v) (fun sid => rbind (str_field "rail_id" v) (fun rail =>
        rbind (int_field "source_amount" v) (fun src => rbind (int_field "expected_destination" v) (fun exp =>
        rbind (int_field "minimum_destination" v) (fun min => rbind (int_field "fee_destination" v) (fun fee =>
        rbind (int_field "expires_at" v) (fun till => rbind (str_field "destination_receiver" v) (fun rcv =>
        rbind (str_field "refund_address" v) (fun rfd =>
        Ok {| leg_id := leg; q_settlement := sid; rail_id := rail; q_source := src; expected_destination := exp; minimum_destination := min;
              fee_destination := fee; expires_at := till; destination_receiver := rcv; refund_address := rfd |}))))))))))
  | _ => Raise (Exn TypeError "argument after ** must be a mapping")
  end.

(** Models [settlement/legs.py], [validate_quote]. *)
Definition validate_quote (q : Quote) (b : RailBinding) (now : Z) : res unit :=
  let bad why := Raise (Exn ValueError why) in
  if String.eqb (approval_ref b) "" || negb (mem_str (b_status b) ["APPROVED"; "TEST_ONLY"]) then bad "settlement rail is not approved"%string
  else if String.eqb (b_profile b) "PRODUCTION" && (negb (String.eqb (b_status b) "APPROVED") || negb (String.eqb (partner_binding b) "LIVE_VERIFIED")) then
    bad "production settlement requires a verified live rail"%string
  else if negb (String.eqb (rail_id q) (b_rail b)) || negb (String.eqb (destination_receiver q) (b_receiver b)) ||
          negb (String.eqb (refund_address q) (b_refund b)) then bad "quote destination/refund route mismatch"%string
  else if existsb (fun v => v <? 0) [q_source q; expected_destination q; minimum_destination q; fee_destination q; expires_at q] then
    bad "quote uses nonnegative exact integer units"%string
  else if negb ((0 <=? max_slippage_bps b) && (max_slippage_bps b <=? 10000)) || (expires_at q <=? now) then
    bad "expired quote or invalid slippage policy"%string
  else if negb ((0 <? q_source q) && (q_source q <=? source_cap b)) then bad "source leg cap exceeded"%string
  else if max_fee_destination b <? fee_destination q then bad "settlement fee cap exceeded"%string
  else if negb ((0 <? minimum_destination q) && (minimum_destination q <=? expected_destination q)) then
    bad "invalid minimum destination amount"%string
  else if minimum_destination q * 10000 <? expected_destination q * (10000 - max_slippage_bps b) then
    bad "minimum destination violates slippage bound"%string
  else Ok tt.

(** * Transactions *)

(** What a transaction sees: the ledgers and the queue. *)
Record TS := { ledger : Ledger.DB; queue : Jobs.DB unit }.

(** The committed state, what the open transaction of the worker does to it,
    and the calls of the rail, which no rollback takes back. *)
Record World := { base : TS; pending : TS -> TS; sends : Sends }.

(** What the worker's transaction sees: its statements over what has been
    committed so far (READ COMMITTED). *)
Definition view (w : World) : TS := pending w (base w).

(** A statement on the ledgers, and one on the queue. *)
Definition led {A} (m : PyM Ledger.DB A) : PyM TS A :=
  fun t => match m (ledger t) with (r, l) => (r, t <| ledger := l |>) end.

Definition que {A} (m : PyM (Jobs.DB unit) A) : PyM TS A :=
  fun t => match m (queue t) with (r, q) => (r, t <| queue := q |>) end.

(** A statement of the worker's transaction. *)
Definition on_view {A} (m : PyM TS A) : PyM World A :=
  fun w => ((m (view w)).1, w <| pending := fun t => (m (pending w t)).2 |>).

(** A transaction of its own ([engine.begin()]) while the worker's is open. *)
Definition own {A} (m : PyM TS A) : PyM World A :=
  fun w => match m (base w) with
           | (Ok a, t) => (Ok a, w <| base := t |>)
           | (Raise e, _) => (Raise e, w)
           end.

(** The worker's transaction: begin, the body, commit or roll back. *)
Definition begin {A} (m : PyM World A) : PyM World A :=
  fun w => match m (w <| pending := id |>) with
           | (Ok a, w') => (Ok a, {| base := view w'; pending := id; sends := sends w' |})
           | (Raise e, w') => (Raise e, w' <| pending := id |>)
           end.

(** * Planning a leg *)

Definition PLANNED : string := "SETTLEMENT_LEG_PLANNED".
Definition plan_key (rail leg : string) : string := ("settlement-plan:" ++ rail ++ ":" ++ leg)%string.
Definition ack_key (rail leg : string) : string := ("settlement-ack:" ++ rail ++ ":" ++ leg)%string.
Definition leg_key (rail leg : string) : string := ("settlement-leg:" ++ rail ++ ":" ++ leg)%string.

Definition with_key (key : string) (r : Outbox.Row) : bool := String.eqb (Outbox.idempotency_key (Outbox.event r)) key.

(** The rows that plan a leg of a settlement. *)
Definition plan_of (sid : string) (r : Outbox.Row) : bool :=
  let e := Outbox.event r in
  String.eqb (Outbox.aggregate_type e) "settlement" && String.eqb (Outbox.aggregate_id e) sid && String.eqb (Outbox.event_type e) PLANNED.

(** The refusal of a settlement without matching native payout evidence. *)
(** Models [settlement/legs.py], [SettlementLegExecutor.enqueue], lines 122-152. *)
Definition source_settlement (b : RailBinding) (sid : string) (s : Ledger.DB) : option Settlement :=
  match settlements s !! sid with
  | None => None
  | Some st =>
      let ev := if truthy (payout_consumption_id st) then evidence s !! default ""%string (payout_consumption_id st) else None in
      let verified := ev ≫= fun e => verifications s !! ev_verification e in
      if negb (String.eqb (s_profile st) (b_profile b)) || mem_str (s_state st) ["ANNOUNCED"; "REVERSED"] ||
         negb (bool_decide ((s_chain_id st, or_else (s_token st) "", s_decimals st) = asset_key (source_asset b))) then None
      else match ev, verified with
           | Some e, Some v =>
               if negb (String.eqb (meaning e) "PAYOUT") || negb (String.eqb (trust e) "PROVEN") || negb (String.eqb (ev_account e) (s_account st)) ||
                  negb (String.eqb (nv_status v) "ACCEPTED") ||
                  (negb (String.eqb (b_profile b) "LOCAL_MOCK") && negb (String.eqb (verification_method e) "ATTESTCOIN_NATIVE")) then None
               else Some st
           | _, _ => None
           end
  end.

(** Reserves a leg's amount, once. *)
(** Models [settlement/legs.py], [SettlementLegExecutor.enqueue], lines 153-178. *)
Definition plan (b : RailBinding) (q : Quote) (st : Settlement) : PyM TS unit :=
  let key := plan_key (b_rail b) (leg_id q) in
  let* t := get in
  let rows := Outbox.rows (outbox (ledger t)) in
  match scalar (with_key key) rows with
  | Some prior =>
      if negb (json_eqb (Outbox.ev_payload (Outbox.event prior)) (asdict q)) then raise ValueError "legId already bound to another quote"
      else ret tt
  | None =>
      let* reserved := lift_res (sum_res (fun r => int_field "source_amount" (Outbox.ev_payload (Outbox.event r)))
                                         (select (plan_of (q_settlement q)) rows)) in
      if Ledger.source_amount st <? reserved + q_source q then raise ValueError "settlement legs exceed source receipt"
      else let* _ := led (emit "settlement" (q_settlement q) PLANNED key (asdict q)) in ret tt
  end.

(** Models [settlement/legs.py], [SettlementLegExecutor.enqueue]; [fresh] is
    the job id [new_ulid] drew. *)
Definition enqueue (b : RailBinding) (ad : SettlementAdapter) (q : Quote) (now : Z) (fresh : string) : PyM TS string :=
  let* _ := lift_res (validate_quote q b now) in
  if is_mock ad && String.eqb (b_profile b) "PRODUCTION" then raise ValueError "mock settlement adapter cannot run in production"
  else if negb (idempotent_requests ad) then raise ValueError "durable settlement requires an idempotent external interface"
  else
    let* t := get in
    match source_settlement b (q_settlement q) (ledger t) with
    | None => raise ValueError "source settlement requires matching native payout evidence"
    | Some st =>
        plan b q st ;;;
        que (Jobs.enqueue "SETTLEMENT_LEG" (asdict q) (leg_key (b_rail b) (leg_id q)) 100 None fresh)
    end.

(** * The handler *)

(** Planning again before a send: a refusal is terminal. Models
    [settlement/legs.py], lines 200-203. *)
Definition replan (b : RailBinding) (ad : SettlementAdapter) (q : Quote) (now : Z) (fresh : string) : PyM World unit :=
  try_except (let* _ := on_view (enqueue b ad q now fresh) in ret tt)
    (fun e => match exn_kind e with ValueError => raise TerminalError (exn_msg e) | _ => lift_res (Raise e) end).

(** [adapter.send]: the call happened, whatever comes back. Models
    [settlement/legs.py], lines 204-204. *)
Definition call_send (b : RailBinding) (ad : SettlementAdapter) (q : Quote) : PyM World string :=
  let* w := get in
  modify (fun w => w <| sends ::= fun l => l ++ [(b_rail b, q, leg_id q)] |>) ;;;
  lift_res (send ad (sends w) q (leg_id q)).

(** The reference of the leg's submission: acknowledged, found, or sent now. *)
(** Models [settlement/legs.py], [SettlementLegExecutor.handle], lines 193-222. *)
Definition submission (b : RailBinding) (ad : SettlementAdapter) (q : Quote) (now : Z) (fresh : string) : PyM World string :=
  let* w := get in
  match scalar (with_key (ack_key (b_rail b) (leg_id q))) (Outbox.rows (outbox (ledger (view w)))) with
  | Some ack => lift_res (str_field "reference" (Outbox.ev_payload (Outbox.event ack)))
  | None =>
      let* found := lift_res (lookup_leg ad (sends w) (leg_id q)) in
      let* reference := match found with
                        | Some r => ret r
                        | None => replan b ad q now fresh ;;; call_send b ad q
                        end in
      if String.eqb reference "" then raise TransientError "settlement submission outcome unknown"
      else
        let* _ := own (led (emit "settlement" (q_settlement q) "SETTLEMENT_LEG_ACKNOWLEDGED" (ack_key (b_rail b) (leg_id q))
          (JObj [("reference", JStr reference); ("legId", JStr (leg_id q)); ("cashState", JStr "IN_FLIGHT"); ("debtApplied", JBool false)]%string))) in
        ret reference
  end.

(** Models [settlement/legs.py], [SettlementLegExecutor.handle], lines 251-279. *)
Definition land (b : RailBinding) (rd : CashEngine.CashEvidenceReader) (q : Quote) (reference : string) (fact : CashEngine.ReceiptFact)
  : PyM Ledger.DB CashEngine.ReconciliationResult :=
  let route := {| CashEngine.vault_id := b_vault b; CashEngine.receiver_address := b_receiver b;
                  CashEngine.rt_asset := destination_asset b; CashEngine.rt_profile := b_profile b |} in
  let* result := CashEngine.record_destination_receipt reference route (Some rd) in
  (if bool_decide (CashEngine.result_id result <> None) && (CashEngine.rf_amount fact <? minimum_destination q) then
     exception "SETTLEMENT_MINIMUM_BREACH" "settlements" (q_settlement q) [] ;;;
     let* _ := emit "settlement" (q_settlement q) "SETTLEMENT_LEG_SLIPPAGE_BREACH" ("settlement-slippage:" ++ b_rail b ++ ":" ++ leg_id q)
       (JObj [("actualDestination", JStr (py_str (CashEngine.rf_amount fact))); ("minimumDestination", JStr (py_str (minimum_destination q)));
              ("requiresReview", JBool true)]%string) in ret tt
   else ret tt) ;;;
  ret result.

(** What [handle] does with the rail's observation. *)
(** Models [settlement/legs.py], [SettlementLegExecutor.handle], lines 224-298. *)
Definition settle (b : RailBinding) (rd : option CashEngine.CashEvidenceReader) (q : Quote) (reference : string) (ob : LegObservation) : PyM World unit :=
  if negb (String.eqb (o_reference ob) reference) then raise TerminalError "settlement observation reference mismatch"
  else if mem_str (o_state ob) ["PENDING"; "SOURCE_SENT"; "IN_FLIGHT"] then raise TransientError "destination receipt pending; source send is not repayment"
  else if String.eqb (o_state ob) "REFUNDED" then
    let* _ := on_view (led (emit "settlement" (q_settlement q) "SETTLEMENT_LEG_REFUNDED" ("settlement-refund:" ++ b_rail b ++ ":" ++ leg_id q)
      (JObj [("reference", JStr reference); ("refundAddress", JStr (refund_address q)); ("debtApplied", JBool false)]%string))) in
    ret tt
  else if negb (String.eqb (o_state ob) "DESTINATION_RECEIVED") || negb (truthy (receipt_reference ob)) then
    raise TransientError "settlement outcome unresolved"
  else
    let receipt_ref := default ""%string (receipt_reference ob) in
    match rd with
    | None => raise TransientError "destination canonical cash reader unavailable"
    | Some r =>
        match CashEngine.receipt r receipt_ref with
        | None => raise TransientError "destination receipt not yet indexed"
        | Some fact =>
            if negb (String.eqb (CashEngine.rf_source_kind fact) "SETTLEMENT") || negb (bool_decide (CashEngine.rf_settlement fact = Some (q_settlement q))) then
              raise TerminalError "destination receipt does not belong to this settlement"
            else
              let* result := own (led (land b r q receipt_ref fact)) in
              match CashEngine.result_id result with
              | None => raise TransientError (or_else (CashEngine.result_reason result) "destination receipt not reconciled")
              | Some _ =>
                  let* allocated := on_view (led (CashEngine.record_confirmed_allocation receipt_ref (Some r))) in
                  match CashEngine.result_id allocated with
                  | None => raise TransientError (or_else (CashEngine.result_reason allocated) "destination allocation pending")
                  | Some aid =>
                      let* _ := on_view (led (emit "settlement" (q_settlement q) "SETTLEMENT_LEG_ALLOCATED"
                        ("settlement-allocated:" ++ b_rail b ++ ":" ++ leg_id q)
                        (JObj [("reference", JStr reference); ("allocationId", JStr aid); ("cashState", JStr "ALLOCATED")]%string))) in
                      ret tt
                  end
              end
        end
    end.

(** Models [settlement/legs.py], [SettlementLegExecutor.handle], lines 187-192. *)
Definition handle (b : RailBinding) (ad : SettlementAdapter) (rd : option CashEngine.CashEvidenceReader) (now : Z) (fresh : string)
    (job : Jobs.ClaimedJob) : PyM World unit :=
  let* q := lift_res (quote_of (Jobs.c_payload job)) in
  let* w := get in
  match settlements (ledger (view w)) !! q_settlement q with
  | None => raise TerminalError "unknown source settlement"
  | Some _ =>
      let* reference := submission b ad q now fresh in
      let* w := get in
      let* ob := lift_res (observe ad (sends w) reference) in
      settle b rd q reference ob
  end.

(** The worker's transaction around a handler: the job completes with its
    effect, and a lost lease takes both back. *)
Definition run_handler (b : RailBinding) (ad : SettlementAdapter) (rd : option CashEngine.CashEvidenceReader) (now : Z) (fresh : string)
    (job : Jobs.ClaimedJob) : PyM World unit :=
  begin (handle b ad rd now fresh job ;;; on_view (que (Jobs.complete job))).

(** [Worker.run_one] with this handler: the outcome of a failure is recorded
    in a transaction of its own. *)
Definition run_leg (class_name : exn_class -> string) (p : Jobs.BackoffPolicy) (u : Q) (b : RailBinding) (ad : SettlementAdapter)
    (rd : option CashEngine.CashEvidenceReader) (now : Z) (fresh : string) (job : Jobs.ClaimedJob) : PyM World string :=
  try_except (run_handler b ad rd now fresh job ;;; ret "SUCCEEDED"%string)
    (fun e => match exn_kind e with
              | LeaseLost => ret "LEASE_LOST"%string
              | TerminalError => own (que (Jobs.fail_exception class_name p u job Jobs.TERMINAL e))
              | _ => own (que (Jobs.fail_exception class_name p u job Jobs.TRANSIENT e))
              end).

(** * Plans in the outbox *)

Definition Core : Type := string * string * string * string * json.

Definition core (r : Outbox.Row) : Core :=
  let e := Outbox.event r in
  (Outbox.aggregate_type e, Outbox.aggregate_id e, Outbox.event_type e, Outbox.idempotency_key e, Outbox.ev_payload e).

(** A row with a plan's key or a plan's type. *)
Definition planish_of (t k : string) : bool := String.prefix "settlement-plan:" k || String.eqb t PLANNED.
Definition planish (r : Outbox.Row) : bool := planish_of (Outbox.event_type (Outbox.event r)) (Outbox.idempotency_key (Outbox.event r)).

Definition plans (o : Outbox.DB) : list Core := core <$> select planish (Outbox.rows o).

Definition plan_core (q : Quote) : Core := ("settlement", q_settlement q, PLANNED, plan_key (rail_id q) (leg_id q), asdict q)%string.

Definition amount_of (p : json) : Z := match int_field "source_amount" p with Ok n => n | Raise _ => 0 end.

Lemma sumz_perm l l' : l ≡ₚ l' -> sumz l = sumz l'.
Proof. unfold sumz. induction 1; cbn [foldr] in *; lia. Qed.

(** What is planned against a settlement. *)
Definition planned (sid : string) (l : list Core) : Z :=
  sumz (map (fun c : Core => if String.eqb c.1.1.1.2 sid then amount_of c.2 else 0) l).

Lemma planned_perm sid l l' : l ≡ₚ l' -> planned sid l = planned sid l'.
Proof. intros H. apply sumz_perm. by rewrite H. Qed.

(** Planning adds one row; an emission of another kind changes no plan. *)
Lemma plans_emit a i t p k o : Outbox.outbox_wf o ->
  let o' := (Outbox.emit a i t p k o).2 in
  Outbox.outbox_wf o' /\
  plans o' ≡ₚ (if planish_of t k && negb (String.eqb k "") && negb (Outbox.key_taken k o) then [(a, i, t, k, p)] else []) ++ plans o.
Proof.
  intros Hwf. cbv zeta. destruct (Outbox.emit a i t p k o) as [r o'] eqn:He. cbn [snd].
  destruct r as [x|e].
  - destruct (Outbox.emit_wf _ _ _ _ _ _ _ _ He Hwf) as [Hwf' _]. split; [done|]. clear Hwf'.
    revert He. unfold Outbox.emit. destruct (String.eqb k ""); [done|]. unfold bind, get, modify, ret.
    destruct (Outbox.key_taken k o) eqn:Hk; intros [= <- <-]; [by rewrite !andb_false_r|].
    cbn [negb]. rewrite !andb_true_r. unfold plans. cbn -[select insert fmap list_fmap planish planish_of].
    rewrite select_insert_new; [by unfold planish, planish_of; cbn; destruct (_ || _)|].
    destruct (Outbox.rows o !! Outbox.next_id o) as [y|] eqn:Hy; [|done].
    destruct (Outbox.wf_ids _ Hwf _ _ Hy). lia.
  - revert He. unfold Outbox.emit. destruct (String.eqb k ""); [intros [= <- <-]; rewrite andb_false_r; by split|].
    unfold bind, get, modify, ret. by destruct (Outbox.key_taken k o).
Qed.

(** * Statements that leave the plans alone *)

Record steady (l l' : Ledger.DB) : Prop := {
  st_wf : Outbox.outbox_wf (outbox l) -> Outbox.outbox_wf (outbox l');
  st_plans : Outbox.outbox_wf (outbox l) -> plans (outbox l') ≡ₚ plans (outbox l);
  st_settlements : settlements l' = settlements l;
}.

#[export] Instance steady_preorder : PreOrder steady.
Proof.
  split.
  - intros l. by split.
  - intros l m n [W1 P1 S1] [W2 P2 S2]. split; [auto| |by rewrite S2].
    intros Hwf. rewrite P2 by auto. by apply P1.
Qed.

Lemma emit_steady a i t k p : planish_of t k = false -> keeps steady (emit a i t k p).
Proof.
  intros Hp l. unfold emit, on_outbox. destruct (Outbox.emit a i t p k (outbox l)) as [r o] eqn:He. cbn.
  pose proof (plans_emit a i t p k (outbox l)) as H. cbv zeta in H. rewrite He, Hp in H. cbn in H.
  split; cbn; [intros Hwf; by apply H|intros Hwf; by apply H|done].
Qed.

Lemma same_outbox_steady l l' : outbox l' = outbox l -> settlements l' = settlements l -> steady l l'.
Proof. intros Ho Hs. split; [by rewrite Ho|by rewrite Ho|done]. Qed.

Lemma exception_steady code table id d : keeps steady (exception code table id d).
Proof.
  unfold exception. keeps_tac. unfold violated. keeps_tac. by apply same_outbox_steady.
Qed.

#[local] Hint Resolve exception_steady : keeps.
#[local] Hint Extern 1 (keeps steady (emit _ _ _ _ _)) => apply emit_steady; reflexivity : keeps.
#[local] Hint Extern 1 (steady _ _) => apply same_outbox_steady; reflexivity : keeps.

Lemma receipt_steady reference route rd : keeps steady (CashEngine.record_destination_receipt reference route rd).
Proof.
  unfold CashEngine.record_destination_receipt, CashEngine.block, CashEngine.insert_receipt, violated. keeps_tac.
Qed.

Lemma allocation_steady reference rd : keeps steady (CashEngine.record_confirmed_allocation reference rd).
Proof.
  unfold CashEngine.record_confirmed_allocation, CashEngine.block, CashEngine.insert_allocation, violated. keeps_tac.
Qed.

#[local] Hint Resolve receipt_steady allocation_steady : keeps.

Lemma land_steady b rd q reference fact : keeps steady (land b rd q reference fact).
Proof. unfold land. keeps_tac. Qed.

(** * The invariant of a transaction's state *)

Definition LEG : string := "SETTLEMENT_LEG".

(** The legs' jobs, with the payload a worker will be handed. *)
Definition leg_job (t : TS) (id : string) (p : json) : Prop :=
  exists j, Jobs.jobs (queue t) !! id = Some j /\ Jobs.kind j = LEG /\ Jobs.payload j = p.

Definition plans_of (t : TS) : list Core := plans (outbox (ledger t)).

Record ts_wf (t : TS) : Prop := {
  ts_outbox : Outbox.outbox_wf (outbox (ledger t));
  ts_plans : forall c, c ∈ plans_of t -> exists q, c = plan_core q /\ 0 < q_source q;
  ts_cap : forall sid st, settlements (ledger t) !! sid = Some st -> planned sid (plans_of t) <= Ledger.source_amount st;
  ts_jobs : forall id p, leg_job t id p -> exists q, p = asdict q /\ plan_core q ∈ plans_of t;
}.

(** What the ledgers' other statements and the queue's other statements do. *)
Record steady_ts (t t' : TS) : Prop := {
  sts_ledger : steady (ledger t) (ledger t');
  sts_jobs : forall id p, leg_job t' id p -> leg_job t id p;
}.

#[export] Instance steady_ts_preorder : PreOrder steady_ts.
Proof.
  split.
  - intros t. split; [reflexivity|done].
  - intros t u v [L1 J1] [L2 J2]. split; [by etransitivity|auto].
Qed.

Lemma steady_plans t t' : steady_ts t t' -> ts_wf t -> plans_of t' ≡ₚ plans_of t.
Proof. intros [[_ P _] _] [Ho _ _ _]. by apply P. Qed.

Lemma steady_wf t t' : steady_ts t t' -> ts_wf t -> ts_wf t'.
Proof.
  intros Hs Hwf. pose proof (steady_plans _ _ Hs Hwf) as Hp. destruct Hs as [[W _ S] J], Hwf as [Ho Hpl Hc Hj].
  split.
  - by apply W.
  - intros c. rewrite Hp. apply Hpl.
  - intros sid st. rewrite S, (planned_perm sid _ _ Hp). apply Hc.
  - intros id p Hid%J. destruct (Hj _ _ Hid) as (q & -> & Hq). exists q. by rewrite Hp.
Qed.

Lemma led_steady {A} (m : PyM Ledger.DB A) : keeps steady m -> keeps steady_ts (led m).
Proof.
  intros Hm t. unfold led. specialize (Hm (ledger t)). destruct (m (ledger t)) as [r l]. cbn.
  split; [done|]. by intros id p.
Qed.

(** ** The quote's dictionary *)

Lemma json_eqb_asdict q q' : json_eqb (asdict q) (asdict q') = true -> q = q'.
Proof.
  destruct q, q'. cbn. rewrite !andb_true_iff. rewrite !String.eqb_eq, !Z.eqb_eq.
  intros (-> & -> & -> & -> & -> & -> & -> & -> & -> & -> & _). done.
Qed.

(** A quote survives its stay in the queue and the outbox: the handler
    reads back exactly the quote that was planned, and two planned
    dictionaries compare equal only if the quotes are equal. *)
Lemma quote_roundtrip q q' :
  quote_of (asdict q) = Ok q /\ json_eqb (asdict q) (asdict q) = true /\ (json_eqb (asdict q) (asdict q') = true -> q = q').
Proof.
  split_and!.
  - by destruct q.
  - destruct q. cbn. by rewrite !String.eqb_refl, !Z.eqb_refl.
  - apply json_eqb_asdict.
Qed.

(** ** Validation *)

Lemma validate_Ok q b now u : validate_quote q b now = Ok u ->
  rail_id q = b_rail b /\ destination_receiver q = b_receiver b /\ refund_address q = b_refund b /\ now < expires_at q /\
  0 < q_source q <= source_cap b /\ 0 <= fee_destination q <= max_fee_destination b /\
  0 < minimum_destination q <= expected_destination q /\
  expected_destination q * (10000 - max_slippage_bps b) <= minimum_destination q * 10000.
Proof.
  unfold validate_quote. intros H. cbv zeta in H.
  repeat (match type of H with (if ?x then _ else _) = _ => let E := fresh "E" in destruct x eqn:E; [discriminate H|] end).
  repeat match goal with
    | E : _ || _ = false |- _ => apply orb_false_iff in E as [? ?]
    | E : negb _ = false |- _ => apply negb_false_iff in E
    | E : _ && _ = true |- _ => apply andb_true_iff in E as [? ?]
    | E : String.eqb _ _ = true |- _ => apply String.eqb_eq in E
    | E : existsb _ _ = false |- _ => cbn in E
    end.
  split_and!; try done; lia.
Qed.

(** ** Planning *)

Lemma filter_planish sid (m : gmap Z Outbox.Row) : select (plan_of sid) m = filter (fun r => plan_of sid r) (select planish m).
Proof.
  unfold select. induction (map_to_list m).*2 as [|r l IH]; [done|]. rewrite !filter_cons.
  destruct (planish r) eqn:Hp.
  - rewrite (decide_True (P:=Is_true true)) by done. rewrite filter_cons, IH. done.
  - rewrite (decide_False (P:=Is_true false)) by (cbn; tauto).
    assert (plan_of sid r = false) as ->; [|by rewrite decide_False by (cbn; tauto)].
    unfold planish, planish_of in Hp. unfold plan_of. apply orb_false_iff in Hp as [_ ->]. by rewrite andb_false_r.
Qed.

Lemma reserved_spec sid o :
  (forall c, c ∈ plans o -> exists q, c = plan_core q /\ 0 < q_source q) ->
  sum_res (fun r => int_field "source_amount" (Outbox.ev_payload (Outbox.event r))) (select (plan_of sid) (Outbox.rows o)) = Ok (planned sid (plans o)).
Proof.
  intros Hpl. rewrite filter_planish. unfold plans in *. induction (select planish (Outbox.rows o)) as [|r l IH]; [done|].
  rewrite filter_cons. unfold planned in *. cbn [fmap list_fmap map]. rewrite fmap_cons in Hpl.
  destruct (Hpl (core r)) as (q & Hq & Hpos); [apply list_elem_of_here|].
  specialize (IH (fun c Hc => Hpl c (list_elem_of_further _ _ _ Hc))).
  change (sumz ?x) with (foldr Z.add 0 x) in *. cbn [foldr].
  assert (plan_of sid r = String.eqb (q_settlement q) sid /\ (core r).1.1.1.2 = q_settlement q /\
    Outbox.ev_payload (Outbox.event r) = asdict q /\ (core r).2 = asdict q) as (Hpo & Hsid & Hpay & Hpay').
  { unfold core in Hq. injection Hq as Ht Hi Hty _ Hp. unfold plan_of, core. rewrite Ht, Hi, Hty. cbn [fst snd]. split_and!; [|done|done|done].
    by rewrite andb_true_r. }
  rewrite Hsid, Hpay', <- Hpo. clear Hq. destruct (plan_of sid r) eqn:Hpr.
  - rewrite (decide_True (P:=Is_true true)) by done. cbn [sum_res]. rewrite Hpay, IH. done.
  - rewrite (decide_False (P:=Is_true false)) by (cbn; tauto). rewrite IH. done.
Qed.


Lemma plan_prefix rail leg : String.prefix "settlement-plan:" (plan_key rail leg) = true.
Proof. unfold plan_key. cbn. by destruct (rail ++ _)%string. Qed.

Lemma row_planned o r i : Outbox.rows o !! i = Some r -> planish r = true -> core r ∈ plans o.
Proof. intros Hr Hp. unfold plans. apply list_elem_of_fmap. exists r. split; [done|]. apply elem_of_select. eauto. Qed.

Lemma no_row_key_free key o : scalar (with_key key) (Outbox.rows o) = None -> Outbox.key_taken key o = false.
Proof.
  intros Hn. destruct (Outbox.key_taken key o) eqn:Hk; [|done]. unfold Outbox.key_taken in Hk.
  apply existsb_exists in Hk as ([i r] & Hin & Heq). apply list_elem_of_In, elem_of_map_to_list in Hin.
  pose proof (scalar_None _ _ _ _ Hn Hin) as Hf. unfold with_key in Hf. cbn in Heq. congruence.
Qed.

Lemma source_settlement_Some b sid s st : source_settlement b sid s = Some st -> settlements s !! sid = Some st.
Proof.
  unfold source_settlement. destruct (settlements s !! sid) as [x|]; [|done]. cbv zeta.
  repeat match goal with |- context [if ?c then None else _] => destruct c; [done|] end.
  destruct (if truthy _ then _ else _) as [e|]; [|done]. cbn. destruct (verifications s !! ev_verification e); [|done].
  by destruct (_ || _); [|intros [= ->]].
Qed.

Lemma plan_wf b q st t r t' :
  ts_wf t -> settlements (ledger t) !! q_settlement q = Some st -> rail_id q = b_rail b -> 0 < q_source q ->
  plan b q st t = (r, t') ->
  ts_wf t' /\ (forall c, c ∈ plans_of t -> c ∈ plans_of t') /\ queue t' = queue t /\ (forall u, r = Ok u -> plan_core q ∈ plans_of t').
Proof.
  intros Hwf Hst Hrail Hpos. unfold plan, bind at 1, get. cbv zeta.
  assert (Hsame : forall e, (Raise e, t) = (r, t') -> ts_wf t' /\ (forall c, c ∈ plans_of t -> c ∈ plans_of t') /\ queue t' = queue t /\
    (forall u, r = Ok u -> plan_core q ∈ plans_of t')) by (intros e [= <- <-]; by split_and!).
  destruct (scalar (with_key _) _) as [prior|] eqn:Hs.
  - apply scalar_Some in Hs as [Hk [i Hi]]. apply String.eqb_eq in Hk.
    destruct (json_eqb _ _) eqn:Heq; [|apply Hsame]. cbn. intros [= <- <-]. split_and!; [done..|]. intros u _.
    assert (Hp : planish prior = true) by (unfold planish, planish_of; by rewrite Hk, plan_prefix).
    pose proof (row_planned _ _ _ Hi Hp) as Hin. destruct (ts_plans _ Hwf _ Hin) as (q' & Hq' & _).
    assert (Hpay : Outbox.ev_payload (Outbox.event prior) = asdict q') by (unfold core, plan_core in Hq'; congruence).
    rewrite Hpay in Heq. apply json_eqb_asdict in Heq as <-. unfold plans_of. by rewrite <- Hq'.
  - unfold lift_res, bind at 1. rewrite reserved_spec by apply (ts_plans _ Hwf).
    destruct (Ledger.source_amount st <? _) eqn:Hcap; [apply Hsame|]. apply Z.ltb_ge in Hcap.
    pose proof (plans_emit "settlement" (q_settlement q) PLANNED (asdict q) (plan_key (b_rail b) (leg_id q)) _ (ts_outbox _ Hwf)) as [Hwf' Hpl].
    rewrite (no_row_key_free _ _ Hs) in Hpl. assert (planish_of PLANNED (plan_key (b_rail b) (leg_id q)) = true) as Hpk by (unfold planish_of; by rewrite plan_prefix). rewrite Hpk in Hpl.
    assert (Hne : String.eqb (plan_key (b_rail b) (leg_id q)) "" = false) by reflexivity. rewrite Hne in Hpl. cbn [andb negb app] in Hpl.
    unfold bind, led, emit, on_outbox.
    destruct (emit_total "settlement" (q_settlement q) PLANNED (plan_key (b_rail b) (leg_id q)) (asdict q) (ledger t)) as (x & l' & He).
    { by intros H%String.eqb_eq. }
    unfold emit, on_outbox in He.
    destruct (Outbox.emit _ _ _ _ _ (outbox (ledger t))) as [x' o']. cbn [snd] in *. injection He as -> <-. cbn. intros [= <- <-].
    rewrite <- Hrail in Hpl. change (_ :: plans _) with (plan_core q :: plans_of t) in Hpl.
    assert (Hin : forall c, c ∈ plan_core q :: plans_of t <-> c ∈ plans o') by (intros c; by rewrite Hpl).
    split_and!; [|intros c Hc; apply Hin; by right|done|intros u _; apply Hin; by left].
    split; cbn.
    + done.
    + intros c Hc%Hin. apply elem_of_cons in Hc as [->|Hc]; [by exists q|by apply (ts_plans _ Hwf)].
    + intros sid st' Hst'. unfold plans_of. cbn. rewrite (planned_perm _ _ _ Hpl). unfold planned. cbn [map].
      change (sumz (?a :: ?l)) with (a + sumz l). fold (planned sid (plans_of t)). cbn [fst snd plan_core].
      destruct (String.eqb_spec (q_settlement q) sid) as [<-|Hn]; [|pose proof (ts_cap _ Hwf _ _ Hst'); lia].
      rewrite Hst in Hst'. injection Hst' as <-. change (amount_of (asdict q)) with (q_source q). unfold plans_of in *. lia.
    + intros id p Hid. destruct (ts_jobs _ Hwf id p Hid) as (q' & -> & Hq'). exists q'. split; [done|]. apply Hin. by right.
Qed.

(** ** The queue *)

Lemma job_enqueue_wf q b fresh t r t' :
  ts_wf t -> plan_core q ∈ plans_of t -> que (Jobs.enqueue LEG (asdict q) (leg_key (b_rail b) (leg_id q)) 100 None fresh) t = (r, t') ->
  ts_wf t' /\ ledger t' = ledger t.
Proof.
  intros Hwf Hq. unfold que, Jobs.enqueue.
  assert (String.eqb (leg_key (b_rail b) (leg_id q)) "" = false) as -> by reflexivity.
  unfold bind, get, modify, ret, raise. destruct (Jobs.job_with_key _ _); [intros [= <- <-]; by destruct t|]. cbn.
  destruct (bool_decide _) eqn:Hb; [intros [= <- <-]; by destruct t|]. apply bool_decide_eq_false, eq_None_not_Some in Hb.
  intros [= <- <-]. split; [|done]. destruct Hwf as [Ho Hpl Hc Hj]. split; [done..|].
  intros id p (j & Hid & Hk & Hp). cbn in Hid. apply lookup_insert_Some in Hid as [[<- <-]|[Hn Hid]].
  - cbn in Hp. exists q. by split.
  - destruct (Hj id p) as (q' & Hq' & Hin); [by exists j|]. by exists q'.
Qed.

Lemma enqueue_wf b ad q now fresh t r t' :
  ts_wf t -> enqueue b ad q now fresh t = (r, t') ->
  ts_wf t' /\ (forall c, c ∈ plans_of t -> c ∈ plans_of t') /\
  (forall id, r = Ok id -> plan_core q ∈ plans_of t' /\ rail_id q = b_rail b).
Proof.
  intros Hwf. unfold enqueue, bind at 1, lift_res.
  assert (Hsame : forall e, (Raise e, t) = (r, t') -> ts_wf t' /\ (forall c, c ∈ plans_of t -> c ∈ plans_of t') /\
    (forall id, r = Ok id -> plan_core q ∈ plans_of t' /\ rail_id q = b_rail b)) by (intros e [= <- <-]; by split_and!).
  destruct (validate_quote q b now) as [u|e] eqn:Hv; [|apply Hsame]. apply validate_Ok in Hv as (Hrail & _ & _ & _ & Hsrc & _).
  destruct (_ && _); [apply Hsame|]. destruct (negb _); [apply Hsame|]. unfold bind at 1, get.
  destruct (source_settlement _ _ _) as [st|] eqn:Hst; [|apply Hsame]. apply source_settlement_Some in Hst. unfold bind.
  destruct (plan b q st t) as [[u'|e] t1] eqn:Hp; destruct (plan_wf _ _ _ _ _ _ Hwf Hst Hrail (proj1 Hsrc) Hp) as (Hwf1 & Hsub & _ & Hin).
  - intros He. destruct (job_enqueue_wf _ _ _ _ _ _ Hwf1 (Hin u' eq_refl) He) as [Hwf2 Hl].
    assert (plans_of t' = plans_of t1) as -> by (unfold plans_of; by rewrite Hl). split_and!; [done..|]. intros id _. by split; [apply (Hin u')|].
  - intros [= <- <-]. by split_and!.
Qed.

(** * The world's invariant *)

(** A transaction may plan, never take a plan back. *)
Definition extends (t t' : TS) : Prop := ts_wf t -> ts_wf t' /\ (forall c, c ∈ plans_of t -> c ∈ plans_of t').

#[export] Instance extends_preorder : PreOrder extends.
Proof.
  split.
  - intros t Hwf. by split.
  - intros t u v H1 H2 Hwf. destruct (H1 Hwf) as [Hu Hs]. destruct (H2 Hu) as [Hv Hs']. split; [done|auto].
Qed.

Lemma steady_extends t t' : steady_ts t t' -> extends t t'.
Proof. intros Hs Hwf. split; [by eapply steady_wf|]. intros c Hc. by rewrite (steady_plans _ _ Hs Hwf). Qed.

Lemma enqueue_extends b ad q now fresh : keeps extends (enqueue b ad q now fresh).
Proof.
  intros t Hwf. destruct (enqueue b ad q now fresh t) as [r t'] eqn:He.
  destruct (enqueue_wf _ _ _ _ _ _ _ _ Hwf He) as (Hwf' & Hs & _). by split.
Qed.

Definition leg_of (s : string * Quote * string) : string * string := (s.1.1, s.2).

Record winv (w : World) : Prop := {
  w_base : ts_wf (base w);
  w_pending : forall t, extends t (pending w t);
  w_once : NoDup (map leg_of (sends w));
  w_sends : forall s, s ∈ sends w -> exists q, s = (rail_id q, q, leg_id q) /\ plan_core q ∈ plans_of (base w);
}.

(** Everything but sending. *)
Record quiet (w w' : World) : Prop := {
  qt_base : extends (base w) (base w');
  qt_pending : (forall t, extends t (pending w t)) -> forall t, extends t (pending w' t);
  qt_sends : sends w' = sends w;
}.

#[export] Instance quiet_preorder : PreOrder quiet.
Proof.
  split.
  - intros w. by split.
  - intros u v w [B1 P1 S1] [B2 P2 S2]. split; [by etransitivity|auto|congruence].
Qed.

Lemma quiet_winv w w' : quiet w w' -> winv w -> winv w'.
Proof.
  intros [B P S] [Hb Hp Ho Hs]. destruct (B Hb) as [Hb' Hsub]. split; [done|auto|by rewrite S|].
  intros s. rewrite S. intros (q & -> & Hq)%Hs. exists q. auto.
Qed.

Lemma on_view_quiet {A} (m : PyM TS A) : keeps extends m -> keeps quiet (on_view m).
Proof. intros Hm w. split; cbn; [reflexivity| |done]. intros Hp t. etransitivity; [apply Hp|apply Hm]. Qed.

Lemma own_quiet {A} (m : PyM TS A) : keeps extends m -> keeps quiet (own m).
Proof.
  intros Hm w. unfold own. specialize (Hm (base w)). destruct (m (base w)) as [[a|e] t]; [|reflexivity]. by split.
Qed.

Lemma led_extends {A} (m : PyM Ledger.DB A) : keeps steady m -> keeps extends (led m).
Proof. intros Hm t. by apply steady_extends, led_steady. Qed.

#[local] Hint Resolve on_view_quiet own_quiet led_extends land_steady enqueue_extends : keeps.

Lemma settle_quiet b rd q reference ob : keeps quiet (settle b rd q reference ob).
Proof. unfold settle. keeps_tac. Qed.

Lemma replan_quiet b ad q now fresh : keeps quiet (replan b ad q now fresh).
Proof. unfold replan. keeps_tac. Qed.

(** An idempotent rail remembers what it was sent. *)
Definition remembers (b : RailBinding) (ad : SettlementAdapter) : Prop :=
  forall h leg, (exists q, (b_rail b, q, leg) ∈ h) -> lookup_leg ad h leg <> Ok None.

(** A send follows a plan that is committed, on a rail that knows nothing of
    the leg. *)
Lemma submission_winv b ad q now fresh w r w' :
  winv w -> remembers b ad -> plan_core q ∈ plans_of (base w) -> submission b ad q now fresh w = (r, w') -> winv w'.
Proof.
  intros Hw Hrem Hq. unfold submission, bind at 1, get.
  destruct (scalar _ _) as [ack|]; [intros [= <- <-]; done|]. unfold lift_res, bind at 1.
  destruct (lookup_leg ad (sends w) (leg_id q)) as [found|e] eqn:Hl; [|intros [= <- <-]; done].
  assert (Hack : forall reference, keeps quiet (if String.eqb reference "" then raise TransientError "settlement submission outcome unknown"
    else let* _ := own (led (emit "settlement" (q_settlement q) "SETTLEMENT_LEG_ACKNOWLEDGED" (ack_key (b_rail b) (leg_id q))
           (JObj [("reference", JStr reference); ("legId", JStr (leg_id q)); ("cashState", JStr "IN_FLIGHT"); ("debtApplied", JBool false)]%string))) in
         ret reference)) by (intros reference; keeps_tac).
  destruct found as [x|].
  - unfold bind at 1, ret at 1. intros H. eapply quiet_winv; [by eapply (keeps_run _ _ _ _ _ (Hack x))|done].
  - unfold bind at 1. destruct ((replan b ad q now fresh ;;; call_send b ad q) w) as [y w2] eqn:Hsend.
    enough (winv w2) as Hw2.
    { destruct y as [x|e]; [|by intros [= <- <-]]. intros H. eapply quiet_winv; [by eapply (keeps_run _ _ _ _ _ (Hack x))|done]. }
    unfold bind in Hsend. destruct (replan b ad q now fresh w) as [[u|e] w1] eqn:Hre;
      pose proof (quiet_winv _ _ (keeps_run _ _ _ _ _ (replan_quiet b ad q now fresh) Hre) Hw) as Hw1; [|by injection Hsend as <- <-].
    pose proof (keeps_run _ _ _ _ _ (replan_quiet b ad q now fresh) Hre) as [Hb1 _ Hs1].
    assert (Hrail : rail_id q = b_rail b).
    { unfold replan, try_except, bind, on_view in Hre. destruct (enqueue b ad q now fresh (view w)) as [[id|e] t'] eqn:He.
      - destruct (enqueue_wf _ _ _ _ _ _ _ _ (proj1 (w_pending _ Hw _ (w_base _ Hw))) He) as (_ & _ & Hok). by apply (Hok id).
      - cbn in Hre. destruct (exn_kind e); discriminate Hre. }
    unfold call_send, bind, get, modify, lift_res in Hsend. injection Hsend as <- <-. destruct Hw1 as [Wb Wp Wo Ws].
    assert (Hfree : (b_rail b, leg_id q) ∉ map leg_of (sends w)).
    { intros ([[rl q'] leg] & Heq & Hin)%list_elem_of_fmap. cbn in Heq. injection Heq as E1 E2. subst rl leg. eapply Hrem; [by exists q'|exact Hl]. }
    split; cbn; [done|done| |].
    + rewrite map_app, Hs1. cbn. apply NoDup_app. split_and!; [by rewrite <- Hs1| |apply NoDup_singleton].
      intros x Hx ->%list_elem_of_singleton. by apply Hfree.
    + intros s [Hin|Hin%list_elem_of_singleton]%elem_of_app; [by apply Ws|]. subst s. exists q. rewrite Hrail. split; [done|].
      by apply (Hb1 (w_base _ Hw)).
Qed.

Lemma handle_winv b ad rd now fresh job q w r w' :
  winv w -> remembers b ad -> quote_of (Jobs.c_payload job) = Ok q -> plan_core q ∈ plans_of (base w) ->
  handle b ad rd now fresh job w = (r, w') -> winv w'.
Proof.
  intros Hw Hrem Hqu Hq. unfold handle, lift_res, bind at 1. rewrite Hqu. unfold bind at 1, get.
  destruct (settlements (ledger (view w)) !! q_settlement q) as [st|]; [|by intros [= <- <-]].
  unfold bind at 1. destruct (submission b ad q now fresh w) as [[x|e] w1] eqn:Hs;
    pose proof (submission_winv _ _ _ _ _ _ _ _ Hw Hrem Hq Hs) as Hw1; [|by intros [= <- <-]].
  unfold bind at 1. destruct (observe ad (sends w1) x) as [ob|e]; [|by intros [= <- <-]].
  intros H. eapply quiet_winv; [|exact Hw1]. by eapply (keeps_run _ _ _ _ _ (settle_quiet b rd q x ob)).
Qed.

(** ** The queue's own operations *)

Definition jobs_steady (d d' : Jobs.DB unit) : Prop :=
  forall id j', Jobs.jobs d' !! id = Some j' -> exists j, Jobs.jobs d !! id = Some j /\ Jobs.kind j' = Jobs.kind j /\ Jobs.payload j' = Jobs.payload j.

#[export] Instance jobs_steady_preorder : PreOrder jobs_steady.
Proof.
  split.
  - intros d id j Hj. by exists j.
  - intros d e f H1 H2 id j Hj. destruct (H2 id j Hj) as (k & Hk & -> & ->). by apply H1.
Qed.

Lemma fenced_steady c f :
  (forall j, Jobs.kind (f j) = Jobs.kind j /\ Jobs.payload (f j) = Jobs.payload j) -> keeps jobs_steady (Jobs.fenced_update (B:=unit) c f).
Proof.
  intros Hf d. unfold Jobs.fenced_update, bind, get. destruct (Jobs.jobs d !! Jobs.c_job_id c) as [j|] eqn:Hj; [|reflexivity].
  destruct (Jobs.holds c j (Jobs.now d)); [|reflexivity]. cbn. intros id j' Hj'. cbn in Hj'.
  apply lookup_insert_Some in Hj' as [[<- <-]|[_ Hj']]; [exists j; split; [done|apply Hf]|by exists j'].
Qed.

#[local] Hint Extern 1 (keeps jobs_steady (Jobs.fenced_update _ _)) => apply fenced_steady; done : keeps.

Lemma complete_steady job : keeps jobs_steady (Jobs.complete (B:=unit) job).
Proof. apply fenced_steady. done. Qed.

Lemma worker_fail_steady p u job k reason : keeps jobs_steady (Jobs.worker_fail (B:=unit) p u job k reason).
Proof.
  unfold Jobs.worker_fail, Jobs.fail. cbv zeta. keeps_tac.
Qed.

Lemma fail_steady cn p u job k e : keeps jobs_steady (Jobs.fail_exception (B:=unit) cn p u job k e).
Proof. apply worker_fail_steady. Qed.

Lemma que_extends {A} (m : PyM (Jobs.DB unit) A) : keeps jobs_steady m -> keeps extends (que m).
Proof.
  intros Hm t. apply steady_extends. unfold que. specialize (Hm (queue t)). destruct (m (queue t)) as [r d]. cbn in *.
  split; [reflexivity|]. intros id x (j' & Hj' & Hk & Hp). destruct (Hm id j' Hj') as (j & Hj & Hk' & Hp'). exists j. by rewrite <- Hk', <- Hp'.
Qed.

(** ** Transactions *)

Lemma begin_winv {A} (m : PyM World A) w :
  (forall r w', m (w <| pending := id |>) = (r, w') -> winv w') -> winv (begin m w).2.
Proof.
  intros H. unfold begin. destruct (m (w <| pending := id |>)) as [[a|e] w'] eqn:Hm; cbn; destruct (H _ _ eq_refl) as [Hb Hp Ho Hs].
  - destruct (Hp _ Hb) as [Hv Hsub]. split; cbn; [done|intros t; reflexivity|done|].
    intros s (q & -> & Hq)%Hs. exists q. auto.
  - split; cbn; [done|intros t; reflexivity|done|done].
Qed.

Lemma idle_winv w : winv w -> winv (w <| pending := id |>).
Proof. intros [Hb _ Ho Hs]. split; [done|intros t; cbn; reflexivity|done|done]. Qed.

Lemma run_handler_winv b ad rd now fresh job id w :
  winv w -> remembers b ad -> leg_job (base w) id (Jobs.c_payload job) -> winv (run_handler b ad rd now fresh job w).2.
Proof.
  intros Hw Hrem Hid. apply begin_winv. intros r w'. destruct (ts_jobs _ (w_base _ Hw) _ _ Hid) as (q & Hp & Hq).
  assert (Hqu : quote_of (Jobs.c_payload job) = Ok q) by (rewrite Hp; by destruct q).
  unfold bind. destruct (handle b ad rd now fresh job _) as [[x|e] w1] eqn:Hh;
    pose proof (handle_winv _ _ _ _ _ _ _ _ _ _ (idle_winv _ Hw) Hrem Hqu Hq Hh) as Hw1; [|by intros [= <- <-]].
  intros H. eapply quiet_winv; [|exact Hw1].
  by eapply (keeps_run _ _ _ _ _ (on_view_quiet _ (que_extends _ (complete_steady job)))).
Qed.

Lemma run_leg_winv cn p u b ad rd now fresh job id w :
  winv w -> remembers b ad -> leg_job (base w) id (Jobs.c_payload job) -> winv (run_leg cn p u b ad rd now fresh job w).2.
Proof.
  intros Hw Hrem Hid. pose proof (run_handler_winv b ad rd now fresh job id w Hw Hrem Hid) as Hrun.
  unfold run_leg, try_except, bind. destruct (run_handler b ad rd now fresh job w) as [[x|e] w1]; [done|]. cbn in Hrun.
  assert (Hfail : forall k, winv (own (que (Jobs.fail_exception cn p u job k e)) w1).2).
  { intros k. eapply quiet_winv; [|exact Hrun]. apply own_quiet, que_extends, fail_steady. }
  destruct (exn_kind e); first [apply Hfail|done].
Qed.

(** * Any order of events *)

(** What the rest of the system may do to the tables: no plans, no legs' jobs,
    and a settlement keeps its source amount; settlements appear unplanned. *)
Record others (t t' : TS) : Prop := {
  ot_outbox : Outbox.outbox_wf (outbox (ledger t)) -> Outbox.outbox_wf (outbox (ledger t')) /\ plans_of t' ≡ₚ plans_of t;
  ot_settlements : forall sid st', settlements (ledger t') !! sid = Some st' ->
    (exists st, settlements (ledger t) !! sid = Some st /\ Ledger.source_amount st' = Ledger.source_amount st) \/
    (0 <= Ledger.source_amount st' /\ forall c, c ∈ plans_of t -> c.1.1.1.2 <> sid);
  ot_jobs : forall id p, leg_job t' id p -> leg_job t id p;
}.

Inductive step (w : World) : World -> Prop :=
| step_enqueue b ad q now fresh : step w (begin (on_view (enqueue b ad q now fresh)) w).2
| step_run cn p u b ad rd now fresh job id :
    remembers b ad -> leg_job (base w) id (Jobs.c_payload job) -> step w (run_leg cn p u b ad rd now fresh job w).2
| step_others t : others (base w) t -> step w (w <| base := t |>).

Lemma planned_none sid l : (forall c : Core, c ∈ l -> c.1.1.1.2 <> sid) -> planned sid l = 0.
Proof.
  intros Hn. unfold planned. induction l as [|c l IH]; [done|]. cbn [map]. change (sumz (?a :: ?k)) with (a + sumz k).
  rewrite IH by (intros d Hd; apply Hn; by right). destruct (String.eqb_spec c.1.1.1.2 sid) as [He|]; [|done].
  destruct (Hn c); [by left|done].
Qed.

Lemma others_extends t t' : others t t' -> extends t t'.
Proof.
  intros [Ho Hst Hj] Hwf. destruct (Ho (ts_outbox _ Hwf)) as [Ho' Hp]. destruct Hwf as [_ Hpl Hc Hjb].
  split; [|intros c; by rewrite Hp]. split; [done|intros c; rewrite Hp; apply Hpl| |].
  - intros sid st' Hs'. rewrite (planned_perm _ _ _ Hp). destruct (Hst _ _ Hs') as [(st & Hs & ->)|[Hpos Hn]]; [by apply Hc|].
    by rewrite planned_none.
  - intros id p Hid%Hj. destruct (Hjb _ _ Hid) as (q & -> & Hq). exists q. by rewrite Hp.
Qed.

Lemma step_winv w w' : step w w' -> winv w -> winv w'.
Proof.
  intros H Hw. destruct H as [b ad q now fresh|cn p u b ad rd now fresh job id Hrem Hid|t Ht].
  - apply begin_winv. intros r w' Hr. eapply quiet_winv; [|apply idle_winv, Hw].
    by eapply (keeps_run _ _ _ _ _ (on_view_quiet _ (enqueue_extends b ad q now fresh))).
  - by eapply run_leg_winv.
  - eapply quiet_winv; [|exact Hw]. split; cbn; [by apply others_extends|done|done].
Qed.

Lemma rtc_step_winv w w' : rtc step w w' -> winv w -> winv w'.
Proof. induction 1 as [|w u w' Hs _ IH]; [done|]. intros Hw. apply IH. by eapply step_winv. Qed.

(** What was sent to the rails against a settlement. *)
Definition sent (sid : string) (h : Sends) : Z :=
  sumz (map (fun s => if String.eqb (q_settlement s.1.2) sid then q_source s.1.2 else 0) h).

Definition core_leg (c : Core) : string * string := match quote_of c.2 with Ok q => (rail_id q, leg_id q) | Raise _ => (""%string, ""%string) end.

Lemma sent_planned w sid : winv w -> sent sid (sends w) <= planned sid (plans_of (base w)).
Proof.
  intros [Hb _ Ho Hs]. set (cores := map (fun s : string * Quote * string => plan_core s.1.2) (sends w)).
  assert (Hlegs : map core_leg cores = map leg_of (sends w)).
  { unfold cores. rewrite map_map. apply map_ext_in. intros s Hin%list_elem_of_In. destruct (Hs _ Hin) as (q & -> & _). by destruct q. }
  assert (Hnd : NoDup cores) by (rewrite <- Hlegs in Ho; by apply NoDup_fmap_1 in Ho).
  assert (Hin : forall c, c ∈ cores -> c ∈ plans_of (base w)).
  { intros c (s & -> & Hin)%list_elem_of_fmap. by destruct (Hs _ Hin) as (q & -> & Hq). }
  pose proof (NoDup_submseteq _ _ Hnd Hin) as Hsub. apply submseteq_Permutation in Hsub as [rest Hperm].
  assert (Hsent : sent sid (sends w) = planned sid cores).
  { unfold sent, planned, cores. by rewrite map_map. }
  rewrite Hsent, (planned_perm _ _ _ Hperm). unfold planned. rewrite map_app, sumz_app.
  enough (0 <= planned sid rest) as Hr by (unfold planned in Hr; lia).
  assert (Hpos : forall c, c ∈ rest -> exists q, c = plan_core q /\ 0 < q_source q).
  { intros c Hc. apply (ts_plans _ Hb). rewrite Hperm. apply elem_of_app. by right. }
  clear -Hpos. unfold planned. induction rest as [|c l IH]; [done|]. cbn [map]. change (sumz (?a :: ?k)) with (a + sumz k).
  destruct (Hpos c) as (q & -> & Hq); [by left|]. specialize (IH (fun c Hc => Hpos c (list_elem_of_further _ _ _ Hc))).
  change (amount_of (plan_core q).2) with (q_source q). destruct (String.eqb _ _); lia.
Qed.


(** * Cash *)

Definition cash_same (l l' : Ledger.DB) : Prop := receipts l' = receipts l /\ allocations l' = allocations l.
Definition tcash (t t' : TS) : Prop := cash_same (ledger t) (ledger t').

#[export] Instance cash_same_preorder : PreOrder cash_same.
Proof. split; [done|]. intros l m n [R1 A1] [R2 A2]. split; congruence. Qed.

#[export] Instance tcash_preorder : PreOrder tcash.
Proof. split; [done|]. intros l m n [R1 A1] [R2 A2]. split; congruence. Qed.

(** Statements that leave receipts and allocations alone. *)
Record calm (w w' : World) : Prop := {
  cm_base : tcash (base w) (base w');
  cm_pending : (forall t, tcash t (pending w t)) -> forall t, tcash t (pending w' t);
}.

#[export] Instance calm_preorder : PreOrder calm.
Proof.
  split.
  - intros w. by split.
  - intros u v w [B1 P1] [B2 P2]. split; [by etransitivity|auto].
Qed.

Lemma same_rows_cash_same l l' : same_rows l l' -> cash_same l l'.
Proof. by intros (c & o & ->). Qed.

Lemma emit_cash a i t k p : keeps cash_same (emit a i t k p).
Proof. intros l. destruct (emit a i t k p l) as [r l'] eqn:He. by apply emit_same in He as (H%same_rows_cash_same & _). Qed.

Lemma exception_cash code table id d : keeps cash_same (exception code table id d).
Proof. intros l. destruct (exception code table id d l) as [r l'] eqn:He. by apply exception_same in He as (H%same_rows_cash_same & _). Qed.

Lemma led_cash {A} (m : PyM Ledger.DB A) : keeps cash_same m -> keeps tcash (led m).
Proof. intros Hm t. unfold led. specialize (Hm (ledger t)). by destruct (m (ledger t)). Qed.

Lemma que_cash {A} (m : PyM (Jobs.DB unit) A) : keeps tcash (que m).
Proof. intros t. unfold que. by destruct (m (queue t)). Qed.

Lemma on_view_calm {A} (m : PyM TS A) : keeps tcash m -> keeps calm (on_view m).
Proof. intros Hm w. split; cbn; [reflexivity|]. intros Hp t. etransitivity; [apply Hp|apply Hm]. Qed.

Lemma own_calm {A} (m : PyM TS A) : keeps tcash m -> keeps calm (own m).
Proof. intros Hm w. unfold own. specialize (Hm (base w)). destruct (m (base w)) as [[a|e] t]; [by split|reflexivity]. Qed.

#[local] Hint Resolve emit_cash exception_cash led_cash que_cash on_view_calm own_calm : keeps.
#[local] Hint Extern 1 (calm _ _) => by split : keeps.

Lemma enqueue_cash b ad q now fresh : keeps tcash (enqueue b ad q now fresh).
Proof. unfold enqueue, plan. keeps_tac. Qed.

#[local] Hint Resolve enqueue_cash : keeps.

Lemma submission_calm b ad q now fresh : keeps calm (submission b ad q now fresh).
Proof. unfold submission, replan, call_send. keeps_tac. Qed.

Lemma land_cash b rd q reference fact l result l' :
  land b rd q reference fact l = (Ok result, l') -> CashEngine.cash_wf l -> CashEngine.cash_wf l' /\ CashEngine.durable l l'.
Proof.
  unfold land. intros (x & l1 & Hrec & H)%bind_Ok Hl. destruct (CashEngine.receipt_step _ _ _ _ _ _ Hrec Hl) as [Hl1 Hd].
  apply bind_Ok in H as (u & l2 & Hx & H). run_inv H.
  enough (cash_same l1 l2) as [R A].
  { destruct (CashEngine.step_cash l1 l2 (CashEngine.step_world _ _ R A) Hl1) as [Hl' Hd']. split; [done|by eapply CashEngine.durable_trans]. }
  refine (keeps_run cash_same _ _ _ _ _ Hx). keeps_tac.
Qed.

(** The grounds on which a leg may touch cash. *)
Definition landed (b : RailBinding) (rd : option CashEngine.CashEvidenceReader) (q : Quote) (reference : string) (ob : LegObservation) : Prop :=
  o_reference ob = reference /\ o_state ob = "DESTINATION_RECEIVED"%string /\
  exists r ref fact, rd = Some r /\ receipt_reference ob = Some ref /\ CashEngine.receipt r ref = Some fact /\
    CashEngine.rf_source_kind fact = "SETTLEMENT"%string /\ CashEngine.rf_settlement fact = Some (q_settlement q).

(** An allocation the cash reconciler mirrored, and the tables after it. *)
Definition mirrored (l l' : Ledger.DB) : Prop :=
  exists r ref v a l2 aid, cash_same l v /\ CashEngine.record_confirmed_allocation ref (Some r) v = (Ok a, l2) /\
    CashEngine.result_id a = Some aid /\ cash_same l2 l'.

Lemma settle_cash b rd q reference ob w r w' :
  (forall t, tcash t (pending w t)) -> settle b rd q reference ob w = (r, w') ->
  (tcash (base w) (base w') /\ (forall t, tcash t (pending w' t)) /\
     (r = Ok tt -> o_reference ob = reference /\ o_state ob = "REFUNDED"%string)) \/
  (landed b rd q reference ob /\ exists rd' ref fact result l', land b rd' q ref fact (ledger (base w)) = (Ok result, l') /\
     base w' = (base w) <| ledger := l' |> /\ (r = Ok tt -> mirrored l' (ledger (view w')))).
Proof.
  intros Hp. unfold settle.
  assert (Hstop : forall e, (Raise e, w) = (r, w') ->
    tcash (base w) (base w') /\ (forall t, tcash t (pending w' t)) /\ (r = Ok tt -> o_reference ob = reference /\ o_state ob = "REFUNDED"%string))
    by (intros e [= <- <-]; done).
  destruct (String.eqb_spec (o_reference ob) reference) as [Href|]; [|intros Hx; left; eapply Hstop; exact Hx]. cbn [negb].
  destruct (mem_str _ _); [intros Hx; left; eapply Hstop; exact Hx|]. destruct (String.eqb_spec (o_state ob) "REFUNDED") as [Hst|_].
  { intros H. left. match type of H with ?m w = _ => assert (Hm : keeps calm m) by keeps_tac end.
    destruct (keeps_run _ _ _ _ _ Hm H) as [B P]. split_and!; auto. }
  destruct (String.eqb_spec (o_state ob) "DESTINATION_RECEIVED") as [Hst|]; [|intros Hx; left; eapply Hstop; exact Hx].
  destruct (receipt_reference ob) as [ref|] eqn:Hr; [|intros Hx; left; eapply Hstop; exact Hx].
  destruct (negb _ || negb _); [intros Hx; left; eapply Hstop; exact Hx|]. change (default ""%string (Some ref)) with ref. cbv zeta.
  destruct rd as [rd'|]; [|intros Hx; left; eapply Hstop; exact Hx]. destruct (CashEngine.receipt rd' ref) as [fact|] eqn:Hfact; [|intros Hx; left; eapply Hstop; exact Hx].
  destruct (String.eqb_spec (CashEngine.rf_source_kind fact) "SETTLEMENT") as [Hk|]; [|intros Hx; left; eapply Hstop; exact Hx]. cbn [negb orb].
  destruct (bool_decide _) eqn:Hsid; [|intros Hx; left; eapply Hstop; exact Hx]. apply bool_decide_eq_true_1 in Hsid. cbn [negb].
  unfold bind at 1, own, led at 1. destruct (land b rd' q ref fact (ledger (base w))) as [[result|e] l'] eqn:Hland; [|intros Hx; left; eapply Hstop; exact Hx].
  intros H. right. split; [split; [done|split; [done|by exists rd', ref, fact]]|]. exists rd', ref, fact, result, l'. split; [done|].
  destruct (CashEngine.result_id result) as [x|]; [|by injection H as <- <-].
  set (w1 := w <| base := (base w) <| ledger := l' |> |>) in *.
  assert (Hv : cash_same l' (ledger (view w1))) by exact (Hp ((base w) <| ledger := l' |>)).
  unfold bind at 1, on_view at 1, led at 1 in H.
  destruct (CashEngine.record_confirmed_allocation ref (Some rd') (ledger (view w1))) as [[a|e] l2] eqn:Hal; cbn [fst] in H; [|by injection H as <- <-].
  destruct (CashEngine.result_id a) as [aid|] eqn:Haid; [|by injection H as <- <-].
  set (w2 := w1 <| pending := _ |>) in H.
  assert (Hv2 : ledger (view w2) = l2) by (unfold w2, view; cbn; unfold led; unfold view in Hal; cbn in Hal; by rewrite Hal).
  unfold bind, on_view, ret in H.
  destruct (led (emit "settlement" (q_settlement q) "SETTLEMENT_LEG_ALLOCATED" ("settlement-allocated:" ++ b_rail b ++ ":" ++ leg_id q)
              (JObj [("reference", JStr reference); ("allocationId", JStr aid); ("cashState", JStr "ALLOCATED")]%string)) (view w2)) as [z t3] eqn:He.
  assert (Hc : cash_same (ledger (view w2)) (ledger t3)) by (by eapply (keeps_run tcash), He; apply led_cash, emit_cash).
  cbn [fst] in H. destruct z as [z|e]; injection H as <- <-; (split; [done|]); [|done].
  intros _. exists rd', ref, (ledger (view w1)), a, l2, aid. split_and!; try done.
  match goal with |- cash_same _ (ledger (view ?x)) => assert (view x = t3) as -> by exact (f_equal snd He) end. by rewrite <- Hv2.
Qed.

Lemma mirrored_cash l l' : mirrored l l' -> CashEngine.cash_wf l -> CashEngine.cash_wf l' /\ CashEngine.durable l l'.
Proof.
  intros (r & ref & v & a & l2 & aid & [R1 A1] & Hal & _ & [R2 A2]) Hl.
  destruct (CashEngine.step_cash _ _ (CashEngine.step_world _ _ R1 A1) Hl) as [Hv D1].
  destruct (CashEngine.allocation_step _ _ _ _ _ Hal Hv) as [H2 D2].
  destruct (CashEngine.step_cash _ _ (CashEngine.step_world _ _ R2 A2) H2) as [H3 D3].
  split; [done|]. eapply CashEngine.durable_trans; [exact D1|]. by eapply CashEngine.durable_trans.
Qed.

(** What the rail says of the submission of a job's quote. *)
Definition observed (ad : SettlementAdapter) (job : Jobs.ClaimedJob) (q : Quote) (ob : LegObservation) : Prop :=
  quote_of (Jobs.c_payload job) = Ok q /\ exists h, observe ad h (o_reference ob) = Ok ob.

Lemma handle_cash b ad rd now fresh job w r w1 :
  (forall t, tcash t (pending w t)) -> handle b ad rd now fresh job w = (r, w1) ->
  (tcash (base w) (base w1) /\ (forall t, tcash t (pending w1 t)) /\
     (r = Ok tt -> exists q ob, observed ad job q ob /\ o_state ob = "REFUNDED"%string)) \/
  (exists q ob, observed ad job q ob /\ landed b rd q (o_reference ob) ob /\
     exists rd' ref fact result l0, cash_same (ledger (base w)) l0 /\ land b rd' q ref fact l0 = (Ok result, ledger (base w1)) /\
       (r = Ok tt -> mirrored (ledger (base w1)) (ledger (view w1)))).
Proof.
  intros Hp. unfold handle, lift_res, bind at 1. destruct (quote_of (Jobs.c_payload job)) as [q|e] eqn:Hq; [|intros [= <- <-]; by left].
  unfold bind at 1, get. destruct (settlements (ledger (view w)) !! q_settlement q); [|intros [= <- <-]; by left].
  unfold bind at 1. destruct (submission b ad q now fresh w) as [[x|e] w2] eqn:Hs;
    destruct (keeps_run _ _ _ _ _ (submission_calm b ad q now fresh) Hs) as [B1 P1]; [|intros [= <- <-]; left; by split_and!; [|apply P1|]].
  unfold bind at 1. destruct (observe ad (sends w2) x) as [ob|e] eqn:Hob; [|intros [= <- <-]; left; by split_and!; [|apply P1|]].
  unfold bind. intros Hset. specialize (P1 Hp). destruct (settle_cash _ _ _ _ _ _ _ _ P1 Hset) as [(B2 & P2 & Hok)|(Hland & rd' & ref & fact & result & l' & Hl' & Hb & Hok)].
  - left. split_and!; [by etransitivity|done|]. intros Hr. destruct (Hok Hr) as [Hx Hst]. exists q, ob. split; [|done].
    split; [done|]. exists (sends w2). by rewrite Hx.
  - right. pose proof Hland as (Hx & _). exists q, ob. split_and!; [split; [done|exists (sends w2); by rewrite Hx]|by rewrite Hx|].
    exists rd', ref, fact, result, (ledger (base w2)). rewrite Hb. by split_and!.
Qed.

Lemma cash_same_durable l l' : cash_same l l' -> CashEngine.cash_wf l -> CashEngine.cash_wf l' /\ CashEngine.durable l l'.
Proof. intros [R A]. by apply CashEngine.step_cash, CashEngine.step_world. Qed.

(** C28: A source send is not repayment, and real cash is never taken back:
    whatever a worker's run ends in, receipts and allocations keep their
    invariant and their rows; they change only when the rail's observation of
    the job's submission says DESTINATION_RECEIVED and the cash reader's fact
    belongs to the leg's settlement; and a run that succeeds either saw a
    refund and touched no cash, or mirrored a confirmed allocation. *)
Theorem cash_needs_destination b ad rd now fresh job w r w' :
  CashEngine.cash_wf (ledger (base w)) -> run_handler b ad rd now fresh job w = (r, w') ->
  let l := ledger (base w) in let l' := ledger (base w') in
  CashEngine.cash_wf l' /\ CashEngine.durable l l' /\
  (cash_same l l' \/ exists q ob, observed ad job q ob /\ landed b rd q (o_reference ob) ob) /\
  (r = Ok tt -> exists q ob, observed ad job q ob /\
     ((o_state ob = "REFUNDED"%string /\ cash_same l l') \/ (landed b rd q (o_reference ob) ob /\ exists l1, mirrored l1 l'))).
Proof.
  intros Hl. cbv zeta. unfold run_handler, begin, bind. set (w0 := w <| pending := id |>).
  destruct (handle b ad rd now fresh job w0) as [y w1] eqn:Hh.
  pose proof (keeps_run tcash _ _ _ _ (que_cash (Jobs.complete job)) (surjective_pairing (que (Jobs.complete job) (view w1)))) as Hc.
  apply handle_cash in Hh; [|done].
  destruct Hh as [(B & P & Hok)|(q & ob & Hobs & Hland & rd' & ref & fact & result & l0 & B & Hl' & Hok)].
  - destruct (cash_same_durable _ _ B Hl) as [H1 H2].
    destruct y as [[]|e]; [|intros [= <- <-]; split_and!; [done|done|by left|done]].
    unfold on_view. destruct (que (Jobs.complete job) (view w1)) as [[z|e] t3] eqn:Hq; cbn [fst]; intros [= <- <-];
      [|split_and!; [done|done|by left|done]].
    assert (Hv : cash_same (ledger (base w)) (ledger t3)) by (etransitivity; [exact B|]; etransitivity; [apply P|exact Hc]).
    change (pending w1 (base w1)) with (view w1). rewrite Hq. cbn [base snd].
    destruct (cash_same_durable _ _ Hv Hl) as [H3 H4]. split_and!; [done|done|by left|].
    intros _. destruct (Hok eq_refl) as (q & ob & Hobs & Hst). exists q, ob. split; [done|]. by left.
  - destruct (cash_same_durable _ _ B Hl) as [H1 H2]. destruct (land_cash _ _ _ _ _ _ _ _ Hl' H1) as [H3 H4].
    pose proof (CashEngine.durable_trans _ _ _ H2 H4) as H5.
    destruct y as [[]|e]; [|intros [= <- <-]; split_and!; [done|done|right; by exists q, ob|done]].
    unfold on_view. destruct (que (Jobs.complete job) (view w1)) as [[z|e] t3] eqn:Hq; cbn [fst]; intros [= <- <-];
      [|split_and!; [done|done|right; by exists q, ob|done]].
    assert (Hm : mirrored (ledger (base w1)) (ledger t3)).
    { destruct (Hok eq_refl) as (r1 & ref1 & v & a & l2 & aid & C1 & Hal & Haid & C2).
      exists r1, ref1, v, a, l2, aid. split_and!; try done. by etransitivity. }
    change (pending w1 (base w1)) with (view w1). rewrite Hq. cbn [base snd].
    destruct (mirrored_cash _ _ Hm H3) as [H6 H7]. split_and!; [done|by eapply CashEngine.durable_trans|right; by exists q, ob|].
    intros _. exists q, ob. split; [done|]. right. split; [done|by exists (ledger (base w1))].
Qed.

(** The queue's lease is one of the other activities. *)
Lemma lease_steady id worker secs : keeps jobs_steady (Jobs.hcg_lease_job (B:=unit) id worker secs).
Proof.
  intros d. unfold Jobs.hcg_lease_job, bind, get. destruct (Jobs.jobs d !! id) as [j|] eqn:Hj; [|reflexivity].
  destruct (Jobs.leasable j (Jobs.now d)); [|reflexivity]. cbn. intros i j' Hj'. cbn in Hj'.
  apply lookup_insert_Some in Hj' as [[<- <-]|[_ Hj']]; [by exists j|by exists j'].
Qed.

Lemma claim_steady worker kinds secs n only : keeps jobs_steady (Jobs.claim (B:=unit) worker kinds secs n only).
Proof.
  unfold Jobs.claim. destruct (Jobs.nothing_to_claim kinds only); [apply keeps_pure; typeclasses eauto|]. apply keeps_transaction; [typeclasses eauto|].
  apply keeps_bind; [typeclasses eauto|apply keeps_pure; typeclasses eauto|]. intros d. generalize (Jobs.candidate_ids kinds only n d). intros l.
  induction l as [|i l IH]; cbn [Jobs.claim_loop]; [apply keeps_pure; typeclasses eauto|].
  apply keeps_bind; [typeclasses eauto|apply lease_steady|]. intros won. destruct won; [|exact IH]. keeps_tac.
Qed.

Lemma jobs_steady_others l q q' : jobs_steady q q' -> others {| ledger := l; queue := q |} {| ledger := l; queue := q' |}.
Proof.
  intros Hs. split; cbn; [done|intros sid st' H; left; by exists st'|]. intros id x (j' & Hj' & Hk & Hp). cbn in Hj'.
  destruct (Hs id j' Hj') as (j & Hj & Hk' & Hp'). exists j. cbn. by rewrite <- Hk', <- Hp'.
Qed.

Lemma claim_others t worker kinds secs n only :
  others t {| ledger := ledger t; queue := (Jobs.claim (B:=unit) worker kinds secs n only (queue t)).2 |}.
Proof. destruct t as [l q]. cbn [ledger queue]. apply jobs_steady_others, claim_steady. Qed.

(** * Examples *)

Definition sid : string := "01HZZZZZZZZZZZZZZZZZZZZZZS".

Definition bind0 : RailBinding := {|
  b_rail := "rail"; b_profile := "LOCAL_MOCK"; b_status := "TEST_ONLY"; partner_binding := "NONE"; source_asset := CashEngine.usd;
  destination_asset := CashEngine.usd; b_receiver := CashEngine.addr_v; b_vault := "v"; source_cap := 1000; max_fee_destination := 10;
  max_slippage_bps := 100; approval_ref := "a"; b_refund := "back" |}.

Definition quote0 : Quote := {|
  leg_id := "leg"; q_settlement := sid; rail_id := "rail"; q_source := 600; expected_destination := 500; minimum_destination := 498;
  fee_destination := 1; expires_at := 100; destination_receiver := CashEngine.addr_v; refund_address := "back" |}.

(** A rail that remembers every key it was sent. *)
Definition rail0 : SettlementAdapter := {|
  is_mock := true; idempotent_requests := true;
  lookup_leg h key := Ok (if existsb (fun s => String.eqb s.2 key) h then Some "ref"%string else None);
  send _ _ _ := Ok "ref"%string;
  observe _ ref := Ok {| o_state := "DESTINATION_RECEIVED"; o_reference := ref; receipt_reference := Some "r"%string |} |}.

Definition reader0 : CashEngine.CashEvidenceReader := {|
  CashEngine.receipt := fun _ => Some (CashEngine.fact <| CashEngine.rf_source_kind := "SETTLEMENT"%string |> <| CashEngine.rf_settlement := Some sid |>);
  CashEngine.allocation := fun _ => Some CashEngine.payment |}.

Definition ledger0 : Ledger.DB := CashEngine.db0
  <| accounts := {["acc"%string := {| provider_account_id := "acc"; pa_provider := "p"; external_account_id := "x"; pa_borrower := "b" |}]} |>
  <| verifications := {["nv"%string := {| native_verification_id := "nv"; nv_status := "ACCEPTED" |}]} |>
  <| evidence := {["ev"%string := {| consumption_id := "ev"; ev_verification := "nv"; meaning := "PAYOUT"; trust := "PROVEN";
        verification_method := "MOCK"; ev_profile := "LOCAL_MOCK"; ev_account := "acc"; env_id := "e"; chain_key := 1; ev_manifest := "m";
        proven_at := 0; valid_until := 99 |}]} |>
  <| settlements := {[sid := {| settlement_id := sid; s_account := "acc"; s_state := "SOURCE_RECEIVED"; s_chain_id := 5; s_token := Some CashEngine.tok;
        s_decimals := 6; Ledger.source_amount := 1000; payout_consumption_id := Some "ev"%string; s_profile := "LOCAL_MOCK" |}]} |>.

Definition w0 : World := {|
  base := {| ledger := ledger0; queue := {| Jobs.jobs := ∅; Jobs.audit_log := []; Jobs.now := 0; Jobs.biz := tt |} |};
  pending := id; sends := [] |}.

Definition w1 : World := (begin (on_view (enqueue bind0 rail0 quote0 0 "job1")) w0).2.
Definition claim1 := Jobs.claim (B:=unit) "worker" [LEG] 60 8 None (queue (base w1)).
Definition w2 : World := w1 <| base := {| ledger := ledger (base w1); queue := claim1.2 |} |>.
Definition job1 : Jobs.ClaimedJob := {|
  Jobs.c_job_id := "job1"; Jobs.c_kind := LEG; Jobs.c_payload := asdict quote0; Jobs.c_key := leg_key "rail" "leg"; Jobs.c_attempt := 1;
  Jobs.c_max_attempts := 100; Jobs.c_worker := "worker"; Jobs.c_lease_until := Some 60000000 |}.
Definition names (c : exn_class) : string := "Error".
Definition run1 := run_leg names Jobs.default_backoff 0%Q bind0 rail0 (Some reader0) 1 "job2" job1.
Definition w3 : World := (run1 w2).2.

(** The flow of one leg; a second leg does not fit into what is left. *)
Example leg_flow :
  claim1.1 = Ok (Some job1) /\ (run1 w2).1 = Ok "SUCCEEDED"%string /\ map leg_of (sends w3) = [("rail", "leg")]%string /\
  cash_state <$> receipts (ledger (base w3)) !! CashEngine.cid = Some "ALLOCATED"%string /\
  (begin (on_view (enqueue bind0 rail0 (quote0 <| leg_id := "leg2"%string |>) 0 "job3")) w3).1 =
    Raise (Exn ValueError "settlement legs exceed source receipt").
Proof. split_and!; vm_compute; reflexivity. Qed.

Lemma w0_winv : winv w0.
Proof.
  split; cbn; [|intros t; reflexivity|apply NoDup_nil_2|by intros s ?%elem_of_nil].
  split; [split; by intros|by intros c ?%elem_of_nil| |by intros id p (j & ? & _)].
  intros i st H. cbn in H. apply lookup_singleton_Some in H as [_ <-]. by cbn.
Qed.

Lemma w3_reach : rtc step w0 w3.
Proof.
  eapply (rtc_l _ w0 w1); [exact (step_enqueue w0 bind0 rail0 quote0 0 "job1")|].
  eapply (rtc_l _ w1 w2).
  { refine (step_others w1 _ _). exact (claim_others (base w1) "worker" [LEG] 60 8 None). }
  apply rtc_once. refine (step_run w2 names Jobs.default_backoff 0%Q bind0 rail0 (Some reader0) 1 "job2" job1 "job1" _ _).
  - intros h leg (q & Hin) H. cbn in H. injection H as H. destruct (existsb _ _) eqn:He; [discriminate H|].
    apply not_true_iff_false in He. apply He, existsb_exists. exists (b_rail bind0, q, leg). split; [by apply list_elem_of_In|by apply String.eqb_refl].
  - assert (H : match Jobs.jobs (queue (base w2)) !! "job1"%string with
                | Some j => String.eqb (Jobs.kind j) LEG && json_eqb (Jobs.payload j) (asdict quote0) | None => false end = true) by (vm_compute; reflexivity).
    assert (Hp : (Jobs.payload <$> Jobs.jobs (queue (base w2)) !! "job1"%string) = Some (asdict quote0)) by (vm_compute; reflexivity).
    unfold leg_job. destruct (Jobs.jobs (queue (base w2)) !! "job1"%string) as [j|]; [|discriminate H].
    apply andb_true_iff in H as [Hk%String.eqb_eq _]. cbn in Hp. injection Hp as Hp. exists j. split; [reflexivity|]. split; [exact Hk|exact Hp].
Qed.


Lemma w2_cash : CashEngine.cash_wf (ledger (base w2)).
Proof.
  assert (Hr : receipts (ledger (base w2)) = receipts CashEngine.db0) by (vm_compute; reflexivity).
  assert (Ha : allocations (ledger (base w2)) = allocations CashEngine.db0) by (vm_compute; reflexivity).
  exact (proj1 (cash_same_durable CashEngine.db0 _ (conj Hr Ha) CashEngine.cash_db0_wf)).
Qed.

Lemma cash_needs_destination_witness :
  exists w', run_handler bind0 rail0 (Some reader0) 1 "job2" job1 w2 = (Ok tt, w') /\
    exists q ob, observed rail0 job1 q ob /\ CashEngine.cash_wf (ledger (base w')).
Proof.
  assert (Hc : match (run_handler bind0 rail0 (Some reader0) 1 "job2" job1 w2).1 with Ok _ => true | Raise _ => false end = true) by (vm_compute; reflexivity).
  destruct (run_handler bind0 rail0 (Some reader0) 1 "job2" job1 w2) as [[[]|e] w'] eqn:H; [|discriminate Hc].
  exists w'. split; [reflexivity|].
  destruct (cash_needs_destination _ _ _ _ _ _ _ _ _ w2_cash H) as (Hwf & _ & _ & Hok).
  destruct (Hok eq_refl) as (q & ob & Hobs & _). exists q, ob. split; [exact Hobs|exact Hwf].
Defined.


End Settle.
