(* ===== verification/Assets.v ===== *)
(** GPU assets: the registry of physical devices with their identity keys,
    provider assignments and review flags, facility encumbrances with the
    eligibility decision, and native evidence.

    Sources: offchain/gpu/hashcredit_gpu/assets/roles.py, registry.py,
    encumbrance.py, evidence.py; the tables of db/models.py and
    db/assets_models.py with their constraints.  The caller owns the transaction.
    The clock is read once per operation. *)

From S2P Require Import Prelude Domain Stdpy Columns.
Import Domain Columns.
Import Stdpy.

(** * Role gates *)

Module Roles.

(** Models [assets/roles.py], [REGISTER_ROLES]. *)
Definition REGISTER_ROLES : list string := [Domain.value Domain.RO_OPERATOR; Domain.value Domain.RO_SYSTEM].

(** Models [assets/roles.py], [REVIEW_ROLES]. *)
Definition REVIEW_ROLES : list string := [Domain.value Domain.RO_UNDERWRITER].

(** Models [assets/roles.py], [RELEASE_ROLES]. *)
Definition RELEASE_ROLES : list string := [Domain.value Domain.RO_UNDERWRITER; Domain.value Domain.RO_OPERATOR].

(** Models [assets/roles.py], [require]. *)
Definition require {S} (role : string) (allowed : list string) (action : string) : PyM S unit :=
  if negb (in_values Domain.Role role) then raise Forbidden ("unknown role '" ++ role ++ "' for " ++ action)
  else if negb (mem_str role allowed) then raise Forbidden ("role '" ++ role ++ "' may not " ++ action)
  else ret tt.

Lemma require_run {S} role allowed action (s : S) r s' :
  require role allowed action s = (r, s') ->
  s' = s /\ (r = Ok tt /\ mem_str role allowed = true \/ exists msg, r = Raise (Exn Forbidden msg)).
Proof.
  unfold require. destruct (in_values _ _); cbn; [|intros [= <- <-]; eauto].
  destruct (mem_str role allowed); intros [= <- <-]; eauto.
Qed.

End Roles.
Import Roles.

(** * The tables *)

Module Assets.

(** Models [db/models.py], [GpuAsset]. *)
Record GpuAsset := {
  asset_id : string;
  kind : string;
  sku : option string;
  unit_count : Z;
  ownership : string;
  custodian : option string;
  location : option string;
  parent_asset_id : option string;
  eligible : bool;
  status : string;
  replaces_asset_id : option string;
  ownership_review : string;
  identity_confidence : string;
  review_ref : option string;
}.

(** The CHECK clauses and column widths of [gpu_assets]. *)
Definition asset_check (a : GpuAsset) : bool :=
  ULID_CHECK (asset_id a) && in_values Domain.AssetKind (kind a) && (0 <? unit_count a) && (unit_count a <? 2 ^ 31) &&
  mem_str (ownership a) ["OWNED"; "LEASED"; "UNKNOWN"] &&
  null_or (fun p => negb (String.eqb p (asset_id a))) (parent_asset_id a) &&
  (negb (eligible a) || negb (String.eqb (ownership a) "UNKNOWN")) &&
  mem_str (status a) ["ACTIVE"; "RETIRED"] &&
  null_or (fun p => negb (String.eqb p (asset_id a))) (replaces_asset_id a) &&
  mem_str (ownership_review a) ["UNVERIFIED"; "VERIFIED"; "REJECTED"] &&
  mem_str (identity_confidence a) ["LOW"; "MEDIUM"; "HIGH"] &&
  null_or REF_CHECK (review_ref a) &&
  (negb (eligible a) || (String.eqb (ownership_review a) "VERIFIED" && String.eqb (status a) "ACTIVE")) &&
  null_or (fits 128) (sku a) && null_or (fits 200) (custodian a) && null_or (fits 64) (location a).

(** Models [db/models.py], [AssetIdentityKey]. *)
Record AssetIdentityKey := {
  k_id : Z;
  k_asset : string;
  scheme : string;
  value : string;
  k_provenance : list (string * json);
  recorded_at : Z;
  retired_at : option Z;
}.

Definition key_check (k : AssetIdentityKey) : bool :=
  mem_str (scheme k) ["GPU_UUID"; "SERIAL"; "HOST_ID"; "GROUP_ID"; "NFT_TOKEN"; "NIC_MAC"] &&
  null_or (fun t => recorded_at k <=? t) (retired_at k) && fits 200 (value k).

(** Models [db/models.py], [AssetProviderAssignment]. *)
Record AssetProviderAssignment := {
  assignment_id : string;
  as_asset : string;
  provider_account_id : string;
  started_at : Z;
  ended_at : option Z;
  reason : string;
  as_provenance : list (string * json);
}.

Definition assignment_check (a : AssetProviderAssignment) : bool :=
  ULID_CHECK (assignment_id a) && mem_str (reason a) ["ONBOARD"; "MOVE"; "RMA"; "OFFBOARD"] &&
  null_or (fun t => started_at a <? t) (ended_at a).

(** Models [db/models.py], [AssetEncumbrance]; the rows of this module name an
    asset. *)
Record AssetEncumbrance := {
  encumbrance_id : string;
  e_asset : string;
  holder : string;
  priority : Z;
  e_kind : string;
  document_ref : option string;
  valid_from : Z;
  facility_id : option string;
  e_status : string;
  released_at : option Z;
}.

Definition encumbrance_check (e : AssetEncumbrance) : bool :=
  ULID_CHECK (encumbrance_id e) && mem_str (e_status e) ["OPEN"; "RELEASED"] &&
  Bool.eqb (String.eqb (e_status e) "RELEASED") (if released_at e is Some _ then true else false) &&
  (0 <? priority e) && (priority e <? 2 ^ 31) && mem_str (e_kind e) ["LIEN"; "ASSIGNMENT"; "LEASE"; "PLEDGE"] &&
  null_or REF_CHECK (document_ref e) && fits 200 (holder e).

(** Models [db/assets_models.py], [ASSET_FLAGS]. *)
Definition ASSET_FLAGS : list string :=
  ["DUPLICATE_LISTING"; "OWNERSHIP_UNVERIFIED"; "LEASE_UNVERIFIED"; "PRIORITY_CONFLICT"; "RMA_PENDING"].

(** Models [db/assets_models.py], [AssetReviewFlag]. *)
Record AssetReviewFlag := {
  f_id : Z;
  f_asset : string;
  flag : string;
  details : list (string * json);
  resolved_at : option Z;
  resolved_by : option string;
  resolution : option string;
}.

Definition flag_check (f : AssetReviewFlag) : bool :=
  mem_str (flag f) ASSET_FLAGS && null_or (in_values Domain.Role) (resolved_by f) &&
  Bool.eqb (if resolved_at f is Some _ then true else false) (if resolved_by f is Some _ then true else false).

(** Models [db/models.py], [CustodyDocument]. *)
Record CustodyDocument := { d_id : Z; d_asset : string; d_kind : string; d_ref : string; document_hash : option string }.

Definition document_check (d : CustodyDocument) : bool :=
  REF_CHECK (d_ref d) && null_or HEX32_CHECK (document_hash d) && fits 32 (d_kind d).

(** The database: the tables of the registry, the keys of the tables they refer
    to, the next serial ids and the clock. *)
Record DB := {
  assets : gmap string GpuAsset;
  keys : gmap Z AssetIdentityKey;
  assignments : gmap string AssetProviderAssignment;
  encumbrances : gmap string AssetEncumbrance;
  flags : gmap Z AssetReviewFlag;
  documents : gmap Z CustodyDocument;
  accounts : gset string;
  facilities : gset string;
  next_id : Z;
  now : Z;
}.

#[local] Abbreviation M := (PyM DB).

Definition active (k : AssetIdentityKey) : bool := bool_decide (retired_at k = None).
Definition is_open (a : AssetProviderAssignment) : bool := bool_decide (ended_at a = None).
Definition unresolved (f : AssetReviewFlag) : bool := bool_decide (resolved_at f = None).
Definition open_enc (e : AssetEncumbrance) : bool := String.eqb (e_status e) "OPEN".
Definition ours (e : AssetEncumbrance) : bool := open_enc e && (if facility_id e is Some _ then true else false).

Definition violated {A} (name : string) : M A := raise DatabaseError name.

(** INSERT and UPDATE with the constraints of the table; a serial id is drawn
    first.  An UPDATE keeps the primary key. *)
Definition insert_asset (a : GpuAsset) : M unit :=
  let* s := get in
  if negb (asset_check a) then violated "gpu_assets check"
  else if bool_decide (is_Some (assets s !! asset_id a)) then violated "gpu_assets_pkey"
  else if negb (null_or (fun p => bool_decide (is_Some (assets s !! p))) (parent_asset_id a)) then violated "parent_asset_id"
  else if negb (null_or (fun p => bool_decide (is_Some (assets s !! p))) (replaces_asset_id a)) then violated "replaces_asset_id"
  else modify (fun s => s <| assets ::= <[asset_id a := a]> |>).

Definition update_asset (a : GpuAsset) : M unit :=
  if negb (asset_check a) then violated "gpu_assets check" else modify (fun s => s <| assets ::= <[asset_id a := a]> |>).

Definition same_identity (k k' : AssetIdentityKey) : bool :=
  String.eqb (scheme k) (scheme k') && String.eqb (value k) (value k').

Definition insert_key (asset sch val : string) (provenance : list (string * json)) : M Z :=
  let* s := get in
  let id := next_id s in
  let k := {| k_id := id; k_asset := asset; scheme := sch; value := val; k_provenance := provenance;
              recorded_at := now s; retired_at := None |} in
  modify (fun s => s <| next_id ::= Z.succ |>) ;;;
  if negb (key_check k) then violated "asset_identity_keys check"
  else if bool_decide (assets s !! asset = None) then violated "asset_identity_keys_asset_id_fkey"
  else if bool_decide (select (fun k' => active k' && same_identity k' k) (keys s) <> []) then violated "uq_asset_identity_keys_active"
  else modify (fun s => s <| keys ::= <[id := k]> |>) ;;; ret id.

(** [row.retired_at = t] *)
Definition retire_key (k : AssetIdentityKey) (t : Z) : M unit :=
  let k' := k <| retired_at := Some t |> in
  if negb (key_check k') then violated "ck_asset_identity_keys_lifetime" else modify (fun s => s <| keys ::= <[k_id k := k']> |>).

Definition insert_assignment (a : AssetProviderAssignment) : M unit :=
  let* s := get in
  if negb (assignment_check a) then violated "asset_provider_assignments check"
  else if bool_decide (is_Some (assignments s !! assignment_id a)) then violated "asset_provider_assignments_pkey"
  else if bool_decide (assets s !! as_asset a = None) then violated "asset_provider_assignments_asset_id_fkey"
  else if negb (bool_decide (provider_account_id a ∈ accounts s)) then violated "provider_account_id_fkey"
  else if is_open a && bool_decide (select (fun b => is_open b && String.eqb (as_asset b) (as_asset a)) (assignments s) <> [])
       then violated "uq_asset_assignments_open"
  else modify (fun s => s <| assignments ::= <[assignment_id a := a]> |>).

Definition close_assignment (a : AssetProviderAssignment) (t : Z) (provenance : list (string * json)) : M unit :=
  let a' := a <| ended_at := Some t |> <| as_provenance := provenance |> in
  if negb (assignment_check a') then violated "ck_asset_assignments_period"
  else modify (fun s => s <| assignments ::= <[assignment_id a := a']> |>).

Definition insert_encumbrance (e : AssetEncumbrance) : M unit :=
  let* s := get in
  if negb (encumbrance_check e) then violated "asset_encumbrances check"
  else if bool_decide (is_Some (encumbrances s !! encumbrance_id e)) then violated "asset_encumbrances_pkey"
  else if bool_decide (assets s !! e_asset e = None) then violated "asset_encumbrances_asset_id_fkey"
  else if negb (null_or (fun f => bool_decide (f ∈ facilities s)) (facility_id e)) then violated "facility_id_fkey"
  else if ours e && bool_decide (select (fun b => ours b && String.eqb (e_asset b) (e_asset e)) (encumbrances s) <> [])
       then violated "uq_asset_encumbrances_open_facility"
  else modify (fun s => s <| encumbrances ::= <[encumbrance_id e := e]> |>).

Definition release_row (e : AssetEncumbrance) (t : Z) : M unit :=
  modify (fun s => s <| encumbrances ::= <[encumbrance_id e := e <| e_status := "RELEASED" |> <| released_at := Some t |>]> |>).

Definition insert_document (asset knd ref : string) (hash : option string) : M Z :=
  let* s := get in
  let id := next_id s in
  let d := {| d_id := id; d_asset := asset; d_kind := knd; d_ref := ref; document_hash := hash |} in
  modify (fun s => s <| next_id ::= Z.succ |>) ;;;
  if negb (document_check d) then violated "custody_documents check"
  else if bool_decide (assets s !! asset = None) then violated "custody_documents_asset_id_fkey"
  else modify (fun s => s <| documents ::= <[id := d]> |>) ;;; ret id.

(** * Registry: lookups *)

Definition id_leb {A} (f : A -> Z) (x y : A) : bool := f x <=? f y.

(** Models [assets/registry.py], [active_keys]. *)
Definition active_keys (s : DB) (id : string) : list AssetIdentityKey :=
  isort (id_leb k_id) (select (fun k => String.eqb (k_asset k) id && active k) (keys s)).

(** Models [assets/registry.py], [key_history]. *)
Definition key_history (s : DB) (id : string) : list AssetIdentityKey :=
  isort (id_leb k_id) (select (fun k => String.eqb (k_asset k) id) (keys s)).

(** Models [assets/registry.py], [find_asset_by_key]. *)
Definition find_asset_by_key (s : DB) (sch val : string) : option GpuAsset :=
  match scalar (fun k => String.eqb (scheme k) sch && String.eqb (value k) val && active k) (keys s) with
  | Some k => assets s !! k_asset k
  | None => None
  end.

(** Models [assets/registry.py], [open_assignment]. *)
Definition open_assignment (s : DB) (id : string) : option AssetProviderAssignment :=
  scalar (fun a => String.eqb (as_asset a) id && is_open a) (assignments s).

(** Models [assets/registry.py], [open_flags]. *)
Definition open_flags (s : DB) (id : string) (fl : option string) : list AssetReviewFlag :=
  isort (id_leb f_id) (select (fun f => String.eqb (f_asset f) id && unresolved f &&
    (if truthy fl then bool_decide (fl = Some (flag f)) else true)) (flags s)).

(** Models [assets/registry.py], [children]. *)
Definition children (s : DB) (id : string) : list GpuAsset :=
  isort (fun a b => String.leb (asset_id a) (asset_id b)) (select (fun a => bool_decide (parent_asset_id a = Some id)) (assets s)).

(** Models [assets/registry.py], [_get]. *)
Definition get_asset (id : string) : M GpuAsset :=
  let* s := get in
  match assets s !! id with
  | Some a => ret a
  | None => raise NotFound ("asset " ++ id)
  end.

(** Models [assets/registry.py], [raise_flag]. *)
Definition raise_flag (id fl : string) (det : list (string * json)) : M Z :=
  let* asset := get_asset id in
  let* s := get in
  let fid := next_id s in
  let row := {| f_id := fid; f_asset := id; flag := fl; details := det; resolved_at := None; resolved_by := None;
                resolution := None |} in
  modify (fun s => s <| next_id ::= Z.succ |>) ;;;
  update_asset (asset <| eligible := false |>) ;;;
  if negb (flag_check row) then violated "asset_review_flags check"
  else modify (fun s => s <| flags ::= <[fid := row]> |>) ;;; ret fid.

(** Models [assets/registry.py], [resolve_flag]. *)
Definition resolve_flag (flag_id : Z) (by_role resol : string) : M unit :=
  require by_role REVIEW_ROLES "resolve an asset review flag" ;;;
  let* s := get in
  match flags s !! flag_id with
  | None => raise NotFound ("flag " ++ Domain.py_str flag_id)
  | Some row =>
      if negb (unresolved row) then raise InvalidState "flag already resolved"
      else
        let row' := row <| resolved_at := Some (now s) |> <| resolved_by := Some by_role |> <| resolution := Some resol |> in
        if negb (flag_check row') then violated "asset_review_flags check"
        else modify (fun s => s <| flags ::= <[flag_id := row']> |>)
  end.

(** * Registry: registration *)

#[local] Abbreviation IdentityKey := (string * string)%type.

(** Models [assets/registry.py], [RegistrationResult]; rows are named by their ids. *)
Record RegistrationResult := { r_asset : string; created : bool; conflict : option Z }.

(** The first key that is active on some asset. *)
Fixpoint first_conflict (s : DB) (ks : list IdentityKey) : option (IdentityKey * GpuAsset) :=
  match ks with
  | [] => None
  | k :: ks' => match find_asset_by_key s k.1 k.2 with Some a => Some (k, a) | None => first_conflict s ks' end
  end.

Definition json_opt (o : option string) : json := match o with Some s => JStr s | None => JNull end.

(** Models [assets/registry.py], [_derive_ulid]. *)
Definition derive_ulid (base tag : string) : string :=
  String.substring 0 26 (String.substring 0 (26 - String.length tag) base ++ tag).

Inductive Assigned := AssignedTo (assignment : string) | Flagged (flag_id : Z).

Definition opt_prov (p : option (list (string * json))) (d : list (string * json)) : list (string * json) :=
  match p with Some (x :: l) => x :: l | _ => d end.

(** Models [assets/registry.py], [assign_provider]; [started_at] is not passed
    by any caller of this module. *)
Definition assign_provider (id account by_role rsn assignment : string) (prov : option (list (string * json))) : M Assigned :=
  require by_role REGISTER_ROLES "assign an asset to a provider" ;;;
  let* asset := get_asset id in
  if negb (String.eqb (status asset) "ACTIVE") then raise InvalidState "retired asset cannot be assigned"
  else
    let* s := get in
    if negb (bool_decide (account ∈ accounts s)) then raise NotFound ("provider account " ++ account)
    else
      match open_assignment s id with
      | Some current =>
          if String.eqb (provider_account_id current) account then raise InvalidState "asset already live on this provider account"
          else
            let* f := raise_flag id "DUPLICATE_LISTING"
              [("existingProviderAccountId"%string, JStr (provider_account_id current));
               ("attemptedProviderAccountId"%string, JStr account)] in
            ret (Flagged f)
      | None =>
          insert_assignment {| assignment_id := assignment; as_asset := id; provider_account_id := account;
                               started_at := now s; ended_at := None; reason := rsn;
                               as_provenance := opt_prov prov [("by"%string, JStr by_role)] |} ;;;
          ret (AssignedTo assignment)
      end.

(** Models [assets/registry.py], [register_asset]; the flags of the call to
    [assign_provider] are dropped there too. *)
Definition register_asset (id knd : string) (ks : list IdentityKey) (by_role : string) (account sk : option string)
    (units : Z) (cust loc : option string) (key_provenance : option (list (string * json))) (confidence : string)
    : M RegistrationResult :=
  require by_role REGISTER_ROLES "register an asset" ;;;
  if bool_decide (ks = []) then raise InvalidState "an asset needs at least one identity key"
  else
    let* s := get in
    match first_conflict s ks with
    | Some ((sch, val), existing) =>
        let current := open_assignment s (asset_id existing) in
        let* fid := raise_flag (asset_id existing) "DUPLICATE_LISTING"
          [("attemptedAssetId"%string, JStr id); ("attemptedProviderAccountId"%string, json_opt account);
           ("existingProviderAccountId"%string, json_opt (provider_account_id <$> current));
           ("key"%string, JObj [("scheme"%string, JStr sch); ("value"%string, JStr val)])] in
        ret {| r_asset := asset_id existing; created := false; conflict := Some fid |}
    | None =>
        insert_asset {| asset_id := id; kind := knd; sku := sk; unit_count := units; ownership := "UNKNOWN"; custodian := cust;
                        location := loc; parent_asset_id := None; eligible := false; status := "ACTIVE";
                        replaces_asset_id := None; ownership_review := "UNVERIFIED"; identity_confidence := confidence;
                        review_ref := None |} ;;;
        for_each ks (fun k => let* _ := insert_key id k.1 k.2 (opt_prov key_provenance [("by"%string, JStr by_role)]) in ret tt) ;;;
        match account with
        | Some acc => let* _ := assign_provider id acc by_role "ONBOARD" (derive_ulid id "AS") None in ret tt
        | None => ret tt
        end ;;;
        ret {| r_asset := id; created := true; conflict := None |}
    end.

(** Models [assets/registry.py], [register_partition]. *)
Definition register_partition (parent_id child_id : string) (ks : list IdentityKey) (by_role : string) (sk : option string)
    : M string :=
  require by_role REGISTER_ROLES "register a partition" ;;;
  let* parent := get_asset parent_id in
  if negb (mem_str (kind parent) ["PHYSICAL_GPU"]) then raise InvalidState "partitions can only be created under a PHYSICAL_GPU"
  else if negb (String.eqb (status parent) "ACTIVE") then raise InvalidState "cannot partition a retired asset"
  else
    insert_asset {| asset_id := child_id; kind := "MIG_PARTITION"; sku := sk; unit_count := 1; ownership := ownership parent;
                    custodian := None; location := None; parent_asset_id := Some parent_id; eligible := false;
                    status := "ACTIVE"; replaces_asset_id := None; ownership_review := "UNVERIFIED";
                    identity_confidence := "LOW"; review_ref := None |} ;;;
    for_each ks (fun k => let* _ := insert_key child_id k.1 k.2 [("partitionOf"%string, JStr parent_id)] in ret tt) ;;;
    ret child_id.

(** The loop that climbs to the physical asset; one unit of fuel per parent. *)
Fixpoint root_of (fuel : nat) (s : DB) (a : GpuAsset) : res GpuAsset :=
  match fuel with
  | O => Raise (Exn OutOfFuel "parent chain")
  | S n =>
      match parent_asset_id a with
      | None => Ok a
      | Some p =>
          match assets s !! p with
          | Some b => root_of n s b
          | None => Raise (Exn NotFound ("asset " ++ p))
          end
      end
  end.

(** Models [assets/registry.py], [collateral_units]. *)
Fixpoint collateral_units (fuel : nat) (s : DB) (ids : list string) (units : gmap string Z) : res (gmap string Z) :=
  match ids with
  | [] => Ok units
  | id :: ids' =>
      match assets s !! id with
      | None => Raise (Exn NotFound ("asset " ++ id))
      | Some a =>
          rbind (root_of fuel s a) (fun root =>
          collateral_units fuel s ids'
            (<[asset_id root := if String.eqb (status root) "ACTIVE" then unit_count root else 0]> units))
      end
  end.

(** * Registry: assignments, identity changes, review *)

(** [{**d, k: v}] *)
Definition dict_with (d : list (string * json)) (k : string) (v : json) : list (string * json) :=
  filter (fun p => p.1 <> k) d ++ [(k, v)].

(** Models [assets/registry.py], [end_assignment]. *)
Definition end_assignment (id by_role rsn : string) (at_ : option Z) : M string :=
  require by_role REGISTER_ROLES "end an assignment" ;;;
  let* s := get in
  match open_assignment s id with
  | None => raise NotFound ("no open assignment for " ++ id)
  | Some current =>
      close_assignment current (default (now s) at_) (dict_with (as_provenance current) "endReason" (JStr rsn)) ;;;
      ret (assignment_id current)
  end.

(** The active key of an asset with a given scheme and value. *)
Definition find_own_key (s : DB) (id sch val : string) : option AssetIdentityKey :=
  scalar (fun k => String.eqb (k_asset k) id && String.eqb (scheme k) sch && String.eqb (value k) val && active k) (keys s).

(** Models [assets/registry.py], [change_identity_key]. *)
Definition change_identity_key (id sch : string) (old_value : option string) (new_value by_role : string)
    (prov : option (list (string * json))) : M Z :=
  require by_role REGISTER_ROLES "change an identity key" ;;;
  let* asset := get_asset id in
  if negb (String.eqb (status asset) "ACTIVE") then raise InvalidState "retired asset"
  else
    match old_value with
    | Some old =>
        let* s := get in
        match find_own_key s id sch old with
        | None => raise NotFound ("active key " ++ sch ++ "=" ++ old ++ " on " ++ id)
        | Some k => retire_key k (now s)
        end
    | None => ret tt
    end ;;;
    let* s := get in
    if bool_decide (is_Some (find_asset_by_key s sch new_value)) then
      raise InvalidState (sch ++ "=" ++ new_value ++ " is active on another asset")
    else insert_key id sch new_value (dict_with (dict_with (default [] prov) "replaces" (json_opt old_value)) "by" (JStr by_role)).

(** Models [assets/registry.py], [review_ownership]. *)
Definition review_ownership (id verdict own by_role : string) (ref confidence : option string) : M string :=
  require by_role REVIEW_ROLES "review asset ownership" ;;;
  if negb (mem_str verdict ["VERIFIED"; "REJECTED"]) then raise InvalidState "verdict must be VERIFIED or REJECTED"
  else if negb (mem_str own ["OWNED"; "LEASED"; "UNKNOWN"]) then raise InvalidState "ownership must be OWNED, LEASED or UNKNOWN"
  else if String.eqb verdict "VERIFIED" && String.eqb own "UNKNOWN" then raise InvalidState "cannot verify ownership as UNKNOWN"
  else
    let* asset := get_asset id in
    let asset1 := asset <| ownership_review := verdict |> <| ownership := own |> <| review_ref := ref |> in
    update_asset (match confidence with Some c => asset1 <| identity_confidence := c |> | None => asset1 end) ;;;
    ret id.

(** * Encumbrances *)

(** Models [assets/encumbrance.py], [OUR_HOLDER_PREFIX]. *)
Definition OUR_HOLDER_PREFIX : string := "facility:".

(** Models [assets/encumbrance.py], [THIRD_PARTY_KINDS]. *)
Definition THIRD_PARTY_KINDS : list string := ["LIEN"; "PLEDGE"; "ASSIGNMENT"].

(** ORDER BY priority, encumbrance_id *)
Definition enc_leb (a b : AssetEncumbrance) : bool :=
  if priority a =? priority b then String.leb (encumbrance_id a) (encumbrance_id b) else priority a <=? priority b.

(** Models [assets/encumbrance.py], [open_encumbrances]. *)
Definition open_encumbrances (s : DB) (id : string) : list AssetEncumbrance :=
  isort enc_leb (select (fun e => String.eqb (e_asset e) id && open_enc e) (encumbrances s)).

(** Models [assets/encumbrance.py], [open_facility_encumbrance]. *)
Definition open_facility_encumbrance (s : DB) (id : string) : option AssetEncumbrance :=
  scalar (fun e => ours e && String.eqb (e_asset e) id) (encumbrances s).

(** Models [assets/encumbrance.py], [record_third_party_right]. *)
Definition record_third_party_right (enc id hold knd : string) (prio : Z) (ref by_role : string) (from : option Z) : M string :=
  require by_role REVIEW_ROLES "record a third-party right" ;;;
  if String.prefix OUR_HOLDER_PREFIX hold then raise InvalidState "use assign_to_facility for our own encumbrances"
  else
    let* _ := get_asset id in
    let* s := get in
    insert_encumbrance {| encumbrance_id := enc; e_asset := id; holder := hold; priority := prio; e_kind := knd;
                          document_ref := Some ref; valid_from := default (now s) from; facility_id := None;
                          e_status := "OPEN"; released_at := None |} ;;;
    let* _ := raise_flag id (if mem_str knd THIRD_PARTY_KINDS then "PRIORITY_CONFLICT" else "LEASE_UNVERIFIED")
      [("encumbranceId"%string, JStr enc); ("holder"%string, JStr hold); ("kind"%string, JStr knd); ("priority"%string, JInt prio)] in
    ret enc.

(** Models [assets/encumbrance.py], [attach_document]. *)
Definition attach_document (id knd ref : string) (hash : option string) (by_role : string) : M Z :=
  require by_role (REGISTER_ROLES ++ REVIEW_ROLES) "attach a document" ;;;
  let* _ := get_asset id in
  insert_document id knd ref hash.

(** Models [assets/encumbrance.py], [has_document]. *)
Definition has_document (s : DB) (id knd : string) : bool :=
  bool_decide (select (fun d => String.eqb (d_asset d) id && String.eqb (d_kind d) knd) (documents s) <> []).

(** The loop over the open encumbrances. *)
Definition enc_reason (for_facility : option string) (e : AssetEncumbrance) : list string :=
  match facility_id e with
  | Some f => if bool_decide (for_facility = Some f) then [] else ["financedByFacility=" ++ f]
  | None =>
      if mem_str (e_kind e) THIRD_PARTY_KINDS then
        ["thirdParty" ++ e_kind e ++ "=" ++ holder e ++ "@" ++ Domain.py_str (priority e)]
      else []
  end%string.

Definition family_reason (s : DB) (for_facility : option string) (label relative : string) : list string :=
  match open_facility_encumbrance s relative with
  | Some e =>
      if bool_decide (facility_id e = for_facility) then []
      else [label ++ "FinancedByFacility=" ++ default "None" (facility_id e)]
  | None => []
  end%string.

Definition one (b : bool) (r : string) : list string := if b then [r] else [].

(** The facts that block an asset. *)
(** Models [assets/encumbrance.py], [eligibility], lines 114-138. *)
Definition reasons (s : DB) (asset : GpuAsset) (for_facility : option string) : list string :=
  let id := asset_id asset in
  one (negb (String.eqb (status asset) "ACTIVE")) ("status=" ++ status asset) ++
  one (negb (String.eqb (ownership_review asset) "VERIFIED")) ("ownershipReview=" ++ ownership_review asset) ++
  one (String.eqb (ownership asset) "UNKNOWN") "ownership=UNKNOWN" ++
  one (String.eqb (ownership asset) "LEASED" && negb (has_document s id "LEASE_CONSENT")) "leased without LEASE_CONSENT document" ++
  map (fun f => "openFlag=" ++ flag f)%string (open_flags s id None) ++
  flat_map (enc_reason for_facility) (open_encumbrances s id) ++
  match parent_asset_id asset with Some p => family_reason s for_facility "parent" p | None => [] end ++
  flat_map (fun c => family_reason s for_facility "partition" (asset_id c)) (children s id).

(** Models [assets/encumbrance.py], [Eligibility]. *)
Record Eligibility := { el_asset : string; el_eligible : bool; el_reasons : list string }.

(** Models [assets/encumbrance.py], [eligibility], lines 111-142. *)
Definition eligibility (id : string) (for_facility : option string) : M Eligibility :=
  let* asset := get_asset id in
  let* s := get in
  let rs := reasons s asset for_facility in
  let ok := bool_decide (rs = []) in
  update_asset (asset <| eligible := ok |>) ;;;
  ret {| el_asset := id; el_eligible := ok; el_reasons := rs |}.

(** Models [assets/encumbrance.py], [assign_to_facility]. *)
Definition assign_to_facility (enc id fac by_role : string) (ref : option string) : M string :=
  require by_role REVIEW_ROLES "assign an asset to a facility" ;;;
  let* s := get in
  if negb (bool_decide (fac ∈ facilities s)) then raise NotFound ("facility " ++ fac)
  else
    let* result := eligibility id (Some fac) in
    if negb (el_eligible result) then raise InvalidState ("asset not eligible: " ++ String.concat "; " (el_reasons result))
    else
      let* s := get in
      if bool_decide (is_Some (open_facility_encumbrance s id)) then raise InvalidState "asset already financed"
      else
        insert_encumbrance {| encumbrance_id := enc; e_asset := id; holder := OUR_HOLDER_PREFIX ++ fac; priority := 1;
                              e_kind := "ASSIGNMENT"; document_ref := ref; valid_from := now s; facility_id := Some fac;
                              e_status := "OPEN"; released_at := None |} ;;;
        ret enc.

(** Models [assets/encumbrance.py], [release]. *)
Definition release (enc by_role : string) : M string :=
  require by_role REVIEW_ROLES "release an encumbrance" ;;;
  let* s := get in
  match encumbrances s !! enc with
  | None => raise NotFound ("encumbrance " ++ enc)
  | Some row =>
      if negb (open_enc row) then raise InvalidState "already released"
      else release_row row (now s) ;;; ret enc
  end.

(** Models [assets/encumbrance.py], [carry_over]. *)
Definition carry_over (e : AssetEncumbrance) (new_asset new_enc : string) : M string :=
  if negb (ours e) then raise InvalidState "only an open facility encumbrance can be carried over"
  else
    let* s := get in
    release_row e (now s) ;;;
    insert_encumbrance {| encumbrance_id := new_enc; e_asset := new_asset; holder := holder e; priority := priority e;
                          e_kind := e_kind e; document_ref := document_ref e; valid_from := now s;
                          facility_id := facility_id e; e_status := "OPEN"; released_at := None |} ;;;
    ret new_enc.

(** * RMA replacement *)

Definition move_key (old_id new_id : string) (k : IdentityKey) : M unit :=
  let* s := get in
  match find_own_key s old_id k.1 k.2 with
  | None => raise NotFound ("active key " ++ k.1 ++ "=" ++ k.2 ++ " on " ++ old_id)
  | Some row =>
      retire_key row (now s) ;;;
      let* _ := insert_key new_id k.1 k.2 [("movedFrom"%string, JStr old_id); ("reason"%string, JStr "RMA")] in
      ret tt
  end.

(** Models [assets/registry.py], [replace_asset]. *)
Definition replace_asset (old_id new_id : string) (moved_keys new_keys : list IdentityKey) (by_role assignment : string)
    (carry_encumbrance : bool) : M string :=
  require by_role REGISTER_ROLES "replace an asset (RMA)" ;;;
  let* old := get_asset old_id in
  if negb (String.eqb (status old) "ACTIVE") then raise InvalidState "old asset already retired"
  else
    let* s := get in
    let held := open_facility_encumbrance s old_id in
    if bool_decide (is_Some held) && negb carry_encumbrance then
      raise InvalidState "old asset is financed; carry_encumbrance=True is required to move the right"
    else
      let current := open_assignment s old_id in
      let t := now s in
      insert_asset {| asset_id := new_id; kind := kind old; sku := sku old; unit_count := unit_count old;
                      ownership := ownership old; custodian := custodian old; location := location old;
                      parent_asset_id := None; eligible := false; status := "ACTIVE"; replaces_asset_id := Some old_id;
                      ownership_review := ownership_review old; identity_confidence := identity_confidence old;
                      review_ref := None |} ;;;
      for_each moved_keys (move_key old_id new_id) ;;;
      for_each new_keys (fun k => let* _ := insert_key new_id k.1 k.2 [("reason"%string, JStr "RMA"); ("by"%string, JStr by_role)] in
                                  ret tt) ;;;
      let* s := get in
      for_each (active_keys s old_id) (fun k => retire_key k t) ;;;
      update_asset (old <| status := "RETIRED" |> <| eligible := false |>) ;;;
      match current with
      | Some a =>
          close_assignment a t (dict_with (dict_with (as_provenance a) "endReason" (JStr "RMA")) "replacedBy" (JStr new_id)) ;;;
          let* _ := assign_provider new_id (provider_account_id a) by_role "RMA" assignment
            (Some [("replaces"%string, JStr old_id)]) in
          ret tt
      | None => ret tt
      end ;;;
      match held with
      | Some e => if carry_encumbrance then let* _ := carry_over e new_id (derive_ulid new_id "EN") in ret tt else ret tt
      | None => ret tt
      end ;;;
      ret new_id.

(** * Native evidence *)

(** Models [assets/evidence.py], [NATIVE_EVIDENCE_KINDS]. *)
Definition NATIVE_EVIDENCE_KINDS : list string := ["NFT_MINT"; "HASH_ANCHOR"; "TOKEN_TRANSFER"].

(** Models [assets/evidence.py], [_REQUIRED]. *)
Definition REQUIRED : list string := ["sourceEventId"; "verificationMethod"; "nativeStatus"; "kind"; "dataHash"].

(** Models [assets/evidence.py], [attach_native_evidence], lines 28-28. *)
Definition FORBIDDEN : list string := ["ownership"; "ownershipReview"; "controlGrade"; "eligible"; "encumbrance"; "unencumbered"].

(** Models [assets/evidence.py], [_snapshot]. *)
Definition snapshot (s : DB) (id : string) : option (string * string * bool * string) * list (string * string) :=
  ((fun a => (ownership a, ownership_review a, eligible a, status a)) <$> assets s !! id,
   map (fun e => (encumbrance_id e, e_status e)) (open_encumbrances s id)).

(** Models [assets/evidence.py], [attach_native_evidence]; evidence values are
    strings. *)
Definition attach_native_evidence (id : string) (evidence : list (string * string)) (by_role : string) : M Z :=
  require by_role (REGISTER_ROLES ++ REVIEW_ROLES) "attach native evidence" ;;;
  let field k := (list_to_map evidence : gmap string string) !! k in
  let missing := List.filter (fun k => bool_decide (field k = None)) REQUIRED in
  if bool_decide (missing <> []) then raise InvalidState "evidence missing keys"
  else
    let knd := default ""%string (field "kind"%string) in
    if negb (mem_str knd NATIVE_EVIDENCE_KINDS) then raise InvalidState "unknown native evidence kind"
    else if existsb (fun k => bool_decide (is_Some (field k))) FORBIDDEN then
      raise NotOwnershipEvidence "native evidence cannot carry this claim"
    else
      let* _ := get_asset id in
      let* s := get in
      let before := snapshot s id in
      let* doc := insert_document id ("NATIVE_EVIDENCE_" ++ knd)
        ("doc://native-evidence/" ++ default ""%string (field "sourceEventId"%string)) (field "dataHash"%string) in
      let* s := get in
      if bool_decide (before <> snapshot s id) then raise NotOwnershipEvidence "attaching evidence changed rights state"
      else ret doc.

(** Models [assets/evidence.py], [ownership_from_evidence]. *)
Definition ownership_from_evidence {A} (evidence : list (string * string)) : M A :=
  raise NotOwnershipEvidence "native evidence proves the log occurred, not ownership".


(** * Successful runs as elementary steps

    Every operation that returns is a sequence of the elementary steps below,
    whose premises are the guards the code (or a constraint) checked.  [X] holds
    the assets an RMA replacement is retiring. *)

Definition no_active_key (s : DB) (id : string) : Prop :=
  forall i k, keys s !! i = Some k -> k_asset k = id -> active k = false.

Definition no_open_assignment (s : DB) (id : string) : Prop :=
  forall i a, assignments s !! i = Some a -> as_asset a = id -> is_open a = false.

Definition no_facility (s : DB) (id : string) : Prop :=
  forall i e, encumbrances s !! i = Some e -> e_asset e = id -> ours e = false.

Definition third_party (e : AssetEncumbrance) : bool :=
  open_enc e && bool_decide (facility_id e = None) && mem_str (e_kind e) THIRD_PARTY_KINDS.

Definition active_asset (s : DB) (id : string) : Prop := exists a, assets s !! id = Some a /\ status a = "ACTIVE"%string.

(** The facility that holds an asset. *)
Definition financed (s : DB) (id f : string) : Prop :=
  exists i e, encumbrances s !! i = Some e /\ e_asset e = id /\ open_enc e = true /\ facility_id e = Some f.

Inductive prim (X : gset string) (s : DB) : DB -> Prop :=
| prim_id : prim X s (s <| next_id ::= Z.succ |>)
| prim_time t : prim X s (s <| now := t |>)
| prim_refs acc fac : accounts s ⊆ acc -> facilities s ⊆ fac -> prim X s (s <| accounts := acc |> <| facilities := fac |>)
| prim_asset a :
    asset_check a = true -> assets s !! asset_id a = None -> eligible a = false -> status a = "ACTIVE"%string ->
    (forall p, parent_asset_id a = Some p -> kind a = "MIG_PARTITION"%string /\ exists b, assets s !! p = Some b /\ kind b = "PHYSICAL_GPU"%string) ->
    prim X s (s <| assets ::= <[asset_id a := a]> |>)
| prim_review a a' :
    assets s !! asset_id a = Some a -> asset_check a' = true -> asset_id a' = asset_id a -> kind a' = kind a ->
    parent_asset_id a' = parent_asset_id a -> status a' = status a -> (eligible a' = true -> eligible a = true) ->
    prim X s (s <| assets ::= <[asset_id a := a']> |>)
| prim_eligible a :
    assets s !! asset_id a = Some a -> asset_check (a <| eligible := true |>) = true ->
    (forall i f, flags s !! i = Some f -> f_asset f = asset_id a -> unresolved f = false) ->
    (forall i e, encumbrances s !! i = Some e -> e_asset e = asset_id a -> third_party e = false) ->
    prim X s (s <| assets ::= <[asset_id a := a <| eligible := true |>]> |>)
| prim_retire a a' :
    asset_id a ∈ X -> assets s !! asset_id a = Some a -> no_active_key s (asset_id a) -> asset_check a' = true ->
    asset_id a' = asset_id a -> kind a' = kind a -> parent_asset_id a' = parent_asset_id a -> eligible a' = false -> status a' = "RETIRED"%string ->
    prim X s (s <| assets ::= <[asset_id a := a']> |>)
| prim_key k :
    keys s !! k_id k = None -> k_id k < next_id s -> active_asset s (k_asset k) ->
    (forall i k', keys s !! i = Some k' -> active k' = true -> same_identity k' k = false) ->
    prim X s (s <| keys ::= <[k_id k := k]> |>)
| prim_retire_key k t : keys s !! k_id k = Some k -> prim X s (s <| keys ::= <[k_id k := k <| retired_at := Some t |>]> |>)
| prim_assign a :
    assignments s !! assignment_id a = None -> active_asset s (as_asset a) -> no_open_assignment s (as_asset a) ->
    prim X s (s <| assignments ::= <[assignment_id a := a]> |>)
| prim_close a t p :
    assignments s !! assignment_id a = Some a ->
    prim X s (s <| assignments ::= <[assignment_id a := a <| ended_at := Some t |> <| as_provenance := p |>]> |>)
| prim_flag f :
    flags s !! f_id f = None -> f_id f < next_id s -> (forall a, assets s !! f_asset f = Some a -> eligible a = false) ->
    prim X s (s <| flags ::= <[f_id f := f]> |>)
| prim_resolve i f f' :
    flags s !! i = Some f -> f_asset f' = f_asset f -> unresolved f' = false ->
    prim X s (s <| flags ::= <[i := f']> |>)
| prim_third e a :
    encumbrances s !! encumbrance_id e = None -> facility_id e = None -> assets s !! e_asset e = Some a ->
    prim X s (s <| encumbrances ::= <[encumbrance_id e := e]> |> <| assets ::= <[e_asset e := a <| eligible := false |>]> |>)
| prim_finance e f :
    encumbrances s !! encumbrance_id e = None -> facility_id e = Some f -> active_asset s (e_asset e) ->
    no_facility s (e_asset e) ->
    (forall a p g, assets s !! e_asset e = Some a -> parent_asset_id a = Some p -> financed s p g -> g = f) ->
    (forall c a g, assets s !! c = Some a -> parent_asset_id a = Some (e_asset e) -> financed s c g -> g = f) ->
    prim X s (s <| encumbrances ::= <[encumbrance_id e := e]> |>)
| prim_release e t :
    encumbrances s !! encumbrance_id e = Some e ->
    prim X s (s <| encumbrances ::= <[encumbrance_id e := e <| e_status := "RELEASED"%string |> <| released_at := Some t |>]> |>)
| prim_doc i d : prim X s (s <| documents ::= <[i := d]> |>).

(** * The invariant *)

Record wf (s : DB) : Prop := {
  wf_assets : forall id a, assets s !! id = Some a -> asset_id a = id /\ asset_check a = true;
  wf_parents : forall id a p, assets s !! id = Some a -> parent_asset_id a = Some p ->
    kind a = "MIG_PARTITION"%string /\ exists b, assets s !! p = Some b /\ kind b = "PHYSICAL_GPU"%string;
  wf_keys : forall i k, keys s !! i = Some k -> k_id k = i /\ i < next_id s;
  wf_flags : forall i f, flags s !! i = Some f -> i < next_id s;
  wf_unique_keys : forall i j k k', keys s !! i = Some k -> keys s !! j = Some k' -> active k = true -> active k' = true ->
    same_identity k k' = true -> i = j;
  wf_assignments : forall i a, assignments s !! i = Some a -> assignment_id a = i;
  wf_unique_open : forall i j a b, assignments s !! i = Some a -> assignments s !! j = Some b -> is_open a = true ->
    is_open b = true -> as_asset a = as_asset b -> i = j;
  wf_encs : forall i e, encumbrances s !! i = Some e -> encumbrance_id e = i /\ is_Some (assets s !! e_asset e);
  wf_unique_facility : forall i j e e', encumbrances s !! i = Some e -> encumbrances s !! j = Some e' -> ours e = true ->
    ours e' = true -> e_asset e = e_asset e' -> i = j;
  wf_eligible : forall id a, assets s !! id = Some a -> eligible a = true ->
    (forall i f, flags s !! i = Some f -> f_asset f = id -> unresolved f = false) /\
    (forall i e, encumbrances s !! i = Some e -> e_asset e = id -> third_party e = false);
  wf_family : forall id a p f g, assets s !! id = Some a -> parent_asset_id a = Some p -> financed s id f ->
    financed s p g -> f = g;
  wf_retired : forall id a, assets s !! id = Some a -> status a = "RETIRED"%string -> no_active_key s id;
}.

Lemma ours_iff e : ours e = true <-> open_enc e = true /\ exists f, facility_id e = Some f.
Proof. unfold ours. destruct (facility_id e) as [f|], (open_enc e); cbn; naive_solver. Qed.

Lemma same_identity_sym k k' : same_identity k k' = same_identity k' k.
Proof. unfold same_identity. by rewrite (String.eqb_sym (scheme k)), (String.eqb_sym (value k)). Qed.

(** A lookup in an updated table: the new row or an old one. *)
Ltac lk H :=
  lazymatch type of H with
  | <[?i := ?x]> ?m !! ?j = Some ?y =>
      let E := fresh "E" in
      destruct (decide (i = j)) as [E|E];
      [rewrite E in H; rewrite lookup_insert_eq in H; injection H as H; try subst | rewrite lookup_insert_ne in H by exact E]
  end.

Lemma financed_exists s id f : wf s -> financed s id f -> is_Some (assets s !! id).
Proof. intros Hs (i & e & He & <- & _). by destruct (wf_encs s Hs i e He). Qed.

Lemma wf_put_asset s id' a' :
  asset_id a' = id' -> wf s -> asset_check a' = true ->
  (assets s !! asset_id a' = None /\ (forall p, parent_asset_id a' = Some p ->
     kind a' = "MIG_PARTITION"%string /\ exists b, assets s !! p = Some b /\ kind b = "PHYSICAL_GPU"%string) \/
   exists a, assets s !! asset_id a' = Some a /\ kind a' = kind a /\ parent_asset_id a' = parent_asset_id a) ->
  (eligible a' = true ->
    (forall i f, flags s !! i = Some f -> f_asset f = asset_id a' -> unresolved f = false) /\
    (forall i e, encumbrances s !! i = Some e -> e_asset e = asset_id a' -> third_party e = false)) ->
  (status a' = "RETIRED"%string -> no_active_key s (asset_id a')) ->
  wf (s <| assets ::= <[id' := a']> |>).
Proof.
  intros <- Hs Hc Hrow Hel Hret.
  assert (Hold : forall id a, assets s !! id = Some a -> exists b, <[asset_id a' := a']> (assets s) !! id = Some b /\ kind b = kind a).
  { intros id a Ha. destruct (decide (asset_id a' = id)) as [<-|Hne]; [|exists a; by rewrite lookup_insert_ne].
    exists a'. rewrite lookup_insert_eq. split; [done|]. destruct Hrow as [[Hn _]|(b & Hb & Hk & _)]; congruence. }
  destruct Hs as [H1 H2 H3 H4 H5 H6 H7 H8 H9 H10 H11 H12]. split; cbn; try done.
  - intros id a Ha. lk Ha; [done|by apply H1].
  - intros id a p Ha Hp.
    assert (Hq : kind a = "MIG_PARTITION"%string /\ exists b, assets s !! p = Some b /\ kind b = "PHYSICAL_GPU"%string).
    { lk Ha; [|by eapply H2]. destruct Hrow as [[_ Hr]|(b & Hb & -> & Hpb)]; [by apply Hr|].
      eapply H2; [exact Hb|congruence]. }
    destruct Hq as [Hk (b & Hb & Hkb)]. split; [done|]. destruct (Hold p b Hb) as (b' & Hb' & Hk'). exists b'.
    split; [done|congruence].
  - intros i e He. destruct (H8 i e He) as [Hi [a Ha]]. split; [done|]. destruct (Hold _ a Ha) as (b & Hb & _). by exists b.
  - intros id a Ha He. lk Ha; [by apply Hel|by apply (H10 id a)].
  - intros id a p f g Ha Hp Hf Hg. change (financed s id f) in Hf. change (financed s p g) in Hg.
    lk Ha; [|by eapply H11]. destruct Hrow as [[Hn _]|(b & Hb & _ & Hpb)].
    + destruct Hf as (i & e & He & Hid & _). destruct (H8 i e He) as [_ [x Hx]]. congruence.
    + eapply (H11 (asset_id a) b p); [exact Hb|congruence|done|done].
  - intros id a Ha He. change (no_active_key s id). lk Ha; [by apply Hret|by eapply H12].
Qed.

Lemma check_ineligible a : asset_check a = true -> asset_check (a <| eligible := false |>) = true.
Proof.
  unfold asset_check. cbn. intros H. repeat (apply andb_true_iff in H; destruct H as [H ?]).
  repeat (apply andb_true_iff; split); try done.
Qed.

(** The financed assets after a row [e'] replaced an open row or came in. *)
Lemma financed_insert s e' id f :
  financed (s <| encumbrances ::= <[encumbrance_id e' := e']> |>) id f ->
  (e_asset e' = id /\ open_enc e' = true /\ facility_id e' = Some f) \/ financed s id f.
Proof. intros (i & e & He & Hid & Ho & Hf). cbn in He. lk He; [by left|]. right. by exists i, e. Qed.

Lemma wf_put_enc s id' e' :
  encumbrance_id e' = id' -> wf s -> is_Some (assets s !! e_asset e') ->
  (ours e' = true -> forall i e, encumbrances s !! i = Some e -> ours e = true -> e_asset e = e_asset e' -> i = encumbrance_id e') ->
  (third_party e' = true -> forall a, assets s !! e_asset e' = Some a -> eligible a = false) ->
  (forall f, open_enc e' = true -> facility_id e' = Some f ->
     (forall a p g, assets s !! e_asset e' = Some a -> parent_asset_id a = Some p -> financed s p g -> g = f) /\
     (forall c a g, assets s !! c = Some a -> parent_asset_id a = Some (e_asset e') -> financed s c g -> g = f)) ->
  wf (s <| encumbrances ::= <[id' := e']> |>).
Proof.
  intros <- Hs Hex Huq Hth Hfam. pose proof Hs as [H1 H2 H3 H4 H5 H6 H7 H8 H9 H10 H11 H12]. split; cbn; try done.
  - intros i e He. lk He; [done|by apply H8].
  - intros i j e e2 Hi Hj Ho Ho2 Heq. lk Hi; lk Hj; try congruence.
    + symmetry. by eapply Huq.
    + by eapply Huq.
    + by eapply H9.
  - intros id a Ha He. destruct (H10 id a Ha He) as [Hf Hl]. split; [done|]. intros i e Hi Hid. lk Hi; [|by eapply Hl].
    destruct (third_party e) eqn:Ht; [|done]. rewrite (Hth eq_refl a Ha) in He. done.
  - intros id a p f g Ha Hp Hf Hg. apply financed_insert in Hf. apply financed_insert in Hg.
    assert (Hpne : p <> id).
    { intros ->. destruct (H2 id a id Ha Hp) as [Hk (b & Hb & Hkb)]. congruence. }
    destruct Hf as [(Hid & Ho & Hf)|Hf], Hg as [(Hid2 & Ho2 & Hg)|Hg]; try congruence.
    + subst id. symmetry. by eapply (proj1 (Hfam f Ho Hf)).
    + subst p. by eapply (proj2 (Hfam g Ho2 Hg)).
    + by eapply H11.
Qed.

Lemma wf_put_key s id' k :
  k_id k = id' -> wf s -> k_id k < next_id s ->
  (active k = true -> forall i k', keys s !! i = Some k' -> active k' = true -> same_identity k' k = true -> i = k_id k) ->
  (active k = true -> forall a, assets s !! k_asset k = Some a -> status a <> "RETIRED"%string) ->
  wf (s <| keys ::= <[id' := k]> |>).
Proof.
  intros <- [H1 H2 H3 H4 H5 H6 H7 H8 H9 H10 H11 H12] Hlt Huq Hact. split; cbn; try done.
  - intros i k' Hk. lk Hk; [done|by apply H3].
  - intros i j k1 k2 Hi Hj Ha1 Ha2 Hsame. lk Hi; lk Hj; try congruence.
    + symmetry. rewrite same_identity_sym in Hsame. by eapply Huq.
    + by eapply Huq.
    + by eapply H5.
  - intros id a Ha Hr i k' Hk Hid. cbn in Hk. lk Hk; [|by eapply H12].
    destruct (active k') eqn:Hact'; [|done]. destruct (Hact eq_refl a); congruence.
Qed.

Lemma wf_put_assignment s id' a' :
  assignment_id a' = id' -> wf s -> (is_open a' = true -> forall i a, assignments s !! i = Some a -> is_open a = true -> as_asset a = as_asset a' -> i = assignment_id a') ->
  wf (s <| assignments ::= <[id' := a']> |>).
Proof.
  intros <- [H1 H2 H3 H4 H5 H6 H7 H8 H9 H10 H11 H12] Huq. split; cbn; try done.
  - intros i a Ha. lk Ha; [done|by apply H6].
  - intros i j a b Hi Hj Ha Hb Heq. lk Hi; lk Hj; try congruence.
    + symmetry. by eapply Huq.
    + by eapply Huq.
    + by eapply H7.
Qed.

Lemma wf_put_flag s i f :
  wf s -> i < next_id s -> (unresolved f = true -> forall a, assets s !! f_asset f = Some a -> eligible a = false) ->
  wf (s <| flags ::= <[i := f]> |>).
Proof.
  intros [H1 H2 H3 H4 H5 H6 H7 H8 H9 H10 H11 H12] Hlt Hf. split; cbn; try done.
  - intros j g Hg. lk Hg; [done|by eapply H4].
  - intros id a Ha He. destruct (H10 id a Ha He) as [Hl Ht]. split; [|done]. intros j g Hg Hid. lk Hg; [|by eapply Hl].
    destruct (unresolved g) eqn:Hu; [|done]. rewrite (Hf eq_refl a) in He; congruence.
Qed.

Lemma active_not_retired s id : active_asset s id -> forall a, assets s !! id = Some a -> status a <> "RETIRED"%string.
Proof. intros (a & Ha & Hst) b Hb. replace b with a by congruence. by rewrite Hst. Qed.

Lemma prim_wf X s s' : prim X s s' -> wf s -> wf s'.
Proof.
  intros Hp Hs. pose proof Hs as [H1 H2 H3 H4 H5 H6 H7 H8 H9 H10 H11 H12].
  destruct Hp as [|t|acc fac _ _|a Hc Hn He Hst Hpar|a a' Ha Hc Hid Hk Hpar Hst He|a Ha Hc Hf Ht|a a' _ Ha Hkeys Hc Hid Hk Hpar He Hst
    |k Hn Hlt Ha Huq|k t Hk|a Hn Ha Hno|a t p Ha|f Hn Hlt He|i f f' Hf Hid Hu|e a Hn Hf Ha|e f Hn Hf Ha Hno Hp1 Hp2|e t He|i d].
  - split; cbn; try done; [intros i k Hk; destruct (H3 i k Hk); split; [done|lia]|intros i f Hf; specialize (H4 i f Hf); lia].
  - by split.
  - by split.
  - apply wf_put_asset; try done; [by left|congruence|congruence].
  - apply wf_put_asset; try done; [right; exists a; by rewrite Hid| |]; rewrite Hid.
    + intros He'. apply (H10 _ a); auto.
    + intros Hr. apply (H12 _ a); congruence.
  - apply wf_put_asset; try done; [right; by exists a|].
    intros Hr. by apply (H12 (asset_id a) a).
  - apply wf_put_asset; try done; [right; exists a; by rewrite Hid|congruence|by rewrite Hid].
  - apply wf_put_key; try done.
    + intros _ i k' Hk Hact Hsame. by rewrite (Huq i k') in Hsame.
    + intros _. by apply active_not_retired.
  - apply wf_put_key; try done. exact (proj2 (H3 _ _ Hk)).
  - apply wf_put_assignment; [done..|]. intros _ i b Hb Ho Heq. by rewrite (Hno i b) in Ho.
  - by apply wf_put_assignment.
  - by apply wf_put_flag.
  - apply wf_put_flag; [done|by eapply H4|congruence].
  - destruct (H1 _ _ Ha) as [Hid Hc].
    assert (Hs1 : wf (s <| assets ::= <[e_asset e := a <| eligible := false |>]> |>)).
    { apply wf_put_asset; try done.
      - by apply check_ineligible.
      - right. exists a. by rewrite <- Hid in Ha.
      - intros Hr. change (no_active_key s (asset_id a)). rewrite Hid. by apply (H12 (e_asset e) a). }
    change (wf (s <| assets ::= <[e_asset e := a <| eligible := false |>]> |> <| encumbrances ::= <[encumbrance_id e := e]> |>)).
    apply wf_put_enc; cbn; try done.
    + rewrite lookup_insert_eq. by eexists.
    + intros (_ & f & Hff)%ours_iff. congruence.
    + intros _ b. rewrite lookup_insert_eq. by intros [= <-].
    + intros f _ Hff. congruence.
  - apply wf_put_enc; try done.
    + destruct Ha as (a & Ha & _). by eexists.
    + intros _ i e' He' Ho Heq. by rewrite (Hno i e') in Ho.
    + unfold third_party. rewrite Hf. rewrite bool_decide_false by done. by rewrite andb_false_r.
    + intros f' _ Hf'. assert (f' = f) as -> by congruence. by split.
  - apply wf_put_enc; try done. exact (proj2 (H8 _ _ He)).
  - by split.
Qed.

Lemma prims_wf X s s' : rtc (prim X) s s' -> wf s -> wf s'.
Proof. induction 1; eauto using prim_wf. Qed.

(** * Operations as sequences of elementary steps *)

Lemma get_asset_Ok id s a s' : get_asset id s = (Ok a, s') -> s' = s /\ assets s !! id = Some a.
Proof.
  unfold get_asset, bind, get, ret, raise. destruct (assets s !! id); [|done]. by intros [= -> ->].
Qed.

Ltac run_inv H :=
  cbv zeta in H;
  lazymatch type of H with
  | bind _ _ _ = (Ok _, _) =>
      let a := fresh "a" in let t := fresh "s" in let H1 := fresh "Hr" in
      apply bind_Ok in H; destruct H as (a & t & H1 & H); run_inv H1; run_inv H
  | get _ = (Ok _, _) => apply get_Ok in H; destruct H as [-> ->]
  | get_asset _ _ = (Ok _, _) => apply get_asset_Ok in H; destruct H as [-> H]
  | modify _ _ = (Ok _, _) => apply modify_Ok in H; rewrite H in *; clear H
  | ret _ _ = (Ok _, _) => apply ret_Ok in H; destruct H as [-> ->]
  | raise _ _ _ = (Ok _, _) => discriminate H
  | violated _ _ = (Ok _, _) => discriminate H
  | require _ _ _ _ = (Ok _, _) =>
      apply require_run in H; destruct H as [-> [[_ H]|[? [=]]]]
  | (if ?b then _ else _) _ = (Ok _, _) => let E := fresh "Hb" in destruct b eqn:E; run_inv H
  | (match ?o with Some _ => _ | None => _ end) _ = (Ok _, _) => let E := fresh "Ho" in destruct o eqn:E; run_inv H
  | (match ?p with pair _ _ => _ end) _ = (Ok _, _) => destruct p; run_inv H
  | _ => idtac
  end.

(** Boolean facts as propositions. *)
Ltac bools :=
  repeat match goal with
  | H : negb _ = false |- _ => apply negb_false_iff in H
  | H : negb _ = true |- _ => apply negb_true_iff in H
  | H : bool_decide _ = true |- _ => apply bool_decide_eq_true in H
  | H : bool_decide _ = false |- _ => apply bool_decide_eq_false in H
  | H : String.eqb _ _ = true |- _ => apply String.eqb_eq in H
  | H : _ && _ = true |- _ => apply andb_true_iff in H; destruct H
  | H : ~ is_Some _ |- _ => apply eq_None_not_Some in H
  end.

Section Steps.
Context (X : gset string).

Definition steps (s s' : DB) : Prop := rtc (prim X) s s'.

Lemma steps_one s s' : prim X s s' -> steps s s'.
Proof. apply rtc_once. Qed.

Lemma steps_trans s t u : steps s t -> steps t u -> steps s u.
Proof. unfold steps. intros H1 H2. by trans t. Qed.

Lemma prims_keep_wf s s' : steps s s' -> wf s -> wf s'.
Proof. apply prims_wf. Qed.

Lemma for_each_steps {A} (f : A -> M unit) l s u s' :
(forall x t u t', x ∈ l -> wf t -> f x t = (Ok u, t') -> steps t t') ->
wf s -> for_each l f s = (Ok u, s') -> steps s s'.
Proof.
revert s. induction l as [|x l IH]; intros s Hf Hs H; cbn in H.
- run_inv H. apply rtc_refl.
- apply bind_Ok in H as (v & t & Hx & H).
  assert (Ht : steps s t) by (eapply Hf; [apply list_elem_of_here|done|exact Hx]).
  eapply steps_trans; [exact Ht|]. apply IH; [|by eapply prims_keep_wf|done].
  intros y w1 w w2 Hy. apply Hf. by apply list_elem_of_further.
Qed.

Lemma insert_asset_steps a s u s' :
insert_asset a s = (Ok u, s') -> eligible a = false -> status a = "ACTIVE"%string ->
(forall p, parent_asset_id a = Some p -> kind a = "MIG_PARTITION"%string /\ exists b, assets s !! p = Some b /\ kind b = "PHYSICAL_GPU"%string) ->
steps s s' /\ assets s !! asset_id a = None /\ s' = s <| assets ::= <[asset_id a := a]> |>.
Proof.
intros H He Hst Hp. unfold insert_asset in H. run_inv H. bools. split; [|done].
by apply steps_one, prim_asset.
Qed.

Lemma insert_key_steps asset sch val prov s i s' :
insert_key asset sch val prov s = (Ok i, s') -> wf s -> active_asset s asset -> steps s s' /\ assets s' = assets s /\ now s' = now s /\
  assignments s' = assignments s /\ encumbrances s' = encumbrances s /\
  (forall id, id <> asset -> no_active_key s id -> no_active_key s' id).
Proof.
intros H Hs Hact. unfold insert_key in H. run_inv H. bools.
assert (Hfresh : keys s !! next_id s = None).
{ destruct (keys s !! next_id s) as [k|] eqn:Hk; [|done]. destruct (wf_keys s Hs _ _ Hk). lia. }
split_and!; try done.
- eapply steps_trans; [apply steps_one, prim_id|]. set (k := {| k_id := _ |}). apply steps_one.
  apply (prim_key X (s <| next_id ::= Z.succ |>) k); cbn; [done|lia|done|].
  intros j k' Hj Ha. apply (select_nil _ _ Hb1) in Hj. by rewrite Ha in Hj.
- intros id Hne Hno j k Hj Hid. cbn in Hj. lk Hj; [by destruct Hne|by eapply Hno].
Qed.

Lemma retire_key_steps k t s u s' :
retire_key k t s = (Ok u, s') -> keys s !! k_id k = Some k ->
steps s s' /\ s' = s <| keys ::= <[k_id k := k <| retired_at := Some t |>]> |>.
Proof. intros H Hk. unfold retire_key in H. run_inv H. split; [|done]. by apply steps_one, prim_retire_key. Qed.

Lemma raise_flag_run id fl det s i s' :
raise_flag id fl det s = (Ok i, s') ->
exists a f, assets s !! id = Some a /\ f_id f = next_id s /\ f_asset f = id /\ unresolved f = true /\
  s' = s <| next_id ::= Z.succ |> <| assets ::= <[asset_id a := a <| eligible := false |>]> |> <| flags ::= <[f_id f := f]> |>.
Proof.
intros H. unfold raise_flag in H. run_inv H.
match goal with Hu : update_asset _ _ = (Ok _, _) |- _ => unfold update_asset in Hu; run_inv Hu end.
match goal with Ha : assets s !! id = Some ?a |- _ => exists a end.
eexists {| f_id := next_id s; f_asset := id; flag := fl; details := det; resolved_at := None; resolved_by := None;
           resolution := None |}. by split_and!.
Qed.

(** The flag comes in after its asset was made ineligible. *)
Lemma flag_steps s a f :
wf s -> assets s !! f_asset f = Some a -> f_id f = next_id s -> eligible a = false ->
steps s (s <| next_id ::= Z.succ |> <| flags ::= <[f_id f := f]> |>).
Proof.
intros Hs Ha Hid He. eapply steps_trans; [apply steps_one, prim_id|]. apply steps_one, prim_flag; cbn.
- rewrite Hid. destruct (flags s !! next_id s) as [g|] eqn:Hg; [|done]. specialize (wf_flags s Hs _ _ Hg). lia.
- lia.
- intros b Hb. congruence.
Qed.

Lemma raise_flag_steps id fl det s i s' :
raise_flag id fl det s = (Ok i, s') -> wf s -> steps s s' /\ assignments s' = assignments s /\ encumbrances s' = encumbrances s.
Proof.
intros (a & f & Ha & Hf & Hid & Hu & ->)%raise_flag_run Hs. split; [|done].
destruct (wf_assets s Hs _ _ Ha) as [Hai Hc]. subst id.
assert (Hp : prim X s (s <| assets ::= <[asset_id a := a <| eligible := false |>]> |>)).
{ apply prim_review; [by rewrite Hai|by apply check_ineligible|done..]. }
eapply steps_trans; [by apply steps_one|].
set (w := s <| assets ::= <[asset_id a := a <| eligible := false |>]> |>) in *.
change (steps w (w <| next_id ::= Z.succ |> <| flags ::= <[f_id f := f]> |>)).
apply (flag_steps w (a <| eligible := false |>) f); [by eapply prim_wf| |done|done].
cbn. by rewrite Hai, lookup_insert_eq.
Qed.

Lemma open_assignment_None s id : open_assignment s id = None -> no_open_assignment s id.
Proof.
intros H i a Ha Hid. unfold open_assignment in H. eapply scalar_None in H; [|exact Ha]. cbn in H.
by rewrite Hid, String.eqb_refl in H.
Qed.

Lemma open_assignment_Some s id a : wf s -> open_assignment s id = Some a ->
assignments s !! assignment_id a = Some a /\ as_asset a = id /\ is_open a = true.
Proof.
intros Hs [H [i Hi]]%scalar_Some. bools. rewrite (wf_assignments s Hs i a Hi). by split_and!.
Qed.

Lemma facility_None s id : open_facility_encumbrance s id = None -> no_facility s id.
Proof.
intros H i e He Hid. unfold open_facility_encumbrance in H. eapply scalar_None in H; [|exact He]. cbn in H.
rewrite Hid, String.eqb_refl in H. by rewrite andb_true_r in H.
Qed.

Lemma facility_Some s id e : wf s -> open_facility_encumbrance s id = Some e ->
encumbrances s !! encumbrance_id e = Some e /\ e_asset e = id /\ ours e = true.
Proof.
intros Hs [H [i Hi]]%scalar_Some. bools. destruct (wf_encs s Hs i e Hi) as [<- _]. by split_and!.
Qed.

Lemma financed_iff s id f : wf s -> financed s id f <-> exists e, open_facility_encumbrance s id = Some e /\ facility_id e = Some f.
Proof.
intros Hs. split.
- intros (i & e & He & Hid & Ho & Hf). assert (Hours : ours e = true) by (apply ours_iff; eauto).
  destruct (open_facility_encumbrance s id) as [e'|] eqn:He'.
  + destruct (facility_Some s id e' Hs He') as (H1 & H2 & H3). exists e'. split; [done|].
    pose proof (wf_unique_facility s Hs _ _ _ _ He H1 Hours H3 ltac:(congruence)) as Hi. subst i. congruence.
  + by rewrite (facility_None s id He' i e) in Hours.
- intros (e & He & Hf). destruct (facility_Some s id e Hs He) as (H1 & H2 & [H3 _]%ours_iff). by exists (encumbrance_id e), e.
Qed.

(** What the family rules read of an asset. *)
Definition tree (s : DB) (c : string) : option (option string * string) := (fun a => (parent_asset_id a, status a)) <$> assets s !! c.

Lemma raise_flag_tree id fl det s i s' : raise_flag id fl det s = (Ok i, s') -> wf s -> forall c, tree s' c = tree s c.
Proof.
intros (a & f & Ha & _ & _ & _ & ->)%raise_flag_run Hs c. unfold tree. cbn.
destruct (wf_assets s Hs _ _ Ha) as [Hid _]. rewrite Hid.
destruct (decide (id = c)) as [<-|Hne]; [by rewrite lookup_insert_eq, Ha|by rewrite lookup_insert_ne].
Qed.

Lemma assign_provider_steps id acc role rsn asg prov s r s' :
assign_provider id acc role rsn asg prov s = (Ok r, s') -> wf s ->
steps s s' /\ encumbrances s' = encumbrances s /\ (forall c, tree s' c = tree s c) /\
forall old, old <> id -> no_open_assignment s old -> no_open_assignment s' old.
Proof.
intros H Hs. unfold assign_provider in H. apply bind_Ok in H as (u & t & Hq & H). run_inv Hq.
apply bind_Ok in H as (a & t & [-> Ha]%get_asset_Ok & H). run_inv H.
- match goal with Hf : raise_flag _ _ _ _ = _ |- _ =>
    pose proof (raise_flag_tree _ _ _ _ _ _ Hf Hs); apply raise_flag_steps in Hf as (Hst & Has & He); [|done] end.
  split_and!; [done..|]. intros old _ Hno i b. rewrite Has. apply Hno.
- match goal with Hf : insert_assignment _ _ = _ |- _ => unfold insert_assignment in Hf; run_inv Hf end. bools.
  split_and!; [|done|done|].
  + set (b := {| assignment_id := asg |}). apply steps_one, (prim_assign X s b); [done|by exists a|by apply open_assignment_None].
  + intros old Hne Hno i b Hbl Hid. cbn in Hbl. lk Hbl; [by destruct Hne|by eapply Hno].
Qed.

Lemma find_asset_by_key_ok s sch val a : wf s -> find_asset_by_key s sch val = Some a -> assets s !! asset_id a = Some a.
Proof.
intros Hs H. unfold find_asset_by_key in H. destruct (scalar _ _) as [k|]; [|done].
by destruct (wf_assets s Hs _ _ H) as [-> _].
Qed.

Lemma insert_keys_steps id f ks s u s' :
for_each ks (fun k => let* _ := insert_key id k.1 k.2 (f k) in ret tt) s = (Ok u, s') -> wf s -> active_asset s id ->
steps s s' /\ assets s' = assets s /\ assignments s' = assignments s /\ encumbrances s' = encumbrances s.
Proof.
revert s. induction ks as [|k ks IH]; intros s H Hs Ha; cbn [for_each] in H.
- run_inv H. split; [apply rtc_refl|done].
- apply bind_Ok in H as (v & t & Hk & H). apply bind_Ok in Hk as (i & t1 & Hk & Hv). run_inv Hv.
  destruct (insert_key_steps _ _ _ _ _ _ _ Hk Hs Ha) as (Hst & Has & _ & Hasg & Henc & _).
  destruct (IH t1 H) as (Hst2 & Has2 & Hasg2 & Henc2); [by eapply prims_keep_wf|unfold active_asset; by rewrite Has|].
  split_and!; [by eapply steps_trans|congruence..].
Qed.

Lemma register_asset_steps id knd ks role acc sk un cu lo pr conf s r s' :
register_asset id knd ks role acc sk un cu lo pr conf s = (Ok r, s') -> wf s -> steps s s'.
Proof.
intros H Hs. unfold register_asset in H. apply bind_Ok in H as (u & t & Hq & H). run_inv Hq.
destruct (bool_decide (ks = [])); [done|]. apply bind_Ok in H as (w & t & Hg & H). run_inv Hg.
destruct (first_conflict s ks) as [[[sch val] ex]|].
- run_inv H. match goal with Hf : raise_flag _ _ _ _ = _ |- _ => by apply raise_flag_steps in Hf as (Hst & _ & _) end.
- apply bind_Ok in H as (v & t & Hi & H). apply insert_asset_steps in Hi as (Hst & Hn & ->); [|done..].
  set (t1 := s <| assets ::= _ |>) in *. pose proof (prims_keep_wf _ _ Hst Hs) as Ht1.
  apply bind_Ok in H as (v2 & t2 & Hk & H). apply insert_keys_steps in Hk as (Hst2 & Has & _); [|done|].
  2: { eexists. split; [by apply lookup_insert_eq|done]. }
  pose proof (prims_keep_wf _ _ Hst2 Ht1) as Ht2. apply bind_Ok in H as (v3 & t3 & Hasg & H). run_inv H.
  eapply steps_trans; [exact Hst|]. eapply steps_trans; [exact Hst2|]. destruct acc as [acc|]; [|run_inv Hasg; apply rtc_refl].
  apply bind_Ok in Hasg as (v4 & t4 & Hap & Hasg). run_inv Hasg. by eapply assign_provider_steps.
Qed.

Lemma register_partition_steps p c ks role sk s r s' :
register_partition p c ks role sk s = (Ok r, s') -> wf s -> steps s s'.
Proof.
intros H Hs. unfold register_partition in H. apply bind_Ok in H as (u & t & Hq & H). run_inv Hq.
apply bind_Ok in H as (a & t & [-> Ha]%get_asset_Ok & H). destruct (mem_str (kind a) _) eqn:Hk; [|done].
destruct (String.eqb (status a) "ACTIVE"); [|done]. cbn [negb] in H.
apply bind_Ok in H as (v & t & Hi & H). apply insert_asset_steps in Hi as (Hst & Hn & ->); [|done|done|].
- set (t1 := s <| assets ::= _ |>) in *. pose proof (prims_keep_wf _ _ Hst Hs) as Ht1.
  apply bind_Ok in H as (v2 & t2 & Hks & H). apply insert_keys_steps in Hks as (Hst2 & _); [|done|].
  + run_inv H. by eapply steps_trans.
  + eexists. split; [by apply lookup_insert_eq|done].
- intros q [= <-]. split; [done|]. exists a. split; [done|]. unfold mem_str in Hk. cbn in Hk. bools.
  by destruct (String.eqb_spec (kind a) "PHYSICAL_GPU").
Qed.

Lemma end_assignment_steps id role rsn t0 s r s' : end_assignment id role rsn t0 s = (Ok r, s') -> wf s -> steps s s'.
Proof.
intros H Hs. unfold end_assignment in H. run_inv H.
match goal with Hc : close_assignment _ _ _ _ = _ |- _ => unfold close_assignment in Hc; run_inv Hc end.
apply steps_one, prim_close. by apply (open_assignment_Some s id).
Qed.

Lemma find_own_key_ok s id sch val k : wf s -> find_own_key s id sch val = Some k ->
keys s !! k_id k = Some k /\ k_asset k = id /\ scheme k = sch /\ value k = val.
Proof.
intros Hs [H [i Hi]]%scalar_Some. bools. destruct (wf_keys s Hs i k Hi) as [-> _]. done.
Qed.

Lemma change_identity_key_steps id sch old new role prov s r s' :
change_identity_key id sch old new role prov s = (Ok r, s') -> wf s -> steps s s'.
Proof.
intros H Hs. unfold change_identity_key in H. apply bind_Ok in H as (u & t & Hq & H). run_inv Hq.
apply bind_Ok in H as (a & t & [-> Ha]%get_asset_Ok & H). destruct (String.eqb_spec (status a) "ACTIVE") as [Hst|]; [|done].
cbn [negb] in H. apply bind_Ok in H as (v & t & Hret & H).
assert (Ht : steps s t /\ assets t = assets s).
{ destruct old as [old|]; [|run_inv Hret; split; [apply rtc_refl|done]]. run_inv Hret.
  destruct (find_own_key_ok _ _ _ _ _ Hs Ho) as (Hk & _).
  destruct (retire_key_steps _ _ _ _ _ Hret Hk) as [Hst1 ->]. done. }
destruct Ht as [Hst1 Has]. eapply steps_trans; [exact Hst1|]. run_inv H.
eapply insert_key_steps; [done|by eapply prims_keep_wf|]. exists a. by rewrite Has.
Qed.

Lemma update_asset_review s a a' u s' :
update_asset a' s = (Ok u, s') -> wf s -> assets s !! asset_id a = Some a -> asset_id a' = asset_id a -> kind a' = kind a ->
parent_asset_id a' = parent_asset_id a -> status a' = status a -> (eligible a' = true -> eligible a = true) ->
steps s s' /\ s' = s <| assets ::= <[asset_id a := a']> |>.
Proof.
intros H Hs Ha Hid Hk Hp Hst He. unfold update_asset in H. run_inv H. bools. rewrite Hid. split; [|done].
by apply steps_one, prim_review.
Qed.

Lemma review_ownership_steps id ver own role ref conf s r s' :
review_ownership id ver own role ref conf s = (Ok r, s') -> wf s -> steps s s'.
Proof.
intros H Hs. unfold review_ownership in H. run_inv H.
match goal with Ha : assets _ !! _ = Some ?a |- _ => destruct (wf_assets s Hs _ _ Ha) as [Hid _]; rewrite <- Hid in Ha;
  match goal with Hu : update_asset _ _ = _ |- _ => refine (proj1 (update_asset_review s a _ _ _ Hu Hs Ha _ _ _ _ _)) end end;
by destruct conf.
Qed.

Lemma resolve_flag_steps i role res s r s' : resolve_flag i role res s = (Ok r, s') -> wf s -> steps s s'.
Proof.
intros H Hs. unfold resolve_flag in H. run_inv H.
apply steps_one. by eapply prim_resolve.
Qed.

Lemma record_third_party_right_steps enc id hold knd prio ref role from s r s' :
record_third_party_right enc id hold knd prio ref role from s = (Ok r, s') -> wf s -> steps s s'.
Proof.
intros H Hs. unfold record_third_party_right in H. run_inv H.
match goal with Hi : insert_encumbrance _ _ = _ |- _ => unfold insert_encumbrance in Hi; run_inv Hi end. bools.
set (e := {| encumbrance_id := enc |}) in *. set (w := s <| encumbrances ::= _ |>) in *.
match goal with Hf : raise_flag _ _ _ _ = _ |- _ => apply raise_flag_run in Hf as (a' & f & Ha & Hf & Hid & Hu & ->) end.
change (assets s !! id = Some a') in Ha. destruct (wf_assets s Hs _ _ Ha) as [Hai _]. rewrite Hai.
assert (Hp : prim X s (w <| assets ::= <[id := a' <| eligible := false |>]> |>)) by (by apply (prim_third X s e a')).
eapply steps_trans; [by apply steps_one|].
set (w' := w <| assets ::= <[id := a' <| eligible := false |>]> |>) in *.
change (steps w' (w' <| next_id ::= Z.succ |> <| flags ::= <[f_id f := f]> |>)).
apply (flag_steps w' (a' <| eligible := false |>) f); [by eapply prim_wf| |done|done].
cbn. by rewrite Hid, lookup_insert_eq.
Qed.

Lemma insert_document_steps id knd ref h s i s' :
insert_document id knd ref h s = (Ok i, s') ->
steps s s' /\ assets s' = assets s /\ encumbrances s' = encumbrances s.
Proof.
intros H. unfold insert_document in H. run_inv H. split_and!; [|done..].
eapply steps_trans; [apply steps_one, prim_id|]. apply steps_one, (prim_doc X (s <| next_id ::= Z.succ |>)).
Qed.

Lemma attach_document_steps id knd ref h role s r s' : attach_document id knd ref h role s = (Ok r, s') -> wf s -> steps s s'.
Proof. intros H Hs. unfold attach_document in H. run_inv H. by eapply insert_document_steps. Qed.

Lemma attach_native_evidence_steps id ev role s r s' : attach_native_evidence id ev role s = (Ok r, s') -> wf s -> steps s s'.
Proof.
intros H Hs. unfold attach_native_evidence in H. run_inv H.
match goal with Hd : insert_document _ _ _ _ _ = _ |- _ => by eapply insert_document_steps end.
Qed.

(** What an empty list of reasons says. *)
Lemma one_nil b r : one b r = [] -> b = false.
Proof. by destruct b. Qed.

Lemma isort_nil {A} (leb : A -> A -> bool) l : isort leb l = [] -> l = [].
Proof. intros H. apply Permutation_nil_r. by rewrite <- (isort_perm leb l), H. Qed.

Lemma elem_of_isort {A} (leb : A -> A -> bool) l (x : A) : x ∈ isort leb l <-> x ∈ l.
Proof. by rewrite isort_perm. Qed.

Lemma flat_map_nil {A B} (f : A -> list B) l x : flat_map f l = [] -> x ∈ l -> f x = [].
Proof.
induction l as [|y l IH]; [by intros _ Hx%elem_of_nil|]. cbn. intros [Hy Hl]%app_nil Hx.
apply elem_of_cons in Hx as [->|Hx]; auto.
Qed.

Lemma reasons_nil s a fac :
reasons s a fac = [] ->
status a = "ACTIVE"%string /\ ownership_review a = "VERIFIED"%string /\ ownership a <> "UNKNOWN"%string /\
(forall i f, flags s !! i = Some f -> f_asset f = asset_id a -> unresolved f = false) /\
(forall i e, encumbrances s !! i = Some e -> e_asset e = asset_id a -> open_enc e = true -> enc_reason fac e = []) /\
(forall p, parent_asset_id a = Some p -> family_reason s fac "parent" p = []) /\
(forall c b, assets s !! c = Some b -> parent_asset_id b = Some (asset_id a) -> family_reason s fac "partition" (asset_id b) = []).
Proof.
unfold reasons. cbv zeta. intros H. repeat (apply app_nil in H; destruct H as [?H H]).
apply one_nil in H0, H1, H2. bools. split_and!.
- done.
- done.
- by apply String.eqb_neq.
- intros i f Hf Hid. destruct (unresolved f) eqn:Hu; [|done]. unfold open_flags in H4. apply map_eq_nil, isort_nil in H4.
  assert (Hin : f ∈ select (fun f => String.eqb (f_asset f) (asset_id a) && unresolved f && true) (flags s)).
  { apply elem_of_select. rewrite Hid, String.eqb_refl, Hu. eauto. }
  cbn in H4. rewrite H4 in Hin. by apply elem_of_nil in Hin.
- intros i e He Hid Ho. apply (flat_map_nil _ _ e H5). unfold open_encumbrances. apply elem_of_isort, elem_of_select.
  rewrite Hid, String.eqb_refl, Ho. eauto.
- intros p Hp. by rewrite Hp in H6.
- intros c b Hb Hp. apply (flat_map_nil _ _ b H). unfold children. apply elem_of_isort, elem_of_select.
  rewrite bool_decide_true by done. eauto.
Qed.

Lemma third_party_reason fac e : open_enc e = true -> enc_reason fac e = [] -> third_party e = false.
Proof.
intros Ho. unfold enc_reason, third_party. rewrite Ho. destruct (facility_id e) as [g|]; [done|].
by destruct (mem_str (e_kind e) THIRD_PARTY_KINDS).
Qed.

Lemma eligibility_run id fac s r s' :
eligibility id fac s = (Ok r, s') -> wf s ->
exists a, assets s !! id = Some a /\ el_eligible r = bool_decide (reasons s a fac = []) /\
  s' = s <| assets ::= <[id := a <| eligible := el_eligible r |>]> |> /\ steps s s'.
Proof.
intros H Hs. unfold eligibility in H. run_inv H.
match goal with Ha : assets _ !! _ = Some ?a |- _ => exists a; rename Ha into Hasset; rename a into asset end.
split; [done|]. split; [done|]. destruct (wf_assets s Hs _ _ Hasset) as [Hid Hc].
match goal with Hu : update_asset _ _ = _ |- _ => unfold update_asset in Hu; run_inv Hu end. bools. cbn. rewrite Hid.
split; [done|]. apply steps_one. rewrite <- Hid in Hasset |- *. case_bool_decide as Hr.
- destruct (reasons_nil s asset fac Hr) as (_ & _ & _ & Hf & He & _). apply prim_eligible; try done.
  intros i e Hi Hie. destruct (open_enc e) eqn:Ho; [|unfold third_party; by rewrite Ho].
  eapply third_party_reason; [done|by eapply He].
- by apply prim_review.
Qed.

Lemma family_reason_nil s fac label q g :
wf s -> family_reason s (Some fac) label q = [] -> financed s q g -> g = fac.
Proof.
intros Hs H (e & He & Hg)%financed_iff; [|done]. unfold family_reason in H. rewrite He in H.
case_bool_decide as Hf; [|done]. congruence.
Qed.

Lemma insert_facility_steps e f s u s' :
insert_encumbrance e s = (Ok u, s') -> facility_id e = Some f -> open_enc e = true -> active_asset s (e_asset e) ->
(forall a p g, assets s !! e_asset e = Some a -> parent_asset_id a = Some p -> financed s p g -> g = f) ->
(forall c a g, assets s !! c = Some a -> parent_asset_id a = Some (e_asset e) -> financed s c g -> g = f) ->
steps s s' /\ s' = s <| encumbrances ::= <[encumbrance_id e := e]> |>.
Proof.
intros H Hf Ho Ha Hp Hc. unfold insert_encumbrance in H. run_inv H. bools. split; [|done].
apply steps_one, (prim_finance X s e f); try done. intros i e' He' Hid.
assert (Hours : ours e = true) by (apply ours_iff; eauto).
match goal with Hn : ours e && _ = false |- _ => rewrite Hours in Hn; cbn in Hn; apply bool_decide_eq_false in Hn;
  pose proof (select_nil _ _ Hn _ _ He') as Hq end.
cbn in Hq. rewrite Hid, String.eqb_refl in Hq. by rewrite andb_true_r in Hq.
Qed.

Lemma assign_to_facility_steps enc id fac role ref s r s' :
assign_to_facility enc id fac role ref s = (Ok r, s') -> wf s -> steps s s'.
Proof.
intros H Hs. unfold assign_to_facility in H. apply bind_Ok in H as (u & t & Hq & H). run_inv Hq.
apply bind_Ok in H as (w & t & Hg & H). run_inv Hg. destruct (bool_decide (fac ∈ facilities s)); [|done]. cbn [negb] in H.
apply bind_Ok in H as (el & t & Hel & H). destruct (eligibility_run _ _ _ _ _ Hel Hs) as (a & Ha & Hr & Ht & Hst).
destruct (el_eligible el); [|done]. symmetry in Hr. apply bool_decide_eq_true in Hr. cbn [negb] in H.
pose proof (prims_keep_wf _ _ Hst Hs) as Hwt. eapply steps_trans; [exact Hst|]. run_inv H. bools.
destruct (reasons_nil s a (Some fac) Hr) as (Hact & _ & _ & _ & _ & Hpar & Hch). destruct (wf_assets s Hs _ _ Ha) as [Hid _].
assert (Hfin : forall q g, financed t q g -> financed s q g) by (subst t; done).
match goal with Hi : insert_encumbrance _ _ = _ |- _ => refine (proj1 (insert_facility_steps _ fac _ _ _ Hi _ _ _ _ _)) end; try done.
- exists (a <| eligible := true |>). subst t. cbn. by rewrite lookup_insert_eq.
- intros b p g Hx Hp Hg. subst t. cbn in Hx. rewrite lookup_insert_eq in Hx. injection Hx as <-.
  eapply (family_reason_nil s fac "parent" p); [done|by apply Hpar|done].
- intros c b g Hx Hp Hg. subst t. cbn in Hx, Hp.
  assert (Hb' : exists b', assets s !! c = Some b' /\ parent_asset_id b' = Some id).
  { lk Hx; [|by exists b]. by exists a. }
  destruct Hb' as (b' & Hb' & Hp'). destruct (wf_assets s Hs _ _ Hb') as [Hidb _]. subst c.
  eapply (family_reason_nil s fac "partition" (asset_id b')); [done|eapply Hch; [exact Hb'|by rewrite Hid]|done].
Qed.

Lemma release_steps enc role s r s' : release enc role s = (Ok r, s') -> wf s -> steps s s'.
Proof.
intros H Hs. unfold release in H. run_inv H.
match goal with He : encumbrances _ !! _ = Some ?e, Hu : release_row _ _ _ = _ |- _ =>
  unfold release_row in Hu; run_inv Hu; destruct (wf_encs s Hs _ _ He) as [<- _] end.
by apply steps_one, prim_release.
Qed.

(** ** RMA replacement *)

Definition same_rights (s s' : DB) : Prop :=
assets s' = assets s /\ assignments s' = assignments s /\ encumbrances s' = encumbrances s /\ now s' = now s.

Lemma move_keys_steps old new ks s u s' :
for_each ks (move_key old new) s = (Ok u, s') -> wf s -> active_asset s new -> steps s s' /\ same_rights s s'.
Proof.
revert s. induction ks as [|k ks IH]; intros s H Hs Ha; cbn [for_each] in H.
- run_inv H. split; [apply rtc_refl|done].
- apply bind_Ok in H as (v & t & Hk & H). unfold move_key in Hk. run_inv Hk.
  match goal with Hf : find_own_key _ _ _ _ = _ |- _ => apply (find_own_key_ok s) in Hf as (Hk & _); [|done] end.
  match goal with Hr : retire_key _ _ _ = _ |- _ => apply retire_key_steps in Hr as [Hst1 ->]; [|done] end.
  pose proof (prims_keep_wf _ _ Hst1 Hs) as Hw1.
  match goal with Hi : insert_key _ _ _ _ _ = _ |- _ => apply insert_key_steps in Hi as (Hst2 & Has & Hn & Hasg & Henc & _); [|done|done] end.
  pose proof (prims_keep_wf _ _ Hst2 Hw1) as Hw2. destruct (IH _ H Hw2) as (Hst3 & Has3 & Hasg3 & Henc3 & Hn3).
  { unfold active_asset. rewrite Has. exact Ha. }
  split; [by eapply steps_trans; [|eapply steps_trans]|]. unfold same_rights. by rewrite Has3, Hasg3, Henc3, Hn3.
Qed.

(** Retiring the listed keys retires no other. *)
Lemma retire_all_steps ks t s u s' :
for_each ks (fun k => retire_key k t) s = (Ok u, s') ->
NoDup (map k_id ks) -> Forall (fun k => keys s !! k_id k = Some k) ks ->
steps s s' /\ same_rights s s' /\
forall i k', keys s' !! i = Some k' -> active k' = true -> keys s !! i = Some k' /\ i ∉ map k_id ks.
Proof.
revert s. induction ks as [|k ks IH]; intros s H Hnd Hks; cbn [for_each] in H.
- run_inv H. split_and!; [apply rtc_refl|done|]. intros i k' Hk _. split; [done|by intros Hi%elem_of_nil].
- apply bind_Ok in H as (v & w & Hk & H). apply Forall_cons in Hks as [Hk0 Hks]. apply NoDup_cons in Hnd as [Hnin Hnd].
  apply retire_key_steps in Hk as [Hst ->]; [|done]. destruct (IH _ H Hnd) as (Hst2 & Hr & Hkeys).
  + apply Forall_forall. intros x Hin. rewrite Forall_forall in Hks. pose proof (Hks x Hin). cbn. rewrite lookup_insert_ne; [done|]. intros Heq. apply Hnin. rewrite Heq. by apply list_elem_of_fmap_2.
  + split_and!; [by eapply steps_trans|done|]. intros i k' Hi Ha. destruct (Hkeys i k' Hi Ha) as [Hl Hn]. cbn in Hl. lk Hl.
    * done.
    * split; [done|]. by intros [->|Hin]%elem_of_cons.
Qed.

Lemma active_keys_ok s id :
wf s -> NoDup (map k_id (active_keys s id)) /\ Forall (fun k => keys s !! k_id k = Some k) (active_keys s id) /\
forall i k, keys s !! i = Some k -> k_asset k = id -> active k = true -> k ∈ active_keys s id.
Proof.
intros Hs. split_and!.
- change (map k_id (active_keys s id)) with (k_id <$> active_keys s id). unfold active_keys. rewrite (isort_perm (id_leb k_id)).
  unfold select. assert (Hnd : NoDup (k_id <$> (map_to_list (keys s)).*2)).
  { assert (Heq : k_id <$> (map_to_list (keys s)).*2 = (map_to_list (keys s)).*1).
    { rewrite <- list_fmap_compose. apply list_fmap_ext. intros i [j k] Hi. cbn.
      apply list_elem_of_lookup_2, elem_of_map_to_list in Hi. by apply (wf_keys s Hs). }
    rewrite Heq. apply NoDup_fst_map_to_list. }
  eapply sublist_NoDup; [exact Hnd|]. apply fmap_sublist, sublist_filter.
- apply Forall_forall. intros k. unfold active_keys. rewrite elem_of_isort, elem_of_select. intros [_ [i Hi]].
  by destruct (wf_keys s Hs i k Hi) as [-> _].
- intros i k Hi Hid Ha. unfold active_keys. apply elem_of_isort, elem_of_select. rewrite Hid, String.eqb_refl, Ha. eauto.
Qed.

Lemma retire_old_keys id t s u s' :
for_each (active_keys s id) (fun k => retire_key k t) s = (Ok u, s') -> wf s ->
steps s s' /\ same_rights s s' /\ no_active_key s' id.
Proof.
intros H Hs. destruct (active_keys_ok s id Hs) as (Hnd & Hks & Hall).
destruct (retire_all_steps _ _ _ _ _ H Hnd Hks) as (Hst & Hr & Hkeys). split_and!; [done..|].
intros i k Hi Hid. destruct (active k) eqn:Ha; [|done]. destruct (Hkeys i k Hi Ha) as [Hl Hn]. destruct Hn.
destruct (wf_keys s Hs i k Hl) as [<- _]. apply list_elem_of_fmap_2. by eapply Hall.
Qed.

(** The right moves: released on the old asset, opened on the new one. *)
Lemma carry_over_steps e old new new_enc s r s' :
carry_over e new new_enc s = (Ok r, s') -> wf s -> encumbrances s !! encumbrance_id e = Some e -> e_asset e = old -> old <> new ->
active_asset s new -> (forall c, (fst <$> tree s c) <> Some (Some new)) -> (fst <$> tree s new) = Some None ->
steps s s' /\ no_facility s' old /\ assignments s' = assignments s.
Proof.
intros H Hs He Hold Hne Hact Hkids Hroot. unfold carry_over in H. destruct (ours e) eqn:Hours; [|done]. cbn [negb] in H.
apply ours_iff in Hours as [Ho [f Hf]]. run_inv H.
match goal with Hr : release_row _ _ _ = _ |- _ => unfold release_row in Hr; run_inv Hr end.
assert (Hst1 : steps s (s <| encumbrances ::= <[encumbrance_id e := e <| e_status := "RELEASED"%string |> <| released_at := Some (now s) |>]> |>))
  by (by apply steps_one, prim_release).
match goal with Hi : insert_encumbrance ?x _ = _ |- _ => apply (insert_facility_steps x f) in Hi as [Hst2 ->] end; try done.
- split_and!; [by eapply steps_trans| |done]. intros i x Hx Hid. cbn in Hx. lk Hx; [by destruct Hne|]. lk Hx; [done|].
  destruct (ours x) eqn:Hox; [|done]. destruct E0.
  eapply (wf_unique_facility s Hs); [exact He|exact Hx|by apply ours_iff; eauto|done|congruence].
- intros b p g Ha Hp _. cbn in Ha. unfold tree in Hroot. rewrite Ha in Hroot. cbn in Hroot. congruence.
- intros c b g Ha Hp _. cbn in Ha, Hp. destruct (Hkids c). unfold tree. rewrite Ha. cbn. by rewrite Hp.
Qed.

(** The first half of the replacement: the new row and the keys. *)
Lemma rma_keys_steps n old t moved fresh f s v1 s1 v2 s2 v3 s3 v4 s4 :
insert_asset n s = (Ok v1, s1) -> for_each moved (move_key old (asset_id n)) s1 = (Ok v2, s2) ->
for_each fresh (fun k => let* _ := insert_key (asset_id n) k.1 k.2 (f k) in ret tt) s2 = (Ok v3, s3) ->
for_each (active_keys s3 old) (fun k => retire_key k t) s3 = (Ok v4, s4) ->
wf s -> eligible n = false -> status n = "ACTIVE"%string -> parent_asset_id n = None ->
steps s s4 /\ no_active_key s4 old /\ assets s !! asset_id n = None /\ assets s4 = <[asset_id n := n]> (assets s) /\
assignments s4 = assignments s /\ encumbrances s4 = encumbrances s.
Proof.
intros Hi Hm Hf Hr Hs He Hst Hp. apply insert_asset_steps in Hi as (Hst1 & Hn & ->); [|done|done|by rewrite Hp].
pose proof (prims_keep_wf _ _ Hst1 Hs) as Hw1.
assert (Hnew : active_asset (s <| assets ::= <[asset_id n := n]> |>) (asset_id n)) by (exists n; cbn; by rewrite lookup_insert_eq).
apply move_keys_steps in Hm as (Hst2 & Has2 & Hasg2 & Henc2 & Hn2); [|done..]. pose proof (prims_keep_wf _ _ Hst2 Hw1) as Hw2.
assert (Hnew2 : active_asset s2 (asset_id n)) by (unfold active_asset; by rewrite Has2).
apply insert_keys_steps in Hf as (Hst3 & Has3 & Hasg3 & Henc3); [|done..]. pose proof (prims_keep_wf _ _ Hst3 Hw2) as Hw3.
apply retire_old_keys in Hr as (Hst4 & (Has4 & Hasg4 & Henc4 & _) & Hnk); [|done].
split_and!; [|done|done|by rewrite Has4, Has3, Has2|by rewrite Hasg4, Hasg3, Hasg2|by rewrite Henc4, Henc3, Henc2].
eapply steps_trans; [exact Hst1|]. eapply steps_trans; [exact Hst2|]. by eapply steps_trans.
Qed.

Lemma retire_asset_steps o o' s u s' :
update_asset o' s = (Ok u, s') -> asset_id o ∈ X -> assets s !! asset_id o = Some o -> no_active_key s (asset_id o) ->
asset_id o' = asset_id o -> kind o' = kind o -> parent_asset_id o' = parent_asset_id o -> eligible o' = false -> status o' = "RETIRED"%string ->
steps s s' /\ s' = s <| assets ::= <[asset_id o := o']> |>.
Proof.
intros H HX Ho Hk Hid Hkind Hp He. unfold update_asset in H. run_inv H. bools. rewrite Hid. split; [|done].
by apply steps_one, prim_retire.
Qed.

(** The provider assignment moves. *)
Definition move_assignment (current : option AssetProviderAssignment) (t : Z) (old new role asg : string) : M unit :=
match current with
| Some a =>
    close_assignment a t (dict_with (dict_with (as_provenance a) "endReason" (JStr "RMA")) "replacedBy" (JStr new)) ;;;
    let* _ := assign_provider new (provider_account_id a) role "RMA" asg (Some [("replaces"%string, JStr old)]) in
    ret tt
| None => ret tt
end.

Lemma move_assignment_steps current t old new role asg s u s' :
move_assignment current t old new role asg s = (Ok u, s') -> wf s -> current = open_assignment s old -> old <> new ->
steps s s' /\ no_open_assignment s' old /\ encumbrances s' = encumbrances s /\ (forall c, tree s' c = tree s c).
Proof.
intros H Hs Hc Hne. unfold move_assignment in H. destruct current as [a|]; last first.
{ run_inv H. split_and!; [apply rtc_refl|by apply open_assignment_None|done..]. }
symmetry in Hc. destruct (open_assignment_Some s old a Hs Hc) as (Ha & Hid & Ho). run_inv H.
match goal with Hcl : close_assignment _ _ _ _ = _ |- _ => unfold close_assignment in Hcl; run_inv Hcl end.
set (w := s <| assignments ::= _ |>) in *.
assert (Hst : steps s w) by (by apply steps_one, prim_close).
assert (Hno : no_open_assignment w old).
{ intros i b Hi Hbid. cbn in Hi. lk Hi; [done|]. destruct (is_open b) eqn:Hob; [|done]. destruct E.
  eapply (wf_unique_open s Hs); [exact Ha|exact Hi|done|done|congruence]. }
match goal with Hap : assign_provider _ _ _ _ _ _ _ = _ |- _ => apply assign_provider_steps in Hap as (Hst2 & He & Ht & Hk);
  [|by eapply prims_keep_wf] end.
split_and!; [by eapply steps_trans|by apply Hk|by rewrite He|done].
Qed.

Lemma replace_asset_steps old new moved fresh role asg carry s r s' :
old ∈ X -> replace_asset old new moved fresh role asg carry s = (Ok r, s') -> wf s ->
steps s s' /\ no_open_assignment s' old /\ no_facility s' old.
Proof.
intros HX H Hs. unfold replace_asset in H. apply bind_Ok in H as (v & t & Hq & H). run_inv Hq.
apply bind_Ok in H as (o & t & Ho & H). run_inv Ho.
destruct (String.eqb_spec (status o) "ACTIVE") as [Hst|]; [|done]. cbn [negb] in H.
apply bind_Ok in H as (w & t & Hg & H). run_inv Hg. cbv zeta in H.
destruct (bool_decide _ && negb carry) eqn:Hheld; [done|]. destruct (wf_assets s Hs _ _ Ho) as [Hoid _].
apply bind_Ok in H as (v1 & s1 & H1 & H). apply bind_Ok in H as (v2 & s2 & H2 & H). apply bind_Ok in H as (v3 & s3 & H3 & H).
apply bind_Ok in H as (w3 & t & Hg & H). run_inv Hg. apply bind_Ok in H as (v4 & s4 & H4 & H).
set (n := {| asset_id := new |}) in *.
destruct (rma_keys_steps n old _ _ _ _ _ _ _ _ _ _ _ _ _ H1 H2 H3 H4 Hs eq_refl eq_refl eq_refl) as (Hst4 & Hnk & Hn & Has & Hasg & Henc).
pose proof (prims_keep_wf _ _ Hst4 Hs) as Hw4. cbn in Hn.
assert (Hne : old <> new) by (intros ->; congruence).
clear H1 H2 H3 H4.
apply bind_Ok in H as (v5 & s5 & H5 & H). rewrite <- Hoid in Hnk.
apply (retire_asset_steps o) in H5 as [Hst5 ->]; [|by rewrite Hoid|rewrite Has, Hoid; cbn; by rewrite lookup_insert_ne|done..].
set (s5 := s4 <| assets ::= _ |>) in *. pose proof (prims_keep_wf _ _ Hst5 Hw4) as Hw5.
apply bind_Ok in H as (v6 & s6 & H6 & H).
apply (move_assignment_steps (open_assignment s old) (now s) old new role asg) in H6 as (Hst6 & Hno & Henc6 & Htree);
  [|done|unfold open_assignment; cbn; by rewrite Hasg|done].
pose proof (prims_keep_wf _ _ Hst6 Hw5) as Hw6. assert (Henc' : encumbrances s6 = encumbrances s) by (by rewrite Henc6).
assert (Hst' : steps s s6) by (eapply steps_trans; [exact Hst4|]; by eapply steps_trans).
assert (Ht : forall c, tree s6 c = if decide (c = old) then (fun a => (parent_asset_id a, "RETIRED"%string)) <$> assets s !! c
                          else if decide (c = new) then Some (None, "ACTIVE"%string) else tree s c).
{ intros c. rewrite Htree. unfold tree. cbn. rewrite Has, Hoid. destruct (decide (c = old)) as [->|Hc].
  - by rewrite lookup_insert_eq, Ho.
  - rewrite lookup_insert_ne by done. destruct (decide (c = new)) as [->|]; [cbn; by rewrite lookup_insert_eq|].
    rewrite lookup_insert_ne; [done|]. cbn. congruence. }
apply bind_Ok in H as (v7 & s7 & H7 & H). run_inv H.
destruct (open_facility_encumbrance s old) as [e|] eqn:He; last first.
{ run_inv H7. split_and!; [done|done|]. intros i x Hx. rewrite Henc' in Hx. by eapply facility_None. }
destruct (facility_Some s old e Hs He) as (Hlk & Heid & Hours). destruct carry; [|by rewrite bool_decide_true in Hheld].
apply bind_Ok in H7 as (v8 & s8 & H8 & H7). run_inv H7. apply (carry_over_steps e old new) in H8 as (Hst8 & Hnf & Hasg8); try done.
- split_and!; [by eapply steps_trans| |done]. intros i x. rewrite Hasg8. apply Hno.
- by rewrite Henc'.
- specialize (Ht new). rewrite decide_False, decide_True in Ht by done. unfold tree in Ht. unfold active_asset.
  destruct (assets s6 !! new) as [b|]; [|done]. exists b. split; [done|]. by injection Ht.
- intros c Hc. rewrite Ht in Hc. destruct (decide (c = old)) as [->|].
  + rewrite Ho in Hc. injection Hc as Hc. destruct (wf_parents s Hs _ _ _ Ho Hc) as [_ (b & Hb & _)]. congruence.
  + destruct (decide (c = new)); [done|]. unfold tree in Hc. destruct (assets s !! c) as [b|] eqn:Hb; [|done].
    injection Hc as Hc. destruct (wf_parents s Hs _ _ _ Hb Hc) as [_ (b' & Hb' & _)]. congruence.
- rewrite Ht. by rewrite decide_False, decide_True by done.
Qed.

End Steps.

(** * Any sequence of operations *)

Inductive Op :=
| OpRegister (id knd : string) (ks : list IdentityKey) (role : string) (acc sk : option string) (units : Z) (cust loc : option string)
    (prov : option (list (string * json))) (confidence : string)
| OpPartition (parent child : string) (ks : list IdentityKey) (role : string) (sk : option string)
| OpAssign (id acc role rsn asg : string) (prov : option (list (string * json)))
| OpEnd (id role rsn : string) (at_ : option Z)
| OpChangeKey (id sch : string) (old : option string) (new role : string) (prov : option (list (string * json)))
| OpReplace (old new : string) (moved fresh : list IdentityKey) (role asg : string) (carry : bool)
| OpReview (id verdict own role : string) (ref confidence : option string)
| OpResolve (flag_id : Z) (role resol : string)
| OpThirdParty (enc id hold knd : string) (prio : Z) (ref role : string) (from : option Z)
| OpDocument (id knd ref : string) (hash : option string) (role : string)
| OpEligibility (id : string) (fac : option string)
| OpFinance (enc id fac role : string) (ref : option string)
| OpRelease (enc role : string)
| OpEvidence (id : string) (evidence : list (string * string)) (role : string).

Definition void {A} (m : M A) : M unit := let* _ := m in ret tt.

Definition run_op (o : Op) : M unit :=
  match o with
  | OpRegister id knd ks role acc sk units cust loc prov conf => void (register_asset id knd ks role acc sk units cust loc prov conf)
  | OpPartition p c ks role sk => void (register_partition p c ks role sk)
  | OpAssign id acc role rsn asg prov => void (assign_provider id acc role rsn asg prov)
  | OpEnd id role rsn t => void (end_assignment id role rsn t)
  | OpChangeKey id sch old new role prov => void (change_identity_key id sch old new role prov)
  | OpReplace old new moved fresh role asg carry => void (replace_asset old new moved fresh role asg carry)
  | OpReview id ver own role ref conf => void (review_ownership id ver own role ref conf)
  | OpResolve i role res => resolve_flag i role res
  | OpThirdParty enc id hold knd prio ref role from => void (record_third_party_right enc id hold knd prio ref role from)
  | OpDocument id knd ref hash role => void (attach_document id knd ref hash role)
  | OpEligibility id fac => void (eligibility id fac)
  | OpFinance enc id fac role ref => void (assign_to_facility enc id fac role ref)
  | OpRelease enc role => void (release enc role)
  | OpEvidence id ev role => void (attach_native_evidence id ev role)
  end.

(** One transaction, which commits when the operation returns; or the world
    moves on: the clock, new provider accounts and facilities. *)
Inductive step (s : DB) : DB -> Prop :=
| step_op o : step s (transaction (run_op o) s).2
| step_world t acc fac : accounts s ⊆ acc -> facilities s ⊆ fac -> step s (s <| now := t |> <| accounts := acc |> <| facilities := fac |>).

(** The assets an operation retires. *)
Definition retiring (o : Op) : gset string := match o with OpReplace old _ _ _ _ _ _ => {[old]} | _ => ∅ end.

Lemma void_Ok {A} (m : M A) s u s' : void m s = (Ok u, s') -> exists a, m s = (Ok a, s').
Proof. intros (a & t & Hm & H)%bind_Ok. run_inv H. by exists a. Qed.

Lemma run_op_steps o s u s' : run_op o s = (Ok u, s') -> wf s ->
  steps (retiring o) s s' /\ forall id, id ∈ retiring o -> no_open_assignment s' id /\ no_facility s' id.
Proof.
  intros H Hs.
  destruct o; cbn [run_op retiring] in *; try (apply void_Ok in H as [x H]);
    try (split; [|by intros q Hq%elem_of_empty]).
  - by eapply register_asset_steps.
  - by eapply register_partition_steps.
  - by eapply assign_provider_steps.
  - by eapply end_assignment_steps.
  - by eapply change_identity_key_steps.
  - destruct (replace_asset_steps {[old]} old _ _ _ _ _ _ _ _ _ ltac:(set_solver) H Hs) as (Hst & Hno & Hnf).
    split; [done|]. by intros id ->%elem_of_singleton.
  - by eapply review_ownership_steps.
  - by eapply resolve_flag_steps.
  - by eapply record_third_party_right_steps.
  - by eapply attach_document_steps.
  - by eapply eligibility_run in H as (a & _ & _ & _ & Hst).
  - by eapply assign_to_facility_steps.
  - by eapply release_steps.
  - by eapply attach_native_evidence_steps.
Qed.

(** No asset but those of [X] is retired while something is live on it. *)
Definition settled (X : gset string) (s : DB) : Prop :=
  forall id a, assets s !! id = Some a -> status a = "RETIRED"%string -> id ∉ X -> no_open_assignment s id /\ no_facility s id.

(** An asset of the table stays there, and stays retired. *)
Definition lasting (s s' : DB) : Prop :=
  forall id a, assets s !! id = Some a -> exists a', assets s' !! id = Some a' /\ (status a = "RETIRED"%string -> status a' = "RETIRED"%string).

Lemma prim_lasting X s s' : prim X s s' -> wf s -> lasting s s'.
Proof.
  intros Hp Hs id x Hx.
  assert (Hput : forall i a', (forall a, assets s !! i = Some a -> status a = "RETIRED"%string -> status a' = "RETIRED"%string) ->
    exists x', <[i := a']> (assets s) !! id = Some x' /\ (status x = "RETIRED"%string -> status x' = "RETIRED"%string)).
  { intros i a' Hst. destruct (decide (i = id)) as [->|Hne]; [|exists x; by rewrite lookup_insert_ne].
    exists a'. rewrite lookup_insert_eq. split; [done|]. by apply Hst. }
  destruct Hp; try (by exists x); cbn; apply Hput; intros b Hb Hr; cbn; congruence.
Qed.

Lemma settled_assets X s i a' :
  settled X s -> (status a' = "RETIRED"%string -> i ∉ X -> exists a, assets s !! i = Some a /\ status a = "RETIRED"%string) ->
  settled X (s <| assets ::= <[i := a']> |>).
Proof.
  intros Hset Ha id x Hx Hr Hid. cbn in Hx. lk Hx; [|by eapply Hset].
  destruct (Ha Hr Hid) as (a & Hla & Hst). by eapply Hset.
Qed.

Lemma settled_assignments X s i b :
  settled X s -> (is_open b = true -> active_asset s (as_asset b)) -> settled X (s <| assignments ::= <[i := b]> |>).
Proof.
  intros Hset Hb id x Hx Hr Hid. cbn in Hx. destruct (Hset id x Hx Hr Hid) as [Ho Hf]. split; [|done].
  intros j c Hc Hcid. cbn in Hc. lk Hc; [|by eapply Ho]. destruct (is_open c) eqn:Hoc; [|done].
  destruct (active_not_retired _ _ (Hb eq_refl) x Hx Hr).
Qed.

Lemma settled_encs X s i e :
  settled X s -> (ours e = true -> active_asset s (e_asset e)) -> settled X (s <| encumbrances ::= <[i := e]> |>).
Proof.
  intros Hset He id x Hx Hr Hid. cbn in Hx. destruct (Hset id x Hx Hr Hid) as [Ho Hf]. split; [done|].
  intros j c Hc Hcid. cbn in Hc. lk Hc; [|by eapply Hf]. destruct (ours c) eqn:Hoc; [|done].
  destruct (active_not_retired _ _ (He eq_refl) x Hx Hr).
Qed.

Lemma prim_settled X s s' : prim X s s' -> settled X s -> settled X s'.
Proof.
  intros Hp Hset.
  destruct Hp as [|t|acc fac _ _|a Hc Hn He Hst Hpar|a a' Ha Hc Hai Hk Hpar Hst He|a Ha Hc Hf Ht|a a' Ha Hla Hkeys Hc Hai Hk Hpar He Hst
    |k Hn Hlt Ha Huq|k t Hk|a Hn Ha Hno|a t p Ha|f Hn Hlt He|i f f' Hf Hfi Hu|e a Hn Hf Ha|e f Hn Hf Ha Hno Hp1 Hp2|e t He|i d];
    try exact Hset.
  - apply settled_assets; [done|congruence].
  - apply settled_assets; [done|]. intros Hr _. exists a. split; [done|congruence].
  - apply settled_assets; [done|]. intros Hr _. by exists a.
  - by apply settled_assets.
  - by apply settled_assignments.
  - by apply settled_assignments.
  - apply (settled_assets X (s <| encumbrances ::= <[encumbrance_id e := e]> |>)).
    + apply settled_encs; [done|]. intros (_ & g & Hg)%ours_iff. congruence.
    + intros Hr _. by exists a.
  - by apply settled_encs.
  - by apply settled_encs.
Qed.

Record inv (s : DB) : Prop := { inv_wf : wf s; inv_settled : settled ∅ s }.

Lemma steps_all X s s' : steps X s s' -> wf s -> settled X s -> wf s' /\ settled X s' /\ lasting s s'.
Proof.
  induction 1 as [s|s t u Hp _ IH]; intros Hs Hset.
  - split_and!; [done..|]. intros id a Ha. by exists a.
  - pose proof (prim_lasting _ _ _ Hp Hs) as Hl.
    destruct (IH (prim_wf _ _ _ Hp Hs) (prim_settled _ _ _ Hp Hset)) as (Hw & Hs' & Hl'). split_and!; [done..|].
    intros id a Ha. destruct (Hl id a Ha) as (b & Hb & Hr). destruct (Hl' id b Hb) as (c & Hc & Hr'). exists c. auto.
Qed.

Lemma step_inv s s' : step s s' -> inv s -> inv s' /\ lasting s s'.
Proof.
  intros [o|t acc fac Ha Hf] [Hs Hset].
  - unfold transaction. destruct (run_op o s) as [[u|e] t'] eqn:Hrun; cbn; [|by split; [split|intros id a Ha; exists a]].
    destruct (run_op_steps _ _ _ _ Hrun Hs) as [Hst Hend].
    assert (Hset' : settled (retiring o) s) by (intros id a Ha Hr _; by eapply Hset).
    destruct (steps_all _ _ _ Hst Hs Hset') as (Hw & Hset2 & Hl). split; [|done]. split; [done|].
    intros id a Ha Hr _. destruct (decide (id ∈ retiring o)); [by apply Hend|by eapply Hset2].
  - assert (Hst : steps ∅ s (s <| now := t |> <| accounts := acc |> <| facilities := fac |>)).
    { eapply steps_trans; [apply steps_one, (prim_time _ _ t)|]. by apply steps_one, (prim_refs _ (s <| now := t |>)). }
    destruct (steps_all _ _ _ Hst Hs Hset) as (Hw & Hset' & Hl). by split.
Qed.

Lemma rtc_step_inv s s' : rtc step s s' -> inv s -> inv s' /\ lasting s s'.
Proof.
  induction 1 as [s|s t u Hp _ IH]; intros Hs; [split; [done|]; intros id a Ha; by exists a|].
  destruct (step_inv _ _ Hp Hs) as [Ht Hl]. destruct (IH Ht) as [Hu Hl']. split; [done|].
  intros id a Ha. destruct (Hl id a Ha) as (b & Hb & Hr). destruct (Hl' id b Hb) as (c & Hc & Hr'). exists c. auto.
Qed.


(** * Collateral units *)

(** The physical device an asset stands for, and what it can finance. *)
Definition root_id (s : DB) (id : string) : string :=
  match assets s !! id with Some a => default id (parent_asset_id a) | None => id end.

Definition financeable (s : DB) (id : string) : Z :=
  match assets s !! id with Some a => if String.eqb (status a) "ACTIVE" then unit_count a else 0 | None => 0 end.

Lemma root_of_spec n s id a :
  wf s -> (2 <= n)%nat -> assets s !! id = Some a ->
  exists r, root_of n s a = Ok r /\ asset_id r = root_id s id /\ assets s !! root_id s id = Some r.
Proof.
  intros Hs Hn Ha. destruct n as [|[|n]]; [lia..|]. unfold root_id. rewrite Ha. cbn [root_of].
  destruct (wf_assets s Hs _ _ Ha) as [Hid _].
  destruct (parent_asset_id a) as [p|] eqn:Hp; cbn; [|by exists a].
  destruct (wf_parents s Hs _ _ _ Ha Hp) as [_ (b & Hb & Hk)]. rewrite Hb. destruct (wf_assets s Hs _ _ Hb) as [Hidb _].
  destruct (parent_asset_id b) as [q|] eqn:Hq; [|by exists b].
  destruct (wf_parents s Hs _ _ _ Hb Hq) as [Hk' _]. congruence.
Qed.

(** Counting collateral terminates and counts every physical device once:
    partitions collapse into their parent, repeated listings and partitions of
    one device add nothing, a retired device counts 0. *)
Theorem collateral_units_once n s ids :
  wf s -> (2 <= n)%nat -> (forall id, id ∈ ids -> is_Some (assets s !! id)) ->
  exists units, collateral_units n s ids ∅ = Ok units /\
    forall r, units !! r = if decide (r ∈ root_id s <$> ids) then Some (financeable s r) else None.
Proof.
  intros Hs Hn Hids.
  assert (Hgen : forall m, exists units, collateral_units n s ids m = Ok units /\
    forall r, units !! r = if decide (r ∈ root_id s <$> ids) then Some (financeable s r) else m !! r).
  { induction ids as [|id ids IH]; intros m; [by exists m|]. cbn [collateral_units].
    destruct (Hids id (list_elem_of_here _ _)) as [a Ha]. rewrite Ha.
    destruct (root_of_spec n s id a Hs Hn Ha) as (r0 & -> & Hid & Hr). cbn [rbind].
    destruct (IH ltac:(intros i Hi; apply Hids; by apply list_elem_of_further)
      (<[asset_id r0 := if String.eqb (status r0) "ACTIVE" then unit_count r0 else 0]> m)) as (units & -> & Hu).
    exists units. split; [done|]. intros r. rewrite Hu. rewrite fmap_cons.
    destruct (decide (r ∈ root_id s <$> ids)) as [Hin|Hnin].
    - rewrite decide_True; [done|]. by apply list_elem_of_further.
    - rewrite Hid. destruct (decide (r = root_id s id)) as [->|Hne].
      + rewrite lookup_insert_eq, decide_True by apply list_elem_of_here. unfold financeable. by rewrite Hr.
      + rewrite lookup_insert_ne by done. rewrite decide_False; [done|]. by intros [?|?]%elem_of_cons. }
  destruct (Hgen ∅) as (units & H & Hu). exists units. split; [done|]. intros r. by rewrite Hu, lookup_empty.
Qed.

(** * The eligibility decision *)

(** Nothing of [q] is financed by a facility other than [fac]. *)
Definition free_for (s : DB) (fac : option string) (q : string) : Prop := forall g, financed s q g -> fac = Some g.

Record clear (s : DB) (a : GpuAsset) (fac : option string) : Prop := {
  cl_active : status a = "ACTIVE"%string;
  cl_verified : ownership_review a = "VERIFIED"%string;
  cl_owned : ownership a <> "UNKNOWN"%string;
  cl_consent : ownership a = "LEASED"%string -> has_document s (asset_id a) "LEASE_CONSENT" = true;
  cl_flags : open_flags s (asset_id a) None = [];
  cl_third : forall e, e ∈ open_encumbrances s (asset_id a) -> third_party e = false;
  cl_free : free_for s fac (asset_id a);
  cl_parent : forall p, parent_asset_id a = Some p -> free_for s fac p;
  cl_partitions : forall c, c ∈ children s (asset_id a) -> free_for s fac (asset_id c);
}.

Lemma one_app_nil b r l : one b r ++ l = [] <-> b = false /\ l = [].
Proof. destruct b; cbn; split; [done|by intros [[=] _]|by intros ->|by intros [_ ->]]. Qed.

Lemma flat_map_nil_iff {A B} (f : A -> list B) l : flat_map f l = [] <-> forall x, x ∈ l -> f x = [].
Proof.
  split; [intros H x; by apply flat_map_nil|]. induction l as [|x l IH]; intros H; [done|]. cbn.
  rewrite (H x) by apply list_elem_of_here. apply IH. intros y Hy. apply H. by apply list_elem_of_further.
Qed.

Lemma app_nil_iff {A} (l k : list A) : l ++ k = [] <-> l = [] /\ k = [].
Proof. split; [apply app_nil|by intros [-> ->]]. Qed.

Lemma family_reason_iff s fac label q : wf s -> family_reason s fac label q = [] <-> free_for s fac q.
Proof.
  intros Hs. unfold family_reason, free_for. split.
  - intros H g (e & He & Hg)%financed_iff; [|done]. rewrite He in H. case_bool_decide; [congruence|done].
  - intros H. destruct (open_facility_encumbrance s q) as [e|] eqn:He; [|done].
    destruct (facility_Some s q e Hs He) as (_ & _ & [_ [g Hg]]%ours_iff). rewrite bool_decide_true; [done|].
    rewrite (H g); [done|]. apply financed_iff; eauto.
Qed.

Lemma enc_reasons_iff s fac id :
  wf s -> (flat_map (enc_reason fac) (open_encumbrances s id) = [] <->
  (forall e, e ∈ open_encumbrances s id -> third_party e = false) /\ free_for s fac id).
Proof.
  intros Hs. rewrite flat_map_nil_iff. unfold enc_reason, third_party.
  assert (Hopen : forall e, e ∈ open_encumbrances s id <-> open_enc e = true /\ e_asset e = id /\ exists i, encumbrances s !! i = Some e).
  { intros e. unfold open_encumbrances. rewrite elem_of_isort, elem_of_select, andb_true_iff, String.eqb_eq. naive_solver. }
  split.
  - intros H. split.
    + intros e He. specialize (H e He). apply Hopen in He as (-> & _). destruct (facility_id e); [done|].
      by destruct (mem_str _ _).
    + intros g (i & e & He & Hid & Ho & Hg). assert (Hin : e ∈ open_encumbrances s id) by (apply Hopen; eauto).
      specialize (H e Hin). rewrite Hg in H. by case_bool_decide.
  - intros [Ht Hf] e He. specialize (Ht e He). apply Hopen in He as (Ho & Hid & i & Hi). rewrite Ho in Ht.
    destruct (facility_id e) as [g|] eqn:Hg.
    + rewrite bool_decide_true; [done|]. apply Hf. by exists i, e.
    + rewrite bool_decide_true, !andb_true_l in Ht by done. by rewrite Ht.
Qed.

Lemma reasons_clear s a fac : wf s -> reasons s a fac = [] <-> clear s a fac.
Proof.
  intros Hs. unfold reasons. cbv zeta. rewrite !one_app_nil, !app_nil_iff, enc_reasons_iff by done.
  rewrite !negb_false_iff, !String.eqb_eq, String.eqb_neq, andb_false_iff, negb_false_iff, String.eqb_neq.
  rewrite flat_map_nil_iff. split.
  - intros (H1 & H2 & H3 & H4 & H5 & [H6 H7] & H8 & H9). apply map_eq_nil in H5. split; try done.
    + intros Hl. by destruct H4.
    + intros p Hp. rewrite Hp in H8. by eapply family_reason_iff.
    + intros c Hc. eapply family_reason_iff; [done|]. by apply H9.
  - intros [H1 H2 H3 H4 H5 H6 H7 H8 H9]. split_and!; try done.
    + destruct (decide (ownership a = "LEASED"%string)); auto.
    + by rewrite H5.
    + destruct (parent_asset_id a) as [p|]; [|done]. apply family_reason_iff; auto.
    + intros c Hc. apply family_reason_iff; auto.
Qed.

Lemma check_eligible a :
  asset_check a = true -> status a = "ACTIVE"%string -> ownership_review a = "VERIFIED"%string -> ownership a <> "UNKNOWN"%string ->
  asset_check (a <| eligible := true |>) = true.
Proof.
  unfold asset_check. cbn. intros H Hs Hr Hne%String.eqb_neq. rewrite Hs, Hr, Hne in *. repeat (apply andb_true_iff in H; destruct H as [H ?]). repeat (apply andb_true_iff; split); done.
Qed.

(** The eligibility decision is total on existing assets and exact: it
    answers and stores [true] precisely when the asset is ACTIVE, reviewed as
    owned (or leased with a lease consent), without open flags or third-party
    rights, and neither it nor its parent nor its partitions are held by
    another facility. *)
Theorem eligibility_exact s id a fac :
  wf s -> assets s !! id = Some a ->
  exists r, eligibility id fac s = (Ok r, s <| assets ::= <[id := a <| eligible := el_eligible r |>]> |>) /\
    (el_eligible r = true <-> clear s a fac).
Proof.
  intros Hs Ha. destruct (wf_assets s Hs _ _ Ha) as [Hid Hc]. exists {| el_asset := id; el_eligible := bool_decide (reasons s a fac = []); el_reasons := reasons s a fac |}.
  cbn [el_eligible]. split; [|rewrite bool_decide_eq_true; by apply reasons_clear].
  unfold eligibility, get_asset, bind, get, ret. rewrite Ha. unfold update_asset.
  assert (Hck : asset_check (a <| eligible := bool_decide (reasons s a fac = []) |>) = true).
  { case_bool_decide as Hr; [|by apply check_ineligible]. apply reasons_clear in Hr as [H1 H2 H3 _ _ _ _ _ _]; [|done].
    apply check_eligible; done. }
  rewrite Hck. cbn [negb]. unfold modify. by rewrite <- Hid.
Qed.

(** * Refusals and evidence *)

(** An eligible asset's ownership cannot be rejected: the review writes the
    verdict and leaves [eligible], which a constraint of the table refuses. *)
Lemma reject_eligible s id a own ref conf :
  wf s -> assets s !! id = Some a -> eligible a = true -> mem_str own ["OWNED"; "LEASED"; "UNKNOWN"]%string = true ->
  exists msg, review_ownership id "REJECTED" own "underwriter" ref conf s = (Raise (Exn DatabaseError msg), s).
Proof.
  intros Hs Ha He Hown. unfold review_ownership. unfold bind at 1.
  change (require "underwriter" REVIEW_ROLES "review asset ownership" s) with (Ok tt, s). cbv beta iota.
  rewrite Hown. change (mem_str "REJECTED" ["VERIFIED"; "REJECTED"]) with true.
  change (String.eqb "REJECTED" "VERIFIED") with false. cbn [negb andb].
  unfold bind at 1, get_asset, bind at 1, get, ret. rewrite Ha. cbv zeta. unfold bind at 1, update_asset.
  match goal with |- context [asset_check ?x] => assert (asset_check x = false) as -> end.
  - destruct (asset_check _) eqn:Hc; [|done]. unfold asset_check in Hc. bools.
    destruct conf; cbn in *; rewrite He in *; done.
  - by eexists.
Qed.

(** Native evidence decides nothing: whatever the outcome, no asset, right,
    flag, key or assignment changes, and its defensive check never fires. *)
Lemma evidence_moves_nothing id ev role s r s' :
  attach_native_evidence id ev role s = (r, s') ->
  assets s' = assets s /\ encumbrances s' = encumbrances s /\ flags s' = flags s /\ keys s' = keys s /\
  assignments s' = assignments s /\ r <> Raise (Exn NotOwnershipEvidence "attaching evidence changed rights state").
Proof.
  unfold attach_native_evidence, bind at 1. destruct (require role _ _ s) as [r0 s0] eqn:Hq.
  apply require_run in Hq as [-> [[-> _]|[msg ->]]]; [|intros [= <- <-]; by split_and!].
  cbv zeta. destruct (bool_decide _); [intros [= <- <-]; by split_and!|].
  destruct (negb _); [intros [= <- <-]; by split_and!|]. destruct (existsb _ _); [intros [= <- <-]; by split_and!|].
  unfold bind at 1, get_asset, bind at 1, get at 1. destruct (assets s !! id) as [a|] eqn:Ha; [|intros [= <- <-]; by split_and!].
  unfold ret at 1. unfold bind at 1, get at 1. unfold bind at 1.
  destruct (insert_document _ _ _ _ s) as [[d|e] s1] eqn:Hd.
  - assert (Hs1 : assets s1 = assets s /\ encumbrances s1 = encumbrances s /\ flags s1 = flags s /\ keys s1 = keys s /\ assignments s1 = assignments s).
    { unfold insert_document in Hd. run_inv Hd. by split_and!. }
    destruct Hs1 as (H1 & H2 & H3 & H4 & H5). unfold bind, get.
    assert (Hsnap : snapshot s id = snapshot s1 id) by (unfold snapshot, open_encumbrances; by rewrite H1, H2).
    rewrite bool_decide_false by (intros Hn; by apply Hn). intros [= <- <-]. by split_and!.
  - unfold insert_document, bind, get, modify, violated, raise in Hd. cbv zeta in Hd.
    destruct (negb _); [injection Hd as <- <-; intros [= <- <-]; by split_and!|].
    destruct (bool_decide _); [injection Hd as <- <-; intros [= <- <-]; by split_and!|done].
Qed.

Lemma evidence_never_ownership {A} ev s : exists msg, ownership_from_evidence (A := A) ev s = (Raise (Exn NotOwnershipEvidence msg), s).
Proof. by eexists. Qed.

(** Roles gate every mutation: an operation of the registry called with a
    role outside its set raises Forbidden and changes nothing; only the
    underwriter reviews ownership, resolves flags, records third-party rights,
    finances and releases. *)
Theorem roles_gate s o role allowed :
  (match o with
   | OpRegister _ _ _ r _ _ _ _ _ _ _ | OpPartition _ _ _ r _ | OpAssign _ _ r _ _ _ | OpEnd _ r _ _ | OpChangeKey _ _ _ _ r _
   | OpReplace _ _ _ _ r _ _ => r = role /\ allowed = REGISTER_ROLES
   | OpReview _ _ _ r _ _ | OpResolve _ r _ | OpThirdParty _ _ _ _ _ _ r _ | OpFinance _ _ _ r _ | OpRelease _ r =>
       r = role /\ allowed = REVIEW_ROLES
   | OpDocument _ _ _ _ r | OpEvidence _ _ r => r = role /\ allowed = REGISTER_ROLES ++ REVIEW_ROLES
   | OpEligibility _ _ => False
   end) ->
  mem_str role allowed = false -> exists msg, run_op o s = (Raise (Exn Forbidden msg), s).
Proof.
  intros Ho Hr.
  assert (Hreq : forall A action (k : unit -> M A), exists msg, bind (require role allowed action) k s = (Raise (Exn Forbidden msg), s)).
  { intros A action k. unfold bind. destruct (require role allowed action s) as [r s1] eqn:Hq.
    apply require_run in Hq as [-> [[_ Hm]|[msg ->]]]; [congruence|by exists msg]. }
  destruct o; try done; destruct Ho as [-> ->]; cbn [run_op];
    try (match goal with |- exists msg, void ?m s = _ => assert (Hm : exists msg, m s = (Raise (Exn Forbidden msg), s)) by apply Hreq;
           destruct Hm as [msg Hm]; exists msg; unfold void, bind at 1; by rewrite Hm end).
  apply Hreq.
Qed.

(** * Examples *)

Definition id_a : string := "01HZZZZZZZZZZZZZZZZZZZZZZA".
Definition id_b : string := "01HZZZZZZZZZZZZZZZZZZZZZZB".
Definition id_c : string := "01HZZZZZZZZZZZZZZZZZZZZZZC".
Definition id_f : string := "01HZZZZZZZZZZZZZZZZZZZZZZF".
Definition id_e : string := "01HZZZZZZZZZZZZZZZZZZZZZZE".

Definition empty_db : DB :=
  {| assets := ∅; keys := ∅; assignments := ∅; encumbrances := ∅; flags := ∅; documents := ∅;
     accounts := {["p:1"%string]}; facilities := {[id_f]}; next_id := 1; now := 100 |}.

(** A GPU, its partition, the review, the financing and the replacement of the GPU. *)
Definition ops : list Op :=
  [OpRegister id_a "PHYSICAL_GPU" [("SERIAL", "s1")] "operator" (Some "p:1") None 1 None None None "HIGH";
   OpPartition id_a id_b [("GPU_UUID", "u1")] "operator" None;
   OpReview id_a "VERIFIED" "OWNED" "underwriter" None None;
   OpFinance id_e id_a id_f "underwriter" None]%string.

(** Operations one second apart. *)
Fixpoint run_ops (l : list Op) (s : DB) : DB :=
  match l with
  | [] => s
  | o :: l' => let s1 := (transaction (run_op o) s).2 in
               run_ops l' (s1 <| now := now s1 + 1 |> <| accounts := accounts s1 |> <| facilities := facilities s1 |>)
  end.

Lemma run_ops_reach l s : rtc step s (run_ops l s).
Proof.
  revert s. induction l as [|o l IH]; intros s; [apply rtc_refl|]. cbn. eapply rtc_l; [apply step_op|].
  eapply rtc_l; [|apply IH]. by apply step_world.
Qed.

Lemma empty_inv : inv empty_db.
Proof. split; [split|]; intros; try done; try (by rewrite lookup_empty in *). Qed.

Definition db1 : DB := run_ops ops empty_db.

Example ops_finance :
  eligible <$> assets db1 !! id_a = Some true /\ facility_id <$> open_facility_encumbrance db1 id_a = Some (Some id_f) /\
  provider_account_id <$> open_assignment db1 id_a = Some "p:1"%string.
Proof. split_and!; vm_compute; reflexivity. Qed.

(** The RMA of a partition drops its parent: the replacement counts as a device
    of its own beside the parent. *)
Example partition_rma_counts_twice :
  let s := run_ops (ops ++ [OpReplace id_b id_c [("GPU_UUID", "u1")] [] "operator" "x" false]%string) empty_db in
  option_map (fun m => map_to_list m) (match collateral_units 2 s [id_a; id_c] ∅ with Ok m => Some m | Raise _ => None end)
  = Some [(id_a, 1); (id_c, 1)] \/
  option_map (fun m => map_to_list m) (match collateral_units 2 s [id_a; id_c] ∅ with Ok m => Some m | Raise _ => None end)
  = Some [(id_c, 1); (id_a, 1)].
Proof. vm_compute. auto. Qed.

(** A lien recorded on a device does not follow its RMA replacement, which the
    copied review makes eligible at once. *)
Example lien_lost_by_rma :
  let s := run_ops ([OpRegister id_a "PHYSICAL_GPU" [("SERIAL", "s1")] "operator" (Some "p:1") None 1 None None None "HIGH";
     OpReview id_a "VERIFIED" "OWNED" "underwriter" None None;
     OpThirdParty id_e id_a "bank" "LIEN" 1 "doc://lien" "underwriter" None;
     OpReplace id_a id_c [("SERIAL", "s1")] [] "operator" "01HZZZZZZZZZZZZZZZZZZZZZZG" false;
     OpEligibility id_c None]%string) empty_db in
  (eligible <$> assets s !! id_c, status <$> assets s !! id_a, length (open_encumbrances s id_a)) =
  (Some true, Some "RETIRED"%string, 1%nat).
Proof. vm_compute. reflexivity. Qed.

Lemma db1_wf : wf db1.
Proof. exact (inv_wf _ (proj1 (rtc_step_inv _ _ (run_ops_reach ops empty_db) empty_inv))). Qed.

Lemma db1_row : exists a, assets db1 !! id_a = Some a /\ eligible a = true.
Proof.
  destruct ops_finance as [H _]. destruct (assets db1 !! id_a) as [a|]; [|discriminate H]. exists a. split; [reflexivity|]. by injection H.
Qed.


Definition known (s : DB) (id : string) : bool := if assets s !! id is Some _ then true else false.

Lemma known_is_Some s id : known s id = true -> is_Some (assets s !! id).
Proof. unfold known. destruct (assets s !! id); [by eexists|done]. Qed.

Lemma db1_known : is_Some (assets db1 !! id_a) /\ is_Some (assets db1 !! id_b).
Proof. split; apply known_is_Some; vm_compute; reflexivity. Qed.

Lemma collateral_units_once_witness :
  exists units, collateral_units 2 db1 [id_b; id_a; id_b] ∅ = Ok units /\ units !! id_a = Some 1 /\ units !! id_b = None.
Proof.
  destruct (collateral_units_once 2 db1 [id_b; id_a; id_b] db1_wf (le_n 2)) as (units & H & Hu).
  - intros id. rewrite !elem_of_cons, elem_of_nil.
    intros [->|[->|[->|[]]]]; [exact (proj2 db1_known)|exact (proj1 db1_known)|exact (proj2 db1_known)].
  - exists units. split; [exact H|]. rewrite !Hu. vm_compute. split; reflexivity.
Defined.

Lemma eligibility_exact_witness :
  exists r, el_eligible r = true /\ exists a, clear db1 a (Some id_f) /\ (eligibility id_a (Some id_f) db1).1 = Ok r.
Proof.
  destruct db1_row as (a & Ha & _).
  destruct (eligibility_exact db1 id_a a (Some id_f) db1_wf Ha) as (r & Hr & Hc). exists r.
  assert (He : el_eligible r = true).
  { assert (Hcomp : match (eligibility id_a (Some id_f) db1).1 with Ok x => el_eligible x | Raise _ => false end = true) by (vm_compute; reflexivity).
    rewrite Hr in Hcomp. exact Hcomp. }
  split; [exact He|]. exists a. split; [by apply Hc|]. by rewrite Hr.
Defined.

Lemma roles_gate_witness : exists msg, run_op (OpFinance id_e id_b id_f "operator" None) db1 = (Raise (Exn Forbidden msg), db1).
Proof. apply (roles_gate db1 _ "operator" REVIEW_ROLES); [split; reflexivity|reflexivity]. Defined.

End Assets.
