(* ===== verification/Links.v ===== *)
(** The links between provider accounts and borrowers: registration, review,
    release and relinking, with their history.

    Source: offchain/gpu/hashcredit_gpu/assets/entities.py, on the tables of
    db/assets_models.py and db/models.py, with the roles of assets/roles.py
    ([Assets]).  An operation is a transaction of its caller's session; [clock]
    is the application's [_now()], [now] the database's. *)

From S2P Require Import Prelude Domain Stdpy Json Datetime Columns Assets.
Import Domain Stdpy Json Columns.

Module Links.

(** * State *)

(** Models [db/assets_models.py], [ProviderAccountLink], lines 25-40. *)
Record ProviderAccountLink := {
  id : Z;
  provider_account_id : string;
  borrower_id : string;
  legal_entity_id : string;
  review_state : string;
  linked_by : string;
  linked_at : Z;
  reviewed_by : option string;
  reviewed_at : option Z;
  review_ref : option string;
  released_at : option Z;
  release_reason : option string;
  previous_link_id : option Z;
  provenance : list (string * json);
}.

(** The links by ascending id; an account's borrower; a borrower's entity. *)
Record DB := {
  links : list ProviderAccountLink;
  next_id : Z;
  accounts : gmap string string;
  borrowers : gmap string string;
  now : Z;
}.

(** Models [db/assets_models.py], [ProviderAccountLink], lines 41-48. *)
Definition link_check (l : ProviderAccountLink) : bool :=
  mem_str (review_state l) ["REGISTERED"; "VERIFIED"; "REJECTED"] && in_values Domain.Role (linked_by l) &&
  null_or (in_values Domain.Role) (reviewed_by l) &&
  Bool.eqb (String.eqb (review_state l) "REGISTERED") (bool_decide (reviewed_at l = None)) &&
  null_or REF_CHECK (review_ref l) && null_or (fun t => linked_at l <=? t) (released_at l).

Definition live (l : ProviderAccountLink) : bool := bool_decide (released_at l = None).

(** uq_provider_account_links_active *)
Definition one_live (l : list ProviderAccountLink) : Prop :=
  NoDup (map provider_account_id (List.filter live l)).

#[export] Instance one_live_dec l : Decision (one_live l).
Proof. unfold one_live. apply _. Defined.

(** What the database tests when the session is flushed. *)
Definition flush (written : ProviderAccountLink) : PyM DB unit :=
  let* s := get in
  guard (link_check written) DatabaseError "ck_provider_account_links" ;;;
  guard (bool_decide (one_live (links s))) DatabaseError "uq_provider_account_links_active".

(** [session.add(link)]: the id is the table's next one. *)
Definition add_link (l : ProviderAccountLink) : PyM DB ProviderAccountLink :=
  modify (fun s => s <| links ::= fun x => x ++ [l] |> <| next_id ::= Z.succ |>) ;;;
  flush l ;;;
  ret l.

(** The row changed in place. *)
Definition change_link (i : Z) (f : ProviderAccountLink -> ProviderAccountLink) (l : ProviderAccountLink) : PyM DB ProviderAccountLink :=
  modify (fun s => s <| links ::= map (fun x => if id x =? i then f x else x) |>) ;;;
  flush (f l) ;;;
  ret (f l).

(** * Operations *)

(** Models [assets/entities.py], [active_link]. *)
Definition active_link (account : string) (s : DB) : option ProviderAccountLink :=
  List.find (fun l => String.eqb (provider_account_id l) account && live l) (links s).

(** Models [assets/entities.py], [link_history]. *)
Definition link_history (account : string) (s : DB) : list ProviderAccountLink :=
  List.filter (fun l => String.eqb (provider_account_id l) account) (links s).

(** Models [assets/entities.py], [link_account]. *)
Definition link_account (account borrower by_role : string) (prov : list (string * json)) : PyM DB ProviderAccountLink :=
  transaction (
    Roles.require by_role Roles.REGISTER_ROLES "link a provider account" ;;;
    let* s := get in
    match accounts s !! account with
    | None => raise NotFound ("provider account " ++ account)
    | Some bound =>
        match borrowers s !! borrower with
        | None => raise NotFound ("borrower " ++ borrower)
        | Some entity =>
            if negb (String.eqb bound borrower) then raise InvalidState "provider account is bound to another borrower; release and relink instead"
            else if active_link account s is Some _ then raise InvalidState "provider account already has a live link"
            else
              add_link {| id := next_id s; provider_account_id := account; borrower_id := borrower; legal_entity_id := entity;
                          review_state := "REGISTERED"; linked_by := by_role; linked_at := now s; reviewed_by := None; reviewed_at := None;
                          review_ref := None; released_at := None; release_reason := None; previous_link_id := None; provenance := prov |}
        end
    end).

(** Models [assets/entities.py], [review_link]. *)
Definition review_link (link_id : Z) (verdict by_role : string) (ref : option string) (clock : Z) : PyM DB ProviderAccountLink :=
  transaction (
    Roles.require by_role Roles.REVIEW_ROLES "review a provider account link" ;;;
    if negb (mem_str verdict ["VERIFIED"; "REJECTED"]) then raise InvalidState "verdict must be VERIFIED or REJECTED"
    else
      let* s := get in
      match List.find (fun l => id l =? link_id) (links s) with
      | None => raise NotFound "link"
      | Some l =>
          if negb (live l) then raise InvalidState "released link cannot be reviewed"
          else if negb (String.eqb (review_state l) "REGISTERED") then raise InvalidState "link already reviewed"
          else change_link link_id (fun l => l <| review_state := verdict |> <| reviewed_by := Some by_role |> <| reviewed_at := Some clock |> <| review_ref := ref |>) l
      end).

(** Models [assets/entities.py], [release_link]. *)
Definition release_link (account by_role reason : string) (clock : Z) : PyM DB ProviderAccountLink :=
  transaction (
    Roles.require by_role Roles.RELEASE_ROLES "release a provider account link" ;;;
    let* s := get in
    match active_link account s with
    | None => raise NotFound ("no live link for " ++ account)
    | Some l => change_link (id l) (fun l => l <| released_at := Some clock |> <| release_reason := Some reason |>) l
    end).

Definition from_to_at (prov : list (string * json)) (previous : option ProviderAccountLink) (to_ : string) (clock : Z) : list (string * json) :=
  dput "at" (JStr (Datetime.isoformat clock)) (dput "to" (JStr to_)
    (dput "from" (match previous with Some p => JStr (borrower_id p) | None => JNull end) prov)).

(** Models [assets/entities.py], [relink_account]. *)
Definition relink_account (account borrower by_role : string) (prov : list (string * json)) (clock : Z) : PyM DB ProviderAccountLink :=
  transaction (
    Roles.require by_role Roles.REGISTER_ROLES "relink a provider account" ;;;
    let* s := get in
    if active_link account s is Some _ then raise InvalidState "release the live link before relinking to another borrower"
    else
      let previous := last (link_history account s) in
      match accounts s !! account with
      | None => raise NotFound ("provider account " ++ account)
      | Some _ =>
          match borrowers s !! borrower with
          | None => raise NotFound ("borrower " ++ borrower)
          | Some entity =>
              modify (fun s => s <| accounts ::= <[account := borrower]> |>) ;;;
              add_link {| id := next_id s; provider_account_id := account; borrower_id := borrower; legal_entity_id := entity;
                          review_state := "REGISTERED"; linked_by := by_role; linked_at := now s; reviewed_by := None; reviewed_at := None;
                          review_ref := None; released_at := None; release_reason := None; previous_link_id := id <$> previous;
                          provenance := from_to_at prov previous borrower clock |}
          end
      end).

Inductive op :=
| Link (account borrower by_role : string) (prov : list (string * json))
| Review (link_id : Z) (verdict by_role : string) (ref : option string) (clock : Z)
| Release (account by_role reason : string) (clock : Z)
| Relink (account borrower by_role : string) (prov : list (string * json)) (clock : Z)
| Later (t : Z).

Definition run (o : op) : PyM DB unit :=
  match o with
  | Link a b r p => let* _ := link_account a b r p in ret tt
  | Review i v r ref c => let* _ := review_link i v r ref c in ret tt
  | Release a r why c => let* _ := release_link a r why c in ret tt
  | Relink a b r p c => let* _ := relink_account a b r p c in ret tt
  | Later t => modify (fun s => s <| now := Z.max (now s) t |>)
  end.

(** An operation, successful or refused. *)
Definition step (s s' : DB) : Prop := exists o, s' = (run o s).2.

(** * Invariant *)

(** A link's predecessor: the account's link before it, released by then. *)
Definition chained (ls : list ProviderAccountLink) (l : ProviderAccountLink) : Prop :=
  match previous_link_id l with
  | None => True
  | Some p => exists q, q ∈ ls /\ id q = p /\ id q < id l /\ provider_account_id q = provider_account_id l /\ is_Some (released_at q) /\
      dget "from" (provenance l) = Some (JStr (borrower_id q)) /\ dget "to" (provenance l) = Some (JStr (borrower_id l))
  end.

Record links_ok (s : DB) : Prop := {
  ok_ids : StronglySorted Z.lt (map id (links s)) /\ Forall (fun l => id l < next_id s) (links s);
  ok_live : one_live (links s);
  ok_checks : Forall (fun l => link_check l = true) (links s);
  ok_bound : Forall (fun l => live l = true -> accounts s !! provider_account_id l = Some (borrower_id l)) (links s);
  ok_chain : Forall (chained (links s)) (links s);
}.

(** Links stay, in order and with what they said: a released one as it is, a
    verdict as it was given. *)
Definition same_link (l l' : ProviderAccountLink) : Prop :=
  id l' = id l /\ provider_account_id l' = provider_account_id l /\ borrower_id l' = borrower_id l /\ legal_entity_id l' = legal_entity_id l /\
  linked_by l' = linked_by l /\ linked_at l' = linked_at l /\ previous_link_id l' = previous_link_id l /\ provenance l' = provenance l /\
  (is_Some (released_at l) -> l' = l) /\
  (review_state l <> "REGISTERED"%string -> review_state l' = review_state l /\ reviewed_by l' = reviewed_by l /\ reviewed_at l' = reviewed_at l /\ review_ref l' = review_ref l).

Definition history_kept (s s' : DB) : Prop := exists old new, links s' = old ++ new /\ Forall2 same_link (links s) old.

(** * Lemmas *)

Lemma same_link_refl l : same_link l l.
Proof. by split_and!. Qed.

Lemma same_link_trans a b c : same_link a b -> same_link b c -> same_link a c.
Proof.
  intros (A1 & A2 & A3 & A4 & A5 & A6 & A7 & A8 & A9 & A10) (B1 & B2 & B3 & B4 & B5 & B6 & B7 & B8 & B9 & B10).
  split_and!; try congruence.
  - intros Hr. assert (b = a) as -> by auto. auto.
  - intros Hn. destruct (A10 Hn) as (? & ? & ? & ?). destruct B10 as (? & ? & ? & ?); [congruence|]. split_and!; congruence.
Qed.

#[local] Instance history_kept_preorder : PreOrder history_kept.
Proof.
  split.
  - intros s. exists (links s), []. rewrite app_nil_r. split; [done|]. apply Forall_Forall2_diag, Forall_forall. intros x _. apply same_link_refl.
  - intros a b c (o1 & n1 & E1 & H1) (o2 & n2 & E2 & H2). rewrite E1 in H2. apply Forall2_app_inv_l in H2 as (k1 & k2 & K1 & _ & ->).
    exists k1, (k2 ++ n2). split; [by rewrite E2, app_assoc|]. eapply Forall2_trans; [|exact H1|exact K1]. intros x y z. apply same_link_trans.
Qed.

(** What the database has tested of a write. *)
Lemma flush_Ok l s u s' : flush l s = (Ok u, s') -> s' = s /\ link_check l = true /\ one_live (links s).
Proof. unfold flush. intros (? & s1 & [-> ->]%get_Ok & (? & s2 & [Hc ->]%guard_Ok & [Hl ->]%guard_Ok)%bind_Ok)%bind_Ok. by apply bool_decide_eq_true in Hl. Qed.

Lemma add_link_Ok l s x s' : add_link l s = (Ok x, s') ->
  s' = s <| links ::= fun k => k ++ [l] |> <| next_id ::= Z.succ |> /\ link_check l = true /\ one_live (links s').
Proof. unfold add_link. intros (? & s1 & ->%modify_Ok & (? & s2 & (-> & Hc & Hl)%flush_Ok & [-> ->]%ret_Ok)%bind_Ok)%bind_Ok. done. Qed.

Lemma change_link_Ok i f l s x s' : change_link i f l s = (Ok x, s') ->
  s' = s <| links ::= map (fun y => if id y =? i then f y else y) |> /\ link_check (f l) = true /\ one_live (links s').
Proof. unfold change_link. intros (? & s1 & ->%modify_Ok & (? & s2 & (-> & Hc & Hl)%flush_Ok & [-> ->]%ret_Ok)%bind_Ok)%bind_Ok. done. Qed.

Lemma ids_unique s x y : links_ok s -> x ∈ links s -> y ∈ links s -> id x = id y -> x = y.
Proof.
  intros [[Hs _] _ _ _ _] Hx Hy He. induction (links s) as [|z l IH]; [by apply elem_of_nil in Hx|].
  cbn in Hs. apply StronglySorted_inv in Hs as [Hs Hall]. rewrite Forall_forall in Hall.
  assert (Hlt : forall w, w ∈ l -> id z < id w) by (intros w Hw; apply Hall, list_elem_of_fmap; eauto).
  apply elem_of_cons in Hx. apply elem_of_cons in Hy. destruct Hx as [->|Hx], Hy as [->|Hy]; [done| | |by apply IH].
  - specialize (Hlt _ Hy). lia.
  - specialize (Hlt _ Hx). lia.
Qed.

Lemma chained_mono ls ls' l : (forall q, q ∈ ls -> is_Some (released_at q) -> q ∈ ls') -> chained ls l -> chained ls' l.
Proof.
  unfold chained. destruct (previous_link_id l); [|done]. intros H (q & Hq & Hi & Hl & Ha & Hr & Hp). exists q. split_and!; try done; [by apply H|by destruct Hp..].
Qed.

(** A new link, written where the account had no live one. *)
Lemma added s s' l : links_ok s -> links s' = links s ++ [l] -> next_id s' = Z.succ (next_id s) -> id l = next_id s ->
  link_check l = true -> one_live (links s') ->
  (forall x, x ∈ links s -> live x = true -> accounts s' !! provider_account_id x = accounts s !! provider_account_id x) ->
  accounts s' !! provider_account_id l = Some (borrower_id l) -> chained (links s) l -> links_ok s' /\ history_kept s s'.
Proof.
  intros [[Hs Hn] Hlv Hc Hb Hch] Hl Hnext Hid Hck Hone Hacc Hown Hchl. split.
  - split; rewrite ?Hl, ?Hnext.
    + rewrite map_app. split.
      * apply StronglySorted_app_2. { intros x y [z [-> Hz]]%list_elem_of_fmap Hy%list_elem_of_singleton. subst y.
        rewrite Forall_forall in Hn. rewrite Hid. by apply Hn. }
        { done. } { by repeat constructor. }
      * apply Forall_app. split; [|repeat constructor; lia]. eapply Forall_impl; [exact Hn|]. cbn. intros; lia.
    + by rewrite <- Hl.
    + apply Forall_app. split; [done|by apply Forall_singleton].
    + apply Forall_app. split; [|by apply Forall_singleton]. rewrite Forall_forall in *. intros x Hx Hlx. rewrite Hacc by done. by apply Hb.
    + apply Forall_app. assert (Hm : forall q, q ∈ links s -> is_Some (released_at q) -> q ∈ links s ++ [l]) by (intros q Hq _; apply elem_of_app; by left).
      split; [|apply Forall_singleton; eapply chained_mono; [exact Hm|exact Hchl]]. eapply Forall_impl; [exact Hch|]. intros x. by apply chained_mono.
  - exists (links s), [l]. split; [done|]. apply Forall_Forall2_diag, Forall_forall. intros x _. apply same_link_refl.
Qed.

(** A live link changed in place. *)
Lemma changed s f l : links_ok s -> l ∈ links s -> live l = true -> same_link l (f l) -> link_check (f l) = true ->
  let s' := s <| links ::= map (fun y => if id y =? id l then f y else y) |> in
  one_live (links s') -> links_ok s' /\ history_kept s s'.
Proof.
  intros Hok Hin Hlive Hsame Hck s' Hone.
  assert (Hmap : links s' = map (fun y => if id y =? id l then f l else y) (links s)).
  { cbn. apply map_ext_in. intros y Hy%list_elem_of_In. destruct (Z.eqb_spec (id y) (id l)) as [E|]; [|done]. by rewrite (ids_unique _ _ _ Hok Hy Hin E). }
  assert (Hrow : forall x, x ∈ links s' -> (x = f l) \/ (x ∈ links s /\ id x <> id l)).
  { intros x. rewrite Hmap. intros (y & -> & Hy)%list_elem_of_fmap. destruct (Z.eqb_spec (id y) (id l)); [by left|by right]. }
  assert (Hids : map id (links s') = map id (links s)).
  { rewrite Hmap, map_map. apply map_ext_in. intros y _. destruct (Z.eqb_spec (id y) (id l)) as [E|]; [|done]. destruct Hsame as [-> _]. by symmetry. }
  assert (Hkeep : forall q, q ∈ links s -> is_Some (released_at q) -> q ∈ links s').
  { intros q Hq Hr. rewrite Hmap. apply list_elem_of_fmap. exists q. split; [|done]. destruct (Z.eqb_spec (id q) (id l)) as [E|]; [|done].
    rewrite (ids_unique _ _ _ Hok Hq Hin E) in Hr. unfold live in Hlive. apply bool_decide_eq_true in Hlive. rewrite Hlive in Hr. by destruct Hr. }
  pose proof (fun x y => ids_unique s x y Hok) as Hu. destruct Hok as [[Hs Hn] Hlv Hc Hb Hch]. rewrite Forall_forall in Hn, Hc, Hb, Hch. destruct Hsame as (S1 & S2 & S3 & S4 & S5 & S6 & S7 & S8 & S9 & S10).
  split; [split|].
  - rewrite Hids. split; [done|]. apply Forall_forall. intros x [->|[Hx _]]%Hrow; [rewrite S1|]; by apply Hn.
  - done.
  - apply Forall_forall. intros x [->|[Hx _]]%Hrow; [done|by apply Hc].
  - apply Forall_forall. intros x [->|[Hx _]]%Hrow; [|by apply Hb]. intros _. rewrite S2, S3. by apply Hb.
  - apply Forall_forall. intros x [->|[Hx _]]%Hrow; [|eapply chained_mono; [exact Hkeep|by apply Hch]].
    pose proof (chained_mono _ _ _ Hkeep (Hch l Hin)) as H. unfold chained in *. by rewrite S7, S1, S2, S3, S8.
  - exists (links s'), []. rewrite app_nil_r. split; [done|]. rewrite Hmap. apply Forall2_fmap_r, Forall_Forall2_diag, Forall_forall.
    intros x Hx. change (same_link x (if id x =? id l then f l else x)). destruct (Z.eqb_spec (id x) (id l)) as [E|]; [|apply same_link_refl]. rewrite (Hu _ _ Hx Hin E). by split_and!.
Qed.

Lemma active_Some a s l : active_link a s = Some l -> l ∈ links s /\ live l = true /\ provider_account_id l = a.
Proof. intros [Hin%list_elem_of_In [Ha%String.eqb_eq Hl]%andb_true_iff]%List.find_some. done. Qed.

Lemma active_None a s l : active_link a s = None -> l ∈ links s -> provider_account_id l = a -> live l = false.
Proof.
  intros H Hin%list_elem_of_In Ha. pose proof (List.find_none _ _ H l Hin) as Hf. cbv beta in Hf. by rewrite Ha, String.eqb_refl in Hf.
Qed.

Lemma last_history a s q : last (link_history a s) = Some q -> q ∈ links s /\ provider_account_id q = a.
Proof.
  intros Hl. apply last_Some_elem_of in Hl. apply list_elem_of_In, List.filter_In in Hl as [Hin%list_elem_of_In Ha%String.eqb_eq]. done.
Qed.

Lemma from_to prov p b clock : dget "from" (from_to_at prov (Some p) b clock) = Some (JStr (borrower_id p)) /\
  dget "to" (from_to_at prov (Some p) b clock) = Some (JStr b).
Proof.
  unfold from_to_at. split; [by rewrite (dget_dput_ne "from" "at"), (dget_dput_ne "from" "to"), dget_dput_eq|].
  by rewrite (dget_dput_ne "to" "at"), dget_dput_eq.
Qed.

Definition fine (s s' : DB) : Prop := links_ok s -> links_ok s' /\ history_kept s s'.

Lemma fine_refl s : fine s s.
Proof. intros H. split; [done|]. reflexivity. Qed.

Lemma in_transaction {A} (m : PyM DB A) s : (forall x s', m s = (Ok x, s') -> fine s s') -> fine s ((let* _ := transaction m in ret tt) s).2.
Proof.
  intros H. unfold bind, transaction. destruct (m s) as [[x|e] s'] eqn:E; [by eapply H|apply fine_refl].
Qed.

Lemma require_Ok {S} role allowed act (s : S) u s' : Roles.require role allowed act s = (Ok u, s') -> s' = s /\ mem_str role allowed = true.
Proof.
  unfold Roles.require. destruct (negb (in_values _ _)); [done|]. destruct (mem_str role allowed); [|done]. by intros [= _ <-].
Qed.

Lemma run_fine o s : fine s (run o s).2.
Proof.
  destruct o as [a b r p|i v r ref c|a r why c|a b r p c|t]; cbn [run].
  - apply in_transaction. intros x s' (? & s1 & [-> _]%require_Ok & H)%bind_Ok. unfold bind at 1, get at 1 in H.
    destruct (accounts s !! a) as [bd|] eqn:Ha; [|done]. destruct (borrowers s !! b) as [en|]; [|done].
    destruct (String.eqb_spec bd b) as [->|]; [|done]. cbn [negb] in H. destruct (active_link a s) eqn:Hact; [done|].
    apply add_link_Ok in H as (-> & Hck & Hone). intros Hok. by eapply added.
  - apply in_transaction. intros x s' (? & s1 & [-> _]%require_Ok & H)%bind_Ok. destruct (negb _); [done|]. unfold bind at 1, get at 1 in H.
    destruct (List.find _ (links s)) as [l|] eqn:Hf; [|done]. apply List.find_some in Hf as [Hin%list_elem_of_In <-%Z.eqb_eq].
    destruct (live l) eqn:Hlv; [|done]. cbn [negb] in H. destruct (String.eqb_spec (review_state l) "REGISTERED") as [Hst|]; [|done]. cbn [negb] in H.
    apply change_link_Ok in H as (-> & Hck & Hone). intros Hok. eapply changed; try done. split_and!; try done.
    unfold live in Hlv. apply bool_decide_eq_true in Hlv. rewrite Hlv. by intros [].
  - apply in_transaction. intros x s' (? & s1 & [-> _]%require_Ok & H)%bind_Ok. unfold bind at 1, get at 1 in H.
    destruct (active_link a s) as [l|] eqn:Hact; [|done]. apply active_Some in Hact as (Hin & Hlv & _).
    apply change_link_Ok in H as (-> & Hck & Hone). intros Hok. eapply changed; try done. split_and!; try done.
    unfold live in Hlv. apply bool_decide_eq_true in Hlv. rewrite Hlv. by intros [].
  - apply in_transaction. intros x s' (? & s1 & [-> _]%require_Ok & H)%bind_Ok. unfold bind at 1, get at 1 in H.
    destruct (active_link a s) eqn:Hact; [done|]. cbv zeta in H. destruct (accounts s !! a) as [bd|] eqn:Ha; [|done]. destruct (borrowers s !! b) as [en|]; [|done].
    unfold bind at 1, modify at 1 in H. apply add_link_Ok in H as (-> & Hck & Hone). intros Hok. eapply (added s); try done.
    + intros y Hy Hl. cbn. rewrite lookup_insert_ne; [done|]. intros E. by rewrite (active_None _ _ _ Hact Hy (eq_sym E)) in Hl.
    + cbn. apply lookup_insert_eq.
    + unfold chained. cbn [previous_link_id]. destruct (last (link_history a s)) as [q|] eqn:Hq; [|done]. cbn.
      apply last_history in Hq as [Hin Hqa]. exists q. pose proof (active_None _ _ _ Hact Hin Hqa) as Hlq.
      split_and!; try done; try apply from_to.
      * destruct Hok as [[_ Hn] _ _ _ _]. rewrite Forall_forall in Hn. by apply Hn.
      * unfold live in Hlq. apply bool_decide_eq_false in Hlq. by apply not_eq_None_Some.
  - intros Hok. split; [by destruct Hok; split|]. destruct (reflexivity (R := history_kept) s) as (l & n & E & H). by exists l, n.
Qed.


(** * An account that changes hands *)

Definition empty_ : DB := {| links := []; next_id := 1; accounts := {[ "prov:acct"%string := "B1"%string ]};
  borrowers := {[ "B1"%string := "E1"%string; "B2"%string := "E2"%string ]}; now := 10 |}.

Definition ops : list op := [
  Link "prov:acct" "B1" "operator" []; Review 1 "VERIFIED" "underwriter" None 11; Relink "prov:acct" "B2" "operator" [] 12;
  Release "prov:acct" "operator" "sold" 13; Relink "prov:acct" "B2" "operator" [] 14].

Definition final : DB := fold_left (fun s o => (run o s).2) ops empty_.

Example final_links : map (fun l => (id l, borrower_id l, review_state l, released_at l, previous_link_id l)) (links final) =
  [(1, "B1", "VERIFIED", Some 13, None); (2, "B2", "REGISTERED", None, Some 1)]%string.
Proof. vm_compute. reflexivity. Qed.

Lemma all_steps l s : rtc step s (fold_left (fun s o => (run o s).2) l s).
Proof. revert s. induction l as [|o l IH]; intros s; [constructor|]. eapply rtc_l; [by exists o|]. apply IH. Qed.

End Links.
