(* ===== verification/Relayer.v ===== *)
(** The EIP-712 relayer: paginated transaction history, payout search, the
    deduplication table and the poll cycle.

    Sources: offchain/relayer/hashcredit_relayer/bitcoin.py, db.py, signer.py
    and relayer.py.  The mempool API, the EVM node and the signing library are
    outside the program: their answers are arguments.  Every database method
    is its own transaction, so a row written before an exception stays. *)

From S2P Require Import Prelude Domain Stdpy Bitcoin.
Import Stdpy.

Module Relayer.

#[local] Abbreviation bytes := (list Z).

(** * The mempool API *)

(** A transaction of a page, as the fields the code reads. *)
Record VoutData := { v_value : Z; v_address : option string }.
Record TxData := {
  d_txid : option string;
  d_block_height : option Z;
  d_block_time : option Z;
  d_confirmed : bool;
  d_vout : list VoutData;
}.

(** Models [hashcredit_relayer/bitcoin.py], [TxOutput]. *)
Record TxOutput := { vout : Z; value_sats : Z; address : option string }.

(** Models [hashcredit_relayer/bitcoin.py], [BitcoinTx]. *)
Record BitcoinTx := {
  txid : string;
  block_height : option Z;
  block_time : option Z;
  confirmations : Z;
  outputs : list TxOutput;
}.

(** The loop of [get_address_txs]: [fetch] answers one page, for no cursor or
    for the last transaction seen.  One unit of fuel per page. *)
Fixpoint pages_loop (fetch : option string -> res (list TxData)) (fuel : nat) (cursor : option string)
    (seen : list string) (txs : list TxData) : res (list TxData) :=
  match fuel with
  | O => Raise (Exn OutOfFuel "")
  | S n =>
      let turn seen :=
        rbind (fetch cursor) (fun page =>
        match last page with
        | None => Ok txs
        | Some item =>
            let txs := txs ++ page in
            if zlen page <? 25 then Ok txs
            else if negb (truthy (d_txid item)) then Ok txs
            else pages_loop fetch n (d_txid item) seen txs
        end) in
      match cursor with
      | None => turn seen
      | Some c => if mem_str c seen then Ok txs else turn (c :: seen)
      end
  end.

(** Models [hashcredit_relayer/bitcoin.py], [BitcoinApiClient.get_address_txs]. *)
Definition get_address_txs (fetch : option string -> res (list TxData)) (fuel : nat) : res (list TxData) :=
  pages_loop fetch fuel None [] [].

(** Models [hashcredit_relayer/bitcoin.py], [BitcoinApiClient.parse_tx]. *)
Definition parse_tx (d : TxData) (current_height : Z) : res BitcoinTx :=
  match d_txid d with
  | None => Raise (Exn KeyError "txid")
  | Some id =>
      Ok {| txid := id; block_height := d_block_height d; block_time := d_block_time d;
            confirmations := match d_block_height d with
                             | Some h => if d_confirmed d then current_height - h + 1 else 0
                             | None => 0
                             end;
            outputs := imap (fun i v => {| vout := Z.of_nat i; value_sats := v_value v; address := v_address v |}) (d_vout d) |}
  end.

(** The loop of [find_payouts_to_address]. *)
Fixpoint collect_payouts (addr : string) (min_confirmations current_height : Z) (txs : list TxData) :
    res (list (BitcoinTx * TxOutput)) :=
  match txs with
  | [] => Ok []
  | d :: txs' =>
      rbind (parse_tx d current_height) (fun tx =>
      rbind (collect_payouts addr min_confirmations current_height txs') (fun rest =>
      if confirmations tx <? min_confirmations then Ok rest
      else Ok (map (pair tx) (filter (fun o => address o = Some addr) (outputs tx)) ++ rest)))
  end.

(** Models [hashcredit_relayer/bitcoin.py], [BitcoinApiClient.find_payouts_to_address]. *)
Definition find_payouts_to_address (tip : res Z) (fetch : option string -> res (list TxData)) (fuel : nat)
    (addr : string) (min_confirmations : Z) : res (list (BitcoinTx * TxOutput)) :=
  rbind tip (fun current_height =>
  rbind (get_address_txs fetch fuel) (fun txs_data =>
  collect_payouts addr min_confirmations current_height txs_data)).

(** * The table [processed_payouts], unique on (txid, vout) *)

Inductive Status := PENDING | CONFIRMED | FAILED.

#[export] Instance Status_eq_dec : EqDecision Status.
Proof. solve_decision. Defined.

(** Models [hashcredit_relayer/db.py], [ProcessedPayout]. *)
Record ProcessedPayout := {
  p_borrower : string;
  p_amount_sats : Z;
  p_block_height : Z;
  p_tx_hash : option string;
  p_status : Status;
}.

#[local] Abbreviation Key := (string * Z)%type.

(** Models [hashcredit_relayer/signer.py], [PayoutClaim]. *)
Record PayoutClaim := {
  cl_borrower : string;
  cl_txid : bytes;
  cl_vout : Z;
  cl_amount_sats : Z;
  cl_block_height : Z;
  cl_block_timestamp : Z;
  cl_deadline : Z;
}.

(** Models [hashcredit_relayer/evm.py], [SubmitResult]. *)
Record SubmitResult := { success : bool; tx_hash : option string; error : option string }.

(** The database, and the claims handed to the EVM client so far, which no
    failure takes back. *)
Record RelayerState := {
  rows : gmap Key ProcessedPayout;
  sent : list (Key * PayoutClaim);
}.

#[local] Abbreviation M := (PyM RelayerState).

(** Models [hashcredit_relayer/db.py], [PayoutDatabase.is_processed]. *)
Definition is_processed (k : Key) (s : RelayerState) : bool := bool_decide (is_Some (rows s !! k)).

(** Models [hashcredit_relayer/db.py], [PayoutDatabase.mark_processed]: the
    Postgres upsert keeps the other columns, SQLite replaces the row. *)
Definition mark_processed (is_postgres : bool) (k : Key) (p : ProcessedPayout) : M unit :=
  modify (fun s => s <| rows ::= fun m =>
    match m !! k with
    | Some old => if is_postgres then <[k := old <| p_tx_hash := p_tx_hash p |> <| p_status := p_status p |>]> m
                  else <[k := p]> m
    | None => <[k := p]> m
    end |>).

(** Models [hashcredit_relayer/db.py], [PayoutDatabase.update_status]. *)
Definition update_status (k : Key) (st : Status) (h : option string) : M unit :=
  modify (fun s => s <| rows ::= alter (fun p =>
    (if truthy h then p <| p_tx_hash := h |> else p) <| p_status := st |>) k |>).

(** Models [hashcredit_relayer/db.py], [PayoutDatabase.get_pending_payouts]. *)
Definition get_pending_payouts (s : RelayerState) : list (Key * ProcessedPayout) :=
  filter (fun kp => p_status kp.2 = PENDING) (map_to_list (rows s)).

(** * Signing and submitting *)

(** [s.replace("0x", "")] *)
Fixpoint strip_0x (s : string) : string :=
  match s with
  | String a (String b s' as r) =>
      if bool_decide (a = "0"%char) && bool_decide (b = "x"%char) then strip_0x s' else String a (strip_0x r)
  | _ => s
  end.

(** Models [hashcredit_relayer/signer.py], [txid_to_bytes32]. *)
Definition txid_to_bytes32 (txid_hex : string) : res bytes :=
  rbind (Bitcoin.fromhex (strip_0x txid_hex)) (fun b => Ok (rev b)).

(** Models [hashcredit_relayer/signer.py], [bytes32_to_txid_display]. *)
Definition bytes32_to_txid_display (internal_bytes : bytes) : string := hex (rev internal_bytes).

(** Models [hashcredit_relayer/config.py], [WatchedBorrower]. *)
Record WatchedBorrower := { evm_address : string; btc_address : string }.

(** The answers of the outside during one cycle. *)
Record Env := {
  e_tip : res Z;
  e_fetch : string -> option string -> res (list TxData); (* by address *)
  e_fuel : nat;
  e_is_payout_processed : bytes -> Z -> res bool;
  e_sign : PayoutClaim -> res bytes;
  e_submit : PayoutClaim -> bytes -> SubmitResult;        (* catches its exceptions *)
  e_now : Z;
}.

Section Cycle.
Context (is_postgres : bool) (has_evm : bool) (confirmations_required : Z) (env : Env).

Definition key_of (tx : BitcoinTx) (o : TxOutput) : Key := (txid tx, vout o).

Definition payout_row (b : WatchedBorrower) (tx : BitcoinTx) (o : TxOutput) (st : Status) : ProcessedPayout :=
  {| p_borrower := evm_address b; p_amount_sats := value_sats o; p_block_height := default 0 (block_height tx);
     p_tx_hash := None; p_status := st |}.

(** [x or y] on an optional int *)
Definition or_int (x : option Z) (y : Z) : Z := match x with Some n => if n =? 0 then y else n | None => y end.

(** Models [hashcredit_relayer/relayer.py], [HashCreditRelayer._submit_payout]. *)
Definition submit_payout (b : WatchedBorrower) (tx : BitcoinTx) (o : TxOutput) : M SubmitResult :=
  mark_processed is_postgres (key_of tx o) (payout_row b tx o PENDING) ;;;
  let* id := lift_res (txid_to_bytes32 (txid tx)) in
  let claim := {| cl_borrower := evm_address b; cl_txid := id; cl_vout := vout o; cl_amount_sats := value_sats o;
                  cl_block_height := default 0 (block_height tx); cl_block_timestamp := or_int (block_time tx) (e_now env);
                  cl_deadline := e_now env + 3600 |} in
  let* signature := lift_res (e_sign env claim) in
  if negb has_evm then ret {| success := true; tx_hash := None; error := Some "Dry run - not submitted"%string |}
  else
    modify (fun s => s <| sent ::= fun l => l ++ [(key_of tx o, claim)] |>) ;;;
    let result := e_submit env claim signature in
    (if success result then update_status (key_of tx o) CONFIRMED (tx_hash result)
     else update_status (key_of tx o) FAILED None) ;;;
    ret result.

(** One turn of the loop of [_process_borrower]. *)
Definition process_payout (b : WatchedBorrower) (p : BitcoinTx * TxOutput) : M (list SubmitResult) :=
  let tx := p.1 in let o := p.2 in
  let* s := get in
  if is_processed (key_of tx o) s then ret []
  else
    let* id := lift_res (txid_to_bytes32 (txid tx)) in
    let* onchain := lift_res (if has_evm then e_is_payout_processed env id (vout o) else Ok false) in
    if onchain then mark_processed is_postgres (key_of tx o) (payout_row b tx o CONFIRMED) ;;; ret []
    else let* r := submit_payout b tx o in ret [r].

Fixpoint process_payouts (b : WatchedBorrower) (l : list (BitcoinTx * TxOutput)) : M (list SubmitResult) :=
  match l with
  | [] => ret []
  | p :: l' => let* r := process_payout b p in let* rs := process_payouts b l' in ret (r ++ rs)
  end.

(** Models [hashcredit_relayer/relayer.py], [HashCreditRelayer._process_borrower]. *)
Definition process_borrower (b : WatchedBorrower) : M (list SubmitResult) :=
  let* payouts := lift_res (find_payouts_to_address (e_tip env) (e_fetch env (btc_address b)) (e_fuel env)
                              (btc_address b) confirmations_required) in
  process_payouts b payouts.

(** Models [hashcredit_relayer/relayer.py], [HashCreditRelayer.run_once]. *)
Fixpoint run_once (borrowers : list WatchedBorrower) : M (list SubmitResult) :=
  match borrowers with
  | [] => ret []
  | b :: bs =>
      let* r := try_except (process_borrower b) (fun _ => ret []) in
      let* rs := run_once bs in
      ret (r ++ rs)
  end.

End Cycle.

(** * Pagination *)

(** The transactions after the one with id [c]. *)
Fixpoint after (c : string) (l : list TxData) : list TxData :=
  match l with
  | [] => []
  | d :: l' => if bool_decide (d_txid d = Some c) then l' else after c l'
  end.

(** A server that pages its history 25 at a time. *)
Definition serve (hist : list TxData) (cursor : option string) : res (list TxData) :=
  Ok (take 25 (match cursor with None => hist | Some c => after c hist end)).

Definition ids (l : list TxData) : list string := omap d_txid l.

Definition named (d : TxData) : Prop := truthy (d_txid d) = true.

Lemma ids_app l k : ids (l ++ k) = ids l ++ ids k.
Proof. unfold ids. induction l as [|d l IH]; [done|]. cbn. destruct (d_txid d); cbn; by rewrite IH. Qed.

Lemma after_app pre x c rest :
  NoDup (ids (pre ++ x :: rest)) -> d_txid x = Some c -> after c (pre ++ x :: rest) = rest.
Proof.
  intros Hnd Hx. induction pre as [|d pre IH]; cbn.
  - by rewrite bool_decide_true.
  - destruct (decide (d_txid d = Some c)) as [Hd|Hd].
    + exfalso. unfold ids in Hnd. cbn in Hnd. rewrite Hd in Hnd. apply NoDup_cons in Hnd as [Hin _]. apply Hin.
      apply list_elem_of_omap. exists x. split; [|done]. apply elem_of_app. right. apply list_elem_of_here.
    + rewrite bool_decide_false by done. apply IH. unfold ids in *. cbn in Hnd.
      destruct (d_txid d); [by apply NoDup_cons in Hnd as [_ ?]|done].
Qed.

(** The loop with the prefix [pre] of the history read. *)
Definition read_to (cursor : option string) (pre : list TxData) : Prop :=
  (pre = [] /\ cursor = None) \/ exists pre' x c, pre = pre' ++ [x] /\ d_txid x = Some c /\ cursor = Some c.

Lemma serve_rest pre rest cursor :
  NoDup (ids (pre ++ rest)) -> read_to cursor pre -> serve (pre ++ rest) cursor = Ok (take 25 rest).
Proof.
  intros Hnd [[-> ->]|(pre' & x & c & -> & Hx & ->)]; [done|]. unfold serve.
  rewrite <- app_assoc in *. cbn [app] in *. by rewrite (after_app pre' x c rest).
Qed.

Lemma pages_loop_all fuel cursor seen pre rest :
  NoDup (ids (pre ++ rest)) -> Forall named rest -> read_to cursor pre ->
  (forall c, cursor = Some c -> c ∉ seen) -> (forall c, c ∈ seen -> c ∈ ids pre) -> (length rest < fuel)%nat ->
  pages_loop (serve (pre ++ rest)) fuel cursor seen pre = Ok (pre ++ rest).
Proof.
  revert cursor seen pre rest. induction fuel as [|n IH]; intros cursor seen pre rest Hnd Hnm Hrd Hseen Hsub Hfuel; [lia|].
  set (hist := pre ++ rest).
  assert (Hturn : forall seen', (forall c, c ∈ seen' -> c ∈ ids pre) ->
    rbind (serve hist cursor) (fun page =>
      match last page with
      | None => Ok pre
      | Some item =>
          if zlen page <? 25 then Ok (pre ++ page)
          else if negb (truthy (d_txid item)) then Ok (pre ++ page)
          else pages_loop (serve hist) n (d_txid item) seen' (pre ++ page)
      end) = Ok hist).
  { intros seen' Hsub'. unfold hist. rewrite serve_rest by done. cbn [rbind].
    destruct (last (take 25 rest)) as [item|] eqn:Hlast.
    2: { apply last_None in Hlast. destruct rest; [by rewrite app_nil_r|done]. }
    apply last_Some in Hlast as [page' Hpage].
    destruct (Z.ltb_spec (zlen (take 25 rest)) 25) as [Hlt|Hge].
    { unfold zlen in Hlt. rewrite length_take in Hlt. by rewrite take_ge by lia. }
    assert (Hrest : rest = page' ++ item :: drop 25 rest).
    { rewrite <- (take_drop 25 rest) at 1. by rewrite Hpage, <- app_assoc. }
    assert (Hitem : named item).
    { rewrite Forall_forall in Hnm. apply Hnm. rewrite Hrest. apply elem_of_app. right. apply list_elem_of_here. }
    rewrite Hitem. cbn [negb]. unfold named, truthy in Hitem. destruct (d_txid item) as [c|] eqn:Hc; [|done].
    assert (Hsplit : pre ++ rest = (pre ++ take 25 rest) ++ drop 25 rest) by (by rewrite <- app_assoc, take_drop).
    rewrite Hsplit. apply IH.
    - by rewrite <- Hsplit.
    - by apply Forall_drop.
    - right. exists (pre ++ page'), item, c. by rewrite Hpage, app_assoc.
    - intros c' [= <-] Hin%Hsub'. rewrite Hsplit, Hpage, !ids_app in Hnd. cbn in Hnd. rewrite Hc in Hnd.
      rewrite !NoDup_app in Hnd. destruct Hnd as ((_ & Hd & _) & _). apply (Hd c Hin), elem_of_app. right. apply list_elem_of_here.
    - intros c' Hin%Hsub'. rewrite ids_app. apply elem_of_app. by left.
    - rewrite length_drop. unfold zlen in Hge. rewrite length_take in Hge. lia. }
  cbn [pages_loop]. destruct cursor as [c|]; [|by apply Hturn].
  destruct (mem_str c seen) eqn:Hm.
  { exfalso. unfold mem_str in Hm. apply existsb_exists in Hm as (y & Hy & ->%String.eqb_eq).
    apply (Hseen y eq_refl). by apply list_elem_of_In. }
  apply Hturn. intros c' [->|Hin]%elem_of_cons; [|by apply Hsub].
  destruct Hrd as [[_ [=]]|(pre' & x & c0 & -> & Hx & [= ->])]. rewrite ids_app. apply elem_of_app. right. cbn.
  rewrite Hx. apply list_elem_of_here.
Qed.

(** * At most one submission *)

(** What a run may do: rows stay, and what it sends is for keys that had no row
    and have one now, each once. *)
Definition grows (s s' : RelayerState) : Prop :=
  (forall k, is_Some (rows s !! k) -> is_Some (rows s' !! k)) /\
  exists l, sent s' = sent s ++ l /\ NoDup l.*1 /\
    forall k, k ∈ l.*1 -> rows s !! k = None /\ is_Some (rows s' !! k).

Lemma grows_rows s s' :
  (forall k, is_Some (rows s !! k) -> is_Some (rows s' !! k)) -> sent s' = sent s -> grows s s'.
Proof.
  intros Hr Hs. split; [done|]. exists []. rewrite app_nil_r. split_and!; [done|constructor|]. by intros k ?%elem_of_nil.
Qed.

Lemma grows_refl s : grows s s.
Proof. by apply grows_rows. Qed.

Lemma grows_trans s t u : grows s t -> grows t u -> grows s u.
Proof.
  intros [Hr1 (l1 & E1 & N1 & F1)] [Hr2 (l2 & E2 & N2 & F2)]. split; [auto|].
  exists (l1 ++ l2). rewrite E2, E1, app_assoc, fmap_app. split_and!; [done| |].
  - apply NoDup_app. split_and!; [done| |done]. intros k Hk1 Hk2.
    destruct (F1 k Hk1) as [_ [p Hp]]. destruct (F2 k Hk2) as [Hn _]. congruence.
  - intros k [Hk|Hk]%elem_of_app.
    + destruct (F1 k Hk) as [? ?]. split; [done|by apply Hr2].
    + destruct (F2 k Hk) as [Hn ?]. split; [|done]. apply eq_None_not_Some. intros Hs%Hr1. rewrite Hn in Hs. by destruct Hs.
Qed.

Definition growing {A} (m : M A) : Prop := forall s, grows s (m s).2.

Lemma growing_bind {A C} (m : M A) (f : A -> M C) : growing m -> (forall a, growing (f a)) -> growing (bind m f).
Proof.
  intros Hm Hf s. unfold bind. specialize (Hm s). destruct (m s) as [[a|e] s1]; [|exact Hm].
  eapply grows_trans; [exact Hm|apply Hf].
Qed.

Lemma growing_pure {A} (m : M A) : (forall s, (m s).2 = s) -> growing m.
Proof. intros H s. rewrite H. apply grows_refl. Qed.

Lemma growing_try {A} (m : M A) h : growing m -> (forall e, growing (h e)) -> growing (try_except m h).
Proof.
  intros Hm Hh s. unfold try_except. specialize (Hm s). destruct (m s) as [[a|e] s1]; [exact Hm|].
  eapply grows_trans; [exact Hm|apply Hh].
Qed.

Lemma mark_rows pg k p s :
  (forall j, is_Some (rows s !! j) -> is_Some (rows (mark_processed pg k p s).2 !! j)) /\
  is_Some (rows (mark_processed pg k p s).2 !! k) /\ sent (mark_processed pg k p s).2 = sent s.
Proof.
  unfold mark_processed, modify. cbn. destruct (rows s !! k) as [old|] eqn:Hk; [destruct pg|]; cbn;
    (split_and!; [intros j Hj; destruct (decide (k = j)) as [<-|]; [rewrite lookup_insert_eq; by eexists|by rewrite lookup_insert_ne]
                 |rewrite lookup_insert_eq; by eexists|done]).
Qed.

Lemma mark_growing pg k p : growing (mark_processed pg k p).
Proof. intros s. destruct (mark_rows pg k p s) as (H1 & _ & H2). by apply grows_rows. Qed.

Lemma update_growing k st h : growing (update_status k st h).
Proof.
  intros s. apply grows_rows; [|done]. intros j Hj. unfold update_status, modify. cbn.
  destruct (decide (k = j)) as [<-|]; [rewrite lookup_alter_eq; by apply fmap_is_Some|by rewrite lookup_alter_ne].
Qed.

Lemma lift_growing {A} (r : res A) : growing (lift_res r).
Proof. by apply growing_pure. Qed.

Lemma submit_payout_grows pg ev env b tx o s :
  rows s !! key_of tx o = None -> grows s (submit_payout pg ev env b tx o s).2.
Proof.
  intros Hnone. unfold submit_payout, bind at 1. set (p := payout_row b tx o PENDING).
  destruct (mark_rows pg (key_of tx o) p s) as (Hr & Hk & Hsent).
  assert (Hg := mark_growing pg (key_of tx o) p s).
  destruct (mark_processed pg (key_of tx o) p s) as [r1 s1] eqn:Hm. cbn in *.
  unfold mark_processed, modify in Hm. injection Hm as <- _.
  unfold bind at 1, lift_res. destruct (txid_to_bytes32 (txid tx)) as [id|e]; [|exact Hg].
  unfold bind at 1. destruct (e_sign env _) as [sg|e]; [|exact Hg].
  destruct (negb ev); [exact Hg|]. unfold modify. set (claim := {| cl_borrower := evm_address b |}).
  set (s2 := s1 <| sent ::= fun l => l ++ [(key_of tx o, claim)] |>).
  assert (Hs2 : grows s s2).
  { split; [exact Hr|]. exists [(key_of tx o, claim)]. cbn. rewrite Hsent. split_and!; [done|apply NoDup_singleton|].
    intros k ->%list_elem_of_singleton. by split. }
  eapply grows_trans; [exact Hs2|]. destruct (success (e_submit env claim sg)); apply update_growing.
Qed.

Lemma process_payout_growing pg ev env b p : growing (process_payout pg ev env b p).
Proof.
  intros s. unfold process_payout, bind at 1. cbn [get]. destruct (is_processed _ s) eqn:Hp; [apply grows_refl|].
  apply bool_decide_eq_false, eq_None_not_Some in Hp. unfold bind at 1, lift_res.
  destruct (txid_to_bytes32 _) as [id|e]; [|apply grows_refl]. unfold bind at 1.
  destruct (if ev then _ else _) as [[]|e]; [| |apply grows_refl].
  - apply (growing_bind (mark_processed _ _ _)); [apply mark_growing|]. intros u. by apply growing_pure.
  - pose proof (submit_payout_grows pg ev env b p.1 p.2 s Hp) as Hg. unfold bind.
    by destruct (submit_payout pg ev env b p.1 p.2 s) as [[r|e] s1].
Qed.

Lemma run_once_growing pg ev conf env bs : growing (run_once pg ev conf env bs).
Proof.
  induction bs as [|b bs IH]; [by apply growing_pure|]. cbn. apply growing_bind.
  - apply growing_try; [|intros e; by apply growing_pure]. unfold process_borrower.
    apply growing_bind; [apply lift_growing|]. intros l. induction l as [|p l IHl]; [by apply growing_pure|]. cbn.
    apply growing_bind; [apply process_payout_growing|]. intros r. apply growing_bind; [exact IHl|].
    intros rs. by apply growing_pure.
  - intros r. apply growing_bind; [exact IH|]. intros rs. by apply growing_pure.
Qed.

Definition cycle (s s' : RelayerState) : Prop :=
  exists pg ev conf env bs, s' = (run_once pg ev conf env bs s).2.

Lemma cycles_grow s s' : rtc cycle s s' -> grows s s'.
Proof.
  induction 1 as [s|s t u (pg & ev & conf & env & bs & ->) _ IH]; [apply grows_refl|].
  eapply grows_trans; [apply run_once_growing|exact IH].
Qed.

(** * Properties *)

(** C20: Nothing is missed: from a server that pages a history of distinct
    transactions 25 at a time, the pagination returns the whole history, in
    order, whatever its length (one page of fuel per transaction is enough). *)
Theorem pagination_complete hist :
  NoDup (ids hist) -> Forall named hist -> get_address_txs (serve hist) (S (length hist)) = Ok hist.
Proof.
  intros Hnd Hnm. apply (pages_loop_all _ None [] [] hist); [done|done|by left|done| |lia].
  by intros c ?%elem_of_nil.
Qed.

(** C21: A payout is claimed at most once, ever: over any number of poll cycles,
    whatever the Bitcoin API, the EVM node, the signer and exceptions do, no
    two claims are sent for the same (txid, vout), a sent claim has its row,
    and a key that has a row (also a failed or a merely pending one) is never
    sent again. *)
Theorem at_most_one_claim s0 s s' :
  NoDup (sent s0).*1 -> (forall k, k ∈ (sent s0).*1 -> is_Some (rows s0 !! k)) -> rtc cycle s0 s -> rtc cycle s s' ->
  NoDup (sent s').*1 /\ (forall k, k ∈ (sent s').*1 -> is_Some (rows s' !! k)) /\
  exists l, sent s' = sent s ++ l /\ forall k, is_Some (rows s !! k) -> k ∉ l.*1.
Proof.
  intros Hnd Hrows H1%cycles_grow H2%cycles_grow.
  destruct (grows_trans _ _ _ H1 H2) as [Hr (l & E & N & F)]. destruct H2 as [_ (l2 & E2 & _ & F2)]. split_and!.
  - rewrite E, fmap_app. apply NoDup_app. split_and!; [done| |done]. intros k Hk Hl.
    destruct (Hrows k Hk) as [p Hp]. destruct (F k Hl) as [Hn _]. congruence.
  - rewrite E, fmap_app. intros k [Hk|Hk]%elem_of_app; [by apply Hr, Hrows|by apply F].
  - exists l2. split; [done|]. intros k [p Hp] Hk. destruct (F2 k Hk) as [Hn _]. congruence.
Qed.

(** ** Witnesses *)

Definition tx_named (i : Z) : TxData :=
  {| d_txid := Some (hex [1; i]); d_block_height := Some 100; d_block_time := Some 7; d_confirmed := true;
     d_vout := [{| v_value := 5000; v_address := Some "bc1q"%string |}] |}.

Definition hist60 : list TxData := map (fun i => tx_named (Z.of_nat i)) (seq 0 60).

Lemma pagination_complete_witness : get_address_txs (serve hist60) 61 = Ok hist60.
Proof.
  apply (pagination_complete hist60).
  - apply (bool_decide_unpack _). vm_compute. exact I.
  - apply Forall_forall. intros d (i & -> & _)%list_elem_of_fmap. reflexivity.
Defined.

Definition env0 : Env :=
  {| e_tip := Ok 110; e_fetch := fun _ => serve hist60; e_fuel := 61; e_is_payout_processed := fun _ _ => Ok false;
     e_sign := fun _ => Ok [1]; e_submit := fun _ _ => {| success := false; tx_hash := None; error := None |}; e_now := 9 |}.

Definition bob : WatchedBorrower := {| evm_address := "0xb0b"; btc_address := "bc1q" |}.
Definition start : RelayerState := {| rows := ∅; sent := [] |}.
Definition after_one : RelayerState := (run_once true true 6 env0 [bob] start).2.
Definition after_two : RelayerState := (run_once true true 6 env0 [bob] after_one).2.

Lemma at_most_one_claim_witness : length (sent after_one) = 60%nat /\ NoDup (sent after_two).*1.
Proof.
  split; [vm_compute; reflexivity|].
  refine (proj1 (at_most_one_claim start after_one after_two _ _ _ _)).
  - constructor.
  - intros k Hk. by apply elem_of_nil in Hk.
  - eapply rtc_l; [|constructor]. exists true, true, 6, env0, [bob]. reflexivity.
  - eapply rtc_l; [|constructor]. exists true, true, 6, env0, [bob]. reflexivity.
Defined.

End Relayer.
