(* ===== verification/SpvRelayer.v ===== *)
(** The SPV relayer of the prover: satoshi amounts, the payout store, the block
    scanner and the poll cycle over the proof builder.

    Sources: offchain/prover/hashcredit_prover/watcher.py and relayer.py.  The
    Bitcoin node, the EVM client and the ABI encoder are outside the program:
    their answers are arguments.  Every store method is its own transaction. *)

From S2P Require Import Prelude Domain Stdpy Bitcoin SpvProof Address.
Import Stdpy.

Module SpvRelayer.

#[local] Abbreviation bytes := (list Z).

(** * Amounts *)

(** A finite [decimal.Decimal]: [coef * 10 ^ exp]. *)
Record Decimal := { coef : Z; exp : Z }.

(** The number of decimal digits of a coefficient. *)
Fixpoint digits (fuel : nat) (n : Z) : Z :=
  match fuel with
  | O => 0
  | S k => if n =? 0 then 0 else 1 + digits k (n / 10)
  end.

Definition ndigits (n : Z) : Z := digits (Z.to_nat (Z.log2 (Z.abs n) + 2)) (Z.abs n).

(** [n / d] rounded half to even. *)
Definition half_even (n d : Z) : Z :=
  let q := n / d in let r := n mod d in
  if (2 * r <? d) || ((2 * r =? d) && Z.even q) then q else q + 1.

(** Rounding to the context's 28 digits. *)
Definition round28 (x : Decimal) : Decimal :=
  let over := ndigits (coef x) - 28 in
  if over <=? 0 then x
  else let c := Z.sgn (coef x) * half_even (Z.abs (coef x)) (10 ^ over) in
       {| coef := c; exp := exp x + over |}.

Definition dec_mul (x y : Decimal) : Decimal := round28 {| coef := coef x * coef y; exp := exp x + exp y |}.

(** The value is an integer. *)
Definition dec_integral (x : Decimal) : bool := (0 <=? exp x) || (coef x mod 10 ^ (- exp x) =? 0).

(** [int(x)] of an integral value. *)
Definition dec_int (x : Decimal) : Z := if 0 <=? exp x then coef x * 10 ^ exp x else coef x / 10 ^ (- exp x).

(** Models [hashcredit_prover/watcher.py], [SATS_PER_BTC]. *)
Definition SATS_PER_BTC : Decimal := {| coef := 100000000; exp := 0 |}.

(** Models [hashcredit_prover/watcher.py], [btc_to_sats], on the decimal its
    first lines parse. *)
Definition btc_to_sats (value : Decimal) : res Z :=
  let sats := dec_mul value SATS_PER_BTC in
  if dec_integral sats then Ok (dec_int sats)
  else Raise (Exn ValueError "BTC value results in fractional satoshis").

(** * The store *)

(** Models [hashcredit_prover/watcher.py], [WatchedAddress]. *)
Record WatchedAddress := { btc_address : string; borrower : string; enabled : bool }.

#[local] Abbreviation Key := (string * Z)%type.

(** Models [hashcredit_prover/watcher.py], [PendingPayout]. *)
Record PendingPayout := {
  txid : string;
  output_index : Z;
  p_borrower : string;
  p_btc_address : string;
  amount_sats : Z;
  block_height : Z;
  block_hash : string;
  first_seen : Z;
}.

Definition key_of (p : PendingPayout) : Key := (txid p, output_index p).

Record SubmittedRow := { s_borrower : string; s_amount_sats : Z; s_block_height : Z; s_evm_tx_hash : string }.

(** The two tables, the relayer's memory, and the submissions the EVM client
    acknowledged so far with what they were about, which nothing takes back. *)
Record State := {
  pending : gmap Key PendingPayout;
  submitted : gmap Key SubmittedRow;
  last_scanned : option Z;
  accepted : list (Key * (Z * Z)); (* height and checkpoint *)
}.

#[local] Abbreviation M := (PyM State).

(** Models [hashcredit_prover/watcher.py], [PayoutStore.add_pending]. *)
Definition add_pending (p : PendingPayout) : M bool :=
  let* s := get in
  match pending s !! key_of p with
  | Some _ => ret false
  | None => put (s <| pending ::= <[key_of p := p]> |>) ;;; ret true
  end.

(** Models [hashcredit_prover/watcher.py], [PayoutStore.get_pending]; the order
    of the rows is the database's. *)
Definition get_pending (s : State) : list PendingPayout := (map_to_list (pending s)).*2.

(** Models [hashcredit_prover/watcher.py], [PayoutStore.mark_submitted]. *)
Definition mark_submitted (k : Key) (evm_tx_hash : string) : M unit :=
  transaction (
    let* s := get in
    match pending s !! k with
    | None => ret tt
    | Some row =>
        if bool_decide (is_Some (submitted s !! k)) then raise DatabaseError "submitted_payouts primary key"
        else
          modify (fun s => s <| submitted ::= <[k := {| s_borrower := p_borrower row; s_amount_sats := amount_sats row;
                                                      s_block_height := block_height row; s_evm_tx_hash := evm_tx_hash |}]> |>
                             <| pending ::= delete k |>)
    end).

(** Models [hashcredit_prover/watcher.py], [PayoutStore.is_submitted]. *)
Definition is_submitted (k : Key) (s : State) : bool := bool_decide (is_Some (submitted s !! k)).

(** Models [hashcredit_prover/watcher.py], [PayoutStore.remove_pending]. *)
Definition remove_pending (k : Key) : M unit := modify (fun s => s <| pending ::= delete k |>).

(** * Scanning *)

(** A transaction of [getblock] with verbosity 2, as the fields the code reads. *)
Record VoutData := { n : Z; script_hex : string; v_value : Decimal }.
Record TxData := { t_txid : string; t_vout : list VoutData }.

(** [d[k] = v] on a dict in insertion order. *)
Fixpoint dict_set {K V} `{EqDecision K} (k : K) (v : V) (d : list (K * V)) : list (K * V) :=
  match d with
  | [] => [(k, v)]
  | (k', v') :: d' => if decide (k' = k) then (k, v) :: d' else (k', v') :: dict_set k v d'
  end.

Definition dict_get {K V} `{EqDecision K} (k : K) (d : list (K * V)) : option V :=
  snd <$> List.find (fun p => bool_decide (p.1 = k)) d.

(** Models [hashcredit_prover/watcher.py], [AddressWatcher.__init__]. *)
Definition watched (addresses : list WatchedAddress) : list (string * WatchedAddress) :=
  fold_left (fun d a => if enabled a then dict_set (btc_address a) a d else d) addresses [].

(** The map from pubkey hashes to the addresses watched. *)
Definition by_hash (addresses : list WatchedAddress) : list (bytes * WatchedAddress) :=
  fold_left (fun d a => match Address.decode_btc_address (btc_address a) with
                        | Some (h, _) => dict_set h a d
                        | None => d
                        end) (map snd (watched addresses)) [].

Section Scan.
Context (addresses : list WatchedAddress) (height : Z) (hash : string) (now : Z).

(** One turn of the loop over the outputs. *)
Definition scan_output (id : string) (v : VoutData) : M (list PendingPayout) :=
let* s := get in
if is_submitted (id, n v) s then ret []
else if String.eqb (script_hex v) "" then ret []
else
  let* script := lift_res (Bitcoin.fromhex (script_hex v)) in
  match Bitcoin.extract_pubkey_hash script with
  | (None, _) => ret []
  | (Some h, _) =>
      match dict_get h (by_hash addresses) with
      | None => ret []
      | Some w =>
          let* amount := lift_res (btc_to_sats (v_value v)) in
          let p := {| txid := id; output_index := n v; p_borrower := borrower w; p_btc_address := btc_address w;
                      amount_sats := amount; block_height := height; block_hash := hash; first_seen := now |} in
          let* added := add_pending p in
          ret (if added then [p] else [])
      end
  end.

Fixpoint collect {A} (f : A -> M (list PendingPayout)) (l : list A) : M (list PendingPayout) :=
match l with
| [] => ret []
| x :: l' => let* p := f x in let* ps := collect f l' in ret (p ++ ps)
end.

Definition scan_txs (txs : list TxData) : M (list PendingPayout) :=
collect (fun tx => collect (scan_output (t_txid tx)) (t_vout tx)) txs.
End Scan.

(** The outside during one cycle. *)
Record Env := {
  e_block_count : res Z;
  e_rpc : Spv.Rpc;
  e_block : string -> res (list TxData);
  e_checkpoint : res Z;
  e_encode : Z * list bytes * Z * bytes * list bytes * Z * Z * string -> res bytes;
  e_submit : bytes -> res string;  (* the transaction hash of the receipt, whatever its status *)
  e_now : Z;
}.

(** Models [hashcredit_prover/relayer.py], [RelayerConfig], lines 21-43. *)
Record Config := {
  watched_addresses : list WatchedAddress;
  required_confirmations : Z;
  max_header_chain : Z;
  scan_batch_size : Z;
}.

Section Cycle.
Context (cfg : Config) (env : Env).

(** Models [hashcredit_prover/watcher.py], [AddressWatcher.scan_block]. *)
Definition scan_block (height : Z) : M (list PendingPayout) :=
let* hash := lift_res (Spv.get_block_hash (e_rpc env) height) in
let* txs := lift_res (e_block env hash) in
scan_txs (watched_addresses cfg) height hash (e_now env) txs.

(** Models [hashcredit_prover/watcher.py], [AddressWatcher.scan_range]. *)
Definition scan_range (start_height end_height : Z) : M (list PendingPayout) :=
collect scan_block (Spv.zrange start_height (Z.to_nat (end_height + 1 - start_height))).

(** Models [hashcredit_prover/relayer.py], [SPVRelayer.scan_new_blocks]. *)
Definition scan_new_blocks : M (list PendingPayout) :=
let* current_height := lift_res (e_block_count env) in
modify (fun s => match last_scanned s with
                 | None => s <| last_scanned := Some (Z.max (current_height - scan_batch_size cfg) 0) |>
                 | Some _ => s
                 end) ;;;
let* s := get in
let last := default 0 (last_scanned s) in
if current_height <=? last then ret []
else
  let start := last + 1 in
  let stop := Z.min (start + scan_batch_size cfg - 1) current_height in
  let* payouts := scan_range start stop in
  modify (fun s => s <| last_scanned := Some stop |>) ;;;
  ret payouts.

(** Models [hashcredit_prover/relayer.py], [SPVRelayer.select_checkpoint]. *)
Definition select_checkpoint (target_height : Z) : res (option Z) :=
rbind (e_checkpoint env) (fun latest =>
if latest =? 0 then Ok None
else
  let chain_length := target_height - latest in
  if chain_length <=? 0 then Ok None
  else if max_header_chain cfg <? chain_length then Ok None
  else Ok (Some latest)).

(** Models [hashcredit_prover/relayer.py], [SPVRelayer._submit_payout]. *)
Definition submit_payout (p : PendingPayout) (checkpoint_height : Z) : M unit :=
let* result := lift_res (Spv.build_proof (e_rpc env) (txid p) (output_index p) checkpoint_height (block_height p)
                           (p_borrower p) None) in
let* encoded := lift_res (Spv.encode_for_contract (e_encode env) (Spv.proof result)) in
let* evm_tx_hash := lift_res (e_submit env encoded) in
modify (fun s => s <| accepted ::= fun l => l ++ [(key_of p, (block_height p, checkpoint_height))] |>) ;;;
mark_submitted (key_of p) evm_tx_hash.

(** One turn of the loop of [process_pending]. *)
Definition process_one (current_height : Z) (p : PendingPayout) : M Z :=
let confirmations := current_height - block_height p + 1 in
if confirmations <? required_confirmations cfg then ret 0
else
  let* checkpoint := lift_res (select_checkpoint (block_height p)) in
  match checkpoint with
  | None => ret 0
  | Some c => try_except (submit_payout p c ;;; ret 1) (fun _ => ret 0)
  end.

Fixpoint process_all (current_height : Z) (l : list PendingPayout) : M Z :=
match l with
| [] => ret 0
| p :: l' => let* a := process_one current_height p in let* b := process_all current_height l' in ret (a + b)
end.

(** Models [hashcredit_prover/relayer.py], [SPVRelayer.process_pending]. *)
Definition process_pending : M Z :=
let* current_height := lift_res (e_block_count env) in
let* s := get in
process_all current_height (get_pending s).

(** Models [hashcredit_prover/relayer.py], [SPVRelayer.run_once]. *)
Definition run_once : M Z :=
let* _ := scan_new_blocks in
process_pending.

End Cycle.

(** * Amounts *)

Lemma digits_le fuel n k : 0 <= k -> 0 <= n < 10 ^ k -> digits fuel n <= k.
Proof.
  revert n k. induction fuel as [|f IH]; intros n k Hk Hn; cbn [digits]; [done|].
  destruct (Z.eqb_spec n 0); [done|].
  destruct (decide (k = 0)) as [->|Hne]; [cbn in Hn; lia|].
  assert (digits f (n / 10) <= k - 1); [|lia]. apply IH; [lia|].
  replace k with (Z.succ (k - 1)) in Hn by lia. rewrite Z.pow_succ_r in Hn by lia.
  split; [apply Z.div_pos; lia|apply Z.div_lt_upper_bound; lia].
Qed.

Lemma round28_id x : 0 <= coef x < 10 ^ 28 -> round28 x = x.
Proof.
  intros Hc. unfold round28, ndigits. rewrite Z.abs_eq by lia.
  pose proof (digits_le (Z.to_nat (Z.log2 (coef x) + 2)) (coef x) 28 ltac:(lia) Hc).
  by rewrite (proj2 (Z.leb_le _ _)) by lia.
Qed.

(** Amounts are exact: for a decimal of at most 20 digits with a fractional
    part, the conversion returns [s] exactly when the amount is [s] satoshis,
    and raises when it is no whole number of them; nothing is rounded. *)
Theorem btc_to_sats_exact c e s :
  0 <= c < 10 ^ 20 -> 0 <= e ->
  (btc_to_sats {| coef := c; exp := - e |} = Ok s <-> c * 10 ^ 8 = s * 10 ^ e) /\
  ((forall s', c * 10 ^ 8 <> s' * 10 ^ e) <-> exists err, btc_to_sats {| coef := c; exp := - e |} = Raise err).
Proof.
  intros Hc He. assert (Hp : 0 < 10 ^ e) by (apply Z.pow_pos_nonneg; lia).
  assert (Hrun : btc_to_sats {| coef := c; exp := - e |} =
    if (c * 10 ^ 8) mod 10 ^ e =? 0 then Ok (c * 10 ^ 8 / 10 ^ e)
    else Raise (Exn ValueError "BTC value results in fractional satoshis")).
  { unfold btc_to_sats, dec_mul, SATS_PER_BTC. cbn [coef exp]. rewrite round28_id by (cbn [coef]; lia).
    unfold dec_integral, dec_int. cbn [coef exp]. rewrite Z.add_0_r, Z.opp_involutive.
    change 100000000 with (10 ^ 8). destruct (Z.leb_spec 0 (- e)) as [H0|H0]; cbn [orb]; [|done].
    assert (e = 0) as -> by lia. change (10 ^ (- 0)) with 1. change (10 ^ 0) with 1.
    by rewrite Z.mod_1_r, Z.div_1_r, Z.mul_1_r. }
  rewrite Hrun. destruct (Z.eqb_spec ((c * 10 ^ 8) mod 10 ^ e) 0) as [Hm|Hm].
  - assert (Hd : c * 10 ^ 8 = (c * 10 ^ 8 / 10 ^ e) * 10 ^ e) by (pose proof (Z.div_mod (c * 10 ^ 8) (10 ^ e)); lia).
    split; [|split; [intros H; by destruct (H _ Hd)|by intros [err [=]]]].
    split; [intros [= <-]; exact Hd|]. intros Hs. rewrite Hs. by rewrite Z.div_mul by lia.
  - split; [split; [done|intros Hs; rewrite Hs in Hm; by rewrite Z.mod_mul in Hm by lia]|].
    split; [by eexists|]. intros _ s' Hs. rewrite Hs in Hm. by rewrite Z.mod_mul in Hm by lia.
Qed.

(** * The invariant of the store *)

Record wf (s : State) : Prop := {
  wf_pending : forall k p, pending s !! k = Some p -> key_of p = k /\ submitted s !! k = None;
  wf_accepted : NoDup (accepted s).*1;
  wf_marked : forall k, k ∈ (accepted s).*1 -> is_Some (submitted s !! k);
}.

(** A run keeps what was submitted and acknowledged; what it acknowledges
    satisfies [P]. *)
Definition extends (P : Key * (Z * Z) -> Prop) (s s' : State) : Prop :=
  (forall k, is_Some (submitted s !! k) -> is_Some (submitted s' !! k)) /\
  exists l, accepted s' = accepted s ++ l /\ Forall P l.

Lemma extends_refl P s : extends P s s.
Proof. split; [done|]. exists []. by rewrite app_nil_r. Qed.

Lemma extends_trans P s t u : extends P s t -> extends P t u -> extends P s u.
Proof.
  intros [H1 (l1 & E1 & F1)] [H2 (l2 & E2 & F2)]. split; [auto|]. exists (l1 ++ l2).
  rewrite E2, E1, app_assoc. split; [done|]. by apply Forall_app.
Qed.

Definition keeps_at {A} (P : Key * (Z * Z) -> Prop) (m : M A) (s : State) : Prop :=
  wf (m s).2 /\ extends P s (m s).2.

Definition keeps {A} (P : Key * (Z * Z) -> Prop) (m : M A) : Prop := forall s, wf s -> keeps_at P m s.

Lemma keeps_at_get {A} P (f : State -> M A) s : keeps_at P (f s) s -> keeps_at P (bind get f) s.
Proof. done. Qed.

Lemma keeps_at_lift {A B} P (r : res A) (f : A -> M B) s :
  wf s -> (forall a, r = Ok a -> keeps_at P (f a) s) -> keeps_at P (bind (lift_res r) f) s.
Proof.
  intros Hs Hf. unfold keeps_at, bind, lift_res. destruct r as [a|e]; [by apply Hf|]. split; [done|apply extends_refl].
Qed.

Lemma keeps_at_ret {A} P (a : A) s : wf s -> keeps_at P (ret a) s.
Proof. intros Hs. split; [done|apply extends_refl]. Qed.

Lemma keeps_seq {A B} P (m : M A) (f : A -> M B) :
  keeps P m -> (forall a, keeps P (f a)) -> keeps P (bind m f).
Proof.
  intros Hm Hf s Hs. unfold keeps_at, bind. destruct (Hm s Hs) as [Hw He]. destruct (m s) as [[a|e] s1]; [|done]. cbn in *.
  destruct (Hf a s1 Hw) as [Hw2 He2]. split; [done|]. by eapply extends_trans.
Qed.

Lemma keeps_relay_pure {A} P (m : M A) : (forall s, (m s).2 = s) -> keeps P m.
Proof. intros H s Hs. unfold keeps_at. rewrite H. split; [done|apply extends_refl]. Qed.

(** Only [pending] and [last_scanned] change, and [pending] stays apart from
    [submitted]. *)
Lemma add_pending_keeps P p s :
  submitted s !! key_of p = None -> wf s -> wf (add_pending p s).2 /\ extends P s (add_pending p s).2.
Proof.
  intros Hns Hs. unfold add_pending, bind, get, put, ret. destruct (pending s !! key_of p) as [q|] eqn:Hp; cbn.
  - split; [done|apply extends_refl].
  - split; [|split; [done|exists []; by rewrite app_nil_r]]. destruct Hs as [Hpend Hacc Hmk]. split; [|done|done].
    cbn. intros k r [[<- <-]|[_ Hr]]%lookup_insert_Some; [done|by apply Hpend].
Qed.

Lemma scan_output_keeps P addrs h hash now id v : keeps P (scan_output addrs h hash now id v).
Proof.
  intros s Hs. unfold scan_output. apply keeps_at_get.
  destruct (is_submitted (id, n v) s) eqn:Hsub; [by apply keeps_at_ret|].
  apply bool_decide_eq_false, eq_None_not_Some in Hsub.
  destruct (String.eqb _ _); [by apply keeps_at_ret|]. apply keeps_at_lift; [done|]. intros sc _.
  destruct (Bitcoin.extract_pubkey_hash sc) as [[hh|] ty]; [|by apply keeps_at_ret].
  destruct (dict_get hh _) as [w|]; [|by apply keeps_at_ret]. apply keeps_at_lift; [done|]. intros a _. cbv zeta.
  set (p := {| txid := id; output_index := n v |}). unfold keeps_at, bind.
  pose proof (add_pending_keeps P p s Hsub Hs) as Hk. destruct (add_pending p s) as [[[]|e] s1]; exact Hk.
Qed.

Lemma collect_keeps {A} P (f : A -> M (list PendingPayout)) l : (forall x, keeps P (f x)) -> keeps P (collect f l).
Proof.
  intros Hf. induction l as [|x l IH]; [by apply keeps_relay_pure|]. cbn. apply keeps_seq; [apply Hf|]. intros r.
  apply keeps_seq; [exact IH|]. intros rs. by apply keeps_relay_pure.
Qed.

Lemma scan_range_keeps P cfg env a b : keeps P (scan_range cfg env a b).
Proof.
  apply collect_keeps. intros h. apply keeps_seq; [by apply keeps_relay_pure|]. intros hash.
  apply keeps_seq; [by apply keeps_relay_pure|]. intros txs. apply collect_keeps. intros tx. apply collect_keeps.
  intros v. apply scan_output_keeps.
Qed.

Lemma memory_keeps P f : keeps P (modify (fun s => s <| last_scanned := f s |>)).
Proof. intros s [Hp Ha Hm]. split; [by split|]. split; [done|]. exists []. by rewrite app_nil_r. Qed.

Lemma scan_new_blocks_keeps P cfg env : keeps P (scan_new_blocks cfg env).
Proof.
  unfold scan_new_blocks. apply keeps_seq; [by apply keeps_relay_pure|]. intros cur. apply keeps_seq.
  { intros s Hs. unfold keeps_at, modify. cbn. destruct (last_scanned s); [split; [done|apply extends_refl]|].
    apply (memory_keeps P (fun _ => Some (Z.max (cur - scan_batch_size cfg) 0)) s Hs). }
  intros _. apply keeps_seq; [by apply keeps_relay_pure|]. intros s. destruct (_ <=? _); [by apply keeps_relay_pure|].
  apply keeps_seq; [apply scan_range_keeps|]. intros ps. apply keeps_seq; [|intros; by apply keeps_relay_pure].
  apply (memory_keeps P (fun _ => _)).
Qed.

(** * Submitting *)

Definition eligible (cfg : Config) (env : Env) (a : Key * (Z * Z)) : Prop :=
  exists count, e_block_count env = Ok count /\ required_confirmations cfg <= count - a.2.1 + 1 /\
    e_checkpoint env = Ok a.2.2 /\ 0 < a.2.1 - a.2.2 <= max_header_chain cfg.

Lemma select_checkpoint_Some cfg env h c :
  select_checkpoint cfg env h = Ok (Some c) -> e_checkpoint env = Ok c /\ 0 < h - c <= max_header_chain cfg.
Proof.
  unfold select_checkpoint. intros (l & Hl & H)%rbind_Ok. destruct (l =? 0); [done|].
  destruct (Z.leb_spec (h - l) 0); [done|]. destruct (Z.ltb_spec (max_header_chain cfg) (h - l)); [done|].
  injection H as <-. split; [done|lia].
Qed.

(** Submitting a pending payout: nothing but it changes. *)
Lemma submit_payout_spec env p c s r s' :
  wf s -> pending s !! key_of p = Some p -> submit_payout env p c s = (r, s') ->
  wf s' /\ (forall k, is_Some (submitted s !! k) -> is_Some (submitted s' !! k)) /\
  (accepted s' = accepted s \/ accepted s' = accepted s ++ [(key_of p, (block_height p, c))]) /\
  (forall k q, k <> key_of p -> pending s !! k = Some q -> pending s' !! k = Some q).
Proof.
  intros Hs Hp H. unfold submit_payout, bind at 1, lift_res in H.
  destruct (Spv.build_proof _ _ _ _ _ _ _) as [pr|e]; [|injection H as _ <-; by split_and!; auto].
  unfold bind at 1 in H. destruct (Spv.encode_for_contract _ _) as [enc|e]; [|injection H as _ <-; by split_and!; auto].
  unfold bind at 1 in H. destruct (e_submit env enc) as [h|e]; [|injection H as _ <-; by split_and!; auto].
  destruct Hs as [Hpend Hacc Hmk]. destruct (Hpend _ _ Hp) as [_ Hns].
  unfold bind, modify, mark_submitted, transaction, bind, get in H. cbn in H. rewrite Hp in H.
  rewrite bool_decide_false in H by (rewrite Hns; by intros [? [=]]). injection H as _ <-. cbn. split_and!.
  - split; cbn.
    + intros k q [Hne Hq]%lookup_delete_Some. destruct (Hpend k q Hq) as [Hk Hn]. split; [done|].
      by rewrite lookup_insert_ne.
    + rewrite fmap_app. apply NoDup_app. split_and!; [done| |apply NoDup_singleton].
      intros k Hk ->%list_elem_of_singleton. cbn in Hk. destruct (Hmk _ Hk) as [x Hx]. congruence.
    + rewrite fmap_app. intros k [Hk|Hk]%elem_of_app.
      * destruct (decide (key_of p = k)) as [<-|]; [rewrite lookup_insert_eq; by eexists|].
        rewrite lookup_insert_ne by done. by apply Hmk.
      * apply list_elem_of_singleton in Hk as ->. cbn. rewrite lookup_insert_eq. by eexists.
  - intros k Hk. destruct (decide (key_of p = k)) as [<-|]; [rewrite lookup_insert_eq; by eexists|by rewrite lookup_insert_ne].
  - by right.
  - intros k q Hne Hq. by rewrite lookup_delete_ne.
Qed.

Lemma process_one_spec cfg env cur p s r s' :
  e_block_count env = Ok cur -> wf s -> pending s !! key_of p = Some p -> process_one cfg env cur p s = (r, s') ->
  wf s' /\ extends (eligible cfg env) s s' /\ (forall k q, k <> key_of p -> pending s !! k = Some q -> pending s' !! k = Some q).
Proof.
  intros Hcount Hs Hp H. assert (Hskip : s' = s -> wf s' /\ extends (eligible cfg env) s s' /\
    (forall k q, k <> key_of p -> pending s !! k = Some q -> pending s' !! k = Some q))
    by (intros ->; split_and!; auto using extends_refl).
  unfold process_one in H.
  destruct (Z.ltb_spec (cur - block_height p + 1) (required_confirmations cfg)) as [|Hconf]; [injection H as _ <-; by apply Hskip|].
  unfold bind at 1, lift_res in H.
  destruct (select_checkpoint cfg env (block_height p)) as [[c|]|e] eqn:Hc; [|injection H as _ <-; by apply Hskip..].
  apply select_checkpoint_Some in Hc as [Hck Hlen]. unfold try_except, bind in H.
  destruct (submit_payout env p c s) as [r1 s1] eqn:Hsub.
  destruct (submit_payout_spec env p c s r1 s1 Hs Hp Hsub) as (Hw & Hm & Hacc & Hpd).
  assert (s' = s1) as -> by (destruct r1; by injection H). split_and!; [done| |done]. split; [exact Hm|].
  destruct Hacc as [-> | ->]; [exists []; by rewrite app_nil_r|].
  eexists. split; [done|]. constructor; [|constructor]. by exists cur.
Qed.

Lemma process_all_keeps cfg env cur l s :
  e_block_count env = Ok cur -> wf s -> NoDup (key_of <$> l) -> Forall (fun p => pending s !! key_of p = Some p) l ->
  wf (process_all cfg env cur l s).2 /\ extends (eligible cfg env) s (process_all cfg env cur l s).2.
Proof.
  intros Hcount. revert s. induction l as [|p l IH]; intros s Hs Hnd Hl; cbn; [split; [done|apply extends_refl]|].
  apply NoDup_cons in Hnd as [Hnin Hnd]. apply Forall_cons in Hl as [Hp Hl].
  unfold bind. destruct (process_one cfg env cur p s) as [r s1] eqn:Hone.
  destruct (process_one_spec cfg env cur p s r s1 Hcount Hs Hp Hone) as (Hw & He & Hkeep). destruct r as [a|e]; [|done].
  destruct (IH s1 Hw Hnd) as [Hw2 He2].
  - apply Forall_forall. intros q Hq. rewrite Forall_forall in Hl. apply Hkeep; [|by apply Hl].
    intros Heq. apply Hnin. rewrite <- Heq. by apply list_elem_of_fmap_2.
  - destruct (process_all cfg env cur l s1) as [[b|e] s2]; cbn in *; (split; [done|by eapply extends_trans]).
Qed.

Lemma get_pending_ok s :
  wf s -> NoDup (key_of <$> get_pending s) /\ Forall (fun p => pending s !! key_of p = Some p) (get_pending s).
Proof.
  intros Hs. unfold get_pending. split.
  - assert (Hkeys : key_of <$> (map_to_list (pending s)).*2 = (map_to_list (pending s)).*1).
    { rewrite <- list_fmap_compose. apply list_fmap_ext. intros i [k p] Hi. cbn.
      apply list_elem_of_lookup_2, elem_of_map_to_list in Hi. by apply (wf_pending s Hs). }
    rewrite Hkeys. apply NoDup_fst_map_to_list.
  - apply Forall_forall. intros p ([k q] & -> & Hq)%list_elem_of_fmap. apply elem_of_map_to_list in Hq. cbn.
    by rewrite (proj1 (wf_pending s Hs k q Hq)).
Qed.

Lemma run_once_keeps cfg env : keeps (eligible cfg env) (run_once cfg env).
Proof.
  apply keeps_seq; [apply scan_new_blocks_keeps|]. intros ps s Hs. unfold process_pending. apply keeps_at_lift; [done|].
  intros cur Hc. apply keeps_at_get. destruct (get_pending_ok s Hs) as [Hnd Hl]. by apply process_all_keeps.
Qed.

(** One poll cycle, after which the process may restart and forget how far it
    scanned. *)
Definition cycle (s s' : State) : Prop :=
  exists cfg env (restart : bool), s' = (let t := (run_once cfg env s).2 in if restart then t <| last_scanned := None |> else t).

Lemma cycles_keep s s' :
  rtc cycle s s' -> wf s -> wf s' /\ extends (fun a => exists cfg env, eligible cfg env a) s s'.
Proof.
  induction 1 as [s|s t u (cfg & env & restart & ->) _ IH]; intros Hs; [split; [done|apply extends_refl]|].
  destruct (run_once_keeps cfg env s Hs) as [Hw [Hm (l & El & Fl)]]. set (t := (run_once cfg env s).2) in *.
  assert (Ht : wf (if restart then t <| last_scanned := None |> else t)) by (destruct restart, Hw; by split).
  destruct (IH Ht) as [Hu He]. split; [done|]. eapply extends_trans; [|exact He].
  split; [by destruct restart|]. exists l. split; [by destruct restart|].
  eapply Forall_impl; [exact Fl|]. intros a Ha. by exists cfg, env.
Qed.

(** Over any number of poll cycles and restarts, whatever the Bitcoin node,
    the EVM node and exceptions do: a payout is never in both tables, every
    acknowledged submission is in the submitted table and happened once, and
    each was made at the configured depth against the current checkpoint, at
    most the configured number of headers below the payout. *)
Theorem spv_relayer_reachable s s' :
  wf s -> rtc cycle s s' ->
  (forall k, is_Some (pending s' !! k) -> submitted s' !! k = None) /\
  NoDup (accepted s').*1 /\ (forall k, k ∈ (accepted s').*1 -> is_Some (submitted s' !! k)) /\
  (forall k, is_Some (submitted s !! k) -> is_Some (submitted s' !! k)) /\
  exists l, accepted s' = accepted s ++ l /\ Forall (fun a => exists cfg env, eligible cfg env a) l.
Proof.
  intros Hs Hr. destruct (cycles_keep s s' Hr Hs) as [[Hp Ha Hm] [Hsub Hl]]. split_and!; try done.
  intros k [p Hk]. by destruct (Hp k p Hk).
Qed.

(** * Completeness of the scan *)

(** The output pays a watched address. *)
Definition pays (addrs : list WatchedAddress) (v : VoutData) : Prop :=
  exists script h ty w, script_hex v <> ""%string /\ Bitcoin.fromhex (script_hex v) = Ok script /\
    Bitcoin.extract_pubkey_hash script = (Some h, ty) /\ dict_get h (by_hash addrs) = Some w.

Definition known (s : State) (k : Key) : Prop := is_Some (pending s !! k) \/ is_Some (submitted s !! k).

Definition more_known {A} (m : M A) : Prop := forall s k, known s k -> known (m s).2 k.

Lemma more_known_bind {A B} (m : M A) (f : A -> M B) : more_known m -> (forall a, more_known (f a)) -> more_known (bind m f).
Proof.
  intros Hm Hf s k Hk. unfold bind. apply Hm in Hk. destruct (m s) as [[a|e] s1]; [by apply Hf|done].
Qed.

Lemma more_known_pure {A} (m : M A) : (forall s, (m s).2 = s) -> more_known m.
Proof. intros H s k. by rewrite H. Qed.

Lemma add_pending_known p s : known (add_pending p s).2 (key_of p) /\ forall k, known s k -> known (add_pending p s).2 k.
Proof.
  unfold add_pending, bind, get, put, ret, known. destruct (pending s !! key_of p) as [q|] eqn:Hp; cbn.
  - split; [left; by eexists|done].
  - split; [left; rewrite lookup_insert_eq; by eexists|]. intros k [Hk|Hk]; [|by right]. left.
    destruct (decide (key_of p = k)) as [<-|]; [rewrite lookup_insert_eq; by eexists|by rewrite lookup_insert_ne].
Qed.

Lemma scan_output_known addrs h hash now id v : more_known (scan_output addrs h hash now id v).
Proof.
  unfold scan_output. apply more_known_bind; [by apply more_known_pure|]. intros s.
  destruct (is_submitted _ s); [by apply more_known_pure|]. destruct (String.eqb _ _); [by apply more_known_pure|].
  apply more_known_bind; [by apply more_known_pure|]. intros sc. destruct (Bitcoin.extract_pubkey_hash sc) as [[hh|] ty];
    [|by apply more_known_pure]. destruct (dict_get hh _); [|by apply more_known_pure].
  apply more_known_bind; [by apply more_known_pure|]. intros a. apply more_known_bind; [|intros; by apply more_known_pure].
  intros t k. apply add_pending_known.
Qed.

Lemma scan_output_complete addrs h hash now id v s r s' :
  scan_output addrs h hash now id v s = (Ok r, s') -> pays addrs v -> known s' (id, n v).
Proof.
  intros H (script & hh & ty & w & Hne & Hsc & Hex & Hw). unfold scan_output, bind at 1 in H. cbn [get] in H.
  destruct (is_submitted (id, n v) s) eqn:Hsub.
  { injection H as _ <-. right. by apply bool_decide_eq_true in Hsub. }
  apply String.eqb_neq in Hne. rewrite Hne in H. unfold bind at 1, lift_res in H. rewrite Hsc, Hex, Hw in H.
  unfold bind at 1 in H. destruct (btc_to_sats _) as [a|e]; [|done]. set (p := {| txid := id |}) in H.
  destruct (add_pending_known p s) as [Hk _]. unfold bind in H.
  destruct (add_pending p s) as [[b|e] s1]; [|done]. injection H as _ <-. exact Hk.
Qed.

Lemma collect_known {A} (f : A -> M (list PendingPayout)) l : (forall x, more_known (f x)) -> more_known (collect f l).
Proof.
  intros Hf. induction l as [|x l IH]; [by apply more_known_pure|]. cbn. apply more_known_bind; [apply Hf|]. intros r.
  apply more_known_bind; [exact IH|]. intros rs. by apply more_known_pure.
Qed.

Lemma collect_complete {A} (f : A -> M (list PendingPayout)) (Q : A -> Key -> Prop) l s r s' :
  (forall x, more_known (f x)) ->
  (forall x t r t' k, x ∈ l -> f x t = (Ok r, t') -> Q x k -> known t' k) ->
  collect f l s = (Ok r, s') -> forall x k, x ∈ l -> Q x k -> known s' k.
Proof.
  intros Hmono Hf. revert s r. induction l as [|y l IH]; intros s r H x k Hx HQ; [by apply elem_of_nil in Hx|].
  cbn in H. apply bind_Ok in H as (p & s1 & Hy & H). apply bind_Ok in H as (ps & s2 & Hl & H). injection H as _ <-.
  apply elem_of_cons in Hx as [->|Hx].
  - pose proof (Hf y s p s1 k (list_elem_of_here _ _) Hy HQ) as Hk.
    pose proof (collect_known f l Hmono s1 k Hk) as Hk2. by rewrite Hl in Hk2.
  - eapply (IH (fun x t r t' k Hin => Hf x t r t' k (list_elem_of_further _ _ _ Hin)) s1 ps Hl); done.
Qed.

Lemma scan_block_known cfg env h : more_known (scan_block cfg env h).
Proof.
  apply more_known_bind; [by apply more_known_pure|]. intros hash. apply more_known_bind; [by apply more_known_pure|].
  intros txs. apply collect_known. intros tx. apply collect_known. intros v. apply scan_output_known.
Qed.

Definition same_memory {A} (m : M A) : Prop := forall s, last_scanned (m s).2 = last_scanned s.

Lemma same_memory_bind {A B} (m : M A) (f : A -> M B) : same_memory m -> (forall a, same_memory (f a)) -> same_memory (bind m f).
Proof. intros Hm Hf s. unfold bind. specialize (Hm s). destruct (m s) as [[a|e] s1]; [by rewrite Hf|done]. Qed.

Lemma collect_memory {A} (f : A -> M (list PendingPayout)) l : (forall x, same_memory (f x)) -> same_memory (collect f l).
Proof.
  intros Hf. induction l as [|x l IH]; [done|]. cbn. apply same_memory_bind; [apply Hf|]. intros r.
  by apply same_memory_bind.
Qed.

Lemma scan_output_memory addrs h hash now id v : same_memory (scan_output addrs h hash now id v).
Proof.
  apply same_memory_bind; [done|]. intros s. destruct (is_submitted _ s); [done|]. destruct (String.eqb _ _); [done|].
  apply same_memory_bind; [done|]. intros sc. destruct (Bitcoin.extract_pubkey_hash sc) as [[hh|] ty]; [|done].
  destruct (dict_get hh _); [|done]. apply same_memory_bind; [done|]. intros a. apply same_memory_bind; [|done].
  intros t. unfold add_pending, bind, get. by destruct (pending t !! _).
Qed.

Lemma scan_range_memory cfg env a b : same_memory (scan_range cfg env a b).
Proof.
  apply collect_memory. intros h. apply same_memory_bind; [done|]. intros hash. apply same_memory_bind; [done|].
  intros txs. apply collect_memory. intros tx. apply collect_memory. intros v. apply scan_output_memory.
Qed.

Lemma scan_new_blocks_run cfg env s last count :
  last_scanned s = Some last -> e_block_count env = Ok count -> last < count ->
  scan_new_blocks cfg env s =
  match scan_range cfg env (last + 1) (Z.min (last + scan_batch_size cfg) count) s with
  | (Ok ps, s1) => (Ok ps, s1 <| last_scanned := Some (Z.min (last + scan_batch_size cfg) count) |>)
  | (Raise e, s1) => (Raise e, s1)
  end.
Proof.
  intros Hlast Hcount Hlt. unfold scan_new_blocks. unfold bind at 1, lift_res. rewrite Hcount.
  unfold bind at 1, modify at 1. rewrite Hlast. unfold bind at 1, get. rewrite Hlast.
  change (default 0 (Some last)) with last. cbv zeta. rewrite (proj2 (Z.leb_gt count last)) by done.
  replace (last + 1 + scan_batch_size cfg - 1) with (last + scan_batch_size cfg) by lia. unfold bind at 1.
  by destruct (scan_range _ _ _ _ s) as [[ps|e] s1].
Qed.

(** No payout of a scanned block is missed: when the scan of new blocks
    returns, every output of the scanned heights that pays a watched address
    is pending or was already submitted, and the memory of the last height
    only then advances; when it raises, the same heights are scanned again. *)
Theorem scan_complete cfg env s last count :
  last_scanned s = Some last -> e_block_count env = Ok count -> last < count ->
  let stop := Z.min (last + scan_batch_size cfg) count in
  match scan_new_blocks cfg env s with
  | (Ok _, s') =>
      last_scanned s' = Some stop /\
      forall height hash txs tx v, last < height <= stop -> Spv.get_block_hash (e_rpc env) height = Ok hash ->
        e_block env hash = Ok txs -> tx ∈ txs -> v ∈ t_vout tx -> pays (watched_addresses cfg) v -> known s' (t_txid tx, n v)
  | (Raise _, s') => last_scanned s' = Some last
  end.
Proof.
  intros Hlast Hcount Hlt stop. rewrite (scan_new_blocks_run cfg env s last count) by done. fold stop.
  assert (Hmem : last_scanned (scan_range cfg env (last + 1) stop s).2 = Some last).
  { rewrite <- Hlast. apply scan_range_memory. }
  destruct (scan_range cfg env (last + 1) stop s) as [[ps|e] s1] eqn:Hscan; [|exact Hmem]. split; [done|]. intros height hash txs tx v Hh Hhash Htxs Htx Hv Hpays.
  change (known s1 (t_txid tx, n v)). unfold scan_range in Hscan.
  refine (collect_complete (scan_block cfg env) (fun h k => exists hash txs tx v,
    Spv.get_block_hash (e_rpc env) h = Ok hash /\ e_block env hash = Ok txs /\ tx ∈ txs /\ v ∈ t_vout tx /\
    pays (watched_addresses cfg) v /\ k = (t_txid tx, n v)) _ _ _ _ _ _ Hscan height _ _ _).
  - intros h. apply scan_block_known.
  - clear. intros h t r t' k _ Hrun (hash & txs & tx & v & Hhash & Htxs & Htx & Hv & Hpays & ->).
    unfold scan_block, bind at 1, lift_res in Hrun. rewrite Hhash in Hrun. unfold bind at 1 in Hrun. rewrite Htxs in Hrun.
    unfold scan_txs in Hrun.
    refine (collect_complete _ (fun tx k => exists v, v ∈ t_vout tx /\ pays (watched_addresses cfg) v /\ k = (t_txid tx, n v))
      txs t r t' _ _ Hrun tx _ Htx _); [intros x; apply collect_known; intros; apply scan_output_known| |by exists v].
    clear. intros tx t r t' k _ Hrun (v & Hv & Hpays & ->).
    refine (collect_complete _ (fun v k => pays (watched_addresses cfg) v /\ k = (t_txid tx, n v))
      (t_vout tx) t r t' _ _ Hrun v _ Hv _); [intros; apply scan_output_known| |done].
    intros x u q u' k _ Hx [Hp ->]. by eapply scan_output_complete.
  - unfold Spv.zrange. apply list_elem_of_fmap. exists (Z.to_nat (height - (last + 1))). rewrite elem_of_seq. lia.
  - by exists hash, txs, tx, v.
Qed.

(** * Witnesses *)

Lemma btc_to_sats_exact_witness : btc_to_sats {| coef := 123456789; exp := - 8 |} = Ok 123456789.
Proof. apply (btc_to_sats_exact 123456789 8 123456789); [split; [done|reflexivity]|done|reflexivity]. Defined.

Definition w_address : WatchedAddress :=
  {| btc_address := "bc1qw508d6qejxtdg4y5r3zarvary0c5xw7kv8f3t4"; borrower := "0xb"; enabled := true |}.

Definition w_out : VoutData :=
  {| n := 1; script_hex := "0014751e76e8199196d454941c45d1b3a323f1433bd6"; v_value := {| coef := 5; exp := - 1 |} |}.

Definition w_tx : TxData := {| t_txid := "aa"; t_vout := [w_out] |}.

Definition w_env : Env := {|
  e_block_count := Ok 101;
  e_rpc := {| Spv.get_block_hash := fun _ => Ok "00"%string;
              Spv.get_block_header_hex := fun _ => Raise (Exn ValueError "no header");
              Spv.get_block_txids := fun _ => Raise (Exn ValueError "no block");
              Spv.get_raw_transaction := fun _ => Raise (Exn ValueError "no transaction") |};
  e_block := fun _ => Ok [w_tx];
  e_checkpoint := Ok 95;
  e_encode := fun _ => Ok [];
  e_submit := fun _ => Ok "0x1"%string;
  e_now := 0;
|}.

Definition w_cfg : Config :=
  {| watched_addresses := [w_address]; required_confirmations := 1; max_header_chain := 144; scan_batch_size := 10 |}.

Definition w_state : State := {| pending := ∅; submitted := ∅; last_scanned := Some 100; accepted := [] |}.

Example w_scan :
  option_map amount_sats (pending (run_once w_cfg w_env w_state).2 !! ("aa"%string, 1)) = Some 50000000 /\
  (run_once w_cfg w_env w_state).1 = Ok 0.
Proof. split; vm_compute; reflexivity. Qed.

Lemma w_wf : wf w_state.
Proof. split; [by intros k p|constructor|by intros k Hk%elem_of_nil]. Qed.

Lemma scan_complete_witness : known (scan_new_blocks w_cfg w_env w_state).2 ("aa"%string, 1).
Proof.
  pose proof (scan_complete w_cfg w_env w_state 100 101 eq_refl eq_refl eq_refl) as H. cbv zeta in H.
  destruct (scan_new_blocks w_cfg w_env w_state) as [[ps|e] s1] eqn:Hrun;
    [|apply (f_equal fst) in Hrun; vm_compute in Hrun; discriminate].
  destruct H as [_ H]. apply (H 101 "00"%string [w_tx] w_tx w_out); [by split|done|done|by left|by left|].
  exists (default [] (match Bitcoin.fromhex (script_hex w_out) with Ok b => Some b | Raise _ => None end)).
  eexists _, _, w_address. split; [done|]. split; [vm_compute; reflexivity|]. split; vm_compute; reflexivity.
Defined.

Lemma spv_relayer_reachable_witness :
  let s' := (run_once w_cfg w_env w_state).2 in
  is_Some (pending s' !! ("aa"%string, 1)) /\ submitted s' !! ("aa"%string, 1) = None.
Proof.
  cbv zeta. assert (Hp : is_Some (pending (run_once w_cfg w_env w_state).2 !! ("aa"%string, 1))).
  { pose proof w_scan as [H _]. destruct (pending (run_once w_cfg w_env w_state).2 !! ("aa"%string, 1)); [by eexists|done]. }
  split; [exact Hp|]. refine (proj1 (spv_relayer_reachable w_state _ w_wf _) _ Hp).
  apply rtc_once. by exists w_cfg, w_env, false.
Defined.
End SpvRelayer.
